(* ===== verification/_CoqProject ===== *)
-Q . S2P
Prelude.v
Reader.v
Hex.v
Types.v
Store.v
Vlq.v
Codec.v
InternalState.v
AddrBalance.v
TxAddresses.v
BaseParser.v
BitcoinParser.v
EthParser.v
RocksDB.v
RocksDBFacts.v
BitcoinIndex.v
Ledger.v
IndexInvariant.v
EthIndex.v
Connect.v
ConnectFacts.v
Undo.v
UndoBlock.v
DisconnectFacts.v
EthFacts.v
Mempool.v
BulkConnect.v
BulkFacts.v
Sync.v
Parallel.v
GoSort.v
ApiTypes.v
ApiV1.v
Worker.v
Hoare.v
DbStateFacts.v
WorkerFacts.v
Xpub.v
XpubFacts.v
Websocket.v
Skyr.v
Rpc.v
ForkRpc.v
EthRpc.v
Forks.v
Nuls.v
Coins.v
Chain.v
WhatTheFee.v
PortRegistry.v
Socketio.v
Pages.v
SystemInfo.v
Public.v
Main.v
