(* ===== verification/Prelude.v ===== *)
(** * Blockbook: the index of an address explorer

    Blockbook follows a full node (the "daemon"), keeps an index of its chain in RocksDB
    and serves addresses, transactions and balances from the index.  This development
    models the Go code under [src/] from the daemon to the answer: the clients that ask the
    daemon, the synchronization, the packed formats, the indexing and the undoing of
    blocks, the bulk import, the mempool, the parsers, the API over the index and the
    servers that answer requests with it.

    ** The program and its model

    - The clients of the daemon ([bchain/coins/btc/bitcoinrpc.go], [codec.go],
      [bchain/coins/skyr/skyrrpc.go]) send JSON-RPC requests and parse the answers.  File [Rpc].
      The clients of the other coins that descend from Bitcoin embed the Bitcoin client and
      replace some of its methods.  File [ForkRpc], where the type [Coin] has a value per coin.
      The client of Nuls ([bchain/coins/nuls/nulsrpc.go]) asks a daemon with another
      interface.  File [Nuls], with its parser.
      The client of an Ethereum daemon ([bchain/coins/eth/ethrpc.go]) also keeps the best
      header, subscribes to new blocks and transactions and calls contracts.  File [EthRpc].
    - The coins ([bchain/coins/blockchain.go] and the packages under [bchain/coins]): file [Coins] has
      the parameters of their networks ([GetChainParams], a Module per package), the
      initialization of the clients, the parser of each coin ([coin_parser]) with that of
      PIVX, and [NewBlockChain], which sets up the coin of a configuration.  File [Chain] has
      the whole interface a client implements, with the defaults of [bchain/basechain.go] and
      the wrappers with metrics; file [WhatTheFee] the fees of an external service.
    - The synchronization ([db/sync.go]: [SyncWorker]) compares the best block of the index
      with that of the daemon, disconnects the blocks of a fork and connects the missing
      blocks, one by one ([connectBlocks]) or in bulk ([ConnectBlocksParallel]).  File [Sync];
      also the transaction cache of [db/txcache.go].  The goroutines of
      [ConnectBlocksParallel] are a transition system of their own in file [Parallel].
    - Connecting a block ([db/rocksdb.go]: [ConnectBlock]) writes the header, indexes the
      transactions ([processAddressesBitcoinType], file [BitcoinIndex], or
      [processAddressesEthereumType] of [db/rocksdb_ethereumtype.go], file [EthIndex]) into
      maps in memory, puts the maps into a write batch and writes it.  Disconnecting
      ([DisconnectBlockRangeBitcoinType], [DisconnectBlockRangeEthereumType]) undoes it with
      the outpoints kept in the column [blockTxs].  File [Connect].
    - The bulk import ([db/bulkconnect.go]) does the same over many blocks and writes parts of
      the maps from time to time.  File [BulkConnect].
    - The database handle ([db/rocksdb.go]): reads, the search for the transactions of an
      address, stored transactions, the internal state and column statistics.  File
      [RocksDB]; its records and their packed forms are [AddrBalance] (column
      [addressBalance]), [TxAddresses] (columns [txAddresses], [blockTxs], [addresses]) and
      [Codec] (integers, keys and amounts).
    - The internal state ([common/internalstate.go]) is shared by the database and the
      synchronization.  File [InternalState].
    - The mempools ([bchain/basemempool.go], [bchain/mempool_bitcoin_type.go],
      [bchain/mempool_ethereum_type.go]).  File [Mempool].
    - The parsers: [bchain/baseparser.go] (file [BaseParser]),
      [bchain/coins/btc/bitcoinparser.go] (file [BitcoinParser]), which
      [bchain/coins/skyr/skyrparser.go] and [skyrdecoder.go] extend (file [Skyr]),
      [bchain/coins/eth/ethparser.go] and [erc20.go] (file [EthParser]).  The formats of blocks
      and transactions of other coins ([utils/parserutils.go] and the parsers of Dogecoin, Myriad,
      Namecoin, Viacoin, Ravencoin, Bitcoin Gold, MonetaryUnit, Qtum, VIPSTARCOIN, Zcoin, Liquid and
      Bitcoin Cash) are in file [Forks], over the reader of file [Reader].  The data they share,
      [bchain/types.go], and the interface [BlockChainParser] are in file [Types]; hex in [Hex].
    - The API worker ([api/worker.go]) answers queries from index, mempool and daemon: files
      [ApiTypes] (the data, [api/types.go]), [ApiV1] (its first version, [api/typesv1.go]),
      [Worker], and [SystemInfo] for the reports about explorer and backend.
    - Extended public keys ([api/xpub.go]): the addresses of a key are found by a scan, and
      their balances and histories joined.  File [Xpub]; the order [sort.Stable] leaves is
      in file [GoSort].
    - The servers: websocket ([server/websocket.go], file [Websocket]), socket.io
      ([server/socketio.go], file [Socketio]) and HTTP ([server/public.go], files [Pages] for
      parameters, links and formats, and [Public] for handlers, wrappers and routes).
    - The main program ([blockbook.go]): start, rollback, initial synchronization, the loops
      that synchronize when the daemon ([bchain/mq.go]) or a timer says so, shutdown.  File
      [Main].
    - The registry of ports ([contrib/scripts/check-and-generate-port-registry.go]), a program of its
      own that checks the configurations of the coins and writes a table.  File [PortRegistry].

    The files [RocksDBFacts], [ConnectFacts], [BulkFacts], [IndexInvariant], [Ledger],
    [Undo], [UndoBlock], [DisconnectFacts], [EthFacts], [WorkerFacts], [DbStateFacts] and [XpubFacts]
    hold theorems about the files above.  File [Hoare] is a logic of invariants for methods: [holds
    I m Q] says that [m] keeps [I] of its receiver, however it ends, and returns what has [Q];
    [ends] says what holds where it returns or fails and what where it panics.

    The parts meet in type classes.  [Connect] and [Worker] are written against the parser
    interface [BlockChainParser], which [coin_parser], [nuls_parser] and [ethereum_parser] implement; [Sync] against
    the interface [BlockChain] of the daemon, which [coin_chain] of file [ForkRpc], [nuls_chain] and
    [eth_chain] of file [EthRpc] implement;
    [Websocket] and [Public] call [Worker] and [Xpub], which call [RocksDB] and [Mempool].

    Definitions keep the names of the Go functions; a name that Go overloads by its receiver
    carries a prefix ([btc_PackTx], [eth_PackTx], [bulk_Close], [mempool_...]).  A part of a
    long function that is a definition of its own ([creditOutput], [debitInput], ...) is called
    by the definition of the whole function.

    ** Conventions

    - A fallible function returns [go A]: [Ret], [Fail] (an error value) or [Panic] (a
      run-time panic such as a slice out of range, and also a call that does not return).
      A method that changes state is in [sgo S A]: the new state comes back also when the
      call fails, as in Go.  Slices go through [go_slice], [go_from] and [go_index], which panic out
      of range.
    - Integers of a fixed width are [Z] with the wrap-around written out ([u32], [u64], [i32],
      [i64]); [big.Int] is [Z].
    - Maps are [gmap]; where Go ranges over a map the model takes the order of [map_to_list]
      and the theorems do not depend on it.  Objects that are shared between a slice and a
      map ([TxAddresses] during indexing) live in a heap and are passed as locations.
    - The time is an argument [now]; an operating-system signal is an argument [interrupt].
    - Code outside the repository is a class of operations with a class of laws that states
      its documented behaviour, and an instance on which concrete runs are evaluated: the
      store ([Store], [StoreLaws], [mem_store]), variable-length integers ([Vlq]), protocol
      buffers ([ProtoTx], [ProtoEthTx]), JSON of the state ([StateJson]) and of requests
      ([WsJson], [SioJson]), scripts and addresses ([ScriptLib], [BtcLib], [SkyrLib]),
      go-ethereum's hex and hashes ([EthLib], [EthCommon]), the daemon ([BlockChain], [Daemon],
      [EthClient] with its JSON [EthJson], [NulsDaemon], [ApiChain], [InfoChain]), the wire format of
      Bitcoin ([WireLib]), cash addresses ([BchLib]), the texts of Nuls ([NulsLib]), the registry of networks
      ([ChainCfg]), the files of configurations ([ConfigIO], [CoinFiles]), and what the main program
      starts ([MainWorld]).
      Theorems about what is stored suppose [reliable], a store whose writes succeed; the
      theorems on atomicity do not.

    ** What is shown

    - Formats: amounts, keys, balances, transactions, undo data, contracts, headers and
      the internal state read back as they were packed ([Codec], [AddrBalance],
      [TxAddresses], [EthIndex], [RocksDBFacts]); address keys sort from the newest block
      to the oldest.
    - The ledger ([Ledger], [IndexInvariant], [ConnectFacts]): [consistent] says that for every
      address the utxos are exactly the unspent outputs of the known transactions, each
      once, the balance is their sum and the lazily built utxo index is right.
      [processAddressesBitcoinType] returns on every valid block and keeps it;
      [ConnectBlock] writes it; so every database that was reached from an empty one by
      connecting blocks answers balances correctly.  The abstract side is [spend_all] over
      [block_outs]: what a block does to a map of outputs.
    - The bulk import ([BulkFacts]): partial stores change nothing that is seen through maps
      and database together, and after [Close] the database alone shows all of it, has the rows of
      the addresses and heights of all blocks, and is marked as open ([bulk_Close_consistent]).
    - Disconnecting ([Undo], [UndoBlock], [DisconnectFacts]): the disconnect of the block
      connected last is a list of events, the steps of the block backwards; where each can be
      undone in its turn ([undoable_block]) everything reads as before the block
      ([disconnect_restores]); each condition of [undoable_block] leaves out a case in which the code
      does not restore the index.
    - Queries ([RocksDBFacts]): [GetAddrDescTransactions] is exact, complete and ordered;
      the column statistics count every row once although the iterator is reopened.
    - Failure: [ConnectBlock] and the disconnects leave the index unchanged if they fail;
      undo data is removed only for blocks that are deep enough.
    - Ethereum ([EthFacts]): disconnecting the block connected last, from its packed undo data,
      restores the counters and contracts of every address and the columns
      ([eth_disconnect_restores]), but for payments to the zero address ([zero_address_stays]).
    - Mempool: after [Resync] the entries are the transactions of the daemon that can be fetched and
      have a known address, and the address index lists exactly their outpoints, whatever order
      the workers finish in.
    - Synchronization: a fork is cut at the last common block; the sequential loop connects
      all blocks of the daemon in order, and with the client of any coin as the daemon's interface
      those are the blocks the daemon answers with ([coins_sync], [nuls_sync]; [served] says what
      a daemon answers with); the same with the Ethereum client ([eth_sync]), whose mempool and
      header stay in step in every state it can reach ([client_invariant]).
    - From the daemon to the balances ([coins_indexed]): for every coin that descends from Bitcoin the
      blocks the daemon serves are indexed, and every address answers with its unspent outputs and
      their sum.
    - The coins ([Coins], [Chain]): the package of a coin always finds parameters for the chain of its
      daemon ([GetChainParams_total]), the client works on the network the daemon is on
      ([Initialize_network], [NewBlockChain_network]); whoever talks to a chain through the wrappers
      with metrics gets the same answers ([metrics_transparent]).
    - The pipeline ([Parallel]): in every interleaving the blocks are connected in order and
      each once; from every reachable state without a lost block a run to the end exists, and
      every run is bounded in length; the result is that of the sequential loop.
    - Parsers: a block in the format of its coin is parsed into its transactions, whatever stands
      behind it ([ParseBlock_formats]), and no block makes a parser panic that allocates no announced
      length ([ParseBlock_total]); amounts and transactions survive printing and packing, addresses and
      descriptors correspond, the OP_RETURN parser is total; a cold staking output of Skyr
      belongs to its owner, exchange addresses survive decoding.
    - The API ([WorkerFacts], [XpubFacts]): in a consistent database the answer for an address
      agrees with the ledger, its confirmed utxos sum up to its balance, and by default the mempool
      adds its unspent outputs and hides what it spends ([api_address_consistent]); an extended
      key answers in the same way with the sum, the history and the utxos of its addresses
      ([xpub_consistent]); a history loaded step by step is
      the one loaded at once; pages partition what they page through; both versions of the
      API say the same.
    - The servers: a notification reaches exactly the subscribers that are connected and is sent
      once, also between the steps of other goroutines ([OnNewBlock_delivers]); every request is
      answered once with what its handler returned ([onRequest_answers], [Socketio]); the wrappers of the HTTP server answer
      every outcome of a handler with a defined status; a GET of a path of the API at a
      consistent database is answered with the utxos of the ledger ([serve_utxo]), from the
      route down to the store.
    - The main program ([DbStateFacts], [Main]): the state of the database on disk says during a
      bulk import that it is unfinished, after an import that returned that it is open, and after
      every run whether the index can be used ([main_state]); a rollback restores the index
      ([rollback_restores]); the loops act promptly and not too often ([debounce_bounds]).
    - The registry of ports: the check succeeds exactly if no port is used twice and none is missing
      ([checkPorts_exact]); the table is sorted, and aligned whatever the names are ([table_aligned]).
    - Some theorems state behaviour that differs from what the code means to do:
      [markUtxoAsSpent_interleaved], [GetAddrDescTransactions_prefix], [Disconnect_from_zero],
      [ShieldOuts_counts_inputs], [Disconnect_keeps_phantom_utxo],
      [parseErc20StringProperty_panics], [lost_block_blocks], [closeChannel_OnNewBlock_deadlock],
      [late_subscription], [shut_panics_OnNewBlock], [zero_address_stays],
      [empty_descriptor_stays_spent], [GetBlocks_missing_header], [GetMempool_overflow],
      [GetSpendingTxid_twins], [xpubGetAddressTxids_twice], [utxos_reversed], [false_owner],
      [GetTransaction_panics], [GetPeersInfo_panics], [unknown_block],
      [coldstake_not_announced], [html_response] (redirections), [pageSize_zero],
      [block_index_wraps], [formatSupply_one_decimal], [sorted_block_phantom],
      [computeConfirmations_exact], [balanceRequest_word], [subscription_shutdown],
      [performRollback_exact] (height 0), [shutdown_panics], [nuls_SendRawTransaction_panics],
      [announced_length_panics], [mue_skips_block], [flo_testnet_unsupported], [Initialize_network] (test
      chains without parameters), [balance_label], [refused_table], [service_order].

    ** Fuel

    Loops that consume a buffer ([unpackUtxos], [unpackIndexes], [unpackBlockTxs],
    [unpackContracts], [unpackEthBlockTxs], [iterTxs]) are given the length of the buffer (or of
    what was packed): each round takes at least one byte, and the round-trip theorems show
    that the result is there.  [computeRounds] gets one round per row and one more;
    [findFork] one per height below the local best block; [nat_words] and [dec_digits] the
    size of the number; [bisect] and [symMerge] the length of what they work on.
    [connectBlocks] and [resyncIndex] follow the daemon, which has no bound:
    [connectBlocks_all] holds for any fuel above the number of blocks.  The scan of an
    extended key ends when it finds a gap, so its bound is an argument, and
    [xpub_consistent] holds for any bound above the number of used addresses; the loop of
    [getXpubData] repeats while blocks are connected and takes the list of the databases it
    sees.  [estimateFees] needs two rounds ([estimates_end]).  Fuel that runs out is [Panic] or
    [None], which the theorems exclude by stating the result.

    ** What is not modelled

    - Of the internal server all but its page, the definitions of the metrics, and the socket of the
      message queue: I/O around the index.  Of the main program the parsing of flags and profiling.
      In the servers the upgrade of connections, the bound of their output buffers, the templates,
      and the page of the largest balances and the dates (floating point).
    - Of the coins the genesis blocks and the names of their networks.  The tools under [build/],
      which fill in templates of packages.
    - In [db/]: opening, reopening and repairing the database, sizes on disk and memory
      statistics, [GetTop] (a report in floating point).
    - The interleaving of the goroutines that store the maps of the bulk import, which write
      different columns.  The daemon does not change its answers during a call.
    - Logging, and the notifications of the mempool.

    ** Open ends

    The disconnect of more than one block in a batch; a run of the bulk import against the
    same run of [ConnectBlock]; the fee of the light history. *)
From stdpp Require Import base list gmap strings sorting.
From Stdlib Require Import ZArith Lia.
From Stdlib Require Strings.Byte.

Open Scope Z_scope.

(** * Bytes *)

Abbreviation byte := Byte.byte.
Abbreviation bytes := (list Byte.byte).

Definition b2z (b : byte) : Z := Z.of_N (Byte.to_N b).

(** Go's conversion [byte(x)]: the low eight bits. *)
Definition z2b (z : Z) : byte :=
  match Byte.of_N (Z.to_N (z mod 256)) with Some b => b | None => Byte.x00 end.

#[global] Instance byte_eq_dec : EqDecision byte := Byte.byte_eq_dec.
#[global] Program Instance byte_countable : Countable byte :=
  inj_countable Byte.to_N Byte.of_N _.
Next Obligation. intros b. apply Byte.of_to_N. Qed.

Lemma b2z_range b : 0 <= b2z b < 256.
Proof.
  unfold b2z. pose proof (Byte.to_N_bounded b). lia.
Qed.

Lemma b2z_z2b z : b2z (z2b z) = z mod 256.
Proof.
  unfold z2b. pose proof (Z.mod_pos_bound z 256 ltac:(lia)) as Hb.
  destruct (Byte.of_N (Z.to_N (z mod 256))) as [b|] eqn:E.
  - apply Byte.to_of_N in E. unfold b2z. rewrite E. lia.
  - apply Byte.of_N_None_iff in E. lia.
Qed.

Lemma z2b_b2z b : z2b (b2z b) = b.
Proof.
  unfold z2b. rewrite Z.mod_small by apply b2z_range.
  unfold b2z. rewrite N2Z.id, Byte.of_to_N. done.
Qed.

Lemma b2z_inj b1 b2 : b2z b1 = b2z b2 -> b1 = b2.
Proof. intros H. rewrite <- (z2b_b2z b1), H. apply z2b_b2z. Qed.

(** * Fixed-width integers

    Every Go integer is a [Z]; a conversion or an operation that can leave the
    range of its type wraps explicitly. *)

Definition u32 (z : Z) : Z := z mod 2 ^ 32.
Definition u64 (z : Z) : Z := z mod 2 ^ 64.
Definition i32 (z : Z) : Z := (z + 2 ^ 31) mod 2 ^ 32 - 2 ^ 31.
Definition i64 (z : Z) : Z := (z + 2 ^ 63) mod 2 ^ 64 - 2 ^ 63.

Definition in_u32 (z : Z) : Prop := 0 <= z < 2 ^ 32.
Definition in_u64 (z : Z) : Prop := 0 <= z < 2 ^ 64.
Definition in_i32 (z : Z) : Prop := - 2 ^ 31 <= z < 2 ^ 31.
Definition in_i64 (z : Z) : Prop := - 2 ^ 63 <= z < 2 ^ 63.

(** Go's bitwise complement [^x] of a [uint32]. *)
Definition not_u32 (z : Z) : Z := u32 (Z.lnot z).

Create HintDb width.

#[global] Instance in_u32_dec z : Decision (in_u32 z).
Proof. unfold in_u32. apply _. Defined.
#[global] Instance in_i32_dec z : Decision (in_i32 z).
Proof. unfold in_i32. apply _. Defined.

Lemma u32_id z : in_u32 z -> u32 z = z.
Proof. intros H. apply Z.mod_small, H. Qed.
Lemma u64_id z : in_u64 z -> u64 z = z.
Proof. intros H. apply Z.mod_small, H. Qed.
Lemma i32_id z : in_i32 z -> i32 z = z.
Proof. unfold i32, in_i32. intros H. rewrite Z.mod_small; lia. Qed.
Lemma i64_id z : in_i64 z -> i64 z = z.
Proof. unfold i64, in_i64. intros H. rewrite Z.mod_small; lia. Qed.
Lemma u32_range z : in_u32 (u32 z).
Proof. apply Z.mod_pos_bound. lia. Qed.
Lemma u64_range z : in_u64 (u64 z).
Proof. apply Z.mod_pos_bound. lia. Qed.
Lemma i32_range z : in_i32 (i32 z).
Proof. unfold i32, in_i32. pose proof (Z.mod_pos_bound (z + 2 ^ 31) (2 ^ 32)). lia. Qed.

Lemma not_u32_eq z : in_u32 z -> not_u32 z = 2 ^ 32 - 1 - z.
Proof.
  unfold not_u32, u32, in_u32, Z.lnot. intros H.
  symmetry. apply Zmod_unique with (-1); lia.
Qed.

Lemma not_u32_invol z : in_u32 z -> not_u32 (not_u32 z) = z.
Proof.
  intros H. rewrite (not_u32_eq z) by done. unfold in_u32 in H.
  rewrite not_u32_eq; unfold in_u32; lia.
Qed.

Lemma not_u32_range z : in_u32 (not_u32 z).
Proof. apply u32_range. Qed.

#[export] Hint Resolve u32_range u64_range i32_range not_u32_range : width.
#[export] Hint Rewrite u32_id u64_id i32_id i64_id not_u32_invol using (eauto with width) : width.

(** * Outcomes of Go calls

    [Fail e] is a call that returned a non-nil error; [Panic] is a run-time panic
    (index or slice bounds out of range, nil dereference). *)

Inductive error :=
  | ErrBlockNotFound
  | ErrAddressMissing
  | ErrTxidMissing
  | ErrTxNotFound
  | ErrOperationInterrupted
  | errSynced
  | ErrHex
  | ErrStore (msg : string)
  | ErrMsg (msg : string)
  | ErrAnnotated (e : error) (msg : string)
  | ErrAPI (text : string) (public : bool).

#[global] Instance error_eq_dec : EqDecision error.
Proof. solve_decision. Defined.

Inductive go (A : Type) : Type :=
  | Ret (a : A)
  | Fail (e : error)
  | Panic.
Arguments Ret {A} a.
Arguments Fail {A} e.
Arguments Panic {A}.

Definition go_bind {A B} (m : go A) (k : A -> go B) : go B :=
  match m with Ret a => k a | Fail e => Fail e | Panic => Panic end.

Declare Scope go_scope.
Delimit Scope go_scope with go.
Notation "'let*' x := m 'in' k" := (go_bind m (fun x => k))
  (at level 200, x name, m at level 100, k at level 200) : go_scope.
Notation "'let*' ' p := m 'in' k" := (go_bind m (fun p => k))
  (at level 200, p strict pattern, m at level 100, k at level 200) : go_scope.
Open Scope go_scope.

(** The pairs of two lists that run in step. *)
Lemma elem_of_combine {A B} (l1 : list A) (l2 : list B) x y :
  (x, y) ∈ combine l1 l2 <-> exists i, l1 !! i = Some x /\ l2 !! i = Some y.
Proof.
  change (combine l1 l2) with (zip l1 l2). rewrite list_elem_of_lookup. split.
  - intros [i Hi]. apply lookup_zip_with_Some in Hi as (x' & y' & [= <- <-] & H1 & H2). by exists i.
  - intros (i & H1 & H2). exists i. apply lookup_zip_with_Some. by exists x, y.
Qed.

(** [for _, x := range l { s = f(s, x) }], left early by an error or a panic. *)
Fixpoint go_fold {A S} (f : S -> A -> go S) (s : S) (l : list A) : go S :=
  match l with
  | [] => Ret s
  | x :: l' => let* s' := f s x in go_fold f s' l'
  end.

Definition must {A} (o : option A) : go A :=
  match o with Some a => Ret a | None => Panic end.

Lemma go_bind_ret {A B} (m : go A) (k : A -> go B) b :
  go_bind m k = Ret b -> exists a, m = Ret a /\ k a = Ret b.
Proof. destruct m; simpl; intros H; try discriminate; eauto. Qed.

Lemma go_fold_app {A S} (f : S -> A -> go S) s l1 l2 :
  go_fold f s (l1 ++ l2) = (let* s' := go_fold f s l1 in go_fold f s' l2).
Proof.
  revert s. induction l1 as [|x l1 IH]; intros s; simpl; [done|].
  destruct (f s x); simpl; auto.
Qed.

(** A loop invariant: what every iteration that goes on preserves holds at the end. *)
Lemma go_fold_inv {A S} (P : S -> Prop) (f : S -> A -> go S) l s s' :
  (forall s x s1, x ∈ l -> P s -> f s x = Ret s1 -> P s1) ->
  P s -> go_fold f s l = Ret s' -> P s'.
Proof.
  revert s. induction l as [|x l IH]; intros s Hf Hs; simpl.
  - intros [= <-]. done.
  - intros (s1 & H1 & H2)%go_bind_ret.
    apply (IH s1); [|eapply Hf; [left|done..]|done].
    intros s2 y s3 Hy. apply Hf. by right.
Qed.

(** A loop whose body always goes on and keeps the invariant returns. *)
Lemma go_fold_total {A S} (P : S -> Prop) (f : S -> A -> go S) l s :
  (forall s x, x ∈ l -> P s -> exists s1, f s x = Ret s1 /\ P s1) ->
  P s -> exists s', go_fold f s l = Ret s' /\ P s'.
Proof.
  revert s. induction l as [|x l IH]; intros s Hf Hs; simpl; [eauto|].
  destruct (Hf s x) as (s1 & -> & H1); [left|done|]. simpl.
  apply IH; [|done]. intros s2 y Hy. apply Hf. by right.
Qed.

(** One step of a sequence of calls. *)
Ltac gostep := cbn [go_bind].

(** Destructs the calls of a sequence of binds that is known to return. *)
Ltac go_inv H :=
  repeat (let x := fresh "r" in let E := fresh "E" in
          apply go_bind_ret in H as (x & E & H)).

(** * Slices *)

Definition zlen {A} (l : list A) : Z := Z.of_nat (length l).

(** [l[lo:hi]]; the slices the code cuts end at their capacity, so an end beyond
    the length panics. *)
Definition go_slice {A} (l : list A) (lo hi : Z) : go (list A) :=
  if (0 <=? lo) && (lo <=? hi) && (hi <=? zlen l)
  then Ret (take (Z.to_nat (hi - lo)) (drop (Z.to_nat lo) l)) else Panic.

(** [l[lo:]] *)
Definition go_from {A} (l : list A) (lo : Z) : go (list A) := go_slice l lo (zlen l).

(** [l[i]] *)
Definition go_index {A} (l : list A) (i : Z) : go A :=
  if 0 <=? i then must (l !! Z.to_nat i) else Panic.

Lemma zlen_nonneg {A} (l : list A) : 0 <= zlen l.
Proof. unfold zlen. lia. Qed.
Lemma zlen_app {A} (l1 l2 : list A) : zlen (l1 ++ l2) = zlen l1 + zlen l2.
Proof. unfold zlen. rewrite length_app. lia. Qed.
Lemma zlen_cons {A} (x : A) l : zlen (x :: l) = 1 + zlen l.
Proof. unfold zlen. simpl. lia. Qed.
Lemma zlen_nil {A} : zlen (@nil A) = 0.
Proof. done. Qed.
Lemma zlen_0_inv {A} (l : list A) : zlen l = 0 -> l = [].
Proof. destruct l; [done|]. rewrite zlen_cons. pose proof (zlen_nonneg l). lia. Qed.

Create HintDb slices.
#[export] Hint Rewrite @zlen_app @zlen_cons @zlen_nil : slices.

(** Normalises lengths of appended slices and closes the arithmetic. *)
Ltac zlen_lia :=
  autorewrite with slices in *;
  repeat match goal with |- context [zlen ?l] => learn_zlen l
                       | H : context [zlen ?l] |- _ => learn_zlen l end;
  lia
with learn_zlen l :=
  lazymatch goal with
  | H : 0 <= zlen l |- _ => fail
  | _ => pose proof (zlen_nonneg l)
  end.

Lemma go_slice_mid {A} (a b c : list A) lo hi :
  lo = zlen a -> hi = zlen a + zlen b -> go_slice (a ++ b ++ c) lo hi = Ret b.
Proof.
  intros -> ->. unfold go_slice.
  destruct (_ && _) eqn:E; [|zlen_lia]. f_equal.
  unfold zlen. replace (Z.to_nat (Z.of_nat (length a))) with (length a) by lia.
  replace (Z.to_nat _) with (length b) by lia.
  rewrite drop_app_length, take_app_length. done.
Qed.

Lemma go_from_app {A} (a b : list A) lo : lo = zlen a -> go_from (a ++ b) lo = Ret b.
Proof.
  intros ->. unfold go_from. rewrite <- (app_nil_r b) at 1.
  apply go_slice_mid; zlen_lia.
Qed.

Lemma go_slice_prefix {A} (b c : list A) hi :
  hi = zlen b -> go_slice (b ++ c) 0 hi = Ret b.
Proof. intros ->. apply (go_slice_mid []); zlen_lia. Qed.

Lemma go_index_app {A} (a : list A) x c i : i = zlen a -> go_index (a ++ x :: c) i = Ret x.
Proof.
  intros ->. unfold go_index. destruct (0 <=? _) eqn:E; [|zlen_lia].
  unfold zlen. rewrite Nat2Z.id, list_lookup_middle; done.
Qed.

Lemma go_index_0 {A} (x : A) l : go_index (x :: l) 0 = Ret x.
Proof. done. Qed.

Lemma go_slice_Ret {A} (l : list A) lo hi r :
  go_slice l lo hi = Ret r ->
  0 <= lo <= hi /\ hi <= zlen l /\ zlen r = hi - lo.
Proof.
  unfold go_slice. destruct (_ && _) eqn:E; [|done]. intros [= <-].
  repeat rewrite andb_true_iff in E. unfold zlen in *.
  rewrite length_take, length_drop. lia.
Qed.

Lemma go_slice_ok {A} (l : list A) lo hi :
  0 <= lo <= hi -> hi <= zlen l -> exists r, go_slice l lo hi = Ret r /\ zlen r = hi - lo.
Proof.
  intros H1 H2. destruct (go_slice l lo hi) eqn:E.
  - eexists. split; [done|]. apply go_slice_Ret in E. lia.
  - unfold go_slice in E. destruct (_ && _); done.
  - unfold go_slice in E. destruct (_ && _) eqn:E'; [done|]. lia.
Qed.

(** * Filtered lists *)

Lemma filter_all {A} (P : A -> Prop) `{!forall x, Decision (P x)} l : Forall P l -> filter P l = l.
Proof. induction 1 as [|x l Hx Hl IH]; [done|]. by rewrite filter_cons_True, IH. Qed.

Lemma filter_none {A} (P : A -> Prop) `{!forall x, Decision (P x)} l :
  Forall (fun x => ~ P x) l -> filter P l = [].
Proof. induction 1 as [|x l Hx Hl IH]; [done|]. by rewrite filter_cons_False. Qed.

(** * Big-endian numbers *)

(** The loop [for i := n; i > 0; i-- { buf[i-1] = byte(w); w >>= 8 }]. *)
Fixpoint be_bytes (n : nat) (w : Z) : bytes :=
  match n with
  | O => []
  | S n' => be_bytes n' (Z.shiftr w 8) ++ [z2b w]
  end.

Definition be_Z (l : bytes) : Z := foldl (fun acc b => acc * 256 + b2z b) 0 l.

Lemma be_Z_acc l a : foldl (fun acc b => acc * 256 + b2z b) a l = a * 256 ^ zlen l + be_Z l.
Proof.
  unfold be_Z. revert a. induction l as [|b l IH]; intros a; simpl.
  - rewrite zlen_nil. lia.
  - rewrite IH, (IH (0 * 256 + b2z b)), zlen_cons, Z.pow_add_r by zlen_lia. lia.
Qed.

Lemma be_Z_app l1 l2 : be_Z (l1 ++ l2) = be_Z l1 * 256 ^ zlen l2 + be_Z l2.
Proof. unfold be_Z at 1. rewrite foldl_app. apply be_Z_acc. Qed.

Lemma be_Z_cons b l : be_Z (b :: l) = b2z b * 256 ^ zlen l + be_Z l.
Proof. unfold be_Z at 1. simpl. rewrite be_Z_acc. lia. Qed.

Lemma be_Z_range l : 0 <= be_Z l < 256 ^ zlen l.
Proof.
  induction l as [|b l IH]; [done|]. rewrite be_Z_cons, zlen_cons, Z.pow_add_r by zlen_lia.
  pose proof (b2z_range b). nia.
Qed.

Lemma be_bytes_length n w : length (be_bytes n w) = n.
Proof. revert w. induction n as [|n IH]; intros w; simpl; [done|]. rewrite length_app, IH. simpl. lia. Qed.

Lemma be_bytes_zlen n w : zlen (be_bytes n w) = Z.of_nat n.
Proof. unfold zlen. by rewrite be_bytes_length. Qed.

Lemma be_Z_be_bytes n w : be_Z (be_bytes n w) = w mod 256 ^ Z.of_nat n.
Proof.
  revert w. induction n as [|n IH]; intros w; simpl.
  - change (256 ^ Z.of_nat 0) with 1. by rewrite Z.mod_1_r.
  - rewrite be_Z_app, IH, be_Z_cons, b2z_z2b, zlen_cons, zlen_nil.
    rewrite Z.shiftr_div_pow2 by lia. change (2 ^ 8) with 256. change (256 ^ (1 + 0)) with 256.
    change (256 ^ 0) with 1. change (be_Z []) with 0.
    rewrite Nat2Z.inj_succ, Z.pow_succ_r by lia.
    rewrite (Z.rem_mul_r w 256) by lia. lia.
Qed.

Lemma be_bytes_be_Z l : be_bytes (length l) (be_Z l) = l.
Proof.
  induction l as [|b l IH] using rev_ind; [done|].
  rewrite length_app, be_Z_app, be_Z_cons. simpl length. rewrite Nat.add_1_r. simpl.
  change (zlen [b]) with 1. change (zlen (@nil byte)) with 0. change (256 ^ 1) with 256.
  change (256 ^ 0) with 1. change (be_Z []) with 0.
  pose proof (b2z_range b). rewrite Z.shiftr_div_pow2 by lia. change (2 ^ 8) with 256.
  f_equal.
  - etransitivity; [|apply IH]. f_equal. rewrite Z.mul_1_r, Z.add_0_r, Z.div_add_l by lia.
    rewrite (Z.div_small (b2z b)) by lia. lia.
  - f_equal. apply b2z_inj. rewrite b2z_z2b.
    rewrite Z.mul_1_r, Z.add_0_r, Z.add_comm, Z.mod_add by lia. apply Z.mod_small. lia.
Qed.

#[global] Arguments be_bytes : simpl never.

(** * Byte order: [bytes.Compare] *)

Fixpoint bytes_cmp (a b : bytes) : comparison :=
  match a, b with
  | [], [] => Eq
  | [], _ :: _ => Lt
  | _ :: _, [] => Gt
  | x :: a', y :: b' =>
      match b2z x ?= b2z y with Eq => bytes_cmp a' b' | c => c end
  end.

Definition bytes_leb (a b : bytes) : bool :=
  match bytes_cmp a b with Gt => false | _ => true end.

Definition bytes_ltb (a b : bytes) : bool :=
  match bytes_cmp a b with Lt => true | _ => false end.

Lemma bytes_cmp_refl a : bytes_cmp a a = Eq.
Proof. induction a as [|x a IH]; simpl; [done|]. by rewrite Z.compare_refl. Qed.

Lemma bytes_cmp_eq a b : bytes_cmp a b = Eq <-> a = b.
Proof.
  split; [|intros ->; apply bytes_cmp_refl].
  revert b. induction a as [|x a IH]; intros [|y b]; simpl; try done.
  destruct (Z.compare_spec (b2z x) (b2z y)) as [E| |]; try done.
  intros H. f_equal; [by apply b2z_inj|auto].
Qed.

Lemma bytes_cmp_antisym a b : bytes_cmp b a = CompOpp (bytes_cmp a b).
Proof.
  revert b. induction a as [|x a IH]; intros [|y b]; simpl; try done.
  rewrite (Z.compare_antisym (b2z x) (b2z y)). destruct (b2z x ?= b2z y); simpl; auto.
Qed.

Lemma bytes_cmp_lt_trans a b c : bytes_cmp a b = Lt -> bytes_cmp b c = Lt -> bytes_cmp a c = Lt.
Proof.
  revert b c. induction a as [|x a IH]; intros [|y b] [|z c]; simpl; try done.
  destruct (Z.compare_spec (b2z x) (b2z y)) as [E1|E1|E1],
    (Z.compare_spec (b2z y) (b2z z)) as [E2|E2|E2]; try done;
    destruct (Z.compare_spec (b2z x) (b2z z)); try done; try lia.
  apply IH.
Qed.

Lemma bytes_cmp_app_l p a b : bytes_cmp (p ++ a) (p ++ b) = bytes_cmp a b.
Proof. induction p as [|x p IH]; simpl; [done|]. by rewrite Z.compare_refl. Qed.

(** Byte strings of one length compare like the numbers they write. *)
Lemma bytes_cmp_be_Z a b : length a = length b -> bytes_cmp a b = (be_Z a ?= be_Z b).
Proof.
  revert b. induction a as [|x a IH]; intros [|y b]; simpl; try done.
  intros [= Hl]. rewrite !be_Z_cons.
  assert (zlen a = zlen b) as Hz by (unfold zlen; lia). rewrite Hz.
  pose proof (be_Z_range a) as Ha. pose proof (be_Z_range b) as Hb. rewrite Hz in Ha.
  destruct (Z.compare_spec (b2z x) (b2z y)) as [E|E|E].
  - rewrite IH by done. rewrite E. symmetry. apply Zcompare_plus_compat.
  - symmetry. apply Z.compare_lt_iff. nia.
  - symmetry. apply Z.compare_gt_iff. nia.
Qed.

Definition bytes_le (a b : bytes) : Prop := bytes_leb a b = true.
Definition bytes_lt (a b : bytes) : Prop := bytes_cmp a b = Lt.

#[global] Instance bytes_le_dec : RelDecision bytes_le.
Proof. intros a b. unfold bytes_le. apply _. Defined.
#[global] Instance bytes_lt_dec : RelDecision bytes_lt.
Proof. intros a b. unfold bytes_lt. solve_decision. Defined.

Lemma bytes_le_lt a b : bytes_le a b <-> bytes_lt a b \/ a = b.
Proof.
  unfold bytes_le, bytes_leb, bytes_lt. rewrite <- (bytes_cmp_eq a b).
  destruct (bytes_cmp a b); split; intros; try done; auto; by destruct H.
Qed.

#[global] Instance bytes_lt_trans : Transitive bytes_lt.
Proof. intros a b c. apply bytes_cmp_lt_trans. Qed.
#[global] Instance bytes_lt_irrefl : Irreflexive bytes_lt.
Proof. intros a. unfold bytes_lt, complement. by rewrite bytes_cmp_refl. Qed.
#[global] Instance bytes_le_trans : Transitive bytes_le.
Proof.
  intros a b c. rewrite !bytes_le_lt. intros [H1| ->] [H2| ->]; auto. left. by etransitivity.
Qed.
#[global] Instance bytes_le_total : Total bytes_le.
Proof.
  intros a b. unfold bytes_le, bytes_leb. rewrite (bytes_cmp_antisym a b).
  destruct (bytes_cmp a b); simpl; auto.
Qed.

(** * State and errors

    A method that changes its receiver and may fail: the new state is kept whatever
    the outcome is. *)

Definition sgo (S A : Type) : Type := S -> S * go A.

Definition sret {S A} (a : A) : sgo S A := fun s => (s, Ret a).
Definition sfail {S A} (e : error) : sgo S A := fun s => (s, Fail e).
Definition spanic {S A} : sgo S A := fun s => (s, Panic).
Definition sbind {S A B} (m : sgo S A) (k : A -> sgo S B) : sgo S B :=
  fun s => match m s with
           | (s', Ret a) => k a s'
           | (s', Fail e) => (s', Fail e)
           | (s', Panic) => (s', Panic)
           end.
Definition slift {S A} (m : go A) : sgo S A := fun s => (s, m).
Definition sget {S} : sgo S S := fun s => (s, Ret s).
Definition sput {S} (s : S) : sgo S unit := fun _ => (s, Ret tt).

Notation "'let!' x := m 'in' k" := (sbind m (fun x => k))
  (at level 200, x name, m at level 100, k at level 200) : go_scope.
Notation "'let!' ' p := m 'in' k" := (sbind m (fun p => k))
  (at level 200, p strict pattern, m at level 100, k at level 200) : go_scope.
Notation "'do!' m 'in' k" := (sbind m (fun _ => k))
  (at level 200, m at level 100, k at level 200) : go_scope.

Lemma sbind_ret {S A B} (m : sgo S A) (k : A -> sgo S B) s s' b :
  sbind m k s = (s', Ret b) -> exists s1 a, m s = (s1, Ret a) /\ k a s1 = (s', Ret b).
Proof. unfold sbind. destruct (m s) as [s1 [a|e|]]; intros H; simplify_eq; eauto. Qed.

Lemma sbind_eq {S A B} (m : sgo S A) (k : A -> sgo S B) s s' a :
  m s = (s', Ret a) -> sbind m k s = k a s'.
Proof. unfold sbind. by intros ->. Qed.

(** [errors.Annotatef] *)
Definition annotate {A} (msg : string) (m : go A) : go A :=
  match m with Fail e => Fail (ErrAnnotated e msg) | r => r end.

Definition sannotate {S A} (msg : string) (m : sgo S A) : sgo S A := fun s =>
  let '(s', r) := m s in (s', annotate msg r).

(** A call whose error is only logged: the result is used if there is one. *)
Definition logged {A} (zero : A) (m : go A) : go A :=
  match m with Fail _ => Ret zero | r => r end.

Definition slogged {S A} (zero : A) (m : sgo S A) : sgo S A := fun s =>
  let '(s', r) := m s in (s', logged zero r).

(** One step of a sequence of methods. *)
Ltac sgostep := unfold sbind, sret, slift, sget, sput; cbn beta iota.

Lemma elem_of_concat_map {A B} (f : A -> list B) l y : y ∈ concat (map f l) <-> exists x, x ∈ l /\ y ∈ f x.
Proof.
  rewrite list_elem_of_In, in_concat. split.
  - intros (ys & (x & <- & Hx)%in_map_iff & Hy). exists x. by split; apply list_elem_of_In.
  - intros (x & Hx & Hy). exists (f x). rewrite in_map_iff. split; [exists x; split; [done|]|]; by apply list_elem_of_In.
Qed.

(** ** Ranges *)

(** [for i := from; i < to; i++] *)
Definition range (from to : Z) : list Z := map (fun i => from + Z.of_nat i) (seq 0 (Z.to_nat (to - from))).

Lemma range_length from to : length (range from to) = Z.to_nat (to - from).
Proof. unfold range. by rewrite length_map, length_seq. Qed.

Lemma range_nil from to : to <= from -> range from to = [].
Proof. intros H. unfold range. by replace (Z.to_nat (to - from)) with 0%nat by lia. Qed.

Lemma range_snoc from to : from <= to -> range from (to + 1) = range from to ++ [to].
Proof.
  intros H. unfold range. replace (Z.to_nat (to + 1 - from)) with (S (Z.to_nat (to - from))) by lia.
  rewrite seq_S, map_app. simpl. do 2 f_equal. lia.
Qed.

Lemma range_cons from to : from < to -> range from to = from :: range (from + 1) to.
Proof.
  intros H. unfold range. replace (Z.to_nat (to - from)) with (S (Z.to_nat (to - (from + 1)))) by lia.
  cbn [seq map]. rewrite <- seq_shift, map_map. f_equal; [lia|]. apply map_ext. intros i. lia.
Qed.

Lemma elem_of_range from to x : x ∈ range from to <-> from <= x < to.
Proof.
  unfold range. rewrite list_elem_of_fmap. setoid_rewrite elem_of_seq. split; [intros (i & -> & Hi); lia|].
  intros H. exists (Z.to_nat (x - from)). lia.
Qed.

Lemma range_app from mid to : from <= mid <= to -> range from to = range from mid ++ range mid to.
Proof.
  intros H. replace to with (mid + Z.of_nat (Z.to_nat (to - mid))) by lia.
  induction (Z.to_nat (to - mid)) as [|k IH].
  - rewrite Z.add_0_r, (range_nil mid mid), app_nil_r by lia. done.
  - rewrite Nat2Z.inj_succ, <- Z.add_1_r, Z.add_assoc, !range_snoc, IH by lia. by rewrite app_assoc.
Qed.
