(* ===== verification/Reader.v ===== *)
(** A reader over a byte slice ([bytes.Reader]) and what it reads of a serialized value: the
    relation [reads m b a] says that [m] takes exactly the bytes [b] and returns [a],
    wherever they stand. *)
From stdpp Require Import base list strings.
From Stdlib Require Import ZArith Lia.
From S2P Require Import Prelude.

Open Scope Z_scope.
Open Scope go_scope.

(** The position can be behind the end. *)
Record reader := mkReader { r_data : bytes; r_pos : Z }.

Definition NewReader (b : bytes) : reader := mkReader b 0.

(** [Seek]: a negative position is an error. *)
Definition seekTo (pos : Z) : sgo reader unit := fun r =>
  if pos <? 0 then (r, Fail (ErrMsg "bytes.Reader.Seek: negative position")) else (mkReader (r_data r) pos, Ret tt).

Definition SeekStart (offset : Z) : sgo reader unit := seekTo offset.

(** [r.Seek(offset, io.SeekCurrent)] *)
Definition Seek (offset : Z) : sgo reader unit := fun r => seekTo (i64 (r_pos r + offset)) r.

(** [io.ReadFull] of [n] bytes *)
Definition ReadFull (n : Z) : sgo reader bytes := fun r =>
  match go_slice (r_data r) (r_pos r) (r_pos r + n) with
  | Ret b => (mkReader (r_data r) (r_pos r + n), Ret b)
  | _ => (mkReader (r_data r) (Z.max (r_pos r) (zlen (r_data r))), Fail (ErrMsg "EOF"))
  end.

Definition le_Z (b : bytes) : Z := be_Z (reverse b).

(** [for i := 0; i < n; i++ { x, err := m(); ... l = append(l, x) }] *)
Fixpoint srepeat {S A} (n : nat) (m : sgo S A) : sgo S (list A) :=
  match n with
  | O => sret []
  | S n' => let! x := m in let! l := srepeat n' m in sret (x :: l)
  end.

Lemma le_Z_reverse b : le_Z (reverse b) = be_Z b.
Proof. unfold le_Z. by rewrite reverse_involutive. Qed.

Lemma le_Z_be_bytes n : in_u32 n -> le_Z (reverse (be_bytes 4 n)) = n.
Proof. intros Hn. rewrite le_Z_reverse, be_Z_be_bytes. by apply Z.mod_small. Qed.

(** * Reading what was written *)

(** Positions are below [2 ^ 63]. *)
Definition reads {A} (m : sgo reader A) (b : bytes) (a : A) : Prop :=
  forall pre rest, zlen (pre ++ b) < 2 ^ 63 ->
  m (mkReader (pre ++ b ++ rest) (zlen pre)) = (mkReader (pre ++ b ++ rest) (zlen (pre ++ b)), Ret a).

Lemma reads_ret {A} (a : A) : reads (sret a) [] a.
Proof. intros pre rest _. by rewrite app_nil_r. Qed.

Lemma reads_lift {A} (m : go A) a : m = Ret a -> reads (slift m) [] a.
Proof. intros -> pre rest _. by rewrite app_nil_r. Qed.

Lemma reads_bind {A B} (m : sgo reader A) (k : A -> sgo reader B) b1 b2 a c :
  reads m b1 a -> reads (k a) b2 c -> reads (sbind m k) (b1 ++ b2) c.
Proof.
  intros H1 H2 pre rest Hl. unfold sbind. specialize (H1 pre (b2 ++ rest)). specialize (H2 (pre ++ b1) rest).
  rewrite <- !app_assoc in *. rewrite H1; [by rewrite H2|]. rewrite !zlen_app in *. pose proof (zlen_nonneg b2). lia.
Qed.

(** The last step reads nothing. *)
Lemma reads_bind_end {A B} (m : sgo reader A) (k : A -> sgo reader B) b a c :
  reads m b a -> reads (k a) [] c -> reads (sbind m k) b c.
Proof. intros H1 H2. rewrite <- (app_nil_r b). by eapply reads_bind. Qed.

Lemma reads_ReadFull b n : zlen b = n -> reads (ReadFull n) b b.
Proof.
  intros <- pre rest _. unfold ReadFull. cbn [r_data r_pos]. rewrite (go_slice_mid pre b rest) by done. by rewrite zlen_app.
Qed.

Lemma reads_Seek b n : zlen b = n -> reads (Seek n) b tt.
Proof.
  intros <- pre rest Hl. unfold Seek, seekTo. cbn [r_data r_pos]. rewrite !zlen_app in Hl.
  pose proof (zlen_nonneg pre). pose proof (zlen_nonneg b).
  rewrite i64_id by (unfold in_i64; lia). destruct (Z.ltb_spec (zlen pre + zlen b) 0); [lia|]. by rewrite zlen_app.
Qed.

Lemma reads_srepeat {A} (m : sgo reader A) bs xs : Forall2 (reads m) bs xs -> reads (srepeat (length bs) m) (concat bs) xs.
Proof.
  induction 1 as [|b x bs xs Hb _ IH]; [apply reads_ret|]. cbn [srepeat length concat].
  eapply reads_bind; [exact Hb|]. eapply reads_bind_end; [exact IH|]. apply reads_ret.
Qed.

(** A value at the front of the data. *)
Lemma reads_front {A} (m : sgo reader A) b rest a :
  zlen b < 2 ^ 63 -> reads m b a -> (m (NewReader (b ++ rest))).2 = Ret a.
Proof. intros Hl H. exact (f_equal snd (H [] rest Hl)). Qed.

(** * Never a panic *)

Definition quiet {S A} (m : sgo S A) : Prop := forall s, (m s).2 <> Panic.

Lemma quiet_at {S A} (m : sgo S A) s : quiet m -> (m s).2 <> Panic.
Proof. intros H. apply H. Qed.

Create HintDb quiet.

Section quiet.
Context {S : Type}.

Lemma quiet_bind {A B} (m : sgo S A) (k : A -> sgo S B) : quiet m -> (forall a, quiet (k a)) -> quiet (sbind m k).
Proof.
  intros Hm Hk s. unfold sbind. specialize (Hm s). destruct (m s) as [s' [a|e|]]; [apply Hk|done|done].
Qed.

Lemma quiet_ret {A} (a : A) : quiet (S := S) (sret a).
Proof. by intros s. Qed.

Lemma quiet_fail {A} e : quiet (S := S) (A := A) (sfail e).
Proof. by intros s. Qed.

Lemma quiet_lift {A} (m : go A) : m <> Panic -> quiet (S := S) (slift m).
Proof. by intros H s. Qed.

Lemma quiet_srepeat {A} n (m : sgo S A) : quiet m -> quiet (srepeat n m).
Proof.
  intros Hm. induction n as [|n IH]; [apply quiet_ret|]. cbn [srepeat].
  apply quiet_bind; [done|]. intros x. apply quiet_bind; [done|]. intros l. apply quiet_ret.
Qed.
End quiet.

Lemma quiet_seekTo pos : quiet (seekTo pos).
Proof. intros r. unfold seekTo. by destruct (pos <? 0). Qed.

Lemma quiet_Seek n : quiet (Seek n).
Proof. intros r. apply quiet_seekTo. Qed.

Lemma quiet_ReadFull n : quiet (ReadFull n).
Proof. intros r. unfold ReadFull. by destruct (go_slice _ _ _). Qed.

#[export] Hint Resolve quiet_ret quiet_fail quiet_Seek quiet_seekTo quiet_ReadFull quiet_srepeat : quiet.

(** Step by step through a sequence of calls. *)
Ltac quiet_solve :=
  repeat first
    [ solve [eauto with quiet]
    | apply quiet_bind; [|intros ?]
    | match goal with |- quiet (if ?b then _ else _) => destruct b end ].
