(* ===== verification/Hex.v ===== *)
(** Go's [encoding/hex]: the textual form of transaction ids, block hashes and
    scripts. *)
From stdpp Require Import base list strings.
From Stdlib Require Import ZArith Lia Ascii.
From S2P Require Import Prelude.

Open Scope Z_scope.
Open Scope go_scope.

Definition hex_digit (z : Z) : ascii :=
  match z with
  | 0 => "0" | 1 => "1" | 2 => "2" | 3 => "3" | 4 => "4" | 5 => "5" | 6 => "6" | 7 => "7"
  | 8 => "8" | 9 => "9" | 10 => "a" | 11 => "b" | 12 => "c" | 13 => "d" | 14 => "e"
  | _ => "f"
  end%char.

(** The ranges of [fromHexChar]: digits, lower and upper case letters. *)
Definition from_hex_char (c : ascii) : option Z :=
  let n := Z.of_nat (nat_of_ascii c) in
  if (48 <=? n) && (n <=? 57) then Some (n - 48)
  else if (97 <=? n) && (n <=? 102) then Some (n - 97 + 10)
  else if (65 <=? n) && (n <=? 70) then Some (n - 65 + 10)
  else None.

(** [hex.EncodeToString] *)
Fixpoint hex_EncodeToString (b : bytes) : string :=
  match b with
  | [] => EmptyString
  | x :: b' => String (hex_digit (b2z x / 16)) (String (hex_digit (b2z x mod 16)) (hex_EncodeToString b'))
  end.

Fixpoint hex_decode (s : string) : option bytes :=
  match s with
  | EmptyString => Some []
  | String c (String d s') =>
      match from_hex_char c, from_hex_char d, hex_decode s' with
      | Some h, Some l, Some r => Some (z2b (h * 16 + l) :: r)
      | _, _, _ => None
      end
  | String _ EmptyString => None
  end.

(** [hex.DecodeString] *)
Definition hex_DecodeString (s : string) : go bytes :=
  match hex_decode s with Some b => Ret b | None => Fail ErrHex end.

Lemma from_hex_digit z : 0 <= z < 16 -> from_hex_char (hex_digit z) = Some z.
Proof.
  intros H. assert (z = 0 \/ z = 1 \/ z = 2 \/ z = 3 \/ z = 4 \/ z = 5 \/ z = 6 \/ z = 7 \/
    z = 8 \/ z = 9 \/ z = 10 \/ z = 11 \/ z = 12 \/ z = 13 \/ z = 14 \/ z = 15) as Hz by lia.
  repeat destruct Hz as [-> | Hz]; try done. by subst.
Qed.

Lemma hex_decode_encode b : hex_decode (hex_EncodeToString b) = Some b.
Proof.
  induction b as [|x b IH]; [done|]. cbn [hex_EncodeToString hex_decode].
  pose proof (b2z_range x) as Hx.
  assert (0 <= b2z x / 16 < 16) by (split; [apply Z.div_pos; lia|apply Z.div_lt_upper_bound; lia]).
  pose proof (Z.mod_pos_bound (b2z x) 16 ltac:(lia)).
  rewrite !from_hex_digit, IH by done. do 2 f_equal.
  rewrite <- (z2b_b2z x) at 3. f_equal. rewrite (Z.div_mod (b2z x) 16) at 3 by lia. lia.
Qed.

Lemma hex_DecodeString_Encode b : hex_DecodeString (hex_EncodeToString b) = Ret b.
Proof. unfold hex_DecodeString. by rewrite hex_decode_encode. Qed.

Lemma hex_EncodeToString_inj b1 b2 : hex_EncodeToString b1 = hex_EncodeToString b2 -> b1 = b2.
Proof. intros H. apply (f_equal hex_decode) in H. rewrite !hex_decode_encode in H. by simplify_eq. Qed.

Lemma hex_EncodeToString_length b : String.length (hex_EncodeToString b) = (2 * List.length b)%nat.
Proof. induction b as [|x b IH]; simpl; [done|]. rewrite IH. lia. Qed.

(** Decoding halves the length. *)
Lemma hex_decode_length s b : hex_decode s = Some b -> String.length s = (2 * List.length b)%nat.
Proof.
  revert s. induction b as [|x b IH]; intros [|c [|d s]]; simpl; try done;
    repeat case_match; intros H'; simplify_eq.
  - rewrite (IH s) by done. lia.
Qed.
