(* ===== verification/Types.v ===== *)
(** The data of [bchain/types.go] and the Ethereum RPC structures of
    [bchain/coins/eth/ethparser.go], and the [BlockChainParser] interface. *)
From stdpp Require Import base list strings.
From Stdlib Require Import ZArith.
From S2P Require Import Prelude.

Open Scope Z_scope.

Inductive ChainType := ChainBitcoinType | ChainEthereumType | ChainOtherType (n : Z).

#[global] Instance ChainType_eq_dec : EqDecision ChainType.
Proof. solve_decision. Defined.

(** [AddressDescriptor] is a byte slice; where the code tells nil from empty the
    model uses an option. *)
Abbreviation AddressDescriptor := bytes (only parsing).

Module Outpoint.
Record t := mk { Txid : string; Vout : Z }.
#[global] Instance eq_dec : EqDecision t.
Proof. solve_decision. Defined.
End Outpoint.

Module Vin.
Record t := mk {
  Coinbase : string;
  Txid : string;
  Vout : Z;
  ScriptSigHex : string;
  Sequence : Z;
  Addresses : list string;
}.
End Vin.

Module Vout.
Record t := mk {
  ValueSat : Z;
  JsonValue : string;
  N : Z;
  ScriptPubKeyHex : string;
  Addresses : list string;
}.
End Vout.

(** ** Ethereum RPC structures *)

Record rpcTransaction := mkRpcTransaction {
  AccountNonce : string;
  GasPrice : string;
  GasLimit : string;
  To : string;
  Value : string;
  Payload : string;
  Hash : string;
  BlockNumber : string;
  BlockHash : string;
  From : string;
  TransactionIndex : string;
}.

Record rpcLog := mkRpcLog {
  LogAddress : string;
  Topics : list string;
  Data : string;
}.

Record rpcReceipt := mkRpcReceipt {
  GasUsed : string;
  Status : string;
  Logs : list rpcLog;
}.

Record completeTransaction := mkCompleteTransaction {
  CTx : rpcTransaction;
  CReceipt : option rpcReceipt;
}.

(** The dynamic content of the [interface{}] field [Tx.CoinSpecificData]: a transaction of
    Ethereum, raw JSON ([json.RawMessage]) or a Go string. *)
Inductive CoinSpecificData :=
  | NoSpecificData
  | EthSpecificData (ct : completeTransaction)
  | OtherSpecificData (raw : string)
  | TextSpecificData (text : string).

Module Tx.
Record t := mk {
  Hex : string;
  Txid : string;
  Version : Z;
  LockTime : Z;
  Vin : list Vin.t;
  Vout : list Vout.t;
  Confirmations : Z;
  Time : Z;
  Blocktime : Z;
  VShieldIn : list string;
  VShieldOut : list string;
  ShieldValBal : Z;
  SpecificData : CoinSpecificData;
}.
End Tx.

Module Block.
(** [BlockHeader] is embedded in the Go struct; its fields are listed first. *)
Record t := mk {
  Hash : string;
  Prev : string;
  Next : string;
  Height : Z;
  Confirmations : Z;
  Size : Z;
  Time : Z;
  Txs : list Tx.t;
}.
End Block.

Module Erc20Transfer.
Record t := mk { Contract : string; From : string; To : string; Tokens : Z }.
End Erc20Transfer.

(** ** The parser interface

    The methods of [bchain.BlockChainParser] that the index, the mempool and the
    API call.  The components below are written against it; the Bitcoin, Skyr and
    Ethereum parsers implement it. *)
Class BlockChainParser := {
  GetChainType : ChainType;
  KeepBlockAddresses : Z;
  AmountDecimals : Z;
  GetAddrDescFromVout : Vout.t -> go AddressDescriptor;
  GetAddrDescFromAddress : string -> go AddressDescriptor;
  GetAddressesFromAddrDesc : AddressDescriptor -> go (list string * bool);
  IsAddrDescIndexable : AddressDescriptor -> bool;
  PackedTxidLen : Z;
  PackTxid : string -> go bytes;
  UnpackTxid : bytes -> go string;
  PackTx : Tx.t -> Z -> Z -> go bytes;
  UnpackTx : bytes -> go (Tx.t * Z);
  GetAddrDescForUnknownInput : Tx.t -> Z -> AddressDescriptor;
  GetValueSatForUnknownInput : Tx.t -> Z -> Z;
  PackBlockHash : string -> go bytes;
  UnpackBlockHash : bytes -> go string;
  EthereumTypeGetErc20FromTx : Tx.t -> go (list Erc20Transfer.t);
}.

(** What the index relies on of a parser: packed ids have the declared length
    and unpack to the text they were packed from. *)
Class ParserLaws (P : BlockChainParser) := {
  PackedTxidLen_pos : 0 < PackedTxidLen;
  UnpackTxid_Pack : forall b, zlen b = PackedTxidLen ->
    exists t, UnpackTxid b = Ret t /\ PackTxid t = Ret b;
  UnpackBlockHash_Pack : forall b, zlen b = PackedTxidLen ->
    exists t, UnpackBlockHash b = Ret t /\ PackBlockHash t = Ret b;
}.
