(* ===== verification/Store.v ===== *)
(** The interface of the key-value store.

    [gorocksdb] is not part of the repository: the index is written against the
    class [Store], whose laws state the documented behaviour of RocksDB (point
    reads, atomic write batches, iterators in byte order).  [mem_store] is the
    in-memory instance that evaluates concrete runs. *)
From stdpp Require Import base list gmap strings sorting.
From Stdlib Require Import ZArith Lia.
From S2P Require Import Prelude.

Open Scope Z_scope.

(** The column families of [db/rocksdb.go]; [cfAddressContracts] is the slot of
    [cfAddressBalance]. *)
Inductive cf :=
  | cfDefault | cfHeight | cfAddresses | cfBlockTxs | cfTransactions
  | cfAddressBalance | cfTxAddresses.

Abbreviation cfAddressContracts := cfAddressBalance.

#[global] Instance cf_eq_dec : EqDecision cf.
Proof. solve_decision. Defined.

Definition cf_code (c : cf) : Z :=
  match c with
  | cfDefault => 0 | cfHeight => 1 | cfAddresses => 2 | cfBlockTxs => 3
  | cfTransactions => 4 | cfAddressBalance => 5 | cfTxAddresses => 6
  end.

Definition cf_of_code (z : Z) : cf :=
  match z with
  | 0 => cfDefault | 1 => cfHeight | 2 => cfAddresses | 3 => cfBlockTxs
  | 4 => cfTransactions | 5 => cfAddressBalance | _ => cfTxAddresses
  end.

#[global] Instance cf_countable : Countable cf.
Proof. refine (inj_countable' cf_code cf_of_code _). abstract (by intros []). Defined.

(** The content of a database: (column, key) to value. *)
Abbreviation kv := (gmap (cf * bytes) bytes).

Inductive wb_op :=
  | PutCF (c : cf) (k v : bytes)
  | DeleteCF (c : cf) (k : bytes).

(** A [WriteBatch] is the list of its operations in call order. *)
Abbreviation WriteBatch := (list wb_op).

Definition apply_op (m : kv) (o : wb_op) : kv :=
  match o with
  | PutCF c k v => <[(c, k) := v]> m
  | DeleteCF c k => delete (c, k) m
  end.

Definition apply_batch (wb : WriteBatch) (m : kv) : kv := foldl apply_op m wb.

Class Store := {
  store : Type;
  contents : store -> kv;
  (** [GetCF]: [None] is a nil slice, the key is not in the database *)
  GetCF : store -> cf -> bytes -> go (option bytes);
  (** [Write]: applies a batch; [Some e] is the error the call returns *)
  Write : store -> WriteBatch -> store * option error;
  (** the snapshot a new iterator walks over *)
  IterCF : store -> cf -> list (bytes * bytes);
}.

Class StoreLaws (S : Store) := {
  GetCF_contents : forall s c k v, GetCF s c k = Ret v -> v = contents s !! (c, k);
  GetCF_no_panic : forall s c k, GetCF s c k <> Panic;
  Write_ok : forall s wb s', Write s wb = (s', None) -> contents s' = apply_batch wb (contents s);
  Write_err : forall s wb s' e, Write s wb = (s', Some e) -> contents s' = contents s;
  IterCF_sorted : forall s c, StronglySorted bytes_lt (IterCF s c).*1;
  IterCF_contents : forall s c k v, (k, v) ∈ IterCF s c <-> contents s !! (c, k) = Some v;
}.

(** A store whose reads and writes do not fail. *)
Definition reliable `{Store} : Prop :=
  (forall s c k, GetCF s c k = Ret (contents s !! (c, k))) /\
  (forall s wb, (Write s wb).2 = None).

(** [it.Seek(k)] on a snapshot: the entries from the first key not below [k]. *)
Definition Seek (k : bytes) (it : list (bytes * bytes)) : list (bytes * bytes) :=
  filter (fun e => bytes_le k e.1) it.

Section batch.
Implicit Types (m : kv) (wb : WriteBatch).

Lemma apply_batch_app wb1 wb2 m :
  apply_batch (wb1 ++ wb2) m = apply_batch wb2 (apply_batch wb1 m).
Proof. apply foldl_app. Qed.

Definition op_key (o : wb_op) : cf * bytes :=
  match o with PutCF c k _ => (c, k) | DeleteCF c k => (c, k) end.

(** Keys no operation names keep their value. *)
Lemma apply_batch_other wb m ck :
  (forall o, o ∈ wb -> op_key o <> ck) -> apply_batch wb m !! ck = m !! ck.
Proof.
  revert m. induction wb as [|o wb IH]; intros m Hk; [done|]. simpl.
  change (foldl apply_op (apply_op m o) wb) with (apply_batch wb (apply_op m o)).
  rewrite IH by (intros o' Ho'; apply Hk; by right).
  assert (op_key o <> ck) by (apply Hk; left).
  destruct o; simpl in *; [by rewrite lookup_insert_ne|by rewrite lookup_delete_ne].
Qed.

(** The last operation on a key decides its value. *)
Lemma apply_batch_last wb1 o wb2 m :
  (forall o', o' ∈ wb2 -> op_key o' <> op_key o) ->
  apply_batch (wb1 ++ o :: wb2) m !! op_key o =
  match o with PutCF _ _ v => Some v | DeleteCF _ _ => None end.
Proof.
  intros Hk. rewrite apply_batch_app. simpl.
  change (foldl apply_op ?m wb2) with (apply_batch wb2 m).
  rewrite apply_batch_other by done.
  destruct o; simpl; [by rewrite lookup_insert_eq|by rewrite lookup_delete_eq].
Qed.

(** A value that all operations on its key agree on is there. *)
Lemma apply_batch_put wb m c k v : PutCF c k v ∈ wb ->
  (forall o, o ∈ wb -> op_key o = (c, k) -> o = PutCF c k v) -> apply_batch wb m !! (c, k) = Some v.
Proof.
  revert m. induction wb as [|o wb IH] using rev_ind; intros m Hin Hk; [by apply not_elem_of_nil in Hin|].
  rewrite apply_batch_app. destruct (decide (op_key o = (c, k))) as [E|E].
  - rewrite (Hk o) by (done || set_solver). simpl. by rewrite lookup_insert_eq.
  - rewrite apply_batch_other by (intros o' ->%list_elem_of_singleton; done). apply IH.
    + apply elem_of_app in Hin as [Hin|<-%list_elem_of_singleton]; done.
    + intros o' Ho'. apply Hk. set_solver.
Qed.
End batch.

(** ** The in-memory store *)

Definition entry_le (a b : bytes * bytes) : Prop := bytes_le a.1 b.1.

#[global] Instance entry_le_dec : RelDecision entry_le.
Proof. intros a b. unfold entry_le. apply _. Defined.
#[global] Instance entry_le_trans : Transitive entry_le.
Proof. intros a b c. apply bytes_le_trans. Qed.
#[global] Instance entry_le_total : Total entry_le.
Proof. intros a b. apply (bytes_le_total a.1 b.1). Qed.

Definition mem_iter (m : kv) (c : cf) : list (bytes * bytes) :=
  merge_sort entry_le
    (omap (fun e : cf * bytes * bytes => if decide (e.1.1 = c) then Some (e.1.2, e.2) else None)
       (map_to_list m)).

#[global] Instance mem_store : Store := {|
  store := kv;
  contents m := m;
  GetCF m c k := Ret (m !! (c, k));
  Write m wb := (apply_batch wb m, None);
  IterCF := mem_iter;
|}.

Lemma elem_of_mem_iter m c k v : (k, v) ∈ mem_iter m c <-> m !! (c, k) = Some v.
Proof.
  unfold mem_iter. rewrite merge_sort_Permutation, list_elem_of_omap. split.
  - intros ([[c' k'] v'] & Hin & Hc). case_decide; simplify_eq/=.
    by apply elem_of_map_to_list in Hin.
  - intros H. exists (c, k, v). rewrite elem_of_map_to_list. split; [done|].
    by rewrite decide_True.
Qed.

Lemma mem_iter_nodup m c : NoDup (mem_iter m c).*1.
Proof.
  unfold mem_iter. rewrite merge_sort_Permutation.
  pose proof (NoDup_fst_map_to_list m) as Hnd. revert Hnd.
  induction (map_to_list m) as [|[[c' k] v] l IH]; simpl; [constructor|].
  intros [Hk Hl]%NoDup_cons. case_decide; simplify_eq/=; [|auto].
  apply NoDup_cons. split; [|auto]. intros ([k2 v2] & -> & Hin)%list_elem_of_fmap.
  apply list_elem_of_omap in Hin as ([[c2 k3] v3] & Hin & Hc2).
  case_decide; simplify_eq/=. apply Hk. apply list_elem_of_fmap. by exists (c, k2, v2).
Qed.

Lemma strict_sorted (l : list bytes) :
  StronglySorted bytes_le l -> NoDup l -> StronglySorted bytes_lt l.
Proof.
  induction 1 as [|a l Hs IH Hf]; intros Hnd; [constructor|].
  apply NoDup_cons in Hnd as [Ha Hnd]. constructor; [auto|].
  rewrite Forall_forall in *. intros x Hx.
  destruct (proj1 (bytes_le_lt a x) (Hf x Hx)) as [?| ->]; done.
Qed.

#[global] Instance mem_store_laws : StoreLaws mem_store.
Proof.
  split; simpl.
  - by intros s c k v [= <-].
  - done.
  - by intros s wb s' [= <-].
  - done.
  - intros s c. apply strict_sorted; [|apply mem_iter_nodup].
    assert (StronglySorted entry_le (mem_iter s c)) as Hs.
    { apply Sorted_StronglySorted; [apply _|]. apply (Sorted_merge_sort _). }
    induction Hs as [|e l Hs IH Hf]; simpl; constructor; [done|].
    apply Forall_fmap. exact Hf.
  - intros. apply elem_of_mem_iter.
Qed.

Lemma mem_store_reliable : @reliable mem_store.
Proof. done. Qed.
