(* ===== verification/Vlq.v ===== *)
(** The variable-length integer codec [github.com/bsm/go-vlq].

    The package is not part of the repository: the index is written against the
    class [Vlq], whose laws state that a value is read back, with the number of
    bytes it was written with, whatever follows it, that a read stays within the
    buffer and that an encoding fits the scratch buffers of the code.  [leb] is the instance
    concrete runs are evaluated with. *)
From stdpp Require Import base list.
From Stdlib Require Import ZArith Lia.
From S2P Require Import Prelude.

Open Scope Z_scope.

Class Vlq := {
  (** the longest encoding of a 64-bit integer, [vlq.MaxLen64] *)
  vlq_MaxLen64 : Z;
  (** the bytes [PutUint]/[PutInt] write into the buffer *)
  vlq_PutUint : Z -> bytes;
  vlq_PutInt : Z -> bytes;
  (** the value and the number of bytes read *)
  vlq_Uint : bytes -> Z * Z;
  vlq_Int : bytes -> Z * Z;
}.

Class VlqLaws (V : Vlq) := {
  Uint_PutUint : forall u r, in_u64 u ->
    vlq_Uint (vlq_PutUint u ++ r) = (u, zlen (vlq_PutUint u));
  Int_PutInt : forall i r, in_i64 i ->
    vlq_Int (vlq_PutInt i ++ r) = (i, zlen (vlq_PutInt i));
  Uint_read : forall b, 0 <= (vlq_Uint b).2 <= zlen b;
  Int_read : forall b, 0 <= (vlq_Int b).2 <= zlen b;
  PutUint_len : forall u, 1 <= zlen (vlq_PutUint u) <= vlq_MaxLen64;
  PutInt_len : forall i, 1 <= zlen (vlq_PutInt i) <= vlq_MaxLen64;
  MaxLen64_small : vlq_MaxLen64 <= 249;
}.

(** ** A concrete codec: base 128, low group first *)

Fixpoint leb_put (fuel : nat) (u : Z) : bytes :=
  match fuel with
  | O => [z2b u]
  | S f => if u <? 128 then [z2b u] else z2b (u mod 128 + 128) :: leb_put f (u / 128)
  end.

Fixpoint leb_get (b : bytes) : Z * Z :=
  match b with
  | [] => (0, 0)
  | x :: r => if b2z x <? 128 then (b2z x, 1)
              else let '(v, n) := leb_get r in (b2z x - 128 + 128 * v, n + 1)
  end.

Definition zigzag (i : Z) : Z := if i <? 0 then -2 * i - 1 else 2 * i.
Definition unzigzag (u : Z) : Z := if Z.even u then u / 2 else - (u / 2) - 1.

#[global] Instance leb : Vlq := {|
  vlq_MaxLen64 := 10;
  vlq_PutUint := leb_put 9;
  vlq_PutInt i := leb_put 9 (zigzag i);
  vlq_Uint := leb_get;
  vlq_Int b := let '(u, n) := leb_get b in (unzigzag u, n);
|}.

Lemma leb_get_put fuel u r :
  0 <= u < 128 ^ (Z.of_nat fuel + 1) ->
  leb_get (leb_put fuel u ++ r) = (u, zlen (leb_put fuel u)).
Proof.
  revert u. induction fuel as [|f IH]; intros u Hu; simpl.
  - change (128 ^ (Z.of_nat 0 + 1)) with 128 in Hu. rewrite b2z_z2b, Z.mod_small by lia.
    destruct (Z.ltb_spec u 128); [done|lia].
  - destruct (Z.ltb_spec u 128); simpl; rewrite b2z_z2b.
    + rewrite Z.mod_small by lia. destruct (Z.ltb_spec u 128); [done|lia].
    + pose proof (Z.mod_pos_bound u 128 ltac:(lia)).
      rewrite (Z.mod_small (u mod 128 + 128) 256) by lia.
      destruct (Z.ltb_spec (u mod 128 + 128) 128); [lia|].
      rewrite IH.
      * rewrite zlen_cons. f_equal; [|lia].
        rewrite (Z.div_mod u 128) at 3 by lia. lia.
      * split; [apply Z.div_pos; lia|]. apply Z.div_lt_upper_bound; [lia|].
        rewrite <- Z.pow_succ_r by lia. replace (Z.succ (Z.of_nat f + 1)) with (Z.of_nat (S f) + 1) by lia. lia.
Qed.

Lemma leb_get_read b : 0 <= (leb_get b).2 <= zlen b.
Proof.
  induction b as [|x b IH]; simpl; [done|]. rewrite zlen_cons.
  case_match; simpl; [zlen_lia|]. destruct (leb_get b) as [v n]. simpl in *. lia.
Qed.

Lemma leb_put_len fuel u : 1 <= zlen (leb_put fuel u) <= Z.of_nat fuel + 1.
Proof.
  revert u. induction fuel as [|f IH]; intros u; cbn [leb_put]; [done|].
  destruct (u <? 128); rewrite zlen_cons; [rewrite zlen_nil|specialize (IH (u / 128))]; lia.
Qed.

Lemma unzigzag_zigzag i : unzigzag (zigzag i) = i.
Proof.
  unfold zigzag, unzigzag. destruct (Z.ltb_spec i 0).
  - replace (Z.even (-2 * i - 1)) with false by (rewrite Z.even_sub, Z.even_mul; done).
    rewrite <- (Z.div_unique (-2 * i - 1) 2 (- i - 1) 1); lia.
  - rewrite Z.even_mul, Z.mul_comm, Z.div_mul by lia. done.
Qed.

#[global] Instance leb_laws : VlqLaws leb.
Proof.
  split; unfold vlq_PutUint, vlq_PutInt, vlq_Uint, vlq_Int, vlq_MaxLen64, leb.
  - intros u r Hu. apply leb_get_put. unfold in_u64 in Hu.
    change (128 ^ (Z.of_nat 9 + 1)) with (2 ^ 70). lia.
  - intros i r Hi. rewrite leb_get_put; [by rewrite unzigzag_zigzag|].
    change (128 ^ (Z.of_nat 9 + 1)) with (2 ^ 70). unfold in_i64, zigzag in *.
    destruct (Z.ltb_spec i 0); lia.
  - apply leb_get_read.
  - intros b. pose proof (leb_get_read b). by destruct (leb_get b).
  - intros u. apply (leb_put_len 9).
  - intros i. apply (leb_put_len 9).
  - done.
Qed.
