(* ===== verification/Codec.v ===== *)
(** The packing helpers of [db/rocksdb.go] ("Helpers", from [packAddressKey] to
    [unpackBigint]).

    A Go [packX(v, buf)] writes into a scratch buffer and returns the number of
    bytes; every caller then takes [buf[:l]].  The definitions return these
    bytes. *)
From stdpp Require Import base list strings.
From Stdlib Require Import ZArith Lia.
From S2P Require Import Prelude Vlq.

Open Scope Z_scope.
Open Scope go_scope.

(** ** Heights and address keys *)

Definition packedHeightBytes : Z := 4.

Definition packUint (i : Z) : bytes := be_bytes 4 (u32 i).

(** [binary.BigEndian.Uint32]: reads four bytes, panics on a shorter slice *)
Definition unpackUint (buf : bytes) : go Z :=
  let* b := go_slice buf 0 4 in Ret (be_Z b).

Definition packAddressKey (addrDesc : bytes) (height : Z) : bytes :=
  addrDesc ++ be_bytes 4 (not_u32 height).

Definition unpackAddressKey (key : bytes) : go (bytes * Z) :=
  let i := zlen key - packedHeightBytes in
  if i <=? 0 then Fail (ErrMsg "Invalid address key")
  else
    let* addr := go_slice key 0 i in
    let* hb := go_slice key i (i + packedHeightBytes) in
    let* h := unpackUint hb in
    Ret (addr, not_u32 h).

(** ** Variable-length integers *)

Section varint.
Context `{V : Vlq}.

Definition packVarint32 (i : Z) : bytes := vlq_PutInt (i64 i).
Definition packVarint (i : Z) : bytes := vlq_PutInt (i64 i).
Definition packVaruint (i : Z) : bytes := vlq_PutUint (u64 i).

Definition unpackVarint32 (buf : bytes) : Z * Z :=
  let '(i, ofs) := vlq_Int buf in (i32 i, ofs).
Definition unpackVarint (buf : bytes) : Z * Z :=
  let '(i, ofs) := vlq_Int buf in (i64 i, ofs).
Definition unpackVaruint (buf : bytes) : Z * Z :=
  let '(i, ofs) := vlq_Uint buf in (u64 i, ofs).
End varint.

(** ** Big integers *)

Definition wordBits : Z := 64.
Definition wordBytes : nat := 8.
Definition maxPackedBigintWords : nat := 31.
Definition maxPackedBigintBytes : Z := 249.

(** [big.Int.Bits]: the words of the absolute value, least significant first,
    without leading zero words. *)
Fixpoint nat_words (fuel : nat) (n : Z) : list Z :=
  match fuel with
  | O => []
  | S f => if n =? 0 then [] else n mod 2 ^ wordBits :: nat_words f (n / 2 ^ wordBits)
  end.

Definition Bits (bi : Z) : list Z :=
  nat_words (S (Z.to_nat (Z.log2 (Z.abs bi) / wordBits))) (Z.abs bi).

(** The loop [for w0&mask == 0 { fb--; mask >>= 8 }] from [fb]. *)
Fixpoint first_bytes (fb : nat) (w0 : Z) : nat :=
  match fb with
  | O => O
  | S f => if Z.land w0 (Z.shiftl 255 (8 * Z.of_nat f)) =? 0 then first_bytes f w0 else fb
  end.

(** [packBigint]: one length byte, the top word without leading zeros, then the
    other words down to index [s]. *)
Definition packBigint (bi : Z) : bytes :=
  let w := Bits bi in
  let lw := length w in
  match last w with
  | None => [z2b 0]
  | Some w0 =>
      let fb := first_bytes wordBytes w0 in
      let s := (if (maxPackedBigintWords <? lw)%nat then lw - maxPackedBigintWords else 0)%nat in
      let rest := reverse (drop s (take (lw - 1) w)) in
      let body := be_bytes fb w0 ++ concat (map (be_bytes wordBytes) rest) in
      z2b (zlen body) :: body
  end.

(** [unpackBigint]: the value and the number of bytes read *)
Definition unpackBigint (buf : bytes) : go (Z * Z) :=
  let* b0 := go_index buf 0 in
  let l := b2z b0 + 1 in
  let* b := go_slice buf 1 l in
  Ret (be_Z b, l).

(** ** Lemmas *)

Lemma packUint_zlen h : zlen (packUint h) = 4.
Proof. unfold packUint. by rewrite be_bytes_zlen. Qed.

Lemma unpackUint_pack h r : unpackUint (packUint h ++ r) = Ret (u32 h).
Proof.
  unfold unpackUint. rewrite go_slice_prefix by (by rewrite packUint_zlen). gostep.
  unfold packUint. rewrite be_Z_be_bytes. f_equal. apply Z.mod_small, u32_range.
Qed.

Lemma packUint_inj h1 h2 : in_u32 h1 -> in_u32 h2 -> packUint h1 = packUint h2 -> h1 = h2.
Proof.
  intros H1 H2 E. apply (f_equal (fun b => unpackUint (b ++ []))) in E.
  rewrite !unpackUint_pack, !u32_id in E by done. by simplify_eq.
Qed.

Lemma packAddressKey_unpack a h :
  a <> [] -> in_u32 h -> unpackAddressKey (packAddressKey a h) = Ret (a, h).
Proof.
  intros Ha Hh. unfold unpackAddressKey, packAddressKey, packedHeightBytes.
  assert (0 < zlen a).
  { destruct a; [done|]. zlen_lia. }
  rewrite zlen_app, be_bytes_zlen. replace (zlen a + Z.of_nat 4 - 4) with (zlen a) by lia.
  destruct (Z.leb_spec (zlen a) 0); [lia|].
  rewrite go_slice_prefix by done. gostep.
  rewrite <- (app_nil_r (be_bytes 4 _)) at 1.
  rewrite go_slice_mid by (rewrite ?be_bytes_zlen; lia). gostep.
  unfold unpackUint. rewrite <- (app_nil_r (be_bytes 4 _)).
  rewrite go_slice_prefix by (by rewrite be_bytes_zlen). gostep.
  rewrite be_Z_be_bytes, (Z.mod_small (not_u32 h)) by apply not_u32_range.
  by rewrite not_u32_invol.
Qed.

Lemma packAddressKey_cmp a h1 h2 :
  in_u32 h1 -> in_u32 h2 ->
  bytes_cmp (packAddressKey a h1) (packAddressKey a h2) = (h2 ?= h1).
Proof.
  intros H1 H2. unfold packAddressKey. rewrite bytes_cmp_app_l.
  rewrite bytes_cmp_be_Z by (by rewrite !be_bytes_length).
  rewrite !be_Z_be_bytes, !Z.mod_small by apply not_u32_range.
  rewrite !not_u32_eq by done. unfold in_u32 in *.
  destruct (Z.compare_spec h2 h1); [subst; apply Z.compare_refl| |];
    [apply Z.compare_lt_iff|apply Z.compare_gt_iff]; lia.
Qed.

Lemma packAddressKey_inj a1 h1 a2 h2 : in_u32 h1 -> in_u32 h2 ->
  packAddressKey a1 h1 = packAddressKey a2 h2 -> a1 = a2 /\ h1 = h2.
Proof.
  intros H1 H2 E. assert (a1 = a2) as <-.
  { unfold packAddressKey in E. apply app_inj_2 in E as [E _]; [done|]. by rewrite !be_bytes_length. }
  split; [done|]. pose proof (packAddressKey_cmp a1 h1 h2 H1 H2) as Hc. rewrite E, bytes_cmp_refl in Hc.
  symmetry in Hc. by apply Z.compare_eq in Hc.
Qed.

Section varint_lemmas.
Context `{VL : VlqLaws}.

Lemma unpackVaruint_pack u r :
  in_u64 u -> unpackVaruint (packVaruint u ++ r) = (u, zlen (packVaruint u)).
Proof.
  intros Hu. unfold unpackVaruint, packVaruint. rewrite (u64_id u) by done.
  rewrite Uint_PutUint by done. by rewrite u64_id.
Qed.

Lemma unpackVarint_pack i r :
  in_i64 i -> unpackVarint (packVarint i ++ r) = (i, zlen (packVarint i)).
Proof.
  intros Hi. unfold unpackVarint, packVarint. rewrite (i64_id i) by done.
  rewrite Int_PutInt by done. by rewrite i64_id.
Qed.

Lemma unpackVarint32_pack i r :
  in_i32 i -> unpackVarint32 (packVarint32 i ++ r) = (i, zlen (packVarint32 i)).
Proof.
  intros Hi. assert (in_i64 i) by (unfold in_i32, in_i64 in *; lia).
  unfold unpackVarint32, packVarint32. rewrite (i64_id i) by done.
  rewrite Int_PutInt by done. by rewrite i32_id.
Qed.

Lemma packVaruint_len u : 1 <= zlen (packVaruint u) <= 249.
Proof. pose proof (PutUint_len (u64 u)). pose proof MaxLen64_small. unfold packVaruint. lia. Qed.
Lemma packVarint_len i : 1 <= zlen (packVarint i) <= 249.
Proof. pose proof (PutInt_len (i64 i)). pose proof MaxLen64_small. unfold packVarint. lia. Qed.
Lemma packVarint32_len i : 1 <= zlen (packVarint32 i) <= 249.
Proof. apply packVarint_len. Qed.
End varint_lemmas.

(** *** The words of a big integer *)

Definition words_Z (w : list Z) : Z := foldr (fun x acc => x + 2 ^ wordBits * acc) 0 w.

Lemma words_Z_cons x w : words_Z (x :: w) = x + 2 ^ wordBits * words_Z w.
Proof. done. Qed.

Lemma nat_words_Z fuel n : 0 <= n < 2 ^ (wordBits * Z.of_nat fuel) -> words_Z (nat_words fuel n) = n.
Proof.
  revert n. induction fuel as [|f IH]; intros n Hn; simpl.
  - change (wordBits * Z.of_nat 0) with 0 in Hn. lia.
  - destruct (Z.eqb_spec n 0) as [->|Hnz]; [done|]. simpl. rewrite IH.
    + rewrite (Z.div_mod n (2 ^ wordBits)) at 3 by done. lia.
    + split; [apply Z.div_pos; unfold wordBits; lia|]. apply Z.div_lt_upper_bound; [done|].
      rewrite <- Z.pow_add_r by (unfold wordBits; lia).
      replace (wordBits + wordBits * Z.of_nat f) with (wordBits * Z.of_nat (S f)) by lia. lia.
Qed.

Lemma nat_words_range fuel n : Forall (fun x => 0 <= x < 2 ^ wordBits) (nat_words fuel n).
Proof.
  revert n. induction fuel as [|f IH]; intros n; simpl; [constructor|].
  destruct (n =? 0); constructor; [|done]. apply Z.mod_pos_bound. done.
Qed.

Lemma nat_words_last fuel n w0 : 0 <= n < 2 ^ (wordBits * Z.of_nat fuel) ->
  last (nat_words fuel n) = Some w0 -> 0 < w0.
Proof.
  revert n. induction fuel as [|f IH]; intros n Hn; simpl; [done|].
  destruct (Z.eqb_spec n 0) as [->|Hnz]; [done|].
  assert (0 <= n / 2 ^ wordBits < 2 ^ (wordBits * Z.of_nat f)).
  { split; [apply Z.div_pos; unfold wordBits; lia|]. apply Z.div_lt_upper_bound; [done|].
    rewrite <- Z.pow_add_r by (unfold wordBits; lia).
    replace (wordBits + wordBits * Z.of_nat f) with (wordBits * Z.of_nat (S f)) by lia. lia. }
  destruct (nat_words f (n / 2 ^ wordBits)) as [|y l] eqn:E.
  - simpl. intros [= <-]. pose proof (nat_words_Z f _ H) as Hz. rewrite E in Hz. simpl in Hz.
    pose proof (Z.div_mod n (2 ^ wordBits) ltac:(done)).
    pose proof (Z.mod_pos_bound n (2 ^ wordBits) ltac:(done)). lia.
  - intros Hl. apply (IH (n / 2 ^ wordBits)); [done|]. rewrite E. done.
Qed.

Lemma Bits_fuel bi :
  0 <= Z.abs bi < 2 ^ (wordBits * Z.of_nat (S (Z.to_nat (Z.log2 (Z.abs bi) / wordBits)))).
Proof.
  split; [lia|]. set (n := Z.abs bi).
  pose proof (Z.log2_nonneg n). assert (0 <= Z.log2 n / wordBits) by (apply Z.div_pos; done).
  rewrite Nat2Z.inj_succ, Z2Nat.id by done.
  destruct (Z.eq_dec n 0) as [->|Hn]; [done|].
  pose proof (Z.log2_spec n ltac:(lia)) as [_ Hs].
  eapply Z.lt_le_trans; [exact Hs|]. apply Z.pow_le_mono_r; [lia|].
  pose proof (Z.div_mod (Z.log2 n) wordBits ltac:(done)).
  pose proof (Z.mod_pos_bound (Z.log2 n) wordBits ltac:(done)). lia.
Qed.

Lemma words_Z_Bits bi : words_Z (Bits bi) = Z.abs bi.
Proof. apply nat_words_Z, Bits_fuel. Qed.

Lemma words_Z_app w1 w2 : words_Z (w1 ++ w2) = words_Z w1 + 2 ^ (wordBits * zlen w1) * words_Z w2.
Proof.
  induction w1 as [|x w1 IH].
  - change (2 ^ (wordBits * zlen [])) with 1. change (words_Z []) with 0.
    rewrite app_nil_l. lia.
  - rewrite <- app_comm_cons, !words_Z_cons, IH, zlen_cons.
    replace (wordBits * (1 + zlen w1)) with (wordBits + wordBits * zlen w1) by lia.
    rewrite Z.pow_add_r by (unfold wordBits; zlen_lia). lia.
Qed.

Lemma words_Z_range w : Forall (fun x => 0 <= x < 2 ^ wordBits) w ->
  0 <= words_Z w < 2 ^ (wordBits * zlen w).
Proof.
  induction 1 as [|x w Hx Hw IH]; [done|].
  rewrite words_Z_cons, zlen_cons. replace (wordBits * (1 + zlen w)) with (wordBits + wordBits * zlen w) by lia.
  rewrite Z.pow_add_r by (unfold wordBits; zlen_lia). nia.
Qed.

Lemma words_Z_drop s w : Forall (fun x => 0 <= x < 2 ^ wordBits) w ->
  words_Z (drop s w) = Z.shiftr (words_Z w) (wordBits * Z.of_nat (Nat.min s (length w))).
Proof.
  intros Hw. assert (0 <= wordBits * Z.of_nat (Nat.min s (length w))) by (unfold wordBits; lia).
  rewrite Z.shiftr_div_pow2 by done.
  rewrite <- (take_drop s w) at 2. rewrite words_Z_app.
  assert (zlen (take s w) = Z.of_nat (Nat.min s (length w))) as Hz
    by (unfold zlen; rewrite length_take; lia).
  rewrite Hz. rewrite Z.mul_comm with (m := words_Z (drop s w)), Z.div_add by (apply Z.pow_nonzero; lia).
  rewrite Z.div_small; [lia|]. rewrite <- Hz. apply words_Z_range. by apply Forall_take.
Qed.

(** *** Packing the words *)

Lemma land_shiftl_255 w n : 0 <= n ->
  Z.land w (Z.shiftl 255 n) = Z.shiftl (Z.land (Z.shiftr w n) 255) n.
Proof.
  intros Hn. apply Z.bits_inj'. intros k Hk. rewrite Z.land_spec, !Z.shiftl_spec by done.
  destruct (Z.lt_ge_cases k n).
  - rewrite !(Z.testbit_neg_r _ (k - n)) by lia. apply andb_false_r.
  - rewrite Z.land_spec, Z.shiftr_spec by lia. f_equal. f_equal. lia.
Qed.

Lemma first_bytes_spec fb w0 : 0 < w0 < 256 ^ Z.of_nat fb ->
  (1 <= first_bytes fb w0 <= fb)%nat /\ w0 < 256 ^ Z.of_nat (first_bytes fb w0).
Proof.
  induction fb as [|f IH]; intros Hw; [change (256 ^ Z.of_nat 0) with 1 in Hw; lia|].
  cbn [first_bytes]. rewrite land_shiftl_255 by lia.
  rewrite Z.shiftr_div_pow2, Z.pow_mul_r by lia. change (2 ^ 8) with 256.
  change 255 with (Z.ones 8). rewrite !Z.land_ones by lia. change (2 ^ 8) with 256.
  rewrite Nat2Z.inj_succ, Z.pow_succ_r in Hw by lia.
  assert (0 <= w0 / 256 ^ Z.of_nat f < 256) as Hd.
  { split; [apply Z.div_pos; lia|]. apply Z.div_lt_upper_bound; lia. }
  rewrite (Z.mod_small _ 256) by done.
  destruct (Z.eqb_spec (Z.shiftl (w0 / 256 ^ Z.of_nat f) (8 * Z.of_nat f)) 0) as [E|E].
  - apply Z.shiftl_eq_0_iff in E; [|lia]. apply Z.div_small_iff in E; [|lia].
    destruct IH as [H1 H2]; [lia|]. split; [lia|done].
  - split; [lia|]. rewrite Nat2Z.inj_succ, Z.pow_succ_r by lia. lia.
Qed.

Lemma concat_words_zlen l : zlen (concat (map (be_bytes wordBytes) l)) = 8 * zlen l.
Proof.
  induction l as [|x l IH]; [done|]. cbn [map concat].
  rewrite zlen_app, be_bytes_zlen, IH, zlen_cons.
  unfold wordBytes. lia.
Qed.

Lemma be_Z_words b l : Forall (fun x => 0 <= x < 2 ^ wordBits) l ->
  be_Z (b ++ concat (map (be_bytes wordBytes) l)) =
  words_Z (reverse l ++ [be_Z b]).
Proof.
  intros Hl. revert b. induction l as [|x l IH] using rev_ind; intros b.
  - simpl. rewrite app_nil_r. change (reverse []) with (@nil Z). simpl. unfold words_Z. simpl. lia.
  - apply Forall_app in Hl as [Hl Hx]. rewrite Forall_singleton in Hx.
    rewrite map_app, concat_app, app_assoc, be_Z_app, IH by done. cbn [map concat].
    rewrite app_nil_r, be_Z_be_bytes, be_bytes_zlen, reverse_snoc.
    rewrite <- app_comm_cons, words_Z_cons.
    change (256 ^ Z.of_nat wordBytes) with (2 ^ wordBits).
    rewrite (Z.mod_small x) by done. lia.
Qed.

(** The body [packBigint] writes after the length byte. *)
Lemma packBigint_body bi w0 :
  last (Bits bi) = Some w0 ->
  let s := (length (Bits bi) - maxPackedBigintWords)%nat in
  exists body, packBigint bi = z2b (zlen body) :: body /\
    1 <= zlen body <= 248 /\
    be_Z body = Z.shiftr (Z.abs bi) (wordBits * Z.of_nat s).
Proof.
  intros Hlast s. pose proof (nat_words_range _ _ : Forall _ (Bits bi)) as Hr.
  pose proof (nat_words_last _ _ _ (Bits_fuel bi) Hlast) as Hpos.
  apply last_Some in Hlast as [w Hw].
  assert (length (Bits bi) = S (length w)) as Hlen by (rewrite Hw, length_app; simpl; lia).
  unfold packBigint. cbv zeta. rewrite Hlen. rewrite Hw, last_snoc.
  assert ((if (maxPackedBigintWords <? S (length w))%nat
           then S (length w) - maxPackedBigintWords else 0)%nat = s) as ->
    by (subst s; rewrite Hlen; destruct (Nat.ltb_spec maxPackedBigintWords (S (length w))); lia).
  replace (S (length w) - 1)%nat with (length w) by lia.
  rewrite take_app_length. eexists; split; [reflexivity|].
  rewrite Hw in Hr. apply Forall_app in Hr as [Hrw Hr0]. rewrite Forall_singleton in Hr0.
  destruct (first_bytes_spec wordBytes w0) as [Hfb Hw0].
  { change (256 ^ Z.of_nat wordBytes) with (2 ^ wordBits). lia. }
  assert (s <= length w)%nat by (subst s; rewrite Hlen; unfold maxPackedBigintWords; lia).
  assert (Forall (fun x => 0 <= x < 2 ^ wordBits) (drop s w)) by (by apply Forall_drop).
  split.
  - rewrite zlen_app, be_bytes_zlen, concat_words_zlen. unfold zlen. rewrite length_reverse, length_drop.
    subst s. unfold maxPackedBigintWords, wordBytes in *. lia.
  - rewrite be_Z_words by (by apply Forall_reverse). rewrite reverse_involutive, be_Z_be_bytes.
    rewrite (Z.mod_small w0) by lia. rewrite <- words_Z_Bits, Hw.
    rewrite <- (drop_app_le w [w0] s) by done.
    rewrite words_Z_drop by (apply Forall_app; split; [done|by constructor]).
    do 3 f_equal. rewrite length_app. simpl. lia.
Qed.

Lemma unpackBigint_pack_shiftr bi r :
  unpackBigint (packBigint bi ++ r) =
  Ret (Z.shiftr (Z.abs bi) (wordBits * Z.of_nat (length (Bits bi) - maxPackedBigintWords)),
       zlen (packBigint bi)).
Proof.
  destruct (last (Bits bi)) as [w0|] eqn:E.
  - destruct (packBigint_body bi w0 E) as (body & -> & Hl & Hv). rewrite <- Hv.
    unfold unpackBigint. cbn [app]. rewrite go_index_0. gostep.
    rewrite b2z_z2b, Z.mod_small by lia.
    change (z2b (zlen body) :: body ++ r) with ([z2b (zlen body)] ++ body ++ r).
    rewrite go_slice_mid by zlen_lia. gostep.
    rewrite zlen_cons, Z.add_comm. done.
  - apply last_None in E. pose proof (words_Z_Bits bi) as Hz. rewrite E in Hz.
    change (words_Z []) with 0 in Hz. rewrite <- Hz, Z.shiftr_0_l.
    assert (packBigint bi = [z2b 0]) as -> by (unfold packBigint; rewrite E; done).
    unfold unpackBigint. cbn [app]. rewrite go_index_0. gostep.
    change (z2b 0 :: r) with ([z2b 0] ++ [] ++ r). by rewrite go_slice_mid.
Qed.

Lemma Bits_length_small bi : Z.abs bi < 2 ^ 1984 -> (length (Bits bi) <= maxPackedBigintWords)%nat.
Proof.
  intros Hbi. destruct (last (Bits bi)) as [w0|] eqn:E.
  - pose proof (nat_words_last _ _ _ (Bits_fuel bi) E) as Hpos.
    apply last_Some in E as [w Hw].
    pose proof (words_Z_Bits bi) as Hz. rewrite Hw, words_Z_app in Hz. rewrite Hw, length_app. simpl.
    pose proof (nat_words_range _ _ : Forall _ (Bits bi)) as Hr. rewrite Hw in Hr.
    apply Forall_app in Hr as [Hr _]. apply words_Z_range in Hr.
    unfold words_Z at 2 in Hz. simpl in Hz.
    destruct (decide (length w + 1 <= maxPackedBigintWords)%nat) as [|Hn]; [done|].
    assert (2 ^ 1984 <= 2 ^ (wordBits * zlen w)); [|nia].
    apply Z.pow_le_mono_r; [lia|]. unfold maxPackedBigintWords, wordBits, zlen in *. lia.
  - apply last_None in E. rewrite E. simpl. lia.
Qed.

Lemma unpackBigint_pack bi r : Z.abs bi < 2 ^ 1984 ->
  unpackBigint (packBigint bi ++ r) = Ret (Z.abs bi, zlen (packBigint bi)).
Proof.
  intros H%Bits_length_small. rewrite unpackBigint_pack_shiftr.
  replace (_ - _)%nat with 0%nat by lia. change (wordBits * Z.of_nat 0) with 0.
  by rewrite Z.shiftr_0_r.
Qed.

Lemma packBigint_zlen bi : 1 <= zlen (packBigint bi) <= maxPackedBigintBytes.
Proof.
  destruct (last (Bits bi)) as [w0|] eqn:E.
  - destruct (packBigint_body bi w0 E) as (body & -> & Hl & _).
    rewrite zlen_cons. unfold maxPackedBigintBytes. lia.
  - unfold packBigint. rewrite E. done.
Qed.

(** * Properties *)

(** C36: A packed amount reads back as its absolute value together with the number of
    bytes it took, for every amount whose absolute value is below 2^1984; the packed
    form never exceeds the 249 bytes of the callers' buffers. *)
Theorem packBigint_roundtrip bi r :
  Z.abs bi < 2 ^ 1984 ->
  unpackBigint (packBigint bi ++ r) = Ret (Z.abs bi, zlen (packBigint bi)) /\
  1 <= zlen (packBigint bi) <= maxPackedBigintBytes.
Proof. intros H. split; [by apply unpackBigint_pack|apply packBigint_zlen]. Qed.

(** The sign is lost: minus five reads back as five. *)
Lemma packBigint_roundtrip_witness :
  unpackBigint (packBigint (-5)) = Ret (5, 2).
Proof.
  destruct (packBigint_roundtrip (-5) []) as [H _]; [reflexivity|].
  rewrite app_nil_r in H. rewrite H. vm_compute. reflexivity.
Defined.

(** Keys of the column [addresses] decode to the descriptor and the height they
    were made of, and for one descriptor they sort from the newest block to the
    oldest: the byte order of two keys is the reversed order of the heights. *)
Theorem packAddressKey_newest_first a h1 h2 :
  a <> [] -> in_u32 h1 -> in_u32 h2 ->
  unpackAddressKey (packAddressKey a h1) = Ret (a, h1) /\
  bytes_cmp (packAddressKey a h1) (packAddressKey a h2) = (h2 ?= h1).
Proof. intros Ha H1 H2. split; [by apply packAddressKey_unpack|by apply packAddressKey_cmp]. Qed.

Lemma packAddressKey_newest_first_witness :
  bytes_cmp (packAddressKey [Byte.x76; Byte.xa9] 500000) (packAddressKey [Byte.x76; Byte.xa9] 7) = Lt.
Proof.
  refine (proj2 (packAddressKey_newest_first [Byte.x76; Byte.xa9] 500000 7 _ _ _));
    [discriminate|split; reflexivity || discriminate..].
Defined.
