(* ===== verification/InternalState.v ===== *)
(** The internal state of the application ([common/internalstate.go]).

    Times are numbers ([time.Now()] is an argument); the mutex makes every method
    one step.  [encoding/json] is the class [StateJson]: [Pack] and
    [UnpackInternalState] only need it to read back what it wrote. *)
From stdpp Require Import base list gmap strings.
From Stdlib Require Import ZArith Lia.
From S2P Require Import Prelude.

Open Scope Z_scope.
Open Scope go_scope.

Definition DbStateClosed : Z := 0.
Definition DbStateOpen : Z := 1.
Definition DbStateInconsistent : Z := 2.

Record InternalStateColumn := mkColumn {
  Name : string;
  ColVersion : Z;
  Rows : Z;
  KeyBytes : Z;
  ValueBytes : Z;
  Updated : Z;
}.

Record InternalState := mkInternalState {
  Coin : string;
  CoinShortcut : string;
  CoinLabel : string;
  Host : string;
  DbState : Z;
  LastStore : Z;
  SyncMode : bool;
  InitialSync : bool;
  IsSynchronized : bool;
  BestHeight : Z;
  LastSync : Z;
  IsMempoolSynchronized : bool;
  MempoolSize : Z;
  LastMempoolSync : Z;
  DbColumns : list InternalStateColumn;
}.

#[global] Instance column_eq_dec : EqDecision InternalStateColumn.
Proof. solve_decision. Defined.
#[global] Instance state_eq_dec : EqDecision InternalState.
Proof. solve_decision. Defined.

(** [&InternalState{Coin: c}] *)
Definition newInternalState (c : string) : InternalState :=
  mkInternalState c EmptyString EmptyString EmptyString DbStateClosed 0 false false false 0 0 false 0 0 [].

(** ** Field updates *)

Definition set_Coin (c : string) (s : InternalState) : InternalState :=
  mkInternalState c (CoinShortcut s) (CoinLabel s) (Host s) (DbState s) (LastStore s) (SyncMode s)
    (InitialSync s) (IsSynchronized s) (BestHeight s) (LastSync s) (IsMempoolSynchronized s)
    (MempoolSize s) (LastMempoolSync s) (DbColumns s).
Definition set_DbState (z : Z) (s : InternalState) : InternalState :=
  mkInternalState (Coin s) (CoinShortcut s) (CoinLabel s) (Host s) z (LastStore s) (SyncMode s)
    (InitialSync s) (IsSynchronized s) (BestHeight s) (LastSync s) (IsMempoolSynchronized s)
    (MempoolSize s) (LastMempoolSync s) (DbColumns s).
Definition set_LastStore (z : Z) (s : InternalState) : InternalState :=
  mkInternalState (Coin s) (CoinShortcut s) (CoinLabel s) (Host s) (DbState s) z (SyncMode s)
    (InitialSync s) (IsSynchronized s) (BestHeight s) (LastSync s) (IsMempoolSynchronized s)
    (MempoolSize s) (LastMempoolSync s) (DbColumns s).
Definition set_sync (synced : bool) (best last : Z) (s : InternalState) : InternalState :=
  mkInternalState (Coin s) (CoinShortcut s) (CoinLabel s) (Host s) (DbState s) (LastStore s)
    (SyncMode s) (InitialSync s) synced best last (IsMempoolSynchronized s)
    (MempoolSize s) (LastMempoolSync s) (DbColumns s).
Definition set_mempool (synced : bool) (size last : Z) (s : InternalState) : InternalState :=
  mkInternalState (Coin s) (CoinShortcut s) (CoinLabel s) (Host s) (DbState s) (LastStore s)
    (SyncMode s) (InitialSync s) (IsSynchronized s) (BestHeight s) (LastSync s) synced size last
    (DbColumns s).
Definition set_SyncMode (b : bool) (s : InternalState) : InternalState :=
  mkInternalState (Coin s) (CoinShortcut s) (CoinLabel s) (Host s) (DbState s) (LastStore s) b
    (InitialSync s) (IsSynchronized s) (BestHeight s) (LastSync s) (IsMempoolSynchronized s)
    (MempoolSize s) (LastMempoolSync s) (DbColumns s).
Definition set_DbColumns (c : list InternalStateColumn) (s : InternalState) : InternalState :=
  mkInternalState (Coin s) (CoinShortcut s) (CoinLabel s) (Host s) (DbState s) (LastStore s)
    (SyncMode s) (InitialSync s) (IsSynchronized s) (BestHeight s) (LastSync s)
    (IsMempoolSynchronized s) (MempoolSize s) (LastMempoolSync s) c.

(** ** Methods *)

Definition StartedSync (s : InternalState) : InternalState :=
  set_sync false (BestHeight s) (LastSync s) s.

Definition FinishedSync (now bestHeight : Z) (s : InternalState) : InternalState :=
  set_sync true bestHeight now s.

Definition UpdateBestHeight (now bestHeight : Z) (s : InternalState) : InternalState :=
  set_sync (IsSynchronized s) bestHeight now s.

Definition FinishedSyncNoChange (s : InternalState) : InternalState :=
  set_sync true (BestHeight s) (LastSync s) s.

Definition GetSyncState (s : InternalState) : bool * Z * Z :=
  (IsSynchronized s, BestHeight s, LastSync s).

Definition StartedMempoolSync (s : InternalState) : InternalState :=
  set_mempool false (MempoolSize s) (LastMempoolSync s) s.

Definition FinishedMempoolSync (now mempoolSize : Z) (s : InternalState) : InternalState :=
  set_mempool true mempoolSize now s.

Definition GetMempoolSyncState (s : InternalState) : bool * Z * Z :=
  (IsMempoolSynchronized s, LastMempoolSync s, MempoolSize s).

(** [dc := &is.DbColumns[c]] followed by an update of [*dc] *)
Definition alterColumn (c : Z) (f : InternalStateColumn -> InternalStateColumn) (s : InternalState)
    : go InternalState :=
  let* dc := go_index (DbColumns s) c in
  Ret (set_DbColumns (<[Z.to_nat c := f dc]> (DbColumns s)) s).

Definition AddDBColumnStats (now c rowsDiff keyBytesDiff valueBytesDiff : Z) (s : InternalState)
    : go InternalState :=
  alterColumn c (fun dc => mkColumn (Name dc) (ColVersion dc) (i64 (Rows dc + rowsDiff))
    (i64 (KeyBytes dc + keyBytesDiff)) (i64 (ValueBytes dc + valueBytesDiff)) now) s.

Definition SetDBColumnStats (now c rows keyBytes valueBytes : Z) (s : InternalState)
    : go InternalState :=
  alterColumn c (fun dc => mkColumn (Name dc) (ColVersion dc) rows keyBytes valueBytes now) s.

Definition GetDBColumnStatValues (c : Z) (s : InternalState) : go (Z * Z * Z) :=
  if c <? zlen (DbColumns s)
  then let* dc := go_index (DbColumns s) c in Ret (Rows dc, KeyBytes dc, ValueBytes dc)
  else Ret (0, 0, 0).

Definition GetAllDBColumnStats (s : InternalState) : list InternalStateColumn := DbColumns s.

Definition DBSizeTotal (s : InternalState) : Z :=
  foldl (fun total c => i64 (total + i64 (KeyBytes c + ValueBytes c))) 0 (DbColumns s).

Class StateJson := {
  json_Marshal : InternalState -> go bytes;
  json_Unmarshal : bytes -> go InternalState;
}.

Class StateJsonLaws (J : StateJson) := {
  json_Marshal_ok : forall s, exists b, json_Marshal s = Ret b /\ b <> [];
  json_Unmarshal_Marshal : forall s b, json_Marshal s = Ret b -> json_Unmarshal b = Ret s;
}.

Definition Pack `{StateJson} (now : Z) (s : InternalState) : InternalState * go bytes :=
  let s := set_LastStore now s in (s, json_Marshal s).

Definition UnpackInternalState `{StateJson} (buf : bytes) : go InternalState := json_Unmarshal buf.

(** ** A concrete encoding, for evaluation *)

(** The fields in a row: strings, and numbers for all others. *)
Abbreviation items := (list (string + Z)).

Definition column_items (c : InternalStateColumn) : items :=
  [inl (Name c); inr (ColVersion c); inr (Rows c); inr (KeyBytes c); inr (ValueBytes c); inr (Updated c)].

Fixpoint items_columns (l : items) : option (list InternalStateColumn) :=
  match l with
  | [] => Some []
  | inl n :: inr v :: inr r :: inr k :: inr b :: inr u :: l' => cons (mkColumn n v r k b u) <$> items_columns l'
  | _ => None
  end.

Definition state_items (s : InternalState) : items :=
  [inl (Coin s); inl (CoinShortcut s); inl (CoinLabel s); inl (Host s); inr (DbState s); inr (LastStore s);
   inr (Z.b2z (SyncMode s)); inr (Z.b2z (InitialSync s)); inr (Z.b2z (IsSynchronized s)); inr (BestHeight s);
   inr (LastSync s); inr (Z.b2z (IsMempoolSynchronized s)); inr (MempoolSize s); inr (LastMempoolSync s)] ++
  concat (map column_items (DbColumns s)).

Definition items_state (l : items) : option InternalState :=
  match l with
  | inl a :: inl b :: inl c :: inl d :: inr e :: inr f :: inr g :: inr h :: inr i :: inr j :: inr k :: inr l :: inr m :: inr n :: cols =>
      mkInternalState a b c d e f (g =? 1) (h =? 1) (i =? 1) j k (l =? 1) m n <$> items_columns cols
  | _ => None
  end.

Lemma items_columns_items cs : items_columns (concat (map column_items cs)) = Some cs.
Proof. induction cs as [|[] cs IH]; [done|]. cbn. by rewrite IH. Qed.

#[global] Instance state_countable : Countable InternalState.
Proof.
  refine (inj_countable state_items items_state _).
  abstract (intros []; unfold state_items, items_state; cbn [app]; rewrite items_columns_items;
            repeat match goal with x : bool |- _ => destruct x end; reflexivity).
Defined.

Definition code_bytes (p : positive) : bytes :=
  be_bytes (S (Z.to_nat (Z.log2 (Zpos p) / 8))) (Zpos p).

Lemma code_bytes_Z p : be_Z (code_bytes p) = Zpos p.
Proof.
  unfold code_bytes. rewrite be_Z_be_bytes. apply Z.mod_small. split; [lia|].
  pose proof (Z.log2_nonneg (Zpos p)).
  assert (0 <= Z.log2 (Zpos p) / 8) by (apply Z.div_pos; lia).
  rewrite Nat2Z.inj_succ, Z2Nat.id by done. change 256 with (2 ^ 8). rewrite <- Z.pow_mul_r by lia.
  pose proof (Z.log2_spec (Zpos p) ltac:(lia)) as [_ Hs].
  eapply Z.lt_le_trans; [exact Hs|]. apply Z.pow_le_mono_r; [lia|].
  pose proof (Z.div_mod (Z.log2 (Zpos p)) 8 ltac:(done)).
  pose proof (Z.mod_pos_bound (Z.log2 (Zpos p)) 8 ltac:(done)). lia.
Qed.

#[global] Instance code_json : StateJson := {|
  json_Marshal s := Ret (code_bytes (encode s));
  json_Unmarshal b :=
    match decode (Z.to_pos (be_Z b)) with Some s => Ret s | None => Fail (ErrMsg "invalid") end;
|}.

#[global] Instance code_json_laws : StateJsonLaws code_json.
Proof.
  split; unfold json_Marshal, json_Unmarshal, code_json.
  - intros s. eexists. split; [done|]. intros E. apply (f_equal be_Z) in E.
    rewrite code_bytes_Z in E. discriminate.
  - intros s b E. injection E as <-. rewrite code_bytes_Z, Pos2Z.id, decode_encode. done.
Qed.
