(* ===== verification/AddrBalance.v ===== *)
(** Balances of addresses: [Utxo] and [AddrBalance] of [db/rocksdb.go], the
    operations on the list of unspent outputs with its lazily built index, and the
    packed form stored in the column [addressBalance]. *)
From stdpp Require Import base list gmap strings.
From Stdlib Require Import ZArith Lia.
From S2P Require Import Prelude Vlq Codec.

Open Scope Z_scope.
Open Scope go_scope.

Module Utxo.
Record t := mk { BtxID : bytes; Vout : Z; Height : Z; ValueSat : Z }.

#[global] Instance eq_dec : EqDecision t.
Proof. solve_decision. Defined.

(** [utxo.Vout = -1] *)
Definition mark_spent (u : t) : t := mk (BtxID u) (-1) (Height u) (ValueSat u).

Definition unspent (u : t) : bool := 0 <=? Vout u.
End Utxo.

(** [utxosMap] is the zero map until there are sixteen utxos; the code only tests
    its length, so a nil and an empty map are the same. *)
Record AddrBalance := mkAddrBalance {
  Txs : Z;
  SentSat : Z;
  BalanceSat : Z;
  Utxos : list Utxo.t;
  utxosMap : gmap bytes nat;
}.

Definition emptyBalance : AddrBalance := mkAddrBalance 0 0 0 [] ∅.

(** Values of the constants [AddressBalanceDetailNoUTXO], [AddressBalanceDetailUTXO]
    and [addressBalanceDetailUTXOIndexed]. *)
Inductive AddressBalanceDetail := DetailNoUTXO | DetailUTXO | DetailUTXOIndexed.

Definition set_Txs (z : Z) (ab : AddrBalance) : AddrBalance :=
  mkAddrBalance z (SentSat ab) (BalanceSat ab) (Utxos ab) (utxosMap ab).
Definition set_SentSat (z : Z) (ab : AddrBalance) : AddrBalance :=
  mkAddrBalance (Txs ab) z (BalanceSat ab) (Utxos ab) (utxosMap ab).
Definition set_BalanceSat (z : Z) (ab : AddrBalance) : AddrBalance :=
  mkAddrBalance (Txs ab) (SentSat ab) z (Utxos ab) (utxosMap ab).
Definition set_Utxos (us : list Utxo.t) (ab : AddrBalance) : AddrBalance :=
  mkAddrBalance (Txs ab) (SentSat ab) (BalanceSat ab) us (utxosMap ab).

Definition ReceivedSat (ab : AddrBalance) : Z := BalanceSat ab + SentSat ab.

Definition is_outpoint (btxID : bytes) (vout : Z) (u : Utxo.t) : bool :=
  bool_decide (Utxo.BtxID u = btxID) && (Utxo.Vout u =? vout).

Definition hasUtxo (ab : AddrBalance) (btxID : bytes) (vout : Z) : go bool :=
  if decide (utxosMap ab = ∅)
  then Ret (existsb (is_outpoint btxID vout) (Utxos ab))
  else
    match utxosMap ab !! btxID with
    | Some i => let* u := must (Utxos ab !! i) in Ret (Utxo.Vout u =? vout)
    | None => Ret false
    end.

(** [if _, e := m[s]; !e { m[s] = i }] *)
Definition insert_if_absent (m : gmap bytes nat) (s : bytes) (i : nat) : gmap bytes nat :=
  match m !! s with Some _ => m | None => <[s := i]> m end.

Fixpoint build_index (m : gmap bytes nat) (i : nat) (us : list Utxo.t) : gmap bytes nat :=
  match us with
  | [] => m
  | u :: us' => build_index (insert_if_absent m (Utxo.BtxID u) i) (S i) us'
  end.

Definition addUtxo (ab : AddrBalance) (u : Utxo.t) : AddrBalance :=
  let us := Utxos ab ++ [u] in
  let l := length us in
  let m :=
    if (16 <=? l)%nat then
      if decide (utxosMap ab = ∅) then build_index ∅ 0 us
      else insert_if_absent (utxosMap ab) (Utxo.BtxID u) (l - 1)
    else utxosMap ab in
  mkAddrBalance (Txs ab) (SentSat ab) (BalanceSat ab) us m.

(** The machine word read through [unsafe.Pointer(&id[0])]: taking the address of
    the first byte panics on an empty slice; the word is the first eight bytes. *)
Definition first_word (id : bytes) : go bytes :=
  match id with [] => Panic | _ => Ret (take 8 id) end.

(** The linear search of [markUtxoAsSpent], used while there is no index. *)
Fixpoint mark_linear (btxID : bytes) (vout : Z) (us : list Utxo.t) : go (list Utxo.t) :=
  match us with
  | [] => Ret []
  | u :: us' =>
      let next := let* r := mark_linear btxID vout us' in Ret (u :: r) in
      if Utxo.Vout u =? vout then
        let* w1 := first_word (Utxo.BtxID u) in
        let* w2 := first_word btxID in
        if bool_decide (w1 = w2) && bool_decide (Utxo.BtxID u = btxID)
        then Ret (Utxo.mark_spent u :: us')
        else next
      else next
  end.

(** The search of [markUtxoAsSpent] from an index: it stops at the first utxo with
    the given [vout], whatever its transaction is. *)
Fixpoint mark_from (btxID : bytes) (vout : Z) (us : list Utxo.t) : list Utxo.t :=
  match us with
  | [] => []
  | u :: us' =>
      if Utxo.Vout u =? vout then
        if bool_decide (Utxo.BtxID u = btxID) then Utxo.mark_spent u :: us' else us
      else u :: mark_from btxID vout us'
  end.

Definition markUtxoAsSpent (ab : AddrBalance) (btxID : bytes) (vout : Z) : go AddrBalance :=
  if decide (utxosMap ab = ∅)
  then let* us := mark_linear btxID vout (Utxos ab) in Ret (set_Utxos us ab)
  else
    match utxosMap ab !! btxID with
    | Some i =>
        Ret (set_Utxos (take i (Utxos ab) ++ mark_from btxID vout (drop i (Utxos ab))) ab)
    | None => Ret ab
    end.

(** ** The packed form *)

Section pack.
Context `{V : Vlq}.

Definition packUtxo (u : Utxo.t) : bytes :=
  if Utxo.unspent u
  then Utxo.BtxID u ++ packVaruint (Utxo.Vout u) ++ packVaruint (Utxo.Height u) ++
       packBigint (Utxo.ValueSat u)
  else [].

Definition packAddrBalance (ab : AddrBalance) : bytes :=
  packVaruint (Txs ab) ++ packBigint (SentSat ab) ++ packBigint (BalanceSat ab) ++
  concat (map packUtxo (Utxos ab)).

(** The loop [for len(buf[l:]) >= txidUnpackedLen+3]; every round reads at least
    [txidUnpackedLen] bytes, so the length of the buffer bounds the rounds. *)
Fixpoint unpackUtxos (fuel : nat) (txidUnpackedLen : Z) (indexed : bool)
    (ab : AddrBalance) (buf : bytes) : go AddrBalance :=
  if txidUnpackedLen + 3 <=? zlen buf then
    match fuel with
    | O => Panic
    | S f =>
        let* btxID := go_slice buf 0 txidUnpackedLen in
        let* buf := go_from buf txidUnpackedLen in
        let '(vout, ll) := unpackVaruint buf in
        let* buf := go_from buf ll in
        let '(height, ll) := unpackVaruint buf in
        let* buf := go_from buf ll in
        let* '(valueSat, ll) := unpackBigint buf in
        let* buf := go_from buf ll in
        let u := Utxo.mk btxID (i32 vout) (u32 height) valueSat in
        let ab := if indexed then addUtxo ab u else set_Utxos (Utxos ab ++ [u]) ab in
        unpackUtxos f txidUnpackedLen indexed ab buf
    end
  else Ret ab.

Definition unpackAddrBalance (buf : bytes) (txidUnpackedLen : Z) (detail : AddressBalanceDetail)
    : go AddrBalance :=
  let '(txs, l) := unpackVaruint buf in
  let* buf := go_from buf l in
  let* '(sentSat, sl) := unpackBigint buf in
  let* buf := go_from buf sl in
  let* '(balanceSat, bl) := unpackBigint buf in
  let* buf := go_from buf bl in
  let ab := mkAddrBalance (u32 txs) sentSat balanceSat [] ∅ in
  match detail with
  | DetailNoUTXO => Ret ab
  | DetailUTXO => unpackUtxos (length buf) txidUnpackedLen false ab buf
  | DetailUTXOIndexed => unpackUtxos (length buf) txidUnpackedLen true ab buf
  end.
End pack.

(** ** The index of utxos *)

(** The first position of a transaction among the utxos. *)
Definition find_txid (k : bytes) (us : list Utxo.t) : option nat :=
  fst <$> list_find (fun u => Utxo.BtxID u = k) us.

(** There is an index from sixteen utxos on, and it maps every transaction to the
    first of its utxos. *)
Definition index_ok (ab : AddrBalance) : Prop :=
  if decide (length (Utxos ab) < 16)%nat then utxosMap ab = ∅
  else forall k, utxosMap ab !! k = find_txid k (Utxos ab).

Lemma find_txid_cons k u us :
  find_txid k (u :: us) = if decide (Utxo.BtxID u = k) then Some 0%nat else S <$> find_txid k us.
Proof.
  unfold find_txid. simpl. case_decide; [done|].
  by destruct (list_find _ us) as [[i v]|].
Qed.

Lemma find_txid_app k us1 us2 :
  find_txid k (us1 ++ us2) =
  match find_txid k us1 with
  | Some i => Some i
  | None => (Nat.add (length us1)) <$> find_txid k us2
  end.
Proof.
  induction us1 as [|u us1 IH]; [simpl; by destruct (find_txid k us2)|].
  rewrite <- app_comm_cons, !find_txid_cons. case_decide; [done|].
  rewrite IH. by destruct (find_txid k us1), (find_txid k us2).
Qed.

Lemma find_txid_ids k us1 us2 :
  Utxo.BtxID <$> us1 = Utxo.BtxID <$> us2 -> find_txid k us1 = find_txid k us2.
Proof.
  revert us2. induction us1 as [|u us1 IH]; intros [|v us2] H; simplify_eq/=; [done|].
  rewrite !find_txid_cons. rewrite (IH us2) by done. by rewrite H.
Qed.

Lemma find_txid_None k us : find_txid k us = None -> Forall (fun u => Utxo.BtxID u <> k) us.
Proof.
  induction us as [|u us IH]; [constructor|]. rewrite find_txid_cons. case_decide; [done|].
  intros H'%fmap_None. constructor; auto.
Qed.

Lemma find_txid_Some k us i : find_txid k us = Some i ->
  Forall (fun u => Utxo.BtxID u <> k) (take i us) /\
  exists u, us !! i = Some u /\ Utxo.BtxID u = k.
Proof.
  revert i. induction us as [|u us IH]; intros i; [done|]. rewrite find_txid_cons.
  case_decide; [intros [= <-]; simpl; eauto|].
  intros (j & Hj & ->)%fmap_Some. destruct (IH j Hj) as [H1 H2]. simpl. eauto.
Qed.

Lemma lookup_insert_if_absent m s i k :
  insert_if_absent m s i !! k =
  match m !! k with Some j => Some j | None => if decide (s = k) then Some i else None end.
Proof.
  unfold insert_if_absent. destruct (m !! s) eqn:Hs.
  - destruct (m !! k) eqn:Hk; [done|]. rewrite decide_False; [done|]. congruence.
  - destruct (decide (s = k)) as [->|]; [by rewrite lookup_insert_eq, Hs|].
    rewrite lookup_insert_ne by done. by destruct (m !! k).
Qed.

Lemma lookup_build_index us m i k :
  build_index m i us !! k =
  match m !! k with Some j => Some j | None => (Nat.add i) <$> find_txid k us end.
Proof.
  revert m i. induction us as [|u us IH]; intros m i; simpl; [by destruct (m !! k)|].
  rewrite IH, lookup_insert_if_absent, find_txid_cons.
  destruct (m !! k); [done|]. case_decide; simpl; [f_equal; lia|].
  destruct (find_txid k us); simpl; [f_equal; lia|done].
Qed.

Lemma index_ok_nonempty ab : index_ok ab -> utxosMap ab <> ∅ -> (16 <= length (Utxos ab))%nat.
Proof. unfold index_ok. case_decide; [done|lia]. Qed.

Lemma index_ok_full ab : index_ok ab -> (16 <= length (Utxos ab))%nat -> utxosMap ab <> ∅.
Proof.
  unfold index_ok. case_decide; [lia|]. intros H' _ Hm. destruct (Utxos ab) as [|u us]; simpl in *; [lia|].
  specialize (H' (Utxo.BtxID u)). rewrite Hm, lookup_empty, find_txid_cons in H'.
  by rewrite decide_True in H'.
Qed.

Lemma addUtxo_index_ok ab u : index_ok ab -> index_ok (addUtxo ab u).
Proof.
  intros Hok. pose proof (index_ok_full ab Hok) as Hfull.
  unfold index_ok, addUtxo. cbn [Utxos utxosMap].
  replace (length (Utxos ab ++ [u])) with (S (length (Utxos ab))) by (rewrite length_app; simpl; lia).
  unfold index_ok in Hok.
  destruct (Nat.leb_spec 16 (S (length (Utxos ab)))) as [Hl|Hl].
  - rewrite decide_False by lia. intros k. destruct (decide (utxosMap ab = ∅)) as [Hm|Hm].
    + rewrite lookup_build_index, lookup_empty. by destruct (find_txid k _).
    + rewrite decide_False in Hok by (intros Hlt; rewrite decide_True in Hok by done; done).
      rewrite lookup_insert_if_absent, Hok, find_txid_app, find_txid_cons.
      destruct (find_txid k (Utxos ab)); [done|]. case_decide; simpl; [f_equal; lia|done].
  - rewrite decide_True in Hok by lia. by rewrite decide_True by lia.
Qed.

(** ** Marking an output as spent *)

(** The specification: the first utxo that is the outpoint becomes spent. *)
Fixpoint mark_ref (btxID : bytes) (vout : Z) (us : list Utxo.t) : list Utxo.t :=
  match us with
  | [] => []
  | u :: us' => if is_outpoint btxID vout u then Utxo.mark_spent u :: us'
                else u :: mark_ref btxID vout us'
  end.

(** The outputs of one transaction are next to each other. *)
Definition grouped (us : list Utxo.t) : Prop :=
  forall i j k u v w, (i <= j <= k)%nat ->
    us !! i = Some u -> us !! j = Some v -> us !! k = Some w ->
    Utxo.BtxID u = Utxo.BtxID w -> Utxo.BtxID v = Utxo.BtxID u.

Lemma is_outpoint_true id v u :
  is_outpoint id v u = true <-> Utxo.BtxID u = id /\ Utxo.Vout u = v.
Proof. unfold is_outpoint. rewrite andb_true_iff, bool_decide_eq_true, Z.eqb_eq. done. Qed.

Lemma mark_ref_ids id v us : Utxo.BtxID <$> mark_ref id v us = Utxo.BtxID <$> us.
Proof.
  induction us as [|u us IH]; simpl; [done|].
  destruct (is_outpoint id v u); simpl; [done|]. f_equal. exact IH.
Qed.

Lemma mark_ref_length id v us : length (mark_ref id v us) = length us.
Proof. rewrite <- (length_fmap Utxo.BtxID), mark_ref_ids. apply length_fmap. Qed.

Lemma mark_ref_skip id v us1 us2 :
  Forall (fun u => Utxo.BtxID u <> id) us1 ->
  mark_ref id v (us1 ++ us2) = us1 ++ mark_ref id v us2.
Proof.
  induction 1 as [|u us1 Hu Hus IH]; [done|]. simpl. rewrite IH.
  destruct (is_outpoint id v u) eqn:E; [|done]. by apply is_outpoint_true in E as [? _].
Qed.

Lemma mark_ref_none id v us : Forall (fun u => Utxo.BtxID u <> id) us -> mark_ref id v us = us.
Proof. intros H. rewrite <- (app_nil_r us) at 1. rewrite mark_ref_skip by done. simpl. apply app_nil_r. Qed.

Lemma mark_linear_ref id v us :
  id <> [] -> Forall (fun u => Utxo.BtxID u <> []) us ->
  mark_linear id v us = Ret (mark_ref id v us).
Proof.
  intros Hid. induction 1 as [|u us Hu Hus IH]; [done|]. cbn [mark_linear mark_ref]. rewrite IH. gostep.
  unfold is_outpoint. destruct (Z.eqb_spec (Utxo.Vout u) v); [|by rewrite andb_false_r].
  rewrite andb_true_r. unfold first_word.
  destruct (Utxo.BtxID u) eqn:E1; [done|]. destruct id eqn:E2; [done|]. gostep.
  rewrite <- E1, <- E2. destruct (decide (Utxo.BtxID u = id)) as [->|].
  - rewrite !bool_decide_true by (subst; done). done.
  - rewrite (bool_decide_false (_ = id)) by (subst; done). rewrite andb_false_r. done.
Qed.

Lemma mark_from_split id v us1 us2 :
  Forall (fun u => Utxo.BtxID u = id) us1 -> Forall (fun u => Utxo.BtxID u <> id) us2 ->
  mark_from id v (us1 ++ us2) = mark_ref id v (us1 ++ us2).
Proof.
  intros H1 H2. induction H1 as [|u us1 Hu H1 IH]; simpl.
  - rewrite mark_ref_none by done.
    induction H2 as [|u us2 Hu H2 IH]; simpl; [done|].
    case_match; [by rewrite bool_decide_false|]. by rewrite IH.
  - unfold is_outpoint. rewrite bool_decide_true by done. simpl. case_match; [done|]. by rewrite IH.
Qed.

Lemma grouped_split id us u :
  grouped (u :: us) -> Utxo.BtxID u = id ->
  exists us1 us2, u :: us = us1 ++ us2 /\
    Forall (fun w => Utxo.BtxID w = id) us1 /\ Forall (fun w => Utxo.BtxID w <> id) us2.
Proof.
  intros Hg Hu. destruct (list_find (fun w => Utxo.BtxID w <> id) (u :: us)) as [[j w]|] eqn:E.
  - apply list_find_Some in E as (Hj & Hw & Hbefore).
    exists (take j (u :: us)), (drop j (u :: us)). rewrite take_drop. split_and!; [done| |].
    + apply Forall_lookup. intros i x Hx. apply lookup_take_Some in Hx as [Hx Hi].
      destruct (decide (Utxo.BtxID x = id)); [done|]. by destruct (Hbefore i x Hx Hi).
    + apply Forall_lookup. intros i x Hx. rewrite lookup_drop in Hx. intros Heq.
      apply Hw. rewrite (Hg 0%nat j (j + i)%nat u w x); try done; [lia|congruence].
  - apply list_find_None in E. exists (u :: us), []. rewrite app_nil_r. split_and!; [done| |done].
    eapply Forall_impl; [exact E|]. intros x Hx. by apply dec_stable.
Qed.

Lemma grouped_drop i us : grouped us -> grouped (drop i us).
Proof.
  intros Hg a b c u v w Habc. rewrite !lookup_drop. apply Hg. lia.
Qed.

Lemma markUtxoAsSpent_ref ab id v :
  index_ok ab -> grouped (Utxos ab) -> id <> [] ->
  Forall (fun u => Utxo.BtxID u <> []) (Utxos ab) ->
  markUtxoAsSpent ab id v = Ret (set_Utxos (mark_ref id v (Utxos ab)) ab).
Proof.
  intros Hok Hg Hid Hne. unfold markUtxoAsSpent. case_decide as Hm.
  - by rewrite mark_linear_ref.
  - pose proof (index_ok_nonempty ab Hok Hm). unfold index_ok in Hok.
    rewrite decide_False in Hok by lia. rewrite Hok.
    destruct (find_txid id (Utxos ab)) as [i|] eqn:E.
    + apply find_txid_Some in E as (Hbefore & u & Hi & Hu). do 2 f_equal.
      pose proof (grouped_drop i _ Hg) as Hgd.
      rewrite <- (take_drop i (Utxos ab)) at 3. rewrite mark_ref_skip by done. f_equal.
      rewrite (drop_S _ u i) in * by done.
      destruct (grouped_split id _ u Hgd Hu) as (us1 & us2 & -> & H1 & H2).
      by apply mark_from_split.
    + apply find_txid_None in E. rewrite mark_ref_none by done. by destruct ab.
Qed.

(** ** Accounting *)

Definition unspent_utxos (us : list Utxo.t) : list Utxo.t := List.filter Utxo.unspent us.

Definition unspent_sum (us : list Utxo.t) : Z :=
  foldr (fun u acc => Utxo.ValueSat u + acc) 0 (unspent_utxos us).

Lemma unspent_sum_app us1 us2 : unspent_sum (us1 ++ us2) = unspent_sum us1 + unspent_sum us2.
Proof.
  unfold unspent_sum, unspent_utxos. induction us1 as [|u us1 IH]; [done|]. simpl.
  destruct (Utxo.unspent u); simpl; lia.
Qed.

Lemma unspent_sum_cons u us :
  unspent_sum (u :: us) = (if Utxo.unspent u then Utxo.ValueSat u else 0) + unspent_sum us.
Proof. unfold unspent_sum, unspent_utxos. simpl. by destruct (Utxo.unspent u). Qed.

(** Marking an outpoint takes the value of its first utxo off the unspent sum. *)
Lemma mark_ref_sum id v us :
  0 <= v ->
  unspent_sum (mark_ref id v us) =
  unspent_sum us -
  match List.find (is_outpoint id v) us with Some u => Utxo.ValueSat u | None => 0 end.
Proof.
  intros Hv. induction us as [|u us IH]; [done|]. cbn [mark_ref List.find].
  destruct (is_outpoint id v u) eqn:E.
  - apply is_outpoint_true in E as [_ E]. rewrite !unspent_sum_cons.
    unfold Utxo.unspent, Utxo.mark_spent. simpl. rewrite E.
    destruct (Z.leb_spec 0 v); [|lia]. lia.
  - rewrite !unspent_sum_cons, IH. lia.
Qed.

(** The balance is what the unspent outputs add up to. *)
Definition balanced (ab : AddrBalance) : Prop := BalanceSat ab = unspent_sum (Utxos ab).

(** ** Reading back a packed balance *)

Definition wf_utxo (n : Z) (u : Utxo.t) : Prop :=
  zlen (Utxo.BtxID u) = n /\ -1 <= Utxo.Vout u < 2 ^ 31 /\ in_u32 (Utxo.Height u) /\
  0 <= Utxo.ValueSat u < 2 ^ 1984.

Definition wf_balance (n : Z) (ab : AddrBalance) : Prop :=
  in_u32 (Txs ab) /\ 0 <= SentSat ab < 2 ^ 1984 /\ 0 <= BalanceSat ab < 2 ^ 1984 /\
  Forall (wf_utxo n) (Utxos ab).

#[global] Instance wf_utxo_dec n u : Decision (wf_utxo n u).
Proof. unfold wf_utxo. apply _. Defined.
#[global] Instance wf_balance_dec n ab : Decision (wf_balance n ab).
Proof. unfold wf_balance. apply _. Defined.

(** What a detail level reads of a stored balance. *)
Definition restored (detail : AddressBalanceDetail) (ab : AddrBalance) : AddrBalance :=
  let ab0 := mkAddrBalance (Txs ab) (SentSat ab) (BalanceSat ab) [] ∅ in
  match detail with
  | DetailNoUTXO => ab0
  | DetailUTXO => set_Utxos (unspent_utxos (Utxos ab)) ab0
  | DetailUTXOIndexed => foldl addUtxo ab0 (unspent_utxos (Utxos ab))
  end.

Lemma foldl_addUtxo us ab :
  let r := foldl addUtxo ab us in
  Utxos r = Utxos ab ++ us /\ Txs r = Txs ab /\ SentSat r = SentSat ab /\
  BalanceSat r = BalanceSat ab /\ (index_ok ab -> index_ok r).
Proof.
  revert ab. induction us as [|u us IH]; intros ab; [by rewrite app_nil_r|].
  cbn [foldl]. destruct (IH (addUtxo ab u)) as (-> & -> & -> & -> & H).
  split_and!; [unfold addUtxo; cbn [Utxos]; by rewrite <- app_assoc|done..|]. intros Hok. apply H, addUtxo_index_ok, Hok.
Qed.

Section pack_lemmas.
Context `{VL : VlqLaws}.

Lemma unpackUtxos_pack us n idx fuel ab :
  0 < n -> (length (concat (map packUtxo us)) <= fuel)%nat -> Forall (wf_utxo n) us ->
  unpackUtxos fuel n idx ab (concat (map packUtxo us)) =
  Ret (foldl (fun ab u => if idx then addUtxo ab u else set_Utxos (Utxos ab ++ [u]) ab) ab
         (unspent_utxos us)).
Proof.
  intros Hn Hf Hus. revert fuel ab Hf.
  induction Hus as [|u us (Hid & Hvout & Hh & Hval) Hus IH]; intros fuel ab Hf.
  - destruct fuel; simpl; (destruct (Z.leb_spec (n + 3) (zlen (@nil byte))) as [Hz|]; [|done]);
      rewrite zlen_nil in Hz; lia.
  - cbn [map concat]. unfold packUtxo at 1. unfold unspent_utxos. cbn [List.filter].
    destruct (Utxo.unspent u) eqn:Hu; [|apply IH; cbn [map concat] in Hf; unfold packUtxo at 1 in Hf;
      rewrite Hu in Hf; exact Hf].
    unfold Utxo.unspent in Hu. apply Z.leb_le in Hu.
    pose proof (packVaruint_len (Utxo.Vout u)). pose proof (packVaruint_len (Utxo.Height u)).
    pose proof (packBigint_zlen (Utxo.ValueSat u)) as [? _].
    cbn [map concat] in Hf. unfold packUtxo at 1, Utxo.unspent in Hf.
    rewrite (proj2 (Z.leb_le _ _)) in Hf by done.
    assert (zlen (Utxo.BtxID u) <= Z.of_nat fuel) as Hfz.
    { unfold zlen. rewrite !length_app in Hf. lia. }
    destruct fuel as [|fuel]; [lia|]. rewrite <- !app_assoc. cbn [unpackUtxos].
    rewrite (proj2 (Z.leb_le (n + 3) _)) by zlen_lia.
    rewrite go_slice_prefix by done. gostep. rewrite go_from_app by done. gostep.
    rewrite unpackVaruint_pack by (unfold in_u64; lia). rewrite go_from_app by done. gostep.
    rewrite unpackVaruint_pack by (unfold in_u32, in_u64 in *; lia). rewrite go_from_app by done. gostep.
    rewrite unpackBigint_pack by lia. gostep. rewrite go_from_app by done. gostep.
    rewrite i32_id, u32_id, Z.abs_eq by (unfold in_i32; done || lia).
    rewrite IH by (rewrite !length_app in Hf; unfold zlen in *; lia).
    by destruct u.
Qed.

Lemma foldl_append us ab :
  foldl (fun ab u => set_Utxos (Utxos ab ++ [u]) ab) ab us = set_Utxos (Utxos ab ++ us) ab.
Proof.
  revert ab. induction us as [|u us IH]; intros ab; simpl; [rewrite app_nil_r; by destruct ab|].
  rewrite IH. simpl. by rewrite <- app_assoc.
Qed.

Lemma unpackAddrBalance_pack n d ab :
  0 < n -> wf_balance n ab ->
  unpackAddrBalance (packAddrBalance ab) n d = Ret (restored d ab).
Proof.
  intros Hn (Htxs & Hsent & Hbal & Hus). unfold unpackAddrBalance, packAddrBalance.
  rewrite unpackVaruint_pack by (unfold in_u32, in_u64 in *; lia).
  rewrite go_from_app by done. gostep.
  rewrite unpackBigint_pack by lia. gostep. rewrite go_from_app by done. gostep.
  rewrite unpackBigint_pack by lia. gostep. rewrite go_from_app by done. gostep.
  rewrite u32_id, !Z.abs_eq by (done || lia).
  destruct d; [done| |]; rewrite unpackUtxos_pack by done; [|done].
  f_equal. by rewrite foldl_append.
Qed.
End pack_lemmas.

(** * Properties *)

(** C8: While the utxos of a transaction lie next to each other and the index is
    right, [markUtxoAsSpent] marks exactly the first utxo that is the outpoint,
    whether it searches linearly or through the index, and never panics. *)
Theorem markUtxoAsSpent_correct ab btxID vout :
  index_ok ab -> grouped (Utxos ab) -> btxID <> [] -> Forall (fun u => Utxo.BtxID u <> []) (Utxos ab) ->
  markUtxoAsSpent ab btxID vout = Ret (set_Utxos (mark_ref btxID vout (Utxos ab)) ab).
Proof. apply markUtxoAsSpent_ref. Qed.

(** A balance of [n] utxos of different transactions with output 5. *)
Definition fillers (n : nat) : list Utxo.t :=
  map (fun i => Utxo.mk [z2b (Z.of_nat i + 10)] 5 100 1) (seq 0 n).

Definition balance_of (us : list Utxo.t) : AddrBalance := foldl addUtxo emptyBalance us.

Lemma balance_of_index us : index_ok (balance_of us).
Proof. apply (foldl_addUtxo us emptyBalance). done. Qed.

Lemma NoDup_grouped us : NoDup (Utxo.BtxID <$> us) -> grouped us.
Proof.
  intros Hnd i j k u v w Hijk Hi Hj Hk E.
  assert (i = k); [|assert (i = j) by lia; congruence].
  apply (NoDup_lookup _ i k (Utxo.BtxID u) Hnd); rewrite list_lookup_fmap, ?Hi, ?Hk; simpl; congruence.
Qed.

(** Twenty utxos: the index is used. *)
Lemma markUtxoAsSpent_correct_witness :
  markUtxoAsSpent (balance_of (fillers 20)) [z2b 27] 5 =
  Ret (set_Utxos (mark_ref [z2b 27] 5 (Utxos (balance_of (fillers 20)))) (balance_of (fillers 20))).
Proof.
  apply (markUtxoAsSpent_correct (balance_of (fillers 20)) [z2b 27] 5).
  - apply balance_of_index.
  - apply NoDup_grouped. apply (bool_decide_unpack _). vm_compute. exact I.
  - discriminate.
  - apply (bool_decide_unpack _). vm_compute. exact I.
Defined.

(** Without that order the indexed search gives up too early: there is a balance
    with a right index that holds an outpoint as unspent, and marking the outpoint as
    spent changes nothing. *)
Theorem markUtxoAsSpent_interleaved :
  exists ab btxID vout, index_ok ab /\ existsb (is_outpoint btxID vout) (Utxos ab) = true /\
    markUtxoAsSpent ab btxID vout = Ret ab.
Proof.
  exists (balance_of ([Utxo.mk [z2b 1] 0 7 10; Utxo.mk [z2b 2] 1 8 20; Utxo.mk [z2b 1] 1 7 30] ++ fillers 13)),
    [z2b 1], 1.
  split; [apply balance_of_index|]. split; vm_compute; reflexivity.
Qed.

(** With an index, [hasUtxo] looks only at the first utxo of the transaction: it
    denies an outpoint that is in the balance. *)
Theorem hasUtxo_indexed_incomplete :
  exists ab btxID vout, index_ok ab /\ existsb (is_outpoint btxID vout) (Utxos ab) = true /\
    hasUtxo ab btxID vout = Ret false.
Proof.
  exists (balance_of ([Utxo.mk [z2b 1] 0 7 10; Utxo.mk [z2b 1] 1 7 30] ++ fillers 14)), [z2b 1], 1.
  split; [apply balance_of_index|]. split; vm_compute; reflexivity.
Qed.

(** C13: A stored balance reads back: without utxos the three counters, otherwise also
    the unspent utxos in their order, and the indexed form with a right index. *)
Theorem packAddrBalance_roundtrip `{VL : VlqLaws} n detail ab :
  0 < n -> wf_balance n ab ->
  unpackAddrBalance (packAddrBalance ab) n detail = Ret (restored detail ab) /\
  index_ok (restored DetailUTXOIndexed ab).
Proof.
  intros Hn Hwf. split; [by apply unpackAddrBalance_pack|]. unfold restored.
  apply (foldl_addUtxo _ (mkAddrBalance (Txs ab) (SentSat ab) (BalanceSat ab) [] ∅)). done.
Qed.

Lemma packAddrBalance_roundtrip_witness :
  unpackAddrBalance (packAddrBalance (set_Txs 20 (balance_of (fillers 20)))) 1 DetailUTXOIndexed =
  Ret (restored DetailUTXOIndexed (set_Txs 20 (balance_of (fillers 20)))).
Proof.
  refine (proj1 (packAddrBalance_roundtrip (V := leb) 1 DetailUTXOIndexed
                   (set_Txs 20 (balance_of (fillers 20))) _ _)); [reflexivity|].
  split; [split; [discriminate|reflexivity]|]. split; [split; [discriminate|reflexivity]|].
  split; [split; [discriminate|reflexivity]|].
  repeat (constructor; [split; [reflexivity|]; repeat split; discriminate || reflexivity|]). constructor.
Defined.
