(* ===== verification/TxAddresses.v ===== *)
(** Transactions of the index: [TxAddresses] with its inputs and outputs, the
    outpoints of the column [blockTxs] and the index lists of the column
    [addresses], with their packed forms ([db/rocksdb.go]). *)
From stdpp Require Import base list strings.
From Stdlib Require Import ZArith Lia.
From S2P Require Import Prelude Vlq Codec.

Open Scope Z_scope.
Open Scope go_scope.

Module TxInput.
Record t := mk { AddrDesc : bytes; ValueSat : Z }.
End TxInput.

Module TxOutput.
Record t := mk { AddrDesc : bytes; Spent : bool; ValueSat : Z }.
End TxOutput.

Record TxAddresses := mkTxAddresses {
  Height : Z;
  Inputs : list TxInput.t;
  Outputs : list TxOutput.t;
  ShieldIns : Z;
  ShieldOuts : Z;
  ShieldValBal : Z;
}.

Record txIndexes := mkTxIndexes { ti_btxID : bytes; ti_indexes : list Z }.

Record outpoint := mkOutpoint { op_btxID : bytes; op_index : Z }.

Record blockTxs := mkBlockTxs { bt_btxID : bytes; bt_inputs : list outpoint }.

Section codec.
Context `{V : Vlq}.

(** ** [packTxAddresses] and [unpackTxAddresses] *)

Definition appendTxInput (txi : TxInput.t) : bytes :=
  packVaruint (zlen (TxInput.AddrDesc txi)) ++ TxInput.AddrDesc txi ++
  packBigint (TxInput.ValueSat txi).

Definition appendTxOutput (txo : TxOutput.t) : bytes :=
  let la := zlen (TxOutput.AddrDesc txo) in
  let la := if TxOutput.Spent txo then Z.lnot la else la in
  packVarint la ++ TxOutput.AddrDesc txo ++ packBigint (TxOutput.ValueSat txo).

Definition packTxAddresses (ta : TxAddresses) : bytes :=
  packVaruint (Height ta) ++
  packVaruint (zlen (Inputs ta)) ++ concat (map appendTxInput (Inputs ta)) ++
  packVaruint (zlen (Outputs ta)) ++ concat (map appendTxOutput (Outputs ta)) ++
  packVaruint (ShieldIns ta) ++ packVaruint (ShieldOuts ta) ++ packBigint (ShieldValBal ta).

(** [unpackTxInput]: the input and the number of bytes read *)
Definition unpackTxInput (buf : bytes) : go (TxInput.t * Z) :=
  let '(al, l) := unpackVaruint buf in
  let* ad := go_slice buf l (l + i64 al) in
  let al := u64 (al + l) in
  let* buf := go_from buf al in
  let* '(v, l) := unpackBigint buf in
  Ret (TxInput.mk ad v, l + i64 al).

Definition unpackTxOutput (buf : bytes) : go (TxOutput.t * Z) :=
  let '(al, l) := unpackVarint buf in
  let spent := al <? 0 in
  let al := if spent then Z.lnot al else al in
  let* ad := go_slice buf l (l + al) in
  let al := al + l in
  let* buf := go_from buf al in
  let* '(v, l) := unpackBigint buf in
  Ret (TxOutput.mk ad spent v, l + al).

(** [for i := uint(0); i < n; i++ { l += unpack(&xs[i], buf[l:]) }] *)
Fixpoint unpackMany {A} (unpack : bytes -> go (A * Z)) (n : nat) (buf : bytes)
    : go (list A * bytes) :=
  match n with
  | O => Ret ([], buf)
  | S n' =>
      let* '(x, l) := unpack buf in
      let* buf := go_from buf l in
      let* '(xs, buf) := unpackMany unpack n' buf in
      Ret (x :: xs, buf)
  end.

Definition unpackTxAddresses (buf : bytes) : go TxAddresses :=
  let '(height, l) := unpackVaruint buf in
  let* buf := go_from buf l in
  let '(inputs, ll) := unpackVaruint buf in
  let* buf := go_from buf ll in
  let* '(ins, buf) := unpackMany unpackTxInput (Z.to_nat inputs) buf in
  let '(outputs, ll) := unpackVaruint buf in
  let* buf := go_from buf ll in
  let* '(outs, buf) := unpackMany unpackTxOutput (Z.to_nat outputs) buf in
  let '(shieldinputs, ll) := unpackVaruint buf in
  let* buf := go_from buf ll in
  let '(shieldoutputs, ll) := unpackVaruint buf in
  let* buf := go_from buf ll in
  let* '(bal, _) := unpackBigint buf in
  Ret (mkTxAddresses (u32 height) ins outs (u32 shieldinputs) (u32 shieldoutputs) bal).

(** ** [packTxIndexes] *)

(** The indexes of one transaction, shifted left, the last one flagged by its low
    bit. *)
Fixpoint packIndexes (l : list Z) : bytes :=
  match l with
  | [] => []
  | [i] => packVarint32 (Z.lor (i32 (Z.shiftl i 1)) 1)
  | i :: l' => packVarint32 (i32 (Z.shiftl i 1)) ++ packIndexes l'
  end.

(** The transactions are stored in reverse order, from the newest to the oldest. *)
Definition packTxIndexes (txi : list txIndexes) : bytes :=
  concat (map (fun t => ti_btxID t ++ packIndexes (ti_indexes t)) (reverse txi)).

(** The inner loop of [GetAddrDescTransactions]; every round reads at least one
    byte of a well-formed value. *)
Fixpoint unpackIndexes (fuel : nat) (val : bytes) : go (list Z * bytes) :=
  match fuel with
  | O => Panic
  | S f =>
      let '(index, l) := unpackVarint32 val in
      let* val := go_from val l in
      if Z.land index 1 =? 1 then Ret ([Z.shiftr index 1], val)
      else if zlen val =? 0 then Ret ([Z.shiftr index 1], val)
      else
        let* '(idx, val) := unpackIndexes f val in
        Ret (Z.shiftr index 1 :: idx, val)
  end.

(** ** [packOutpoints], [unpackNOutpoints] and the values of [blockTxs] *)

Definition packOutpoints (outpoints : list outpoint) : bytes :=
  concat (map (fun o => op_btxID o ++ packVarint32 (op_index o)) outpoints).

Fixpoint unpackOutpoints (n : nat) (txidUnpackedLen : Z) (p : Z) (buf : bytes)
    : go (list outpoint * Z) :=
  match n with
  | O => Ret ([], p)
  | S n' =>
      if zlen buf <=? p + txidUnpackedLen
      then Fail (ErrMsg "Inconsistent data in unpackNOutpoints")
      else
        let* btxID := go_slice buf p (p + txidUnpackedLen) in
        let p := p + txidUnpackedLen in
        let* rest := go_from buf p in
        let '(vout, voutLen) := unpackVarint32 rest in
        let p := p + voutLen in
        let* '(os, p) := unpackOutpoints n' txidUnpackedLen p buf in
        Ret (mkOutpoint btxID vout :: os, p)
  end.

Definition unpackNOutpoints (txidUnpackedLen : Z) (buf : bytes) : go (list outpoint * Z) :=
  let '(n, p) := unpackVaruint buf in
  unpackOutpoints (Z.to_nat n) txidUnpackedLen p buf.

(** The buffer [storeAndCleanupBlockTxs] builds. *)
Definition packBlockTx (b : blockTxs) : bytes :=
  bt_btxID b ++ packVaruint (zlen (bt_inputs b)) ++ packOutpoints (bt_inputs b).

Definition packBlockTxs (bs : list blockTxs) : bytes := concat (map packBlockTx bs).

(** The loop of [getBlockTxs]; a round reads at least [pl] bytes. *)
Fixpoint unpackBlockTxs (fuel : nat) (pl : Z) (buf : bytes) : go (list blockTxs) :=
  match buf with
  | [] => Ret []
  | _ =>
      if zlen buf <? pl then Fail (ErrMsg "Inconsistent data in blockTxs")
      else
        match fuel with
        | O => Panic
        | S f =>
            let* txid := go_slice buf 0 pl in
            let* buf := go_from buf pl in
            match unpackNOutpoints pl buf with
            | Ret (o, ol) =>
                let* buf := go_from buf ol in
                let* bt := unpackBlockTxs f pl buf in
                Ret (mkBlockTxs txid o :: bt)
            | Fail _ => Fail (ErrMsg "Inconsistent data in blockTxs")
            | Panic => Panic
            end
        end
  end.
End codec.

(** ** Reading back *)

Definition wf_amount (v : Z) : Prop := 0 <= v < 2 ^ 1984.

Definition wf_input (i : TxInput.t) : Prop :=
  zlen (TxInput.AddrDesc i) < 2 ^ 32 /\ wf_amount (TxInput.ValueSat i).

Definition wf_output (o : TxOutput.t) : Prop :=
  zlen (TxOutput.AddrDesc o) < 2 ^ 32 /\ wf_amount (TxOutput.ValueSat o).

Definition wf_txAddresses (ta : TxAddresses) : Prop :=
  in_u32 (Height ta) /\ Forall wf_input (Inputs ta) /\ Forall wf_output (Outputs ta) /\
  zlen (Inputs ta) < 2 ^ 32 /\ zlen (Outputs ta) < 2 ^ 32 /\
  in_u32 (ShieldIns ta) /\ in_u32 (ShieldOuts ta) /\ Z.abs (ShieldValBal ta) < 2 ^ 1984.

#[global] Instance wf_input_dec i : Decision (wf_input i).
Proof. unfold wf_input, wf_amount. apply _. Defined.
#[global] Instance wf_output_dec o : Decision (wf_output o).
Proof. unfold wf_output, wf_amount. apply _. Defined.
#[global] Instance wf_txAddresses_dec ta : Decision (wf_txAddresses ta).
Proof. unfold wf_txAddresses. apply _. Defined.

(** The index of an input or an output, as the column [addresses] can hold it:
    one bit is taken by the end mark. *)
Definition wf_index (i : Z) : Prop := - 2 ^ 30 <= i < 2 ^ 30.

Definition wf_outpoint (pl : Z) (o : outpoint) : Prop :=
  zlen (op_btxID o) = pl /\ in_i32 (op_index o).

Definition wf_blockTx (pl : Z) (b : blockTxs) : Prop :=
  zlen (bt_btxID b) = pl /\ Forall (wf_outpoint pl) (bt_inputs b) /\ zlen (bt_inputs b) < 2 ^ 32.

Definition set_ShieldValBal (z : Z) (ta : TxAddresses) : TxAddresses :=
  mkTxAddresses (Height ta) (Inputs ta) (Outputs ta) (ShieldIns ta) (ShieldOuts ta) z.

Lemma lor_1_even i : Z.lor (2 * i) 1 = 2 * i + 1.
Proof.
  pose proof (Z.add_lor_land (2 * i) 1) as H.
  assert (Z.land (2 * i) 1 = 0) as H0; [|lia].
  change 1 with (Z.ones 1). rewrite Z.land_ones by lia. change (2 ^ 1) with 2.
  rewrite Z.mul_comm. by rewrite Z.mod_mul.
Qed.

Lemma land_1_parity z : Z.land z 1 = z mod 2.
Proof. change 1 with (Z.ones 1). by rewrite Z.land_ones by lia. Qed.

Section lemmas.
Context `{VL : VlqLaws}.

Lemma unpackTxInput_append i r : wf_input i ->
  unpackTxInput (appendTxInput i ++ r) = Ret (i, zlen (appendTxInput i)).
Proof.
  intros [Hl Hv]. unfold unpackTxInput, appendTxInput, wf_amount in *. rewrite <- !app_assoc.
  pose proof (zlen_nonneg (TxInput.AddrDesc i)).
  pose proof (packVaruint_len (zlen (TxInput.AddrDesc i))).
  rewrite unpackVaruint_pack by (unfold in_u64; lia).
  rewrite i64_id by (unfold in_i64; lia). rewrite go_slice_mid by lia. gostep.
  rewrite u64_id by (unfold in_u64; lia). rewrite app_assoc, go_from_app by zlen_lia. gostep.
  rewrite unpackBigint_pack by lia. gostep.
  rewrite i64_id, Z.abs_eq by (unfold in_i64; lia). destruct i. simpl. do 2 f_equal. zlen_lia.
Qed.

Lemma unpackTxOutput_append o r : wf_output o ->
  unpackTxOutput (appendTxOutput o ++ r) = Ret (o, zlen (appendTxOutput o)).
Proof.
  intros [Hl Hv]. unfold unpackTxOutput, appendTxOutput, wf_amount in *. rewrite <- !app_assoc.
  pose proof (zlen_nonneg (TxOutput.AddrDesc o)).
  set (la := if TxOutput.Spent o then _ else _).
  assert (in_i64 la) by (subst la; unfold in_i64, Z.lnot; destruct (TxOutput.Spent o); lia).
  pose proof (packVarint_len la). rewrite unpackVarint_pack by done.
  assert ((la <? 0) = TxOutput.Spent o) as ->
    by (unfold la, Z.lnot; destruct (TxOutput.Spent o); [apply Z.ltb_lt|apply Z.ltb_ge]; lia).
  assert ((if TxOutput.Spent o then Z.lnot la else la) = zlen (TxOutput.AddrDesc o)) as ->
    by (unfold la; destruct (TxOutput.Spent o); rewrite ?Z.lnot_involutive; done).
  rewrite go_slice_mid by lia. gostep. rewrite app_assoc, go_from_app by zlen_lia. gostep.
  rewrite unpackBigint_pack by lia. gostep.
  rewrite Z.abs_eq by lia. destruct o. simpl. do 2 f_equal. zlen_lia.
Qed.

Lemma unpackMany_pack {A} (unpack : bytes -> go (A * Z)) (pack : A -> bytes) xs r :
  Forall (fun x => forall r, unpack (pack x ++ r) = Ret (x, zlen (pack x))) xs ->
  unpackMany unpack (length xs) (concat (map pack xs) ++ r) = Ret (xs, r).
Proof.
  induction 1 as [|x xs Hx Hxs IH]; [done|]. cbn [map concat length unpackMany].
  rewrite <- app_assoc, Hx. gostep. rewrite go_from_app by done. gostep. by rewrite IH.
Qed.

Lemma unpackTxAddresses_pack ta : wf_txAddresses ta ->
  unpackTxAddresses (packTxAddresses ta) =
  Ret (set_ShieldValBal (Z.abs (ShieldValBal ta)) ta).
Proof.
  intros (Hh & Hin & Hout & Hli & Hlo & Hsi & Hso & Hbal).
  pose proof (zlen_nonneg (Inputs ta)). pose proof (zlen_nonneg (Outputs ta)).
  unfold unpackTxAddresses, packTxAddresses, in_u32 in *.
  rewrite unpackVaruint_pack by (unfold in_u64; lia). rewrite go_from_app by done. gostep.
  rewrite unpackVaruint_pack by (unfold in_u64; lia). rewrite go_from_app by done. gostep.
  unfold zlen at 1. rewrite Nat2Z.id, (unpackMany_pack unpackTxInput)
    by (eapply Forall_impl; [exact Hin|]; intros; by apply unpackTxInput_append). gostep.
  rewrite unpackVaruint_pack by (unfold in_u64; lia). rewrite go_from_app by done. gostep.
  unfold zlen at 1. rewrite Nat2Z.id, (unpackMany_pack unpackTxOutput)
    by (eapply Forall_impl; [exact Hout|]; intros; by apply unpackTxOutput_append). gostep.
  rewrite unpackVaruint_pack by (unfold in_u64; lia). rewrite go_from_app by done. gostep.
  rewrite unpackVaruint_pack by (unfold in_u64; lia). rewrite go_from_app by done. gostep.
  rewrite <- (app_nil_r (packBigint _)), unpackBigint_pack by done. gostep.
  by rewrite !u32_id by (unfold in_u32; lia).
Qed.

(** *** Index lists *)

Lemma index_shift i : wf_index i -> i32 (Z.shiftl i 1) = 2 * i.
Proof.
  intros Hi. rewrite Z.shiftl_mul_pow2 by lia. change (2 ^ 1) with 2.
  rewrite i32_id; unfold in_i32, wf_index in *; lia.
Qed.

Lemma unpackIndexes_pack l r fuel :
  l <> [] -> Forall wf_index l -> (length l <= fuel)%nat ->
  unpackIndexes fuel (packIndexes l ++ r) = Ret (l, r).
Proof.
  intros Hne Hl. revert fuel Hne. induction Hl as [|i l Hi Hl IH]; intros fuel Hne Hf; [done|].
  destruct fuel as [|fuel]; simpl in Hf; [lia|]. cbn [unpackIndexes].
  destruct l as [|j l].
  - cbn [packIndexes]. rewrite index_shift, lor_1_even by done.
    rewrite unpackVarint32_pack by (unfold wf_index, in_i32 in *; lia).
    rewrite go_from_app by done. gostep. rewrite land_1_parity.
    replace ((2 * i + 1) mod 2) with 1 by (rewrite Z.add_comm, Z.mul_comm, Z.mod_add; done).
    simpl. do 3 f_equal. rewrite Z.shiftr_div_pow2 by lia. change (2 ^ 1) with 2.
    rewrite Z.mul_comm, Z.div_add_l by lia. change (1 / 2) with 0. lia.
  - change (packIndexes (i :: j :: l)) with (packVarint32 (i32 (Z.shiftl i 1)) ++ packIndexes (j :: l)).
    rewrite index_shift, <- app_assoc by done.
    rewrite unpackVarint32_pack by (unfold wf_index, in_i32 in *; lia).
    rewrite go_from_app by done. gostep. rewrite land_1_parity.
    replace ((2 * i) mod 2) with 0 by (rewrite Z.mul_comm, Z.mod_mul; done). cbn [Z.eqb].
    assert (1 <= zlen (packIndexes (j :: l))).
    { destruct l; [apply packVarint32_len|]. cbn [packIndexes]. rewrite zlen_app.
      pose proof (packVarint32_len (i32 (Z.shiftl j 1))). zlen_lia. }
    destruct (Z.eqb_spec (zlen (packIndexes (j :: l) ++ r)) 0) as [E|]; [zlen_lia|].
    rewrite IH by (done || simpl in *; lia). gostep. do 3 f_equal.
    rewrite Z.shiftr_div_pow2 by lia. change (2 ^ 1) with 2. rewrite Z.mul_comm. by apply Z.div_mul.
Qed.

(** *** Outpoints *)

Lemma unpackOutpoints_pack pl os pre r :
  0 < pl -> Forall (wf_outpoint pl) os ->
  unpackOutpoints (length os) pl (zlen pre) (pre ++ packOutpoints os ++ r) =
  Ret (os, zlen pre + zlen (packOutpoints os)).
Proof.
  intros Hpl Hos. revert pre. induction Hos as [|o os [Hid Hix] Hos IH]; intros pre.
  - simpl. by rewrite Z.add_0_r.
  - unfold packOutpoints. cbn [map concat length unpackOutpoints]. fold (packOutpoints os).
    pose proof (packVarint32_len (op_index o)).
    rewrite <- !app_assoc.
    destruct (Z.leb_spec (zlen (pre ++ op_btxID o ++ packVarint32 (op_index o) ++ packOutpoints os ++ r))
                (zlen pre + pl)); [zlen_lia|].
    rewrite go_slice_mid by lia. gostep.
    rewrite app_assoc. rewrite (go_from_app (pre ++ op_btxID o)) by zlen_lia. gostep.
    rewrite unpackVarint32_pack by done.
    replace (zlen pre + pl + zlen (packVarint32 (op_index o)))
      with (zlen ((pre ++ op_btxID o) ++ packVarint32 (op_index o))) by zlen_lia.
    rewrite app_assoc, IH. gostep. destruct o. simpl. do 2 f_equal. zlen_lia.
Qed.

Lemma unpackNOutpoints_pack pl os r :
  0 < pl -> Forall (wf_outpoint pl) os -> zlen os < 2 ^ 32 ->
  unpackNOutpoints pl (packVaruint (zlen os) ++ packOutpoints os ++ r) =
  Ret (os, zlen (packVaruint (zlen os) ++ packOutpoints os)).
Proof.
  intros Hpl Hos Hl. unfold unpackNOutpoints. pose proof (zlen_nonneg os).
  rewrite unpackVaruint_pack by (unfold in_u64; lia).
  unfold zlen at 1. rewrite Nat2Z.id, unpackOutpoints_pack by done. by rewrite zlen_app.
Qed.

Lemma unpackBlockTxs_pack pl bs fuel :
  0 < pl -> Forall (wf_blockTx pl) bs -> (length bs <= fuel)%nat ->
  unpackBlockTxs fuel pl (packBlockTxs bs) = Ret bs.
Proof.
  intros Hpl Hbs. revert fuel. induction Hbs as [|b bs (Hid & Hos & Hl) Hbs IH]; intros fuel Hf.
  - by destruct fuel.
  - destruct fuel as [|fuel]; simpl in Hf; [lia|].
    unfold packBlockTxs. cbn [map concat]. fold (packBlockTxs bs). unfold packBlockTx.
    rewrite <- !app_assoc.
    set (buf := bt_btxID b ++ _). assert (pl <= zlen buf) by (subst buf; zlen_lia).
    destruct buf as [|x buf'] eqn:Eb; [rewrite zlen_nil in *; lia|].
    cbn [unpackBlockTxs]. rewrite <- Eb in *. destruct (Z.ltb_spec (zlen buf) pl); [lia|].
    subst buf. rewrite go_slice_prefix by done. gostep. rewrite go_from_app by done. gostep.
    rewrite unpackNOutpoints_pack by done. rewrite app_assoc, go_from_app by done. gostep.
    rewrite IH by lia. by destruct b.
Qed.
End lemmas.

(** * Properties *)

(** C35: A transaction stored in the column [txAddresses] reads back with its height,
    inputs, outputs (with their spent marks) and shielded counters; the shielded
    balance comes back as its absolute value, because [packBigint] keeps no sign. *)
Theorem packTxAddresses_roundtrip `{VL : VlqLaws} ta :
  wf_txAddresses ta ->
  unpackTxAddresses (packTxAddresses ta) = Ret (set_ShieldValBal (Z.abs (ShieldValBal ta)) ta) /\
  (0 <= ShieldValBal ta -> unpackTxAddresses (packTxAddresses ta) = Ret ta).
Proof.
  intros H. split; [by apply unpackTxAddresses_pack|]. intros Hb.
  rewrite unpackTxAddresses_pack, Z.abs_eq by done. by destruct ta.
Qed.

(** The outputs of this transaction hold a spent and an unspent one. *)
Definition sample_tx : TxAddresses :=
  mkTxAddresses 321 [TxInput.mk [Byte.x76] 1000]
    [TxOutput.mk [Byte.xa9; Byte.x14] true 400; TxOutput.mk [] false 0] 0 2 (-600).

Lemma packTxAddresses_roundtrip_witness :
  unpackTxAddresses (packTxAddresses sample_tx) = Ret (set_ShieldValBal 600 sample_tx).
Proof.
  refine (proj1 (packTxAddresses_roundtrip sample_tx _)).
  repeat split; repeat constructor; vm_compute; congruence.
Defined.

(** The value of the column [blockTxs] for a block, the transactions of the block
    with the outpoints they spend, reads back whole, with as many rounds of the
    reading loop as the block has transactions. *)
Theorem packBlockTxs_roundtrip `{VL : VlqLaws} pl bs :
  0 < pl -> Forall (wf_blockTx pl) bs ->
  unpackBlockTxs (length bs) pl (packBlockTxs bs) = Ret bs.
Proof. intros. by apply unpackBlockTxs_pack. Qed.

Lemma packBlockTxs_roundtrip_witness :
  let bs := [mkBlockTxs [Byte.x01; Byte.x02] [mkOutpoint [Byte.x00; Byte.x00] (-1)];
             mkBlockTxs [Byte.x03; Byte.x04]
               [mkOutpoint [Byte.x01; Byte.x02] 0; mkOutpoint [Byte.x01; Byte.x02] 70000]] in
  unpackBlockTxs 2 2 (packBlockTxs bs) = Ret bs.
Proof.
  intros bs. refine (packBlockTxs_roundtrip 2 bs _ _); [reflexivity|].
  repeat constructor; vm_compute; congruence.
Defined.
