(* ===== verification/BaseParser.v ===== *)
(** The base of all parsers ([bchain/baseparser.go]): amounts as decimal text, packed
    transaction ids and block hashes, transactions packed with protocol buffers.

    Amount texts are lists of characters (a Go string is a byte slice).  The
    generated code of [bchain/tx.pb.go] and the protobuf library are the class
    [ProtoTx]: the code needs [Unmarshal] to read back what [Marshal] wrote. *)
From stdpp Require Import base countable list strings.
From Stdlib Require Import ZArith Lia Ascii.
From S2P Require Import Prelude Hex Types InternalState.

Open Scope Z_scope.
Open Scope go_scope.

Abbreviation text := (list ascii).

(** * Decimal text: [big.Int.String] and [big.Int.SetString] *)

Definition dec_char (d : Z) : ascii := ascii_of_nat (Z.to_nat (48 + d)).

Definition dec_val (c : ascii) : option Z :=
  let n := Z.of_nat (nat_of_ascii c) in
  if (48 <=? n) && (n <=? 57) then Some (n - 48) else None.

(** The decimal digits of a natural number; [fuel] bounds their number. *)
Fixpoint dec_digits (fuel : nat) (n : Z) : text :=
  match fuel with
  | O => []
  | S f => (if n <? 10 then [] else dec_digits f (n / 10)) ++ [dec_char (n mod 10)]
  end.

Definition nat_String (n : Z) : text := dec_digits (S (Z.to_nat (Z.log2 n))) n.

Definition big_String (a : Z) : text :=
  if a <? 0 then "-"%char :: nat_String (- a) else nat_String a.

(** The value of a non-empty text of digits. *)
Fixpoint dec_fold (acc : Z) (s : text) : option Z :=
  match s with
  | [] => Some acc
  | c :: s' => match dec_val c with Some d => dec_fold (acc * 10 + d) s' | None => None end
  end.

Definition nat_SetString (s : text) : option Z :=
  match s with [] => None | _ => dec_fold 0 s end.

(** [r.SetString(s, 10)]: an optional sign and at least one digit. *)
Definition big_SetString (s : text) : option Z :=
  match s with
  | "-"%char :: s' => Z.opp <$> nat_SetString s'
  | "+"%char :: s' => nat_SetString s'
  | _ => nat_SetString s
  end.

(** [strings.IndexByte]: -1 if the byte is not there *)
Fixpoint IndexByte (s : text) (c : ascii) : Z :=
  match s with
  | [] => -1
  | x :: s' =>
      if decide (x = c) then 0
      else let i := IndexByte s' c in if i =? -1 then -1 else i + 1
  end.

(** [strings.TrimRight(s, cutset)] for the cutset of one byte *)
Fixpoint TrimRight (s : text) (c : ascii) : text :=
  match s with
  | [] => []
  | x :: s' =>
      match TrimRight s' c with
      | [] => if decide (x = c) then [] else [x]
      | r => x :: r
      end
  end.

Definition zeros : text := repeat "0"%char 40.

(** * The parser *)

Record BaseParser := mkBaseParser { BlockAddressesToKeep : Z; AmountDecimalPoint : Z }.

Definition clampDecimals (d : Z) : Z := if zlen zeros <? d then zlen zeros else d.

Definition AmountToBigInt (p : BaseParser) (s : text) : go Z :=
  let i := IndexByte s "." in
  let d := clampDecimals (AmountDecimalPoint p) in
  let* s :=
    (if i =? -1 then let* z := go_slice zeros 0 d in Ret (s ++ z)
     else
       let z := d - zlen s + i + 1 in
       if 0 <? z then
         let* s1 := go_slice s 0 i in
         let* s2 := go_from s (i + 1) in
         let* z := go_slice zeros 0 z in
         Ret (s1 ++ s2 ++ z)
       else
         let* s1 := go_slice s 0 i in
         let* s2 := go_slice s (i + 1) (zlen s + z) in
         Ret (s1 ++ s2)) in
  match big_SetString s with
  | Some r => Ret r
  | None => Fail (ErrMsg "AmountToBigInt: failed to convert")
  end.

(** [None] is the nil amount. *)
Definition AmountToDecimalString (a : option Z) (d : Z) : go text :=
  match a with
  | None => Ret []
  | Some a =>
      let n := big_String a in
      let* c := go_index n 0 in
      let* '(s, n) := (if decide (c = "-"%char) then let* n := go_from n 1 in Ret (["-"%char], n)
                       else Ret ([], n)) in
      let d := clampDecimals d in
      let* n := (if zlen n <=? d then let* z := go_slice zeros 0 (d - zlen n + 1) in Ret (z ++ n)
                 else Ret n) in
      let i := zlen n - d in
      let* frac := go_from n i in
      let ad := TrimRight frac "0" in
      let* int := go_slice n 0 i in
      Ret (s ++ (if 0 <? zlen ad then int ++ "."%char :: ad else int))
  end.

Definition BaseParser_AmountToDecimalString (p : BaseParser) (a : option Z) : go text :=
  AmountToDecimalString a (AmountDecimalPoint p).

Definition BaseParser_GetAddrDescForUnknownInput (tx : Tx.t) (input : Z) : bytes := [].

Definition BaseParser_GetValueSatForUnknownInput (tx : Tx.t) (input : Z) : Z := 0.

Definition BaseParser_PackedTxidLen : Z := 32.

Definition BaseParser_PackTxid (txid : string) : go bytes :=
  if decide (txid = EmptyString) then Fail ErrTxidMissing else hex_DecodeString txid.

Definition BaseParser_UnpackTxid (buf : bytes) : go string := Ret (hex_EncodeToString buf).

Definition BaseParser_PackBlockHash (hash : string) : go bytes := hex_DecodeString hash.

Definition BaseParser_UnpackBlockHash (buf : bytes) : go string := Ret (hex_EncodeToString buf).

Definition BaseParser_IsAddrDescIndexable (addrDesc : bytes) : bool := true.

Definition BaseParser_EthereumTypeGetErc20FromTx (tx : Tx.t) : go (list Erc20Transfer.t) :=
  Fail (ErrMsg "Not supported").

(** What a parser that does not define them does with blocks, transactions and extended keys. *)
Definition BaseParser_ParseBlock (b : bytes) : go Block.t := Fail (ErrMsg "ParseBlock: not implemented").
Definition BaseParser_ParseTx (b : bytes) : go Tx.t := Fail (ErrMsg "ParseTx: not implemented").
Definition BaseParser_DerivationBasePath (xpub : string) : go string := Fail (ErrMsg "Not supported").
Definition BaseParser_DeriveAddressDescriptors (xpub : string) (change : Z) (indexes : list Z) : go (list bytes) :=
  Fail (ErrMsg "Not supported").
Definition BaseParser_DeriveAddressDescriptorsFromTo (xpub : string) (change fromIndex toIndex : Z) : go (list bytes) :=
  Fail (ErrMsg "Not supported").

(** ** Transactions as protocol buffers *)

Module ProtoVin.
Record t := mk {
  Coinbase : string;
  Txid : bytes;
  Vout : Z;
  ScriptSigHex : bytes;
  Sequence : Z;
  Addresses : list string;
}.
End ProtoVin.

Module ProtoVout.
Record t := mk {
  ValueSat : bytes;
  N : Z;
  ScriptPubKeyHex : bytes;
  Addresses : list string;
}.
End ProtoVout.

Module ProtoTransaction.
Record t := mk {
  Txid : bytes;
  Hex : bytes;
  Blocktime : Z;
  Locktime : Z;
  Height : Z;
  Vin : list ProtoVin.t;
  Vout : list ProtoVout.t;
  Version : Z;
}.
End ProtoTransaction.

Class ProtoTx := {
  proto_Marshal : ProtoTransaction.t -> go bytes;
  proto_Unmarshal : bytes -> go ProtoTransaction.t;
}.

Class ProtoTxLaws (M : ProtoTx) := {
  proto_Unmarshal_Marshal : forall pt b, proto_Marshal pt = Ret b -> proto_Unmarshal b = Ret pt;
}.

(** [big.Int.Bytes]: the absolute value, big-endian, without leading zeros *)
Definition big_Bytes (a : Z) : bytes :=
  if a =? 0 then [] else be_bytes (S (Z.to_nat (Z.log2 (Z.abs a) / 8))) (Z.abs a).

(** [big.Int.SetBytes] *)
Definition big_SetBytes (b : bytes) : Z := be_Z b.

Definition packVin (vi : Vin.t) : go ProtoVin.t :=
  let* hex := hex_DecodeString (Vin.ScriptSigHex vi) in
  let* itxid := match BaseParser_PackTxid (Vin.Txid vi) with
                | Fail ErrTxidMissing => Ret []
                | r => r
                end in
  Ret (ProtoVin.mk (Vin.Coinbase vi) itxid (Vin.Vout vi) hex (Vin.Sequence vi) (Vin.Addresses vi)).

Definition packVout (vo : Vout.t) : go ProtoVout.t :=
  let* hex := hex_DecodeString (Vout.ScriptPubKeyHex vo) in
  Ret (ProtoVout.mk (big_Bytes (Vout.ValueSat vo)) (Vout.N vo) hex (Vout.Addresses vo)).

(** [for i, x := range l { r[i], err = f(x); if err != nil { return err } }] *)
Fixpoint go_map {A B} (f : A -> go B) (l : list A) : go (list B) :=
  match l with
  | [] => Ret []
  | x :: l' => let* y := f x in let* ys := go_map f l' in Ret (y :: ys)
  end.

Definition BaseParser_PackTx `{ProtoTx} (tx : Tx.t) (height blockTime : Z) : go bytes :=
  let* pti := go_map packVin (Tx.Vin tx) in
  let* pto := go_map packVout (Tx.Vout tx) in
  let* hex := hex_DecodeString (Tx.Hex tx) in
  let* txid := BaseParser_PackTxid (Tx.Txid tx) in
  proto_Marshal (ProtoTransaction.mk txid hex (u64 blockTime) (Tx.LockTime tx) height pti pto
                   (Tx.Version tx)).

Definition unpackVin (pti : ProtoVin.t) : go Vin.t :=
  let* itxid := BaseParser_UnpackTxid (ProtoVin.Txid pti) in
  Ret (Vin.mk (ProtoVin.Coinbase pti) itxid (ProtoVin.Vout pti)
         (hex_EncodeToString (ProtoVin.ScriptSigHex pti)) (ProtoVin.Sequence pti)
         (ProtoVin.Addresses pti)).

Definition unpackVout (pto : ProtoVout.t) : Vout.t :=
  Vout.mk (big_SetBytes (ProtoVout.ValueSat pto)) EmptyString (ProtoVout.N pto)
    (hex_EncodeToString (ProtoVout.ScriptPubKeyHex pto)) (ProtoVout.Addresses pto).

Definition BaseParser_UnpackTx `{ProtoTx} (buf : bytes) : go (Tx.t * Z) :=
  let* pt := proto_Unmarshal buf in
  let* txid := BaseParser_UnpackTxid (ProtoTransaction.Txid pt) in
  let* vin := go_map unpackVin (ProtoTransaction.Vin pt) in
  let vout := map unpackVout (ProtoTransaction.Vout pt) in
  Ret (Tx.mk (hex_EncodeToString (ProtoTransaction.Hex pt)) txid (ProtoTransaction.Version pt)
         (ProtoTransaction.Locktime pt) vin vout 0 (i64 (ProtoTransaction.Blocktime pt))
         (i64 (ProtoTransaction.Blocktime pt)) [] [] 0 NoSpecificData,
       ProtoTransaction.Height pt).

(** * Amounts *)

Definition is_digit (c : ascii) : Prop := is_Some (dec_val c).

Lemma dec_val_char d : 0 <= d < 10 -> dec_val (dec_char d) = Some d.
Proof.
  intros H. assert (d = 0 \/ d = 1 \/ d = 2 \/ d = 3 \/ d = 4 \/ d = 5 \/ d = 6 \/ d = 7 \/ d = 8 \/ d = 9)
    as Hd by lia.
  repeat destruct Hd as [-> | Hd]; try done. by subst.
Qed.

Lemma dec_fold_app acc s1 s2 :
  dec_fold acc (s1 ++ s2) = match dec_fold acc s1 with Some v => dec_fold v s2 | None => None end.
Proof.
  revert acc. induction s1 as [|c s1 IH]; intros acc; simpl; [done|].
  destruct (dec_val c); [apply IH|done].
Qed.

Lemma dec_fold_digits acc s v : dec_fold acc s = Some v -> Forall is_digit s.
Proof.
  revert acc. induction s as [|c s IH]; intros acc; simpl; [constructor|].
  destruct (dec_val c) eqn:E; [|done]. intros H. constructor; [by eexists|eauto].
Qed.

Lemma dec_digits_fold f n : 0 <= n < 2 ^ Z.of_nat f -> n <> 0 \/ f <> O ->
  dec_digits f n <> [] /\ dec_fold 0 (dec_digits f n) = Some n.
Proof.
  revert n. induction f as [|f IH]; intros n Hn H0.
  { change (2 ^ Z.of_nat 0) with 1 in Hn. lia. }
  cbn [dec_digits]. split; [by destruct (if n <? 10 then _ else _)|].
  pose proof (Z.mod_pos_bound n 10 ltac:(lia)). rewrite dec_fold_app.
  destruct (Z.ltb_spec n 10) as [Hlt|Hge].
  - simpl. rewrite dec_val_char, Z.mod_small by lia. done.
  - rewrite Nat2Z.inj_succ, Z.pow_succ_r in Hn by lia.
    pose proof (Z.div_mod n 10 ltac:(lia)).
    destruct (IH (n / 10)) as [_ ->].
    + split; [apply Z.div_pos; lia|]. apply Z.div_lt_upper_bound; lia.
    + left. lia.
    + simpl. rewrite dec_val_char by lia. f_equal. lia.
Qed.

Lemma nat_String_fold n : 0 <= n ->
  nat_String n <> [] /\ dec_fold 0 (nat_String n) = Some n.
Proof.
  intros Hn. apply dec_digits_fold; [|by right].
  pose proof (Z.log2_nonneg n). rewrite Nat2Z.inj_succ, Z2Nat.id by done.
  destruct (decide (n = 0)) as [-> |]; [done|]. pose proof (Z.log2_spec n). lia.
Qed.

Lemma big_String_inj a b : 0 <= a -> 0 <= b -> big_String a = big_String b -> a = b.
Proof.
  intros Ha Hb. unfold big_String. destruct (Z.ltb_spec a 0), (Z.ltb_spec b 0); [lia..|]. intros E.
  destruct (nat_String_fold a Ha) as [_ E1], (nat_String_fold b Hb) as [_ E2]. rewrite E, E2 in E1. by injection E1.
Qed.

Lemma digit_not c : is_digit c -> c <> "."%char /\ c <> "-"%char /\ c <> "+"%char.
Proof. intros H. repeat split; intros ->; by destruct H. Qed.

(** A sign and digits read as the signed number. *)
Lemma big_SetString_sign (neg : bool) s v : s <> [] -> dec_fold 0 s = Some v ->
  big_SetString ((if neg then ["-"%char] else []) ++ s) = Some (if neg then - v else v).
Proof.
  intros Hne Hv. destruct neg; simpl.
  - unfold nat_SetString. destruct s; [done|]. by rewrite Hv.
  - pose proof (dec_fold_digits _ _ _ Hv) as Hd. destruct s as [|c s]; [done|].
    apply Forall_cons_1 in Hd as [(_ & H1 & H2)%digit_not _].
    assert (big_SetString (c :: s) = nat_SetString (c :: s)) as ->; [|done].
    unfold big_SetString. repeat (case_match; try done).
Qed.

Lemma PackTxid_hex b : b <> [] -> BaseParser_PackTxid (hex_EncodeToString b) = Ret b.
Proof.
  intros Hb. unfold BaseParser_PackTxid. rewrite decide_False, hex_DecodeString_Encode; [done|].
  intros E. apply (f_equal String.length) in E. rewrite hex_EncodeToString_length in E. by destruct b.
Qed.

Lemma IndexByte_none s c : Forall (fun x => x <> c) s -> IndexByte s c = -1.
Proof. induction 1 as [|x s Hx Hs IH]; simpl; [done|]. rewrite decide_False by done. by rewrite IH. Qed.

Lemma IndexByte_app s c r : Forall (fun x => x <> c) s -> IndexByte (s ++ c :: r) c = zlen s.
Proof.
  induction 1 as [|x s Hx Hs IH]; simpl; [by rewrite decide_True|].
  rewrite decide_False, IH by done. rewrite zlen_cons. pose proof (zlen_nonneg s).
  destruct (Z.eqb_spec (zlen s) (-1)); lia.
Qed.

Lemma TrimRight_split s c : exists k, s = TrimRight s c ++ repeat c k.
Proof.
  induction s as [|x s [k IH]]; [by exists O|]. cbn [TrimRight].
  destruct (TrimRight s c) as [|y r] eqn:E.
  - destruct (decide (x = c)) as [-> |].
    + exists (S k). simpl in *. by rewrite <- IH.
    + exists k. simpl in *. by rewrite <- IH.
  - exists k. rewrite IH at 1. done.
Qed.

Lemma go_slice_zeros n : 0 <= n <= 40 -> go_slice zeros 0 n = Ret (repeat "0"%char (Z.to_nat n)).
Proof.
  intros Hn. unfold zeros. replace 40%nat with (Z.to_nat n + (40 - Z.to_nat n))%nat by lia.
  rewrite repeat_app. apply go_slice_prefix. unfold zlen. rewrite repeat_length. lia.
Qed.

Lemma dec_fold_zeros k : dec_fold 0 (repeat "0"%char k) = Some 0.
Proof. induction k; [done|]. simpl. done. Qed.

Lemma clampDecimals_range d : 0 <= d -> 0 <= clampDecimals d <= 40.
Proof. intros. unfold clampDecimals. change (zlen zeros) with 40. destruct (Z.ltb_spec 40 d); lia. Qed.

(** The printed amount: a sign, an integer part and a fraction without its final
    zeros, whose digits with [d] decimals write the amount. *)
Lemma AmountToDecimalString_parts a d : 0 <= d ->
  exists (neg : bool) int ad k,
    int <> [] /\ zlen ad + Z.of_nat k = clampDecimals d /\
    (exists v, dec_fold 0 (int ++ ad ++ repeat "0"%char k) = Some v /\ a = (if neg then - v else v)) /\
    AmountToDecimalString (Some a) d =
      Ret ((if neg then ["-"%char] else []) ++ (if 0 <? zlen ad then int ++ "."%char :: ad else int)).
Proof.
  intros Hd. pose proof (clampDecimals_range d Hd) as Hc.
  set (neg := a <? 0). set (N := nat_String (Z.abs a)).
  destruct (nat_String_fold (Z.abs a)) as [HN HNv]; [lia|]. fold N in HN, HNv.
  assert (big_String a = (if neg then ["-"%char] else []) ++ N) as Eb.
  { unfold big_String, neg, N. destruct (Z.ltb_spec a 0); [by rewrite Z.abs_neq by lia|by rewrite Z.abs_eq by lia]. }
  set (c := clampDecimals d).
  set (pad := if zlen N <=? c then repeat "0"%char (Z.to_nat (c - zlen N + 1)) else []).
  assert (c < zlen (pad ++ N)) as Hlen.
  { unfold pad. rewrite zlen_app. destruct (Z.leb_spec (zlen N) c); [|rewrite zlen_nil; lia].
    unfold zlen at 1. rewrite repeat_length. lia. }
  assert (dec_fold 0 (pad ++ N) = Some (Z.abs a)) as Hv.
  { rewrite dec_fold_app. unfold pad. destruct (zlen N <=? c); [by rewrite dec_fold_zeros|done]. }
  set (i := Z.to_nat (zlen (pad ++ N) - c)).
  destruct (TrimRight_split (drop i (pad ++ N)) "0"%char) as [k Hk].
  set (ad := TrimRight (drop i (pad ++ N)) "0") in *.
  exists neg, (take i (pad ++ N)), ad, k.
  assert (zlen (take i (pad ++ N)) = zlen (pad ++ N) - c) as Hi.
  { unfold zlen. rewrite length_take. subst i. unfold zlen in *. subst c. lia. }
  split; [intros E; rewrite E, zlen_nil in Hi; lia|].
  split.
  { apply (f_equal zlen) in Hk. rewrite zlen_app in Hk. unfold zlen in Hk at 1 3.
    rewrite length_drop, repeat_length in Hk. subst i. unfold zlen in *. subst c. lia. }
  split.
  { exists (Z.abs a). rewrite <- Hk, take_drop. split; [done|]. unfold neg. destruct (Z.ltb_spec a 0); lia. }
  unfold AmountToDecimalString. rewrite Eb.
  assert ((let* x := go_index ((if neg then ["-"%char] else []) ++ N) 0 in
     (if decide (x = "-"%char) then let* n := go_from ((if neg then ["-"%char] else []) ++ N) 1 in Ret (["-"%char], n)
      else Ret ([], (if neg then ["-"%char] else []) ++ N))) = Ret ((if neg then ["-"%char] else []), N)) as E1.
  { destruct neg; simpl.
    - change ("-"%char :: N) with (["-"%char] ++ N). by rewrite go_from_app.
    - destruct N as [|x N'] eqn:EN; [done|]. rewrite go_index_0. gostep.
      pose proof (dec_fold_digits _ _ _ HNv) as HD. apply Forall_cons in HD as [(_ & Hm & _)%digit_not _].
      by rewrite decide_False. }
  destruct (go_index _ 0) as [x| |]; cbn [go_bind] in E1 |- *; [|done..]. rewrite E1. gostep.
  fold c. assert ((if zlen N <=? c then let* z := go_slice zeros 0 (c - zlen N + 1) in Ret (z ++ N) else Ret N)
    = Ret (pad ++ N)) as ->.
  { unfold pad. destruct (Z.leb_spec (zlen N) c); [|done].
    assert (1 <= zlen N) by (destruct N; [done|zlen_lia]). rewrite go_slice_zeros by lia. done. }
  assert (go_from (pad ++ N) (zlen (pad ++ N) - c) = Ret (drop i (pad ++ N))) as E2.
  { rewrite <- (take_drop i (pad ++ N)) at 1. by apply go_from_app. }
  assert (go_slice (pad ++ N) 0 (zlen (pad ++ N) - c) = Ret (take i (pad ++ N))) as E3.
  { rewrite <- (take_drop i (pad ++ N)) at 1. by apply go_slice_prefix. }
  gostep. rewrite E2. gostep. rewrite E3. done.
Qed.

Lemma AmountToBigInt_print p a : 0 <= AmountDecimalPoint p ->
  (let* s := BaseParser_AmountToDecimalString p (Some a) in AmountToBigInt p s) = Ret a.
Proof.
  intros Hd. unfold BaseParser_AmountToDecimalString.
  destruct (AmountToDecimalString_parts a (AmountDecimalPoint p) Hd)
    as (neg & int & ad & k & Hint & Hk & (v & Hv & Ha) & ->). gostep.
  pose proof (clampDecimals_range _ Hd) as Hc. unfold AmountToBigInt.
  pose proof (dec_fold_digits _ _ _ Hv) as HD. apply Forall_app in HD as [Hdi _].
  set (sg := if neg then ["-"%char] else []).
  assert (Forall (fun x => x <> "."%char) (sg ++ int)) as Hno.
  { apply Forall_app. split; [subst sg; destruct neg; by repeat constructor|].
    eapply Forall_impl; [exact Hdi|]. intros c Hcd. by apply digit_not. }
  assert (int ++ ad ++ repeat "0"%char k <> []) as Hne by (by destruct int).
  destruct (Z.ltb_spec 0 (zlen ad)) as [Hlt|Hge].
  - rewrite app_assoc, IndexByte_app by done. destruct (Z.eqb_spec (zlen (sg ++ int)) (-1)); [zlen_lia|].
    set (dd := clampDecimals (AmountDecimalPoint p)) in *.
    replace (dd - zlen ((sg ++ int) ++ "."%char :: ad) + zlen (sg ++ int) + 1) with (Z.of_nat k) by zlen_lia.
    change ((sg ++ int) ++ "."%char :: ad) with ((sg ++ int) ++ ["."%char] ++ ad) at 1 2 3 4.
    destruct (Z.ltb_spec 0 (Z.of_nat k)).
    + rewrite go_slice_prefix by done. gostep. rewrite app_assoc, go_from_app by zlen_lia. gostep.
      rewrite go_slice_zeros by lia. gostep. rewrite Nat2Z.id, <- app_assoc.
      unfold sg. rewrite (big_SetString_sign neg _ v) by done. by subst.
    + assert (k = O) as -> by lia. rewrite go_slice_prefix by done. gostep.
      rewrite app_assoc, <- (app_nil_r ad) at 1. rewrite go_slice_mid by zlen_lia. gostep.
      rewrite app_nil_r in *. rewrite <- app_assoc. unfold sg. rewrite (big_SetString_sign neg _ v) by done. by subst.
  - assert (ad = []) as -> by (apply zlen_0_inv; zlen_lia). rewrite IndexByte_none by done. cbn [Z.eqb Pos.eqb].
    rewrite go_slice_zeros by lia. gostep. rewrite <- app_assoc. rewrite zlen_nil in Hk.
    replace (Z.to_nat (clampDecimals _)) with k by lia.
    unfold sg. rewrite (big_SetString_sign neg _ v) by done. by subst.
Qed.

(** * Transactions *)

Lemma big_SetBytes_Bytes a : big_SetBytes (big_Bytes a) = Z.abs a.
Proof.
  unfold big_SetBytes, big_Bytes. destruct (Z.eqb_spec a 0) as [-> |Ha]; [done|].
  rewrite be_Z_be_bytes. apply Z.mod_small. split; [lia|].
  pose proof (Z.log2_nonneg (Z.abs a)).
  assert (0 <= Z.log2 (Z.abs a) / 8) by (apply Z.div_pos; lia).
  rewrite Nat2Z.inj_succ, Z2Nat.id by done. change 256 with (2 ^ 8). rewrite <- Z.pow_mul_r by lia.
  pose proof (Z.log2_spec (Z.abs a) ltac:(lia)) as [_ Hs].
  eapply Z.lt_le_trans; [exact Hs|]. apply Z.pow_le_mono_r; [lia|].
  pose proof (Z.div_mod (Z.log2 (Z.abs a)) 8 ltac:(done)).
  pose proof (Z.mod_pos_bound (Z.log2 (Z.abs a)) 8 ltac:(done)). lia.
Qed.

(** Lower-case text of whole bytes. *)
Definition is_hex (s : string) : Prop := exists b, s = hex_EncodeToString b.

Definition wf_vin (v : Vin.t) : Prop := is_hex (Vin.ScriptSigHex v) /\ is_hex (Vin.Txid v).

Definition wf_vout (v : Vout.t) : Prop := is_hex (Vout.ScriptPubKeyHex v) /\ 0 <= Vout.ValueSat v.

(** What the packed form keeps of an output: not the temporary JSON amount. *)
Definition stored_vout (v : Vout.t) : Vout.t :=
  Vout.mk (Vout.ValueSat v) EmptyString (Vout.N v) (Vout.ScriptPubKeyHex v) (Vout.Addresses v).

(** What the packed form keeps of a transaction: the two times become the time of the
    block, the number of confirmations and the shielded data are dropped. *)
Definition stored_tx (tx : Tx.t) (blockTime : Z) : Tx.t :=
  Tx.mk (Tx.Hex tx) (Tx.Txid tx) (Tx.Version tx) (Tx.LockTime tx) (Tx.Vin tx)
    (map stored_vout (Tx.Vout tx)) 0 blockTime blockTime [] [] 0 NoSpecificData.

Lemma go_map_inverse {A B C} (f : A -> go B) (g : B -> go C) (h : A -> C) l :
  Forall (fun x => exists y, f x = Ret y /\ g y = Ret (h x)) l ->
  exists ys, go_map f l = Ret ys /\ go_map g ys = Ret (map h l).
Proof.
  induction 1 as [|x l (y & Hf & Hg) Hl (ys & IHf & IHg)]; [by exists []|].
  exists (y :: ys). simpl. by rewrite Hf, IHf, Hg, IHg.
Qed.

Lemma unpackVin_pack v : wf_vin v -> exists p, packVin v = Ret p /\ unpackVin p = Ret v.
Proof.
  intros [[b Hb] [t Ht]]. unfold packVin, unpackVin, BaseParser_PackTxid.
  rewrite Hb, Ht, hex_DecodeString_Encode. gostep. destruct (decide (hex_EncodeToString t = EmptyString)) as [E|E].
  - eexists. split; [done|]. destruct v; simpl in *. subst. simpl. by rewrite E.
  - rewrite hex_DecodeString_Encode. eexists. split; [done|]. destruct v; simpl in *. by subst.
Qed.

Lemma unpackVout_pack v : wf_vout v -> exists p, packVout v = Ret p /\ unpackVout p = stored_vout v.
Proof.
  intros [[b Hb] Hv]. unfold packVout. rewrite Hb, hex_DecodeString_Encode. eexists. split; [done|].
  unfold unpackVout, stored_vout. simpl. by rewrite big_SetBytes_Bytes, Z.abs_eq, Hb.
Qed.

Lemma go_map_Forall2 {A B} (f : A -> go B) l ys : go_map f l = Ret ys -> Forall2 (fun x y => f x = Ret y) l ys.
Proof.
  revert ys. induction l as [|x l IH]; intros ys; simpl; [by intros [= <-]|].
  intros (y & Hy & (ys' & Hys & [= <-])%go_bind_ret)%go_bind_ret. constructor; auto.
Qed.

Lemma go_map_eq {A B} (f : A -> go B) (g : A -> B) l : (forall x, x ∈ l -> f x = Ret (g x)) -> go_map f l = Ret (map g l).
Proof.
  induction l as [|x l IH]; intros Hf; simpl; [done|]. rewrite Hf by (by left). gostep.
  rewrite IH; [done|]. intros y Hy. apply Hf. by right.
Qed.

Lemma go_map_pure {A B} (f : A -> B) l : go_map (fun x => Ret (f x)) l = Ret (map f l).
Proof. induction l as [|x l IH]; simpl; [done|]. by rewrite IH. Qed.

Lemma UnpackTx_PackTx `{ML : ProtoTxLaws} tx height bt buf :
  Forall wf_vin (Tx.Vin tx) -> Forall wf_vout (Tx.Vout tx) -> is_hex (Tx.Hex tx) -> is_hex (Tx.Txid tx) ->
  in_i64 bt -> BaseParser_PackTx tx height bt = Ret buf ->
  BaseParser_UnpackTx buf = Ret (stored_tx tx bt, height).
Proof.
  intros Hvi Hvo [hx Hhx] [ti Hid] Hbt. unfold BaseParser_PackTx.
  destruct (go_map_inverse packVin unpackVin (fun v => v) (Tx.Vin tx)) as (pti & -> & Hpti).
  { eapply Forall_impl; [exact Hvi|]. apply unpackVin_pack. }
  destruct (go_map_inverse packVout (fun p => Ret (unpackVout p)) stored_vout (Tx.Vout tx)) as (pto & -> & Hpto).
  { eapply Forall_impl; [exact Hvo|]. intros v (p & H1 & H2)%unpackVout_pack. exists p. by rewrite H2. }
  gostep. rewrite go_map_pure in Hpto. injection Hpto as Hpto.
  rewrite Hhx, hex_DecodeString_Encode. gostep. intros (t & Ht & Hm)%go_bind_ret.
  unfold BaseParser_PackTxid in Ht. rewrite Hid in Ht. case_decide; [done|].
  rewrite hex_DecodeString_Encode in Ht. injection Ht as <-.
  unfold BaseParser_UnpackTx. rewrite (proto_Unmarshal_Marshal _ _ Hm). gostep. cbn [ProtoTransaction.Vin ProtoTransaction.Txid].
  rewrite map_id in Hpti. cbn [BaseParser_UnpackTxid go_bind]. rewrite Hpti. gostep.
  unfold stored_tx. cbn [ProtoTransaction.Vout ProtoTransaction.Hex ProtoTransaction.Blocktime]. rewrite Hpto, Hhx, Hid.
  assert (i64 (u64 bt) = bt) as ->; [|done].
  unfold i64, u64, in_i64 in *. rewrite Zplus_mod_idemp_l, Z.mod_small; lia.
Qed.

(** * A concrete encoding, for evaluation *)

#[global] Instance pvin_eq_dec : EqDecision ProtoVin.t.
Proof. solve_decision. Defined.
#[global] Instance pvout_eq_dec : EqDecision ProtoVout.t.
Proof. solve_decision. Defined.
#[global] Instance ptx_eq_dec : EqDecision ProtoTransaction.t.
Proof. solve_decision. Defined.

#[global] Instance pvin_countable : Countable ProtoVin.t.
Proof.
  refine (inj_countable'
    (fun v => (ProtoVin.Coinbase v, ProtoVin.Txid v, ProtoVin.Vout v, ProtoVin.ScriptSigHex v,
               ProtoVin.Sequence v, ProtoVin.Addresses v))
    (fun '(a, b, c, d, e, f) => ProtoVin.mk a b c d e f) _). by intros [].
Defined.
#[global] Instance pvout_countable : Countable ProtoVout.t.
Proof.
  refine (inj_countable'
    (fun v => (ProtoVout.ValueSat v, ProtoVout.N v, ProtoVout.ScriptPubKeyHex v, ProtoVout.Addresses v))
    (fun '(a, b, c, d) => ProtoVout.mk a b c d) _). by intros [].
Defined.
#[global] Instance ptx_countable : Countable ProtoTransaction.t.
Proof.
  refine (inj_countable'
    (fun t => (ProtoTransaction.Txid t, ProtoTransaction.Hex t, ProtoTransaction.Blocktime t,
               ProtoTransaction.Locktime t, ProtoTransaction.Height t, ProtoTransaction.Vin t,
               ProtoTransaction.Vout t, ProtoTransaction.Version t))
    (fun '(a, b, c, d, e, f, g, h) => ProtoTransaction.mk a b c d e f g h) _). by intros [].
Defined.

#[global] Instance code_proto : ProtoTx := {|
  proto_Marshal t := Ret (code_bytes (encode t));
  proto_Unmarshal b :=
    match decode (Z.to_pos (be_Z b)) with Some t => Ret t | None => Fail (ErrMsg "invalid") end;
|}.

#[global] Instance code_proto_laws : ProtoTxLaws code_proto.
Proof.
  split. intros pt b E. injection E as <-. unfold proto_Unmarshal, code_proto.
  rewrite code_bytes_Z, Pos2Z.id, decode_encode. done.
Qed.

(** * Properties *)

(** Amounts survive the decimal notation: for every amount, negative ones too, and
    every number of decimal places of the coin, [AmountToBigInt] reads the text
    [AmountToDecimalString] prints and returns the amount. *)
Theorem amount_roundtrip p a : 0 <= AmountDecimalPoint p ->
  (let* s := BaseParser_AmountToDecimalString p (Some a) in AmountToBigInt p s) = Ret a.
Proof. apply AmountToBigInt_print. Qed.

Lemma amount_roundtrip_witness :
  (let* s := BaseParser_AmountToDecimalString (mkBaseParser 3 8) (Some (-1200000000)) in
   AmountToBigInt (mkBaseParser 3 8) s) = Ret (-1200000000).
Proof. refine (amount_roundtrip (mkBaseParser 3 8) (-1200000000) _). discriminate. Defined.

(** A transaction packed with protocol buffers reads back with its height, its
    inputs and its outputs; both times become the time of the block, the number of
    confirmations and the shielded parts are not kept. *)
Theorem BaseParser_PackTx_roundtrip `{ML : ProtoTxLaws} tx height bt buf :
  Forall wf_vin (Tx.Vin tx) -> Forall wf_vout (Tx.Vout tx) -> is_hex (Tx.Hex tx) -> is_hex (Tx.Txid tx) ->
  in_i64 bt -> BaseParser_PackTx tx height bt = Ret buf ->
  BaseParser_UnpackTx buf = Ret (stored_tx tx bt, height).
Proof. apply UnpackTx_PackTx. Qed.

Definition sample_btc_tx : Tx.t :=
  Tx.mk "0100" "aa00" 1 0 [Vin.mk EmptyString "bb00" 1 "51" 4294967295 []]
    [Vout.mk 5000000000 EmptyString 0 "76a9" ["addr"%string]] 3 11 12 [] [] 0 NoSpecificData.

Lemma BaseParser_PackTx_roundtrip_witness :
  exists buf, BaseParser_PackTx sample_btc_tx 100 77 = Ret buf /\
    BaseParser_UnpackTx buf = Ret (stored_tx sample_btc_tx 77, 100).
Proof.
  eexists. split; [reflexivity|]. refine (BaseParser_PackTx_roundtrip sample_btc_tx 100 77 _ _ _ _ _ _ eq_refl).
  - repeat constructor; [by exists [Byte.x51]|by exists [Byte.xbb; Byte.x00]].
  - repeat constructor; [by exists [Byte.x76; Byte.xa9]|discriminate].
  - by exists [Byte.x01; Byte.x00].
  - by exists [Byte.xaa; Byte.x00].
  - by vm_compute.
Defined.
