(* ===== verification/BitcoinParser.v ===== *)
(** The parser of Bitcoin-like chains ([bchain/coins/btc/bitcoinparser.go]).

    [btcutil], [txscript], [wire] and [hdkeychain] are not part of the repository:
    the class [BtcLib] lists what the parser calls of them.  [bitcoin_parser] is the
    instance of the parser interface that the index is run with. *)
From stdpp Require Import base list strings.
From Stdlib Require Import ZArith Lia Ascii.
From S2P Require Import Prelude Hex Types Vlq BaseParser.

Open Scope Z_scope.
Open Scope go_scope.

Definition OP_RETURN : Z := 106.
Definition OP_PUSHDATA1 : Z := 76.

Inductive ScriptClass :=
  | PubKeyHashTy | WitnessV0PubKeyHashTy | ScriptHashTy | WitnessV0ScriptHashTy | OtherScriptTy.

Module Wire.
Record TxIn := mkTxIn {
  PrevHash : string;
  PrevIndex : Z;
  SignatureScript : bytes;
  Sequence : Z;
}.
Record TxOut := mkTxOut { Value : Z; PkScript : bytes }.
Record MsgTx := mkMsgTx {
  Hash : string;
  IsCoinBase : bool;
  Version : Z;
  LockTime : Z;
  TxIns : list TxIn;
  TxOuts : list TxOut;
}.
Record MsgBlock := mkMsgBlock { Timestamp : Z; Transactions : list MsgTx }.
End Wire.

Class BtcLib := {
  Address : Type;
  ConvertP2PKtoP2PKH : bytes -> go bytes;
  DecodeAddress : string -> go Address;
  PayToAddrScript : Address -> go bytes;
  EncodeAddress : Address -> string;
  ExtractPkScriptAddrs : bytes -> go (ScriptClass * list Address);
  tx_Deserialize : bytes -> go Wire.MsgTx;
  block_Deserialize : bytes -> go Wire.MsgBlock;
  Hash160 : bytes -> bytes;
  NewAddressScriptHashFromHash : bytes -> go Address;
  NewAddressWitnessPubKeyHash : bytes -> go Address;
  ExtendedKey : Type;
  NewKeyFromString : string -> go ExtendedKey;
  Child : ExtendedKey -> Z -> go ExtendedKey;
  key_Version : ExtendedKey -> Z;
  key_Address : ExtendedKey -> go Address;
  key_PubKeyBytes : ExtendedKey -> bytes;
  key_ChildNum : ExtendedKey -> Z;
  key_Depth : ExtendedKey -> Z;
}.

(** The configuration and the fields of the struct [BitcoinParser]. *)
Record BitcoinParser := mkBitcoinParser {
  Base : BaseParser;
  XPubMagicSegwitP2sh : Z;
  XPubMagicSegwitNative : Z;
  Slip44 : Z;
}.

Definition NewBitcoinParser (keep p2sh native slip44 : Z) : BitcoinParser :=
  mkBitcoinParser (mkBaseParser keep 8) p2sh native slip44.

Definition string_of_text (t : text) : string := String.string_of_list_ascii t.
Definition string_of_bytes (b : bytes) : string := String.string_of_list_byte b.

Section parser.
Context `{L : BtcLib} `{V : Vlq} (p : BitcoinParser).

Definition btc_GetAddrDescFromVout (output : Vout.t) : go bytes :=
  let* ad := hex_DecodeString (Vout.ScriptPubKeyHex output) in ConvertP2PKtoP2PKH ad.

Definition addressToOutputScript (address : string) : go bytes :=
  let* da := DecodeAddress address in PayToAddrScript da.

Definition btc_GetAddrDescFromAddress (address : string) : go bytes := addressToOutputScript address.

Definition btc_IsAddrDescIndexable (addrDesc : bytes) : bool :=
  match addrDesc with
  | [] => false
  | b :: _ => negb (b2z b =? OP_RETURN)
  end.

(** ** OP_RETURN scripts *)

Definition omniCurrencyMap (id : Z) : option string :=
  if id =? 1 then Some "Omni"%string
  else if id =? 2 then Some "Test Omni"%string
  else if id =? 31 then Some "TetherUS"%string
  else None.

Definition omniHeader : bytes := map z2b [111; 109; 110; 105; 0; 0; 0; 0].

Definition tryParseOmni (data : bytes) : go string :=
  if negb (zlen data =? 20) then Ret EmptyString
  else
    let* c := go_index data 0 in
    if negb (b2z c =? 111) then Ret EmptyString
    else
      let* h := go_slice data 0 8 in
      if negb (bool_decide (h = omniHeader)) then Ret EmptyString
      else
        let* cb := go_slice data 8 12 in
        let currencyID := be_Z cb in
        match omniCurrencyMap currencyID with
        | None => Ret EmptyString
        | Some currency =>
            let* ab := go_from data 12 in
            let* amountStr := BaseParser_AmountToDecimalString (Base p) (Some (be_Z ab)) in
            Ret ("OMNI Simple Send: " ++ string_of_text amountStr ++ " " ++ currency ++ " (#" ++
                 string_of_text (big_String currencyID) ++ ")")%string
        end.

(** The data of the script and its declared length: the variant with
    OP_PUSHDATA1 first. *)
Definition opReturnData (script : bytes) : go (Z * bytes) :=
  let* s1 := go_index script 1 in
  if (b2z s1 =? OP_PUSHDATA1) && (2 <? zlen script) then
    let* s2 := go_index script 2 in
    let* data := go_from script 3 in
    if b2z s2 =? zlen data then Ret (b2z s2, data)
    else let* data := go_from script 2 in Ret (b2z s1, data)
  else let* data := go_from script 2 in Ret (b2z s1, data).

Definition TryParseOPReturn (script : bytes) : go string :=
  if 1 <? zlen script then
    let* s0 := go_index script 0 in
    if b2z s0 =? OP_RETURN then
      let* '(l, data) := opReturnData script in
      if l =? zlen data then
        let* ed := tryParseOmni data in
        if negb (bool_decide (ed = EmptyString)) then Ret ed
        else
          let isASCII := forallb (fun c => negb ((b2z c <? 32) || (127 <? b2z c))) data in
          Ret ("OP_RETURN " ++ (if isASCII then "(" ++ string_of_bytes data ++ ")"
                                else hex_EncodeToString data))%string
      else Ret EmptyString
    else Ret EmptyString
  else Ret EmptyString.

Definition outputScriptToAddresses (script : bytes) : go (list string * bool) :=
  let* '(sc, addresses) := ExtractPkScriptAddrs script in
  let rv := map EncodeAddress addresses in
  match sc with
  | OtherScriptTy =>
      if zlen rv =? 0 then
        let* or := TryParseOPReturn script in
        Ret (if bool_decide (or = EmptyString) then rv else [or], false)
      else Ret (rv, false)
  | _ => Ret (rv, true)
  end.

Definition btc_GetScriptFromAddrDesc (addrDesc : bytes) : go bytes := Ret addrDesc.

Definition btc_GetAddressesFromAddrDesc (addrDesc : bytes) : go (list string * bool) :=
  outputScriptToAddresses addrDesc.

(** ** Transactions and blocks *)

Definition zeroVin : Vin.t := Vin.mk EmptyString EmptyString 0 EmptyString 0 [].

Definition vinFromTxIn (i : Wire.TxIn) : Vin.t :=
  Vin.mk EmptyString (Wire.PrevHash i) (Wire.PrevIndex i)
    (hex_EncodeToString (Wire.SignatureScript i)) (Wire.Sequence i) [].

(** The loop is left at the first input of a coinbase transaction: the other
    inputs stay empty. *)
Definition vinsFromMsgTx (t : Wire.MsgTx) : list Vin.t :=
  if Wire.IsCoinBase t then
    match Wire.TxIns t with
    | [] => []
    | i :: is' =>
        Vin.mk (hex_EncodeToString (Wire.SignatureScript i)) EmptyString 0 EmptyString (Wire.Sequence i) []
          :: map (fun _ => zeroVin) is'
    end
  else map vinFromTxIn (Wire.TxIns t).

Definition voutFromTxOut (parseAddresses : bool) (i : nat) (out : Wire.TxOut) : go Vout.t :=
  let* addrs :=
    (if parseAddresses then
       match btc_GetAddressesFromAddrDesc (Wire.PkScript out) with
       | Ret (addrs, _) => Ret addrs
       | Fail _ => Ret []
       | Panic => Panic
       end
     else Ret []) in
  Ret (Vout.mk (Wire.Value out) EmptyString (u32 (Z.of_nat i)) (hex_EncodeToString (Wire.PkScript out)) addrs).

Definition TxFromMsgTx (t : Wire.MsgTx) (parseAddresses : bool) : go Tx.t :=
  let* vout := go_map (fun x => voutFromTxOut parseAddresses x.1 x.2)
                 (combine (seq 0 (length (Wire.TxOuts t))) (Wire.TxOuts t)) in
  Ret (Tx.mk EmptyString (Wire.Hash t) (Wire.Version t) (Wire.LockTime t) (vinsFromMsgTx t) vout
         0 0 0 [] [] 0 NoSpecificData).

Definition set_Hex (h : string) (tx : Tx.t) : Tx.t :=
  Tx.mk h (Tx.Txid tx) (Tx.Version tx) (Tx.LockTime tx) (Tx.Vin tx) (Tx.Vout tx) (Tx.Confirmations tx)
    (Tx.Time tx) (Tx.Blocktime tx) (Tx.VShieldIn tx) (Tx.VShieldOut tx) (Tx.ShieldValBal tx)
    (Tx.SpecificData tx).

Definition set_Blocktime (bt : Z) (tx : Tx.t) : Tx.t :=
  Tx.mk (Tx.Hex tx) (Tx.Txid tx) (Tx.Version tx) (Tx.LockTime tx) (Tx.Vin tx) (Tx.Vout tx)
    (Tx.Confirmations tx) (Tx.Time tx) bt (Tx.VShieldIn tx) (Tx.VShieldOut tx) (Tx.ShieldValBal tx)
    (Tx.SpecificData tx).

Definition btc_ParseTx (b : bytes) : go Tx.t :=
  let* t := tx_Deserialize b in
  let* tx := TxFromMsgTx t true in
  Ret (set_Hex (hex_EncodeToString b) tx).

Definition btc_ParseBlock (b : bytes) : go Block.t :=
  let* w := block_Deserialize b in
  let* txs := go_map (fun t => TxFromMsgTx t false) (Wire.Transactions w) in
  Ret (Block.mk EmptyString EmptyString EmptyString 0 0 (zlen b) (Wire.Timestamp w) txs).

(** A failing [hex.Decode] returns the error with the prefix of the buffer. *)
Definition btc_PackTx (tx : Tx.t) (height blockTime : Z) : go bytes :=
  let* h := hex_DecodeString (Tx.Hex tx) in
  Ret (be_bytes 4 height ++ vlq_PutInt blockTime ++ h).

Definition btc_UnpackTx (buf : bytes) : go (Tx.t * Z) :=
  let* hb := go_slice buf 0 4 in
  let height := be_Z hb in
  let* b := go_from buf 4 in
  let '(bt, l) := vlq_Int b in
  let* raw := go_from buf (4 + l) in
  let* tx := btc_ParseTx raw in
  Ret (set_Blocktime bt tx, height).

(** ** Extended public keys *)

Definition addrDescFromExtKey (extKey : ExtendedKey) : go bytes :=
  let* a :=
    (if key_Version extKey =? XPubMagicSegwitP2sh p then
       let pubKeyHash := Hash160 (key_PubKeyBytes extKey) in
       let redeemScript := z2b 0 :: z2b (zlen pubKeyHash) :: pubKeyHash in
       NewAddressScriptHashFromHash (Hash160 redeemScript)
     else if key_Version extKey =? XPubMagicSegwitNative p then
       NewAddressWitnessPubKeyHash (Hash160 (key_PubKeyBytes extKey))
     else key_Address extKey) in
  PayToAddrScript a.

Definition deriveIndex (changeExtKey : ExtendedKey) (index : Z) : go bytes :=
  let* indexExtKey := Child changeExtKey index in addrDescFromExtKey indexExtKey.

Definition DeriveAddressDescriptors (xpub : string) (change : Z) (indexes : list Z) : go (list bytes) :=
  let* extKey := NewKeyFromString xpub in
  let* changeExtKey := Child extKey change in
  go_map (deriveIndex changeExtKey) indexes.

(** [for index := fromIndex; index < toIndex; index++] *)
Fixpoint deriveFrom (n : nat) (changeExtKey : ExtendedKey) (index : Z) : go (list bytes) :=
  match n with
  | O => Ret []
  | S n' =>
      let* ad := deriveIndex changeExtKey index in
      let* r := deriveFrom n' changeExtKey (index + 1) in
      Ret (ad :: r)
  end.

Definition DeriveAddressDescriptorsFromTo (xpub : string) (change fromIndex toIndex : Z)
    : go (list bytes) :=
  if toIndex <=? fromIndex then Fail (ErrMsg "toIndex<=fromIndex")
  else
    let* extKey := NewKeyFromString xpub in
    let* changeExtKey := Child extKey change in
    deriveFrom (Z.to_nat (toIndex - fromIndex)) changeExtKey fromIndex.

Definition DerivationBasePath (xpub : string) : go string :=
  let* extKey := NewKeyFromString xpub in
  let cn := key_ChildNum extKey in
  let '(cn, c) := if 2147483648 <=? cn then (cn - 2147483648, "'"%string) else (cn, EmptyString) in
  let c := (string_of_text (big_String cn) ++ c)%string in
  if negb (key_Depth extKey =? 3) then Ret ("unknown/" ++ c)%string
  else
    let bip := if key_Version extKey =? XPubMagicSegwitP2sh p then "49"%string
               else if key_Version extKey =? XPubMagicSegwitNative p then "84"%string
               else "44"%string in
    Ret ("m/" ++ bip ++ "'/" ++ string_of_text (big_String (Slip44 p)) ++ "'/" ++ c)%string.

(** ** The interface *)

Definition bitcoin_parser : BlockChainParser := {|
  GetChainType := ChainBitcoinType;
  KeepBlockAddresses := BlockAddressesToKeep (Base p);
  AmountDecimals := AmountDecimalPoint (Base p);
  GetAddrDescFromVout := btc_GetAddrDescFromVout;
  GetAddrDescFromAddress := btc_GetAddrDescFromAddress;
  GetAddressesFromAddrDesc := btc_GetAddressesFromAddrDesc;
  IsAddrDescIndexable := btc_IsAddrDescIndexable;
  PackedTxidLen := BaseParser_PackedTxidLen;
  PackTxid := BaseParser_PackTxid;
  UnpackTxid := BaseParser_UnpackTxid;
  PackTx := btc_PackTx;
  UnpackTx := btc_UnpackTx;
  GetAddrDescForUnknownInput := BaseParser_GetAddrDescForUnknownInput;
  GetValueSatForUnknownInput := BaseParser_GetValueSatForUnknownInput;
  PackBlockHash := BaseParser_PackBlockHash;
  UnpackBlockHash := BaseParser_UnpackBlockHash;
  EthereumTypeGetErc20FromTx := BaseParser_EthereumTypeGetErc20FromTx;
|}.
End parser.

Section lemmas.
Context `{L : BtcLib} `{VL : VlqLaws} (p : BitcoinParser).

#[export] Instance bitcoin_parser_laws : ParserLaws (bitcoin_parser p).
Proof.
  split; cbn -[Z.pow]; [done| |].
  - intros b Hb. eexists. split; [done|]. apply PackTxid_hex. by intros ->.
  - intros b Hb. eexists. split; [done|]. apply hex_DecodeString_Encode.
Qed.

Lemma btc_UnpackTx_PackTx tx raw height bt :
  Tx.Hex tx = hex_EncodeToString raw -> in_u32 height -> in_i64 bt ->
  (let* buf := btc_PackTx tx height bt in btc_UnpackTx p buf) =
  (let* t := btc_ParseTx p raw in Ret (set_Blocktime bt t, height)).
Proof.
  intros Hr Hh Hb. unfold btc_PackTx. rewrite Hr, hex_DecodeString_Encode. gostep.
  unfold btc_UnpackTx. rewrite go_slice_prefix by (by rewrite be_bytes_zlen). gostep.
  rewrite be_Z_be_bytes, Z.mod_small by done.
  rewrite go_from_app by (by rewrite be_bytes_zlen). gostep. rewrite Int_PutInt by done.
  rewrite app_assoc, go_from_app by (rewrite zlen_app, be_bytes_zlen; lia). done.
Qed.

Lemma deriveFrom_map n k from :
  deriveFrom p n k from = go_map (deriveIndex p k) (map (fun i => from + Z.of_nat i) (seq 0 n)).
Proof.
  revert from. induction n as [|n IH]; intros from; [done|]. cbn [deriveFrom seq map go_map].
  rewrite Z.add_0_r. destruct (deriveIndex p k from); [gostep|done..].
  rewrite IH. do 2 f_equal. rewrite <- fmap_S_seq, map_map. apply map_ext. intros i. lia.
Qed.

(** *** OP_RETURN *)

Lemma tryParseOmni_total data :
  0 <= AmountDecimalPoint (Base p) -> exists s, tryParseOmni p data = Ret s.
Proof.
  intros Hd. unfold tryParseOmni. destruct (Z.eqb_spec (zlen data) 20) as [E|]; [cbn [negb]|cbn [negb]; eauto].
  destruct data as [|c data']; [rewrite zlen_nil in E; lia|]. set (data := c :: data') in *.
  change (go_index data 0) with (Ret c). gostep. destruct (negb _); [eauto|].
  destruct (go_slice_ok data 0 8) as (h & -> & _); [lia..|]. gostep. destruct (negb _); [eauto|].
  destruct (go_slice_ok data 8 12) as (cb & -> & _); [lia..|]. gostep.
  destruct (omniCurrencyMap _); [|eauto]. unfold go_from.
  destruct (go_slice_ok data 12 (zlen data)) as (ab & -> & _); [lia..|]. gostep.
  destruct (AmountToDecimalString_parts (be_Z ab) (AmountDecimalPoint (Base p)) Hd)
    as (? & ? & ? & ? & _ & _ & _ & E'). unfold BaseParser_AmountToDecimalString. rewrite E'. gostep. eauto.
Qed.

Lemma opReturnData_ok script : 1 < zlen script ->
  exists l data, opReturnData script = Ret (l, data) /\ exists pre, script = pre ++ data.
Proof.
  intros Hl. unfold opReturnData.
  destruct script as [|b0 [|b1 r]]; [rewrite ?zlen_cons, ?zlen_nil in Hl; lia..|].
  change (go_index (b0 :: b1 :: r) 1) with (Ret b1). gostep.
  assert (go_from (b0 :: b1 :: r) 2 = Ret r) as E2 by (by apply (go_from_app [b0; b1])).
  destruct ((b2z b1 =? OP_PUSHDATA1) && (2 <? zlen (b0 :: b1 :: r))) eqn:E.
  - apply andb_true_iff in E as [_ E]. destruct r as [|b2 r]; [done|].
    change (go_index (b0 :: b1 :: b2 :: r) 2) with (Ret b2). gostep.
    rewrite (go_from_app [b0; b1; b2] r) by done. gostep.
    destruct (b2z b2 =? zlen r); [|rewrite E2]; do 2 eexists; (split; [done|]).
    + by exists [b0; b1; b2].
    + by exists [b0; b1].
  - rewrite E2. do 2 eexists. split; [done|]. by exists [b0; b1].
Qed.

Lemma TryParseOPReturn_total script :
  0 <= AmountDecimalPoint (Base p) -> exists s, TryParseOPReturn p script = Ret s.
Proof.
  intros Hd. unfold TryParseOPReturn. destruct (Z.ltb_spec 1 (zlen script)) as [Hl|]; [|eauto].
  destruct script as [|b r]; [rewrite zlen_nil in Hl; lia|].
  change (go_index (b :: r) 0) with (Ret b). gostep. destruct (_ =? OP_RETURN); [|eauto].
  destruct (opReturnData_ok (b :: r)) as (l & data & -> & _); [done|]. gostep.
  destruct (l =? zlen data); [|eauto].
  destruct (tryParseOmni_total data Hd) as [s ->]. gostep. destruct (negb _); eauto.
Qed.
End lemmas.

(** * A concrete library

    Scripts stand for their own addresses, a raw transaction is its hash and an
    extended key is a path: enough to run the parser. *)
#[global] Instance plain_lib : BtcLib := {|
  Address := bytes;
  ConvertP2PKtoP2PKH := Ret;
  DecodeAddress := hex_DecodeString;
  PayToAddrScript := Ret;
  EncodeAddress := hex_EncodeToString;
  ExtractPkScriptAddrs b :=
    match b with
    | c :: _ => if b2z c =? OP_RETURN then Ret (OtherScriptTy, []) else Ret (PubKeyHashTy, [b])
    | [] => Ret (OtherScriptTy, [])
    end;
  tx_Deserialize b := Ret (Wire.mkMsgTx (hex_EncodeToString b) false 1 0 [] [Wire.mkTxOut 7 b]);
  block_Deserialize b := Ret (Wire.mkMsgBlock 0 []);
  Hash160 b := b;
  NewAddressScriptHashFromHash := Ret;
  NewAddressWitnessPubKeyHash := Ret;
  ExtendedKey := list Z;
  NewKeyFromString _ := Ret [];
  Child k i := Ret (i :: k);
  key_Version _ := 0;
  key_Address k := Ret (map z2b k);
  key_PubKeyBytes k := map z2b k;
  key_ChildNum k := default 0 (head k);
  key_Depth k := zlen k;
|}.

(** A parser that keeps the data of three blocks. *)
Definition plain_parser : BlockChainParser := bitcoin_parser (V := leb) (NewBitcoinParser 3 49 84 0).

#[global] Instance plain_parser_laws : ParserLaws plain_parser.
Proof. apply bitcoin_parser_laws. Qed.

(** * Properties *)

Section properties.
Context `{L : BtcLib} `{VL : VlqLaws} (p : BitcoinParser).

(** Reading a packed transaction is parsing its raw bytes: height and block time
    come back, and the transaction is the one [ParseTx] reads from the stored hex, with
    its block time; an error of the wire format is passed on. *)
Theorem btc_PackTx_roundtrip tx raw height bt :
  Tx.Hex tx = hex_EncodeToString raw -> in_u32 height -> in_i64 bt ->
  (let* buf := btc_PackTx tx height bt in btc_UnpackTx p buf) =
  (let* t := btc_ParseTx p raw in Ret (set_Blocktime bt t, height)).
Proof. apply btc_UnpackTx_PackTx. Qed.

(** [DeriveAddressDescriptorsFromTo] returns the descriptors
    [DeriveAddressDescriptors] returns for the indexes [fromIndex..toIndex-1], in this
    order; an empty range is an error before the key is read. *)
Theorem DeriveFromTo_range xpub change fromIndex toIndex :
  DeriveAddressDescriptorsFromTo p xpub change fromIndex toIndex =
  if toIndex <=? fromIndex then Fail (ErrMsg "toIndex<=fromIndex")
  else DeriveAddressDescriptors p xpub change
         (map (fun i => fromIndex + Z.of_nat i) (seq 0 (Z.to_nat (toIndex - fromIndex)))).
Proof.
  unfold DeriveAddressDescriptorsFromTo, DeriveAddressDescriptors.
  destruct (toIndex <=? fromIndex); [done|]. destruct (NewKeyFromString xpub); [gostep|done..].
  destruct (Child _ change); [gostep|done..]. apply deriveFrom_map.
Qed.

(** No output script, however malformed, makes the OP_RETURN parser fail or read
    out of range. *)
Theorem OPReturn_total script :
  0 <= AmountDecimalPoint (Base p) -> exists s, TryParseOPReturn p script = Ret s.
Proof. apply TryParseOPReturn_total. Qed.
End properties.

Lemma btc_PackTx_roundtrip_witness :
  let tx := Tx.mk "00ff" EmptyString 0 0 [] [] 0 0 0 [] [] 0 NoSpecificData in
  let p := NewBitcoinParser 3 49 84 0 in
  (let* buf := btc_PackTx (V := leb) tx 7 99 in btc_UnpackTx (V := leb) p buf) =
  (let* t := btc_ParseTx p [Byte.x00; Byte.xff] in Ret (set_Blocktime 99 t, 7)).
Proof.
  intros tx p. refine (btc_PackTx_roundtrip p tx [Byte.x00; Byte.xff] 7 99 _ _ _); by vm_compute.
Defined.

(** An OP_RETURN with a truncated PUSHDATA. *)
Lemma OPReturn_total_witness :
  exists s, TryParseOPReturn (NewBitcoinParser 3 49 84 0) [Byte.x6a; Byte.x4c] = Ret s.
Proof. refine (OPReturn_total (NewBitcoinParser 3 49 84 0) [Byte.x6a; Byte.x4c] _). discriminate. Defined.
