(* ===== verification/EthParser.v ===== *)
(** The Ethereum parser ([bchain/coins/eth/ethparser.go]) and the ERC20 data of
    transactions ([bchain/coins/eth/erc20.go]).

    [hexutil] and [common] of go-ethereum are the class [EthLib]; the protobuf code is
    the class [ProtoEthTx].  [big.Int.SetString] with the bases 0 and 16 is modelled. *)
From stdpp Require Import base countable list strings.
From Stdlib Require Import ZArith Lia Ascii.
From S2P Require Import Prelude Hex Types InternalState BaseParser.

Open Scope Z_scope.
Open Scope go_scope.

(** * Strings *)

Abbreviation txt := String.list_ascii_of_string.
Abbreviation untxt := String.string_of_list_ascii.

Definition slen (s : string) : Z := zlen (txt s).

Fixpoint string_drop (n : nat) (s : string) : string :=
  match n, s with
  | S n', String _ s' => string_drop n' s'
  | _, _ => s
  end.

(** [strings.ToLower] on ASCII letters *)
Definition lower_char (c : ascii) : ascii :=
  let n := nat_of_ascii c in
  if ((65 <=? n) && (n <=? 90))%nat then ascii_of_nat (n + 32) else c.

Definition ToLower (s : string) : string := untxt (map lower_char (txt s)).

(** * [big.Int.SetString] with bases 16 and 0 *)

Definition digit_val (c : ascii) : option Z := from_hex_char c.

Inductive scanState := ScanStart | ScanDigit | ScanSep.

(** The digits of a number; separators are allowed between digits (and after a
    prefix) if [sep]. [any]: a digit was read. *)
Fixpoint scanDigits (base : Z) (sep : bool) (st : scanState) (any : bool) (acc : Z) (s : text) : option Z :=
  match s with
  | [] => match st with ScanSep => None | _ => if any then Some acc else None end
  | "_"%char :: s' =>
      match sep, st with
      | true, ScanDigit => scanDigits base sep ScanSep any acc s'
      | _, _ => None
      end
  | c :: s' =>
      match digit_val c with
      | Some d => if d <? base then scanDigits base sep ScanDigit true (acc * base + d) s' else None
      | None => None
      end
  end.

Definition signed (scan : text -> option Z) (s : text) : option Z :=
  match s with
  | "-"%char :: s' => Z.opp <$> scan s'
  | "+"%char :: s' => scan s'
  | _ => scan s
  end.

Definition SetString16 (s : string) : option Z := signed (scanDigits 16 false ScanStart false 0) (txt s).

(** The base is taken from the prefix. *)
Definition scan0 (s : text) : option Z :=
  match s with
  | "0"%char :: c :: s' =>
      match c with
      | "x"%char | "X"%char => scanDigits 16 true ScanDigit false 0 s'
      | "b"%char | "B"%char => scanDigits 2 true ScanDigit false 0 s'
      | "o"%char | "O"%char => scanDigits 8 true ScanDigit false 0 s'
      | _ => scanDigits 8 true ScanDigit true 0 (c :: s')
      end
  | _ => scanDigits 10 true ScanStart false 0 s
  end.

Definition SetString0 (s : string) : option Z := signed scan0 (txt s).

(** * The libraries *)

Class EthLib := {
  (** [Some] the bytes; an empty string is [ErrEmptyString] *)
  hexutil_Decode : string -> go bytes;
  hexutil_Encode : bytes -> string;
  DecodeUint64 : string -> go Z;
  EncodeUint64 : Z -> string;
  DecodeBig : string -> go Z;
  EncodeBig : Z -> string;
  (** [BigToAddress(t).String()] *)
  BigToAddress : Z -> string;
}.

Definition ErrEmptyString : error := ErrMsg "empty hex string".

Class EthLibLaws (E : EthLib) := {
  Decode_Encode : forall b, hexutil_Decode (hexutil_Encode b) = Ret b;
  Decode_empty : hexutil_Decode EmptyString = Fail ErrEmptyString;
  Encode_hex : forall b, hexutil_Encode b = ("0x" ++ hex_EncodeToString b)%string;
  DecodeUint64_Encode : forall n, in_u64 n -> DecodeUint64 (EncodeUint64 n) = Ret n;
  DecodeBig_Encode : forall n, 0 <= n < 2 ^ 256 -> DecodeBig (EncodeBig n) = Ret n;
}.

(** * The parser *)

Definition EtherAmountDecimalPoint : Z := 18.

Definition NewEthereumParser (b : Z) : BaseParser := mkBaseParser b EtherAmountDecimalPoint.

Definition has0xPrefix (s : string) : bool :=
  match s with
  | String "0" (String c _) => match c with "x"%char | "X"%char => true | _ => false end
  | _ => false
  end.

Definition strip0x (s : string) : string := if has0xPrefix s then string_drop 2 s else s.

(** [EthereumTypeAddressDescriptorLen] is 20 *)
Definition eth_GetAddrDescFromAddress (address : string) : go bytes :=
  let address := strip0x address in
  if negb (slen address =? 40) then Fail ErrAddressMissing else hex_DecodeString address.

Definition eth_GetAddrDescFromVout (output : Vout.t) : go bytes :=
  match Vout.Addresses output with
  | [a] => eth_GetAddrDescFromAddress a
  | _ => Fail ErrAddressMissing
  end.

Definition eth_PackTxid (txid : string) : go bytes := hex_DecodeString (strip0x txid).

Definition eth_PackBlockHash (hash : string) : go bytes := hex_DecodeString (strip0x hash).

Section eth.
Context `{E : EthLib}.

Definition eth_GetAddressesFromAddrDesc (addrDesc : bytes) : go (list string * bool) :=
  Ret ([hexutil_Encode addrDesc], true).

Definition eth_UnpackTxid (buf : bytes) : go string := Ret (hexutil_Encode buf).

Definition eth_UnpackBlockHash (buf : bytes) : go string := Ret (hexutil_Encode buf).

Definition ethTxToTx (tx : rpcTransaction) (receipt : option rpcReceipt) (blocktime confirmations : Z)
    : go Tx.t :=
  let fa := if 2 <? slen (From tx) then [From tx] else [] in
  let ta := if 2 <? slen (To tx) then [To tx] else [] in
  let* vs := DecodeBig (Value tx) in
  Ret (Tx.mk EmptyString (Hash tx) 0 0 [Vin.mk EmptyString EmptyString 0 EmptyString 0 fa]
         [Vout.mk vs EmptyString 0 EmptyString ta] confirmations blocktime blocktime [] [] 0
         (EthSpecificData (mkCompleteTransaction tx receipt))).

Definition hexDecode (s : string) : go bytes :=
  match hexutil_Decode s with
  | Fail e => if decide (e = ErrEmptyString) then Ret [] else Fail e
  | r => r
  end.

Definition hexDecodeBig (s : string) : go bytes := let* b := DecodeBig s in Ret (big_Bytes b).

Definition hexEncodeBig (b : bytes) : string := EncodeBig (be_Z b).

(** ** Packed transactions *)

Record ProtoLog := mkProtoLog { pl_Address : bytes; pl_Data : bytes; pl_Topics : list bytes }.

Record ProtoReceipt := mkProtoReceipt { pr_GasUsed : bytes; pr_Status : bytes; pr_Log : list ProtoLog }.

Record ProtoCompleteTransaction := mkProtoComplete {
  pc_BlockNumber : Z;
  pc_BlockTime : Z;
  pc_AccountNonce : Z;
  pc_From : bytes;
  pc_GasLimit : Z;
  pc_Hash : bytes;
  pc_Payload : bytes;
  pc_GasPrice : bytes;
  pc_To : bytes;
  pc_TransactionIndex : Z;
  pc_Value : bytes;
  pc_Receipt : option ProtoReceipt;
}.

Definition packLog (l : rpcLog) : go ProtoLog :=
  let* a := hexutil_Decode (LogAddress l) in
  let* d := hexutil_Decode (Data l) in
  let* t := go_map hexutil_Decode (Topics l) in
  Ret (mkProtoLog a d t).

Definition packReceipt (r : rpcReceipt) : go ProtoReceipt :=
  let* g := hexDecodeBig (GasUsed r) in
  let* s := hexDecodeBig (Status r) in
  let* l := go_map packLog (Logs r) in
  Ret (mkProtoReceipt g s l).

Definition packComplete (r : completeTransaction) (blockTime : Z) : go ProtoCompleteTransaction :=
  let tx := CTx r in
  let* nonce := DecodeUint64 (AccountNonce tx) in
  let* n := DecodeUint64 (BlockNumber tx) in
  let* from := hexDecode (From tx) in
  let* gas := DecodeUint64 (GasLimit tx) in
  let* hash := hexDecode (Hash tx) in
  let* payload := hexDecode (Payload tx) in
  let* price := hexDecodeBig (GasPrice tx) in
  let* to := hexDecode (To tx) in
  let* index := DecodeUint64 (TransactionIndex tx) in
  let* value := hexDecodeBig (Value tx) in
  let* receipt := match CReceipt r with
                  | None => Ret None
                  | Some rr => let* p := packReceipt rr in Ret (Some p)
                  end in
  Ret (mkProtoComplete (u32 n) (u64 blockTime) nonce from gas hash payload price to (u32 index) value receipt).

Definition unpackLog (l : ProtoLog) : rpcLog :=
  mkRpcLog (hexutil_Encode (pl_Address l)) (map hexutil_Encode (pl_Topics l)) (hexutil_Encode (pl_Data l)).

Definition unpackReceipt (r : ProtoReceipt) : rpcReceipt :=
  mkRpcReceipt (hexEncodeBig (pr_GasUsed r)) (hexEncodeBig (pr_Status r)) (map unpackLog (pr_Log r)).

Definition unpackRpcTx (pt : ProtoCompleteTransaction) : rpcTransaction :=
  mkRpcTransaction (EncodeUint64 (pc_AccountNonce pt)) (hexEncodeBig (pc_GasPrice pt))
    (EncodeUint64 (pc_GasLimit pt)) (hexutil_Encode (pc_To pt)) (hexEncodeBig (pc_Value pt))
    (hexutil_Encode (pc_Payload pt)) (hexutil_Encode (pc_Hash pt)) (EncodeUint64 (pc_BlockNumber pt))
    EmptyString (hexutil_Encode (pc_From pt)) (EncodeUint64 (pc_TransactionIndex pt)).

Class ProtoEthTx := {
  eth_Marshal : ProtoCompleteTransaction -> go bytes;
  eth_Unmarshal : bytes -> go ProtoCompleteTransaction;
}.

Definition eth_PackTx `{ProtoEthTx} (tx : Tx.t) (height blockTime : Z) : go bytes :=
  match Tx.SpecificData tx with
  | EthSpecificData r => let* pt := packComplete r blockTime in eth_Marshal pt
  | _ => Fail (ErrMsg "Missing CoinSpecificData")
  end.

Definition eth_UnpackTx `{ProtoEthTx} (buf : bytes) : go (Tx.t * Z) :=
  let* pt := eth_Unmarshal buf in
  let* tx := ethTxToTx (unpackRpcTx pt) (unpackReceipt <$> pc_Receipt pt) (i64 (pc_BlockTime pt)) 0 in
  Ret (tx, pc_BlockNumber pt).

Definition GetHeightFromTx (tx : Tx.t) : go Z :=
  match Tx.SpecificData tx with
  | EthSpecificData csd => let* n := DecodeUint64 (BlockNumber (CTx csd)) in Ret (u32 n)
  | _ => Fail (ErrMsg "Missing CoinSpecificData")
  end.

(** ** ERC20 transfers *)

Definition erc20TransferMethodSignature : string := "0xa9059cbb".
Definition erc20TransferEventSignature : string :=
  "0xddf252ad1be2c89b69c2b068fc378daa952ba7f163c4a11628f55a4df523b3ef".

Definition addressFromPaddedHex (s : string) : go string :=
  match SetString16 (strip0x s) with
  | None => Fail (ErrMsg "Data is not a number")
  | Some t => Ret (BigToAddress t)
  end.

Definition erc20GetTransfersFromLog (logs : list rpcLog) : go (list Erc20Transfer.t) :=
  go_fold (fun r l =>
    match Topics l with
    | [t0; t1; t2] =>
        if decide (t0 = erc20TransferEventSignature) then
          match SetString0 (Data l) with
          | None => Fail (ErrMsg "Data is not a number")
          | Some t =>
              let* from := addressFromPaddedHex t1 in
              let* to := addressFromPaddedHex t2 in
              Ret (r ++ [Erc20Transfer.mk (ToLower (LogAddress l)) (ToLower from) (ToLower to) t])
          end
        else Ret r
    | _ => Ret r
    end) [] logs.

Definition erc20GetTransfersFromTx (tx : rpcTransaction) : go (list Erc20Transfer.t) :=
  let sig := slen erc20TransferMethodSignature in
  if (slen (Payload tx) =? 128 + sig) && String.prefix erc20TransferMethodSignature (Payload tx) then
    let* tos := go_slice (txt (Payload tx)) sig (64 + sig) in
    let* to := addressFromPaddedHex (untxt tos) in
    let* val := go_from (txt (Payload tx)) (sig + 64) in
    match SetString16 (untxt val) with
    | None => Fail (ErrMsg "Data is not a number")
    | Some t => Ret [Erc20Transfer.mk (ToLower (To tx)) (ToLower (From tx)) (ToLower to) t]
    end
  else Ret [].

Definition eth_EthereumTypeGetErc20FromTx (tx : Tx.t) : go (list Erc20Transfer.t) :=
  match Tx.SpecificData tx with
  | EthSpecificData csd =>
      match CReceipt csd with
      | Some r => erc20GetTransfersFromLog (Logs r)
      | None => erc20GetTransfersFromTx (CTx csd)
      end
  | _ => Ret []
  end.

(** ** ERC20 contract properties *)

Definition parseErc20NumericProperty (data : string) : option Z :=
  let data := strip0x data in
  if slen data =? 64 then SetString16 data else None.

(** The length is an unsigned word of the data; the test is on the signed product,
    the slice on the unsigned sum. *)
Definition parseErc20StringProperty (data : string) : go string :=
  let data := txt (strip0x data) in
  if 128 <? zlen data then
    let* w := go_slice data 64 128 in
    match parseErc20NumericProperty (untxt w) with
    | None => Ret EmptyString
    | Some n =>
        let l := u64 (Z.abs n) in
        if i64 (2 * i64 l) <=? zlen data - 128 then
          let* s := go_slice data 128 (u64 (128 + 2 * l)) in
          match hex_decode (untxt s) with
          | Some b => Ret (String.string_of_list_byte b)
          | None => Ret EmptyString
          end
        else Ret EmptyString
    end
  else Ret EmptyString.

(** ** Status of a transaction *)

Definition txStatusUnknown : Z := -2.
Definition txStatusPending : Z := -1.
Definition txStatusFailure : Z := 0.
Definition txStatusOK : Z := 1.

Record EthereumTxData := mkEthereumTxData {
  et_Status : Z;
  et_Nonce : Z;
  et_GasLimit : option Z;
  et_GasUsed : option Z;
  et_GasPrice : option Z;
}.

Definition ok {A} (m : go A) : option A := match m with Ret a => Some a | _ => None end.

Definition GetEthereumTxData (tx : Tx.t) : EthereumTxData :=
  match Tx.SpecificData tx with
  | EthSpecificData csd =>
      let t := CTx csd in
      let status := match CReceipt csd with
                    | None => txStatusPending
                    | Some r => if decide (Status r = "0x1"%string) then txStatusOK
                                else if decide (Status r = EmptyString) then txStatusUnknown
                                else txStatusFailure
                    end in
      mkEthereumTxData status (default 0 (ok (DecodeUint64 (AccountNonce t))))
        (ok (DecodeBig (GasLimit t)))
        (match CReceipt csd with Some r => ok (DecodeBig (GasUsed r)) | None => None end)
        (ok (DecodeBig (GasPrice t)))
  | _ => mkEthereumTxData txStatusPending 0 None None None
  end.

(** ** The interface *)

Definition ethereum_parser `{ProtoEthTx} (p : BaseParser) : BlockChainParser := {|
  GetChainType := ChainEthereumType;
  KeepBlockAddresses := BlockAddressesToKeep p;
  AmountDecimals := AmountDecimalPoint p;
  GetAddrDescFromVout := eth_GetAddrDescFromVout;
  GetAddrDescFromAddress := eth_GetAddrDescFromAddress;
  GetAddressesFromAddrDesc := eth_GetAddressesFromAddrDesc;
  IsAddrDescIndexable := BaseParser_IsAddrDescIndexable;
  PackedTxidLen := 32;
  PackTxid := eth_PackTxid;
  UnpackTxid := eth_UnpackTxid;
  PackTx := eth_PackTx;
  UnpackTx := eth_UnpackTx;
  GetAddrDescForUnknownInput := BaseParser_GetAddrDescForUnknownInput;
  GetValueSatForUnknownInput := BaseParser_GetValueSatForUnknownInput;
  PackBlockHash := eth_PackBlockHash;
  UnpackBlockHash := eth_UnpackBlockHash;
  EthereumTypeGetErc20FromTx := eth_EthereumTypeGetErc20FromTx;
|}.
End eth.

Class ProtoEthTxLaws (M : ProtoEthTx) := {
  eth_Unmarshal_Marshal : forall pt b, eth_Marshal pt = Ret b -> eth_Unmarshal b = Ret pt;
}.

(** * Hexadecimal text *)

Lemma txt_app s1 s2 : txt (s1 ++ s2)%string = txt s1 ++ txt s2.
Proof. induction s1 as [|c s1 IH]; simpl; [done|]. by rewrite IH. Qed.

Lemma untxt_txt s : untxt (txt s) = s.
Proof. apply String.string_of_list_ascii_of_string. Qed.

Lemma slen_hex b : slen (hex_EncodeToString b) = 2 * zlen b.
Proof.
  unfold slen. induction b as [|x b IH]; [done|]. cbn [hex_EncodeToString txt].
  rewrite !zlen_cons, IH. lia.
Qed.

Lemma strip0x_add s : strip0x ("0x" ++ s)%string = s.
Proof. done. Qed.

(** A hexadecimal digit is never the letter of a prefix. *)
Lemma hex_digit_not_x z : hex_digit z <> "x"%char /\ hex_digit z <> "X"%char /\
  hex_digit z <> "_"%char /\ hex_digit z <> "-"%char /\ hex_digit z <> "+"%char.
Proof. unfold hex_digit. repeat case_match; done. Qed.

Lemma strip0x_hex b : strip0x (hex_EncodeToString b) = hex_EncodeToString b.
Proof.
  destruct b as [|x b]; [done|]. unfold strip0x. cbn [hex_EncodeToString].
  destruct (hex_digit_not_x (b2z x mod 16)) as (H1 & H2 & _).
  set (c := hex_digit (b2z x mod 16)) in *. set (c0 := hex_digit (b2z x / 16)).
  assert (has0xPrefix (String c0 (String c (hex_EncodeToString b))) = false) as ->; [|done].
  unfold has0xPrefix. repeat (case_match; try done).
Qed.

Lemma scanDigits_cons base sep st any acc c s d : c <> "_"%char -> digit_val c = Some d -> d < base ->
  scanDigits base sep st any acc (c :: s) = scanDigits base sep ScanDigit true (acc * base + d) s.
Proof.
  intros Hc Hd Hb. cbn [scanDigits]. assert ((d <? base) = true) as Hlt by (by apply Z.ltb_lt).
  destruct c as [[] [] [] [] [] [] [] []]; try done; rewrite Hd, Hlt; done.
Qed.

Lemma scan_hex b st any acc : st <> ScanSep -> any = true \/ b <> [] ->
  scanDigits 16 false st any acc (txt (hex_EncodeToString b)) = Some (acc * 256 ^ zlen b + be_Z b).
Proof.
  revert st any acc. induction b as [|x b IH]; intros st any acc Hst Hany.
  - destruct Hany as [-> |]; [|done]. simpl. rewrite zlen_nil. change (256 ^ 0) with 1.
    change (be_Z []) with 0. destruct st; f_equal; (done || lia).
  - cbn [hex_EncodeToString txt]. pose proof (b2z_range x) as Hx.
    assert (0 <= b2z x / 16 < 16) by (split; [apply Z.div_pos; lia|apply Z.div_lt_upper_bound; lia]).
    pose proof (Z.mod_pos_bound (b2z x) 16 ltac:(lia)).
    rewrite (scanDigits_cons _ _ _ _ _ _ _ (b2z x / 16)) by (apply hex_digit_not_x || by apply from_hex_digit || lia).
    rewrite (scanDigits_cons _ _ _ _ _ _ _ (b2z x mod 16)) by (apply hex_digit_not_x || by apply from_hex_digit || lia).
    rewrite IH by auto. f_equal. rewrite be_Z_cons, zlen_cons, Z.pow_add_r by (lia || apply zlen_nonneg).
    change (256 ^ 1) with 256. pose proof (Z.div_mod (b2z x) 16 ltac:(lia)). nia.
Qed.

Lemma SetString16_hex b : b <> [] -> SetString16 (hex_EncodeToString b) = Some (be_Z b).
Proof.
  intros Hb. unfold SetString16, signed. destruct b as [|x b]; [done|].
  rewrite <- (Z.add_0_l (be_Z (x :: b))), <- (Z.mul_0_l (256 ^ zlen (x :: b))).
  rewrite <- (scan_hex (x :: b) ScanStart false 0) by (done || by right).
  destruct (hex_digit_not_x (b2z x / 16)) as (_ & _ & _ & H1 & H2). cbn [hex_EncodeToString txt].
  repeat (case_match; try done).
Qed.

Lemma parseErc20NumericProperty_word b : zlen b = 32 ->
  parseErc20NumericProperty (hex_EncodeToString b) = Some (be_Z b).
Proof.
  intros Hb. unfold parseErc20NumericProperty. rewrite strip0x_hex, slen_hex, Hb. simpl.
  apply SetString16_hex. by intros ->.
Qed.

Lemma txt_hex_app b1 b2 : hex_EncodeToString (b1 ++ b2) = (hex_EncodeToString b1 ++ hex_EncodeToString b2)%string.
Proof. induction b1 as [|x b1 IH]; simpl; [done|]. by rewrite IH. Qed.

(** A dynamic string as a contract returns it: an offset word, a length word, the
    bytes, padding. *)
Definition abi_string (offset b pad : bytes) : string :=
  ("0x" ++ hex_EncodeToString (offset ++ be_bytes 32 (zlen b) ++ b ++ pad))%string.

Lemma parseErc20String_abi offset b pad : zlen offset = 32 -> b <> [] -> zlen b < 2 ^ 62 ->
  parseErc20StringProperty (abi_string offset b pad) = Ret (String.string_of_list_byte b).
Proof.
  intros Ho Hb Hl. unfold parseErc20StringProperty, abi_string. rewrite strip0x_add.
  pose proof (zlen_nonneg pad). assert (0 < zlen b) by (destruct b; [done|rewrite zlen_cons; pose proof (zlen_nonneg b0); lia]).
  pose proof (be_bytes_zlen 32 (zlen b)) as Hw. change (Z.of_nat 32) with 32 in Hw.
  assert (zlen (txt (hex_EncodeToString (offset ++ be_bytes 32 (zlen b) ++ b ++ pad))) =
    128 + 2 * (zlen b + zlen pad)) as Hlen.
  { fold (slen (hex_EncodeToString (offset ++ be_bytes 32 (zlen b) ++ b ++ pad))).
    rewrite slen_hex, !zlen_app, Hw, Ho. lia. }
  destruct (Z.ltb_spec 128 (zlen (txt (hex_EncodeToString (offset ++ be_bytes 32 (zlen b) ++ b ++ pad))))); [|lia].
  rewrite Hlen. rewrite !txt_hex_app, !txt_app.
  assert (forall x, zlen (txt (hex_EncodeToString x)) = 2 * zlen x) as Hx by apply slen_hex.
  rewrite go_slice_mid by (rewrite ?Hx, ?Hw, ?Ho; lia). gostep. rewrite untxt_txt.
  rewrite parseErc20NumericProperty_word by done. rewrite be_Z_be_bytes, Z.mod_small by (simpl; lia).
  rewrite Z.abs_eq, u64_id by (unfold in_u64; lia). rewrite !i64_id by (unfold in_i64; lia || rewrite i64_id; unfold in_i64; lia).
  destruct (Z.leb_spec (2 * zlen b) (128 + 2 * (zlen b + zlen pad) - 128)); [|lia].
  rewrite u64_id by (unfold in_u64; lia). rewrite app_assoc.
  rewrite go_slice_mid by (rewrite ?zlen_app, ?Hx, ?Hw, ?Ho; lia). gostep.
  by rewrite untxt_txt, hex_decode_encode.
Qed.

Section packed.
Context `{EL : EthLibLaws} `{ML : ProtoEthTxLaws}.

Record wf_proto (pt : ProtoCompleteTransaction) : Prop := {
  pw_number : in_u32 (pc_BlockNumber pt);
  pw_time : in_u64 (pc_BlockTime pt);
  pw_nonce : in_u64 (pc_AccountNonce pt);
  pw_gas : in_u64 (pc_GasLimit pt);
  pw_index : in_u32 (pc_TransactionIndex pt);
  (** amounts are kept without leading zeros and fit 256 bits *)
  pw_price : exists n, pc_GasPrice pt = big_Bytes n /\ 0 <= n < 2 ^ 256;
  pw_value : exists n, pc_Value pt = big_Bytes n /\ 0 <= n < 2 ^ 256;
  pw_receipt : forall r, pc_Receipt pt = Some r ->
    (exists n, pr_GasUsed r = big_Bytes n /\ 0 <= n < 2 ^ 256) /\
    (exists n, pr_Status r = big_Bytes n /\ 0 <= n < 2 ^ 256);
}.

Definition complete (pt : ProtoCompleteTransaction) : completeTransaction :=
  mkCompleteTransaction (unpackRpcTx pt) (unpackReceipt <$> pc_Receipt pt).

Lemma be_Z_big_Bytes n : 0 <= n -> be_Z (big_Bytes n) = n.
Proof.
  intros Hn. unfold big_Bytes. destruct (Z.eqb_spec n 0) as [-> |]; [done|].
  destruct n as [|p|]; [done| |lia]. apply (code_bytes_Z p).
Qed.

Lemma hexDecodeBig_Encode b : (exists n, b = big_Bytes n /\ 0 <= n < 2 ^ 256) ->
  hexDecodeBig (hexEncodeBig b) = Ret b.
Proof.
  intros (n & -> & Hn). unfold hexDecodeBig, hexEncodeBig. rewrite be_Z_big_Bytes by lia.
  by rewrite DecodeBig_Encode.
Qed.

Lemma hexDecode_Encode b : hexDecode (hexutil_Encode b) = Ret b.
Proof. unfold hexDecode. by rewrite Decode_Encode. Qed.

Lemma go_map_Decode l : go_map hexutil_Decode (map hexutil_Encode l) = Ret l.
Proof. induction l as [|x l IH]; simpl; [done|]. rewrite Decode_Encode. gostep. by rewrite IH. Qed.

Lemma go_map_packLog l : go_map packLog (map unpackLog l) = Ret l.
Proof.
  induction l as [|x l IH]; simpl; [done|]. unfold packLog, unpackLog. simpl.
  rewrite !Decode_Encode. gostep. rewrite go_map_Decode. gostep. fold unpackLog packLog. rewrite IH. by destruct x.
Qed.

Lemma packComplete_unpack pt : wf_proto pt -> packComplete (complete pt) (i64 (pc_BlockTime pt)) = Ret pt.
Proof.
  intros [Hn Ht Hno Hg Hi Hp Hv Hr]. unfold packComplete, complete, unpackRpcTx.
  cbn [CTx CReceipt AccountNonce BlockNumber From GasLimit Hash Payload GasPrice To TransactionIndex Value].
  rewrite !DecodeUint64_Encode by (done || unfold in_u32, in_u64 in *; lia). gostep.
  rewrite !hexDecode_Encode. gostep. rewrite !hexDecodeBig_Encode by done. gostep.
  rewrite !u32_id by done.
  assert (u64 (i64 (pc_BlockTime pt)) = pc_BlockTime pt) as ->.
  { unfold u64, i64, in_u64 in *. rewrite Zminus_mod, Zmod_mod, <- Zminus_mod.
    rewrite Z.add_simpl_r. by apply Z.mod_small. }
  destruct (pc_Receipt pt) as [r|] eqn:Er; [|destruct pt; simpl in *; by subst].
  destruct (Hr r eq_refl) as [Hu Hs]. simpl. unfold packReceipt, unpackReceipt. simpl.
  rewrite !hexDecodeBig_Encode by done. gostep. rewrite go_map_packLog. gostep.
  destruct pt, r. simpl in *. by subst.
Qed.
End packed.

(** * The interface *)

Lemma eth_PackTxid_Encode `{EL : EthLibLaws} b : eth_PackTxid (hexutil_Encode b) = Ret b.
Proof. unfold eth_PackTxid. rewrite Encode_hex, strip0x_add. apply hex_DecodeString_Encode. Qed.

#[export] Instance ethereum_parser_laws `{EL : EthLibLaws} `{ProtoEthTx} p : ParserLaws (ethereum_parser p).
Proof.
  split; cbn -[Z.pow]; [done| |]; intros b _; (eexists; split; [done|]); apply eth_PackTxid_Encode.
Qed.

(** * A concrete library, for evaluation *)

Definition hex_fixed (n : nat) (z : Z) : string := ("0x" ++ hex_EncodeToString (be_bytes n z))%string.

Definition plain_Decode (s : string) : go bytes :=
  if decide (s = EmptyString) then Fail ErrEmptyString else hex_DecodeString (strip0x s).

#[global] Instance plain_eth_lib : EthLib := {|
  hexutil_Decode := plain_Decode;
  hexutil_Encode b := ("0x" ++ hex_EncodeToString b)%string;
  DecodeUint64 s := let* b := plain_Decode s in Ret (be_Z b);
  EncodeUint64 := hex_fixed 8;
  DecodeBig s := let* b := plain_Decode s in Ret (be_Z b);
  EncodeBig := hex_fixed 32;
  BigToAddress := hex_fixed 20;
|}.

Lemma plain_Decode_hex b : plain_Decode ("0x" ++ hex_EncodeToString b) = Ret b.
Proof. unfold plain_Decode. rewrite decide_False by done. rewrite strip0x_add. apply hex_DecodeString_Encode. Qed.

#[global] Instance plain_eth_lib_laws : EthLibLaws plain_eth_lib.
Proof.
  split; intros; unfold hexutil_Decode, hexutil_Encode, DecodeUint64, EncodeUint64, DecodeBig, EncodeBig, plain_eth_lib.
  - apply plain_Decode_hex.
  - done.
  - done.
  - unfold hex_fixed. rewrite plain_Decode_hex. cbn [go_bind]. by rewrite be_Z_be_bytes, Z.mod_small.
  - unfold hex_fixed. rewrite plain_Decode_hex. cbn [go_bind]. by rewrite be_Z_be_bytes, Z.mod_small.
Qed.

#[global] Instance plog_eq_dec : EqDecision ProtoLog.
Proof. solve_decision. Defined.
#[global] Instance preceipt_eq_dec : EqDecision ProtoReceipt.
Proof. solve_decision. Defined.
#[global] Instance pcomplete_eq_dec : EqDecision ProtoCompleteTransaction.
Proof. solve_decision. Defined.
#[global] Instance plog_countable : Countable ProtoLog.
Proof.
  refine (inj_countable' (fun l => (pl_Address l, pl_Data l, pl_Topics l))
    (fun '(a, b, c) => mkProtoLog a b c) _). by intros [].
Defined.
#[global] Instance preceipt_countable : Countable ProtoReceipt.
Proof.
  refine (inj_countable' (fun r => (pr_GasUsed r, pr_Status r, pr_Log r))
    (fun '(a, b, c) => mkProtoReceipt a b c) _). by intros [].
Defined.
#[global] Instance pcomplete_countable : Countable ProtoCompleteTransaction.
Proof.
  refine (inj_countable' (fun t => (pc_BlockNumber t, pc_BlockTime t, pc_AccountNonce t, pc_From t,
      pc_GasLimit t, pc_Hash t, pc_Payload t, pc_GasPrice t, pc_To t, pc_TransactionIndex t,
      pc_Value t, pc_Receipt t))
    (fun '(a, b, c, d, e, f, g, h, i, j, k, l) => mkProtoComplete a b c d e f g h i j k l) _).
  by intros [].
Defined.

#[global] Instance code_eth_proto : ProtoEthTx := {|
  eth_Marshal t := Ret (code_bytes (encode t));
  eth_Unmarshal b :=
    match decode (Z.to_pos (be_Z b)) with Some t => Ret t | None => Fail (ErrMsg "invalid") end;
|}.

#[global] Instance code_eth_proto_laws : ProtoEthTxLaws code_eth_proto.
Proof.
  split. intros pt b E. injection E as <-. unfold eth_Unmarshal, code_eth_proto.
  rewrite code_bytes_Z, Pos2Z.id, decode_encode. done.
Qed.

(** * Properties *)

(** Ethereum addresses and descriptors correspond: the address printed for a
    descriptor of 20 bytes reads back as that descriptor, with or without its 0x
    prefix, and the address of a descriptor of any other length is refused. *)
Theorem eth_address_roundtrip `{EL : EthLibLaws} b :
  exists a, eth_GetAddressesFromAddrDesc b = Ret ([a], true) /\
    eth_GetAddrDescFromAddress a = eth_GetAddrDescFromAddress (strip0x a) /\
    eth_GetAddrDescFromAddress a = if zlen b =? 20 then Ret b else Fail ErrAddressMissing.
Proof.
  exists (hexutil_Encode b). split; [done|]. unfold eth_GetAddrDescFromAddress.
  rewrite Encode_hex, strip0x_add, strip0x_hex, slen_hex. split; [done|].
  destruct (Z.eqb_spec (zlen b) 20) as [-> |Hne].
  - apply hex_DecodeString_Encode.
  - destruct (Z.eqb_spec (2 * zlen b) 40); [lia|done].
Qed.

Lemma eth_address_roundtrip_witness :
  exists a, eth_GetAddressesFromAddrDesc (repeat Byte.xab 20) = Ret ([a], true) /\
    eth_GetAddrDescFromAddress a = Ret (repeat Byte.xab 20).
Proof.
  destruct (eth_address_roundtrip (EL := plain_eth_lib_laws) (repeat Byte.xab 20)) as (a & H1 & _ & H2).
  exists a. split; [exact H1|exact H2].
Defined.

(** A transaction whose numbers and data are in the form the parser itself prints
    is stored and read back unchanged, receipt and logs included, with the block
    number and the block time; only the block hash is not kept. *)
Theorem eth_PackTx_roundtrip `{EL : EthLibLaws} `{ML : ProtoEthTxLaws} tx pt height buf :
  wf_proto pt -> Tx.SpecificData tx = EthSpecificData (complete pt) -> eth_Marshal pt = Ret buf ->
  eth_PackTx tx height (i64 (pc_BlockTime pt)) = Ret buf /\
  eth_UnpackTx buf =
    let* t := ethTxToTx (CTx (complete pt)) (CReceipt (complete pt)) (i64 (pc_BlockTime pt)) 0 in
    Ret (t, pc_BlockNumber pt).
Proof.
  intros Hwf Hs Hm. unfold eth_PackTx, eth_UnpackTx. rewrite Hs, packComplete_unpack by done.
  split; [done|]. by rewrite (eth_Unmarshal_Marshal _ _ Hm).
Qed.

Definition sample_proto : ProtoCompleteTransaction :=
  mkProtoComplete 100 1500000000 7 (repeat Byte.x01 20) 21000 (repeat Byte.x02 32) [] (big_Bytes 5)
    (repeat Byte.x03 20) 4 (big_Bytes 1000000)
    (Some (mkProtoReceipt (big_Bytes 21000) (big_Bytes 1) [mkProtoLog (repeat Byte.x04 20) [Byte.x01] [[Byte.x02]]])).

Lemma eth_PackTx_roundtrip_witness :
  let tx := Tx.mk EmptyString EmptyString 0 0 [] [] 0 0 0 [] [] 0 (EthSpecificData (complete sample_proto)) in
  exists buf, eth_PackTx tx 100 1500000000 = Ret buf.
Proof.
  intros tx. eexists.
  refine (proj1 (eth_PackTx_roundtrip (EL := plain_eth_lib_laws) (ML := code_eth_proto_laws) tx sample_proto 100
    _ _ eq_refl eq_refl)).
  split; [split; reflexivity || discriminate..| | |].
  - exists 5. split; [reflexivity|split; reflexivity || discriminate].
  - exists 1000000. split; [reflexivity|split; reflexivity || discriminate].
  - intros r [= <-]. split; [exists 21000|exists 1]; (split; [reflexivity|split; reflexivity || discriminate]).
Defined.

(** A string property of an ERC20 contract is read as the contract encodes it: the
    bytes after an offset word and a length word, whatever padding follows. *)
Theorem parseErc20StringProperty_abi offset b pad :
  zlen offset = 32 -> b <> [] -> zlen b < 2 ^ 62 ->
  parseErc20StringProperty (abi_string offset b pad) = Ret (String.string_of_list_byte b).
Proof. apply parseErc20String_abi. Qed.

Lemma parseErc20StringProperty_abi_witness :
  parseErc20StringProperty (abi_string (be_bytes 32 32) [Byte.x44; Byte.x41; Byte.x49] (repeat Byte.x00 29)) =
  Ret "DAI"%string.
Proof.
  refine (parseErc20StringProperty_abi (be_bytes 32 32) [Byte.x44; Byte.x41; Byte.x49] (repeat Byte.x00 29) _ _ _);
    [reflexivity|discriminate|reflexivity].
Defined.

(** The length test of string properties is done on a signed product: a contract
    that returns the length 2^64-1 passes it and the slice that follows panics. *)
Theorem parseErc20StringProperty_panics :
  exists data, parseErc20StringProperty data = Panic.
Proof.
  exists ("0x" ++ hex_EncodeToString (be_bytes 32 32 ++ be_bytes 32 (2 ^ 64 - 1) ++ [Byte.x00]))%string.
  vm_compute. reflexivity.
Qed.
