(* ===== verification/RocksDB.v ===== *)
(** The database handle of [db/rocksdb.go]: the block index, the transaction
    index, balances, stored transactions and the internal state.

    Reads take the handle; methods that change the handle, the store or the
    internal state are in the monad [sgo RocksDB].  A write batch is the list of the
    operations put into it; a loop over a Go map uses the order of [map_to_list],
    and the keys it writes are distinct, so that the order does not matter.
    [time.Now()] is the argument [now]. *)
From stdpp Require Import base list gmap strings sorting.
From Stdlib Require Import ZArith Lia.
From S2P Require Import Prelude Hex Types Store Vlq Codec InternalState AddrBalance TxAddresses.

Open Scope Z_scope.
Open Scope go_scope.

Definition dbVersion : Z := 5.
Definition maxAddrDescLen : Z := 1024.
Definition refreshIterator : Z := 5000000.

Record connectBlockStats := mkStats {
  txAddressesHit : Z;
  txAddressesMiss : Z;
  balancesHit : Z;
  balancesMiss : Z;
}.

Definition noStats : connectBlockStats := mkStats 0 0 0 0.

Module BlockInfo.
Record t := mk { Hash : string; Time : Z; Txs : Z; Size : Z; Height : Z }.
End BlockInfo.

(** [db] is nil after [Close]; [istate] is the field [is]. *)
Record RocksDB `{Store} := mkRocksDB {
  db : option store;
  istate : option InternalState;
  metrics : bool;
  cbs : connectBlockStats;
}.

Definition cfBaseNames : list string := ["default"; "height"; "addresses"; "blockTxs"; "transactions"]%string.
Definition cfNamesBitcoinType : list string := ["addressBalance"; "txAddresses"]%string.
Definition cfNamesEthereumType : list string := ["addressContracts"]%string.

(** The bytes of a Go string constant. *)
Definition bytes_of_string (s : string) : bytes := String.list_byte_of_string s.

Definition internalStateKey : bytes := bytes_of_string "internalState".

Definition opt_bytes (v : option bytes) : bytes := default [] v.

Section rocksdb.
Context `{DB : Store} `{P : BlockChainParser} `{V : Vlq} `{J : StateJson}.

Definition set_db (s : option store) (d : RocksDB) : RocksDB :=
  mkRocksDB _ s (istate d) (metrics d) (cbs d).
Definition set_istate (i : option InternalState) (d : RocksDB) : RocksDB :=
  mkRocksDB _ (db d) i (metrics d) (cbs d).
Definition set_cbs (c : connectBlockStats) (d : RocksDB) : RocksDB :=
  mkRocksDB _ (db d) (istate d) (metrics d) c.

(** The columns of [cfNames], as [NewRocksDB] sets them for the chain. *)
Definition cfNames : go (list string) :=
  match GetChainType with
  | ChainBitcoinType => Ret (cfBaseNames ++ cfNamesBitcoinType)
  | ChainEthereumType => Ret (cfBaseNames ++ cfNamesEthereumType)
  | ChainOtherType _ => Fail (ErrMsg "Unknown chain type")
  end.

(** [NewRocksDB] on an opened store. *)
Definition NewRocksDB (s : store) (metrics : bool) : go RocksDB :=
  let* _ := cfNames in Ret (mkRocksDB _ (Some s) None metrics noStats).

(** *** Calls of the store through the handle *)

Definition dbGet (d : RocksDB) (c : cf) (k : bytes) : go (option bytes) :=
  let* s := must (db d) in GetCF s c k.

Definition dbIter (d : RocksDB) (c : cf) : go (list (bytes * bytes)) :=
  let* s := must (db d) in Ret (IterCF s c).

Definition dbWrite (wb : WriteBatch) : sgo RocksDB unit := fun d =>
  match db d with
  | None => (d, Panic)
  | Some s =>
      let '(s', e) := Write s wb in
      (set_db (Some s') d, match e with None => Ret tt | Some e => Fail e end)
  end.

(** [d.is.Method()]: the receiver must not be nil. *)
Definition with_is (f : InternalState -> go InternalState) : sgo RocksDB unit := fun d =>
  match istate d with
  | None => (d, Panic)
  | Some i =>
      match f i with
      | Ret i' => (set_istate (Some i') d, Ret tt)
      | Fail e => (d, Fail e)
      | Panic => (d, Panic)
      end
  end.

Definition GetAndResetConnectBlockStats : sgo RocksDB connectBlockStats := fun d =>
  (set_cbs noStats d, Ret (cbs d)).

(** ** Block index: the column [height] *)

Definition packBlockInfo (block : BlockInfo.t) : go bytes :=
  let* b := PackBlockHash (BlockInfo.Hash block) in
  Ret (b ++ packUint (u32 (BlockInfo.Time block)) ++ packVaruint (BlockInfo.Txs block) ++
       packVaruint (BlockInfo.Size block)).

Definition unpackBlockInfo (buf : bytes) : go (option BlockInfo.t) :=
  let pl := PackedTxidLen in
  if zlen buf <? pl + 4 + 2 then Ret None
  else
    let* h := go_slice buf 0 pl in
    let* txid := UnpackBlockHash h in
    let* b1 := go_from buf pl in
    let* t := unpackUint b1 in
    let* b2 := go_from buf (pl + 4) in
    let '(txs, l) := unpackVaruint b2 in
    let* b3 := go_from buf (pl + 4 + l) in
    let '(size, _) := unpackVaruint b3 in
    Ret (Some (BlockInfo.mk txid t (u32 txs) (u32 size) 0)).

(** An error of [unpackBlockInfo] comes with a nil info and is dropped. *)
Definition GetBestBlock (d : RocksDB) : go (Z * string) :=
  let* it := dbIter d cfHeight in
  match last it with
  | None => Ret (0, EmptyString)
  | Some (k, v) =>
      let* bestHeight := unpackUint k in
      match unpackBlockInfo v with
      | Ret (Some info) => Ret (bestHeight, BlockInfo.Hash info)
      | Ret None | Fail _ => Ret (0, EmptyString)
      | Panic => Panic
      end
  end.

Definition GetBlockHash (d : RocksDB) (height : Z) : go string :=
  let* val := dbGet d cfHeight (packUint height) in
  let* info := unpackBlockInfo (opt_bytes val) in
  match info with None => Ret EmptyString | Some info => Ret (BlockInfo.Hash info) end.

Definition GetBlockInfo (d : RocksDB) (height : Z) : go (option BlockInfo.t) :=
  let* val := dbGet d cfHeight (packUint height) in
  let* bi := unpackBlockInfo (opt_bytes val) in
  match bi with
  | None => Ret None
  | Some bi => Ret (Some (BlockInfo.mk (BlockInfo.Hash bi) (BlockInfo.Time bi) (BlockInfo.Txs bi)
                            (BlockInfo.Size bi) height))
  end.

Inductive heightOp := opInsert | opDelete.

Definition writeHeight (now : Z) (wb : WriteBatch) (height : Z) (bi : BlockInfo.t) (op : heightOp)
    : sgo RocksDB WriteBatch :=
  let key := packUint height in
  match op with
  | opInsert =>
      let! val := slift (packBlockInfo bi) in
      do! with_is (fun i => Ret (UpdateBestHeight now height i)) in
      sret (wb ++ [PutCF cfHeight key val])
  | opDelete =>
      do! with_is (fun i => Ret (UpdateBestHeight now (u32 (height - 1)) i)) in
      sret (wb ++ [DeleteCF cfHeight key])
  end.

Definition writeHeightFromBlock (now : Z) (wb : WriteBatch) (block : Block.t) (op : heightOp)
    : sgo RocksDB WriteBatch :=
  writeHeight now wb (Block.Height block)
    (BlockInfo.mk (Block.Hash block) (Block.Time block) (u32 (zlen (Block.Txs block)))
       (u32 (Block.Size block)) (Block.Height block)) op.

(** ** Address index: the columns [addresses], [txAddresses] and [addressBalance] *)

(** [addressesMap]: the transactions of an address in a block, with the indexes of
    the inputs (complemented) and outputs where it appears. *)
Definition storeAddresses (wb : WriteBatch) (height : Z) (addresses : gmap bytes (list txIndexes))
    : WriteBatch :=
  wb ++ map (fun e => PutCF cfAddresses (packAddressKey e.1 height) (packTxIndexes e.2))
          (map_to_list addresses).

Definition storeTxAddresses (wb : WriteBatch) (am : gmap bytes TxAddresses) : WriteBatch :=
  wb ++ map (fun e => PutCF cfTxAddresses e.1 (packTxAddresses e.2)) (map_to_list am).

(** A nil balance ([None]) and a balance without transactions are removed. *)
Definition storeBalance (addrDesc : bytes) (ab : option AddrBalance) : wb_op :=
  match ab with
  | None => DeleteCF cfAddressBalance addrDesc
  | Some ab =>
      if Txs ab <=? 0 then DeleteCF cfAddressBalance addrDesc
      else PutCF cfAddressBalance addrDesc (packAddrBalance ab)
  end.

Definition storeBalances (wb : WriteBatch) (abm : gmap bytes (option AddrBalance)) : WriteBatch :=
  wb ++ map (fun e => storeBalance e.1 e.2) (map_to_list abm).

(** [for rh := h; rh > 0; rh--]: stops at the first height without data; the error
    of [DeleteCF] is not looked at. *)
Fixpoint cleanupFrom (rh : nat) : sgo RocksDB unit :=
  match rh with
  | O => sret tt
  | S rh' =>
      let key := packUint (Z.of_nat rh) in
      let! d := sget in
      let! val := slift (dbGet d cfBlockTxs key) in
      match val with
      | None => sret tt
      | Some _ =>
          do! (fun d => match dbWrite [DeleteCF cfBlockTxs key] d with
                        | (d, Fail _) => (d, Ret tt)
                        | r => r
                        end) in
          cleanupFrom rh'
      end
  end.

Definition cleanupBlockTxs (block : Block.t) : sgo RocksDB unit :=
  let keep := u32 KeepBlockAddresses in
  if keep <? Block.Height block then cleanupFrom (Z.to_nat (Block.Height block - keep)) else sret tt.

(** The outpoint of an input; without a txid it is the zero id. *)
Definition blockTxInput (vin : Vin.t) : go outpoint :=
  match PackTxid (Vin.Txid vin) with
  | Ret btxID => Ret (mkOutpoint btxID (i32 (Vin.Vout vin)))
  | Fail ErrTxidMissing => Ret (mkOutpoint (repeat Byte.x00 (Z.to_nat PackedTxidLen)) (i32 (Vin.Vout vin)))
  | Fail e => Fail e
  | Panic => Panic
  end.

Definition blockTxOf (tx : Tx.t) : go blockTxs :=
  let* o := go_fold (fun acc vin => let* x := blockTxInput vin in Ret (acc ++ [x])) [] (Tx.Vin tx) in
  let* btxID := PackTxid (Tx.Txid tx) in
  Ret (mkBlockTxs btxID o).

Definition blockTxsOf (block : Block.t) : go (list blockTxs) :=
  go_fold (fun acc tx => let* b := blockTxOf tx in Ret (acc ++ [b])) [] (Block.Txs block).

Definition storeAndCleanupBlockTxs (wb : WriteBatch) (block : Block.t) : sgo RocksDB WriteBatch :=
  let! bts := slift (blockTxsOf block) in
  do! cleanupBlockTxs block in
  sret (wb ++ [PutCF cfBlockTxs (packUint (Block.Height block)) (packBlockTxs bts)]).

Definition getBlockTxs (d : RocksDB) (height : Z) : go (list blockTxs) :=
  let* val := dbGet d cfBlockTxs (packUint height) in
  let buf := opt_bytes val in
  unpackBlockTxs (length buf) PackedTxidLen buf.

Definition GetAddrDescBalance (d : RocksDB) (addrDesc : bytes) (detail : AddressBalanceDetail)
    : go (option AddrBalance) :=
  let* val := dbGet d cfAddressBalance addrDesc in
  let buf := opt_bytes val in
  if zlen buf <? 3 then Ret None
  else let* ab := unpackAddrBalance buf PackedTxidLen detail in Ret (Some ab).

Definition GetAddressBalance (d : RocksDB) (address : string) (detail : AddressBalanceDetail)
    : go (option AddrBalance) :=
  let* addrDesc := GetAddrDescFromAddress address in
  GetAddrDescBalance d addrDesc detail.

Definition getTxAddresses (d : RocksDB) (btxID : bytes) : go (option TxAddresses) :=
  let* val := dbGet d cfTxAddresses btxID in
  let buf := opt_bytes val in
  if zlen buf <? 3 then Ret None
  else let* ta := unpackTxAddresses buf in Ret (Some ta).

Definition GetTxAddresses (d : RocksDB) (txid : string) : go (option TxAddresses) :=
  let* btxID := PackTxid txid in getTxAddresses d btxID.

(** A descriptor that was unpacked is nil if it is empty: its bytes were appended to nil. *)
Definition stored_desc (ad : bytes) : option bytes := match ad with [] => None | _ => Some ad end.

(** [None] is the nil descriptor. *)
Definition AddrDescForOutpoint (d : RocksDB) (o : Outpoint.t) : go (option bytes) :=
  match GetTxAddresses d (Outpoint.Txid o) with
  | Panic => Panic
  | Fail _ | Ret None => Ret None
  | Ret (Some ta) =>
      if Outpoint.Vout o <? 0 then
        let vin := Z.lnot (Outpoint.Vout o) in
        if zlen (Inputs ta) <=? vin then Ret None
        else let* i := go_index (Inputs ta) vin in Ret (stored_desc (TxInput.AddrDesc i))
      else if zlen (Outputs ta) <=? Outpoint.Vout o then Ret None
      else let* o := go_index (Outputs ta) (Outpoint.Vout o) in Ret (stored_desc (TxOutput.AddrDesc o))
  end.

(** ** Transactions of an address *)

(** What a [GetTransactionsCallback] returns: nil, [StopIteration] or an error; or it
    panics. *)
Inductive cbResult := CbNext | CbStop | CbErr (e : error) | CbPanic.

Section iteration.
(** The callback and the variables it captures. *)
Context {A : Type} (fn : A -> string -> Z -> list Z -> A * cbResult).

(** The transactions of one key; [Ret false] leaves the iteration. *)
Fixpoint iterTxs (fuel : nat) (height : Z) (val : bytes) (a : A) : A * go bool :=
  let txidUnpackedLen := PackedTxidLen in
  if txidUnpackedLen <? zlen val then
    match fuel with
    | O => (a, Panic)
    | S f =>
        match (let* id := go_slice val 0 txidUnpackedLen in
               let* tx := UnpackTxid id in
               let* val := go_from val txidUnpackedLen in
               let* '(indexes, val) := unpackIndexes (length val) val in
               Ret (tx, indexes, val)) with
        | Ret (tx, indexes, val) =>
            match fn a tx height indexes with
            | (a, CbNext) => iterTxs f height val a
            | (a, CbStop) => (a, Ret false)
            | (a, CbErr e) => (a, Fail e)
            | (a, CbPanic) => (a, Panic)
            end
        | Fail e => (a, Fail e)
        | Panic => (a, Panic)
        end
    end
  else (a, Ret true).

Fixpoint iterKeys (stopKey : bytes) (it : list (bytes * bytes)) (a : A) : A * go unit :=
  match it with
  | [] => (a, Ret tt)
  | (key, val) :: it' =>
      if bytes_ltb stopKey key then (a, Ret tt)
      else
        match unpackAddressKey key with
        | Ret (_, height) =>
            match iterTxs (length val) height val a with
            | (a, Ret true) => iterKeys stopKey it' a
            | (a, Ret false) => (a, Ret tt)
            | (a, Fail e) => (a, Fail e)
            | (a, Panic) => (a, Panic)
            end
        | Fail e => (a, Fail e)
        | Panic => (a, Panic)
        end
  end.

Definition GetAddrDescTransactions (d : RocksDB) (addrDesc : bytes) (lower higher : Z) (a : A)
    : A * go unit :=
  let startKey := packAddressKey addrDesc higher in
  let stopKey := packAddressKey addrDesc lower in
  match dbIter d cfAddresses with
  | Ret it => iterKeys stopKey (Seek startKey it) a
  | Fail e => (a, Fail e)
  | Panic => (a, Panic)
  end.

Definition GetTransactions (d : RocksDB) (address : string) (lower higher : Z) (a : A) : A * go unit :=
  match GetAddrDescFromAddress address with
  | Ret addrDesc => GetAddrDescTransactions d addrDesc lower higher a
  | Fail e => (a, Fail e)
  | Panic => (a, Panic)
  end.
End iteration.

(** ** Stored transactions: the column [transactions] *)

Definition GetTx (d : RocksDB) (txid : string) : go (option (Tx.t * Z)) :=
  let* key := PackTxid txid in
  let* val := dbGet d cfTransactions key in
  let data := opt_bytes val in
  if 4 <? zlen data then let* r := UnpackTx data in Ret (Some r) else Ret None.

(** A transaction whose id cannot be packed is silently not stored. *)
Definition PutTx (now : Z) (tx : Tx.t) (height blockTime : Z) : sgo RocksDB unit :=
  match PackTxid (Tx.Txid tx) with
  | Panic => spanic
  | Fail _ => sret tt
  | Ret key =>
      let! buf := slift (PackTx tx height blockTime) in
      do! dbWrite [PutCF cfTransactions key buf] in
      with_is (AddDBColumnStats now (cf_code cfTransactions) 1 (zlen key) (zlen buf))
  end.

Definition internalDeleteTx (now : Z) (wb : WriteBatch) (key : bytes) : sgo RocksDB WriteBatch :=
  let! d := sget in
  do! match dbGet d cfTransactions key with
      | Panic => spanic
      | Fail _ => sret tt
      | Ret val =>
          let l := zlen (opt_bytes val) in
          if 0 <? l then
            with_is (AddDBColumnStats now (cf_code cfTransactions) (-1) (- zlen key) (- l))
          else sret tt
      end in
  sret (wb ++ [DeleteCF cfTransactions key]).

Definition DeleteTx (now : Z) (txid : string) : sgo RocksDB unit :=
  match PackTxid txid with
  | Panic => spanic
  | Fail _ => sret tt
  | Ret key => let! wb := internalDeleteTx now [] key in dbWrite wb
  end.

(** ** The internal state in the store *)

(** The column of the stored state with the name of a column of the database. *)
Fixpoint matchColumn (name : string) (sc : list InternalStateColumn) : go InternalStateColumn :=
  match sc with
  | [] => Ret (mkColumn name dbVersion 0 0 0 0)
  | c :: sc' =>
      if decide (Name c = name) then
        if ColVersion c =? dbVersion
        then Ret (mkColumn name dbVersion (Rows c) (KeyBytes c) (ValueBytes c) (Updated c))
        else Fail (ErrMsg "DB version does not match the required version. DB is not compatible.")
      else matchColumn name sc'
  end.

Definition LoadInternalState (d : RocksDB) (rpcCoin : string) : go InternalState :=
  let* val := dbGet d cfDefault internalStateKey in
  let data := opt_bytes val in
  let* i :=
    (if zlen data =? 0 then Ret (newInternalState rpcCoin)
     else
       let* i := UnpackInternalState data in
       if decide (Coin i = EmptyString) then Ret (set_Coin rpcCoin i)
       else if decide (Coin i = rpcCoin) then Ret i
       else Fail (ErrMsg "Coins do not match.")) in
  let* names := cfNames in
  let* nc := go_fold (fun acc n => let* c := matchColumn n (DbColumns i) in Ret (acc ++ [c])) [] names in
  let i := set_DbColumns nc i in
  let i := set_sync false (BestHeight i) (LastSync i) i in
  let i := set_mempool false (MempoolSize i) 0 i in
  Ret (set_SyncMode false i).

Definition SetInternalState (i : InternalState) : sgo RocksDB unit := fun d =>
  (set_istate (Some i) d, Ret tt).

(** [storeState(d.is)]: every caller passes the state of the handle. [Pack] stamps
    it before the write, which may fail. *)
Definition storeState (now : Z) : sgo RocksDB unit := fun d =>
  match istate d with
  | None => (d, Panic)
  | Some i =>
      let '(i', r) := Pack now i in
      (let! buf := slift r in dbWrite [PutCF cfDefault internalStateKey buf])
        (set_istate (Some i') d)
  end.

Definition SetInconsistentState (now : Z) (inconsistent : bool) : sgo RocksDB unit :=
  let! d := sget in
  match istate d with
  | None => sfail (ErrMsg "Internal state not created")
  | Some i =>
      do! sput (set_istate
                  (Some (set_DbState (if inconsistent then DbStateInconsistent else DbStateOpen) i)) d) in
      storeState now
  end.

(** The metrics only read the column statistics. *)
Definition StoreInternalState (now : Z) : sgo RocksDB unit :=
  let! d := sget in
  do! (if metrics d then
         let! names := slift cfNames in
         slift (go_fold (fun _ c =>
                  let* i := must (istate d) in
                  let* _ := GetDBColumnStatValues (Z.of_nat c) i in Ret tt) tt (seq 0 (length names)))
       else sret tt) in
  storeState now.

(** An open state is stored as closed; an error of the store is logged only. *)
Definition closeState (now : Z) : sgo RocksDB unit :=
  let! d := sget in
  match istate d with
  | None => sret tt
  | Some i =>
      if DbState i =? DbStateOpen then
        do! sput (set_istate (Some (set_DbState DbStateClosed i)) d) in
        (fun d => match StoreInternalState now d with
                  | (d, Fail _) => (d, Ret tt)
                  | r => r
                  end)
      else sret tt
  end.

Definition Close (now : Z) : sgo RocksDB unit :=
  let! d := sget in
  match db d with
  | None => sret tt
  | Some _ => do! closeState now in (fun d => (set_db None d, Ret tt))
  end.

(** *** Column statistics *)

Record columnSize := mkColumnSize { rows : Z; keysSum : Z; valuesSum : Z }.

Definition add_row (e : bytes * bytes) (c : columnSize) : columnSize :=
  mkColumnSize (i64 (rows c + 1)) (i64 (keysSum c + zlen e.1)) (i64 (valuesSum c + zlen e.2)).

(** The inner loop over one iterator: what was summed, the last key read (nil if
    none) and what is left of the iterator. [stop n] is a signal before row [n]. *)
Fixpoint computeRun (stop : Z -> bool) (refresh count : Z) (it : list (bytes * bytes))
    (c : columnSize) (key : bytes) : go (columnSize * bytes * list (bytes * bytes)) :=
  match it with
  | [] => Ret (c, key, [])
  | e :: it' =>
      if count <? refresh then
        if stop (rows c) then Fail (ErrMsg "Interrupted")
        else computeRun stop refresh (count + 1) it' (add_row e c) e.1
      else Ret (c, key, it)
  end.

(** The outer loop reopens the iterator after the last key read. *)
Fixpoint computeRounds (fuel : nat) (stop : Z -> bool) (refresh : Z) (it : list (bytes * bytes))
    (c : columnSize) (seekKey : bytes) : go columnSize :=
  match fuel with
  | O => Panic
  | S f =>
      let run := if rows c =? 0 then it else tail (Seek seekKey it) in
      let* '(c, key, rest) := computeRun stop refresh 0 run c [] in
      match rest with
      | [] => Ret c
      | _ => computeRounds f stop refresh it c key
      end
  end.

Definition computeColumnSize (stop : Z -> bool) (refresh : Z) (d : RocksDB) (col : cf) : go columnSize :=
  let* it := dbIter d col in
  computeRounds (Datatypes.S (length it)) stop refresh it (mkColumnSize 0 0 0) [].

Definition ComputeInternalStateColumnStats (now : Z) (stop : Z -> bool) : sgo RocksDB unit :=
  let! names := slift cfNames in
  (fix columns (c : nat) (n : nat) : sgo RocksDB unit :=
     match n with
     | O => sret tt
     | Datatypes.S n' =>
         let! d := sget in
         let! sz := slift (computeColumnSize stop refreshIterator d (cf_of_code (Z.of_nat c))) in
         do! with_is (SetDBColumnStats now (Z.of_nat c) (rows sz) (keysSum sz) (valuesSum sz)) in
         columns (Datatypes.S c) n'
     end) O (length names).
End rocksdb.
