(* ===== verification/RocksDBFacts.v ===== *)
(** Facts about the database handle ([RocksDB]): reads of the columns [height] and
    [transactions] after writes, the search of the transactions of an address, the
    clean-up of the column [blockTxs], the statistics of the columns and the life
    cycle of the internal state. *)
From stdpp Require Import base list gmap strings sorting.
From Stdlib Require Import ZArith Lia.
From S2P Require Import Prelude Hex Types Store Vlq Codec InternalState AddrBalance TxAddresses RocksDB BitcoinParser.

Open Scope Z_scope.
Open Scope go_scope.

(** * Iterators *)

Lemma bytes_lt_le_false a b : bytes_lt a b -> ~ bytes_le b a.
Proof.
  intros H. rewrite bytes_le_lt. intros [H2| ->].
  - apply (bytes_lt_irrefl a). by etransitivity.
  - by apply (bytes_lt_irrefl a).
Qed.

(** [Seek] to the key of an entry finds that entry. *)
Lemma Seek_split pre e suf :
  StronglySorted bytes_lt (pre ++ e :: suf).*1 -> Seek e.1 (pre ++ e :: suf) = e :: suf.
Proof.
  unfold Seek. rewrite fmap_app, fmap_cons. intros Hs.
  rewrite filter_app, filter_cons_True by (rewrite bytes_le_lt; auto).
  assert (filter (fun x : bytes * bytes => bytes_le e.1 x.1) pre = []) as ->.
  { apply filter_none, Forall_forall. intros x Hx. apply bytes_lt_le_false.
    eapply (StronglySorted_app_1_elem_of bytes_lt (pre.*1)); [exact Hs|by apply list_elem_of_fmap_2|left]. }
  simpl. f_equal. apply filter_all, Forall_forall. intros x Hx.
  rewrite bytes_le_lt. left.
  apply StronglySorted_app_1_r in Hs. apply StronglySorted_cons in Hs as [Hf _].
  rewrite Forall_forall in Hf. apply Hf. by apply list_elem_of_fmap_2.
Qed.

(** * Column statistics *)

(** The size of a column, summed in one pass. *)
Definition sum_rows (c : columnSize) (it : list (bytes * bytes)) : columnSize :=
  foldl (fun c e => add_row e c) c it.

Definition no_stop (n : Z) : bool := false.

Lemma computeRun_spec refresh count it c key :
  count <= refresh ->
  let n := Z.to_nat (refresh - count) in
  computeRun no_stop refresh count it c key =
  Ret (sum_rows c (take n it), default key (last (take n it).*1), drop n it).
Proof.
  revert count c key. induction it as [|e it IH]; intros count c key Hc; cbv zeta.
  - by rewrite take_nil, drop_nil.
  - cbn [computeRun]. destruct (Z.ltb_spec count refresh) as [Hlt|Hge].
    + cbn [no_stop]. rewrite IH by lia.
      replace (Z.to_nat (refresh - count)) with (S (Z.to_nat (refresh - (count + 1)))) by lia.
      cbn [take drop]. rewrite fmap_cons, last_cons. by destruct (last (_ <$> _)).
    + replace (Z.to_nat (refresh - count)) with O by lia. done.
Qed.

Lemma sum_rows_app c l1 l2 : sum_rows c (l1 ++ l2) = sum_rows (sum_rows c l1) l2.
Proof. apply foldl_app. Qed.

Lemma sum_rows_rows l c : in_i64 (rows c) -> rows c + zlen l < 2 ^ 63 ->
  rows (sum_rows c l) = rows c + zlen l.
Proof.
  revert c. induction l as [|e l IH]; intros c Hr Hl; simpl.
  - rewrite zlen_nil. lia.
  - rewrite zlen_cons in *. pose proof (zlen_nonneg l). unfold in_i64 in Hr.
    assert (rows (add_row e c) = rows c + 1) as E by (simpl; rewrite i64_id; unfold in_i64; lia).
    change (foldl _ (add_row e c) l) with (sum_rows (add_row e c) l).
    rewrite IH, E; unfold in_i64; lia.
Qed.

Lemma last_split {A} (l : list A) : l <> [] -> exists l' x, l = l' ++ [x] /\ last l = Some x.
Proof.
  intros H. destruct (last l) as [x|] eqn:E.
  - exists (take (length l - 1) l), x. split; [|done].
    rewrite last_lookup in E. rewrite <- (take_drop (length l - 1) l) at 1. f_equal.
    assert (length l <> 0)%nat by (by destruct l). replace (pred (length l)) with (length l - 1)%nat in E by lia.
    rewrite (drop_S _ x) by done. by rewrite drop_ge by lia.
  - by apply last_None in E.
Qed.

Lemma computeRounds_spec fuel refresh pre suf seekKey :
  0 < refresh -> (length suf < fuel)%nat -> zlen (pre ++ suf) < 2 ^ 63 ->
  StronglySorted bytes_lt (pre ++ suf).*1 ->
  (pre <> [] -> last pre.*1 = Some seekKey) ->
  computeRounds fuel no_stop refresh (pre ++ suf) (sum_rows (mkColumnSize 0 0 0) pre) seekKey =
  Ret (sum_rows (mkColumnSize 0 0 0) (pre ++ suf)).
Proof.
  intros Hr. revert pre suf seekKey. induction fuel as [|f IH]; intros pre suf seekKey Hf Hl Hs Hk; [lia|].
  cbn [computeRounds]. rewrite zlen_app in Hl. pose proof (zlen_nonneg suf).
  rewrite sum_rows_rows by (unfold in_i64; simpl; zlen_lia). cbn [rows].
  assert ((if 0 + zlen pre =? 0 then pre ++ suf else tail (Seek seekKey (pre ++ suf))) = suf) as ->.
  { destruct (Z.eqb_spec (0 + zlen pre) 0) as [E|E].
    - by rewrite (zlen_0_inv pre) by lia.
    - destruct (last_split pre) as (p & e & -> & He); [by intros ->|].
      rewrite fmap_app, last_app in Hk. simpl in Hk.
      assert (seekKey = e.1) as -> by (injection (Hk ltac:(by destruct p)); auto).
      rewrite <- app_assoc in *. simpl in *. by rewrite Seek_split. }
  rewrite computeRun_spec by lia. gostep. rewrite Z.sub_0_r, <- sum_rows_app.
  set (n := Z.to_nat refresh). destruct (drop n suf) as [|e r] eqn:Ed.
  - rewrite <- (take_drop n suf) at 2. by rewrite Ed, app_nil_r.
  - assert (n <> 0)%nat by (subst n; lia).
    assert (n < length suf)%nat.
    { apply (f_equal length) in Ed. rewrite length_drop in Ed. simpl in Ed. lia. }
    rewrite <- (take_drop n suf) at 1. rewrite app_assoc.
    rewrite IH.
    + by rewrite <- app_assoc, take_drop.
    + rewrite length_drop. lia.
    + rewrite <- app_assoc, take_drop, zlen_app. lia.
    + by rewrite <- app_assoc, take_drop.
    + intros _. rewrite fmap_app, last_app.
      destruct (last (take n suf).*1) eqn:El; [done|]. apply last_None in El.
      apply (f_equal length) in El. rewrite length_fmap, length_take in El. simpl in El. lia.
Qed.

(** * Transactions of an address *)

(** A byte string between two extensions of [a] extends [a]. *)
Lemma bytes_between a x y k :
  bytes_le (a ++ x) k -> bytes_le k (a ++ y) -> a `prefix_of` k.
Proof.
  revert k. induction a as [|b a IH]; intros k H1 H2; [apply prefix_nil|].
  destruct k as [|c k]; [done|].
  unfold bytes_le, bytes_leb in H1, H2. simpl in H1, H2.
  destruct (Z.compare_spec (b2z b) (b2z c)) as [E|E|E]; [|destruct (Z.compare_spec (b2z c) (b2z b)); (done || lia)|done].
  rewrite E, Z.compare_refl in H2. apply b2z_inj in E as ->.
  apply prefix_cons, IH; done.
Qed.

(** Calls of the callback, in order, until it stops or fails; [true] after the last. *)
Fixpoint run_calls {A} (fn : A -> string -> Z -> list Z -> A * cbResult)
    (calls : list (string * Z * list Z)) (a : A) : A * go bool :=
  match calls with
  | [] => (a, Ret true)
  | (tx, h, ix) :: calls' =>
      match fn a tx h ix with
      | (a, CbNext) => run_calls fn calls' a
      | (a, CbStop) => (a, Ret false)
      | (a, CbErr e) => (a, Fail e)
      | (a, CbPanic) => (a, Panic)
      end
  end.

Definition finish {A} (r : A * go bool) : A * go unit := (r.1, let* _ := r.2 in Ret tt).

Lemma run_calls_app {A} (fn : A -> string -> Z -> list Z -> A * cbResult) c1 c2 a :
  run_calls fn (c1 ++ c2) a =
  match run_calls fn c1 a with (a, Ret true) => run_calls fn c2 a | r => r end.
Proof.
  revert a. induction c1 as [|[[tx h] ix] c1 IH]; intros a; simpl; [done|].
  destruct (fn a tx h ix) as [a' [| |e|]]; auto.
Qed.

Definition wf_txIndexes (pl : Z) (t : txIndexes) : Prop :=
  zlen (ti_btxID t) = pl /\ ti_indexes t <> [] /\ Forall wf_index (ti_indexes t).

Section search.
Context `{SL : StoreLaws} `{PL : ParserLaws} `{VL : VlqLaws} `{J : StateJson}.

Definition txid_of (b : bytes) : string :=
  match UnpackTxid b with Ret t => t | _ => EmptyString end.

(** What the callback is called with for one height: the last transaction of the
    block first. *)
Definition calls_at (x : Z * list txIndexes) : list (string * Z * list Z) :=
  map (fun t => (txid_of (ti_btxID t), x.1, ti_indexes t)) (reverse x.2).

Definition pack_one (t : txIndexes) : bytes := ti_btxID t ++ packIndexes (ti_indexes t).

Lemma packIndexes_length l : (length l <= length (packIndexes l))%nat.
Proof.
  induction l as [|i l IH]; [simpl; lia|].
  destruct l as [|j l].
  - simpl. pose proof (packVarint32_len (Z.lor (i32 (Z.shiftl i 1)) 1)). unfold zlen in *. lia.
  - change (packIndexes (i :: j :: l)) with (packVarint32 (i32 (Z.shiftl i 1)) ++ packIndexes (j :: l)).
    pose proof (packVarint32_len (i32 (Z.shiftl i 1))). unfold zlen in *.
    rewrite length_app. simpl length in *. lia.
Qed.

Lemma iterTxs_pack {A} (fn : A -> string -> Z -> list Z -> A * cbResult) l fuel h a :
  Forall (wf_txIndexes PackedTxidLen) l -> (length l <= fuel)%nat ->
  iterTxs fn fuel h (concat (map pack_one l)) a =
  run_calls fn (map (fun t => (txid_of (ti_btxID t), h, ti_indexes t)) l) a.
Proof.
  intros Hl. revert fuel a. induction Hl as [|t l (Hid & Hne & Hix) Hl IH]; intros fuel a Hf.
  - pose proof PackedTxidLen_pos. cbn [map concat].
    destruct fuel; cbn [iterTxs]; (destruct (Z.ltb_spec PackedTxidLen (zlen (@nil byte))); [|done]);
      rewrite zlen_nil in *; lia.
  - destruct fuel as [|fuel]; simpl in Hf; [lia|]. cbn [map concat iterTxs].
    assert (length (ti_indexes t) <= length (packIndexes (ti_indexes t)))%nat by apply packIndexes_length.
    assert (0 < length (ti_indexes t))%nat by (destruct (ti_indexes t); [done|simpl; lia]).
    set (r := concat (map pack_one l)). unfold pack_one. rewrite <- app_assoc.
    destruct (Z.ltb_spec PackedTxidLen (zlen (ti_btxID t ++ packIndexes (ti_indexes t) ++ r)));
      [|unfold zlen in *; rewrite !length_app in *; lia].
    rewrite go_slice_prefix by done. gostep.
    destruct (UnpackTxid_Pack (ti_btxID t) Hid) as (tx & Htx & _).
    unfold txid_of at 1. rewrite Htx. gostep. rewrite go_from_app by done. gostep.
    rewrite unpackIndexes_pack by (done || rewrite length_app; lia). gostep.
    cbn [run_calls]. destruct (fn a tx h (ti_indexes t)) as [a' [| |e|]]; [|done..].
    apply IH. lia.
Qed.

(** An entry of the column [addresses] that belongs to the address [ad]. *)
Definition entry_of (ad : bytes) (e : bytes * bytes) (x : Z * list txIndexes) : Prop :=
  e.1 = packAddressKey ad x.1 /\ in_u32 x.1 /\ e.2 = packTxIndexes x.2 /\
  Forall (wf_txIndexes PackedTxidLen) x.2.

Lemma pack_one_length l : Forall (wf_txIndexes PackedTxidLen) l ->
  (length l <= length (concat (map pack_one l)))%nat.
Proof.
  induction 1 as [|t l (Hid & _) Hl IH]; [simpl; lia|]. cbn [map concat length].
  unfold pack_one at 1. rewrite !length_app. pose proof PackedTxidLen_pos. unfold zlen in *. lia.
Qed.

Lemma iterKeys_calls {A} (fn : A -> string -> Z -> list Z -> A * cbResult) ad stop it es a :
  ad <> [] -> Forall2 (entry_of ad) it es -> Forall (fun e => bytes_le e.1 stop) it ->
  iterKeys fn stop it a = finish (run_calls fn (concat (map calls_at es)) a).
Proof.
  intros Had Hes. revert a. induction Hes as [|[k v] [h txi] it es (Hk & Hh & Hv & Hw) Hes IH];
    intros a Hle; [done|]. apply Forall_cons in Hle as [Hle Hles]. simpl in Hk, Hh, Hv, Hle, Hw.
  cbn [iterKeys map concat]. rewrite run_calls_app.
  assert (bytes_ltb stop k = false) as ->.
  { unfold bytes_ltb. destruct (bytes_cmp stop k) eqn:E; [done| |done]. by apply bytes_lt_le_false in E. }
  rewrite Hk, packAddressKey_unpack by done.
  assert (Forall (wf_txIndexes PackedTxidLen) (reverse txi)) by (by apply Forall_reverse).
  rewrite Hv. unfold packTxIndexes. rewrite (iterTxs_pack fn (reverse txi)) by (auto using pack_one_length).
  unfold calls_at at 1. simpl.
  destruct (run_calls fn _ a) as [a' [[]|e|]]; auto.
Qed.

(** Beyond the last key of the range nothing is read. *)
Lemma iterKeys_filter {A} (fn : A -> string -> Z -> list Z -> A * cbResult) stop it a :
  StronglySorted bytes_lt it.*1 ->
  iterKeys fn stop it a = iterKeys fn stop (filter (fun e => bytes_le e.1 stop) it) a.
Proof.
  revert a. induction it as [|[k v] it IH]; intros a Hs; [done|].
  rewrite fmap_cons in Hs. apply StronglySorted_cons in Hs as [Hf Hs]. simpl in Hf.
  destruct (decide (bytes_le k stop)) as [Hk|Hk].
  - rewrite filter_cons_True by done. cbn [iterKeys].
    destruct (bytes_ltb stop k); [done|]. destruct (unpackAddressKey k) as [[? h]| |]; [|done..].
    destruct (iterTxs fn _ h v a) as [a' [[]|e|]]; auto.
  - assert (bytes_lt stop k) as Hlt.
    { destruct (bytes_le_total stop k) as [H|H]; [|done].
      apply bytes_le_lt in H as [H| ->]; [done|]. exfalso. apply Hk, bytes_le_lt. auto. }
    rewrite filter_cons_False, filter_none by (done || (rewrite Forall_fmap in Hf;
      eapply Forall_impl; [exact Hf|]; intros e He; apply bytes_lt_le_false; simpl in He; by etransitivity)).
    cbn [iterKeys]. unfold bytes_ltb, bytes_lt in *. by rewrite Hlt.
Qed.

(** The column [addresses] holds what [storeAddresses] writes. *)
Definition addresses_column (m : kv) : Prop :=
  forall k v, m !! (cfAddresses, k) = Some v -> exists a h txi, entry_of a (k, v) (h, txi).

(** No key of another address begins with [ad]. *)
Definition isolated (m : kv) (ad : bytes) : Prop :=
  forall a h v, m !! (cfAddresses, packAddressKey a h) = Some v ->
    ad `prefix_of` packAddressKey a h -> a = ad.

(** The blocks of [ad] in a range of heights, newest first: [es] lists every key of
    the column for [ad] with a height in the range, once. *)
Definition history (m : kv) (ad : bytes) (lower higher : Z) (es : list (Z * list txIndexes)) : Prop :=
  StronglySorted (fun x y => y < x) es.*1 /\
  (forall h txi, (h, txi) ∈ es ->
     lower <= h <= higher /\ m !! (cfAddresses, packAddressKey ad h) = Some (packTxIndexes txi) /\
     Forall (wf_txIndexes PackedTxidLen) txi) /\
  (forall h v, in_u32 h -> lower <= h <= higher -> m !! (cfAddresses, packAddressKey ad h) = Some v ->
     exists txi, (h, txi) ∈ es /\ v = packTxIndexes txi).

Lemma key_le ad h1 h2 : in_u32 h1 -> in_u32 h2 ->
  bytes_le (packAddressKey ad h1) (packAddressKey ad h2) <-> h2 <= h1.
Proof.
  intros H1 H2. unfold bytes_le, bytes_leb. rewrite packAddressKey_cmp by done.
  destruct (Z.compare_spec h2 h1); split; intros; (done || lia).
Qed.

Lemma Forall2_choose {A B} (R : A -> B -> Prop) l :
  (forall x, x ∈ l -> exists y, R x y) -> exists ys, Forall2 R l ys.
Proof.
  induction l as [|x l IH]; intros H; [by exists []|].
  destruct (H x) as [y Hy]; [left|]. destruct IH as [ys Hys]; [intros; apply H; by right|].
  exists (y :: ys). by constructor.
Qed.

Lemma entries_sorted ad it es :
  Forall2 (entry_of ad) it es -> StronglySorted bytes_lt it.*1 -> StronglySorted (fun x y => y < x) es.*1.
Proof.
  induction 1 as [|e x it es (Hk & Hh & _) Hes IH]; [constructor|]. rewrite !fmap_cons.
  intros [Hf Hs]%StronglySorted_cons. apply StronglySorted_cons. split; [|auto].
  apply Forall_fmap, Forall_forall. intros y Hy.
  apply list_elem_of_lookup in Hy as [i Hi].
  destruct (Forall2_lookup_r _ _ _ _ _ Hes Hi) as (e' & He' & (Hk' & Hh' & _)).
  rewrite Forall_fmap, Forall_forall in Hf. specialize (Hf e' ltac:(by apply list_elem_of_lookup; exists i)).
  simpl in Hf. unfold bytes_lt in Hf. rewrite Hk, Hk', packAddressKey_cmp in Hf by done.
  by apply Z.compare_lt_iff in Hf.
Qed.

Lemma sorted_filter_fst (Q : bytes * bytes -> Prop) `{!forall e, Decision (Q e)} (it : list (bytes * bytes)) :
  StronglySorted bytes_lt it.*1 -> StronglySorted bytes_lt (filter Q it).*1.
Proof.
  induction it as [|e it IH]; [done|]. rewrite fmap_cons. intros [Hf Hs]%StronglySorted_cons.
  rewrite filter_cons. case_decide; [|auto]. rewrite fmap_cons. apply StronglySorted_cons.
  split; [|auto]. rewrite Forall_fmap, Forall_forall in *. intros x [_ Hx]%list_elem_of_filter. auto.
Qed.

(** The range an iteration reads holds exactly the history of the address. *)
Lemma range_history (s : store) ad lower higher :
  addresses_column (contents s) -> isolated (contents s) ad -> in_u32 lower -> in_u32 higher ->
  let it := filter (fun e => bytes_le e.1 (packAddressKey ad lower))
              (Seek (packAddressKey ad higher) (IterCF s cfAddresses)) in
  exists es, Forall2 (entry_of ad) it es /\ history (contents s) ad lower higher es.
Proof.
  intros Hcol Hiso Hlo Hhi it.
  assert (forall e, e ∈ it <-> bytes_le e.1 (packAddressKey ad lower) /\
            bytes_le (packAddressKey ad higher) e.1 /\ contents s !! (cfAddresses, e.1) = Some e.2) as Hit.
  { intros [k v]. subst it. unfold Seek. rewrite !list_elem_of_filter, IterCF_contents. done. }
  destruct (Forall2_choose (entry_of ad) it) as [es Hes].
  { intros [k v] (H1 & H2 & Hm)%Hit. simpl in *. destruct (Hcol k v Hm) as (a & h & txi & He).
    destruct He as (Hk & He). simpl in *. exists (h, txi). split; [|done]. simpl. subst k.
    f_equal. apply (Hiso a h v); [done|]. eapply bytes_between; [exact H2|exact H1]. }
  exists es. split; [done|]. split; [|split].
  - apply (entries_sorted ad it); [done|]. apply sorted_filter_fst. apply sorted_filter_fst, IterCF_sorted.
  - intros h txi [i Hi]%list_elem_of_lookup.
    destruct (Forall2_lookup_r _ _ _ _ _ Hes Hi) as ([k v] & Hkv & (Hk & Hh & Hv & Hwf)). simpl in *. subst.
    assert ((packAddressKey ad h, packTxIndexes txi) ∈ it) as (H1 & H2 & Hm)%Hit
      by (apply list_elem_of_lookup; eauto). simpl in *.
    apply key_le in H1, H2; [|done..]. auto.
  - intros h v Hh Hr Hm. assert ((packAddressKey ad h, v) ∈ it) as Hin.
    { apply Hit. simpl. rewrite !key_le by done. split; [lia|]. split; [lia|done]. }
    apply list_elem_of_lookup in Hin as [i Hi].
    destruct (Forall2_lookup_l _ _ _ _ _ Hes Hi) as ([h' txi] & Hx & (Hk & Hh' & Hv & _)). simpl in *.
    exists txi. split; [|done]. apply list_elem_of_lookup. exists i.
    replace h with h'; [done|]. unfold packAddressKey in Hk. apply app_inv_head in Hk.
    apply (f_equal be_Z) in Hk. rewrite !be_Z_be_bytes, !Z.mod_small in Hk by apply not_u32_range.
    rewrite <- (not_u32_invol h), Hk, not_u32_invol; done.
Qed.

Lemma GetAddrDescTransactions_run {A} (fn : A -> string -> Z -> list Z -> A * cbResult) d s ad lower higher a :
  db d = Some s -> ad <> [] ->
  addresses_column (contents s) -> isolated (contents s) ad -> in_u32 lower -> in_u32 higher ->
  exists es, history (contents s) ad lower higher es /\
    GetAddrDescTransactions fn d ad lower higher a = finish (run_calls fn (concat (map calls_at es)) a).
Proof.
  intros Hd Had Hcol Hiso Hlo Hhi.
  destruct (range_history s ad lower higher) as (es & Hes & Hh); try done.
  exists es. split; [done|]. unfold GetAddrDescTransactions, dbIter. rewrite Hd. cbn [must go_bind].
  rewrite iterKeys_filter by apply sorted_filter_fst, IterCF_sorted.
  apply (iterKeys_calls fn ad); [done|done|]. apply Forall_forall. by intros e [? _]%list_elem_of_filter.
Qed.
End search.

(** * A store without errors *)

Section reliable_store.
Context `{SL : StoreLaws}.
Hypothesis Hrel : reliable.

Lemma dbGet_reliable d s c k : db d = Some s -> dbGet d c k = Ret (contents s !! (c, k)).
Proof. intros Hd. unfold dbGet. rewrite Hd. cbn [must go_bind]. apply Hrel. Qed.

Lemma dbWrite_reliable d s wb : db d = Some s -> exists s',
  dbWrite wb d = (set_db (Some s') d, Ret tt) /\ contents s' = apply_batch wb (contents s).
Proof.
  intros Hd. unfold dbWrite. rewrite Hd. destruct (Write s wb) as [s' e] eqn:E.
  pose proof (proj2 Hrel s wb) as He. rewrite E in He. simpl in He. subst e.
  exists s'. split; [done|]. by eapply Write_ok.
Qed.

End reliable_store.

(** ** The stored internal state *)

Definition stateKey : cf * bytes := (cfDefault, internalStateKey).

Section stored_state.
Context `{SL : StoreLaws} `{JL : StateJsonLaws}.
Hypothesis Hrel : reliable.

(** The state that is stored. *)
Definition storedState (s : store) : option InternalState :=
  match contents s !! stateKey with
  | Some v => match UnpackInternalState v with Ret i => Some i | _ => None end
  | None => None
  end.

(** What [storeState] writes is in the store, and nothing else is written. *)
Lemma storeState_run now d i s : istate d = Some i -> db d = Some s ->
  exists s', storeState now d = (set_db (Some s') (set_istate (Some (set_LastStore now i)) d), Ret tt) /\
    storedState s' = Some (set_LastStore now i) /\ forall ck, ck <> stateKey -> contents s' !! ck = contents s !! ck.
Proof.
  intros Hi Hs. unfold storeState. rewrite Hi. unfold Pack. destruct (json_Marshal_ok (set_LastStore now i)) as (v & Hv & _).
  rewrite Hv. unfold sbind, slift.
  destruct (dbWrite_reliable Hrel (set_istate (Some (set_LastStore now i)) d) s [PutCF cfDefault internalStateKey v] Hs) as (s' & -> & Hc).
  exists s'. split; [done|]. rewrite Hc. split.
  - unfold storedState. rewrite Hc. cbn. rewrite lookup_insert_eq.
    unfold UnpackInternalState. by rewrite (json_Unmarshal_Marshal _ _ Hv).
  - intros ck Hck. cbn. by apply lookup_insert_ne.
Qed.

Lemma SetInconsistentState_run now (b : bool) d i s : istate d = Some i -> db d = Some s ->
  exists s', let i' := set_LastStore now (set_DbState (if b then DbStateInconsistent else DbStateOpen) i) in
    SetInconsistentState now b d = (set_db (Some s') (set_istate (Some i') d), Ret tt) /\ storedState s' = Some i' /\
    forall ck, ck <> stateKey -> contents s' !! ck = contents s !! ck.
Proof.
  intros Hi Hs. unfold SetInconsistentState. rewrite (sbind_eq _ _ d d d), Hi by done.
  set (d' := set_istate _ d). rewrite (sbind_eq _ _ d d' tt) by done. by apply (storeState_run now d' _ s).
Qed.
End stored_state.

(** * The sizes of a column *)

Definition sum_len (f : bytes * bytes -> bytes) (it : list (bytes * bytes)) : Z :=
  foldr (fun e acc => zlen (f e) + acc) 0 it.

Lemma i64_add_l a b : i64 (i64 a + b) = i64 (a + b).
Proof.
  unfold i64. f_equal. replace ((a + 2 ^ 63) mod 2 ^ 64 - 2 ^ 63 + b + 2 ^ 63)
    with ((a + 2 ^ 63) mod 2 ^ 64 + b) by lia.
  rewrite Zplus_mod_idemp_l. f_equal. lia.
Qed.

Lemma sum_rows_total it r k v :
  sum_rows (mkColumnSize (i64 r) (i64 k) (i64 v)) it =
  mkColumnSize (i64 (r + zlen it)) (i64 (k + sum_len fst it)) (i64 (v + sum_len snd it)).
Proof.
  revert r k v. induction it as [|e it IH]; intros r k v; simpl.
  - by rewrite zlen_nil, !Z.add_0_r.
  - unfold sum_rows in *. unfold add_row at 2. simpl. rewrite !i64_add_l, IH, zlen_cons.
    f_equal; f_equal; lia.
Qed.

(** * The internal state *)

(** The columns of a stored state, in the order of the database. *)
Definition columns_ok (names : list string) (i : InternalState) : Prop :=
  map Name (DbColumns i) = names /\ NoDup names /\ Forall (fun c => ColVersion c = dbVersion) (DbColumns i).

Lemma matchColumn_found sc c : NoDup (map Name sc) -> Forall (fun c => ColVersion c = dbVersion) sc ->
  c ∈ sc -> matchColumn (Name c) sc = Ret c.
Proof.
  intros Hnd Hv. induction Hv as [|x sc Hx Hv IH]; [by intros ?%not_elem_of_nil|].
  simpl in Hnd. apply NoDup_cons in Hnd as [Hn Hnd]. intros Hc. cbn [matchColumn].
  case_decide as E.
  - rewrite Hx. simpl. apply elem_of_cons in Hc as [-> |Hc].
    + by destruct x; simpl in *; subst.
    + exfalso. apply Hn. rewrite E. apply list_elem_of_In, in_map. by apply list_elem_of_In.
  - apply elem_of_cons in Hc as [-> |Hc]; [done|auto].
Qed.

Lemma matchColumns_same (sc : list InternalStateColumn) l acc :
  NoDup (map Name sc) -> Forall (fun c => ColVersion c = dbVersion) sc -> l ⊆ sc ->
  go_fold (fun acc n => let* c := matchColumn n sc in Ret (acc ++ [c])) acc (map Name l) = Ret (acc ++ l).
Proof.
  intros Hnd Hv. revert acc. induction l as [|c l IH]; intros acc Hl; simpl.
  - by rewrite app_nil_r.
  - rewrite matchColumn_found by (done || apply Hl; left). cbn [go_bind].
    rewrite IH by (intros x Hx; apply Hl; by right). by rewrite <- app_assoc.
Qed.

(** The metrics of [StoreInternalState] read the statistics of existing columns only. *)
Lemma columnStats_read i n l : (n <= length (DbColumns i))%nat -> Forall (fun c => (c < n)%nat) l ->
  go_fold (fun (_ : unit) c =>
    let* i0 := must (Some i) in let* _ := GetDBColumnStatValues (Z.of_nat c) i0 in Ret tt) tt l = Ret tt.
Proof.
  intros Hn Hl. induction Hl as [|c l Hc Hl IH]; [done|]. cbn [go_fold must go_bind].
  unfold GetDBColumnStatValues at 1.
  destruct (Z.of_nat c <? zlen (DbColumns i)) eqn:E; [|by cbn [go_bind]].
  destruct (lookup_lt_is_Some_2 (DbColumns i) c) as [dc Hdc]; [lia|].
  assert (go_index (DbColumns i) (Z.of_nat c) = Ret dc) as ->; [|by cbn [go_bind]].
  rewrite <- (take_drop_middle _ _ _ Hdc). apply go_index_app. unfold zlen. rewrite length_take. lia.
Qed.

(** * The column [height] *)

Section heights.
Context `{SL : StoreLaws} `{PL : ParserLaws} `{VL : VlqLaws}.

(** A block whose header fits the packed form. *)
Record wf_info (bi : BlockInfo.t) (hv : bytes) : Prop := {
  info_len : zlen hv = PackedTxidLen;
  info_pack : PackBlockHash (BlockInfo.Hash bi) = Ret hv;
  info_unpack : UnpackBlockHash hv = Ret (BlockInfo.Hash bi);
  info_time : in_u32 (BlockInfo.Time bi);
  info_txs : in_u32 (BlockInfo.Txs bi);
  info_size : in_u32 (BlockInfo.Size bi);
}.

Lemma unpackBlockInfo_pack bi hv : wf_info bi hv -> exists v,
  packBlockInfo bi = Ret v /\
  unpackBlockInfo v = Ret (Some (BlockInfo.mk (BlockInfo.Hash bi) (BlockInfo.Time bi) (BlockInfo.Txs bi)
                                  (BlockInfo.Size bi) 0)).
Proof.
  intros [Hl Hp Hu Ht Htx Hs]. unfold packBlockInfo. rewrite Hp. gostep. eexists. split; [done|].
  rewrite (u32_id (BlockInfo.Time bi)) by done.
  pose proof (packUint_zlen (BlockInfo.Time bi)) as Hz.
  pose proof (packVaruint_len (BlockInfo.Txs bi)). pose proof (packVaruint_len (BlockInfo.Size bi)).
  unfold unpackBlockInfo. destruct (Z.ltb_spec (zlen (hv ++ packUint (BlockInfo.Time bi) ++
    packVaruint (BlockInfo.Txs bi) ++ packVaruint (BlockInfo.Size bi))) (PackedTxidLen + 4 + 2)) as [E|_];
    [rewrite !zlen_app in E; lia|].
  rewrite go_slice_prefix by done. gostep. rewrite Hu. gostep.
  rewrite go_from_app by done. gostep. rewrite unpackUint_pack, u32_id by done. gostep.
  rewrite (app_assoc hv), go_from_app by zlen_lia. gostep.
  rewrite unpackVaruint_pack by (unfold in_u64, in_u32 in *; lia).
  rewrite app_assoc, go_from_app by zlen_lia. gostep.
  rewrite <- (app_nil_r (packVaruint (BlockInfo.Size bi))).
  rewrite unpackVaruint_pack by (unfold in_u64, in_u32 in *; lia).
  by rewrite !u32_id by done.
Qed.

Lemma packUint_lt h1 h2 : in_u32 h1 -> in_u32 h2 -> bytes_lt (packUint h1) (packUint h2) <-> h1 < h2.
Proof.
  intros H1 H2. unfold bytes_lt, packUint. rewrite bytes_cmp_be_Z by (by rewrite !be_bytes_length).
  rewrite !be_Z_be_bytes, !u32_id, !Z.mod_small by done. apply Z.compare_lt_iff.
Qed.

(** Every key of the column is a height up to [h]. *)
Definition heights_upto (m : kv) (h : Z) : Prop :=
  forall k v, m !! (cfHeight, k) = Some v -> exists h', in_u32 h' /\ h' <= h /\ k = packUint h'.

Lemma last_height (s : store) h v : in_u32 h -> heights_upto (contents s) h ->
  contents s !! (cfHeight, packUint h) = Some v -> last (IterCF s cfHeight) = Some (packUint h, v).
Proof.
  intros Hh Hup Hv. apply IterCF_contents in Hv.
  destruct (last_split (IterCF s cfHeight)) as (l & [k w] & E & El); [by intros E; rewrite E in Hv; inversion Hv|].
  rewrite El. f_equal. rewrite E in Hv. apply elem_of_app in Hv as [Hv|Hv%list_elem_of_singleton]; [|done].
  exfalso. assert ((k, w) ∈ IterCF s cfHeight) as Hk by (rewrite E; apply elem_of_app; right; by left).
  apply IterCF_contents, Hup in Hk as (h' & Hh' & Hle & ->).
  pose proof (IterCF_sorted s cfHeight) as Hs. rewrite E, fmap_app in Hs.
  enough (bytes_lt (packUint h) (packUint h')) as Hlt by (apply packUint_lt in Hlt; [lia|done..]).
  eapply (StronglySorted_app_1_elem_of bytes_lt (l.*1)); [exact Hs| |left].
  by apply (list_elem_of_fmap_2 fst) in Hv.
Qed.
End heights.

(** * Properties *)

Section properties.
Context `{SL : StoreLaws} `{PL : ParserLaws} `{VL : VlqLaws} `{JL : StateJsonLaws}.

(** C7: For an address that no other stored address extends, [GetAddrDescTransactions] is complete,
    exact and ordered: the callback gets every transaction of the address in the heights
    [lower..higher] and nothing else, from the newest block to the oldest and within a block
    from the last transaction to the first, with the indexes stored for it, until it stops the
    iteration or fails.  Without that condition the transactions of a longer address are
    reported too ([GetAddrDescTransactions_prefix]). *)
Theorem GetAddrDescTransactions_exact {A} (fn : A -> string -> Z -> list Z -> A * cbResult)
    (d : RocksDB) s ad lower higher (a : A) :
  db d = Some s -> ad <> [] ->
  addresses_column (contents s) -> isolated (contents s) ad -> in_u32 lower -> in_u32 higher ->
  exists es, history (contents s) ad lower higher es /\
    GetAddrDescTransactions fn d ad lower higher a = finish (run_calls fn (concat (map calls_at es)) a).
Proof. apply GetAddrDescTransactions_run. Qed.

(** [computeColumnSize] reopens its iterator every [refresh] rows and continues
    behind the last key it read; whatever the period, no row is skipped or counted
    twice: the result is the number of rows of the column and the total length of its
    keys and values, wrapped to 64 bits, and the loop ends. *)
Theorem computeColumnSize_exact (d : RocksDB) s refresh (col : cf) :
  db d = Some s -> 0 < refresh -> zlen (IterCF s col) < 2 ^ 63 ->
  computeColumnSize no_stop refresh d col =
  Ret (mkColumnSize (zlen (IterCF s col)) (i64 (sum_len fst (IterCF s col)))
         (i64 (sum_len snd (IterCF s col)))).
Proof.
  intros Hd Hr Hl. unfold computeColumnSize, dbIter. rewrite Hd. cbn [must go_bind].
  pose proof (zlen_nonneg (IterCF s col)).
  etransitivity; [apply (computeRounds_spec (Datatypes.S (length (IterCF s col))) refresh [] (IterCF s col) []);
    (done || lia || apply IterCF_sorted)|]. f_equal.
  change (mkColumnSize 0 0 0) with (mkColumnSize (i64 0) (i64 0) (i64 0)).
  rewrite (sum_rows_total ([] ++ IterCF s col)). simpl. f_equal.
  rewrite i64_id; unfold in_i64; lia.
Qed.

(** The internal state survives a restart: what [StoreInternalState] writes,
    [LoadInternalState] reads back with the same best height, database state and
    column statistics, with the synchronization flags cleared; a database of
    another coin is refused. *)
Theorem internalState_restart (d : RocksDB) s now i coin names :
  reliable -> db d = Some s -> istate d = Some i ->
  cfNames = Ret names -> columns_ok names i -> Coin i = coin -> coin <> EmptyString ->
  exists d', StoreInternalState now d = (d', Ret tt) /\
    LoadInternalState d' coin =
      Ret (set_SyncMode false (set_mempool false (MempoolSize i) 0
             (set_sync false (BestHeight i) (LastSync i) (set_LastStore now i)))) /\
    (forall c, c <> coin -> LoadInternalState d' c = Fail (ErrMsg "Coins do not match.")).
Proof.
  intros Hrel Hd Hi Hn (Hnames & Hnd & Hv) Hc Hne.
  destruct (json_Marshal_ok (set_LastStore now i)) as (buf & Hbuf & Hbne).
  set (d1 := set_istate (Some (set_LastStore now i)) d).
  destruct (dbWrite_reliable Hrel d1 s [PutCF cfDefault internalStateKey buf] Hd) as (s' & Ew & Hs').
  set (d' := set_db (Some s') d1) in *. exists d'.
  assert (dbGet d' cfDefault internalStateKey = Ret (Some buf)) as Hget.
  { rewrite (dbGet_reliable Hrel d' s') by done. rewrite Hs'. simpl. by rewrite lookup_insert_eq. }
  assert (zlen (opt_bytes (Some buf)) =? 0 = false) as Hz.
  { apply Z.eqb_neq. intros E. by apply zlen_0_inv in E. }
  split; [|split].
  - unfold StoreInternalState. rewrite (sbind_eq _ _ d d d) by done.
    rewrite (sbind_eq _ _ d d tt).
    + unfold storeState. rewrite Hi. unfold Pack. fold d1. rewrite Hbuf.
      by rewrite (sbind_eq _ _ d1 d1 buf) by done.
    + destruct (metrics d); [|done]. rewrite (sbind_eq _ _ d d names) by (by rewrite Hn).
      unfold slift. f_equal. rewrite Hi. apply (columnStats_read i (length names)).
      * by rewrite <- Hnames, length_map.
      * apply Forall_forall. intros c Hin%elem_of_seq. lia.
  - unfold LoadInternalState. rewrite Hget. gostep. rewrite Hz. unfold UnpackInternalState.
    change (opt_bytes (Some buf)) with buf. rewrite (json_Unmarshal_Marshal _ _ Hbuf). gostep.
    assert (Coin (set_LastStore now i) = coin) as HC by done.
    rewrite decide_False by (by rewrite HC). rewrite decide_True by done. gostep. rewrite Hn. gostep.
    change (DbColumns (set_LastStore now i)) with (DbColumns i). rewrite <- Hnames in *.
    rewrite (matchColumns_same (DbColumns i) (DbColumns i) []) by done. gostep.
    by destruct i.
  - intros c Hcc. unfold LoadInternalState. rewrite Hget. gostep. rewrite Hz. unfold UnpackInternalState.
    change (opt_bytes (Some buf)) with buf. rewrite (json_Unmarshal_Marshal _ _ Hbuf). gostep.
    assert (Coin (set_LastStore now i) = coin) as HC by done.
    rewrite decide_False by (by rewrite HC). rewrite decide_False by (rewrite HC; done). done.
Qed.

(** A block header written at a height is found there and, above every stored
    height, becomes the best block: hash, time, number of transactions and size read
    back, the other heights keep their headers, and the internal state follows. *)
Theorem writeHeight_roundtrip (d : RocksDB) s now h bi hv i :
  reliable -> db d = Some s -> istate d = Some i -> in_u32 h -> wf_info bi hv ->
  heights_upto (contents s) h ->
  exists d', (let! wb := writeHeight now [] h bi opInsert in dbWrite wb) d = (d', Ret tt) /\
    GetBlockInfo d' h = Ret (Some (BlockInfo.mk (BlockInfo.Hash bi) (BlockInfo.Time bi)
                                     (BlockInfo.Txs bi) (BlockInfo.Size bi) h)) /\
    GetBlockHash d' h = Ret (BlockInfo.Hash bi) /\
    GetBestBlock d' = Ret (h, BlockInfo.Hash bi) /\
    istate d' = Some (UpdateBestHeight now h i) /\
    (forall h', in_u32 h' -> h' <> h -> GetBlockInfo d' h' = GetBlockInfo d h').
Proof.
  intros Hrel Hd Hi Hh Hbi Hup. destruct (unpackBlockInfo_pack bi hv Hbi) as (v & Hv & Hu).
  set (d1 := set_istate (Some (UpdateBestHeight now h i)) d).
  destruct (dbWrite_reliable Hrel d1 s [PutCF cfHeight (packUint h) v] Hd) as (s' & Ew & Hs').
  set (d' := set_db (Some s') d1) in *. exists d'. simpl in Hs'.
  assert (dbGet d' cfHeight (packUint h) = Ret (Some v)) as Hget.
  { rewrite (dbGet_reliable Hrel d' s') by done. by rewrite Hs', lookup_insert_eq. }
  split_and!.
  - rewrite (sbind_eq _ _ d d1 [PutCF cfHeight (packUint h) v]); [done|].
    unfold writeHeight. rewrite Hv. unfold sbind, slift, with_is. by rewrite Hi.
  - unfold GetBlockInfo. rewrite Hget. gostep. change (opt_bytes (Some v)) with v. by rewrite Hu.
  - unfold GetBlockHash. rewrite Hget. gostep. change (opt_bytes (Some v)) with v. by rewrite Hu.
  - unfold GetBestBlock, dbIter. change (db d') with (Some s'). cbn [must go_bind].
    rewrite (last_height s' h v); [|done| |by rewrite Hs', lookup_insert_eq].
    + rewrite <- (app_nil_r (packUint h)), unpackUint_pack, u32_id by done. gostep. by rewrite Hu.
    + intros k w. rewrite Hs', lookup_insert_Some. intros [[[= <-] _]|[_ Hk]]; [|by eapply Hup].
      exists h. split; [done|]. split; [lia|done].
  - done.
  - intros h' Hh' Hne. unfold GetBlockInfo.
    rewrite (dbGet_reliable Hrel d' s'), (dbGet_reliable Hrel d s), Hs' by done.
    rewrite lookup_insert_ne; [done|]. intros E. apply Hne, packUint_inj; [done..|]. congruence.
Qed.
End properties.

(** ** Concrete runs *)

(** A callback that collects what it is called with. *)
Definition collect (a : list (string * Z * list Z)) (tx : string) (h : Z) (ix : list Z)
    : list (string * Z * list Z) * cbResult := (a ++ [(tx, h, ix)], CbNext).

Definition txid1 : bytes := repeat Byte.x01 32.
Definition desc1 : bytes := [Byte.x76; Byte.xa9].

(** A database with one transaction of the address [ad] in block 5. *)
Definition one_tx (ad : bytes) : kv :=
  {[ (cfAddresses, packAddressKey ad 5) := packTxIndexes (V := leb) [mkTxIndexes txid1 [0; -1]] ]}.

Definition open_db (m : kv) : RocksDB :=
  mkRocksDB mem_store (Some m) (Some (newInternalState "Bitcoin")) false noStats.

Lemma packAddressKey_desc a h a' h' : packAddressKey a h = packAddressKey a' h' -> a = a'.
Proof.
  unfold packAddressKey. intros E. apply app_inj_2 in E as [? _]; [done|].
  by rewrite !be_bytes_length.
Qed.

Lemma one_tx_lookup ad k v : contents (Store := mem_store) (one_tx ad) !! (cfAddresses, k) = Some v ->
  k = packAddressKey ad 5 /\ v = packTxIndexes (V := leb) [mkTxIndexes txid1 [0; -1]].
Proof. simpl. unfold one_tx. rewrite lookup_singleton_Some. intros [E <-]. split; congruence. Qed.

Lemma one_tx_column : addresses_column (P := plain_parser) (V := leb) (one_tx desc1).
Proof.
  intros k v [-> ->]%one_tx_lookup. exists desc1, 5, [mkTxIndexes txid1 [0; -1]].
  split; [done|]. split; [by vm_compute|]. split; [done|].
  constructor; [|constructor]. split; [done|]. split; [done|]. repeat constructor; by vm_compute.
Qed.

Lemma one_tx_isolated : isolated (one_tx desc1) desc1.
Proof. intros a h v [E _]%one_tx_lookup _. by apply packAddressKey_desc in E. Qed.

Lemma GetAddrDescTransactions_exact_witness :
  exists es, history (P := plain_parser) (V := leb) (one_tx desc1) desc1 0 10 es /\
    GetAddrDescTransactions (P := plain_parser) (V := leb) collect (open_db (one_tx desc1)) desc1 0 10 [] =
    finish (run_calls collect (concat (map (calls_at (P := plain_parser)) es)) []).
Proof.
  refine (GetAddrDescTransactions_exact collect (open_db (one_tx desc1)) (one_tx desc1) desc1 0 10 []
    eq_refl _ one_tx_column one_tx_isolated _ _); [discriminate|split; reflexivity || discriminate..].
Defined.

(** The search does not compare the address of a key with the address asked for:
    with a stored address that extends the one asked for, which itself has no
    transaction in the database, the transactions of the longer address are reported. *)
Theorem GetAddrDescTransactions_prefix :
  let m := one_tx (desc1 ++ [Byte.x14; Byte.x00]) in
  GetAddrDescTransactions (P := plain_parser) (V := leb) collect (open_db m) desc1 0 (2 ^ 32 - 1) [] =
    ([(hex_EncodeToString txid1, 5, [0; -1])], Ret tt) /\
  (forall h, m !! (cfAddresses, packAddressKey desc1 h) = None).
Proof.
  intros m. split; [vm_compute; reflexivity|]. intros h.
  destruct (m !! (cfAddresses, packAddressKey desc1 h)) eqn:E; [|done].
  apply one_tx_lookup in E as [E _]. by apply packAddressKey_desc in E.
Qed.

Lemma computeColumnSize_exact_witness :
  computeColumnSize no_stop 1 (open_db (one_tx desc1 ∪ one_tx [Byte.x51])) cfAddresses =
  Ret (mkColumnSize 2 11 68).
Proof.
  rewrite (computeColumnSize_exact (open_db (one_tx desc1 ∪ one_tx [Byte.x51]))
    (one_tx desc1 ∪ one_tx [Byte.x51]) 1 cfAddresses eq_refl); vm_compute; reflexivity.
Defined.

(** The state of a Bitcoin database that a bulk import left inconsistent. *)
Definition bulk_state : InternalState :=
  set_DbState DbStateInconsistent (set_DbColumns
    (map (fun n => mkColumn n dbVersion 1 2 3 4) (cfBaseNames ++ cfNamesBitcoinType))
    (newInternalState "Bitcoin")).

Definition bulk_db : RocksDB := mkRocksDB mem_store (Some ∅) (Some bulk_state) true noStats.

Lemma internalState_restart_witness :
  exists d', StoreInternalState (P := plain_parser) (J := code_json) 77 bulk_db = (d', Ret tt) /\
    LoadInternalState (P := plain_parser) d' "Litecoin" = Fail (ErrMsg "Coins do not match.").
Proof.
  destruct (internalState_restart (P := plain_parser) (J := code_json) bulk_db ∅ 77 bulk_state "Bitcoin"
    (cfBaseNames ++ cfNamesBitcoinType) mem_store_reliable eq_refl eq_refl eq_refl)
    as (d' & H1 & _ & H3); [|reflexivity|discriminate|].
  - split; [reflexivity|]. split; [|repeat constructor].
    apply (bool_decide_unpack _). vm_compute. exact I.
  - exists d'. split; [exact H1|]. apply H3. discriminate.
Defined.

Lemma writeHeight_roundtrip_witness :
  let hash := hex_EncodeToString txid1 in
  exists d', (let! wb := writeHeight (P := plain_parser) (V := leb) 77 [] 5 (BlockInfo.mk hash 1 2 3 0) opInsert
              in dbWrite wb) (open_db ∅) = (d', Ret tt) /\
    GetBestBlock (P := plain_parser) (V := leb) d' = Ret (5, hash).
Proof.
  intros hash.
  destruct (writeHeight_roundtrip (P := plain_parser) (V := leb) (open_db ∅) ∅ 77 5 (BlockInfo.mk hash 1 2 3 0)
    txid1 (newInternalState "Bitcoin") mem_store_reliable eq_refl eq_refl) as (d' & H1 & _ & _ & H2 & _).
  - by vm_compute.
  - split; (reflexivity || by vm_compute).
  - intros k v H. simpl in H. by rewrite lookup_empty in H.
  - exists d'. by split.
Defined.
