(* ===== verification/BitcoinIndex.v ===== *)
(** Indexing of the transactions of a block for Bitcoin-like chains
    ([processAddressesBitcoinType] of [db/rocksdb.go]).

    The transactions of the block are objects shared by the slice
    [blockTxAddresses] and the map [txAddressesMap]: the model keeps them in a heap
    and passes locations.  Balances are reached only through their map. *)
From stdpp Require Import base list gmap strings.
From Stdlib Require Import ZArith Lia.
From S2P Require Import Prelude Types Store Vlq Codec InternalState AddrBalance TxAddresses RocksDB.

Open Scope Z_scope.
Open Scope go_scope.

(** * Cold staking *)

Definition OP_CHECKCOLDSTAKEVERIFY : Z := 209.
Definition OP_DUP : Z := 118.
Definition OP_HASH160 : Z := 169.
Definition OP_EQUALVERIFY : Z := 136.
Definition OP_CHECKSIG : Z := 172.

(** [txscript.ScriptBuilder]: what is added to a script, in order. *)
Inductive scriptItem := AddOp (op : Z) | AddData (data : bytes).

Class ScriptLib := { Script : list scriptItem -> go bytes }.

(** Opcodes are one byte; data of up to 75 bytes is pushed by its length. *)
Definition item_bytes (i : scriptItem) : bytes :=
  match i with
  | AddOp op => [z2b op]
  | AddData data => z2b (zlen data) :: data
  end.

#[global] Instance small_scripts : ScriptLib := {| Script l := Ret (concat (map item_bytes l)) |}.

Definition isPayToColdStake (signatureScript : bytes) : bool :=
  (50 <? zlen signatureScript) &&
  match signatureScript !! 4%nat with
  | Some b => b2z b =? OP_CHECKCOLDSTAKEVERIFY
  | None => false
  end.

(** [copy] takes the first 20 of the 21 bytes. *)
Definition getOwnerFromP2CS `{ScriptLib} (signatureScript : bytes) : go bytes :=
  let* s := go_slice signatureScript 28 49 in
  let OwnerScript := take 20 s in
  Script [AddOp OP_DUP; AddOp OP_HASH160; AddData OwnerScript; AddOp OP_EQUALVERIFY; AddOp OP_CHECKSIG].

(** The descriptors an output is indexed under: its own, and for a cold stake also
    the owner's. *)
Definition addrDescriptors `{ScriptLib} (addrDesc : bytes) : go (list bytes) :=
  if isPayToColdStake addrDesc then
    match getOwnerFromP2CS addrDesc with
    | Ret ownerDesc => Ret [addrDesc; ownerDesc]
    | Fail _ => Ret [addrDesc]
    | Panic => Panic
    end
  else Ret [addrDesc].

(** * The block being indexed *)

Abbreviation addressesMap := (gmap bytes (list txIndexes)).

Record blockState := mkBlockState {
  heap : list TxAddresses;
  txAddressesMap : gmap bytes nat;
  addresses : addressesMap;
  balances : gmap bytes AddrBalance;
  stats : connectBlockStats;
}.

Definition newBlockState (c : connectBlockStats) : blockState := mkBlockState [] ∅ ∅ ∅ c.

Definition set_heap (h : list TxAddresses) (b : blockState) : blockState :=
  mkBlockState h (txAddressesMap b) (addresses b) (balances b) (stats b).
Definition set_txAddressesMap (m : gmap bytes nat) (b : blockState) : blockState :=
  mkBlockState (heap b) m (addresses b) (balances b) (stats b).
Definition set_addresses (m : addressesMap) (b : blockState) : blockState :=
  mkBlockState (heap b) (txAddressesMap b) m (balances b) (stats b).
Definition set_balances (m : gmap bytes AddrBalance) (b : blockState) : blockState :=
  mkBlockState (heap b) (txAddressesMap b) (addresses b) m (stats b).
Definition set_stats (c : connectBlockStats) (b : blockState) : blockState :=
  mkBlockState (heap b) (txAddressesMap b) (addresses b) (balances b) c.

Definition hitBalance (c : connectBlockStats) : connectBlockStats :=
  mkStats (txAddressesHit c) (txAddressesMiss c) (balancesHit c + 1) (balancesMiss c).
Definition missBalance (c : connectBlockStats) : connectBlockStats :=
  mkStats (txAddressesHit c) (txAddressesMiss c) (balancesHit c) (balancesMiss c + 1).
Definition hitTx (c : connectBlockStats) : connectBlockStats :=
  mkStats (txAddressesHit c + 1) (txAddressesMiss c) (balancesHit c) (balancesMiss c).
Definition missTx (c : connectBlockStats) : connectBlockStats :=
  mkStats (txAddressesHit c) (txAddressesMiss c + 1) (balancesHit c) (balancesMiss c).

Definition set_Outputs (os : list TxOutput.t) (ta : TxAddresses) : TxAddresses :=
  mkTxAddresses (Height ta) (Inputs ta) os (ShieldIns ta) (ShieldOuts ta) (ShieldValBal ta).
Definition set_Inputs (is' : list TxInput.t) (ta : TxAddresses) : TxAddresses :=
  mkTxAddresses (Height ta) is' (Outputs ta) (ShieldIns ta) (ShieldOuts ta) (ShieldValBal ta).

(** [for i, t := range at { if bytes.Equal(btxID, t.btxID) { append } }] *)
Fixpoint appendIndex (btxID : bytes) (index : Z) (at_ : list txIndexes) : option (list txIndexes) :=
  match at_ with
  | [] => None
  | t :: at' =>
      if decide (btxID = ti_btxID t)
      then Some (mkTxIndexes (ti_btxID t) (ti_indexes t ++ [index]) :: at')
      else match appendIndex btxID index at' with Some r => Some (t :: r) | None => None end
  end.

(** The new map and whether the transaction was already counted. *)
Definition addToAddressesMap (addresses : addressesMap) (strAddrDesc btxID : bytes) (index : Z)
    : addressesMap * bool :=
  let at_ := default [] (addresses !! strAddrDesc) in
  match appendIndex btxID index at_ with
  | Some at' => (<[strAddrDesc := at']> addresses, true)
  | None => (<[strAddrDesc := at_ ++ [mkTxIndexes btxID [index]]]> addresses, false)
  end.

Section index.
Context `{DB : Store} `{P : BlockChainParser} `{V : Vlq} `{SC : ScriptLib}.

(** The balance of a descriptor, from the map or else from the database. *)
Definition loadBalance (d : RocksDB) (ad : bytes) : sgo blockState AddrBalance :=
  let! b := sget in
  match balances b !! ad with
  | Some balance =>
      do! sput (set_stats (hitBalance (stats b)) b) in sret balance
  | None =>
      let! r := slift (GetAddrDescBalance d ad DetailUTXOIndexed) in
      let balance := default emptyBalance r in
      do! sput (set_stats (missBalance (stats b)) (set_balances (<[ad := balance]> (balances b)) b)) in
      sret balance
  end.

Definition putBalance (ad : bytes) (balance : AddrBalance) : sgo blockState unit := fun b =>
  (set_balances (<[ad := balance]> (balances b)) b, Ret tt).

Definition countTx (ad btxID : bytes) (index : Z) : sgo blockState bool := fun b =>
  let '(m, counted) := addToAddressesMap (addresses b) ad btxID index in
  (set_addresses m b, Ret counted).

Definition incTxs (counted : bool) (balance : AddrBalance) : AddrBalance :=
  if counted then balance else set_Txs (u32 (Txs balance + 1)) balance.

(** An output credited to one of its descriptors. *)
Definition creditOutput (d : RocksDB) (height : Z) (btxID : bytes) (i : Z) (value : Z) (oad : bytes)
    : sgo blockState unit :=
  if IsAddrDescIndexable oad then
    let! balance := loadBalance d oad in
    let! dup := slift (hasUtxo balance btxID (i32 i)) in
    if dup then sret tt
    else
      let balance := set_BalanceSat (BalanceSat balance + value) balance in
      let balance := addUtxo balance (Utxo.mk btxID (i32 i) height value) in
      let! counted := countTx oad btxID (i32 i) in
      putBalance oad (incTxs counted balance)
  else sret tt.

Fixpoint sfor {S A} (f : A -> sgo S unit) (l : list A) : sgo S unit :=
  match l with
  | [] => sret tt
  | x :: l' => do! f x in sfor f l'
  end.

Definition alterTx (loc : nat) (f : TxAddresses -> TxAddresses) : sgo blockState unit := fun b =>
  (set_heap (alter f loc (heap b)) b, Ret tt).

Definition setOutput (loc i : nat) (o : TxOutput.t) : sgo blockState unit :=
  alterTx loc (fun ta => set_Outputs (<[i := o]> (Outputs ta)) ta).

Definition setInput (loc i : nat) (t : TxInput.t) : sgo blockState unit :=
  alterTx loc (fun ta => set_Inputs (<[i := t]> (Inputs ta)) ta).

(** One output of the first loop over [tx.Vout]. *)
Definition processOutput (d : RocksDB) (height : Z) (btxID : bytes) (loc : nat) (o : nat * Vout.t)
    : sgo blockState unit :=
  let '(i, output) := o in
  do! setOutput loc i (TxOutput.mk [] false (Vout.ValueSat output)) in
  match GetAddrDescFromVout output with
  | Panic => spanic
  | Fail _ => sret tt
  | Ret addrDesc =>
      if (zlen addrDesc =? 0) || (maxAddrDescLen <? zlen addrDesc) then sret tt
      else
        do! setOutput loc i (TxOutput.mk addrDesc false (Vout.ValueSat output)) in
        let! ads := slift (addrDescriptors addrDesc) in
        sfor (creditOutput d height btxID (Z.of_nat i) (Vout.ValueSat output)) ads
  end.

Definition enumerate {A} (l : list A) : list (nat * A) := combine (seq 0 (length l)) l.

Definition zeroOutput : TxOutput.t := TxOutput.mk [] false 0.
Definition zeroInput : TxInput.t := TxInput.mk [] 0.

(** The outputs of a transaction; returns its packed id and its object. *)
Definition processTxOutputs (d : RocksDB) (height : Z) (tx : Tx.t) : sgo blockState (bytes * nat) :=
  let! btxID := slift (PackTxid (Tx.Txid tx)) in
  let ta := mkTxAddresses height [] (repeat zeroOutput (length (Tx.Vout tx))) 0 0 0 in
  let! b := sget in
  let loc := length (heap b) in
  do! sput (set_txAddressesMap (<[btxID := loc]> (txAddressesMap b)) (set_heap (heap b ++ [ta]) b)) in
  do! sfor (processOutput d height btxID loc) (enumerate (Tx.Vout tx)) in
  sret (btxID, loc).

(** [resetValueSatToZero]: only logs besides. *)
Definition clampZero (v : Z) : Z := if v <? 0 then 0 else v.

(** A spent output debited from one of its descriptors. *)
Definition debitInput (d : RocksDB) (spendingTxid : bytes) (i : Z) (btxID : bytes) (vout value : Z)
    (soad : bytes) : sgo blockState unit :=
  if IsAddrDescIndexable soad then
    let! balance := loadBalance d soad in
    let! counted := countTx soad spendingTxid (Z.lnot (i32 i)) in
    let balance := incTxs counted balance in
    let balance := set_BalanceSat (BalanceSat balance - value) balance in
    let! balance := slift (markUtxoAsSpent balance btxID (i32 vout)) in
    let balance := set_BalanceSat (clampZero (BalanceSat balance)) balance in
    let balance := set_SentSat (SentSat balance + value) balance in
    putBalance soad balance
  else sret tt.

(** The transaction an input refers to: its object, if it is known. *)
Definition lookupTx (d : RocksDB) (btxID : bytes) : sgo blockState (option nat) :=
  let! b := sget in
  match txAddressesMap b !! btxID with
  | Some loc => do! sput (set_stats (hitTx (stats b)) b) in sret (Some loc)
  | None =>
      let! r := slift (getTxAddresses d btxID) in
      match r with
      | None => sret None
      | Some ita =>
          let loc := length (heap b) in
          do! sput (set_stats (missTx (stats b))
                      (set_txAddressesMap (<[btxID := loc]> (txAddressesMap b))
                         (set_heap (heap b ++ [ita]) b))) in
          sret (Some loc)
      end
  end.

(** One input of the second loop. *)
Definition processInput (d : RocksDB) (tx : Tx.t) (spendingTxid : bytes) (loc : nat) (x : nat * Vin.t)
    : sgo blockState unit :=
  let '(i, input) := x in
  match PackTxid (Vin.Txid input) with
  | Panic => spanic
  | Fail ErrTxidMissing => sret tt
  | Fail e => sfail e
  | Ret btxID =>
      let! r := lookupTx d btxID in
      match r with
      | None =>
          setInput loc i (TxInput.mk (GetAddrDescForUnknownInput tx (Z.of_nat i))
                            (GetValueSatForUnknownInput tx (Z.of_nat i)))
      | Some iloc =>
          let! b := sget in
          let! ita := slift (must (heap b !! iloc)) in
          let vout := Vin.Vout input in
          if zlen (Outputs ita) <=? vout then sret tt
          else
            let! spentOutput := slift (go_index (Outputs ita) vout) in
            let ad := TxOutput.AddrDesc spentOutput in
            let value := TxOutput.ValueSat spentOutput in
            do! setInput loc i (TxInput.mk ad value) in
            do! setOutput iloc (Z.to_nat vout) (TxOutput.mk ad true value) in
            if zlen ad =? 0 then sret tt
            else
              let! ads := slift (addrDescriptors ad) in
              sfor (debitInput d spendingTxid (Z.of_nat i) btxID vout value) ads
      end
  end.

(** The inputs and the sapling data of a transaction. *)
Definition processTxInputs (d : RocksDB) (x : Tx.t * (bytes * nat)) : sgo blockState unit :=
  let '(tx, (spendingTxid, loc)) := x in
  do! alterTx loc (set_Inputs (repeat zeroInput (length (Tx.Vin tx)))) in
  do! sfor (processInput d tx spendingTxid loc) (enumerate (Tx.Vin tx)) in
  alterTx loc (fun ta =>
    mkTxAddresses (Height ta) (Inputs ta) (Outputs ta) (u32 (zlen (Tx.VShieldIn tx)))
      (u32 (zlen (Tx.VShieldIn tx))) (Tx.ShieldValBal tx)).

Fixpoint smap {S A B} (f : A -> sgo S B) (l : list A) : sgo S (list B) :=
  match l with
  | [] => sret []
  | x :: l' => let! y := f x in let! ys := smap f l' in sret (y :: ys)
  end.

Definition processAddressesBitcoinType (d : RocksDB) (block : Block.t) : sgo blockState unit :=
  let! blockTxAddresses := smap (processTxOutputs d (Block.Height block)) (Block.Txs block) in
  sfor (processTxInputs d) (combine (Block.Txs block) blockTxAddresses).

(** The map [txAddressesMap] with its pointers followed. *)
Definition txAddressesOf (b : blockState) : gmap bytes TxAddresses :=
  omap (fun loc => heap b !! loc) (txAddressesMap b).
End index.
