(* ===== verification/Ledger.v ===== *)
(** The accounting of the address index.

    [bal_ok O ab] says what a balance must be when [O] are the unspent outputs its
    address owns: the utxos list exactly [O], once each, the balance is their sum and
    the index of the utxos is right.  Crediting an output and debiting a spent one
    keep it, with [O] changed accordingly. *)
From stdpp Require Import base list gmap strings.
From Stdlib Require Import ZArith Lia.
From S2P Require Import Prelude Types Store Vlq Codec InternalState AddrBalance TxAddresses RocksDB BitcoinIndex.

Open Scope Z_scope.
Open Scope go_scope.

Definition utxo_key (u : Utxo.t) : bytes * Z := (Utxo.BtxID u, Utxo.Vout u).

Record bal_ok (O : Utxo.t -> Prop) (ab : AddrBalance) : Prop := {
  bo_index : index_ok ab;
  bo_grouped : grouped (Utxos ab);
  bo_ids : Forall (fun u => Utxo.BtxID u <> []) (Utxos ab);
  bo_values : Forall (fun u => 0 <= Utxo.ValueSat u) (Utxos ab);
  bo_balanced : balanced ab;
  bo_nodup : NoDup (utxo_key <$> unspent_utxos (Utxos ab));
  bo_owned : forall u, u ∈ unspent_utxos (Utxos ab) <-> O u;
}.

(** The utxos of the transaction [id], if any, are the last ones. *)
Definition tail_ok (id : bytes) (us : list Utxo.t) : Prop :=
  exists pre suf, us = pre ++ suf /\ Forall (fun u => Utxo.BtxID u <> id) pre /\
    Forall (fun u => Utxo.BtxID u = id) suf.

(** [range] over a slice gives each element with its index. *)
Lemma enumerate_elem {A} (l : list A) i x : (i, x) ∈ enumerate l <-> l !! i = Some x.
Proof.
  unfold enumerate. rewrite elem_of_combine. split.
  - intros (j & Hi & Hx). by apply lookup_seq in Hi as [-> _].
  - intros Hx. exists i. split; [|done]. apply lookup_seq. split; [done|]. by apply lookup_lt_Some in Hx.
Qed.

Lemma elem_of_unspent u us : u ∈ unspent_utxos us <-> u ∈ us /\ 0 <= Utxo.Vout u.
Proof.
  unfold unspent_utxos. rewrite !list_elem_of_In, filter_In.
  unfold Utxo.unspent. rewrite Z.leb_le. done.
Qed.

Lemma unspent_app us1 us2 : unspent_utxos (us1 ++ us2) = unspent_utxos us1 ++ unspent_utxos us2.
Proof. apply List.filter_app. Qed.

Lemma unspent_one u : 0 <= Utxo.Vout u -> unspent_utxos [u] = [u].
Proof. intros H. unfold unspent_utxos, Utxo.unspent. simpl. by rewrite (proj2 (Z.leb_le _ _) H). Qed.

Lemma unspent_sum_nonneg us : Forall (fun u => 0 <= Utxo.ValueSat u) us -> 0 <= unspent_sum us.
Proof.
  induction 1 as [|u us Hu Hus IH]; [done|]. rewrite unspent_sum_cons. destruct (Utxo.unspent u); lia.
Qed.

Lemma grouped_snoc us u : grouped us -> tail_ok (Utxo.BtxID u) us -> grouped (us ++ [u]).
Proof.
  intros Hg (pre & suf & -> & Hpre & Hsuf) i j k a b c Hijk Ha Hb Hc Hac.
  assert (forall x y, ((pre ++ suf) ++ [u]) !! x = Some y ->
    ((pre ++ suf) !! x = Some y) \/ (x = length (pre ++ suf) /\ y = u)) as Hcase.
  { intros x y [Hx|[Hx Hy]]%lookup_app_Some; [auto|]. right.
    destruct (x - length (pre ++ suf))%nat eqn:E; simplify_eq/=; split; [lia|done]. }
  destruct (Hcase _ _ Hc) as [Hc'|[-> ->]].
  - apply lookup_lt_Some in Hc' as Hlt. rewrite lookup_app_l in Ha, Hb by lia. eauto.
  - destruct (Hcase _ _ Hb) as [Hb'|[_ ->]]; [|congruence].
    destruct (Hcase _ _ Ha) as [Ha'|[-> ->]]; [|apply lookup_lt_Some in Hb'; lia].
    assert (length pre <= i)%nat as Hi.
    { destruct (decide (i < length pre)%nat) as [Hlt|]; [|lia]. rewrite lookup_app_l in Ha' by done.
      rewrite Forall_lookup in Hpre. by destruct (Hpre _ _ Ha'). }
    rewrite lookup_app_r in Hb' by lia. rewrite Forall_lookup in Hsuf.
    rewrite (Hsuf _ _ Hb'). congruence.
Qed.

Lemma tail_ok_snoc us u : tail_ok (Utxo.BtxID u) us -> tail_ok (Utxo.BtxID u) (us ++ [u]).
Proof.
  intros (pre & suf & -> & Hpre & Hsuf). exists pre, (suf ++ [u]). rewrite app_assoc.
  split_and!; [done|done|]. apply Forall_app. split; [done|]. by constructor.
Qed.

Lemma tail_ok_fresh id us : Forall (fun u => Utxo.BtxID u <> id) us -> tail_ok id us.
Proof. intros H. exists us, []. rewrite app_nil_r. split_and!; auto. Qed.

(** ** Credit *)

Lemma hasUtxo_fresh ab id v :
  index_ok ab -> 0 <= v -> (forall u, u ∈ unspent_utxos (Utxos ab) -> utxo_key u <> (id, v)) ->
  hasUtxo ab id v = Ret false.
Proof.
  intros Hok Hv Hno. unfold hasUtxo. case_decide as Hm.
  - f_equal. apply not_true_iff_false. intros (u & Hin & E)%existsb_exists.
    apply is_outpoint_true in E as [<- E]. apply (Hno u); [|unfold utxo_key; congruence].
    apply elem_of_unspent. split; [by apply list_elem_of_In|lia].
  - pose proof (index_ok_nonempty ab Hok Hm). unfold index_ok in Hok. rewrite decide_False in Hok by lia.
    rewrite Hok. destruct (find_txid id (Utxos ab)) as [i|] eqn:E; [|done].
    apply find_txid_Some in E as (_ & u & Hi & Hu). rewrite Hi. cbn [must go_bind]. f_equal.
    apply Z.eqb_neq. intros Ev. apply (Hno u); [|unfold utxo_key; congruence].
    apply elem_of_unspent. split; [by eapply list_elem_of_lookup_2|lia].
Qed.

(** The balance after the credit of the output [u]. *)
Definition credited (ab : AddrBalance) (u : Utxo.t) : AddrBalance :=
  addUtxo (set_BalanceSat (BalanceSat ab + Utxo.ValueSat u) ab) u.

(** ** Debit *)

Lemma mark_ref_at id v us1 u us2 :
  Forall (fun x => is_outpoint id v x = false) us1 -> is_outpoint id v u = true ->
  mark_ref id v (us1 ++ u :: us2) = us1 ++ Utxo.mark_spent u :: us2.
Proof.
  intros H1 Hu. induction H1 as [|x us1 Hx H1 IH]; simpl; [by rewrite Hu|]. by rewrite Hx, IH.
Qed.

Lemma find_split id v us : List.existsb (is_outpoint id v) us = true ->
  exists us1 u us2, us = us1 ++ u :: us2 /\ Forall (fun x => is_outpoint id v x = false) us1 /\
    is_outpoint id v u = true.
Proof.
  induction us as [|x us IH]; [done|]. simpl. destruct (is_outpoint id v x) eqn:E.
  - intros _. by exists [], x, us.
  - intros H. destruct (IH H) as (us1 & u & us2 & -> & H1 & Hu).
    exists (x :: us1), u, us2. split_and!; [done|by constructor|done].
Qed.

(** What the accounting needs of a balance whatever the order of its utxos. *)
Record acct (O : Utxo.t -> Prop) (ab : AddrBalance) : Prop := {
  ac_ids : Forall (fun u => Utxo.BtxID u <> []) (Utxos ab);
  ac_values : Forall (fun u => 0 <= Utxo.ValueSat u) (Utxos ab);
  ac_balanced : balanced ab;
  ac_nodup : NoDup (utxo_key <$> unspent_utxos (Utxos ab));
  ac_owned : forall u, u ∈ unspent_utxos (Utxos ab) <-> O u;
}.

Lemma bal_ok_acct O ab : bal_ok O ab -> acct O ab.
Proof. intros [? ? ? ? ? ? ?]. by split. Qed.

Lemma acct_iff O O' ab : (forall u, O u <-> O' u) -> acct O ab -> acct O' ab.
Proof. intros HO [H1 H2 H3 H4 H5]. split; try done. intros u. rewrite H5. apply HO. Qed.

(** Only the balance and the utxos matter. *)
Lemma acct_same O ab ab' : BalanceSat ab' = BalanceSat ab -> Utxos ab' = Utxos ab -> acct O ab -> acct O ab'.
Proof. intros Hb Hu [H1 H2 H3 H4 H5]. split; unfold balanced in *; by rewrite ?Hu, ?Hb. Qed.

(** The balance and the utxos without the output [u]. *)
Definition removed (ab : AddrBalance) (u : Utxo.t) : AddrBalance :=
  set_BalanceSat (BalanceSat ab - Utxo.ValueSat u)
    (set_Utxos (mark_ref (Utxo.BtxID u) (Utxo.Vout u) (Utxos ab)) ab).

Lemma acct_unique O ab u w : acct O ab -> O u -> O w -> utxo_key u = utxo_key w -> u = w.
Proof.
  intros [_ _ _ Hnd Hown] Hu%Hown Hw%Hown E. apply list_elem_of_lookup in Hu as [i Hi], Hw as [j Hj].
  assert (i = j) as ->; [|congruence].
  apply (NoDup_lookup _ i j (utxo_key u) Hnd); rewrite list_lookup_fmap, ?Hi, ?Hj; simpl; congruence.
Qed.

(** A unique outpoint occurs at one place. *)
Lemma owned_split O ab u : acct O ab -> O u ->
  exists us1 us2, Utxos ab = us1 ++ u :: us2 /\
    Forall (fun x => is_outpoint (Utxo.BtxID u) (Utxo.Vout u) x = false) us1 /\ 0 <= Utxo.Vout u.
Proof.
  intros Ha Hu. pose proof Hu as Hu'. apply (ac_owned _ _ Ha), elem_of_unspent in Hu' as [Hin Hv].
  destruct (find_split (Utxo.BtxID u) (Utxo.Vout u) (Utxos ab)) as (us1 & w & us2 & E & H1 & Hw).
  { apply existsb_exists. exists u. split; [by apply list_elem_of_In|]. by apply is_outpoint_true. }
  apply is_outpoint_true in Hw as [Hw1 Hw2].
  assert (w = u) as ->; [|by exists us1, us2].
  apply (acct_unique O ab); [done| |done|unfold utxo_key; congruence].
  apply (ac_owned _ _ Ha), elem_of_unspent. split; [rewrite E; apply elem_of_app; right; left|lia].
Qed.

(** The balance after the debit of the output [u]. *)
Definition debited (ab : AddrBalance) (u : Utxo.t) : AddrBalance :=
  set_SentSat (SentSat ab + Utxo.ValueSat u)
    (set_BalanceSat (BalanceSat ab - Utxo.ValueSat u)
       (set_Utxos (mark_ref (Utxo.BtxID u) (Utxo.Vout u) (Utxos ab)) ab)).

Lemma mark_spent_unspent u : Utxo.unspent (Utxo.mark_spent u) = false.
Proof. done. Qed.

Lemma acct_removed O ab u : acct O ab -> O u ->
  acct (fun x => O x /\ x <> u) (removed ab u) /\ Utxo.ValueSat u <= BalanceSat ab.
Proof.
  intros Hok Hu. destruct (owned_split O ab u Hok Hu) as (us1 & us2 & E & H1 & Hv).
  destruct Hok as [Hids Hvals Hbal Hnd Hown].
  assert (Utxo.unspent u = true) as Hus by (by apply Z.leb_le).
  assert (mark_ref (Utxo.BtxID u) (Utxo.Vout u) (Utxos ab) = us1 ++ Utxo.mark_spent u :: us2) as Em.
  { rewrite E. apply mark_ref_at; [done|]. by apply is_outpoint_true. }
  assert (unspent_utxos (Utxos ab) = unspent_utxos us1 ++ u :: unspent_utxos us2) as Eu.
  { rewrite E, unspent_app. f_equal. unfold unspent_utxos. simpl. by rewrite Hus. }
  assert (unspent_utxos (us1 ++ Utxo.mark_spent u :: us2) = unspent_utxos us1 ++ unspent_utxos us2) as Eu'.
  { rewrite unspent_app. done. }
  assert (BalanceSat ab = unspent_sum us1 + Utxo.ValueSat u + unspent_sum us2) as Eb.
  { rewrite Hbal, E, unspent_sum_app, unspent_sum_cons, Hus. lia. }
  rewrite E in Hids, Hvals. apply Forall_app in Hids as [Hids1 [Hidu Hids2]%Forall_cons].
  apply Forall_app in Hvals as [Hv1 [Hvu Hv2]%Forall_cons].
  rewrite Eu, fmap_app, fmap_cons in Hnd.
  split; [|pose proof (unspent_sum_nonneg _ Hv1); pose proof (unspent_sum_nonneg _ Hv2); lia].
  unfold removed. split; cbn [Utxos set_BalanceSat set_Utxos].
  - rewrite Em. apply Forall_app. split; [done|]. by constructor.
  - rewrite Em. apply Forall_app. split; [done|]. by constructor.
  - unfold balanced. cbn [BalanceSat Utxos set_BalanceSat set_Utxos].
    rewrite Em, unspent_sum_app, unspent_sum_cons, mark_spent_unspent. lia.
  - rewrite Em, Eu', fmap_app. eapply sublist_NoDup; [exact Hnd|].
    apply sublist_app; [done|]. by apply sublist_cons.
  - intros x. rewrite Em, Eu'. rewrite <- Hown, Eu, !elem_of_app, elem_of_cons.
    assert (x = u -> x ∉ unspent_utxos us1 /\ x ∉ unspent_utxos us2) as Hx.
    { intros ->. apply NoDup_app in Hnd as (_ & Hd & Hnd2). apply NoDup_cons in Hnd2 as [Hn2 _].
      split; intros Hin.
      - apply (Hd (utxo_key u)); [by apply list_elem_of_fmap_2|left].
      - apply Hn2. by apply list_elem_of_fmap_2. }
    split; [|tauto]. intros [?|?]; (split; [auto|]); intros ->; tauto.
Qed.

Lemma mark_ref_grouped id v us : grouped us -> grouped (mark_ref id v us).
Proof.
  intros Hgr i j k a b c Hijk Ha Hb Hc.
  assert (forall n y, mark_ref id v us !! n = Some y ->
    exists x, us !! n = Some x /\ Utxo.BtxID x = Utxo.BtxID y) as Hl.
  { intros n y Hy. assert ((Utxo.BtxID <$> us) !! n = Some (Utxo.BtxID y)) as Hn
      by (rewrite <- (mark_ref_ids id v), list_lookup_fmap, Hy; done).
    rewrite list_lookup_fmap in Hn. destruct (us !! n); simplify_eq/=. eauto. }
  destruct (Hl _ _ Ha) as (a' & Ha' & <-), (Hl _ _ Hb) as (b' & Hb' & <-), (Hl _ _ Hc) as (c' & Hc' & <-).
  eauto.
Qed.

Lemma debit_ok O ab u : bal_ok O ab -> O u ->
  bal_ok (fun x => O x /\ x <> u) (debited ab u) /\ Utxo.ValueSat u <= BalanceSat ab.
Proof.
  intros Hok Hu. destruct (acct_removed O ab u (bal_ok_acct O ab Hok) Hu) as [[Hids Hvals Hbal Hnd Hown] Hle].
  split; [|done]. destruct Hok as [Hix Hgr _ _ _ _ _]. split; [| |done..].
  - unfold debited, index_ok in *. cbn [Utxos utxosMap set_SentSat set_BalanceSat set_Utxos].
    rewrite mark_ref_length. case_decide; [done|]. intros k. rewrite Hix. symmetry. apply find_txid_ids, mark_ref_ids.
  - by apply mark_ref_grouped.
Qed.

(** The balance and the utxos with the output [u] at the end. *)
Lemma acct_restored O ab u : acct O ab -> 0 <= Utxo.Vout u -> 0 <= Utxo.ValueSat u -> Utxo.BtxID u <> [] ->
  (forall u', O u' -> utxo_key u' <> utxo_key u) ->
  acct (fun x => O x \/ x = u) (set_BalanceSat (BalanceSat ab + Utxo.ValueSat u) (set_Utxos (Utxos ab ++ [u]) ab)).
Proof.
  intros [Hids Hvals Hbal Hnd Hown] Hv Hval Hid Hfresh. split; cbn [Utxos set_Utxos set_BalanceSat].
  - apply Forall_app. split; [done|]. by constructor.
  - apply Forall_app. split; [done|]. by constructor.
  - unfold balanced in *. cbn [BalanceSat Utxos set_BalanceSat set_Utxos].
    rewrite unspent_sum_app, unspent_sum_cons, <- Hbal. unfold Utxo.unspent.
    rewrite (proj2 (Z.leb_le _ _) Hv). change (unspent_sum []) with 0. lia.
  - rewrite unspent_app, unspent_one, fmap_app by done. apply NoDup_app. split_and!; [done| |].
    + intros k (u' & -> & Hu')%list_elem_of_fmap. simpl. rewrite list_elem_of_singleton.
      apply Hfresh, Hown, Hu'.
    + apply NoDup_singleton.
  - intros x. rewrite unspent_app, unspent_one, elem_of_app, list_elem_of_singleton, Hown by done. done.
Qed.

Lemma credit_ok O ab u :
  bal_ok O ab -> 0 <= Utxo.Vout u -> 0 <= Utxo.ValueSat u -> Utxo.BtxID u <> [] ->
  (forall u', O u' -> utxo_key u' <> utxo_key u) -> tail_ok (Utxo.BtxID u) (Utxos ab) ->
  bal_ok (fun x => O x \/ x = u) (credited ab u).
Proof.
  intros Hok Hv Hval Hid Hfresh Htail.
  destruct (acct_restored O ab u (bal_ok_acct O ab Hok)) as [Hids Hvals Hbal Hnd Hown]; [done..|].
  destruct Hok as [Hix Hgr _ _ _ _ _]. split; [|by apply grouped_snoc|done..]. by apply addUtxo_index_ok.
Qed.
