(* ===== verification/IndexInvariant.v ===== *)
(** Correctness of the indexing of a block ([BitcoinIndex]): the invariant that ties
    the balances to the outputs of the indexed transactions, and the proof that
    [processAddressesBitcoinType] returns and keeps it on every valid block. *)
From stdpp Require Import base list gmap strings.
From Stdlib Require Import ZArith Lia.
From S2P Require Import Prelude Types Store Vlq Codec InternalState AddrBalance TxAddresses RocksDB.
From S2P Require Import BitcoinIndex Ledger.

Open Scope Z_scope.
Open Scope go_scope.

(** What the index relies on of the script builder: a script with a 20-byte key hash
    is built, and it is a pay-to-key-hash script of 25 bytes. *)
Class ScriptLaws (SC : ScriptLib) := {
  Script_p2pkh : forall h, zlen h = 20 ->
    exists s, Script [AddOp OP_DUP; AddOp OP_HASH160; AddData h; AddOp OP_EQUALVERIFY; AddOp OP_CHECKSIG] = Ret s /\
              zlen s = 25;
}.

#[global] Instance small_scripts_laws : ScriptLaws small_scripts.
Proof.
  split. intros h Hh. eexists. split; [done|]. cbn [map concat item_bytes app].
  autorewrite with slices. lia.
Qed.

Lemma bal_ok_incTxs O ab c : bal_ok O ab -> bal_ok O (incTxs c ab).
Proof. intros [H1 H2 H3 H4 H5 H6 H7]. destruct c; by split. Qed.

Lemma bal_ok_iff O O' ab : (forall u, O u <-> O' u) -> bal_ok O ab -> bal_ok O' ab.
Proof. intros HO [H1 H2 H3 H4 H5 H6 H7]. split; try done. intros u. rewrite H7. apply HO. Qed.

Section invariant.
Context `{DB : Store} `{PL : ParserLaws} `{V : Vlq} `{SL : ScriptLaws}.
Context (d : RocksDB).

(** The database can be read. *)
Hypothesis read_balance : forall ad, exists r, GetAddrDescBalance d ad DetailUTXOIndexed = Ret r.
Hypothesis read_tx : forall id, exists r, getTxAddresses d id = Ret r.

(** ** Views: the maps of the block over the database *)

Definition db_balance (ad : bytes) : AddrBalance :=
  match GetAddrDescBalance d ad DetailUTXOIndexed with Ret (Some x) => x | _ => emptyBalance end.

Definition db_tx (id : bytes) : option TxAddresses :=
  match getTxAddresses d id with Ret (Some ta) => Some ta | _ => None end.

Definition balance_view (b : blockState) (ad : bytes) : AddrBalance :=
  default (db_balance ad) (balances b !! ad).

Definition tx_view (b : blockState) (id : bytes) : option TxAddresses :=
  match txAddressesMap b !! id with Some loc => heap b !! loc | None => db_tx id end.

Definition outs_view (b : blockState) (id : bytes) : option (Z * list TxOutput.t) :=
  (fun ta => (Height ta, Outputs ta)) <$> tx_view b id.

(** ** Ownership *)

(** The descriptors under which an output with the descriptor [ad] is indexed. *)
Definition out_descs (ad : bytes) : list bytes :=
  if zlen ad =? 0 then []
  else match addrDescriptors ad with
       | Ret l => List.filter IsAddrDescIndexable l
       | _ => []
       end.

(** [u] is an unspent output of a known transaction, indexed under [ad]. *)
Definition owned (b : blockState) (ad : bytes) (u : Utxo.t) : Prop :=
  exists outs o i, outs_view b (Utxo.BtxID u) = Some (Utxo.Height u, outs) /\
    outs !! i = Some o /\ Utxo.Vout u = Z.of_nat i /\ TxOutput.Spent o = false /\
    TxOutput.ValueSat o = Utxo.ValueSat u /\ ad ∈ out_descs (TxOutput.AddrDesc o).

Definition ledger (O : bytes -> Utxo.t -> Prop) (b : blockState) : Prop :=
  forall ad, bal_ok (O ad) (balance_view b ad).

Definition ids_in (K : bytes -> Prop) (b : blockState) : Prop :=
  forall ad u, u ∈ Utxos (balance_view b ad) -> K (Utxo.BtxID u).

(** Every known transaction is one object of the heap. *)
Definition heap_ok (b : blockState) : Prop :=
  (forall id loc, txAddressesMap b !! id = Some loc -> (loc < length (heap b))%nat) /\
  (forall id1 id2 loc, txAddressesMap b !! id1 = Some loc -> txAddressesMap b !! id2 = Some loc -> id1 = id2).

(** The invariant of the index: for every address the utxos, the balance and the
    utxo index agree with the outputs of the known transactions. *)
Record consistent (b : blockState) : Prop := {
  co_heap : heap_ok b;
  co_ledger : ledger (owned b) b;
  co_known : ids_in (fun id => is_Some (tx_view b id)) b;
}.

(** ** Descriptors *)

Lemma isPayToColdStake_len ad : isPayToColdStake ad = true -> 50 < zlen ad.
Proof. unfold isPayToColdStake. rewrite andb_true_iff, Z.ltb_lt. tauto. Qed.

Lemma addrDescriptors_ok ad : exists l, addrDescriptors ad = Ret l /\ NoDup l.
Proof.
  unfold addrDescriptors. destruct (isPayToColdStake ad) eqn:E; [|eexists; split; [done|apply NoDup_singleton]].
  apply isPayToColdStake_len in E. unfold getOwnerFromP2CS.
  destruct (go_slice_ok ad 28 49) as (s & -> & Hs); [lia..|]. gostep.
  destruct (Script_p2pkh (take 20 s)) as (o & -> & Ho).
  { unfold zlen in *. rewrite length_take. lia. }
  eexists. split; [done|]. apply NoDup_cons. split; [|apply NoDup_singleton].
  rewrite list_elem_of_singleton. intros ->. lia.
Qed.

Lemma out_descs_elem ad l x : zlen ad <> 0 -> addrDescriptors ad = Ret l ->
  x ∈ out_descs ad <-> x ∈ l /\ IsAddrDescIndexable x = true.
Proof.
  intros Hz Hl. unfold out_descs. rewrite Hl. destruct (Z.eqb_spec (zlen ad) 0); [done|].
  by rewrite !list_elem_of_In, filter_In.
Qed.

(** ** Steps that do not touch the transactions *)

Definition same_txs (b b' : blockState) : Prop :=
  heap b' = heap b /\ txAddressesMap b' = txAddressesMap b.

Lemma same_txs_view b b' id : same_txs b b' -> tx_view b' id = tx_view b id.
Proof. intros [Hh Hm]. unfold tx_view. by rewrite Hh, Hm. Qed.

Lemma same_txs_trans b1 b2 b3 : same_txs b1 b2 -> same_txs b2 b3 -> same_txs b1 b3.
Proof. intros [H1 H2] [H3 H4]. split; congruence. Qed.

Lemma loadBalance_spec ad b : exists b',
  loadBalance d ad b = (b', Ret (balance_view b ad)) /\ same_txs b b' /\
  (forall x, balance_view b' x = balance_view b x) /\ addresses b' = addresses b /\
  (forall x, is_Some (balances b !! x) -> is_Some (balances b' !! x)).
Proof.
  unfold loadBalance. sgostep. unfold balance_view at 1. destruct (balances b !! ad) as [B|] eqn:E.
  - eexists. split; [done|]. split; [done|]. done.
  - destruct (read_balance ad) as [r Hr]. rewrite Hr. eexists. split.
    { f_equal. f_equal. simpl. unfold db_balance. rewrite Hr. by destruct r. }
    split; [done|]. cbn [addresses balances set_stats set_balances]. split_and!; [|done|].
    + intros x. unfold balance_view. cbn [balances set_stats set_balances].
      destruct (decide (ad = x)) as [<-|]; [|by rewrite lookup_insert_ne].
      rewrite lookup_insert_eq, E. simpl. unfold db_balance. rewrite Hr. by destruct r.
    + intros x Hx. destruct (decide (ad = x)) as [<-|]; [by rewrite lookup_insert_eq|by rewrite lookup_insert_ne].
Qed.

(** The transactions counted for an address in this block. *)
Definition counted (b : blockState) (ad : bytes) : list bytes := map ti_btxID (default [] (addresses b !! ad)).

Lemma appendIndex_ids id i l :
  match appendIndex id i l with
  | Some r => map ti_btxID r = map ti_btxID l /\ id ∈ map ti_btxID l
  | None => id ∉ map ti_btxID l
  end.
Proof.
  induction l as [|t l IH]; simpl; [by intros ?%not_elem_of_nil|]. case_decide as E.
  - simpl. split; [done|]. rewrite E. left.
  - destruct (appendIndex id i l) as [r|].
    + destruct IH as [IH1 IH2]. simpl. rewrite IH1. split; [done|]. by right.
    + rewrite not_elem_of_cons. by split.
Qed.

Lemma countTx_spec ad id i b : exists b' c,
  countTx ad id i b = (b', Ret c) /\ same_txs b b' /\ (forall x, balance_view b' x = balance_view b x) /\
  balances b' = balances b /\ (c = true <-> id ∈ counted b ad) /\
  (forall x, counted b' x = if decide (x = ad /\ c = false) then counted b ad ++ [id] else counted b x) /\
  (forall x l, addresses b' !! x = Some l -> l <> [] \/ addresses b !! x = Some l).
Proof.
  unfold countTx, addToAddressesMap. pose proof (appendIndex_ids id i (default [] (addresses b !! ad))) as Ha.
  destruct (appendIndex _ _ _) as [r|]; (do 2 eexists; split; [reflexivity|]; do 3 (split; [done|]); split;
    [|split; [intros x; unfold counted|intros x l]; cbn [addresses set_addresses]; destruct (decide (x = ad)) as [-> |]]).
  - by destruct Ha.
  - rewrite lookup_insert_eq, decide_False by (by intros [_ ?]). by destruct Ha.
  - by rewrite lookup_insert_ne, decide_False by naive_solver.
  - rewrite lookup_insert_eq. intros [= <-]. left. intros ->. destruct Ha as [E1 E2]. rewrite <- E1 in E2.
    by apply not_elem_of_nil in E2.
  - rewrite lookup_insert_ne by done. auto.
  - by split.
  - rewrite lookup_insert_eq, decide_True by done. simpl. by rewrite map_app.
  - by rewrite lookup_insert_ne, decide_False by naive_solver.
  - rewrite lookup_insert_eq. intros [= <-]. left. by destruct (default _ _).
  - rewrite lookup_insert_ne by done. auto.
Qed.

(** ** Counters

    What the indexing of a block does to the counters of the balances: the number of
    transactions grows with the transactions counted in the block, each once, and the
    sum sent with the outputs spent. *)
Record counts_ok (b : blockState) : Prop := {
  ct_once : forall ad, NoDup (counted b ad);
  ct_txs : forall ad, Txs (balance_view b ad) = u32 (Txs (db_balance ad) + zlen (counted b ad));
  ct_loaded : forall ad, counted b ad <> [] -> is_Some (balances b !! ad);
  ct_nonempty : forall ad l, addresses b !! ad = Some l -> l <> [];
}.

(** From [b] to [b'] the transactions [T ad] are counted and [S ad] is sent. *)
Record effects (b b' : blockState) (T : bytes -> bytes -> Prop) (S : bytes -> Z) : Prop := {
  ef_counted : forall ad id, id ∈ counted b' ad <-> id ∈ counted b ad \/ T ad id;
  ef_sent : forall ad, SentSat (balance_view b' ad) = SentSat (balance_view b ad) + S ad;
  ef_counts : counts_ok b -> counts_ok b';
}.

Definition no_tx (ad id : bytes) : Prop := False.
Definition nothing (ad : bytes) : Z := 0.

Lemma effects_same b b' : balances b' = balances b -> addresses b' = addresses b -> effects b b' no_tx nothing.
Proof.
  intros Hb Ha. unfold no_tx, nothing. split.
  - intros ad id. unfold counted. rewrite Ha. tauto.
  - intros ad. unfold balance_view. rewrite Hb. lia.
  - intros [H1 H2 H3 H4]. split; unfold counted, balance_view in *; by rewrite Ha, ?Hb.
Qed.

Lemma effects_trans b1 b2 b3 T1 T2 S1 S2 (T : bytes -> bytes -> Prop) (S : bytes -> Z) :
  effects b1 b2 T1 S1 -> effects b2 b3 T2 S2 ->
  (forall ad id, T ad id <-> T1 ad id \/ T2 ad id) -> (forall ad, S ad = S1 ad + S2 ad) -> effects b1 b3 T S.
Proof.
  intros [C1 E1 K1] [C2 E2 K2] HT HS. split.
  - intros ad id. rewrite C2, C1, HT. tauto.
  - intros ad. rewrite E2, E1, HS. lia.
  - auto.
Qed.

Lemma effects_iff b b' T T' S S' :
  effects b b' T S -> (forall ad id, T' ad id <-> T ad id) -> (forall ad, S' ad = S ad) -> effects b b' T' S'.
Proof.
  intros [C E K] HT HS. split; [|intros ad; by rewrite E, HS|done]. intros ad id. by rewrite C, HT.
Qed.

(** A transaction counted for an address, with the new balance of the address. *)
Lemma count_effects ad id i b b1 b2 c B (s : Z) :
  (forall x, balance_view b1 x = balance_view b x) -> addresses b1 = addresses b ->
  (forall x, is_Some (balances b !! x) -> is_Some (balances b1 !! x)) ->
  countTx ad id i b1 = (b2, Ret c) ->
  Txs B = Txs (incTxs c (balance_view b ad)) -> SentSat B = SentSat (balance_view b ad) + s ->
  effects b (putBalance ad B b2).1 (fun a x => a = ad /\ x = id) (fun a => if decide (a = ad) then s else 0).
Proof.
  intros V1 A1 L1 E HT HS. destruct (countTx_spec ad id i b1) as (b2' & c' & E' & _ & V2 & B2 & Hc & C2 & N2).
  rewrite E in E'. injection E' as <- <-.
  assert (forall x, counted b1 x = counted b x) as C1 by (intros x; unfold counted; by rewrite A1).
  rewrite C1 in Hc.
  assert (forall x, counted (putBalance ad B b2).1 x = if decide (x = ad /\ c = false) then counted b ad ++ [id] else counted b x) as C3.
  { intros x. change (counted (putBalance ad B b2).1 x) with (counted b2 x). by rewrite C2, !C1. }
  assert (forall x, balance_view (putBalance ad B b2).1 x = if decide (ad = x) then B else balance_view b x) as V3.
  { intros x. rewrite <- V1, <- V2. unfold putBalance, balance_view. cbn [fst balances set_balances].
    destruct (decide (ad = x)) as [-> |Hx]; [by rewrite lookup_insert_eq|by rewrite lookup_insert_ne]. }
  split.
  - intros x y. rewrite C3. destruct (decide (x = ad /\ c = false)) as [[-> ->]|Hx].
    + rewrite elem_of_app, list_elem_of_singleton. tauto.
    + split; [auto|]. intros [?|[-> ->]]; [done|]. destruct c; [by apply Hc|naive_solver].
  - intros x. rewrite V3. destruct (decide (ad = x)) as [-> |Hx]; [by rewrite decide_True|].
    rewrite decide_False by done. lia.
  - intros [K1 K2 K3 K4]. split.
    + intros x. rewrite C3. destruct (decide (x = ad /\ c = false)) as [[-> ->]|Hx]; [|done]. apply NoDup_app. split; [done|].
      split; [|apply NoDup_singleton]. intros y Hy ->%list_elem_of_singleton. by apply Hc in Hy.
    + intros x. rewrite V3, C3. destruct (decide (ad = x)) as [<-|Hx].
      * rewrite HT. destruct c; cbn [incTxs]; [rewrite decide_False by (by intros [_ ?]); done|].
        rewrite decide_True by done. cbn [Txs set_Txs]. rewrite K2, zlen_app, zlen_cons, zlen_nil.
        unfold u32. rewrite Z.add_mod_idemp_l by lia. f_equal. lia.
      * rewrite decide_False; [done|]. intros [-> _]. done.
    + intros x Hx. rewrite C3 in Hx. unfold putBalance. cbn [fst balances set_balances].
      destruct (decide (ad = x)) as [-> |]; [by rewrite lookup_insert_eq|]. rewrite lookup_insert_ne, B2 by done.
      apply L1, K3. rewrite decide_False in Hx; [done|]. by intros [-> _].
    + intros x l. unfold putBalance. cbn [fst addresses set_balances]. intros [?|Hl]%N2; [done|].
      rewrite A1 in Hl. by apply (K4 x).
Qed.

Lemma putBalance_view ad B b x :
  balance_view (putBalance ad B b).1 x = if decide (ad = x) then B else balance_view b x.
Proof.
  unfold putBalance, balance_view. simpl. case_decide as E.
  - subst. by rewrite lookup_insert_eq.
  - by rewrite lookup_insert_ne.
Qed.

(** ** Crediting an output *)

Definition credit_owner (O : bytes -> Utxo.t -> Prop) (oad : bytes) (u : Utxo.t) : bytes -> Utxo.t -> Prop :=
  fun ad x => O ad x \/ (IsAddrDescIndexable oad = true /\ ad = oad /\ x = u).

Lemma creditOutput_spec O K b height id i value oad :
  ledger O b -> ids_in K b -> K id -> (forall ad, tail_ok id (Utxos (balance_view b ad))) ->
  in_i32 i -> 0 <= i -> 0 <= value -> id <> [] ->
  let u := Utxo.mk id i height value in
  (forall u', O oad u' -> utxo_key u' <> utxo_key u) ->
  exists b', creditOutput d height id i value oad b = (b', Ret tt) /\ same_txs b b' /\
    ledger (credit_owner O oad u) b' /\ ids_in K b' /\
    (forall ad, tail_ok id (Utxos (balance_view b' ad))) /\
    effects b b' (fun ad x => IsAddrDescIndexable oad = true /\ ad = oad /\ x = id) nothing.
Proof.
  intros HL HK Kid Ht Hi Hi0 Hv Hid u Hfresh. unfold creditOutput.
  destruct (IsAddrDescIndexable oad) eqn:Ei.
  2:{ exists b. split_and!; try done.
      - intros ad. eapply bal_ok_iff; [|apply HL]. intros x. unfold credit_owner. intuition congruence.
      - eapply effects_iff; [by apply (effects_same b b)| |done]. intros ad x. unfold no_tx. intuition congruence. }
  destruct (loadBalance_spec oad b) as (b1 & E1 & S1 & V1 & A1 & L1). rewrite (sbind_eq _ _ _ _ _ E1).
  pose proof (HL oad) as Hok.
  rewrite i32_id by done. rewrite (hasUtxo_fresh _ id i) by
    (try apply Hok; try done; intros u' Hu'; apply Hfresh; by apply (bo_owned _ _ Hok)).
  rewrite (sbind_eq _ _ b1 b1 false) by done.
  destruct (countTx_spec oad id i b1) as (b2 & c & E2 & S2 & V2 & _). rewrite (sbind_eq _ _ _ _ _ E2).
  set (B' := incTxs c _). pose proof (putBalance_view oad B' b2) as V3.
  assert (effects b (putBalance oad B' b2).1 (fun ad x => true = true /\ ad = oad /\ x = id) nothing) as HE.
  { eapply effects_iff; [apply (count_effects oad id i b b1 b2 c B' 0); try done; unfold B'; destruct c; simpl; lia| |].
    - intros ad x. simpl. tauto.
    - intros ad. unfold nothing. by case_decide. }
  eexists. split; [reflexivity|]. split; [eapply same_txs_trans; [exact S1|]; exact S2|].
  assert (Utxos B' = Utxos (balance_view b oad) ++ [u]) as EB by (unfold B'; by destruct c).
  assert (forall x, balance_view (putBalance oad B' b2).1 x =
     if decide (oad = x) then B' else balance_view b x) as Hview
    by (intros x; rewrite V3, V2, V1; done).
  unfold putBalance in Hview, HE. cbn [fst] in Hview, HE. split_and!; [..|exact HE]; clear HE.
  - intros ad. rewrite Hview. case_decide as E.
    + subst ad. apply bal_ok_incTxs. eapply bal_ok_iff; [|apply (credit_ok (O oad) _ u); try done; apply Ht].
      intros x. unfold credit_owner. intuition.
    + eapply bal_ok_iff; [|apply HL]. intros x. unfold credit_owner. intuition congruence.
  - intros ad x. rewrite Hview. case_decide as E; [|apply HK]. subst ad. rewrite EB.
    intros [Hx|Hx]%elem_of_app; [by apply (HK oad)|]. apply list_elem_of_singleton in Hx as ->. done.
  - intros ad. rewrite Hview. case_decide as E; [|apply Ht]. subst ad. rewrite EB. by apply tail_ok_snoc.
Qed.

Lemma ledger_iff O O' b : (forall ad x, O ad x <-> O' ad x) -> ledger O b -> ledger O' b.
Proof. intros HO HL ad. eapply bal_ok_iff; [apply HO|apply HL]. Qed.

(** The invariant while the outputs of the transaction [id] are credited. *)
Record crediting (O : bytes -> Utxo.t -> Prop) (K : bytes -> Prop) (id : bytes) (b : blockState) : Prop := {
  cr_ledger : ledger O b;
  cr_ids : ids_in K b;
  cr_tail : forall ad, tail_ok id (Utxos (balance_view b ad));
}.

Lemma crediting_balances O K id b b' :
  balances b' = balances b -> crediting O K id b -> crediting O K id b'.
Proof.
  intros E [H1 H2 H3]. unfold ledger, ids_in, balance_view in *.
  split; unfold ledger, ids_in, balance_view; by rewrite E.
Qed.

Lemma creditOutputs_spec K height id i value ads O b :
  NoDup ads -> crediting O K id b -> K id -> in_i32 i -> 0 <= i -> 0 <= value -> id <> [] ->
  let u := Utxo.mk id i height value in
  (forall ad u', ad ∈ ads -> O ad u' -> utxo_key u' <> utxo_key u) ->
  exists b', sfor (creditOutput d height id i value) ads b = (b', Ret tt) /\ same_txs b b' /\
    crediting (fun ad x => O ad x \/ (ad ∈ ads /\ IsAddrDescIndexable ad = true /\ x = u)) K id b' /\
    effects b b' (fun ad x => ad ∈ ads /\ IsAddrDescIndexable ad = true /\ x = id) nothing.
Proof.
  intros Hnd HC Kid Hi Hi0 Hv Hid u. revert O b HC. induction Hnd as [|a ads Ha Hnd IH]; intros O b HC Hf.
  - exists b. split_and!; try done.
    + destruct HC as [H1 H2 H3]. split; try done. eapply ledger_iff; [|exact H1]. intros ad x. set_solver.
    + eapply effects_iff; [by apply (effects_same b b)| |done]. intros ad x. unfold no_tx. set_solver.
  - destruct HC as [H1 H2 H3].
    destruct (creditOutput_spec O K b height id i value a) as (b1 & E1 & S1 & HL1 & HK1 & HT1 & HE1); try done.
    { intros u' Hu'. apply (Hf a); [left|done]. }
    destruct (IH (credit_owner O a u) b1) as (b2 & E2 & S2 & HC2 & HE2).
    { by split. }
    { intros ad u' Had [Ho|(_ & -> & _)]; [|done]. apply (Hf ad); [by right|done]. }
    exists b2. split; [cbn [sfor]; by rewrite (sbind_eq _ _ _ _ _ E1)|].
    split; [by eapply same_txs_trans|]. split.
    + destruct HC2 as [H1' H2' H3']. split; try done.
      eapply ledger_iff; [|exact H1']. intros ad x. unfold credit_owner. set_solver.
    + eapply effects_trans; [exact HE1|exact HE2| |done]. intros ad x. simpl. set_solver.
Qed.

(** ** The outputs of a transaction *)

(** The descriptor the index keeps for an output. *)
Definition out_desc (v : Vout.t) : bytes :=
  match GetAddrDescFromVout v with
  | Ret ad => if (zlen ad =? 0) || (maxAddrDescLen <? zlen ad) then [] else ad
  | _ => []
  end.

Definition out_of (v : Vout.t) : TxOutput.t := TxOutput.mk (out_desc v) false (Vout.ValueSat v).

Definition new_owner (O : bytes -> Utxo.t -> Prop) (height : Z) (id : bytes) (i : nat) (v : Vout.t)
    : bytes -> Utxo.t -> Prop :=
  fun ad x => O ad x \/ (ad ∈ out_descs (out_desc v) /\
                          x = Utxo.mk id (Z.of_nat i) height (Vout.ValueSat v)).

Definition valid_vout (v : Vout.t) : Prop := GetAddrDescFromVout v <> Panic /\ 0 <= Vout.ValueSat v.

(** The owners of outputs of [id] have lower indexes than [i]. *)
Definition below (O : bytes -> Utxo.t -> Prop) (id : bytes) (i : nat) : Prop :=
  forall ad u, O ad u -> Utxo.BtxID u = id -> Utxo.Vout u < Z.of_nat i.

Definition with_output (i : nat) (o : TxOutput.t) (ta : TxAddresses) : TxAddresses :=
  set_Outputs (<[i := o]> (Outputs ta)) ta.

Lemma with_output_twice i o o' ta : with_output i o' (with_output i o ta) = with_output i o' ta.
Proof. unfold with_output, set_Outputs. simpl. by rewrite list_insert_insert_eq. Qed.

Lemma alter_twice {A} (f g h : A -> A) (l : list A) n :
  (forall x, g (f x) = h x) -> alter g n (alter f n l) = alter h n l.
Proof.
  intros H. apply list_eq. intros j. destruct (decide (n = j)) as [<-|].
  - rewrite !list_lookup_alter_eq. destruct (l !! n); simpl; [by rewrite H|done].
  - by rewrite !list_lookup_alter_ne by done.
Qed.

Lemma alter_app_last {A} (f : A -> A) (l : list A) x :
  alter f (length l) (l ++ [x]) = l ++ [f x].
Proof. induction l as [|y l IH]; [done|]. simpl. by f_equal. Qed.

Lemma processOutput_spec O K b height id loc i v :
  crediting O K id b -> K id -> id <> [] -> in_i32 (Z.of_nat i) -> valid_vout v -> below O id i ->
  exists b', processOutput d height id loc (i, v) b = (b', Ret tt) /\
    txAddressesMap b' = txAddressesMap b /\ heap b' = alter (with_output i (out_of v)) loc (heap b) /\
    crediting (new_owner O height id i v) K id b' /\
    effects b b' (fun ad x => ad ∈ out_descs (out_desc v) /\ x = id) nothing.
Proof.
  intros HC Kid Hid Hi [Hp Hval] Hbelow. unfold processOutput.
  set (b1 := set_heap (alter (with_output i (TxOutput.mk [] false (Vout.ValueSat v))) loc (heap b)) b).
  rewrite (sbind_eq _ _ b b1 tt) by done.
  assert (crediting O K id b1) as HC1 by (by apply (crediting_balances O K id b)).
  destruct (decide (out_desc v = [])) as [E|E].
  - exists b1. split_and!.
    + unfold out_desc in E. destruct (GetAddrDescFromVout v) as [ad|e|]; [|done|done].
      destruct (_ || _) eqn:Eb; [done|]. subst ad. done.
    + done.
    + subst b1. simpl. unfold out_of. by rewrite E.
    + destruct HC1 as [H1 H2 H3]. split; try done. eapply ledger_iff; [|exact H1].
      intros ad x. unfold new_owner. rewrite E. unfold out_descs. simpl. set_solver.
    + eapply effects_iff; [by apply (effects_same b b1)| |done]. intros ad x. rewrite E. unfold out_descs, no_tx. simpl. set_solver.
  - unfold out_desc in E. destruct (GetAddrDescFromVout v) as [ad|e|] eqn:Ev; [|done|done].
    destruct (_ || _) eqn:Eb; [done|]. apply orb_false_iff in Eb as [Hz Hm].
    set (b2 := set_heap (alter (with_output i (out_of v)) loc (heap b)) b).
    rewrite (sbind_eq _ _ b1 b2 tt).
    2:{ unfold setOutput, alterTx. subst b1 b2. cbn [heap set_heap]. f_equal. unfold set_heap. simpl. f_equal.
        apply alter_twice. intros ta. unfold out_of, out_desc. rewrite Ev, Hz, Hm. apply with_output_twice. }
    destruct (addrDescriptors_ok ad) as (l & Hl & Hnd). rewrite Hl, (sbind_eq _ _ b2 b2 l) by done.
    destruct (creditOutputs_spec K height id (Z.of_nat i) (Vout.ValueSat v) l O b2)
      as (b3 & E3 & [S3 S3'] & HC3 & HE3); try done; try lia; [by apply (crediting_balances O K id b)|..].
    { intros a u' _ Ho Hk. injection Hk as Hk1 Hk2. pose proof (Hbelow a u' Ho Hk1). lia. }
    assert (out_desc v = ad) as Ead by (unfold out_desc; by rewrite Ev, Hz, Hm). apply Z.eqb_neq in Hz.
    exists b3. split_and!; [done|done|done| |].
    + destruct HC3 as [H1 H2 H3]. split; try done. eapply ledger_iff; [|exact H1]. intros a x. unfold new_owner.
      rewrite Ead, (out_descs_elem ad l) by done. tauto.
    + eapply effects_trans; [by apply (effects_same b b2)|exact HE3| |done]. intros a x. unfold no_tx.
      rewrite Ead, (out_descs_elem ad l) by done. tauto.
Qed.

Fixpoint new_owners (O : bytes -> Utxo.t -> Prop) (height : Z) (id : bytes) (k : nat) (vs : list Vout.t)
    : bytes -> Utxo.t -> Prop :=
  match vs with
  | [] => O
  | v :: vs' => new_owners (new_owner O height id k v) height id (S k) vs'
  end.

Lemma new_owners_iff vs O height id k ad x :
  new_owners O height id k vs ad x <->
  O ad x \/ exists i v, vs !! i = Some v /\ ad ∈ out_descs (out_desc v) /\
                       x = Utxo.mk id (Z.of_nat (k + i)) height (Vout.ValueSat v).
Proof.
  revert O k. induction vs as [|v vs IH]; intros O k; cbn [new_owners].
  - split; [auto|]. intros [?|(i & v & Hi & _)]; done.
  - rewrite IH. unfold new_owner. split.
    + intros [[?|[? ->]]|(i & w & Hi & Ha & ->)]; [auto| |].
      * right. exists 0%nat, v. by rewrite Nat.add_0_r.
      * right. exists (S i), w. by rewrite <- Nat.add_succ_comm.
    + intros [?|(i & w & Hi & Ha & ->)]; [auto|]. destruct i as [|i]; simplify_eq/=.
      * left. right. by rewrite Nat.add_0_r.
      * right. exists i, w. by rewrite <- Nat.add_succ_comm.
Qed.

Fixpoint with_outputs (k : nat) (vs : list Vout.t) (ta : TxAddresses) : TxAddresses :=
  match vs with
  | [] => ta
  | v :: vs' => with_outputs (S k) vs' (with_output k (out_of v) ta)
  end.

Lemma processOutputs_spec K height id loc vs k O b :
  crediting O K id b -> K id -> id <> [] -> Z.of_nat (k + length vs) < 2 ^ 31 -> Forall valid_vout vs ->
  below O id k ->
  exists b', sfor (processOutput d height id loc) (combine (seq k (length vs)) vs) b = (b', Ret tt) /\
    txAddressesMap b' = txAddressesMap b /\ heap b' = alter (with_outputs k vs) loc (heap b) /\
    crediting (new_owners O height id k vs) K id b' /\
    effects b b' (fun ad x => (exists v, v ∈ vs /\ ad ∈ out_descs (out_desc v)) /\ x = id) nothing.
Proof.
  intros HC Kid Hid Hk Hvs. revert k O b HC Hk. induction Hvs as [|v vs Hv Hvs IH]; intros k O b HC Hk Hb.
  - exists b. split_and!; try done; [cbn [with_outputs]; symmetry; by apply list_alter_id|].
    eapply effects_iff; [by apply (effects_same b b)| |done]. intros ad x. unfold no_tx. set_solver.
  - simpl length in Hk.
    destruct (processOutput_spec O K b height id loc k v) as (b1 & E1 & M1 & H1 & C1 & F1); try done.
    { unfold in_i32. lia. }
    destruct (IH (S k) (new_owner O height id k v) b1) as (b2 & E2 & M2 & H2 & C2 & F2); try done; [lia| |].
    { intros ad u [Ho|(_ & ->)] Hu; simpl; [pose proof (Hb ad u Ho Hu)|]; lia. }
    exists b2. split_and!.
    + cbn [length seq combine sfor]. by rewrite (sbind_eq _ _ _ _ _ E1).
    + congruence.
    + rewrite H2, H1. apply alter_twice. done.
    + done.
    + eapply effects_trans; [exact F1|exact F2| |done]. intros ad x. simpl. set_solver.
Qed.

Lemma with_outputs_spec vs k ta pre suf :
  Outputs ta = pre ++ suf -> length pre = k -> length suf = length vs ->
  with_outputs k vs ta = set_Outputs (pre ++ map out_of vs) ta.
Proof.
  revert k ta pre suf. induction vs as [|v vs IH]; intros k ta pre suf Ho Hp Hs.
  - destruct suf; [|done]. cbn [with_outputs map]. rewrite <- Ho. by destruct ta.
  - destruct suf as [|x suf]; [done|]. cbn [with_outputs map].
    rewrite (IH (S k) _ (pre ++ [out_of v]) suf).
    + unfold with_output, set_Outputs. simpl. by rewrite <- app_assoc.
    + unfold with_output, set_Outputs. cbn [Outputs]. rewrite Ho.
      rewrite insert_app_r_alt by lia. by rewrite Hp, Nat.sub_diag, <- app_assoc.
    + rewrite length_app. simpl. lia.
    + simpl in Hs. lia.
Qed.

(** The object of a transaction after its outputs are processed. *)
Definition new_tx (height : Z) (tx : Tx.t) : TxAddresses :=
  mkTxAddresses height [] (map out_of (Tx.Vout tx)) 0 0 0.

Definition valid_outputs (tx : Tx.t) (id : bytes) : Prop :=
  PackTxid (Tx.Txid tx) = Ret id /\ id <> [] /\ Forall valid_vout (Tx.Vout tx) /\
  zlen (Tx.Vout tx) < 2 ^ 31.

Lemma tx_view_None b id : heap_ok b -> tx_view b id = None -> txAddressesMap b !! id = None.
Proof.
  intros [Hr _] Hv. unfold tx_view in Hv. destruct (txAddressesMap b !! id) as [loc|] eqn:E; [|done].
  apply Hr, lookup_lt_is_Some in E as [ta Hta]. congruence.
Qed.

(** A new object on the heap, mapped from [id]. *)
Lemma tx_view_push b b' id ta x :
  heap_ok b -> heap b' = heap b ++ [ta] ->
  txAddressesMap b' = <[id := length (heap b)]> (txAddressesMap b) ->
  tx_view b' x = if decide (id = x) then Some ta else tx_view b x.
Proof.
  intros [Hr _] Hh Hm. unfold tx_view. rewrite Hh, Hm. case_decide as E.
  - subst. rewrite lookup_insert_eq. by rewrite list_lookup_middle.
  - rewrite lookup_insert_ne by done. destruct (txAddressesMap b !! x) as [loc|] eqn:El; [|done].
    apply Hr in El. by rewrite lookup_app_l.
Qed.

Lemma heap_ok_push b b' id ta :
  heap_ok b -> txAddressesMap b !! id = None -> heap b' = heap b ++ [ta] ->
  txAddressesMap b' = <[id := length (heap b)]> (txAddressesMap b) -> heap_ok b'.
Proof.
  intros [Hr Hi] Hn Hh Hm. split; rewrite ?Hh, Hm; [|intros id1 id2].
  - intros x loc. rewrite length_app. simpl. rewrite lookup_insert_Some.
    intros [[<- <-]|[_ ?%Hr]]; lia.
  - intros loc. rewrite !lookup_insert_Some.
    intros [[<- <-]|[_ H1]] [[<- E]|[_ H2]]; try done; [by apply Hr in H2; lia|apply Hr in H1; lia|eauto].
Qed.

Lemma processTxOutputs_spec b height tx id :
  consistent b -> valid_outputs tx id -> tx_view b id = None ->
  exists b', processTxOutputs d height tx b = (b', Ret (id, length (heap b))) /\
    heap b' = heap b ++ [new_tx height tx] /\
    txAddressesMap b' = <[id := length (heap b)]> (txAddressesMap b) /\ consistent b' /\
    effects b b' (fun ad x => (exists v, v ∈ Tx.Vout tx /\ ad ∈ out_descs (out_desc v)) /\ x = id) nothing.
Proof.
  intros [Hh HL Hk] (Hp & Hid & Hvs & Hlen) Hnone. unfold processTxOutputs.
  rewrite Hp, (sbind_eq _ _ b b id) by done. rewrite (sbind_eq _ _ b b b) by done.
  set (ta0 := mkTxAddresses height [] _ 0 0 0).
  set (b1 := set_txAddressesMap _ (set_heap (heap b ++ [ta0]) b)).
  rewrite (sbind_eq _ _ b b1 tt) by done.
  set (K := fun x => is_Some (tx_view b x) \/ x = id).
  destruct (processOutputs_spec K height id (length (heap b)) (Tx.Vout tx) 0 (owned b) b1)
    as (b2 & E2 & M2 & H2 & [C1 C2 C3] & F2); try done.
  { split.
    - exact HL.
    - intros ad u Hu. left. by apply (Hk ad).
    - intros ad. apply tail_ok_fresh, Forall_forall. intros u Hu E. destruct (Hk ad u Hu) as [t Ht]. congruence. }
  { by right. }
  { intros ad u (outs & o & i & Ho & _) Hu. unfold outs_view in Ho. rewrite Hu, Hnone in Ho. done. }
  exists b2.
  assert (heap b2 = heap b ++ [new_tx height tx]) as Hheap.
  { rewrite H2. subst b1. cbn [heap set_txAddressesMap set_heap].
    rewrite alter_app_last. do 2 f_equal.
    rewrite (with_outputs_spec _ 0 ta0 [] (repeat zeroOutput (length (Tx.Vout tx)))); [done..|].
    by rewrite repeat_length. }
  pose proof (tx_view_None b id Hh Hnone) as Hnm.
  assert (forall x, tx_view b2 x = if decide (id = x) then Some (new_tx height tx) else tx_view b x) as Hview
    by (intros x; by apply (tx_view_push b)).
  split_and!; [by unfold enumerate; rewrite (sbind_eq _ _ _ _ _ E2)|done|done| |].
  2:{ eapply effects_trans; [by apply (effects_same b b1)|exact F2| |done]. intros ad x. unfold no_tx. tauto. }
  split.
  - by eapply heap_ok_push.
  - eapply ledger_iff; [|exact C1]. intros ad x. rewrite new_owners_iff. unfold owned, outs_view.
    rewrite Hview. case_decide as E.
    + subst id. rewrite Hnone. simpl. split.
      * intros [(outs & o & i & Ho & _)|(i & v & Hi & Ha & ->)]; [done|].
        exists (map out_of (Tx.Vout tx)), (out_of v), i. simpl.
        split_and!; try done.
        change (map out_of (Tx.Vout tx)) with (out_of <$> Tx.Vout tx). by rewrite list_lookup_fmap, Hi.
      * intros (outs & o & i & [= Hht <-] & Hi & Hv & Hsp & Hval & Ha). right.
        change (map out_of (Tx.Vout tx)) with (out_of <$> Tx.Vout tx) in Hi.
        rewrite list_lookup_fmap in Hi. destruct (Tx.Vout tx !! i) as [v|] eqn:Ev; [|done].
        simplify_eq/=. exists i, v. split_and!; try done. destruct x; simpl in *. congruence.
    + split; [|auto]. intros [H|(i & v & _ & _ & ->)]; [done|]. done.
  - intros ad u Hu. rewrite Hview. case_decide; [by eexists|]. destruct (C2 ad u Hu); [done|congruence].
Qed.

(** *** All the outputs of a block *)

Lemma processOutputsPhase_spec height txs : forall ids b,
  consistent b -> Forall2 valid_outputs txs ids -> NoDup ids ->
  (forall id, id ∈ ids -> tx_view b id = None) ->
  exists b' locs, smap (processTxOutputs d height) txs b = (b', Ret (combine ids locs)) /\
    length locs = length ids /\ consistent b' /\ (length (heap b) <= length (heap b'))%nat /\
    Forall2 (fun id loc => txAddressesMap b' !! id = Some loc) ids locs /\
    (forall id, id ∉ ids -> tx_view b' id = tx_view b id) /\
    (forall id loc, txAddressesMap b !! id = Some loc -> txAddressesMap b' !! id = Some loc) /\
    (forall id tx, (tx, id) ∈ combine txs ids -> tx_view b' id = Some (new_tx height tx)) /\
    effects b b' (fun ad x => exists tx v, (tx, x) ∈ combine txs ids /\ v ∈ Tx.Vout tx /\ ad ∈ out_descs (out_desc v)) nothing.
Proof.
  induction txs as [|tx txs IH]; intros ids b Hc Hv Hnd Hf.
  - inversion Hv; subst. exists b, []. split_and!; try done; [intros ? ? Hin; by apply not_elem_of_nil in Hin|].
    eapply effects_iff; [by apply (effects_same b b)| |done]. intros ad x. unfold no_tx. simpl. set_solver.
  - inversion Hv as [|? id ? ids' Htx Hv']; subst. apply NoDup_cons in Hnd as [Hnin Hnd].
    destruct (processTxOutputs_spec b height tx id) as (b1 & E1 & H1 & M1 & C1 & F1); [done..|by apply Hf; left|].
    assert (forall x, tx_view b1 x = if decide (id = x) then Some (new_tx height tx) else tx_view b x) as Hview1
      by (intros x; apply (tx_view_push b); [apply Hc|done..]).
    pose proof (tx_view_None b id (co_heap _ Hc) (Hf id ltac:(left))) as Hnm.
    destruct (IH ids' b1) as (b2 & locs & E2 & Hl & C2 & Hlen & Hlocs & Hother & Hkeep & Hnew & F2); try done.
    { intros x Hx. rewrite Hview1. case_decide; [congruence|]. apply Hf. by right. }
    exists b2, (length (heap b) :: locs). split_and!.
    + cbn [smap combine]. rewrite (sbind_eq _ _ _ _ _ E1), (sbind_eq _ _ _ _ _ E2). done.
    + simpl. by rewrite Hl.
    + done.
    + rewrite H1, length_app in Hlen. simpl in Hlen. lia.
    + constructor; [|done]. apply Hkeep. rewrite M1. by rewrite lookup_insert_eq.
    + intros x [Hx Hx']%not_elem_of_cons. rewrite Hother by done. rewrite Hview1. by case_decide.
    + intros x loc Hx. apply Hkeep. rewrite M1, lookup_insert_ne; [done|]. congruence.
    + intros x t. simpl. rewrite elem_of_cons. intros [[= -> ->]|Hin]; [|by apply Hnew].
      rewrite Hother by done. rewrite Hview1. by case_decide.
    + eapply effects_trans; [exact F1|exact F2| |done]. intros ad x. cbn [combine]. split.
      * intros (t & v & [[= -> ->]|Hin]%elem_of_cons & Hv1 & Hv2); [left; eauto|right; eauto].
      * intros [[(v & Hv1 & Hv2) ->]|(t & v & Hin & Hv1 & Hv2)]; [exists tx, v|exists t, v]; split_and!; try done; [left|by right].
Qed.

(** ** Debiting a spent output *)

Definition debit_owner (O : bytes -> Utxo.t -> Prop) (soad : bytes) (u : Utxo.t) : bytes -> Utxo.t -> Prop :=
  fun ad x => O ad x /\ ~ (IsAddrDescIndexable soad = true /\ ad = soad /\ x = u).

Lemma markUtxoAsSpent_ids ab id v x : 
  x ∈ mark_ref id v (Utxos ab) -> exists y, y ∈ Utxos ab /\ Utxo.BtxID y = Utxo.BtxID x.
Proof.
  intros Hx. assert (Utxo.BtxID x ∈ Utxo.BtxID <$> Utxos ab) as Hin.
  { rewrite <- (mark_ref_ids id v). by apply list_elem_of_fmap_2. }
  apply list_elem_of_fmap in Hin as (y & Hy & Hin). eauto.
Qed.

Lemma debitInput_spec O K b sp i id vout h value soad :
  ledger O b -> ids_in K b -> id <> [] -> in_i32 vout ->
  let u := Utxo.mk id vout h value in
  (IsAddrDescIndexable soad = true -> O soad u) ->
  exists b', debitInput d sp i id vout value soad b = (b', Ret tt) /\ same_txs b b' /\
    ledger (debit_owner O soad u) b' /\ ids_in K b' /\
    effects b b' (fun ad x => IsAddrDescIndexable soad = true /\ ad = soad /\ x = sp)
      (fun ad => if decide (IsAddrDescIndexable soad = true /\ ad = soad) then value else 0).
Proof.
  intros HL HK Hid Hv u Hu. unfold debitInput. destruct (IsAddrDescIndexable soad) eqn:Ei.
  2:{ exists b. split_and!; try done.
      - eapply ledger_iff; [|exact HL]. intros ad x. unfold debit_owner. intuition congruence.
      - eapply effects_iff; [by apply (effects_same b b)|intros ad x; unfold no_tx; intuition congruence|].
        intros ad. rewrite decide_False; [done|]. by intros [? _]. }
  specialize (Hu eq_refl).
  destruct (loadBalance_spec soad b) as (b1 & E1 & S1 & V1 & A1 & L1). rewrite (sbind_eq _ _ _ _ _ E1).
  destruct (countTx_spec soad sp (Z.lnot (i32 i)) b1) as (b2 & c & E2 & S2 & V2 & _).
  rewrite (sbind_eq _ _ _ _ _ E2). cbv zeta.
  pose proof (bal_ok_incTxs _ _ c (HL soad)) as Hok.
  set (B := incTxs c (balance_view b soad)) in *.
  destruct (debit_ok _ _ u Hok Hu) as [Hdeb Hle]. destruct Hok as [Hix Hgr Hids _ _ _ _].
  rewrite i32_id, markUtxoAsSpent_ref by (try done; by destruct B).
  rewrite (sbind_eq _ _ b2 b2 (set_Utxos (mark_ref id vout (Utxos B)) (set_BalanceSat (BalanceSat B - value) B)))
    by (by destruct B).
  set (B' := set_SentSat _ _).
  assert (B' = debited B u) as EB.
  { subst B'. unfold debited, clampZero. cbn [BalanceSat set_BalanceSat set_Utxos SentSat].
    simpl in Hle. destruct (Z.ltb_spec (BalanceSat B - value) 0); [lia|]. done. }
  pose proof (putBalance_view soad B' b2) as V3.
  assert (effects b (putBalance soad B' b2).1 (fun ad x => true = true /\ ad = soad /\ x = sp)
      (fun ad => if decide (true = true /\ ad = soad) then value else 0)) as HE.
  { eapply effects_iff; [apply (count_effects soad sp (Z.lnot (i32 i)) b b1 b2 c B' value); try done; by destruct c| |].
    - intros ad x. simpl. tauto.
    - intros ad. simpl. destruct (decide (ad = soad)) as [-> |]; [by rewrite decide_True|by rewrite decide_False by (by intros [_ ?])]. }
  eexists. split; [reflexivity|].
  split; [eapply same_txs_trans; [exact S1|]; exact S2|].
  assert (forall x, balance_view (putBalance soad B' b2).1 x =
     if decide (soad = x) then B' else balance_view b x) as Hview by (intros x; rewrite V3, V2, V1; done).
  unfold putBalance in Hview, HE. cbn [fst] in Hview, HE. split_and!; [..|exact HE]; clear HE.
  - intros ad. rewrite Hview. case_decide as E.
    + subst ad. rewrite EB. eapply bal_ok_iff; [|exact Hdeb]. intros x. unfold debit_owner. intuition.
    + eapply bal_ok_iff; [|apply HL]. intros x. unfold debit_owner. intuition congruence.
  - intros ad x. rewrite Hview. case_decide as E; [|apply HK]. subst ad. rewrite EB.
    intros (y & Hy & <-)%markUtxoAsSpent_ids. apply (HK soad). subst B. revert Hy. by destruct c.
Qed.

Lemma debitInputs_spec K sp i id vout h value ads O b :
  NoDup ads -> ledger O b -> ids_in K b -> id <> [] -> in_i32 vout ->
  let u := Utxo.mk id vout h value in
  (forall ad, ad ∈ ads -> IsAddrDescIndexable ad = true -> O ad u) ->
  exists b', sfor (debitInput d sp i id vout value) ads b = (b', Ret tt) /\ same_txs b b' /\ ids_in K b' /\
    ledger (fun ad x => O ad x /\ ~ (ad ∈ ads /\ IsAddrDescIndexable ad = true /\ x = u)) b' /\
    effects b b' (fun ad x => ad ∈ ads /\ IsAddrDescIndexable ad = true /\ x = sp)
      (fun ad => if decide (ad ∈ ads /\ IsAddrDescIndexable ad = true) then value else 0).
Proof.
  intros Hnd HL HK Hid Hv u. revert O b HL HK.
  induction Hnd as [|a ads Ha Hnd IH]; intros O b HL HK Hu.
  - exists b. split_and!; try done.
    + eapply ledger_iff; [|exact HL]. intros ad x. set_solver.
    + eapply effects_iff; [by apply (effects_same b b)|intros ad x; unfold no_tx; set_solver|].
      intros ad. rewrite decide_False; [done|]. by intros [?%not_elem_of_nil _].
  - destruct (debitInput_spec O K b sp i id vout h value a) as (b1 & E1 & S1 & HL1 & HK1 & HE1); try done.
    { apply Hu. left. }
    destruct (IH (debit_owner O a u) b1) as (b2 & E2 & S2 & HK2 & HL2 & HE2); [done|done| |].
    { intros ad Had Hai. split; [apply Hu; [by right|done]|]. intros (_ & -> & _). done. }
    exists b2. split_and!; [cbn [sfor]; by rewrite (sbind_eq _ _ _ _ _ E1)|by eapply same_txs_trans|done|..].
    + eapply ledger_iff; [|exact HL2]. intros ad x. unfold debit_owner. set_solver.
    + eapply effects_trans; [exact HE1|exact HE2|intros ad x; simpl; set_solver|]. intros ad. simpl.
      destruct (decide (ad = a)) as [-> |Hne].
      * rewrite (decide_False (P := a ∈ ads /\ _)) by (by intros [? _]).
        destruct (decide (IsAddrDescIndexable a = true)) as [Hi|Hi].
        -- rewrite !decide_True; [lia|done|]. split; [left|done].
        -- rewrite !decide_False; [done|by intros [? _]|by intros [_ ?]].
      * rewrite (decide_False (P := _ /\ ad = a)) by (by intros [_ ?]). rewrite Z.add_0_l. apply decide_ext.
        rewrite elem_of_cons. tauto.
Qed.

(** ** Changes of the heap *)

Lemma consistent_outs b b' :
  heap_ok b' -> balances b' = balances b -> (forall x, outs_view b' x = outs_view b x) ->
  consistent b -> consistent b'.
Proof.
  intros Hh Hb Ho [_ HL HK]. split; [done| |].
  - intros ad. unfold balance_view. rewrite Hb. eapply bal_ok_iff; [|apply HL].
    intros u. unfold owned. by rewrite Ho.
  - intros ad u Hu. unfold balance_view in Hu. rewrite Hb in Hu. apply HK in Hu.
    specialize (Ho (Utxo.BtxID u)). unfold outs_view in Ho.
    destruct (tx_view b _), (tx_view b' _); done.
Qed.

Lemma lookup_alter_fn {A} (f : A -> A) (l : list A) n m :
  alter f n l !! m = if decide (n = m) then f <$> l !! m else l !! m.
Proof. case_decide; [subst; apply list_lookup_alter_eq|by apply list_lookup_alter_ne]. Qed.

Lemma outs_view_alter b loc f id :
  heap_ok b -> txAddressesMap b !! id = Some loc ->
  forall x, outs_view (set_heap (alter f loc (heap b)) b) x =
    if decide (x = id) then (fun ta => (Height (f ta), Outputs (f ta))) <$> tx_view b id else outs_view b x.
Proof.
  intros [Hr Hi] Hm x. unfold outs_view, tx_view. cbn [heap txAddressesMap set_heap]. case_decide as E.
  - subst x. rewrite Hm, lookup_alter_fn, decide_True by done. by destruct (heap b !! loc).
  - destruct (txAddressesMap b !! x) as [l|] eqn:El; [|done].
    rewrite lookup_alter_fn, decide_False; [done|]. intros ->. apply E. by eapply Hi.
Qed.

Lemma heap_ok_alter b loc f : heap_ok b -> heap_ok (set_heap (alter f loc (heap b)) b).
Proof. intros [Hr Hi]. split; [|done]. cbn [heap set_heap txAddressesMap]. by rewrite length_alter. Qed.

(** Changes of the inputs and the sapling data of an object. *)
Lemma alterTx_consistent b loc f :
  consistent b -> (forall ta, Height (f ta) = Height ta /\ Outputs (f ta) = Outputs ta) ->
  let b' := set_heap (alter f loc (heap b)) b in
  consistent b' /\ forall x, outs_view b' x = outs_view b x.
Proof.
  intros Hc Hf b'.
  assert (forall x, outs_view b' x = outs_view b x) as Ho.
  { intros x. unfold outs_view, tx_view, b'. cbn [heap txAddressesMap set_heap].
    destruct (txAddressesMap b !! x) as [l|]; [|done]. rewrite lookup_alter_fn. case_decide; [|done].
    destruct (heap b !! l) as [ta|]; [|done]. simpl. by destruct (Hf ta) as [-> ->]. }
  split; [|done]. apply (consistent_outs b); try done. apply heap_ok_alter, Hc.
Qed.

(** ** The inputs of the objects *)

Definition inputs_at (b : blockState) (l : nat) : option (list TxInput.t) := Inputs <$> heap b !! l.

(** A record without its outputs. *)
Definition rest (ta : TxAddresses) : TxAddresses := set_Outputs [] ta.

(** A step of the second loop for the transaction at [loc]: its inputs change by [g], the
    inputs of the other objects not at all; of the other transactions at most the outputs
    change. *)
Record tx_step (b b' : blockState) (loc : nat) (g : list TxInput.t -> list TxInput.t)
    (T : bytes -> bytes -> Prop) (S : bytes -> Z) : Prop := {
  ts_inputs : forall l, (l < length (heap b))%nat ->
    inputs_at b' l = if decide (l = loc) then g <$> inputs_at b l else inputs_at b l;
  ts_length : (length (heap b) <= length (heap b'))%nat;
  ts_map : forall id l, txAddressesMap b !! id = Some l -> txAddressesMap b' !! id = Some l;
  ts_new : forall id l, txAddressesMap b' !! id = Some l -> txAddressesMap b !! id = Some l \/ (length (heap b) <= l)%nat;
  ts_rest : (loc < length (heap b))%nat -> forall x, txAddressesMap b !! x <> Some loc ->
    rest <$> tx_view b' x = rest <$> tx_view b x;
  ts_effects : effects b b' T S;
}.

Lemma tx_step_trans b1 b2 b3 loc g1 g2 (g : list TxInput.t -> list TxInput.t) T1 T2 S1 S2 (T : bytes -> bytes -> Prop) (S : bytes -> Z) :
  tx_step b1 b2 loc g1 T1 S1 -> tx_step b2 b3 loc g2 T2 S2 -> (forall ins, g ins = g2 (g1 ins)) ->
  (forall ad id, T ad id <-> T1 ad id \/ T2 ad id) -> (forall ad, S ad = S1 ad + S2 ad) -> tx_step b1 b3 loc g T S.
Proof.
  intros [I1 L1 M1 N1 R1 E1] [I2 L2 M2 N2 R2 E2] Hg HT HS. split; [|lia|auto|..|by eapply effects_trans].
  - intros l Hl. rewrite I2, I1 by lia. case_decide; [|done]. destruct (inputs_at b1 l); simpl; [by rewrite Hg|done].
  - intros id l [H|H]%N2; [|right; lia]. destruct (N1 id l H); [by left|by right].
  - intros Hl x Hx. rewrite R2, R1; [done..|lia|]. intros [?|?]%N1; [done|lia].
Qed.

Lemma tx_step_effects b b' loc T S : same_txs b b' -> effects b b' T S -> tx_step b b' loc (fun ins => ins) T S.
Proof.
  intros [Hh Hm] HE. split; [|by rewrite Hh|by rewrite Hm|rewrite Hm; auto| |done].
  - intros l _. unfold inputs_at. rewrite Hh. case_decide; [|done]. by destruct (heap b !! l).
  - intros _ x _. by rewrite (same_txs_view b b').
Qed.

Lemma tx_step_iff b b' loc g g' T T' S S' : tx_step b b' loc g T S -> (forall ins, g' ins = g ins) ->
  (forall ad id, T' ad id <-> T ad id) -> (forall ad, S' ad = S ad) -> tx_step b b' loc g' T' S'.
Proof.
  intros [I1 L1 M1 N1 R1 E1] Hg HT HS. split; [|done..|by eapply effects_iff].
  intros l Hl. rewrite I1 by done. case_decide; [|done]. destruct (inputs_at b l); simpl; [by rewrite Hg|done].
Qed.

(** A step that leaves balances and counters as they are. *)
Lemma tx_step_heap b f loc (g : list TxInput.t -> list TxInput.t) : (forall ta, Inputs (f ta) = g (Inputs ta)) ->
  tx_step b (set_heap (alter f loc (heap b)) b) loc g no_tx nothing.
Proof.
  intros Hf. split; [|cbn [heap set_heap]; by rewrite length_alter|done|auto| |by apply effects_same].
  - intros l _. unfold inputs_at. cbn [heap set_heap]. case_decide as E.
    + subst. rewrite list_lookup_alter_eq. destruct (heap b !! loc); simpl; [by rewrite Hf|done].
    + by rewrite list_lookup_alter_ne.
  - intros _ x Hx. unfold tx_view. cbn [heap txAddressesMap set_heap].
    destruct (txAddressesMap b !! x) as [l|]; [|done]. rewrite list_lookup_alter_ne; [done|]. congruence.
Qed.

Lemma lookupTx_spec b id : consistent b -> exists b' r,
  lookupTx d id b = (b', Ret r) /\ consistent b' /\ (forall x, tx_view b' x = tx_view b x) /\
  (forall loc, tx_step b b' loc (fun ins => ins) no_tx nothing) /\
  match r with
  | None => tx_view b id = None
  | Some loc => txAddressesMap b' !! id = Some loc /\ exists ta, heap b' !! loc = Some ta /\ tx_view b id = Some ta
  end.
Proof.
  intros Hc. unfold lookupTx. sgostep. destruct (txAddressesMap b !! id) as [loc|] eqn:E.
  - do 2 eexists. split; [done|]. split_and!; [|done| |done|].
    + by apply (consistent_outs b); try done; apply Hc.
    + intros loc'. apply tx_step_effects; [done|by apply effects_same].
    + edestruct (lookup_lt_is_Some_2 (heap b) loc) as [ta Hta]; [eapply (proj1 (co_heap _ Hc)), E|].
      unfold tx_view. rewrite E. eauto.
  - destruct (read_tx id) as [r Hr]. rewrite Hr. destruct r as [ita|].
    2:{ do 2 eexists. split; [done|]. split_and!; try done; [|unfold tx_view, db_tx; by rewrite E, Hr].
        intros loc'. apply tx_step_effects; [done|by apply effects_same]. }
    assert (tx_view b id = Some ita) as Hv by (unfold tx_view, db_tx; by rewrite E, Hr).
    set (b' := set_stats _ _). exists b', (Some (length (heap b))).
    assert (forall x, tx_view b' x = tx_view b x) as Hview.
    { intros x. rewrite (tx_view_push b b' id ita) by (try apply Hc; done). case_decide; [by subst|done]. }
    split; [done|]. split_and!; [|done| | |].
    + apply (consistent_outs b); try done.
      * apply (heap_ok_push b b' id ita); try done. apply Hc.
      * intros x. unfold outs_view. by rewrite Hview.
    + intros loc'. split; [|subst b'; simpl; rewrite length_app; lia| | |intros _ x _; by rewrite Hview|by apply effects_same].
      * intros l Hl. assert (inputs_at b' l = inputs_at b l) as ->
          by (unfold inputs_at, b'; cbn [heap set_stats set_txAddressesMap set_heap]; by rewrite lookup_app_l).
        case_decide; [|done]. by destruct (inputs_at b l).
      * intros x l Hx. subst b'. simpl. rewrite lookup_insert_ne; [done|]. congruence.
      * intros x l. subst b'. cbn [txAddressesMap set_stats set_txAddressesMap set_heap].
        destruct (decide (id = x)) as [-> |]; [rewrite lookup_insert_eq; intros [= <-]; by right|].
        rewrite lookup_insert_ne by done. auto.
    + subst b'. simpl. by rewrite lookup_insert_eq.
    + exists ita. split; [|done]. subst b'. simpl. by rewrite list_lookup_middle.
Qed.

(** ** The inputs of a transaction *)

Definition spend_output (o : TxOutput.t) : TxOutput.t :=
  TxOutput.mk (TxOutput.AddrDesc o) true (TxOutput.ValueSat o).

(** The outpoint an input spends. *)
Definition spend_of (v : Vin.t) : option (bytes * nat) :=
  match PackTxid (Vin.Txid v) with Ret id => Some (id, Z.to_nat (Vin.Vout v)) | _ => None end.

(** The outputs after an outpoint is spent: nothing changes for an unknown one. *)
Definition spend_view (sp : option (bytes * nat)) (f : bytes -> option (Z * list TxOutput.t))
    : bytes -> option (Z * list TxOutput.t) :=
  match sp with
  | None => f
  | Some (id, v) => fun x => if decide (x = id) then (fun y => (y.1, alter spend_output v y.2)) <$> f x else f x
  end.

Definition valid_vin (v : Vin.t) : Prop :=
  0 <= Vin.Vout v < 2 ^ 31 /\
  (PackTxid (Vin.Txid v) = Fail ErrTxidMissing \/ exists id, PackTxid (Vin.Txid v) = Ret id /\ id <> []).

(** The outpoint is not an output that is already spent. *)
Definition spendable (f : bytes -> option (Z * list TxOutput.t)) (sp : bytes * nat) : Prop :=
  forall h outs o, f sp.1 = Some (h, outs) -> outs !! sp.2 = Some o -> TxOutput.Spent o = false.

Lemma alter_beyond {A} (f : A -> A) (l : list A) n : (length l <= n)%nat -> alter f n l = l.
Proof.
  intros H. apply list_eq. intros m. rewrite lookup_alter_fn. case_decide; [|done].
  subst. by rewrite lookup_ge_None_2.
Qed.

Lemma alter_insert_lookup {A} (f : A -> A) (l : list A) n x : l !! n = Some x -> <[n := f x]> l = alter f n l.
Proof.
  intros H. apply list_eq. intros m. rewrite lookup_alter_fn. case_decide.
  - subst. rewrite list_lookup_insert_eq by (by eapply lookup_lt_Some). by rewrite H.
  - by rewrite list_lookup_insert_ne.
Qed.

(** The owners after the output at [(id, v)] is spent. *)
Lemma owned_spend b b' id v h outs o ad x :
  outs_view b id = Some (h, outs) -> outs !! v = Some o -> TxOutput.Spent o = false ->
  (forall y, outs_view b' y = spend_view (Some (id, v)) (outs_view b) y) ->
  owned b' ad x <-> owned b ad x /\
    ~ (ad ∈ out_descs (TxOutput.AddrDesc o) /\ x = Utxo.mk id (Z.of_nat v) h (TxOutput.ValueSat o)).
Proof.
  intros Hid Ho Hsp Hv. unfold owned. rewrite Hv. cbn [spend_view]. case_decide as E.
  - rewrite E, Hid. simpl. split.
    + intros (outs' & o' & i & [= <- <-] & Hi & Hvo & Hs & Hval & Ha). rewrite lookup_alter_fn in Hi.
      case_decide as Ev; [subst; rewrite Ho in Hi; simplify_eq/=|].
      split; [by exists outs, o', i|]. intros [_ ->]. simpl in Hvo. lia.
    + intros [(outs' & o' & i & [= Hh <-] & Hi & Hvo & Hs & Hval & Ha) Hn].
      exists (alter spend_output v outs), o', i. split_and!; try done; [by rewrite Hh|].
      rewrite lookup_alter_fn. case_decide as Ev; [|done]. subst i. rewrite Ho in Hi. simplify_eq.
      exfalso. apply Hn. split; [done|]. destruct x; simpl in *. congruence.
  - split; [|tauto]. intros H. split; [done|]. intros [_ ->]. done.
Qed.

Lemma setInput_consistent b loc i t :
  consistent b ->
  let b' := set_heap (alter (fun ta => set_Inputs (<[i := t]> (Inputs ta)) ta) loc (heap b)) b in
  consistent b' /\ forall x, outs_view b' x = outs_view b x.
Proof. intros Hc. by apply alterTx_consistent. Qed.

(** The first write of an input: the output it spends is marked. *)
Lemma spentHeap_spec b id iloc vout h outs o loc :
  consistent b -> txAddressesMap b !! id = Some iloc ->
  outs_view b id = Some (h, outs) -> outs !! Z.to_nat vout = Some o ->
  let ad := TxOutput.AddrDesc o in let value := TxOutput.ValueSat o in
  let b3 := set_heap (alter (with_output (Z.to_nat vout) (TxOutput.mk ad true value)) iloc (heap b)) b in
  (forall x, outs_view b3 x = spend_view (Some (id, Z.to_nat vout)) (outs_view b) x) /\
  heap_ok b3 /\ ids_in (fun y => is_Some (tx_view b3 y)) b3 /\ tx_step b b3 loc (fun ins => ins) no_tx nothing.
Proof.
  intros Hc Hm Hov Ho ad value b3.
  assert (forall x, outs_view b3 x = spend_view (Some (id, Z.to_nat vout)) (outs_view b) x) as O3.
  { intros x. subst b3. rewrite (outs_view_alter b iloc _ id) by (try apply Hc; done).
    cbn [spend_view]. case_decide; [|done]. subst x. unfold outs_view in *.
    destruct (tx_view b id) as [ta|]; simplify_eq/=. do 2 f_equal. by apply (alter_insert_lookup spend_output). }
  split_and!; [done|apply heap_ok_alter, Hc| |].
  - intros a u Hu. specialize (co_known _ Hc a u Hu) as Hk. specialize (O3 (Utxo.BtxID u)).
    cbn [spend_view] in O3. unfold outs_view in O3. revert O3. destruct Hk as [ta ->].
    destruct (tx_view b3 (Utxo.BtxID u)); [by eexists|]. case_decide; done.
  - destruct (tx_step_heap b (with_output (Z.to_nat vout) (TxOutput.mk ad true value)) iloc (fun ins => ins)) as [I1 L1 M1 N1 _ F1]; [done|].
    split; [|done|done|done| |done].
    + intros l Hl. rewrite I1 by done. destruct (inputs_at b l), (decide (l = iloc)), (decide (l = loc)); done.
    + intros _ x _. unfold tx_view. cbn [heap txAddressesMap set_heap b3].
      destruct (txAddressesMap b !! x) as [l|]; [|done]. rewrite lookup_alter_fn.
      case_decide; [|done]. by destruct (heap b !! l).
Qed.

(** The last part of [processInput]: the output becomes spent and is debited from
    its descriptors. *)
Lemma spendOutput_spec b sp i id iloc vout h outs o loc :
  consistent b -> txAddressesMap b !! id = Some iloc -> id <> [] -> 0 <= vout < 2 ^ 31 ->
  outs_view b id = Some (h, outs) -> outs !! Z.to_nat vout = Some o -> TxOutput.Spent o = false ->
  let ad := TxOutput.AddrDesc o in let value := TxOutput.ValueSat o in
  exists b',
    (do! setOutput iloc (Z.to_nat vout) (TxOutput.mk ad true value) in
     if zlen ad =? 0 then sret tt
     else let! ads := slift (addrDescriptors ad) in
          sfor (debitInput d sp i id vout value) ads) b = (b', Ret tt) /\
    consistent b' /\ (forall x, outs_view b' x = spend_view (Some (id, Z.to_nat vout)) (outs_view b) x) /\
    tx_step b b' loc (fun ins => ins) (fun a x => a ∈ out_descs ad /\ x = sp)
      (fun a => if decide (a ∈ out_descs ad) then value else 0).
Proof.
  intros Hc Hm Hid Hvo Hov Ho Hunsp ad value.
  set (b3 := set_heap (alter (with_output (Z.to_nat vout) (TxOutput.mk ad true value)) iloc (heap b)) b).
  rewrite (sbind_eq _ _ b b3 tt) by done.
  destruct (spentHeap_spec b id iloc vout h outs o loc Hc Hm Hov Ho) as (O3 & Hh3 & Hk3 & T3).
  fold ad value b3 in O3, Hh3, Hk3, T3.
  pose proof (fun a x => owned_spend b b3 id _ _ _ o a x Hov Ho Hunsp O3) as Hown.
  destruct (Z.eqb_spec (zlen ad) 0) as [Hz|Hz].
  - assert (out_descs ad = []) as Hnil by (unfold out_descs; by rewrite (proj2 (Z.eqb_eq _ _) Hz)).
    exists b3. split; [done|]. split; [|split; [exact O3|]].
    2:{ rewrite Hnil. eapply tx_step_iff; [exact T3|done|..]; [intros a x; unfold no_tx; set_solver|].
        intros a. rewrite decide_False; [done|apply not_elem_of_nil]. }
    split; [done| |done]. intros a. eapply bal_ok_iff; [|apply (co_ledger _ Hc a)]. intros x. rewrite Hown.
    unfold out_descs. fold ad. rewrite (proj2 (Z.eqb_eq _ _) Hz). split; [|tauto]. intros; split; [done|].
    intros [Hn _]. by apply not_elem_of_nil in Hn.
  - destruct (addrDescriptors_ok ad) as (l & Hl & Hnd). rewrite Hl, (sbind_eq _ _ b3 b3 l) by done.
    destruct (debitInputs_spec (fun y => is_Some (tx_view b3 y)) sp i id vout h value l (owned b) b3)
      as (b4 & E4 & S4 & HK4 & HL4 & F4); try done; [exact (co_ledger _ Hc)|unfold in_i32; lia| |].
    { intros a Ha Hai. exists outs, o, (Z.to_nat vout). simpl. split_and!; try done; [lia|].
      apply (out_descs_elem ad l); done. }
    exists b4. assert (forall x, outs_view b4 x = outs_view b3 x) as O5
      by (intros x; unfold outs_view; by rewrite (same_txs_view b3 b4)).
    split; [exact E4|]. split; [|split; [intros x; by rewrite O5|]].
    2:{ eapply tx_step_trans; [exact T3|exact (tx_step_effects b3 b4 loc _ _ S4 F4)|done|..].
        - intros a x. unfold no_tx. rewrite (out_descs_elem ad l) by done. tauto.
        - intros a. unfold nothing. simpl. rewrite Z.add_0_l. apply decide_ext. by apply out_descs_elem. }
    split.
    + destruct S4 as [Sh Sm], Hh3 as [R1 R2]. split; rewrite ?Sh, Sm; done.
    + intros a. eapply bal_ok_iff; [|apply (HL4 a)]. intros x.
      assert (owned b4 a x <-> owned b3 a x) as -> by (unfold owned; by rewrite O5).
      rewrite Hown. fold ad value. rewrite (out_descs_elem ad l) by done.
      replace (Z.of_nat (Z.to_nat vout)) with vout by lia. tauto.
    + intros a u Hu. rewrite (same_txs_view b3 b4) by done. by apply (HK4 a).
Qed.

(** What the index keeps of the output an input spends, and what it stores for the input. *)
Definition debit_of (f : bytes -> option (Z * list TxOutput.t)) (v : Vin.t) : option TxInput.t :=
  match PackTxid (Vin.Txid v) with
  | Ret id =>
      match f id with
      | Some (_, outs) =>
          (fun o => TxInput.mk (TxOutput.AddrDesc o) (TxOutput.ValueSat o)) <$> outs !! Z.to_nat (Vin.Vout v)
      | None => None
      end
  | _ => None
  end.

Definition input_set (f : bytes -> option (Z * list TxOutput.t)) (tx : Tx.t) (i : nat) (v : Vin.t) : option TxInput.t :=
  match PackTxid (Vin.Txid v) with
  | Ret id =>
      match f id with
      | Some _ => debit_of f v
      | None => Some (TxInput.mk (GetAddrDescForUnknownInput tx (Z.of_nat i)) (GetValueSatForUnknownInput tx (Z.of_nat i)))
      end
  | _ => None
  end.

Definition put_input (i : nat) (t : option TxInput.t) (ins : list TxInput.t) : list TxInput.t :=
  match t with Some t => <[i := t]> ins | None => ins end.

(** What an input sends from an address. *)
Definition sentOf (ad : bytes) (t : option TxInput.t) : Z :=
  match t with
  | Some t => if decide (ad ∈ out_descs (TxInput.AddrDesc t)) then TxInput.ValueSat t else 0
  | None => 0
  end.

Definition sends (ad : bytes) (t : option TxInput.t) : Prop :=
  exists t', t = Some t' /\ ad ∈ out_descs (TxInput.AddrDesc t').

Lemma debit_of_spend sp f v : debit_of (spend_view sp f) v = debit_of f v.
Proof.
  unfold debit_of. destruct (PackTxid (Vin.Txid v)) as [id|e|]; [|done..]. destruct sp as [[x n]|]; [|done].
  simpl. case_decide; [|done]. destruct (f id) as [[h outs]|]; [|done]. simpl. rewrite lookup_alter_fn.
  case_decide; [|done]. by destruct (outs !! Z.to_nat (Vin.Vout v)).
Qed.

Lemma input_set_spend sp f tx i v : input_set (spend_view sp f) tx i v = input_set f tx i v.
Proof.
  unfold input_set. rewrite debit_of_spend. destruct (PackTxid (Vin.Txid v)) as [id|e|]; [|done..].
  destruct sp as [[x n]|]; [|done]. simpl. case_decide; [|done]. by destruct (f id) as [[h outs]|].
Qed.

Lemma debit_of_ext f g v : (forall x, f x = g x) -> debit_of f v = debit_of g v.
Proof. intros H. unfold debit_of. destruct (PackTxid (Vin.Txid v)); [|done..]. by rewrite H. Qed.

Lemma input_set_ext f g tx i v : (forall x, f x = g x) -> input_set f tx i v = input_set g tx i v.
Proof.
  intros H. unfold input_set. rewrite (debit_of_ext f g) by done. destruct (PackTxid (Vin.Txid v)); [|done..]. by rewrite H.
Qed.

Lemma processInput_spec b tx sp loc i vin :
  consistent b -> valid_vin vin -> (forall s, spend_of vin = Some s -> spendable (outs_view b) s) ->
  exists b', processInput d tx sp loc (i, vin) b = (b', Ret tt) /\ consistent b' /\
    (forall x, outs_view b' x = spend_view (spend_of vin) (outs_view b) x) /\
    tx_step b b' loc (put_input i (input_set (outs_view b) tx i vin))
      (fun ad x => sends ad (debit_of (outs_view b) vin) /\ x = sp) (fun ad => sentOf ad (debit_of (outs_view b) vin)).
Proof.
  intros Hc [Hvo Hp] Hs. unfold processInput, spend_of, input_set, debit_of in *.
  destruct Hp as [Hp|(id & Hp & Hid)]; rewrite Hp in *.
  { exists b. do 3 (split; [done|]). eapply tx_step_iff; [by apply (tx_step_effects b b), (effects_same b b)|done|..|done].
    intros ad x. unfold no_tx, sends. naive_solver. }
  destruct (lookupTx_spec b id Hc) as (b1 & r & E1 & C1 & V1 & T1 & Hr). rewrite (sbind_eq _ _ _ _ _ E1).
  assert (forall x, outs_view b1 x = outs_view b x) as O1 by (intros x; unfold outs_view; by rewrite V1).
  destruct r as [iloc|].
  2:{ destruct (setInput_consistent b1 loc i (TxInput.mk (GetAddrDescForUnknownInput tx (Z.of_nat i))
                 (GetValueSatForUnknownInput tx (Z.of_nat i))) C1) as [C2 O2].
      assert (outs_view b id = None) as Hov by (unfold outs_view; by rewrite Hr).
      eexists. split; [reflexivity|]. split; [exact C2|]. split.
      - intros x. rewrite O2, O1. cbn [spend_view]. case_decide; [|done]. subst. by rewrite Hov.
      - rewrite Hov. eapply tx_step_trans; [apply T1|by apply tx_step_heap|done|..|done].
        intros ad x. unfold no_tx, sends. naive_solver. }
  destruct Hr as (Hm & ita & Hita & Hview).
  rewrite (sbind_eq _ _ b1 b1 b1) by done. rewrite Hita, (sbind_eq _ _ b1 b1 ita) by done.
  assert (outs_view b id = Some (Height ita, Outputs ita)) as Hov by (unfold outs_view; by rewrite Hview).
  destruct (Z.leb_spec (zlen (Outputs ita)) (Vin.Vout vin)) as [Hout|Hin].
  { exists b1. split_and!; try done.
    - intros x. rewrite O1. cbn [spend_view]. case_decide; [|done].
      subst. rewrite Hov. simpl. do 2 f_equal. symmetry. apply alter_beyond. unfold zlen in Hout. lia.
    - rewrite Hov, (lookup_ge_None_2 (Outputs ita)) by (unfold zlen in Hout; lia).
      eapply tx_step_iff; [apply T1|done|..|done]. intros ad x. unfold no_tx, sends. simpl. naive_solver. }
  destruct (lookup_lt_is_Some_2 (Outputs ita) (Z.to_nat (Vin.Vout vin))) as [o Ho]; [unfold zlen in Hin; lia|].
  assert (go_index (Outputs ita) (Vin.Vout vin) = Ret o) as Hgo.
  { unfold go_index. rewrite (proj2 (Z.leb_le _ _)) by lia. by rewrite Ho. }
  rewrite Hgo, (sbind_eq _ _ b1 b1 o) by done. cbv zeta.
  destruct (setInput_consistent b1 loc i (TxInput.mk (TxOutput.AddrDesc o) (TxOutput.ValueSat o)) C1) as [C2 O2].
  set (b2 := set_heap _ b1) in C2, O2. rewrite (sbind_eq _ _ b1 b2 tt) by done.
  destruct (spendOutput_spec b2 sp (Z.of_nat i) id iloc (Vin.Vout vin) (Height ita) (Outputs ita) o loc)
    as (b3 & E3 & C3 & O3 & T3); try done; [by rewrite O2, O1|exact (Hs _ eq_refl _ _ _ Hov Ho)|].
  exists b3. split_and!; [exact E3|done| |].
  - intros x. rewrite O3. cbn [spend_view]. by rewrite !O2, !O1.
  - rewrite Hov, Ho. cbn [fmap option_fmap option_map].
    assert (tx_step b1 b3 loc (put_input i (Some (TxInput.mk (TxOutput.AddrDesc o) (TxOutput.ValueSat o))))
      (fun a x => a ∈ out_descs (TxOutput.AddrDesc o) /\ x = sp)
      (fun a => if decide (a ∈ out_descs (TxOutput.AddrDesc o)) then TxOutput.ValueSat o else 0)) as T13.
    { set (t := TxInput.mk _ _) in *.
      pose proof (tx_step_heap b1 (fun ta => set_Inputs (<[i := t]> (Inputs ta)) ta) loc (put_input i (Some t)) (fun _ => eq_refl)) as T12.
      eapply tx_step_trans; [exact T12|exact T3|done|..|done]. intros ad x. unfold no_tx. tauto. }
    eapply tx_step_trans; [apply T1|exact T13|done|..|done]. intros ad x. unfold no_tx, sends. naive_solver.
Qed.

(** *** All the inputs *)

Definition spends_of (tx : Tx.t) : list (bytes * nat) := omap spend_of (Tx.Vin tx).

Definition spend_all (sps : list (bytes * nat)) (f : bytes -> option (Z * list TxOutput.t))
    : bytes -> option (Z * list TxOutput.t) :=
  foldl (fun f sp => spend_view (Some sp) f) f sps.

Lemma spend_view_ext sp f g x : (forall y, f y = g y) -> spend_view sp f x = spend_view sp g x.
Proof. intros H. destruct sp as [[id v]|]; simpl; [case_decide|]; by rewrite H. Qed.

Lemma spend_all_ext sps f g x : (forall y, f y = g y) -> spend_all sps f x = spend_all sps g x.
Proof.
  revert f g. induction sps as [|sp sps IH]; intros f g H; [apply H|].
  apply (IH (spend_view (Some sp) f) (spend_view (Some sp) g)). intros y. by apply spend_view_ext.
Qed.

(** Spending one outpoint leaves the others spendable. *)
Lemma spendable_other f sp sp' : sp <> sp' -> spendable f sp -> spendable (spend_view (Some sp') f) sp.
Proof.
  destruct sp as [id v], sp' as [id' v']. unfold spendable. simpl. intros Hne Hs h outs o.
  case_decide as E; [|apply Hs]. subst id'. destruct (f id) as [[h' outs']|]; [|done]. simpl. intros [= <- <-].
  rewrite lookup_alter_fn, decide_False by congruence. by apply (Hs h').
Qed.

Lemma debit_of_spend_all sps f v : debit_of (spend_all sps f) v = debit_of f v.
Proof. revert f. induction sps as [|sp sps IH]; intros f; [done|]. rewrite <- (debit_of_spend (Some sp) f). apply IH. Qed.

Lemma input_set_spend_all sps f tx k v : input_set (spend_all sps f) tx k v = input_set f tx k v.
Proof. revert f. induction sps as [|sp sps IH]; intros f; [done|]. rewrite <- (input_set_spend (Some sp) f). apply IH. Qed.

Definition sumZ (l : list Z) : Z := foldr Z.add 0 l.

Lemma sumZ_app l1 l2 : sumZ (l1 ++ l2) = sumZ l1 + sumZ l2.
Proof. unfold sumZ. induction l1 as [|z l1 IH]; simpl; lia. Qed.

(** The inputs as they are stored, set one by one. *)
Fixpoint set_inputs (f : bytes -> option (Z * list TxOutput.t)) (tx : Tx.t) (k : nat) (vins : list Vin.t)
    (ins : list TxInput.t) : list TxInput.t :=
  match vins with
  | [] => ins
  | v :: vs => set_inputs f tx (S k) vs (put_input k (input_set f tx k v) ins)
  end.

Lemma set_inputs_ext f g tx k vins ins : (forall k v, input_set f tx k v = input_set g tx k v) ->
  set_inputs f tx k vins ins = set_inputs g tx k vins ins.
Proof.
  intros H. revert k ins. induction vins as [|v vs IH]; intros k ins; [done|]. cbn [set_inputs]. by rewrite IH, H.
Qed.

(** What the inputs [vins] send from an address. *)
Definition sent_by (f : bytes -> option (Z * list TxOutput.t)) (vins : list Vin.t) (ad : bytes) : Z :=
  sumZ (map (fun v => sentOf ad (debit_of f v)) vins).

Definition spends_from (f : bytes -> option (Z * list TxOutput.t)) (vins : list Vin.t) (ad : bytes) : Prop :=
  exists v, v ∈ vins /\ sends ad (debit_of f v).

Lemma sent_by_ext f g vins ad : (forall v, debit_of f v = debit_of g v) -> sent_by f vins ad = sent_by g vins ad.
Proof. intros H. unfold sent_by. f_equal. apply map_ext. intros v. by rewrite H. Qed.

Lemma spends_from_ext f g vins ad : (forall v, debit_of f v = debit_of g v) -> spends_from f vins ad <-> spends_from g vins ad.
Proof. intros H. unfold spends_from. by setoid_rewrite H. Qed.

Lemma processInputs_spec tx sp loc vins : forall k b,
  consistent b -> Forall valid_vin vins -> NoDup (omap spend_of vins) ->
  (forall s, s ∈ omap spend_of vins -> spendable (outs_view b) s) ->
  exists b', sfor (processInput d tx sp loc) (combine (seq k (length vins)) vins) b = (b', Ret tt) /\
    consistent b' /\ (forall x, outs_view b' x = spend_all (omap spend_of vins) (outs_view b) x) /\
    tx_step b b' loc (set_inputs (outs_view b) tx k vins)
      (fun ad x => spends_from (outs_view b) vins ad /\ x = sp) (sent_by (outs_view b) vins).
Proof.
  induction vins as [|v vins IH]; intros k b Hc Hv Hnd Hs.
  { exists b. do 3 (split; [done|]). eapply tx_step_iff; [by apply (tx_step_effects b b), (effects_same b b)|done|..|done].
    intros ad x. unfold no_tx, spends_from. set_solver. }
  apply Forall_cons in Hv as [Hv Hvs]. cbn [omap] in Hnd, Hs.
  destruct (processInput_spec b tx sp loc k v) as (b1 & E1 & C1 & O1 & T1); [done|done| |].
  { intros s Es. apply Hs. simpl. rewrite Es. left. }
  destruct (IH (S k) b1) as (b2 & E2 & C2 & O2 & T2); [done|done| | |].
  { simpl in Hnd. destruct (spend_of v); [by apply NoDup_cons in Hnd as [_ ?]|done]. }
  { intros s Hin h outs o. rewrite O1. simpl in Hnd, Hs. destruct (spend_of v) as [s0|]; [|by apply Hs].
    apply NoDup_cons in Hnd as [Hn _]. apply spendable_other; [intros ->; done|]. apply Hs. by right. }
  exists b2. split_and!; [|done|..].
  - cbn [length seq combine sfor]. by rewrite (sbind_eq _ _ _ _ _ E1).
  - intros x. rewrite O2, (spend_all_ext _ _ _ _ O1). simpl. by destruct (spend_of v).
  - assert (forall w, debit_of (outs_view b1) w = debit_of (outs_view b) w) as Hd
      by (intros w; rewrite (debit_of_ext _ _ w O1); apply debit_of_spend).
    assert (forall k w, input_set (outs_view b1) tx k w = input_set (outs_view b) tx k w) as Hi
      by (intros k' w; rewrite (input_set_ext _ _ tx k' w O1); apply input_set_spend).
    eapply tx_step_trans; [exact T1|exact T2|..].
    + intros ins. cbn [set_inputs]. symmetry. by apply set_inputs_ext.
    + intros ad x. cbn beta. rewrite (spends_from_ext _ _ vins ad Hd). unfold spends_from. setoid_rewrite elem_of_cons.
      split; [intros [(w & [-> |Hw] & Hs') ->]; eauto|]. intros [[Hs' ->]|[(w & Hw & Hs') ->]]; eauto.
    + intros ad. rewrite (sent_by_ext _ _ vins ad Hd). done.
Qed.

(** The inputs of a transaction as the index stores them. *)
Definition final_inputs (f : bytes -> option (Z * list TxOutput.t)) (tx : Tx.t) : list TxInput.t :=
  set_inputs f tx 0 (Tx.Vin tx) (repeat zeroInput (length (Tx.Vin tx))).

Lemma processTxInputs_spec b tx id loc :
  consistent b -> Forall valid_vin (Tx.Vin tx) -> NoDup (spends_of tx) ->
  (forall s, s ∈ spends_of tx -> spendable (outs_view b) s) ->
  exists b', processTxInputs d (tx, (id, loc)) b = (b', Ret tt) /\ consistent b' /\
    (forall x, outs_view b' x = spend_all (spends_of tx) (outs_view b) x) /\
    tx_step b b' loc (fun _ => final_inputs (outs_view b) tx)
      (fun ad x => spends_from (outs_view b) (Tx.Vin tx) ad /\ x = id) (sent_by (outs_view b) (Tx.Vin tx)).
Proof.
  intros Hc Hv Hnd Hs. unfold processTxInputs.
  destruct (alterTx_consistent b loc (set_Inputs (repeat zeroInput (length (Tx.Vin tx)))) Hc) as [C1 O1]; [done|].
  set (b1 := set_heap _ b) in C1, O1. rewrite (sbind_eq _ _ b b1 tt) by done.
  destruct (processInputs_spec tx id loc (Tx.Vin tx) 0 b1) as (b2 & E2 & C2 & O2 & T2); try done.
  { intros s Hin h outs o. rewrite O1. by apply Hs. }
  unfold enumerate. rewrite (sbind_eq _ _ _ _ _ E2).
  destruct (alterTx_consistent b2 loc (fun ta =>
    mkTxAddresses (Height ta) (Inputs ta) (Outputs ta) (u32 (zlen (Tx.VShieldIn tx)))
      (u32 (zlen (Tx.VShieldIn tx))) (Tx.ShieldValBal tx)) C2) as [C3 O3]; [done|].
  eexists. split; [reflexivity|]. split; [exact C3|]. split; [intros x; rewrite O3, O2; by apply spend_all_ext|].
  set (g := fun ta => mkTxAddresses _ _ _ _ _ _) in *.
  pose proof (tx_step_heap b (set_Inputs (repeat zeroInput (length (Tx.Vin tx)))) loc
    (fun _ => repeat zeroInput (length (Tx.Vin tx))) (fun _ => eq_refl)) as T1.
  pose proof (tx_step_heap b2 g loc (fun ins => ins) (fun _ => eq_refl)) as T3.
  assert (forall w, debit_of (outs_view b1) w = debit_of (outs_view b) w) as Hd by (intros w; by apply debit_of_ext).
  assert (tx_step b1 (set_heap (alter g loc (heap b2)) b2) loc (set_inputs (outs_view b1) tx 0 (Tx.Vin tx))
    (fun ad x => spends_from (outs_view b1) (Tx.Vin tx) ad /\ x = id) (sent_by (outs_view b1) (Tx.Vin tx))) as T23.
  { eapply tx_step_trans; [exact T2|exact T3|done|..]; unfold no_tx, nothing; [tauto|lia]. }
  eapply tx_step_trans; [exact T1|exact T23|..].
  - intros ins. apply set_inputs_ext. intros k w. by apply input_set_ext.
  - intros ad x. cbn beta. rewrite (spends_from_ext _ _ (Tx.Vin tx) ad Hd). unfold no_tx. tauto.
  - intros ad. rewrite (sent_by_ext _ _ (Tx.Vin tx) ad Hd). unfold nothing. lia.
Qed.

Definition block_spends (txs : list Tx.t) : list (bytes * nat) := concat (map spends_of txs).

Lemma spend_all_app l1 l2 f : spend_all (l1 ++ l2) f = spend_all l2 (spend_all l1 f).
Proof. apply foldl_app. Qed.

Lemma spendable_all f sp sps : sp ∉ sps -> spendable f sp -> spendable (spend_all sps f) sp.
Proof.
  revert f. induction sps as [|sp' sps IH]; intros f Hn Hs; [done|].
  apply not_elem_of_cons in Hn as [Hn Hn'].
  apply (IH (spend_view (Some sp') f)); [done|]. by apply spendable_other.
Qed.

Lemma processInputsPhase_spec : forall txs locs b,
  length txs = length locs -> consistent b -> Forall (fun tx => Forall valid_vin (Tx.Vin tx)) txs ->
  NoDup (block_spends txs) -> (forall s, s ∈ block_spends txs -> spendable (outs_view b) s) ->
  NoDup (map snd locs) -> Forall (fun y => (y.2 < length (heap b))%nat) locs ->
  Forall (fun y => txAddressesMap b !! y.1 = Some y.2) locs ->
  exists b', sfor (processTxInputs d) (combine txs locs) b = (b', Ret tt) /\ consistent b' /\
    (forall x, outs_view b' x = spend_all (block_spends txs) (outs_view b) x) /\
    (forall tx id loc, (tx, (id, loc)) ∈ combine txs locs -> inputs_at b' loc = Some (final_inputs (outs_view b) tx)) /\
    (forall l, (l < length (heap b))%nat -> l ∉ map snd locs -> inputs_at b' l = inputs_at b l) /\
    (forall id l, txAddressesMap b !! id = Some l -> txAddressesMap b' !! id = Some l) /\
    (forall x, x ∉ map fst locs -> rest <$> tx_view b' x = rest <$> tx_view b x) /\
    effects b b' (fun ad x => exists tx loc, (tx, (x, loc)) ∈ combine txs locs /\ spends_from (outs_view b) (Tx.Vin tx) ad)
      (sent_by (outs_view b) (concat (map Tx.Vin txs))).
Proof.
  induction txs as [|tx txs IH]; intros [|[id loc] locs] b Hl Hc Hv Hnd Hs Hnl Hll Hlm; try done.
  { exists b. do 3 (split; [done|]). split; [intros ? ? ? Hx; by apply not_elem_of_nil in Hx|].
    do 3 (split; [done|]). eapply effects_iff; [by apply (effects_same b b)| |done].
    intros ad x. unfold no_tx. simpl. set_solver. }
  apply NoDup_cons in Hnl as [Hnl1 Hnl2]. apply Forall_cons in Hll as [Hll1 Hll2].
  apply Forall_cons in Hlm as [Hlm1 Hlm2]. simpl in Hnl1, Hll1, Hlm1.
  apply Forall_cons in Hv as [Hv Hvs]. unfold block_spends in Hnd, Hs. cbn [map concat] in Hnd, Hs.
  fold (block_spends txs) in Hnd, Hs. apply NoDup_app in Hnd as (Hnd1 & Hdis & Hnd2).
  destruct (processTxInputs_spec b tx id loc) as (b1 & E1 & C1 & O1 & [T1 L1 M1 _ R1 F1]); [done..| |].
  { intros s Hin. apply Hs, elem_of_app. auto. }
  destruct (IH locs b1) as (b2 & E2 & C2 & O2 & I2 & N2 & M2 & R2 & F2); [simpl in Hl; lia|done..| |done| | |].
  { intros s Hin h outs o. rewrite O1. apply spendable_all; [intros Hx; by eapply Hdis|].
    apply Hs, elem_of_app. auto. }
  { eapply Forall_impl; [exact Hll2|]. simpl. lia. }
  { eapply Forall_impl; [exact Hlm2|]. simpl. auto. }
  assert (forall w, debit_of (outs_view b1) w = debit_of (outs_view b) w) as Hd
    by (intros w; rewrite (debit_of_ext _ _ w O1); apply debit_of_spend_all).
  assert (forall t k w, input_set (outs_view b1) t k w = input_set (outs_view b) t k w) as Hi
    by (intros t k w; rewrite (input_set_ext _ _ t k w O1); apply input_set_spend_all).
  exists b2. split_and!; [|done|..].
  - cbn [combine sfor]. by rewrite (sbind_eq _ _ _ _ _ E1).
  - intros x. rewrite O2, (spend_all_ext _ _ _ _ O1). unfold block_spends. cbn [map concat].
    by rewrite spend_all_app.
  - intros t x l. cbn [combine]. intros [[= -> -> ->]|Hin]%elem_of_cons.
    + rewrite N2, T1, decide_True by (try done; lia).
      destruct (lookup_lt_is_Some_2 (heap b) loc Hll1) as [ta Hta]. unfold inputs_at. by rewrite Hta.
    + rewrite (I2 t x l Hin). f_equal. by apply set_inputs_ext.
  - intros l Hlt [Hl1 Hl2]%not_elem_of_cons. rewrite N2 by (try done; lia). rewrite T1 by done. by rewrite decide_False.
  - auto.
  - intros x [Hx1 Hx2]%not_elem_of_cons. simpl in Hx1. rewrite R2 by done. apply R1; [done|]. intros Hx.
    by apply Hx1, (proj2 (co_heap _ Hc) x id loc).
  - eapply effects_trans; [exact F1|exact F2|..].
    + intros ad x. cbn [combine]. split.
      * intros (t & l & [[= -> -> ->]|Hin]%elem_of_cons & Hsf); [by left|right]. exists t, l. split; [done|].
        by rewrite (spends_from_ext _ _ _ ad Hd).
      * intros [[Hsf ->]|(t & l & Hin & Hsf)].
        -- exists tx, loc. split; [left|done].
        -- exists t, l. split; [by right|]. by rewrite <- (spends_from_ext _ _ _ ad Hd).
    + intros ad. cbn [map concat]. rewrite (sent_by_ext _ _ _ ad Hd). unfold sent_by. by rewrite map_app, sumZ_app.
Qed.

(** ** Valid blocks *)

(** A block that can be indexed over the state [b]: packable ids that are new and
    distinct, parsable outputs, and inputs that do not spend an output twice.
    Inputs of unknown transactions are allowed. *)
Record valid_block (b : blockState) (block : Block.t) (ids : list bytes) : Prop := {
  vb_outputs : Forall2 valid_outputs (Block.Txs block) ids;
  vb_nodup : NoDup ids;
  vb_new : forall id, id ∈ ids -> tx_view b id = None;
  vb_inputs : Forall (fun tx => Forall valid_vin (Tx.Vin tx)) (Block.Txs block);
  vb_spends : NoDup (block_spends (Block.Txs block));
  vb_unspent : forall s, s ∈ block_spends (Block.Txs block) -> spendable (outs_view b) s;
}.

(** The outputs of the block over those of the state. *)
Definition block_outs (b : blockState) (block : Block.t) (ids : list bytes)
    : bytes -> option (Z * list TxOutput.t) :=
  fun x =>
    match list_find (fun e : Tx.t * bytes => e.2 = x) (combine (Block.Txs block) ids) with
    | Some (_, (tx, _)) => Some (Block.Height block, map out_of (Tx.Vout tx))
    | None => outs_view b x
    end.

(** The addresses a transaction of the block is counted for. *)
Definition tx_touches (f : bytes -> option (Z * list TxOutput.t)) (tx : Tx.t) (ad : bytes) : Prop :=
  (exists v, v ∈ Tx.Vout tx /\ ad ∈ out_descs (out_desc v)) \/ spends_from f (Tx.Vin tx) ad.

Definition block_touches (f : bytes -> option (Z * list TxOutput.t)) (txs : list Tx.t) (ids : list bytes) (ad id : bytes) : Prop :=
  exists tx, (tx, id) ∈ combine txs ids /\ tx_touches f tx ad.

(** After the outputs of the block, the known outputs are those of [block_outs]. *)
Lemma outs_view_outputs b b1 block ids : Forall2 valid_outputs (Block.Txs block) ids ->
  (forall id, id ∉ ids -> tx_view b1 id = tx_view b id) ->
  (forall id tx, (tx, id) ∈ combine (Block.Txs block) ids -> tx_view b1 id = Some (new_tx (Block.Height block) tx)) ->
  forall x, outs_view b1 x = block_outs b block ids x.
Proof.
  intros Ho Hother Htx x. unfold block_outs. destruct (list_find _ _) as [[i [tx y]]|] eqn:Ef.
  - apply list_find_Some in Ef as (Hi & Hy & _). simpl in Hy. subst y.
    unfold outs_view. by rewrite (Htx x tx) by (by eapply list_elem_of_lookup_2).
  - apply list_find_None in Ef. unfold outs_view. rewrite Hother; [done|]. intros Hx.
    apply list_elem_of_lookup in Hx as [i Hi].
    destruct (Forall2_lookup_r _ _ _ _ _ Ho Hi) as (tx & Hti & _). rewrite Forall_forall in Ef.
    apply (Ef (tx, x)); [|done]. apply elem_of_combine. by exists i.
Qed.

(** What the block spends can be spent once its outputs are known. *)
Lemma spendable_outputs b block ids s : spendable (outs_view b) s -> spendable (block_outs b block ids) s.
Proof.
  intros Hun h outs o. unfold block_outs. destruct (list_find _ _) as [[i [tx y]]|] eqn:Ef; [|by apply Hun].
  intros [= <- <-]. change (map out_of (Tx.Vout tx)) with (out_of <$> Tx.Vout tx). rewrite list_lookup_fmap.
  destruct (Tx.Vout tx !! s.2); intros; by simplify_eq/=.
Qed.

(** The locations of the transactions of a block: they are known, and each belongs to one transaction. *)
Section locations.
Context (b1 : blockState) (ids : list bytes) (locs : list nat).
Context (Hlocs : Forall2 (fun id loc => txAddressesMap b1 !! id = Some loc) ids locs).

Lemma combine_known : Forall (fun e => txAddressesMap b1 !! e.1 = Some e.2) (combine ids locs).
Proof.
  apply Forall_forall. intros [x l] (i & Hx & Hl)%elem_of_combine.
  exact (Forall2_lookup_lr _ _ _ _ _ _ Hlocs Hx Hl).
Qed.

Lemma locations_NoDup : consistent b1 -> NoDup ids -> NoDup locs.
Proof.
  intros C1 Hnd. apply NoDup_alt. intros i j l Hi Hj.
  destruct (Forall2_lookup_r _ _ _ _ _ Hlocs Hi) as (x & Hx & Hmx), (Forall2_lookup_r _ _ _ _ _ Hlocs Hj) as (y & Hy & Hmy).
  assert (x = y) as <- by (by apply (proj2 (co_heap _ C1) x y l)). exact (NoDup_lookup ids i j x Hnd Hx Hy).
Qed.

Lemma paired_location (txs : list Tx.t) tx x : (tx, x) ∈ combine txs ids ->
  exists l, (tx, (x, l)) ∈ combine txs (combine ids locs) /\ txAddressesMap b1 !! x = Some l.
Proof.
  intros (i & Ht & Hx)%elem_of_combine. destruct (Forall2_lookup_l _ _ _ _ _ Hlocs Hx) as (l & Hl & Hm).
  exists l. split; [|done]. apply elem_of_combine. exists i. split; [done|].
  change (combine ids locs) with (zip ids locs). apply lookup_zip_with_Some. by exists x, l.
Qed.

Lemma unpaired_location (txs : list Tx.t) tx x l : (tx, (x, l)) ∈ combine txs (combine ids locs) -> (tx, x) ∈ combine txs ids.
Proof.
  intros (i & Ht & Hx)%elem_of_combine. change (combine ids locs) with (zip ids locs) in Hx.
  apply lookup_zip_with_Some in Hx as (x' & l' & [= <- <-] & Hx & _). apply elem_of_combine. by exists i.
Qed.
End locations.

Lemma processAddressesBitcoinType_full b block ids :
  consistent b -> valid_block b block ids ->
  let f := block_outs b block ids in
  exists b', processAddressesBitcoinType d block b = (b', Ret tt) /\ consistent b' /\
    (forall x, outs_view b' x = spend_all (block_spends (Block.Txs block)) f x) /\
    (forall tx id, (tx, id) ∈ combine (Block.Txs block) ids ->
       exists ta, tx_view b' id = Some ta /\ Inputs ta = final_inputs f tx) /\
    (forall x, x ∉ ids -> rest <$> tx_view b' x = rest <$> tx_view b x) /\
    effects b b' (block_touches f (Block.Txs block) ids) (sent_by f (concat (map Tx.Vin (Block.Txs block)))).
Proof.
  intros Hc [Ho Hnd Hnew Hin Hsp Hun] f. unfold processAddressesBitcoinType.
  destruct (processOutputsPhase_spec (Block.Height block) (Block.Txs block) ids b)
    as (b1 & locs & E1 & Hl & C1 & _ & Hlocs & Hother & _ & Htx & F1); [done..|].
  rewrite (sbind_eq _ _ _ _ _ E1). pose proof (Forall2_length _ _ _ Ho) as Hlen.
  pose proof (outs_view_outputs b b1 block ids Ho Hother Htx) as O1. fold f in O1.
  pose proof (combine_known b1 ids locs Hlocs) as Hknown.
  destruct (processInputsPhase_spec (Block.Txs block) (combine ids locs) b1)
    as (b2 & E2 & C2 & O2 & I2 & _ & M2 & R2 & F2); try done.
  { rewrite length_combine. lia. }
  { intros s Hs h outs o. rewrite O1. by apply spendable_outputs, Hun. }
  { assert (map snd (combine ids locs) = locs) as -> by (apply snd_zip; lia). by apply (locations_NoDup b1 ids). }
  { eapply Forall_impl; [exact Hknown|]. intros [x l] Hm. by apply (proj1 (co_heap _ C1) x). }
  assert (forall w, debit_of (outs_view b1) w = debit_of f w) as Hd by (intros w; by apply debit_of_ext).
  pose proof (fun tx x => paired_location b1 ids locs Hlocs (Block.Txs block) tx x) as Hpair.
  exists b2. split_and!; try done.
  - intros x. rewrite O2. by apply spend_all_ext.
  - intros tx x Hx. destruct (Hpair tx x Hx) as (l & Hin' & Hm). specialize (I2 tx x l Hin'). unfold tx_view.
    rewrite (M2 x l Hm). unfold inputs_at in I2. destruct (heap b2 !! l) as [ta|]; [|done]. exists ta. split; [done|].
    injection I2 as ->. apply set_inputs_ext. intros k w. by apply input_set_ext.
  - intros x Hx. rewrite R2; [by rewrite Hother|].
    assert (map fst (combine ids locs) = ids) as -> by (apply fst_zip; lia). done.
  - eapply effects_trans; [exact F1|exact F2|..].
    + intros ad x. unfold block_touches, tx_touches. split.
      * intros (tx & Hx & [(v & Hv & Ha)|Hs]); [left; eauto|right].
        destruct (Hpair tx x Hx) as (l & Hin' & _). exists tx, l. split; [done|]. by rewrite (spends_from_ext (outs_view b1) f).
      * intros [(tx & v & Hx & Hv & Ha)|(tx & l & Hx & Hs)]; [exists tx; split; [done|]; left; eauto|].
        exists tx. split; [by eapply unpaired_location|]. right. by rewrite <- (spends_from_ext (outs_view b1) f).
    + intros ad. rewrite (sent_by_ext (outs_view b1) f) by done. unfold nothing. lia.
Qed.

Lemma processAddressesBitcoinType_spec b block ids :
  consistent b -> valid_block b block ids ->
  exists b', processAddressesBitcoinType d block b = (b', Ret tt) /\ consistent b' /\
    forall x, outs_view b' x = spend_all (block_spends (Block.Txs block)) (block_outs b block ids) x.
Proof.
  intros Hc Hv. destruct (processAddressesBitcoinType_full b block ids Hc Hv) as (b' & E & C & O & _). by exists b'.
Qed.
End invariant.

(** * Properties *)

(** C4: Indexing a valid block over a consistent state returns, leaves a consistent
    state, in which for every address the utxos, the balance and the utxo index agree
    with the unspent outputs of the known transactions, and changes the known outputs
    exactly by the transactions of the block: their outputs are added, then the outputs
    their inputs refer to are marked as spent.  Each transaction of the block is stored
    with the inputs it spends and counted for exactly the addresses it pays or spends
    from; what an address has sent grows by the outputs spent, and its number of
    transactions, for addresses not counted before, by the transactions counted. *)
Theorem indexing_correct `{DB : Store} `{PL : ParserLaws} `{V : Vlq} `{SL : ScriptLaws} (d : RocksDB) b block ids :
  (forall ad, exists r, GetAddrDescBalance d ad DetailUTXOIndexed = Ret r) ->
  (forall id, exists r, getTxAddresses d id = Ret r) ->
  consistent d b -> valid_block d b block ids ->
  let f := block_outs d b block ids in
  exists b', processAddressesBitcoinType d block b = (b', Ret tt) /\ consistent d b' /\
    (forall x, outs_view d b' x = spend_all (block_spends (Block.Txs block)) f x) /\
    (forall tx id, (tx, id) ∈ combine (Block.Txs block) ids ->
       exists ta, tx_view d b' id = Some ta /\ Inputs ta = final_inputs f tx) /\
    (forall ad id, id ∈ counted b' ad <-> id ∈ counted b ad \/ block_touches f (Block.Txs block) ids ad id) /\
    (forall ad, SentSat (balance_view d b' ad) =
       SentSat (balance_view d b ad) + sent_by f (concat (map Tx.Vin (Block.Txs block))) ad) /\
    (counts_ok d b -> forall ad, NoDup (counted b' ad) /\
       Txs (balance_view d b' ad) = u32 (Txs (db_balance d ad) + zlen (counted b' ad))).
Proof.
  intros H1 H2 Hc Hv f. destruct (processAddressesBitcoinType_full d H1 H2 b block ids Hc Hv) as (b' & E & C & O & I & _ & [F1 F2 F3]).
  exists b'. do 6 (split; [done|]). intros Hk. by destruct (F3 Hk).
Qed.
