(* ===== verification/EthIndex.v ===== *)
(** Indexing of Ethereum-like chains ([db/rocksdb_ethereumtype.go]): the column
    [addressContracts], the blocks to disconnect and the disconnect itself.

    A nil descriptor is the empty list, except for a contract, where the code tests
    for nil: there it is an option. *)
From stdpp Require Import base list gmap strings.
From Stdlib Require Import ZArith Lia.
From S2P Require Import Prelude Types Store Vlq Codec InternalState AddrBalance TxAddresses RocksDB BitcoinIndex.

Open Scope Z_scope.
Open Scope go_scope.

(** [eth.EthereumTypeAddressDescriptorLen] *)
Definition EthereumTypeAddressDescriptorLen : Z := 20.

Module AddrContract.
Record t := mk { Contract : bytes; Txs : Z }.
End AddrContract.

Record AddrContracts := mkAddrContracts {
  TotalTxs : Z;
  NonContractTxs : Z;
  Contracts : list AddrContract.t;
}.

Definition emptyContracts : AddrContracts := mkAddrContracts 0 0 [].

Record ethBlockTxContract := mkEthBlockTxContract { ebc_addr : bytes; ebc_contract : option bytes }.

Record ethBlockTx := mkEthBlockTx {
  eb_btxID : bytes;
  eb_from : bytes;
  eb_to : bytes;
  eb_contracts : list ethBlockTxContract;
}.

Fixpoint findContractInAddressContracts (contract : bytes) (contracts : list AddrContract.t) : option nat :=
  match contracts with
  | [] => None
  | c :: cs =>
      if decide (contract = AddrContract.Contract c) then Some O
      else S <$> findContractInAddressContracts contract cs
  end.

Definition isZeroAddress (addrDesc : bytes) : bool := forallb (fun b => b2z b =? 0) addrDesc.

Section eth.
Context `{DB : Store} `{P : BlockChainParser} `{V : Vlq}.

(** ** The column [addressContracts] *)

Definition packAddrContract (ac : AddrContract.t) : bytes :=
  AddrContract.Contract ac ++ packVaruint (AddrContract.Txs ac).

Definition packAddrContracts (acs : AddrContracts) : bytes :=
  packVaruint (TotalTxs acs) ++ packVaruint (NonContractTxs acs) ++
  concat (map packAddrContract (Contracts acs)).

Definition storeAddressContract (addrDesc : bytes) (acs : option AddrContracts) : wb_op :=
  match acs with
  | None => DeleteCF cfAddressContracts addrDesc
  | Some acs =>
      if (NonContractTxs acs =? 0) && (zlen (Contracts acs) =? 0)
      then DeleteCF cfAddressContracts addrDesc
      else PutCF cfAddressContracts addrDesc (packAddrContracts acs)
  end.

Definition storeAddressContracts (wb : WriteBatch) (acm : gmap bytes (option AddrContracts)) : WriteBatch :=
  wb ++ map (fun e => storeAddressContract e.1 e.2) (map_to_list acm).

(** [for len(buf) > 0]: a round reads at least an address. *)
Fixpoint unpackContracts (fuel : nat) (buf : bytes) : go (list AddrContract.t) :=
  match buf with
  | [] => Ret []
  | _ =>
      if zlen buf <? EthereumTypeAddressDescriptorLen
      then Fail (ErrMsg "Invalid data stored in cfAddressContracts")
      else
        match fuel with
        | O => Panic
        | S f =>
            let* rest := go_from buf EthereumTypeAddressDescriptorLen in
            let '(txs, l) := unpackVaruint rest in
            let* contract := go_slice buf 0 EthereumTypeAddressDescriptorLen in
            let* buf := go_from buf (EthereumTypeAddressDescriptorLen + l) in
            let* cs := unpackContracts f buf in
            Ret (AddrContract.mk contract txs :: cs)
        end
  end.

Definition unpackAddrContracts (buf : bytes) : go AddrContracts :=
  let '(total, l) := unpackVaruint buf in
  let* buf := go_from buf l in
  let '(nct, l) := unpackVaruint buf in
  let* buf := go_from buf l in
  let* c := unpackContracts (length buf) buf in
  Ret (mkAddrContracts total nct c).

Definition GetAddrDescContracts (d : RocksDB) (addrDesc : bytes) : go (option AddrContracts) :=
  let* val := dbGet d cfAddressContracts addrDesc in
  let buf := opt_bytes val in
  if zlen buf =? 0 then Ret None
  else let* acs := unpackAddrContracts buf in Ret (Some acs).

(** ** Connecting *)

Record ethState := mkEthState {
  e_addresses : addressesMap;
  e_contracts : gmap bytes AddrContracts;
  e_stats : connectBlockStats;
}.

Definition loadContracts (d : RocksDB) (addrDesc : bytes) : sgo ethState AddrContracts :=
  let! s := sget in
  match e_contracts s !! addrDesc with
  | Some ac =>
      do! sput (mkEthState (e_addresses s) (e_contracts s) (hitBalance (e_stats s))) in sret ac
  | None =>
      let! r := slift (GetAddrDescContracts d addrDesc) in
      let ac := default emptyContracts r in
      do! sput (mkEthState (e_addresses s) (<[addrDesc := ac]> (e_contracts s))
                  (missBalance (e_stats s))) in
      sret ac
  end.

(** The counters of a contract: found or appended, and counted if asked. *)
Definition touchContract (contract : bytes) (addTxCount : bool) (cs : list AddrContract.t)
    : nat * list AddrContract.t :=
  let '(i, cs) :=
    match findContractInAddressContracts contract cs with
    | Some i => (i, cs)
    | None => (length cs, cs ++ [AddrContract.mk contract 0])
    end in
  (i, if addTxCount
      then alter (fun c => AddrContract.mk (AddrContract.Contract c) (u64 (AddrContract.Txs c + 1))) i cs
      else cs).

(** The changed counters and the index under which the transaction is listed. *)
Definition touchAddress (addrDesc : bytes) (index : Z) (contract : option bytes) (addTxCount : bool)
    (ac : AddrContracts) : AddrContracts * Z :=
  match contract with
  | None =>
      (if addTxCount
       then mkAddrContracts (TotalTxs ac) (u64 (NonContractTxs ac + 1)) (Contracts ac) else ac, index)
  | Some contract =>
      if isZeroAddress addrDesc then (ac, index)
      else
        let '(i, cs) := touchContract contract addTxCount (Contracts ac) in
        let n := i32 (Z.of_nat i + 1) in
        (mkAddrContracts (TotalTxs ac) (NonContractTxs ac) cs, if index <? 0 then Z.lnot n else n)
  end.

Definition addToAddressesAndContractsEthereumType (d : RocksDB) (addrDesc btxID : bytes) (index : Z)
    (contract : option bytes) (addTxCount : bool) : sgo ethState unit :=
  let! ac := loadContracts d addrDesc in
  let '(ac, index) := touchAddress addrDesc index contract addTxCount ac in
  fun s =>
    let '(m, counted) := addToAddressesMap (e_addresses s) addrDesc btxID index in
    let ac := if counted then ac
              else mkAddrContracts (u64 (TotalTxs ac + 1)) (NonContractTxs ac) (Contracts ac) in
    (mkEthState m (<[addrDesc := ac]> (e_contracts s)) (e_stats s), Ret tt).

(** One ERC20 transfer: the entries of [blockTx.contracts] it adds.  A transfer with
    an address that does not parse is skipped. *)
Definition processTransfer (d : RocksDB) (btxID : bytes) (x : nat * Erc20Transfer.t)
    : sgo ethState (list ethBlockTxContract) :=
  let '(i, t) := x in
  match (let* contract := GetAddrDescFromAddress (Erc20Transfer.Contract t) in
         let* from := GetAddrDescFromAddress (Erc20Transfer.From t) in
         let* to := GetAddrDescFromAddress (Erc20Transfer.To t) in
         Ret (contract, from, to)) with
  | Panic => spanic
  | Fail _ => sret []
  | Ret (contract, from, to) =>
      do! addToAddressesAndContractsEthereumType d to btxID (i32 (Z.of_nat i)) (Some contract) true in
      let eq := bool_decide (from = to) in
      do! addToAddressesAndContractsEthereumType d from btxID (Z.lnot (i32 (Z.of_nat i))) (Some contract)
            (negb eq) in
      sret (mkEthBlockTxContract from (Some contract) ::
            if eq then [] else [mkEthBlockTxContract to (Some contract)])
  end.

(** The address of a transaction with exactly one address on a side: [Ret None] if
    there is no such address. *)
Definition singleAddress (sides : list (list string)) : option string :=
  match sides with [ [a] ] => Some a | _ => None end.

(** One side: [None] leaves the transaction ([continue]), [Some ad] goes on. *)
Definition processSide (d : RocksDB) (btxID : bytes) (sides : list (list string)) (index : Z)
    (count : bytes -> bool) : sgo ethState (option bytes) :=
  match singleAddress sides with
  | None => sret (Some [])
  | Some a =>
      match GetAddrDescFromAddress a with
      | Panic => spanic
      | Fail _ => sret None
      | Ret ad =>
          do! addToAddressesAndContractsEthereumType d ad btxID index None (count ad) in
          sret (Some ad)
      end
  end.

Definition processEthTx (d : RocksDB) (tx : Tx.t) : sgo ethState ethBlockTx :=
  let! btxID := slift (PackTxid (Tx.Txid tx)) in
  let! rto := processSide d btxID (map Vout.Addresses (Tx.Vout tx)) 0 (fun _ => true) in
  match rto with
  | None => sret (mkEthBlockTx btxID [] [] [])
  | Some to =>
      let! rfrom := processSide d btxID (map Vin.Addresses (Tx.Vin tx)) (Z.lnot 0)
                      (fun from => negb (bool_decide (from = to))) in
      match rfrom with
      | None => sret (mkEthBlockTx btxID [] to [])
      | Some from =>
          let! erc20 := match EthereumTypeGetErc20FromTx tx with
                        | Panic => spanic
                        | Fail _ => sret []
                        | Ret l => sret l
                        end in
          let! cs := smap (processTransfer d btxID) (enumerate erc20) in
          sret (mkEthBlockTx btxID from to (concat cs))
      end
  end.

Definition processAddressesEthereumType (d : RocksDB) (block : Block.t) : sgo ethState (list ethBlockTx) :=
  smap (processEthTx d) (Block.Txs block).

(** ** The column [blockTxs] *)

Definition appendAddress (a : bytes) : bytes :=
  if zlen a =? EthereumTypeAddressDescriptorLen then a
  else repeat Byte.x00 (Z.to_nat EthereumTypeAddressDescriptorLen).

Definition packEthBlockTx (b : ethBlockTx) : bytes :=
  eb_btxID b ++ appendAddress (eb_from b) ++ appendAddress (eb_to b) ++
  packVaruint (zlen (eb_contracts b)) ++
  concat (map (fun c => appendAddress (ebc_addr c) ++ appendAddress (default [] (ebc_contract c)))
            (eb_contracts b)).

Definition packEthBlockTxs (bs : list ethBlockTx) : bytes := concat (map packEthBlockTx bs).

Definition storeAndCleanupBlockTxsEthereumType (wb : WriteBatch) (block : Block.t) (bts : list ethBlockTx)
    : sgo RocksDB WriteBatch :=
  do! cleanupBlockTxs block in
  sret (wb ++ [PutCF cfBlockTxs (packUint (Block.Height block)) (packEthBlockTxs bts)]).

(** [getAddress]: the address at the start of the buffer, nil ([None]) if it is null *)
Definition getAddress (buf : bytes) : go (option bytes * bytes) :=
  if zlen buf <? EthereumTypeAddressDescriptorLen then Fail (ErrMsg "Inconsistent data in blockTxs")
  else
    let* a := go_slice buf 0 EthereumTypeAddressDescriptorLen in
    let* rest := go_from buf EthereumTypeAddressDescriptorLen in
    Ret (if isZeroAddress a then None else Some a, rest).

Fixpoint unpackEthContracts (n : nat) (buf : bytes) : go (list ethBlockTxContract * bytes) :=
  match n with
  | O => Ret ([], buf)
  | S n' =>
      let* '(a, buf) := getAddress buf in
      let* '(c, buf) := getAddress buf in
      let* '(cs, buf) := unpackEthContracts n' buf in
      Ret (mkEthBlockTxContract (default [] a) c :: cs, buf)
  end.

Fixpoint unpackEthBlockTxs (fuel : nat) (pl : Z) (buf : bytes) : go (list ethBlockTx) :=
  match buf with
  | [] => Ret []
  | _ =>
      if zlen buf <? pl then Fail (ErrMsg "Inconsistent data in blockTxs")
      else
        match fuel with
        | O => Panic
        | S f =>
            let* txid := go_slice buf 0 pl in
            let* buf := go_from buf pl in
            let* '(from, buf) := getAddress buf in
            let* '(to, buf) := getAddress buf in
            let '(cc, l) := unpackVaruint buf in
            let* buf := go_from buf l in
            let* '(contracts, buf) := unpackEthContracts (Z.to_nat cc) buf in
            let* bt := unpackEthBlockTxs f pl buf in
            Ret (mkEthBlockTx txid (default [] from) (default [] to) contracts :: bt)
        end
  end.

(** [None]: the block is not in the database *)
Definition getBlockTxsEthereumType (d : RocksDB) (height : Z) : go (option (list ethBlockTx)) :=
  let* val := dbGet d cfBlockTxs (packUint height) in
  match val with
  | None => Ret None
  | Some buf => let* bt := unpackEthBlockTxs (length buf) PackedTxidLen buf in Ret (Some bt)
  end.

(** ** Disconnecting *)

Record ethDisconnect := mkEthDisconnect {
  ed_addresses : gmap bytes (gset bytes);
  ed_contracts : gmap bytes (option AddrContracts);
}.

(** The counters of a contract after the removal of a transaction. *)
Definition decContract (contract : bytes) (cs : list AddrContract.t) : list AddrContract.t :=
  match findContractInAddressContracts contract cs with
  | None => cs
  | Some i =>
      match cs !! i with
      | None => cs
      | Some c =>
          if 0 <? AddrContract.Txs c then
            if AddrContract.Txs c - 1 =? 0 then take i cs ++ drop (S i) cs
            else <[i := AddrContract.mk (AddrContract.Contract c) (AddrContract.Txs c - 1)]> cs
          else cs
      end
  end.

Definition decAddress (contract : option bytes) (ftx : bool) (c : AddrContracts) : AddrContracts :=
  let total := if ftx then TotalTxs c else u64 (TotalTxs c - 1) in
  match contract with
  | None =>
      mkAddrContracts total (if 0 <? NonContractTxs c then NonContractTxs c - 1 else NonContractTxs c)
        (Contracts c)
  | Some contract => mkAddrContracts total (NonContractTxs c) (decContract contract (Contracts c))
  end.

Definition disconnectAddress (d : RocksDB) (btxID addrDesc : bytes) (contract : option bytes)
    : sgo ethDisconnect unit :=
  if zlen addrDesc =? 0 then sret tt
  else
    let! s := sget in
    let mtx := default ∅ (ed_addresses s !! addrDesc) in
    let ftx := bool_decide (btxID ∈ mtx) in
    do! sput (mkEthDisconnect (<[addrDesc := {[btxID]} ∪ mtx]> (ed_addresses s)) (ed_contracts s)) in
    let! s := sget in
    let! c := match ed_contracts s !! addrDesc with
              | Some c => sret c
              | None => slift (GetAddrDescContracts d addrDesc)
              end in
    sput (mkEthDisconnect (ed_addresses s)
            (<[addrDesc := (decAddress contract ftx <$> c)]> (ed_contracts s))).

Definition disconnectEthTx (d : RocksDB) (blockTx : ethBlockTx) : sgo ethDisconnect unit :=
  do! disconnectAddress d (eb_btxID blockTx) (eb_from blockTx) None in
  do! (if bool_decide (eb_from blockTx = eb_to blockTx) then sret tt
       else disconnectAddress d (eb_btxID blockTx) (eb_to blockTx) None) in
  sfor (fun c => disconnectAddress d (eb_btxID blockTx) (ebc_addr c) (ebc_contract c)) (eb_contracts blockTx).

Definition disconnectBlockTxsEthereumType (d : RocksDB) (wb : WriteBatch) (height : Z)
    (bts : list ethBlockTx) (contracts : gmap bytes (option AddrContracts))
    : go (WriteBatch * gmap bytes (option AddrContracts)) :=
  match sfor (disconnectEthTx d) bts (mkEthDisconnect ∅ contracts) with
  | (s, Ret _) =>
      Ret (wb ++ map (fun b => DeleteCF cfTransactions (eb_btxID b)) bts ++
           map (fun e => DeleteCF cfAddresses (packAddressKey e.1 height)) (map_to_list (ed_addresses s)),
           ed_contracts s)
  | (_, Fail e) => Fail e
  | (_, Panic) => Panic
  end.

(** The heights of a range, upwards. *)
Definition heights (lower higher : Z) : list Z :=
  map (fun i => lower + Z.of_nat i) (seq 0 (Z.to_nat (higher - lower + 1))).

(** [for height := higher; height >= lower; height--] on unsigned heights: with
    [lower = 0] the height wraps around after the last block, and the slice of
    blocks is indexed out of its range. *)
Definition afterLast {A} (lower : Z) (r : A) : go A := if lower =? 0 then Panic else Ret r.

Definition DisconnectBlockRangeEthereumType (lower higher : Z) : sgo RocksDB unit :=
  let! d := sget in
  let! blocks := slift (go_fold (fun acc height =>
    let* bts := getBlockTxsEthereumType d height in
    match bts with
    | None => Fail (ErrMsg "Cannot disconnect blocks. It is necessary to rebuild index.")
    | Some bts => Ret ((height, bts) :: acc)
    end) [] (heights lower higher)) in
  let! '(wb, contracts) := slift (go_fold (fun '(wb, contracts) '(height, bts) =>
    let* '(wb, contracts) := disconnectBlockTxsEthereumType d wb height bts contracts in
    Ret (wb ++ [DeleteCF cfBlockTxs (packUint height); DeleteCF cfHeight (packUint height)], contracts))
    ([], ∅) blocks) in
  do! slift (afterLast lower tt) in
  dbWrite (storeAddressContracts wb contracts).
End eth.

(** * Reading back *)

Definition wf_contract (c : AddrContract.t) : Prop :=
  zlen (AddrContract.Contract c) = EthereumTypeAddressDescriptorLen /\ in_u64 (AddrContract.Txs c).

Definition wf_contracts (acs : AddrContracts) : Prop :=
  in_u64 (TotalTxs acs) /\ in_u64 (NonContractTxs acs) /\ Forall wf_contract (Contracts acs).

(** An address of [blockTxs]: the stored form of no address is the zero address. *)
Definition wf_addr (a : bytes) : Prop :=
  a = [] \/ (zlen a = EthereumTypeAddressDescriptorLen /\ isZeroAddress a = false).

Definition wf_ethContract (c : ethBlockTxContract) : Prop :=
  wf_addr (ebc_addr c) /\ match ebc_contract c with None => True | Some x => x <> [] /\ wf_addr x end.

Definition wf_ethBlockTx (pl : Z) (b : ethBlockTx) : Prop :=
  zlen (eb_btxID b) = pl /\ wf_addr (eb_from b) /\ wf_addr (eb_to b) /\
  Forall wf_ethContract (eb_contracts b) /\ zlen (eb_contracts b) < 2 ^ 32.

Section lemmas.
Context `{VL : VlqLaws}.

Lemma packAddrContract_len c : wf_contract c -> 1 <= zlen (packAddrContract c).
Proof.
  intros [H _]. unfold packAddrContract, EthereumTypeAddressDescriptorLen in *. rewrite zlen_app.
  pose proof (packVaruint_len (AddrContract.Txs c)). lia.
Qed.

Lemma unpackContracts_pack cs fuel : Forall wf_contract cs -> (length cs <= fuel)%nat ->
  unpackContracts fuel (concat (map packAddrContract cs)) = Ret cs.
Proof.
  intros Hcs. revert fuel. induction Hcs as [|c cs [Hl Ht] Hcs IH]; intros fuel Hf; [by destruct fuel|].
  destruct fuel as [|fuel]; simpl in Hf; [lia|]. cbn [map concat]. unfold packAddrContract at 1.
  rewrite <- app_assoc. pose proof (packVaruint_len (AddrContract.Txs c)).
  set (buf := AddrContract.Contract c ++ _).
  assert (20 < zlen buf) by (subst buf; unfold EthereumTypeAddressDescriptorLen in *; zlen_lia).
  destruct buf as [|x buf'] eqn:Eb; [rewrite zlen_nil in *; lia|]. cbn [unpackContracts]. rewrite <- Eb in *.
  destruct (Z.ltb_spec (zlen buf) EthereumTypeAddressDescriptorLen); [unfold EthereumTypeAddressDescriptorLen in *; lia|].
  subst buf. rewrite go_from_app by done. gostep. rewrite unpackVaruint_pack by done.
  rewrite go_slice_prefix by done. gostep. rewrite app_assoc, go_from_app by zlen_lia. gostep.
  rewrite IH by lia. by destruct c.
Qed.

Lemma packAddrContracts_length cs : Forall wf_contract cs ->
  (length cs <= length (concat (map packAddrContract cs)))%nat.
Proof.
  induction 1 as [|c cs Hc Hcs IH]; [simpl; lia|]. cbn [map concat length]. rewrite length_app.
  pose proof (packAddrContract_len c Hc). unfold zlen in *. lia.
Qed.

Lemma unpackAddrContracts_pack acs : wf_contracts acs -> unpackAddrContracts (packAddrContracts acs) = Ret acs.
Proof.
  intros (Ht & Hn & Hc). unfold unpackAddrContracts, packAddrContracts.
  rewrite unpackVaruint_pack by done. rewrite go_from_app by done. gostep.
  rewrite unpackVaruint_pack by done. rewrite go_from_app by done. gostep.
  rewrite unpackContracts_pack by (done || by apply packAddrContracts_length). by destruct acs.
Qed.

Lemma appendAddress_zlen a : zlen (appendAddress a) = EthereumTypeAddressDescriptorLen.
Proof. unfold appendAddress. by destruct (Z.eqb_spec (zlen a) EthereumTypeAddressDescriptorLen). Qed.

(** A nil address for the empty one. *)
Definition opt_addr (a : bytes) : option bytes := match a with [] => None | _ => Some a end.

Lemma default_opt_addr a : default [] (opt_addr a) = a.
Proof. by destruct a. Qed.

Lemma getAddress_append a r : wf_addr a -> getAddress (appendAddress a ++ r) = Ret (opt_addr a, r).
Proof.
  intros Ha. pose proof (appendAddress_zlen a) as Hl. pose proof (zlen_nonneg r). unfold getAddress.
  destruct (Z.ltb_spec (zlen (appendAddress a ++ r)) EthereumTypeAddressDescriptorLen); [rewrite zlen_app in *; lia|].
  rewrite go_slice_prefix by done. gostep. rewrite go_from_app by done. gostep.
  destruct Ha as [-> |[Hz Hnz]]; [done|].
  unfold appendAddress. rewrite (proj2 (Z.eqb_eq _ _) Hz), Hnz. by destruct a.
Qed.

Definition packEthContract (c : ethBlockTxContract) : bytes :=
  appendAddress (ebc_addr c) ++ appendAddress (default [] (ebc_contract c)).

Lemma unpackEthContracts_pack cs r : Forall wf_ethContract cs ->
  unpackEthContracts (length cs) (concat (map packEthContract cs) ++ r) = Ret (cs, r).
Proof.
  induction 1 as [|c cs [Ha Hc] Hcs IH]; [done|]. cbn [map concat length unpackEthContracts].
  unfold packEthContract at 1. rewrite <- !app_assoc, getAddress_append by done. gostep.
  rewrite getAddress_append by (destruct (ebc_contract c); [apply Hc|by left]). gostep. rewrite IH. gostep.
  do 3 f_equal. rewrite default_opt_addr. destruct c as [a [x|]]; simpl in *; [|done].
  f_equal. destruct x; [by destruct Hc|done].
Qed.

Lemma unpackEthBlockTxs_pack pl bs fuel :
  0 < pl -> Forall (wf_ethBlockTx pl) bs -> (length bs <= fuel)%nat ->
  unpackEthBlockTxs fuel pl (packEthBlockTxs bs) = Ret bs.
Proof.
  intros Hpl Hbs. revert fuel. induction Hbs as [|b bs (Hid & Hfrom & Hto & Hcs & Hl) Hbs IH]; intros fuel Hf.
  - by destruct fuel.
  - destruct fuel as [|fuel]; simpl in Hf; [lia|].
    unfold packEthBlockTxs. cbn [map concat]. fold (packEthBlockTxs bs). unfold packEthBlockTx.
    rewrite <- !app_assoc. set (buf := eb_btxID b ++ _). assert (pl <= zlen buf) by (subst buf; zlen_lia).
    destruct buf as [|x buf'] eqn:Eb; [rewrite zlen_nil in *; lia|].
    cbn [unpackEthBlockTxs]. rewrite <- Eb in *. destruct (Z.ltb_spec (zlen buf) pl); [lia|].
    subst buf. rewrite go_slice_prefix by done. gostep. rewrite go_from_app by done. gostep.
    rewrite getAddress_append by done. gostep. rewrite getAddress_append by done. gostep.
    pose proof (zlen_nonneg (eb_contracts b)).
    rewrite unpackVaruint_pack by (unfold in_u64; lia). rewrite go_from_app by done. gostep.
    unfold zlen at 1. rewrite Nat2Z.id. rewrite (unpackEthContracts_pack (eb_contracts b)) by done. gostep.
    rewrite IH by lia. gostep. rewrite !default_opt_addr. by destruct b.
Qed.
End lemmas.

(** * Counters *)

Lemma findContract_Some contract cs i : findContractInAddressContracts contract cs = Some i ->
  exists c, cs !! i = Some c /\ AddrContract.Contract c = contract.
Proof.
  revert i. induction cs as [|c cs IH]; intros i; simpl; [done|]. case_decide as E.
  - intros [= <-]. by exists c.
  - destruct (findContractInAddressContracts contract cs) as [j|]; [|done]. intros [= <-]. by apply IH.
Qed.

(** The position of a contract depends only on the addresses. *)
Lemma findContract_ext contract cs cs' :
  map AddrContract.Contract cs = map AddrContract.Contract cs' ->
  findContractInAddressContracts contract cs = findContractInAddressContracts contract cs'.
Proof.
  revert cs'. induction cs as [|c cs IH]; intros [|c' cs'] E; try done. injection E as E1 E2. simpl.
  rewrite E1, (IH cs' E2). done.
Qed.

Lemma findContract_snoc contract cs n : findContractInAddressContracts contract cs = None ->
  findContractInAddressContracts contract (cs ++ [AddrContract.mk contract n]) = Some (length cs).
Proof.
  induction cs as [|c cs IH]; simpl; [by rewrite decide_True|]. case_decide; [done|].
  destruct (findContractInAddressContracts contract cs) eqn:E; [done|]. intros _. by rewrite IH.
Qed.

Lemma map_contract_alter f i (cs : list AddrContract.t) :
  (forall c, AddrContract.Contract (f c) = AddrContract.Contract c) ->
  map AddrContract.Contract (alter f i cs) = map AddrContract.Contract cs.
Proof.
  intros Hf. revert i. induction cs as [|c cs IH]; intros [|i]; [done..| |].
  - change (alter f 0 (c :: cs)) with (f c :: cs). simpl. by rewrite Hf.
  - change (alter f (S i) (c :: cs)) with (c :: alter f i cs). simpl. by rewrite IH.
Qed.

Lemma decContract_touch contract cs :
  Forall (fun c => 0 < AddrContract.Txs c < 2 ^ 64 - 1) cs ->
  decContract contract (touchContract contract true cs).2 = cs.
Proof.
  intros Hcs. unfold touchContract. set (inc := fun c => AddrContract.mk _ _).
  destruct (findContractInAddressContracts contract cs) as [i|] eqn:E; cbn [snd].
  - destruct (findContract_Some _ _ _ E) as (c & Hc & <-).
    unfold decContract. rewrite (findContract_ext _ _ cs) by (by apply map_contract_alter). rewrite E.
    rewrite list_lookup_alter_eq, Hc. cbn [fmap option_fmap option_map inc AddrContract.Txs AddrContract.Contract].
    rewrite Forall_lookup in Hcs. specialize (Hcs _ _ Hc).
    rewrite u64_id by (unfold in_u64; lia). destruct (Z.ltb_spec 0 (AddrContract.Txs c + 1)); [|lia].
    destruct (Z.eqb_spec (AddrContract.Txs c + 1 - 1) 0); [lia|].
    rewrite Z.add_simpl_r. apply list_eq. intros j. destruct (decide (i = j)) as [<-|Hne].
    + rewrite list_lookup_insert_eq by (rewrite length_alter; by eapply lookup_lt_Some). by destruct c.
    + by rewrite list_lookup_insert_ne, list_lookup_alter_ne.
  - rewrite alter_app_r_alt by done. rewrite Nat.sub_diag.
    change (alter inc 0%nat [AddrContract.mk contract 0]) with [AddrContract.mk contract 1]. unfold decContract.
    rewrite (findContract_snoc contract cs _ E).
    rewrite lookup_app_r, Nat.sub_diag by done. simpl. rewrite take_app_length.
    rewrite drop_ge by (rewrite length_app; simpl; lia). apply app_nil_r.
Qed.

(** * Properties *)

(** The counters of an address read back as they were stored in the column
    [addressContracts]: the totals and the contracts, in their order. *)
Theorem packAddrContracts_roundtrip `{VL : VlqLaws} acs :
  wf_contracts acs -> unpackAddrContracts (packAddrContracts acs) = Ret acs.
Proof. apply unpackAddrContracts_pack. Qed.

Lemma packAddrContracts_roundtrip_witness :
  let acs := mkAddrContracts 7 300 [AddrContract.mk (repeat Byte.x01 20) 5; AddrContract.mk (repeat Byte.x02 20) 1000] in
  unpackAddrContracts (V := leb) (packAddrContracts (V := leb) acs) = Ret acs.
Proof.
  intros acs. refine (packAddrContracts_roundtrip acs _).
  repeat split; repeat constructor; vm_compute; congruence.
Defined.

(** The transactions of an Ethereum block read back from [blockTxs] with sender,
    recipient and the contracts they touched, for addresses that are missing or are not
    the zero address. *)
Theorem packEthBlockTxs_roundtrip `{VL : VlqLaws} pl bs :
  0 < pl -> Forall (wf_ethBlockTx pl) bs -> unpackEthBlockTxs (length bs) pl (packEthBlockTxs bs) = Ret bs.
Proof. intros. by apply unpackEthBlockTxs_pack. Qed.

Lemma packEthBlockTxs_roundtrip_witness :
  let a := repeat Byte.x0a 20 in let c := repeat Byte.x0c 20 in
  let bs := [mkEthBlockTx [Byte.x01] a [] [mkEthBlockTxContract a (Some c)]; mkEthBlockTx [Byte.x02] [] c []] in
  unpackEthBlockTxs (V := leb) 2 1 (packEthBlockTxs (V := leb) bs) = Ret bs.
Proof.
  intros a c bs. refine (packEthBlockTxs_roundtrip 1 bs _ _); [reflexivity|].
  assert (wf_addr a) by (right; split; reflexivity). assert (wf_addr c) by (right; split; reflexivity).
  assert (wf_addr []) by (left; reflexivity).
  constructor; [|constructor; [|constructor]]; (split; [reflexivity|]; split; [assumption|]; split; [assumption|]).
  - split; [|reflexivity]. constructor; [|constructor]. split; [assumption|]. split; [discriminate|assumption].
  - split; [constructor|reflexivity].
Defined.
