(* ===== verification/Connect.v ===== *)
(** [RocksDB.ConnectBlock] and the disconnection of a range of blocks of a
    Bitcoin-like chain ([db/rocksdb.go]). *)
From stdpp Require Import base list gmap strings sorting.
From Stdlib Require Import ZArith Lia.
From S2P Require Import Prelude Types Store Vlq Codec InternalState AddrBalance TxAddresses RocksDB.
From S2P Require Import BitcoinIndex EthIndex.

Open Scope Z_scope.
Open Scope go_scope.

(** Runs a method on its own state within a method of the handle; the statistics
    are fields of the handle, updated also when the method fails. *)
Definition run_on {D S A} (s : S) (back : S -> D -> D) (m : sgo S A) : sgo D (S * A) := fun d =>
  match m s with
  | (s', Ret a) => (back s' d, Ret (s', a))
  | (s', Fail e) => (back s' d, Fail e)
  | (s', Panic) => (back s' d, Panic)
  end.

(** [sort.SliceStable] by height: a stable insertion sort. *)
Fixpoint insertByHeight (u : Utxo.t) (l : list Utxo.t) : list Utxo.t :=
  match l with
  | [] => [u]
  | y :: l' => if Utxo.Height u <=? Utxo.Height y then u :: l else y :: insertByHeight u l'
  end.

Definition sortByHeight (l : list Utxo.t) : list Utxo.t := foldr insertByHeight [] l.

(** The state of [DisconnectBlockRangeBitcoinType]: the batch, the transactions and
    the balances to update ([None] is a nil balance). *)
Record disconnectState := mkDisconnect {
  dc_wb : WriteBatch;
  dc_txs : gmap bytes TxAddresses;
  dc_balances : gmap bytes (option AddrBalance);
}.

Section connect.
Context `{DB : Store} `{P : BlockChainParser} `{V : Vlq} `{SC : ScriptLib}.

(** ** Connecting *)

Definition connectBitcoin (wb : WriteBatch) (block : Block.t) : sgo RocksDB (WriteBatch * addressesMap) :=
  let! d := sget in
  let! '(b, _) := run_on (newBlockState (cbs d)) (fun b => set_cbs (stats b))
                    (processAddressesBitcoinType d block) in
  let wb := storeTxAddresses wb (txAddressesOf b) in
  let wb := storeBalances wb (Some <$> balances b) in
  let! wb := storeAndCleanupBlockTxs wb block in
  sret (wb, addresses b).

Definition connectEthereum (wb : WriteBatch) (block : Block.t) : sgo RocksDB (WriteBatch * addressesMap) :=
  let! d := sget in
  let! '(s, bts) := run_on (mkEthState ∅ ∅ (cbs d)) (fun s => set_cbs (e_stats s))
                      (processAddressesEthereumType d block) in
  let wb := storeAddressContracts wb (Some <$> e_contracts s) in
  let! wb := storeAndCleanupBlockTxsEthereumType wb block bts in
  sret (wb, e_addresses s).

Definition ConnectBlock (now : Z) (block : Block.t) : sgo RocksDB unit :=
  let! wb := writeHeightFromBlock now [] block opInsert in
  let! '(wb, addresses) :=
    match GetChainType with
    | ChainBitcoinType => connectBitcoin wb block
    | ChainEthereumType => connectEthereum wb block
    | ChainOtherType _ => sfail (ErrMsg "Unknown chain type")
    end in
  dbWrite (storeAddresses wb (Block.Height block) addresses).

(** ** Disconnecting *)

Definition getAddressBalance (d : RocksDB) (ad : bytes) : sgo disconnectState (option AddrBalance) :=
  let! s := sget in
  match dc_balances s !! ad with
  | Some b => sret b
  | None =>
      let! b := slift (GetAddrDescBalance d ad DetailUTXOIndexed) in
      do! sput (mkDisconnect (dc_wb s) (dc_txs s) (<[ad := b]> (dc_balances s))) in
      sret b
  end.

Definition putDcBalance (ad : bytes) (b : AddrBalance) : sgo disconnectState unit := fun s =>
  (mkDisconnect (dc_wb s) (dc_txs s) (<[ad := Some b]> (dc_balances s)), Ret tt).

Definition decTxs (exist : bool) (b : AddrBalance) : AddrBalance :=
  if exist then b else set_Txs (u32 (Txs b - 1)) b.

(** The spent output of an input becomes unspent: the height of its transaction,
    0 if the transaction is not known. *)
Definition unspendOutput (d : RocksDB) (input : outpoint) : sgo disconnectState Z :=
  let! s := sget in
  let! sa := match dc_txs s !! op_btxID input with
             | Some sa => sret (Some sa)
             | None => slift (getTxAddresses d (op_btxID input))
             end in
  match sa with
  | None => sret 0
  | Some sa =>
      let! o := slift (go_index (Outputs sa) (op_index input)) in
      let o := TxOutput.mk (TxOutput.AddrDesc o) false (TxOutput.ValueSat o) in
      let sa := set_Outputs (<[Z.to_nat (op_index input) := o]> (Outputs sa)) sa in
      do! sput (mkDisconnect (dc_wb s) (<[op_btxID input := sa]> (dc_txs s)) (dc_balances s)) in
      sret (Height sa)
  end.

(** The appended utxo is not entered into the index of the balance. *)
Definition restoreUtxo (exist : bool) (input : outpoint) (inputHeight value : Z) (b : AddrBalance)
    : AddrBalance :=
  let b := decTxs exist b in
  let b := set_SentSat (clampZero (SentSat b - value)) b in
  let b := set_BalanceSat (BalanceSat b + value) b in
  set_Utxos (Utxos b ++ [Utxo.mk (op_btxID input) (op_index input) inputHeight value]) b.

Definition disconnectInput (d : RocksDB) (inputs : list outpoint) (i : nat) (value : Z) (ad : bytes)
    (addresses : gset bytes) : sgo disconnectState (gset bytes) :=
  if zlen ad =? 0 then sret addresses
  else
    let! input := slift (must (inputs !! i)) in
    let exist := bool_decide (ad ∈ addresses) in
    let addresses := {[ad]} ∪ addresses in
    let! inputHeight := unspendOutput d input in
    if IsAddrDescIndexable ad then
      let! b := getAddressBalance d ad in
      match b with
      | None => sret addresses
      | Some b => do! putDcBalance ad (restoreUtxo exist input inputHeight value b) in sret addresses
      end
    else sret addresses.

Definition disconnectOutput (d : RocksDB) (btxID : bytes) (i : nat) (value : Z) (ad : bytes)
    (addresses : gset bytes) : sgo disconnectState (gset bytes) :=
  if zlen ad =? 0 then sret addresses
  else
    let exist := bool_decide (ad ∈ addresses) in
    let addresses := {[ad]} ∪ addresses in
    if IsAddrDescIndexable ad then
      let! b := getAddressBalance d ad in
      match b with
      | None => sret addresses
      | Some b =>
          let b := decTxs exist b in
          let b := set_BalanceSat (clampZero (BalanceSat b - value)) b in
          let! b := slift (markUtxoAsSpent b btxID (i32 (Z.of_nat i))) in
          do! putDcBalance ad b in sret addresses
      end
    else sret addresses.

Fixpoint sfold {S A B} (f : A -> B -> sgo S B) (l : list A) (b : B) : sgo S B :=
  match l with
  | [] => sret b
  | x :: l' => let! b := f x b in sfold f l' b
  end.

Definition disconnectTxAddresses (d : RocksDB) (height : Z) (btxID : bytes) (inputs : list outpoint)
    (txa : TxAddresses) : sgo disconnectState unit :=
  let! addresses := sfold (fun '(i, t) addresses =>
      let! ads := slift (addrDescriptors (TxInput.AddrDesc t)) in
      sfold (disconnectInput d inputs i (TxInput.ValueSat t)) ads addresses)
    (enumerate (Inputs txa)) ∅ in
  let! addresses := sfold (fun '(i, t) addresses =>
      let! ads := slift (addrDescriptors (TxOutput.AddrDesc t)) in
      sfold (disconnectOutput d btxID i (TxOutput.ValueSat t)) ads addresses)
    (enumerate (Outputs txa)) addresses in
  fun s =>
    (mkDisconnect
       (dc_wb s ++ map (fun a => DeleteCF cfAddresses (packAddressKey a height)) (elements addresses))
       (dc_txs s) (dc_balances s), Ret tt).

(** One transaction of a block; its data are read from the database. *)
Definition disconnectTx (d : RocksDB) (height : Z) (b : blockTxs) : sgo disconnectState unit :=
  let! txa := slift (getTxAddresses d (bt_btxID b)) in
  match txa with
  | None => sret tt
  | Some txa => disconnectTxAddresses d height (bt_btxID b) (bt_inputs b) txa
  end.

(** The transactions of a block backwards, then its keys. *)
Definition disconnectBlock (d : RocksDB) (x : Z * list blockTxs) : sgo disconnectState unit :=
  let '(height, bts) := x in
  do! sfor (disconnectTx d height) (reverse bts) in
  fun s => (mkDisconnect (dc_wb s ++ [DeleteCF cfBlockTxs (packUint height);
                                      DeleteCF cfHeight (packUint height)])
              (dc_txs s) (dc_balances s), Ret tt).

(** Spent utxos are removed, the others are sorted by height (stable). *)
Definition cleanUtxos (b : AddrBalance) : AddrBalance :=
  set_Utxos (sortByHeight (List.filter Utxo.unspent (Utxos b))) b.

Definition storeBalancesDisconnect (wb : WriteBatch) (bs : gmap bytes (option AddrBalance)) : WriteBatch :=
  storeBalances wb ((fun b => option_map cleanUtxos b) <$> bs).

Definition DisconnectBlockRangeBitcoinType (lower higher : Z) : sgo RocksDB unit :=
  let! d := sget in
  let! blocks := slift (go_fold (fun acc height =>
    let* bts := getBlockTxs d height in
    if zlen bts =? 0
    then Fail (ErrMsg "Cannot disconnect blocks. It is necessary to rebuild index.")
    else Ret ((height, bts) :: acc)) [] (heights lower higher)) in
  let! '(s, _) := run_on (mkDisconnect [] ∅ ∅) (fun _ d => d) (sfor (disconnectBlock d) blocks) in
  do! slift (afterLast lower tt) in
  let wb := storeTxAddresses (dc_wb s) (dc_txs s) in
  let wb := storeBalancesDisconnect wb (dc_balances s) in
  let txsToDelete := list_to_set (C := gset bytes) (concat (map (fun x => map bt_btxID x.2) blocks)) in
  dbWrite (wb ++ concat (map (fun b => [DeleteCF cfTransactions b; DeleteCF cfTxAddresses b])
                           (elements txsToDelete))).
End connect.
