(* ===== verification/ConnectFacts.v ===== *)
(** Connecting a block writes a consistent database ([Connect]): the maps that
    [processAddressesBitcoinType] leaves are stored, and read back they satisfy the
    invariant of [IndexInvariant] again. *)
From stdpp Require Import base list gmap strings sorting.
From Stdlib Require Import ZArith Lia.
From S2P Require Import Prelude Hex Types Store Vlq Codec InternalState AddrBalance TxAddresses RocksDB RocksDBFacts.
From S2P Require Import BitcoinParser BitcoinIndex Ledger IndexInvariant EthIndex Connect.

Open Scope Z_scope.
Open Scope go_scope.

(** * Restored balances *)

Lemma sublist_lookup_head {A} (l : list A) i x : l !! i = Some x -> [x] `sublist_of` l.
Proof. intros H. apply sublist_cons_l. exists (take i l), (drop (S i) l).
  split; [by rewrite take_drop_middle|apply sublist_nil_l]. Qed.

(** Grouped in terms of three utxos in the order of the list. *)
Lemma grouped_sublist us :
  grouped us <-> forall u v w, [u; v; w] `sublist_of` us -> Utxo.BtxID u = Utxo.BtxID w ->
                               Utxo.BtxID v = Utxo.BtxID u.
Proof.
  split.
  - intros Hg u v w (k1 & r1 & -> & (k2 & r2 & -> & (k3 & r3 & -> & _)%sublist_cons_l)%sublist_cons_l)%sublist_cons_l.
    apply (Hg (length k1) (length k1 + S (length k2))%nat (length k1 + S (length k2 + S (length k3)))%nat); [lia|..].
    + by rewrite list_lookup_middle.
    + rewrite lookup_app_r by lia. rewrite Nat.add_comm, Nat.add_sub. simpl. by rewrite list_lookup_middle.
    + rewrite lookup_app_r by lia. rewrite Nat.add_comm, Nat.add_sub. simpl.
      rewrite lookup_app_r by lia. rewrite Nat.add_comm, Nat.add_sub. simpl. by rewrite list_lookup_middle.
  - intros Hs i j k u v w Hijk Hi Hj Hk E.
    destruct (decide (i = j)) as [-> |]; [congruence|]. destruct (decide (j = k)) as [-> |]; [congruence|].
    apply (Hs u v w); [|done]. apply sublist_cons_l. exists (take i us), (drop (S i) us).
    split; [by rewrite take_drop_middle|]. apply sublist_cons_l.
    assert (drop (S i) us !! (j - S i)%nat = Some v) as Hj' by (rewrite lookup_drop, <- Hj; f_equal; lia).
    exists (take (j - S i) (drop (S i) us)), (drop (S (j - S i)) (drop (S i) us)).
    split; [by rewrite take_drop_middle|]. apply (sublist_lookup_head _ (k - S j)).
    rewrite !lookup_drop, <- Hk. f_equal. lia.
Qed.

Lemma filter_sublist (us : list Utxo.t) : unspent_utxos us `sublist_of` us.
Proof.
  unfold unspent_utxos. induction us as [|u us IH]; [done|]. simpl.
  destruct (Utxo.unspent u); [by apply sublist_skip|by apply sublist_cons].
Qed.

Lemma grouped_unspent us : grouped us -> grouped (unspent_utxos us).
Proof.
  rewrite !grouped_sublist. intros H u v w Hs. apply H. etransitivity; [exact Hs|apply filter_sublist].
Qed.

Lemma unspent_idemp us : unspent_utxos (unspent_utxos us) = unspent_utxos us.
Proof.
  unfold unspent_utxos. induction us as [|u us IH]; [done|]. simpl.
  destruct (Utxo.unspent u) eqn:E; [|done]. simpl. by rewrite E, IH.
Qed.

Lemma Forall_unspent (Q : Utxo.t -> Prop) us : Forall Q us -> Forall Q (unspent_utxos us).
Proof. rewrite !Forall_forall. intros H u Hu. apply H. by apply elem_of_unspent in Hu as [? _]. Qed.

(** A balance read back from the database keeps what the invariant says of it. *)
Lemma bal_ok_restored O ab : bal_ok O ab -> bal_ok O (restored DetailUTXOIndexed ab).
Proof.
  intros [Hix Hgr Hids Hvals Hbal Hnd Hown]. unfold restored.
  destruct (foldl_addUtxo (unspent_utxos (Utxos ab))
    (mkAddrBalance (Txs ab) (SentSat ab) (BalanceSat ab) [] ∅)) as (Eu & _ & _ & Eb & Hi).
  cbn [Utxos BalanceSat app] in Eu, Eb. split; rewrite ?Eu.
  - apply Hi. done.
  - by apply grouped_unspent.
  - by apply Forall_unspent.
  - by apply Forall_unspent.
  - unfold balanced, unspent_sum in *. by rewrite Eu, Eb, unspent_idemp.
  - by rewrite unspent_idemp.
  - intros u. by rewrite unspent_idemp.
Qed.

Lemma bal_ok_empty (O : Utxo.t -> Prop) : (forall u, ~ O u) -> bal_ok O emptyBalance.
Proof.
  intros H. split; try done; [constructor|].
  intros u. rewrite elem_of_unspent. split; [intros [Hu _]; by apply not_elem_of_nil in Hu|].
  intros Hu. by destruct (H u).
Qed.

Lemma Utxos_restored ab : Utxos (restored DetailUTXOIndexed ab) = unspent_utxos (Utxos ab).
Proof.
  unfold restored. by destruct (foldl_addUtxo (unspent_utxos (Utxos ab))
    (mkAddrBalance (Txs ab) (SentSat ab) (BalanceSat ab) [] ∅)) as (-> & _).
Qed.

(** * Batches over maps *)

Definition op_value (o : wb_op) : option bytes :=
  match o with PutCF _ _ v => Some v | DeleteCF _ _ => None end.

(** The operations of a loop over a map, one for every key. *)
Lemma apply_map_batch {A} (f : bytes -> A -> wb_op) (g : bytes -> bytes) (c : cf) (m : gmap bytes A) (kv0 : kv) k :
  (forall k x, op_key (f k x) = (c, g k)) -> (forall k1 k2, g k1 = g k2 -> k1 = k2) ->
  apply_batch (map (fun e => f e.1 e.2) (map_to_list m)) kv0 !! (c, g k) =
  match m !! k with Some x => op_value (f k x) | None => kv0 !! (c, g k) end.
Proof.
  intros Hf Hg. destruct (m !! k) as [x|] eqn:E.
  - apply elem_of_map_to_list, list_elem_of_split in E as (l1 & l2 & El).
    pose proof (NoDup_fst_map_to_list m) as Hnd. rewrite El, fmap_app, fmap_cons in Hnd.
    apply NoDup_app in Hnd as (_ & _ & [Hk _]%NoDup_cons). simpl in Hk.
    rewrite El, map_app. cbn [map fst snd]. rewrite <- (Hf k x). rewrite apply_batch_last.
    + by destruct (f k x).
    + intros o ([k' y] & <- & Hin)%list_elem_of_In%in_map_iff. cbn [fst snd].
      rewrite !Hf. intros [= ->%Hg]. apply Hk. apply list_elem_of_In in Hin. by apply (list_elem_of_fmap_2 fst) in Hin.
  - rewrite apply_batch_other; [done|]. intros o ([k' y] & <- & Hin)%list_elem_of_In%in_map_iff.
    cbn [fst snd]. rewrite Hf. intros [= ->%Hg]. apply list_elem_of_In, elem_of_map_to_list in Hin. congruence.
Qed.

Lemma apply_map_batch_other {A} (f : bytes -> A -> wb_op) (c : cf) (m : gmap bytes A) (kv0 : kv) (ck : cf * bytes) :
  (forall k x, (op_key (f k x)).1 = c) -> ck.1 <> c ->
  apply_batch (map (fun e => f e.1 e.2) (map_to_list m)) kv0 !! ck = kv0 !! ck.
Proof.
  intros Hf Hc. apply apply_batch_other. intros o ([k' y] & <- & _)%list_elem_of_In%in_map_iff E.
  apply Hc. by rewrite <- E, Hf.
Qed.

Lemma apply_one_other (o : wb_op) (kv0 : kv) (ck : cf * bytes) : (op_key o).1 <> ck.1 -> apply_batch [o] kv0 !! ck = kv0 !! ck.
Proof.
  intros H. apply apply_batch_other. intros o' ->%list_elem_of_singleton E. apply H. by rewrite E.
Qed.

Section connect.
Context `{SL : StoreLaws} `{PL : ParserLaws} `{VL : VlqLaws} `{SCL : ScriptLaws}.
Hypothesis Hrel : reliable.

(** The values the block leaves fit their encodings. *)
Record fits (b : blockState) : Prop := {
  fits_txs : forall id ta, txAddressesOf b !! id = Some ta -> wf_txAddresses ta;
  fits_balances : forall ad B, balances b !! ad = Some B -> wf_balance PackedTxidLen B /\ 0 < Txs B;
}.

(** ** The batch of a block *)

Definition block_batch (b : blockState) (height : Z) (hv btv : bytes) : WriteBatch :=
  storeAddresses
    (storeBalances (storeTxAddresses [PutCF cfHeight (packUint height) hv] (txAddressesOf b)) (Some <$> balances b) ++
     [PutCF cfBlockTxs (packUint height) btv]) height (addresses b).

Lemma block_batch_tx b h hv btv m id :
  apply_batch (block_batch b h hv btv) m !! (cfTxAddresses, id) =
  match txAddressesOf b !! id with Some ta => Some (packTxAddresses ta) | None => m !! (cfTxAddresses, id) end.
Proof.
  unfold block_batch, storeAddresses, storeBalances, storeTxAddresses. rewrite !apply_batch_app.
  rewrite (apply_map_batch_other (fun a txi => PutCF cfAddresses (packAddressKey a h) (packTxIndexes txi)) cfAddresses)
    by done.
  rewrite apply_one_other by done.
  rewrite (apply_map_batch_other storeBalance cfAddressBalance);
    [|intros k [B|]; simpl; [by destruct (_ <=? _)|done]|done].
  rewrite (apply_map_batch (fun k ta => PutCF cfTxAddresses k (packTxAddresses ta)) (fun k => k) cfTxAddresses); [|done|done].
  destruct (txAddressesOf b !! id); [done|]. by rewrite apply_one_other.
Qed.

Lemma block_batch_balance b h hv btv m ad :
  apply_batch (block_batch b h hv btv) m !! (cfAddressBalance, ad) =
  match balances b !! ad with
  | Some B => op_value (storeBalance ad (Some B))
  | None => m !! (cfAddressBalance, ad)
  end.
Proof.
  unfold block_batch, storeAddresses, storeBalances, storeTxAddresses. rewrite !apply_batch_app.
  rewrite (apply_map_batch_other (fun a txi => PutCF cfAddresses (packAddressKey a h) (packTxIndexes txi)) cfAddresses)
    by done.
  rewrite apply_one_other by done.
  rewrite (apply_map_batch storeBalance (fun k => k) cfAddressBalance);
    [|intros k [B|]; simpl; [by destruct (_ <=? _)|done]|done].
  rewrite lookup_fmap. destruct (balances b !! ad); [done|]. cbn [fmap option_fmap option_map].
  rewrite (apply_map_batch_other (fun k ta => PutCF cfTxAddresses k (packTxAddresses ta)) cfTxAddresses) by done.
  by rewrite apply_one_other.
Qed.

(** ** Reading the new database *)

Lemma packTxAddresses_zlen ta : 3 <= zlen (packTxAddresses ta).
Proof.
  unfold packTxAddresses. autorewrite with slices.
  pose proof (packVaruint_len (Height ta)). pose proof (packVaruint_len (zlen (Inputs ta))).
  pose proof (packVaruint_len (zlen (Outputs ta))). pose proof (packVaruint_len (ShieldIns ta)).
  pose proof (packVaruint_len (ShieldOuts ta)). pose proof (packBigint_zlen (ShieldValBal ta)).
  pose proof (zlen_nonneg (concat (map appendTxInput (Inputs ta)))).
  pose proof (zlen_nonneg (concat (map appendTxOutput (Outputs ta)))). lia.
Qed.

Lemma packAddrBalance_zlen ab : 3 <= zlen (packAddrBalance ab).
Proof.
  unfold packAddrBalance. autorewrite with slices.
  pose proof (packVaruint_len (Txs ab)). pose proof (packBigint_zlen (SentSat ab)).
  pose proof (packBigint_zlen (BalanceSat ab)). pose proof (zlen_nonneg (concat (map packUtxo (Utxos ab)))). lia.
Qed.

Definition stored_ta (ta : TxAddresses) : TxAddresses := set_ShieldValBal (Z.abs (ShieldValBal ta)) ta.

(** A state in which every transaction reads the same and every balance reads the same
    or as it was stored is as consistent. *)
Lemma consistent_view d b d' b' : heap_ok b' ->
  (forall x, outs_view d' b' x = outs_view d b x) ->
  (forall ad, balance_view d' b' ad = balance_view d b ad \/
              balance_view d' b' ad = restored DetailUTXOIndexed (balance_view d b ad)) ->
  consistent d b -> consistent d' b'.
Proof.
  intros Hh Ho Hb Hc. split; [done| |].
  - intros ad. apply (bal_ok_iff (owned d b ad)); [intros u; unfold owned; by rewrite Ho|].
    destruct (Hb ad) as [-> | ->]; [|apply bal_ok_restored]; apply (co_ledger _ _ Hc).
  - intros ad u Hu. assert (u ∈ Utxos (balance_view d b ad)) as Hu'.
    { destruct (Hb ad) as [E|E]; rewrite E in Hu; [done|]. rewrite Utxos_restored in Hu.
      by apply elem_of_unspent in Hu as [? _]. }
    apply (co_known _ _ Hc) in Hu'. specialize (Ho (Utxo.BtxID u)). unfold outs_view in Ho.
    destruct (tx_view d b _), (tx_view d' _ _); done.
Qed.

Lemma newBlockState_heap c : heap_ok (newBlockState c).
Proof. split; cbn [txAddressesMap newBlockState]; intros *; by rewrite lookup_empty. Qed.

Section stored.
Context (d d' : RocksDB) (s s' : store) (b : blockState).
Context (Hd : db d = Some s) (Hd' : db d' = Some s') (Hfits : fits b).
Hypothesis Htx : forall id, contents s' !! (cfTxAddresses, id) =
  match txAddressesOf b !! id with
  | Some ta => Some (packTxAddresses ta) | None => contents s !! (cfTxAddresses, id) end.
Hypothesis Hbal : forall ad, contents s' !! (cfAddressBalance, ad) =
  match balances b !! ad with
  | Some B => op_value (storeBalance ad (Some B)) | None => contents s !! (cfAddressBalance, ad) end.

Lemma stored_tx id :
  getTxAddresses d' id =
  match txAddressesOf b !! id with Some ta => Ret (Some (stored_ta ta)) | None => getTxAddresses d id end.
Proof.
  unfold getTxAddresses. rewrite (dbGet_reliable Hrel d' s'), (dbGet_reliable Hrel d s), Htx by done. gostep.
  destruct (txAddressesOf b !! id) as [ta|] eqn:E; [|done].
  change (opt_bytes (Some (packTxAddresses ta))) with (packTxAddresses ta).
  pose proof (packTxAddresses_zlen ta). destruct (Z.ltb_spec (zlen (packTxAddresses ta)) 3); [lia|].
  rewrite unpackTxAddresses_pack by (by eapply fits_txs). done.
Qed.

Lemma stored_balance ad :
  GetAddrDescBalance d' ad DetailUTXOIndexed =
  match balances b !! ad with
  | Some B => Ret (Some (restored DetailUTXOIndexed B))
  | None => GetAddrDescBalance d ad DetailUTXOIndexed end.
Proof.
  unfold GetAddrDescBalance. rewrite (dbGet_reliable Hrel d' s'), (dbGet_reliable Hrel d s), Hbal by done. gostep.
  destruct (balances b !! ad) as [B|] eqn:E; [|done]. destruct (fits_balances _ Hfits _ _ E) as [Hwf HT].
  unfold storeBalance. destruct (Z.leb_spec (Txs B) 0); [lia|]. cbn [op_value].
  change (opt_bytes (Some (packAddrBalance B))) with (packAddrBalance B).
  pose proof (packAddrBalance_zlen B). destruct (Z.ltb_spec (zlen (packAddrBalance B)) 3); [lia|].
  rewrite unpackAddrBalance_pack by (try done; apply PackedTxidLen_pos). done.
Qed.

Lemma stored_reads :
  (forall ad, exists r, GetAddrDescBalance d ad DetailUTXOIndexed = Ret r) ->
  (forall id, exists r, getTxAddresses d id = Ret r) ->
  (forall ad, exists r, GetAddrDescBalance d' ad DetailUTXOIndexed = Ret r) /\
  (forall id, exists r, getTxAddresses d' id = Ret r).
Proof.
  intros H1 H2. split.
  - intros ad. rewrite stored_balance. destruct (balances b !! ad); eauto.
  - intros id. rewrite stored_tx. destruct (txAddressesOf b !! id); eauto.
Qed.

Lemma txAddressesOf_lookup id :
  txAddressesOf b !! id = match txAddressesMap b !! id with Some loc => heap b !! loc | None => None end.
Proof. unfold txAddressesOf. rewrite lookup_omap. by destruct (txAddressesMap b !! id). Qed.

(** Every known transaction and every balance reads as it was left by the block. *)
Lemma stored_outs c x : heap_ok b -> outs_view d' (newBlockState c) x = outs_view d b x.
Proof.
  intros Hh. unfold outs_view, tx_view, db_tx. cbn [txAddressesMap newBlockState]. rewrite lookup_empty.
  rewrite stored_tx, txAddressesOf_lookup. destruct (txAddressesMap b !! x) as [loc|] eqn:E; [|done].
  pose proof (proj1 Hh _ _ E) as Hlt. apply lookup_lt_is_Some in Hlt as [ta Hta]. by rewrite Hta.
Qed.

Lemma stored_consistent c : consistent d b -> consistent d' (newBlockState c).
Proof.
  intros Hc. apply (consistent_view d b); [apply newBlockState_heap|intros x; apply stored_outs, Hc| |done].
  intros ad. unfold balance_view, db_balance. cbn [balances newBlockState]. rewrite lookup_empty. simpl.
  rewrite stored_balance. destruct (balances b !! ad); [by right|by left].
Qed.
End stored.

(** ** Clean-up of [blockTxs] *)

(** The blocks from [n] down to the first that is not there are removed; the rest of
    the database does not change. *)
Lemma cleanupFrom_spec n : forall d s, db d = Some s -> Z.of_nat n < 2 ^ 32 ->
  exists k s', (k <= n)%nat /\ cleanupFrom n d = (set_db (Some s') d, Ret tt) /\
    (k = O \/ contents s !! (cfBlockTxs, packUint (Z.of_nat k)) = None) /\
    (forall j, (k < j <= n)%nat -> is_Some (contents s !! (cfBlockTxs, packUint (Z.of_nat j))) /\
                                   contents s' !! (cfBlockTxs, packUint (Z.of_nat j)) = None) /\
    (forall ck, (forall j, (k < j <= n)%nat -> ck <> (cfBlockTxs, packUint (Z.of_nat j))) ->
       contents s' !! ck = contents s !! ck).
Proof.
  induction n as [|n IH]; intros d s Hd Hn.
  { exists O, s. split_and!; try done; [by destruct d; simpl in *; subst|by left|lia]. }
  cbn [cleanupFrom]. rewrite (sbind_eq _ _ d d d), (dbGet_reliable Hrel d s) by done.
  destruct (contents s !! (cfBlockTxs, packUint (Z.of_nat (S n)))) as [v|] eqn:E.
  2:{ exists (S n), s. rewrite (sbind_eq _ _ d d None) by done.
      split_and!; try done; [by destruct d; simpl in *; subst|by right|lia]. }
  rewrite (sbind_eq _ _ d d (Some v)) by done.
  destruct (dbWrite_reliable Hrel d s [DeleteCF cfBlockTxs (packUint (Z.of_nat (S n)))] Hd) as (s1 & Ew & Hs1).
  rewrite (sbind_eq _ _ d (set_db (Some s1) d) tt) by (by rewrite Ew).
  destruct (IH (set_db (Some s1) d) s1) as (k & s' & Hk & Ec & Hstop & Hdel & Hoth); [done|lia|].
  assert (forall j, (j <= n)%nat -> (cfBlockTxs, packUint (Z.of_nat j)) <> (cfBlockTxs, packUint (Z.of_nat (S n)))) as Hne.
  { intros j Hj Ej. apply (f_equal snd) in Ej. cbn [snd] in Ej. apply packUint_inj in Ej; [lia|unfold in_u32; lia..]. }
  assert (forall ck, ck <> (cfBlockTxs, packUint (Z.of_nat (S n))) -> contents s1 !! ck = contents s !! ck) as Hsame.
  { intros ck Hck. rewrite Hs1. simpl. by rewrite lookup_delete_ne. }
  exists k, s'. split_and!; [lia|by rewrite Ec| | |].
  - destruct Hstop as [->|Hstop]; [by left|right]. by rewrite <- Hsame by (by apply Hne).
  - intros j Hj. destruct (decide (j = S n)) as [-> |].
    + split; [by rewrite E|]. rewrite Hoth by (intros j' Hj'; apply not_eq_sym, Hne; lia).
      rewrite Hs1. simpl. by rewrite lookup_delete_eq.
    + destruct (Hdel j) as [H1 H2]; [lia|]. split; [by rewrite <- Hsame by (apply Hne; lia)|done].
  - intros ck Hck. rewrite Hoth by (intros j Hj; apply Hck; lia). apply Hsame. apply Hck. lia.
Qed.

Lemma cleanupBlockTxs_other d s block : db d = Some s -> in_u32 (Block.Height block) ->
  exists s', cleanupBlockTxs block d = (set_db (Some s') d, Ret tt) /\
    forall ck, ck.1 <> cfBlockTxs -> contents s' !! ck = contents s !! ck.
Proof.
  intros Hd Hh. unfold cleanupBlockTxs. pose proof (u32_range KeepBlockAddresses) as Hk. unfold in_u32 in *.
  destruct (Z.ltb_spec (u32 KeepBlockAddresses) (Block.Height block)).
  - destruct (cleanupFrom_spec (Z.to_nat (Block.Height block - u32 KeepBlockAddresses)) d s)
      as (k & s' & _ & -> & _ & _ & Hoth); [done|lia|].
    exists s'. split; [done|]. intros ck Hck. apply Hoth. intros j _ ->. done.
  - exists s. split; [|done]. by destruct d; simpl in *; subst.
Qed.

(** ** [ConnectBlock] *)

Lemma go_fold_collect {A B} (f : A -> go B) l acc :
  Forall (fun x => exists y, f x = Ret y) l ->
  exists ys, go_fold (fun acc x => let* y := f x in Ret (acc ++ [y])) acc l = Ret (acc ++ ys).
Proof.
  intros H. revert acc. induction H as [|x l [y Hy] Hl IH]; intros acc; simpl; [exists []; by rewrite app_nil_r|].
  rewrite Hy. gostep. destruct (IH (acc ++ [y])) as [ys ->]. exists (y :: ys). by rewrite <- app_assoc.
Qed.

Lemma blockTxsOf_ok block ids :
  Forall2 valid_outputs (Block.Txs block) ids ->
  Forall (fun tx => Forall valid_vin (Tx.Vin tx)) (Block.Txs block) ->
  exists bts, blockTxsOf block = Ret bts.
Proof.
  intros Ho Hi. unfold blockTxsOf.
  destruct (go_fold_collect blockTxOf (Block.Txs block) []) as [ys ->]; [|by exists ys].
  apply Forall_lookup. intros i tx Htx.
  destruct (Forall2_lookup_l _ _ _ _ _ Ho Htx) as (id & _ & (Hp & _)).
  rewrite Forall_lookup in Hi. specialize (Hi _ _ Htx). unfold blockTxOf.
  destruct (go_fold_collect blockTxInput (Tx.Vin tx) []) as [zs ->].
  { eapply Forall_impl; [exact Hi|]. intros v [_ [Hv|(x & Hv & _)]]; unfold blockTxInput; rewrite Hv; eauto. }
  gostep. rewrite Hp. gostep. eauto.
Qed.

Definition readable (d : RocksDB) : Prop :=
  (forall ad, exists r, GetAddrDescBalance d ad DetailUTXOIndexed = Ret r) /\
  (forall id, exists r, getTxAddresses d id = Ret r).

(** The database as the block sees it before its first transaction. *)
Definition before (d : RocksDB) : blockState := newBlockState (cbs d).

(** The columns that hold neither transactions nor balances after a block. *)
Record block_columns (h : Z) (bts : list blockTxs) (m : addressesMap) (s s' : store) : Prop := {
  bc_undo : contents s' !! (cfBlockTxs, packUint h) = Some (packBlockTxs bts);
  bc_other : forall ck, ck.1 <> cfTxAddresses -> ck.1 <> cfAddressBalance -> ck.1 <> cfBlockTxs ->
    ck <> (cfHeight, packUint h) ->
    (forall ad l, m !! ad = Some l -> ck <> (cfAddresses, packAddressKey ad h)) -> contents s' !! ck = contents s !! ck;
}.

Lemma block_batch_columns b h hv bts m m' s s' :
  contents s' = apply_batch (block_batch b h hv (packBlockTxs bts)) m ->
  (forall ck, ck.1 <> cfBlockTxs -> m !! ck = contents s !! ck) -> m' = addresses b ->
  block_columns h bts m' s s'.
Proof.
  intros Hs' Hm ->. unfold block_batch, storeAddresses, storeBalances, storeTxAddresses in Hs'. split.
  - rewrite Hs', apply_batch_app.
    rewrite (apply_map_batch_other (fun a txi => PutCF cfAddresses (packAddressKey a h) (packTxIndexes txi)) cfAddresses) by done.
    rewrite apply_batch_app. simpl. by rewrite lookup_insert_eq.
  - intros ck H1 H2 H3 H4 H5. rewrite Hs', <- (Hm ck H3). apply apply_batch_other.
    intros o [[[[Ho|Ho]%elem_of_app|Ho]%elem_of_app|Ho]%elem_of_app|Ho]%elem_of_app E; subst ck.
    + apply list_elem_of_singleton in Ho as ->. done.
    + apply list_elem_of_In, in_map_iff in Ho as (e & <- & _). done.
    + apply list_elem_of_In, in_map_iff in Ho as ([k [B|]] & <- & _); [|done]. simpl in H2.
      destruct (Txs B <=? 0); done.
    + apply list_elem_of_singleton in Ho as ->. done.
    + apply list_elem_of_In, in_map_iff in Ho as ([a l] & <- & Hin). apply list_elem_of_In, elem_of_map_to_list in Hin.
      by apply (H5 a l).
Qed.

Lemma ConnectBlock_run now block ids d s i hv :
  db d = Some s -> istate d = Some i -> GetChainType = ChainBitcoinType ->
  PackBlockHash (Block.Hash block) = Ret hv -> in_u32 (Block.Height block) ->
  readable d -> consistent d (before d) -> valid_block d (before d) block ids ->
  (forall b, processAddressesBitcoinType d block (before d) = (b, Ret tt) -> fits b) ->
  exists d' b, ConnectBlock now block d = (d', Ret tt) /\
    processAddressesBitcoinType d block (before d) = (b, Ret tt) /\
    readable d' /\ consistent d' (before d') /\
    istate d' = Some (UpdateBestHeight now (Block.Height block) i) /\
    (forall x, outs_view d' (before d') x =
       spend_all (block_spends (Block.Txs block)) (block_outs d (before d) block ids) x) /\
    (forall id, getTxAddresses d' id =
       match txAddressesOf b !! id with Some ta => Ret (Some (stored_ta ta)) | None => getTxAddresses d id end) /\
    (forall ad, GetAddrDescBalance d' ad DetailUTXOIndexed =
       match balances b !! ad with
       | Some B => Ret (Some (restored DetailUTXOIndexed B)) | None => GetAddrDescBalance d ad DetailUTXOIndexed end) /\
    exists s' bts, db d' = Some s' /\ blockTxsOf block = Ret bts /\ block_columns (Block.Height block) bts (addresses b) s s'.
Proof.
  intros Hd Hi Hct Hbh Hh [Hr1 Hr2] Hc Hv Hfits.
  destruct (processAddressesBitcoinType_spec d Hr1 Hr2 (before d) block ids Hc Hv) as (b & Ep & Cb & Ob).
  specialize (Hfits b Ep).
  unfold ConnectBlock, writeHeightFromBlock, writeHeight. rewrite Hct.
  destruct (packBlockInfo _) as [hval|e|] eqn:Epk; [|unfold packBlockInfo in Epk; simpl in Epk; by rewrite Hbh in Epk..].
  set (d1 := set_istate (Some (UpdateBestHeight now (Block.Height block) i)) d).
  rewrite (sbind_eq _ _ d d1 [PutCF cfHeight (packUint (Block.Height block)) hval])
    by (unfold sbind, slift, with_is; by rewrite Hi).
  unfold connectBitcoin. set (d2 := set_cbs (stats b) d1).
  destruct (blockTxsOf_ok block ids) as [bts Hbts]; [apply Hv|apply Hv|].
  destruct (cleanupBlockTxs_other d2 s block) as (s1 & Ec & Hs1); [done|done|].
  rewrite (sbind_eq _ _ d1 (set_db (Some s1) d2)
    (storeBalances (storeTxAddresses [PutCF cfHeight (packUint (Block.Height block)) hval] (txAddressesOf b))
       (Some <$> balances b) ++ [PutCF cfBlockTxs (packUint (Block.Height block)) (packBlockTxs bts)], addresses b)).
  2:{ rewrite (sbind_eq _ _ d1 d1 d1) by done.
      rewrite (sbind_eq _ _ d1 d2 (b, tt)).
      2:{ unfold run_on. change (processAddressesBitcoinType d1 block (newBlockState (cbs d1)))
            with (processAddressesBitcoinType d block (before d)). by rewrite Ep. }
      unfold storeAndCleanupBlockTxs. rewrite Hbts.
      unfold sbind at 1 2 3, slift. by rewrite Ec. }
  destruct (dbWrite_reliable Hrel (set_db (Some s1) d2) s1
    (block_batch b (Block.Height block) hval (packBlockTxs bts))) as (s' & Ew & Hs'); [done|].
  set (d' := set_db (Some s') (set_db (Some s1) d2)) in Ew. exists d', b.
  assert (forall id, contents s' !! (cfTxAddresses, id) = match txAddressesOf b !! id with
    | Some ta => Some (packTxAddresses ta) | None => contents s !! (cfTxAddresses, id) end) as HT.
  { intros id. rewrite Hs', block_batch_tx, Hs1 by done. done. }
  assert (forall ad, contents s' !! (cfAddressBalance, ad) = match balances b !! ad with
    | Some B => op_value (storeBalance ad (Some B)) | None => contents s !! (cfAddressBalance, ad) end) as HB.
  { intros ad. rewrite Hs', block_batch_balance, Hs1 by done. done. }
  split_and!; [exact Ew|done| | |done| | | |].
  - by apply (stored_reads d d' s s' b).
  - by apply (stored_consistent d d' s s' b).
  - intros x. etransitivity; [apply (stored_outs d d' s s' b Hd eq_refl Hfits HT), Cb|apply Ob].
  - by apply (stored_tx d d' s s' b).
  - by apply (stored_balance d d' s s' b).
  - exists s', bts. split_and!; [done|done|]. by eapply block_batch_columns.
Qed.

(** ** The index from an empty database *)

Lemma empty_readable d s : db d = Some s -> contents s = ∅ ->
  (forall ad, GetAddrDescBalance d ad DetailUTXOIndexed = Ret None) /\ (forall id, getTxAddresses d id = Ret None).
Proof.
  intros Hd He. unfold GetAddrDescBalance, getTxAddresses.
  split; intros k; by rewrite (dbGet_reliable Hrel d s), He, lookup_empty by done.
Qed.

Lemma empty_consistent d s : db d = Some s -> contents s = ∅ -> readable d /\ consistent d (before d).
Proof.
  intros Hd He. destruct (empty_readable d s Hd He) as [H1 H2].
  assert (forall ad, balance_view d (before d) ad = emptyBalance) as HB.
  { intros ad. unfold balance_view, db_balance, before. cbn [balances newBlockState].
    by rewrite lookup_empty, H1. }
  split; [split; eauto|]. split.
  - split; unfold before; cbn [txAddressesMap newBlockState]; intros *; by rewrite lookup_empty.
  - intros ad. rewrite HB. apply bal_ok_empty. intros u (outs & o & j & E & _). revert E.
    unfold outs_view, tx_view, db_tx, before. cbn [txAddressesMap newBlockState]. by rewrite lookup_empty, H2.
  - intros ad u. rewrite HB. by intros ?%not_elem_of_nil.
Qed.

(** A block the index can connect: its hash packs, its height is a 32-bit number, its
    transactions are valid over the database and what it leaves fits the encodings. *)
Record connectable (d : RocksDB) (block : Block.t) (ids : list bytes) : Prop := {
  cn_hash : exists hv, PackBlockHash (Block.Hash block) = Ret hv;
  cn_height : in_u32 (Block.Height block);
  cn_valid : valid_block d (before d) block ids;
  cn_fits : forall b, processAddressesBitcoinType d block (before d) = (b, Ret tt) -> fits b;
}.

(** The databases reached from an empty one by connecting blocks. *)
Inductive chain : RocksDB -> list Block.t -> Prop :=
  | chain_new d s i : db d = Some s -> istate d = Some i -> contents s = ∅ -> chain d []
  | chain_connect d d' blocks now block ids :
      chain d blocks -> connectable d block ids -> ConnectBlock now block d = (d', Ret tt) ->
      chain d' (blocks ++ [block]).

Lemma dbWrite_db (wb : WriteBatch) (d d' : RocksDB) : dbWrite wb d = (d', Ret tt) -> exists s', db d' = Some s'.
Proof.
  unfold dbWrite. destruct (db d) as [s|]; [|done]. destruct (Write s wb) as [s' e].
  intros [= <- _]. by exists s'.
Qed.

Lemma ConnectBlock_db now block (d d' : RocksDB) : ConnectBlock now block d = (d', Ret tt) -> exists s', db d' = Some s'.
Proof.
  unfold ConnectBlock. intros (d1 & wb & _ & H)%sbind_ret.
  apply sbind_ret in H as (d2 & [wb' ads] & _ & H). by eapply dbWrite_db.
Qed.

Lemma chain_inv d blocks : GetChainType = ChainBitcoinType -> chain d blocks ->
  readable d /\ consistent d (before d) /\ is_Some (db d) /\ is_Some (istate d).
Proof.
  intros Hct. induction 1 as [d s i Hd Hi He|d d' blocks now block ids Hch (Hr & Hc & [s Hs] & [i Hi]) [[hv Hhv] Hh Hv Hf] Hrun].
  - destruct (empty_consistent d s Hd He). by rewrite Hd, Hi.
  - destruct (ConnectBlock_run now block ids d s i hv) as (d2 & b & E & _ & Hr' & Hc' & Hi' & _); [done..|].
    rewrite Hrun in E. injection E as <-. split; [done|]. split; [done|].
    destruct (ConnectBlock_db _ _ _ _ Hrun) as [s' ->]. by rewrite Hi'.
Qed.
End connect.

(** * Failures *)

Section failures.
Context `{SL : StoreLaws} `{P : BlockChainParser} `{V : Vlq} `{SC : ScriptLib}.

(** What a read of the database sees under a key. *)
Definition view (d : RocksDB) (ck : cf * bytes) : option bytes :=
  match db d with Some s => contents s !! ck | None => None end.

(** Nothing but the column [blockTxs] differs. *)
Definition same_index (d d' : RocksDB) : Prop := forall ck, ck.1 <> cfBlockTxs -> view d' ck = view d ck.

(** Whatever the outcome, [m] relates the database before and after by [R]. *)
Definition keeps {A} (R : RocksDB -> RocksDB -> Prop) (m : sgo RocksDB A) : Prop :=
  forall d, R d (m d).1.

Lemma keeps_bind {A B} R (m : sgo RocksDB A) (k : A -> sgo RocksDB B) :
  Transitive R -> keeps R m -> (forall a, keeps R (k a)) -> keeps R (sbind m k).
Proof.
  intros HR Hm Hk d. unfold sbind. specialize (Hm d). destruct (m d) as [d1 [a|e|]]; simpl in *; [|done..].
  specialize (Hk a d1). by etransitivity.
Qed.

Lemma keeps_lift {A} R (m : go A) : Reflexive R -> keeps R (slift m).
Proof. intros HR d. simpl. reflexivity. Qed.

#[local] Instance same_index_trans : Transitive same_index.
Proof. intros d1 d2 d3 H1 H2 ck Hck. by rewrite H2, H1. Qed.
#[local] Instance same_index_refl : Reflexive same_index.
Proof. by intros d ck. Qed.

Lemma dbWrite_view wb (d d' : RocksDB) r : dbWrite wb d = (d', r) ->
  (r = Ret tt /\ forall ck, (forall o, o ∈ wb -> op_key o <> ck) -> view d' ck = view d ck) \/
  (r <> Ret tt /\ forall ck, view d' ck = view d ck).
Proof.
  unfold dbWrite, view. destruct (db d) as [s|] eqn:Hd; [|intros [= <- <-]; right; by rewrite Hd].
  destruct (Write s wb) as [s' [e|]] eqn:Ew; intros [= <- <-]; simpl.
  - right. split; [done|]. intros ck. by rewrite (Write_err _ _ _ _ Ew).
  - left. split; [done|]. intros ck Hck. rewrite (Write_ok _ _ _ Ew). by apply apply_batch_other.
Qed.

Lemma cleanupFrom_keeps n : keeps same_index (cleanupFrom n).
Proof.
  induction n as [|n IH]; [by intros d ck|]. cbn [cleanupFrom].
  apply keeps_bind; [apply _|by intros d ck|]. intros d0. apply keeps_bind; [apply _|by intros d ck|].
  intros [v|]; [|by intros d ck]. apply keeps_bind; [apply _| |auto].
  intros d ck Hck. destruct (dbWrite _ d) as [d' r] eqn:E.
  assert (view d' ck = view d ck) as Hv.
  { destruct (dbWrite_view _ _ _ _ E) as [[_ H]|[_ H]]; [|apply H]. apply H.
    intros o ->%list_elem_of_singleton. simpl. by intros <-. }
  by destruct r.
Qed.

Lemma cleanupBlockTxs_keeps block : keeps same_index (cleanupBlockTxs block).
Proof. unfold cleanupBlockTxs. destruct (_ <? _); [apply cleanupFrom_keeps|by intros d ck]. Qed.

Lemma with_is_keeps f : keeps same_index (with_is f).
Proof. intros d ck _. unfold with_is. destruct (istate d) as [i|]; [|done]. by destruct (f i). Qed.

Lemma run_on_keeps {S A} (s : S) (back : S -> RocksDB -> RocksDB) (m : sgo S A) :
  (forall s d, db (back s d) = db d) -> keeps same_index (run_on s back m).
Proof. intros Hb d ck _. unfold run_on, view. destruct (m s) as [s' [a|e|]]; simpl; by rewrite Hb. Qed.

Lemma connectBitcoin_keeps wb block : keeps same_index (connectBitcoin wb block).
Proof.
  apply keeps_bind; [apply _|by intros d ck|]. intros d0.
  apply keeps_bind; [apply _|by apply run_on_keeps|]. intros [b []].
  apply keeps_bind; [apply _| |by intros w d ck]. unfold storeAndCleanupBlockTxs.
  apply keeps_bind; [apply _|by apply keeps_lift, _|]. intros bts.
  apply keeps_bind; [apply _|apply cleanupBlockTxs_keeps|by intros u d ck].
Qed.

Lemma connectEthereum_keeps wb block : keeps same_index (connectEthereum wb block).
Proof.
  apply keeps_bind; [apply _|by intros d ck|]. intros d0.
  apply keeps_bind; [apply _|by apply run_on_keeps|]. intros [b bts].
  apply keeps_bind; [apply _| |by intros w d ck]. unfold storeAndCleanupBlockTxsEthereumType.
  apply keeps_bind; [apply _|apply cleanupBlockTxs_keeps|by intros u d ck].
Qed.

Lemma writeHeightFromBlock_keeps now wb block op : keeps same_index (writeHeightFromBlock now wb block op).
Proof.
  unfold writeHeightFromBlock, writeHeight. destruct op.
  - apply keeps_bind; [apply _|by apply keeps_lift, _|]. intros v.
    apply keeps_bind; [apply _|apply with_is_keeps|by intros u d ck].
  - apply keeps_bind; [apply _|apply with_is_keeps|by intros u d ck].
Qed.

(** A sequence that ends with one write: if it fails, nothing was written by the last step. *)
Lemma bind_write_fails {A} R (m : sgo RocksDB A) (k : A -> sgo RocksDB unit) (d d' : RocksDB) r :
  (forall d d', (forall ck, view d' ck = view d ck) -> R d d') -> Transitive R -> keeps R m ->
  (forall a, exists wb, k a = dbWrite wb) -> sbind m k d = (d', r) -> r <> Ret tt -> R d d'.
Proof.
  intros Hsame HR Hm Hk E Hr. unfold sbind in E. specialize (Hm d). destruct (m d) as [d1 [a|e|]]; simpl in *.
  - destruct (Hk a) as [wb Hwb]. rewrite Hwb in E. destruct (dbWrite_view _ _ _ _ E) as [[-> _]|[_ H]]; [done|]. etransitivity; [exact Hm|auto].
  - by simplify_eq.
  - by simplify_eq.
Qed.
End failures.

(** * Properties *)

Section properties.
Context `{SL : StoreLaws} `{PL : ParserLaws} `{VL : VlqLaws} `{SCL : ScriptLaws}.

(** C2: [ConnectBlock] on a store without errors returns for every connectable block;
    the new database can be read and is consistent, the internal state follows the new
    height, and the stored outputs are those before the block with the outputs of the
    block added and the outputs its inputs refer to marked as spent. *)
Theorem ConnectBlock_correct now block ids (d : RocksDB) s i :
  reliable -> GetChainType = ChainBitcoinType -> db d = Some s -> istate d = Some i ->
  readable d -> consistent d (before d) -> connectable d block ids ->
  exists d', ConnectBlock now block d = (d', Ret tt) /\ readable d' /\ consistent d' (before d') /\
    istate d' = Some (UpdateBestHeight now (Block.Height block) i) /\
    forall x, outs_view d' (before d') x =
      spend_all (block_spends (Block.Txs block)) (block_outs d (before d) block ids) x.
Proof.
  intros Hrel Hct Hd Hi Hr Hc [[hv Hhv] Hh Hv Hf].
  destruct (ConnectBlock_run Hrel now block ids d s i hv) as (d' & b & E & _ & Hr' & Hc' & Hi' & Ho & _); [done..|].
  exists d'. auto.
Qed.

(** An unspent output of a stored transaction, indexed under the address. *)
Definition stored_output (d : RocksDB) (ad : bytes) (u : Utxo.t) : Prop :=
  exists ta o i, getTxAddresses d (Utxo.BtxID u) = Ret (Some ta) /\ Height ta = Utxo.Height u /\
    Outputs ta !! i = Some o /\ Utxo.Vout u = Z.of_nat i /\ TxOutput.Spent o = false /\
    TxOutput.ValueSat o = Utxo.ValueSat u /\ ad ∈ out_descs (TxOutput.AddrDesc o).

Lemma stored_output_owned d ad u : owned d (before d) ad u <-> stored_output d ad u.
Proof.
  unfold owned, stored_output, outs_view, tx_view, db_tx, before. cbn [txAddressesMap newBlockState].
  rewrite lookup_empty. split.
  - intros (outs & o & i & E & H). destruct (getTxAddresses d (Utxo.BtxID u)) as [[ta|]| |]; [|done..].
    injection E as E <-. exists ta, o, i. split; [done|]. split; [done|]. done.
  - intros (ta & o & i & -> & <- & H). exists (Outputs ta), o, i. done.
Qed.

Lemma chain_ledger (d : RocksDB) blocks ad :
  reliable -> GetChainType = ChainBitcoinType -> chain d blocks ->
  exists r, GetAddrDescBalance d ad DetailUTXOIndexed = Ret r /\
    let ab := default emptyBalance r in
    BalanceSat ab = unspent_sum (Utxos ab) /\
    (forall u, u ∈ unspent_utxos (Utxos ab) <-> stored_output d ad u) /\
    NoDup (utxo_key <$> unspent_utxos (Utxos ab)).
Proof.
  intros Hrel Hct Hch. destruct (chain_inv Hrel d blocks Hct Hch) as ([Hr _] & Hc & _).
  destruct (Hr ad) as [r Hr']. exists r. split; [done|]. cbv zeta.
  assert (balance_view d (before d) ad = default emptyBalance r) as <-.
  { unfold balance_view, db_balance, before. cbn [balances newBlockState]. rewrite lookup_empty, Hr'. by destruct r. }
  pose proof (co_ledger _ _ Hc ad) as [_ _ _ _ Hbal Hnd Hown]. split; [done|]. split; [|done].
  intros u. by rewrite Hown, stored_output_owned.
Qed.

(** C1: In every database reached from an empty one by connecting connectable blocks on a store
    without errors, the balance
    read for an address is the sum of the unspent outputs of the stored transactions
    that are indexed under it, and its utxos list these outputs, each once. *)
Theorem chain_balances (d : RocksDB) blocks ad :
  reliable -> GetChainType = ChainBitcoinType -> chain d blocks ->
  exists r, GetAddrDescBalance d ad DetailUTXOIndexed = Ret r /\
    let ab := default emptyBalance r in
    BalanceSat ab = unspent_sum (Utxos ab) /\
    (forall u, u ∈ unspent_utxos (Utxos ab) <-> stored_output d ad u) /\
    NoDup (utxo_key <$> unspent_utxos (Utxos ab)).
Proof. apply chain_ledger. Qed.
End properties.

(** C12: A block that cannot be connected, for whatever reason (a parser error, a panic,
    an error of the store), leaves the index as it was: every column but [blockTxs],
    from which old blocks may already have been removed, keeps its contents. *)
Theorem ConnectBlock_atomic `{SL : StoreLaws} `{P : BlockChainParser} `{V : Vlq} `{SC : ScriptLib}
    now block (d d' : RocksDB) r :
  ConnectBlock now block d = (d', r) -> r <> Ret tt -> same_index d d'.
Proof.
  intros E Hr. unfold ConnectBlock in E.
  pose proof (writeHeightFromBlock_keeps now [] block opInsert d) as H1. unfold sbind in E at 1.
  destruct (writeHeightFromBlock _ _ _ _ d) as [d1 [wb|e|]]; simpl in *; [|by simplify_eq..].
  intros ck Hck. rewrite <- H1 by done. revert ck Hck.
  change (same_index d1 d'). revert E Hr. apply (bind_write_fails same_index).
  - intros x y H ck _. apply H.
  - intros x y z Hxy Hyz ck Hck. by rewrite Hyz, Hxy.
  - destruct GetChainType; [apply connectBitcoin_keeps|apply connectEthereum_keeps|by intros x ck].
  - intros [wb' addresses]. by eexists.
Qed.

(** Disconnecting a range of blocks is one write: if it does not succeed, the
    database is unchanged, on Bitcoin-like and on Ethereum-like chains. *)
Theorem Disconnect_atomic `{SL : StoreLaws} `{P : BlockChainParser} `{V : Vlq} `{SC : ScriptLib}
    lower higher (d d' : RocksDB) r :
  DisconnectBlockRangeBitcoinType lower higher d = (d', r) \/
  DisconnectBlockRangeEthereumType lower higher d = (d', r) ->
  r <> Ret tt -> forall ck, view d' ck = view d ck.
Proof.
  intros HE Hr. destruct HE as [E|E].
  - unfold DisconnectBlockRangeBitcoinType, sbind at 1 2 3 4, sget, slift, run_on in E.
    destruct (go_fold _ _ _) as [blocks|e|]; [|by simplify_eq..].
    destruct (sfor _ _ _) as [s [[]|e|]]; [|by simplify_eq..].
    destruct (afterLast lower tt); [|by simplify_eq..].
    destruct (dbWrite_view _ _ _ _ E) as [[-> _]|[_ H]]; done.
  - unfold DisconnectBlockRangeEthereumType, sbind at 1 2 3 4, sget, slift in E.
    destruct (go_fold _ _ (heights _ _)) as [blocks|e|]; [|by simplify_eq..].
    destruct (go_fold _ _ blocks) as [[wb contracts]|e|]; [|by simplify_eq..].
    destruct (afterLast lower tt); [|by simplify_eq..].
    destruct (dbWrite_view _ _ _ _ E) as [[-> _]|[_ H]]; done.
Qed.

(** Block 0 cannot be disconnected: the loop over the unsigned heights does not end
    at zero but wraps around, and the range is never removed from the database. *)
Theorem Disconnect_from_zero `{DB : Store} `{P : BlockChainParser} `{V : Vlq} `{SC : ScriptLib}
    higher (d : RocksDB) :
  (exists r, DisconnectBlockRangeBitcoinType 0 higher d = (d, r) /\ r <> Ret tt) /\
  (exists r, DisconnectBlockRangeEthereumType 0 higher d = (d, r) /\ r <> Ret tt).
Proof.
  split.
  - unfold DisconnectBlockRangeBitcoinType, sbind at 1 2 3 4, sget, slift, run_on.
    destruct (go_fold _ _ _) as [blocks|e|]; [|by eexists..].
    destruct (sfor (disconnectBlock d) blocks _) as [s [[]|e|]]; by eexists.
  - unfold DisconnectBlockRangeEthereumType, sbind at 1 2 3 4, sget, slift.
    destruct (go_fold _ _ (heights _ _)) as [blocks|e|]; [|by eexists..].
    destruct (go_fold _ _ blocks) as [[wb contracts]|e|]; by eexists.
Qed.

(** The clean-up of [blockTxs] keeps the blocks a chain may still have to
    disconnect: of the heights up to [height - keep] the unbroken run of stored blocks
    is removed, and nothing else changes, in particular the last [keep] blocks. *)
Theorem cleanupBlockTxs_exact `{SL : StoreLaws} `{P : BlockChainParser} block (d : RocksDB) s :
  reliable -> db d = Some s -> in_u32 (Block.Height block) ->
  let n := Z.to_nat (Block.Height block - u32 KeepBlockAddresses) in
  exists k s', (k <= n)%nat /\ cleanupBlockTxs block d = (set_db (Some s') d, Ret tt) /\
    (k = O \/ contents s !! (cfBlockTxs, packUint (Z.of_nat k)) = None) /\
    (forall j, (k < j <= n)%nat -> contents s' !! (cfBlockTxs, packUint (Z.of_nat j)) = None) /\
    (forall ck, (forall j, (k < j <= n)%nat -> ck <> (cfBlockTxs, packUint (Z.of_nat j))) ->
       contents s' !! ck = contents s !! ck).
Proof.
  intros Hrel Hd Hh n. unfold cleanupBlockTxs. pose proof (u32_range KeepBlockAddresses) as Hk.
  unfold in_u32 in *. destruct (Z.ltb_spec (u32 KeepBlockAddresses) (Block.Height block)).
  - destruct (cleanupFrom_spec Hrel n d s Hd) as (k & s' & H1 & H2 & H3 & H4 & H5); [subst n; lia|].
    exists k, s'. split_and!; try done. intros j Hj. by apply H4.
  - exists O, s. assert (n = O) as -> by (subst n; lia).
    split_and!; try done; [by destruct d; simpl in *; subst|by left|lia].
Qed.

(** ** A concrete block

    The first transaction creates two outputs, the second spends the first of them. *)

Definition id1 : bytes := repeat Byte.x01 32.
Definition id2 : bytes := repeat Byte.x02 32.

Definition pay (value : Z) (script : string) : Vout.t := Vout.mk value EmptyString 0 script [].

Definition mint : Tx.t :=
  Tx.mk EmptyString (hex_EncodeToString id1) 1 0 [Vin.mk "00" EmptyString 0 EmptyString 0 []]
    [pay 1000 "76a9"; pay 50 "51"] 0 0 0 [] [] 0 NoSpecificData.

Definition spend : Tx.t :=
  Tx.mk EmptyString (hex_EncodeToString id2) 1 0
    [Vin.mk EmptyString (hex_EncodeToString id1) 0 EmptyString 0 []]
    [pay 900 "52"; pay 100 "76a9"] 0 0 0 [] [] 0 NoSpecificData.

Definition block7 : Block.t :=
  Block.mk (hex_EncodeToString (repeat Byte.xaa 32)) EmptyString EmptyString 7 1 300 1500000000 [mint; spend].

Lemma block7_valid : valid_block (P := plain_parser) (V := leb) (open_db ∅) (before (open_db ∅)) block7 [id1; id2].
Proof.
  split.
  - repeat constructor; vm_compute; congruence.
  - apply (bool_decide_unpack _). vm_compute. exact I.
  - intros id H. repeat (apply elem_of_cons in H as [-> |H]; [vm_compute; reflexivity|]). by apply not_elem_of_nil in H.
  - apply Forall_cons; split; [|apply Forall_singleton]; apply Forall_singleton;
      (split; [split; [discriminate|reflexivity]|]).
    + left. reflexivity.
    + right. exists id1. split; [vm_compute; reflexivity|discriminate].
  - apply (bool_decide_unpack _). vm_compute. exact I.
  - intros s H. assert (s = (id1, 0%nat)) as ->.
    { change (block_spends (P := plain_parser) (Block.Txs block7)) with [(id1, 0%nat)] in H.
      by apply list_elem_of_singleton in H. }
    intros h outs o E. vm_compute in E. discriminate.
Qed.

(** What holds of every value of a finite map, by computation. *)
Lemma map_forallb {A} (f : A -> bool) (m : gmap bytes A) k x :
  forallb (fun e => f e.2) (map_to_list m) = true -> m !! k = Some x -> f x = true.
Proof.
  rewrite forallb_forall. intros H Hx. apply (H (k, x)). by apply list_elem_of_In, elem_of_map_to_list.
Qed.

Definition after7 : blockState :=
  (processAddressesBitcoinType (P := plain_parser) (V := leb) (open_db ∅) block7 (before (open_db ∅))).1.

Lemma block7_fits : fits (P := plain_parser) after7.
Proof.
  split.
  - intros id ta H. apply (bool_decide_unpack (wf_txAddresses ta)). apply Is_true_true.
    refine (map_forallb (fun ta => bool_decide (wf_txAddresses ta)) (txAddressesOf after7) id ta _ H).
    vm_compute. reflexivity.
  - intros ad B H. apply (bool_decide_unpack (wf_balance 32 B /\ 0 < Txs B)). apply Is_true_true.
    refine (map_forallb (fun B => bool_decide (wf_balance 32 B /\ 0 < Txs B)) (balances after7) ad B _ H).
    vm_compute. reflexivity.
Qed.

Lemma block7_connectable :
  connectable (P := plain_parser) (V := leb) (open_db ∅) block7 [id1; id2].
Proof.
  split.
  - eexists. vm_compute. reflexivity.
  - by vm_compute.
  - apply block7_valid.
  - intros b E. replace b with after7; [apply block7_fits|]. unfold after7. by rewrite E.
Qed.

Lemma indexing_correct_witness :
  exists b', processAddressesBitcoinType (P := plain_parser) (V := leb) (open_db ∅) block7 (before (open_db ∅)) =
    (b', Ret tt) /\ consistent (P := plain_parser) (V := leb) (open_db ∅) b'.
Proof.
  destruct (empty_readable (P := plain_parser) (V := leb) mem_store_reliable (open_db ∅) ∅ eq_refl eq_refl) as [H1 H2].
  destruct (empty_consistent (P := plain_parser) (V := leb) mem_store_reliable (open_db ∅) ∅ eq_refl eq_refl) as [_ H3].
  destruct (indexing_correct (P := plain_parser) (V := leb) (open_db ∅) (before (open_db ∅)) block7 [id1; id2]
    (fun ad => ex_intro _ None (H1 ad)) (fun id => ex_intro _ None (H2 id)) H3 block7_valid) as (b' & E & C & _).
  exists b'. split; assumption.
Defined.

Lemma ConnectBlock_correct_witness :
  exists d', ConnectBlock (P := plain_parser) (V := leb) 77 block7 (open_db ∅) = (d', Ret tt) /\
    consistent (P := plain_parser) (V := leb) d' (before d').
Proof.
  destruct (empty_consistent (P := plain_parser) (V := leb) mem_store_reliable (open_db ∅) ∅ eq_refl eq_refl) as [H1 H2].
  destruct (ConnectBlock_correct (P := plain_parser) (V := leb) 77 block7 [id1; id2] (open_db ∅) ∅
    (newInternalState "Bitcoin") mem_store_reliable eq_refl eq_refl eq_refl H1 H2 block7_connectable)
    as (d' & E & _ & C & _).
  exists d'. split; assumption.
Defined.

Lemma block7_run : exists d', ConnectBlock (P := plain_parser) (V := leb) 77 block7 (open_db ∅) = (d', Ret tt).
Proof.
  destruct (empty_consistent (P := plain_parser) (V := leb) mem_store_reliable (open_db ∅) ∅ eq_refl eq_refl) as [H1 H2].
  destruct block7_connectable as [[hv H3] H4 H5 H6].
  destruct (ConnectBlock_run (P := plain_parser) (V := leb) mem_store_reliable 77 block7 [id1; id2] (open_db ∅) ∅
    (newInternalState "Bitcoin") hv) as (d' & b & E & _); [done..|]. by exists d'.
Qed.

Lemma chain_balances_witness :
  exists d r, GetAddrDescBalance (P := plain_parser) (V := leb) d [Byte.x76; Byte.xa9] DetailUTXOIndexed = Ret r /\
    BalanceSat (default emptyBalance r) = unspent_sum (Utxos (default emptyBalance r)).
Proof.
  destruct block7_run as [d E]. exists d.
  destruct (chain_balances (P := plain_parser) (V := leb) d ([] ++ [block7]) [Byte.x76; Byte.xa9] mem_store_reliable eq_refl)
    as (r & H1 & H2 & _).
  - refine (chain_connect (open_db ∅) d [] 77 block7 [id1; id2] _ block7_connectable E).
    refine (chain_new (open_db ∅) ∅ (newInternalState "Bitcoin") eq_refl eq_refl eq_refl).
  - exists r. split; assumption.
Defined.

(** A block whose transaction has an id that is no hexadecimal text. *)
Definition bad_block : Block.t :=
  Block.mk "aa" EmptyString EmptyString 7 1 300 1500000000
    [mint; Tx.mk EmptyString "zz" 1 0 [] [] 0 0 0 [] [] 0 NoSpecificData].

Lemma ConnectBlock_atomic_witness :
  same_index (open_db ∅) (ConnectBlock (P := plain_parser) (V := leb) 77 bad_block (open_db ∅)).1.
Proof.
  refine (ConnectBlock_atomic (P := plain_parser) (V := leb) 77 bad_block (open_db ∅) _ _ (surjective_pairing _) _).
  vm_compute. discriminate.
Defined.

(** Undo data of the blocks 1 and 3 to 6. *)
Definition old_blocks : kv :=
  list_to_map (map (fun h => ((cfBlockTxs, packUint h), [Byte.x00])) [1; 3; 4; 5; 6]).

(** The range from 2 to 4 cannot be disconnected: the undo data of block 2 is gone. *)
Lemma Disconnect_atomic_witness :
  let d' := (DisconnectBlockRangeBitcoinType (P := plain_parser) (V := leb) 2 4 (open_db old_blocks)).1 in
  view d' (cfBlockTxs, packUint 4) = view (open_db old_blocks) (cfBlockTxs, packUint 4).
Proof.
  refine (Disconnect_atomic (P := plain_parser) (V := leb) 2 4 (open_db old_blocks) _ _
            (or_introl (surjective_pairing _)) _ (cfBlockTxs, packUint 4)).
  vm_compute. discriminate.
Defined.

(** With three blocks kept, block 7 removes the blocks up to 4 down to the gap at 2. *)
Lemma cleanupBlockTxs_exact_witness :
  exists k s', (k <= 4)%nat /\
    cleanupBlockTxs (P := plain_parser) block7 (open_db old_blocks) = (set_db (Some s') (open_db old_blocks), Ret tt) /\
    (k = O \/ old_blocks !! (cfBlockTxs, packUint (Z.of_nat k)) = None).
Proof.
  destruct (cleanupBlockTxs_exact (P := plain_parser) block7 (open_db old_blocks) old_blocks mem_store_reliable eq_refl)
    as (k & s' & H1 & H2 & H3 & _); [split; [discriminate|reflexivity]|].
  exists k, s'. split; [exact H1|]. split; [exact H2|exact H3].
Defined.

(** A block with sixteen outputs of one transaction to an address, so that its balance
    has an index. *)
Definition id3 : bytes := repeat Byte.x03 32.

Definition block6 : Block.t :=
  Block.mk (hex_EncodeToString (repeat Byte.xbb 32)) EmptyString EmptyString 6 1 300 1500000000
    [Tx.mk EmptyString (hex_EncodeToString id3) 1 0 [Vin.mk "00" EmptyString 0 EmptyString 0 []]
       (repeat (pay 10 "76a9") 16) 0 0 0 [] [] 0 NoSpecificData].

(** Block 6 is connected, block 7 is connected and disconnected again. *)
Definition back_at_6 : RocksDB * go unit :=
  (do! ConnectBlock (P := plain_parser) (V := leb) 77 block6 in
   do! ConnectBlock (P := plain_parser) (V := leb) 77 block7 in
   DisconnectBlockRangeBitcoinType (P := plain_parser) (V := leb) 7 7) (open_db ∅).

(** Disconnecting a block can leave an output that no longer exists: when an output is
    spent in the block that creates it and its address has at least sixteen utxos, the
    disconnect puts the output back into the utxos of the address but not into their
    index, does not find it when it disconnects the transaction that created it, and
    stores it, although the balance is right and the transaction is gone. *)
Theorem Disconnect_keeps_phantom_utxo :
  back_at_6.2 = Ret tt /\
  getTxAddresses (V := leb) back_at_6.1 id1 = Ret None /\
  exists ab, GetAddrDescBalance (P := plain_parser) (V := leb) back_at_6.1 [Byte.x76; Byte.xa9] DetailUTXO = Ret (Some ab) /\
    BalanceSat ab = 160 /\ unspent_sum (Utxos ab) = 1160 /\
    existsb (is_outpoint id1 0) (Utxos ab) = true.
Proof.
  split; [vm_compute; reflexivity|]. split; [vm_compute; reflexivity|].
  eexists. split; [vm_compute; reflexivity|]. vm_compute. repeat split; reflexivity.
Qed.

(** The number of shielded outputs of a stored transaction is the number of its
    shielded inputs: a transaction with two shielded outputs and no shielded input is
    stored with none. *)
Theorem ShieldOuts_counts_inputs :
  let tx := Tx.mk EmptyString (hex_EncodeToString id1) 1 0 [] [] 0 0 0 [] ["a"%string; "b"%string] 5 NoSpecificData in
  let block := Block.mk "aa" EmptyString EmptyString 7 1 300 1500000000 [tx] in
  let b := (processAddressesBitcoinType (P := plain_parser) (V := leb) (open_db ∅) block (before (open_db ∅))).1 in
  zlen (Tx.VShieldOut tx) = 2 /\ ShieldOuts <$> (txAddressesOf b !! id1) = Some 0.
Proof. vm_compute. split; reflexivity. Qed.
