(* ===== verification/Undo.v ===== *)
(** Undoing the accounting of a block, output by output: the steps of
    [DisconnectBlockRangeBitcoinType] as a list of events, and the invariant that ties
    the balances and the transactions of its maps to the events done so far. *)
From stdpp Require Import base list gmap strings.
From Stdlib Require Import ZArith Lia.
From S2P Require Import Prelude Types Store Vlq Codec InternalState AddrBalance TxAddresses RocksDB.
From S2P Require Import BitcoinIndex Ledger IndexInvariant EthIndex Connect.

Open Scope Z_scope.
Open Scope go_scope.

(** * Searching a balance with utxos appended behind its index *)

Lemma mark_from_app id v us1 us2 : (exists u, u ∈ us1 /\ Utxo.Vout u = v) ->
  mark_from id v (us1 ++ us2) = mark_from id v us1 ++ us2.
Proof.
  intros (u & Hu & Hv). induction us1 as [|w us1 IH]; [by apply not_elem_of_nil in Hu|]. cbn [app mark_from].
  destruct (Z.eqb_spec (Utxo.Vout w) v) as [|Hw]; [by case_bool_decide|].
  rewrite IH; [done|]. apply elem_of_cons in Hu as [-> |?]; done.
Qed.

Lemma mark_ref_app id v us1 us2 : (exists u, u ∈ us1 /\ is_outpoint id v u = true) ->
  mark_ref id v (us1 ++ us2) = mark_ref id v us1 ++ us2.
Proof.
  intros (u & Hu & Hv). induction us1 as [|w us1 IH]; [by apply not_elem_of_nil in Hu|]. cbn [app mark_ref].
  destruct (is_outpoint id v w) eqn:Ew; [done|]. rewrite IH; [done|].
  apply elem_of_cons in Hu as [-> |?]; [congruence|done].
Qed.

(** The utxos of the index, then appended ones; with an index in place none of these is
    of a transaction [K]. *)
Definition searchable (K : bytes -> Prop) (ab : AddrBalance) : Prop :=
  exists us0 extra, Utxos ab = us0 ++ extra /\ index_ok (set_Utxos us0 ab) /\ grouped us0 /\
    (utxosMap ab = ∅ \/ Forall (fun u => ~ K (Utxo.BtxID u)) extra).

Lemma searchable_same K ab ab' : Utxos ab' = Utxos ab -> utxosMap ab' = utxosMap ab ->
  searchable K ab -> searchable K ab'.
Proof.
  intros Hu Hm (us0 & extra & E & Hi & Hg & Hx). exists us0, extra. rewrite Hu, Hm. split_and!; try done.
  unfold index_ok in *. cbn [Utxos utxosMap set_Utxos] in *. by rewrite Hm.
Qed.

Lemma searchable_bal_ok K O ab : bal_ok O ab -> searchable K ab.
Proof.
  intros [Hi Hg _ _ _ _ _]. exists (Utxos ab), []. rewrite app_nil_r. split_and!; try done; by right.
Qed.

Lemma searchable_append K ab u : searchable K ab -> (utxosMap ab = ∅ \/ ~ K (Utxo.BtxID u)) ->
  searchable K (set_Utxos (Utxos ab ++ [u]) ab).
Proof.
  intros (us0 & extra & E & Hi & Hg & Hx) Hu. exists us0, (extra ++ [u]). cbn [Utxos utxosMap set_Utxos].
  split_and!; [by rewrite E, app_assoc|done|done|]. destruct Hx, Hu; auto. right.
  apply Forall_app. split; [done|]. by constructor.
Qed.

Lemma searchable_mark K ab u : searchable K ab -> Forall (fun x => Utxo.BtxID x <> []) (Utxos ab) -> u ∈ Utxos ab ->
  K (Utxo.BtxID u) -> Utxo.BtxID u <> [] ->
  let ab' := set_Utxos (mark_ref (Utxo.BtxID u) (Utxo.Vout u) (Utxos ab)) ab in
  markUtxoAsSpent ab (Utxo.BtxID u) (Utxo.Vout u) = Ret ab' /\ searchable K ab'.
Proof.
  intros (us0 & extra & E & Hi & Hg & Hx) Hids Hu HK Hid ab'. pose proof Hids as Hall. rewrite E in Hids. apply Forall_app in Hids as [Hids0 Hidsx].
  destruct (decide (utxosMap ab = ∅)) as [Hm|Hm].
  - split; [unfold markUtxoAsSpent; rewrite decide_True, mark_linear_ref by done; done|].
    exists [], (Utxos ab'). split_and!; [done|done|intros i j k ? ? ?; by rewrite lookup_nil|by left].
  - destruct Hx as [|Hx]; [done|].
    assert (u ∈ us0) as Hin.
    { rewrite E in Hu. apply elem_of_app in Hu as [?|Hin]; [done|]. rewrite Forall_forall in Hx. by destruct (Hx u Hin). }
    pose proof (markUtxoAsSpent_ref (set_Utxos us0 ab) (Utxo.BtxID u) (Utxo.Vout u) Hi Hg Hid Hids0) as Href.
    split.
    2:{ exists (mark_ref (Utxo.BtxID u) (Utxo.Vout u) us0), extra. unfold ab'. cbn [Utxos utxosMap set_Utxos].
        split_and!; [| |by apply mark_ref_grouped|by right].
        - rewrite E. apply mark_ref_app. exists u. split; [done|]. by apply is_outpoint_true.
        - unfold index_ok in *. cbn [Utxos utxosMap set_Utxos] in *. rewrite mark_ref_length.
          case_decide; [done|]. intros k. rewrite Hi. symmetry. apply find_txid_ids, mark_ref_ids. }
    unfold markUtxoAsSpent in *. cbn [Utxos utxosMap set_Utxos] in Href. rewrite decide_False in * by done.
    unfold index_ok in Hi. cbn [Utxos utxosMap set_Utxos] in Hi. rewrite decide_False in Hi by (intros ?; by rewrite decide_True in Hi).
    rewrite Hi in *. destruct (find_txid (Utxo.BtxID u) us0) as [i|] eqn:Ef.
    2:{ apply find_txid_None in Ef. rewrite Forall_forall in Ef. by destruct (Ef u Hin). }
    apply find_txid_Some in Ef as (Hbefore & w & Hw & _). pose proof (lookup_lt_Some _ _ _ Hw) as Hlt.
    rewrite E, take_app_le, drop_app_le by lia. rewrite mark_from_app.
    2:{ exists u. split; [|done]. rewrite <- (take_drop i us0) in Hin. apply elem_of_app in Hin as [Hin|?]; [|done].
        rewrite Forall_forall in Hbefore. by destruct (Hbefore u Hin). }
    unfold ab'. rewrite app_assoc. assert (take i us0 ++ mark_from (Utxo.BtxID u) (Utxo.Vout u) (drop i us0) =
      mark_ref (Utxo.BtxID u) (Utxo.Vout u) us0) as -> by (by injection Href).
    rewrite E, mark_ref_app; [done|]. exists u. split; [done|]. by apply is_outpoint_true.
Qed.

(** * Events *)

(** [Refund sp o v ad]: the input [o] of the transaction [sp] is given back to [ad];
    [Revoke id i v ad]: the output [i] of the transaction [id] is taken from it. *)
Inductive event :=
  | Refund (sp : bytes) (o : outpoint) (v : Z) (ad : bytes)
  | Revoke (id : bytes) (i : nat) (v : Z) (ad : bytes).

Definition ev_tx (e : event) : bytes := match e with Refund sp _ _ _ => sp | Revoke id _ _ _ => id end.
Definition ev_ad (e : event) : bytes := match e with Refund _ _ _ ad => ad | Revoke _ _ _ ad => ad end.

#[global] Instance outpoint_eq_dec : EqDecision outpoint.
Proof. solve_decision. Defined.

#[global] Instance event_eq_dec : EqDecision event.
Proof. solve_decision. Defined.

Definition unspend_output (o : TxOutput.t) : TxOutput.t := TxOutput.mk (TxOutput.AddrDesc o) false (TxOutput.ValueSat o).

(** The outputs of the transaction [id] after an event. *)
Definition undo_outputs (id : bytes) (outs : list TxOutput.t) (e : event) : list TxOutput.t :=
  match e with
  | Refund _ o _ _ => if decide (op_btxID o = id) then alter unspend_output (Z.to_nat (op_index o)) outs else outs
  | Revoke _ _ _ _ => outs
  end.

Definition undo_record (l : list event) (id : bytes) (ta : TxAddresses) : TxAddresses :=
  set_Outputs (foldl (undo_outputs id) (Outputs ta) l) ta.

Section undo.
Context `{DB : Store} `{P : BlockChainParser} `{V : Vlq} `{SL : ScriptLaws}.

(** The database the block is in, and the transactions of the block. *)
Context (d : RocksDB) (K : bytes -> Prop).

(** The addresses own [O1] in that database. *)
Context (O1 : bytes -> Utxo.t -> Prop).

Hypothesis read_balance : forall ad, exists r, GetAddrDescBalance d ad DetailUTXOIndexed = Ret r.
Hypothesis read_tx : forall id, exists r, getTxAddresses d id = Ret r.

Definition dc_view (s : disconnectState) (ad : bytes) : AddrBalance :=
  match dc_balances s !! ad with
  | Some (Some B) => B
  | Some None => emptyBalance
  | None => db_balance d ad
  end.

Definition dc_tx (s : disconnectState) (id : bytes) : option TxAddresses :=
  match dc_txs s !! id with Some ta => Some ta | None => db_tx d id end.

Definition has_balance (ad : bytes) : Prop :=
  exists B, GetAddrDescBalance d ad DetailUTXOIndexed = Ret (Some B).

(** The outputs an address owns after the events [l]. *)
Definition owners (l : list event) (ad : bytes) (u : Utxo.t) : Prop :=
  (O1 ad u \/
   IsAddrDescIndexable ad = true /\ 0 <= Utxo.Vout u /\
   (exists sp, Refund sp (mkOutpoint (Utxo.BtxID u) (Utxo.Vout u)) (Utxo.ValueSat u) ad ∈ l) /\
   exists ta, db_tx d (Utxo.BtxID u) = Some ta /\ Height ta = Utxo.Height u) /\
  forall v, Revoke (Utxo.BtxID u) (Z.to_nat (Utxo.Vout u)) v ad ∉ l.

(** What the events [l] give back to an address, and the transactions they are of. *)
Definition refunded (ad : bytes) (e : event) : Z :=
  match e with Refund _ _ v a => if decide (a = ad) then v else 0 | Revoke _ _ _ _ => 0 end.

Definition sent (l : list event) (ad : bytes) : Z :=
  if IsAddrDescIndexable ad then sumZ (map (refunded ad) l) else 0.

Definition touched (l : list event) (ad : bytes) : gset bytes :=
  if IsAddrDescIndexable ad then list_to_set (map ev_tx (filter (fun e => ev_ad e = ad) l)) else ∅.

Lemma sent_snoc l e ad : sent (l ++ [e]) ad = sent l ad + (if IsAddrDescIndexable ad then refunded ad e else 0).
Proof.
  unfold sent. destruct (IsAddrDescIndexable ad); [|done]. rewrite map_app, sumZ_app. unfold sumZ. simpl. lia.
Qed.

Lemma touched_snoc l e ad : touched (l ++ [e]) ad =
  if IsAddrDescIndexable ad then (if decide (ev_ad e = ad) then {[ev_tx e]} ∪ touched l ad else touched l ad) else ∅.
Proof.
  unfold touched. destruct (IsAddrDescIndexable ad); [|done]. rewrite filter_app, map_app.
  cbn [filter list_filter]. destruct (decide (ev_ad e = ad)); simpl.
  - apply set_eq. intros x. rewrite list_to_set_app. set_solver.
  - by rewrite app_nil_r.
Qed.

(** The state after the events [l]. *)
Record undone (l : list event) (s : disconnectState) : Prop := {
  un_acct : forall ad, acct (owners l ad) (dc_view s ad);
  un_search : forall ad, searchable K (dc_view s ad);
  un_map : forall ad, utxosMap (dc_view s ad) = utxosMap (db_balance d ad);
  un_sent : forall ad, SentSat (dc_view s ad) = SentSat (db_balance d ad) - sent l ad;
  un_txs : forall ad, Txs (dc_view s ad) = u32 (Txs (db_balance d ad) - Z.of_nat (size (touched l ad)));
  un_outs : forall id, dc_tx s id = undo_record l id <$> db_tx d id;
  un_some : forall ad r, dc_balances s !! ad = Some r -> is_Some r <-> has_balance ad;
}.

Hypothesis O1_indexable : forall ad u, O1 ad u -> IsAddrDescIndexable ad = true.
Hypothesis O1_vout : forall ad u, O1 ad u -> 0 <= Utxo.Vout u.

Lemma owners_indexable l ad u : owners l ad u -> IsAddrDescIndexable ad = true.
Proof. intros [[H|[H _]] _]; [by eapply O1_indexable|done]. Qed.

(** An event changes nothing for the other addresses, nor for one that is not indexed. *)
Lemma owners_other l e ad u : ev_ad e <> ad \/ IsAddrDescIndexable ad = false ->
  owners (l ++ [e]) ad u <-> owners l ad u.
Proof.
  intros [He|He].
  - unfold owners. setoid_rewrite elem_of_app. setoid_rewrite list_elem_of_singleton.
    split; intros [HO HR]; (split; [|intros v; specialize (HR v); try tauto]).
    + destruct HO as [|(? & ? & (sp & [?| <-]) & ?)]; [by left|right; eauto|done].
    + destruct HO as [|(? & ? & (sp & ?) & ?)]; [by left|right; eauto 10].
    + intros [?| <-]; [done|]. by apply He.
  - split; intros H%owners_indexable; congruence.
Qed.

Lemma sent_other l e ad : ev_ad e <> ad \/ IsAddrDescIndexable ad = false -> sent (l ++ [e]) ad = sent l ad.
Proof.
  rewrite sent_snoc. intros [He|He]; [|rewrite He; lia].
  destruct (IsAddrDescIndexable ad), e; simpl in *; rewrite ?decide_False by done; lia.
Qed.

Lemma touched_other l e ad : ev_ad e <> ad \/ IsAddrDescIndexable ad = false -> touched (l ++ [e]) ad = touched l ad.
Proof.
  rewrite touched_snoc. unfold touched. intros [He|He]; [|by rewrite He]. destruct (IsAddrDescIndexable ad); [|done].
  by rewrite decide_False.
Qed.

(** An event of an address that is not indexed. *)
Lemma undone_skip l e s s' :
  undone l s -> IsAddrDescIndexable (ev_ad e) = false -> dc_balances s' = dc_balances s ->
  (forall id, dc_tx s' id = undo_record (l ++ [e]) id <$> db_tx d id) -> undone (l ++ [e]) s'.
Proof.
  intros [H1 H2 H3 H4 H5 H6 H7] He Hb Ht.
  assert (forall ad, ev_ad e <> ad \/ IsAddrDescIndexable ad = false) as Ho.
  { intros ad. destruct (decide (ev_ad e = ad)) as [<-|]; auto. }
  assert (forall ad, dc_view s' ad = dc_view s ad) as Hv by (intros ad; unfold dc_view; by rewrite Hb).
  split; intros *; rewrite ?Hv; try done.
  - eapply acct_iff; [|apply H1]. intros u. by rewrite owners_other.
  - by rewrite sent_other.
  - by rewrite touched_other.
  - rewrite Hb. apply H7.
Qed.

(** An event that changes the balance of its address. *)
Lemma undone_step l e s s' B' :
  let ad := ev_ad e in let B := dc_view s ad in
  undone l s -> IsAddrDescIndexable ad = true ->
  (forall x, dc_view s' x = if decide (ad = x) then B' else dc_view s x) ->
  (forall id, dc_tx s' id = undo_record (l ++ [e]) id <$> db_tx d id) ->
  (forall x r, dc_balances s' !! x = Some r -> is_Some r <-> has_balance x) ->
  acct (owners (l ++ [e]) ad) B' -> searchable K B' -> utxosMap B' = utxosMap B ->
  SentSat B' = SentSat B - refunded ad e ->
  Txs B' = (if decide (ev_tx e ∈ touched l ad) then Txs B else u32 (Txs B - 1)) ->
  undone (l ++ [e]) s'.
Proof.
  intros ad B [H1 H2 H3 H4 H5 H6 H7] Hi Hv Ht Hs Ha Hse Hm HS HT.
  assert (forall x, ad <> x -> ev_ad e <> x \/ IsAddrDescIndexable x = false) as Ho by (intros x; by left).
  split; [..|exact Ht|exact Hs]; intros x; rewrite Hv; (destruct (decide (ad = x)) as [<-|Hx];
    [|rewrite ?sent_other, ?touched_other by auto; try done]).
  - done.
  - eapply acct_iff; [|apply H1]. intros u. by rewrite owners_other by auto.
  - done.
  - rewrite Hm. apply H3.
  - rewrite HS, sent_snoc, Hi. unfold B. rewrite H4. lia.
  - rewrite HT, touched_snoc, Hi. fold ad. rewrite (decide_True (P := ad = ad)) by done.
    destruct (decide (ev_tx e ∈ touched l ad)) as [Hin|Hin].
    + assert ({[ev_tx e]} ∪ touched l ad = touched l ad) as -> by (apply set_eq; set_solver). apply H5.
    + unfold B. rewrite H5, size_union, size_singleton by set_solver.
      unfold u32. rewrite Zminus_mod_idemp_l. f_equal. lia.
Qed.

(** ** The steps of the code *)

Lemma getAddressBalance_spec s ad :
  (forall x r, dc_balances s !! x = Some r -> is_Some r <-> has_balance x) -> has_balance ad ->
  exists s', getAddressBalance d ad s = (s', Ret (Some (dc_view s ad))) /\
    dc_wb s' = dc_wb s /\ dc_txs s' = dc_txs s /\ (forall x, dc_view s' x = dc_view s x) /\
    (forall x r, dc_balances s' !! x = Some r -> is_Some r <-> has_balance x).
Proof.
  intros Hs Hb. unfold getAddressBalance. sgostep. unfold dc_view at 1. destruct (dc_balances s !! ad) as [r|] eqn:E.
  - exists s. destruct r as [B|]; [done|]. apply Hs in E as [_ E]. by destruct (E Hb).
  - destruct Hb as [B HB]. rewrite HB. eexists. split; [unfold db_balance; by rewrite HB|].
    cbn [dc_wb dc_txs dc_balances]. split_and!; [done|done|..]; intros x.
    + unfold dc_view. cbn [dc_balances]. destruct (decide (ad = x)) as [<-|]; [|by rewrite lookup_insert_ne].
      rewrite lookup_insert_eq, E. unfold db_balance. by rewrite HB.
    + intros r. destruct (decide (ad = x)) as [<-|]; [|rewrite lookup_insert_ne by done; apply Hs].
      rewrite lookup_insert_eq. intros [= <-]. split; [by exists B|done].
Qed.

Lemma putDcBalance_spec s ad B : has_balance ad ->
  (forall x r, dc_balances s !! x = Some r -> is_Some r <-> has_balance x) ->
  let s' := (putDcBalance ad B s).1 in
  (forall x, dc_view s' x = if decide (ad = x) then B else dc_view s x) /\
  (forall x r, dc_balances s' !! x = Some r -> is_Some r <-> has_balance x).
Proof.
  intros Hb Hs s'. subst s'. unfold putDcBalance. cbn [fst]. split; intros x; unfold dc_view; cbn [dc_balances].
  - case_decide as E; [subst; by rewrite lookup_insert_eq|by rewrite lookup_insert_ne].
  - intros r. destruct (decide (ad = x)) as [<-|]; [|rewrite lookup_insert_ne by done; apply Hs].
    rewrite lookup_insert_eq. intros [= <-]. done.
Qed.

(** The input [o] can be given back. *)
Record refundable (l : list event) (o : outpoint) (v : Z) (ad : bytes) : Prop := {
  rf_known : (exists ta, db_tx d (op_btxID o) = Some ta /\ (Z.to_nat (op_index o) < length (Outputs ta))%nat /\
                         0 <= op_index o) \/
             (db_tx d (op_btxID o) = None /\ IsAddrDescIndexable ad = false);
  rf_id : op_btxID o <> [];
  rf_value : IsAddrDescIndexable ad = true -> 0 <= v;
  rf_balance : IsAddrDescIndexable ad = true -> has_balance ad;
  rf_fresh : forall u, owners l ad u -> utxo_key u <> (op_btxID o, op_index o);
  rf_kept : forall v, Revoke (op_btxID o) (Z.to_nat (op_index o)) v ad ∉ l;
  rf_sent : IsAddrDescIndexable ad = true -> sent l ad + v <= SentSat (db_balance d ad);
  rf_search : IsAddrDescIndexable ad = true -> utxosMap (db_balance d ad) = ∅ \/ ~ K (op_btxID o);
}.

(** The output [i] of [id] can be taken away. *)
Record revocable (l : list event) (id : bytes) (i : nat) (v : Z) (ad : bytes) : Prop := {
  rv_id : id <> [] /\ K id;
  rv_index : Z.of_nat i < 2 ^ 31;
  rv_balance : IsAddrDescIndexable ad = true -> has_balance ad;
  rv_owned : IsAddrDescIndexable ad = true -> exists h, owners l ad (Utxo.mk id (Z.of_nat i) h v);
}.

Lemma undo_record_snoc l e id ta :
  undo_record (l ++ [e]) id ta = set_Outputs (undo_outputs id (Outputs (undo_record l id ta)) e) (undo_record l id ta).
Proof. unfold undo_record. rewrite foldl_app. by destruct ta. Qed.

Lemma undo_outputs_length id l outs : length (foldl (undo_outputs id) outs l) = length outs.
Proof.
  revert outs. induction l as [|e l IH]; intros outs; [done|]. simpl. rewrite IH.
  destruct e; simpl; [|done]. case_decide; [apply length_alter|done].
Qed.

Lemma unspendOutput_spec l s sp o v ad : undone l s -> refundable l o v ad ->
  exists s' h, unspendOutput d o s = (s', Ret h) /\ dc_wb s' = dc_wb s /\ dc_balances s' = dc_balances s /\
    (forall id, dc_tx s' id = undo_record (l ++ [Refund sp o v ad]) id <$> db_tx d id) /\
    (forall ta, db_tx d (op_btxID o) = Some ta -> h = Height ta).
Proof.
  intros HU HR. pose proof (un_outs _ _ HU) as Ho. unfold unspendOutput. rewrite (sbind_eq sget _ s s s) by done.
  rewrite (sbind_eq _ _ s s (dc_tx s (op_btxID o))).
  2:{ unfold dc_tx. destruct (dc_txs s !! op_btxID o) as [sa|]; [done|].
      destruct (read_tx (op_btxID o)) as [r Hr]. unfold slift, db_tx. rewrite Hr. by destruct r. }
  rewrite Ho.
  destruct (rf_known _ _ _ _ HR) as [(ta & Hta & Hlt & Hge)|[Hnone Hni]].
  2:{ rewrite Hnone. exists s, 0. split_and!; try done. intros id. rewrite Ho.
      destruct (db_tx d id) as [ta|] eqn:E; [|done]. simpl. rewrite undo_record_snoc. unfold undo_outputs.
      rewrite decide_False by congruence. by destruct (undo_record l id ta). }
  rewrite Hta. cbn [fmap option_fmap option_map]. set (sa := undo_record l (op_btxID o) ta).
  assert (length (Outputs sa) = length (Outputs ta)) as Hlen by apply undo_outputs_length.
  destruct (lookup_lt_is_Some_2 (Outputs sa) (Z.to_nat (op_index o))) as [out Hout]; [lia|].
  unfold go_index. rewrite (proj2 (Z.leb_le _ _) Hge), Hout. cbn [must]. sgostep.
  eexists _, _. split; [reflexivity|]. cbn [dc_wb dc_balances]. split_and!; [done|done| |].
  - intros id. unfold dc_tx. cbn [dc_txs]. destruct (decide (op_btxID o = id)) as [<-|Hid].
    + rewrite lookup_insert_eq, Hta. simpl. rewrite undo_record_snoc. unfold undo_outputs.
      rewrite decide_True by done. fold sa. do 2 f_equal. by apply (alter_insert_lookup unspend_output).
    + rewrite lookup_insert_ne by done. fold (dc_tx s id). rewrite Ho. destruct (db_tx d id) as [ta'|]; [|done]. simpl.
      rewrite undo_record_snoc. unfold undo_outputs. rewrite decide_False by done. by destruct (undo_record l id ta').
  - intros ta' [= <-]. done.
Qed.

Lemma owners_refund l sp o v ad h x : refundable l o v ad -> IsAddrDescIndexable ad = true ->
  (forall ta, db_tx d (op_btxID o) = Some ta -> h = Height ta) ->
  owners (l ++ [Refund sp o v ad]) ad x <-> owners l ad x \/ x = Utxo.mk (op_btxID o) (op_index o) h v.
Proof.
  intros HR Hi Hh. destruct (rf_known _ _ _ _ HR) as [(ta & Hta & Hlt & Hge)|[_ Hni]]; [|congruence].
  specialize (Hh ta Hta). subst h. unfold owners. setoid_rewrite elem_of_app. setoid_rewrite list_elem_of_singleton.
  split.
  - intros [HO HR']. destruct HO as [HO|(_ & Hv & (sp' & [Hin|E]) & Hta')].
    + left. split; [by left|]. intros w Hw. apply (HR' w). by left.
    + left. split; [|intros w Hw; apply (HR' w); by left]. right. eauto 10.
    + right. injection E as -> Eo Ev. rewrite <- Eo in Hta. simpl in Hta. destruct Hta' as (ta' & Hta' & Hth).
      rewrite Hta in Hta'. injection Hta' as <-. subst o. destruct x; simpl in *. congruence.
  - intros [[HO HR']| ->].
    + split; [|intros w [Hw|]; [by apply (HR' w)|done]]. destruct HO as [|(? & ? & (sp' & ?) & ?)]; [by left|right; eauto 10].
    + simpl. split; [|intros w [Hw|]; [by apply (rf_kept _ _ _ _ HR w)|done]]. right. split_and!; [done|done| |by eexists].
      exists sp. right. by destruct o.
Qed.

Lemma disconnectInput_spec l s sp inputs i o v ad addrs :
  undone l s -> zlen ad <> 0 -> inputs !! i = Some o -> refundable l o v ad ->
  (IsAddrDescIndexable ad = true -> ad ∈ addrs <-> sp ∈ touched l ad) ->
  exists s', disconnectInput d inputs i v ad addrs s = (s', Ret ({[ad]} ∪ addrs)) /\
    dc_wb s' = dc_wb s /\ undone (l ++ [Refund sp o v ad]) s'.
Proof.
  intros HU Hz Hi HR Hex. unfold disconnectInput. destruct (Z.eqb_spec (zlen ad) 0); [done|].
  rewrite Hi. rewrite (sbind_eq _ _ s s o) by done.
  destruct (unspendOutput_spec l s sp o v ad HU HR) as (s1 & h & E1 & W1 & B1 & T1 & Hh). rewrite (sbind_eq _ _ _ _ _ E1).
  destruct (IsAddrDescIndexable ad) eqn:Ei.
  2:{ exists s1. split; [done|]. split; [done|]. by apply (undone_skip l _ s). }
  assert (forall x, dc_view s1 x = dc_view s x) as V1 by (intros x; unfold dc_view; by rewrite B1).
  destruct (getAddressBalance_spec s1 ad) as (s2 & E2 & W2 & T2 & V2 & S2).
  { rewrite B1. apply (un_some _ _ HU). } { by apply (rf_balance _ _ _ _ HR). }
  rewrite (sbind_eq _ _ _ _ _ E2), V1.
  set (B' := restoreUtxo _ _ _ _ _). destruct (putDcBalance_spec s2 ad B') as [V3 S3]; [by apply (rf_balance _ _ _ _ HR)|done|].
  rewrite (sbind_eq _ _ s2 (putDcBalance ad B' s2).1 tt) by done.
  eexists. split; [reflexivity|]. split; [unfold putDcBalance; cbn [fst dc_wb]; congruence|].
  set (u := Utxo.mk (op_btxID o) (op_index o) h v). set (exist := bool_decide (ad ∈ addrs)) in *.
  assert (0 <= op_index o) as Hge by (destruct (rf_known _ _ _ _ HR) as [(? & _ & _ & ?)|[_ ?]]; [done|congruence]).
  assert (Utxos B' = Utxos (dc_view s ad) ++ [u] /\ BalanceSat B' = BalanceSat (dc_view s ad) + v /\
          utxosMap B' = utxosMap (dc_view s ad)) as (HBu & HBb & HBm)
    by (unfold B', restoreUtxo, decTxs; by destruct exist).
  apply (undone_step l _ s _ B'); try done.
  - intros x. cbn [ev_ad]. by rewrite V3, V2, V1.
  - intros id. rewrite <- T1. unfold dc_tx, putDcBalance. cbn [fst dc_txs]. by rewrite T2.
  - cbn [ev_ad]. eapply acct_iff; [intros x; symmetry; by apply (owners_refund l sp o v ad h)|].
    apply (acct_same _ (set_BalanceSat (BalanceSat (dc_view s ad) + Utxo.ValueSat u) (set_Utxos (Utxos (dc_view s ad) ++ [u]) (dc_view s ad))));
      [done|done|]. apply (acct_restored (owners l ad) (dc_view s ad) u); try done; try (by apply HR); apply HU.
  - eapply (searchable_same K (set_Utxos (Utxos (dc_view s ad) ++ [u]) (dc_view s ad))); [done|done|].
    apply searchable_append; [apply HU|]. rewrite (un_map _ _ HU). by apply (rf_search _ _ _ _ HR).
  - cbn [ev_ad refunded]. rewrite decide_True by done. unfold B', restoreUtxo. pose proof (un_sent _ _ HU ad) as HS.
    pose proof (rf_sent _ _ _ _ HR Ei). unfold clampZero, decTxs. destruct exist; cbn [SentSat set_Utxos set_BalanceSat set_SentSat set_Txs].
    all: destruct (Z.ltb_spec (SentSat (dc_view s ad) - v) 0); [lia|done].
  - cbn [ev_ad ev_tx]. unfold B', restoreUtxo, decTxs, exist. rewrite (bool_decide_ext _ _ (Hex eq_refl)). by case_bool_decide; case_decide.
Qed.

Lemma owners_revoke l id i h v ad B x : acct (owners l ad) B -> owners l ad (Utxo.mk id (Z.of_nat i) h v) ->
  owners (l ++ [Revoke id i v ad]) ad x <-> owners l ad x /\ x <> Utxo.mk id (Z.of_nat i) h v.
Proof.
  intros Ha Hu. split.
  - intros [HO HR]. split.
    + split; [|intros w Hw; apply (HR w), elem_of_app; by left].
      destruct HO as [|(? & ? & (sp & [?|E%list_elem_of_singleton]%elem_of_app) & ?)]; [by left|right; eauto 10|done].
    + intros ->. apply (HR v), elem_of_app. right. cbn [Utxo.BtxID Utxo.Vout]. rewrite Nat2Z.id. left.
  - intros [Hx Hne]. pose proof Hx as Hx'. apply (ac_owned _ _ Ha), elem_of_unspent in Hx' as [_ Hv].
    destruct Hx as [HO HR]. split.
    + destruct HO as [|(? & ? & (sp & Hin) & ?)]; [by left|right]. split_and!; try done. exists sp. apply elem_of_app. by left.
    + intros w [Hw|Hw%list_elem_of_singleton]%elem_of_app; [by apply (HR w)|]. injection Hw as E1 E2 _.
      apply Hne, (acct_unique _ _ _ _ Ha); [by split|done|]. unfold utxo_key. cbn [Utxo.BtxID Utxo.Vout]. f_equal; [done|lia].
Qed.

Lemma disconnectOutput_spec l s id i v ad addrs :
  undone l s -> zlen ad <> 0 -> revocable l id i v ad ->
  (IsAddrDescIndexable ad = true -> ad ∈ addrs <-> id ∈ touched l ad) ->
  exists s', disconnectOutput d id i v ad addrs s = (s', Ret ({[ad]} ∪ addrs)) /\
    dc_wb s' = dc_wb s /\ undone (l ++ [Revoke id i v ad]) s'.
Proof.
  intros HU Hz HR Hex. unfold disconnectOutput. destruct (Z.eqb_spec (zlen ad) 0); [done|].
  assert (forall x, dc_tx s x = undo_record (l ++ [Revoke id i v ad]) x <$> db_tx d x) as T1.
  { intros x. rewrite (un_outs _ _ HU). destruct (db_tx d x) as [ta|]; [|done]. simpl. rewrite undo_record_snoc.
    by destruct (undo_record l x ta). }
  destruct (IsAddrDescIndexable ad) eqn:Ei.
  2:{ exists s. split; [done|]. split; [done|]. by apply (undone_skip l _ s). }
  pose proof (rv_balance _ _ _ _ _ HR Ei) as Hb. destruct (rv_owned _ _ _ _ _ HR Ei) as [h Hown].
  destruct (rv_id _ _ _ _ _ HR) as [Hid HK]. pose proof (rv_index _ _ _ _ _ HR) as Hix.
  destruct (getAddressBalance_spec s ad) as (s2 & E2 & W2 & T2 & V2 & S2); [apply (un_some _ _ HU)|done|].
  rewrite (sbind_eq _ _ _ _ _ E2). set (u := Utxo.mk id (Z.of_nat i) h v) in *. set (B := dc_view s ad).
  destruct (acct_removed (owners l ad) B u (un_acct _ _ HU ad) Hown) as [Hacct Hle].
  set (exist := bool_decide (ad ∈ addrs)). set (B1 := set_BalanceSat _ _).
  assert (Utxos B1 = Utxos B /\ utxosMap B1 = utxosMap B /\ SentSat B1 = SentSat B /\
    BalanceSat B1 = BalanceSat B - v /\ Txs B1 = if exist then Txs B else u32 (Txs B - 1)) as (EU & EM & ES & EB & ET).
  { unfold B1, clampZero. cbn [Utxo.ValueSat u] in Hle. unfold decTxs.
    destruct exist; cbn [BalanceSat set_Txs]; (destruct (Z.ltb_spec (BalanceSat B - v) 0); [lia|done]). }
  pose proof (proj1 (proj1 (elem_of_unspent _ _) (proj2 (ac_owned _ _ (un_acct _ _ HU ad) u) Hown))) as Hin.
  destruct (searchable_mark K B1 u) as [Hm Hs]; try done; rewrite ?EU; try done.
  { apply (searchable_same K B); [done|done|apply HU]. } { apply (ac_ids _ _ (un_acct _ _ HU ad)). }
  cbn [Utxo.BtxID Utxo.Vout u] in Hm, Hs. rewrite i32_id, Hm by (unfold in_i32; lia). rewrite EU in *.
  set (B' := set_Utxos _ _) in *. rewrite (sbind_eq _ _ s2 s2 B') by done.
  destruct (putDcBalance_spec s2 ad B') as [V3 S3]; [done|done|].
  rewrite (sbind_eq _ _ s2 (putDcBalance ad B' s2).1 tt) by done.
  eexists. split; [reflexivity|]. split; [unfold putDcBalance; cbn [fst dc_wb]; congruence|].
  apply (undone_step l _ s _ B'); try done.
  - intros x. cbn [ev_ad]. by rewrite V3, V2.
  - intros x. rewrite <- T1. unfold dc_tx, putDcBalance. cbn [fst dc_txs]. by rewrite T2.
  - cbn [ev_ad]. eapply acct_iff; [intros x; symmetry; by apply (owners_revoke l id i h v ad B x (un_acct _ _ HU ad))|].
    apply (acct_same _ (removed B u)); [done|done|exact Hacct].
  - cbn [ev_ad refunded]. unfold B'. cbn [SentSat set_Utxos]. fold B. lia.
  - cbn [ev_ad ev_tx]. unfold B'. cbn [Txs set_Utxos]. rewrite ET. unfold exist.
    rewrite (bool_decide_ext _ _ (Hex eq_refl)). by case_bool_decide; case_decide.
Qed.

(** ** A transaction, a block *)

Lemma undone_wb l s wb : undone l s -> undone l (mkDisconnect wb (dc_txs s) (dc_balances s)).
Proof. intros [H1 H2 H3 H4 H5 H6 H7]. by split. Qed.

Lemma undone_nil wb :
  (forall ad, acct (O1 ad) (db_balance d ad)) -> (forall ad, searchable K (db_balance d ad)) ->
  (forall ad, in_u32 (Txs (db_balance d ad))) -> undone [] (mkDisconnect wb ∅ ∅).
Proof.
  intros Ha Hs Ht.
  assert (forall ad, dc_view (mkDisconnect wb ∅ ∅) ad = db_balance d ad) as Hv
    by (intros ad; unfold dc_view; cbn [dc_balances]; by rewrite lookup_empty).
  split; intros x *; rewrite ?Hv; try done.
  - eapply acct_iff; [|apply Ha]. intros u. unfold owners. split.
    + intros HO. split; [by left|]. intros v Hv'. by apply not_elem_of_nil in Hv'.
    + intros [[HO|(_ & _ & (sp & Hin) & _)] _]; [done|]. by apply not_elem_of_nil in Hin.
  - unfold sent. destruct (IsAddrDescIndexable x); simpl; lia.
  - assert (touched [] x = ∅) as -> by (unfold touched; by destruct (IsAddrDescIndexable x)).
    rewrite size_empty, Z.sub_0_r. symmetry. by apply u32_id.
  - unfold dc_tx. cbn [dc_txs]. rewrite lookup_empty. destruct (db_tx d x) as [ta|]; [|done]. by destruct ta.
Qed.

Definition descs_of (ad : bytes) : list bytes :=
  filter (fun a => zlen a <> 0) (match addrDescriptors ad with Ret l => l | _ => [] end).

Definition input_events (sp : bytes) (o : outpoint) (t : TxInput.t) : list event :=
  map (Refund sp o (TxInput.ValueSat t)) (descs_of (TxInput.AddrDesc t)).

Definition output_events (id : bytes) (x : nat * TxOutput.t) : list event :=
  map (Revoke id x.1 (TxOutput.ValueSat x.2)) (descs_of (TxOutput.AddrDesc x.2)).

Definition tx_events (id : bytes) (inputs : list outpoint) (txa : TxAddresses) : list event :=
  concat (zip_with (input_events id) inputs (Inputs txa)) ++
  concat (map (output_events id) (enumerate (Outputs txa))).

Definition undoable (l : list event) (e : event) : Prop :=
  match e with
  | Refund _ o v ad => refundable l o v ad
  | Revoke id i v ad => revocable l id i v ad
  end.

(** The events [es] can follow [l], one after the other. *)
Definition undoables (l es : list event) : Prop :=
  forall es1 e es2, es = es1 ++ e :: es2 -> undoable (l ++ es1) e.

Lemma undoables_cons l e es : undoables l (e :: es) -> undoable l e /\ undoables (l ++ [e]) es.
Proof.
  intros H. split; [rewrite <- (app_nil_r l); by apply (H [] e es)|].
  intros es1 e' es2 ->. rewrite <- app_assoc. by apply (H (e :: es1) e' es2).
Qed.

Lemma undoables_app l es1 es2 : undoables l (es1 ++ es2) -> undoables l es1 /\ undoables (l ++ es1) es2.
Proof.
  intros H. split.
  - intros a e b ->. apply (H a e (b ++ es2)). by rewrite <- app_assoc.
  - intros a e b ->. rewrite <- app_assoc. apply (H (es1 ++ a) e b). by rewrite <- app_assoc.
Qed.

(** Within the transaction [sp], after its events [es] that follow [l]. *)
Record within (sp : bytes) (wb : WriteBatch) (l es : list event) (s : disconnectState) (addrs : gset bytes) : Prop := {
  wi_undone : undone (l ++ es) s;
  wi_wb : dc_wb s = wb;
  wi_exist : forall ad, IsAddrDescIndexable ad = true -> ad ∈ addrs <-> sp ∈ touched (l ++ es) ad;
  wi_addrs : forall e, e ∈ es -> ev_ad e ∈ addrs;
}.

Lemma within_step sp wb l es s addrs e s' : within sp wb l es s addrs -> ev_tx e = sp ->
  dc_wb s' = dc_wb s -> undone ((l ++ es) ++ [e]) s' -> within sp wb l (es ++ [e]) s' ({[ev_ad e]} ∪ addrs).
Proof.
  intros [_ Hwb Hex Had] Hsp Hw HU. split; rewrite ?app_assoc; [done|congruence|..].
  - intros ad Hi. rewrite touched_snoc, Hi, elem_of_union, elem_of_singleton, (Hex ad Hi), Hsp.
    case_decide; set_solver.
  - intros e' [?| ->%list_elem_of_singleton]%elem_of_app; [|set_solver]. apply elem_of_union_r. by apply Had.
Qed.

(** A loop whose rounds are lists of events. *)
Lemma sfold_within {A} (sp : bytes) (wb : WriteBatch) (l : list event) (f : A -> gset bytes -> sgo disconnectState (gset bytes)) (ev : A -> list event) (xs : list A) :
  (forall x (es : list event) (s : disconnectState) (addrs : gset bytes), x ∈ xs -> within sp wb l es s addrs -> undoables (l ++ es) (ev x) ->
     exists s' addrs', f x addrs s = (s', Ret addrs') /\ within sp wb l (es ++ ev x) s' addrs') ->
  forall es s addrs, within sp wb l es s addrs -> undoables (l ++ es) (concat (map ev xs)) ->
    exists s' addrs', sfold f xs addrs s = (s', Ret addrs') /\ within sp wb l (es ++ concat (map ev xs)) s' addrs'.
Proof.
  induction xs as [|x xs IH]; intros Hf es s addrs HW Hu.
  - exists s, addrs. simpl. by rewrite app_nil_r.
  - cbn [map concat] in *. apply undoables_app in Hu as [Hu1 Hu2].
    destruct (Hf x es s addrs) as (s1 & addrs1 & E1 & W1); [left|done..|].
    destruct (IH (fun y es s addrs Hy => Hf y es s addrs (list_elem_of_further _ _ _ Hy)) (es ++ ev x) s1 addrs1)
      as (s2 & addrs2 & E2 & W2); [done|by rewrite app_assoc|].
    exists s2, addrs2. split; [|by rewrite app_assoc].
    cbn [sfold]. by rewrite (sbind_eq _ _ _ _ _ E1).
Qed.

(** The loop over the descriptors of an input or an output. *)
Lemma sfold_descs (sp : bytes) (wb : WriteBatch) (l : list event) (f : bytes -> gset bytes -> sgo disconnectState (gset bytes)) (mk : bytes -> event) ad :
  (forall a, ev_tx (mk a) = sp /\ ev_ad (mk a) = a) ->
  (forall a addrs s, zlen a = 0 -> f a addrs s = (s, Ret addrs)) ->
  (forall a l s addrs, zlen a <> 0 -> undone l s -> undoable l (mk a) ->
     (IsAddrDescIndexable a = true -> a ∈ addrs <-> sp ∈ touched l a) ->
     exists s', f a addrs s = (s', Ret ({[a]} ∪ addrs)) /\ dc_wb s' = dc_wb s /\ undone (l ++ [mk a]) s') ->
  forall es s addrs, within sp wb l es s addrs -> undoables (l ++ es) (map mk (descs_of ad)) ->
    exists s' addrs', (let! ads := slift (addrDescriptors ad) in sfold f ads addrs) s = (s', Ret addrs') /\
      within sp wb l (es ++ map mk (descs_of ad)) s' addrs'.
Proof.
  intros Hmk Hskip Hf es s addrs HW Hu. unfold descs_of in *. destruct (addrDescriptors_ok ad) as (ads & Hads & _).
  rewrite Hads in *. rewrite (sbind_eq _ _ s s ads) by done. clear Hads.
  assert (map mk (filter (fun a => zlen a <> 0) ads) =
    concat (map (fun a => if decide (zlen a <> 0) then [mk a] else []) ads)) as E.
  { clear. induction ads as [|a ads IH]; [done|]. cbn [map concat filter list_filter]. rewrite <- IH.
    by destruct (decide (zlen a <> 0)). }
  rewrite E in *. apply sfold_within; [|done..]. clear es s addrs HW Hu E. intros a es s addrs _ HW Hu.
  destruct (decide (zlen a <> 0)) as [Ha|Ha].
  - apply undoables_cons in Hu as [Hu _].
    destruct (Hf a (l ++ es) s addrs Ha (wi_undone _ _ _ _ _ _ HW) Hu (wi_exist _ _ _ _ _ _ HW a)) as (s' & E & Hw & HU).
    exists s', ({[a]} ∪ addrs). split; [done|]. destruct (Hmk a) as [H1 H2]. rewrite <- H2 at 2. by eapply within_step.
  - exists s, addrs. rewrite app_nil_r. split; [|done]. apply Hskip. lia.
Qed.

Lemma disconnectTxAddresses_spec height id inputs txa l s :
  undone l s -> length inputs = length (Inputs txa) -> id ∉ map ev_tx l -> undoables l (tx_events id inputs txa) ->
  exists s' addrs, disconnectTxAddresses d height id inputs txa s = (s', Ret tt) /\
    undone (l ++ tx_events id inputs txa) s' /\ (forall e, e ∈ tx_events id inputs txa -> ev_ad e ∈ addrs) /\
    dc_wb s' = dc_wb s ++ map (fun a => DeleteCF cfAddresses (packAddressKey a height)) (elements (addrs : gset bytes)).
Proof.
  intros HU Hlen Hid Hu. unfold tx_events in *. apply undoables_app in Hu as [Hu1 Hu2].
  assert (within id (dc_wb s) l [] s ∅) as HW.
  { split; rewrite ?app_nil_r; [done|done|..]; [|intros e He; by apply not_elem_of_nil in He].
    intros ad Hi. split; [set_solver|]. unfold touched. rewrite Hi, elem_of_list_to_set. intros Hin. exfalso. apply Hid.
    apply list_elem_of_fmap in Hin as (e & -> & He). apply list_elem_of_fmap_2. by apply list_elem_of_filter in He as [_ ?]. }
  assert (concat (zip_with (input_events id) inputs (Inputs txa)) =
    concat (map (fun x => input_events id (default (mkOutpoint [] 0) (inputs !! x.1)) x.2) (enumerate (Inputs txa)))) as Ein.
  { f_equal. apply list_eq. intros i. rewrite lookup_zip_with. unfold enumerate. rewrite list_lookup_fmap.
    change (combine (seq 0 (length (Inputs txa))) (Inputs txa)) with (zip (seq 0 (length (Inputs txa))) (Inputs txa)).
    rewrite lookup_zip_with. destruct (Inputs txa !! i) as [t|] eqn:Et.
    - pose proof (lookup_lt_Some _ _ _ Et). rewrite lookup_seq_lt by done. simpl.
      destruct (lookup_lt_is_Some_2 inputs i) as [o Ho]; [lia|]. by rewrite Ho.
    - destruct (inputs !! i), (seq 0 (length (Inputs txa)) !! i); done. }
  rewrite Ein in *. unfold disconnectTxAddresses.
  destruct (sfold_within id (dc_wb s) l (fun '(i, t) addresses =>
      let! ads := slift (addrDescriptors (TxInput.AddrDesc t)) in
      sfold (disconnectInput d inputs i (TxInput.ValueSat t)) ads addresses)
    (fun x => input_events id (default (mkOutpoint [] 0) (inputs !! x.1)) x.2) (enumerate (Inputs txa)))
    with (es := @nil event) (s := s) (addrs := (∅ : gset bytes)) as (s1 & addrs1 & E1 & W1); [|done|by rewrite app_nil_r|].
  { intros [i t] es s0 addrs0 Hx HW0 Hu0. cbn [fst snd] in *. unfold input_events in *.
    assert (exists o, inputs !! i = Some o) as [o Ho].
    { apply lookup_lt_is_Some_2. rewrite Hlen. apply list_elem_of_lookup in Hx as [j Hj].
      apply lookup_zip_with_Some in Hj as (i' & t' & [= <- <-] & Hi & Ht). apply lookup_seq in Hi as [-> ?]. simpl. done. }
    rewrite Ho in *. cbn [default] in *. apply sfold_descs; [done|..|done|done].
    - intros a addrs' s' Ha. unfold disconnectInput. by rewrite (proj2 (Z.eqb_eq _ _) Ha).
    - intros a l' s' addrs' Ha HU' Hr Hex. by apply disconnectInput_spec. }
  rewrite (sbind_eq _ _ _ _ _ E1).
  destruct (sfold_within id (dc_wb s) l (fun '(i, t) addresses =>
      let! ads := slift (addrDescriptors (TxOutput.AddrDesc t)) in
      sfold (disconnectOutput d id i (TxOutput.ValueSat t)) ads addresses)
    (output_events id) (enumerate (Outputs txa)))
    with (es := concat (map (fun x => input_events id (default (mkOutpoint [] 0) (inputs !! x.1)) x.2) (enumerate (Inputs txa))))
      (s := s1) (addrs := addrs1) as (s2 & addrs2 & E2 & W2); [|done|done|].
  { intros [i t] es s0 addrs0 Hx HW0 Hu0. unfold output_events in *. cbn [fst snd] in *.
    apply sfold_descs; [done|..|done|done].
    - intros a addrs' s' Ha. unfold disconnectOutput. by rewrite (proj2 (Z.eqb_eq _ _) Ha).
    - intros a l' s' addrs' Ha HU' Hr Hex. by apply disconnectOutput_spec. }
  rewrite (sbind_eq _ _ _ _ _ E2). destruct W2 as [HU2 Hw2 _ Ha2].
  eexists _, addrs2. split; [reflexivity|]. cbn [dc_wb]. split_and!; [by apply undone_wb|done|by rewrite Hw2].
Qed.

Definition events_of (b : blockTxs) : list event :=
  match db_tx d (bt_btxID b) with
  | Some txa => tx_events (bt_btxID b) (bt_inputs b) txa
  | None => []
  end.

(** The transactions of the block are undone from the last to the first. *)
Definition block_events (bts : list blockTxs) : list event := concat (map events_of (reverse bts)).

Lemma tx_events_tx id inputs txa e : e ∈ tx_events id inputs txa -> ev_tx e = id.
Proof.
  unfold tx_events. intros [He|He]%elem_of_app.
  - apply list_elem_of_In, in_concat in He as (es & Hes & He). apply list_elem_of_In, list_elem_of_lookup in Hes as [i Hi].
    apply lookup_zip_with_Some in Hi as (o & t & -> & _ & _). unfold input_events in He.
    apply in_map_iff in He as (a & <- & _). done.
  - apply elem_of_concat_map in He as (x & _ & He). unfold output_events in He.
    apply list_elem_of_In, in_map_iff in He as (a & <- & _). done.
Qed.

Lemma events_of_tx b e : e ∈ events_of b -> ev_tx e = bt_btxID b.
Proof. unfold events_of. destruct (db_tx d (bt_btxID b)); [apply tx_events_tx|by intros ?%not_elem_of_nil]. Qed.

(** The keys of the column [addresses] the events [l] of the block at [height] remove. *)
Record deletes (height : Z) (l : list event) (wb : WriteBatch) : Prop := {
  dl_only : forall o, o ∈ wb -> exists a, o = DeleteCF cfAddresses (packAddressKey a height);
  dl_all : forall e, e ∈ l -> DeleteCF cfAddresses (packAddressKey (ev_ad e) height) ∈ wb;
}.

Lemma disconnectTxs_spec height bts : forall l s,
  Forall (fun b => exists txa, db_tx d (bt_btxID b) = Some txa /\ length (bt_inputs b) = length (Inputs txa)) bts ->
  NoDup (map bt_btxID bts) -> (forall b, b ∈ bts -> bt_btxID b ∉ map ev_tx l) ->
  undone l s -> deletes height l (dc_wb s) -> undoables l (concat (map events_of bts)) ->
  exists s', sfor (disconnectTx d height) bts s = (s', Ret tt) /\
    undone (l ++ concat (map events_of bts)) s' /\ deletes height (l ++ concat (map events_of bts)) (dc_wb s').
Proof.
  induction bts as [|b bts IH]; intros l s Hb Hnd Hl HU HD Hu.
  { exists s. simpl. by rewrite app_nil_r. }
  apply Forall_cons in Hb as [(txa & Htxa & Hlen) Hb]. cbn [map concat] in *. apply NoDup_cons in Hnd as [Hn Hnd].
  apply undoables_app in Hu as [Hu1 Hu2].
  assert (events_of b = tx_events (bt_btxID b) (bt_inputs b) txa) as Eb by (unfold events_of; by rewrite Htxa).
  assert (getTxAddresses d (bt_btxID b) = Ret (Some txa)) as Hget.
  { unfold db_tx in Htxa. destruct (read_tx (bt_btxID b)) as [r Hr]. rewrite Hr in *. by destruct r; simplify_eq. }
  destruct (disconnectTxAddresses_spec height (bt_btxID b) (bt_inputs b) txa l s) as (s1 & addrs & E1 & U1 & A1 & W1);
    [done|done|apply Hl; left|by rewrite <- Eb|]. rewrite <- Eb in *.
  destruct (IH (l ++ events_of b) s1) as (s2 & E2 & U2 & D2); [done..| |done| |done|].
  { intros b' Hb'. rewrite map_app, not_elem_of_app. split; [apply Hl; by right|].
    intros (e & He & Hin)%list_elem_of_fmap. apply events_of_tx in Hin. subst. apply Hn.
    apply list_elem_of_fmap. exists b'. split; [congruence|done]. }
  { rewrite W1. destruct HD as [Ho Ha]. split.
    - intros o [?|Hin]%elem_of_app; [by apply Ho|]. apply list_elem_of_In, in_map_iff in Hin as (a & <- & _). by exists a.
    - intros e [He|He]%elem_of_app; apply elem_of_app; [left; by apply Ha|right].
      apply list_elem_of_In, in_map_iff. exists (ev_ad e). split; [done|]. apply list_elem_of_In, elem_of_elements, A1, He. }
  exists s2. rewrite <- !app_assoc in *. split; [|done]. cbn [sfor]. rewrite (sbind_eq _ _ s s1 tt); [done|].
  unfold disconnectTx. rewrite (sbind_eq _ _ s s (Some txa)) by (unfold slift; by rewrite Hget). done.
Qed.

Lemma disconnectBlock_spec height bts :
  Forall (fun b => exists txa, db_tx d (bt_btxID b) = Some txa /\ length (bt_inputs b) = length (Inputs txa)) bts ->
  NoDup (map bt_btxID bts) -> undone [] (mkDisconnect [] ∅ ∅) -> undoables [] (block_events bts) ->
  exists s wb, disconnectBlock d (height, bts) (mkDisconnect [] ∅ ∅) = (s, Ret tt) /\
    undone (block_events bts) s /\ deletes height (block_events bts) wb /\
    dc_wb s = wb ++ [DeleteCF cfBlockTxs (packUint height); DeleteCF cfHeight (packUint height)].
Proof.
  intros Hb Hnd HU Hu. destruct (disconnectTxs_spec height (reverse bts) [] (mkDisconnect [] ∅ ∅)) as (s & E & U & D).
  - by rewrite Forall_reverse.
  - change (map bt_btxID (reverse bts)) with (bt_btxID <$> reverse bts). by rewrite fmap_reverse, reverse_Permutation.
  - intros b _ Hn. by apply not_elem_of_nil in Hn.
  - done.
  - split; intros ? H; by apply not_elem_of_nil in H.
  - done.
  - eexists _, (dc_wb s). split; [|split; [apply undone_wb, U|done]].
    unfold disconnectBlock. rewrite (sbind_eq _ _ _ _ _ E). done.
Qed.
End undo.
