(* ===== verification/UndoBlock.v ===== *)
(** The events of a block ([Undo]) after [ConnectBlock]: what the undo data and the
    stored transactions make them, that each can be undone in its turn, and that the
    owners, the counters and the transactions are those before the block after all of
    them. *)
From stdpp Require Import base list gmap strings sorting.
From Stdlib Require Import ZArith Lia.
From S2P Require Import Prelude Hex Types Store Vlq Codec InternalState AddrBalance TxAddresses RocksDB RocksDBFacts.
From S2P Require Import BitcoinParser BitcoinIndex Ledger IndexInvariant EthIndex Connect ConnectFacts Undo.

Open Scope Z_scope.
Open Scope go_scope.

(** * Lists *)

Lemma go_fold_Forall2 {A B} (f : A -> go B) l : forall acc r,
  go_fold (fun acc x => let* y := f x in Ret (acc ++ [y])) acc l = Ret r ->
  exists ys, r = acc ++ ys /\ Forall2 (fun x y => f x = Ret y) l ys.
Proof.
  induction l as [|x l IH]; intros acc r H; simpl in H.
  - injection H as <-. exists []. by rewrite app_nil_r.
  - destruct (f x) as [y|e|] eqn:E; [|done..]. apply IH in H as (ys & -> & H).
    exists (y :: ys). rewrite <- app_assoc. by split; [|constructor].
Qed.

Lemma concat_map_split {A B} (f : A -> list B) xs l e r : concat (map f xs) = l ++ e :: r ->
  exists pre x post l' r', xs = pre ++ x :: post /\ f x = l' ++ e :: r' /\ l = concat (map f pre) ++ l'.
Proof.
  revert l. induction xs as [|x xs IH]; intros l H; [by destruct l|]. cbn [map concat] in H.
  destruct (decide (length l < length (f x))%nat) as [Hl|Hl].
  - apply (f_equal (take (length (f x)))) in H as H1. rewrite take_app_length in H1.
    exists [], x, xs, l, (take (length (f x) - S (length l)) r). split_and!; [done| |done].
    rewrite H1 at 1. rewrite take_app_ge by lia. f_equal. assert (length (f x) - length l = S (length (f x) - S (length l)))%nat as -> by lia. done.
  - apply (f_equal (take (length (f x)))) in H as H1. rewrite take_app_length, take_app_le in H1 by lia.
    apply (f_equal (drop (length (f x)))) in H as H2. rewrite drop_app_length, drop_app_le in H2 by lia.
    destruct (IH _ H2) as (pre & y & post & l' & r' & -> & Hy & Hl'). exists (x :: pre), y, post, l', r'.
    split_and!; [done|done|]. cbn [map concat]. rewrite <- app_assoc, <- Hl', H1 at 1. by rewrite take_drop.
Qed.

(** Distinct keys of a concatenation: within the parts, and across them. *)
Lemma NoDup_concat_keys {A B C} (f : A -> list B) (key : B -> C) xs :
  (forall i x, xs !! i = Some x -> NoDup (map key (f x))) ->
  (forall i j x y b b', xs !! i = Some x -> xs !! j = Some y -> b ∈ f x -> b' ∈ f y -> key b = key b' -> i = j) ->
  NoDup (map key (concat (map f xs))).
Proof.
  induction xs as [|x xs IH]; intros H1 H2; [constructor|]. cbn [map concat]. rewrite map_app. apply NoDup_app. split_and!.
  - by apply (H1 0%nat).
  - intros k (b & -> & Hb)%list_elem_of_fmap (b' & E & Hb')%list_elem_of_fmap.
    apply elem_of_concat_map in Hb' as (y & Hy & Hb'). apply list_elem_of_lookup in Hy as [j Hj].
    by specialize (H2 0%nat (S j) x y b b' eq_refl Hj Hb Hb' E).
  - apply IH; [intros i; apply (H1 (S i))|]. intros i j y z c c' Hi Hj Hc Hc' E.
    by specialize (H2 (S i) (S j) y z c c' Hi Hj Hc Hc' E) as [= ->].
Qed.

(** A list without repetition that is a concatenation: an element is in one part. *)
Lemma NoDup_concat_index {A} (xss : list (list A)) i j xs ys x :
  NoDup (concat xss) -> xss !! i = Some xs -> xss !! j = Some ys -> x ∈ xs -> x ∈ ys -> i = j.
Proof.
  revert i j. induction xss as [|zs xss IH]; intros i j Hnd Hi Hj Hx Hy; [done|].
  apply NoDup_app in Hnd as (_ & Hd & Hnd).
  assert (forall k ws, xss !! k = Some ws -> x ∈ ws -> x ∈ concat xss) as Hin.
  { intros k ws Hk Hw. apply list_elem_of_In, in_concat. exists ws.
    split; apply list_elem_of_In; [by eapply list_elem_of_lookup_2|done]. }
  destruct i as [|i], j as [|j]; simpl in Hi, Hj; simplify_eq; [done|by destruct (Hd x Hx); eauto|by destruct (Hd x Hy); eauto|].
  f_equal. by apply IH.
Qed.

Lemma NoDup_omap_index {A B} (f : A -> option B) l i j x y b :
  NoDup (omap f l) -> l !! i = Some x -> l !! j = Some y -> f x = Some b -> f y = Some b -> i = j.
Proof.
  revert i j. induction l as [|z l IH]; intros i j Hnd Hi Hj Hx Hy; [done|].
  assert (forall k w, l !! k = Some w -> f w = Some b -> b ∈ omap f l) as Hin.
  { intros k w Hk Hw. apply list_elem_of_omap. exists w. split; [by eapply list_elem_of_lookup_2|done]. }
  destruct i as [|i], j as [|j]; simpl in Hi, Hj; simplify_eq; [done| | |].
  - simpl in Hnd. rewrite Hx in Hnd. apply NoDup_cons in Hnd as [Hn _]. destruct Hn. eauto.
  - simpl in Hnd. rewrite Hy in Hnd. apply NoDup_cons in Hnd as [Hn _]. destruct Hn. eauto.
  - f_equal. apply IH; try done. simpl in Hnd. destruct (f z); [by apply NoDup_cons in Hnd as [_ ?]|done].
Qed.

Lemma lookup_repeat_lt {A} (x : A) n i : (i < n)%nat -> repeat x n !! i = Some x.
Proof. revert i. induction n as [|n IH]; intros [|i] Hi; simpl; [lia..|done|apply IH; lia]. Qed.

(** * The outputs a block spends *)

Section outputs.
Context `{PL : ParserLaws}.

Lemma spend_all_Some sps : forall f x h outs, f x = Some (h, outs) ->
  exists outs', spend_all sps f x = Some (h, outs') /\ length outs' = length outs /\
    forall i, outs' !! i = (fun o => if decide ((x, i) ∈ sps) then spend_output o else o) <$> outs !! i.
Proof.
  induction sps as [|sp sps IH]; intros f x h outs Hf.
  - exists outs. split_and!; [done|done|]. intros i. destruct (outs !! i); [|done]. cbn [fmap option_fmap option_map].
    by rewrite decide_False by apply not_elem_of_nil.
  - destruct (IH (spend_view (Some sp) f) x h
      (if decide (x = sp.1) then alter spend_output sp.2 outs else outs)) as (outs' & E & Hl & Ho).
    { destruct sp as [id v]. simpl. destruct (decide (x = id)) as [-> |]; [|done]. by rewrite Hf. }
    exists outs'. split_and!; [exact E|rewrite Hl; case_decide; [apply length_alter|done]|].
    intros i. rewrite Ho. destruct sp as [id v]. cbn [fst snd].
    destruct (decide (x = id)) as [-> |Hx]; [rewrite lookup_alter_fn|].
    + destruct (decide (v = i)) as [-> |Hv]; destruct (outs !! i) as [o|]; cbn [fmap option_fmap option_map]; try done; f_equal.
      * rewrite (decide_True (P := (id, i) ∈ (id, i) :: sps)) by left. by destruct (decide ((id, i) ∈ sps)).
      * apply decide_ext. rewrite elem_of_cons. naive_solver.
    + destruct (outs !! i); cbn [fmap option_fmap option_map]; [|done]. f_equal. apply decide_ext. rewrite elem_of_cons. naive_solver.
Qed.

Lemma spend_all_None sps : forall f x, f x = None -> spend_all sps f x = None.
Proof.
  induction sps as [|sp sps IH]; intros f x Hf; [done|]. apply IH. destruct sp as [id v]. simpl.
  destruct (decide (x = id)) as [-> |]; [|done]. by rewrite Hf.
Qed.

Lemma set_inputs_lookup f tx vins : forall k ins, (k + length vins <= length ins)%nat -> forall i,
  set_inputs f tx k vins ins !! i =
  match (if decide (k <= i)%nat then vins !! (i - k)%nat else None) with
  | Some v => (fun t => default t (input_set f tx i v)) <$> ins !! i
  | None => ins !! i
  end.
Proof.
  induction vins as [|v vins IH]; intros k ins Hl i; cbn [set_inputs length] in *; [by case_decide|].
  assert (length (put_input k (input_set f tx k v) ins) = length ins) as Hlp
    by (unfold put_input; destruct (input_set f tx k v); [apply length_insert|done]).
  rewrite IH by lia. destruct (decide (S k <= i)%nat) as [H1|H1].
  - rewrite (decide_True (P := (k <= i)%nat)) by lia. replace (i - k)%nat with (S (i - S k)) by lia. cbn [lookup list_lookup].
    assert (put_input k (input_set f tx k v) ins !! i = ins !! i) as ->; [|done].
    unfold put_input. destruct (input_set f tx k v); [|done]. apply list_lookup_insert_ne. lia.
  - destruct (decide (k <= i)%nat) as [H2|H2].
    + replace i with k by lia. rewrite Nat.sub_diag. cbn [lookup list_lookup].
      destruct (lookup_lt_is_Some_2 ins k) as [t Ht]; [lia|]. rewrite Ht. unfold put_input.
      destruct (input_set f tx k v); simpl; [|done]. apply list_lookup_insert_eq. lia.
    + unfold put_input. destruct (input_set f tx k v); [|done]. apply list_lookup_insert_ne. lia.
Qed.

Lemma length_set_inputs f tx vins : forall k ins, length (set_inputs f tx k vins ins) = length ins.
Proof.
  induction vins as [|v vins IH]; intros k ins; [done|]. cbn [set_inputs]. rewrite IH. unfold put_input.
  destruct (input_set f tx k v); [apply length_insert|done].
Qed.

Lemma final_inputs_lookup f tx i :
  final_inputs f tx !! i = (fun v => default zeroInput (input_set f tx i v)) <$> Tx.Vin tx !! i.
Proof.
  unfold final_inputs. rewrite set_inputs_lookup by (by rewrite repeat_length). rewrite decide_True, Nat.sub_0_r by lia.
  destruct (Tx.Vin tx !! i) as [v|] eqn:E.
  - rewrite (lookup_repeat_lt zeroInput) by (by eapply lookup_lt_Some). done.
  - apply lookup_ge_None_2. rewrite repeat_length. by apply lookup_ge_None_1.
Qed.
End outputs.

Section descs.
Context `{SCL : ScriptLaws} `{P : BlockChainParser}.

Lemma descs_of_nil : descs_of [] = [].
Proof. done. Qed.

Lemma descs_of_NoDup ad : NoDup (descs_of ad).
Proof. unfold descs_of. apply NoDup_filter. destruct (addrDescriptors_ok ad) as (l & -> & Hl). done. Qed.

Lemma out_descs_descs ad x : x ∈ out_descs ad <-> IsAddrDescIndexable x = true /\ x ∈ descs_of ad.
Proof.
  unfold descs_of. rewrite list_elem_of_filter. destruct (Z.eqb_spec (zlen ad) 0) as [Hz|Hz].
  - apply zlen_0_inv in Hz. subst. unfold out_descs. rewrite zlen_nil. split; [by intros ?%not_elem_of_nil|].
    intros (_ & Hz & Hx). cbn in Hx. by apply list_elem_of_singleton in Hx as ->.
  - destruct (addrDescriptors_ok ad) as (l & Hl & _). rewrite (out_descs_elem ad l x), Hl by done.
    split; [|tauto]. intros [Hx Hi]. split_and!; [done| |done]. revert Hx Hl. unfold addrDescriptors.
    destruct (isPayToColdStake ad) eqn:E; [|intros Hx [= <-]; by apply list_elem_of_singleton in Hx as ->].
    apply isPayToColdStake_len in E. unfold getOwnerFromP2CS. destruct (go_slice_ok ad 28 49) as (s & -> & Hs); [lia..|]. gostep.
    destruct (Script_p2pkh (take 20 s)) as (o & -> & Ho). { unfold zlen in *. rewrite length_take. lia. }
    intros Hx [= <-]. apply elem_of_cons in Hx as [-> |Hx]; [done|]. apply list_elem_of_singleton in Hx as ->. lia.
Qed.
End descs.

(** * The events of a block *)

Section block.
Context `{SL : StoreLaws} `{PL : ParserLaws} `{VL : VlqLaws} `{SCL : ScriptLaws}.
Context (d d1 : RocksDB) (block : Block.t) (ids : list bytes) (bts : list blockTxs).

Local Notation txs := (Block.Txs block).

(** The outputs of the block over those of the database before it. *)
Local Notation f := (block_outs d (before d) block ids).

(** What disconnecting needs of a connected block: the ids have the length the undo
    data assume, an input of an unknown transaction has no indexed address, a spent
    output has a descriptor, the outputs of the block are spent by later
    transactions of it only, and then only from addresses without an index of utxos. *)
Record undoable_block : Prop := {
  ub_ids : Forall (fun id => zlen id = PackedTxidLen) ids;
  ub_vins : Forall (fun tx => zlen (Tx.Vin tx) < 2 ^ 32 /\
    Forall (fun v => forall id, PackTxid (Vin.Txid v) = Ret id -> zlen id = PackedTxidLen) (Tx.Vin tx)) txs;
  ub_unknown : forall tx i v id, tx ∈ txs -> Tx.Vin tx !! i = Some v -> PackTxid (Vin.Txid v) = Ret id ->
    f id = None -> out_descs (GetAddrDescForUnknownInput tx (Z.of_nat i)) = [];
  ub_desc : forall tx v t, tx ∈ txs -> v ∈ Tx.Vin tx -> debit_of f v = Some t -> zlen (TxInput.AddrDesc t) <> 0;
  ub_order : forall j k tx v id, txs !! j = Some tx -> v ∈ Tx.Vin tx -> PackTxid (Vin.Txid v) = Ret id ->
    ids !! k = Some id -> (k < j)%nat;
  ub_search : forall tx v t id ad, tx ∈ txs -> v ∈ Tx.Vin tx -> PackTxid (Vin.Txid v) = Ret id -> id ∈ ids ->
    debit_of f v = Some t -> ad ∈ out_descs (TxInput.AddrDesc t) -> utxosMap (db_balance d1 ad) = ∅;
}.

(** What connecting the block left behind. *)
Record connected : Prop := {
  cd_valid : valid_block d (before d) block ids;
  cd_bts : blockTxsOf block = Ret bts;
  cd_outs : forall x, outs_view d1 (before d1) x = spend_all (block_spends txs) f x;
  cd_inputs : forall tx id, (tx, id) ∈ combine txs ids ->
    exists ta, db_tx d1 id = Some ta /\ Inputs ta = final_inputs f tx;
  cd_rest : forall x, x ∉ ids -> rest <$> db_tx d1 x = rest <$> db_tx d x;
  cd_has : forall ad id, block_touches f txs ids ad id -> has_balance d1 ad;
  cd_sent : forall ad, SentSat (db_balance d1 ad) = SentSat (db_balance d ad) + sent_by f (concat (map Tx.Vin txs)) ad;
  cd_sent_nonneg : forall ad, 0 <= SentSat (db_balance d ad);
  cd_values : forall x h outs o, outs_view d (before d) x = Some (h, outs) -> o ∈ outs -> 0 <= TxOutput.ValueSat o;
}.

Hypothesis HC : connected.
Hypothesis HU : undoable_block.

Lemma outs_before (d0 : RocksDB) x : outs_view d0 (before d0) x = (fun ta => (Height ta, Outputs ta)) <$> db_tx d0 x.
Proof. unfold outs_view, tx_view, before. cbn [txAddressesMap newBlockState]. by rewrite lookup_empty. Qed.

Lemma tx_at_id k tx : txs !! k = Some tx -> exists id, ids !! k = Some id /\ valid_outputs tx id.
Proof. intros H. destruct (Forall2_lookup_l _ _ _ _ _ (vb_outputs _ _ _ _ (cd_valid HC)) H) as (id & Hid & Hv). eauto. Qed.

Lemma id_at_tx k id : ids !! k = Some id -> exists tx, txs !! k = Some tx /\ valid_outputs tx id.
Proof. intros H. destruct (Forall2_lookup_r _ _ _ _ _ (vb_outputs _ _ _ _ (cd_valid HC)) H) as (tx & Htx & Hv). eauto. Qed.

Lemma combine_at k tx id : txs !! k = Some tx -> ids !! k = Some id -> (tx, id) ∈ combine txs ids.
Proof. intros H1 H2. apply elem_of_combine. by exists k. Qed.

Lemma f_new k tx id : txs !! k = Some tx -> ids !! k = Some id -> f id = Some (Block.Height block, map out_of (Tx.Vout tx)).
Proof.
  intros Htx Hid. unfold block_outs. destruct (list_find _ _) as [[i [tx' y]]|] eqn:Ef.
  - apply list_find_Some in Ef as (Hi & Hy & _). simpl in Hy. subst y.
    change (combine txs ids) with (zip txs ids) in Hi. apply lookup_zip_with_Some in Hi as (t & y & [= <- <-] & Ht & Hy).
    assert (i = k) as -> by (eapply NoDup_lookup; [apply (vb_nodup _ _ _ _ (cd_valid HC))|done..]). by simplify_eq.
  - apply list_find_None in Ef. rewrite Forall_forall in Ef. by destruct (Ef (tx, id) (combine_at k tx id Htx Hid)).
Qed.

Lemma f_old x : x ∉ ids -> f x = outs_view d (before d) x.
Proof.
  intros Hx. unfold block_outs. destruct (list_find _ _) as [[i [tx' y]]|] eqn:Ef; [|done].
  apply list_find_Some in Ef as (Hi & Hy & _). simpl in Hy. subst y.
  change (combine txs ids) with (zip txs ids) in Hi. apply lookup_zip_with_Some in Hi as (t & y & [= <- <-] & Ht & Hy).
  destruct Hx. by eapply list_elem_of_lookup_2.
Qed.

(** The output an input spends, if the index knows it. *)
Lemma debit_of_Some v t : valid_vin v -> debit_of f v = Some t -> exists id h outs o,
  PackTxid (Vin.Txid v) = Ret id /\ spend_of v = Some (id, Z.to_nat (Vin.Vout v)) /\ f id = Some (h, outs) /\
  outs !! Z.to_nat (Vin.Vout v) = Some o /\ t = TxInput.mk (TxOutput.AddrDesc o) (TxOutput.ValueSat o) /\ id <> [].
Proof.
  intros [_ Hp]. unfold debit_of, spend_of. destruct (PackTxid (Vin.Txid v)) as [id|e|]; [|done..].
  destruct Hp as [|(id' & [= <-] & Hne)]; [done|]. destruct (f id) as [[h outs]|] eqn:Ef; [|done].
  destruct (outs !! Z.to_nat (Vin.Vout v)) as [o|] eqn:Eo; [|done]. simpl. intros [= <-]. exists id, h, outs, o. done.
Qed.

(** The input stored for [v], when it has a descriptor: the spent output, or an input of
    an unknown transaction without an indexed address. *)
Lemma stored_input tx i v ad : tx ∈ txs -> Tx.Vin tx !! i = Some v ->
  let t := default zeroInput (input_set f tx i v) in ad ∈ descs_of (TxInput.AddrDesc t) ->
  debit_of f v = Some t \/
  (debit_of f v = None /\ IsAddrDescIndexable ad = false /\ exists id, PackTxid (Vin.Txid v) = Ret id /\ f id = None).
Proof.
  intros Htx Hv t. subst t. unfold input_set. destruct (PackTxid (Vin.Txid v)) as [id|e|] eqn:Ep; cbn [default].
  2,3: by intros ?%not_elem_of_nil.
  destruct (f id) as [[h outs]|] eqn:Ef.
  - destruct (debit_of f v) as [t|] eqn:Ed; cbn [default]; [by left|]. by intros ?%not_elem_of_nil.
  - cbn [default TxInput.AddrDesc]. intros Had. right. split; [unfold debit_of; by rewrite Ep, Ef|]. split; [|eauto].
    apply not_true_iff_false. intros Hi.
    assert (ad ∈ out_descs (GetAddrDescForUnknownInput tx (Z.of_nat i))) as Hin by (by apply out_descs_descs).
    rewrite (ub_unknown HU tx i v id Htx Hv Ep Ef) in Hin. by apply not_elem_of_nil in Hin.
Qed.

(** ** The undo data *)

Lemma blockTxsOf_Forall2 :
  Forall2 (fun tx b => PackTxid (Tx.Txid tx) = Ret (bt_btxID b) /\
                       Forall2 (fun v o => blockTxInput v = Ret o) (Tx.Vin tx) (bt_inputs b)) txs bts.
Proof.
  pose proof (cd_bts HC) as H. unfold blockTxsOf in H. apply go_fold_Forall2 in H as (ys & -> & H).
  eapply Forall2_impl; [exact H|]. intros tx b Hb. simpl in Hb. unfold blockTxOf in Hb.
  destruct (go_fold _ [] (Tx.Vin tx)) as [o|e|] eqn:Eo; [|done..]. apply go_fold_Forall2 in Eo as (os & -> & Ho).
  simpl in Hb. destruct (PackTxid (Tx.Txid tx)) as [id|e|]; [|done..]. injection Hb as <-. done.
Qed.

Lemma bts_at k tx id : txs !! k = Some tx -> ids !! k = Some id -> exists b, bts !! k = Some b /\ bt_btxID b = id /\
  Forall2 (fun v o => blockTxInput v = Ret o) (Tx.Vin tx) (bt_inputs b).
Proof.
  intros Htx Hid. destruct (Forall2_lookup_l _ _ _ _ _ blockTxsOf_Forall2 Htx) as (b & Hb & Hp & Hi).
  destruct (tx_at_id k tx Htx) as (id' & Hid' & Hp' & _). exists b. split_and!; [done|congruence|done].
Qed.

Lemma at_bts k b : bts !! k = Some b -> exists tx, txs !! k = Some tx /\ ids !! k = Some (bt_btxID b) /\
  Forall2 (fun v o => blockTxInput v = Ret o) (Tx.Vin tx) (bt_inputs b).
Proof.
  intros Hb. destruct (Forall2_lookup_r _ _ _ _ _ blockTxsOf_Forall2 Hb) as (tx & Htx & Hp & Hi).
  destruct (tx_at_id k tx Htx) as (id & Hid & Hp' & _). exists tx. split_and!; [done|congruence|done].
Qed.

Lemma bts_ids : map bt_btxID bts = ids.
Proof.
  apply list_eq. intros k. change (map bt_btxID bts) with (bt_btxID <$> bts). rewrite list_lookup_fmap.
  destruct (bts !! k) as [b|] eqn:Eb.
  - by destruct (at_bts k b Eb) as (_ & _ & -> & _).
  - destruct (ids !! k) as [id|] eqn:Ei; [|done]. destruct (id_at_tx k id Ei) as (tx & Htx & _).
    destruct (bts_at k tx id Htx Ei) as (b & Hb & _). congruence.
Qed.

(** The outpoint of the undo data for an input. *)
Lemma blockTxInput_at v o : valid_vin v -> blockTxInput v = Ret o -> op_index o = Vin.Vout v /\
  forall id, PackTxid (Vin.Txid v) = Ret id -> op_btxID o = id.
Proof.
  intros [Hv _]. unfold blockTxInput. rewrite i32_id by (unfold in_i32; lia).
  destruct (PackTxid (Vin.Txid v)) as [id|e|]; [|destruct e|]; intros [= <-]; (split; [done|]); by intros ? [= <-].
Qed.

Lemma vin_valid tx v : tx ∈ txs -> v ∈ Tx.Vin tx -> valid_vin v.
Proof.
  intros Htx Hv. pose proof (vb_inputs _ _ _ _ (cd_valid HC)) as H. rewrite Forall_forall in H. specialize (H tx Htx).
  rewrite Forall_forall in H. by apply H.
Qed.

Lemma bts_wf : Forall (wf_blockTx PackedTxidLen) bts.
Proof.
  apply Forall_lookup. intros k b Hb. destruct (at_bts k b Hb) as (tx & Htx & Hid & Hi).
  pose proof (ub_vins HU) as Hvins. rewrite Forall_lookup in Hvins. destruct (Hvins k tx Htx) as [Hlen Hids].
  split_and!.
  - pose proof (ub_ids HU) as H. rewrite Forall_lookup in H. by apply (H k).
  - apply Forall_lookup. intros i o Ho. destruct (Forall2_lookup_r _ _ _ _ _ Hi Ho) as (v & Hv & Hvo).
    assert (v ∈ Tx.Vin tx) as Hvin by (by eapply list_elem_of_lookup_2).
    assert (valid_vin v) as Hval by (eapply vin_valid; [by eapply list_elem_of_lookup_2|done]).
    split; [|destruct (blockTxInput_at v o Hval Hvo) as [-> _]; destruct Hval; unfold in_i32; lia].
    rewrite Forall_forall in Hids. unfold blockTxInput in Hvo. pose proof PackedTxidLen_pos.
    destruct (PackTxid (Vin.Txid v)) as [id|e|] eqn:Ep; [|destruct e; [..]|]; try done; injection Hvo as <-; cbn [op_btxID].
    + by apply (Hids v).
    + unfold zlen. rewrite repeat_length. lia.
  - unfold zlen in *. by rewrite <- (Forall2_length _ _ _ Hi).
Qed.

(** ** The events of a transaction *)

Lemma events_at k b tx : bts !! k = Some b -> txs !! k = Some tx -> exists ta, db_tx d1 (bt_btxID b) = Some ta /\
  Inputs ta = final_inputs f tx /\ Height ta = Block.Height block /\ length (Outputs ta) = length (Tx.Vout tx) /\
  (forall i, Outputs ta !! i = (fun vo => if decide ((bt_btxID b, i) ∈ block_spends txs) then spend_output (out_of vo)
                                          else out_of vo) <$> Tx.Vout tx !! i) /\
  events_of d1 b = tx_events (bt_btxID b) (bt_inputs b) ta.
Proof.
  intros Hb Htx. destruct (at_bts k b Hb) as (tx' & Htx' & Hid & _). assert (tx' = tx) as -> by congruence.
  destruct (cd_inputs HC tx (bt_btxID b) (combine_at k _ _ Htx Hid)) as (ta & Hta & Hin). exists ta.
  pose proof (cd_outs HC (bt_btxID b)) as Ho. rewrite outs_before, Hta in Ho. simpl in Ho.
  destruct (spend_all_Some (block_spends txs) f (bt_btxID b) _ _ (f_new k tx _ Htx Hid)) as (outs' & E & Hl & Hlk).
  rewrite E in Ho. injection Ho as Hh Ho. split_and!; [done|done|done|..].
  - by rewrite Ho, Hl, length_map.
  - intros i. rewrite Ho, Hlk. change (map out_of (Tx.Vout tx)) with (out_of <$> Tx.Vout tx). rewrite list_lookup_fmap.
    by destruct (Tx.Vout tx !! i).
  - unfold events_of. by rewrite Hta.
Qed.

Lemma refund_elem k b tx sp o v ad : bts !! k = Some b -> txs !! k = Some tx ->
  Refund sp o v ad ∈ events_of d1 b <-> sp = bt_btxID b /\ exists i vin, Tx.Vin tx !! i = Some vin /\
    bt_inputs b !! i = Some o /\ let t := default zeroInput (input_set f tx i vin) in
    v = TxInput.ValueSat t /\ ad ∈ descs_of (TxInput.AddrDesc t).
Proof.
  intros Hb Htx. destruct (events_at k b tx Hb Htx) as (ta & Hta & Hin & _ & _ & _ & ->). unfold tx_events. rewrite elem_of_app. split.
  - intros [He|He].
    + apply list_elem_of_In, in_concat in He as (es & Hes & He). apply list_elem_of_In, list_elem_of_lookup in Hes as [i Hi].
      apply lookup_zip_with_Some in Hi as (o' & t & -> & Ho & Ht). rewrite Hin, final_inputs_lookup in Ht.
      destruct (Tx.Vin tx !! i) as [vin|] eqn:Ev; [|done]. injection Ht as <-.
      unfold input_events in He. apply in_map_iff in He as (a & [= <- <- <- <-] & Ha). split; [done|].
      exists i, vin. split_and!; [done|done|done|]. by apply list_elem_of_In.
    + apply elem_of_concat_map in He as (x & _ & He). unfold output_events in He.
      apply list_elem_of_In, in_map_iff in He as (a & [=] & _).
  - intros (-> & i & vin & Hv & Ho & -> & Ha). left. apply list_elem_of_In, in_concat. eexists. split.
    + apply list_elem_of_In, list_elem_of_lookup. exists i. apply lookup_zip_with_Some. exists o. eexists. split; [reflexivity|].
      split; [done|]. by rewrite Hin, final_inputs_lookup, Hv.
    + unfold input_events. apply in_map_iff. exists ad. split; [done|]. by apply list_elem_of_In.
Qed.

Lemma revoke_elem k b tx id i v ad : bts !! k = Some b -> txs !! k = Some tx ->
  Revoke id i v ad ∈ events_of d1 b <-> id = bt_btxID b /\ exists vo, Tx.Vout tx !! i = Some vo /\
    v = Vout.ValueSat vo /\ ad ∈ descs_of (out_desc vo).
Proof.
  intros Hb Htx. destruct (events_at k b tx Hb Htx) as (ta & Hta & _ & _ & _ & Hout & ->). unfold tx_events. rewrite elem_of_app. split.
  - intros [He|He].
    + apply list_elem_of_In, in_concat in He as (es & Hes & He). apply list_elem_of_In, list_elem_of_lookup in Hes as [j Hj].
      apply lookup_zip_with_Some in Hj as (o & t & -> & _). unfold input_events in He. by apply in_map_iff in He as (a & [=] & _).
    + apply elem_of_concat_map in He as ([j o] & Ho & He). apply enumerate_elem in Ho. rewrite Hout in Ho.
      unfold output_events in He. apply list_elem_of_In, in_map_iff in He as (a & [= <- <- <- <-] & Ha). split; [done|].
      cbn [fst snd] in *. apply list_elem_of_In in Ha. destruct (Tx.Vout tx !! j) as [vo|]; [|done]. exists vo. split; [done|].
      injection Ho as <-. by case_decide.
  - intros (-> & vo & Hvo & -> & Ha). right. apply elem_of_concat_map.
    exists (i, if decide ((bt_btxID b, i) ∈ block_spends txs) then spend_output (out_of vo) else out_of vo). split.
    + apply enumerate_elem. by rewrite Hout, Hvo.
    + unfold output_events. apply list_elem_of_In, in_map_iff. exists ad. rewrite <- list_elem_of_In. cbn [fst snd]. by case_decide.
Qed.

(** ** Each event occurs once *)

Lemma NoDup_concat_at {A} (xss : list (list A)) k xs : NoDup (concat xss) -> xss !! k = Some xs -> NoDup xs.
Proof.
  revert k. induction xss as [|ys xss IH]; intros [|k] Hnd Hk; simplify_eq/=; apply NoDup_app in Hnd as (? & _ & ?); eauto.
Qed.

Lemma spend_unique k k' tx tx' i i' v v' s : txs !! k = Some tx -> txs !! k' = Some tx' ->
  Tx.Vin tx !! i = Some v -> Tx.Vin tx' !! i' = Some v' -> spend_of v = Some s -> spend_of v' = Some s -> k = k' /\ i = i'.
Proof.
  intros Hk Hk' Hi Hi' Hs Hs'. pose proof (vb_spends _ _ _ _ (cd_valid HC)) as Hnd. unfold block_spends in Hnd.
  assert (forall n t, txs !! n = Some t -> map spends_of txs !! n = Some (spends_of t)) as Hm
    by (intros n t Hn; change (map spends_of txs) with (spends_of <$> txs); by rewrite list_lookup_fmap, Hn).
  assert (forall t n w, Tx.Vin t !! n = Some w -> spend_of w = Some s -> s ∈ spends_of t) as Hin
    by (intros t n w Hw Hws; apply list_elem_of_omap; exists w; split; [by eapply list_elem_of_lookup_2|done]).
  assert (k = k') as <- by (eapply (NoDup_concat_index _ _ _ _ _ s Hnd); eauto).
  split; [done|]. assert (tx' = tx) as -> by congruence.
  eapply (NoDup_omap_index spend_of); [by eapply NoDup_concat_at; [|apply Hm]|done..].
Qed.

(** The outpoint of a refund is the one its input spends. *)
Lemma refund_spend k tx b i vin o ad : txs !! k = Some tx -> bts !! k = Some b -> Tx.Vin tx !! i = Some vin ->
  bt_inputs b !! i = Some o -> ad ∈ descs_of (TxInput.AddrDesc (default zeroInput (input_set f tx i vin))) ->
  spend_of vin = Some (op_btxID o, Z.to_nat (op_index o)) /\ op_index o = Vin.Vout vin /\ op_btxID o <> [] /\
  PackTxid (Vin.Txid vin) = Ret (op_btxID o) /\ 0 <= Vin.Vout vin < 2 ^ 31.
Proof.
  intros Htx Hb Hv Ho Had.
  assert (tx ∈ txs) as Hin by (by eapply list_elem_of_lookup_2). assert (vin ∈ Tx.Vin tx) as Hvin by (by eapply list_elem_of_lookup_2).
  pose proof (vin_valid tx vin Hin Hvin) as Hval. destruct (at_bts k b Hb) as (tx' & Htx' & _ & Hi).
  assert (tx' = tx) as -> by congruence. destruct (Forall2_lookup_l _ _ _ _ _ Hi Hv) as (o' & Ho' & Hvo).
  assert (o' = o) as -> by congruence. destruct (blockTxInput_at vin o Hval Hvo) as [Hx Hp].
  assert (exists id, PackTxid (Vin.Txid vin) = Ret id) as [id Hid].
  { destruct (stored_input tx i vin ad Hin Hv Had) as [Hd|(_ & _ & id & Hid & _)]; [|eauto].
    destruct (debit_of_Some vin _ Hval Hd) as (id & ? & ? & ? & Hid & _). eauto. }
  specialize (Hp id Hid). destruct Hval as [Hr [Hm|(id' & Hid' & Hne)]]; [congruence|].
  assert (id' = id) as -> by congruence. unfold spend_of. rewrite Hid, Hx, Hp. done.
Qed.

Definition ev_key (e : event) : outpoint * bytes + bytes * nat * bytes :=
  match e with Refund _ o _ ad => inl (o, ad) | Revoke id i _ ad => inr (id, i, ad) end.

Lemma events_NoDup : NoDup (map ev_key (block_events d1 bts)).
Proof.
  assert (forall n b, reverse bts !! n = Some b -> exists k tx, bts !! k = Some b /\ txs !! k = Some tx /\ ids !! k = Some (bt_btxID b) /\
    (n + S k = length bts)%nat) as Hrev.
  { intros n b [Hn Hlt]%reverse_lookup_Some. destruct (at_bts _ _ Hn) as (tx & Htx & Hid & _). do 2 eexists.
    split_and!; [done..|]. lia. }
  apply NoDup_concat_keys.
  - intros n b Hn. destruct (Hrev n b Hn) as (k & tx & Hb & Htx & Hid & _).
    destruct (events_at k b tx Hb Htx) as (ta & _ & Hin & _ & _ & _ & ->). unfold tx_events. rewrite map_app. apply NoDup_app.
    split_and!.
    + rewrite zip_with_zip. change (uncurry (input_events (bt_btxID b)) <$> zip (bt_inputs b) (Inputs ta))
        with (map (uncurry (input_events (bt_btxID b))) (zip (bt_inputs b) (Inputs ta))).
      apply NoDup_concat_keys.
      * intros i [o t] _. unfold input_events. cbn [uncurry]. rewrite map_map. cbn [ev_key].
        apply (NoDup_fmap_2 (fun a => inl (o, a))), descs_of_NoDup.
      * intros i j [o t] [o' t'] e e' Hi Hj He He' Ek. unfold input_events in He, He'. cbn [uncurry] in He, He'.
        apply list_elem_of_In, in_map_iff in He as (a & <- & Ha), He' as (a' & <- & Ha').
        cbn [ev_key] in Ek. injection Ek as <- <-. apply list_elem_of_In in Ha, Ha'.
        apply lookup_zip_with_Some in Hi as (? & ? & [= <- <-] & Ho & Ht), Hj as (? & ? & [= <- <-] & Ho' & Ht').
        rewrite Hin, final_inputs_lookup in Ht, Ht'.
        destruct (Tx.Vin tx !! i) as [v|] eqn:Ev, (Tx.Vin tx !! j) as [v'|] eqn:Ev'; try done. injection Ht as <-. injection Ht' as <-.
        destruct (refund_spend k tx b i v o a Htx Hb Ev Ho Ha) as [Hs _], (refund_spend k tx b j v' o a Htx Hb Ev' Ho' Ha') as [Hs' _].
        by destruct (spend_unique k k tx tx i j v v' _ Htx Htx Ev Ev' Hs Hs').
    + intros key (e & -> & He)%list_elem_of_fmap (e' & Ek & He')%list_elem_of_fmap.
      apply list_elem_of_In, in_concat in He as (es & Hes & He). apply list_elem_of_In, list_elem_of_lookup in Hes as [i Hi].
      apply lookup_zip_with_Some in Hi as (o & t & -> & _). unfold input_events in He. apply in_map_iff in He as (a & <- & _).
      apply elem_of_concat_map in He' as (x & _ & He'). unfold output_events in He'.
      by apply list_elem_of_In, in_map_iff in He' as (a' & <- & _).
    + apply NoDup_concat_keys.
      * intros i x _. unfold output_events. rewrite map_map. cbn [ev_key].
        apply (NoDup_fmap_2 (fun a => inr (bt_btxID b, x.1, a))), descs_of_NoDup.
      * intros i j x y e e' Hi Hj He He' Ek. unfold output_events in He, He'.
        apply list_elem_of_In, in_map_iff in He as (a & <- & Ha), He' as (a' & <- & Ha'). cbn [ev_key] in Ek.
        injection Ek as Exy _. change (enumerate (Outputs ta)) with (zip (seq 0 (length (Outputs ta))) (Outputs ta)) in Hi, Hj.
        apply lookup_zip_with_Some in Hi as (? & ? & -> & Hi & _), Hj as (? & ? & -> & Hj & _). simpl in Exy.
        apply lookup_seq in Hi as [-> _], Hj as [-> _]. lia.
  - intros n m b b' e e' Hn Hm He He' Ek. destruct (Hrev n b Hn) as (k & tx & Hb & Htx & Hid & Hnk), (Hrev m b' Hm) as (k' & tx' & Hb' & Htx' & Hid' & Hmk).
    assert (k = k') as <-; [|lia]. destruct e as [sp o v ad|id i v ad], e' as [sp' o' v' ad'|id' i' v' ad']; cbn [ev_key] in Ek; try done.
    + injection Ek as <- <-. apply (refund_elem k b tx) in He as (_ & i & vin & Hv & Ho & _ & Ha); [|done..].
      apply (refund_elem k' b' tx') in He' as (_ & i' & vin' & Hv' & Ho' & _ & Ha'); [|done..].
      destruct (refund_spend k tx b i vin o ad Htx Hb Hv Ho Ha) as [Hs _], (refund_spend k' tx' b' i' vin' o ad Htx' Hb' Hv' Ho' Ha') as [Hs' _].
      by destruct (spend_unique k k' tx tx' i i' vin vin' _ Htx Htx' Hv Hv' Hs Hs').
    + injection Ek as <- <- <-. apply (revoke_elem k b tx) in He as [-> _]; [|done..].
      apply (revoke_elem k' b' tx') in He' as [E _]; [|done..]. rewrite E in Hid.
      eapply NoDup_lookup; [apply (vb_nodup _ _ _ _ (cd_valid HC))|exact Hid|congruence].
Qed.

(** ** What was done before an event *)

Definition is_refund (e : event) : bool := match e with Refund _ _ _ _ => true | Revoke _ _ _ _ => false end.

Lemma split_sorted {A} (Q : A -> bool) (l1 l2 l : list A) e r : l1 ++ l2 = l ++ e :: r ->
  (forall x, x ∈ l1 -> Q x = true) -> (forall x, x ∈ l2 -> Q x = false) ->
  if Q e then forall x, x ∈ l -> Q x = true else forall x, x ∈ l1 ++ l2 -> Q x = true -> x ∈ l.
Proof.
  intros H H1 H2. apply app_eq_inv in H as [(k & -> & Hk)|(k & -> & ->)].
  - destruct (Q e) eqn:E; [intros x Hx; apply H1, elem_of_app; by left|].
    destruct k as [|y k]; [|injection Hk as <- _; rewrite H1 in E by (apply elem_of_app; right; left); done].
    rewrite app_nil_r in *. intros x [Hx|Hx]%elem_of_app Hq; [done|]. by rewrite H2 in Hq.
  - rewrite H2 by (apply elem_of_app; right; left). intros x [Hx|Hx]%elem_of_app Hq; [apply elem_of_app; by left|].
    by rewrite H2 in Hq.
Qed.

Lemma tx_events_order id inputs ta l e r : tx_events id inputs ta = l ++ e :: r ->
  if is_refund e then forall x, x ∈ l -> is_refund x = true else forall x, x ∈ tx_events id inputs ta -> is_refund x = true -> x ∈ l.
Proof.
  unfold tx_events. intros H. apply (split_sorted is_refund) in H; [done|..].
  - intros x Hx. apply list_elem_of_In, in_concat in Hx as (es & Hes & Hx). apply list_elem_of_In, list_elem_of_lookup in Hes as [i Hi].
    apply lookup_zip_with_Some in Hi as (o & t & -> & _). unfold input_events in Hx. by apply in_map_iff in Hx as (a & <- & _).
  - intros x Hx. apply elem_of_concat_map in Hx as (y & _ & Hx). unfold output_events in Hx.
    by apply list_elem_of_In, in_map_iff in Hx as (a & <- & _).
Qed.

(** An event of the block at its place: the transactions after its own are done, of its
    own the events before it. *)
Record at_event (l : list event) (e : event) (k : nat) (b : blockTxs) (tx : Tx.t) : Prop := {
  ae_b : bts !! k = Some b;
  ae_tx : txs !! k = Some tx;
  ae_in : e ∈ events_of d1 b;
  ae_later : forall j b' e', (k < j)%nat -> bts !! j = Some b' -> e' ∈ events_of d1 b' -> e' ∈ l;
  ae_past : forall e', e' ∈ l -> (e' ∈ events_of d1 b /\ (is_refund e = true -> is_refund e' = true)) \/
                                 exists j b', (k < j)%nat /\ bts !! j = Some b' /\ e' ∈ events_of d1 b';
  ae_own : is_refund e = false -> forall e', e' ∈ events_of d1 b -> is_refund e' = true -> e' ∈ l;
  ae_key : forall e', e' ∈ l -> ev_key e' <> ev_key e;
}.

Lemma event_split l e r : block_events d1 bts = l ++ e :: r -> exists k b tx, at_event l e k b tx.
Proof.
  intros H. pose proof events_NoDup as Hnd. unfold block_events in Hnd. fold (block_events d1 bts) in Hnd. rewrite H, map_app in Hnd.
  unfold block_events in H. apply concat_map_split in H as (pre & b & post & l' & r' & Hrev & Hb & ->).
  assert (forall n b', reverse bts !! n = Some b' -> (n < length bts)%nat /\ bts !! (length bts - S n)%nat = Some b') as Hpos
    by (intros n b' [? ?]%reverse_lookup_Some; done).
  assert (reverse bts !! length pre = Some b) as Hn by (by rewrite Hrev, list_lookup_middle).
  destruct (Hpos _ _ Hn) as [Hlt Hk]. destruct (at_bts _ _ Hk) as (tx & Htx & Hid & _).
  destruct (events_at _ b tx Hk Htx) as (ta & _ & _ & _ & _ & _ & Hev).
  exists (length bts - S (length pre))%nat, b, tx. split; [done|done|..].
  - rewrite Hb. apply elem_of_app. right. left.
  - intros j b' e' Hj Hb' He'. apply elem_of_app. left. apply elem_of_concat_map. exists b'. split; [|done].
    pose proof (lookup_lt_Some _ _ _ Hb'). apply list_elem_of_lookup. exists (length bts - S j)%nat.
    rewrite <- (lookup_app_l pre (b :: post)) by lia. rewrite <- Hrev. apply reverse_lookup_Some.
    split; [|lia]. rewrite <- Hb'. f_equal. lia.
  - intros e' [He'|He']%elem_of_app; [right|left].
    + apply elem_of_concat_map in He' as (b' & Hb' & He'). apply list_elem_of_lookup in Hb' as [n Hn'].
      pose proof (lookup_lt_Some _ _ _ Hn') as Hlt'. rewrite <- (lookup_app_l pre (b :: post)), <- Hrev in Hn' by done.
      destruct (Hpos _ _ Hn') as [_ Hb']. exists (length bts - S n)%nat, b'. split_and!; [lia|done|done].
    + split; [rewrite Hb; apply elem_of_app; by left|]. intros Hr. rewrite Hev in Hb. apply tx_events_order in Hb.
      rewrite Hr in Hb. by apply Hb.
  - intros Hr e' He' Hr'. apply elem_of_app. right. rewrite Hev in *. apply tx_events_order in Hb. rewrite Hr in Hb. by apply Hb.
  - intros e' He' Ek. apply NoDup_app in Hnd as (_ & Hd & _). apply (Hd (ev_key e')); [by apply list_elem_of_fmap_2|].
    rewrite Ek. left.
Qed.

(** ** What is sent *)

Lemma sumZ_concat_map {A B} (g : B -> Z) (h : A -> list B) xs :
  sumZ (map g (concat (map h xs))) = sumZ (map (fun x => sumZ (map g (h x))) xs).
Proof. induction xs as [|x xs IH]; [done|]. cbn [map concat]. rewrite map_app, sumZ_app, IH. done. Qed.

Lemma sumZ_nonneg l : (forall z, z ∈ l -> 0 <= z) -> 0 <= sumZ l.
Proof.
  intros H. unfold sumZ. induction l as [|z l IH]; [done|]. simpl.
  assert (0 <= z) by (apply H; left). assert (0 <= foldr Z.add 0 l) by (apply IH; intros y Hy; apply H; by right). lia.
Qed.

#[local] Instance sumZ_Permutation : Proper (Permutation ==> eq) sumZ.
Proof. intros l1 l2 H. unfold sumZ. induction H; simpl; lia. Qed.

(** A known output that is spent. *)
Lemma debit_value tx v t : tx ∈ txs -> v ∈ Tx.Vin tx -> debit_of f v = Some t -> 0 <= TxInput.ValueSat t.
Proof.
  intros Htx Hv Hd. destruct (debit_of_Some v t (vin_valid tx v Htx Hv) Hd) as (id & h & outs & o & _ & _ & Hf & Ho & -> & _).
  cbn [TxInput.ValueSat]. destruct (decide (id ∈ ids)) as [Hin|Hin].
  - apply list_elem_of_lookup in Hin as [k Hk]. destruct (id_at_tx k id Hk) as (tx' & Htx' & (_ & _ & Hvo & _)).
    rewrite (f_new k tx' id Htx' Hk) in Hf. injection Hf as _ <-. change (map out_of (Tx.Vout tx')) with (out_of <$> Tx.Vout tx') in Ho.
    rewrite list_lookup_fmap in Ho. destruct (Tx.Vout tx' !! _) as [vo|] eqn:Evo; [|done]. injection Ho as <-.
    rewrite Forall_lookup in Hvo. by destruct (Hvo _ _ Evo).
  - rewrite f_old in Hf by done. eapply (cd_values HC); [exact Hf|]. by eapply list_elem_of_lookup_2.
Qed.

Lemma input_set_debit tx i v t : debit_of f v = Some t -> input_set f tx i v = Some t.
Proof.
  unfold input_set. intros Hd. rewrite Hd. unfold debit_of in Hd. destruct (PackTxid (Vin.Txid v)) as [id|e|]; [|done..].
  by destruct (f id) as [[h outs]|].
Qed.

(** What the events of one input give back. *)
Lemma refunded_input tx i v sp o ad : tx ∈ txs -> Tx.Vin tx !! i = Some v -> IsAddrDescIndexable ad = true ->
  sumZ (map (refunded ad) (input_events sp o (default zeroInput (input_set f tx i v)))) = sentOf ad (debit_of f v).
Proof.
  intros Htx Hv Hi. set (t := default zeroInput (input_set f tx i v)). unfold input_events. rewrite map_map. cbn [refunded].
  assert (sumZ (map (fun a => if decide (a = ad) then TxInput.ValueSat t else 0) (descs_of (TxInput.AddrDesc t))) =
    if decide (ad ∈ descs_of (TxInput.AddrDesc t)) then TxInput.ValueSat t else 0) as ->.
  { pose proof (descs_of_NoDup (TxInput.AddrDesc t)) as Hnd. induction Hnd as [|a l Ha Hnd IH]; [done|].
    cbn [map]. unfold sumZ in *. cbn [foldr]. rewrite IH. destruct (decide (a = ad)) as [-> |Hne].
    - rewrite (decide_False (P := ad ∈ l)), decide_True by (done || left). lia.
    - rewrite Z.add_0_l. apply decide_ext. rewrite elem_of_cons. naive_solver. }
  destruct (decide (ad ∈ descs_of (TxInput.AddrDesc t))) as [Hin|Hin].
  - destruct (stored_input tx i v ad Htx Hv Hin) as [Hd|(_ & Hni & _)]; [|congruence]. fold t in Hd. rewrite Hd.
    unfold sentOf. rewrite decide_True; [done|]. by apply out_descs_descs.
  - destruct (debit_of f v) as [t'|] eqn:Hd; [|done]. cbn [sentOf].
    assert (t = t') as Et by (unfold t; by rewrite (input_set_debit tx i v t' Hd)).
    rewrite decide_False; [done|]. rewrite out_descs_descs, <- Et. tauto.
Qed.

Lemma refunded_tx k b tx ad : bts !! k = Some b -> txs !! k = Some tx -> IsAddrDescIndexable ad = true ->
  sumZ (map (refunded ad) (events_of d1 b)) = sent_by f (Tx.Vin tx) ad.
Proof.
  intros Hb Htx Hi. destruct (events_at k b tx Hb Htx) as (ta & _ & Hin & _ & _ & _ & ->). unfold tx_events.
  rewrite map_app, sumZ_app, !sumZ_concat_map.
  assert (forall l, sumZ (map (fun x => sumZ (map (refunded ad) (output_events (bt_btxID b) x))) l) = 0) as ->.
  { intros l. assert (forall x, sumZ (map (refunded ad) (output_events (bt_btxID b) x)) = 0) as H0.
    { intros x. unfold output_events. rewrite map_map. cbn [refunded]. induction (descs_of _) as [|a l' IH]; [done|]. cbn [map].
      unfold sumZ in *. cbn [foldr]. lia. }
    induction l as [|x l IH]; [done|]. cbn [map]. unfold sumZ in *. cbn [foldr]. rewrite H0. lia. }
  rewrite Z.add_0_r, zip_with_zip.
  change (uncurry (input_events (bt_btxID b)) <$> zip (bt_inputs b) (Inputs ta))
    with (map (uncurry (input_events (bt_btxID b))) (zip (bt_inputs b) (Inputs ta))).
  rewrite sumZ_concat_map. unfold sent_by. f_equal.
  destruct (at_bts k b Hb) as (tx' & Htx' & _ & Hio). assert (tx' = tx) as -> by congruence.
  apply list_eq. intros i.
  change (map (fun x => sumZ (map (refunded ad) (uncurry (input_events (bt_btxID b)) x))) (zip (bt_inputs b) (Inputs ta)))
    with ((fun x => sumZ (map (refunded ad) (uncurry (input_events (bt_btxID b)) x))) <$> zip (bt_inputs b) (Inputs ta)).
  change (map (fun v => sentOf ad (debit_of f v)) (Tx.Vin tx)) with ((fun v => sentOf ad (debit_of f v)) <$> Tx.Vin tx).
  rewrite !list_lookup_fmap, lookup_zip_with, Hin, final_inputs_lookup.
  destruct (Tx.Vin tx !! i) as [v|] eqn:Ev.
  - destruct (Forall2_lookup_l _ _ _ _ _ Hio Ev) as (o & Ho & _). rewrite Ho. cbn. f_equal.
    apply (refunded_input tx i v (bt_btxID b) o ad); [by eapply list_elem_of_lookup_2|done..].
  - cbn. by destruct (bt_inputs b !! i).
Qed.

Lemma refunded_block ad : IsAddrDescIndexable ad = true ->
  sumZ (map (refunded ad) (block_events d1 bts)) = sent_by f (concat (map Tx.Vin txs)) ad.
Proof.
  intros Hi. unfold block_events, sent_by. rewrite !sumZ_concat_map.
  assert (forall g, sumZ (map g (reverse bts)) = sumZ (map g bts)) as ->.
  { intros g. change (map g (reverse bts)) with (g <$> reverse bts). by rewrite reverse_Permutation. }
  f_equal. apply list_eq. intros k.
  change (map (fun x => sumZ (map (refunded ad) (events_of d1 x))) bts) with ((fun x => sumZ (map (refunded ad) (events_of d1 x))) <$> bts).
  change (map (fun x => sumZ (map (fun v => sentOf ad (debit_of f v)) (Tx.Vin x))) txs) with ((fun x => sent_by f (Tx.Vin x) ad) <$> txs).
  rewrite !list_lookup_fmap. destruct (bts !! k) as [b|] eqn:Eb.
  - destruct (at_bts k b Eb) as (tx & Htx & _). rewrite Htx. cbn. f_equal. by apply (refunded_tx k).
  - destruct (txs !! k) as [tx|] eqn:Et; [|done]. destruct (tx_at_id k tx Et) as (id & Hid & _).
    destruct (bts_at k tx id Et Hid) as (b & Hb & _). congruence.
Qed.

Lemma refunded_nonneg e ad : e ∈ block_events d1 bts -> IsAddrDescIndexable ad = true -> 0 <= refunded ad e.
Proof.
  intros He Hi. apply elem_of_concat_map in He as (b & Hb & He).
  rewrite reverse_Permutation in Hb. apply list_elem_of_lookup in Hb as [k Hb]. destruct (at_bts k b Hb) as (tx & Htx & _).
  destruct e as [sp o v a|]; [|done]. cbn [refunded]. case_decide as Ea; [|done]. subst a.
  apply (refund_elem k b tx) in He as (_ & i & vin & Hv & Ho & -> & Ha); [|done..].
  assert (tx ∈ txs) as Hin by (by eapply list_elem_of_lookup_2).
  destruct (stored_input tx i vin ad Hin Hv Ha) as [Hd|(_ & Hni & _)]; [|congruence].
  by eapply debit_value; [exact Hin|eapply list_elem_of_lookup_2|exact Hd].
Qed.

(** ** Every event can be undone in its turn *)

Local Notation K := (fun id => id ∈ ids).
Local Notation O1 := (owned d1 (before d1)).

Lemma owned_d1 ad u : O1 ad u <-> exists outs o i, f (Utxo.BtxID u) = Some (Utxo.Height u, outs) /\ outs !! i = Some o /\
  Utxo.Vout u = Z.of_nat i /\ TxOutput.Spent o = false /\ (Utxo.BtxID u, i) ∉ block_spends txs /\
  TxOutput.ValueSat o = Utxo.ValueSat u /\ ad ∈ out_descs (TxOutput.AddrDesc o).
Proof.
  unfold owned. rewrite (cd_outs HC). split.
  - intros (outs' & o' & i & Hf & Ho & Hi & Hs & Hval & Had). destruct (f (Utxo.BtxID u)) as [[h outs]|] eqn:Ef.
    2:{ by rewrite spend_all_None in Hf. }
    destruct (spend_all_Some (block_spends txs) f _ _ _ Ef) as (outs2 & E2 & _ & Hlk). rewrite E2 in Hf. injection Hf as -> ->.
    rewrite Hlk in Ho. destruct (outs !! i) as [o|] eqn:Eo; [|done]. cbn in Ho. injection Ho as <-.
    case_decide as Hin; [done|]. exists outs, o, i. done.
  - intros (outs & o & i & Hf & Ho & Hi & Hs & Hin & Hval & Had).
    destruct (spend_all_Some (block_spends txs) f _ _ _ Hf) as (outs2 & E2 & _ & Hlk).
    exists outs2, o, i. split_and!; try done. rewrite Hlk, Ho. cbn. by rewrite decide_False.
Qed.

Lemma O1_indexable ad u : O1 ad u -> IsAddrDescIndexable ad = true.
Proof. rewrite owned_d1. intros (outs & o & i & _ & _ & _ & _ & _ & _ & Had). by apply out_descs_descs in Had as [? _]. Qed.

Lemma O1_vout ad u : O1 ad u -> 0 <= Utxo.Vout u.
Proof. rewrite owned_d1. intros (outs & o & i & _ & _ & -> & _). lia. Qed.

Lemma spend_of_block k tx i v s : txs !! k = Some tx -> Tx.Vin tx !! i = Some v -> spend_of v = Some s -> s ∈ block_spends txs.
Proof.
  intros Hk Hi Hs. unfold block_spends. apply list_elem_of_In, in_concat. exists (spends_of tx).
  split; [apply in_map, list_elem_of_In; by eapply list_elem_of_lookup_2|]. apply list_elem_of_In, list_elem_of_omap.
  exists v. split; [by eapply list_elem_of_lookup_2|done].
Qed.

Lemma block_spend s : s ∈ block_spends txs -> exists k tx i v, txs !! k = Some tx /\ Tx.Vin tx !! i = Some v /\ spend_of v = Some s.
Proof.
  unfold block_spends. intros (ss & (tx & <- & Htx)%in_map_iff & Hs)%list_elem_of_In%in_concat.
  apply list_elem_of_In, list_elem_of_lookup in Htx as [k Hk]. apply list_elem_of_In, list_elem_of_omap in Hs as (v & Hv & Hs).
  apply list_elem_of_lookup in Hv as [i Hi]. eauto 10.
Qed.

(** The record of a known transaction in the new database. *)
Lemma known_d1 id h outs : f id = Some (h, outs) -> exists ta, db_tx d1 id = Some ta /\ Height ta = h /\ length (Outputs ta) = length outs.
Proof.
  intros Hf. destruct (spend_all_Some (block_spends txs) f _ _ _ Hf) as (outs2 & E2 & Hl & _).
  pose proof (cd_outs HC id) as Ho. rewrite outs_before, E2 in Ho. destruct (db_tx d1 id) as [ta|]; [|done]. simpl in Ho.
  injection Ho as <- <-. eauto.
Qed.

Lemma unknown_d1 id : f id = None -> db_tx d1 id = None.
Proof.
  intros Hf. pose proof (cd_outs HC id) as Ho. rewrite outs_before, spend_all_None in Ho by done. by destruct (db_tx d1 id).
Qed.

Lemma refund_ok l r sp o v ad : block_events d1 bts = l ++ Refund sp o v ad :: r -> refundable d1 K O1 l o v ad.
Proof.
  intros HE. destruct (event_split l _ r HE) as (k & b & tx & [Hb Htx He Hlater Hpast _ Hkey]).
  apply (refund_elem k b tx) in He as (-> & i & vin & Hv & Ho & -> & Ha); [|done..]. set (t := default zeroInput (input_set f tx i vin)) in *.
  assert (tx ∈ txs) as Hin by (by eapply list_elem_of_lookup_2). assert (vin ∈ Tx.Vin tx) as Hvin by (by eapply list_elem_of_lookup_2).
  destruct (refund_spend k tx b i vin o ad Htx Hb Hv Ho Ha) as (Hs & Hidx & Hne & Hp & Hr).
  assert (forall w, Revoke (op_btxID o) (Z.to_nat (op_index o)) w ad ∉ l) as Hkept.
  { intros w Hw. destruct (Hpast _ Hw) as [[_ Hq]|(j & b' & Hj & Hb' & He')]; [by specialize (Hq eq_refl)|].
    destruct (at_bts j b' Hb') as (tx' & Htx' & Hid' & _). destruct (proj1 (revoke_elem j b' tx' _ _ _ _ Hb' Htx') He') as [E _].
    rewrite <- E in Hid'. specialize (ub_order HU k j tx vin _ Htx Hvin Hp Hid'). lia. }
  destruct (stored_input tx i vin ad Hin Hv Ha) as [Hd|(Hd & Hni & id & Hid & Hf)].
  - fold t in Hd. destruct (debit_of_Some vin t (vin_valid tx vin Hin Hvin) Hd) as (id & h & outs & out & Hid & _ & Hf & Hout & Et & _).
    assert (id = op_btxID o) as -> by congruence. destruct (known_d1 _ _ _ Hf) as (ta & Hta & Hh & Hl).
    assert (IsAddrDescIndexable ad = true -> ad ∈ out_descs (TxInput.AddrDesc t)) as Hod by (intros Hi; by apply out_descs_descs).
    split; try done.
    + left. exists ta. split_and!; [done| |lia]. rewrite Hl, Hidx. by eapply lookup_lt_Some.
    + intros _. by eapply debit_value.
    + intros Hi. apply (cd_has HC ad (bt_btxID b)). exists tx. destruct (at_bts k b Hb) as (tx' & Htx' & Hid' & _).
      assert (tx' = tx) by congruence; subst tx'. split; [by eapply combine_at|]. right. exists vin. split; [done|]. exists t. auto.
    + intros u [HO _] Ek. unfold utxo_key in Ek. injection Ek as E1 E2. destruct HO as [HO|(_ & _ & (sp' & Hrf) & _)].
      * apply owned_d1 in HO as (outs' & o' & n & _ & _ & Hn & _ & Hnot & _). apply Hnot.
        rewrite E1. replace n with (Z.to_nat (op_index o)) by lia. by eapply spend_of_block.
      * apply (Hkey _ Hrf). cbn [ev_key]. rewrite E1, E2. by destruct o.
    + intros Hi. rewrite (cd_sent HC ad). pose proof (refunded_block ad Hi) as HB. rewrite HE, map_app, sumZ_app in HB.
      assert (sumZ (map (refunded ad) (Refund (bt_btxID b) o (TxInput.ValueSat t) ad :: r)) =
        TxInput.ValueSat t + sumZ (map (refunded ad) r)) as Hc
        by (cbn [map refunded]; unfold sumZ; cbn [foldr]; rewrite decide_True by done; done).
      assert (0 <= sumZ (map (refunded ad) r)) as Hr0.
      { apply sumZ_nonneg. intros z (e' & -> & He')%list_elem_of_fmap. apply refunded_nonneg; [|done].
        rewrite HE. apply elem_of_app. right. by right. }
      unfold sent. rewrite Hi. pose proof (cd_sent_nonneg HC ad). lia.
    + intros Hi. destruct (decide (op_btxID o ∈ ids)) as [Hk|Hk]; [left|by right]. by eapply (ub_search HU tx vin t); auto.
  - assert (id = op_btxID o) as -> by congruence. split; try done; try congruence.
    + right. split; [by apply unknown_d1|done].
    + intros u Hu. apply owners_indexable in Hu; [congruence|apply O1_indexable].
Qed.

Lemma revoke_ok l r id i v ad : block_events d1 bts = l ++ Revoke id i v ad :: r -> revocable d1 K O1 l id i v ad.
Proof.
  intros HE. destruct (event_split l _ r HE) as (k & b & tx & [Hb Htx He Hlater Hpast Hown Hkey]).
  apply (revoke_elem k b tx) in He as (-> & vo & Hvo & -> & Ha); [|done..].
  destruct (at_bts k b Hb) as (tx0 & Htx0 & Hid & _). assert (tx0 = tx) by congruence; subst tx0.
  destruct (id_at_tx k _ Hid) as (tx' & Htx2 & (_ & Hne & _ & Hlen)). assert (tx' = tx) by congruence; subst tx'.
  assert (IsAddrDescIndexable ad = true -> ad ∈ out_descs (out_desc vo)) as Hod by (intros Hi; by apply out_descs_descs).
  pose proof (lookup_lt_Some _ _ _ Hvo) as Hi31. pose proof (f_new k tx _ Htx Hid) as Hf.
  assert (map out_of (Tx.Vout tx) !! i = Some (out_of vo)) as Hmo
    by (change (map out_of (Tx.Vout tx)) with (out_of <$> Tx.Vout tx); by rewrite list_lookup_fmap, Hvo).
  split.
  - split; [done|by eapply list_elem_of_lookup_2].
  - unfold zlen in Hlen. lia.
  - intros Hi. apply (cd_has HC ad (bt_btxID b)). exists tx. split; [by eapply combine_at|]. left. exists vo.
    split; [by eapply list_elem_of_lookup_2|auto].
  - intros Hi. exists (Block.Height block). split.
    2:{ intros w Hw. cbn [Utxo.BtxID Utxo.Vout] in Hw. rewrite Nat2Z.id in Hw. by apply (Hkey _ Hw). }
    cbn [Utxo.BtxID Utxo.Vout Utxo.ValueSat Utxo.Height].
    destruct (decide ((bt_btxID b, i) ∈ block_spends txs)) as [Hsp|Hsp].
    + right. split_and!; [done|lia| |].
      2:{ destruct (known_d1 _ _ _ Hf) as (ta & Hta & Hh & _). eauto. }
      destruct (block_spend _ Hsp) as (j & tx' & n & vin & Htx' & Hvin & Hs).
      assert (tx' ∈ txs) as Hin' by (by eapply list_elem_of_lookup_2). assert (vin ∈ Tx.Vin tx') as Hvin' by (by eapply list_elem_of_lookup_2).
      pose proof (vin_valid tx' vin Hin' Hvin') as [Hr Hp]. unfold spend_of in Hs.
      destruct (PackTxid (Vin.Txid vin)) as [id'|e|] eqn:Ep; [|done..]. injection Hs as -> Hni.
      pose proof (ub_order HU j k tx' vin _ Htx' Hvin' Ep Hid) as Hkj.
      destruct (tx_at_id j tx' Htx') as (idj & Hidj & _). destruct (bts_at j tx' idj Htx' Hidj) as (bj & Hbj & _ & Hio).
      destruct (Forall2_lookup_l _ _ _ _ _ Hio Hvin) as (o & Ho & Hoo).
      destruct (blockTxInput_at vin o (conj Hr (or_intror (ex_intro _ _ (conj Ep Hne)))) Hoo) as [Hox Hop]. specialize (Hop _ Ep).
      assert (debit_of f vin = Some (TxInput.mk (out_desc vo) (Vout.ValueSat vo))) as Hd
        by (unfold debit_of; rewrite Ep, Hf, Hni, Hmo; done).
      exists (bt_btxID bj). apply (Hlater j bj); [done|done|]. apply (proj2 (refund_elem j bj tx' _ _ _ _ Hbj Htx')). split; [done|].
      exists n, vin. rewrite (input_set_debit tx' n vin _ Hd). split_and!; [done| |done].
      rewrite Ho. f_equal. destruct o as [o1 o2]. cbn [op_btxID op_index] in *. f_equal; [congruence|lia].
    + left. apply owned_d1. exists (map out_of (Tx.Vout tx)), (out_of vo), i. cbn [Utxo.BtxID Utxo.Vout Utxo.ValueSat Utxo.Height]. auto 10.
Qed.

Lemma block_undoables : undoables d1 K O1 [] (block_events d1 bts).
Proof.
  intros l e r HE. cbn [app]. destruct e as [sp o v ad|id i v ad]; [by eapply refund_ok|by eapply revoke_ok].
Qed.

(** ** After all events *)

Lemma descs_of_self ad : zlen ad <> 0 -> exists l, descs_of ad = ad :: l.
Proof.
  intros Hz. unfold descs_of. destruct (addrDescriptors_ok ad) as (l & Hl & _). rewrite Hl. revert Hl. unfold addrDescriptors.
  destruct (isPayToColdStake ad); [|intros [= <-]; cbn; rewrite decide_True by done; eauto].
  destruct (getOwnerFromP2CS ad); intros [= <-]; cbn; rewrite decide_True by done; eauto.
Qed.

(** An output the block spends is given back to each of its descriptors. *)
Lemma spend_refunded x i h outs o ad : (x, i) ∈ block_spends txs -> f x = Some (h, outs) -> outs !! i = Some o ->
  ad ∈ descs_of (TxOutput.AddrDesc o) ->
  exists sp, Refund sp (mkOutpoint x (Z.of_nat i)) (TxOutput.ValueSat o) ad ∈ block_events d1 bts.
Proof.
  intros Hsp Hf Ho Ha. destruct (block_spend _ Hsp) as (j & tx & n & vin & Htx & Hvin & Hs).
  assert (tx ∈ txs) as Hin by (by eapply list_elem_of_lookup_2). assert (vin ∈ Tx.Vin tx) as Hvin' by (by eapply list_elem_of_lookup_2).
  pose proof (vin_valid tx vin Hin Hvin') as Hval. pose proof Hval as [Hr _]. unfold spend_of in Hs.
  destruct (PackTxid (Vin.Txid vin)) as [id'|e|] eqn:Ep; [|done..]. injection Hs as -> Hni.
  destruct (tx_at_id j tx Htx) as (id & Hid & _). destruct (bts_at j tx id Htx Hid) as (b & Hb & Hbid & Hio).
  destruct (Forall2_lookup_l _ _ _ _ _ Hio Hvin) as (op & Hop & Hopv). destruct (blockTxInput_at vin op Hval Hopv) as [Hox Hoi].
  specialize (Hoi _ Ep).
  assert (debit_of f vin = Some (TxInput.mk (TxOutput.AddrDesc o) (TxOutput.ValueSat o))) as Hd
    by (unfold debit_of; rewrite Ep, Hf, Hni, Ho; done).
  exists (bt_btxID b). apply elem_of_concat_map. exists b. split; [rewrite reverse_Permutation; by eapply list_elem_of_lookup_2|].
  apply (proj2 (refund_elem j b tx _ _ _ _ Hb Htx)). split; [done|]. exists n, vin. rewrite (input_set_debit tx n vin _ Hd).
  split_and!; [done| |done]. rewrite Hop. f_equal. destruct op as [o1 o2]. cbn [op_btxID op_index] in *. f_equal; [done|lia].
Qed.

(** A refund is of an input of the block. *)
Lemma refunded_spend sp o v ad : Refund sp o v ad ∈ block_events d1 bts ->
  (op_btxID o, Z.to_nat (op_index o)) ∈ block_spends txs /\ 0 <= op_index o /\
  (IsAddrDescIndexable ad = true -> exists h outs out, f (op_btxID o) = Some (h, outs) /\
     outs !! Z.to_nat (op_index o) = Some out /\ TxOutput.ValueSat out = v /\ ad ∈ out_descs (TxOutput.AddrDesc out)).
Proof.
  intros He. apply elem_of_concat_map in He as (b & Hb & He). rewrite reverse_Permutation in Hb.
  apply list_elem_of_lookup in Hb as [k Hb]. destruct (at_bts k b Hb) as (tx & Htx & _).
  destruct (proj1 (refund_elem k b tx _ _ _ _ Hb Htx) He) as (_ & i & vin & Hv & Ho & -> & Ha).
  destruct (refund_spend k tx b i vin o ad Htx Hb Hv Ho Ha) as (Hs & Hidx & _ & Hp & Hr).
  assert (tx ∈ txs) as Hin by (by eapply list_elem_of_lookup_2). assert (vin ∈ Tx.Vin tx) as Hvin by (by eapply list_elem_of_lookup_2).
  split; [by eapply spend_of_block|]. split; [lia|]. intros Hi.
  destruct (stored_input tx i vin ad Hin Hv Ha) as [Hd|(_ & Hni & _)]; [|congruence].
  destruct (debit_of_Some vin _ (vin_valid tx vin Hin Hvin) Hd) as (id & h & outs & out & Hid & _ & Hf & Hout & Et & _).
  assert (id = op_btxID o) by congruence; subst id. exists h, outs, out. rewrite Hidx. rewrite Et in *. split_and!; try done.
  by apply out_descs_descs.
Qed.

Lemma revoked_output x i ad : (exists v, Revoke x i v ad ∈ block_events d1 bts) <->
  x ∈ ids /\ exists h outs o, f x = Some (h, outs) /\ outs !! i = Some o /\ ad ∈ descs_of (TxOutput.AddrDesc o).
Proof.
  split.
  - intros (v & He). apply elem_of_concat_map in He as (b & Hb & He). rewrite reverse_Permutation in Hb.
    apply list_elem_of_lookup in Hb as [k Hb]. destruct (at_bts k b Hb) as (tx & Htx & Hid & _).
    destruct (proj1 (revoke_elem k b tx _ _ _ _ Hb Htx) He) as (-> & vo & Hvo & -> & Ha). split; [by eapply list_elem_of_lookup_2|].
    exists (Block.Height block), (map out_of (Tx.Vout tx)), (out_of vo). split_and!; [by eapply f_new| |done].
    change (map out_of (Tx.Vout tx)) with (out_of <$> Tx.Vout tx). by rewrite list_lookup_fmap, Hvo.
  - intros (Hx & h & outs & o & Hf & Ho & Ha). apply list_elem_of_lookup in Hx as [k Hid].
    destruct (id_at_tx k x Hid) as (tx & Htx & _). rewrite (f_new k tx x Htx Hid) in Hf. injection Hf as _ <-.
    change (map out_of (Tx.Vout tx)) with (out_of <$> Tx.Vout tx) in Ho. rewrite list_lookup_fmap in Ho.
    destruct (Tx.Vout tx !! i) as [vo|] eqn:Evo; [|done]. injection Ho as <-.
    destruct (bts_at k tx x Htx Hid) as (b & Hb & Hbid & _). exists (Vout.ValueSat vo). apply elem_of_concat_map. exists b.
    split; [rewrite reverse_Permutation; by eapply list_elem_of_lookup_2|].
    apply (proj2 (revoke_elem k b tx _ _ _ _ Hb Htx)). eauto.
Qed.

(** The owners are those before the block. *)
Lemma owners_end ad u : owners d1 O1 (block_events d1 bts) ad u <-> owned d (before d) ad u.
Proof.
  unfold owners. split.
  - intros [HO HR].
    assert (exists outs o i, f (Utxo.BtxID u) = Some (Utxo.Height u, outs) /\ outs !! i = Some o /\ Utxo.Vout u = Z.of_nat i /\
      TxOutput.ValueSat o = Utxo.ValueSat u /\ ad ∈ out_descs (TxOutput.AddrDesc o) /\
      (TxOutput.Spent o = false \/ (Utxo.BtxID u, i) ∈ block_spends txs)) as (outs & o & i & Hf & Ho & Hi & Hval & Had & Hsp).
    { destruct HO as [HO|(Hai & Hv & (sp & Hrf) & ta & Hta & Hh)].
      - apply owned_d1 in HO as (outs & o & i & ? & ? & ? & ? & ? & ? & ?). exists outs, o, i. auto 10.
      - destruct (refunded_spend _ _ _ _ Hrf) as (Hsp & _ & Hk). destruct (Hk Hai) as (h & outs & out & Hf & Hout & Hval & Had).
        cbn [op_btxID op_index] in *. exists outs, out, (Z.to_nat (Utxo.Vout u)).
        destruct (known_d1 _ _ _ Hf) as (ta' & Hta' & Hh' & _). rewrite Hta in Hta'. injection Hta' as <-.
        split_and!; try done; [congruence|lia|by right]. }
    assert (Utxo.BtxID u ∉ ids) as Hnew.
    { intros Hin. destruct (proj2 (revoked_output (Utxo.BtxID u) i ad)) as [v Hv].
      - split; [done|]. exists (Utxo.Height u), outs, o. split_and!; try done. by apply out_descs_descs in Had as [_ ?].
      - apply (HR v). rewrite Hi, Nat2Z.id. done. }
    rewrite f_old in Hf by done. exists outs, o, i. split_and!; try done.
    destruct Hsp as [?|Hsp]; [done|]. by apply (vb_unspent _ _ _ _ (cd_valid HC) _ Hsp _ _ _ Hf Ho).
  - intros (outs & o & i & Hf & Ho & Hi & Hs & Hval & Had).
    assert (Utxo.BtxID u ∉ ids) as Hnew.
    { intros Hin. specialize (vb_new _ _ _ _ (cd_valid HC) _ Hin). unfold outs_view in Hf. by destruct (tx_view _ _ _). }
    rewrite <- f_old in Hf by done. split.
    + destruct (decide ((Utxo.BtxID u, i) ∈ block_spends txs)) as [Hsp|Hsp].
      * right. apply out_descs_descs in Had as [Hai Had]. split_and!; [done|lia| |].
        -- rewrite Hi, <- Hval. by eapply spend_refunded.
        -- destruct (known_d1 _ _ _ Hf) as (ta & Hta & Hh & _). eauto.
      * left. apply owned_d1. exists outs, o, i. auto 10.
    + intros v Hv. destruct (proj1 (revoked_output (Utxo.BtxID u) (Z.to_nat (Utxo.Vout u)) ad)) as [Hin _]; [by exists v|done].
Qed.

(** The transactions an address is touched by are those it was counted for. *)
Lemma touched_end ad : forall id, id ∈ touched (block_events d1 bts) ad <-> block_touches f txs ids ad id.
Proof.
  intros id. unfold touched, block_touches, tx_touches. destruct (IsAddrDescIndexable ad) eqn:Hi.
  2:{ split; [set_solver|]. intros (tx & _ & [(v & _ & Ha)|(v & _ & t & _ & Ha)]); apply out_descs_descs in Ha as [? _]; congruence. }
  rewrite elem_of_list_to_set. split.
  - intros (e & -> & [<- He]%list_elem_of_filter)%list_elem_of_fmap. pose proof He as Hall.
    apply elem_of_concat_map in He as (b & Hb & He). rewrite reverse_Permutation in Hb.
    apply list_elem_of_lookup in Hb as [k Hb]. destruct (at_bts k b Hb) as (tx & Htx & Hid & _). rewrite (events_of_tx d1 b e He).
    exists tx. split; [by eapply combine_at|]. destruct e as [sp o v a|x i v a]; cbn [ev_ad] in *.
    + destruct (proj1 (refund_elem k b tx _ _ _ _ Hb Htx) He) as (_ & i & vin & Hv & Ho & -> & Ha). right.
      destruct (stored_input tx i vin a ltac:(by eapply list_elem_of_lookup_2) Hv Ha) as [Hd|(_ & Hni & _)]; [|congruence].
      exists vin. split; [by eapply list_elem_of_lookup_2|]. eexists. split; [exact Hd|]. by apply out_descs_descs.
    + destruct (proj1 (revoke_elem k b tx _ _ _ _ Hb Htx) He) as (_ & vo & Hvo & _ & Ha). left. exists vo.
      split; [by eapply list_elem_of_lookup_2|by apply out_descs_descs].
  - intros (tx & (k & Htx & Hid)%elem_of_combine & Ht). destruct (bts_at k tx id Htx Hid) as (b & Hb & Hbid & Hio).
    assert (exists e, e ∈ events_of d1 b /\ ev_ad e = ad) as (e & He & Hea).
    { destruct Ht as [(vo & Hvo & Ha)|(vin & Hv & t & Hd & Ha)]; apply out_descs_descs in Ha as [_ Ha].
      - apply list_elem_of_lookup in Hvo as [i Hvo]. exists (Revoke (bt_btxID b) i (Vout.ValueSat vo) ad). split; [|done].
        apply (proj2 (revoke_elem k b tx _ _ _ _ Hb Htx)). eauto.
      - apply list_elem_of_lookup in Hv as [i Hv]. destruct (Forall2_lookup_l _ _ _ _ _ Hio Hv) as (o & Ho & _).
        exists (Refund (bt_btxID b) o (TxInput.ValueSat t) ad). split; [|done].
        apply (proj2 (refund_elem k b tx _ _ _ _ Hb Htx)). split; [done|]. exists i, vin.
        rewrite (input_set_debit tx i vin t Hd). done. }
    apply list_elem_of_fmap. exists e. split; [by rewrite (events_of_tx d1 b e He)|]. apply list_elem_of_filter. split; [done|].
    apply elem_of_concat_map. exists b. split; [rewrite reverse_Permutation; by eapply list_elem_of_lookup_2|done].
Qed.

Lemma sent_end ad : sent (block_events d1 bts) ad = sent_by f (concat (map Tx.Vin txs)) ad.
Proof.
  unfold sent. destruct (IsAddrDescIndexable ad) eqn:Hi; [by apply refunded_block|]. unfold sent_by.
  induction (concat (map Tx.Vin txs)) as [|v l IH]; [done|]. cbn [map]. unfold sumZ in *. cbn [foldr]. rewrite <- IH.
  unfold sentOf. destruct (debit_of f v) as [t|]; [|done]. rewrite decide_False; [done|]. intros [? _]%out_descs_descs. congruence.
Qed.

(** ** The transactions of other blocks *)

(** The output [i] of [x] is given back by an event. *)
Definition gives_back (x : bytes) (i : nat) (e : event) : bool :=
  match e with
  | Refund _ o _ _ => bool_decide (op_btxID o = x) && bool_decide (Z.to_nat (op_index o) = i)
  | Revoke _ _ _ _ => false
  end.

Lemma undo_outputs_lookup l x i : forall outs, foldl (undo_outputs x) outs l !! i =
  (fun o => if existsb (gives_back x i) l then unspend_output o else o) <$> outs !! i.
Proof.
  induction l as [|e l IH]; intros outs; [simpl; symmetry; apply option_fmap_id|]. cbn [foldl existsb]. rewrite IH.
  destruct e as [sp o v ad|id j v ad]; cbn [undo_outputs gives_back]; [|done].
  destruct (decide (op_btxID o = x)) as [E|E]; [rewrite bool_decide_true by done|by rewrite bool_decide_false].
  rewrite lookup_alter_fn. destruct (decide (Z.to_nat (op_index o) = i)) as [Ei|Ei];
    [rewrite bool_decide_true by done|by rewrite bool_decide_false].
  destruct (outs !! i); cbn; [|done]. by destruct (existsb _ l).
Qed.

(** A transaction of another block is as it was. *)
Lemma record_end x : x ∉ ids -> undo_record (block_events d1 bts) x <$> db_tx d1 x = db_tx d x.
Proof.
  intros Hx. pose proof (cd_rest HC x Hx) as Hr. pose proof (cd_outs HC x) as Ho. rewrite outs_before in Ho.
  pose proof (f_old x Hx) as Hf. rewrite outs_before in Hf.
  destruct (db_tx d x) as [ta|], (db_tx d1 x) as [ta1|]; try done. cbn in *.
  destruct (spend_all_Some (block_spends txs) f x _ _ Hf) as (outs' & E & Hl & Hlk). rewrite E in Ho. injection Ho as Hh Ho.
  injection Hr as H1 H2 H3 H4 H5. f_equal. unfold undo_record.
  assert (foldl (undo_outputs x) (Outputs ta1) (block_events d1 bts) = Outputs ta) as ->.
  2:{ unfold set_Outputs. destruct ta, ta1; simpl in *; congruence. }
  apply list_eq. intros i. rewrite undo_outputs_lookup, Ho, Hlk. destruct (Outputs ta !! i) as [o|] eqn:Eo; [|done].
  cbn [fmap option_fmap option_map]. f_equal.
  destruct (existsb (gives_back x i) (block_events d1 bts)) eqn:Eb.
  - apply existsb_exists in Eb as (e & He & Hg). apply list_elem_of_In in He. destruct e as [sp op v ad|]; [|done].
    apply andb_true_iff in Hg as [Hg1%bool_decide_eq_true Hg2%bool_decide_eq_true].
    destruct (refunded_spend _ _ _ _ He) as (Hsp & _). rewrite Hg1, Hg2 in Hsp. rewrite decide_True by done.
    rewrite f_old in Hf by done. pose proof (vb_unspent _ _ _ _ (cd_valid HC) _ Hsp _ _ _ Hf Eo) as Hs. destruct o; simpl in *. by subst.
  - destruct (decide ((x, i) ∈ block_spends txs)) as [Hsp|Hsp]; [|done]. exfalso. apply not_true_iff_false in Eb. apply Eb.
    destruct (block_spend _ Hsp) as (j & tx & n & vin & Htx & Hvin & Hs).
    assert (tx ∈ txs) as Hin by (by eapply list_elem_of_lookup_2). assert (vin ∈ Tx.Vin tx) as Hvin' by (by eapply list_elem_of_lookup_2).
    unfold spend_of in Hs. destruct (PackTxid (Vin.Txid vin)) as [id'|e|] eqn:Ep; [|done..]. injection Hs as -> Hni.
    assert (debit_of f vin = Some (TxInput.mk (TxOutput.AddrDesc o) (TxOutput.ValueSat o))) as Hd
      by (unfold debit_of; rewrite Ep, Hf, Hni, Eo; done).
    pose proof (ub_desc HU tx vin _ Hin Hvin' Hd) as Hz. destruct (descs_of_self _ Hz) as [l Hd1].
    destruct (spend_refunded x i _ _ o (TxOutput.AddrDesc o) Hsp Hf Eo) as [sp Hrf].
    { cbn [TxInput.AddrDesc] in Hd1. rewrite Hd1. left. }
    apply existsb_exists. eexists. split; [apply list_elem_of_In, Hrf|]. cbn [gives_back op_btxID op_index].
    by rewrite Nat2Z.id, !bool_decide_true.
Qed.

(** The undo data of every transaction match its record. *)
Lemma bts_records : Forall (fun b => exists txa, db_tx d1 (bt_btxID b) = Some txa /\ length (bt_inputs b) = length (Inputs txa)) bts.
Proof.
  apply Forall_lookup. intros k b Hb. destruct (at_bts k b Hb) as (tx & Htx & _ & Hio).
  destruct (events_at k b tx Hb Htx) as (ta & Hta & Hin & _). exists ta. split; [done|]. rewrite Hin, <- (Forall2_length _ _ _ Hio).
  unfold final_inputs. symmetry. rewrite length_set_inputs. apply repeat_length.
Qed.
End block.
