(* ===== verification/DisconnectFacts.v ===== *)
(** Disconnecting the last block restores the database before it ([Connect]). *)
From stdpp Require Import base list gmap strings sorting.
From Stdlib Require Import ZArith Lia.
From S2P Require Import Prelude Hex Types Store Vlq Codec InternalState AddrBalance TxAddresses RocksDB RocksDBFacts.
From S2P Require Import BitcoinParser BitcoinIndex Ledger IndexInvariant EthIndex Connect ConnectFacts Undo UndoBlock.

Open Scope Z_scope.
Open Scope go_scope.

Lemma restored_fields ab : let r := restored DetailUTXOIndexed ab in
  Txs r = Txs ab /\ SentSat r = SentSat ab /\ BalanceSat r = BalanceSat ab.
Proof.
  unfold restored. by destruct (foldl_addUtxo (unspent_utxos (Utxos ab))
    (mkAddrBalance (Txs ab) (SentSat ab) (BalanceSat ab) [] ∅)) as (_ & -> & -> & -> & _).
Qed.

Lemma insertByHeight_Permutation u l : insertByHeight u l ≡ₚ u :: l.
Proof.
  induction l as [|y l IH]; [done|]. simpl. destruct (_ <=? _); [done|]. rewrite IH. apply Permutation_swap.
Qed.

Lemma sortByHeight_Permutation l : sortByHeight l ≡ₚ l.
Proof. induction l as [|u l IH]; [done|]. cbn [sortByHeight foldr]. by rewrite insertByHeight_Permutation, IH. Qed.

#[global] Instance wb_op_eq_dec : EqDecision wb_op.
Proof. solve_decision. Defined.

Lemma unspent_perm us1 us2 : us1 ≡ₚ us2 -> unspent_utxos us1 ≡ₚ unspent_utxos us2.
Proof.
  unfold unspent_utxos. induction 1 as [|u l l' H IH|u w l|l1 l2 l3 H1 IH1 H2 IH2]; simpl; [done|..].
  - destruct (Utxo.unspent u); [by rewrite IH|done].
  - destruct (Utxo.unspent u), (Utxo.unspent w); try done. apply Permutation_swap.
  - by rewrite IH1.
Qed.

(** A batch of deletions. *)
Lemma apply_batch_deletes wb m ck : (forall o, o ∈ wb -> exists c k, o = DeleteCF c k) ->
  (DeleteCF ck.1 ck.2 ∈ wb -> apply_batch wb m !! ck = None) /\
  (DeleteCF ck.1 ck.2 ∉ wb -> apply_batch wb m !! ck = m !! ck).
Proof.
  intros Hd. split.
  - revert m. induction wb as [|o wb IH]; intros m Hin; [by apply not_elem_of_nil in Hin|].
    destruct (Hd o) as (c & k & ->); [left|].
    assert (forall o', o' ∈ wb -> exists c k, o' = DeleteCF c k) as Hd' by (intros o' Ho'; apply Hd; by right).
    change (apply_batch (DeleteCF c k :: wb) m) with (apply_batch wb (delete (c, k) m)).
    destruct (decide (DeleteCF ck.1 ck.2 ∈ wb)) as [Hw|Hw]; [by apply IH|].
    apply elem_of_cons in Hin as [[= <- <-]|]; [|done]. rewrite apply_batch_other.
    + destruct ck. apply lookup_delete_eq.
    + intros o' Ho' E. destruct (Hd' o' Ho') as (c' & k' & ->). apply Hw. simpl in E. subst ck. done.
  - intros Hn. apply apply_batch_other. intros o Ho E. destruct (Hd o Ho) as (c & k & ->). simpl in E. by subst ck.
Qed.

(** Balances that agree up to the order of the utxos. *)
Definition balance_eq (a b : option AddrBalance) : Prop :=
  match a, b with
  | None, None => True
  | Some x, Some y => Txs x = Txs y /\ SentSat x = SentSat y /\ BalanceSat x = BalanceSat y /\ Utxos x ≡ₚ Utxos y
  | _, _ => False
  end.

Section disconnect.
Context `{SL : StoreLaws} `{PL : ParserLaws} `{VL : VlqLaws} `{SCL : ScriptLaws}.
Hypothesis Hrel : reliable.

(** What is read from the database was stored by a block. *)
Record stored_ok (d : RocksDB) : Prop := {
  so_balance : forall ad B, GetAddrDescBalance d ad DetailUTXOIndexed = Ret (Some B) ->
    wf_balance PackedTxidLen B /\ 0 < Txs B /\ unspent_utxos (Utxos B) = Utxos B;
  so_tx : forall id ta, getTxAddresses d id = Ret (Some ta) -> wf_txAddresses ta /\ stored_ta ta = ta;
}.

Lemma wf_balance_restored n ab : wf_balance n ab -> wf_balance n (restored DetailUTXOIndexed ab).
Proof.
  intros (H1 & H2 & H3 & H4). destruct (restored_fields ab) as (E1 & E2 & E3). unfold wf_balance.
  rewrite E1, E2, E3, Utxos_restored. split_and!; try apply H2; try apply H3; [done|]. by apply Forall_unspent.
Qed.

Lemma wf_stored_ta ta : wf_txAddresses ta -> wf_txAddresses (stored_ta ta).
Proof.
  intros (H1 & H2 & H3 & H4 & H5 & H6 & H7 & H8). unfold wf_txAddresses. cbn. rewrite Z.abs_involutive. done.
Qed.

Lemma stored_ok_step (d d' : RocksDB) b : fits b -> stored_ok d ->
  (forall id, getTxAddresses d' id =
     match txAddressesOf b !! id with Some ta => Ret (Some (stored_ta ta)) | None => getTxAddresses d id end) ->
  (forall ad, GetAddrDescBalance d' ad DetailUTXOIndexed =
     match balances b !! ad with
     | Some B => Ret (Some (restored DetailUTXOIndexed B)) | None => GetAddrDescBalance d ad DetailUTXOIndexed end) ->
  stored_ok d'.
Proof.
  intros Hf [Hb Ht] HT HB. split.
  - intros ad B'. rewrite HB. destruct (balances b !! ad) as [B|] eqn:E; [|apply Hb]. intros E'.
    assert (B' = restored DetailUTXOIndexed B) as -> by congruence. clear E'.
    destruct (fits_balances _ Hf _ _ E) as [Hwf Hpos]. destruct (restored_fields B) as (E1 & _). rewrite E1.
    split_and!; [by apply wf_balance_restored|done|]. rewrite Utxos_restored. apply unspent_idemp.
  - intros id ta'. rewrite HT. destruct (txAddressesOf b !! id) as [ta|] eqn:E; [|apply Ht]. intros [= <-].
    split; [apply wf_stored_ta; by eapply fits_txs|]. unfold stored_ta. cbn. by rewrite Z.abs_involutive.
Qed.

Lemma chain_stored d blocks : GetChainType = ChainBitcoinType -> chain d blocks -> stored_ok d.
Proof.
  intros Hct. induction 1 as [d s i Hd Hi He|d d' blocks now block ids Hch IH [[hv Hhv] Hh Hv Hf] Hrun].
  - destruct (empty_readable Hrel d s Hd He) as [H1 H2]. split; intros *; rewrite ?H1, ?H2; done.
  - destruct (chain_inv Hrel d blocks Hct Hch) as (Hr & Hc & [s Hs] & [i Hi]).
    destruct (ConnectBlock_run Hrel now block ids d s i hv) as (d2 & b & E & Ep & _ & _ & _ & _ & HT & HB & _); [done..|].
    rewrite Hrun in E. injection E as <-. by apply (stored_ok_step d d' b); [apply Hf|..].
Qed.

(** ** The block connected *)

(** The transactions counted for an address, in its balance. *)
Definition counts (d d1 : RocksDB) (block : Block.t) (ids : list bytes) : Prop :=
  forall ad, exists l, NoDup l /\
    (forall id, id ∈ l <-> block_touches (block_outs d (before d) block ids) (Block.Txs block) ids ad id) /\
    Txs (db_balance d1 ad) = u32 (Txs (db_balance d ad) + zlen l).

Lemma stored_txs d ad : stored_ok d -> in_u32 (Txs (db_balance d ad)) /\ 0 <= SentSat (db_balance d ad).
Proof.
  intros [Hb _]. unfold db_balance. destruct (GetAddrDescBalance d ad DetailUTXOIndexed) as [[B|]|e|] eqn:E; try done.
  destruct (Hb _ _ E) as ((? & ? & _) & _). split; [done|lia].
Qed.

Lemma ConnectBlock_connected now block ids d s i :
  db d = Some s -> istate d = Some i -> GetChainType = ChainBitcoinType ->
  readable d -> consistent d (before d) -> stored_ok d -> connectable d block ids ->
  exists d1 s1 bts, ConnectBlock now block d = (d1, Ret tt) /\ db d1 = Some s1 /\
    readable d1 /\ consistent d1 (before d1) /\ stored_ok d1 /\ connected d d1 block ids bts /\ counts d d1 block ids /\
    exists m, block_columns (Block.Height block) bts m s s1 /\
      forall ad l, m !! ad = Some l -> exists id, block_touches (block_outs d (before d) block ids) (Block.Txs block) ids ad id.
Proof.
  intros Hd Hi Hct Hr Hc Hso [[hv Hbh] Hh Hv Hf].
  destruct (ConnectBlock_run Hrel now block ids d s i hv) as (d1 & b & E & Ep & Hr1 & Hc1 & _ & HO & HT & HB & s1 & bts & Hs1 & Hbts & Hcol);
    [done..|].
  destruct (processAddressesBitcoinType_full d (proj1 Hr) (proj2 Hr) (before d) block ids Hc Hv)
    as (b' & Ep' & Cb & _ & HI & HR & [HEc HEs HEk]).
  rewrite Ep in Ep'. injection Ep' as <-.
  assert (counts_ok d (before d)) as Hk0.
  { split; unfold counted, before; cbn [addresses newBlockState balances]; intros ad; rewrite ?lookup_empty; try done; [constructor|].
    unfold balance_view. cbn [balances newBlockState]. rewrite lookup_empty. simpl. rewrite Z.add_0_r.
    symmetry. apply u32_id, stored_txs, Hso. }
  destruct (HEk Hk0) as [Hk1 Hk2 Hk3 Hk4].
  assert (forall ad id, id ∈ counted b ad <-> block_touches (block_outs d (before d) block ids) (Block.Txs block) ids ad id) as Hcnt.
  { intros ad id. rewrite HEc. split; [|auto]. intros [Hn|?]; [|done]. unfold counted, before in Hn. cbn [addresses newBlockState] in Hn.
    rewrite lookup_empty in Hn. by apply not_elem_of_nil in Hn. }
  assert (forall ad, Txs (db_balance d1 ad) = Txs (balance_view d b ad) /\ SentSat (db_balance d1 ad) = SentSat (balance_view d b ad)) as HB1.
  { intros ad. unfold db_balance at 1 2, balance_view. rewrite HB. destruct (balances b !! ad) as [B|]; [|done].
    destruct (restored_fields B) as (E1 & E2 & _). split; [exact E1|exact E2]. }
  assert (forall x, db_tx d1 x = stored_ta <$> tx_view d b x) as HT1.
  { intros x. unfold db_tx at 1, tx_view. rewrite HT, txAddressesOf_lookup. destruct (txAddressesMap b !! x) as [loc|] eqn:El.
    - destruct (lookup_lt_is_Some_2 (heap b) loc) as [ta ->]; [by eapply (proj1 (co_heap _ _ Cb))|]. done.
    - unfold db_tx. destruct (getTxAddresses d x) as [[ta|]|e|] eqn:Eg; try done. simpl.
      by destruct (so_tx _ Hso _ _ Eg) as [_ ->]. }
  exists d1, s1, bts. split; [done|]. split; [done|]. split; [done|]. split; [done|].
  split; [by eapply stored_ok_step; [apply Hf|..]|]. split; [|split; [|exists (addresses b); split; [done|]]].
  - split; try done.
    + intros tx id Hx. destruct (HI tx id Hx) as (ta & Hta & Hin). exists (stored_ta ta). by rewrite HT1, Hta.
    + intros x Hx. specialize (HR x Hx). rewrite HT1.
      assert (tx_view d (before d) x = db_tx d x) as Hbx
        by (unfold tx_view, before; cbn [txAddressesMap newBlockState]; by rewrite lookup_empty).
      rewrite Hbx in HR. destruct (tx_view d b x) as [ta|], (db_tx d x) as [ta0|] eqn:E0; try done. simpl in *.
      assert (stored_ta ta0 = ta0) as E1.
      { unfold db_tx in E0. destruct (getTxAddresses d x) as [[ta'|]|e|] eqn:Eg; try done. injection E0 as ->.
        by destruct (so_tx _ Hso _ _ Eg). }
      injection HR as R1 R2 R3 R4 R5. f_equal. rewrite <- E1. unfold rest, stored_ta, set_Outputs, set_ShieldValBal. cbn. congruence.
    + intros ad id Ht. apply Hcnt in Ht. destruct (Hk3 ad) as [B HBs]; [intros E0; rewrite E0 in Ht; by apply not_elem_of_nil in Ht|].
      unfold has_balance. rewrite HB, HBs. eauto.
    + intros ad. rewrite (proj2 (HB1 ad)), HEs. unfold balance_view, before. cbn [balances newBlockState]. by rewrite lookup_empty.
    + intros ad. by apply stored_txs.
    + intros x h outs o Hx Ho. rewrite outs_before in Hx. unfold db_tx in Hx.
      destruct (getTxAddresses d x) as [[ta|]|e|] eqn:Eg; try done. injection Hx as _ <-.
      destruct (so_tx _ Hso _ _ Eg) as [(_ & _ & Hwo & _) _]. rewrite Forall_forall in Hwo. by destruct (Hwo o Ho) as (_ & ? & _).
  - intros ad. exists (counted b ad). split; [apply Hk1|]. split; [apply Hcnt|]. by rewrite (proj1 (HB1 ad)), Hk2.
  - intros ad l Hl. pose proof (Hk4 ad l Hl) as Hne. destruct l as [|t l]; [done|]. exists (ti_btxID t). apply Hcnt.
    unfold counted. rewrite Hl. left.
Qed.

(** ** The block disconnected *)

Lemma balance_before (d0 : RocksDB) ad : balance_view d0 (before d0) ad = db_balance d0 ad.
Proof. unfold balance_view, before. cbn [balances newBlockState]. by rewrite lookup_empty. Qed.

Lemma stored_unspent d ad : stored_ok d -> unspent_utxos (Utxos (db_balance d ad)) = Utxos (db_balance d ad).
Proof.
  intros [Hb _]. unfold db_balance. destruct (GetAddrDescBalance d ad DetailUTXOIndexed) as [[B|]|e|] eqn:E; try done.
  by destruct (Hb _ _ E) as (_ & _ & ?).
Qed.

Section undo.
Context (d d1 : RocksDB) (block : Block.t) (ids : list bytes) (bts : list blockTxs).
Hypothesis HC : connected d d1 block ids bts.
Hypothesis HU : undoable_block d d1 block ids.
Hypothesis Hcounts : counts d d1 block ids.
Hypothesis Hc : consistent d (before d).
Hypothesis Hc1 : consistent d1 (before d1).
Hypothesis Hso : stored_ok d.
Hypothesis Hso1 : stored_ok d1.
Hypothesis Hr1 : readable d1.

Local Notation K := (fun id => id ∈ ids).
Local Notation O1 := (owned d1 (before d1)).
Local Notation E := (block_events d1 bts).

Lemma undone_start : undone d1 K O1 [] (mkDisconnect [] ∅ ∅).
Proof.
  apply undone_nil.
  - intros ad. rewrite <- balance_before. apply bal_ok_acct, (co_ledger _ _ Hc1).
  - intros ad. rewrite <- balance_before. eapply searchable_bal_ok, (co_ledger _ _ Hc1).
  - intros ad. by apply stored_txs.
Qed.

(** The balances after the events. *)
Lemma undone_balance s ad : undone d1 K O1 E s ->
  Txs (dc_view d1 s ad) = Txs (db_balance d ad) /\ SentSat (dc_view d1 s ad) = SentSat (db_balance d ad) /\
  BalanceSat (dc_view d1 s ad) = BalanceSat (db_balance d ad) /\
  unspent_utxos (Utxos (dc_view d1 s ad)) ≡ₚ Utxos (db_balance d ad).
Proof.
  intros [Ha _ _ Hs Ht _ _]. specialize (Ha ad). specialize (Hs ad). specialize (Ht ad).
  pose proof (bal_ok_acct _ _ (co_ledger _ _ Hc ad)) as Ha0. rewrite balance_before in Ha0.
  assert (unspent_utxos (Utxos (dc_view d1 s ad)) ≡ₚ unspent_utxos (Utxos (db_balance d ad))) as Hp.
  { apply NoDup_Permutation; [eapply NoDup_fmap_1, (ac_nodup _ _ Ha)|eapply NoDup_fmap_1, (ac_nodup _ _ Ha0)|].
    intros u. rewrite (ac_owned _ _ Ha), (ac_owned _ _ Ha0). by apply (owners_end d d1 block ids bts HC HU). }
  split_and!.
  - rewrite Ht. destruct (Hcounts ad) as (l & Hnd & Hl & HT). rewrite HT.
    assert (touched E ad = list_to_set l) as ->.
    { apply set_eq. intros id. rewrite (touched_end d d1 block ids bts HC HU), elem_of_list_to_set. symmetry. apply Hl. }
    rewrite size_list_to_set by done. unfold u32, zlen. rewrite Zminus_mod_idemp_l.
    replace (Txs (db_balance d ad) + Z.of_nat (length l) - Z.of_nat (length l)) with (Txs (db_balance d ad)) by lia.
    apply u32_id. by apply stored_txs.
  - rewrite Hs, (cd_sent _ _ _ _ _ HC), (sent_end d d1 block ids bts HC HU). lia.
  - rewrite (ac_balanced _ _ Ha), (ac_balanced _ _ Ha0). unfold unspent_sum.
    clear -Hp. induction Hp; simpl; lia.
  - rewrite Hp. by rewrite stored_unspent.
Qed.

(** A balance is stored just when it has transactions. *)
Lemma stored_some (d0 : RocksDB) ad : stored_ok d0 -> readable d0 ->
  exists r, GetAddrDescBalance d0 ad DetailUTXOIndexed = Ret r /\ default emptyBalance r = db_balance d0 ad /\
    (is_Some r <-> 0 < Txs (db_balance d0 ad)).
Proof.
  intros [Hb _] [Hr _]. destruct (Hr ad) as [r Er]. exists r. unfold db_balance. rewrite Er. destruct r as [B|]; (split; [done|]); (split; [done|]).
  - split; [|done]. intros _. by destruct (Hb _ _ Er) as (_ & ? & _).
  - split; [by intros [? ?]|]. simpl. lia.
Qed.

Lemma cleanUtxos_perm B : Utxos (cleanUtxos B) ≡ₚ unspent_utxos (Utxos B).
Proof. unfold cleanUtxos. cbn [Utxos set_Utxos]. apply sortByHeight_Permutation. Qed.

(** The balance read back after the batch is the one before the block. *)
Lemma undone_read s (d2 : RocksDB) s1 s2 ad : undone d1 K O1 E s -> db d1 = Some s1 -> db d2 = Some s2 -> readable d ->
  contents s2 !! (cfAddressBalance, ad) = match dc_balances s !! ad with
    | Some r => op_value (storeBalance ad (option_map cleanUtxos r)) | None => contents s1 !! (cfAddressBalance, ad) end ->
  exists r2 r, GetAddrDescBalance d2 ad DetailUTXOIndexed = Ret r2 /\ GetAddrDescBalance d ad DetailUTXOIndexed = Ret r /\
    balance_eq r2 r.
Proof.
  intros Hun Hd1 Hd2 Hr HB. destruct (undone_balance s ad Hun) as (ET & ES & EB & EU).
  destruct (stored_some d ad Hso Hr) as (r & Er & Hdef & Hpos). destruct (stored_some d1 ad Hso1 Hr1) as (r1 & Er1 & Hdef1 & Hpos1).
  destruct (dc_balances s !! ad) as [[B|]|] eqn:Es.
  - assert (dc_view d1 s ad = B) as Ev by (unfold dc_view; by rewrite Es). rewrite Ev in *.
    destruct (stored_txs d ad Hso) as [HTr _].
    unfold GetAddrDescBalance at 1. rewrite (dbGet_reliable Hrel d2 s2), HB by done. cbn [option_map storeBalance op_value].
    change (Txs (cleanUtxos B)) with (Txs B). rewrite ET.
    destruct (Z.leb_spec (Txs (db_balance d ad)) 0) as [Hz|Hz].
    + exists None, r. split; [done|]. split; [done|]. destruct r as [B0|]; [|done]. pose proof (proj1 Hpos (ex_intro _ B0 eq_refl)). lia.
    + assert (is_Some r) as [B0 ->] by (apply Hpos; lia). simpl in Hdef. subst B0.
      destruct (so_balance _ Hso _ _ Er) as ((W1 & W2 & W3 & W4) & _ & Hcl).
      assert (wf_balance PackedTxidLen (cleanUtxos B)) as Hwf.
      { unfold wf_balance. change (Txs (cleanUtxos B)) with (Txs B). change (SentSat (cleanUtxos B)) with (SentSat B).
        change (BalanceSat (cleanUtxos B)) with (BalanceSat B). rewrite ET, ES, EB. split_and!; try apply W2; try apply W3; [done|].
        by rewrite cleanUtxos_perm, EU. }
      cbn [op_value]. gostep. change (opt_bytes (Some (packAddrBalance (cleanUtxos B)))) with (packAddrBalance (cleanUtxos B)).
      pose proof (packAddrBalance_zlen (cleanUtxos B)). destruct (Z.ltb_spec (zlen (packAddrBalance (cleanUtxos B))) 3); [lia|].
      rewrite unpackAddrBalance_pack by (try done; apply PackedTxidLen_pos).
      do 2 eexists. split; [reflexivity|]. split; [done|]. unfold balance_eq. destruct (restored_fields (cleanUtxos B)) as (-> & -> & ->).
      split; [done|]. split; [done|]. split; [done|]. rewrite Utxos_restored, (unspent_perm _ _ (cleanUtxos_perm B)), unspent_idemp. exact EU.
  - exists None, r. destruct (un_some _ _ _ _ _ Hun ad None Es) as [_ Hn]. 
    assert (r1 = None) as -> by (destruct r1 as [B|]; [|done]; destruct Hn as [? ?]; [by exists B|done]).
    split; [|split; [done|]].
    + unfold GetAddrDescBalance. rewrite (dbGet_reliable Hrel d2 s2), HB by done. done.
    + assert (dc_view d1 s ad = emptyBalance) as Ev by (unfold dc_view; by rewrite Es). rewrite Ev in ET.
      destruct r as [B0|]; [|done]. pose proof (proj1 Hpos (ex_intro _ B0 eq_refl)) as Hp. by rewrite <- ET in Hp.
  - assert (dc_view d1 s ad = db_balance d1 ad) as Ev by (unfold dc_view; by rewrite Es). rewrite Ev in *.
    exists r1, r. split; [|split; [done|]].
    + rewrite <- Er1. unfold GetAddrDescBalance. by rewrite (dbGet_reliable Hrel d2 s2), (dbGet_reliable Hrel d1 s1), HB by done.
    + rewrite ET in Hpos1. destruct r1 as [B1|], r as [B0|]; simpl in *; subst.
      * rewrite stored_unspent in EU by done. done.
      * destruct (proj2 Hpos) as [? ?]; [by apply Hpos1|done].
      * destruct (proj2 Hpos1) as [? ?]; [by apply Hpos|done].
      * done.
Qed.
End undo.

(** ** The run *)

Lemma packBlockTxs_length pl bs : 0 < pl -> Forall (wf_blockTx pl) bs -> (length bs <= length (packBlockTxs bs))%nat.
Proof.
  intros Hpl. unfold packBlockTxs. induction 1 as [|b bs (Hid & _) Hbs IH]; [done|]. cbn [map concat]. rewrite length_app.
  assert (1 <= length (packBlockTx b))%nat; [|simpl; lia]. unfold packBlockTx. rewrite length_app. unfold zlen in Hid. lia.
Qed.

Lemma getBlockTxs_undo d1 s1 h bts : db d1 = Some s1 -> contents s1 !! (cfBlockTxs, packUint h) = Some (packBlockTxs bts) ->
  Forall (wf_blockTx PackedTxidLen) bts -> getBlockTxs d1 h = Ret bts.
Proof.
  intros Hd1 Hu Hwf. unfold getBlockTxs. rewrite (dbGet_reliable Hrel d1 s1), Hu by done. gostep.
  change (opt_bytes (Some (packBlockTxs bts))) with (packBlockTxs bts).
  apply unpackBlockTxs_pack; [apply PackedTxidLen_pos|done|]. apply (packBlockTxs_length PackedTxidLen); [apply PackedTxidLen_pos|done].
Qed.

Definition disconnect_batch (s : disconnectState) (ids : gset bytes) : WriteBatch :=
  storeBalancesDisconnect (storeTxAddresses (dc_wb s) (dc_txs s)) (dc_balances s) ++
  concat (map (fun b => [DeleteCF cfTransactions b; DeleteCF cfTxAddresses b]) (elements ids)).

Lemma Disconnect_run d1 s1 h bts s : db d1 = Some s1 -> h <> 0 -> bts <> [] ->
  getBlockTxs d1 h = Ret bts -> disconnectBlock d1 (h, bts) (mkDisconnect [] ∅ ∅) = (s, Ret tt) ->
  exists s2, DisconnectBlockRangeBitcoinType h h d1 = (set_db (Some s2) d1, Ret tt) /\
    contents s2 = apply_batch (disconnect_batch s (list_to_set (map bt_btxID bts))) (contents s1).
Proof.
  intros Hd1 Hh Hne Hg Hrun.
  destruct (dbWrite_reliable Hrel d1 s1 (disconnect_batch s (list_to_set (map bt_btxID bts))) Hd1) as (s2 & Ew & Hs2).
  exists s2. split; [|done]. unfold DisconnectBlockRangeBitcoinType. rewrite (sbind_eq _ _ d1 d1 d1) by done.
  rewrite (sbind_eq _ _ d1 d1 [(h, bts)]).
  2:{ unfold slift, heights. replace (Z.to_nat (h - h + 1)) with 1%nat by lia. cbn [seq map go_fold]. rewrite Z.add_0_r, Hg. gostep.
      destruct (Z.eqb_spec (zlen bts) 0) as [Hz|Hz]; [by apply zlen_0_inv in Hz|]. done. }
  rewrite (sbind_eq _ _ d1 d1 (s, tt)).
  2:{ unfold run_on. cbn [sfor]. by rewrite (sbind_eq _ _ _ _ _ Hrun). }
  cbn beta iota. rewrite (sbind_eq _ _ d1 d1 tt).
  2:{ unfold slift, afterLast. by rewrite (proj2 (Z.eqb_neq _ _) Hh). }
  cbn [map concat snd]. rewrite app_nil_r. exact Ew.
Qed.

(** ** The batch of the disconnection *)

Lemma deletes_are l h wb bl : deletes h l wb -> bl = wb ++ [DeleteCF cfBlockTxs (packUint h); DeleteCF cfHeight (packUint h)] ->
  forall o, o ∈ bl -> exists c k, o = DeleteCF c k /\ (c = cfAddresses \/ c = cfBlockTxs \/ c = cfHeight).
Proof.
  intros [Ho _] -> o [[a ->]%Ho|Hin]%elem_of_app; [eauto 6|].
  apply elem_of_cons in Hin as [-> |Hin]; [eauto 7|]. apply list_elem_of_singleton in Hin as ->. eauto 7.
Qed.

Lemma tail_deletes (ids : gset bytes) o :
  o ∈ concat (map (fun b => [DeleteCF cfTransactions b; DeleteCF cfTxAddresses b]) (elements ids)) <->
  exists x, x ∈ ids /\ (o = DeleteCF cfTransactions x \/ o = DeleteCF cfTxAddresses x).
Proof.
  rewrite elem_of_concat_map. setoid_rewrite elem_of_elements. setoid_rewrite elem_of_cons. setoid_rewrite list_elem_of_singleton. done.
Qed.

Section batch.
Context (s : disconnectState) (ids : gset bytes) (wb : WriteBatch) (h : Z) (l : list event) (m : kv).
Hypothesis Hdel : deletes h l wb.
Hypothesis Hwb : dc_wb s = wb ++ [DeleteCF cfBlockTxs (packUint h); DeleteCF cfHeight (packUint h)].

Local Notation batch := (disconnect_batch s ids).

Lemma tail_are o : o ∈ concat (map (fun b => [DeleteCF cfTransactions b; DeleteCF cfTxAddresses b]) (elements ids)) ->
  exists c k, o = DeleteCF c k.
Proof. intros (x & _ & [-> | ->])%tail_deletes; eauto. Qed.

Lemma head_are o : o ∈ dc_wb s -> exists c k, o = DeleteCF c k.
Proof. intros H. destruct (deletes_are l h wb _ Hdel Hwb o H) as (c & k & -> & _). eauto. Qed.

Lemma batch_tx x : apply_batch batch m !! (cfTxAddresses, x) =
  if decide (x ∈ ids) then None
  else match dc_txs s !! x with Some ta => Some (packTxAddresses ta) | None => m !! (cfTxAddresses, x) end.
Proof.
  unfold disconnect_batch. rewrite apply_batch_app.
  destruct (apply_batch_deletes (concat (map (fun b => [DeleteCF cfTransactions b; DeleteCF cfTxAddresses b]) (elements ids)))
    (apply_batch (storeBalancesDisconnect (storeTxAddresses (dc_wb s) (dc_txs s)) (dc_balances s)) m) (cfTxAddresses, x) tail_are) as [H1 H2].
  cbn [fst snd] in *. case_decide as Hx.
  - apply H1, tail_deletes. eauto.
  - rewrite H2 by (rewrite tail_deletes; intros (y & Hy & [[=]|[= ->]]); done).
    unfold storeBalancesDisconnect, storeBalances, storeTxAddresses. rewrite !apply_batch_app.
    rewrite (apply_map_batch_other storeBalance cfAddressBalance);
      [|intros k [B|]; simpl; [by destruct (_ <=? _)|done]|done].
    rewrite (apply_map_batch (fun k ta => PutCF cfTxAddresses k (packTxAddresses ta)) (fun k => k) cfTxAddresses) by done.
    destruct (dc_txs s !! x); [done|].
    destruct (apply_batch_deletes (dc_wb s) m (cfTxAddresses, x) head_are) as [_ H3]. apply H3. cbn [fst snd].
    intros Hin. destruct (deletes_are l h wb _ Hdel Hwb _ Hin) as (c & k & [= <- <-] & Hk). intuition congruence.
Qed.

Lemma batch_balance ad : apply_batch batch m !! (cfAddressBalance, ad) =
  match dc_balances s !! ad with
  | Some r => op_value (storeBalance ad (option_map cleanUtxos r)) | None => m !! (cfAddressBalance, ad) end.
Proof.
  unfold disconnect_batch. rewrite apply_batch_app.
  destruct (apply_batch_deletes (concat (map (fun b => [DeleteCF cfTransactions b; DeleteCF cfTxAddresses b]) (elements ids)))
    (apply_batch (storeBalancesDisconnect (storeTxAddresses (dc_wb s) (dc_txs s)) (dc_balances s)) m) (cfAddressBalance, ad) tail_are) as [_ H2].
  cbn [fst snd] in *. rewrite H2 by (rewrite tail_deletes; by intros (y & Hy & [[=]|[=]])).
  unfold storeBalancesDisconnect, storeBalances, storeTxAddresses. rewrite !apply_batch_app.
  rewrite (apply_map_batch storeBalance (fun k => k) cfAddressBalance);
    [|intros k [B|]; simpl; [by destruct (_ <=? _)|done]|done].
  rewrite lookup_fmap. destruct (dc_balances s !! ad); [done|]. cbn [fmap option_fmap option_map].
  rewrite (apply_map_batch_other (fun k ta => PutCF cfTxAddresses k (packTxAddresses ta)) cfTxAddresses) by done.
  destruct (apply_batch_deletes (dc_wb s) m (cfAddressBalance, ad) head_are) as [_ H3]. apply H3. cbn [fst snd].
  intros Hin. destruct (deletes_are l h wb _ Hdel Hwb _ Hin) as (c & k & [= <- <-] & Hk). intuition congruence.
Qed.

(** The columns of heights and addresses lose the keys of the block. *)
Lemma batch_other c k : c = cfHeight \/ c = cfAddresses ->
  (DeleteCF c k ∈ dc_wb s -> apply_batch batch m !! (c, k) = None) /\
  (DeleteCF c k ∉ dc_wb s -> apply_batch batch m !! (c, k) = m !! (c, k)).
Proof.
  intros Hck. unfold disconnect_batch. rewrite apply_batch_app.
  destruct (apply_batch_deletes (concat (map (fun b => [DeleteCF cfTransactions b; DeleteCF cfTxAddresses b]) (elements ids)))
    (apply_batch (storeBalancesDisconnect (storeTxAddresses (dc_wb s) (dc_txs s)) (dc_balances s)) m) (c, k) tail_are) as [_ H2].
  cbn [fst snd] in *. rewrite H2 by (rewrite tail_deletes; intros (y & Hy & [[= -> ->]|[= -> ->]]); intuition congruence).
  unfold storeBalancesDisconnect, storeBalances, storeTxAddresses. rewrite !apply_batch_app.
  rewrite (apply_map_batch_other storeBalance cfAddressBalance);
    [|intros k' [B|]; simpl; [by destruct (_ <=? _)|done]|simpl; intros ->; intuition congruence].
  rewrite (apply_map_batch_other (fun k ta => PutCF cfTxAddresses k (packTxAddresses ta)) cfTxAddresses)
    by (try done; simpl; intros ->; intuition congruence).
  apply (apply_batch_deletes (dc_wb s) m (c, k) head_are).
Qed.
End batch.

(** ** The database after the disconnection *)

(** The block's height is new to the columns [height] and [addresses]. *)
Definition fresh_height (d : RocksDB) (h : Z) : Prop :=
  forall s, db d = Some s -> contents s !! (cfHeight, packUint h) = None /\
    forall ad, contents s !! (cfAddresses, packAddressKey ad h) = None.

(** Everything the index says is as in [d]: the transactions and the columns of heights
    and addresses are the same, the balances the same up to the order of their utxos. *)
Record same_data (d d2 : RocksDB) : Prop := {
  sd_balances : forall ad, exists r2 r, GetAddrDescBalance d2 ad DetailUTXOIndexed = Ret r2 /\
    GetAddrDescBalance d ad DetailUTXOIndexed = Ret r /\ balance_eq r2 r;
  sd_txs : forall id, getTxAddresses d2 id = getTxAddresses d id;
  sd_columns : forall c k, c = cfHeight \/ c = cfAddresses -> dbGet d2 c k = dbGet d c k;
}.

Lemma disconnect_undoes d d1 s s1 block ids bts m :
  db d = Some s -> db d1 = Some s1 -> connected d d1 block ids bts -> undoable_block d d1 block ids -> counts d d1 block ids ->
  consistent d (before d) -> consistent d1 (before d1) -> stored_ok d -> stored_ok d1 -> readable d -> readable d1 ->
  block_columns (Block.Height block) bts m s s1 ->
  (forall ad l, m !! ad = Some l -> exists id, block_touches (block_outs d (before d) block ids) (Block.Txs block) ids ad id) ->
  Block.Txs block <> [] -> Block.Height block <> 0 -> fresh_height d (Block.Height block) ->
  exists d2, DisconnectBlockRangeBitcoinType (Block.Height block) (Block.Height block) d1 = (d2, Ret tt) /\ same_data d d2.
Proof.
  intros Hd Hd1 HC HU Hcnt Hc Hc1 Hso Hso1 Hr Hr1 [Hundo Hcols] Hm Hne Hh Hfresh.
  destruct (disconnectBlock_spec d1 (fun id => id ∈ ids) (owned d1 (before d1)) (proj1 Hr1) (proj2 Hr1)
    (O1_indexable d d1 block ids bts HC) (O1_vout d d1 block ids bts HC) (Block.Height block) bts)
    as (st & wb & Erun & Hun & Hdel & Hwb).
  - by eapply bts_records.
  - rewrite (bts_ids d d1 block ids bts HC). apply (vb_nodup _ _ _ _ (cd_valid _ _ _ _ _ HC)).
  - by apply undone_start.
  - by apply (block_undoables d d1 block ids bts).
  - pose proof (Forall2_length _ _ _ (blockTxsOf_Forall2 d d1 block ids bts HC)) as Hlen.
    destruct (Disconnect_run d1 s1 (Block.Height block) bts st) as (s2 & Ed & Hs2); [done|done| | |done|].
    { intros ->. by destruct (Block.Txs block). }
    { apply (getBlockTxs_undo d1 s1); [done|done|]. by apply (bts_wf d d1 block ids). }
    rewrite (bts_ids d d1 block ids bts HC) in Hs2. exists (set_db (Some s2) d1). split; [exact Ed|]. split.
    + intros ad. eapply (undone_read d d1 block ids bts); try done.
      rewrite Hs2. by apply (batch_balance st (list_to_set ids) wb (Block.Height block) (block_events d1 bts)).
    + intros x. pose proof (un_outs _ _ _ _ _ Hun x) as Hx. unfold getTxAddresses at 1.
      rewrite (dbGet_reliable Hrel _ s2), Hs2, (batch_tx st (list_to_set ids) wb (Block.Height block) (block_events d1 bts)) by done.
      gostep. destruct (proj2 Hr x) as [r Er]. destruct (decide (x ∈ list_to_set ids)) as [Hin|Hin]; rewrite elem_of_list_to_set in Hin.
      * pose proof (vb_new _ _ _ _ (cd_valid _ _ _ _ _ HC) x Hin) as Hnew. unfold tx_view, before, db_tx in Hnew.
        cbn [txAddressesMap newBlockState] in Hnew. rewrite lookup_empty, Er in Hnew. rewrite Er. by destruct r.
      * rewrite (record_end d d1 block ids bts HC HU x Hin) in Hx. unfold dc_tx in Hx. destruct (dc_txs st !! x) as [ta|].
        -- unfold db_tx in Hx. rewrite Er in *. destruct r as [ta'|]; [|done]. injection Hx as <-.
           destruct (so_tx _ Hso _ _ Er) as [Hwf Hst]. change (opt_bytes (Some (packTxAddresses ta))) with (packTxAddresses ta).
           pose proof (packTxAddresses_zlen ta). destruct (Z.ltb_spec (zlen (packTxAddresses ta)) 3); [lia|].
           rewrite unpackTxAddresses_pack by done. gostep. fold (stored_ta ta). by rewrite Hst.
        -- transitivity (getTxAddresses d1 x); [unfold getTxAddresses; by rewrite (dbGet_reliable Hrel d1 s1) by done|].
           destruct (proj2 Hr1 x) as [r1 Er1]. unfold db_tx in Hx. rewrite Er, Er1 in *. by destruct r, r1; simplify_eq.
    + intros c k Hck. rewrite (dbGet_reliable Hrel _ s2), (dbGet_reliable Hrel d s) by done. f_equal. rewrite Hs2.
      destruct (batch_other st (list_to_set ids) wb (Block.Height block) (block_events d1 bts) (contents s1) Hdel Hwb c k Hck) as [H1 H2].
      destruct (Hfresh s Hd) as [Hf1 Hf2]. destruct (decide (DeleteCF c k ∈ dc_wb st)) as [Hin|Hin].
      * rewrite (H1 Hin). symmetry. rewrite Hwb in Hin. apply elem_of_app in Hin as [Hin|Hin].
        -- destruct (dl_only _ _ _ Hdel _ Hin) as [a [= -> ->]]. apply Hf2.
        -- apply elem_of_cons in Hin as [[= -> ->]|Hin]; [by destruct Hck|]. by apply list_elem_of_singleton in Hin as [= -> ->].
      * rewrite (H2 Hin). apply Hcols; try (intros [= ->]; by destruct Hck).
        -- intros [= -> ->]. apply Hin. rewrite Hwb. apply elem_of_app. right. right. left.
        -- intros ad l Hl [= -> ->]. apply Hin. rewrite Hwb. apply elem_of_app. left. destruct (Hm ad l Hl) as [id Ht].
           apply (touched_end d d1 block ids bts HC HU ad id) in Ht. unfold touched in Ht.
           destruct (IsAddrDescIndexable ad); [|by apply not_elem_of_empty in Ht].
           apply elem_of_list_to_set, list_elem_of_fmap in Ht as (e & _ & [Ea He]%list_elem_of_filter).
           rewrite <- Ea. by apply (dl_all _ _ _ Hdel).
Qed.
End disconnect.

(** Connecting and disconnecting a block. *)
Lemma connect_disconnect `{SL : StoreLaws} `{PL : ParserLaws} `{VL : VlqLaws} `{SCL : ScriptLaws}
    (d d1 : RocksDB) blocks now block ids :
  reliable -> GetChainType = ChainBitcoinType -> chain d blocks -> connectable d block ids ->
  ConnectBlock now block d = (d1, Ret tt) -> undoable_block d d1 block ids ->
  Block.Txs block <> [] -> Block.Height block <> 0 -> fresh_height d (Block.Height block) ->
  exists d2, DisconnectBlockRangeBitcoinType (Block.Height block) (Block.Height block) d1 = (d2, Ret tt) /\ same_data d d2.
Proof.
  intros Hrel Hct Hch Hcn Hrun Hu Hne Hh Hfr.
  destruct (chain_inv Hrel d blocks Hct Hch) as (Hr & Hc & [s Hs] & [i Hi]). pose proof (chain_stored Hrel d blocks Hct Hch) as Hso.
  destruct (ConnectBlock_connected Hrel now block ids d s i Hs Hi Hct Hr Hc Hso Hcn)
    as (d1' & s1 & bts & E & Hs1 & Hr1 & Hc1 & Hso1 & HC & Hk & m & Hcol & Hm).
  rewrite Hrun in E. injection E as <-. by eapply (disconnect_undoes Hrel d d1 s s1 block ids bts m).
Qed.

(** * Properties *)

(** C5: Disconnecting the block just connected restores the index: for every database
    reached by connecting blocks on a store without errors and every further connectable
    block with transactions, at a height that is new and not 0, the disconnection of its
    height returns, every transaction and the columns of heights and addresses read as
    before the block, and every balance has the counters, the sums and the utxos it had
    before.  The block must be undoable, where each condition excludes a case in which the code
    does not restore the index: every output it spends has a descriptor (a spent output
    without one stays marked, [empty_descriptor_stays_spent]); an input of an unknown
    transaction has no indexed address; its own outputs are spent only by later transactions
    of it ([sorted_block_phantom]) and from addresses without an index of utxos
    ([Disconnect_keeps_phantom_utxo]); and the ids have 32 bytes. *)
Theorem disconnect_restores `{SL : StoreLaws} `{PL : ParserLaws} `{VL : VlqLaws} `{SCL : ScriptLaws}
    (d d1 : RocksDB) blocks now block ids :
  reliable -> GetChainType = ChainBitcoinType -> chain d blocks -> connectable d block ids ->
  ConnectBlock now block d = (d1, Ret tt) -> undoable_block d d1 block ids ->
  Block.Txs block <> [] -> Block.Height block <> 0 -> fresh_height d (Block.Height block) ->
  exists d2, DisconnectBlockRangeBitcoinType (Block.Height block) (Block.Height block) d1 = (d2, Ret tt) /\ same_data d d2.
Proof. apply connect_disconnect. Qed.

Definition connected7 : RocksDB := (ConnectBlock (P := plain_parser) (V := leb) 77 block7 (open_db ∅)).1.

Lemma block7_undoable : undoable_block (P := plain_parser) (V := leb) (open_db ∅) connected7 block7 [id1; id2].
Proof.
  assert (forall tx, tx ∈ Block.Txs block7 -> tx = mint \/ tx = spend) as Htx.
  { intros tx [-> |H]%elem_of_cons; [by left|]. apply list_elem_of_singleton in H as ->. by right. }
  split.
  - repeat constructor.
  - apply Forall_cons; split; [|apply Forall_singleton]; (split; [vm_compute; reflexivity|apply Forall_singleton; intros id; vm_compute]).
    + discriminate.
    + by intros [= <-].
  - intros tx i v id [-> | ->]%Htx; destruct i as [|i]; [..|done]; try done; intros [= <-]; vm_compute; congruence.
  - intros tx v t [-> | ->]%Htx ->%list_elem_of_singleton; vm_compute; intros [= <-]; discriminate.
  - intros j k tx v id Hj Hv Hp Hk. destruct j as [|[|j]]; [..|done]; injection Hj as <-.
    all: apply list_elem_of_singleton in Hv as ->; vm_compute in Hp; try discriminate.
    destruct k as [|[|k]]; [lia| |done]. injection Hk as <-. vm_compute in Hp. discriminate.
  - intros tx v t id ad [-> | ->]%Htx ->%list_elem_of_singleton Hp _ Hd Had; vm_compute in Hp; try discriminate.
    vm_compute in Hd. injection Hd as <-. vm_compute in Had. apply list_elem_of_singleton in Had as ->. vm_compute. reflexivity.
Qed.

Lemma disconnect_restores_witness :
  exists d2, DisconnectBlockRangeBitcoinType (P := plain_parser) (V := leb) 7 7 connected7 = (d2, Ret tt) /\
    same_data (P := plain_parser) (V := leb) (open_db ∅) d2.
Proof.
  destruct block7_run as [d1 E]. assert (connected7 = d1) as Ed by (unfold connected7; by rewrite E).
  rewrite Ed. refine (disconnect_restores (P := plain_parser) (V := leb) (open_db ∅) d1 [] 77 block7 [id1; id2]
    mem_store_reliable eq_refl _ block7_connectable E _ _ _ _).
  - exact (chain_new (open_db ∅) ∅ (newInternalState "Bitcoin") eq_refl eq_refl eq_refl).
  - rewrite <- Ed. exact block7_undoable.
  - discriminate.
  - discriminate.
  - intros s H. injection H as <-. split; reflexivity.
Defined.

(** The block of [block7] after an earlier payment to the same address, with its
    transactions in the order of a chain that sorts them by id: the spending one first. *)
Definition id0 : bytes := repeat Byte.x09 32.

Definition earlier : Block.t :=
  Block.mk (hex_EncodeToString (repeat Byte.xbb 32)) EmptyString EmptyString 6 1 300 1500000000
    [Tx.mk EmptyString (hex_EncodeToString id0) 1 0 [Vin.mk "00" EmptyString 0 EmptyString 0 []]
       [pay 700 "76a9"] 0 0 0 [] [] 0 NoSpecificData].

Definition sorted7 : Block.t :=
  Block.mk (hex_EncodeToString (repeat Byte.xaa 32)) EmptyString EmptyString 7 1 300 1500000000 [spend; mint].

Definition before_sorted : RocksDB := (ConnectBlock (P := plain_parser) (V := leb) 77 earlier (open_db ∅)).1.
Definition after_sorted : RocksDB :=
  (DisconnectBlockRangeBitcoinType (P := plain_parser) (V := leb) 7 7
     (ConnectBlock (P := plain_parser) (V := leb) 77 sorted7 before_sorted).1).1.

(** The utxos and the balance of an address. *)
Definition holdings (d : RocksDB) (ad : bytes) : option (Z * list (bytes * Z)) :=
  match GetAddrDescBalance (P := plain_parser) (V := leb) d ad DetailUTXOIndexed with
  | Ret (Some B) => Some (BalanceSat B, utxo_key <$> Utxos B)
  | _ => None
  end.

(** The order matters: the output is given back after its transaction was undone, and
    stays behind as an utxo that does not exist; the balance is wrong as well. *)
Lemma sorted_block_phantom :
  holdings before_sorted [Byte.x76; Byte.xa9] = Some (700, [(id0, 0)]) /\
  holdings after_sorted [Byte.x76; Byte.xa9] = Some (900, [(id0, 0); (id1, 0)]).
Proof. vm_compute. split; reflexivity. Qed.

(** A script that cannot be read gives an empty descriptor.  The output is marked when it is spent,
    but the disconnection only looks at inputs with a descriptor: the mark stays. *)
Definition bare_output : Block.t :=
  Block.mk (hex_EncodeToString (repeat Byte.xbb 32)) EmptyString EmptyString 6 1 300 1500000000
    [Tx.mk EmptyString (hex_EncodeToString id1) 1 0 [Vin.mk "00" EmptyString 0 EmptyString 0 []]
       [pay 700 ""] 0 0 0 [] [] 0 NoSpecificData].

Definition spends_bare : Block.t :=
  Block.mk (hex_EncodeToString (repeat Byte.xaa 32)) EmptyString EmptyString 7 1 300 1500000000 [spend].

Definition before_bare : RocksDB := (ConnectBlock (P := plain_parser) (V := leb) 77 bare_output (open_db ∅)).1.
Definition connected_bare : RocksDB := (ConnectBlock (P := plain_parser) (V := leb) 77 spends_bare before_bare).1.
Definition after_bare : RocksDB := (DisconnectBlockRangeBitcoinType (P := plain_parser) (V := leb) 7 7 connected_bare).1.

(** The marks of the outputs of a stored transaction. *)
Definition spent_marks (d : RocksDB) (id : bytes) : option (list bool) :=
  match getTxAddresses (V := leb) d id with
  | Ret (Some ta) => Some (TxOutput.Spent <$> Outputs ta)
  | _ => None
  end.

Lemma empty_descriptor_stays_spent :
  spent_marks before_bare id1 = Some [false] /\ spent_marks connected_bare id1 = Some [true] /\
  (DisconnectBlockRangeBitcoinType (P := plain_parser) (V := leb) 7 7 connected_bare).2 = Ret tt /\
  spent_marks after_bare id1 = Some [true].
Proof. vm_compute. repeat split. Qed.
