(* ===== verification/EthFacts.v ===== *)
(** Connecting a block of an Ethereum-like chain and disconnecting it again ([EthIndex],
    [Connect]): the counters of every address return to what they were, through the
    database and the packed block in between. *)
From stdpp Require Import base list gmap strings.
From Stdlib Require Import ZArith Lia.
From S2P Require Import Prelude Hex Types Store Vlq Codec InternalState AddrBalance TxAddresses RocksDB RocksDBFacts.
From S2P Require Import EthParser BitcoinIndex EthIndex Connect ConnectFacts Undo UndoBlock DisconnectFacts.

Open Scope Z_scope.
Open Scope go_scope.

(** * The counters of one address *)

(** Counted for an address, plainly ([None]) or for a contract, once. *)
Definition touchOne (ac : AddrContracts) (k : option bytes) : AddrContracts :=
  match k with
  | None => mkAddrContracts (TotalTxs ac) (NonContractTxs ac + 1) (Contracts ac)
  | Some c => mkAddrContracts (TotalTxs ac) (NonContractTxs ac) (touchContract c true (Contracts ac)).2
  end.

(** The opposite, for a transaction that was already seen. *)
Definition untouchOne (ac : AddrContracts) (k : option bytes) : AddrContracts := decAddress k true ac.

(** Counters that are in use and stay below 2^64 if [n] is added. *)
Record bounded (n : Z) (ac : AddrContracts) : Prop := {
  bd_total : 0 <= TotalTxs ac /\ TotalTxs ac + n < 2 ^ 64;
  bd_plain : 0 <= NonContractTxs ac /\ NonContractTxs ac + n < 2 ^ 64;
  bd_contracts : Forall (fun c => 0 < AddrContract.Txs c /\ AddrContract.Txs c + n < 2 ^ 64) (Contracts ac);
}.

Lemma bounded_weaken n m ac : m <= n -> bounded n ac -> bounded m ac.
Proof. intros Hm [H1 H2 H3]. split; [lia|lia|]. eapply Forall_impl; [exact H3|]. cbn. intros c. lia. Qed.

(** ** The list of contracts, one at a time *)

Lemma touch_nil c : (touchContract c true []).2 = [AddrContract.mk c 1].
Proof. done. Qed.

Lemma touch_cons c x cs : (touchContract c true (x :: cs)).2 =
  if decide (c = AddrContract.Contract x) then AddrContract.mk (AddrContract.Contract x) (u64 (AddrContract.Txs x + 1)) :: cs
  else x :: (touchContract c true cs).2.
Proof.
  unfold touchContract. cbn [findContractInAddressContracts]. case_decide; [done|].
  by destruct (findContractInAddressContracts c cs).
Qed.

Lemma dec_cons c x cs : decContract c (x :: cs) =
  if decide (c = AddrContract.Contract x)
  then (if 0 <? AddrContract.Txs x then if AddrContract.Txs x - 1 =? 0 then cs
          else AddrContract.mk (AddrContract.Contract x) (AddrContract.Txs x - 1) :: cs else x :: cs)
  else x :: decContract c cs.
Proof.
  unfold decContract. cbn [findContractInAddressContracts]. case_decide; [done|].
  destruct (findContractInAddressContracts c cs) as [i|]; [|done]. cbn. destruct (cs !! i); [|done]. by repeat case_match.
Qed.

Lemma dec_touch_comm c c' cs : c <> c' ->
  decContract c' (touchContract c true cs).2 = (touchContract c true (decContract c' cs)).2.
Proof.
  intros Hne. induction cs as [|x cs IH].
  - rewrite touch_nil, dec_cons. cbn. rewrite decide_False by done. done.
  - rewrite touch_cons, (dec_cons c' x cs). case_decide as E1; [|rewrite dec_cons]; case_decide as E2.
    + congruence.
    + rewrite dec_cons, touch_cons, (decide_True _ _ E1). by rewrite decide_False.
    + repeat case_match; rewrite ?touch_cons, ?decide_False by done; done.
    + by rewrite touch_cons, decide_False, IH.
Qed.

Lemma touch_find c c' cs : is_Some (findContractInAddressContracts c' cs) \/ c = c' ->
  is_Some (findContractInAddressContracts c' (touchContract c true cs).2).
Proof.
  induction cs as [|x cs IH].
  - intros [[i Hi]| ->]; [done|]. rewrite touch_nil. cbn. by rewrite decide_True.
  - rewrite touch_cons. cbn [findContractInAddressContracts]. intros H.
    destruct (decide (c = AddrContract.Contract x)) as [E1|E1]; cbn [findContractInAddressContracts AddrContract.Contract];
      case_decide as E2; try by eexists.
    + destruct H as [H| ->]; done.
    + apply fmap_is_Some, IH. destruct H as [H%fmap_is_Some| ->]; auto.
Qed.

Lemma touch_bounded n c cs : 0 <= n -> 1 + n < 2 ^ 64 ->
  Forall (fun c => 0 < AddrContract.Txs c /\ AddrContract.Txs c + (n + 1) < 2 ^ 64) cs ->
  Forall (fun c => 0 < AddrContract.Txs c /\ AddrContract.Txs c + n < 2 ^ 64) (touchContract c true cs).2.
Proof.
  intros Hn Hn1. induction 1 as [|x cs Hx Hcs IH].
  - rewrite touch_nil. constructor; [cbn; lia|constructor].
  - rewrite touch_cons. case_decide; constructor.
    + cbn. rewrite u64_id by (unfold in_u64; lia). lia.
    + eapply Forall_impl; [exact Hcs|]. cbn. intros y. lia.
    + lia.
    + exact IH.
Qed.

(** ** Sequences *)

Lemma touchOne_bounded n ac k : 0 <= n -> bounded (n + 1) ac -> bounded n (touchOne ac k).
Proof.
  intros Hn [H1 H2 H3]. destruct k as [c|]; split; cbn; try lia.
  - apply touch_bounded; [done|lia|done].
  - eapply Forall_impl; [exact H3|]. cbn. intros x. lia.
Qed.

Lemma touches_bounded K : forall n ac, 0 <= n -> bounded (n + zlen K) ac -> bounded n (foldl touchOne ac K).
Proof.
  induction K as [|k K IH]; intros n ac Hn Hb; [by rewrite zlen_nil, Z.add_0_r in Hb|]. cbn [foldl]. rewrite zlen_cons in Hb.
  pose proof (zlen_nonneg K). apply IH; [done|]. apply touchOne_bounded; [lia|]. eapply bounded_weaken; [|exact Hb]. lia.
Qed.

Lemma untouch_touch ac k : bounded 1 ac -> untouchOne (touchOne ac k) k = ac.
Proof.
  intros [H1 H2 H3]. destruct k as [c|]; unfold untouchOne, touchOne, decAddress; cbn.
  - rewrite decContract_touch; [by destruct ac|]. eapply Forall_impl; [exact H3|]. cbn. intros x. lia.
  - destruct (Z.ltb_spec 0 (NonContractTxs ac + 1)); [|lia]. rewrite Z.add_simpl_r. by destruct ac.
Qed.

Lemma untouch_comm ac k k' : 0 <= NonContractTxs ac -> k <> k' -> untouchOne (touchOne ac k) k' = touchOne (untouchOne ac k') k.
Proof.
  intros Hn Hne. destruct k as [c|], k' as [c'|]; unfold untouchOne, touchOne, decAddress; cbn; try done.
  f_equal. apply dec_touch_comm. congruence.
Qed.

Lemma touchOne_plain ac k : 0 <= NonContractTxs ac -> 0 <= NonContractTxs (touchOne ac k).
Proof. destruct k; cbn; lia. Qed.

Lemma untouch_touches K k : forall ac, 0 <= NonContractTxs ac -> k ∉ K ->
  untouchOne (foldl touchOne ac K) k = foldl touchOne (untouchOne ac k) K.
Proof.
  induction K as [|x K IH]; intros ac Hn Hk; [done|]. cbn [foldl]. apply not_elem_of_cons in Hk as [Hne Hk].
  rewrite IH by (done || by apply touchOne_plain). by rewrite untouch_comm by congruence.
Qed.

(** Whatever the order, what was counted is taken back. *)
Lemma untouches_touches K' : forall K ac, K ≡ₚ K' -> bounded (zlen K) ac -> foldl untouchOne (foldl touchOne ac K) K' = ac.
Proof.
  induction K' as [|k K' IH]; intros K ac HK Hb; [by apply Permutation_nil_r in HK as ->|].
  assert (k ∈ K) as Hk by (rewrite HK; left). apply list_elem_of_split_r in Hk as (K1 & K2 & -> & Hk2).
  assert (bounded 1 (foldl touchOne ac K1)) as Hb1.
  { apply touches_bounded; [lia|]. eapply bounded_weaken; [|exact Hb]. rewrite zlen_app, zlen_cons. pose proof (zlen_nonneg K2). lia. }
  cbn [foldl]. rewrite foldl_app. cbn [foldl]. rewrite untouch_touches; [|apply touchOne_plain, Hb1|done].
  rewrite untouch_touch by done. rewrite <- foldl_app. apply IH.
  - rewrite <- Permutation_middle in HK. by apply Permutation_cons_inv in HK.
  - eapply bounded_weaken; [|exact Hb]. rewrite !zlen_app, zlen_cons. lia.
Qed.

Lemma TotalTxs_touches K : forall ac, TotalTxs (foldl touchOne ac K) = TotalTxs ac.
Proof. induction K as [|[c|] K IH]; intros ac; [done|..]; cbn [foldl]; by rewrite IH. Qed.

Lemma TotalTxs_untouches K : forall ac, TotalTxs (foldl untouchOne ac K) = TotalTxs ac.
Proof. induction K as [|[c|] K IH]; intros ac; [done|..]; cbn [foldl]; by rewrite IH. Qed.

Definition set_Total (n : Z) (ac : AddrContracts) : AddrContracts := mkAddrContracts n (NonContractTxs ac) (Contracts ac).

(** The total does not matter for the other counters. *)
Lemma set_Total_touches K : forall n ac, foldl touchOne (set_Total n ac) K = set_Total n (foldl touchOne ac K).
Proof. induction K as [|k K IH]; intros n ac; [done|]. cbn [foldl]. rewrite <- IH. by destruct k. Qed.

Lemma set_Total_untouches K : forall n ac, foldl untouchOne (set_Total n ac) K = set_Total n (foldl untouchOne ac K).
Proof. induction K as [|k K IH]; intros n ac; [done|]. cbn [foldl]. rewrite <- IH. by destruct k. Qed.

(** * What a block touches *)

(** An address, the transaction and what is counted. *)
Abbreviation touch := (bytes * (bytes * option bytes))%type.

Definition keysOf (ad : bytes) (L : list touch) : list (option bytes) := (fun t => t.2.2) <$> filter (fun t => t.1 = ad) L.
Definition txsOf (ad : bytes) (L : list touch) : gset bytes := list_to_set ((fun t => t.2.1) <$> filter (fun t => t.1 = ad) L).
Definition txCount (ad : bytes) (L : list touch) : Z := Z.of_nat (size (txsOf ad L)).

(** The counters of an address after all that touches it, and after that is undone. *)
Definition applied (ac : AddrContracts) (ad : bytes) (L : list touch) : AddrContracts :=
  set_Total (TotalTxs ac + txCount ad L) (foldl touchOne ac (keysOf ad L)).
Definition unapplied (ac : AddrContracts) (ad : bytes) (L : list touch) : AddrContracts :=
  set_Total (TotalTxs ac - txCount ad L) (foldl untouchOne ac (keysOf ad L)).

Lemma keysOf_snoc ad L a b k : keysOf ad (L ++ [(a, (b, k))]) = keysOf ad L ++ if decide (a = ad) then [k] else [].
Proof. unfold keysOf. rewrite filter_app, fmap_app. f_equal. rewrite filter_cons, filter_nil. cbn. by case_decide. Qed.

Lemma txsOf_snoc ad L a b k : txsOf ad (L ++ [(a, (b, k))]) = txsOf ad L ∪ if decide (a = ad) then {[b]} else ∅.
Proof.
  unfold txsOf. rewrite filter_app, fmap_app, list_to_set_app_L. f_equal. rewrite filter_cons, filter_nil. cbn. case_decide; cbn; [|done].
  by rewrite (right_id_L ∅ (∪)).
Qed.

Lemma txCount_snoc ad L a b k :
  txCount ad (L ++ [(a, (b, k))]) = txCount ad L + if decide (a = ad /\ b ∉ txsOf ad L) then 1 else 0.
Proof.
  unfold txCount. rewrite txsOf_snoc. destruct (decide (a = ad)) as [-> |Ha].
  - destruct (decide (b ∈ txsOf ad L)) as [Hb|Hb].
    + rewrite decide_False by tauto. rewrite (union_comm_L _ {[b]}), subseteq_union_1_L by set_solver. lia.
    + rewrite decide_True by done. rewrite size_union, size_singleton by set_solver. lia.
  - rewrite decide_False by tauto. rewrite (right_id_L ∅ (∪)). lia.
Qed.

Lemma txCount_le ad L : 0 <= txCount ad L <= zlen L.
Proof.
  split; [unfold txCount; lia|]. induction L as [|[a [b k]] L IH] using rev_ind; [by vm_compute|].
  rewrite txCount_snoc, zlen_app. change (zlen [_]) with 1. case_decide; lia.
Qed.

Lemma keysOf_le ad L : zlen (keysOf ad L) <= zlen L.
Proof. unfold keysOf, zlen. rewrite length_fmap. pose proof (length_filter (fun t : touch => t.1 = ad) L). lia. Qed.

Lemma elem_of_keysOf ad L k : k ∈ keysOf ad L <-> exists b, (ad, (b, k)) ∈ L.
Proof.
  unfold keysOf. rewrite list_elem_of_fmap. split.
  - intros ([a [b k']] & -> & [Ha Ht]%list_elem_of_filter). cbn in Ha. subst a. eauto.
  - intros (b & Hb). exists (ad, (b, k)). split; [done|]. by apply list_elem_of_filter.
Qed.

Lemma elem_of_txsOf ad L b : b ∈ txsOf ad L <-> exists k, (ad, (b, k)) ∈ L.
Proof.
  unfold txsOf. rewrite elem_of_list_to_set, list_elem_of_fmap. split.
  - intros ([a [b' k]] & -> & [Ha Ht]%list_elem_of_filter). cbn in Ha. subst a. eauto.
  - intros (k & Hk). exists (ad, (b, k)). split; [done|]. by apply list_elem_of_filter.
Qed.

Lemma applied_bounded n ac ad L : 0 <= n -> bounded (n + zlen L) ac -> bounded n (applied ac ad L).
Proof.
  intros Hn Hb. pose proof (keysOf_le ad L). pose proof (txCount_le ad L).
  destruct (touches_bounded (keysOf ad L) n ac) as [_ H2 H3]; [done|eapply bounded_weaken; [|exact Hb]; lia|].
  destruct Hb as [H1 _ _]. split; [cbn; lia|exact H2|exact H3].
Qed.

Lemma unapplied_applied ac ad L L' : L ≡ₚ L' -> bounded (zlen L) ac -> unapplied (applied ac ad L) ad L' = ac.
Proof.
  intros HL Hb. unfold unapplied, applied. rewrite set_Total_untouches, untouches_touches.
  - assert (txsOf ad L' = txsOf ad L) as Et.
    { apply set_eq. intros b. rewrite !elem_of_txsOf. by setoid_rewrite HL. }
    unfold txCount. rewrite Et. unfold set_Total. cbn. rewrite Z.add_simpl_r. by destruct ac.
  - unfold keysOf. by rewrite HL.
  - eapply bounded_weaken; [|exact Hb]. apply keysOf_le.
Qed.

Lemma applied_snoc ac ad L a b k : applied ac ad (L ++ [(a, (b, k))]) =
  if decide (a = ad) then set_Total (TotalTxs (applied ac ad L) + if decide (b ∈ txsOf ad L) then 0 else 1) (touchOne (applied ac ad L) k)
  else applied ac ad L.
Proof.
  unfold applied. rewrite keysOf_snoc, txCount_snoc. destruct (decide (a = ad)) as [Ea|Ea].
  - rewrite foldl_app. cbn [foldl]. set (x := foldl touchOne ac (keysOf ad L)).
    assert (forall n m, set_Total m (touchOne (set_Total n x) k) = set_Total m (touchOne x k)) as -> by (by destruct k).
    cbn [TotalTxs set_Total]. destruct (decide (b ∈ txsOf ad L)) as [Hb|Hb];
      [rewrite (decide_False (P := a = ad /\ _)) by tauto|rewrite (decide_True (P := a = ad /\ _)) by done]; f_equal; lia.
  - rewrite decide_False by tauto. by rewrite app_nil_r, Z.add_0_r.
Qed.

Section connect.
Context `{SL : StoreLaws} `{P : BlockChainParser} `{VL : VlqLaws}.
Context (d : RocksDB).

(** The stored counters of an address. *)
Definition stored (ad : bytes) : AddrContracts :=
  match GetAddrDescContracts d ad with Ret (Some ac) => ac | _ => emptyContracts end.

Hypothesis Hread : forall ad, exists r, GetAddrDescContracts d ad = Ret r.

Definition contracts_view (s : ethState) (ad : bytes) : AddrContracts := default (stored ad) (e_contracts s !! ad).

Definition ids (l : list txIndexes) : list bytes := ti_btxID <$> l.

(** The state of the indexing after [L] was counted. *)
Record counted (L : list touch) (s : ethState) : Prop := {
  ct_view : forall ad, contracts_view s ad = applied (stored ad) ad L;
  ct_seen : forall ad, list_to_set (ids (default [] (e_addresses s !! ad))) = txsOf ad L;
  ct_contracts : forall ad, is_Some (e_contracts s !! ad) <-> ad ∈ L.*1;
  ct_addresses : forall ad, is_Some (e_addresses s !! ad) <-> ad ∈ L.*1;
}.

Lemma appendIndex_btxIDs b i l : match appendIndex b i l with Some l' => b ∈ ids l /\ ids l' = ids l | None => b ∉ ids l end.
Proof.
  induction l as [|t l IH]; cbn; [apply not_elem_of_nil|]. case_decide as E.
  - subst b. split; [left|done].
  - destruct (appendIndex b i l) as [l'|].
    + destruct IH as [H1 H2]. split; [by right|]. unfold ids in *. cbn. by rewrite H2.
    + by apply not_elem_of_cons.
Qed.

Lemma addToAddressesMap_ids m ad b i : exists l,
  addToAddressesMap m ad b i = (<[ad := l]> m, bool_decide (b ∈ ids (default [] (m !! ad)))) /\
  list_to_set (C := gset bytes) (ids l) = list_to_set (ids (default [] (m !! ad))) ∪ {[b]}.
Proof.
  unfold addToAddressesMap. set (l := default [] (m !! ad)). pose proof (appendIndex_btxIDs b i l) as H.
  destruct (appendIndex b i l) as [l'|].
  - destruct H as [H1 H2]. exists l'. rewrite bool_decide_true by done. split; [done|]. rewrite H2. set_solver.
  - exists (l ++ [mkTxIndexes b [i]]). rewrite bool_decide_false by done. split; [done|].
    unfold ids. rewrite fmap_app, list_to_set_app_L. cbn. set_solver.
Qed.

Lemma loadContracts_run ad s : exists s1, loadContracts d ad s = (s1, Ret (contracts_view s ad)) /\
  e_addresses s1 = e_addresses s /\ e_contracts s1 = <[ad := contracts_view s ad]> (e_contracts s).
Proof.
  unfold loadContracts, contracts_view, stored. rewrite (sbind_eq _ _ s s s) by done.
  destruct (e_contracts s !! ad) as [ac|] eqn:E; cbn [default].
  - eexists. split; [reflexivity|]. split; [done|]. cbn. by rewrite insert_id.
  - destruct (Hread ad) as [r Hr]. rewrite Hr. destruct r as [ac|]; eexists; (split; [reflexivity|]); done.
Qed.

(** The state after a call for an address whose counters become [ac]. *)
Lemma counted_insert L s s1 ad b k ac l : counted L s -> ad ∈ (L ++ [(ad, (b, k))]).*1 ->
  ac = applied (stored ad) ad (L ++ [(ad, (b, k))]) ->
  list_to_set (ids l) = txsOf ad (L ++ [(ad, (b, k))]) ->
  e_contracts s1 = <[ad := ac]> (e_contracts s) -> e_addresses s1 = <[ad := l]> (e_addresses s) -> counted (L ++ [(ad, (b, k))]) s1.
Proof.
  intros [H1 H2 H3 H4] Hin -> Hl E1 E2. split; intros a; unfold contracts_view; rewrite ?E1, ?E2; destruct (decide (a = ad)) as [-> |Hne].
  - by rewrite lookup_insert_eq.
  - rewrite lookup_insert_ne by done. rewrite applied_snoc, decide_False by done. apply H1.
  - by rewrite lookup_insert_eq.
  - rewrite lookup_insert_ne by done. rewrite txsOf_snoc, decide_False, (right_id_L ∅ (∪)) by done. apply H2.
  - rewrite lookup_insert_eq. split; [done|by eexists].
  - rewrite lookup_insert_ne by done. rewrite H3, fmap_app. cbn. set_solver.
  - rewrite lookup_insert_eq. split; [done|by eexists].
  - rewrite lookup_insert_ne by done. rewrite H4, fmap_app. cbn. set_solver.
Qed.

Lemma touchAddress_counts ad i k ac : bounded 1 ac -> (k <> None -> isZeroAddress ad = false) ->
  exists j, touchAddress ad i k true ac = (touchOne ac k, j).
Proof.
  intros [_ Hp _] Hz. unfold touchAddress, touchOne. destruct k as [c|].
  - rewrite Hz by done. destruct (touchContract c true (Contracts ac)). by eexists.
  - rewrite u64_id by (unfold in_u64; lia). by eexists.
Qed.

(** Counting an address once more. *)
Lemma add_counts L s ad b i k : counted L s -> (forall ad, bounded (zlen L + 1) (stored ad)) -> (k <> None -> isZeroAddress ad = false) ->
  exists s', addToAddressesAndContractsEthereumType d ad b i k true s = (s', Ret tt) /\ counted (L ++ [(ad, (b, k))]) s'.
Proof.
  intros HL Hb Hz. pose proof HL as [Hv Hs _ _]. unfold addToAddressesAndContractsEthereumType.
  destruct (loadContracts_run ad s) as (s1 & E1 & Ea & Ec). rewrite (sbind_eq _ _ s s1 _ E1).
  assert (bounded 1 (contracts_view s ad)) as Hb1.
  { rewrite Hv. apply applied_bounded; [lia|]. rewrite Z.add_comm. apply Hb. }
  destruct (touchAddress_counts ad i k (contracts_view s ad) Hb1 Hz) as [j ->]. rewrite Ea.
  destruct (addToAddressesMap_ids (e_addresses s) ad b j) as (l & -> & Hl). eexists. split; [reflexivity|].
  eapply (counted_insert L s _ ad b k _ l); [done|rewrite fmap_app; set_solver| | |rewrite Ec; cbn [e_contracts]; by rewrite insert_insert_eq|done].
  - rewrite applied_snoc, decide_True, <- Hv by done. rewrite <- Hs.
    assert (bounded 0 (touchOne (contracts_view s ad) k)) as [Ht _ _] by (by apply touchOne_bounded).
    destruct Hb1 as [Ht1 _ _].
    destruct (decide (b ∈ ids (default [] (e_addresses s !! ad)))) as [Hin|Hin].
    + rewrite bool_decide_true, decide_True by (done || by rewrite elem_of_list_to_set). destruct k; unfold set_Total; cbn; by rewrite Z.add_0_r.
    + rewrite bool_decide_false, decide_False by (done || by rewrite elem_of_list_to_set).
      destruct k; unfold set_Total; cbn; rewrite u64_id by (unfold in_u64; lia); done.
  - rewrite Hl, Hs, txsOf_snoc, decide_True by done. done.
Qed.

Lemma touched_find c K : forall ac, is_Some (findContractInAddressContracts c (Contracts ac)) \/ Some c ∈ K ->
  is_Some (findContractInAddressContracts c (Contracts (foldl touchOne ac K))).
Proof.
  induction K as [|k K IH]; intros ac H; cbn [foldl]; [by destruct H as [H|H%not_elem_of_nil]|]. apply IH.
  rewrite elem_of_cons in H. destruct k as [c'|]; cbn [touchOne Contracts].
  - destruct H as [H|[[= <-]|H]]; [left; apply touch_find; auto|left; apply touch_find; auto|by right].
  - destruct H as [H|[H|H]]; [by left|done|by right].
Qed.

(** A call that does not count again what it was called for before. *)
Lemma add_again L s ad b i k : counted L s -> (ad, (b, k)) ∈ L -> (k <> None -> isZeroAddress ad = false) ->
  exists s', addToAddressesAndContractsEthereumType d ad b i k false s = (s', Ret tt) /\ counted L s'.
Proof.
  intros HL Hin Hz. pose proof HL as [Hv Hs Hc Ha]. unfold addToAddressesAndContractsEthereumType.
  destruct (loadContracts_run ad s) as (s1 & E1 & Ea & Ec). rewrite (sbind_eq _ _ s s1 _ E1). rewrite Hv in *.
  assert (exists j, touchAddress ad i k false (applied (stored ad) ad L) = (applied (stored ad) ad L, j)) as [j ->].
  { unfold touchAddress. destruct k as [c|]; [|by eexists]. rewrite Hz by done. unfold touchContract.
    assert (is_Some (findContractInAddressContracts c (Contracts (applied (stored ad) ad L)))) as [x ->].
    { apply (touched_find c (keysOf ad L)). right. apply elem_of_keysOf. eauto. }
    by eexists. }
  rewrite Ea. destruct (addToAddressesMap_ids (e_addresses s) ad b j) as (l & -> & Hl).
  assert (b ∈ txsOf ad L) as Hb by (apply elem_of_txsOf; eauto).
  rewrite bool_decide_true by (by rewrite <- (elem_of_list_to_set (C := gset bytes)), Hs). eexists. split; [reflexivity|].
  assert (ad ∈ L.*1) as Had by (apply list_elem_of_fmap; by exists (ad, (b, k))).
  split; intros a; unfold contracts_view; cbn [e_contracts e_addresses]; rewrite ?Ec, ?insert_insert_eq; destruct (decide (a = ad)) as [-> |Hne].
  - by rewrite lookup_insert_eq.
  - rewrite lookup_insert_ne by done. apply Hv.
  - rewrite lookup_insert_eq. change (default [] (Some l)) with l. rewrite Hl, Hs. set_solver.
  - rewrite lookup_insert_ne by done. apply Hs.
  - rewrite lookup_insert_eq. split; [done|by eexists].
  - rewrite lookup_insert_ne by done. apply Hc.
  - rewrite lookup_insert_eq. split; [done|by eexists].
  - rewrite lookup_insert_ne by done. apply Ha.
Qed.

(** ** A transaction *)

Hypothesis Haddr : forall a ad, GetAddrDescFromAddress a = Ret ad -> ad <> [].
Context (N : Z).
Hypothesis HN : forall ad, bounded N (stored ad).

Definition sideTouch (b ad : bytes) : list touch := if decide (ad = []) then [] else [(ad, (b, None))].
Definition contractTouches (b : bytes) (cs : list ethBlockTxContract) : list touch :=
  (fun c => (ebc_addr c, (b, ebc_contract c))) <$> filter (fun c => ebc_addr c <> []) cs.

(** What a stored transaction says it touched. *)
Definition btTouches (b : ethBlockTx) : list touch :=
  sideTouch (eb_btxID b) (eb_from b) ++
  (if decide (eb_from b = eb_to b) then [] else sideTouch (eb_btxID b) (eb_to b)) ++
  contractTouches (eb_btxID b) (eb_contracts b).

Definition nonzero (T : list touch) : Prop := Forall (fun t => t.2.2 <> None -> isZeroAddress t.1 = false) T.

Lemma contractTouches_app b cs cs' : contractTouches b (cs ++ cs') = contractTouches b cs ++ contractTouches b cs'.
Proof. unfold contractTouches. by rewrite filter_app, fmap_app. Qed.

Lemma add_run L s s' ad b i k u : counted L s -> zlen L + 1 <= N -> (k <> None -> isZeroAddress ad = false) ->
  addToAddressesAndContractsEthereumType d ad b i k true s = (s', Ret u) -> counted (L ++ [(ad, (b, k))]) s'.
Proof.
  intros HL Hn Hz E. destruct (add_counts L s ad b i k HL) as (s1 & E1 & H1); [|done|].
  - intros a. eapply bounded_weaken; [|apply HN]. done.
  - rewrite E1 in E. by injection E as <- <-.
Qed.

Lemma processSide_run L s s' b sides i count r : counted L s -> zlen L + 1 <= N ->
  (forall ad, ad <> [] -> count ad = false -> (ad, (b, None)) ∈ L) ->
  processSide d b sides i count s = (s', Ret r) ->
  match r with None => s' = s | Some ad => counted (L ++ if count ad then sideTouch b ad else []) s' end.
Proof.
  intros HL Hn Hc. unfold processSide. destruct (singleAddress sides) as [a|].
  2:{ intros [= <- <-]. unfold sideTouch. rewrite decide_True by done. destruct (count []); by rewrite app_nil_r. }
  destruct (GetAddrDescFromAddress a) as [ad|e|] eqn:Ea; [|by intros [= <- <-]|done].
  pose proof (Haddr a ad Ea) as Hne. intros (s1 & u & E1 & [= -> <-])%sbind_ret. destruct (count ad) eqn:Ec.
  - unfold sideTouch. rewrite decide_False by done. by eapply add_run.
  - rewrite app_nil_r. destruct (add_again L s ad b i None HL (Hc ad Hne Ec)) as (s2 & E2 & H2); [done|].
    rewrite E2 in E1. by injection E1 as <- <-.
Qed.

Lemma processTransfer_run L s s' b x cs : counted L s -> zlen (L ++ contractTouches b cs) <= N -> nonzero (contractTouches b cs) ->
  processTransfer d b x s = (s', Ret cs) -> exists T, T ≡ₚ contractTouches b cs /\ counted (L ++ T) s'.
Proof.
  intros HL Hn Hz. destruct x as [i t]. unfold processTransfer.
  destruct (GetAddrDescFromAddress (Erc20Transfer.Contract t)) as [c|e|]; cbn [go_bind];
    [|intros [= <- <-]; exists []; by rewrite app_nil_r|done].
  destruct (GetAddrDescFromAddress (Erc20Transfer.From t)) as [from|e|] eqn:Ef; cbn [go_bind];
    [|intros [= <- <-]; exists []; by rewrite app_nil_r|done].
  destruct (GetAddrDescFromAddress (Erc20Transfer.To t)) as [to|e|] eqn:Et; cbn [go_bind];
    [|intros [= <- <-]; exists []; by rewrite app_nil_r|done].
  apply Haddr in Ef, Et. intros (s1 & u1 & E1 & (s2 & u2 & E2 & [= -> Ecs])%sbind_ret)%sbind_ret.
  assert (contractTouches b cs = (from, (b, Some c)) :: if bool_decide (from = to) then [] else [(to, (b, Some c))]) as Hcs.
  { rewrite <- Ecs. unfold contractTouches. rewrite filter_cons_True by done. cbn. f_equal.
    case_bool_decide; [done|]. by rewrite filter_cons_True. }
  rewrite Hcs in *. clear Hcs Ecs. rewrite zlen_app, zlen_cons in Hn. apply Forall_cons in Hz as [Hzf Hzt]. cbn [fst snd] in Hzf.
  case_bool_decide as Eq; cbn [negb] in E2; rewrite ?zlen_cons, ?zlen_nil in Hn.
  - subst to. apply (add_run L) in E1; [|done|lia|done]. exists [(from, (b, Some c))]. split; [done|].
    destruct (add_again _ s1 from b (Z.lnot (i32 (Z.of_nat i))) (Some c) E1) as (s3 & E3 & H3); [set_solver|done|].
    rewrite E3 in E2. by injection E2 as <- <-.
  - apply Forall_cons in Hzt as [Hzt _]. apply (add_run L) in E1; [|done|lia|done].
    apply (add_run _ _ _ _ _ _ _ _ E1) in E2; [|rewrite zlen_app, zlen_cons, zlen_nil; lia|done].
    exists [(to, (b, Some c)); (from, (b, Some c))]. split; [apply Permutation_swap|]. by rewrite <- app_assoc in E2.
Qed.

Lemma processTransfers_run b l : forall L s s' css, counted L s -> zlen (L ++ contractTouches b (concat css)) <= N ->
  nonzero (contractTouches b (concat css)) -> smap (processTransfer d b) l s = (s', Ret css) ->
  exists T, T ≡ₚ contractTouches b (concat css) /\ counted (L ++ T) s'.
Proof.
  induction l as [|x l IH]; intros L s s' css HL Hn Hz; cbn [smap].
  - intros [= <- <-]. exists []. by rewrite app_nil_r.
  - intros (s1 & cs & E1 & (s2 & css' & E2 & [= <- <-])%sbind_ret)%sbind_ret. cbn [concat] in *.
    unfold nonzero in Hz. rewrite contractTouches_app in *. apply Forall_app in Hz as [Hz1 Hz2]. rewrite !zlen_app in Hn.
    pose proof (zlen_nonneg (contractTouches b (concat css'))).
    destruct (processTransfer_run L s s1 b x cs HL) as (T1 & HT1 & H1); [rewrite zlen_app; lia|done|done|].
    assert (zlen T1 = zlen (contractTouches b cs)) as Hl by (unfold zlen; by rewrite HT1).
    destruct (IH (L ++ T1) s1 s2 css' H1) as (T2 & HT2 & H2); [rewrite !zlen_app; lia|done|done|].
    exists (T1 ++ T2). split; [by rewrite HT1, HT2|]. by rewrite app_assoc.
Qed.

Lemma sides_perm b from to : sideTouch b to ++ (if negb (bool_decide (from = to)) then sideTouch b from else []) ≡ₚ
  sideTouch b from ++ (if decide (from = to) then [] else sideTouch b to).
Proof.
  destruct (decide (from = to)) as [-> |Hne]; [by rewrite bool_decide_true|]. rewrite bool_decide_false by done. apply Permutation_app_comm.
Qed.

Lemma sideTouch_le b ad : zlen (sideTouch b ad) <= 1.
Proof. unfold sideTouch. by case_decide. Qed.

(** A transaction counts what it is stored to have touched. *)
Lemma processEthTx_run L s s' tx bt : counted L s -> zlen L + 2 + zlen (btTouches bt) <= N -> nonzero (btTouches bt) ->
  processEthTx d tx s = (s', Ret bt) -> exists T, T ≡ₚ btTouches bt /\ counted (L ++ T) s'.
Proof.
  intros HL Hn Hz. pose proof (zlen_nonneg (btTouches bt)). unfold processEthTx. intros (s0 & b & E0 & H0)%sbind_ret.
  unfold slift in E0. injection E0 as <- _. apply sbind_ret in H0 as (s1 & rto & E1 & H1).
  apply (processSide_run L) in E1; [|done|lia|done]. destruct rto as [to|].
  2:{ subst s1. injection H1 as <- <-. exists []. by rewrite app_nil_r. }
  cbn in E1. apply sbind_ret in H1 as (s2 & rfrom & E2 & H2). pose proof (sideTouch_le b to).
  apply (processSide_run (L ++ sideTouch b to)) in E2; [|done|rewrite zlen_app; lia|].
  2:{ intros ad Hne Hc. apply negb_false_iff, bool_decide_eq_true in Hc as ->. apply elem_of_app. right.
      unfold sideTouch. rewrite decide_False by done. left. }
  destruct rfrom as [from|].
  2:{ subst s2. injection H2 as <- <-. exists (sideTouch b to). split; [|done]. unfold btTouches. cbn.
      unfold sideTouch at 2. rewrite decide_True, app_nil_r by done. case_decide as E; [|done].
      unfold sideTouch. by rewrite decide_True. }
  apply sbind_ret in H2 as (s3 & erc20 & E3 & H3). apply sbind_ret in H3 as (s4 & css & E4 & [= -> <-]).
  assert (s3 = s2) as -> by (destruct (EthereumTypeGetErc20FromTx tx); by injection E3). clear E3.
  rewrite <- app_assoc in E2. unfold btTouches in *. cbn [eb_btxID eb_from eb_to eb_contracts] in *.
  pose proof (sides_perm b from to) as Hp. set (S1 := sideTouch b to ++ _) in *.
  unfold nonzero in Hz. rewrite app_assoc in Hz, Hn |- *. rewrite <- Hp in Hz. apply Forall_app in Hz as [_ Hz].
  rewrite zlen_app in Hn. assert (zlen S1 = zlen (sideTouch b from ++ if decide (from = to) then [] else sideTouch b to)) as Hl
    by (unfold zlen; by rewrite Hp).
  destruct (processTransfers_run b (enumerate erc20) _ s2 s' css E2) as (T & HT & HC); [rewrite !zlen_app in *; lia|done|done|].
  exists (S1 ++ T). split; [by rewrite Hp, HT|]. by rewrite app_assoc.
Qed.

(** What the stored transactions of a block say they touched. *)
Definition blockTouches (bts : list ethBlockTx) : list touch := concat (map btTouches bts).

Lemma processBlock_run txs : forall L s s' bts, counted L s -> zlen L + 2 + zlen (blockTouches bts) <= N -> nonzero (blockTouches bts) ->
  smap (processEthTx d) txs s = (s', Ret bts) -> exists T, T ≡ₚ blockTouches bts /\ counted (L ++ T) s'.
Proof.
  induction txs as [|tx txs IH]; intros L s s' bts HL Hn Hz; cbn [smap].
  - intros [= <- <-]. exists []. by rewrite app_nil_r.
  - intros (s1 & bt & E1 & (s2 & bts' & E2 & [= <- <-])%sbind_ret)%sbind_ret. unfold blockTouches in *. cbn [map concat] in *.
    unfold nonzero in Hz. apply Forall_app in Hz as [Hz1 Hz2]. rewrite !zlen_app in Hn.
    pose proof (zlen_nonneg (concat (map btTouches bts'))).
    destruct (processEthTx_run L s s1 tx bt HL) as (T1 & HT1 & H1); [lia|done|done|].
    assert (zlen T1 = zlen (btTouches bt)) as Hl by (unfold zlen; by rewrite HT1).
    destruct (IH (L ++ T1) s1 s2 bts' H1) as (T2 & HT2 & H2); [rewrite !zlen_app; lia|done|done|].
    exists (T1 ++ T2). split; [by rewrite HT1, HT2|]. by rewrite app_assoc.
Qed.

Lemma counted_start st : counted [] (mkEthState ∅ ∅ st).
Proof.
  split; intros ad; cbn; rewrite ?lookup_empty.
  - unfold contracts_view, applied. cbn. rewrite lookup_empty. cbn. rewrite Z.add_0_r. by destruct (stored ad).
  - done.
  - split; [by intros []|by intros ?%not_elem_of_nil].
  - split; [by intros []|by intros ?%not_elem_of_nil].
Qed.
End connect.

Lemma unapplied_snoc ac ad L a b k : unapplied ac ad (L ++ [(a, (b, k))]) =
  if decide (a = ad) then set_Total (TotalTxs (unapplied ac ad L) - if decide (b ∈ txsOf ad L) then 0 else 1) (untouchOne (unapplied ac ad L) k)
  else unapplied ac ad L.
Proof.
  unfold unapplied. rewrite keysOf_snoc, txCount_snoc. destruct (decide (a = ad)) as [Ea|Ea].
  - rewrite foldl_app. cbn [foldl]. set (x := foldl untouchOne ac (keysOf ad L)).
    assert (forall n m, set_Total m (untouchOne (set_Total n x) k) = set_Total m (untouchOne x k)) as -> by (by destruct k).
    cbn [TotalTxs set_Total]. destruct (decide (b ∈ txsOf ad L)) as [Hb|Hb];
      [rewrite (decide_False (P := a = ad /\ _)) by tauto|rewrite (decide_True (P := a = ad /\ _)) by done]; f_equal; lia.
  - rewrite decide_False by tauto. by rewrite app_nil_r, Z.add_0_r.
Qed.

Section disconnect.
Context `{SL : StoreLaws} `{P : BlockChainParser} `{VL : VlqLaws}.
Context (d1 : RocksDB) (c1 : bytes -> option AddrContracts).
Hypothesis Hread1 : forall ad, GetAddrDescContracts d1 ad = Ret (c1 ad).

(** What is touched in all, and that the stored totals are as high. *)
Context (All : list touch).
Hypothesis Htotal : forall ad ac, c1 ad = Some ac -> txCount ad All <= TotalTxs ac < 2 ^ 64.

(** The state of the disconnection after [L] was undone. *)
Record discounted (L : list touch) (t : ethDisconnect) : Prop := {
  dt_contracts : forall ad, ed_contracts t !! ad = if decide (ad ∈ L.*1) then Some ((fun ac => unapplied ac ad L) <$> c1 ad) else None;
  dt_seen : forall ad, default ∅ (ed_addresses t !! ad) = txsOf ad L;
  dt_addresses : forall ad, is_Some (ed_addresses t !! ad) <-> ad ∈ L.*1;
}.

Lemma txCount_mono ad L x R : txCount ad (L ++ [x]) <= txCount ad (L ++ x :: R).
Proof.
  unfold txCount. apply inj_le, subseteq_size. intros b. rewrite !elem_of_txsOf. intros (k & Hk). exists k. set_solver.
Qed.

(** The counters of a touched address are in memory or read now. *)
Lemma dt_load L t ad : discounted L t ->
  match ed_contracts t !! ad with Some c => c = (fun ac => unapplied ac ad L) <$> c1 ad | None => txsOf ad L = ∅ /\ keysOf ad L = [] end.
Proof.
  intros [Hc _ _]. rewrite Hc. case_decide as Hin; [done|].
  assert (filter (fun t : touch => t.1 = ad) L = []) as E.
  { destruct (filter (fun t : touch => t.1 = ad) L) as [|x l] eqn:E; [done|]. destruct Hin.
    assert (x ∈ filter (fun t : touch => t.1 = ad) L) as [Hx Hin]%list_elem_of_filter by (rewrite E; left).
    apply list_elem_of_fmap. by exists x. }
  unfold txsOf, keysOf. by rewrite E.
Qed.

Lemma disconnectAddress_run L R t b ad k : discounted L t -> L ++ (ad, (b, k)) :: R = All -> ad <> [] ->
  exists t', disconnectAddress d1 b ad k t = (t', Ret tt) /\ discounted (L ++ [(ad, (b, k))]) t'.
Proof.
  intros HL HR Hne. pose proof (dt_load L t ad HL) as Hld. pose proof HL as [Hc Hs Ha]. unfold disconnectAddress.
  destruct (Z.eqb_spec (zlen ad) 0) as [E|_]; [by apply zlen_0_inv in E|]. rewrite (sbind_eq _ _ t t t) by done.
  set (mtx := default ∅ (ed_addresses t !! ad)). assert (mtx = txsOf ad L) as Hm by apply Hs. rewrite Hm.
  set (t1 := mkEthDisconnect (<[ad := {[b]} ∪ txsOf ad L]> (ed_addresses t)) (ed_contracts t)).
  rewrite (sbind_eq _ _ t t1 tt), (sbind_eq _ _ t1 t1 t1) by done.
  rewrite (sbind_eq _ _ t1 t1 ((fun ac => unapplied ac ad L) <$> c1 ad)).
  2:{ change (ed_contracts t1) with (ed_contracts t). destruct (ed_contracts t !! ad) as [c|].
      - by rewrite Hld.
      - unfold slift. rewrite Hread1. destruct Hld as [H1 H2]. unfold unapplied, txCount. rewrite H1, H2. cbn.
        do 2 f_equal. destruct (c1 ad) as [ac|]; [|done]. cbn. rewrite Z.sub_0_r. by destruct ac. }
  eexists. split; [reflexivity|]. split; intros a; cbn [ed_contracts ed_addresses t1]; destruct (decide (a = ad)) as [-> |Hn].
  - rewrite lookup_insert_eq, decide_True by (rewrite fmap_app; set_solver). f_equal.
    destruct (c1 ad) as [ac|] eqn:E1; [|done]. cbn. f_equal. rewrite unapplied_snoc, decide_True by done.
    pose proof (Htotal ad ac E1) as Ht. rewrite <- HR in Ht. pose proof (txCount_mono ad L (ad, (b, k)) R) as Hmono.
    rewrite txCount_snoc in Hmono. pose proof (txCount_le ad L).
    assert (TotalTxs (unapplied ac ad L) = TotalTxs ac - txCount ad L) as Et by done.
    unfold untouchOne, decAddress. destruct (decide (b ∈ txsOf ad L)) as [Hb|Hb].
    + rewrite bool_decide_true by done. destruct k; unfold set_Total; cbn [TotalTxs NonContractTxs Contracts]; by rewrite Z.sub_0_r.
    + rewrite bool_decide_false by done. rewrite decide_True in Hmono by done.
      destruct k; unfold set_Total; cbn [TotalTxs NonContractTxs Contracts]; rewrite Et, u64_id by (unfold in_u64; lia); done.
  - rewrite lookup_insert_ne, Hc by done. rewrite fmap_app. cbn.
    destruct (decide (a ∈ L.*1)) as [Hin|Hin]; [rewrite decide_True by set_solver|rewrite decide_False by set_solver; done].
    f_equal. destruct (c1 a) as [ac|]; [|done]. cbn. f_equal. by rewrite unapplied_snoc, decide_False.
  - rewrite lookup_insert_eq. change (default ∅ (Some ({[b]} ∪ txsOf ad L))) with ({[b]} ∪ txsOf ad L). rewrite txsOf_snoc, decide_True by done. set_solver.
  - rewrite lookup_insert_ne by done. rewrite txsOf_snoc, decide_False, (right_id_L ∅ (∪)) by done. apply Hs.
  - rewrite lookup_insert_eq, fmap_app. cbn. split; [set_solver|by eexists].
  - rewrite lookup_insert_ne, Ha, fmap_app by done. cbn. set_solver.
Qed.

(** Undoing what a side or the transfers touched. *)
Lemma disconnectSide_run L R t b ad : discounted L t -> L ++ sideTouch b ad ++ R = All ->
  exists t', disconnectAddress d1 b ad None t = (t', Ret tt) /\ discounted (L ++ sideTouch b ad) t'.
Proof.
  unfold sideTouch. case_decide as E; intros HL HR.
  - subst ad. exists t. split; [done|]. by rewrite app_nil_r.
  - by eapply disconnectAddress_run.
Qed.

Lemma contractTouches_cons b c cs : contractTouches b (c :: cs) =
  (if decide (ebc_addr c = []) then [] else [(ebc_addr c, (b, ebc_contract c))]) ++ contractTouches b cs.
Proof.
  unfold contractTouches. destruct (decide (ebc_addr c = [])) as [E|E]; [by rewrite filter_cons_False by auto|by rewrite filter_cons_True].
Qed.

Lemma disconnectContracts_run b cs : forall L R t, discounted L t -> L ++ contractTouches b cs ++ R = All ->
  exists t', sfor (fun c => disconnectAddress d1 b (ebc_addr c) (ebc_contract c)) cs t = (t', Ret tt) /\
    discounted (L ++ contractTouches b cs) t'.
Proof.
  induction cs as [|c cs IH]; intros L R t HL HR; cbn [sfor].
  - exists t. split; [done|]. by rewrite app_nil_r.
  - rewrite contractTouches_cons, <- app_assoc in HR. rewrite contractTouches_cons. destruct (decide (ebc_addr c = [])) as [E|E]; cbn [app] in *.
    + rewrite (sbind_eq _ _ t t tt) by (by rewrite E). by apply (IH L R).
    + destruct (disconnectAddress_run L _ t b (ebc_addr c) (ebc_contract c) HL HR E) as (t1 & E1 & H1).
      rewrite (sbind_eq _ _ t t1 tt) by done. destruct (IH _ R t1 H1) as (t2 & E2 & H2); [by rewrite <- app_assoc|].
      exists t2. split; [done|]. by rewrite <- app_assoc in H2.
Qed.

Lemma disconnectEthTx_run L R t bt : discounted L t -> L ++ btTouches bt ++ R = All ->
  exists t', disconnectEthTx d1 bt t = (t', Ret tt) /\ discounted (L ++ btTouches bt) t'.
Proof.
  intros HL HR. unfold btTouches in *. set (to := if decide (eb_from bt = eb_to bt) then [] else _) in *.
  rewrite <- !app_assoc in HR. unfold disconnectEthTx.
  destruct (disconnectSide_run L _ t _ _ HL HR) as (t1 & E1 & H1). rewrite (sbind_eq _ _ t t1 tt) by done.
  rewrite app_assoc in HR.
  assert (exists t2, (if bool_decide (eb_from bt = eb_to bt) then sret tt else disconnectAddress d1 (eb_btxID bt) (eb_to bt) None) t1 = (t2, Ret tt) /\
    discounted ((L ++ sideTouch (eb_btxID bt) (eb_from bt)) ++ to) t2) as (t2 & E2 & H2).
  { subst to. destruct (decide (eb_from bt = eb_to bt)).
    - rewrite bool_decide_true by done. exists t1. split; [done|]. by rewrite app_nil_r.
    - rewrite bool_decide_false by done. by eapply disconnectSide_run. }
  rewrite (sbind_eq _ _ t1 t2 tt) by done. rewrite app_assoc in HR.
  destruct (disconnectContracts_run _ _ _ _ _ H2 HR) as (t3 & E3 & H3). exists t3. split; [done|]. by rewrite !app_assoc.
Qed.

Lemma disconnectTxs_run bts : forall L R t, discounted L t -> L ++ blockTouches bts ++ R = All ->
  exists t', sfor (disconnectEthTx d1) bts t = (t', Ret tt) /\ discounted (L ++ blockTouches bts) t'.
Proof.
  induction bts as [|bt bts IH]; intros L R t HL HR; cbn [sfor].
  - exists t. split; [done|]. by rewrite app_nil_r.
  - unfold blockTouches in *. cbn [map concat] in *. rewrite <- app_assoc in HR.
    destruct (disconnectEthTx_run L _ t bt HL HR) as (t1 & E1 & H1). rewrite (sbind_eq _ _ t t1 tt) by done.
    rewrite app_assoc in HR. destruct (IH _ R t1 H1 HR) as (t2 & E2 & H2). exists t2. split; [done|]. by rewrite !app_assoc in *.
Qed.

Lemma discounted_start : discounted [] (mkEthDisconnect ∅ ∅).
Proof.
  split; intros ad; cbn; rewrite ?lookup_empty; [done|done|]. split; [by intros []|by intros ?%not_elem_of_nil].
Qed.
End disconnect.

(** * Through the database *)

(** The contracts have full addresses, and counters that are stored are not all zero. *)
Definition wide (ac : AddrContracts) : Prop :=
  Forall (fun c => zlen (AddrContract.Contract c) = EthereumTypeAddressDescriptorLen) (Contracts ac).
Definition in_use (ac : AddrContracts) : Prop := NonContractTxs ac <> 0 \/ Contracts ac <> [].

Lemma touch_nonempty c cs : (touchContract c true cs).2 <> [].
Proof. destruct cs as [|x cs]; [by rewrite touch_nil|]. rewrite touch_cons. by case_decide. Qed.

Lemma touchOne_in_use ac k : 0 <= NonContractTxs ac -> in_use (touchOne ac k).
Proof. destruct k as [c|]; [right; apply touch_nonempty|left; cbn; lia]. Qed.

Lemma touches_in_use K ac : 0 <= NonContractTxs ac -> K <> [] -> in_use (foldl touchOne ac K).
Proof.
  destruct K as [|k K] using rev_ind; intros Hn Hk; [done|]. rewrite foldl_app. apply touchOne_in_use. clear IHK Hk.
  revert ac Hn. induction K as [|k' K IH]; intros ac Hn; [done|]. apply IH. by apply touchOne_plain.
Qed.

Lemma touch_wide c cs : zlen c = EthereumTypeAddressDescriptorLen ->
  Forall (fun c => zlen (AddrContract.Contract c) = EthereumTypeAddressDescriptorLen) cs ->
  Forall (fun c => zlen (AddrContract.Contract c) = EthereumTypeAddressDescriptorLen) (touchContract c true cs).2.
Proof.
  intros Hc. induction 1 as [|x cs Hx Hcs IH]; [rewrite touch_nil; by repeat constructor|]. rewrite touch_cons. case_decide; by constructor.
Qed.

Lemma touches_wide K : forall ac, (forall c, Some c ∈ K -> zlen c = EthereumTypeAddressDescriptorLen) -> wide ac -> wide (foldl touchOne ac K).
Proof.
  induction K as [|k K IH]; intros ac HK Hw; [done|]. cbn [foldl]. apply IH; [intros c Hc; apply HK; by right|].
  destruct k as [c|]; [|done]. apply touch_wide; [apply HK; left|done].
Qed.

Lemma bounded_wf n ac : 0 <= n -> bounded n ac -> wide ac -> wf_contracts ac.
Proof.
  intros Hn [H1 H2 H3] Hw. split; [unfold in_u64; lia|]. split; [unfold in_u64; lia|]. apply Forall_forall. intros c Hc.
  unfold wide in Hw. rewrite Forall_forall in H3, Hw. split; [by apply Hw|]. specialize (H3 c Hc). unfold in_u64. lia.
Qed.

(** What the packed transactions say they touched can be packed for the contracts. *)
Lemma wf_touches pl bts : Forall (wf_ethBlockTx pl) bts ->
  nonzero (blockTouches bts) /\ forall ad b c, (ad, (b, Some c)) ∈ blockTouches bts -> zlen c = EthereumTypeAddressDescriptorLen.
Proof.
  intros Hwf. assert (forall t, t ∈ blockTouches bts -> (t.2.2 <> None -> isZeroAddress t.1 = false) /\
    forall c, t.2.2 = Some c -> zlen c = EthereumTypeAddressDescriptorLen) as H.
  2:{ split; [apply Forall_forall; intros t Ht; by apply H|]. intros ad b c Hin. by apply (H _ Hin). }
  unfold blockTouches. intros t (l & Hl & Ht)%list_elem_of_In%in_concat. apply in_map_iff in Hl as (bt & <- & Hbt).
  apply list_elem_of_In in Ht, Hbt. rewrite Forall_forall in Hwf. destruct (Hwf bt Hbt) as (_ & _ & _ & Hcs & _).
  assert (forall b ad, t ∈ sideTouch b ad -> t.2.2 = None) as Hside.
  { intros b ad. unfold sideTouch. case_decide; [by intros ?%not_elem_of_nil|by intros ->%list_elem_of_singleton]. }
  unfold btTouches in Ht. rewrite !elem_of_app in Ht. destruct Ht as [Ht%Hside|[Ht|Ht]]; [by rewrite Ht| |].
  - destruct (decide (eb_from bt = eb_to bt)); [by apply not_elem_of_nil in Ht|]. apply Hside in Ht. by rewrite Ht.
  - unfold contractTouches in Ht. apply list_elem_of_fmap in Ht as (c & -> & [Hne Hc]%list_elem_of_filter). cbn.
    rewrite Forall_forall in Hcs. destruct (Hcs c Hc) as [Ha Hk]. split.
    + intros _. destruct Ha as [Ha|[_ Ha]]; done.
    + intros x Hx. rewrite Hx in Hk. destruct Hk as [Hx0 [Hk|[Hk _]]]; done.
Qed.

Section round_trip.
Context `{SL : StoreLaws} `{PL : ParserLaws} `{VL : VlqLaws}.
Hypothesis Hrel : reliable.

(** The counters of an address as they are read back after a store. *)
Lemma read_stored (d : RocksDB) s ad ac : db d = Some s -> wf_contracts ac ->
  contents s !! (cfAddressContracts, ad) = op_value (storeAddressContract ad (Some ac)) ->
  (in_use ac -> GetAddrDescContracts d ad = Ret (Some ac)) /\ (~ in_use ac -> GetAddrDescContracts d ad = Ret None).
Proof.
  intros Hd Hwf Hs. unfold GetAddrDescContracts. rewrite (dbGet_reliable Hrel d s), Hs by done. cbn [go_bind].
  assert ((let buf := opt_bytes (Some (packAddrContracts ac)) in
    if zlen buf =? 0 then Ret None else let* acs := unpackAddrContracts buf in Ret (Some acs)) = Ret (Some ac)) as Hput.
  { change (opt_bytes (Some (packAddrContracts ac))) with (packAddrContracts ac). cbv zeta. rewrite unpackAddrContracts_pack by done.
    destruct (Z.eqb_spec (zlen (packAddrContracts ac)) 0) as [H|_]; [|done].
    unfold packAddrContracts in H. rewrite !zlen_app in H. pose proof (packVaruint_len (TotalTxs ac)).
    pose proof (zlen_nonneg (packVaruint (NonContractTxs ac))). pose proof (zlen_nonneg (concat (map packAddrContract (Contracts ac)))). lia. }
  unfold storeAddressContract, in_use.
  destruct (Z.eqb_spec (NonContractTxs ac) 0) as [E1|E1]; [destruct (Z.eqb_spec (zlen (Contracts ac)) 0) as [E2%zlen_0_inv|E2]|]; cbn [andb op_value].
  - split; [by intros [H|H]|done].
  - split; [done|]. intros H. destruct H. right. intros H. by rewrite H in E2.
  - split; [done|]. intros H. destruct H. by left.
Qed.

(** ** Connecting *)

Definition eth_batch (h : Z) (v : bytes) (st : ethState) (bts : list ethBlockTx) : WriteBatch :=
  storeAddresses (storeAddressContracts [PutCF cfHeight (packUint h) v] (Some <$> e_contracts st) ++
    [PutCF cfBlockTxs (packUint h) (packEthBlockTxs bts)]) h (e_addresses st).

Lemma connect_run now block (d d1 : RocksDB) s : GetChainType = ChainEthereumType -> db d = Some s -> in_u32 (Block.Height block) ->
  ConnectBlock now block d = (d1, Ret tt) ->
  exists st bts s0 s1 v, processAddressesEthereumType d block (mkEthState ∅ ∅ (cbs d)) = (st, Ret bts) /\ db d1 = Some s1 /\
    (forall ck, ck.1 <> cfBlockTxs -> contents s0 !! ck = contents s !! ck) /\
    contents s1 = apply_batch (eth_batch (Block.Height block) v st bts) (contents s0).
Proof.
  intros Hct Hd Hh. unfold ConnectBlock. rewrite Hct. intros (d2 & wb & E1 & H1)%sbind_ret.
  unfold writeHeightFromBlock, writeHeight in E1. set (bi := BlockInfo.mk _ _ _ _ _) in E1.
  apply sbind_ret in E1 as (d2' & v & [= <- _] & (d3 & [] & E3 & [= -> <-])%sbind_ret).
  unfold with_is in E3. destruct (istate d) as [i|]; [|done]. injection E3 as <-.
  apply sbind_ret in H1 as (d4 & [wb m] & E4 & E5). unfold connectEthereum in E4.
  apply sbind_ret in E4 as (d5 & d5' & [= <- <-] & (d6 & [st bts] & E6 & (d7 & wb' & E7 & [= <- <- <-])%sbind_ret)%sbind_ret).
  unfold run_on in E6. set (d0 := set_istate _ d) in E6.
  change (processAddressesEthereumType d0 block (mkEthState ∅ ∅ (cbs d0))) with (processAddressesEthereumType d block (mkEthState ∅ ∅ (cbs d))) in E6.
  destruct (processAddressesEthereumType d block _) as [st' [bts'|e|]] eqn:Ep; [|done..]. injection E6 as <- -> ->.
  unfold storeAndCleanupBlockTxsEthereumType in E7. apply sbind_ret in E7 as (d8 & [] & E8 & [= <- <-]).
  destruct (cleanupBlockTxs_other Hrel (set_cbs (e_stats st) d0) s block Hd Hh) as (s0 & Ec & Hs0). rewrite Ec in E8. injection E8 as <-.
  match type of E5 with dbWrite ?b ?dd = _ => destruct (dbWrite_reliable Hrel dd s0 b eq_refl) as (s1 & Ew & Hs1) end.
  rewrite Ew in E5. injection E5 as <-. exists st, bts, s0, s1, v. done.
Qed.

Lemma storeAddressContract_key ad o : op_key (storeAddressContract ad o) = (cfAddressContracts, ad).
Proof. destruct o as [ac|]; [|done]. unfold storeAddressContract. by destruct (_ && _). Qed.

(** What the columns hold after the block. *)
Lemma eth_batch_columns h v st bts m : let m' := apply_batch (eth_batch h v st bts) m in
  (forall ad, m' !! (cfAddressContracts, ad) = match e_contracts st !! ad with
     | Some ac => op_value (storeAddressContract ad (Some ac)) | None => m !! (cfAddressContracts, ad) end) /\
  m' !! (cfBlockTxs, packUint h) = Some (packEthBlockTxs bts) /\
  (forall k, k <> packUint h -> m' !! (cfHeight, k) = m !! (cfHeight, k)) /\
  (forall k, (forall ad, is_Some (e_addresses st !! ad) -> k <> packAddressKey ad h) -> m' !! (cfAddresses, k) = m !! (cfAddresses, k)).
Proof.
  cbv zeta. unfold eth_batch, storeAddresses, storeAddressContracts.
  set (as_ := map (fun e => PutCF cfAddresses _ _) _). set (cs := map (fun e => storeAddressContract e.1 e.2) _).
  rewrite !apply_batch_app. set (m1 := apply_batch cs _). set (m2 := apply_batch [PutCF cfBlockTxs _ _] m1).
  assert (forall c k, c <> cfAddresses -> apply_batch as_ m2 !! (c, k) = m2 !! (c, k)) as Has.
  { intros c k Hc. apply (apply_map_batch_other (fun k x => PutCF cfAddresses (packAddressKey k h) (packTxIndexes x)) cfAddresses); done. }
  assert (forall c k, c <> cfAddressContracts -> m1 !! (c, k) = apply_batch [PutCF cfHeight (packUint h) v] m !! (c, k)) as Hcs.
  { intros c k Hc. apply (apply_map_batch_other storeAddressContract cfAddressContracts); [|done].
    intros a o. by rewrite storeAddressContract_key. }
  split_and!.
  - intros ad. rewrite Has by done. subst m2. rewrite apply_one_other by done. subst m1 cs.
    rewrite (apply_map_batch storeAddressContract (fun k => k) cfAddressContracts) by (done || apply storeAddressContract_key).
    rewrite lookup_fmap. destruct (e_contracts st !! ad); [done|]. by apply apply_one_other.
  - rewrite Has by done. subst m2. cbn. by rewrite lookup_insert_eq.
  - intros k Hk. rewrite Has by done. subst m2. rewrite apply_one_other, Hcs by done. cbn. rewrite lookup_insert_ne; [done|].
    intros [= E]. by apply Hk.
  - intros k Hk. subst as_. rewrite apply_batch_other.
    + subst m2. rewrite apply_one_other, Hcs by done. by apply apply_one_other.
    + intros o ([ad l] & <- & Hin%list_elem_of_In%elem_of_map_to_list)%list_elem_of_In%in_map_iff [= E]. apply (Hk ad); [by eexists|done].
Qed.

(** ** Disconnecting *)

Definition eth_undo_batch (h : Z) (bts : list ethBlockTx) (t : ethDisconnect) : WriteBatch :=
  storeAddressContracts ((map (fun b => DeleteCF cfTransactions (eb_btxID b)) bts ++
    map (fun e => DeleteCF cfAddresses (packAddressKey e.1 h)) (map_to_list (ed_addresses t))) ++
    [DeleteCF cfBlockTxs (packUint h); DeleteCF cfHeight (packUint h)]) (ed_contracts t).

Lemma disconnect_run h (d1 : RocksDB) s1 bts t : db d1 = Some s1 -> h <> 0 -> getBlockTxsEthereumType d1 h = Ret (Some bts) ->
  sfor (disconnectEthTx d1) bts (mkEthDisconnect ∅ ∅) = (t, Ret tt) ->
  exists s2, DisconnectBlockRangeEthereumType h h d1 = (set_db (Some s2) d1, Ret tt) /\
    contents s2 = apply_batch (eth_undo_batch h bts t) (contents s1).
Proof.
  intros Hd1 Hh Hg Hrun. destruct (dbWrite_reliable Hrel d1 s1 (eth_undo_batch h bts t) Hd1) as (s2 & Ew & Hs2).
  exists s2. split; [|done]. unfold DisconnectBlockRangeEthereumType. rewrite (sbind_eq _ _ d1 d1 d1) by done.
  rewrite (sbind_eq _ _ d1 d1 [(h, bts)]).
  2:{ unfold slift, heights. replace (Z.to_nat (h - h + 1)) with 1%nat by lia. cbn [seq map go_fold]. rewrite Z.add_0_r, Hg. done. }
  unfold sbind at 1, slift at 1. cbn [go_fold]. unfold disconnectBlockTxsEthereumType. rewrite Hrun. cbn [go_bind].
  rewrite (sbind_eq _ _ d1 d1 tt); [exact Ew|]. unfold slift, afterLast. by rewrite (proj2 (Z.eqb_neq _ _) Hh).
Qed.

Lemma eth_undo_columns h bts t m : let m' := apply_batch (eth_undo_batch h bts t) m in
  (forall ad, m' !! (cfAddressContracts, ad) = match ed_contracts t !! ad with
     | Some o => op_value (storeAddressContract ad o) | None => m !! (cfAddressContracts, ad) end) /\
  m' !! (cfBlockTxs, packUint h) = None /\
  (forall k, m' !! (cfHeight, k) = if decide (k = packUint h) then None else m !! (cfHeight, k)) /\
  (forall k, (forall ad, is_Some (ed_addresses t !! ad) -> k <> packAddressKey ad h) -> m' !! (cfAddresses, k) = m !! (cfAddresses, k)) /\
  (forall ad, is_Some (ed_addresses t !! ad) -> m' !! (cfAddresses, packAddressKey ad h) = None).
Proof.
  cbv zeta. unfold eth_undo_batch, storeAddressContracts. set (dels := _ ++ [DeleteCF cfBlockTxs _; _]).
  set (cs := map (fun e => storeAddressContract e.1 e.2) _). rewrite apply_batch_app.
  assert (forall c k m, c <> cfAddressContracts -> apply_batch cs m !! (c, k) = m !! (c, k)) as Hcs.
  { intros c k m1 Hc. apply (apply_map_batch_other storeAddressContract cfAddressContracts); [|done].
    intros a o. by rewrite storeAddressContract_key. }
  assert (forall o, o ∈ dels -> exists c k, o = DeleteCF c k) as Hdel.
  { intros o [[Ho|Ho]%elem_of_app|Ho]%elem_of_app.
    - apply list_elem_of_In, in_map_iff in Ho as (b & <- & _). eauto.
    - apply list_elem_of_In, in_map_iff in Ho as (b & <- & _). eauto.
    - apply elem_of_cons in Ho as [-> |Ho]; [eauto|]. apply list_elem_of_singleton in Ho as ->. eauto. }
  assert (forall c k, DeleteCF c k ∈ dels <-> (exists b, b ∈ bts /\ c = cfTransactions /\ k = eb_btxID b) \/
    (exists ad, is_Some (ed_addresses t !! ad) /\ c = cfAddresses /\ k = packAddressKey ad h) \/
    (c = cfBlockTxs /\ k = packUint h) \/ (c = cfHeight /\ k = packUint h)) as Hin.
  { intros c k. subst dels. rewrite !elem_of_app, elem_of_cons, list_elem_of_singleton, !list_elem_of_In, !in_map_iff. split.
    - intros [[(b & [= <- <-] & Hb%list_elem_of_In)|([ad l] & [= <- <-] & Hl%list_elem_of_In%elem_of_map_to_list)]|[[= -> ->]|[= -> ->]]]; eauto 10.
    - intros [(b & Hb%list_elem_of_In & -> & ->)|[(ad & [l Hl%elem_of_map_to_list%list_elem_of_In] & -> & ->)|[[-> ->]|[-> ->]]]]; eauto 10.
      left. right. exists (ad, l). eauto. }
  assert (forall c k, (DeleteCF c k ∈ dels -> apply_batch dels m !! (c, k) = None) /\
    (DeleteCF c k ∉ dels -> apply_batch dels m !! (c, k) = m !! (c, k))) as Hd.
  { intros c k. by apply (apply_batch_deletes dels m (c, k)). }
  split_and!.
  - intros ad. subst cs. rewrite (apply_map_batch storeAddressContract (fun k => k) cfAddressContracts) by (done || apply storeAddressContract_key).
    destruct (ed_contracts t !! ad); [done|]. apply (Hd cfAddressContracts ad). rewrite Hin.
    intros [(b & _ & [=] & _)|[(a & _ & [=] & _)|[[[=] _]|[[=] _]]]].
  - rewrite Hcs by done. apply (Hd cfBlockTxs). rewrite Hin. auto.
  - intros k. rewrite Hcs by done. case_decide as Ek.
    + apply (Hd cfHeight). rewrite Hin. auto.
    + apply (Hd cfHeight). rewrite Hin. by intros [(b & _ & [=] & _)|[(a & _ & [=] & _)|[[[=] _]|[_ H]]]].
  - intros k Hk. rewrite Hcs by done. apply (Hd cfAddresses). rewrite Hin.
    intros [(b & _ & [=] & _)|[(a & Ha & _ & H)|[[[=] _]|[[=] _]]]]. by apply (Hk a).
  - intros ad Had. rewrite Hcs by done. apply (Hd cfAddresses). rewrite Hin. eauto 10.
Qed.

(** ** Both *)

(** A block that can be undone: the stored counters are readable, in use and far from 2^64; the
    addresses of its transactions have 20 bytes and none is the zero address, their ids have
    their length; its height is new and not 0. *)
Record eth_undoable (d : RocksDB) (block : Block.t) (N : Z) : Prop := {
  eu_read : forall ad, exists r, GetAddrDescContracts d ad = Ret r;
  eu_stored : forall ad ac, GetAddrDescContracts d ad = Ret (Some ac) -> bounded N ac /\ wide ac /\ in_use ac;
  eu_addresses : forall a ad, GetAddrDescFromAddress a = Ret ad -> ad <> [];
  eu_block : forall st bts, processAddressesEthereumType d block (mkEthState ∅ ∅ (cbs d)) = (st, Ret bts) ->
    Forall (wf_ethBlockTx PackedTxidLen) bts /\ zlen (blockTouches bts) + 2 <= N;
  eu_N : 0 <= N < 2 ^ 64;
  eu_height : in_u32 (Block.Height block) /\ Block.Height block <> 0;
  eu_fresh : fresh_height d (Block.Height block);
}.

(** What the index of an Ethereum-like chain says. *)
Record same_eth (d d2 : RocksDB) : Prop := {
  se_contracts : forall ad, GetAddrDescContracts d2 ad = GetAddrDescContracts d ad;
  se_columns : forall c k, c = cfHeight \/ c = cfAddresses -> dbGet d2 c k = dbGet d c k;
}.

Lemma stored_ok (d : RocksDB) block N ad : eth_undoable d block N -> bounded N (stored d ad) /\ wide (stored d ad).
Proof.
  intros HU. destruct (eu_read _ _ _ HU ad) as [r Hr]. unfold stored. rewrite Hr. destruct r as [ac|].
  - by destruct (eu_stored _ _ _ HU ad ac Hr) as (H1 & H2 & _).
  - pose proof (eu_N _ _ _ HU). split; [split; cbn; lia || constructor|constructor].
Qed.

(** What the connected block leaves in the database. *)
Lemma connected_counters now block (d d1 : RocksDB) s N : GetChainType = ChainEthereumType -> db d = Some s -> eth_undoable d block N ->
  ConnectBlock now block d = (d1, Ret tt) ->
  exists st bts T s1, db d1 = Some s1 /\ T ≡ₚ blockTouches bts /\ zlen T <= N /\ counted d T st /\
    Forall (wf_ethBlockTx PackedTxidLen) bts /\ getBlockTxsEthereumType d1 (Block.Height block) = Ret (Some bts) /\
    (forall ad, GetAddrDescContracts d1 ad = if decide (ad ∈ T.*1) then Ret (Some (applied (stored d ad) ad T)) else GetAddrDescContracts d ad) /\
    (forall k, k <> packUint (Block.Height block) -> dbGet d1 cfHeight k = dbGet d cfHeight k) /\
    (forall k, (forall ad, ad ∈ T.*1 -> k <> packAddressKey ad (Block.Height block)) -> dbGet d1 cfAddresses k = dbGet d cfAddresses k).
Proof.
  intros Hct Hd HU Hrun. destruct (eu_height _ _ _ HU) as [Hh _].
  destruct (connect_run now block d d1 s Hct Hd Hh Hrun) as (st & bts & s0 & s1 & v & Ep & Hd1 & Hs0 & Hs1).
  destruct (eu_block _ _ _ HU st bts Ep) as [Hwf HN]. destruct (wf_touches _ _ Hwf) as [Hnz Hlen].
  assert (forall ad, bounded N (stored d ad)) as Hbd by (intros; by eapply stored_ok).
  destruct (processBlock_run d (eu_read _ _ _ HU) (eu_addresses _ _ _ HU) N Hbd (Block.Txs block) [] _ st bts (counted_start d (cbs d)))
    as (T & HT & HC); [rewrite zlen_nil; lia|done|exact Ep|]. cbn [app] in HC.
  assert (zlen T = zlen (blockTouches bts)) as HTl by (unfold zlen; by rewrite HT).
  destruct (eth_batch_columns (Block.Height block) v st bts (contents s0)) as (K1 & K2 & K3 & K4). rewrite <- Hs1 in K1, K2, K3, K4.
  exists st, bts, T, s1. split_and!; [done|done|lia|done|done| | | |].
  - unfold getBlockTxsEthereumType. rewrite (dbGet_reliable Hrel d1 s1), K2 by done. cbn [go_bind].
    rewrite unpackEthBlockTxs_pack; [done|apply PackedTxidLen_pos|done|].
    clear -Hwf PL. induction Hwf as [|b bs (Hid & _) _ IH]; [cbn; lia|]. unfold packEthBlockTxs in *. cbn [map concat length].
    rewrite length_app. enough (1 <= length (packEthBlockTx b))%nat by lia. unfold packEthBlockTx. rewrite length_app.
    pose proof PackedTxidLen_pos. unfold zlen in Hid. lia.
  - intros ad. pose proof (ct_contracts _ _ _ HC ad) as Hdom. pose proof (ct_view _ _ _ HC ad) as Hv. unfold contracts_view in Hv.
    destruct (e_contracts st !! ad) as [ac|] eqn:E.
    + rewrite decide_True by (by apply Hdom; eexists). cbn in Hv. subst ac.
      apply (read_stored d1 s1); [done| |by rewrite K1, E|].
      * apply (bounded_wf 0); [lia|apply applied_bounded; [lia|]; eapply bounded_weaken; [|apply Hbd]; lia|].
        apply (touches_wide (keysOf ad T)); [|by eapply stored_ok]. intros c (b & Hb)%elem_of_keysOf. rewrite HT in Hb. by eapply Hlen.
      * apply (touches_in_use (keysOf ad T)); [apply Hbd|]. assert (ad ∈ T.*1) as Hin by (by apply Hdom; eexists).
        apply list_elem_of_fmap in Hin as ([a [b k]] & Ha & Hin). cbn in Ha. subst a.
        assert (k ∈ keysOf ad T) as Hk by (apply elem_of_keysOf; eauto). intros Hn. rewrite Hn in Hk. by apply not_elem_of_nil in Hk.
    + rewrite decide_False by (rewrite <- Hdom; by intros []). unfold GetAddrDescContracts.
      by rewrite (dbGet_reliable Hrel d1 s1), (dbGet_reliable Hrel d s), K1, E, Hs0 by done.
  - intros k Hk. by rewrite (dbGet_reliable Hrel d1 s1), (dbGet_reliable Hrel d s), K3, Hs0 by done.
  - intros k Hk. rewrite (dbGet_reliable Hrel d1 s1), (dbGet_reliable Hrel d s), K4, Hs0 by (done || intros ad Had; by apply Hk, (ct_addresses _ _ _ HC)). done.
Qed.

(** Undone, the index says what it said. *)
Lemma connect_disconnect_eth now block (d d1 : RocksDB) s N : GetChainType = ChainEthereumType -> db d = Some s -> eth_undoable d block N ->
  ConnectBlock now block d = (d1, Ret tt) ->
  exists d2, DisconnectBlockRangeEthereumType (Block.Height block) (Block.Height block) d1 = (d2, Ret tt) /\ same_eth d d2 /\
    getBlockTxsEthereumType d2 (Block.Height block) = Ret None.
Proof.
  intros Hct Hd HU Hrun. destruct (eu_height _ _ _ HU) as [Hh Hh0]. destruct (eu_fresh _ _ _ HU s Hd) as [Hf1 Hf2].
  destruct (connected_counters now block d d1 s N Hct Hd HU Hrun) as (st & bts & T & s1 & Hd1 & HT & HTn & HC & Hwf & Hg & Hc1 & Hk1 & Hk2).
  assert (forall ad, bounded N (stored d ad)) as Hbd by (intros; by eapply stored_ok).
  assert (forall ad, ad ∈ (blockTouches bts).*1 <-> ad ∈ T.*1) as Hdom by (intros; by rewrite HT).
  set (c1 := fun ad => match GetAddrDescContracts d1 ad with Ret r => r | _ => None end).
  assert (forall ad, GetAddrDescContracts d1 ad = Ret (c1 ad)) as Hread1.
  { intros ad. unfold c1. rewrite Hc1. case_decide; [done|]. by destruct (eu_read _ _ _ HU ad) as [r ->]. }
  assert (forall ad ac, c1 ad = Some ac -> txCount ad (blockTouches bts) <= TotalTxs ac < 2 ^ 64) as Htot.
  { assert (forall ad, txCount ad (blockTouches bts) = txCount ad T) as Hcnt.
    { intros ad. unfold txCount. f_equal. f_equal. apply set_eq. intros b. rewrite !elem_of_txsOf. by setoid_rewrite HT. }
    intros ad ac. rewrite Hcnt. unfold c1. rewrite Hc1. pose proof (txCount_le ad T). case_decide as Hin.
    - intros [= <-]. destruct (Hbd ad) as [Hb _ _]. cbn. lia.
    - destruct (eu_read _ _ _ HU ad) as [r Hr]. rewrite Hr. intros ->. destruct (eu_stored _ _ _ HU ad ac Hr) as ([Hb _ _] & _).
      assert (txCount ad T = 0) as ->; [|lia]. unfold txCount. destruct (decide (txsOf ad T = ∅)) as [-> |Hne]; [by vm_compute|].
      apply set_choose_L in Hne as [b (k & Hb')%elem_of_txsOf]. destruct Hin. apply list_elem_of_fmap. by exists (ad, (b, k)). }
  destruct (disconnectTxs_run d1 c1 Hread1 (blockTouches bts) Htot bts [] [] _ (discounted_start c1)) as (t & Et & HD); [by rewrite app_nil_r|].
  cbn [app] in HD. destruct (disconnect_run (Block.Height block) d1 s1 bts t Hd1 Hh0 Hg Et) as (s2 & E2 & Hs2).
  destruct (eth_undo_columns (Block.Height block) bts t (contents s1)) as (K1 & K2 & K3 & K4 & K5). rewrite <- Hs2 in K1, K2, K3, K4, K5.
  set (d2 := set_db (Some s2) d1) in *. exists d2. split; [done|]. split; [split|].
  - intros ad. pose proof (dt_contracts _ _ _ HD ad) as Hed. specialize (Hdom ad). destruct (decide (ad ∈ (blockTouches bts).*1)) as [Hin|Hin].
    + assert (c1 ad = Some (applied (stored d ad) ad T)) as Ec by (unfold c1; rewrite Hc1, decide_True by (by apply Hdom); done).
      rewrite Ec in Hed. cbn in Hed. rewrite unapplied_applied in Hed; [|done|eapply bounded_weaken; [exact HTn|apply Hbd]].
      destruct (stored_ok d block N ad HU) as [Hb Hw].
      destruct (read_stored d2 s2 ad (stored d ad) eq_refl) as [R1 R2].
      { apply (bounded_wf N); [apply HU|done|done]. }
      { by rewrite K1, Hed. }
      destruct (eu_read _ _ _ HU ad) as [r Hr]. unfold stored in R1, R2. rewrite Hr in *. destruct r as [ac|].
      * apply R1. by destruct (eu_stored _ _ _ HU ad ac Hr) as (_ & _ & H).
      * apply R2. by intros [H|H].
    + transitivity (GetAddrDescContracts d1 ad); [|rewrite Hc1, decide_False by (by rewrite <- Hdom); done].
      unfold GetAddrDescContracts. by rewrite (dbGet_reliable Hrel d2 s2), (dbGet_reliable Hrel d1 s1), K1, Hed by done.
  - intros c k [-> | ->]; rewrite (dbGet_reliable Hrel d2 s2) by done.
    + rewrite K3. case_decide as Ek; [by rewrite (dbGet_reliable Hrel d s), Ek, Hf1 by done|].
      rewrite <- Hk1 by done. by rewrite (dbGet_reliable Hrel d1 s1) by done.
    + destruct (decide (Exists (fun ad => k = packAddressKey ad (Block.Height block)) (blockTouches bts).*1)) as [Hex|Hex].
      * apply Exists_exists in Hex as (ad & Hin & ->). rewrite (dbGet_reliable Hrel d s), Hf2 by done. rewrite K5; [done|].
        by apply (dt_addresses _ _ _ HD).
      * assert (forall ad, ad ∈ (blockTouches bts).*1 -> k <> packAddressKey ad (Block.Height block)) as Hk.
        { intros ad Hin ->. apply Hex, Exists_exists. eauto. }
        rewrite K4 by (intros ad Had; apply Hk; by apply (dt_addresses _ _ _ HD)). rewrite <- Hk2 by (intros ad Had; by apply Hk, Hdom).
        by rewrite (dbGet_reliable Hrel d1 s1) by done.
  - unfold getBlockTxsEthereumType. rewrite (dbGet_reliable Hrel d2 s2), K2 by done. done.
Qed.
End round_trip.

(** * Properties *)

(** The addresses of the Ethereum parser are not empty. *)
Lemma eth_address_nonempty a ad : eth_GetAddrDescFromAddress a = Ret ad -> ad <> [].
Proof.
  unfold eth_GetAddrDescFromAddress. destruct (Z.eqb_spec (slen (strip0x a)) 40) as [E|E]; cbn [negb]; [|done].
  intros H ->. unfold hex_DecodeString in H. destruct (hex_decode (strip0x a)) as [b|] eqn:Eb; [|done]. injection H as ->.
  destruct (strip0x a) as [|c0 [|c1 s]]; [done|done|]. cbn in Eb. repeat case_match; simplify_eq.
Qed.

(** C37: Disconnecting the block just connected restores the index of an Ethereum-like chain,
    through the database and the packed block: for every address the counters (all
    transactions, plain ones, those of every contract in their order) read as before the block,
    a contract that was new is gone again, the columns of heights and addresses read as before,
    and the data for the disconnection are removed.  The store works without errors, the
    stored counters are in use and do not overflow, the addresses of the block's transactions and
    token transfers have 20 bytes and none is the zero address (which the packed block takes
    for no address: [zero_address_stays]), and the height is new and not 0. *)
Theorem eth_disconnect_restores `{SL : StoreLaws} `{PL : ParserLaws} `{VL : VlqLaws} now block (d d1 : RocksDB) s N :
  reliable -> GetChainType = ChainEthereumType -> db d = Some s -> eth_undoable d block N ->
  ConnectBlock now block d = (d1, Ret tt) ->
  exists d2, DisconnectBlockRangeEthereumType (Block.Height block) (Block.Height block) d1 = (d2, Ret tt) /\ same_eth d d2 /\
    getBlockTxsEthereumType d2 (Block.Height block) = Ret None.
Proof. intros Hrel. by apply connect_disconnect_eth. Qed.

(** ** Concrete runs *)

Abbreviation eth_parser := (ethereum_parser (NewEthereumParser 100)).

Definition zeros (n : nat) : string := untxt (repeat (Ascii.ascii_of_nat 48) n).
Definition eth_hex (b : Byte.byte) : string := ("0x" ++ hex_EncodeToString (repeat b 20))%string.

(** A call of [transfer] of a token contract, with which 9 tokens go to an address. *)
Definition transfer_payload (to : Byte.byte) : string :=
  (erc20TransferMethodSignature ++ zeros 24 ++ hex_EncodeToString (repeat to 20) ++ zeros 63 ++ "9")%string.

Definition eth_tx (id : Byte.byte) (from to payload : string) : Tx.t :=
  Tx.mk EmptyString ("0x" ++ hex_EncodeToString (repeat id 32))%string 0 0
    [Vin.mk EmptyString EmptyString 0 EmptyString 0 [from]] [Vout.mk 5 EmptyString 0 EmptyString [to]] 1 0 0 [] [] 0
    (EthSpecificData (mkCompleteTransaction
       (mkRpcTransaction "0x0" "0x1" "0x1" to "0x5" payload EmptyString "0x7" EmptyString from "0x0") None)).

Definition eth_block (txs : list Tx.t) : Block.t :=
  Block.mk (hex_EncodeToString (repeat Byte.xaa 32)) EmptyString EmptyString 7 1 300 1500000000 txs.

(** A payment, a token transfer and a payment to oneself. *)
Definition eth_block7 : Block.t :=
  eth_block [eth_tx Byte.x01 (eth_hex Byte.x0a) (eth_hex Byte.x0b) "0x";
             eth_tx Byte.x02 (eth_hex Byte.x0a) (eth_hex Byte.x0c) (transfer_payload Byte.x0b);
             eth_tx Byte.x03 (eth_hex Byte.x0b) (eth_hex Byte.x0b) "0x"].

Definition eth_connected (block : Block.t) : RocksDB * go unit := ConnectBlock (P := eth_parser) (V := leb) 77 block (open_db ∅).

Definition eth_counters (d : RocksDB) (b : Byte.byte) : go (option AddrContracts) := GetAddrDescContracts (V := leb) d (repeat b 20).

Definition eth_bts7 : list ethBlockTx :=
  [mkEthBlockTx (repeat Byte.x01 32) (repeat Byte.x0a 20) (repeat Byte.x0b 20) [];
   mkEthBlockTx (repeat Byte.x02 32) (repeat Byte.x0a 20) (repeat Byte.x0c 20)
     [mkEthBlockTxContract (repeat Byte.x0a 20) (Some (repeat Byte.x0c 20)); mkEthBlockTxContract (repeat Byte.x0b 20) (Some (repeat Byte.x0c 20))];
   mkEthBlockTx (repeat Byte.x03 32) (repeat Byte.x0b 20) (repeat Byte.x0b 20) []].

Lemma eth_empty_reads ad : GetAddrDescContracts (V := leb) (open_db ∅) ad = Ret None.
Proof. reflexivity. Qed.

Lemma eth_block7_undoable : eth_undoable (P := eth_parser) (V := leb) (open_db ∅) eth_block7 100.
Proof.
  split.
  - intros ad. exists None. apply eth_empty_reads.
  - intros ad ac. rewrite eth_empty_reads. discriminate.
  - exact eth_address_nonempty.
  - intros st bts H. assert (bts = eth_bts7) as ->.
    { assert ((processAddressesEthereumType (P := eth_parser) (V := leb) (open_db ∅) eth_block7 (mkEthState ∅ ∅ noStats)).2 = Ret eth_bts7) as Hv
        by (vm_compute; reflexivity).
      change (cbs (open_db ∅)) with noStats in H. rewrite H in Hv. by injection Hv. }
    split; [|vm_compute; discriminate].
    assert (forall b, b <> Byte.x00 -> wf_addr (repeat b 20)) as Hw.
    { intros b Hb. right. split; [reflexivity|]. destruct b; first [exact eq_refl|by destruct Hb]. }
    assert (forall a, a <> Byte.x00 -> wf_ethContract (mkEthBlockTxContract (repeat a 20) (Some (repeat Byte.x0c 20)))) as Hc
      by (intros a Ha; split; [by apply Hw|split; [discriminate|apply Hw; discriminate]]).
    unfold eth_bts7. repeat (apply Forall_cons; split); try apply Forall_nil_2.
    all: split; [reflexivity|]; split; [apply Hw; discriminate|]; split; [apply Hw; discriminate|]; split; [|reflexivity].
    all: repeat (apply Forall_cons; split); try apply Forall_nil_2; apply Hc; discriminate.
  - split; [discriminate|reflexivity].
  - split; [split; [discriminate|reflexivity]|discriminate].
  - intros s [= <-]. split; reflexivity.
Qed.

(** The block is connected, so that the sender has two transactions and a token, and disconnected
    again, after which nothing is left of it. *)
Lemma eth_disconnect_restores_witness :
  eth_counters (eth_connected eth_block7).1 Byte.x0a = Ret (Some (mkAddrContracts 2 2 [AddrContract.mk (repeat Byte.x0c 20) 1])) /\
  exists d2, DisconnectBlockRangeEthereumType (P := eth_parser) (V := leb) 7 7 (eth_connected eth_block7).1 = (d2, Ret tt) /\
    eth_counters d2 Byte.x0a = Ret None.
Proof.
  split; [vm_compute; reflexivity|].
  assert (ConnectBlock (P := eth_parser) (V := leb) 77 eth_block7 (open_db ∅) = ((eth_connected eth_block7).1, Ret tt)) as E.
  { assert ((eth_connected eth_block7).2 = Ret tt) as H by (vm_compute; reflexivity). unfold eth_connected in *.
    destruct (ConnectBlock _ _ _) as [d1 r]. cbn [fst snd] in *. by rewrite H. }
  destruct (eth_disconnect_restores (P := eth_parser) (V := leb) 77 eth_block7 (open_db ∅) (eth_connected eth_block7).1 ∅ 100
    mem_store_reliable eq_refl eq_refl eth_block7_undoable E) as (d2 & E2 & [H2 _] & _).
  exists d2. split; [exact E2|]. unfold eth_counters. rewrite H2. reflexivity.
Defined.

(** A payment to the zero address stays in the index when its block is disconnected: the packed block
    takes the zero address for no address, and neither the counters nor the row of the
    address are undone. *)
Definition burn_block : Block.t := eth_block [eth_tx Byte.x01 (eth_hex Byte.x0a) (eth_hex Byte.x00) "0x"].

Theorem zero_address_stays :
  let d2 := (DisconnectBlockRangeEthereumType (P := eth_parser) (V := leb) 7 7 (eth_connected burn_block).1).1 in
  (DisconnectBlockRangeEthereumType (P := eth_parser) (V := leb) 7 7 (eth_connected burn_block).1).2 = Ret tt /\
  eth_counters (open_db ∅) Byte.x00 = Ret None /\ eth_counters d2 Byte.x00 = Ret (Some (mkAddrContracts 1 1 [])) /\
  eth_counters d2 Byte.x0a = Ret None /\
  dbGet d2 cfHeight (packUint 7) = Ret None /\
  dbGet d2 cfAddresses (packAddressKey (repeat Byte.x00 20) 7) = Ret (Some (packTxIndexes (V := leb) [mkTxIndexes (repeat Byte.x01 32) [0]])).
Proof. vm_compute. repeat split. Qed.
