(* ===== verification/Mempool.v ===== *)
(** The mempools ([bchain/basemempool.go], [bchain/mempool_bitcoin_type.go] and
    [bchain/mempool_ethereum_type.go]).

    The daemon is the class [BlockChain] (calls over RPC).  The goroutines of the
    Bitcoin mempool fetch transactions in parallel: the results arrive in any order,
    which is an argument of [Resync]; the theorems hold for every order.  The
    notifications ([OnNewTxAddr]) do not change the mempool and are left out. *)
From stdpp Require Import base list gmap strings sorting.
From Stdlib Require Import ZArith Lia.
From S2P Require Import Prelude Hex Types Vlq BaseParser BitcoinParser.

Open Scope Z_scope.
Open Scope go_scope.

(** The calls of the daemon the mempool and the synchronization use. *)
Class BlockChain := {
  GetMempoolTransactions : go (list string);
  GetTransactionForMempool : string -> go Tx.t;
  GetTransaction : string -> go Tx.t;
  GetBestBlockHash : go string;
  GetBestBlockHeight : go Z;
  chain_GetBlockHash : Z -> go string;
  GetBlock : string -> Z -> go Block.t;
}.

Module AddrIndex.
Record t := mk { addrDesc : bytes; n : Z }.
#[global] Instance eq_dec : EqDecision t.
Proof. solve_decision. Defined.
End AddrIndex.

Record txEntry := mkTxEntry { addrIndexes : list AddrIndex.t; time : Z }.

#[global] Instance txEntry_eq_dec : EqDecision txEntry.
Proof. solve_decision. Defined.

Record BaseMempool := mkMempool {
  txEntries : gmap string txEntry;
  addrDescToTx : gmap bytes (list Outpoint.t);
}.

Definition emptyMempool : BaseMempool := mkMempool ∅ ∅.

Definition mempoolOutpoints (m : BaseMempool) (ad : bytes) : list Outpoint.t :=
  default [] (addrDescToTx m !! ad).

(** The newest outpoint first. *)
Definition mempool_GetAddrDescTransactions (m : BaseMempool) (ad : bytes) : list Outpoint.t :=
  reverse (mempoolOutpoints m ad).

Definition removeOutpoints (txid : string) (a : gmap bytes (list Outpoint.t)) (si : AddrIndex.t)
    : gmap bytes (list Outpoint.t) :=
  match a !! AddrIndex.addrDesc si with
  | None => a
  | Some outpoints =>
      let newOutpoints := filter (fun o => Outpoint.Txid o <> txid) outpoints in
      if (0 <? zlen newOutpoints) then <[AddrIndex.addrDesc si := newOutpoints]> a
      else delete (AddrIndex.addrDesc si) a
  end.

Definition removeEntryFromMempool (m : BaseMempool) (txid : string) (entry : txEntry) : BaseMempool :=
  mkMempool (delete txid (txEntries m))
    (foldl (removeOutpoints txid) (addrDescToTx m) (addrIndexes entry)).

Definition addOutpoint (txid : string) (a : gmap bytes (list Outpoint.t)) (si : AddrIndex.t)
    : gmap bytes (list Outpoint.t) :=
  <[AddrIndex.addrDesc si := default [] (a !! AddrIndex.addrDesc si) ++
                             [Outpoint.mk txid (AddrIndex.n si)]]> a.

(** The entry and its outpoints, as both kinds of mempool add them. *)
Definition addEntry (m : BaseMempool) (txid : string) (entry : txEntry) : BaseMempool :=
  mkMempool (<[txid := entry]> (txEntries m))
    (foldl (addOutpoint txid) (addrDescToTx m) (addrIndexes entry)).

Definition GetTransactionTime (m : BaseMempool) (txid : string) : Z :=
  match txEntries m !! txid with Some e => time e | None => 0 end.

(** *** Entries by time *)

Record MempoolTxidEntry := mkMempoolTxidEntry { me_Txid : string; me_Time : Z }.

(** [MempoolTxidEntries.Less] *)
Definition Less (a b : MempoolTxidEntry) : bool :=
  if me_Time a =? me_Time b then
    match String.compare (me_Txid a) (me_Txid b) with Gt => true | _ => false end
  else me_Time b <? me_Time a.

Definition entry_ord (a b : MempoolTxidEntry) : Prop := Less b a = false.
#[global] Instance entry_ord_dec : RelDecision entry_ord.
Proof. intros a b. unfold entry_ord. apply _. Defined.

(** [sort.Sort] *)
Definition GetAllEntries (m : BaseMempool) : list MempoolTxidEntry :=
  merge_sort entry_ord (map (fun e => mkMempoolTxidEntry e.1 (time e.2)) (map_to_list (txEntries m))).

(** ** Bitcoin-like chains *)

Section bitcoin.
Context `{P : BlockChainParser} `{R : BlockChain}.
(** [AddrDescForOutpoint], nil if it is not set. *)
Context (addrDescForOutpoint : option (Outpoint.t -> option bytes)).

(** [None]: the address could not be found *)
Definition getInputAddress (input : Outpoint.t) : go (option AddrIndex.t) :=
  match (match addrDescForOutpoint with Some f => f input | None => None end) with
  | Some ad => Ret (Some (AddrIndex.mk ad (Z.lnot (Outpoint.Vout input))))
  | None =>
      match GetTransactionForMempool (Outpoint.Txid input) with
      | Panic => Panic
      | Fail _ => Ret None
      | Ret itx =>
          if zlen (Tx.Vout itx) <=? Outpoint.Vout input then Ret None
          else
            let* o := go_index (Tx.Vout itx) (Outpoint.Vout input) in
            match GetAddrDescFromVout o with
            | Panic => Panic
            | Fail _ => Ret None
            | Ret ad => Ret (Some (AddrIndex.mk ad (Z.lnot (Outpoint.Vout input))))
            end
      end
  end.

Definition outputIndexes (tx : Tx.t) : go (list AddrIndex.t) :=
  go_fold (fun io output =>
    match GetAddrDescFromVout output with
    | Panic => Panic
    | Fail _ => Ret io
    | Ret ad => Ret (if 0 <? zlen ad then io ++ [AddrIndex.mk ad (i32 (Vout.N output))] else io)
    end) [] (Tx.Vout tx).

Definition inputIndexes (inputs : list Vin.t) : go (list AddrIndex.t) :=
  go_fold (fun io input =>
    if decide (Vin.Coinbase input = EmptyString) then
      let* ai := getInputAddress (Outpoint.mk (Vin.Txid input) (i32 (Vin.Vout input))) in
      Ret (match ai with Some a => io ++ [a] | None => io end)
    else Ret io) [] inputs.

(** The outputs in their order, then the inputs in the order their results arrive:
    [arrival] permutes the inputs. *)
Definition getTxAddrs (arrival : list Vin.t -> list Vin.t) (txid : string) : go (option (list AddrIndex.t)) :=
  match GetTransactionForMempool txid with
  | Panic => Panic
  | Fail _ => Ret None
  | Ret tx =>
      let* io := outputIndexes tx in
      let* ii := inputIndexes (arrival (Tx.Vin tx)) in
      Ret (Some (io ++ ii))
  end.

(** What a worker sends for a transaction. *)
Definition fetchTx (arrival : list Vin.t -> list Vin.t) (txid : string) : go (list AddrIndex.t) :=
  let* r := getTxAddrs arrival txid in Ret (default [] r).

Definition onNewEntry (m : BaseMempool) (txid : string) (entry : txEntry) : BaseMempool :=
  if 0 <? zlen (addrIndexes entry) then addEntry m txid entry else m.

(** The transactions that are sent to the workers. *)
Definition newTxids (m : BaseMempool) (txs : list string) : list string :=
  filter (fun t => txEntries m !! t = None) txs.

(** Entries that are no longer in the mempool of the daemon. *)
Definition removeMissing (m : BaseMempool) (txs : list string) : BaseMempool :=
  foldl (fun m e => if decide (e.1 ∈ txs) then m else removeEntryFromMempool m e.1 e.2)
    m (map_to_list (txEntries m)).

(** [order] is the order in which the workers finish. *)
Definition Resync (arrival : list Vin.t -> list Vin.t) (order : list string -> list string) (txTime : Z)
    : sgo BaseMempool Z := fun m =>
  match GetMempoolTransactions with
  | Panic => (m, Panic)
  | Fail e => (m, Fail e)
  | Ret txs =>
      match go_fold (fun m txid =>
              let* io := fetchTx arrival txid in
              Ret (onNewEntry m txid (mkTxEntry io (u32 txTime)))) m (order (newTxids m txs)) with
      | Ret m' => let m'' := removeMissing m' txs in (m'', Ret (Z.of_nat (size (txEntries m''))))
      | Fail e => (m, Fail e)
      | Panic => (m, Panic)
      end
  end.
End bitcoin.

(** ** Ethereum-like chains *)

Record MempoolEthereumType := mkMempoolEth {
  baseMempool : BaseMempool;
  mempoolTimeoutTime : Z;
  queryBackendOnResync : bool;
  nextTimeoutRun : Z;
}.

(** Ten minutes, in the unit of the times (nanoseconds). *)
Definition second : Z := 1000000000.
Definition mempoolTimeoutRunPeriod : Z := 600 * second.

(** A [time.Duration] has 64 bits. *)
Definition NewMempoolEthereumType (now mempoolTxTimeoutHours : Z) (queryBackend : bool) : MempoolEthereumType :=
  let timeout := i64 (mempoolTxTimeoutHours * (3600 * second)) in
  mkMempoolEth emptyMempool timeout queryBackend (now + timeout).

Definition set_base (b : BaseMempool) (m : MempoolEthereumType) : MempoolEthereumType :=
  mkMempoolEth b (mempoolTimeoutTime m) (queryBackendOnResync m) (nextTimeoutRun m).

Section ethereum.
Context `{P : BlockChainParser} `{R : BlockChain}.

Definition mempool_appendAddress (io : list AddrIndex.t) (i : Z) (a : string) : go (list AddrIndex.t) :=
  if decide (a = EmptyString) then Ret io
  else
    match GetAddrDescFromAddress a with
    | Panic => Panic
    | Fail _ => Ret io
    | Ret ad => Ret (io ++ [AddrIndex.mk ad i])
    end.

Fixpoint inputAddresses (io : list AddrIndex.t) (i : Z) (addresses : list string) : go (list AddrIndex.t) :=
  match addresses with
  | [] => Ret io
  | a :: r => let* io := mempool_appendAddress io (Z.lnot (i32 i)) a in inputAddresses io (i + 1) r
  end.

Fixpoint transferAddresses (io : list AddrIndex.t) (i : Z) (t : list Erc20Transfer.t) : go (list AddrIndex.t) :=
  match t with
  | [] => Ret io
  | x :: r =>
      let* io := mempool_appendAddress io (Z.lnot (i32 (i + 1))) (Erc20Transfer.From x) in
      let* io := mempool_appendAddress io (i32 (i + 1)) (Erc20Transfer.To x) in
      transferAddresses io (i + 1) r
  end.

Definition createTxEntry (txid : string) (txTime : Z) : go (option txEntry) :=
  match GetTransactionForMempool txid with
  | Panic => Panic
  | Fail _ => Ret None
  | Ret tx =>
      let* io := outputIndexes tx in
      let* io := go_fold (fun io input => inputAddresses io 0 (Vin.Addresses input)) io (Tx.Vin tx) in
      let* io := match EthereumTypeGetErc20FromTx tx with
                 | Panic => Panic
                 | Fail _ => Ret io
                 | Ret t => transferAddresses io 0 t
                 end in
      Ret (Some (mkTxEntry io txTime))
  end.

Definition AddTransactionToMempool (now : Z) (txid : string) (m : BaseMempool) : go BaseMempool :=
  match txEntries m !! txid with
  | Some _ => Ret m
  | None =>
      let* e := createTxEntry txid (u32 (now / second)) in
      Ret (match e with None => m | Some e => addEntry m txid e end)
  end.

Definition RemoveTransactionFromMempool (txid : string) (m : BaseMempool) : BaseMempool :=
  match txEntries m !! txid with
  | Some entry => removeEntryFromMempool m txid entry
  | None => m
  end.

Definition removeTimedOut (threshold : Z) (m : BaseMempool) : BaseMempool :=
  foldl (fun m e => if time e.2 * second <? threshold then removeEntryFromMempool m e.1 e.2 else m)
    m (map_to_list (txEntries m)).

Definition eth_Resync (now : Z) : sgo MempoolEthereumType Z := fun m =>
  match (if queryBackendOnResync m then
           let* txs := GetMempoolTransactions in
           go_fold (fun b txid => AddTransactionToMempool now txid b) (baseMempool m) txs
         else Ret (baseMempool m)) with
  | Fail e => (m, Fail e)
  | Panic => (m, Panic)
  | Ret b =>
      let m := set_base b m in
      if nextTimeoutRun m <? now then
        let b := removeTimedOut (now - mempoolTimeoutTime m) b in
        (mkMempoolEth b (mempoolTimeoutTime m) (queryBackendOnResync m) (now + mempoolTimeoutRunPeriod),
         Ret (Z.of_nat (size (txEntries b))))
      else (m, Ret (Z.of_nat (size (txEntries b))))
  end.
End ethereum.

(** * The index of the mempool *)

(** The outpoints of an entry at an address, in the order of the entry. *)
Definition entry_outpoints (txid : string) (e : txEntry) (ad : bytes) : list Outpoint.t :=
  map (fun si => Outpoint.mk txid (AddrIndex.n si))
    (filter (fun si => AddrIndex.addrDesc si = ad) (addrIndexes e)).

Definition of_tx (txid : string) (l : list Outpoint.t) : list Outpoint.t :=
  filter (fun o => Outpoint.Txid o = txid) l.

(** The two maps describe the same transactions: for every address and transaction
    the index lists exactly the outpoints of the entry, and no list is empty. *)
Record mempool_ok (m : BaseMempool) : Prop := {
  mo_index : forall ad txid, of_tx txid (mempoolOutpoints m ad) =
    match txEntries m !! txid with Some e => entry_outpoints txid e ad | None => [] end;
  mo_nonempty : forall ad l, addrDescToTx m !! ad = Some l -> l <> [];
}.

Lemma mempool_ok_empty : mempool_ok emptyMempool.
Proof.
  split; unfold mempoolOutpoints; cbn [addrDescToTx txEntries emptyMempool]; intros *; by rewrite !lookup_empty.
Qed.

(** ** Adding an entry *)

Lemma addOutpoints_lookup txid l a ad :
  default [] (foldl (addOutpoint txid) a l !! ad) =
  default [] (a !! ad) ++ map (fun si => Outpoint.mk txid (AddrIndex.n si))
    (filter (fun si => AddrIndex.addrDesc si = ad) l).
Proof.
  revert a. induction l as [|si l IH]; intros a; [by rewrite app_nil_r|]. cbn [foldl].
  rewrite IH. unfold addOutpoint. destruct (decide (AddrIndex.addrDesc si = ad)) as [E|E].
  - rewrite filter_cons_True by done. rewrite <- E, lookup_insert_eq. simpl. by rewrite <- app_assoc.
  - by rewrite filter_cons_False, lookup_insert_ne by done.
Qed.

Lemma addOutpoints_nonempty txid l a :
  (forall ad x, a !! ad = Some x -> x <> []) ->
  forall ad x, foldl (addOutpoint txid) a l !! ad = Some x -> x <> [].
Proof.
  revert a. induction l as [|si l IH]; intros a Ha; [done|]. cbn [foldl]. apply IH.
  intros ad x. unfold addOutpoint. rewrite lookup_insert_Some. intros [[_ <-]|[_ Hx]]; [|eauto].
  by destruct (default [] _).
Qed.

Lemma filter_map_all {A B} (Q : B -> Prop) `{!forall x, Decision (Q x)} (f : A -> B) l :
  (forall x, Q (f x)) -> filter Q (map f l) = map f l.
Proof. intros HQ. apply filter_all, Forall_forall. intros y (x & <- & _)%list_elem_of_In%in_map_iff. apply HQ. Qed.

Lemma filter_map_none {A B} (Q : B -> Prop) `{!forall x, Decision (Q x)} (f : A -> B) l :
  (forall x, ~ Q (f x)) -> filter Q (map f l) = [].
Proof. intros HQ. apply filter_none, Forall_forall. intros y (x & <- & _)%list_elem_of_In%in_map_iff. apply HQ. Qed.

Lemma addEntry_ok m txid e :
  mempool_ok m -> txEntries m !! txid = None -> mempool_ok (addEntry m txid e).
Proof.
  intros [Hi Hn] Hnew. split; [|by apply addOutpoints_nonempty].
  intros ad t. unfold mempoolOutpoints, addEntry. cbn [addrDescToTx txEntries].
  rewrite addOutpoints_lookup. unfold of_tx. rewrite filter_app.
  change (default [] (addrDescToTx m !! ad)) with (mempoolOutpoints m ad).
  fold (of_tx t (mempoolOutpoints m ad)). rewrite Hi.
  destruct (decide (txid = t)) as [<-|Hne].
  - rewrite Hnew, lookup_insert_eq. simpl. by apply filter_map_all.
  - rewrite lookup_insert_ne by done. rewrite filter_map_none by done. apply app_nil_r.
Qed.

(** ** Removing an entry *)

Lemma removeOutpoints_lookup txid l a ad :
  default [] (foldl (removeOutpoints txid) a l !! ad) =
  if decide (ad ∈ map AddrIndex.addrDesc l)
  then filter (fun o => Outpoint.Txid o <> txid) (default [] (a !! ad)) else default [] (a !! ad).
Proof.
  revert a. induction l as [|si l IH]; intros a; [done|]. cbn [foldl map]. rewrite IH.
  assert (default [] (removeOutpoints txid a si !! ad) =
    if decide (AddrIndex.addrDesc si = ad) then filter (fun o => Outpoint.Txid o <> txid) (default [] (a !! ad))
    else default [] (a !! ad)) as E.
  { unfold removeOutpoints. destruct (a !! AddrIndex.addrDesc si) as [os|] eqn:Ea.
    - destruct (Z.ltb_spec 0 (zlen (filter (fun o => Outpoint.Txid o <> txid) os))) as [|Hz];
        destruct (decide (AddrIndex.addrDesc si = ad)) as [<-|].
      + by rewrite lookup_insert_eq, Ea.
      + by rewrite lookup_insert_ne.
      + rewrite lookup_delete_eq, Ea. simpl. symmetry. apply zlen_0_inv.
        pose proof (zlen_nonneg (filter (fun o => Outpoint.Txid o <> txid) os)). lia.
      + by rewrite lookup_delete_ne.
    - destruct (decide (AddrIndex.addrDesc si = ad)) as [<-|]; [by rewrite Ea|done]. }
  rewrite E. destruct (decide (AddrIndex.addrDesc si = ad)) as [Es|Es].
  - rewrite (decide_True _ _ (P := ad ∈ AddrIndex.addrDesc si :: _)) by (subst; left).
    case_decide; [|done]. rewrite list_filter_filter. apply list_filter_iff. naive_solver.
  - destruct (decide (ad ∈ map AddrIndex.addrDesc l)) as [Hin|Hin].
    + by rewrite decide_True by (by right).
    + rewrite decide_False; [done|]. intros [->|?]%elem_of_cons; done.
Qed.

Lemma removeOutpoints_nonempty txid l a :
  (forall ad x, a !! ad = Some x -> x <> []) ->
  forall ad x, foldl (removeOutpoints txid) a l !! ad = Some x -> x <> [].
Proof.
  revert a. induction l as [|si l IH]; intros a Ha; [done|]. cbn [foldl]. apply IH.
  intros ad x. unfold removeOutpoints. destruct (a !! AddrIndex.addrDesc si) as [os|]; [|eauto].
  destruct (Z.ltb_spec 0 (zlen (filter (fun o => Outpoint.Txid o <> txid) os))).
  - rewrite lookup_insert_Some. intros [[_ <-]|[_ Hx]]; [|eauto]. intros E. rewrite E in *. change (zlen []) with 0 in *. lia.
  - rewrite lookup_delete_Some. intros [_ Hx]. eauto.
Qed.

(** Removal takes the outpoints of the transaction off every address. *)
Lemma removeEntry_outpoints m txid e ad :
  mempool_ok m -> txEntries m !! txid = Some e ->
  mempoolOutpoints (removeEntryFromMempool m txid e) ad =
  filter (fun o => Outpoint.Txid o <> txid) (mempoolOutpoints m ad).
Proof.
  intros [Hi _] He. unfold mempoolOutpoints at 1, removeEntryFromMempool. cbn [addrDescToTx].
  rewrite removeOutpoints_lookup. case_decide as Hin; [done|].
  change (default [] (addrDescToTx m !! ad)) with (mempoolOutpoints m ad).
  symmetry. apply filter_all, Forall_forall. intros o Ho Et.
  assert (o ∈ of_tx txid (mempoolOutpoints m ad)) as Hot by (by apply list_elem_of_filter).
  rewrite Hi, He in Hot. unfold entry_outpoints in Hot.
  apply list_elem_of_In, in_map_iff in Hot as (si & _ & Hsi). apply list_elem_of_In, list_elem_of_filter in Hsi as [Ha Hs].
  apply Hin. subst ad. apply list_elem_of_In, in_map, list_elem_of_In, Hs.
Qed.

Lemma removeEntry_ok m txid e :
  mempool_ok m -> txEntries m !! txid = Some e -> mempool_ok (removeEntryFromMempool m txid e).
Proof.
  intros Hok He. pose proof Hok as [Hi Hn]. split; [|by apply removeOutpoints_nonempty].
  intros ad t. rewrite removeEntry_outpoints by done. unfold of_tx. rewrite list_filter_filter.
  cbn [txEntries removeEntryFromMempool]. destruct (decide (txid = t)) as [<-|Hne].
  - rewrite lookup_delete_eq. apply filter_none, Forall_forall. intros o _ [H1 H2]. done.
  - rewrite lookup_delete_ne by done. rewrite <- Hi. unfold of_tx. apply list_filter_iff. naive_solver.
Qed.

(** A loop over the entries that removes some of them. *)
Lemma removeSome_ok (Q : string * txEntry -> bool) l m :
  mempool_ok m -> NoDup l.*1 -> (forall e, e ∈ l -> txEntries m !! e.1 = Some e.2) ->
  let m' := foldl (fun m e => if Q e then removeEntryFromMempool m e.1 e.2 else m) m l in
  mempool_ok m' /\
  forall t, txEntries m' !! t =
    match txEntries m !! t with
    | Some e => if decide ((t, e) ∈ l) then (if Q (t, e) then None else Some e) else Some e
    | None => None
    end.
Proof.
  revert m. induction l as [|[k e] l IH]; intros m Hok Hnd Hl.
  - split; [done|]. intros t. cbn. destruct (txEntries m !! t); [|done].
    by rewrite decide_False by apply not_elem_of_nil.
  - rewrite fmap_cons in Hnd. apply NoDup_cons in Hnd as [Hk Hnd]. simpl in Hk. cbn [foldl].
    assert (txEntries m !! k = Some e) as Hke by (apply (Hl (k, e)); left).
    assert (forall x, (k, x) ∉ l) as Hkl by (intros x Hx; apply Hk; by apply (list_elem_of_fmap_2 fst) in Hx).
    cbn [fst snd]. set (m1 := if Q (k, e) then _ else m).
    assert (mempool_ok m1) as Hok1 by (subst m1; destruct (Q (k, e)); [by apply removeEntry_ok|done]).
    assert (forall t, txEntries m1 !! t = if decide (t = k) then (if Q (k, e) then None else Some e) else txEntries m !! t) as Hm1.
    { intros t. subst m1. case_decide as E; [subst|]; destruct (Q (k, e)); cbn [txEntries removeEntryFromMempool];
        [by rewrite lookup_delete_eq|done|by rewrite lookup_delete_ne|done]. }
    destruct (IH m1 Hok1 Hnd) as [Hok' Ht].
    { intros [k' e'] Hin. rewrite Hm1. cbn [fst snd]. rewrite decide_False; [apply (Hl (k', e')); by right|].
      intros ->. by apply (Hkl e'). }
    split; [done|]. intros t. rewrite Ht, Hm1. case_decide as E.
    + subst t. rewrite Hke, (decide_True _ _ (P := (k, e) ∈ _ :: _)) by left.
      destruct (Q (k, e)) eqn:EQ; [done|]. rewrite decide_False by auto. done.
    + destruct (txEntries m !! t) as [x|]; [|done].
      destruct (decide ((t, x) ∈ l)); [by rewrite decide_True by (by right)|].
      rewrite decide_False; [done|]. intros [[= -> ->]|?]%elem_of_cons; done.
Qed.

(** * Resynchronization *)

Section resync.
Context `{P : BlockChainParser} `{R : BlockChain}.
Context (ado : option (Outpoint.t -> option bytes)).

(** The entry of a new transaction: none without a known address. *)
Definition fetched (arrival : list Vin.t -> list Vin.t) (txTime : Z) (txid : string) : option txEntry :=
  match fetchTx ado arrival txid with
  | Ret [] => None
  | Ret io => Some (mkTxEntry io (u32 txTime))
  | _ => None
  end.

Lemma fetchAll_ok arrival txTime l : forall m,
  mempool_ok m -> NoDup l -> (forall t, t ∈ l -> txEntries m !! t = None) ->
  (forall t, t ∈ l -> exists io, fetchTx ado arrival t = Ret io) ->
  exists m', go_fold (fun m txid =>
      let* io := fetchTx ado arrival txid in
      Ret (onNewEntry m txid (mkTxEntry io (u32 txTime)))) m l = Ret m' /\ mempool_ok m' /\
    forall t, txEntries m' !! t = if decide (t ∈ l) then fetched arrival txTime t else txEntries m !! t.
Proof.
  induction l as [|x l IH]; intros m Hok Hnd Hnew Hf.
  - exists m. split_and!; [done|done|]. intros t. by rewrite decide_False by apply not_elem_of_nil.
  - apply NoDup_cons in Hnd as [Hx Hnd]. destruct (Hf x) as [io Hio]; [left|].
    cbn [go_fold]. rewrite Hio. gostep. set (m1 := onNewEntry m x _).
    assert (txEntries m !! x = None) as Hxn by (apply Hnew; left).
    assert (mempool_ok m1) as Hok1.
    { subst m1. unfold onNewEntry. destruct (0 <? _); [by apply addEntry_ok|done]. }
    assert (forall t, txEntries m1 !! t = if decide (t = x) then fetched arrival txTime x else txEntries m !! t) as Hm1.
    { intros t. subst m1. unfold onNewEntry, fetched. rewrite Hio. destruct io as [|a io]; cbn [addrIndexes].
      - change (0 <? zlen []) with false. case_decide; by subst.
      - rewrite (proj2 (Z.ltb_lt 0 (zlen (a :: io)))) by zlen_lia. cbn [txEntries addEntry].
        case_decide; [subst; by rewrite lookup_insert_eq|by rewrite lookup_insert_ne]. }
    destruct (IH m1) as (m' & -> & Hok' & Ht); try done.
    { intros t Hin. rewrite Hm1, decide_False by (intros ->; done). apply Hnew. by right. }
    { intros t Hin. apply Hf. by right. }
    exists m'. split_and!; [done|done|]. intros t. rewrite Ht, Hm1. destruct (decide (t = x)) as [-> |Hne].
    + rewrite (decide_True _ _ (P := x ∈ x :: l)) by left. by case_decide.
    + destruct (decide (t ∈ l)); [by rewrite decide_True by (by right)|].
      rewrite decide_False; [done|]. intros [->|?]%elem_of_cons; done.
Qed.

Lemma removeMissing_ok m txs : mempool_ok m ->
  mempool_ok (removeMissing m txs) /\
  forall t, txEntries (removeMissing m txs) !! t = if decide (t ∈ txs) then txEntries m !! t else None.
Proof.
  intros Hok. unfold removeMissing.
  assert (forall l m, foldl (fun m e => if decide (e.1 ∈ txs) then m else removeEntryFromMempool m e.1 e.2) m l =
    foldl (fun m e => if negb (bool_decide (e.1 ∈ txs)) then removeEntryFromMempool m e.1 e.2 else m) m l) as E.
  { induction l as [|e l IH]; intros m0; [done|]. cbn [foldl]. rewrite IH. f_equal.
    case_decide; [by rewrite bool_decide_true|by rewrite bool_decide_false]. }
  rewrite E.
  destruct (removeSome_ok (fun e => negb (bool_decide (e.1 ∈ txs))) (map_to_list (txEntries m)) m) as [Hok' Ht];
    [done|apply NoDup_fst_map_to_list|by intros [k e] ?%elem_of_map_to_list|].
  split; [done|]. intros t. rewrite Ht. destruct (txEntries m !! t) as [e|] eqn:Ee; [|by case_decide].
  rewrite decide_True by (by apply elem_of_map_to_list). cbn [fst].
  case_decide; [by rewrite bool_decide_true|by rewrite bool_decide_false].
Qed.

Lemma Resync_spec arrival order txTime m txs :
  GetMempoolTransactions = Ret txs -> NoDup txs -> mempool_ok m -> (forall l, order l ≡ₚ l) ->
  (forall t, t ∈ txs -> exists io, fetchTx ado arrival t = Ret io) ->
  exists m' n, Resync ado arrival order txTime m = (m', Ret n) /\ mempool_ok m' /\
    n = Z.of_nat (size (txEntries m')) /\
    forall t, txEntries m' !! t =
      if decide (t ∈ txs)
      then match txEntries m !! t with Some e => Some e | None => fetched arrival txTime t end
      else None.
Proof.
  intros Htxs Hnd Hok Hperm Hf. unfold Resync. rewrite Htxs.
  assert (forall t, t ∈ order (newTxids m txs) <-> txEntries m !! t = None /\ t ∈ txs) as Hin.
  { intros t. rewrite Hperm. unfold newTxids. by rewrite list_elem_of_filter. }
  destruct (fetchAll_ok arrival txTime (order (newTxids m txs)) m) as (m1 & -> & Hok1 & H1); [done| | | |].
  { rewrite Hperm. unfold newTxids. by apply NoDup_filter. }
  { by intros t [? _]%Hin. }
  { intros t [_ ?]%Hin. by apply Hf. }
  destruct (removeMissing_ok m1 txs Hok1) as [Hok2 H2].
  do 2 eexists. split; [done|]. split_and!; [done|done|]. intros t. rewrite H2, H1.
  case_decide as Ht; [|done]. destruct (txEntries m !! t) as [e|] eqn:Ee.
  - rewrite decide_False; [done|]. rewrite Hin. intros [? _]. congruence.
  - rewrite decide_True; [done|]. by apply Hin.
Qed.
End resync.

(** * Ethereum-like mempools *)

Lemma AddTransaction_ok `{P : BlockChainParser} `{R : BlockChain} now txid m m' :
  mempool_ok m -> AddTransactionToMempool now txid m = Ret m' -> mempool_ok m'.
Proof.
  intros Hok. unfold AddTransactionToMempool. destruct (txEntries m !! txid) eqn:E; [by intros [= <-]|].
  destruct (createTxEntry txid _) as [[e|]| |]; [|by intros [= <-]|done..].
  intros [= <-]. by apply addEntry_ok.
Qed.

Lemma AddTransactions_ok `{P : BlockChainParser} `{R : BlockChain} now txs :
  (forall t, exists e, createTxEntry t (u32 (now / second)) = Ret e) -> forall m, mempool_ok m ->
  exists m', go_fold (fun b txid => AddTransactionToMempool now txid b) m txs = Ret m' /\ mempool_ok m' /\
    forall t e, txEntries m !! t = Some e -> txEntries m' !! t = Some e.
Proof.
  intros Hc. induction txs as [|x txs IH]; intros m Hok; [by exists m|]. cbn [go_fold].
  destruct (Hc x) as [e He].
  assert (exists m1, AddTransactionToMempool now x m = Ret m1 /\
    forall t e, txEntries m !! t = Some e -> txEntries m1 !! t = Some e) as (m1 & E & Hm1).
  { unfold AddTransactionToMempool. rewrite He. destruct (txEntries m !! x) eqn:Ex; [by exists m|].
    destruct e as [e|]; eexists; (split; [done|]); [|done]. intros t e' Ht. cbn [txEntries addEntry].
    rewrite lookup_insert_ne; [done|]. intros ->. by rewrite Ex in Ht. }
  rewrite E. destruct (IH m1) as (m' & E' & Hok' & Hm'); [by eapply AddTransaction_ok|].
  exists m'. split; [exact E'|]. split; [done|]. auto.
Qed.

Lemma removeTimedOut_ok threshold m : mempool_ok m ->
  mempool_ok (removeTimedOut threshold m) /\
  forall t, txEntries (removeTimedOut threshold m) !! t =
    match txEntries m !! t with
    | Some e => if time e * second <? threshold then None else Some e
    | None => None
    end.
Proof.
  intros Hok.
  destruct (removeSome_ok (fun e => time e.2 * second <? threshold) (map_to_list (txEntries m)) m) as [H1 H2];
    [done|apply NoDup_fst_map_to_list|by intros [k e] ?%elem_of_map_to_list|].
  split; [exact H1|]. intros t. unfold removeTimedOut. rewrite H2. destruct (txEntries m !! t) eqn:E; [|done].
  by rewrite decide_True by (by apply elem_of_map_to_list).
Qed.

(** * The order of the entries *)

Lemma entry_ord_total : Total entry_ord.
Proof.
  intros a b. unfold entry_ord, Less. rewrite (Z.eqb_sym (me_Time b)).
  destruct (Z.eqb_spec (me_Time a) (me_Time b)).
  - rewrite (String.compare_antisym (me_Txid b)). destruct (String.compare _ _); simpl; auto.
  - destruct (Z.ltb_spec (me_Time a) (me_Time b)), (Z.ltb_spec (me_Time b) (me_Time a)); auto. lia.
Qed.

Lemma entry_ord_time a b : entry_ord a b -> me_Time b <= me_Time a.
Proof.
  unfold entry_ord, Less. destruct (Z.eqb_spec (me_Time b) (me_Time a)); [lia|].
  destruct (Z.ltb_spec (me_Time a) (me_Time b)); [done|lia].
Qed.

(** * Properties *)

(** C9: After [Resync] the mempool holds, of the transactions in the daemon's mempool, exactly
    those it held already and those that could be fetched with a known address: entries that
    were there keep their addresses and their first-seen time, every other transaction has the
    entry its fetch gives, and has none where the fetch finds no transaction or the transaction
    no known address; entries the daemon no longer has are gone.  The address index lists for
    every address exactly the outpoints of the entries, whatever order the parallel workers
    finish in.  The daemon lists no transaction twice and no fetch panics. *)
Theorem Resync_correct `{P : BlockChainParser} `{R : BlockChain} ado arrival order txTime m txs :
  GetMempoolTransactions = Ret txs -> NoDup txs -> mempool_ok m -> (forall l, order l ≡ₚ l) ->
  (forall t, t ∈ txs -> exists io, fetchTx ado arrival t = Ret io) ->
  exists m' n, Resync ado arrival order txTime m = (m', Ret n) /\ mempool_ok m' /\
    n = Z.of_nat (size (txEntries m')) /\
    forall t, txEntries m' !! t =
      if decide (t ∈ txs)
      then match txEntries m !! t with Some e => Some e | None => fetched ado arrival txTime t end
      else None.
Proof. apply Resync_spec. Qed.

(** Removing a transaction from the mempool undoes adding it: every address has the
    outpoints it had before, in the same order, and addresses without outpoints leave
    the index. *)
Theorem mempool_add_remove m txid e :
  mempool_ok m -> txEntries m !! txid = None ->
  let m' := removeEntryFromMempool (addEntry m txid e) txid e in
  mempool_ok m' /\ txEntries m' = txEntries m /\
  (forall ad, mempool_GetAddrDescTransactions m' ad = mempool_GetAddrDescTransactions m ad) /\
  (forall ad, addrDescToTx m' !! ad = None <-> mempool_GetAddrDescTransactions m ad = []).
Proof.
  intros Hok Hnew m'. pose proof (addEntry_ok m txid e Hok Hnew) as Hok1.
  assert (txEntries (addEntry m txid e) !! txid = Some e) as He by apply lookup_insert_eq.
  pose proof (removeEntry_ok _ _ _ Hok1 He) as Hok2. fold m' in Hok2.
  assert (forall ad, mempoolOutpoints m' ad = mempoolOutpoints m ad) as Ho.
  { intros ad. subst m'. rewrite removeEntry_outpoints by done.
    unfold mempoolOutpoints at 1, addEntry. cbn [addrDescToTx]. rewrite addOutpoints_lookup, filter_app.
    change (default [] (addrDescToTx m !! ad)) with (mempoolOutpoints m ad).
    rewrite filter_all, filter_none, app_nil_r; [done| |].
    - apply Forall_forall. intros o (x & -> & _)%list_elem_of_fmap. simpl. auto.
    - apply Forall_forall. intros o Hin Et. pose proof (mo_index _ Hok ad txid) as Hx. rewrite Hnew in Hx.
      assert (o ∈ of_tx txid (mempoolOutpoints m ad)) as Hin' by (by apply list_elem_of_filter).
      rewrite Hx in Hin'. by apply not_elem_of_nil in Hin'. }
  split_and!; [done| | |].
  - subst m'. cbn [txEntries removeEntryFromMempool addEntry]. by apply delete_insert_id.
  - intros ad. unfold mempool_GetAddrDescTransactions. by rewrite Ho.
  - intros ad. unfold mempool_GetAddrDescTransactions. rewrite <- Ho. unfold mempoolOutpoints.
    destruct (addrDescToTx m' !! ad) as [l|] eqn:E; [|done]. simpl. split; [done|].
    intros Hl%(f_equal reverse). rewrite reverse_involutive in Hl. by apply (mo_nonempty _ Hok2) in E.
Qed.

(** [GetAllEntries] lists every transaction of the mempool once with its time, the
    newest first. *)
Theorem GetAllEntries_sorted m :
  StronglySorted (fun a b => me_Time b <= me_Time a) (GetAllEntries m) /\
  map (fun e => (me_Txid e, me_Time e)) (GetAllEntries m) ≡ₚ map_to_list (time <$> txEntries m).
Proof.
  unfold GetAllEntries. split.
  - apply Sorted_StronglySorted; [intros a b c; lia|].
    assert (Sorted entry_ord (GetAllEntries m)) as Hs by apply (Sorted_merge_sort _ (Total0 := entry_ord_total)).
    unfold GetAllEntries in Hs. revert Hs. generalize (merge_sort entry_ord
      (map (fun e => mkMempoolTxidEntry e.1 (time e.2)) (map_to_list (txEntries m)))) as l.
    induction 1 as [|a l Hs IH Hd]; constructor; [done|]. destruct Hd; constructor. by apply entry_ord_time.
  - rewrite merge_sort_Permutation, map_map, map_to_list_fmap. done.
Qed.

(** [Resync] of an Ethereum-like mempool keeps the index right, and when the timeout
    run is due removes exactly the transactions older than the timeout. *)
Theorem eth_Resync_correct `{P : BlockChainParser} `{R : BlockChain} now m txs :
  mempool_ok (baseMempool m) -> GetMempoolTransactions = Ret txs ->
  (forall t, exists e, createTxEntry t (u32 (now / second)) = Ret e) ->
  exists m' n, eth_Resync now m = (m', Ret n) /\ mempool_ok (baseMempool m') /\
    n = Z.of_nat (size (txEntries (baseMempool m'))) /\
    (forall t e, txEntries (baseMempool m) !! t = Some e ->
       (nextTimeoutRun m < now /\ time e * second < now - mempoolTimeoutTime m \/
        txEntries (baseMempool m') !! t = Some e)) /\
    (nextTimeoutRun m < now -> forall t e, txEntries (baseMempool m') !! t = Some e ->
       now - mempoolTimeoutTime m <= time e * second).
Proof.
  intros Hok Htx Hc. unfold eth_Resync.
  assert (exists b, (if queryBackendOnResync m
    then let* txs := GetMempoolTransactions in
         go_fold (fun b txid => AddTransactionToMempool now txid b) (baseMempool m) txs
    else Ret (baseMempool m)) = Ret b /\ mempool_ok b /\
    forall t e, txEntries (baseMempool m) !! t = Some e -> txEntries b !! t = Some e) as (b & -> & Hokb & Hb).
  { destruct (queryBackendOnResync m); [|by exists (baseMempool m)]. rewrite Htx. cbn [go_bind].
    by apply AddTransactions_ok. }
  cbn [nextTimeoutRun mempoolTimeoutTime queryBackendOnResync set_base].
  destruct (Z.ltb_spec (nextTimeoutRun m) now) as [Hlt|Hge].
  - destruct (removeTimedOut_ok (now - mempoolTimeoutTime m) b Hokb) as [H1 H2].
    eexists _, _. split; [reflexivity|]. cbn [baseMempool]. split; [done|]. split; [done|]. split.
    + intros t e Ht. rewrite H2, (Hb _ _ Ht). destruct (Z.ltb_spec (time e * second) (now - mempoolTimeoutTime m)); auto.
    + intros _ t e. rewrite H2. destruct (txEntries b !! t) as [e'|]; [|done].
      destruct (Z.ltb_spec (time e' * second) (now - mempoolTimeoutTime m)); [done|]. by intros [= <-].
  - eexists _, _. split; [reflexivity|]. cbn [baseMempool set_base]. split; [done|]. split; [done|].
    split; [auto|lia].
Qed.

(** ** A concrete daemon

    Two transactions in the mempool; the second spends the output of the first. *)

Definition mem_tx (vin : list Vin.t) (script : string) : Tx.t :=
  Tx.mk EmptyString EmptyString 1 0 vin [Vout.mk 5 EmptyString 0 script []] 0 0 0 [] [] 0 NoSpecificData.

Definition mem_daemon (txs : list (string * Tx.t)) : BlockChain := {|
  GetMempoolTransactions := Ret (map fst txs);
  GetTransactionForMempool t :=
    match (list_to_map txs : gmap string Tx.t) !! t with Some tx => Ret tx | None => Fail (ErrMsg "not found") end;
  GetTransaction _ := Fail (ErrMsg "not found");
  GetBestBlockHash := Fail (ErrMsg "offline");
  GetBestBlockHeight := Fail (ErrMsg "offline");
  chain_GetBlockHash _ := Fail (ErrMsg "offline");
  GetBlock _ _ := Fail (ErrMsg "offline");
|}.

Definition two_txs : BlockChain :=
  mem_daemon [("t1"%string, mem_tx [] "76a9");
              ("t2"%string, mem_tx [Vin.mk EmptyString "t1" 0 EmptyString 0 []] "51")].

Definition old_entry : txEntry := mkTxEntry [AddrIndex.mk [Byte.x51] 0] 5.

(** An entry that the daemon no longer has goes away. *)
Lemma Resync_correct_witness :
  exists m' n, Resync (P := plain_parser) (R := two_txs) None id id 100 (addEntry emptyMempool "gone" old_entry) =
    (m', Ret n) /\ mempool_ok m' /\ txEntries m' !! "gone"%string = None.
Proof.
  destruct (Resync_correct (P := plain_parser) (R := two_txs) None id id 100 (addEntry emptyMempool "gone" old_entry)
    ["t1"; "t2"]%string eq_refl) as (m' & n & E & Hok & _ & Ht).
  - apply (bool_decide_unpack _). vm_compute. exact I.
  - apply addEntry_ok; [apply mempool_ok_empty|reflexivity].
  - reflexivity.
  - intros t H. repeat (apply elem_of_cons in H as [-> |H]; [eexists; vm_compute; reflexivity|]).
    by apply not_elem_of_nil in H.
  - exists m', n. split; [exact E|]. split; [exact Hok|]. rewrite Ht. reflexivity.
Defined.

Lemma mempool_add_remove_witness :
  mempool_GetAddrDescTransactions
    (removeEntryFromMempool (addEntry emptyMempool "t" old_entry) "t" old_entry) [Byte.x51] = [].
Proof.
  refine (proj1 (proj2 (proj2 (mempool_add_remove emptyMempool "t" old_entry _ _))) [Byte.x51]).
  - apply mempool_ok_empty.
  - reflexivity.
Defined.

(** The only entry is older than the timeout. *)
Definition old_mempool : MempoolEthereumType :=
  mkMempoolEth (addEntry emptyMempool "old" old_entry) (10 * second) true 0.

Lemma eth_Resync_correct_witness :
  exists m' n, eth_Resync (P := plain_parser) (R := two_txs) (100 * second) old_mempool = (m', Ret n) /\
    mempool_ok (baseMempool m').
Proof.
  destruct (eth_Resync_correct (P := plain_parser) (R := two_txs) (100 * second) old_mempool ["t1"; "t2"]%string)
    as (m' & n & E & Hok & _).
  - apply addEntry_ok; [apply mempool_ok_empty|reflexivity].
  - reflexivity.
  - intros t. unfold createTxEntry, GetTransactionForMempool, two_txs, mem_daemon.
    destruct (decide (t = "t1"%string)) as [-> |H1]; [eexists; vm_compute; reflexivity|].
    destruct (decide (t = "t2"%string)) as [-> |H2]; [eexists; vm_compute; reflexivity|].
    cbn [list_to_map foldr fst snd]. rewrite !lookup_insert_ne, lookup_empty by congruence. by eexists.
  - exists m', n. split; assumption.
Defined.
