(* ===== verification/BulkConnect.v ===== *)
(** Bulk connection of blocks ([db/bulkconnect.go]): balances and transactions stay
    in memory over many blocks and are written in batches.

    The goroutines that store the maps write columns of their own and are waited for
    at the end of the same call; the model runs them one after the other.  Go ranges
    over a map in an unspecified order: the model takes that of [map_to_list]. *)
From stdpp Require Import base list gmap strings.
From Stdlib Require Import ZArith Lia.
From S2P Require Import Prelude Types Store Vlq Codec InternalState AddrBalance TxAddresses RocksDB.
From S2P Require Import BitcoinIndex EthIndex Connect.

Open Scope Z_scope.
Open Scope go_scope.

Definition maxBulkAddresses : Z := 80000.
Definition maxBulkTxAddresses : Z := 500000.
Definition partialStoreAddresses : Z := maxBulkTxAddresses / 10.
Definition maxBulkBalances : Z := 700000.
Definition partialStoreBalances : Z := maxBulkBalances / 10.
Definition maxBulkAddrContracts : Z := 1200000.
Definition partialStoreAddrContracts : Z := maxBulkAddrContracts / 10.

Definition msize {A} (m : gmap bytes A) : Z := Z.of_nat (size m).

(** [txAddressesMap] and [balances] are in [bc_block], with the heap they point to. *)
Record BulkConnect := mkBulk {
  bc_block : blockState;
  bc_contracts : gmap bytes AddrContracts;
  bulkAddresses : list (BlockInfo.t * addressesMap);
  bulkAddressesCount : Z;
  bc_height : Z;
}.

Definition set_bc_block (b : blockState) (c : BulkConnect) : BulkConnect :=
  mkBulk b (bc_contracts c) (bulkAddresses c) (bulkAddressesCount c) (bc_height c).
Definition set_bc_contracts (m : gmap bytes AddrContracts) (c : BulkConnect) : BulkConnect :=
  mkBulk (bc_block c) m (bulkAddresses c) (bulkAddressesCount c) (bc_height c).
Definition set_bulkAddresses (l : list (BlockInfo.t * addressesMap)) (n : Z) (c : BulkConnect) : BulkConnect :=
  mkBulk (bc_block c) (bc_contracts c) l n (bc_height c).
Definition set_bc_height (h : Z) (c : BulkConnect) : BulkConnect :=
  mkBulk (bc_block c) (bc_contracts c) (bulkAddresses c) (bulkAddressesCount c) h.

(** The result of a goroutine, looked at later. *)
Definition attempt {S A} (m : sgo S A) : sgo S (go A) := fun s =>
  match m s with
  | (s', Panic) => (s', Panic)
  | (s', r) => (s', Ret r)
  end.

Section bulk.
Context `{DB : Store} `{P : BlockChainParser} `{V : Vlq} `{SC : ScriptLib} `{J : StateJson}.

Abbreviation bulk := (sgo (RocksDB * BulkConnect)).

Definition on_d {A} (m : sgo RocksDB A) : bulk A := fun s =>
  let '(d, r) := m s.1 in ((d, s.2), r).

Definition InitBulkConnect (now : Z) : sgo RocksDB BulkConnect :=
  do! SetInconsistentState now true in
  sret (mkBulk (newBlockState noStats) ∅ [] 0 0).

(** ** Bitcoin-like chains *)

Definition all_spent (b : blockState) (loc : nat) : bool :=
  match heap b !! loc with Some ta => forallb TxOutput.Spent (Outputs ta) | None => false end.

(** The transactions to store, as keys of the map: all of them, or the completely
    spent ones filled up to [partialStoreAddresses] with others. *)
Definition selectTxAddresses (all : bool) (b : blockState) : gmap bytes nat :=
  if all then txAddressesMap b
  else
    let spent := filter (fun e => all_spent b e.2 = true) (txAddressesMap b) in
    let rest := filter (fun e => all_spent b e.2 = false) (txAddressesMap b) in
    let missing := Z.to_nat (partialStoreAddresses - msize spent) in
    spent ∪ list_to_map (take missing (map_to_list rest)).

Definition bulk_storeTxAddresses (all : bool) (b : blockState) : blockState * WriteBatch :=
  let txm := selectTxAddresses all b in
  (set_txAddressesMap (txAddressesMap b ∖ txm) b,
   storeTxAddresses [] (omap (fun loc => heap b !! loc) txm)).

Definition parallelStoreTxAddresses (all : bool) : bulk unit := fun s =>
  let '(b, wb) := bulk_storeTxAddresses all (bc_block s.2) in
  on_d (dbWrite wb) (s.1, set_bc_block b s.2).

Definition selectBalances (all : bool) (m : gmap bytes AddrBalance) : gmap bytes AddrBalance :=
  if all then m else list_to_map (take (Z.to_nat partialStoreBalances) (map_to_list m)).

Definition bulk_storeBalances (all : bool) (b : blockState) : blockState * WriteBatch :=
  let bal := selectBalances all (balances b) in
  (set_balances (balances b ∖ bal) b, storeBalances [] (Some <$> bal)).

Definition parallelStoreBalances (all : bool) : bulk unit := fun s =>
  let '(b, wb) := bulk_storeBalances all (bc_block s.2) in
  on_d (dbWrite wb) (s.1, set_bc_block b s.2).

(** The addresses and the heights of the blocks since the last store. *)
Definition storeBulkAddresses (now : Z) (wb : WriteBatch) : bulk WriteBatch :=
  let! s := sget in
  let! wb := on_d (sfold (fun x wb =>
      writeHeight now (storeAddresses wb (BlockInfo.Height x.1) x.2) (BlockInfo.Height x.1) x.1 opInsert)
    (bulkAddresses s.2) wb) in
  fun s => ((s.1, set_bulkAddresses [] 0 s.2), Ret wb).

(** What is written at the end of a block: the collected addresses if it is time to,
    and the data to disconnect the block if they are asked for. *)
Definition writeBlockEnd (now : Z) (sa : bool) (storeBlockTxs : option (WriteBatch -> sgo RocksDB WriteBatch))
    : bulk unit :=
  let! s := sget in
  let full := sa || (maxBulkAddresses <? bulkAddressesCount s.2) in
  if full || (match storeBlockTxs with Some _ => true | None => false end) then
    let! wb := (if full then storeBulkAddresses now [] else sret []) in
    let! wb := match storeBlockTxs with Some f => on_d (f wb) | None => sret wb end in
    on_d (dbWrite wb)
  else sret tt.

Definition blockInfoOf (block : Block.t) : BlockInfo.t :=
  BlockInfo.mk (Block.Hash block) (Block.Time block) (u32 (zlen (Block.Txs block)))
    (u32 (Block.Size block)) (Block.Height block).

Definition pushAddresses (block : Block.t) (addresses : addressesMap) : bulk unit := fun s =>
  ((s.1, set_bulkAddresses (bulkAddresses s.2 ++ [(blockInfoOf block, addresses)])
           (bulkAddressesCount s.2 + msize addresses) s.2), Ret tt).

(** [processAddressesBitcoinType] over the maps of the bulk connection. *)
Definition bulk_process (block : Block.t) : bulk addressesMap := fun s =>
  let b := set_stats (cbs s.1) (set_addresses ∅ (bc_block s.2)) in
  match processAddressesBitcoinType s.1 block b with
  | (b', r) =>
      ((set_cbs (stats b') s.1, set_bc_block b' s.2),
       match r with Ret _ => Ret (addresses b') | Fail e => Fail e | Panic => Panic end)
  end.

Definition connectBlockBitcoinType (now : Z) (block : Block.t) (storeBlockTxs : bool) : bulk unit :=
  let! addresses := bulk_process block in
  let! s := sget in
  let ntx := msize (txAddressesMap (bc_block s.2)) in
  let nbal := msize (balances (bc_block s.2)) in
  let sa := (maxBulkTxAddresses <? ntx) || (maxBulkBalances <? nbal) in
  let! r1 := (if sa && (maxBulkTxAddresses <? ntx + partialStoreAddresses)
              then attempt (parallelStoreTxAddresses false) else sret (Ret tt)) in
  let! r2 := (if sa && (maxBulkBalances <? nbal + partialStoreBalances)
              then attempt (parallelStoreBalances false) else sret (Ret tt)) in
  do! pushAddresses block addresses in
  do! writeBlockEnd now sa
        (if storeBlockTxs then Some (fun wb => storeAndCleanupBlockTxs wb block) else None) in
  do! slift r1 in
  slift r2.

(** ** Ethereum-like chains *)

Definition selectContracts (all : bool) (m : gmap bytes AddrContracts) : gmap bytes AddrContracts :=
  if all then m else list_to_map (take (Z.to_nat partialStoreAddrContracts) (map_to_list m)).

Definition parallelStoreAddressContracts (all : bool) : bulk unit := fun s =>
  let ac := selectContracts all (bc_contracts s.2) in
  on_d (dbWrite (storeAddressContracts [] (Some <$> ac)))
    (s.1, set_bc_contracts (bc_contracts s.2 ∖ ac) s.2).

Definition bulk_processEth (block : Block.t) : bulk (addressesMap * list ethBlockTx) := fun s =>
  match processAddressesEthereumType s.1 block (mkEthState ∅ (bc_contracts s.2) (cbs s.1)) with
  | (e, r) =>
      ((set_cbs (e_stats e) s.1, set_bc_contracts (e_contracts e) s.2),
       match r with Ret bts => Ret (e_addresses e, bts) | Fail e => Fail e | Panic => Panic end)
  end.

Definition connectBlockEthereumType (now : Z) (block : Block.t) (storeBlockTxs : bool) : bulk unit :=
  let! '(addresses, bts) := bulk_processEth block in
  let! s := sget in
  let sa := maxBulkAddrContracts <? msize (bc_contracts s.2) in
  let! r1 := (if sa then attempt (parallelStoreAddressContracts false) else sret (Ret tt)) in
  do! pushAddresses block addresses in
  do! writeBlockEnd now sa
        (if storeBlockTxs then Some (fun wb => storeAndCleanupBlockTxsEthereumType wb block bts) else None) in
  slift r1.

(** ** The bulk connection *)

Definition bulk_ConnectBlock (now : Z) (block : Block.t) (storeBlockTxs : bool) : bulk unit :=
  do! (fun s => ((s.1, set_bc_height (Block.Height block) s.2), Ret tt)) in
  match GetChainType with
  | ChainBitcoinType => connectBlockBitcoinType now block storeBlockTxs
  | ChainEthereumType => connectBlockEthereumType now block storeBlockTxs
  | ChainOtherType _ => on_d (ConnectBlock now block)
  end.

Definition bulk_Close (now : Z) : bulk unit :=
  let! '(r1, r2, r3) :=
    match GetChainType with
    | ChainBitcoinType =>
        let! r1 := attempt (parallelStoreTxAddresses true) in
        let! r2 := attempt (parallelStoreBalances true) in
        sret (r1, r2, Ret tt)
    | ChainEthereumType =>
        let! r3 := attempt (parallelStoreAddressContracts true) in
        sret (Ret tt, Ret tt, r3)
    | ChainOtherType _ => sret (Ret tt, Ret tt, Ret tt)
    end in
  let! wb := storeBulkAddresses now [] in
  do! on_d (dbWrite wb) in
  do! slift r1 in
  do! slift r2 in
  do! slift r3 in
  on_d (SetInconsistentState now false).
End bulk.
