(* ===== verification/BulkFacts.v ===== *)
(** The bulk connection loses nothing ([BulkConnect]): writing a part of the maps, or
    all of them at the end, leaves every transaction and every balance as it was seen
    through the maps, so that the invariant of [IndexInvariant] holds on. *)
From stdpp Require Import base list gmap strings sorting.
From Stdlib Require Import ZArith Lia.
From S2P Require Import Prelude Hex Types Store Vlq Codec InternalState AddrBalance TxAddresses RocksDB RocksDBFacts.
From S2P Require Import BitcoinParser BitcoinIndex Ledger IndexInvariant EthIndex Connect ConnectFacts BulkConnect.

Open Scope Z_scope.
Open Scope go_scope.

(** * What is selected is in the map *)

Lemma take_submap {A} (m : gmap bytes A) n : (list_to_map (take n (map_to_list m)) : gmap bytes A) ⊆ m.
Proof.
  apply map_subseteq_spec. intros k x Hx. apply elem_of_list_to_map_2 in Hx.
  apply elem_of_map_to_list. by eapply (subseteq_take n).
Qed.

Lemma selectTxAddresses_sub (all : bool) b : selectTxAddresses all b ⊆ txAddressesMap b.
Proof.
  unfold selectTxAddresses. destruct all; [done|]. apply map_union_least; [apply map_filter_subseteq|].
  etransitivity; [apply take_submap|apply map_filter_subseteq].
Qed.

Lemma selectBalances_sub (all : bool) (m : gmap bytes AddrBalance) : selectBalances all m ⊆ m.
Proof. unfold selectBalances. destruct all; [done|apply take_submap]. Qed.

(** A key is in the selected part or its value stays in the map. *)
Lemma sub_lookup {A} (sub m : gmap bytes A) k : sub ⊆ m ->
  match sub !! k with
  | Some x => m !! k = Some x /\ (m ∖ sub) !! k = None
  | None => (m ∖ sub) !! k = m !! k
  end.
Proof.
  intros Hs. destruct (sub !! k) as [x|] eqn:E.
  - split; [by eapply lookup_weaken|]. apply lookup_difference_None. right. by exists x.
  - destruct (m !! k) as [y|] eqn:Em.
    + by apply lookup_difference_Some.
    + apply lookup_difference_None. by left.
Qed.

Section bulk.
Context `{SL : StoreLaws} `{PL : ParserLaws} `{VL : VlqLaws} `{SCL : ScriptLaws} `{JL : StateJsonLaws}.
Hypothesis Hrel : reliable.

(** Reads of a column depend on that column only. *)
Lemma getTxAddresses_ext (d d' : RocksDB) (s s' : store) (id : bytes) : db d = Some s -> db d' = Some s' ->
  contents s' !! (cfTxAddresses, id) = contents s !! (cfTxAddresses, id) ->
  getTxAddresses d' id = getTxAddresses d id.
Proof.
  intros Hd Hd' E. unfold getTxAddresses.
  by rewrite (dbGet_reliable Hrel d' s'), (dbGet_reliable Hrel d s), E.
Qed.

Lemma GetAddrDescBalance_ext (d d' : RocksDB) (s s' : store) (ad : bytes) : db d = Some s -> db d' = Some s' ->
  contents s' !! (cfAddressBalance, ad) = contents s !! (cfAddressBalance, ad) ->
  GetAddrDescBalance d' ad DetailUTXOIndexed = GetAddrDescBalance d ad DetailUTXOIndexed.
Proof.
  intros Hd Hd' E. unfold GetAddrDescBalance.
  by rewrite (dbGet_reliable Hrel d' s'), (dbGet_reliable Hrel d s), E.
Qed.

(** The state of the bulk connection between two calls. *)
Record bulk_ok (s : RocksDB * BulkConnect) : Prop := {
  bk_readable : readable s.1;
  bk_consistent : consistent s.1 (bc_block s.2);
  bk_fits : fits (bc_block s.2);
}.

(** The same transactions and balances are seen, up to spent utxos. *)
Record same_views (d : RocksDB) (b : blockState) (d' : RocksDB) (b' : blockState) : Prop := {
  sv_outs : forall x, outs_view d' b' x = outs_view d b x;
  sv_balances : forall ad, balance_view d' b' ad = balance_view d b ad \/
    balance_view d' b' ad = restored DetailUTXOIndexed (balance_view d b ad);
}.

(** ** Storing transactions *)

Lemma storeTx_reads (d d' : RocksDB) (s s' : store) (b : blockState) (sub : gmap bytes nat) : db d = Some s -> db d' = Some s' ->
  fits b -> sub ⊆ txAddressesMap b ->
  contents s' = apply_batch (storeTxAddresses [] (omap (fun loc => heap b !! loc) sub)) (contents s) ->
  (forall ad, GetAddrDescBalance d' ad DetailUTXOIndexed = GetAddrDescBalance d ad DetailUTXOIndexed) /\
  forall id, getTxAddresses d' id =
    match sub !! id ≫= (fun loc => heap b !! loc) with
    | Some ta => Ret (Some (stored_ta ta)) | None => getTxAddresses d id end.
Proof.
  intros Hd Hd' Hf Hsub Hs'. unfold storeTxAddresses in Hs'. simpl in Hs'. split.
  - intros ad. apply (GetAddrDescBalance_ext d d' s s'); [done..|]. rewrite Hs'.
    by rewrite (apply_map_batch_other (fun k ta => PutCF cfTxAddresses k (packTxAddresses ta)) cfTxAddresses).
  - intros id. pose proof (apply_map_batch (fun k ta => PutCF cfTxAddresses k (packTxAddresses ta)) (fun k => k)
      cfTxAddresses (omap (fun loc => heap b !! loc) sub) (contents s) id) as Hm.
    rewrite lookup_omap in Hm. destruct (sub !! id ≫= (fun loc => heap b !! loc)) as [ta|] eqn:E.
    + unfold getTxAddresses. rewrite (dbGet_reliable Hrel d' s'), Hs', Hm by done. cbn [op_value]. gostep.
      change (opt_bytes (Some (packTxAddresses ta))) with (packTxAddresses ta).
      pose proof (packTxAddresses_zlen ta). destruct (Z.ltb_spec (zlen (packTxAddresses ta)) 3); [lia|].
      rewrite unpackTxAddresses_pack; [done|]. apply (fits_txs _ Hf id).
      rewrite txAddressesOf_lookup. destruct (sub !! id) as [loc|] eqn:El; [|done].
      by rewrite (lookup_weaken _ _ _ _ El Hsub).
    + apply (getTxAddresses_ext d d' s s'); [done..|]. by rewrite Hs', Hm.
Qed.

Lemma storeTx_ok (d d' : RocksDB) (s s' : store) (b : blockState) (sub : gmap bytes nat) :
  db d = Some s -> db d' = Some s' -> readable d -> consistent d b -> fits b -> sub ⊆ txAddressesMap b ->
  contents s' = apply_batch (storeTxAddresses [] (omap (fun loc => heap b !! loc) sub)) (contents s) ->
  let b' := set_txAddressesMap (txAddressesMap b ∖ sub) b in
  readable d' /\ consistent d' b' /\ fits b' /\ same_views d b d' b'.
Proof.
  intros Hd Hd' [Hr1 Hr2] Hc Hf Hsub Hs' b'. destruct (storeTx_reads d d' s s' b sub) as [HB HT]; [done..|].
  pose proof (co_heap _ _ Hc) as [Hh1 Hh2].
  assert (forall id loc, txAddressesMap b' !! id = Some loc -> txAddressesMap b !! id = Some loc) as Hsubm.
  { intros id loc. cbn [b' txAddressesMap set_txAddressesMap]. by intros [? _]%lookup_difference_Some. }
  assert (same_views d b d' b') as Hv.
  { split.
    - intros x. unfold outs_view, tx_view, db_tx. cbn [b' txAddressesMap set_txAddressesMap heap]. rewrite HT.
      pose proof (sub_lookup sub (txAddressesMap b) x Hsub) as Hx. destruct (sub !! x) as [loc|]; simpl.
      + destruct Hx as [Hm ->]. rewrite Hm.
        destruct (lookup_lt_is_Some_2 (heap b) loc (Hh1 x loc Hm)) as [ta Hta]. by rewrite Hta.
      + by rewrite Hx.
    - intros ad. left. unfold balance_view, db_balance. by rewrite HB. }
  split_and!; [| | |done].
  - split; [intros ad; rewrite HB; apply Hr1|]. intros id. rewrite HT.
    destruct (sub !! id ≫= _); [by eexists|apply Hr2].
  - apply (consistent_view d b); [|apply Hv|apply Hv|done].
    split; [intros id loc H; by apply (Hh1 id), Hsubm|]. intros id1 id2 loc H1 H2. eapply Hh2; eauto.
  - split; [|apply Hf]. intros id ta. rewrite txAddressesOf_lookup.
    destruct (txAddressesMap b' !! id) as [loc|] eqn:E; [|done]. intros Hta.
    apply (fits_txs _ Hf id). rewrite txAddressesOf_lookup, (Hsubm _ _ E). done.
Qed.

(** ** Storing balances *)

Lemma storeBalances_reads (d d' : RocksDB) (s s' : store) (b : blockState) (sub : gmap bytes AddrBalance) :
  db d = Some s -> db d' = Some s' -> fits b -> sub ⊆ balances b ->
  contents s' = apply_batch (storeBalances [] (Some <$> sub)) (contents s) ->
  (forall id, getTxAddresses d' id = getTxAddresses d id) /\
  forall ad, GetAddrDescBalance d' ad DetailUTXOIndexed =
    match sub !! ad with
    | Some B => Ret (Some (restored DetailUTXOIndexed B))
    | None => GetAddrDescBalance d ad DetailUTXOIndexed end.
Proof.
  intros Hd Hd' Hf Hsub Hs'. unfold storeBalances in Hs'. simpl in Hs'.
  assert (forall k (o : option AddrBalance), op_key (storeBalance k o) = (cfAddressBalance, k)) as Hk
    by (intros k [B|]; simpl; [by destruct (_ <=? _)|done]).
  split.
  - intros id. apply (getTxAddresses_ext d d' s s'); [done..|]. rewrite Hs'.
    rewrite (apply_map_batch_other storeBalance cfAddressBalance); [done|intros k x; by rewrite Hk|done].
  - intros ad. pose proof (apply_map_batch storeBalance (fun k => k) cfAddressBalance (Some <$> sub) (contents s) ad Hk)
      as Hm. rewrite lookup_fmap in Hm. destruct (sub !! ad) as [B|] eqn:E; cbn [fmap option_fmap option_map] in Hm.
    + destruct (fits_balances _ Hf ad B) as [Hwf HT]; [by eapply lookup_weaken|].
      unfold GetAddrDescBalance. rewrite (dbGet_reliable Hrel d' s'), Hs', Hm by done. gostep.
      unfold storeBalance. destruct (Z.leb_spec (Txs B) 0); [lia|]. cbn [op_value].
      change (opt_bytes (Some (packAddrBalance B))) with (packAddrBalance B).
      pose proof (packAddrBalance_zlen B). destruct (Z.ltb_spec (zlen (packAddrBalance B)) 3); [lia|].
      by rewrite unpackAddrBalance_pack by (try done; apply PackedTxidLen_pos).
    + apply (GetAddrDescBalance_ext d d' s s'); [done..|]. rewrite Hs'. by apply Hm.
Qed.

Lemma storeBalances_ok (d d' : RocksDB) (s s' : store) (b : blockState) (sub : gmap bytes AddrBalance) :
  db d = Some s -> db d' = Some s' -> readable d -> consistent d b -> fits b -> sub ⊆ balances b ->
  contents s' = apply_batch (storeBalances [] (Some <$> sub)) (contents s) ->
  let b' := set_balances (balances b ∖ sub) b in
  readable d' /\ consistent d' b' /\ fits b' /\ same_views d b d' b'.
Proof.
  intros Hd Hd' [Hr1 Hr2] Hc Hf Hsub Hs' b'. destruct (storeBalances_reads d d' s s' b sub) as [HT HB]; [done..|].
  assert (same_views d b d' b') as Hv.
  { split.
    - intros x. unfold outs_view, tx_view, db_tx. by rewrite HT.
    - intros ad. unfold balance_view, db_balance. cbn [b' balances set_balances]. rewrite HB.
      pose proof (sub_lookup sub (balances b) ad Hsub) as Hx. destruct (sub !! ad) as [B|].
      + destruct Hx as [-> ->]. by right.
      + rewrite Hx. by left. }
  split_and!; [| | |done].
  - split; [|intros id; rewrite HT; apply Hr2]. intros ad. rewrite HB. destruct (sub !! ad); [by eexists|apply Hr1].
  - apply (consistent_view d b); [apply Hc|apply Hv|apply Hv|done].
  - split; [apply Hf|]. intros ad B. cbn [b' balances set_balances]. intros [H _]%lookup_difference_Some.
    by apply (fits_balances _ Hf ad).
Qed.

(** ** The two stores of the bulk connection *)

Lemma parallelStoreTxAddresses_ok (all : bool) (d : RocksDB) (bc : BulkConnect) (s : store) :
  db d = Some s -> bulk_ok (d, bc) ->
  exists s', let d' := set_db (Some s') d in
    let b' := set_txAddressesMap (txAddressesMap (bc_block bc) ∖ selectTxAddresses all (bc_block bc)) (bc_block bc) in
    parallelStoreTxAddresses all (d, bc) = ((d', set_bc_block b' bc), Ret tt) /\
    bulk_ok (d', set_bc_block b' bc) /\ same_views d (bc_block bc) d' b' /\
    forall ck, ck.1 <> cfTxAddresses -> contents s' !! ck = contents s !! ck.
Proof.
  intros Hd [Hr Hc Hf]. simpl in Hr, Hc, Hf. unfold parallelStoreTxAddresses, bulk_storeTxAddresses. cbn [fst snd].
  set (sub := selectTxAddresses all (bc_block bc)). set (wb := storeTxAddresses [] _).
  destruct (dbWrite_reliable Hrel d s wb Hd) as (s' & Ew & Hs'). exists s'.
  destruct (storeTx_ok d (set_db (Some s') d) s s' (bc_block bc) sub) as (H1 & H2 & H3 & H4); try done.
  { apply selectTxAddresses_sub. }
  split; [unfold on_d; cbn [fst snd]; by rewrite Ew|]. split_and!; [by split|done|]. intros ck Hck. rewrite Hs'.
  apply (apply_map_batch_other (fun k ta => PutCF cfTxAddresses k (packTxAddresses ta)) cfTxAddresses); done.
Qed.

Lemma parallelStoreBalances_ok (all : bool) (d : RocksDB) (bc : BulkConnect) (s : store) :
  db d = Some s -> bulk_ok (d, bc) ->
  exists s', let d' := set_db (Some s') d in
    let b' := set_balances (balances (bc_block bc) ∖ selectBalances all (balances (bc_block bc))) (bc_block bc) in
    parallelStoreBalances all (d, bc) = ((d', set_bc_block b' bc), Ret tt) /\
    bulk_ok (d', set_bc_block b' bc) /\ same_views d (bc_block bc) d' b' /\
    forall ck, ck.1 <> cfAddressBalance -> contents s' !! ck = contents s !! ck.
Proof.
  intros Hd [Hr Hc Hf]. simpl in Hr, Hc, Hf. unfold parallelStoreBalances, bulk_storeBalances. cbn [fst snd].
  set (sub := selectBalances all (balances (bc_block bc))). set (wb := storeBalances [] _).
  destruct (dbWrite_reliable Hrel d s wb Hd) as (s' & Ew & Hs'). exists s'.
  destruct (storeBalances_ok d (set_db (Some s') d) s s' (bc_block bc) sub) as (H1 & H2 & H3 & H4); try done.
  { apply selectBalances_sub. }
  split; [unfold on_d; cbn [fst snd]; by rewrite Ew|]. split_and!; [by split|done|]. intros ck Hck. rewrite Hs'.
  apply (apply_map_batch_other storeBalance cfAddressBalance); [|done]. intros k [B|]; simpl; [by destruct (_ <=? _)|done].
Qed.

(** ** Closing *)

(** Operations that do not touch the transactions and the balances. *)
Definition off_index (o : wb_op) : Prop := (op_key o).1 <> cfTxAddresses /\ (op_key o).1 <> cfAddressBalance.

Definition bulkHeight (x : BlockInfo.t * addressesMap) : Z := BlockInfo.Height x.1.

(** The rows of a block: its transactions by address, and its description. *)
Definition bulkRows (x : BlockInfo.t * addressesMap) : WriteBatch :=
  map (fun e => PutCF cfAddresses (packAddressKey e.1 (bulkHeight x)) (packTxIndexes e.2)) (map_to_list x.2) ++
  match packBlockInfo x.1 with Ret v => [PutCF cfHeight (packUint (bulkHeight x)) v] | _ => [] end.

(** What the parser can pack. *)
Definition packable (x : BlockInfo.t * addressesMap) : Prop := exists v, packBlockInfo x.1 = Ret v.

Lemma storeBulk_run (now : Z) (l : list (BlockInfo.t * addressesMap)) : forall (d : RocksDB) (i : InternalState) (wb : WriteBatch), istate d = Some i ->
  Forall packable l ->
  exists i', sfold (fun x wb =>
      writeHeight now (storeAddresses wb (BlockInfo.Height x.1) x.2) (BlockInfo.Height x.1) x.1 opInsert) l wb d =
    (set_istate (Some i') d, Ret (wb ++ concat (map bulkRows l))).
Proof.
  induction l as [|x l IH]; intros d i wb Hi Hl.
  - exists i. rewrite app_nil_r. destruct d; simpl in *. by subst.
  - apply Forall_cons in Hl as [[v Hv] Hl]. cbn [sfold].
    set (i1 := UpdateBestHeight now (BlockInfo.Height x.1) i).
    rewrite (sbind_eq _ _ d (set_istate (Some i1) d) (wb ++ bulkRows x)).
    2:{ unfold writeHeight, bulkRows. rewrite Hv, app_assoc. unfold sbind, slift, with_is. by rewrite Hi. }
    destruct (IH (set_istate (Some i1) d) i1 (wb ++ bulkRows x)) as (i' & E); [done|done|].
    exists i'. rewrite E. cbn [map concat]. by rewrite app_assoc.
Qed.

Lemma elem_of_bulkRows (o : wb_op) (x : BlockInfo.t * addressesMap) : o ∈ bulkRows x ->
  (exists ad idxs, x.2 !! ad = Some idxs /\ o = PutCF cfAddresses (packAddressKey ad (bulkHeight x)) (packTxIndexes idxs)) \/
  (exists v, packBlockInfo x.1 = Ret v /\ o = PutCF cfHeight (packUint (bulkHeight x)) v).
Proof.
  unfold bulkRows. intros [H|H]%elem_of_app.
  - apply list_elem_of_In, in_map_iff in H as ([ad idxs] & <- & H%list_elem_of_In%elem_of_map_to_list). eauto.
  - destruct (packBlockInfo x.1) as [v| |] eqn:E; [|by apply not_elem_of_nil in H..].
    apply list_elem_of_singleton in H as ->. eauto.
Qed.

Lemma elem_of_bulk (o : wb_op) (l : list (BlockInfo.t * addressesMap)) : o ∈ concat (map bulkRows l) -> exists x, x ∈ l /\ o ∈ bulkRows x.
Proof.
  intros (x & Hx & Ho)%list_elem_of_In%in_concat. apply in_map_iff in Hx as (y & <- & Hy).
  exists y. by rewrite !list_elem_of_In.
Qed.

Lemma bulkRows_in (o : wb_op) (x : BlockInfo.t * addressesMap) l : x ∈ l -> o ∈ bulkRows x -> o ∈ concat (map bulkRows l).
Proof. intros Hx Ho. apply list_elem_of_In, in_concat. exists (bulkRows x). split; [|by apply list_elem_of_In].
  apply in_map_iff. exists x. by rewrite <- list_elem_of_In. Qed.

(** After it, the blocks kept in memory are in the columns of the addresses and of the heights,
    and nothing else in these columns is written. *)
Record bulk_indexed (l : list (BlockInfo.t * addressesMap)) (m m' : kv) : Prop := {
  bi_addresses : forall x ad idxs, x ∈ l -> x.2 !! ad = Some idxs ->
    m' !! (cfAddresses, packAddressKey ad (bulkHeight x)) = Some (packTxIndexes idxs);
  bi_heights : forall x v, x ∈ l -> packBlockInfo x.1 = Ret v -> m' !! (cfHeight, packUint (bulkHeight x)) = Some v;
  bi_addresses_kept : forall k, (forall x ad, x ∈ l -> is_Some (x.2 !! ad) -> k <> packAddressKey ad (bulkHeight x)) ->
    m' !! (cfAddresses, k) = m !! (cfAddresses, k);
  bi_heights_kept : forall k, (forall x, x ∈ l -> k <> packUint (bulkHeight x)) -> m' !! (cfHeight, k) = m !! (cfHeight, k);
}.

(** The heights of the blocks kept in memory are different. *)
Record bulk_list (l : list (BlockInfo.t * addressesMap)) : Prop := {
  bl_packable : Forall packable l;
  bl_u32 : Forall (fun x => in_u32 (bulkHeight x)) l;
  bl_heights : NoDup (map bulkHeight l);
}.

Lemma bulk_list_height l x y : bulk_list l -> x ∈ l -> y ∈ l -> bulkHeight x = bulkHeight y -> x = y.
Proof.
  intros Hl (i & Hi)%list_elem_of_lookup (j & Hj)%list_elem_of_lookup E.
  assert (i = j) as ->; [|by simplify_eq]. apply (NoDup_lookup _ i j (bulkHeight x) (bl_heights _ Hl)).
  - by apply (list_lookup_fmap_Some_2 bulkHeight).
  - rewrite E. by apply (list_lookup_fmap_Some_2 bulkHeight).
Qed.

Lemma bulkRows_indexed l m : bulk_list l -> bulk_indexed l m (apply_batch (concat (map bulkRows l)) m).
Proof.
  intros Hl. pose proof (bl_u32 _ Hl) as Hu. rewrite Forall_forall in Hu. split.
  - intros x ad idxs Hx Had. apply apply_batch_put.
    { apply (bulkRows_in _ x); [done|]. apply elem_of_app. left. apply list_elem_of_In, in_map_iff. exists (ad, idxs).
      split; [done|]. by apply list_elem_of_In, elem_of_map_to_list. }
    intros o (y & Hy & [(ad' & idxs' & Hi & ->)|(v & _ & ->)]%elem_of_bulkRows)%elem_of_bulk [= E].
    apply packAddressKey_inj in E as [-> E%(bulk_list_height l)]; [|by auto..]. by simplify_eq.
  - intros x v Hx Hv. apply apply_batch_put.
    { apply (bulkRows_in _ x); [done|]. unfold bulkRows. rewrite Hv. set_solver. }
    intros o (y & Hy & [(ad' & idxs' & Hi & ->)|(v' & Hv' & ->)]%elem_of_bulkRows)%elem_of_bulk E; [done|].
    apply pair_eq in E as [_ E]. apply packUint_inj in E; [|by auto..].
    assert (y = x) as -> by by apply (bulk_list_height l). rewrite Hv in Hv'. by injection Hv' as ->.
  - intros k Hk. apply apply_batch_other.
    intros o (y & Hy & [(ad' & idxs' & Hi & ->)|(v & _ & ->)]%elem_of_bulkRows)%elem_of_bulk [= E].
    by apply (Hk y ad').
  - intros k Hk. apply apply_batch_other.
    intros o (y & Hy & [(ad' & idxs' & Hi & ->)|(v & _ & ->)]%elem_of_bulkRows)%elem_of_bulk E; [done|].
    apply pair_eq in E as [_ E]. by apply (Hk y Hy).
Qed.

Lemma bulkRows_off l : Forall off_index (concat (map bulkRows l)).
Proof.
  apply Forall_forall. intros o (y & Hy & [(ad' & idxs' & Hi & ->)|(v & _ & ->)]%elem_of_bulkRows)%elem_of_bulk; done.
Qed.

(** The rows depend on the two columns only. *)
Lemma bulk_indexed_ext l m1 m2 m1' m2' : (forall ck, ck.1 = cfAddresses \/ ck.1 = cfHeight -> m2 !! ck = m1 !! ck) ->
  (forall ck, ck.1 = cfAddresses \/ ck.1 = cfHeight -> m2' !! ck = m1' !! ck) -> bulk_indexed l m1 m1' -> bulk_indexed l m2 m2'.
Proof.
  intros H1 H2 [Ha Hh Hka Hkh].
  split; intros; rewrite H2 by (cbn; auto); rewrite ?H1 by (cbn; auto); eauto.
Qed.

Lemma off_index_view (wb : WriteBatch) (s s' : store) : Forall off_index wb -> contents s' = apply_batch wb (contents s) ->
  (forall id, contents s' !! (cfTxAddresses, id) = contents s !! (cfTxAddresses, id)) /\
  (forall ad, contents s' !! (cfAddressBalance, ad) = contents s !! (cfAddressBalance, ad)).
Proof.
  intros Hwb ->. rewrite Forall_forall in Hwb.
  split; intros k; apply apply_batch_other; intros o Ho E; destruct (Hwb o Ho) as [H1 H2]; rewrite E in *; done.
Qed.

(** A state without maps is the database alone. *)
Lemma views_alone (d d' : RocksDB) (b : blockState) (c : connectBlockStats) :
  txAddressesMap b = ∅ -> balances b = ∅ ->
  (forall id, getTxAddresses d' id = getTxAddresses d id) ->
  (forall ad, GetAddrDescBalance d' ad DetailUTXOIndexed = GetAddrDescBalance d ad DetailUTXOIndexed) ->
  same_views d b d' (newBlockState c).
Proof.
  intros Hm Hb HT HB. split.
  - intros x. unfold outs_view, tx_view, db_tx. cbn [txAddressesMap newBlockState]. by rewrite Hm, !lookup_empty, HT.
  - intros ad. left. unfold balance_view, db_balance. cbn [balances newBlockState]. by rewrite Hb, !lookup_empty, HB.
Qed.

Lemma restored_restored (ab : AddrBalance) : restored DetailUTXOIndexed (restored DetailUTXOIndexed ab) = restored DetailUTXOIndexed ab.
Proof.
  assert (forall ab, restored DetailUTXOIndexed ab =
    foldl addUtxo (mkAddrBalance (Txs ab) (SentSat ab) (BalanceSat ab) [] ∅) (unspent_utxos (Utxos ab))) as Hr by done.
  rewrite (Hr (restored DetailUTXOIndexed ab)), Utxos_restored, unspent_idemp, (Hr ab).
  destruct (foldl_addUtxo (unspent_utxos (Utxos ab)) (mkAddrBalance (Txs ab) (SentSat ab) (BalanceSat ab) [] ∅))
    as (_ & -> & -> & -> & _). done.
Qed.

Lemma same_views_trans (d1 d2 d3 : RocksDB) (b1 b2 b3 : blockState) :
  same_views d1 b1 d2 b2 -> same_views d2 b2 d3 b3 -> same_views d1 b1 d3 b3.
Proof.
  intros [Ho1 Hb1] [Ho2 Hb2]. split; [intros x; by rewrite Ho2|]. intros ad.
  destruct (Hb2 ad) as [-> | ->], (Hb1 ad) as [-> | ->]; auto. right. apply restored_restored.
Qed.

(** What [Close] leaves, compared to the state before. *)
Record bulk_closed (d : RocksDB) (bc : BulkConnect) (s : store) (d' : RocksDB) (bc' : BulkConnect) (s' : store) (i' : InternalState) : Prop := {
  bcl_db : db d' = Some s';
  bcl_readable : readable d';
  bcl_consistent : consistent d' (before d');
  bcl_views : same_views d (bc_block bc) d' (before d');
  bcl_indexed : bulk_indexed (bulkAddresses bc) (contents s) (contents s');
  bcl_empty : txAddressesMap (bc_block bc') = ∅ /\ balances (bc_block bc') = ∅ /\ bulkAddresses bc' = [];
  bcl_state : istate d' = Some i' /\ storedState s' = Some i' /\ DbState i' = DbStateOpen;
}.

Lemma bulk_Close_run (now : Z) (d : RocksDB) (bc : BulkConnect) (s : store) (i : InternalState) :
  GetChainType = ChainBitcoinType -> db d = Some s -> istate d = Some i -> bulk_ok (d, bc) -> bulk_list (bulkAddresses bc) ->
  exists d' bc' s' i', bulk_Close now (d, bc) = ((d', bc'), Ret tt) /\ bulk_closed d bc s d' bc' s' i'.
Proof.
  intros Hct Hd Hi Hok Hl.
  destruct (parallelStoreTxAddresses_ok true d bc s Hd Hok) as (s1 & E1 & Hok1 & V1 & K1). cbv zeta in E1, Hok1, V1.
  set (d1 := set_db (Some s1) d) in *. set (b1 := set_txAddressesMap _ _) in *. set (bc1 := set_bc_block b1 bc) in *.
  destruct (parallelStoreBalances_ok true d1 bc1 s1 eq_refl Hok1) as (s2 & E2 & [Hr2 Hc2 _] & V2 & K2). cbv zeta in E2, Hr2, Hc2, V2.
  set (d2 := set_db (Some s2) d1) in *. set (b2 := set_balances _ _) in *. set (bc2 := set_bc_block b2 bc1) in *.
  destruct (storeBulk_run now (bulkAddresses bc) d2 i []) as (i3 & E3); [done|apply Hl|].
  set (wb := [] ++ _) in E3. assert (Forall off_index wb) as Hwb by apply bulkRows_off.
  set (d3 := set_istate (Some i3) d2) in *. set (bc3 := set_bulkAddresses [] 0 bc2).
  destruct (dbWrite_reliable Hrel d3 s2 wb eq_refl) as (s4 & E4 & Hs4). set (d4 := set_db (Some s4) d3) in *.
  destruct (SetInconsistentState_run Hrel now false d4 i3 s4 eq_refl eq_refl) as (s5 & E5 & Hst & K5). cbv zeta in E5, Hst.
  set (i5 := set_LastStore now (set_DbState DbStateOpen i3)) in *. set (d5 := set_db (Some s5) _) in E5.
  exists d5, bc3, s5, i5.
  assert ((forall id, getTxAddresses d5 id = getTxAddresses d2 id) /\
    (forall ad, GetAddrDescBalance d5 ad DetailUTXOIndexed = GetAddrDescBalance d2 ad DetailUTXOIndexed)) as [HT HB].
  { destruct (off_index_view wb s2 s4 Hwb Hs4) as [HT4 HB4].
    split; intros k; [apply (getTxAddresses_ext d2 d5 s2 s5)|apply (GetAddrDescBalance_ext d2 d5 s2 s5)]; try done.
    - by rewrite K5.
    - by rewrite K5. }
  assert (same_views d2 b2 d5 (before d5)) as V5
    by (apply views_alone; [apply map_difference_diag|apply map_difference_diag|done|done]).
  split; [|split].
  - unfold bulk_Close. rewrite Hct.
    rewrite (sbind_eq _ _ (d, bc) (d2, bc2) (Ret tt, Ret tt, Ret tt)).
    2:{ rewrite (sbind_eq _ _ (d, bc) (d1, bc1) (Ret tt)) by (unfold attempt; by rewrite E1).
        rewrite (sbind_eq _ _ (d1, bc1) (d2, bc2) (Ret tt)) by (unfold attempt; by rewrite E2). done. }
    rewrite (sbind_eq _ _ (d2, bc2) (d3, bc3) wb).
    2:{ unfold storeBulkAddresses. rewrite (sbind_eq _ _ (d2, bc2) (d2, bc2) (d2, bc2)) by done.
        change (bulkAddresses (d2, bc2).2) with (bulkAddresses bc).
        rewrite (sbind_eq _ _ (d2, bc2) (d3, bc2) wb) by (unfold on_d; cbn [fst snd]; by rewrite E3). done. }
    rewrite (sbind_eq _ _ (d3, bc3) (d4, bc3) tt) by (unfold on_d; cbn [fst snd]; by rewrite E4).
    unfold sbind, slift, on_d. cbn [fst snd]. by rewrite E5.
  - done.
  - split; intros k; [rewrite HB|rewrite HT]; apply Hr2.
  - apply (consistent_view d2 b2); [apply newBlockState_heap|apply V5|apply V5|exact Hc2].
  - eapply same_views_trans; [exact V1|]. eapply same_views_trans; [exact V2|exact V5].
  - apply (bulk_indexed_ext _ (contents s2) _ (contents s4)); [| |rewrite Hs4; by apply bulkRows_indexed].
    + intros [c k] Hc. cbn in Hc. rewrite K2, K1 by (by destruct Hc as [-> | ->]). done.
    + intros [c k] Hc. apply K5. unfold stateKey. cbn in Hc. intros [= -> _]. by destruct Hc.
  - split_and!; [apply map_difference_diag|apply map_difference_diag|done].
  - done.
Qed.
End bulk.

(** * Properties *)

Section properties.
Context `{SL : StoreLaws} `{PL : ParserLaws} `{VL : VlqLaws} `{SCL : ScriptLaws} `{JL : StateJsonLaws}.

(** A partial store during a bulk import, of any part of the transactions or of the
    balances, succeeds on a store without errors and changes nothing that is seen
    through the maps and the database together: all outputs with their spent marks stay
    the same, balances lose at most their spent utxos, and the state stays consistent. *)
Theorem bulk_partial_store (all : bool) (d : RocksDB) (bc : BulkConnect) (s : store) :
  reliable -> db d = Some s -> bulk_ok (d, bc) ->
  (exists d' bc', parallelStoreTxAddresses all (d, bc) = ((d', bc'), Ret tt) /\
     bulk_ok (d', bc') /\ same_views d (bc_block bc) d' (bc_block bc')) /\
  (exists d' bc', parallelStoreBalances all (d, bc) = ((d', bc'), Ret tt) /\
     bulk_ok (d', bc') /\ same_views d (bc_block bc) d' (bc_block bc')).
Proof.
  intros Hrel Hd Hok. split.
  - destruct (parallelStoreTxAddresses_ok Hrel all d bc s Hd Hok) as (s' & H1 & H2 & H3 & _). by eexists _, _.
  - destruct (parallelStoreBalances_ok Hrel all d bc s Hd Hok) as (s' & H1 & H2 & H3 & _). by eexists _, _.
Qed.

(** C6: Closing a bulk import writes everything that was kept in memory and forgets it: the
    database alone is consistent and shows the transactions and balances that were seen
    through the maps; every address of every block kept in memory has its row in the column
    of the addresses and every such block its row in the column of the heights, and no other
    row of these columns changes; and the state is open, in memory and in the store.  The
    store works without errors, and the blocks have different heights and hashes that can be
    packed. *)
Theorem bulk_Close_consistent (now : Z) (d : RocksDB) (bc : BulkConnect) (s : store) (i : InternalState) :
  reliable -> GetChainType = ChainBitcoinType -> db d = Some s -> istate d = Some i -> bulk_ok (d, bc) ->
  bulk_list (bulkAddresses bc) ->
  exists d' bc' s' i', bulk_Close now (d, bc) = ((d', bc'), Ret tt) /\ bulk_closed d bc s d' bc' s' i'.
Proof. intros Hrel. by apply bulk_Close_run. Qed.
End properties.

(** ** Concrete runs *)

(** The bulk connection after the sample block, which was not stored yet. *)
Definition bulk7 : BulkConnect := mkBulk after7 ∅ [(blockInfoOf block7, addresses after7)] 3 7.

Lemma bulk7_ok : bulk_ok (P := plain_parser) (V := leb) (open_db ∅, bulk7).
Proof.
  destruct (empty_readable (P := plain_parser) (V := leb) mem_store_reliable (open_db ∅) ∅ eq_refl eq_refl) as [H1 H2].
  destruct (empty_consistent (P := plain_parser) (V := leb) mem_store_reliable (open_db ∅) ∅ eq_refl eq_refl) as [H4 H3].
  destruct (processAddressesBitcoinType_spec (P := plain_parser) (V := leb) (open_db ∅)
    (fun ad => ex_intro _ None (H1 ad)) (fun id => ex_intro _ None (H2 id)) (before (open_db ∅)) block7 [id1; id2]
    H3 block7_valid) as (b' & E & C & _).
  split; [exact H4| |exact block7_fits]. cbn [fst snd bc_block bulk7].
  replace after7 with b'; [exact C|]. symmetry. exact (f_equal fst E).
Qed.

Lemma bulk_partial_store_witness :
  exists d' bc', parallelStoreTxAddresses (V := leb) false (open_db ∅, bulk7) = ((d', bc'), Ret tt) /\
    bulk_ok (P := plain_parser) (V := leb) (d', bc').
Proof.
  destruct (bulk_partial_store (P := plain_parser) (V := leb) false (open_db ∅) bulk7 ∅ mem_store_reliable eq_refl bulk7_ok)
    as [(d' & bc' & E & H & _) _].
  exists d', bc'. split; [exact E|exact H].
Defined.

Lemma bulk_Close_consistent_witness :
  exists d' bc' s' i', bulk_Close (P := plain_parser) (V := leb) (J := code_json) 88 (open_db ∅, bulk7) = ((d', bc'), Ret tt) /\
    bulk_closed (P := plain_parser) (V := leb) (J := code_json) (open_db ∅) bulk7 ∅ d' bc' s' i' /\
    exists ad idxs, addresses after7 !! ad = Some idxs.
Proof.
  destruct (bulk_Close_consistent (P := plain_parser) (V := leb) (J := code_json) 88 (open_db ∅) bulk7 ∅
    (newInternalState "Bitcoin") mem_store_reliable eq_refl eq_refl eq_refl bulk7_ok) as (d' & bc' & s' & i' & E & C).
  - split; [|by constructor|cbn; repeat constructor; set_solver]. constructor; [|constructor]. eexists. reflexivity.
  - exists d', bc', s', i'. split; [exact E|]. split; [exact C|].
    destruct (map_to_list (addresses after7)) as [|[ad idxs] l] eqn:El.
    + vm_compute in El. discriminate.
    + exists ad, idxs. apply elem_of_map_to_list. rewrite El. left.
Defined.
