(* ===== verification/Sync.v ===== *)
(** Synchronization of the index with the daemon ([db/sync.go]) and the cache of
    transactions ([db/txcache.go]).

    The daemon answers the same during a call.  The goroutine that reads the chain
    hands the blocks over in order, so that reading and connecting alternate in the
    model.  An interrupt is an argument: it says at which step the signal is seen.  [writeBlocks]
    is what the writer of [ConnectBlocksParallel] does with the blocks in order; that its
    goroutines deliver them so in every interleaving is shown in file [Parallel]. *)
From stdpp Require Import base list gmap strings.
From Stdlib Require Import ZArith Lia.
From S2P Require Import Prelude Types Store Vlq Codec InternalState AddrBalance TxAddresses RocksDB.
From S2P Require Import Hex RocksDBFacts BitcoinParser EthParser BitcoinIndex EthIndex Connect ConnectFacts BulkConnect Mempool.

Open Scope Z_scope.
Open Scope go_scope.

(** The worker with the database it synchronizes; [notified] are the calls of
    [onNewBlock].  The internal state is that of the database. *)
Record SyncWorker `{Store} := mkSyncWorker {
  w_db : RocksDB;
  startHeight : Z;
  startHash : string;
  notified : list (string * Z);
}.

Section sync.
Context `{DB : Store} `{P : BlockChainParser} `{V : Vlq} `{SC : ScriptLib} `{J : StateJson} `{R : BlockChain}.
(** The configuration of the worker. *)
Context (syncWorkers syncChunk : Z) (dryRun : bool).
(** [interrupt n]: the signal is seen before the [n]-th block of a loop. *)
Context (interrupt : nat -> bool) (now : Z).

Abbreviation sync := (sgo SyncWorker).

Definition NewSyncWorker (d : RocksDB) (minStartHeight : Z) : SyncWorker :=
  mkSyncWorker _ d (u32 (if minStartHeight <? 0 then 0 else minStartHeight)) EmptyString [].

Definition set_w_db (d : RocksDB) (w : SyncWorker) : SyncWorker :=
  mkSyncWorker _ d (startHeight w) (startHash w) (notified w).
Definition set_start (h : Z) (hash : string) (w : SyncWorker) : SyncWorker :=
  mkSyncWorker _ (w_db w) h hash (notified w).

Definition on_db {A} (m : sgo RocksDB A) : sync A := fun w =>
  let '(d, r) := m (w_db w) in (set_w_db d w, r).

Definition notify (hash : string) (height : Z) : sync unit := fun w =>
  (mkSyncWorker _ (w_db w) (startHeight w) (startHash w) (notified w ++ [(hash, height)]), Ret tt).

(** ** Sequential synchronization *)

(** [getBlockChain] and the loop of [connectBlocks]; [n] counts the blocks received.
    An interrupt before the first block reads the height of a nil block. *)
Fixpoint connectLoop (fuel : nat) (initialSync : bool) (n : nat) (hash : string) (height : Z) : sync unit :=
  match fuel with
  | O => spanic
  | S f =>
      if initialSync && interrupt n then
        match n with O => spanic | _ => sfail ErrOperationInterrupted end
      else
        match GetBlock hash height with
        | Panic => spanic
        | Fail ErrBlockNotFound => sret tt
        | Fail e => sfail e
        | Ret block =>
            do! on_db (ConnectBlock now block) in
            do! notify (Block.Hash block) (Block.Height block) in
            connectLoop f initialSync (S n) (Block.Next block) (u32 (height + 1))
        end
  end.

Definition connectBlocks (fuel : nat) (initialSync : bool) : sync unit :=
  let! w := sget in connectLoop fuel initialSync O (startHash w) (startHeight w).

(** ** Parallel synchronization *)

(** The pipeline seen from [writeBlockWorker], which gets the blocks in the order of their
    heights; [n] counts the blocks to come and [count] those that are done.

    A signal stops the pipeline after [count] blocks.  The main loop asks again and again
    for a hash the daemon does not give, until the signal.  A worker asks again and again
    for a block the daemon does not give, until all hashes are handed out: when it was the
    last block, the call then returns without it; otherwise the blocks behind it are never
    taken from their channels and the call does not return, which is [Panic] here as it
    is for fuel that has run out.  A block out of order and an error of [ConnectBlock] end
    the process. The result is how the loop was left. *)
Fixpoint writeBlocks (n : nat) (count : nat) (lastBlock keep higher : Z)
    : sgo (RocksDB * BulkConnect) (go unit) :=
  match n with
  | O => sret (Ret tt)
  | S n' =>
      if interrupt count then sret (Fail ErrOperationInterrupted)
      else
        let h := u32 (lastBlock + 1) in
        match chain_GetBlockHash h with
        | Panic => spanic
        | Fail _ => sret (Fail ErrOperationInterrupted)
        | Ret hash =>
            match GetBlock hash h with
            | Panic => spanic
            | Fail _ =>
                if dryRun then writeBlocks n' (S count) h keep higher
                else match n' with O => sret (Ret tt) | _ => spanic end
            | Ret b =>
                if dryRun then writeBlocks n' (S count) h keep higher
                else if negb (Block.Height b =? h) then spanic
                else fun s =>
                  match bulk_ConnectBlock now b (higher <? u32 (Block.Height b + keep)) s with
                  | (s', Ret _) => writeBlocks n' (S count) (Block.Height b) keep higher s'
                  | (s', _) => (s', Panic)
                  end
            end
        end
  end.

(** A failing [InitBulkConnect] leaves a nil bulk connection, whose use panics; an
    error of [Close] is logged only. *)
Definition ConnectBlocksParallel (lower higher : Z) : sgo RocksDB unit := fun d =>
  match InitBulkConnect now d with
  | (d, Ret bc) =>
      match writeBlocks (Z.to_nat (higher - lower + 1)) O (u32 (lower - 1)) (u32 KeepBlockAddresses) higher (d, bc) with
      | (s, Ret r) =>
          match bulk_Close now s with
          | (s, Panic) => (s.1, Panic)
          | (s, _) => (s.1, r)
          end
      | (s, _) => (s.1, Panic)
      end
  | (d, _) => (d, Panic)
  end.

(** ** Forks *)

Definition DisconnectBlocks (lower higher : Z) : sgo RocksDB unit :=
  match GetChainType with
  | ChainBitcoinType => DisconnectBlockRangeBitcoinType lower higher
  | ChainEthereumType => DisconnectBlockRangeEthereumType lower higher
  | ChainOtherType _ => sfail (ErrMsg "Unknown chain type")
  end.

(** The hash the daemon has at a height; none if its chain is shorter. *)
Definition remoteHash (height : Z) : go string :=
  match chain_GetBlockHash height with
  | Fail ErrBlockNotFound => Ret EmptyString
  | r => r
  end.

(** [for height = localBestHeight - 1; height >= 0; height--]: the condition is
    always true of an unsigned height, the loop is left at the first height whose
    hash is the same or which is not indexed. *)
Fixpoint findFork (fuel : nat) (d : RocksDB) (height : Z) : go Z :=
  match fuel with
  | O => Panic
  | S f =>
      let* local := GetBlockHash d height in
      if decide (local = EmptyString) then Ret height
      else
        let* remote := remoteHash height in
        if decide (local = remote) then Ret height
        else findFork f d (u32 (height - 1))
  end.

(** ** [resyncIndex]

    [fuel] bounds the rounds (a round follows a fork or a parallel load) and [blocks]
    the blocks of a sequential round. *)
Fixpoint resyncIndex (fuel blocks : nat) (initialSync : bool) : sync unit :=
  match fuel with
  | O => spanic
  | S f =>
      let! remoteBestHash := slift GetBestBlockHash in
      let! w := sget in
      let! '(localBestHeight, localBestHash) := slift (GetBestBlock (w_db w)) in
      if decide (localBestHash = remoteBestHash) then sfail errSynced
      else
        let! forked :=
          (if decide (localBestHash = EmptyString) then sret false
           else
             let! remote := slift (remoteHash localBestHeight) in
             if decide (remote = localBestHash) then
               do! sput (set_start (u32 (localBestHeight + 1)) (startHash w) w) in sret false
             else sret true) in
        if forked : bool then
          let! height := slift (findFork (S (S (Z.to_nat localBestHeight))) (w_db w)
                                  (u32 (localBestHeight - 1))) in
          do! on_db (DisconnectBlocks (u32 (height + 1)) localBestHeight) in
          resyncIndex f blocks initialSync
        else
          let! w := sget in
          let! hash := slift (chain_GetBlockHash (startHeight w)) in
          do! sput (set_start (startHeight w) hash w) in
          if (1 <? syncWorkers) && initialSync then
            let! remoteBestHeight := slift GetBestBlockHeight in
            if remoteBestHeight <? startHeight w
            then sfail (ErrMsg "resync: remote best height error")
            else if u32 syncChunk <? remoteBestHeight - startHeight w then
              do! on_db (ConnectBlocksParallel (startHeight w) remoteBestHeight) in
              resyncIndex f blocks initialSync
            else connectBlocks blocks initialSync
          else connectBlocks blocks initialSync
  end.

Definition ResyncIndex (fuel blocks : nat) (initialSync : bool) : sync unit :=
  do! on_db (with_is (fun i => Ret (StartedSync i))) in
  fun w =>
    match resyncIndex fuel blocks initialSync w with
    | (w, Ret _) =>
        match GetBestBlock (w_db w) with
        | Ret (bh, _) => on_db (with_is (fun i => Ret (FinishedSync now bh i))) w
        | Fail e => (w, Fail e)
        | Panic => (w, Panic)
        end
    | (w, Fail errSynced) => on_db (with_is (fun i => Ret (FinishedSyncNoChange i))) w
    | r => r
    end.

(** ** The cache of transactions *)

Definition set_Confirmations (c : Z) (tx : Tx.t) : Tx.t :=
  Tx.mk (Tx.Hex tx) (Tx.Txid tx) (Tx.Version tx) (Tx.LockTime tx) (Tx.Vin tx) (Tx.Vout tx) c
    (Tx.Time tx) (Tx.Blocktime tx) (Tx.VShieldIn tx) (Tx.VShieldOut tx) (Tx.ShieldValBal tx)
    (Tx.SpecificData tx).

Context `{E : EthLib}.

(** The height of a confirmed transaction. *)
Definition confirmedHeight (d : RocksDB) (txid : string) (tx : Tx.t) : go Z :=
  match GetChainType with
  | ChainBitcoinType =>
      let* ta := GetTxAddresses d txid in
      match ta with
      | None => GetBestBlockHeight
      | Some ta => Ret (Height ta)
      end
  | ChainEthereumType => GetHeightFromTx tx
  | ChainOtherType _ => Fail (ErrMsg "Unknown chain type")
  end.

(** A failing [PutTx] is only logged. *)
Definition TxCache_GetTransaction (enabled : bool) (txid : string) : sgo RocksDB (Tx.t * Z) :=
  let! d := sget in
  let! cached := slift (if enabled then GetTx d txid else Ret None) in
  match cached with
  | Some (tx, h) =>
      let! i := slift (must (istate d)) in
      sret (set_Confirmations (u32 (u32 (BestHeight i - h) + 1)) tx, h)
  | None =>
      let! tx := slift (GetTransaction txid) in
      if 0 <? Tx.Confirmations tx then
        let! h := slift (confirmedHeight d txid tx) in
        do! (if enabled then
               (fun d => match PutTx now tx h (Tx.Blocktime tx) d with
                         | (d, Fail _) => (d, Ret tt)
                         | r => r
                         end)
             else sret tt) in
        sret (tx, h)
      else sret (tx, 0)
  end.
End sync.

(** * Facts *)

Section facts.
Context `{DB : Store} `{P : BlockChainParser} `{V : Vlq} `{SC : ScriptLib} `{J : StateJson} `{R : BlockChain}.
Context (syncWorkers syncChunk : Z) (dryRun : bool) (interrupt : nat -> bool) (now : Z).

(** The hashes at a height, in the index ([l], empty if the height is not indexed) and
    in the chain of the daemon ([r], empty above its top). *)
Record hashes (d : RocksDB) (l r : Z -> string) : Prop := {
  local_hash : forall h, in_u32 h -> GetBlockHash d h = Ret (l h);
  remote_hash : forall h, in_u32 h -> remoteHash h = Ret (r h);
}.

(** [f] is the last height below [top] at which the chains agree. *)
Definition fork_at (l r : Z -> string) (f top : Z) : Prop :=
  0 <= f < top /\ (l f = EmptyString \/ l f = r f) /\
  forall x, f < x < top -> l x <> EmptyString /\ l x <> r x.

Lemma findFork_spec (d : RocksDB) (l r : Z -> string) : hashes d l r ->
  forall fuel h f, fork_at l r f (h + 1) -> h < 2 ^ 32 -> h - f < Z.of_nat fuel -> findFork fuel d h = Ret f.
Proof.
  intros [Hl Hr]. induction fuel as [|fuel IH]; intros h f ([H0 H1] & Hf & Hd) Hh Hn; [lia|].
  cbn [findFork]. rewrite Hl by (unfold in_u32; lia). gostep.
  destruct (decide (h = f)) as [-> |Hne].
  - case_decide; [done|]. rewrite Hr by (unfold in_u32; lia). gostep. rewrite decide_True; [done|by destruct Hf].
  - destruct (Hd h) as [Hx1 Hx2]; [lia|]. rewrite decide_False by done.
    rewrite Hr by (unfold in_u32; lia). gostep. rewrite decide_False by done.
    rewrite u32_id by (unfold in_u32; lia). apply IH; [|lia|lia].
    split; [lia|]. split; [done|]. intros x Hx. apply Hd. lia.
Qed.

(** The blocks the daemon hands out from a hash and a height on, up to its top. *)
Inductive remote_chain : string -> Z -> list Block.t -> Prop :=
  | rc_end hash h : GetBlock hash h = Fail ErrBlockNotFound -> remote_chain hash h []
  | rc_block hash h b rest : GetBlock hash h = Ret b -> remote_chain (Block.Next b) (u32 (h + 1)) rest ->
      remote_chain hash h (b :: rest).

Definition connectOne (b : Block.t) : sgo SyncWorker unit :=
  do! on_db (ConnectBlock now b) in notify (Block.Hash b) (Block.Height b).

Lemma connectLoop_all hash h bs : remote_chain hash h bs -> forall fuel initialSync n w,
  (forall k, initialSync && interrupt k = false) -> (length bs < fuel)%nat ->
  connectLoop interrupt now fuel initialSync n hash h w = sfor connectOne bs w.
Proof.
  induction 1 as [hash h E|hash h b rest E Hrest IH]; intros fuel initialSync n w Hi Hf;
    (destruct fuel as [|fuel]; simpl in Hf; [lia|]); cbn [connectLoop]; rewrite Hi, E; [done|].
  cbn [sfor]. unfold connectOne at 1. unfold sbind. destruct (on_db (ConnectBlock now b) w) as [w1 [[]|e|]]; [|done..].
  destruct (notify (Block.Hash b) (Block.Height b) w1) as [w2 [[]|e|]]; [|done..]. apply IH; [done|lia].
Qed.
End facts.

(** * Properties *)

Section properties.
Context `{DB : Store} `{P : BlockChainParser} `{V : Vlq} `{SC : ScriptLib} `{J : StateJson} `{R : BlockChain}.
Context (syncWorkers syncChunk : Z) (dryRun : bool) (interrupt : nat -> bool) (now : Z).

(** C10: When the daemon has another block at the height of the local best block,
    [resyncIndex] disconnects exactly the blocks above the last height at which both
    chains agree, however deep the fork is, and then synchronizes again. *)
Theorem resyncIndex_fork (w : SyncWorker) l r f top localHash remoteBest fuel blocks initialSync :
  GetBestBlockHash = Ret remoteBest -> GetBestBlock (w_db w) = Ret (top, localHash) ->
  localHash <> remoteBest -> localHash <> EmptyString -> top < 2 ^ 32 ->
  hashes (w_db w) l r -> r top <> localHash -> fork_at l r f top ->
  resyncIndex syncWorkers syncChunk dryRun interrupt now (S fuel) blocks initialSync w =
  (do! on_db (DisconnectBlocks (f + 1) top) in
   resyncIndex syncWorkers syncChunk dryRun interrupt now fuel blocks initialSync) w.
Proof.
  intros Hrb Hlb Hne1 Hne2 Ht Hh Hr Hf. pose proof Hf as (Hf0 & _).
  cbn [resyncIndex]. rewrite Hrb. unfold sbind at 1, slift at 1. unfold sbind at 1, sget at 1.
  rewrite Hlb. unfold sbind at 1, slift at 1. rewrite decide_False by done.
  unfold sbind at 1. rewrite decide_False by done.
  rewrite (remote_hash _ _ _ Hh) by (unfold in_u32; lia). unfold sbind at 1, slift at 1.
  rewrite decide_False by done. unfold sret at 1.
  rewrite (u32_id (top - 1)) by (unfold in_u32; lia).
  rewrite (findFork_spec (w_db w) l r Hh _ (top - 1) f); [|by replace (top - 1 + 1) with top by lia|lia|lia].
  unfold sbind at 1, slift at 1. by rewrite u32_id by (unfold in_u32; lia).
Qed.

(** C11: Without an interrupt the sequential synchronization ends and connects exactly
    the blocks the daemon has from the start height on, in their order, announcing each
    after it is connected; the first block that cannot be connected stops it. *)
Theorem connectBlocks_all (w : SyncWorker) bs fuel initialSync :
  remote_chain (startHash w) (startHeight w) bs ->
  (forall k, initialSync && interrupt k = false) -> (length bs < fuel)%nat ->
  connectBlocks interrupt now fuel initialSync w = sfor (connectOne now) bs w.
Proof.
  intros Hc Hi Hf. unfold connectBlocks. rewrite (sbind_eq _ _ w w w) by done.
  by apply (connectLoop_all interrupt now (startHash w) (startHeight w)).
Qed.
End properties.

(** ** Concrete runs *)

(** Three indexed blocks; the daemon agrees at height 5 only. *)
Definition hash_at (b : byte) : string := hex_EncodeToString (repeat b 32).

Definition header (b : byte) : bytes := repeat b 32 ++ packUint 9 ++ [Byte.x01; Byte.x01].

Definition forked : kv :=
  <[(cfHeight, packUint 5) := header Byte.x55]>
    (<[(cfHeight, packUint 6) := header Byte.x66]> {[ (cfHeight, packUint 7) := header Byte.x77 ]}).

Definition other_chain : BlockChain := {|
  GetMempoolTransactions := Ret [];
  GetTransactionForMempool _ := Fail (ErrMsg "not found");
  GetTransaction _ := Fail (ErrMsg "not found");
  GetBestBlockHash := Ret (hash_at Byte.x99);
  GetBestBlockHeight := Ret 9;
  chain_GetBlockHash h := Ret (if h =? 5 then hash_at Byte.x55 else hash_at Byte.xee);
  GetBlock _ _ := Fail ErrBlockNotFound;
|}.

Definition local_at (h : Z) : string :=
  match GetBlockHash (P := plain_parser) (V := leb) (open_db forked) h with Ret x => x | _ => EmptyString end.

Definition remote_at (h : Z) : string := if h =? 5 then hash_at Byte.x55 else hash_at Byte.xee.

Lemma forked_readable h : exists x, GetBlockHash (P := plain_parser) (V := leb) (open_db forked) h = Ret x.
Proof.
  unfold GetBlockHash. change (dbGet (open_db forked) cfHeight (packUint h)) with (Ret (forked !! (cfHeight, packUint h))).
  gostep. destruct (forked !! (cfHeight, packUint h)) as [v|] eqn:E; [|by eexists].
  unfold forked in E. apply lookup_insert_Some in E as [[_ <-]|[_ E]]; [by eexists|].
  apply lookup_insert_Some in E as [[_ <-]|[_ E]]; [by eexists|].
  apply lookup_singleton_Some in E as [_ <-]. by eexists.
Qed.

Definition worker (d : RocksDB) (hash : string) : SyncWorker := mkSyncWorker mem_store d 8 hash [].

Lemma resyncIndex_fork_witness :
  resyncIndex (P := plain_parser) (V := leb) (J := code_json) (R := other_chain) 1 1 false (fun _ => false) 77 2 3 false
    (worker (open_db forked) EmptyString) =
  (do! on_db (DisconnectBlocks (P := plain_parser) (V := leb) 6 7) in
   resyncIndex (P := plain_parser) (V := leb) (J := code_json) (R := other_chain) 1 1 false (fun _ => false) 77 1 3 false)
    (worker (open_db forked) EmptyString).
Proof.
  refine (resyncIndex_fork (P := plain_parser) (V := leb) (J := code_json) (R := other_chain) 1 1 false (fun _ => false) 77
    (worker (open_db forked) EmptyString) local_at remote_at 5 7 (hash_at Byte.x77) (hash_at Byte.x99) 1 3 false
    eq_refl _ _ _ _ _ _ _).
  - vm_compute. reflexivity.
  - discriminate.
  - discriminate.
  - reflexivity.
  - split; intros h _; [|reflexivity]. unfold local_at. cbn [w_db worker]. destruct (forked_readable h) as [x ->]. reflexivity.
  - discriminate.
  - split; [lia|]. split; [right; vm_compute; reflexivity|]. intros x Hx. replace x with 6 by lia.
    vm_compute. split; discriminate.
Defined.

(** A daemon with one more block. *)
Definition one_block : BlockChain := {|
  GetMempoolTransactions := Ret [];
  GetTransactionForMempool _ := Fail (ErrMsg "not found");
  GetTransaction _ := Fail (ErrMsg "not found");
  GetBestBlockHash := Ret (Block.Hash block7);
  GetBestBlockHeight := Ret 7;
  chain_GetBlockHash _ := Ret (Block.Hash block7);
  GetBlock hash _ := if decide (hash = Block.Hash block7) then Ret block7 else Fail ErrBlockNotFound;
|}.

Lemma connectBlocks_all_witness :
  connectBlocks (P := plain_parser) (V := leb) (R := one_block) (fun _ => false) 77 2 true
    (worker (open_db ∅) (Block.Hash block7)) =
  sfor (connectOne (P := plain_parser) (V := leb) 77) [block7] (worker (open_db ∅) (Block.Hash block7)).
Proof.
  refine (connectBlocks_all (P := plain_parser) (V := leb) (R := one_block) (fun _ => false) 77
    (worker (open_db ∅) (Block.Hash block7)) [block7] 2 true _ _ _).
  - apply (rc_block (R := one_block)); [vm_compute; reflexivity|]. apply (rc_end (R := one_block)). vm_compute. reflexivity.
  - intros k. reflexivity.
  - apply (bool_decide_unpack _). vm_compute. exact I.
Defined.
