(* ===== verification/Parallel.v ===== *)
(** The goroutines of [ConnectBlocksParallel] ([db/sync.go]) as a transition system: the
    loop that hands out the heights through the buffered channel [hch], the workers that
    fetch the blocks, the writer that connects them, one channel [bch[i]] without buffer
    per worker, the channel [terminating] and the wait group.

    A step is one operation of one goroutine; sending and receiving on a channel without
    buffer is one step of both.  A call of the daemon that fails and is repeated leaves
    the state as it is and is no step; a failure that makes a worker give up is a step of
    its own ([move_giveup]).  What the writer does with a block is a parameter, so that
    the theorems hold for every way of storing; [glog.Fatal] is the state [Crashed].  A dry
    run, in which the workers drop the blocks, is left out. *)
From stdpp Require Import base list gmap relations strings.
From Stdlib Require Import ZArith Lia.
From S2P Require Import Prelude Types Store Vlq RocksDB BitcoinIndex BitcoinParser RocksDBFacts BulkConnect Mempool ConnectFacts Sync.

Open Scope Z_scope.

(** What a worker is doing; [Exited] keeps the height of a block that was not delivered. *)
Inductive goroutine := Idle | Fetching (h : Z) | Sending (h : Z) | Exited (h : option Z).

Definition has_exited (w : goroutine) : Prop := match w with Exited _ => True | _ => False end.
#[global] Instance has_exited_dec w : Decision (has_exited w).
Proof. destruct w; apply _. Defined.

Inductive writerState := Running | Stopped | Crashed.

(** The main goroutine: handing out heights, waiting for the workers after [close(hch)],
    waiting for the writer after the channels [bch] are closed, returned. *)
Inductive mainState := HandingOut | WaitWorkers | WaitWriter | Returned.
#[global] Instance mainState_eq_dec : EqDecision mainState.
Proof. solve_decision. Defined.

Section pipeline.
Context {D : Type} (connect : Z -> D -> option D) (lower higher : Z).

Record pipeline := mkPipeline {
  main : mainState;
  next : Z;
  hch : list Z;
  terminating : bool;
  workers : list goroutine;
  writer : writerState;
  expected : Z;
  stored : D;
}.

Definition syncWorkers (p : pipeline) : Z := zlen (workers p).

Definition start (n : nat) (s : D) : pipeline := mkPipeline HandingOut lower [] false (repeat Idle n) Running lower s.

Definition set_main (m : mainState) (p : pipeline) : pipeline :=
  mkPipeline m (next p) (hch p) (terminating p) (workers p) (writer p) (expected p) (stored p).
Definition set_worker (i : nat) (w : goroutine) (p : pipeline) : pipeline :=
  mkPipeline (main p) (next p) (hch p) (terminating p) (<[i := w]> (workers p)) (writer p) (expected p) (stored p).
Definition set_writer (w : writerState) (p : pipeline) : pipeline :=
  mkPipeline (main p) (next p) (hch p) (terminating p) (workers p) w (expected p) (stored p).

(** The writer gets the block of height [h] from worker [i]. *)
Definition write (i : nat) (h : Z) (p : pipeline) : pipeline :=
  if h =? expected p then
    match connect h (stored p) with
    | Some s => mkPipeline (main p) (next p) (hch p) (terminating p) (<[i := Idle]> (workers p)) (writer p) (h + 1) s
    | None => set_writer Crashed p
    end
  else set_writer Crashed p.

Inductive move (p : pipeline) : pipeline -> Prop :=
  (* hch <- hashHeight{hash, h}; h++ *)
  | move_dispatch : main p = HandingOut -> next p <= higher -> zlen (hch p) < syncWorkers p ->
      move p (mkPipeline (main p) (next p + 1) (hch p ++ [next p]) (terminating p) (workers p) (writer p) (expected p) (stored p))
  (* the signal: close(terminating); close(hch) *)
  | move_interrupt : main p = HandingOut -> next p <= higher ->
      move p (mkPipeline WaitWorkers (next p) (hch p) true (workers p) (writer p) (expected p) (stored p))
  (* all heights are handed out: close(hch) *)
  | move_close : main p = HandingOut -> higher < next p -> move p (set_main WaitWorkers p)
  (* hh := range hch *)
  | move_take i h rest : workers p !! i = Some Idle -> hch p = h :: rest ->
      move p (set_worker i (Fetching h)
                (mkPipeline (main p) (next p) rest (terminating p) (workers p) (writer p) (expected p) (stored p)))
  | move_exit i : workers p !! i = Some Idle -> hch p = [] -> main p <> HandingOut -> move p (set_worker i (Exited None) p)
  (* GetBlock *)
  | move_fetch i h : workers p !! i = Some (Fetching h) ->
      move p (set_worker i (Sending h) p)
  | move_giveup i h : workers p !! i = Some (Fetching h) -> main p <> HandingOut ->
      move p (set_worker i (Exited (Some h)) p)
  (* bch[hh.height % syncWorkers] <- block, received by the writer *)
  | move_deliver i h : workers p !! i = Some (Sending h) -> writer p = Running ->
      h mod syncWorkers p = expected p mod syncWorkers p ->
      move p (write i h p)
  (* <-terminating *)
  | move_terminate i h : workers p !! i = Some (Sending h) -> terminating p = true ->
      move p (set_worker i (Exited (Some h)) p)
  | move_stop : writer p = Running -> terminating p = true -> move p (set_writer Stopped p)
  (* wg.Wait(); close(bch[i]) *)
  | move_join : main p = WaitWorkers -> Forall has_exited (workers p) -> move p (set_main WaitWriter p)
  (* a closed channel: the block is nil *)
  | move_closed : main p = WaitWriter \/ main p = Returned -> writer p = Running -> move p (set_writer Stopped p)
  (* <-writeBlockDone *)
  | move_return : main p = WaitWriter -> writer p = Stopped -> move p (set_main Returned p).

(** A crash ends the process. *)
Definition step (p q : pipeline) : Prop := writer p <> Crashed /\ move p q.

(** A step in which no worker gives up a block the daemon failed to return. *)
Definition good_step (p q : pipeline) : Prop :=
  step p q /\ forall i h, workers p !! i = Some (Fetching h) -> workers q !! i <> Some (Exited (Some h)).

(** ** The invariant *)

(** The height a worker took and did not deliver. *)
Definition holds (w : goroutine) : option Z :=
  match w with Idle => None | Fetching h | Sending h => Some h | Exited o => o end.

(** The first height nobody took. *)
Definition taken (p : pipeline) : Z := next p - zlen (hch p).

Fixpoint connectAll (hs : list Z) (s : D) : option D :=
  match hs with [] => Some s | h :: hs' => match connect h s with Some s' => connectAll hs' s' | None => None end end.

Lemma connectAll_app hs1 hs2 s :
  connectAll (hs1 ++ hs2) s = match connectAll hs1 s with Some s' => connectAll hs2 s' | None => None end.
Proof. revert s. induction hs1 as [|h hs1 IH]; intros s; [done|]. simpl. destruct (connect h s); auto. Qed.

(** The heights from [expected] on that were taken are each held by one worker, the queue
    has those that follow, and the writer stored the blocks before [expected] in order. *)
Record inv (n : nat) (s0 : D) (p : pipeline) : Prop := {
  inv_workers : length (workers p) = n;
  inv_next : next p <= higher + 1;
  inv_queue : hch p = range (taken p) (next p);
  inv_held : omap holds (workers p) ≡ₚ range (expected p) (taken p);
  inv_taken : lower <= expected p <= taken p;
  inv_store : connectAll (range lower (expected p)) s0 = Some (stored p);
  inv_crash : writer p = Crashed -> connectAll (range lower (expected p + 1)) s0 = None;
  inv_closed : main p <> HandingOut -> terminating p = true \/ next p = higher + 1;
  inv_joined : main p = WaitWriter \/ main p = Returned -> Forall has_exited (workers p);
  inv_stopped : writer p = Stopped -> terminating p = true \/ main p = WaitWriter \/ main p = Returned;
  inv_exited : forall i o, workers p !! i = Some (Exited o) -> main p <> HandingOut /\ (is_Some o \/ hch p = []);
  inv_term : terminating p = true -> main p <> HandingOut;
}.

(** ** What one step keeps *)

Lemma insert_Permutation {A} (l : list A) i x y : l !! i = Some x ->
  exists l', l ≡ₚ x :: l' /\ <[i := y]> l ≡ₚ y :: l'.
Proof.
  intros Hx. exists (delete i l). split; [by apply delete_Permutation|].
  rewrite (delete_Permutation (<[i := y]> l) i y) by (apply list_lookup_insert_eq; by eapply lookup_lt_Some).
  f_equiv. revert i Hx. induction l as [|z l IH]; intros [|i] Hx; simplify_eq/=; [done|]. f_equiv. by apply IH.
Qed.

(** A worker changes its state: what is held changes with it. *)
Lemma held_insert ws i w w' : ws !! i = Some w ->
  exists hs, omap holds ws ≡ₚ option_list (holds w) ++ hs /\ omap holds (<[i := w']> ws) ≡ₚ option_list (holds w') ++ hs.
Proof.
  intros Hw. destruct (insert_Permutation ws i w w' Hw) as (l' & H1 & H2). exists (omap holds l').
  split; [rewrite H1; simpl; by destruct (holds w)|rewrite H2; simpl; by destruct (holds w')].
Qed.

Lemma held_same ws i w w' : ws !! i = Some w -> holds w = holds w' -> omap holds (<[i := w']> ws) ≡ₚ omap holds ws.
Proof. intros Hw Hh. destruct (held_insert ws i w w' Hw) as (hs & H1 & H2). by rewrite H1, H2, Hh. Qed.

Lemma omap_le_length {A B} (f : A -> option B) l : (length (omap f l) <= length l)%nat.
Proof. induction l as [|x l IH]; csimpl; [lia|]. destruct (f x); csimpl; lia. Qed.

(** At most as many heights are held as there are workers, so the residue of a height
    tells which one it is. *)
Lemma held_residue n s0 p i h : inv n s0 p -> workers p !! i = Some (Sending h) ->
  h mod syncWorkers p = expected p mod syncWorkers p -> h = expected p.
Proof.
  intros H Hi Hmod. pose proof (inv_held _ _ _ H) as Hp. pose proof (omap_le_length holds (workers p)) as Hl.
  rewrite Hp, range_length in Hl.
  assert (h ∈ range (expected p) (taken p)) as Hr.
  { rewrite <- Hp. apply list_elem_of_omap. exists (Sending h). split; [|done]. by eapply list_elem_of_lookup_2. }
  apply elem_of_range in Hr. unfold syncWorkers, zlen in Hmod. apply lookup_lt_Some in Hi as Hlt.
  set (n' := Z.of_nat (length (workers p))) in *. pose proof (Z.div_mod h n'). pose proof (Z.div_mod (expected p) n').
  assert (h / n' = expected p / n') by nia. nia.
Qed.

Lemma elem_Exited_insert (ws : list goroutine) (i : nat) w (Q : option Z -> Prop) :
  (forall o, w = Exited o -> Q o) -> (forall (j : nat) o, ws !! j = Some (Exited o) -> Q o) ->
  forall (j : nat) o, <[i := w]> ws !! j = Some (Exited o) -> Q o.
Proof. intros H1 H2 j o [(-> & E & _)|[_ Hj]]%list_lookup_insert_Some; [by apply H1|by eapply H2]. Qed.

Lemma inv_start n s : lower <= higher + 1 -> inv n s (start n s).
Proof.
  intros Hlh. split; simpl; rewrite ?zlen_nil, ?Z.sub_0_r; unfold taken; simpl; rewrite ?zlen_nil, ?Z.sub_0_r, ?range_nil by lia; try done; try lia.
  - apply repeat_length.
  - induction n; simpl; done.
  - by intros [|].
  - intros i o Hi. apply list_elem_of_lookup_2, list_elem_of_In, repeat_spec in Hi. done.
Qed.

Lemma not_joined n s0 p i w : inv n s0 p -> workers p !! i = Some w -> (forall o, w <> Exited o) ->
  ~ (main p = WaitWriter \/ main p = Returned).
Proof.
  intros H Hi Hw Hm. pose proof (inv_joined _ _ _ H Hm) as Hj. rewrite Forall_lookup in Hj.
  specialize (Hj i w Hi). destruct w as [| | |o]; try done. by apply (Hw o).
Qed.

(** Only the state of one worker changes, and what it holds stays or is given up. *)
Lemma inv_worker n s0 p i w w' : inv n s0 p -> workers p !! i = Some w -> (forall o, w <> Exited o) -> holds w = holds w' ->
  (forall o, w' = Exited o -> main p <> HandingOut /\ (is_Some o \/ hch p = [])) -> inv n s0 (set_worker i w' p).
Proof.
  intros H Hi Hw Hh He. pose proof (not_joined _ _ _ _ _ H Hi Hw) as Hj. destruct H as [H1 H2 H3 H4 H5 H6 H7 H8 H9 H10 H11 H12].
  split; simpl; try done.
  - by rewrite length_insert.
  - by rewrite (held_same _ _ _ _ Hi Hh).
  - apply elem_Exited_insert; [exact He|exact H11].
Qed.

Lemma inv_writer n s0 p w : inv n s0 p -> w <> Crashed ->
  (w = Stopped -> terminating p = true \/ main p = WaitWriter \/ main p = Returned) -> inv n s0 (set_writer w p).
Proof. intros [H1 H2 H3 H4 H5 H6 H7 H8 H9 H10 H11 H12] Hw Hs. by split. Qed.

Lemma inv_deliver n s0 p i h : inv n s0 p -> workers p !! i = Some (Sending h) -> writer p = Running ->
  h mod syncWorkers p = expected p mod syncWorkers p -> inv n s0 (write i h p).
Proof.
  intros H Hi Hr Hmod. pose proof (held_residue _ _ _ _ _ H Hi Hmod) as ->.
  pose proof (not_joined _ _ _ _ _ H Hi ltac:(done)) as Hj. destruct H as [H1 H2 H3 H4 H5 H6 H7 H8 H9 H10 H11 H12].
  destruct (held_insert _ _ _ Idle Hi) as (hs & P1 & P2). simpl in P1, P2. rewrite H4 in P1.
  assert (expected p ∈ range (expected p) (taken p)) as Hin by (rewrite P1; by constructor). apply elem_of_range in Hin.
  rewrite range_cons in P1 by lia. apply Permutation_cons_inv in P1.
  assert (connectAll (range lower (expected p + 1)) s0 = connect (expected p) (stored p)) as Hc.
  { rewrite range_snoc, connectAll_app, H6 by lia. simpl. by destruct (connect (expected p) (stored p)). }
  unfold write. rewrite Z.eqb_refl. destruct (connect (expected p) (stored p)) as [s'|] eqn:Ec; split; simpl; try done.
  - by rewrite length_insert.
  - by rewrite P2, <- P1.
  - unfold taken in *. simpl. lia.
  - intros E. by rewrite E in Hr.
  - apply elem_Exited_insert; [done|exact H11].
Qed.

Lemma inv_take n s0 p i h rest : inv n s0 p -> workers p !! i = Some Idle -> hch p = h :: rest ->
  inv n s0 (set_worker i (Fetching h)
              (mkPipeline (main p) (next p) rest (terminating p) (workers p) (writer p) (expected p) (stored p))).
Proof.
  intros H Hi Hq. pose proof (not_joined _ _ _ _ _ H Hi ltac:(done)) as Hj.
  destruct H as [H1 H2 H3 H4 H5 H6 H7 H8 H9 H10 H11 H12].
  assert (taken p < next p) as Hlt by (unfold taken; rewrite Hq, zlen_cons; pose proof (zlen_nonneg rest); lia).
  rewrite Hq, range_cons in H3 by done. injection H3 as -> Hr.
  destruct (held_insert _ _ _ (Fetching (taken p)) Hi) as (hs & P1 & P2). simpl in P1, P2.
  match goal with |- inv _ _ ?q => assert (taken q = taken p + 1) as Ht
    by (unfold taken at 1; simpl; unfold taken; rewrite Hq, zlen_cons; lia) end.
  split; simpl; rewrite ?Ht; try done.
  - by rewrite length_insert.
  - rewrite P2, <- P1, H4, range_snoc by lia. by rewrite Permutation_app_comm.
  - lia.
  - apply elem_Exited_insert; [done|]. intros j o Hj'. apply H11 in Hj' as [? [?|E]]; [auto|]. by rewrite Hq in E.
Qed.

Lemma inv_step n s0 p q : inv n s0 p -> step p q -> inv n s0 q.
Proof.
  intros H [Hal M]. destruct M as [Hm Hn Hz|Hm Hn|Hm Hn|i h rest Hi Hq|i Hi Hq Hm|i h Hi|i h Hi Hm|i h Hi Hw Hmod|i h Hi Ht|Hw Ht|Hm Hf|Hm Hw|Hm Hw].
  - assert (taken (mkPipeline (main p) (next p + 1) (hch p ++ [next p]) (terminating p) (workers p) (writer p) (expected p) (stored p)) = taken p) as Ht
      by (unfold taken; simpl; rewrite zlen_app; change (zlen [next p]) with 1; lia).
    destruct H as [H1 H2 H3 H4 H5 H6 H7 H8 H9 H10 H11 H12]. split; simpl; rewrite ?Ht; try done; [lia| |].
    + rewrite range_snoc, <- H3; [done|]. unfold taken. pose proof (zlen_nonneg (hch p)). lia.
    + intros i o Hi. by apply H11 in Hi as [? _].
  - destruct H as [H1 H2 H3 H4 H5 H6 H7 H8 H9 H10 H11 H12]. split; simpl; auto; [by intros [|]|].
    intros i o Hi. by apply H11 in Hi as [? _].
  - destruct H as [H1 H2 H3 H4 H5 H6 H7 H8 H9 H10 H11 H12]. split; simpl; auto; [intros _; right; lia|by intros [|]| |].
    + intros [?|[?|?]]%H10; [by left|congruence..].
    + intros i o Hi. by apply H11 in Hi as [? _].
  - by apply (inv_take n s0 p i h rest).
  - apply (inv_worker _ _ _ _ Idle); auto.
  - by apply (inv_worker _ _ _ _ (Fetching h)).
  - apply (inv_worker _ _ _ _ (Fetching h)); [done..|]. intros o [= <-]. eauto.
  - by apply inv_deliver.
  - apply (inv_worker _ _ _ _ (Sending h)); [done..|]. intros o [= <-]. split; [by apply (inv_term _ _ _ H)|eauto].
  - apply inv_writer; auto.
  - destruct H as [H1 H2 H3 H4 H5 H6 H7 H8 H9 H10 H11 H12]. split; simpl; auto; [intros _; apply H8; congruence|].
    intros i o Hi. apply H11 in Hi as [? ?]. auto.
  - apply inv_writer; [done|done|]. tauto.
  - destruct H as [H1 H2 H3 H4 H5 H6 H7 H8 H9 H10 H11 H12]. split; simpl; auto; [intros _; apply H8; congruence|].
    intros i o Hi. apply H11 in Hi as [? ?]. auto.
Qed.

(** ** Termination *)

Definition weight (w : goroutine) : nat :=
  match w with Idle => 1 | Fetching _ => 3 | Sending _ => 2 | Exited _ => 0 end.

Definition measure (p : pipeline) : nat :=
  5 * Z.to_nat (higher + 1 - next p) + 4 * length (hch p) + sum_list (map weight (workers p)) +
  match main p with HandingOut => 3 | WaitWorkers => 2 | WaitWriter => 1 | Returned => 0 end +
  match writer p with Running => 1 | _ => 0 end.

Lemma weight_insert (ws : list goroutine) i w w' : ws !! i = Some w ->
  (sum_list (map weight (<[i := w']> ws)) + weight w = sum_list (map weight ws) + weight w')%nat.
Proof.
  revert i. induction ws as [|x ws IH]; intros [|i] Hi; simplify_eq/=; [lia|]. specialize (IH i Hi). lia.
Qed.

Lemma measure_worker p i w w' : workers p !! i = Some w -> (weight w' < weight w)%nat ->
  (measure (set_worker i w' p) < measure p)%nat.
Proof.
  intros Hi Hw. pose proof (weight_insert _ _ _ w' Hi). unfold measure. cbn [set_worker next hch main writer workers]. lia.
Qed.

Lemma step_measure p q : step p q -> (measure q < measure p)%nat.
Proof.
  intros [Hal M]. destruct M as [Hm Hn Hz|Hm Hn|Hm Hn|i h rest Hi Hq|i Hi Hq Hm|i h Hi|i h Hi Hm|i h Hi Hw Hmod|i h Hi Ht|Hw Ht|Hm Hf|Hm Hw|Hm Hw].
  all: try (eapply measure_worker; [done|simpl; lia]).
  all: try (unfold measure; simpl; rewrite ?Hm, ?Hw; lia).
  - unfold measure. simpl. rewrite length_app. simpl. lia.
  - unfold measure. cbn [set_worker next hch main writer workers]. rewrite Hq. cbn [length].
    pose proof (weight_insert _ _ _ (Fetching h) Hi). simpl in *. lia.
  - pose proof (weight_insert _ _ _ Idle Hi) as Hwt. unfold write.
    destruct (h =? expected p); [destruct (connect h (stored p))|]; unfold measure; simpl in *; rewrite ?Hw; lia.
Qed.

Lemma run_bound k p q : nsteps step k p q -> (k + measure q <= measure p)%nat.
Proof. induction 1 as [|k p p' q Hs _ IH]; [lia|]. apply step_measure in Hs. lia. Qed.

(** ** Progress *)

Definition lossless (p : pipeline) : Prop :=
  terminating p = false -> forall i h, workers p !! i <> Some (Exited (Some h)).

Lemma lossless_step p q : lossless p -> good_step p q -> lossless q.
Proof.
  intros HL [[Hal M] Hg].
  assert (forall i w, (forall h, w <> Exited (Some h)) -> terminating p = false ->
    forall j h, <[i := w]> (workers p) !! j <> Some (Exited (Some h))) as Hins.
  { intros i w Hw Ht j h [(-> & E & _)|[_ Hj]]%list_lookup_insert_Some; [by apply (Hw h)|by apply (HL Ht j h)]. }
  destruct M as [Hm Hn Hz|Hm Hn|Hm Hn|i h rest Hi Hq|i Hi Hq Hm|i h Hi|i h Hi Hm|i h Hi Hw Hmod|i h Hi Ht|Hw Ht|Hm Hf|Hm Hw|Hm Hw];
    unfold lossless; simpl; try done; try (by apply Hins).
  - exfalso. apply (Hg i h Hi). simpl. apply list_lookup_insert_eq. by eapply lookup_lt_Some.
  - unfold write. destruct (h =? expected p); [destruct (connect h (stored p))|]; simpl; try done. by apply Hins.
  - intros E. congruence.
Qed.

Lemma good_same p q : writer p <> Crashed -> move p q -> workers q = workers p -> good_step p q.
Proof. intros Hal M E. split; [done|]. intros i h Hi. rewrite E, Hi. done. Qed.

Lemma good_insert p q i w' : writer p <> Crashed -> move p q -> workers q = <[i := w']> (workers p) ->
  (forall h, workers p !! i = Some (Fetching h) -> w' <> Exited (Some h)) -> good_step p q.
Proof.
  intros Hal M E Hw. split; [done|]. intros j h Hj Hq. rewrite E in Hq.
  apply list_lookup_insert_Some in Hq as [(-> & Ew & _)|[_ Hq]]; [|congruence]. by apply (Hw h Hj).
Qed.

(** All blocks of the range can be stored one after the other. *)
Definition storable (s0 : D) : Prop := connectAll (range lower (higher + 1)) s0 <> None.

Lemma storable_next n s0 p : inv n s0 p -> storable s0 -> expected p < taken p -> connect (expected p) (stored p) <> None.
Proof.
  intros H Hc Ht E. apply Hc. pose proof (inv_taken _ _ _ H). pose proof (inv_next _ _ _ H).
  assert (taken p <= next p) by (unfold taken; pose proof (zlen_nonneg (hch p)); lia).
  rewrite (range_app lower (expected p + 1)), connectAll_app, range_snoc, connectAll_app, (inv_store _ _ _ H) by lia.
  simpl. by rewrite E.
Qed.

Lemma held_range n s0 p i w h : inv n s0 p -> workers p !! i = Some w -> holds w = Some h -> expected p <= h < taken p.
Proof.
  intros H Hi Hh. apply elem_of_range. rewrite <- (inv_held _ _ _ H). apply list_elem_of_omap. exists w.
  split; [by eapply list_elem_of_lookup_2|done].
Qed.

(** A worker that is neither idle with an empty open queue nor waiting for another one can go on. *)
Lemma worker_progress n s0 p i w : inv n s0 p -> lossless p -> writer p <> Crashed -> storable s0 ->
  workers p !! i = Some w -> (forall o, w <> Exited o) -> w <> Idle \/ hch p <> [] \/ main p <> HandingOut ->
  exists q, good_step p q.
Proof.
  intros H HL Hal Hc Hi Hw Hready. destruct w as [|h|h|o]; [| | |by destruct (Hw o)].
  - destruct (hch p) as [|h rest] eqn:Eq.
    + eexists. eapply (good_insert _ _ i (Exited None)); [done|apply (move_exit _ i Hi Eq)|done|done]. naive_solver.
    + eexists. eapply (good_insert _ _ i (Fetching h)); [done|apply (move_take _ i h rest Hi Eq)|done|done].
  - eexists. eapply (good_insert _ _ i (Sending h)); [done|apply (move_fetch _ i h Hi)|done|done].
  - destruct (terminating p) eqn:Et.
    { eexists. eapply (good_insert _ _ i (Exited (Some h))); [done|apply (move_terminate _ i h Hi Et)|done|]. rewrite Hi. done. }
    pose proof (not_joined _ _ _ _ _ H Hi Hw) as Hj.
    assert (writer p = Running) as Hr.
    { destruct (writer p) eqn:Ew; [done| |done]. exfalso. destruct (inv_stopped _ _ _ H Ew) as [?|?]; [congruence|done]. }
    pose proof (held_range _ _ _ _ _ h H Hi eq_refl) as Hin.
    assert (exists j w, workers p !! j = Some w /\ holds w = Some (expected p)) as (j & w & Hjw & Hh).
    { assert (expected p ∈ range (expected p) (taken p)) as Hex by (apply elem_of_range; lia).
      rewrite <- (inv_held _ _ _ H) in Hex. apply list_elem_of_omap in Hex as (w & [j Hj']%list_elem_of_lookup & Hh). eauto. }
    destruct w as [|h'|h'|o]; simplify_eq/=.
    + eexists. eapply (good_insert _ _ j (Sending (expected p))); [done|apply (move_fetch _ j _ Hjw)|done|done].
    + eexists. eapply (good_insert _ (write j (expected p) p) j Idle); [done|by apply (move_deliver _ j _ Hjw Hr)| |done].
      unfold write. rewrite Z.eqb_refl. pose proof (storable_next _ _ _ H Hc ltac:(lia)) as Hst.
      by destruct (connect (expected p) (stored p)).
    + by destruct (HL Et j (expected p)).
Qed.

Lemma progress n s0 p : inv n s0 p -> lossless p -> writer p <> Crashed -> (0 < n)%nat -> storable s0 ->
  main p <> Returned -> exists q, good_step p q.
Proof.
  intros H HL Hal Hn Hc Hm.
  assert (workers p <> []) as Hne by (intros E; pose proof (inv_workers _ _ _ H) as Hl; rewrite E in Hl; simpl in Hl; lia).
  destruct (main p) eqn:Em; [| | |done].
  - destruct (hch p) as [|h rest] eqn:Eq.
    + destruct (decide (next p <= higher)).
      * eexists. apply good_same; [done|apply move_dispatch; [done|done|]|done].
        rewrite Eq. unfold syncWorkers. rewrite zlen_nil. pose proof (inv_workers _ _ _ H). unfold zlen. lia.
      * eexists. apply good_same; [done|apply move_close; [done|lia]|done].
    + destruct (workers p) as [|w ws] eqn:Ew; [done|]. apply (worker_progress n s0 p 0 w); auto; [by rewrite Ew| |].
      * intros o ->. destruct (inv_exited _ _ _ H 0%nat o) as [? _]; [by rewrite Ew|]. done.
      * right; left. by rewrite Eq.
  - destruct (decide (Forall has_exited (workers p))) as [Hall|Hall].
    + eexists. apply good_same; [done|by apply move_join|done].
    + apply not_Forall_Exists, Exists_exists in Hall as (w & [i Hi]%list_elem_of_lookup & Hw); [|apply _].
      apply (worker_progress n s0 p i w); auto; [intros o ->; by apply Hw|]. right; right. by rewrite Em.
  - destruct (writer p) eqn:Ew; [| |done].
    + eexists. apply good_same; [by rewrite Ew|apply move_closed; auto|done].
    + eexists. apply good_same; [by rewrite Ew|apply move_return; auto|done].
Qed.

Lemma alive_step n s0 p q : inv n s0 p -> storable s0 -> writer p <> Crashed -> step p q -> writer q <> Crashed.
Proof.
  intros H Hc Hal [_ M]. destruct M as [| | | | | | |i h Hi Hw Hmod| | | | |]; simpl; try done. unfold write.
  rewrite (held_residue _ _ _ _ _ H Hi Hmod), Z.eqb_refl. pose proof (held_range _ _ _ _ _ h H Hi eq_refl).
  pose proof (storable_next _ _ _ H Hc ltac:(lia)) as Hst. by destruct (connect (expected p) (stored p)).
Qed.

Lemma reach_good n s0 p : lower <= higher + 1 -> rtc good_step (start n s0) p ->
  inv n s0 p /\ lossless p /\ (storable s0 -> writer p <> Crashed).
Proof.
  intros Hlh Hr.
  refine (rtc_ind_r (fun p => inv n s0 p /\ lossless p /\ (storable s0 -> writer p <> Crashed)) (start n s0) _ _ p Hr).
  - split; [by apply inv_start|]. split; [|done]. intros _ i h Hi.
    apply list_elem_of_lookup_2, list_elem_of_In, repeat_spec in Hi. done.
  - intros q r _ Hs (H1 & H2 & H3). split; [by eapply inv_step, Hs|]. split; [by eapply lossless_step|].
    intros Hc. eapply alive_step; [done|done|by apply H3|apply Hs].
Qed.

Lemma reach_returned p n s0 : inv n s0 p -> lossless p -> (0 < n)%nat -> main p = Returned -> terminating p = false ->
  connectAll (range lower (higher + 1)) s0 = Some (stored p).
Proof.
  intros H HL Hn Hm Ht. pose proof (inv_joined _ _ _ H (or_intror Hm)) as Hj.
  assert (forall i w, workers p !! i = Some w -> w = Exited None) as Hex.
  { intros i w Hi. rewrite Forall_lookup in Hj. specialize (Hj i w Hi). destruct w as [| | |[h|]]; try done.
    by destruct (HL Ht i h). }
  assert (hch p = []) as Hq.
  { destruct (workers p) as [|w ws] eqn:Ew; [pose proof (inv_workers _ _ _ H) as Hl; rewrite Ew in Hl; simpl in Hl; lia|].
    destruct (inv_exited _ _ _ H 0%nat None) as [_ [[? [=]]|?]]; [|done]. rewrite Ew. simpl. f_equal. by apply (Hex 0%nat). }
  assert (range (expected p) (taken p) = []) as Hr.
  { symmetry. apply Permutation_nil_l. rewrite <- (inv_held _ _ _ H).
    assert (omap holds (workers p) = []) as ->; [|done]. clear -Hex. induction (workers p) as [|w ws IH]; [done|].
    rewrite (Hex 0%nat w eq_refl). csimpl. apply IH. intros i. apply (Hex (S i)). }
  pose proof (inv_taken _ _ _ H). apply (f_equal length) in Hr. rewrite range_length in Hr. simpl in Hr.
  destruct (inv_closed _ _ _ H) as [?|Hnx]; [congruence|congruence|].
  unfold taken in *. rewrite Hq, zlen_nil in *. replace (higher + 1) with (expected p) by lia. apply (inv_store _ _ _ H).
Qed.

Lemma reaches_end n s0 p : lower <= higher + 1 -> (0 < n)%nat -> storable s0 ->
  inv n s0 p -> lossless p -> writer p <> Crashed -> exists q, rtc good_step p q /\ main q = Returned.
Proof.
  intros Hlh Hn Hc. induction p as [p IH] using (induction_ltof1 _ measure). intros H HL Hal.
  destruct (decide (main p = Returned)) as [Hm|Hm]; [by exists p|].
  destruct (progress n s0 p H HL Hal Hn Hc Hm) as [q Hq]. pose proof Hq as [Hs _].
  destruct (IH q) as (r & Hr & Hmr); [by apply step_measure| | | |].
  - by eapply inv_step.
  - by eapply lossless_step.
  - by eapply alive_step.
  - exists r. split; [by eapply rtc_l|done].
Qed.
End pipeline.

(** * Properties *)

(** C15: Whatever the order in which the goroutines run, and whether or not the run is
    interrupted or the daemon fails, the writer has stored exactly the blocks from
    [lower] on up to the one it waits for, in the order of their heights, and the process
    ends early only if storing a block fails: a block never arrives out of order. *)
Theorem pipeline_ordered {D} (connect : Z -> D -> option D) lower higher n s0 p :
  lower <= higher + 1 -> rtc (step connect higher) (start lower n s0) p ->
  connectAll connect (range lower (expected p)) s0 = Some (stored p) /\ lower <= expected p <= higher + 1 /\
  (writer p = Crashed -> connect (expected p) (stored p) = None).
Proof.
  intros Hlh Hr. assert (inv connect lower higher n s0 p) as H.
  { refine (rtc_ind_r (inv connect lower higher n s0) (start lower n s0) _ _ p Hr); [by apply inv_start|].
    intros q r _ Hs Hq. by eapply inv_step. }
  pose proof (inv_store _ _ _ _ _ _ H) as Hs. pose proof (inv_taken _ _ _ _ _ _ H) as Ht. pose proof (inv_next _ _ _ _ _ _ H).
  split; [done|]. split; [unfold taken in Ht; pose proof (zlen_nonneg (hch p)); lia|]. intros Hc.
  apply (inv_crash _ _ _ _ _ _ H) in Hc. rewrite range_snoc, connectAll_app, Hs in Hc by lia. simpl in Hc.
  by destruct (connect (expected p) (stored p)).
Qed.

(** C16: The goroutines do not block each other: as long as the daemon returns the blocks
    and storing them succeeds, from every state the call can be continued until it
    returns, every run is finite, and a call that returns without having been interrupted
    has stored all blocks of the range in order. *)
Theorem pipeline_live {D} (connect : Z -> D -> option D) lower higher n s0 p :
  lower <= higher + 1 -> (0 < n)%nat -> storable connect lower higher s0 ->
  rtc (good_step connect higher) (start lower n s0) p ->
  (exists q, rtc (good_step connect higher) p q /\ main q = Returned) /\
  (main p = Returned -> terminating p = false -> connectAll connect (range lower (higher + 1)) s0 = Some (stored p)) /\
  (forall k q, nsteps (step connect higher) k (start lower n s0) q -> (k <= measure higher (start lower n s0))%nat).
Proof.
  intros Hlh Hn Hc Hr. destruct (reach_good connect lower higher n s0 p Hlh Hr) as (H & HL & Hal).
  split; [apply (reaches_end connect lower higher n s0); auto|]. split.
  - intros Hm Ht. by apply (reach_returned connect lower higher p n s0).
  - intros k q Hk. apply run_bound in Hk. lia.
Qed.

(** ** The sequential model of the writer *)

Section refinement.
Context `{DB : Store} `{P : BlockChainParser} `{V : Vlq} `{SC : ScriptLib} `{J : StateJson} `{R : BlockChain}.
Context (now keep higher : Z).

(** What the writer does with the block of a height. *)
Definition storeBlock (h : Z) (s : RocksDB * BulkConnect) : option (RocksDB * BulkConnect) :=
  match (let* hash := chain_GetBlockHash h in GetBlock hash h)%go with
  | Ret b =>
      if Block.Height b =? h then
        match bulk_ConnectBlock now b (higher <? u32 (Block.Height b + keep)) s with
        | (s', Ret _) => Some s'
        | _ => None
        end
      else None
  | _ => None
  end.

Lemma writeBlocks_connectAll n : forall count last s s', in_u32 (u32 (last + 1) + Z.of_nat n) ->
  connectAll storeBlock (range (u32 (last + 1)) (u32 (last + 1) + Z.of_nat n)) s = Some s' ->
  writeBlocks false (fun _ => false) now n count last keep higher s = (s', Ret (Ret tt)).
Proof.
  induction n as [|n IH]; intros count last s s' Hn Hall.
  - rewrite range_nil in Hall by lia. by injection Hall as ->.
  - rewrite range_cons in Hall by lia. cbn [connectAll] in Hall. unfold storeBlock at 1 in Hall. cbn [writeBlocks].
    set (h := u32 (last + 1)) in *.
    destruct (chain_GetBlockHash h) as [hash| |]; [|done..]. cbn [go_bind] in Hall.
    destruct (GetBlock hash h) as [b| |]; [|done..].
    destruct (Z.eqb_spec (Block.Height b) h) as [Eh|]; [|done]. cbn [negb].
    destruct (bulk_ConnectBlock now b _ s) as [s1 [u| |]]; [|done..].
    assert (u32 (Block.Height b + 1) = h + 1) as Eu
      by (rewrite Eh; apply u32_id; pose proof (u32_range (last + 1)) as Hr; fold h in Hr; unfold in_u32 in *; lia).
    apply IH; rewrite Eu; [unfold in_u32 in *; lia|]. by replace (h + 1 + Z.of_nat n) with (h + Z.of_nat (S n)) by lia.
Qed.

(** C17: The sequential model of the import is what the goroutines do: every run of the
    goroutines that returns without an interrupt leaves the database and the bulk
    connection as [writeBlocks] leaves them, which fetches and connects the blocks one
    after the other. *)
Theorem pipeline_refines n lower s0 p :
  0 <= lower <= higher + 1 -> higher + 1 < 2 ^ 32 -> (0 < n)%nat ->
  rtc (good_step storeBlock higher) (start lower n s0) p -> main p = Returned -> terminating p = false ->
  writeBlocks false (fun _ => false) now (Z.to_nat (higher - lower + 1)) O (u32 (lower - 1)) keep higher s0 =
  (stored p, Ret (Ret tt)).
Proof.
  intros Hl Hh Hn Hr Hm Ht. destruct (reach_good storeBlock lower higher n s0 p) as (H & HL & _); [lia|done|].
  pose proof (reach_returned storeBlock lower higher p n s0 H HL Hn Hm Ht) as Hall.
  assert (u32 (u32 (lower - 1) + 1) = lower) as El.
  { unfold u32. rewrite Z.add_mod_idemp_l by lia. replace (lower - 1 + 1) with lower by lia. apply Z.mod_small. lia. }
  apply writeBlocks_connectAll; rewrite El.
  - unfold in_u32. lia.
  - by replace (lower + Z.of_nat (Z.to_nat (higher - lower + 1))) with (higher + 1) by lia.
Qed.
End refinement.

(** ** A lost block *)

(** A worker that gives up a block after all heights are handed out can block the call
    for ever: with two workers, when the daemon fails to return block 1 while block 2 is
    fetched, nothing can happen any more, and the call has not returned. *)
Theorem lost_block_blocks {D} (s : D) :
  let connect (h : Z) (s : D) := Some s in
  exists p, rtc (step connect 2) (start 1 2 s) p /\ main p = WaitWorkers /\ expected p = 1 /\
    forall q, ~ step connect 2 p q.
Proof.
  intros connect. exists (mkPipeline WaitWorkers 3 [] false [Exited (Some 1); Sending 2] Running 1 s). split.
  - eapply rtc_l; [split; [|apply move_dispatch]; done|]. eapply rtc_l; [split; [|apply (move_take _ _ _ 0 1 [])]; done|].
    eapply rtc_l; [split; [|apply move_dispatch]; done|]. eapply rtc_l; [split; [|apply (move_take _ _ _ 1 2 [])]; done|].
    eapply rtc_l; [split; [|apply move_close]; done|]. eapply rtc_l; [split; [|apply (move_giveup _ _ _ 0 1)]; done|].
    eapply rtc_l; [split; [|apply (move_fetch _ _ _ 1 2)]; done|]. constructor.
  - split; [done|]. split; [done|]. intros q [_ M].
    inversion M as [| | |[|[|]] ? ? E|[|[|]] E|[|[|]] ? E|[|[|]] ? E|[|[|]] ? E ? Hmod|[|[|]] ? E Ht| |Hm Hf|[|] |]; simplify_eq/=; try done.
    rewrite !Forall_cons in Hf. by destruct Hf as (_ & [] & _).
Qed.

(** ** Concrete runs *)

(** One worker, one block: a run until the call returns. *)
Lemma one_run {D} (connect : Z -> D -> option D) h s0 s1 : connect h s0 = Some s1 ->
  rtc (good_step connect h) (start h 1 s0) (mkPipeline Returned (h + 1) [] false [Exited None] Stopped (h + 1) s1).
Proof.
  intros Hc.
  eapply rtc_l; [apply good_same; [|apply move_dispatch|]; simpl; done || lia|].
  eapply rtc_l; [apply (good_insert _ _ _ _ 0 (Fetching h)); [|apply (move_take _ _ _ 0 h [])| |]; done|].
  eapply rtc_l; [apply (good_insert _ _ _ _ 0 (Sending h)); [|apply (move_fetch _ _ _ 0 h)| |]; done|].
  eapply rtc_l; [apply (good_insert _ _ _ _ 0 Idle); [done|apply (move_deliver _ _ _ 0 h); done|unfold write; simpl; by rewrite Z.eqb_refl, Hc|done]|].
  unfold write. simpl. rewrite Z.eqb_refl, Hc.
  eapply rtc_l; [apply good_same; [|apply move_close|]; simpl; done || lia|].
  eapply rtc_l; [apply (good_insert _ _ _ _ 0 (Exited None)); [|apply (move_exit _ _ _ 0)| |]; done|].
  eapply rtc_l; [apply good_same; [|apply move_join; [done|by repeat constructor]|]; done|].
  eapply rtc_l; [apply good_same; [|apply move_closed; [by left|]|]; done|].
  eapply rtc_l; [apply good_same; [|apply move_return|]; done|]. constructor.
Qed.

Lemma pipeline_live_witness :
  connectAll (fun h l => Some (l ++ [h])) (range 5 6) [] = Some [5].
Proof.
  destruct (pipeline_live (fun h l => Some (l ++ [h])) 5 5 1 [] _ ltac:(lia) ltac:(lia) ltac:(discriminate)
    (one_run (fun h l => Some (l ++ [h])) 5 [] [5] eq_refl)) as (_ & H & _).
  exact (H eq_refl eq_refl).
Defined.

Lemma pipeline_ordered_witness :
  5 <= expected (mkPipeline Returned 6 [] false [Exited None] Stopped 6 [5]) <= 6.
Proof.
  destruct (pipeline_ordered (fun h l => Some (l ++ [h])) 5 5 1 [] (mkPipeline Returned 6 [] false [Exited None] Stopped 6 [5]))
    as (_ & H & _); [lia| |exact H].
  refine (rtc_subrel _ _ _ _ _ (one_run (fun h l => Some (l ++ [h])) 5 [] [5] eq_refl)). intros p q [Hs _]. exact Hs.
Defined.

(** Block 7 with one worker. *)
Definition store7 (s : RocksDB * BulkConnect) : option (RocksDB * BulkConnect) :=
  storeBlock (P := plain_parser) (V := leb) (R := one_block) 77 3 7 7 s.

Definition before7 : RocksDB * BulkConnect := (open_db ∅, mkBulk (before (open_db ∅)) ∅ [] 0 0).

Lemma store7_ok : exists s1, store7 before7 = Some s1.
Proof.
  assert ((match store7 before7 with Some _ => true | None => false end) = true) as H by (vm_compute; reflexivity).
  destruct (store7 before7) as [s1|]; [by exists s1|discriminate].
Qed.

Lemma pipeline_refines_witness :
  exists s1, writeBlocks (P := plain_parser) (V := leb) (R := one_block) false (fun _ => false) 77 1 O (u32 (7 - 1)) 3 7 before7 =
    (s1, Ret (Ret tt)).
Proof.
  destruct store7_ok as [s1 E]. exists s1.
  refine (pipeline_refines (P := plain_parser) (V := leb) (R := one_block) 77 3 7 1 7 before7
    (mkPipeline Returned 8 [] false [Exited None] Stopped 8 s1) _ _ _ (one_run _ 7 before7 s1 E) eq_refl eq_refl); lia.
Defined.
