(* ===== verification/GoSort.v ===== *)
(** [sort.Stable] of the standard library of Go, as the API uses it on the history and
    the utxos of an extended public key: insertion sort of blocks of twenty elements and
    the merging of neighbouring blocks in place ([symMerge]).

    Both orders of the API answer [Less] with [true] on equal elements, where the library
    asks for a strict order.  The algorithm is therefore modelled step by step; [Stable]
    is proved to sort for every comparison that lies between a strict order and its
    reflexive closure, while the order of equal elements is what the steps make of it. *)
From stdpp Require Import base list sorting.
From Stdlib Require Import ZArith Lia.
From S2P Require Import Prelude.

Section sort.
Context {A : Type} (Less : A -> A -> bool).

(** ** Insertion sort *)

(** [x] moves to the left while it is less than its neighbour; [r] is the sorted prefix,
    the last element first. *)
Fixpoint insertBack (x : A) (r : list A) : list A :=
  match r with
  | [] => [x]
  | y :: r' => if Less x y then y :: insertBack x r' else x :: r
  end.

Definition insertionSort (l : list A) : list A := reverse (foldl (fun r x => insertBack x r) [] l).

(** ** Merging in place *)

(** [for i < j { h := (i + j) / 2; if f(h) { i = h + 1 } else { j = h } }] *)
Fixpoint bisect (fuel : nat) (f : nat -> bool) (i j : nat) : nat :=
  match fuel with
  | O => i
  | S fuel' =>
      if (i <? j)%nat then
        let h := ((i + j) / 2)%nat in
        if f h then bisect fuel' f (S h) j else bisect fuel' f i h
      else i
  end.

(** [data.Less(i, j)] on positions. *)
Definition lessAt (l : list A) (i j : nat) : bool :=
  match l !! i, l !! j with Some x, Some y => Less x y | _, _ => false end.

(** The sorted runs [l1] (positions [a..m-1]) and [l2] (positions [m..b-1]); the positions
    are counted from [a].  [rotate] swaps the runs [start..m-1] and [m..end-1]. *)
Fixpoint symMerge (fuel : nat) (l1 l2 : list A) : list A :=
  match fuel with
  | O => l1 ++ l2
  | S fuel' =>
      let l := l1 ++ l2 in
      let m := length l1 in
      let b := length l in
      if (m =? 1)%nat then
        let i := bisect b (fun h => lessAt l h 0) m b in
        take (i - m) l2 ++ l1 ++ drop (i - m) l2
      else if (b - m =? 1)%nat then
        let i := bisect b (fun h => negb (lessAt l m h)) 0 m in
        take i l1 ++ l2 ++ drop i l1
      else
        let mid := (b / 2)%nat in
        let n := (mid + m)%nat in
        let start := if (mid <? m)%nat then bisect b (fun c => negb (lessAt l (n - 1 - c) c)) (n - b) mid
                     else bisect b (fun c => negb (lessAt l (n - 1 - c) c)) 0 m in
        let stop := (n - start)%nat in
        let left1 := take start l1 in
        let left2 := take (stop - m) l2 in
        let right1 := drop start l1 in
        let right2 := drop (stop - m) l2 in
        (if ((0 <? start) && (start <? mid))%nat then symMerge fuel' left1 left2 else left1 ++ left2) ++
        (if ((mid <? stop) && (stop <? b))%nat then symMerge fuel' right1 right2 else right1 ++ right2)
  end.

(** ** Blocks *)

(** The list in pieces of [n] elements, the last one may be shorter. *)
Fixpoint pieces (fuel n : nat) (l : list A) : list (list A) :=
  match fuel with
  | O => [l]
  | S fuel' => if (length l <=? n)%nat then [l] else take n l :: pieces fuel' n (drop n l)
  end.

(** One pass of the merging: neighbouring blocks are merged, a last one without neighbour stays. *)
Fixpoint mergePass (bs : list (list A)) : list (list A) :=
  match bs with
  | l1 :: l2 :: bs' => symMerge (length (l1 ++ l2)) l1 l2 :: mergePass bs'
  | bs => bs
  end.

Fixpoint mergeAll (fuel : nat) (bs : list (list A)) : list A :=
  match bs with
  | [] => []
  | [l] => l
  | _ => match fuel with O => concat bs | S fuel' => mergeAll fuel' (mergePass bs) end
  end.

Definition blockSize : nat := 20.

Definition Stable (l : list A) : list A :=
  mergeAll (length l) (map insertionSort (pieces (length l) blockSize l)).
End sort.

(** * Facts *)

Lemma bisect_spec f fuel : forall i j, (i <= j)%nat -> (j - i <= fuel)%nat ->
  let s := bisect fuel f i j in
  (i <= s <= j)%nat /\ (s = i \/ exists s', s = S s' /\ f s' = true) /\ (s = j \/ f s = false).
Proof.
  induction fuel as [|fuel IH]; intros i j Hij Hf; cbn [bisect]; cbv zeta.
  - assert (i = j) as -> by lia. auto.
  - destruct (Nat.ltb_spec i j); [|assert (i = j) as -> by lia; auto].
    assert ((i + j) / 2 < j /\ i <= (i + j) / 2)%nat as [H1 H2]
      by (pose proof (Nat.div_mod_eq (i + j) 2); pose proof (Nat.mod_upper_bound (i + j) 2); lia).
    set (h := ((i + j) / 2)%nat) in *. destruct (f h) eqn:Eh.
    + destruct (IH (S h) j) as (? & ? & ?); [lia..|]. split; [lia|]. split; [|done]. right.
      destruct H3 as [-> |H3]; [by exists h|done].
    + destruct (IH i h) as (? & ? & H4); [lia..|]. split; [lia|]. split; [done|]. right.
      destruct H4 as [-> |H4]; done.
Qed.

Section facts.
Context {A : Type} (Less : A -> A -> bool).

(** How two runs are merged: both are cut so that no element before the cut has to come
    after an element behind it, and the parts are merged in turn. *)
Inductive merges : list A -> list A -> list A -> Prop :=
  | merges_nil_l l : merges [] l l
  | merges_nil_r l : merges l [] l
  | merges_split a1 a2 b1 b2 r1 r2 :
      (forall x y, last a1 = Some x -> head b2 = Some y -> Less y x = false) ->
      (forall x y, last a2 = Some x -> head b1 = Some y -> Less x y = true) ->
      merges a1 a2 r1 -> merges b1 b2 r2 -> merges (a1 ++ b1) (a2 ++ b2) (r1 ++ r2).

Lemma last_take (l : list A) n x : last (take n l) = Some x ->
  exists k, S k = (n `min` length l)%nat /\ l !! k = Some x.
Proof.
  rewrite last_lookup, lookup_take_Some, length_take. intros [H Hlt]. apply lookup_lt_Some in H as Hl.
  eexists. split; [|exact H]. lia.
Qed.

Lemma head_drop (l : list A) n y : head (drop n l) = Some y -> l !! n = Some y.
Proof. rewrite head_lookup, lookup_drop. by rewrite Nat.add_0_r. Qed.

(** The conditions of a cut at the positions [s] and [t]. *)
Lemma cut_merges l1 l2 s t r1 r2 :
  (forall s' x y, s = S s' -> l1 !! s' = Some x -> l2 !! t = Some y -> Less y x = false) ->
  (forall t' x y, t = S t' -> l2 !! t' = Some x -> l1 !! s = Some y -> Less x y = true) ->
  (s <= length l1)%nat -> (t <= length l2)%nat ->
  merges (take s l1) (take t l2) r1 -> merges (drop s l1) (drop t l2) r2 -> merges l1 l2 (r1 ++ r2).
Proof.
  intros H1 H2 Hs Ht M1 M2. rewrite <- (take_drop s l1), <- (take_drop t l2). constructor; [..|done|done].
  - intros x y (k & Hk & Hx)%last_take Hy%head_drop.
    apply (H1 k); [lia|done|done].
  - intros x y (k & Hk & Hx)%last_take Hy%head_drop.
    apply (H2 k); [lia|done|done].
Qed.

Lemma lessAt_runs l1 l2 i j x y : l1 !! j = Some y -> l2 !! i = Some x ->
  lessAt Less (l1 ++ l2) (length l1 + i) j = Less x y.
Proof.
  intros Hy Hx. unfold lessAt. rewrite lookup_app_r by lia. replace (length l1 + i - length l1)%nat with i by lia.
  rewrite Hx, lookup_app_l by (by eapply lookup_lt_Some). by rewrite Hy.
Qed.

Lemma symMerge_one_left fuel x l2 : merges [x] l2 (symMerge Less (S fuel) [x] l2).
Proof.
  cbn [symMerge]. change (length [x] =? 1)%nat with true. cbv iota.
  set (l := [x] ++ l2). destruct (bisect_spec (fun h => lessAt Less l h 0) (length l) 1 (length l)) as (Hb & H1 & H2);
    [unfold l; simpl; lia..|].
  set (i := bisect _ _ _ _) in *. simpl in Hb, H2.
  apply (cut_merges [x] l2 0 (i - 1)); [done| |lia|simpl in *; lia|constructor|].
  - intros t' y z Ht Hy [= <-]. destruct H1 as [H1|(i' & -> & H1)]; [simpl in Ht; lia|].
    rewrite <- H1. symmetry. replace i' with (length [x] + t')%nat by (simpl; lia). by apply lessAt_runs.
  - change (x :: drop (i - length [x]) l2) with ([x] ++ drop (i - 1) l2).
    refine (cut_merges [x] (drop (i - 1) l2) 1 0 [x] _ _ _ _ _ _ _); [|done|simpl; lia|lia|constructor|constructor].
    intros [|] z y [=] [= <-] Hy. rewrite lookup_drop, Nat.add_0_r in Hy.
    destruct H2 as [H2|H2]; [apply lookup_lt_Some in Hy; unfold l in H2; simpl in H2, Hb; lia|].
    rewrite <- H2. symmetry. unfold l. replace i with (length [x] + (i - 1))%nat by (simpl; lia). by apply lessAt_runs.
Qed.

Lemma symMerge_one_right fuel l1 y : length l1 <> 1%nat -> merges l1 [y] (symMerge Less (S fuel) l1 [y]).
Proof.
  intros Hl. cbn [symMerge]. destruct (Nat.eqb_spec (length l1) 1); [done|].
  rewrite length_app. change (length [y]) with 1%nat. replace (length l1 + 1 - length l1 =? 1)%nat with true
    by (symmetry; apply Nat.eqb_eq; lia).
  destruct (bisect_spec (fun h => negb (lessAt Less (l1 ++ [y]) (length l1) h)) (length l1 + 1) 0 (length l1))
    as (Hb & H1 & H2); [lia..|].
  set (i := bisect _ _ _ _) in *.
  assert (forall j x, l1 !! j = Some x -> lessAt Less (l1 ++ [y]) (length l1) j = Less y x) as HL.
  { intros j x Hx. rewrite <- (Nat.add_0_r (length l1)) at 1. by apply lessAt_runs. }
  apply (cut_merges l1 [y] i 0); [|done|lia|lia|constructor|].
  - intros s' x z Hs Hx [= <-]. destruct H1 as [H1|(i' & Hi' & H1)]; [lia|]. assert (i' = s') as -> by lia.
    rewrite (HL s' x Hx) in H1. by destruct (Less y x).
  - refine (cut_merges (drop i l1) [y] 0 1 [y] _ _ _ _ _ _ _); [done| |lia|simpl; lia|constructor|constructor].
    intros [|] z x [=] [= <-] Hx. rewrite lookup_drop, Nat.add_0_r in Hx.
    destruct H2 as [H2|H2]; [apply lookup_lt_Some in Hx; lia|]. rewrite (HL i x Hx) in H2. by destruct (Less y x).
Qed.

(** The cut of [symMerge]. *)
Definition symStart (l1 l2 : list A) : nat :=
  let l := l1 ++ l2 in
  let m := length l1 in
  let b := length l in
  let n := (b / 2 + m)%nat in
  if (b / 2 <? m)%nat then bisect b (fun c => negb (lessAt Less l (n - 1 - c) c)) (n - b) (b / 2)
  else bisect b (fun c => negb (lessAt Less l (n - 1 - c) c)) 0 m.

Lemma symStart_spec l1 l2 : (2 <= length l1)%nat -> (2 <= length l2)%nat ->
  let s := symStart l1 l2 in
  let t := (length (l1 ++ l2) / 2 - s)%nat in
  (s <= length l1)%nat /\ (s <= length (l1 ++ l2) / 2)%nat /\ (t <= length l2)%nat /\
  (forall s' x y, s = S s' -> l1 !! s' = Some x -> l2 !! t = Some y -> Less y x = false) /\
  (forall t' x y, t = S t' -> l2 !! t' = Some x -> l1 !! s = Some y -> Less x y = true).
Proof.
  intros H1 H2. unfold symStart.
  set (m := length l1) in *. set (b := length (l1 ++ l2)).
  assert (Hb : b = (m + length l2)%nat) by (unfold b; by rewrite length_app).
  assert (Hmid : (2 * (b / 2) <= b < 2 * (b / 2) + 2)%nat)
    by (pose proof (Nat.div_mod_eq b 2); pose proof (Nat.mod_upper_bound b 2); lia).
  set (mid := (b / 2)%nat) in *.
  set (f := fun c => negb (lessAt Less (l1 ++ l2) (mid + m - 1 - c) c)).
  assert (HL : forall c i x y, (mid + m - 1 - c = m + i)%nat -> l1 !! c = Some y -> l2 !! i = Some x ->
    f c = negb (Less x y)).
  { intros c i x y E Hy Hx. unfold f. rewrite E. f_equal. by apply lessAt_runs. }
  assert (H : exists i j, (if mid <? m then bisect b f (mid + m - b) mid else bisect b f 0 m)%nat = bisect b f i j /\
    (i <= j <= b /\ j <= m /\ j <= mid)%nat /\ (i = 0 \/ mid + m - b = i)%nat /\ (mid <= i + length l2)%nat /\
    (j = m \/ j = mid)%nat).
  { destruct (Nat.ltb_spec mid m); [exists (mid + m - b)%nat, mid|exists 0%nat, m]; (split; [done|]); lia. }
  destruct H as (i & j & -> & Hij & Hi & Hl & Hj). cbv zeta.
  destruct (bisect_spec f b i j) as (B1 & B2 & B3); [lia..|]. set (s := bisect b f i j) in *.
  split; [lia|]. split; [lia|]. split; [lia|]. split.
  - intros s' x y Hs Hx Hy. destruct B2 as [B2|(s2 & Hs2 & B2)].
    + apply lookup_lt_Some in Hy. lia.
    + assert (s2 = s') as -> by lia. rewrite (HL s' (mid - s)%nat y x) in B2 by (done || lia). by destruct (Less y x).
  - intros t' x y Ht Hx Hy. destruct B3 as [B3|B3].
    + apply lookup_lt_Some in Hy. unfold m in *. lia.
    + rewrite (HL s t' x y) in B3 by (done || lia). by destruct (Less x y).
Qed.

Lemma symMerge_merges fuel : forall l1 l2, (length (l1 ++ l2) <= fuel)%nat -> l1 <> [] -> l2 <> [] ->
  merges l1 l2 (symMerge Less fuel l1 l2).
Proof.
  induction fuel as [|fuel IH]; intros l1 l2 Hf N1 N2; [destruct l1; simpl in Hf; [done|lia]|].
  destruct l1 as [|x [|x' l1']]; [done|apply symMerge_one_left|]. clear N1.
  destruct l2 as [|y [|y' l2']]; [done|by apply symMerge_one_right|]. clear N2.
  set (l1 := x :: x' :: l1') in *. set (l2 := y :: y' :: l2') in *.
  assert (2 <= length l1)%nat as L1 by (unfold l1; simpl; lia).
  assert (2 <= length l2)%nat as L2 by (unfold l2; simpl; lia). clearbody l1 l2.
  destruct (symStart_spec l1 l2 L1 L2) as (H1 & H2 & H3 & C1 & C2). cbn [symMerge].
  destruct (Nat.eqb_spec (length l1) 1); [lia|]. destruct (Nat.eqb_spec (length (l1 ++ l2) - length l1) 1);
    [rewrite length_app in *; lia|].
  fold (symStart l1 l2). set (s := symStart l1 l2) in *. set (mid := (length (l1 ++ l2) / 2)%nat) in *.
  replace (mid + length l1 - s - length l1)%nat with (mid - s)%nat by lia.
  assert (Hmid : (2 * mid <= length (l1 ++ l2) < 2 * mid + 2)%nat)
    by (unfold mid; pose proof (Nat.div_mod_eq (length (l1 ++ l2)) 2); pose proof (Nat.mod_upper_bound (length (l1 ++ l2)) 2); lia).
  rewrite length_app in *.
  apply (cut_merges l1 l2 s (mid - s)%nat); [done..| |].
  - destruct (Nat.ltb_spec 0 s), (Nat.ltb_spec s mid); simpl.
    + apply IH; [rewrite length_app, !length_take; lia|..]; intros E%(f_equal length); rewrite length_take in E; simpl in E; lia.
    + replace (mid - s)%nat with 0%nat by lia. rewrite take_0, app_nil_r. constructor.
    + replace s with 0%nat by lia. rewrite take_0. simpl. constructor.
    + replace s with 0%nat by lia. rewrite take_0. simpl. constructor.
  - destruct (Nat.ltb_spec mid (mid + length l1 - s)), (Nat.ltb_spec (mid + length l1 - s) (length l1 + length l2)); simpl.
    + apply IH; [rewrite length_app, !length_drop; lia|..]; intros E%(f_equal length); rewrite length_drop in E; simpl in E; lia.
    + rewrite (drop_ge l2) by lia. rewrite app_nil_r. constructor.
    + rewrite (drop_ge l1) by lia. simpl. constructor.
    + rewrite (drop_ge l1) by lia. simpl. constructor.
Qed.

Lemma merges_perm l1 l2 r : merges l1 l2 r -> r ≡ₚ l1 ++ l2.
Proof.
  induction 1 as [l|l|a1 a2 b1 b2 r1 r2 _ _ _ IH1 _ IH2]; [done|by rewrite app_nil_r|].
  rewrite IH1, IH2. rewrite <- !app_assoc. f_equiv. rewrite !app_assoc. f_equiv. apply Permutation_app_comm.
Qed.

Lemma insertBack_perm x r : insertBack Less x r ≡ₚ x :: r.
Proof.
  induction r as [|y r IH]; [done|]. simpl. destruct (Less x y); [|done]. rewrite IH. constructor.
Qed.

Lemma insertionSort_perm l : insertionSort Less l ≡ₚ l.
Proof.
  unfold insertionSort. rewrite reverse_Permutation.
  assert (forall r, foldl (fun r x => insertBack Less x r) r l ≡ₚ r ++ l) as H; [|apply (H [])].
  induction l as [|x l IH]; intros r; [by rewrite app_nil_r|]. simpl. rewrite IH, insertBack_perm.
  by rewrite <- Permutation_middle.
Qed.

(** ** What a pass keeps

    A property of a block and the part of the list it stands for, which merging two
    neighbours keeps, holds of the whole list at the end. *)
Section blocks.
Context (Q : list A -> list A -> Prop).
Context (Q_merge : forall l1 l2 b1 b2, Q l1 b1 -> Q l2 b2 -> b1 <> [] -> b2 <> [] ->
  Q (l1 ++ l2) (symMerge Less (length (b1 ++ b2)) b1 b2)).

Lemma symMerge_nonempty l1 l2 : l1 <> [] -> l2 <> [] -> symMerge Less (length (l1 ++ l2)) l1 l2 <> [].
Proof.
  intros N1 N2 E. pose proof (merges_perm _ _ _ (symMerge_merges _ l1 l2 (le_n _) N1 N2)) as H. rewrite E in H.
  apply Permutation_nil_l in H. destruct l1; done.
Qed.

Definition represents (ls bs : list (list A)) : Prop := Forall2 (fun l b => Q l b /\ b <> []) ls bs.

Lemma mergePass_keeps n : forall ls bs, (length bs <= n)%nat -> represents ls bs ->
  exists ls', concat ls' = concat ls /\ represents ls' (mergePass Less bs) /\
    (length (mergePass Less bs) <= length bs)%nat /\ (2 <= length bs -> length (mergePass Less bs) < length bs)%nat.
Proof using Q_merge.
  induction n as [|n IH]; intros ls bs Hn H.
  - destruct bs; [|simpl in Hn; lia]. exists ls. repeat split; [done|simpl; lia..].
  - destruct H as [|l1 b1 ls bs [Q1 N1] H]; [exists []; repeat split; [constructor|simpl; lia..]|].
    destruct H as [|l2 b2 ls bs [Q2 N2] H].
    { exists [l1]. repeat split; [by repeat constructor|simpl; lia..]. }
    destruct (IH ls bs) as (ls' & E & H' & L1 & L2); [simpl in Hn; lia|done|]. exists ((l1 ++ l2) :: ls').
    split; [simpl; by rewrite E, app_assoc|]. split; [|simpl; lia].
    constructor; [|done]. split; [by apply Q_merge|by apply symMerge_nonempty].
Qed.

Lemma mergeAll_keeps fuel : forall ls bs, (length bs <= S fuel)%nat -> bs <> [] -> represents ls bs ->
  Q (concat ls) (mergeAll Less fuel bs).
Proof using Q_merge.
  induction fuel as [|fuel IH]; intros ls bs Hf N H;
    (destruct H as [|l1 b1 ls bs [Q1 N1] H]; [done|]);
    (destruct H as [|l2 b2 ls bs [Q2 N2] H]; [simpl; by rewrite app_nil_r|]); [simpl in Hf; lia|].
  destruct (mergePass_keeps (length (b1 :: b2 :: bs)) (l1 :: l2 :: ls) (b1 :: b2 :: bs)) as (ls' & E & H' & _ & L);
    [done|by repeat constructor|].
  rewrite <- E. cbn [mergeAll]. apply IH; [simpl in *; lia|done|done].
Qed.

Lemma pieces_concat fuel n : forall l : list A, concat (pieces fuel n l) = l.
Proof.
  induction fuel as [|fuel IH]; intros l; simpl; [apply app_nil_r|].
  destruct (length l <=? n)%nat; simpl; [apply app_nil_r|]. by rewrite IH, take_drop.
Qed.

Lemma pieces_nonempty fuel n : forall l : list A, (0 < n)%nat -> l <> [] ->
  Forall (fun b => b <> []) (pieces fuel n l) /\ (length (pieces fuel n l) <= S fuel)%nat.
Proof.
  induction fuel as [|fuel IH]; intros l Hn N; simpl; [by repeat constructor|].
  destruct (Nat.leb_spec (length l) n); [split; [by repeat constructor|simpl; lia]|].
  destruct (IH (drop n l)) as [H1 H2]; [done|intros E%(f_equal length); rewrite length_drop in E; simpl in E; lia|].
  split; [|simpl; lia]. constructor; [|done]. destruct l; [done|]. by destruct n; [lia|].
Qed.

Lemma Stable_keeps l : Q [] [] -> (forall l, Q l (insertionSort Less l)) -> Q l (Stable Less l).
Proof using Q_merge.
  intros Q0 Qi. destruct l as [|x l]; [done|]. unfold Stable. set (k := length (x :: l)).
  destruct (pieces_nonempty k blockSize (x :: l)) as [H1 H2]; [unfold blockSize; lia|done|].
  rewrite <- (pieces_concat k blockSize (x :: l)) at 1.
  apply mergeAll_keeps.
  - by rewrite length_map.
  - destruct (pieces k blockSize (x :: l)) eqn:E; [|done].
    apply (f_equal (@concat A)) in E. rewrite pieces_concat in E. done.
  - apply Forall2_fmap_r. apply Forall_Forall2_diag. eapply Forall_impl; [exact H1|]. intros b Nb. split; [done|].
    intros E. pose proof (insertionSort_perm b) as Hp. rewrite E in Hp. apply Nb. by apply Permutation_nil_l in Hp.
Qed.
End blocks.

(** ** Sorting *)

Lemma Stable_perm l : Stable Less l ≡ₚ l.
Proof.
  apply (Stable_keeps (fun l b => b ≡ₚ l)); [|done|apply insertionSort_perm].
  intros l1 l2 b1 b2 H1 H2 N1 N2. rewrite (merges_perm b1 b2) by (by apply symMerge_merges). by rewrite H1, H2.
Qed.

Section order.
Context (R : relation A) `{!Transitive R}.
Context (Less_true : forall x y, Less x y = true -> R x y) (Less_false : forall x y, Less x y = false -> R y x).

Lemma order_refl x : R x x.
Proof using Less_true Less_false. destruct (Less x x) eqn:E; auto. Qed.

Lemma sorted_last l x z : StronglySorted R l -> last l = Some x -> z ∈ l -> R z x.
Proof using Less_true Less_false.
  intros Hs (l' & ->)%last_Some [Hz|Hz%list_elem_of_singleton]%elem_of_app; [|subst; apply order_refl].
  eapply StronglySorted_app_1_elem_of; [done..|]. by apply list_elem_of_singleton.
Qed.

Lemma sorted_head l y w : StronglySorted R l -> head l = Some y -> w ∈ l -> R y w.
Proof using Less_true Less_false.
  intros Hs (l' & ->)%head_Some. rewrite StronglySorted_cons, Forall_forall in Hs. intros [-> |Hw]%elem_of_cons;
    [apply order_refl|by apply Hs].
Qed.

Lemma nonempty_ends (l : list A) z : z ∈ l -> (exists x, last l = Some x) /\ (exists y, head l = Some y).
Proof.
  intros Hz. destruct l as [|y l]; [by apply not_elem_of_nil in Hz|]. split; [|by exists y].
  destruct (last (y :: l)) eqn:E; [eauto|]. by apply last_None in E.
Qed.

Lemma merges_sorted l1 l2 r : merges l1 l2 r -> StronglySorted R l1 -> StronglySorted R l2 -> StronglySorted R r.
Proof using Type*.
  induction 1 as [l|l|a1 a2 b1 b2 r1 r2 C1 C2 M1 IH1 M2 IH2]; [done..|].
  intros (S11 & S12 & S13)%StronglySorted_app (S21 & S22 & S23)%StronglySorted_app.
  apply StronglySorted_app_2; [|auto..]. intros z w Hz Hw.
  rewrite (merges_perm _ _ _ M1) in Hz. rewrite (merges_perm _ _ _ M2) in Hw.
  apply elem_of_app in Hz as [Hz|Hz], Hw as [Hw|Hw]; auto;
    destruct (nonempty_ends _ _ Hz) as [[x Hx] _], (nonempty_ends _ _ Hw) as [_ [y Hy]].
  - transitivity x; [exact (sorted_last _ _ _ S12 Hx Hz)|]. transitivity y; [auto|exact (sorted_head _ _ _ S23 Hy Hw)].
  - transitivity x; [exact (sorted_last _ _ _ S22 Hx Hz)|]. transitivity y; [auto|exact (sorted_head _ _ _ S13 Hy Hw)].
Qed.

Lemma insertBack_sorted x r : StronglySorted (flip R) r -> StronglySorted (flip R) (insertBack Less x r).
Proof using Type*.
  induction r as [|y r IH]; simpl; [by repeat constructor|]. rewrite StronglySorted_cons, Forall_forall.
  intros [H1 H2]. destruct (Less x y) eqn:E; rewrite StronglySorted_cons, Forall_forall.
  - split; [|auto]. intros z Hz. rewrite insertBack_perm in Hz. apply elem_of_cons in Hz as [-> |Hz]; [by apply Less_true|auto].
  - split; [|by rewrite StronglySorted_cons, Forall_forall].
    intros z [-> |Hz]%elem_of_cons; [by apply Less_false|]. unfold flip in *. transitivity y; auto.
Qed.

Lemma StronglySorted_reverse (l : list A) : StronglySorted (flip R) l -> StronglySorted R (reverse l).
Proof.
  induction l as [|x l IH]; [constructor|]. rewrite StronglySorted_cons, Forall_forall, reverse_cons. intros [H1 H2].
  apply StronglySorted_app_2; [|auto|by repeat constructor].
  intros y z Hy ->%list_elem_of_singleton. rewrite elem_of_reverse in Hy. exact (H1 y Hy).
Qed.

Lemma insertionSort_sorted l : StronglySorted R (insertionSort Less l).
Proof using Type*.
  apply StronglySorted_reverse.
  assert (forall r, StronglySorted (flip R) r -> StronglySorted (flip R) (foldl (fun r x => insertBack Less x r) r l)) as H;
    [|apply H; constructor].
  induction l as [|x l IH]; intros r Hr; simpl; [done|]. by apply IH, insertBack_sorted.
Qed.

(** [Stable] sorts. *)
Lemma Stable_sorted l : StronglySorted R (Stable Less l).
Proof using Type*.
  apply (Stable_keeps (fun _ b => StronglySorted R b)); [|constructor|apply insertionSort_sorted].
  intros l1 l2 b1 b2 H1 H2 N1 N2. eapply merges_sorted; [by apply symMerge_merges|done..].
Qed.
End order.

(** ** The order of equal elements

    With a comparison that answers [true] on equal elements the algorithm moves an
    element before its equals: every class of equal elements ends in reverse order. *)
Section reversal.
Context (Less_trans : forall x y z, Less x y = true -> Less y z = true -> Less x z = true).
Context (Less_total : forall x y, Less x y = false -> Less y x = true) (k : A).

Definition equals (x : A) : bool := Less x k && Less k x.

Abbreviation cls := (List.filter equals).

Lemma equals_le x y : equals x = true -> equals y = true -> Less x y = true.
Proof using Type*.
  unfold equals. rewrite !andb_true_iff. intros [H1 H2] [H3 H4]. by apply Less_trans with k.
Qed.

Lemma cls_nil l : (forall x, x ∈ l -> equals x = false) -> cls l = [].
Proof using Type.
  induction l as [|x l IH]; intros H; [done|]. simpl. rewrite H by (by constructor). apply IH. intros y Hy. apply H. by constructor.
Qed.

Abbreviation le := (fun x y => Less x y = true).
#[local] Instance le_trans : Transitive le := Less_trans.

Lemma merges_cls l1 l2 r : merges l1 l2 r -> StronglySorted le l1 -> StronglySorted le l2 ->
  cls r = cls l2 ++ cls l1.
Proof using Type*.
  induction 1 as [l|l|a1 a2 b1 b2 r1 r2 C1 C2 M1 IH1 M2 IH2]; [by rewrite app_nil_r|done|].
  intros (S11 & S12 & S13)%StronglySorted_app (S21 & S22 & S23)%StronglySorted_app.
  rewrite !List.filter_app, IH1, IH2 by done. rewrite <- !app_assoc. f_equal. rewrite !app_assoc. f_equal.
  assert (cls a1 = [] \/ cls b2 = []) as [-> | ->]; [|by rewrite app_nil_r|by rewrite app_nil_r].
  destruct (existsb equals a1) eqn:E1; [|left; apply cls_nil; intros x Hx; destruct (equals x) eqn:E; [|done];
    rewrite <- E1; symmetry; apply existsb_exists; exists x; by rewrite <- list_elem_of_In].
  right. apply existsb_exists in E1 as (z & Hz & Ez). apply list_elem_of_In in Hz. apply cls_nil. intros w Hw.
  destruct (equals w) eqn:Ew; [|done]. exfalso.
  destruct (nonempty_ends _ _ Hz) as [[x Hx] _], (nonempty_ends _ _ Hw) as [_ [y Hy]].
  assert (Less y x = false) as Hf by (by apply C1). rewrite <- not_true_iff_false in Hf. apply Hf.
  pose proof (sorted_last le (fun _ _ H => H) Less_total _ _ _ S12 Hx Hz).
  pose proof (sorted_head le (fun _ _ H => H) Less_total _ _ _ S23 Hy Hw).
  apply Less_trans with w; [done|]. apply Less_trans with z; [by apply equals_le|done].
Qed.

Lemma insertBack_cls x r : StronglySorted (flip le) r ->
  cls (insertBack Less x r) = cls r ++ (if equals x then [x] else []).
Proof using Type*.
  induction r as [|y r IH]; simpl; [done|]. rewrite StronglySorted_cons, Forall_forall. intros [H1 H2].
  destruct (Less x y) eqn:E; cbn [List.filter]; [rewrite IH by done; by destruct (equals y)|].
  destruct (equals x) eqn:Ex; [|by rewrite app_nil_r].
  assert (cls (y :: r) = []) as H.
  { apply cls_nil. intros z Hz. destruct (equals z) eqn:Ez; [|done]. exfalso. rewrite <- not_true_iff_false in E. apply E.
    pose proof (equals_le _ _ Ex Ez). apply elem_of_cons in Hz as [-> |Hz]; [done|]. apply Less_trans with z; [done|]. exact (H1 z Hz). }
  cbn [List.filter] in H. by rewrite H.
Qed.

Lemma cls_reverse l : cls (reverse l) = reverse (cls l).
Proof using Type.
  induction l as [|x l IH]; [done|]. rewrite reverse_cons, List.filter_app, IH. simpl.
  destruct (equals x); [by rewrite reverse_cons|by rewrite app_nil_r].
Qed.

Lemma insertionSort_cls l : cls (insertionSort Less l) = reverse (cls l).
Proof using Type*.
  unfold insertionSort. rewrite cls_reverse. f_equal.
  assert (forall r, StronglySorted (flip le) r -> cls (foldl (fun r x => insertBack Less x r) r l) = cls r ++ cls l) as H;
    [|apply H; constructor].
  induction l as [|x l IH]; intros r Hr; simpl; [by rewrite app_nil_r|].
  rewrite IH by (by apply (insertBack_sorted le (fun _ _ H => H) Less_total)). rewrite insertBack_cls by done.
  rewrite <- app_assoc. by destruct (equals x).
Qed.

Lemma Stable_cls l : cls (Stable Less l) = reverse (cls l).
Proof using Type*.
  apply (Stable_keeps (fun l b => StronglySorted le b /\ cls b = reverse (cls l))).
  - intros l1 l2 b1 b2 [H1 E1] [H2 E2] N1 N2. pose proof (symMerge_merges _ b1 b2 (le_n _) N1 N2) as M. split.
    + by eapply (merges_sorted le (fun _ _ H => H) Less_total).
    + rewrite (merges_cls _ _ _ M) by done. by rewrite List.filter_app, reverse_app, E1, E2.
  - split; [constructor|done].
  - intros l'. split; [apply (insertionSort_sorted le (fun _ _ H => H) Less_total)|apply insertionSort_cls].
Qed.
End reversal.
End facts.
