(* ===== verification/ApiTypes.v ===== *)
(** The data of the API ([api/types.go]): transactions, addresses, utxos and blocks as they
    are returned.  Their conversion to the first version of the API is in file [ApiV1].

    [*Amount] is an option.  Fields the API only fills with constants ([Asm], [Type],
    [Size]) keep their zero value and are left out. *)
From stdpp Require Import base list gmap strings.
From Stdlib Require Import ZArith.
From S2P Require Import Prelude Types InternalState BaseParser RocksDB.

Open Scope Z_scope.
Open Scope go_scope.

Definition maxUint32 : Z := 2 ^ 32 - 1.
Definition maxInt : Z := 2 ^ 63 - 1.
Definition maxInt64 : Z := 2 ^ 63 - 1.

(** ** Options of the requests *)

Abbreviation AccountDetails := Z (only parsing).
Definition AccountDetailsBasic : Z := 0.
Definition AccountDetailsTokens : Z := 1.
Definition AccountDetailsTokenBalances : Z := 2.
Definition AccountDetailsTxidHistory : Z := 3.
Definition AccountDetailsTxHistoryLight : Z := 4.
Definition AccountDetailsTxHistory : Z := 5.

Definition AddressFilterVoutOff : Z := -1.
Definition AddressFilterVoutInputs : Z := -2.
Definition AddressFilterVoutOutputs : Z := -3.

Inductive TokensToReturn := TokensToReturnNonzeroBalance | TokensToReturnUsed | TokensToReturnDerived.

#[global] Instance TokensToReturn_eq_dec : EqDecision TokensToReturn.
Proof. solve_decision. Defined.

Record AddressFilter := mkFilter {
  f_Vout : Z;
  f_Contract : string;
  f_FromHeight : Z;
  f_ToHeight : Z;
  f_TokensToReturn : TokensToReturn;
  f_OnlyConfirmed : bool;
}.

(** ** Amounts *)

Definition Amount_AsBigInt (a : option Z) : Z := default 0 a.

(** [big.Int.Int64]: the low 64 bits of the absolute value, with the sign. *)
Definition Amount_AsInt64 (a : option Z) : Z :=
  match a with
  | None => 0
  | Some z => if z <? 0 then i64 (- i64 (Z.abs z)) else i64 z
  end.

Definition IsZeroBigInt (z : Z) : bool := z =? 0.

Definition Amount_DecimalString (a : option Z) (d : Z) : go text := AmountToDecimalString a d.

Definition Amount_String (a : option Z) : text :=
  match a with None => [] | Some z => big_String z end.

(** ** Transactions *)

Module AVin.
Record t := mk {
  Txid : string;
  Vout : Z;
  Sequence : Z;
  N : Z;
  AddrDesc : bytes;
  Addresses : list string;
  Searchable : bool;
  ValueSat : option Z;
  Hex : string;
  Coinbase : string;
}.
End AVin.

Module AVout.
Record t := mk {
  ValueSat : option Z;
  N : Z;
  Spent : bool;
  SpentTxID : string;
  SpentIndex : Z;
  SpentHeight : Z;
  Hex : string;
  AddrDesc : bytes;
  Addresses : list string;
  Searchable : bool;
}.
End AVout.

Module Erc20Contract.
Record t := mk { Contract : string; Name : string; Symbol : string; Decimals : Z }.
End Erc20Contract.

Inductive TokenType := NoTokenType | ERC20TokenType | XPUBAddressTokenType.

Module Token.
Record t := mk {
  Type_ : TokenType;
  Name : string;
  Path : string;
  Contract : string;
  Transfers : Z;
  Symbol : string;
  Decimals : Z;
  BalanceSat : option Z;
  TotalReceivedSat : option Z;
  TotalSentSat : option Z;
  ContractIndex : Z;
}.
End Token.

Module TokenTransfer.
Record t := mk {
  Type_ : TokenType;
  From : string;
  To : string;
  Token : string;
  Name : string;
  Symbol : string;
  Decimals : Z;
  Value : option Z;
}.
(** An element of a fresh slice. *)
Definition zero : t := mk NoTokenType EmptyString EmptyString EmptyString EmptyString EmptyString 0 None.
End TokenTransfer.

Record EthereumSpecific := mkEthereumSpecific {
  es_Status : Z;
  es_Nonce : Z;
  es_GasLimit : option Z;
  es_GasUsed : option Z;
  es_GasPrice : option Z;
}.

Module ATx.
Record t := mk {
  Txid : string;
  Version : Z;
  Locktime : Z;
  Vin : list AVin.t;
  Vout : list AVout.t;
  Blockhash : string;
  Blockheight : Z;
  Confirmations : Z;
  Blocktime : Z;
  ValueOutSat : option Z;
  ValueInSat : option Z;
  ShieldIns : Z;
  ShieldOuts : Z;
  ShieldValBal : option Z;
  FeesSat : option Z;
  Hex : string;
  SpecificData : CoinSpecificData;
  CoinSpecificJSON : string;
  TokenTransfers : list TokenTransfer.t;
  EthSpecific : option EthereumSpecific;
}.
End ATx.

(** ** Answers *)

Record Paging := mkPaging { p_Page : Z; p_TotalPages : Z; p_ItemsOnPage : Z }.

Definition noPaging : Paging := mkPaging 0 0 0.

Module Address.
Record t := mk {
  Pg : Paging;
  AddrStr : string;
  BalanceSat : option Z;
  TotalReceivedSat : option Z;
  TotalSentSat : option Z;
  UnconfirmedBalanceSat : option Z;
  UnconfirmedTxs : Z;
  Txs : Z;
  NonTokenTxs : Z;
  Transactions : list ATx.t;
  Txids : list string;
  Nonce : option Z;
  UsedTokens : Z;
  Tokens : list Token.t;
  Contract : option Erc20Contract.t;
  XPubAddresses : gset string;
}.
End Address.

Module AUtxo.
Record t := mk {
  Txid : string;
  Vout : Z;
  AmountSat : option Z;
  Height : Z;
  Confirmations : Z;
  Address : string;
  Path : string;
  Locktime : Z;
}.
End AUtxo.

(** [bchain.BlockInfo] as the daemon answers it; [api.BlockInfo] has the same fields. *)
Module ChainBlockInfo.
Record t := mk {
  Hash : string;
  Prev : string;
  Next : string;
  Height : Z;
  Confirmations : Z;
  Size : Z;
  Time : Z;
  Version : string;
  MerkleRoot : string;
  Nonce : string;
  Bits : string;
  Difficulty : string;
  Txids : list string;
  SaplingRoot : string;
}.
End ChainBlockInfo.

Record Blocks := mkBlocks { bs_Paging : Paging; bs_Blocks : list BlockInfo.t }.

Module ABlock.
Record t := mk {
  Pg : Paging;
  Info : ChainBlockInfo.t;
  TxCount : Z;
  Transactions : list ATx.t;
}.
End ABlock.

Record MempoolTxids := mkMempoolTxids {
  mt_Paging : Paging;
  mt_Mempool : list (string * Z);
  mt_MempoolSize : Z;
}.
