(* ===== verification/ApiV1.v ===== *)
(** The first version of the API ([api/typesv1.go]): transactions, addresses, utxos and
    blocks with amounts as decimal texts; and the statistics of the peers ([GetCnts] of
    [api/worker.go]).

    Fields the worker never fills ([Asm], [Type], [Size]) are left out. *)
From stdpp Require Import base list gmap strings.
From Stdlib Require Import ZArith Lia.
From S2P Require Import Prelude Types InternalState BaseParser BitcoinParser RocksDB ApiTypes.

Open Scope Z_scope.
Open Scope go_scope.

Module VinV1.
Record t := mk {
  Txid : string;
  Vout : Z;
  Sequence : Z;
  N : Z;
  ScriptSigHex : string;
  AddrDesc : bytes;
  Addresses : list string;
  Searchable : bool;
  Value : text;
  ValueSat : Z;
}.
End VinV1.

Module VoutV1.
Record t := mk {
  Value : text;
  ValueSat : Z;
  N : Z;
  Hex : string;
  AddrDesc : bytes;
  Addresses : list string;
  Searchable : bool;
  Spent : bool;
  SpentTxID : string;
  SpentIndex : Z;
  SpentHeight : Z;
}.
End VoutV1.

Module TxV1.
Record t := mk {
  Txid : string;
  Version : Z;
  Locktime : Z;
  Vin : list VinV1.t;
  Vout : list VoutV1.t;
  Blockhash : string;
  Blockheight : Z;
  Confirmations : Z;
  Time : Z;
  Blocktime : Z;
  ValueOut : text;
  ValueOutSat : Z;
  ValueIn : text;
  ValueInSat : Z;
  Fees : text;
  FeesSat : Z;
  Hex : string;
}.
End TxV1.

Module AddressV1.
Record t := mk {
  Pg : Paging;
  AddrStr : string;
  Balance : text;
  TotalReceived : text;
  TotalSent : text;
  UnconfirmedBalance : text;
  UnconfirmedTxApperances : Z;
  TxApperances : Z;
  Transactions : list TxV1.t;
  Txids : list string;
}.
End AddressV1.

Module AddressUtxoV1.
Record t := mk {
  Txid : string;
  Vout : Z;
  Amount : text;
  AmountSat : Z;
  Height : Z;
  Confirmations : Z;
}.
End AddressUtxoV1.

Module BlockV1.
Record t := mk {
  Pg : Paging;
  Info : ChainBlockInfo.t;
  TxCount : Z;
  Transactions : list TxV1.t;
}.
End BlockV1.

Section conversions.
Context `{P : BlockChainParser}.

Definition VinToV1 (d : Z) (v : AVin.t) : go VinV1.t :=
  let* value := Amount_DecimalString (AVin.ValueSat v) d in
  Ret (VinV1.mk (AVin.Txid v) (AVin.Vout v) (AVin.Sequence v) (AVin.N v) (AVin.Hex v) (AVin.AddrDesc v)
         (AVin.Addresses v) (AVin.Searchable v) value (Amount_AsBigInt (AVin.ValueSat v))).

Definition VoutToV1 (d : Z) (v : AVout.t) : go VoutV1.t :=
  let* value := Amount_DecimalString (AVout.ValueSat v) d in
  Ret (VoutV1.mk value (Amount_AsBigInt (AVout.ValueSat v)) (AVout.N v) (AVout.Hex v) (AVout.AddrDesc v)
         (AVout.Addresses v) (AVout.Searchable v) (AVout.Spent v) (AVout.SpentTxID v) (AVout.SpentIndex v)
         (AVout.SpentHeight v)).

Definition TxToV1 (tx : ATx.t) : go TxV1.t :=
  let d := AmountDecimals in
  let* vins := go_map (VinToV1 d) (ATx.Vin tx) in
  let* vouts := go_map (VoutToV1 d) (ATx.Vout tx) in
  let* fees := Amount_DecimalString (ATx.FeesSat tx) d in
  let* valueIn := Amount_DecimalString (ATx.ValueInSat tx) d in
  let* valueOut := Amount_DecimalString (ATx.ValueOutSat tx) d in
  Ret (TxV1.mk (ATx.Txid tx) (ATx.Version tx) (ATx.Locktime tx) vins vouts (ATx.Blockhash tx) (ATx.Blockheight tx)
         (ATx.Confirmations tx) (ATx.Blocktime tx) (ATx.Blocktime tx) valueOut (Amount_AsBigInt (ATx.ValueOutSat tx))
         valueIn (Amount_AsBigInt (ATx.ValueInSat tx)) fees (Amount_AsBigInt (ATx.FeesSat tx)) (ATx.Hex tx)).

Definition transactionsToV1 (txs : list ATx.t) : go (list TxV1.t) := go_map TxToV1 txs.

Definition AddressToV1 (a : Address.t) : go AddressV1.t :=
  let d := AmountDecimals in
  let* balance := Amount_DecimalString (Address.BalanceSat a) d in
  let* received := Amount_DecimalString (Address.TotalReceivedSat a) d in
  let* sent := Amount_DecimalString (Address.TotalSentSat a) d in
  let* txs := transactionsToV1 (Address.Transactions a) in
  let* unconfirmed := Amount_DecimalString (Address.UnconfirmedBalanceSat a) d in
  Ret (AddressV1.mk (Address.Pg a) (Address.AddrStr a) balance received sent unconfirmed (Address.UnconfirmedTxs a)
         (Address.Txs a) txs (Address.Txids a)).

Definition AddressUtxoToV1 (au : list AUtxo.t) : go (list AddressUtxoV1.t) :=
  let d := AmountDecimals in
  go_map (fun u =>
      let* amount := Amount_DecimalString (AUtxo.AmountSat u) d in
      Ret (AddressUtxoV1.mk (AUtxo.Txid u) (u32 (AUtxo.Vout u)) amount (Amount_AsBigInt (AUtxo.AmountSat u))
             (AUtxo.Height u) (AUtxo.Confirmations u))) au.

Definition BlockToV1 (b : ABlock.t) : go BlockV1.t :=
  let* txs := transactionsToV1 (ABlock.Transactions b) in
  Ret (BlockV1.mk (ABlock.Pg b) (ABlock.Info b) (ABlock.TxCount b) txs).
End conversions.

(** ** Peers *)

Record RPCPeer := mkRPCPeer { pe_Subver : string; pe_Services : string }.

(** [for _, v := range l { result[v]++ }] *)
Definition countMap (l : list string) : gmap string Z :=
  foldl (fun m v => <[v := default 0 (m !! v) + 1]> m) ∅ l.

(** The versions and the services with their numbers, in the order the maps are visited. *)
Definition GetCnts (order : gmap string Z -> list (string * Z)) (prs : list RPCPeer)
    : list (string * Z) * list (string * Z) :=
  (order (countMap (map pe_Subver prs)), order (countMap (map pe_Services prs))).

(** * Facts *)

Lemma countMap_lookup l v :
  default 0 (countMap l !! v) = zlen (List.filter (String.eqb v) l) /\ (is_Some (countMap l !! v) <-> v ∈ l).
Proof.
  unfold countMap. induction l as [|x l IH] using rev_ind.
  - split; [done|]. cbn [foldl]. rewrite lookup_empty, elem_of_nil. split; [by intros []|done].
  - rewrite foldl_snoc, List.filter_app, zlen_app, elem_of_app, list_elem_of_singleton. destruct IH as [IH1 IH2]. simpl.
    destruct (String.eqb_spec v x) as [-> |Hne].
    + rewrite lookup_insert_eq, IH1. split; [done|]. split; [by right|by eauto].
    + rewrite lookup_insert_ne by done. rewrite IH1, zlen_nil, Z.add_0_r. split; [done|]. rewrite IH2. naive_solver.
Qed.

Section facts.
Context `{P : BlockChainParser} (bp : BaseParser).
(** The parser has the number of decimals of its base. *)
Context (Hdec : AmountDecimals = AmountDecimalPoint bp) (Hpos : 0 <= AmountDecimalPoint bp).

Lemma DecimalString_reads z s : Amount_DecimalString (Some z) AmountDecimals = Ret s -> AmountToBigInt bp s = Ret z.
Proof using Hdec Hpos.
  intros Hs. pose proof (AmountToBigInt_print bp z Hpos) as H. unfold BaseParser_AmountToDecimalString in H.
  unfold Amount_DecimalString in Hs. rewrite <- Hdec, Hs in H. done.
Qed.

Lemma DecimalString_total a : exists s, Amount_DecimalString a AmountDecimals = Ret s.
Proof using Hdec Hpos.
  destruct a as [z|]; [|by exists []]. unfold Amount_DecimalString. rewrite Hdec.
  destruct (AmountToDecimalString_parts z (AmountDecimalPoint bp) Hpos) as (? & ? & ? & ? & _ & _ & _ & ->). eauto.
Qed.
End facts.

(** [go_map] of a function that always returns. *)
Lemma go_map_total {A B} (f : A -> go B) (Q : A -> B -> Prop) l :
  (forall x, x ∈ l -> exists y, f x = Ret y /\ Q x y) -> exists ys, go_map f l = Ret ys /\ Forall2 Q l ys.
Proof.
  induction l as [|x l IH]; intros H; [by exists []; split; [|constructor]|].
  destruct (H x) as (y & Ey & Hy); [by constructor|]. destruct IH as (ys & Eys & Hys); [intros z Hz; apply H; by constructor|].
  exists (y :: ys). simpl. rewrite Ey. gostep. rewrite Eys. gostep. split; [done|by constructor].
Qed.

(** The conversion of utxos to the first version of the API always returns; every utxo
    keeps its transaction, its output, its height and its amount, and the amount printed
    reads back as the number of the smallest units. *)
Theorem AddressUtxoToV1_faithful `{P : BlockChainParser} (bp : BaseParser) au :
  AmountDecimals = AmountDecimalPoint bp -> 0 <= AmountDecimalPoint bp ->
  Forall (fun u => is_Some (AUtxo.AmountSat u) /\ in_u32 (AUtxo.Vout u)) au ->
  exists v1, AddressUtxoToV1 au = Ret v1 /\
    Forall2 (fun u v => AddressUtxoV1.Txid v = AUtxo.Txid u /\ AddressUtxoV1.Vout v = AUtxo.Vout u /\
      AddressUtxoV1.Height v = AUtxo.Height u /\ Some (AddressUtxoV1.AmountSat v) = AUtxo.AmountSat u /\
      AmountToBigInt bp (AddressUtxoV1.Amount v) = Ret (AddressUtxoV1.AmountSat v)) au v1.
Proof.
  intros Hdec Hpos Hau. unfold AddressUtxoToV1. apply go_map_total. intros u Hu.
  rewrite Forall_forall in Hau. destruct (Hau u Hu) as [[z Hz] Hv].
  destruct (DecimalString_total bp Hdec Hpos (AUtxo.AmountSat u)) as [s Hs]. rewrite Hs. gostep.
  eexists. split; [reflexivity|]. simpl. rewrite u32_id, Hz by done. rewrite Hz in Hs.
  split_and!; [done..|]. simpl. by eapply DecimalString_reads.
Qed.

(** [GetCnts] counts every peer once: a version or service is listed exactly if a peer
    has it, with the number of the peers that have it. *)
Theorem GetCnts_counts order prs :
  (forall m, order m ≡ₚ map_to_list m) ->
  (forall v n, (v, n) ∈ (GetCnts order prs).1 <->
     v ∈ map pe_Subver prs /\ n = zlen (List.filter (String.eqb v) (map pe_Subver prs))) /\
  (forall v n, (v, n) ∈ (GetCnts order prs).2 <->
     v ∈ map pe_Services prs /\ n = zlen (List.filter (String.eqb v) (map pe_Services prs))).
Proof.
  intros Hord.
  assert (forall l v n, (v, n) ∈ order (countMap l) <-> v ∈ l /\ n = zlen (List.filter (String.eqb v) l)) as H; [|split; intros v n; apply H].
  intros l v n. rewrite Hord, elem_of_map_to_list. destruct (countMap_lookup l v) as [H1 H2]. rewrite <- H2, <- H1.
  split; [intros ->; eauto|]. intros [[k Hk] ->]. by rewrite Hk.
Qed.

Lemma GetCnts_counts_witness :
  (("b"%string, 2) ∈ (GetCnts map_to_list [mkRPCPeer "b" "1"; mkRPCPeer "a" "1"; mkRPCPeer "b" "5"]).1).
Proof.
  destruct (GetCnts_counts map_to_list [mkRPCPeer "b" "1"; mkRPCPeer "a" "1"; mkRPCPeer "b" "5"] (fun m => reflexivity _)) as [H _].
  apply H. split; [constructor|reflexivity].
Defined.

Lemma AddressUtxoToV1_faithful_witness :
  exists v, AddressUtxoToV1 (P := plain_parser) [AUtxo.mk "aa" 1 (Some 1250000000) 7 3 EmptyString EmptyString 0] = Ret [v] /\
    AmountToBigInt (mkBaseParser 3 8) (AddressUtxoV1.Amount v) = Ret 1250000000.
Proof.
  destruct (AddressUtxoToV1_faithful (P := plain_parser) (mkBaseParser 3 8)
    [AUtxo.mk "aa" 1 (Some 1250000000) 7 3 EmptyString EmptyString 0] eq_refl) as (v1 & E1 & H).
  - discriminate.
  - repeat constructor; [by eexists|discriminate].
  - inversion H as [|u v us vs (_ & _ & _ & Ha & Hr) Hn]; subst. inversion Hn; subst. exists v. split; [exact E1|].
    simpl in Ha. injection Ha as Ha. rewrite Ha in Hr. exact Hr.
Defined.
