(* ===== verification/Worker.v ===== *)
(** The API worker ([api/worker.go]): the queries that are answered from the index, the
    mempool and the daemon.

    A query may store a transaction it fetched ([TxCache]), so the methods are in the
    monad of the database handle; the mempool does not change during a call.  Texts of
    errors keep their fixed part.  [glog] and the time a call takes are left out. *)
From stdpp Require Import base list gmap strings.
From Stdlib Require Import ZArith Lia.
From S2P Require Import Prelude Types Store Vlq Codec InternalState AddrBalance TxAddresses RocksDB.
From S2P Require Import BaseParser EthParser BitcoinIndex EthIndex Connect Mempool Sync ApiTypes.

Open Scope Z_scope.
Open Scope go_scope.

(** What the API asks the daemon for besides [BlockChain]; [json_UnmarshalTx] is what
    [json.Unmarshal] makes of the coin specific JSON, a zero transaction if it fails. *)
Class ApiChain := {
  GetTransactionSpecific : Tx.t -> go string;
  json_UnmarshalTx : string -> Tx.t;
  chain_GetBlockInfo : string -> go ChainBlockInfo.t;
  EthereumTypeGetBalance : bytes -> go (option Z);
  EthereumTypeGetNonce : bytes -> go Z;
  EthereumTypeGetErc20ContractInfo : bytes -> go (option Erc20Contract.t);
  EthereumTypeGetErc20ContractBalance : bytes -> bytes -> go (option Z);
}.

(** [page--; if page < 0 { page = 0 }] *)
Definition normPage (page : Z) : Z := Z.max 0 (i64 (page - 1)).

(** ** Paging *)

(** [int] has 64 bits; the division is by the number of items on a page. *)
Definition computePaging (count page itemsOnPage : Z) : go (Paging * Z * Z * Z) :=
  let from := i64 (page * itemsOnPage) in
  if itemsOnPage =? 0 then Panic
  else
    let totalPages := Z.max 0 (i64 (Z.quot (i64 (count - 1)) itemsOnPage)) in
    let page := if count <=? from then totalPages else page in
    let from := i64 (page * itemsOnPage) in
    let to := i64 (i64 (page + 1) * itemsOnPage) in
    let to := if count <? to then count else to in
    Ret (mkPaging (i64 (page + 1)) (i64 (totalPages + 1)) itemsOnPage, from, to, page).

(** ** Values of an address in a transaction *)

Definition getAddrVoutValue (t : ATx.t) (addrDesc : bytes) : Z :=
  foldl (fun val vout => if bool_decide (AVout.AddrDesc vout = addrDesc)
                         then val + default 0 (AVout.ValueSat vout) else val) 0 (ATx.Vout t).

Definition getAddrVinValue (t : ATx.t) (addrDesc : bytes) : Z :=
  foldl (fun val vin => if bool_decide (AVin.AddrDesc vin = addrDesc)
                        then val + default 0 (AVin.ValueSat vin) else val) 0 (ATx.Vin t).

(** [GetUniqueTxids]: the first occurrence of every txid. *)
Definition GetUniqueTxids (txids : list string) : list string :=
  (foldl (fun '(ut, m) txid => if decide (txid ∈ m) then (ut, m) else (ut ++ [txid], {[txid]} ∪ m))
     ([], ∅ : gset string) txids).1.

Section worker.
Context `{DB : Store} `{P : BlockChainParser} `{V : Vlq} `{SC : ScriptLib} `{J : StateJson}
  `{R : BlockChain} `{E : EthLib} `{C : ApiChain}.
(** The configuration of the cache, the clock and the mempool. *)
Context (cacheEnabled : bool) (now : Z) (mempool : BaseMempool).

Abbreviation worker := (sgo RocksDB).

Definition txCache (txid : string) : worker (Tx.t * Z) := TxCache_GetTransaction now cacheEnabled txid.

(** ** Addresses *)

(** Descriptor, addresses and searchability; on an error what is known so far. *)
Definition getAddressesFromVout (vout : Vout.t) : go (bytes * list string * bool) :=
  match GetAddrDescFromVout vout with
  | Ret addrDesc =>
      let* '(a, s) := logged ([], false) (GetAddressesFromAddrDesc addrDesc) in Ret (addrDesc, a, s)
  | Fail _ => Ret ([], [], false)
  | Panic => Panic
  end.

Definition getAddrDescAndNormalizeAddress (address : string) : go (bytes * string) :=
  match GetAddrDescFromAddress address with
  | Panic => Panic
  | Fail _ => Fail (ErrAPI "Invalid address" true)
  | Ret addrDesc =>
      let* '(addresses, _) := logged ([], false) (GetAddressesFromAddrDesc addrDesc) in
      Ret (addrDesc, match addresses with [a] => a | _ => address end)
  end.

(** ** The transaction that spends an output *)

Definition set_spent (t : string) (height index : Z) (vout : AVout.t) : AVout.t :=
  AVout.mk (AVout.ValueSat vout) (AVout.N vout) (AVout.Spent vout) t index height (AVout.Hex vout)
    (AVout.AddrDesc vout) (AVout.Addresses vout) (AVout.Searchable vout).

(** One index of a transaction [t] of the address: [Ret true] if it is the input. *)
Definition spendsVout (txid t : string) (index : Z) (d : RocksDB) (vout : AVout.t)
    : RocksDB * AVout.t * go bool :=
  if 0 <=? index then (d, vout, Ret false)
  else
    let index := Z.lnot index in
    match GetTxAddresses d t with
    | Panic => (d, vout, Panic)
    | Fail e => (d, vout, Fail e)
    | Ret None => (d, vout, Ret false)
    | Ret (Some tsp) =>
        match Inputs tsp !! Z.to_nat index, AVout.ValueSat vout with
        | Some input, Some value =>
            if TxInput.ValueSat input =? value then
              match txCache t d with
              | (d, Panic) => (d, vout, Panic)
              | (d, Fail _) => (d, vout, Ret false)
              | (d, Ret (spentTx, spentHeight)) =>
                  match Tx.Vin spentTx !! Z.to_nat index with
                  | Some vin =>
                      if decide (Vin.Txid vin = txid)
                      then (d, set_spent t spentHeight index vout, Ret true)
                      else (d, vout, Ret false)
                  | None => (d, vout, Ret false)
                  end
              end
            else (d, vout, Ret false)
        | Some _, None => (d, vout, Panic)
        | None, _ => (d, vout, Ret false)
        end
    end.

Fixpoint spendingCallback (txid t : string) (indexes : list Z) (s : RocksDB * AVout.t)
    : (RocksDB * AVout.t) * cbResult :=
  match indexes with
  | [] => (s, CbNext)
  | index :: rest =>
      match spendsVout txid t index s.1 s.2 with
      | (d, vout, Ret true) => ((d, vout), CbStop)
      | (d, vout, Ret false) => spendingCallback txid t rest (d, vout)
      | (d, vout, Fail e) => ((d, vout), CbErr e)
      | (d, vout, Panic) => ((d, vout), CbPanic)
      end
  end.

(** The output with its spending transaction, also when the search ended with an error. *)
Definition setSpendingTxToVout (vout : AVout.t) (txid : string) (height : Z)
    : worker (AVout.t * go unit) := fun d =>
  let '((d', vout), r) :=
    GetAddrDescTransactions (fun s t _ indexes => spendingCallback txid t indexes s)
      d (AVout.AddrDesc vout) height maxUint32 (d, vout) in
  (d', match r with Panic => Panic | r => Ret (vout, r) end).

(** ** Transactions *)

Definition zeroVin (i : nat) (v : Vin.t) : AVin.t :=
  AVin.mk (Vin.Txid v) (Vin.Vout v) (Vin.Sequence v) (Z.of_nat i) [] [] false None (Vin.ScriptSigHex v)
    (Vin.Coinbase v).

Definition set_vin (ad : bytes) (addresses : list string) (searchable : bool) (value : option Z)
    (v : AVin.t) : AVin.t :=
  AVin.mk (AVin.Txid v) (AVin.Vout v) (AVin.Sequence v) (AVin.N v) ad addresses searchable value
    (AVin.Hex v) (AVin.Coinbase v).

(** An input of a transaction that is not in [txAddresses]. *)
Definition vinFromBackend (bchainTx : Tx.t) (i : nat) (txid : string) (vin : AVin.t) : worker AVin.t := fun d =>
  match txCache txid d with
  | (d, Panic) => (d, Panic)
  | (d, Fail ErrTxNotFound) =>
      let ad := GetAddrDescForUnknownInput bchainTx (Z.of_nat i) in
      let value := GetValueSatForUnknownInput bchainTx (Z.of_nat i) in
      (d, let* '(a, s) := logged ([], false) (GetAddressesFromAddrDesc ad) in
          Ret (set_vin ad a s (Some value) vin))
  | (d, Fail e) => (d, Fail (ErrAnnotated e "txCache.GetTransaction"))
  | (d, Ret (otx, _)) =>
      (d, match Tx.Vout otx !! Z.to_nat (AVin.Vout vin) with
          | None => Ret vin
          | Some vout =>
              let* '(ad, a, s) := getAddressesFromVout vout in
              Ret (set_vin ad a s (Some (Vout.ValueSat vout)) vin)
          end)
  end.

(** An input of a transaction of the index. *)
Definition vinFromIndex (tas : TxAddresses) (vin : AVin.t) : go AVin.t :=
  match Outputs tas !! Z.to_nat (AVin.Vout vin) with
  | None => Ret vin
  | Some output =>
      let* '(a, s) := logged ([], false) (GetAddressesFromAddrDesc (TxOutput.AddrDesc output)) in
      Ret (set_vin (TxOutput.AddrDesc output) a s (Some (TxOutput.ValueSat output)) vin)
  end.

Definition apiVin (bchainTx : Tx.t) (x : nat * Vin.t) : worker AVin.t :=
  let '(i, bchainVin) := x in
  let vin := zeroVin i bchainVin in
  match GetChainType with
  | ChainBitcoinType =>
      if decide (Vin.Txid bchainVin = EmptyString) then sret vin
      else
        let! d := sget in
        let! tas := slift (annotate "GetTxAddresses" (GetTxAddresses d (Vin.Txid bchainVin))) in
        match tas with
        | None => vinFromBackend bchainTx i (Vin.Txid bchainVin) vin
        | Some tas => slift (vinFromIndex tas vin)
        end
  | ChainEthereumType =>
      match Vin.Addresses bchainVin with
      | [] => sret vin
      | a :: _ =>
          let! ad := slift (logged [] (GetAddrDescFromAddress a)) in
          sret (set_vin ad (Vin.Addresses bchainVin) true (AVin.ValueSat vin) vin)
      end
  | ChainOtherType _ => sret vin
  end.

Definition apiVout (bchainTx : Tx.t) (ta : option TxAddresses) (height : Z) (spendingTxs : bool)
    (x : nat * Vout.t) : worker AVout.t :=
  let '(i, bchainVout) := x in
  let! '(ad, a, s) := slift (getAddressesFromVout bchainVout) in
  let vout := AVout.mk (Some (Vout.ValueSat bchainVout)) (Z.of_nat i) false EmptyString 0 0
                (Vout.ScriptPubKeyHex bchainVout) ad a s in
  match ta with
  | None => sret vout
  | Some ta =>
      let! o := slift (go_index (Outputs ta) (Z.of_nat i)) in
      let vout := AVout.mk (AVout.ValueSat vout) (AVout.N vout) (TxOutput.Spent o) EmptyString 0 0
                    (AVout.Hex vout) ad a s in
      if spendingTxs && TxOutput.Spent o
      then let! '(vout, _) := setSpendingTxToVout vout (Tx.Txid bchainTx) height in sret vout
      else sret vout
  end.

Definition sumValues (l : list (option Z)) : Z := foldl (fun s v => s + default 0 v) 0 l.

(** A transfer of tokens; without the descriptor of the contract the element of the slice
    keeps its zero value. *)
Definition tokenTransfer (e : Erc20Transfer.t) : go TokenTransfer.t :=
  match GetAddrDescFromAddress (Erc20Transfer.Contract e) with
  | Panic => Panic
  | Fail _ => Ret TokenTransfer.zero
  | Ret cd =>
      let* c := logged None (EthereumTypeGetErc20ContractInfo cd) in
      let c := default (Erc20Contract.mk EmptyString (Erc20Transfer.Contract e) EmptyString 0) c in
      Ret (TokenTransfer.mk ERC20TokenType (Erc20Transfer.From e) (Erc20Transfer.To e)
             (Erc20Transfer.Contract e) (Erc20Contract.Name c) (Erc20Contract.Symbol c)
             (Erc20Contract.Decimals c) (Some (Erc20Transfer.Tokens e)))
  end.

(** Tokens, fees, value and Ethereum data of a transaction, by the kind of the chain. *)
Definition chainPart (bchainTx : Tx.t) (valIn valOut : Z)
    : go (list TokenTransfer.t * Z * Z * option Z * option EthereumSpecific) :=
  match GetChainType with
  | ChainBitcoinType => Ret ([], valIn - valOut, valOut, Some valIn, None)
  | ChainEthereumType =>
      let* ets := logged [] (EthereumTypeGetErc20FromTx bchainTx) in
      let* tokens := go_map tokenTransfer ets in
      let etd := GetEthereumTxData bchainTx in
      let* fees := (match et_GasUsed etd with
                    | Some used => let* price := must (et_GasPrice etd) in Ret (price * used)
                    | None => Ret 0
                    end) in
      let valOut := match Tx.Vout bchainTx with v :: _ => Vout.ValueSat v | [] => valOut end in
      Ret (tokens, fees, valOut, None,
           Some (mkEthereumSpecific (et_Status etd) (et_Nonce etd) (et_GasLimit etd) (et_GasUsed etd)
                   (et_GasPrice etd)))
  | ChainOtherType _ => Ret ([], 0, valOut, None, None)
  end.

(** The shielded balance and the fee it leads to: a negative transparent fee is only
    cleared without a shielded balance. *)
Definition shieldFees (fees shieldValBal : Z) : option Z * Z :=
  if IsZeroBigInt shieldValBal then (None, if fees <? 0 then 0 else fees)
  else (Some shieldValBal, fees + shieldValBal).

Definition GetTransactionFromBchainTx (bchainTx : Tx.t) (height : Z) (spendingTxs specificJSON : bool)
    : worker ATx.t :=
  let! d := sget in
  let! '(ta, blockhash) :=
    slift (if 0 <? Tx.Confirmations bchainTx then
             let* ta := (match GetChainType with
                         | ChainBitcoinType => annotate "GetTxAddresses" (GetTxAddresses d (Tx.Txid bchainTx))
                         | _ => Ret None
                         end) in
             let* blockhash := annotate "GetBlockHash" (GetBlockHash d height) in
             Ret (ta, blockhash)
           else Ret (None, EmptyString)) in
  let! vins := smap (apiVin bchainTx) (enumerate (Tx.Vin bchainTx)) in
  let valIn := sumValues (AVin.ValueSat <$> vins) in
  let! vouts := smap (apiVout bchainTx ta height spendingTxs) (enumerate (Tx.Vout bchainTx)) in
  let valOut := sumValues (AVout.ValueSat <$> vouts) in
  let! '(tokens, fees, valOut, pValIn, ethSpecific) := slift (chainPart bchainTx valIn valOut) in
  let! sj := slift (if specificJSON then GetTransactionSpecific bchainTx else Ret EmptyString) in
  let tempTx := json_UnmarshalTx sj in
  let '(saplingBalance, fees) := shieldFees fees (Tx.ShieldValBal tempTx) in
  let blocktime := if Tx.Confirmations bchainTx =? 0
                   then Mempool.GetTransactionTime mempool (Tx.Txid bchainTx) else Tx.Blocktime bchainTx in
  sret (ATx.mk (Tx.Txid bchainTx) (Tx.Version bchainTx) (Tx.LockTime bchainTx) vins vouts blockhash
          height (Tx.Confirmations bchainTx) blocktime (Some valOut) pValIn
          (zlen (Tx.VShieldIn tempTx)) (zlen (Tx.VShieldOut tempTx)) saplingBalance (Some fees)
          (Tx.Hex bchainTx) (Tx.SpecificData bchainTx) sj tokens ethSpecific).

Definition api_GetTransaction (txid : string) (spendingTxs specificJSON : bool) : worker ATx.t := fun d =>
  match txCache txid d with
  | (d, Panic) => (d, Panic)
  | (d, Fail _) => (d, Fail (ErrAPI "Transaction not found" true))
  | (d, Ret (bchainTx, height)) => GetTransactionFromBchainTx bchainTx height spendingTxs specificJSON d
  end.

Definition GetSpendingTxid (txid : string) (n : Z) : worker string :=
  let! tx := api_GetTransaction txid false false in
  if (zlen (ATx.Vout tx) <=? n) || (n <? 0) then sfail (ErrAPI "Passed incorrect vout index" false)
  else
    let! vout := slift (go_index (ATx.Vout tx) n) in
    let! '(vout, r) := setSpendingTxToVout vout (ATx.Txid tx) (u32 (ATx.Blockheight tx)) in
    do! slift r in sret (AVout.SpentTxID vout).

(** A transaction from the index alone. *)
Definition txFromTxAddress (txid : string) (ta : TxAddresses) (bi : BlockInfo.t) (bestheight : Z) : go ATx.t :=
  let* vins := go_map (fun '(i, tai) =>
      let* '(a, s) := logged ([], false) (GetAddressesFromAddrDesc (TxInput.AddrDesc tai)) in
      Ret (AVin.mk EmptyString 0 0 (Z.of_nat i) [] a s (Some (TxInput.ValueSat tai)) EmptyString EmptyString))
    (enumerate (Inputs ta)) in
  let valIn := sumValues (AVin.ValueSat <$> vins) in
  let* vouts := go_map (fun '(i, tao) =>
      let* '(a, s) := logged ([], false) (GetAddressesFromAddrDesc (TxOutput.AddrDesc tao)) in
      Ret (AVout.mk (Some (TxOutput.ValueSat tao)) (Z.of_nat i) (TxOutput.Spent tao) EmptyString 0 0
             EmptyString [] a s))
    (enumerate (Outputs ta)) in
  let valOut := sumValues (AVout.ValueSat <$> vouts) in
  let fees := Z.max 0 (valIn - valOut) in
  let '(saplingBalance, fees) :=
    if IsZeroBigInt (ShieldValBal ta) then (None, fees)
    else (Some (ShieldValBal ta), fees + ShieldValBal ta) in
  Ret (ATx.mk txid 0 0 vins vouts (BlockInfo.Hash bi) (Height ta) (u32 (u32 (bestheight - Height ta) + 1))
         (BlockInfo.Time bi) (Some valOut) (Some valIn) (ShieldIns ta) (ShieldOuts ta) saplingBalance
         (Some fees) EmptyString NoSpecificData EmptyString [] None).

Definition set_ATx_Blocktime (t : Z) (tx : ATx.t) : ATx.t :=
  ATx.mk (ATx.Txid tx) (ATx.Version tx) (ATx.Locktime tx) (ATx.Vin tx) (ATx.Vout tx) (ATx.Blockhash tx)
    (ATx.Blockheight tx) (ATx.Confirmations tx) t (ATx.ValueOutSat tx) (ATx.ValueInSat tx) (ATx.ShieldIns tx)
    (ATx.ShieldOuts tx) (ATx.ShieldValBal tx) (ATx.FeesSat tx) (ATx.Hex tx) (ATx.SpecificData tx)
    (ATx.CoinSpecificJSON tx) (ATx.TokenTransfers tx) (ATx.EthSpecific tx).

Definition emptyBlockInfo : BlockInfo.t := BlockInfo.mk EmptyString 0 0 0 0.

Definition txFromTxid (txid : string) (bestheight : Z) (option_ : AccountDetails) (blockInfo : option BlockInfo.t)
    : worker ATx.t :=
  if (option_ =? AccountDetailsTxHistoryLight) && bool_decide (GetChainType = ChainBitcoinType) then
    let! d := sget in
    let! ta := slift (annotate "GetTxAddresses" (GetTxAddresses d txid)) in
    match ta with
    | None => sannotate "GetTransaction" (api_GetTransaction txid false true)
    | Some ta =>
        let! bi := slift (match blockInfo with
                          | Some bi => Ret bi
                          | None => let* r := annotate "GetBlockInfo" (GetBlockInfo d (Height ta)) in
                                    Ret (default emptyBlockInfo r)
                          end) in
        slift (txFromTxAddress txid ta bi bestheight)
    end
  else
    let! tx := sannotate "GetTransaction" (api_GetTransaction txid false true) in
    sret (match blockInfo with Some bi => set_ATx_Blocktime (BlockInfo.Time bi) tx | None => tx end).

(** ** The transactions of an address *)

Definition voutMatches (f : AddressFilter) (index : Z) : bool :=
  let vout := if index <? 0 then Z.lnot index else index in
  ((f_Vout f =? AddressFilterVoutInputs) && (index <? 0)) ||
  ((f_Vout f =? AddressFilterVoutOutputs) && (0 <=? index)) ||
  (vout =? i32 (f_Vout f)).

(** The callback of [getAddressTxids]. *)
Definition txidsCallback (f : AddressFilter) (maxResults : Z) (txids : list string) (txid : string)
    (indexes : list Z) : list string * cbResult :=
  if (f_Vout f =? AddressFilterVoutOff) || existsb (voutMatches f) indexes then
    let txids := txids ++ [txid] in
    (txids, if maxResults <=? zlen txids then CbStop else CbNext)
  else (txids, CbNext).

(** An outpoint of the mempool: what the callback returns is not looked at. *)
Definition mempoolTxid (f : AddressFilter) (maxResults : Z) (s : list string * gset string) (m : Outpoint.t)
    : list string * gset string :=
  let '(txids, uniqueTxs) := s in
  if decide (Outpoint.Txid m ∈ uniqueTxs) then (txids, uniqueTxs)
  else
    let '(txids', _) := txidsCallback f maxResults txids (Outpoint.Txid m) [Outpoint.Vout m] in
    (txids', if zlen txids <? zlen txids' then {[Outpoint.Txid m]} ∪ uniqueTxs else uniqueTxs).

Definition mempoolTxids (f : AddressFilter) (maxResults : Z) (o : list Outpoint.t) : list string :=
  (foldl (mempoolTxid f maxResults) ([], ∅) o).1.

Definition getAddressTxids (d : RocksDB) (addrDesc : bytes) (fromMempool : bool) (f : AddressFilter)
    (maxResults : Z) : go (list string) :=
  if fromMempool then Ret (mempoolTxids f maxResults (mempool_GetAddrDescTransactions mempool addrDesc))
  else
    let to := if f_ToHeight f =? 0 then maxUint32 else f_ToHeight f in
    match GetAddrDescTransactions (fun txids txid _ indexes => txidsCallback f maxResults txids txid indexes)
            d addrDesc (f_FromHeight f) to [] with
    | (txids, Ret _) => Ret txids
    | (_, Fail e) => Fail e
    | (_, Panic) => Panic
    end.

(** ** Balances of Ethereum-like addresses *)

Definition set_f_Vout (v : Z) (f : AddressFilter) : AddressFilter :=
  mkFilter v (f_Contract f) (f_FromHeight f) (f_ToHeight f) (f_TokensToReturn f) (f_OnlyConfirmed f).

(** One contract of the address; a contract that passes the filter becomes the filter of
    the transactions. *)
Definition contractToken (addrDesc filterDesc : bytes) (details : AccountDetails)
    (acc : list Token.t * AddressFilter) (x : nat * AddrContract.t) : go (list Token.t * AddressFilter) :=
  let '(tokens, filter) := acc in
  let '(i, c) := x in
  if negb (zlen filterDesc =? 0) && negb (bool_decide (filterDesc = AddrContract.Contract c))
  then Ret (tokens, filter)
  else
    let index := Z.of_nat i + 1 in
    let filter := if zlen filterDesc =? 0 then filter else set_f_Vout index filter in
    let* info := annotate "EthereumTypeGetErc20ContractInfo"
                   (EthereumTypeGetErc20ContractInfo (AddrContract.Contract c)) in
    let* '(ci, valid) :=
      (match info with
       | Some ci => Ret (ci, true)
       | None =>
           let* '(addresses, _) := logged ([], false) (GetAddressesFromAddrDesc (AddrContract.Contract c)) in
           let a := default EmptyString (head addresses) in
           Ret (Erc20Contract.mk a a EmptyString 0, false)
       end) in
    let* b := (if (AccountDetailsTokenBalances <=? details) && valid
               then logged None (EthereumTypeGetErc20ContractBalance addrDesc (AddrContract.Contract c))
               else Ret None) in
    Ret (tokens ++ [Token.mk ERC20TokenType (Erc20Contract.Name ci) EmptyString (Erc20Contract.Contract ci)
                      (i64 (AddrContract.Txs c)) (Erc20Contract.Symbol ci) (Erc20Contract.Decimals ci) b
                      None None index], filter).

(** The number of results for paging, -1 if it is not known. *)
Definition ethTotalResults (ca : AddrContracts) (f : AddressFilter) : Z :=
  if (f_FromHeight f =? 0) && (f_ToHeight f =? 0) then
    if f_Vout f =? AddressFilterVoutOff then i64 (TotalTxs ca)
    else if f_Vout f =? 0 then i64 (NonContractTxs ca)
    else if 0 <? f_Vout f then
      match Contracts ca !! Z.to_nat (f_Vout f - 1) with
      | Some c => i64 (AddrContract.Txs c)
      | None => -1
      end
    else -1
  else -1.

Record ethBalances := mkEthBalances {
  eb_ba : option AddrBalance;
  eb_tokens : list Token.t;
  eb_ci : option Erc20Contract.t;
  eb_nonce : Z;
  eb_nonContractTxs : Z;
  eb_totalResults : Z;
  eb_filter : AddressFilter;
}.

Definition getEthereumTypeAddressBalances (d : RocksDB) (addrDesc : bytes) (details : AccountDetails)
    (filter : AddressFilter) : go ethBalances :=
  match GetAddrDescContracts d addrDesc with
  | Panic => Panic
  | Fail _ => Fail (ErrAPI "Address not found" true)
  | Ret ca =>
      let* b := annotate "EthereumTypeGetBalance" (EthereumTypeGetBalance addrDesc) in
      match ca with
      | None =>
          Ret (mkEthBalances (b ← b; Some (set_BalanceSat b emptyBalance)) [] None 0 0 (-1) filter)
      | Some ca =>
          let ba := set_BalanceSat (default 0 b) (set_Txs (u32 (TotalTxs ca)) emptyBalance) in
          let* n := annotate "EthereumTypeGetNonce" (EthereumTypeGetNonce addrDesc) in
          let* filterDesc :=
            (if decide (f_Contract filter = EmptyString) then Ret []
             else match GetAddrDescFromAddress (f_Contract filter) with
                  | Fail _ => Fail (ErrAPI "Invalid contract filter" true)
                  | r => r
                  end) in
          let* '(tokens, filter) :=
            (if AccountDetailsBasic <? details
             then go_fold (contractToken addrDesc filterDesc details) ([], filter) (enumerate (Contracts ca))
             else Ret ([], filter)) in
          let* ci := EthereumTypeGetErc20ContractInfo addrDesc in
          Ret (mkEthBalances (Some ba) tokens ci n (i64 (NonContractTxs ca)) (ethTotalResults ca filter) filter)
      end
  end.

(** ** Addresses *)

Record unconfirmed := mkUnconfirmed {
  u_txs : Z;
  u_balance : Z;
  u_Txids : list string;
  u_Txs : list ATx.t;
}.

(** A transaction of the mempool; one that cannot be read is skipped, a confirmed one too. *)
Definition addUnconfirmed (addrDesc : bytes) (page : Z) (option_ : AccountDetails) (txid : string)
    (u : unconfirmed) : worker unconfirmed := fun d =>
  match api_GetTransaction txid false true d with
  | (d, Panic) => (d, Panic)
  | (d, Fail _) => (d, Ret u)
  | (d, Ret tx) =>
      (d, Ret (if ATx.Confirmations tx =? 0 then
                 mkUnconfirmed (u_txs u + 1)
                   (u_balance u + getAddrVoutValue tx addrDesc - getAddrVinValue tx addrDesc)
                   (if (page =? 0) && (option_ =? AccountDetailsTxidHistory)
                    then u_Txids u ++ [ATx.Txid tx] else u_Txids u)
                   (if (page =? 0) && (AccountDetailsTxHistoryLight <=? option_)
                    then u_Txs u ++ [tx] else u_Txs u)
               else u))
  end.

(** The confirmed part: paging and the transactions of the page. *)
Definition confirmedPage (addrDesc : bytes) (page txsOnPage : Z) (option_ : AccountDetails)
    (filter : AddressFilter) (totalResults : Z) : worker (Paging * list string * list ATx.t) :=
  let! d := sget in
  let! txc := slift (annotate "getAddressTxids"
                (getAddressTxids d addrDesc false filter (i64 (i64 (page + 1) * txsOnPage)))) in
  let! '(bestheight, _) := slift (annotate "GetBestBlock" (GetBestBlock d)) in
  let! '(pg, from, to, page) := slift (computePaging (zlen txc) page txsOnPage) in
  let! pg := (if txsOnPage <=? zlen txc then
                if totalResults <? 0 then sret (mkPaging (p_Page pg) (-1) (p_ItemsOnPage pg))
                else let! '(pg, _, _, _) := slift (computePaging totalResults page txsOnPage) in sret pg
              else sret pg) in
  let! '(txids, txs) :=
    sfold (fun i '(txids, txs) =>
        let! txid := slift (go_index txc i) in
        if option_ =? AccountDetailsTxidHistory then sret (txids ++ [txid], txs)
        else let! tx := txFromTxid txid bestheight option_ None in sret (txids, txs ++ [tx]))
      (range from to) ([], []) in
  sret (pg, txids, txs).

(** What is known of an address before its transactions are read. *)
Definition addressBalances (d : RocksDB) (addrDesc : bytes) (option_ : AccountDetails) (filter : AddressFilter)
    : go (ethBalances * option Z) :=
  match GetChainType with
  | ChainEthereumType =>
      let* e := getEthereumTypeAddressBalances d addrDesc option_ filter in Ret (e, Some (i64 (eb_nonce e)))
  | _ =>
      match GetAddrDescBalance d addrDesc DetailNoUTXO with
      | Panic => Panic
      | Fail _ => Fail (ErrAPI "Address not found" true)
      | Ret ba =>
          let total := match ba with
                       | None => 0
                       | Some ba => if (f_Vout filter =? AddressFilterVoutOff) && (f_FromHeight filter =? 0) &&
                                       (f_ToHeight filter =? 0)
                                    then Txs ba else -1
                       end in
          Ret (mkEthBalances ba [] None 0 0 total filter, None)
      end
  end.

Definition GetAddress (address : string) (page txsOnPage : Z) (option_ : AccountDetails)
    (filter : AddressFilter) : worker Address.t :=
  let page := normPage page in
  let! '(addrDesc, address) := slift (getAddrDescAndNormalizeAddress address) in
  let! d := sget in
  let! '(e, nonce) := slift (addressBalances d addrDesc option_ filter) in
  let filter := eb_filter e in
  let page := match eb_ba e with None => 0 | Some _ => page end in
  let ba := default emptyBalance (eb_ba e) in
  let! u := (if (f_ToHeight filter =? 0) && negb (f_OnlyConfirmed filter) then
               let! txm := slift (annotate "getAddressTxids" (getAddressTxids d addrDesc true filter maxInt)) in
               sfold (addUnconfirmed addrDesc page option_) txm (mkUnconfirmed 0 0 [] [])
             else sret (mkUnconfirmed 0 0 [] [])) in
  let! '(pg, txids, txs) :=
    (if AccountDetailsTxidHistory <=? option_
     then confirmedPage addrDesc page txsOnPage option_ filter (eb_totalResults e)
     else sret (noPaging, [], [])) in
  let '(received, sent) := if bool_decide (GetChainType = ChainBitcoinType)
                           then (Some (ReceivedSat ba), Some (SentSat ba)) else (None, None) in
  sret (Address.mk pg address (Some (BalanceSat ba)) received sent (Some (u_balance u)) (u_txs u) (Txs ba)
          (eb_nonContractTxs e) (u_Txs u ++ txs) (u_Txids u ++ txids) nonce 0 (eb_tokens e) (eb_ci e) ∅).

(** ** Unspent outputs *)

(** [txid + strconv.Itoa(vout)] *)
Definition utxoKey (txid : string) (vout : Z) : string :=
  (txid ++ String.string_of_list_ascii (big_String vout))%string.

(** The transactions of the mempool that can be read, and the outputs they spend. *)
Definition mempoolTxs (txm : list string) : worker (list Tx.t * gset string) :=
  sfold (fun txid '(mc, spent) d =>
      match txCache txid d with
      | (d, Panic) => (d, Panic)
      | (d, Fail _) => (d, Ret (mc, spent))
      | (d, Ret (tx, _)) =>
          (d, Ret (mc ++ [tx],
                   foldl (fun m vin => {[utxoKey (Vin.Txid vin) (i64 (Vin.Vout vin))]} ∪ m) spent (Tx.Vin tx)))
      end) txm ([], ∅).

(** The outputs of a mempool transaction that belong to the address and are not spent in
    the mempool. *)
Definition mempoolUtxos (addrDesc : bytes) (spent : gset string) (tx : Tx.t) : go (list AUtxo.t) :=
  go_fold (fun r '(i, vout) =>
      match GetAddrDescFromVout vout with
      | Panic => Panic
      | Fail _ => Ret r
      | Ret vad =>
          if bool_decide (addrDesc = vad) && negb (bool_decide (utxoKey (Tx.Txid tx) (Z.of_nat i) ∈ spent))
          then Ret (r ++ [AUtxo.mk (Tx.Txid tx) (i32 (Z.of_nat i)) (Some (Vout.ValueSat vout)) 0 0
                            EmptyString EmptyString (Tx.LockTime tx)])
          else Ret r
      end) [] (enumerate (Tx.Vout tx)).

(** The utxos of the index that are not spent in the mempool, the newest first. *)
Definition indexUtxos (spent : gset string) (bestheight : Z) (utxos : list Utxo.t) : go (list AUtxo.t) :=
  go_fold (fun r utxo =>
      let* txid := UnpackTxid (Utxo.BtxID utxo) in
      Ret (if bool_decide (utxoKey txid (Utxo.Vout utxo) ∈ spent) then r
           else r ++ [AUtxo.mk txid (Utxo.Vout utxo) (Some (Utxo.ValueSat utxo)) (Utxo.Height utxo)
                        (i64 (bestheight - Utxo.Height utxo + 1)) EmptyString EmptyString 0]))
    [] (reverse utxos).

Definition offFilter : AddressFilter :=
  mkFilter AddressFilterVoutOff EmptyString 0 0 TokensToReturnNonzeroBalance false.

Definition getAddrDescUtxo (addrDesc : bytes) (ba : option AddrBalance) (onlyConfirmed onlyMempool : bool)
    : worker (list AUtxo.t) :=
  let! d := sget in
  let! '(r, spent) :=
    (if onlyConfirmed then sret ([], ∅)
     else
       let! txm := slift (getAddressTxids d addrDesc true offFilter maxInt) in
       let! '(mc, spent) := mempoolTxs txm in
       let! us := slift (go_map (mempoolUtxos addrDesc spent) mc) in
       sret (concat us, spent)) in
  if onlyMempool then sret r
  else
    let! d := sget in
    let! ba := slift (match ba with
                      | Some ba => Ret (Some ba)
                      | None => match GetAddrDescBalance d addrDesc DetailUTXO with
                                | Fail _ => Fail (ErrAPI "Address not found" true)
                                | r => r
                                end
                      end) in
    match ba with
    | None => sret r
    | Some ba =>
        if zlen (Utxos ba) =? 0 then sret r
        else
          let! '(bestheight, _) := slift (GetBestBlock d) in
          let! us := slift (indexUtxos spent bestheight (Utxos ba)) in
          sret (r ++ us)
    end.

Definition GetAddressUtxo (address : string) (onlyConfirmed : bool) : worker (list AUtxo.t) :=
  if bool_decide (GetChainType = ChainBitcoinType) then
    match GetAddrDescFromAddress address with
    | Panic => spanic
    | Fail _ => sfail (ErrAPI "Invalid address" true)
    | Ret addrDesc => getAddrDescUtxo addrDesc None onlyConfirmed false
    end
  else sfail (ErrAPI "Not supported" true).

(** ** Blocks *)

(** The loop of [GetBlocks]; [r] is the slice [r.Blocks] of the length of the page.  At
    a height without a header the slice is cut at the absolute position [i]. *)
Fixpoint blocksFrom (d : RocksDB) (bestheight from : Z) (is' : list Z) (r : list BlockInfo.t)
    : go (list BlockInfo.t) :=
  match is' with
  | [] => Ret r
  | i :: rest =>
      let* bi := GetBlockInfo d (u32 (bestheight - i)) in
      match bi with
      | None => go_slice r 0 i
      | Some bi => blocksFrom d bestheight from rest (<[Z.to_nat (i - from) := bi]> r)
      end
  end.

Definition GetBlocks (d : RocksDB) (page blocksOnPage : Z) : go Blocks :=
  let page := normPage page in
  let* '(bestheight, _) := annotate "GetBestBlock" (GetBestBlock d) in
  let* '(pg, from, to, _) := computePaging (bestheight + 1) page blocksOnPage in
  if to - from <? 0 then Panic
  else
    let* blocks := blocksFrom d bestheight from (range from to)
                     (repeat emptyBlockInfo (Z.to_nat (to - from))) in
    Ret (mkBlocks pg blocks).

(** [strconv.Atoi]: a decimal number that fits an [int]. *)
Definition Atoi (s : string) : option Z :=
  n ← big_SetString (String.list_ascii_of_string s);
  if (- 2 ^ 63 <=? n) && (n <? 2 ^ 63) then Some n else None.

Definition set_links (prev next : string) (bi : ChainBlockInfo.t) : ChainBlockInfo.t :=
  ChainBlockInfo.mk (ChainBlockInfo.Hash bi) prev next (ChainBlockInfo.Height bi) (ChainBlockInfo.Confirmations bi)
    (ChainBlockInfo.Size bi) (ChainBlockInfo.Time bi) (ChainBlockInfo.Version bi) (ChainBlockInfo.MerkleRoot bi)
    (ChainBlockInfo.Nonce bi) (ChainBlockInfo.Bits bi) (ChainBlockInfo.Difficulty bi) [] (ChainBlockInfo.SaplingRoot bi).

(** The hash a block identifier stands for. *)
Definition blockHashOf (d : RocksDB) (bid : string) : go string :=
  match Atoi bid with
  | Some height =>
      if height <? maxUint32 then logged bid (GetBlockHash d (u32 height)) else Ret bid
  | None => Ret bid
  end.

Definition api_GetBlock (bid : string) (page txsOnPage : Z) : worker ABlock.t :=
  let page := normPage page in
  let! d := sget in
  let! hash := slift (blockHashOf d bid) in
  if decide (hash = EmptyString) then sfail (ErrAPI "Block not found" true)
  else
    match chain_GetBlockInfo hash with
    | Panic => spanic
    | Fail _ => sfail (ErrAPI "Block not found" true)
    | Ret bi =>
        let height := ChainBlockInfo.Height bi in
        let dbi := BlockInfo.mk (ChainBlockInfo.Hash bi) (ChainBlockInfo.Time bi) 0 0 height in
        let txCount := zlen (ChainBlockInfo.Txids bi) in
        let! '(bestheight, _) := slift (annotate "GetBestBlock" (GetBestBlock d)) in
        let! '(pg, from, to, _) := slift (computePaging txCount page txsOnPage) in
        if to - from <? 0 then spanic
        else
          let! txs := smap (fun i =>
              let! txid := slift (go_index (ChainBlockInfo.Txids bi) i) in
              txFromTxid txid bestheight AccountDetailsTxHistory (Some dbi)) (range from to) in
          let! d := sget in
          let! prev := slift (if bool_decide (ChainBlockInfo.Prev bi = EmptyString) && negb (height =? 0)
                              then logged EmptyString (GetBlockHash d (u32 (height - 1)))
                              else Ret (ChainBlockInfo.Prev bi)) in
          let! next := slift (if bool_decide (ChainBlockInfo.Next bi = EmptyString) && negb (height =? bestheight)
                              then logged EmptyString (GetBlockHash d (u32 (height + 1)))
                              else Ret (ChainBlockInfo.Next bi)) in
          sret (ABlock.mk pg (set_links prev next bi) txCount txs)
    end.

(** ** The mempool *)

Definition GetMempool (page itemsOnPage : Z) : go MempoolTxids :=
  let page := normPage page in
  let entries := GetAllEntries mempool in
  let* '(pg, from, to, _) := computePaging (zlen entries) page itemsOnPage in
  if to - from <? 0 then Panic
  else
    let* es := go_map (fun i => let* e := go_index entries i in Ret (me_Txid e, me_Time e)) (range from to) in
    Ret (mkMempoolTxids pg es (zlen entries)).
End worker.
