(* ===== verification/Hoare.v ===== *)
(** Invariants of methods: what a method of the monad [sgo] keeps of its receiver, whether it
    returns, fails or panics, and what it returns. *)
From stdpp Require Import base list.
From S2P Require Import Prelude Worker BitcoinIndex Connect BulkConnect.

Open Scope go_scope.

(** From a state with [I] the method ends in a state with [I], and what it returns has [Q]. *)
Definition holds {S A} (I : S -> Prop) (m : sgo S A) (Q : A -> Prop) : Prop :=
  forall s, I s -> I (m s).1 /\ forall a, (m s).2 = Ret a -> Q a.

(** Nothing is said of the result. *)
Abbreviation keeps I m := (holds I m (fun _ => True)).

Section holds.
Context {S : Type} (I : S -> Prop).

Lemma holds_weaken {A} (m : sgo S A) (Q Q' : A -> Prop) : holds I m Q -> (forall a, Q a -> Q' a) -> holds I m Q'.
Proof. intros H HQ s Hs. destruct (H s Hs). eauto. Qed.

Lemma holds_keeps {A} (m : sgo S A) Q : holds I m Q -> keeps I m.
Proof. intros H. by eapply holds_weaken. Qed.

Lemma holds_ret {A} (a : A) (Q : A -> Prop) : Q a -> holds I (sret a) Q.
Proof. intros Ha s Hs. split; [done|]. by intros b [= <-]. Qed.

Lemma holds_fail {A} e (Q : A -> Prop) : holds I (sfail e) Q.
Proof. by intros s Hs. Qed.

Lemma holds_panic {A} (Q : A -> Prop) : holds I spanic Q.
Proof. by intros s Hs. Qed.

Lemma holds_lift {A} (m : go A) (Q : A -> Prop) : (forall a, m = Ret a -> Q a) -> holds I (slift m) Q.
Proof. by intros H s Hs. Qed.

Lemma slift_keeps {A} (m : go A) : keeps I (slift m).
Proof. by apply holds_lift. Qed.

Lemma holds_get : holds I sget I.
Proof. intros s Hs. split; [done|]. by intros a [= <-]. Qed.

Lemma holds_put s : I s -> keeps I (sput s).
Proof. by intros Hs s0 _. Qed.

Lemma holds_bind {A B} (m : sgo S A) (k : A -> sgo S B) (Q : A -> Prop) (Q' : B -> Prop) :
  holds I m Q -> (forall a, Q a -> holds I (k a) Q') -> holds I (sbind m k) Q'.
Proof.
  intros Hm Hk s Hs. unfold sbind. destruct (Hm s Hs) as [H1 H2]. destruct (m s) as [s' [a|e|]]; [|done..].
  apply Hk; [by apply H2|done].
Qed.

Lemma holds_annotate {A} msg (m : sgo S A) (Q : A -> Prop) : holds I m Q -> holds I (sannotate msg m) Q.
Proof. intros Hm s Hs. unfold sannotate. destruct (Hm s Hs) as [H1 H2]. by destruct (m s) as [s' [a|e|]]. Qed.

Lemma keeps_logged {A} z (m : sgo S A) : keeps I m -> keeps I (slogged z m).
Proof. intros Hm s Hs. unfold slogged. destruct (Hm s Hs) as [H1 _]. by destruct (m s). Qed.

Lemma keeps_attempt {A} (m : sgo S A) : keeps I m -> keeps I (attempt m).
Proof. intros Hm s Hs. unfold attempt. destruct (Hm s Hs) as [H1 _]. by destruct (m s) as [s' [a|e|]]. Qed.

Lemma keeps_sfor {A} (f : A -> sgo S unit) l : (forall x, keeps I (f x)) -> keeps I (sfor f l).
Proof.
  intros Hf. induction l as [|x l IH]; [by apply holds_ret|]. cbn [sfor]. apply (holds_bind _ _ _ _ (Hf x)). by intros _ _.
Qed.

Lemma keeps_smap {A B} (f : A -> sgo S B) l : (forall x, keeps I (f x)) -> keeps I (smap f l).
Proof.
  intros Hf. induction l as [|x l IH]; [by apply holds_ret|]. cbn [smap].
  apply (holds_bind _ _ _ _ (Hf x)). intros y _. apply (holds_bind _ _ _ _ IH). intros ys _. by apply holds_ret.
Qed.

Lemma holds_sfold {A B} (f : A -> B -> sgo S B) (Q : B -> Prop) l : (forall x b, Q b -> holds I (f x b) Q) ->
  forall b, Q b -> holds I (sfold f l b) Q.
Proof.
  intros Hf. induction l as [|x l IH]; intros b Hb; [by apply holds_ret|]. cbn [sfold].
  by apply (holds_bind _ _ _ _ (Hf x b Hb)).
Qed.

(** A method on a state of its own. *)
Lemma holds_run_on {T A} (J : T -> Prop) (t : T) (back : T -> S -> S) (m : sgo T A) (Q : T * A -> Prop) :
  J t -> (forall t' s, J t' -> I s -> I (back t' s)) -> holds J m (fun a => forall t', J t' -> Q (t', a)) -> holds I (run_on t back m) Q.
Proof.
  intros Ht Hb Hm s Hs. unfold run_on. destruct (Hm t Ht) as [H1 H2]. destruct (m t) as [t' [a|e|]]; cbn in *; (split; [by apply Hb|]); [|done..].
  intros x [= <-]. by apply H2.
Qed.

(** A method on a part of the state. *)
Lemma holds_part {T A} (J : T -> Prop) (get : S -> T) (put : T -> S -> S) (m : sgo T A) (Q : A -> Prop) :
  (forall s, I s -> J (get s)) -> (forall t s, J t -> I s -> I (put t s)) -> holds J m Q ->
  holds I (fun s => let '(t, r) := m (get s) in (put t s, r)) Q.
Proof. intros Hg Hp Hm s Hs. destruct (Hm (get s) (Hg s Hs)) as [H1 H2]. destruct (m (get s)) as [t r]. split; [by apply Hp|done]. Qed.
End holds.

(** The same for a method that may leave another state behind when it panics: nothing runs after
    it in that state. *)
Definition ends {S A} (I J : S -> Prop) (m : sgo S A) (Q : A -> Prop) : Prop :=
  forall s, I s -> match (m s).2 with Panic => J (m s).1 | _ => I (m s).1 end /\ forall a, (m s).2 = Ret a -> Q a.

Section ends.
Context {S : Type} (I J : S -> Prop).

Lemma ends_holds {A} (m : sgo S A) Q : (forall s, I s -> J s) -> holds I m Q -> ends I J m Q.
Proof. intros HIJ Hm s Hs. destruct (Hm s Hs) as [H1 H2]. split; [|done]. destruct (m s) as [s' [a|e|]]; cbn in *; auto. Qed.

Lemma ends_bind {A B} (m : sgo S A) (k : A -> sgo S B) (Q : A -> Prop) (Q' : B -> Prop) :
  ends I J m Q -> (forall a, Q a -> ends I J (k a) Q') -> ends I J (sbind m k) Q'.
Proof.
  intros Hm Hk s Hs. unfold sbind. destruct (Hm s Hs) as [H1 H2]. destruct (m s) as [s' [a|e|]]; [|done..].
  apply Hk; [by apply H2|done].
Qed.

Lemma ends_then {A B} (m : sgo S A) (k : A -> sgo S B) (Q : A -> Prop) (Q' : B -> Prop) :
  (forall s, I s -> J s) -> holds I m Q -> (forall a, Q a -> ends I J (k a) Q') -> ends I J (sbind m k) Q'.
Proof. intros HIJ Hm. by apply ends_bind, ends_holds. Qed.

Lemma ends_logged {A} z (m : sgo S A) : ends I J m (fun _ => True) -> ends I J (slogged z m) (fun _ => True).
Proof. intros Hm s Hs. unfold slogged. destruct (Hm s Hs) as [H1 _]. by destruct (m s) as [s' [a|e|]]. Qed.

Lemma ends_sfor {A} (f : A -> sgo S unit) l : (forall s, I s -> J s) -> (forall x, ends I J (f x) (fun _ => True)) ->
  ends I J (sfor f l) (fun _ => True).
Proof.
  intros HIJ Hf. induction l as [|x l IH]; [by apply ends_holds, holds_ret|]. cbn [sfor]. apply (ends_bind _ _ _ _ (Hf x)). by intros _ _.
Qed.
End ends.

(** One step through the body of a method of which nothing is said about the results. *)
Ltac keeps_step :=
  lazymatch goal with
  | |- holds _ (sret _) _ => by apply holds_ret
  | |- holds _ (sfail _) _ => apply holds_fail
  | |- holds _ spanic _ => apply holds_panic
  | |- holds _ (slift _) _ => apply slift_keeps
  | |- holds _ sget _ => exact (holds_keeps _ _ _ (holds_get _))
  | |- holds ?I (sbind sget _) _ => eapply (holds_bind I _ _ I); [apply holds_get|intros ? ?]
  | |- holds _ (sput _) _ => apply holds_put
  | |- holds _ (sfold _ _ _) _ => apply (holds_sfold _ _ (fun _ => True)); [intros ? ? _|done]
  | |- holds _ (sbind _ _) _ => eapply (holds_bind _ _ _ (fun _ => True)); [|intros ? _]
  | |- holds _ (sannotate _ _) _ => apply holds_annotate
  | |- holds _ (slogged _ _) _ => apply keeps_logged
  | |- holds _ (attempt _) _ => apply keeps_attempt
  | |- holds _ (sfor _ _) _ => apply keeps_sfor; intros ?
  | |- holds _ (smap _ _) _ => apply keeps_smap; intros ?
  end.

Create HintDb keeps.

Ltac keeps_solve := repeat (keeps_step || (progress eauto 3 with keeps) || case_match).
