(* ===== verification/DbStateFacts.v ===== *)
(** The state of the database ([DbState] of the internal state) in memory and in the store:
    every method of the index keeps the two equal.  Nothing but the methods that store the
    internal state writes its key. *)
From stdpp Require Import base list gmap strings.
From Stdlib Require Import ZArith Lia.
From S2P Require Import Prelude Types Store Vlq Codec InternalState AddrBalance TxAddresses RocksDB RocksDBFacts.
From S2P Require Import BitcoinIndex EthIndex Connect BulkConnect BulkFacts Mempool Sync Worker Hoare.

Open Scope Z_scope.
Open Scope go_scope.

(** ** Batches *)

Definition other_column (o : wb_op) : Prop := (op_key o).1 <> cfDefault.

(** A batch that does not write the column of the internal state. *)
Abbreviation avoids wb := (Forall other_column wb).

Lemma avoids_state wb m : avoids wb -> apply_batch wb m !! stateKey = m !! stateKey.
Proof.
  intros H. apply apply_batch_other. rewrite Forall_forall in *. intros o Ho E. by apply (H o Ho); rewrite E.
Qed.

Lemma avoids_map {A} (f : A -> wb_op) wb l : avoids wb -> (forall x, other_column (f x)) -> avoids (wb ++ map f l).
Proof.
  intros Hw Hf. apply Forall_app. split; [done|]. apply Forall_forall. intros o (x & <- & _)%list_elem_of_In%in_map_iff. apply Hf.
Qed.

Lemma avoids_concat {A} (f : A -> list wb_op) wb l : avoids wb -> (forall x, avoids (f x)) -> avoids (wb ++ concat (map f l)).
Proof.
  intros Hw Hf. apply Forall_app. split; [done|]. apply Forall_concat, Forall_forall.
  intros o (x & <- & _)%list_elem_of_In%in_map_iff. apply Hf.
Qed.

Lemma avoids_snoc wb o : avoids wb -> other_column o -> avoids (wb ++ [o]).
Proof. intros Hw Ho. apply Forall_app. by rewrite Forall_singleton. Qed.

Section batches.
Context `{DB : Store} `{P : BlockChainParser} `{V : Vlq}.

Lemma storeAddresses_avoids wb h m : avoids wb -> avoids (storeAddresses wb h m).
Proof. intros H. by apply avoids_map. Qed.

Lemma storeTxAddresses_avoids wb m : avoids wb -> avoids (storeTxAddresses wb m).
Proof. intros H. by apply avoids_map. Qed.

Lemma storeBalances_avoids wb m : avoids wb -> avoids (storeBalances wb m).
Proof. intros H. apply avoids_map; [done|]. intros [k [b|]]; cbn; [by destruct (_ <=? _)|done]. Qed.

Lemma storeAddressContracts_avoids wb m : avoids wb -> avoids (storeAddressContracts wb m).
Proof. intros H. apply avoids_map; [done|]. intros [k [b|]]; cbn; [|done]. by repeat case_match. Qed.
End batches.

#[export] Hint Resolve avoids_snoc storeAddresses_avoids storeTxAddresses_avoids storeBalances_avoids storeAddressContracts_avoids : keeps.
#[export] Hint Extern 1 (other_column _) => discriminate : keeps.
#[export] Hint Extern 1 (Forall other_column []) => constructor : keeps.

(** ** The database *)

(** The opened database says in the store and in memory that its state is [z]. *)
Definition inState `{Store} `{StateJson} (z : Z) (d : RocksDB) : Prop := exists i s i',
  istate d = Some i /\ db d = Some s /\ storedState s = Some i' /\ DbState i' = DbState i /\ DbState i = z.

Section synced.
Context `{SL : StoreLaws} `{P : BlockChainParser} `{V : Vlq} `{SC : ScriptLib} `{JL : StateJsonLaws} `{R : BlockChain}.
Hypothesis Hrel : reliable.
Context (z : Z).
Abbreviation synced := (inState z).

Lemma synced_cbs c d : synced d -> synced (set_cbs c d).
Proof. done. Qed.

Lemma dbWrite_keeps wb : avoids wb -> keeps synced (dbWrite wb).
Proof.
  intros Hw d (i & s & i' & Hi & Hs & Hst & He). split; [|done].
  destruct (dbWrite_reliable Hrel d s wb Hs) as (s' & -> & Hc). exists i, s', i'. split; [done|]. split; [done|].
  split; [|done]. unfold storedState. by rewrite Hc, avoids_state.
Qed.

Lemma state_with_is_keeps f : (forall i i', f i = Ret i' -> DbState i' = DbState i) -> keeps synced (with_is f).
Proof.
  intros Hf d H. pose proof H as (i & s & i' & Hi & Hs & Hst & He & Ho). split; [|done]. unfold with_is. rewrite Hi.
  destruct (f i) as [i1| |] eqn:Ei; [|done..]. pose proof (Hf _ _ Ei) as E. exists i1, s, i'. rewrite E. done.
Qed.

Lemma storeState_keeps now : keeps synced (storeState now).
Proof.
  intros d (i & s & i' & Hi & Hs & Hst & He & Ho). split; [|done].
  destruct (storeState_run Hrel now d i s Hi Hs) as (s' & -> & Hs' & _). by exists (set_LastStore now i), s', (set_LastStore now i).
Qed.

(** [StoreInternalState] reads the statistics before. *)
Lemma columnStats_total l d : (istate d <> None) ->
  go_fold (fun _ c => let* i := must (istate d) in let* _ := GetDBColumnStatValues (Z.of_nat c) i in Ret tt) tt l = Ret tt.
Proof.
  intros Hi. induction l as [|c l IH]; [done|]. cbn [go_fold].
  assert ((let* i := must (istate d) in let* _ := GetDBColumnStatValues (Z.of_nat c) i in Ret tt) = Ret tt) as ->; [|exact IH].
  destruct (istate d) as [i|]; [|done]. cbn [must go_bind]. unfold GetDBColumnStatValues, go_index.
  destruct (Z.ltb_spec (Z.of_nat c) (zlen (DbColumns i))) as [Hc|]; [|done].
  destruct (Z.leb_spec 0 (Z.of_nat c)); [|lia]. rewrite Nat2Z.id. destruct (DbColumns i !! c) eqn:E; [done|].
  apply lookup_ge_None in E. unfold zlen in Hc. lia.
Qed.

Lemma StoreInternalState_run now d i s names : cfNames = Ret names -> istate d = Some i -> db d = Some s ->
  exists s', StoreInternalState now d = (set_db (Some s') (set_istate (Some (set_LastStore now i)) d), Ret tt) /\
    storedState s' = Some (set_LastStore now i).
Proof.
  intros Hn Hi Hs. unfold StoreInternalState. rewrite (sbind_eq _ _ d d d), (sbind_eq _ _ d d tt); [| |done].
  { destruct (storeState_run Hrel now d i s Hi Hs) as (s' & -> & Hs' & _). by exists s'. }
  destruct (metrics d); [|done]. unfold sbind, slift. rewrite Hn. by rewrite columnStats_total by (by rewrite Hi).
Qed.

Lemma StoreInternalState_keeps now : keeps synced (StoreInternalState now).
Proof.
  unfold StoreInternalState. apply (holds_bind _ _ _ _ _ (holds_keeps _ _ _ (holds_get _))). intros d _.
  eapply (holds_bind _ _ _ (fun _ => True)); [keeps_solve|]. intros _ _. apply storeState_keeps.
Qed.

Lemma SetInconsistentState_state now b d : synced d ->
  exists d', SetInconsistentState now b d = (d', Ret tt) /\ inState (if b then DbStateInconsistent else DbStateOpen) d'.
Proof.
  intros (i & s & i' & Hi & Hs & Hst & He & Ho).
  destruct (SetInconsistentState_run Hrel now b d i s Hi Hs) as (s' & -> & Hs' & _). eexists. split; [done|].
  by eexists _, s', _.
Qed.

(** ** Connecting and disconnecting blocks *)

Lemma set_cbs_keeps (c : connectBlockStats) d : synced d -> synced (set_cbs c d).
Proof. done. Qed.

Lemma writeHeight_keeps now wb h bi op : avoids wb -> holds synced (writeHeight now wb h bi op) (fun wb => avoids wb).
Proof.
  intros Hw. unfold writeHeight. destruct op.
  - eapply (holds_bind _ _ _ (fun _ => True)); [apply slift_keeps|]. intros val _.
    eapply (holds_bind _ _ _ (fun _ => True)); [apply state_with_is_keeps; by intros i i' [= <-]|]. intros _ _. apply holds_ret. auto with keeps.
  - eapply (holds_bind _ _ _ (fun _ => True)); [apply state_with_is_keeps; by intros i i' [= <-]|]. intros _ _. apply holds_ret. auto with keeps.
Qed.

Lemma state_cleanupFrom_keeps rh : keeps synced (cleanupFrom rh).
Proof.
  induction rh as [|rh IH]; cbn [cleanupFrom]; [by apply holds_ret|].
  eapply (holds_bind _ _ _ (fun _ => True)); [exact (holds_keeps _ _ _ (holds_get _))|]. intros d _.
  eapply (holds_bind _ _ _ (fun _ => True)); [apply slift_keeps|]. intros [v|] _; [|by apply holds_ret].
  eapply (holds_bind _ _ _ (fun _ => True)); [|by intros _ _]. intros d0 Hd0. split; [|done].
  destruct (dbWrite_keeps [DeleteCF cfBlockTxs (packUint (Z.of_nat (S rh)))] ltac:(by repeat constructor) d0 Hd0) as [H _].
  by destruct (dbWrite _ d0) as [d1 [[]| |]].
Qed.

Lemma state_cleanupBlockTxs_keeps block : keeps synced (cleanupBlockTxs block).
Proof. unfold cleanupBlockTxs. case_match; [apply state_cleanupFrom_keeps|by apply holds_ret]. Qed.

Lemma storeAndCleanupBlockTxs_keeps wb block : avoids wb -> holds synced (storeAndCleanupBlockTxs wb block) (fun wb => avoids wb).
Proof.
  intros Hw. unfold storeAndCleanupBlockTxs. eapply (holds_bind _ _ _ (fun _ => True)); [apply slift_keeps|]. intros bts _.
  eapply (holds_bind _ _ _ (fun _ => True)); [apply state_cleanupBlockTxs_keeps|]. intros _ _. apply holds_ret. auto with keeps.
Qed.

Lemma storeAndCleanupEth_keeps wb block bts : avoids wb ->
  holds synced (storeAndCleanupBlockTxsEthereumType wb block bts) (fun wb => avoids wb).
Proof.
  intros Hw. unfold storeAndCleanupBlockTxsEthereumType.
  eapply (holds_bind _ _ _ (fun _ => True)); [apply state_cleanupBlockTxs_keeps|]. intros _ _. apply holds_ret. auto with keeps.
Qed.

(** A method on a state of its own, of which only the statistics come back. *)
Lemma state_run_on_keeps {T A} (t : T) (back : T -> RocksDB -> RocksDB) (m : sgo T A) :
  (forall t' d, synced d -> synced (back t' d)) -> keeps synced (run_on t back m).
Proof. intros Hb. apply (holds_run_on _ (fun _ => True)); auto. by intros s Hs. Qed.

Lemma state_connectBitcoin_keeps wb block : avoids wb -> holds synced (connectBitcoin wb block) (fun x => avoids x.1).
Proof.
  intros Hw. unfold connectBitcoin. eapply (holds_bind _ _ _ (fun _ => True)); [exact (holds_keeps _ _ _ (holds_get _))|]. intros d _.
  eapply (holds_bind _ _ _ (fun _ => True)); [by apply state_run_on_keeps|]. intros [b u] _.
  eapply holds_bind; [apply storeAndCleanupBlockTxs_keeps; auto with keeps|]. intros wb' Hw'. by apply holds_ret.
Qed.

Lemma state_connectEthereum_keeps wb block : avoids wb -> holds synced (connectEthereum wb block) (fun x => avoids x.1).
Proof.
  intros Hw. unfold connectEthereum. eapply (holds_bind _ _ _ (fun _ => True)); [exact (holds_keeps _ _ _ (holds_get _))|]. intros d _.
  eapply (holds_bind _ _ _ (fun _ => True)); [by apply state_run_on_keeps|]. intros [b u] _.
  eapply holds_bind; [apply storeAndCleanupEth_keeps; auto with keeps|]. intros wb' Hw'. by apply holds_ret.
Qed.

Lemma ConnectBlock_keeps now block : keeps synced (ConnectBlock now block).
Proof.
  unfold ConnectBlock. eapply holds_bind; [by apply writeHeight_keeps|]. intros wb Hw.
  eapply (holds_bind _ _ _ (fun x => avoids x.1)).
  - destruct GetChainType; [by apply state_connectBitcoin_keeps|by apply state_connectEthereum_keeps|apply holds_fail].
  - intros [wb' addresses] Hw'. apply dbWrite_keeps. auto with keeps.
Qed.

(** The batch of the disconnection of blocks. *)
Definition dc_avoids (s : disconnectState) : Prop := avoids (dc_wb s).

Lemma unspendOutput_keeps d input : keeps dc_avoids (unspendOutput d input).
Proof. unfold unspendOutput. keeps_solve. Qed.

Lemma getAddressBalance_keeps d ad : keeps dc_avoids (getAddressBalance d ad).
Proof. unfold getAddressBalance. keeps_solve. Qed.

Lemma putDcBalance_keeps ad b : keeps dc_avoids (putDcBalance ad b).
Proof. by intros s Hs. Qed.

#[local] Hint Resolve unspendOutput_keeps getAddressBalance_keeps putDcBalance_keeps : keeps.

Lemma disconnectInput_keeps d inputs i value ad addresses : keeps dc_avoids (disconnectInput d inputs i value ad addresses).
Proof. unfold disconnectInput. keeps_solve. Qed.

Lemma disconnectOutput_keeps d btxID i value ad addresses : keeps dc_avoids (disconnectOutput d btxID i value ad addresses).
Proof. unfold disconnectOutput. keeps_solve. Qed.

#[local] Hint Resolve disconnectInput_keeps disconnectOutput_keeps : keeps.

Lemma disconnectTx_keeps d height b : keeps dc_avoids (disconnectTx d height b).
Proof.
  unfold disconnectTx. keeps_step; [keeps_step|]. destruct a as [txa|]; [|keeps_step]. unfold disconnectTxAddresses.
  keeps_step; [keeps_solve|]. keeps_step; [keeps_solve|].
  intros s Hs. split; [|done]. by apply avoids_map.
Qed.

Lemma disconnectBlock_keeps d x : keeps dc_avoids (disconnectBlock d x).
Proof.
  unfold disconnectBlock. destruct x as [height bts]. keeps_step; [keeps_step; apply disconnectTx_keeps|].
  intros s Hs. split; [|done]. apply Forall_app. split; [done|]. by repeat constructor.
Qed.

Lemma DisconnectBitcoin_keeps lower higher : keeps synced (DisconnectBlockRangeBitcoinType lower higher).
Proof.
  unfold DisconnectBlockRangeBitcoinType. keeps_step. keeps_step; [keeps_step|].
  eapply (holds_bind _ _ _ (fun x => dc_avoids x.1)).
  - apply (holds_run_on _ dc_avoids); [constructor|done|]. eapply holds_weaken; [keeps_step; apply disconnectBlock_keeps|]. by intros [] _ t Ht.
  - intros [st u] Hst. keeps_step; [keeps_step|]. apply dbWrite_keeps.
    apply avoids_concat; [|by repeat constructor]. unfold storeBalancesDisconnect. auto with keeps.
Qed.

Lemma disconnectEthTxs_avoids d wb height bts contracts wb' contracts' : avoids wb ->
  disconnectBlockTxsEthereumType d wb height bts contracts = Ret (wb', contracts') -> avoids wb'.
Proof.
  intros Hw. unfold disconnectBlockTxsEthereumType. destruct (sfor _ bts _) as [s [u| |]]; [|done..]. intros [= <- <-].
  rewrite app_assoc. apply avoids_map; [|done]. by apply avoids_map.
Qed.

Lemma DisconnectEthereum_keeps lower higher : keeps synced (DisconnectBlockRangeEthereumType lower higher).
Proof.
  unfold DisconnectBlockRangeEthereumType. eapply (holds_bind synced _ _ synced); [apply holds_get|intros d Hd].
  eapply (holds_bind _ _ _ (fun _ => True)); [keeps_step|intros bl _].
  eapply (holds_bind _ _ _ (fun x => avoids x.1)).
  - apply holds_lift. cut (forall wb c r, avoids wb -> go_fold (fun '(wb, contracts) '(height, bts) =>
      let* '(wb, contracts) := disconnectBlockTxsEthereumType d wb height bts contracts in
      Ret (wb ++ [DeleteCF cfBlockTxs (packUint height); DeleteCF cfHeight (packUint height)], contracts)) (wb, c) bl = Ret r -> avoids r.1).
    { intros H r Hr. eapply H, Hr. constructor. }
    induction bl as [|[height bts] bl IH]; intros wb c r Hw; cbn [go_fold]; [by intros [= <-]|].
    destruct (disconnectBlockTxsEthereumType d wb height bts c) as [[wb' c']| |] eqn:E; [|done..]. cbn [go_bind]. apply IH.
    apply Forall_app. split; [by eapply disconnectEthTxs_avoids|]. by repeat constructor.
  - intros [wb c] Hw. keeps_step; [keeps_step|]. apply dbWrite_keeps. auto with keeps.
Qed.

Lemma DisconnectBlocks_keeps lower higher : keeps synced (DisconnectBlocks lower higher).
Proof. unfold DisconnectBlocks. destruct GetChainType; [apply DisconnectBitcoin_keeps|apply DisconnectEthereum_keeps|apply holds_fail]. Qed.

(** ** The bulk import *)

(** The blocks kept in memory can be packed. *)
Definition bulk_synced (s : RocksDB * BulkConnect) : Prop := synced s.1 /\ Forall packable (bulkAddresses s.2).

Lemma on_d_holds {A} (m : sgo RocksDB A) Q : holds synced m Q -> holds bulk_synced (on_d m) Q.
Proof.
  intros Hm. apply (holds_part bulk_synced synced fst (fun d s => (d, s.2))); [by intros s [H _]| |exact Hm].
  by intros d s Hd [_ H].
Qed.

Lemma dbWrite_ret wb d : avoids wb -> synced d -> exists d', dbWrite wb d = (d', Ret tt) /\ synced d'.
Proof.
  intros Hw Hd. destruct (dbWrite_keeps wb Hw d Hd) as [H _]. destruct Hd as (i & s & i' & _ & Hs & _).
  destruct (dbWrite_reliable Hrel d s wb Hs) as (s' & E & _). rewrite E in H. eauto.
Qed.

Lemma on_d_write wb s c : avoids wb -> bulkAddresses c = bulkAddresses s.2 -> bulk_synced s ->
  exists s', on_d (dbWrite wb) (s.1, c) = (s', Ret tt) /\ bulk_synced s'.
Proof.
  intros Hw Hc [Hs Hp]. destruct (dbWrite_ret wb s.1 Hw Hs) as (d' & E & Hd'). exists (d', c).
  unfold on_d. cbn [fst snd]. rewrite E. split; [done|]. split; [done|]. cbn. by rewrite Hc.
Qed.

(** Storing the maps does not fail. *)
Definition stores (m : sgo (RocksDB * BulkConnect) unit) : Prop :=
  forall s, bulk_synced s -> exists s', m s = (s', Ret tt) /\ bulk_synced s'.

Lemma parallelStoreTxAddresses_stores all : stores (parallelStoreTxAddresses all).
Proof. intros s Hs. apply on_d_write; auto with keeps. Qed.

Lemma parallelStoreBalances_stores all : stores (parallelStoreBalances all).
Proof. intros s Hs. apply on_d_write; auto with keeps. Qed.

Lemma parallelStoreAddressContracts_stores all : stores (parallelStoreAddressContracts all).
Proof. intros s Hs. apply on_d_write; auto with keeps. Qed.

Lemma stores_keeps m : stores m -> keeps bulk_synced m.
Proof. intros Hm s Hs. destruct (Hm s Hs) as (s' & -> & Hs'). by split. Qed.

#[local] Hint Resolve parallelStoreTxAddresses_stores parallelStoreBalances_stores parallelStoreAddressContracts_stores stores_keeps : keeps.

Lemma storeBulkAddresses_keeps now wb : avoids wb -> holds bulk_synced (storeBulkAddresses now wb) (fun wb => avoids wb).
Proof.
  intros Hw. unfold storeBulkAddresses. eapply (holds_bind _ _ _ bulk_synced); [apply holds_get|intros s Hs].
  eapply holds_bind.
  - apply on_d_holds, (holds_sfold _ _ (fun wb => avoids wb)); [|exact Hw]. intros x b Hb. apply writeHeight_keeps. auto with keeps.
  - intros wb' Hw' t [Ht _]. split; [by split|]. by intros a [= <-].
Qed.

Lemma writeBlockEnd_keeps now sa f :
  (forall g, f = Some g -> forall wb, avoids wb -> holds synced (g wb) (fun wb => avoids wb)) ->
  keeps bulk_synced (writeBlockEnd now sa f).
Proof.
  intros Hf. unfold writeBlockEnd. keeps_step. set (full := sa || _). destruct (full || _); [|keeps_step].
  eapply (holds_bind _ _ _ (fun wb => avoids wb)); [destruct full; [by apply storeBulkAddresses_keeps|by apply holds_ret]|]. intros wb Hw.
  eapply (holds_bind _ _ _ (fun wb => avoids wb)).
  - destruct f as [g|]; [apply on_d_holds; by apply (Hf g)|by apply holds_ret].
  - intros wb' Hw'. by apply on_d_holds, dbWrite_keeps.
Qed.

(** A block whose hash can be packed. *)
Definition packs (block : Block.t) : Prop := exists v, PackBlockHash (Block.Hash block) = Ret v.

Lemma pushAddresses_keeps block addresses : packs block -> keeps bulk_synced (pushAddresses block addresses).
Proof.
  intros [v Hv] s [Hs Hp]. split; [|done]. split; [done|]. apply Forall_app. split; [done|]. apply Forall_singleton.
  unfold packable, packBlockInfo. cbn. rewrite Hv. by eexists.
Qed.

Lemma bulk_process_keeps block : keeps bulk_synced (bulk_process block).
Proof. intros s [Hs Hp]. split; [|done]. unfold bulk_process. by destruct (processAddressesBitcoinType _ _ _). Qed.

Lemma bulk_processEth_keeps block : keeps bulk_synced (bulk_processEth block).
Proof. intros s [Hs Hp]. split; [|done]. unfold bulk_processEth. by destruct (processAddressesEthereumType _ _ _). Qed.

#[local] Hint Resolve pushAddresses_keeps bulk_process_keeps bulk_processEth_keeps : keeps.

Lemma connectBlockBitcoinType_keeps now block b : packs block -> keeps bulk_synced (connectBlockBitcoinType now block b).
Proof.
  intros Hb. unfold connectBlockBitcoinType. keeps_solve; apply writeBlockEnd_keeps; try done.
  all: intros ? [= <-] ? ?; by apply storeAndCleanupBlockTxs_keeps.
Qed.

Lemma connectBlockEthereumType_keeps now block b : packs block -> keeps bulk_synced (connectBlockEthereumType now block b).
Proof.
  intros Hb. unfold connectBlockEthereumType. keeps_solve; apply writeBlockEnd_keeps; try done.
  all: intros ? [= <-] ? ?; by apply storeAndCleanupEth_keeps.
Qed.

Lemma bulk_ConnectBlock_keeps now block b : packs block -> keeps bulk_synced (bulk_ConnectBlock now block b).
Proof.
  intros Hb. unfold bulk_ConnectBlock. eapply (holds_bind _ _ _ (fun _ => True)); [by intros s [Hs Hp]|]. intros _ _.
  destruct GetChainType; [by apply connectBlockBitcoinType_keeps|by apply connectBlockEthereumType_keeps|].
  apply on_d_holds, ConnectBlock_keeps.
Qed.

(** A part of [Close] that does not fail. *)
Lemma bulk_stored {A} (m : sgo (RocksDB * BulkConnect) unit) (k : go unit -> sgo (RocksDB * BulkConnect) A) s : stores m -> bulk_synced s ->
  exists s', sbind (attempt m) k s = k (Ret tt) s' /\ bulk_synced s'.
Proof.
  intros Hm Hs. destruct (Hm s Hs) as (s' & E & Hs'). exists s'. split; [|done]. unfold sbind, attempt. by rewrite E.
Qed.

Lemma storeBulkAddresses_ret now s : bulk_synced s ->
  exists s' wb, storeBulkAddresses now [] s = (s', Ret wb) /\ avoids wb /\ bulk_synced s'.
Proof.
  intros Hs. destruct (storeBulkAddresses_keeps now [] ltac:(constructor) s Hs) as [H1 H2].
  pose proof Hs as [(i & st & i' & Hi & _) Hp]. destruct (storeBulk_run now (bulkAddresses s.2) s.1 i [] Hi Hp) as (i1 & E).
  assert (exists s' wb, storeBulkAddresses now [] s = (s', Ret wb)) as (s' & wb & E').
  { unfold storeBulkAddresses. rewrite (sbind_eq _ _ s s s) by done. unfold sbind, on_d. rewrite E. by eexists _, _. }
  rewrite E' in H1, H2. exists s', wb. split; [done|]. split; [by apply H2|exact H1].
Qed.

(** [Close] succeeds and only then the state is open again. *)
Lemma bulk_Close_state now s : bulk_synced s -> exists s', bulk_Close now s = (s', Ret tt) /\ inState DbStateOpen s'.1.
Proof.
  intros Hs. unfold bulk_Close. set (stored := match GetChainType with ChainBitcoinType => _ | _ => _ end).
  assert (exists s1, stored s = (s1, Ret (Ret tt, Ret tt, Ret tt)) /\ bulk_synced s1) as (s1 & E1 & Hs1).
  { subst stored. destruct GetChainType.
    - destruct (bulk_stored _ (fun r1 => let! r2 := attempt (parallelStoreBalances true) in sret (r1, r2, Ret tt)) s
        (parallelStoreTxAddresses_stores true) Hs) as (s1 & -> & Hs1).
      destruct (bulk_stored _ (fun r2 => sret (Ret tt, r2, Ret tt)) s1 (parallelStoreBalances_stores true) Hs1) as (s2 & -> & Hs2). eauto.
    - destruct (bulk_stored _ (fun r3 => sret (Ret tt, Ret tt, r3)) s (parallelStoreAddressContracts_stores true) Hs) as (s1 & -> & Hs1). eauto.
    - eauto. }
  rewrite (sbind_eq _ _ s s1 (Ret tt, Ret tt, Ret tt)) by done. clear stored E1.
  destruct (storeBulkAddresses_ret now s1 Hs1) as (s2 & wb & E2 & Hwb & Hs2). rewrite (sbind_eq _ _ s1 s2 wb) by done.
  destruct (on_d_write wb s2 s2.2 Hwb eq_refl Hs2) as (s3 & E3 & Hs3). rewrite <- surjective_pairing in E3.
  rewrite (sbind_eq _ _ s2 s3 tt) by done. destruct Hs3 as [Hs3 _].
  destruct (SetInconsistentState_state now false s3.1 Hs3) as (d' & E4 & Hd'). exists (d', s3.2). split; [|done].
  unfold sbind, slift, on_d. by rewrite E4.
Qed.
End synced.

(** ** The synchronization *)

Section sync.
Context `{SL : StoreLaws} `{P : BlockChainParser} `{V : Vlq} `{SC : ScriptLib} `{JL : StateJsonLaws} `{R : BlockChain}.
Context (syncWorkers syncChunk : Z) (dryRun : bool) (interrupt : nat -> bool) (now : Z).
Hypothesis Hrel : reliable.

(** The daemon gives blocks with hashes that can be packed. *)
Hypothesis Hpacks : forall hash height b, GetBlock hash height = Ret b -> packs b.

Lemma writeBlocks_keeps n count lastBlock keep higher :
  holds (bulk_synced DbStateInconsistent) (writeBlocks dryRun interrupt now n count lastBlock keep higher) (fun r => r <> Panic).
Proof.
  revert count lastBlock. induction n as [|n IH]; intros count lastBlock; cbn [writeBlocks]; [by apply holds_ret|].
  destruct (interrupt count); [by apply holds_ret|].
  destruct (chain_GetBlockHash _) as [hash| |]; [|by apply holds_ret|apply holds_panic].
  destruct (GetBlock hash _) as [b| |] eqn:Eb; [| |apply holds_panic].
  - destruct dryRun; [apply IH|]. destruct (negb _); [apply holds_panic|]. intros s Hs.
    destruct (bulk_ConnectBlock_keeps Hrel DbStateInconsistent now b (higher <? u32 (Block.Height b + keep)) (Hpacks _ _ _ Eb) s Hs) as [H _].
    destruct (bulk_ConnectBlock _ _ _ s) as [s' [u| |]]; [|done..]. by apply IH.
  - destruct dryRun; [apply IH|]. destruct n; [by apply holds_ret|apply holds_panic].
Qed.

(** A bulk import begins with a state that is inconsistent. *)
Lemma InitBulkConnect_state z d : inState z d ->
  exists d' bc, InitBulkConnect now d = (d', Ret bc) /\ bulk_synced DbStateInconsistent (d', bc).
Proof.
  intros Hd. destruct (SetInconsistentState_state Hrel z now true d Hd) as (d' & E & Hd').
  unfold InitBulkConnect. rewrite (sbind_eq _ _ d d' tt) by done. eexists d', _. split; [done|]. by split.
Qed.

(** The state is inconsistent during all of a bulk import: before its first block and after
    every number of blocks, whatever stops it. *)
Definition importing (n : nat) (lower higher : Z) (d d' : RocksDB) : Prop := exists d1 bc,
  InitBulkConnect now d = (d1, Ret bc) /\
  d' = (writeBlocks dryRun interrupt now n O (u32 (lower - 1)) (u32 KeepBlockAddresses) higher (d1, bc)).1.1.

Lemma importing_inconsistent z n lower higher d d' : inState z d -> importing n lower higher d d' -> inState DbStateInconsistent d'.
Proof.
  intros Hd (d1 & bc & E & ->). destruct (InitBulkConnect_state z d Hd) as (d2 & bc2 & E2 & H2). rewrite E in E2. simplify_eq.
  apply (writeBlocks_keeps n O (u32 (lower - 1)) (u32 KeepBlockAddresses) higher (d2, bc2) H2).
Qed.

(** Only an import that is left by a panic leaves it inconsistent. *)
Lemma ConnectBlocksParallel_state z d lower higher : inState z d ->
  match ConnectBlocksParallel dryRun interrupt now lower higher d with
  | (d', Panic) => inState DbStateInconsistent d'
  | (d', _) => inState DbStateOpen d'
  end.
Proof.
  intros Hd. unfold ConnectBlocksParallel. destruct (InitBulkConnect_state z d Hd) as (d1 & bc & -> & H1).
  match goal with |- context [writeBlocks ?a ?b ?c ?n ?m ?l ?k ?h (d1, bc)] =>
    destruct (writeBlocks_keeps n m l k h (d1, bc) H1) as [H2 H3]; destruct (writeBlocks a b c n m l k h (d1, bc)) as [s [r| |]] end;
    [|apply H2..].
  destruct (bulk_Close_state Hrel _ now s H2) as (s' & -> & H4). destruct r; [done..|]. by destruct (H3 Panic).
Qed.

(** An import that ended the process. *)
Definition left_import (d : RocksDB) : Prop := inState DbStateInconsistent d /\
  exists lower higher d0, inState DbStateOpen d0 /\ ConnectBlocksParallel dryRun interrupt now lower higher d0 = (d, Panic).

Definition worker_synced (w : SyncWorker) : Prop := inState DbStateOpen (w_db w).

(** After a panic the state is open unless the panic was in an import. *)
Definition db_left (d : RocksDB) : Prop := inState DbStateOpen d \/ left_import d.
Definition worker_left (w : SyncWorker) : Prop := db_left (w_db w).

Abbreviation goes m := (ends worker_synced worker_left m (fun _ => True)).

Lemma worker_synced_left w : worker_synced w -> worker_left w.
Proof. by left. Qed.

Lemma goes_keeps {A} (m : sgo SyncWorker A) : keeps worker_synced m -> goes m.
Proof. exact (ends_holds _ _ m _ worker_synced_left). Qed.

Lemma goes_then {A B} (m : sgo SyncWorker A) (k : A -> sgo SyncWorker B) : keeps worker_synced m -> (forall a, goes (k a)) -> goes (sbind m k).
Proof. intros Hm Hk. exact (ends_then _ _ m k _ _ worker_synced_left Hm (fun a _ => Hk a)). Qed.

Lemma on_db_holds {A} (m : sgo RocksDB A) Q : holds (inState DbStateOpen) m Q -> holds worker_synced (on_db m) Q.
Proof. intros Hm. apply (holds_part worker_synced (inState DbStateOpen) w_db set_w_db); [done|done|exact Hm]. Qed.

Lemma notify_keeps hash height : keeps worker_synced (notify hash height).
Proof. by intros w Hw. Qed.

Lemma connectLoop_keeps fuel initialSync n hash height : keeps worker_synced (connectLoop interrupt now fuel initialSync n hash height).
Proof.
  revert n hash height. induction fuel as [|fuel IH]; intros n hash height; cbn [connectLoop]; [apply holds_panic|].
  destruct (initialSync && interrupt n); [destruct n; keeps_step|].
  destruct (GetBlock hash height) as [b|e|]; [|destruct e; keeps_step|keeps_step].
  keeps_step; [by apply on_db_holds, ConnectBlock_keeps|]. keeps_step; [apply notify_keeps|]. apply IH.
Qed.

Lemma ConnectBlocksParallel_goes lower higher : goes (on_db (ConnectBlocksParallel dryRun interrupt now lower higher)).
Proof.
  intros w Hw. split; [|done]. pose proof (ConnectBlocksParallel_state _ (w_db w) lower higher Hw) as H. unfold on_db.
  destruct (ConnectBlocksParallel _ _ _ _ _ (w_db w)) as [d' [u|e|]] eqn:E; [done..|]. right. split; [done|].
  by exists lower, higher, (w_db w).
Qed.

Lemma connectBlocks_keeps blocks initialSync : keeps worker_synced (connectBlocks interrupt now blocks initialSync).
Proof. unfold connectBlocks. keeps_step. apply connectLoop_keeps. Qed.

Lemma resyncIndex_goes fuel blocks initialSync :
  goes (resyncIndex syncWorkers syncChunk dryRun interrupt now fuel blocks initialSync).
Proof.
  induction fuel as [|fuel IH]; cbn [resyncIndex]; [apply goes_keeps, holds_panic|].
  apply goes_then; [keeps_step|]. intros remoteBestHash. eapply ends_then; [exact worker_synced_left|apply holds_get|]. intros w Hw.
  apply goes_then; [keeps_step|]. intros [localBestHeight localBestHash]. case_match; [apply goes_keeps; keeps_step|].
  apply goes_then.
  - case_match; [keeps_step|]. keeps_step; [keeps_step|]. case_match; [|keeps_step]. keeps_step; [|keeps_step]. by apply holds_put.
  - intros forked. case_match.
    + apply goes_then; [keeps_step|]. intros height. apply goes_then; [by apply on_db_holds, DisconnectBlocks_keeps|]. intros _. exact IH.
    + eapply ends_then; [exact worker_synced_left|apply holds_get|]. intros w1 Hw1. apply goes_then; [keeps_step|]. intros hash.
      apply goes_then; [by apply holds_put|]. intros _. case_match; [|apply goes_keeps, connectBlocks_keeps].
      apply goes_then; [keeps_step|]. intros remoteBestHeight. case_match; [apply goes_keeps; keeps_step|].
      case_match; [|apply goes_keeps, connectBlocks_keeps].
      apply (ends_bind _ _ _ _ (fun _ => True)); [apply ConnectBlocksParallel_goes|]. intros _ _. exact IH.
Qed.

Lemma ResyncIndex_goes fuel blocks initialSync :
  goes (ResyncIndex syncWorkers syncChunk dryRun interrupt now fuel blocks initialSync).
Proof.
  unfold ResyncIndex. assert (forall f, (forall i, DbState (f i) = DbState i) ->
    keeps worker_synced (on_db (with_is (fun i => Ret (f i))))) as Hmode.
  { intros f Hf. apply on_db_holds, state_with_is_keeps. by intros i i' [= <-]. }
  apply goes_then; [by apply Hmode|]. intros _ w Hw. split; [|done].
  destruct (resyncIndex_goes fuel blocks initialSync w Hw) as [H _].
  destruct (resyncIndex _ _ _ _ _ _ _ _ w) as [w1 [u|e|]]; [| |done]; cbn in H.
  - destruct (GetBestBlock (w_db w1)) as [[bh hash]| |]; [|done|by left].
    by apply (goes_keeps _ (Hmode (FinishedSync now bh) (fun i => eq_refl))).
  - destruct e; try done. by apply (goes_keeps _ (Hmode FinishedSyncNoChange (fun i => eq_refl))).
Qed.
End sync.
