(* ===== verification/WorkerFacts.v ===== *)
(** Facts about the API worker ([Worker]): pages partition what they page through, the
    search for the transactions of an address honours its filter, and balances and utxos
    of an address are those of the index. *)
From stdpp Require Import base list gmap strings sorting.
From Stdlib Require Import ZArith Lia.
From S2P Require Import Prelude Types Store Vlq Codec InternalState AddrBalance TxAddresses RocksDB RocksDBFacts.
From S2P Require Import BaseParser EthParser BitcoinParser BitcoinIndex Ledger IndexInvariant EthIndex Connect ConnectFacts.
From S2P Require Import Hex Mempool Sync ApiTypes Worker.

Open Scope Z_scope.
Open Scope go_scope.

(** ** Paging *)

(** The last page, counted from zero. *)
Definition lastPage (count n : Z) : Z := Z.max 0 ((count - 1) / n).

Definition in_int (z : Z) : Prop := 0 <= z < 2 ^ 63.

Lemma quot_last count n : 0 <= count -> 0 < n -> Z.max 0 (Z.quot (count - 1) n) = lastPage count n.
Proof.
  intros Hc Hn. unfold lastPage. destruct (Z.eq_dec count 0) as [-> |Hne].
  - replace (Z.quot (0 - 1) n) with (- Z.quot 1 n) by (rewrite <- Z.quot_opp_l by lia; done).
    rewrite Z.quot_div_nonneg by lia. pose proof (Z.div_pos 1 n). pose proof (Z.div_lt_upper_bound (0 - 1) n 0). lia.
  - by rewrite Z.quot_div_nonneg by lia.
Qed.

Lemma lastPage_spec count n : 0 < count -> 0 < n ->
  0 <= lastPage count n /\ lastPage count n * n < count <= (lastPage count n + 1) * n.
Proof.
  intros Hc Hn. unfold lastPage. pose proof (Z.div_pos (count - 1) n).
  rewrite Z.max_r by lia. pose proof (Z.div_mod (count - 1) n). pose proof (Z.mod_pos_bound (count - 1) n). nia.
Qed.

(** The page that is shown for a request: the last one beyond the end. *)
Definition shownPage (count page n : Z) : Z := if count <=? page * n then lastPage count n else page.

Lemma shownPage_bounds count page n : 0 <= count -> 0 <= page -> 0 < n ->
  0 <= shownPage count page n /\ shownPage count page n * n <= count /\
  shownPage count page n * n <= Z.max 0 (count - 1) /\
  shownPage count page n <= lastPage count n.
Proof.
  intros Hc Hp Hn. unfold shownPage. destruct (Z.eq_dec count 0) as [-> |Hne].
  - destruct (Z.leb_spec 0 (page * n)); [|nia]. unfold lastPage.
    pose proof (Z.div_lt_upper_bound (0 - 1) n 0). lia.
  - destruct (lastPage_spec count n) as (H1 & H2 & H3); [lia..|].
    destruct (Z.leb_spec count (page * n)); [nia|]. repeat split; nia.
Qed.

Lemma computePaging_eq count page n :
  0 <= count -> 0 <= page -> 0 < n -> (page + 1) * n < 2 ^ 63 -> count + n < 2 ^ 63 ->
  let p := shownPage count page n in
  computePaging count page n =
    Ret (mkPaging (p + 1) (lastPage count n + 1) n, p * n, Z.min ((p + 1) * n) count, p).
Proof.
  intros Hc Hp Hn Ho Hcn p. destruct (shownPage_bounds count page n) as (H1 & H2 & H3 & H4); [done..|]. fold p in H1, H2, H3, H4.
  assert (forall z, 0 <= z < 2 ^ 63 -> i64 z = z) as Hi by (intros; apply i64_id; unfold in_i64; lia).
  assert (0 <= lastPage count n < 2 ^ 63 - 1) as Hl.
  { destruct (Z.eq_dec count 0) as [-> |]; [unfold lastPage; pose proof (Z.div_lt_upper_bound (0 - 1) n 0); lia|].
    pose proof (lastPage_spec count n). nia. }
  unfold computePaging. rewrite (Hi (page * n)) by nia.
  destruct (Z.eqb_spec n 0); [lia|].
  assert (i64 (count - 1) = count - 1) as -> by (apply i64_id; unfold in_i64; lia).
  assert (Z.max 0 (i64 (Z.quot (count - 1) n)) = lastPage count n) as ->.
  { rewrite <- (quot_last count n) by done. f_equal. apply i64_id. unfold in_i64.
    pose proof (quot_last count n). destruct (Z.eq_dec count 0) as [-> |].
    - replace (Z.quot (0 - 1) n) with (- Z.quot 1 n) by (rewrite <- Z.quot_opp_l by lia; done).
      rewrite Z.quot_div_nonneg by lia. pose proof (Z.div_le_upper_bound 1 n 1). pose proof (Z.div_pos 1 n). lia.
    - rewrite Z.quot_div_nonneg in * by lia. pose proof (Z.div_pos (count - 1) n). lia. }
  change (if count <=? page * n then lastPage count n else page) with p.
  rewrite (Hi (p + 1)), (Hi (p * n)), (Hi (lastPage count n + 1)), (Hi ((p + 1) * n)) by nia.
  rewrite Z.min_comm. unfold Z.min. destruct (Z.ltb_spec count ((p + 1) * n)), (Z.compare_spec count ((p + 1) * n));
    try lia; done || (repeat f_equal; lia).
Qed.

(** The elements of a page. *)
Definition pageOf {A} (l : list A) (n p : Z) : list A := take (Z.to_nat n) (drop (Z.to_nat (p * n)) l).

Lemma concat_pages {A} (l : list A) n k : 0 < n ->
  concat (map (fun p => pageOf l n (Z.of_nat p)) (seq 0 k)) = take (k * Z.to_nat n) l.
Proof.
  intros Hn. induction k as [|k IH]; [done|].
  rewrite seq_S, map_app, concat_app, IH. cbn [map concat]. rewrite app_nil_r. unfold pageOf.
  replace (Z.to_nat (Z.of_nat (0 + k) * n)) with (k * Z.to_nat n)%nat by lia.
  replace (S k * Z.to_nat n)%nat with (k * Z.to_nat n + Z.to_nat n)%nat by lia.
  by rewrite take_take_drop.
Qed.

(** All pages one after the other are the whole list. *)
Lemma pages_partition {A} (l : list A) n : 0 < n ->
  concat (map (fun p => pageOf l n (Z.of_nat p)) (seq 0 (Z.to_nat (lastPage (zlen l) n + 1)))) = l.
Proof.
  intros Hn. rewrite concat_pages by done. apply take_ge.
  destruct (Z.eq_dec (zlen l) 0) as [E|]; [apply zlen_0_inv in E as ->; simpl; lia|].
  pose proof (zlen_nonneg l). destruct (lastPage_spec (zlen l) n) as (H1 & H2 & H3); [lia..|]. unfold zlen in *. nia.
Qed.

(** Reading the elements [from..to-1] of a slice. *)
Lemma range_elements {A B} (l : list A) (f : A -> B) from to : 0 <= from -> from <= to -> to <= zlen l ->
  go_map (fun i => let* x := go_index l i in Ret (f x)) (range from to) =
  Ret (map f (take (Z.to_nat (to - from)) (drop (Z.to_nat from) l))).
Proof.
  intros H0 H1 H2. unfold range.
  assert (forall k j, (Z.to_nat from + j + k <= length l)%nat ->
    go_map (fun i => let* x := go_index l i in Ret (f x)) (map (fun i => from + Z.of_nat i) (seq j k)) =
    Ret (map f (take k (drop (Z.to_nat from + j) l)))) as H.
  { induction k as [|k IH]; intros j Hj; [done|]. cbn [seq map go_map].
    destruct (lookup_lt_is_Some_2 l (Z.to_nat from + j)) as [x Hx]; [lia|].
    assert (go_index l (from + Z.of_nat j) = Ret x) as ->.
    { unfold go_index. destruct (Z.leb_spec 0 (from + Z.of_nat j)); [|lia].
      replace (Z.to_nat (from + Z.of_nat j)) with (Z.to_nat from + j)%nat by lia. by rewrite Hx. }
    gostep. rewrite IH by lia. gostep. rewrite (drop_S l x (Z.to_nat from + j)) by done. cbn [take map].
    by replace (Z.to_nat from + S j)%nat with (S (Z.to_nat from + j)) by lia. }
  rewrite H by (unfold zlen in *; lia). by rewrite Nat.add_0_r.
Qed.

Lemma pageOf_slice {A} (l : list A) n p : 0 < n -> 0 <= p -> p * n <= zlen l ->
  take (Z.to_nat (Z.min ((p + 1) * n) (zlen l) - p * n)) (drop (Z.to_nat (p * n)) l) = pageOf l n p.
Proof.
  intros Hn Hp Hl. unfold pageOf. destruct (Z.le_gt_cases ((p + 1) * n) (zlen l)).
  - f_equal. nia.
  - rewrite !take_ge; [done|rewrite length_drop; unfold zlen in *; nia..].
Qed.

Lemma GetMempool_page m page n :
  let entries := map (fun e => (me_Txid e, me_Time e)) (GetAllEntries m) in
  0 < n -> 0 <= page -> (page + 1) * n < 2 ^ 63 -> zlen entries + n < 2 ^ 63 ->
  let p := shownPage (zlen entries) page n in
  GetMempool m (page + 1) n =
  Ret (mkMempoolTxids (mkPaging (p + 1) (lastPage (zlen entries) n + 1) n) (pageOf entries n p) (zlen entries)).
Proof.
  intros entries Hn Hp Ho Hc p. unfold GetMempool, normPage.
  assert (zlen entries = zlen (GetAllEntries m)) as Hz by (unfold zlen, entries; by rewrite length_map).
  rewrite i64_id by (unfold in_i64; nia). replace (page + 1 - 1) with page by lia. rewrite Z.max_r by lia.
  pose proof (zlen_nonneg entries) as H0.
  destruct (shownPage_bounds (zlen entries) page n) as (H1 & H2 & H3 & H4); [done..|].
  rewrite <- Hz, computePaging_eq by done. gostep. fold p in H1, H2, H3, H4 |- *.
  destruct (Z.ltb_spec (Z.min ((p + 1) * n) (zlen entries) - p * n) 0); [nia|].
  rewrite (range_elements (GetAllEntries m) (fun e => (me_Txid e, me_Time e))) by nia. gostep.
  rewrite <- pageOf_slice by done. do 2 f_equal. unfold entries. by rewrite <- !fmap_drop, <- fmap_take.
Qed.

(** ** Lists of blocks *)

Section blocks.
Context `{DB : Store} `{P : BlockChainParser}.
Context (d : RocksDB) (best : Z) (info : Z -> BlockInfo.t).

(** The headers from the best one down to the first. *)
Definition newestFirst : list BlockInfo.t := map (fun i => info (best - i)) (range 0 (best + 1)).

Lemma blocksFrom_fill from k : forall done rest,
  (forall h, best - from - zlen done - Z.of_nat k < h <= best -> GetBlockInfo d (u32 h) = Ret (Some (info h))) ->
  0 <= from -> length rest = k ->
  blocksFrom d best from (map (fun i => from + Z.of_nat i) (seq (length done) k)) (done ++ rest) =
  Ret (done ++ map (fun i => info (best - from - Z.of_nat i)) (seq (length done) k)).
Proof.
  induction k as [|k IH]; intros done rest Hi Hf Hl; [by apply nil_length_inv in Hl as ->|].
  destruct rest as [|x rest]; [done|]. injection Hl as Hl. cbn [seq map blocksFrom].
  rewrite Hi by (unfold zlen; lia). gostep.
  replace (Z.to_nat (from + Z.of_nat (length done) - from)) with (length done + 0)%nat by lia.
  rewrite insert_app_r. cbn [insert list_insert].
  specialize (IH (done ++ [info (best - (from + Z.of_nat (length done)))]) rest).
  rewrite length_app, Nat.add_1_r in IH. rewrite <- !app_assoc in IH. cbn [app] in IH. rewrite IH; [|intros h Hh; apply Hi|done..].
  - replace (best - (from + Z.of_nat (length done))) with (best - from - Z.of_nat (length done)) by lia. done.
  - rewrite zlen_app in Hh. unfold zlen in *. simpl in Hh. lia.
Qed.

Lemma newestFirst_slice from to : 0 <= from -> from <= to -> to <= best + 1 ->
  map (fun i => info (best - from - Z.of_nat i)) (seq 0 (Z.to_nat (to - from))) =
  take (Z.to_nat (to - from)) (drop (Z.to_nat from) newestFirst).
Proof.
  intros H0 H1 H2. unfold newestFirst, range. rewrite map_map, <- fmap_drop, <- fmap_take, drop_seq, take_seq.
  apply list_eq. intros i. rewrite !list_lookup_fmap.
  replace (Z.to_nat (to - from) `min` (Z.to_nat (best + 1 - 0) - Z.to_nat from))%nat with (Z.to_nat (to - from)) by lia.
  destruct (decide (i < Z.to_nat (to - from))%nat).
  - rewrite !lookup_seq_lt by done. simpl. do 2 f_equal. lia.
  - rewrite !lookup_seq_ge by lia. done.
Qed.

Lemma newestFirst_zlen : -1 <= best -> zlen newestFirst = best + 1.
Proof. intros Hb. unfold newestFirst, zlen. rewrite length_map, range_length. lia. Qed.

Lemma GetBlocks_page hash page n :
  GetBestBlock d = Ret (best, hash) ->
  (forall h, 0 <= h <= best -> GetBlockInfo d (u32 h) = Ret (Some (info h))) ->
  0 <= best -> 0 < n -> 0 <= page -> (page + 1) * n < 2 ^ 63 -> best + 1 + n < 2 ^ 63 ->
  let p := shownPage (best + 1) page n in
  GetBlocks d (page + 1) n =
  Ret (mkBlocks (mkPaging (p + 1) (lastPage (best + 1) n + 1) n) (pageOf newestFirst n p)).
Proof.
  intros Hb Hi H0 Hn Hp Ho Hc p. unfold GetBlocks, normPage.
  rewrite i64_id by (unfold in_i64; nia). replace (page + 1 - 1) with page by lia. rewrite Z.max_r by lia.
  rewrite Hb. cbn [annotate]. gostep.
  destruct (shownPage_bounds (best + 1) page n) as (H1 & H2 & H3 & H4); [lia..|].
  rewrite computePaging_eq by (done || lia). gostep. fold p in H1, H2, H3, H4 |- *.
  set (to := Z.min ((p + 1) * n) (best + 1)).
  destruct (Z.ltb_spec (to - p * n) 0); [nia|].
  pose proof (blocksFrom_fill (p * n) (Z.to_nat (to - p * n)) [] (repeat emptyBlockInfo (Z.to_nat (to - p * n)))) as E.
  cbn [app length] in E. unfold range. rewrite E; [gostep|intros h Hh; apply Hi; change (zlen []) with 0 in Hh; nia|nia|apply repeat_length].
  rewrite newestFirst_slice by nia. do 2 f_equal. rewrite <- pageOf_slice by (done || rewrite newestFirst_zlen; lia).
  by rewrite newestFirst_zlen by lia.
Qed.
End blocks.

(** ** The transactions of an address *)

Definition selects (f : AddressFilter) (indexes : list Z) : bool :=
  (f_Vout f =? AddressFilterVoutOff) || existsb (voutMatches f) indexes.

(** The txids of the calls that pass the filter. *)
Definition selected (f : AddressFilter) (calls : list (string * Z * list Z)) : list string :=
  map (fun c => c.1.1) (List.filter (fun c => selects f c.2) calls).

Lemma run_txids f maxResults calls : forall txids, zlen txids < maxResults ->
  exists b, run_calls (fun txids txid _ indexes => txidsCallback f maxResults txids txid indexes) calls txids =
    (take (Z.to_nat maxResults) (txids ++ selected f calls), Ret b).
Proof.
  induction calls as [|[[t h] ix] calls IH]; intros txids Hl.
  - exists true. simpl. rewrite app_nil_r, take_ge by (unfold zlen in *; lia). done.
  - cbn [run_calls]. unfold txidsCallback at 1. unfold selected. cbn [List.filter snd].
    change ((f_Vout f =? AddressFilterVoutOff) || existsb (voutMatches f) ix) with (selects f ix).
    destruct (selects f ix); [|by apply IH].
    cbn [map fst]. fold (selected f calls).
    replace (txids ++ t :: selected f calls) with ((txids ++ [t]) ++ selected f calls) by (by rewrite <- app_assoc).
    destruct (Z.leb_spec maxResults (zlen (txids ++ [t]))); [|by apply IH].
    exists false. f_equal. rewrite take_app_le, take_ge; [done|..];
      unfold zlen in *; rewrite length_app in *; simpl in *; lia.
Qed.

Section txids.
Context `{SL : StoreLaws} `{PL : ParserLaws} `{VL : VlqLaws}.

Lemma getAddressTxids_spec (m : BaseMempool) (d : RocksDB) s ad f maxResults :
  db d = Some s -> ad <> [] -> addresses_column (contents s) -> isolated (contents s) ad ->
  in_u32 (f_FromHeight f) -> in_u32 (f_ToHeight f) -> 0 < maxResults ->
  exists es, history (contents s) ad (f_FromHeight f) (if f_ToHeight f =? 0 then maxUint32 else f_ToHeight f) es /\
    getAddressTxids m d ad false f maxResults =
    Ret (take (Z.to_nat maxResults) (selected f (concat (map calls_at es)))).
Proof.
  intros Hd Had Hc Hi Hf Ht Hm. unfold getAddressTxids.
  set (to := if f_ToHeight f =? 0 then maxUint32 else f_ToHeight f).
  assert (in_u32 to) by (unfold to; destruct (f_ToHeight f =? 0); [by split|done]).
  destruct (GetAddrDescTransactions_run (fun txids txid _ indexes => txidsCallback f maxResults txids txid indexes)
    d s ad (f_FromHeight f) to []) as (es & Hes & ->); [done..|].
  exists es. split; [done|].
  destruct (run_txids f maxResults (concat (map calls_at es)) []) as [b ->]; [done|]. done.
Qed.
End txids.

(** *** The mempool *)

(** The set is that of the txids found; every txid is found once, by an outpoint that
    passes the filter. *)
Lemma mempoolTxids_spec f maxResults o :
  NoDup (mempoolTxids f maxResults o) /\
  forall t, t ∈ mempoolTxids f maxResults o <->
    exists m, m ∈ o /\ Outpoint.Txid m = t /\ selects f [Outpoint.Vout m] = true.
Proof.
  unfold mempoolTxids.
  assert (let s := foldl (mempoolTxid f maxResults) ([], ∅) o in
    NoDup s.1 /\ (forall t, t ∈ s.2 <-> t ∈ s.1) /\
    forall t, t ∈ s.1 <-> exists m, m ∈ o /\ Outpoint.Txid m = t /\ selects f [Outpoint.Vout m] = true) as H; [|by destruct H as (? & _ & ?)].
  induction o as [|m o IH] using rev_ind; simpl.
  - split; [constructor|]. split; [intros t; set_solver|]. intros t. split; [set_solver|]. intros (m & Hm & _). set_solver.
  - rewrite foldl_snoc. destruct (foldl _ _ o) as [l u]. simpl in IH. destruct IH as (Hnd & Hu & Hm).
    unfold mempoolTxid. case_decide as Hin.
    + split; [done|]. split; [done|]. intros t. rewrite Hm. simpl. split.
      * intros (x & Hx & HH). exists x. split; [set_solver|done].
      * intros (x & Hx & <- & Hs). apply elem_of_app in Hx as [Hx|Hx%list_elem_of_singleton]; [eauto|]. subst x.
        apply Hu, Hm in Hin. done.
    + unfold txidsCallback. fold (selects f [Outpoint.Vout m]). destruct (selects f [Outpoint.Vout m]) eqn:Hsel; simpl.
      * destruct (Z.ltb_spec (zlen l) (zlen (l ++ [Outpoint.Txid m]))); [|zlen_lia]. simpl.
        rewrite Hu in Hin. split; [apply NoDup_app; split; [done|]; split; [set_solver|apply NoDup_singleton]|].
        split; [set_solver|]. intros t. rewrite elem_of_app, Hm, list_elem_of_singleton. split.
        -- intros [(x & Hx & HH)| ->]; [exists x; split; [set_solver|done]|]. exists m. split; [set_solver|done].
        -- intros (x & Hx & <- & Hs). apply elem_of_app in Hx as [Hx|Hx%list_elem_of_singleton]; [eauto|]. subst x. by right.
      * destruct (Z.ltb_spec (zlen l) (zlen l)); [lia|]. simpl.
        split; [done|]. split; [done|]. intros t. rewrite Hm. split.
        -- intros (x & Hx & HH). exists x. split; [set_solver|done].
        -- intros (x & Hx & <- & Hs). apply elem_of_app in Hx as [Hx|Hx%list_elem_of_singleton]; [eauto|]. subst x. congruence.
Qed.

(** ** Balances at the levels of detail *)

Definition with_index (i : gmap bytes nat) (ab : AddrBalance) : AddrBalance :=
  mkAddrBalance (Txs ab) (SentSat ab) (BalanceSat ab) (Utxos ab) i.

Lemma addUtxo_plain (ab : AddrBalance) u : with_index ∅ (addUtxo ab u) = set_Utxos (Utxos ab ++ [u]) (with_index ∅ ab).
Proof. done. Qed.

Section balances.
Context `{VL : VlqLaws}.

(** The index apart, utxos are read the same with and without it; their ids have the
    length of a packed txid. *)
Lemma unpackUtxos_plain fuel n ab buf r : unpackUtxos fuel n true ab buf = Ret r ->
  unpackUtxos fuel n false (with_index ∅ ab) buf = Ret (with_index ∅ r) /\
  Txs r = Txs ab /\ SentSat r = SentSat ab /\ BalanceSat r = BalanceSat ab /\
  (Forall (fun u => zlen (Utxo.BtxID u) = n) (Utxos ab) -> Forall (fun u => zlen (Utxo.BtxID u) = n) (Utxos r)).
Proof.
  revert ab buf. induction fuel as [|f IH]; intros ab buf; cbn [unpackUtxos];
    (destruct (n + 3 <=? zlen buf); [|by intros [= <-]]); [done|].
  intros H. apply go_bind_ret in H as (id & E1 & H). rewrite E1. gostep.
  apply go_bind_ret in H as (b1 & E2 & H). rewrite E2. gostep.
  destruct (unpackVaruint b1) as [vout l1]. apply go_bind_ret in H as (b2 & E3 & H). rewrite E3. gostep.
  destruct (unpackVaruint b2) as [h l2]. apply go_bind_ret in H as (b3 & E4 & H). rewrite E4. gostep.
  apply go_bind_ret in H as ([v l3] & E5 & H). rewrite E5. gostep.
  apply go_bind_ret in H as (b4 & E6 & H). rewrite E6. gostep.
  apply IH in H as (H & Ht & Hs & Hb & Hid). rewrite addUtxo_plain in H. split; [exact H|].
  split_and!; [done..|]. intros Hab. apply Hid. cbn [addUtxo Utxos]. apply Forall_app. split; [done|].
  apply Forall_singleton. apply go_slice_Ret in E1 as (_ & _ & E1). simpl. lia.
Qed.

Lemma unpackAddrBalance_details buf n r : unpackAddrBalance buf n DetailUTXOIndexed = Ret r ->
  unpackAddrBalance buf n DetailUTXO = Ret (with_index ∅ r) /\
  unpackAddrBalance buf n DetailNoUTXO = Ret (set_Utxos [] (with_index ∅ r)) /\
  Forall (fun u => zlen (Utxo.BtxID u) = n) (Utxos r).
Proof.
  unfold unpackAddrBalance. destruct (unpackVaruint buf) as [txs l].
  intros H. apply go_bind_ret in H as (b1 & E1 & H). rewrite E1. gostep.
  apply go_bind_ret in H as ([sent l1] & E2 & H). rewrite E2. gostep.
  apply go_bind_ret in H as (b2 & E3 & H). rewrite E3. gostep.
  apply go_bind_ret in H as ([bal l2] & E4 & H). rewrite E4. gostep.
  apply go_bind_ret in H as (b3 & E5 & H). rewrite E5. gostep.
  apply unpackUtxos_plain in H as (H & Ht & Hs & Hb & Hid). split; [exact H|].
  unfold set_Utxos, with_index. simpl. rewrite Ht, Hs, Hb. split; [done|]. by apply Hid, Forall_nil.
Qed.

Lemma GetAddrDescBalance_details `{SL : Store} `{P : BlockChainParser} (d : RocksDB) ad r :
  GetAddrDescBalance d ad DetailUTXOIndexed = Ret r ->
  GetAddrDescBalance d ad DetailUTXO = Ret (with_index ∅ <$> r) /\
  GetAddrDescBalance d ad DetailNoUTXO = Ret ((fun ab => set_Utxos [] (with_index ∅ ab)) <$> r) /\
  Forall (fun u => zlen (Utxo.BtxID u) = PackedTxidLen) (from_option Utxos [] r).
Proof.
  unfold GetAddrDescBalance. destruct (dbGet d cfAddressBalance ad) as [v|e|]; [|done..]. gostep.
  destruct (zlen (opt_bytes v) <? 3); [by intros [= <-]|]. intros H. apply go_bind_ret in H as (ab & E & [= <-]).
  apply unpackAddrBalance_details in E as (-> & -> & H). done.
Qed.
End balances.

(** ** Unspent outputs of an address *)

Section utxos.
Context `{SL : StoreLaws} `{PL : ParserLaws} `{VL : VlqLaws} `{SCL : ScriptLaws} `{J : StateJson}.
Context `{R : BlockChain} `{E : EthLib} `{C : ApiChain}.
Context (cacheEnabled : bool) (now : Z) (m : BaseMempool).

(** A utxo of the index as the API shows it. *)
Definition api_utxo (bestheight : Z) (u : Utxo.t) : AUtxo.t :=
  AUtxo.mk (txid_of (Utxo.BtxID u)) (Utxo.Vout u) (Some (Utxo.ValueSat u)) (Utxo.Height u)
    (i64 (bestheight - Utxo.Height u + 1)) EmptyString EmptyString 0.

Definition spent_in (spent : gset string) (u : Utxo.t) : bool :=
  bool_decide (utxoKey (txid_of (Utxo.BtxID u)) (Utxo.Vout u) ∈ spent).

Lemma indexUtxos_spec spent bestheight us : Forall (fun u => zlen (Utxo.BtxID u) = PackedTxidLen) us ->
  indexUtxos spent bestheight us =
  Ret (map (api_utxo bestheight) (List.filter (fun u => negb (spent_in spent u)) (reverse us))).
Proof.
  intros Hus. unfold indexUtxos. apply Forall_reverse in Hus. revert Hus. generalize (reverse us) as l.
  assert (forall l acc, Forall (fun u => zlen (Utxo.BtxID u) = PackedTxidLen) l ->
    go_fold (fun r utxo => let* txid := UnpackTxid (Utxo.BtxID utxo) in
      Ret (if bool_decide (utxoKey txid (Utxo.Vout utxo) ∈ spent) then r
           else r ++ [AUtxo.mk txid (Utxo.Vout utxo) (Some (Utxo.ValueSat utxo)) (Utxo.Height utxo)
                        (i64 (bestheight - Utxo.Height utxo + 1)) EmptyString EmptyString 0])) acc l =
    Ret (acc ++ map (api_utxo bestheight) (List.filter (fun u => negb (spent_in spent u)) l))) as H.
  { induction l as [|u l IH]; intros acc Hl; [by rewrite app_nil_r|].
    apply Forall_cons in Hl as [Hu Hl]. cbn [go_fold List.filter].
    destruct (UnpackTxid_Pack (Utxo.BtxID u) Hu) as (t & Ht & _). rewrite Ht. gostep.
    assert (txid_of (Utxo.BtxID u) = t) as Et by (unfold txid_of; by rewrite Ht).
    unfold spent_in at 1. rewrite Et. rewrite IH by done.
    destruct (bool_decide (utxoKey t (Utxo.Vout u) ∈ spent)); [done|]. cbn [negb map].
    unfold api_utxo at 2. rewrite Et, <- app_assoc. done. }
  intros l Hl. by rewrite H.
Qed.

(** Balances of a chain list no spent outputs. *)
Lemma chain_clean (d : RocksDB) blocks : reliable -> GetChainType = ChainBitcoinType -> chain d blocks ->
  forall ad r, GetAddrDescBalance d ad DetailUTXOIndexed = Ret r ->
  unspent_utxos (from_option Utxos [] r) = from_option Utxos [] r.
Proof.
  intros Hrel Hct. induction 1 as [d s i Hd Hi He|d d' blocks t block ids Hch IH [[hv Hhv] Hh Hv Hf] Hrun]; intros ad r Hr.
  - destruct (empty_readable Hrel d s Hd He) as [H1 _]. rewrite H1 in Hr. by injection Hr as <-.
  - destruct (chain_inv Hrel d blocks Hct Hch) as (Hrd & Hc & [s Hs] & [i Hi]).
    destruct (ConnectBlock_run Hrel t block ids d s i hv) as (d2 & b & E' & _ & _ & _ & _ & _ & _ & Hb & _); [done..|].
    rewrite Hrun in E'. injection E' as <-. rewrite Hb in Hr.
    destruct (balances b !! ad) as [B|]; [|by apply (IH ad)]. assert (r = Some (restored DetailUTXOIndexed B)) as -> by congruence.
    cbn [from_option].
    rewrite Utxos_restored. apply unspent_idemp.
Qed.

(** The txid of a packed id determines it. *)
Lemma txid_of_inj b1 b2 : zlen b1 = PackedTxidLen -> zlen b2 = PackedTxidLen -> txid_of b1 = txid_of b2 -> b1 = b2.
Proof.
  intros H1 H2. destruct (UnpackTxid_Pack b1 H1) as (t1 & E1 & P1), (UnpackTxid_Pack b2 H2) as (t2 & E2 & P2).
  unfold txid_of. rewrite E1, E2. intros ->. congruence.
Qed.

Definition amounts (us : list AUtxo.t) : Z := foldr (fun u acc => default 0 (AUtxo.AmountSat u) + acc) 0 us.

Lemma amounts_app l1 l2 : amounts (l1 ++ l2) = amounts l1 + amounts l2.
Proof. unfold amounts. induction l1 as [|u l IH]; simpl; [done|]. rewrite IH. lia. Qed.

Lemma amounts_reverse bestheight us : unspent_utxos us = us ->
  amounts (map (api_utxo bestheight) (reverse us)) = unspent_sum us.
Proof.
  intros Hus. unfold unspent_sum. rewrite Hus. clear Hus. induction us as [|u us IH]; [done|].
  rewrite reverse_cons, map_app, amounts_app, IH. simpl. lia.
Qed.

(** The utxos [GetAddressUtxo] shows of a list of utxos of the index. *)
Lemma shown_utxos bestheight us (O : Utxo.t -> Prop) :
  Forall (fun u => zlen (Utxo.BtxID u) = PackedTxidLen) us -> unspent_utxos us = us ->
  (forall u, u ∈ unspent_utxos us <-> O u) -> NoDup (utxo_key <$> unspent_utxos us) ->
  let r := map (api_utxo bestheight) (reverse us) in
  (forall a, a ∈ r <-> exists u, O u /\ a = api_utxo bestheight u) /\
  NoDup (map (fun a => (AUtxo.Txid a, AUtxo.Vout a)) r).
Proof.
  intros Hlen Hus Hown Hnd r. rewrite Hus in *. split.
  - intros a. unfold r. rewrite list_elem_of_fmap. setoid_rewrite elem_of_reverse. setoid_rewrite Hown. naive_solver.
  - unfold r. rewrite map_map. cbn [api_utxo AUtxo.Txid AUtxo.Vout].
    apply (NoDup_fmap_2_strong (fun u => (txid_of (Utxo.BtxID u), Utxo.Vout u)) (reverse us)).
    + intros x y Hx Hy [= Ht Hv]. rewrite elem_of_reverse in Hx, Hy.
      rewrite Forall_forall in Hlen. pose proof (txid_of_inj _ _ (Hlen x Hx) (Hlen y Hy) Ht) as Hid.
      apply list_elem_of_lookup_1 in Hx as [i Hi]. apply list_elem_of_lookup_1 in Hy as [j Hj].
      assert (i = j) as ->.
      { eapply NoDup_lookup; [exact Hnd|rewrite list_lookup_fmap, Hi; done|].
        rewrite list_lookup_fmap, Hj. simpl. unfold utxo_key. by rewrite Hid, Hv. }
      congruence.
    + rewrite reverse_Permutation. by apply NoDup_fmap_1 in Hnd.
Qed.

Lemma none_spent us : List.filter (fun u => negb (spent_in ∅ u)) us = us.
Proof.
  induction us as [|u l IH]; [done|]. cbn [List.filter].
  unfold spent_in at 1. rewrite bool_decide_eq_false_2 by set_solver. cbn [negb]. by rewrite IH.
Qed.

Lemma getAddrDescUtxo_confirmed (d : RocksDB) ad r bestheight hash :
  GetAddrDescBalance d ad DetailUTXOIndexed = Ret r -> GetBestBlock d = Ret (bestheight, hash) ->
  getAddrDescUtxo cacheEnabled now m ad None true false d =
  (d, Ret (map (api_utxo bestheight) (reverse (from_option Utxos [] r)))).
Proof.
  intros Hr Hb. destruct (GetAddrDescBalance_details d ad r Hr) as (Hu & _ & Hlen).
  unfold getAddrDescUtxo, sbind, sget, slift, sret. rewrite Hu.
  destruct r as [ab|]; [|done]. cbn [fmap option_fmap option_map with_index Utxos from_option] in *.
  destruct (Z.eqb_spec (zlen (Utxos ab)) 0) as [E0|_].
  - apply zlen_0_inv in E0. by rewrite E0.
  - rewrite Hb. rewrite indexUtxos_spec, none_spent by done. done.
Qed.

Lemma GetAddress_basic (d : RocksDB) address ad page n f ab as' s :
  GetChainType = ChainBitcoinType -> GetAddrDescFromAddress address = Ret ad ->
  GetAddressesFromAddrDesc ad = Ret (as', s) -> GetAddrDescBalance d ad DetailNoUTXO = Ret ab ->
  f_OnlyConfirmed f = true ->
  exists r, GetAddress cacheEnabled now m address page n AccountDetailsBasic f d = (d, Ret r) /\
    Address.BalanceSat r = Some (BalanceSat (default emptyBalance ab)) /\
    Address.TotalSentSat r = Some (SentSat (default emptyBalance ab)) /\
    Address.TotalReceivedSat r = Some (BalanceSat (default emptyBalance ab) + SentSat (default emptyBalance ab)) /\
    Address.UnconfirmedTxs r = 0 /\ Address.Txs r = Txs (default emptyBalance ab).
Proof.
  intros Hct Ha Has Hb Hf.
  unfold GetAddress, getAddrDescAndNormalizeAddress. rewrite Ha, Has. cbn [logged go_bind]. sgostep.
  unfold addressBalances. rewrite Hct, Hb. cbn [eb_filter eb_ba eb_totalResults]. rewrite Hf, andb_false_r. simpl.
  eexists. split; [reflexivity|]. done.
Qed.
(** ** Unspent outputs with the mempool *)

(** The transactions of the mempool that pay an address or spend from it, each once, as
    far as they can be looked up. *)
Definition lookedUp (d : RocksDB) (txid : string) : list Tx.t :=
  match (txCache cacheEnabled now txid d).2 with Ret (tx, _) => [tx] | _ => [] end.

Definition unconfirmed (d : RocksDB) (ad : bytes) (tx : Tx.t) : Prop :=
  exists o, o ∈ mempool_GetAddrDescTransactions m ad /\ tx ∈ lookedUp d (Outpoint.Txid o).

(** One of them spends the output. *)
Definition spent_unconfirmed (d : RocksDB) (ad : bytes) (txid : string) (vout : Z) : Prop :=
  exists tx vin, unconfirmed d ad tx /\ vin ∈ Tx.Vin tx /\
    utxoKey (Vin.Txid vin) (i64 (Vin.Vout vin)) = utxoKey txid vout.

(** An output of the mempool as the API shows it. *)
Definition mempool_utxo (tx : Tx.t) (i : nat) (v : Vout.t) : AUtxo.t :=
  AUtxo.mk (Tx.Txid tx) (i32 (Z.of_nat i)) (Some (Vout.ValueSat v)) 0 0 EmptyString EmptyString (Tx.LockTime tx).

(** The lookups neither panic nor store anything, which only a transaction that became
    confirmed does, and give the transaction asked for. *)
Record lookups (d : RocksDB) (ad : bytes) : Prop := {
  lk_runs : forall o, o ∈ mempool_GetAddrDescTransactions m ad ->
    exists r, txCache cacheEnabled now (Outpoint.Txid o) d = (d, r) /\ r <> Panic;
  lk_tx : forall o tx, o ∈ mempool_GetAddrDescTransactions m ad -> tx ∈ lookedUp d (Outpoint.Txid o) ->
    Tx.Txid tx = Outpoint.Txid o /\ zlen (Tx.Vout tx) < 2 ^ 31 /\
    forall v, v ∈ Tx.Vout tx -> GetAddrDescFromVout v <> Panic;
}.

Lemma mempoolTxs_spec (d : RocksDB) l :
  (forall t, t ∈ l -> exists r, txCache cacheEnabled now t d = (d, r) /\ r <> Panic) ->
  exists spent, mempoolTxs cacheEnabled now l d = (d, Ret (concat (map (lookedUp d) l), spent)) /\
    forall k, k ∈ spent <-> exists tx vin, tx ∈ concat (map (lookedUp d) l) /\ vin ∈ Tx.Vin tx /\
      k = utxoKey (Vin.Txid vin) (i64 (Vin.Vout vin)).
Proof.
  intros Hl. unfold mempoolTxs.
  assert (forall (vins : list Vin.t) (spent : gset string) k,
    k ∈ foldl (fun m vin => {[utxoKey (Vin.Txid vin) (i64 (Vin.Vout vin))]} ∪ m) spent vins <->
    k ∈ spent \/ exists vin, vin ∈ vins /\ k = utxoKey (Vin.Txid vin) (i64 (Vin.Vout vin))) as Hvins.
  { induction vins as [|vin vins IH]; intros spent k; cbn [foldl]; [set_solver|].
    rewrite IH, elem_of_union, elem_of_singleton. setoid_rewrite elem_of_cons. naive_solver. }
  enough (forall (mc : list Tx.t) (spent : gset string), exists spent',
    sfold (fun txid '(mc, spent) d =>
      match txCache cacheEnabled now txid d with
      | (d, Panic) => (d, Panic)
      | (d, Fail _) => (d, Ret (mc, spent))
      | (d, Ret (tx, _)) =>
          (d, Ret (mc ++ [tx],
                   foldl (fun m vin => {[utxoKey (Vin.Txid vin) (i64 (Vin.Vout vin))]} ∪ m) spent (Tx.Vin tx)))
      end) l (mc, spent) d = (d, Ret (mc ++ concat (map (lookedUp d) l), spent')) /\
    forall k, k ∈ spent' <-> k ∈ spent \/ exists tx vin, tx ∈ concat (map (lookedUp d) l) /\ vin ∈ Tx.Vin tx /\
      k = utxoKey (Vin.Txid vin) (i64 (Vin.Vout vin))) as H.
  { destruct (H [] ∅) as (spent & E' & Hs). exists spent. split; [exact E'|]. intros k. rewrite Hs. set_solver. }
  induction l as [|t l IH]; intros mc spent; cbn [sfold map concat].
  - exists spent. unfold sret. rewrite app_nil_r. split; [done|]. set_solver.
  - destruct (Hl t) as (r & Er & Hr); [by left|]. unfold sbind. rewrite Er.
    assert (forall t, t ∈ l -> exists r, txCache cacheEnabled now t d = (d, r) /\ r <> Panic) as Hl'
      by (intros; apply Hl; by right).
    unfold lookedUp at 1 3. rewrite Er. cbn [snd]. destruct r as [[tx h]|e|]; [..|done].
    + destruct (IH Hl' (mc ++ [tx]) (foldl (fun m vin => {[utxoKey (Vin.Txid vin) (i64 (Vin.Vout vin))]} ∪ m) spent (Tx.Vin tx)))
        as (s' & E' & Hs). exists s'. rewrite E', <- app_assoc. split; [done|]. intros k. rewrite Hs, Hvins. cbn [app].
      setoid_rewrite elem_of_cons. naive_solver.
    + apply IH, Hl'.
Qed.

Definition shownOf (ad : bytes) (spent : gset string) (tx : Tx.t) (iv : nat * Vout.t) : list AUtxo.t :=
  match GetAddrDescFromVout iv.2 with
  | Ret vad => if bool_decide (ad = vad) && negb (bool_decide (utxoKey (Tx.Txid tx) (Z.of_nat iv.1) ∈ spent))
               then [mempool_utxo tx iv.1 iv.2] else []
  | _ => []
  end.

Lemma mempoolUtxos_spec ad spent tx : (forall v, v ∈ Tx.Vout tx -> GetAddrDescFromVout v <> Panic) ->
  mempoolUtxos ad spent tx = Ret (concat (map (shownOf ad spent tx) (enumerate (Tx.Vout tx)))).
Proof.
  intros Hv. unfold mempoolUtxos.
  assert (forall iv, iv ∈ enumerate (Tx.Vout tx) -> GetAddrDescFromVout iv.2 <> Panic) as Hp.
  { intros [i v] H%enumerate_elem. apply Hv. by eapply list_elem_of_lookup_2. }
  match goal with |- go_fold ?f [] ?l = _ => enough (forall acc, go_fold f acc l = Ret (acc ++ concat (map (shownOf ad spent tx) l)))
    as H by (by rewrite H) end.
  revert Hp. generalize (enumerate (Tx.Vout tx)) as l.
  induction l as [|[i v] l IH]; intros Hp acc; cbn [go_fold map concat]; [by rewrite app_nil_r|].
  assert (GetAddrDescFromVout v <> Panic) as Hnp by (apply (Hp (i, v)); by left).
  assert (forall iv, iv ∈ l -> GetAddrDescFromVout iv.2 <> Panic) as Hp' by (intros; apply Hp; by right).
  unfold shownOf at 1. cbn [fst snd].
  destruct (GetAddrDescFromVout v) as [vad|e|]; [..|done]; [|gostep; by apply IH].
  destruct (_ && _); gostep; rewrite IH by done; [by rewrite <- app_assoc|done].
Qed.

Definition outpointOf (a : AUtxo.t) : string * Z := (AUtxo.Txid a, AUtxo.Vout a).

Lemma shownOf_elem ad spent tx a : a ∈ concat (map (shownOf ad spent tx) (enumerate (Tx.Vout tx))) <->
  exists i v, Tx.Vout tx !! i = Some v /\ GetAddrDescFromVout v = Ret ad /\
    utxoKey (Tx.Txid tx) (Z.of_nat i) ∉ spent /\ a = mempool_utxo tx i v.
Proof.
  rewrite elem_of_concat_map. split.
  - intros ([i v] & Hiv%enumerate_elem & Ha). unfold shownOf in Ha. cbn [fst snd] in Ha.
    destruct (GetAddrDescFromVout v) as [vad|e|] eqn:Ev; [|by apply elem_of_nil in Ha..].
    destruct (bool_decide_reflect (ad = vad)) as [<-|]; [|by apply elem_of_nil in Ha].
    destruct (bool_decide_reflect (utxoKey (Tx.Txid tx) (Z.of_nat i) ∈ spent)); [by apply elem_of_nil in Ha|].
    apply list_elem_of_singleton in Ha as ->. by exists i, v.
  - intros (i & v & Hiv & Ev & Hs & ->). exists (i, v). split; [by apply enumerate_elem|].
    unfold shownOf. cbn [fst snd]. rewrite Ev, !bool_decide_true, bool_decide_false by done. by left.
Qed.

Lemma enumerate_fst {A} (l : list A) : map fst (enumerate l) = seq 0 (length l).
Proof.
  unfold enumerate. generalize 0%nat as k. induction l as [|x l IH]; intros k; cbn [length seq combine map fst]; [done|].
  by rewrite IH.
Qed.

Lemma shownOf_once ad spent tx : zlen (Tx.Vout tx) < 2 ^ 31 ->
  NoDup (map outpointOf (concat (map (shownOf ad spent tx) (enumerate (Tx.Vout tx))))).
Proof.
  intros Hlen. assert (forall i v, (i, v) ∈ enumerate (Tx.Vout tx) -> Z.of_nat i < 2 ^ 31) as Hi.
  { intros i v H%enumerate_elem. apply lookup_lt_Some in H. unfold zlen in Hlen. lia. }
  assert (NoDup (map fst (enumerate (Tx.Vout tx)))) as Hnd
    by (rewrite enumerate_fst; apply NoDup_seq).
  revert Hi Hnd. generalize (enumerate (Tx.Vout tx)) as l. induction l as [|[i v] l IH]; intros Hi Hnd; cbn [map concat fst] in *; [constructor|].
  apply NoDup_cons in Hnd as [Hni Hnd]. rewrite map_app, NoDup_app. split_and!.
  - unfold shownOf. cbn [fst snd]. destruct (GetAddrDescFromVout v); [|constructor..]. destruct (_ && _); [|constructor].
    apply NoDup_singleton.
  - intros x Hx (a & -> & Ha)%list_elem_of_fmap. unfold shownOf in Hx. cbn [fst snd] in Hx.
    destruct (GetAddrDescFromVout v); [|by apply elem_of_nil in Hx..]. destruct (_ && _); [|by apply elem_of_nil in Hx].
    apply list_elem_of_singleton in Hx. apply elem_of_concat_map in Ha as ([j w] & Hj & Ha). unfold shownOf in Ha. cbn [fst snd] in Ha.
    destruct (GetAddrDescFromVout w); [|by apply elem_of_nil in Ha..]. destruct (_ && _); [|by apply elem_of_nil in Ha].
    apply list_elem_of_singleton in Ha as ->. injection Hx as Hx.
    pose proof (Hi i v ltac:(by left)). pose proof (Hi j w ltac:(by right)).
    rewrite !i32_id in Hx by (unfold in_i32; lia). assert (j = i) as -> by lia. destruct Hni. apply list_elem_of_fmap. by exists (i, w).
  - apply IH; [|done]. intros j w Hj. apply (Hi j w). by right.
Qed.

(** The transactions found in the mempool. *)
Definition found (d : RocksDB) (ad : bytes) : list Tx.t :=
  concat (map (lookedUp d) (mempoolTxids offFilter maxInt (mempool_GetAddrDescTransactions m ad))).

Lemma found_elem (d : RocksDB) ad tx : tx ∈ found d ad <-> unconfirmed d ad tx.
Proof.
  destruct (mempoolTxids_spec offFilter maxInt (mempool_GetAddrDescTransactions m ad)) as [_ He].
  unfold found, unconfirmed. rewrite elem_of_concat_map. setoid_rewrite He. split.
  - intros (t & (o & Ho & <- & _) & Ht). eauto.
  - intros (o & Ho & Ht). exists (Outpoint.Txid o). split; [|done]. by exists o.
Qed.

Lemma found_once (d : RocksDB) ad spent : lookups d ad ->
  NoDup (map outpointOf (concat (map (fun tx => concat (map (shownOf ad spent tx) (enumerate (Tx.Vout tx)))) (found d ad)))).
Proof.
  intros [_ Htx]. destruct (mempoolTxids_spec offFilter maxInt (mempool_GetAddrDescTransactions m ad)) as [Hnd He].
  assert (forall t, t ∈ mempoolTxids offFilter maxInt (mempool_GetAddrDescTransactions m ad) -> forall tx, tx ∈ lookedUp d t ->
    Tx.Txid tx = t /\ zlen (Tx.Vout tx) < 2 ^ 31) as Ht.
  { intros t (o & Ho & <- & _)%He tx Hx. destruct (Htx o tx Ho Hx) as (? & ? & _). done. }
  unfold found. clear He Htx. revert Hnd Ht. generalize (mempoolTxids offFilter maxInt (mempool_GetAddrDescTransactions m ad)) as l.
  induction l as [|t l IH]; intros Hnd Ht; cbn [map concat]; [constructor|]. apply NoDup_cons in Hnd as [Hni Hnd].
  rewrite map_app, concat_app, map_app, NoDup_app. split_and!.
  - assert (forall tx, tx ∈ lookedUp d t -> zlen (Tx.Vout tx) < 2 ^ 31) as Hl by (intros tx Hx; apply (Ht t ltac:(by left) tx Hx)).
    revert Hl. unfold lookedUp. destruct (txCache _ _ _ _).2 as [[tx h]| |]; intros Hl; [|constructor..].
    cbn [map concat]. rewrite app_nil_r. apply shownOf_once, Hl. by left.
  - intros x (a & -> & Ha)%list_elem_of_fmap (b & Hab & Hb)%list_elem_of_fmap.
    apply elem_of_concat_map in Ha as (tx & Hx & Ha). apply shownOf_elem in Ha as (i & v & _ & _ & _ & ->).
    apply elem_of_concat_map in Hb as (ty & Hy & Hb). apply shownOf_elem in Hb as (j & w & _ & _ & _ & ->).
    apply elem_of_concat_map in Hy as (t' & Ht' & Hy). injection Hab as Hab _.
    destruct (Ht t ltac:(by left) tx Hx) as [E1 _]. destruct (Ht t' ltac:(by right) ty Hy) as [E2 _]. congruence.
  - apply IH; [done|]. intros t' Ht'. apply Ht. by right.
Qed.

(** The confirmed utxos of an address of an indexed chain. *)
Lemma GetAddressUtxo_chain (d : RocksDB) blocks address ad bestheight hash :
  reliable -> GetChainType = ChainBitcoinType -> chain d blocks ->
  GetAddrDescFromAddress address = Ret ad -> GetBestBlock d = Ret (bestheight, hash) ->
  exists us ab, GetAddressUtxo cacheEnabled now m address true d = (d, Ret us) /\
    GetAddrDescBalance d ad DetailNoUTXO = Ret ab /\ BalanceSat (default emptyBalance ab) = amounts us /\
    (forall a, a ∈ us <-> exists u, stored_output d ad u /\ a = api_utxo bestheight u) /\
    NoDup (map (fun a => (AUtxo.Txid a, AUtxo.Vout a)) us).
Proof.
  intros Hrel Hct Hch Ha Hb.
  destruct (chain_ledger d blocks ad Hrel Hct Hch) as (r0 & Hr & Hbal & Hown & Hnd).
  pose proof (chain_clean d blocks Hrel Hct Hch ad r0 Hr) as Hcl.
  destruct (GetAddrDescBalance_details d ad r0 Hr) as (_ & Hno & Hlen).
  assert (from_option Utxos [] r0 = Utxos (default emptyBalance r0)) as Eu by (by destruct r0). rewrite Eu in *.
  exists (map (api_utxo bestheight) (reverse (Utxos (default emptyBalance r0)))). eexists. split; [|split; [exact Hno|]].
  - unfold GetAddressUtxo. rewrite bool_decide_true, Ha by done.
    rewrite (getAddrDescUtxo_confirmed d ad r0 bestheight hash) by done. by rewrite Eu.
  - split; [rewrite amounts_reverse, <- Hbal by done; by destruct r0|by apply shown_utxos].
Qed.
Lemma sublist_List_filter {A} (p : A -> bool) l : List.filter p l `sublist_of` l.
Proof. induction l as [|x l IH]; cbn [List.filter]; [constructor|]. destruct (p x); by constructor. Qed.

Lemma none_spent_elem spent (us : list Utxo.t) u :
  u ∈ List.filter (fun u => negb (spent_in spent u)) us <->
  u ∈ us /\ utxoKey (txid_of (Utxo.BtxID u)) (Utxo.Vout u) ∉ spent.
Proof.
  rewrite !list_elem_of_In, filter_In, negb_true_iff. unfold spent_in. by rewrite bool_decide_eq_false.
Qed.

(** What the default call shows: the outputs of the mempool that pay the address and that
    no transaction of the mempool spends, and the confirmed outputs none spends. *)
Definition shows_mempool (d : RocksDB) (ad : bytes) (a : AUtxo.t) : Prop :=
  exists tx i v, unconfirmed d ad tx /\ Tx.Vout tx !! i = Some v /\ GetAddrDescFromVout v = Ret ad /\
    ~ spent_unconfirmed d ad (Tx.Txid tx) (Z.of_nat i) /\ a = mempool_utxo tx i v.

Definition shows_confirmed (bestheight : Z) (d : RocksDB) (ad : bytes) (us : Utxo.t -> Prop) (a : AUtxo.t) : Prop :=
  exists u, us u /\ ~ spent_unconfirmed d ad (txid_of (Utxo.BtxID u)) (Utxo.Vout u) /\ a = api_utxo bestheight u.

(** With the mempool, for an address whose balance is known. *)
Lemma getAddrDescUtxo_mempool (d : RocksDB) ad ba onlyMempool bestheight hash :
  GetBestBlock d = Ret (bestheight, hash) -> lookups d ad ->
  Forall (fun u => zlen (Utxo.BtxID u) = PackedTxidLen) (from_option Utxos [] ba) ->
  (ba = None -> onlyMempool = true \/ GetAddrDescBalance d ad DetailUTXO = Ret None) ->
  (is_Some ba -> onlyMempool = false) ->
  exists us vs, vs `sublist_of` reverse (from_option Utxos [] ba) /\
    getAddrDescUtxo cacheEnabled now m ad ba false onlyMempool d = (d, Ret (us ++ map (api_utxo bestheight) vs)) /\
    NoDup (map outpointOf us) /\ (forall a, a ∈ us <-> shows_mempool d ad a) /\
    (forall a, a ∈ map (api_utxo bestheight) vs <->
       shows_confirmed bestheight d ad (fun u => u ∈ from_option Utxos [] ba) a).
Proof.
  intros Hb Hlk Hlen Hnone Hsome. pose proof Hlk as [Hrun Htx].
  destruct (mempoolTxids_spec offFilter maxInt (mempool_GetAddrDescTransactions m ad)) as [_ He].
  destruct (mempoolTxs_spec d (mempoolTxids offFilter maxInt (mempool_GetAddrDescTransactions m ad))) as (spent & Em & Hs).
  { intros t (o & Ho & <- & _)%He. by apply Hrun. }
  fold (found d ad) in Em, Hs.
  assert (forall txid vout, utxoKey txid vout ∈ spent <-> spent_unconfirmed d ad txid vout) as Hsp.
  { intros txid vout. rewrite Hs. unfold spent_unconfirmed. setoid_rewrite found_elem. naive_solver. }
  exists (concat (map (fun tx => concat (map (shownOf ad spent tx) (enumerate (Tx.Vout tx)))) (found d ad))),
    (List.filter (fun u => negb (spent_in spent u)) (reverse (from_option Utxos [] ba))).
  split; [apply sublist_List_filter|]. split; [|split; [by apply found_once|split]].
  - unfold getAddrDescUtxo, getAddressTxids. sgostep.
    rewrite Em, (go_map_eq _ (fun tx => concat (map (shownOf ad spent tx) (enumerate (Tx.Vout tx))))).
    2:{ intros tx (o & Ho & Hx)%found_elem. apply mempoolUtxos_spec. by destruct (Htx o tx Ho Hx) as (_ & _ & ?). }
    destruct ba as [ab|]; cbn [from_option] in *.
    + rewrite Hsome by eauto. destruct (Z.eqb_spec (zlen (Utxos ab)) 0) as [E0|_]; [apply zlen_0_inv in E0; by rewrite E0, app_nil_r|].
      rewrite Hb. by rewrite indexUtxos_spec.
    + rewrite app_nil_r. destruct (Hnone eq_refl) as [-> |E0]; [done|]. destruct onlyMempool; [done|by rewrite E0].
  - intros a. rewrite elem_of_concat_map. unfold shows_mempool. setoid_rewrite found_elem. setoid_rewrite shownOf_elem.
    setoid_rewrite Hsp. naive_solver.
  - intros a. rewrite list_elem_of_fmap. unfold shows_confirmed. setoid_rewrite none_spent_elem. setoid_rewrite elem_of_reverse.
    setoid_rewrite Hsp. naive_solver.
Qed.

(** [getAddrDescUtxo] reads the balance if it is not given. *)
Lemma getAddrDescUtxo_reads (d : RocksDB) ad r oc :
  GetAddrDescBalance d ad DetailUTXO = Ret r ->
  (mempoolTxs cacheEnabled now (mempoolTxids offFilter maxInt (mempool_GetAddrDescTransactions m ad)) d).1 = d ->
  getAddrDescUtxo cacheEnabled now m ad None oc false d = getAddrDescUtxo cacheEnabled now m ad r oc false d.
Proof.
  intros Hr Hd. destruct r as [ab|]; [|done]. unfold getAddrDescUtxo, getAddressTxids. sgostep.
  destruct oc; [by rewrite Hr|]. destruct (mempoolTxs _ _ _ d) as [d' [[mc spent]|e|]]; [|done..]. cbn [fst] in Hd. subst d'.
  destruct (go_map _ mc); [|done..]. by rewrite Hr.
Qed.

(** The default call for an address of an indexed chain. *)
Lemma GetAddressUtxo_mempool (d : RocksDB) blocks address ad bestheight hash :
  reliable -> GetChainType = ChainBitcoinType -> chain d blocks ->
  GetAddrDescFromAddress address = Ret ad -> GetBestBlock d = Ret (bestheight, hash) -> lookups d ad ->
  exists us cs, GetAddressUtxo cacheEnabled now m address false d = (d, Ret (us ++ cs)) /\
    NoDup (map outpointOf us) /\ NoDup (map outpointOf cs) /\
    (forall a, a ∈ us <-> shows_mempool d ad a) /\
    (forall a, a ∈ cs <-> shows_confirmed bestheight d ad (stored_output d ad) a).
Proof.
  intros Hrel Hct Hch Ha Hb Hlk.
  destruct (chain_ledger d blocks ad Hrel Hct Hch) as (r0 & Hr & _ & Hown & Hnd).
  pose proof (chain_clean d blocks Hrel Hct Hch ad r0 Hr) as Hcl.
  destruct (GetAddrDescBalance_details d ad r0 Hr) as (Hu & _ & Hlen).
  assert (from_option Utxos [] (with_index ∅ <$> r0) = from_option Utxos [] r0) as Eu by (by destruct r0).
  assert (from_option Utxos [] r0 = Utxos (default emptyBalance r0)) as Ed by (by destruct r0).
  destruct (getAddrDescUtxo_mempool d ad (with_index ∅ <$> r0) false bestheight hash Hb Hlk) as (us & vs & Hsub & E' & Hus & Heu & Hec);
    [by rewrite Eu|intros Hn; right; by rewrite Hu, Hn|done|].
  exists us, (map (api_utxo bestheight) vs). rewrite Eu in *. split; [|split; [done|split; [|split; [done|]]]].
  - unfold GetAddressUtxo. rewrite bool_decide_true, Ha by done. rewrite (getAddrDescUtxo_reads _ _ _ _ Hu); [done|].
    destruct (mempoolTxids_spec offFilter maxInt (mempool_GetAddrDescTransactions m ad)) as [_ He].
    destruct (mempoolTxs_spec d (mempoolTxids offFilter maxInt (mempool_GetAddrDescTransactions m ad))) as (spent & -> & _); [|done].
    intros t (o & Ho & <- & _)%He. by apply Hlk.
  - destruct (shown_utxos bestheight (from_option Utxos [] r0) (stored_output d ad)) as [_ Hnd'];
      [done|done|by rewrite Ed|by rewrite Ed|].
    eapply sublist_NoDup; [exact Hnd'|]. rewrite !map_map. by apply (fmap_sublist (fun u => outpointOf (api_utxo bestheight u))).
  - intros a. rewrite Hec. unfold shows_confirmed. rewrite Ed in *. rewrite Hcl in Hown. by setoid_rewrite Hown.
Qed.

(** The balance in the answer is that of the index, whatever the level and the filter. *)
Lemma GetAddress_balance (d d' : RocksDB) address ad page n option_ f ab as' s r :
  GetChainType = ChainBitcoinType -> GetAddrDescFromAddress address = Ret ad ->
  GetAddressesFromAddrDesc ad = Ret (as', s) -> GetAddrDescBalance d ad DetailNoUTXO = Ret ab ->
  GetAddress cacheEnabled now m address page n option_ f d = (d', Ret r) ->
  Address.BalanceSat r = Some (BalanceSat (default emptyBalance ab)).
Proof.
  intros Hct Ha Has Hb. unfold GetAddress, getAddrDescAndNormalizeAddress. rewrite Ha, Has. cbn [logged go_bind].
  intros (d1 & [ad1 address1] & [= <- <- _] & H)%sbind_ret.
  apply sbind_ret in H as (d2 & d0 & [= <- <-] & H). apply sbind_ret in H as (d3 & [e nonce] & He & H).
  unfold addressBalances in He. rewrite Hct, Hb in He. injection He as <- <- <-. cbn [eb_filter eb_ba] in H.
  apply sbind_ret in H as (d4 & u & _ & H). apply sbind_ret in H as (d5 & [[pg txids] txs] & _ & H).
  destruct (bool_decide (GetChainType = ChainBitcoinType)); by injection H as _ <-.
Qed.
End utxos.

(** * Properties *)

Section properties.
Context `{SL : StoreLaws} `{PL : ParserLaws} `{VL : VlqLaws} `{SCL : ScriptLaws} `{J : StateJson}.
Context `{R : BlockChain} `{E : EthLib} `{C : ApiChain}.

(** C18: What the API says of an address of an indexed chain agrees with the chain, with
    the mempool and with itself.  Asked for confirmed outputs only, [GetAddressUtxo]
    lists exactly the unspent outputs of the stored transactions that are indexed under
    the address, each once, and their sum is the balance every answer of [GetAddress]
    has, whatever the level of detail and the filter.  By default it lists the outputs
    of the mempool that pay the address and are not spent in the mempool, each once, and
    then exactly the confirmed ones no transaction of the mempool spends; transactions
    of the mempool that cannot be looked up count for nothing, as in the code. *)
Theorem api_address_consistent cacheEnabled now m (d : RocksDB) blocks address ad as' s page n f bestheight hash :
  reliable -> GetChainType = ChainBitcoinType -> chain d blocks ->
  GetAddrDescFromAddress address = Ret ad -> GetAddressesFromAddrDesc ad = Ret (as', s) ->
  GetBestBlock d = Ret (bestheight, hash) -> lookups cacheEnabled now m d ad -> f_OnlyConfirmed f = true ->
  exists confirmed us cs r,
    GetAddressUtxo cacheEnabled now m address true d = (d, Ret confirmed) /\
    (forall a, a ∈ confirmed <-> exists u, stored_output d ad u /\ a = api_utxo bestheight u) /\
    NoDup (map outpointOf confirmed) /\
    GetAddress cacheEnabled now m address page n AccountDetailsBasic f d = (d, Ret r) /\
    Address.BalanceSat r = Some (amounts confirmed) /\
    (forall option_ f' page' n' d' r', GetAddress cacheEnabled now m address page' n' option_ f' d = (d', Ret r') ->
       Address.BalanceSat r' = Some (amounts confirmed)) /\
    GetAddressUtxo cacheEnabled now m address false d = (d, Ret (us ++ cs)) /\
    NoDup (map outpointOf us) /\ NoDup (map outpointOf cs) /\
    (forall a, a ∈ us <-> shows_mempool cacheEnabled now m d ad a) /\
    (forall a, a ∈ cs <-> shows_confirmed cacheEnabled now m bestheight d ad (stored_output d ad) a).
Proof.
  intros Hrel Hct Hch Ha Has Hb Hlk Hf.
  destruct (GetAddressUtxo_chain cacheEnabled now m d blocks address ad bestheight hash Hrel Hct Hch Ha Hb)
    as (confirmed & ab & Eu & Hno & Hbal & Hown & Hnd).
  destruct (GetAddress_basic cacheEnabled now m d address ad page n f ab as' s Hct Ha Has Hno Hf) as (r & Er & Br & _).
  destruct (GetAddressUtxo_mempool cacheEnabled now m d blocks address ad bestheight hash Hrel Hct Hch Ha Hb Hlk)
    as (us & cs & Em & H).
  exists confirmed, us, cs, r. split_and!; try done; [by rewrite Br, Hbal| |by apply H..].
  intros option_ f' page' n' d' r' E'. rewrite <- Hbal. by eapply GetAddress_balance.
Qed.

(** [getAddressTxids] returns the transactions of an address that pass the filter, in
    the order of the history, the newest first, up to the number asked for. *)
Theorem getAddressTxids_exact (m : BaseMempool) (d : RocksDB) s ad f maxResults :
  db d = Some s -> ad <> [] -> addresses_column (contents s) -> isolated (contents s) ad ->
  in_u32 (f_FromHeight f) -> in_u32 (f_ToHeight f) -> 0 < maxResults ->
  exists es, history (contents s) ad (f_FromHeight f) (if f_ToHeight f =? 0 then maxUint32 else f_ToHeight f) es /\
    getAddressTxids m d ad false f maxResults =
    Ret (take (Z.to_nat maxResults) (selected f (concat (map calls_at es)))).
Proof. apply getAddressTxids_spec. Qed.
End properties.

(** The pages of the mempool partition it: for every page size the pages 1 to
    [TotalPages] one after the other are all entries of the mempool, and a page beyond
    the last shows the last. *)
Theorem GetMempool_pages m n :
  let entries := map (fun e => (me_Txid e, me_Time e)) (GetAllEntries m) in
  let total := lastPage (zlen entries) n + 1 in
  0 < n -> zlen entries + n < 2 ^ 63 ->
  concat (map (fun p => pageOf entries n (Z.of_nat p)) (seq 0 (Z.to_nat total))) = entries /\
  (forall page, 0 <= page -> (page + 1) * n < 2 ^ 63 ->
     let p := if page <? total then page else total - 1 in
     GetMempool m (page + 1) n = Ret (mkMempoolTxids (mkPaging (p + 1) total n) (pageOf entries n p) (zlen entries))).
Proof.
  intros entries total Hn Hc. split; [by apply pages_partition|]. intros page Hp Ho p.
  rewrite GetMempool_page by done. fold entries.
  replace p with (shownPage (zlen entries) page n); [done|]. unfold shownPage, p, total.
  pose proof (zlen_nonneg entries).
  destruct (Z.eq_dec (zlen entries) 0) as [E0|].
  - rewrite E0. assert (lastPage 0 n = 0) as ->. { unfold lastPage. pose proof (Z.div_lt_upper_bound (0 - 1) n 0). lia. }
    destruct (Z.leb_spec 0 (page * n)), (Z.ltb_spec page (0 + 1)); nia.
  - destruct (lastPage_spec (zlen entries) n) as (H1 & H2 & H3); [lia..|].
    destruct (Z.leb_spec (zlen entries) (page * n)), (Z.ltb_spec page (lastPage (zlen entries) n + 1)); nia.
Qed.

(** ** Concrete runs *)

Definition zeroTx : Tx.t :=
  Tx.mk EmptyString EmptyString 0 0 [] [] 0 0 0 [] [] 0 NoSpecificData.

(** A daemon without coin specific data. *)
Definition plain_api : ApiChain := {|
  GetTransactionSpecific _ := Ret EmptyString;
  json_UnmarshalTx _ := zeroTx;
  chain_GetBlockInfo _ := Fail ErrBlockNotFound;
  EthereumTypeGetBalance _ := Ret None;
  EthereumTypeGetNonce _ := Ret 0;
  EthereumTypeGetErc20ContractInfo _ := Ret None;
  EthereumTypeGetErc20ContractBalance _ _ := Ret None;
|}.

(** A daemon whose mempool has a transaction that spends the second output of [spend]
    and pays the address again. *)
Definition respend : Tx.t :=
  Tx.mk EmptyString (hex_EncodeToString (repeat Byte.x33 32)) 1 0
    [Vin.mk EmptyString (hex_EncodeToString id2) 1 EmptyString 0 []]
    [pay 60 "53"; pay 40 "76a9"] 0 0 0 [] [] 0 NoSpecificData.

Definition respend_chain : BlockChain := {|
  GetMempoolTransactions := Ret [Tx.Txid respend];
  GetTransactionForMempool _ := Ret respend;
  GetTransaction txid := if decide (txid = Tx.Txid respend) then Ret respend else Fail (ErrMsg "not found");
  GetBestBlockHash := Ret (Block.Hash block7);
  GetBestBlockHeight := Ret 7;
  chain_GetBlockHash _ := Ret (Block.Hash block7);
  GetBlock _ _ := Ret block7;
|}.

Definition respend_mempool : BaseMempool :=
  mkMempool ∅ {[[Byte.x76; Byte.xa9] := [Outpoint.mk (Tx.Txid respend) (-1); Outpoint.mk (Tx.Txid respend) 1]]}.

Lemma respend_outpoint o :
  o ∈ mempool_GetAddrDescTransactions respend_mempool [Byte.x76; Byte.xa9] -> Outpoint.Txid o = Tx.Txid respend.
Proof.
  intros Ho. vm_compute in Ho. repeat (apply elem_of_cons in Ho as [-> |Ho]; [reflexivity|]). by apply not_elem_of_nil in Ho.
Qed.

Lemma respend_lookups (d : RocksDB) :
  lookups (P := plain_parser) (V := leb) (R := respend_chain) false 77 respend_mempool d [Byte.x76; Byte.xa9].
Proof.
  split.
  - intros o ->%respend_outpoint. exists (Ret (respend, 0)). split; [reflexivity|discriminate].
  - intros o tx ->%respend_outpoint Htx. change (tx ∈ [respend]) in Htx. apply list_elem_of_singleton in Htx as ->.
    split; [reflexivity|split; [reflexivity|]]. intros v Hv.
    repeat (apply elem_of_cons in Hv as [-> |Hv]; [vm_compute; discriminate|]). by apply not_elem_of_nil in Hv.
Qed.

Lemma respend_unspent (d : RocksDB) :
  ~ spent_unconfirmed (P := plain_parser) (V := leb) (R := respend_chain) false 77 respend_mempool d [Byte.x76; Byte.xa9]
      (Tx.Txid respend) 1.
Proof.
  intros (tx & vin & (o & ->%respend_outpoint & Htx) & Hvin & Hk). change (tx ∈ [respend]) in Htx.
  apply list_elem_of_singleton in Htx as ->. apply list_elem_of_singleton in Hvin as ->. vm_compute in Hk. discriminate.
Qed.

Lemma api_address_consistent_witness :
  exists (d : RocksDB) confirmed us cs r,
    GetAddressUtxo (P := plain_parser) (V := leb) (R := respend_chain) false 77 respend_mempool "76a9" true d = (d, Ret confirmed) /\
    GetAddress (P := plain_parser) (V := leb) (R := respend_chain) (C := plain_api) false 77 respend_mempool "76a9" 1 10
      AccountDetailsBasic (mkFilter (-1) EmptyString 0 0 TokensToReturnUsed true) d = (d, Ret r) /\
    Address.BalanceSat r = Some (amounts confirmed) /\
    GetAddressUtxo (P := plain_parser) (V := leb) (R := respend_chain) false 77 respend_mempool "76a9" false d = (d, Ret (us ++ cs)) /\
    mempool_utxo respend 1 (pay 40 "76a9") ∈ us.
Proof.
  pose (c := ConnectBlock (P := plain_parser) (V := leb) 77 block7 (open_db ∅)).
  assert (ConnectBlock (P := plain_parser) (V := leb) 77 block7 (open_db ∅) = (c.1, Ret tt)) as E
    by (destruct block7_run as [d E]; unfold c; rewrite E; reflexivity).
  exists c.1.
  destruct (api_address_consistent (P := plain_parser) (V := leb) (R := respend_chain) (C := plain_api) false 77 respend_mempool
    c.1 ([] ++ [block7]) "76a9" [Byte.x76; Byte.xa9] ["76a9"%string] true 1 10
    (mkFilter (-1) EmptyString 0 0 TokensToReturnUsed true) 7 (Block.Hash block7)
    mem_store_reliable eq_refl) as (confirmed & us & cs & r & H1 & _ & _ & H2 & H3 & _ & H4 & _ & _ & Hus & _).
  - refine (chain_connect (open_db ∅) c.1 [] 77 block7 [id1; id2] _ block7_connectable E).
    refine (chain_new (open_db ∅) ∅ (newInternalState "Bitcoin") eq_refl eq_refl eq_refl).
  - vm_compute. reflexivity.
  - vm_compute. reflexivity.
  - vm_compute. reflexivity.
  - apply respend_lookups.
  - reflexivity.
  - exists confirmed, us, cs, r. split; [exact H1|]. split; [exact H2|]. split; [exact H3|]. split; [exact H4|].
    apply Hus. exists respend, 1%nat, (pay 40 "76a9"). split_and!; [|reflexivity..| |reflexivity].
    + exists (Outpoint.mk (Tx.Txid respend) 1). split; [vm_compute; left|left].
    + exact (respend_unspent c.1).
Defined.

Lemma getAddressTxids_exact_witness :
  exists es, history (P := plain_parser) (V := leb) (one_tx desc1) desc1 0 maxUint32 es /\
    getAddressTxids (P := plain_parser) (V := leb) emptyMempool (open_db (one_tx desc1)) desc1 false
      (mkFilter AddressFilterVoutOutputs EmptyString 0 0 TokensToReturnUsed true) 25 =
    Ret (take 25 (selected (mkFilter AddressFilterVoutOutputs EmptyString 0 0 TokensToReturnUsed true)
                   (concat (map (calls_at (P := plain_parser)) es)))).
Proof.
  refine (getAddressTxids_exact (P := plain_parser) (V := leb) emptyMempool (open_db (one_tx desc1)) (one_tx desc1) desc1
    (mkFilter AddressFilterVoutOutputs EmptyString 0 0 TokensToReturnUsed true) 25 eq_refl _ one_tx_column one_tx_isolated _ _ _);
    [discriminate|split; reflexivity || discriminate..|reflexivity].
Defined.

(** Three entries in pages of two. *)
Lemma GetMempool_pages_witness :
  let e t := mkTxEntry [] t in
  let m := mkMempool (list_to_map [("a"%string, e 5); ("b"%string, e 9); ("c"%string, e 7)]) ∅ in
  GetMempool m 2 2 = Ret (mkMempoolTxids (mkPaging 2 2 2) [("a"%string, 5)] 3).
Proof.
  intros e m. destruct (GetMempool_pages m 2 eq_refl) as [_ H]; [vm_compute; reflexivity|].
  refine (eq_trans (H 1 _ _) _); [discriminate|reflexivity|vm_compute; reflexivity].
Defined.

(** ** The transaction that spends an output *)

Section iteration.
Context `{DB : Store} `{P : BlockChainParser} `{V : Vlq}.
Context {A : Type} (fn : A -> string -> Z -> list Z -> A * cbResult) (I : A -> Prop).
Context (fn_inv : forall a t h ix, I a -> I (fn a t h ix).1).

Lemma iterTxs_inv fuel : forall height val a, I a -> I (iterTxs fn fuel height val a).1.
Proof using fn_inv.
  induction fuel as [|fuel IH]; intros height val a Ha; simpl; destruct (PackedTxidLen <? zlen val); try done.
  destruct (let* id := go_slice val 0 PackedTxidLen in _) as [[[t ix] v]| |]; try done.
  pose proof (fn_inv a t height ix Ha) as H. destruct (fn a t height ix) as [a' []]; simpl in *; auto.
Qed.

Lemma iterKeys_inv stopKey it : forall a, I a -> I (iterKeys fn stopKey it a).1.
Proof using fn_inv.
  induction it as [|[key val] it IH]; intros a Ha; simpl; [done|]. destruct (bytes_ltb stopKey key); [done|].
  destruct (unpackAddressKey key) as [[? height]| |]; try done.
  pose proof (iterTxs_inv (length val) height val a Ha) as H.
  destruct (iterTxs fn (length val) height val a) as [a' [[]| |]]; simpl in *; auto.
Qed.

(** What the callback keeps, the search keeps. *)
Lemma GetAddrDescTransactions_inv (d : RocksDB) ad lower higher a :
  I a -> I (GetAddrDescTransactions fn d ad lower higher a).1.
Proof using fn_inv. intros Ha. unfold GetAddrDescTransactions. destruct (dbIter d cfAddresses); try done. by apply iterKeys_inv. Qed.
End iteration.

Section spending.
Context `{DB : Store} `{P : BlockChainParser} `{V : Vlq} `{SC : ScriptLib} `{J : StateJson} `{R : BlockChain}.
Context (cacheEnabled : bool) (now : Z).

(** Transaction [t] of height [h] has an input [index] that refers to [txid]. *)
Definition refersTo (txid t : string) (h index : Z) : Prop :=
  0 <= index /\ exists (d d' : RocksDB) tx vin, txCache cacheEnabled now t d = (d', Ret (tx, h)) /\
    Tx.Vin tx !! Z.to_nat index = Some vin /\ Vin.Txid vin = txid.

(** The output as it was, or with a spending transaction that refers to its transaction. *)
Definition spentFrom (txid : string) (vout vout' : AVout.t) : Prop :=
  vout' = vout \/ exists t h index, vout' = set_spent t h index vout /\ refersTo txid t h index.

Lemma spendsVout_spec txid t index d vout :
  spentFrom txid vout (spendsVout cacheEnabled now txid t index d vout).1.2.
Proof.
  unfold spendsVout. destruct (Z.leb_spec 0 index); [by left|].
  destruct (GetTxAddresses d t) as [[tsp|]| |]; try by left.
  destruct (Inputs tsp !! _) as [input|]; [|by left]. destruct (AVout.ValueSat vout); [|by left].
  destruct (TxInput.ValueSat input =? _); [|by left].
  destruct (txCache cacheEnabled now t d) as [d' [[tx h]| |]] eqn:E; try by left.
  destruct (Tx.Vin tx !! Z.to_nat (Z.lnot index)) as [vin|] eqn:Ev; [|by left].
  destruct (decide (Vin.Txid vin = txid)); [|by left].
  right. exists t, h, (Z.lnot index). split; [done|]. split; [unfold Z.lnot; lia|]. by exists d, d', tx, vin.
Qed.

Lemma spentFrom_trans txid v1 v2 v3 : spentFrom txid v1 v2 -> spentFrom txid v2 v3 -> spentFrom txid v1 v3.
Proof.
  intros [-> |(t & h & i & -> & H)]; [done|]. intros [-> |(t' & h' & i' & -> & H')]; right; eauto 6.
Qed.

Lemma spendingCallback_spec txid t indexes : forall s,
  spentFrom txid s.2 (spendingCallback cacheEnabled now txid t indexes s).1.2.
Proof.
  induction indexes as [|index rest IH]; intros [d vout]; simpl; [by left|].
  pose proof (spendsVout_spec txid t index d vout) as H.
  destruct (spendsVout cacheEnabled now txid t index d vout) as [[d' vout'] [[]| |]]; simpl in *; try done.
  eapply spentFrom_trans; [done|]. apply (IH (d', vout')).
Qed.

(** The transaction [setSpendingTxToVout] puts into an output, if any, has at the
    position it reports an input that refers to the transaction of the output. *)
Theorem setSpendingTxToVout_refers vout txid height (d d' : RocksDB) vout' r :
  setSpendingTxToVout cacheEnabled now vout txid height d = (d', Ret (vout', r)) -> spentFrom txid vout vout'.
Proof.
  unfold setSpendingTxToVout.
  pose proof (GetAddrDescTransactions_inv (fun s t _ indexes => spendingCallback cacheEnabled now txid t indexes s)
    (fun s => spentFrom txid vout s.2)) as H. cbn beta in H.
  specialize (H (fun s t _ indexes Hs => spentFrom_trans _ _ _ _ Hs (spendingCallback_spec txid t indexes s))
    d (AVout.AddrDesc vout) height maxUint32 (d, vout) (or_introl eq_refl)).
  by destruct (GetAddrDescTransactions _ d _ _ _ _) as [[d1 vout1] [?| |]]; intros [= <- <- <-].
Qed.
End spending.

(** ** Corners *)

(** Headers of the heights 5 to 7 only, as after a start from height 5. *)
Definition headersFrom5 : kv :=
  list_to_map (omap (fun h =>
      match packBlockInfo (P := plain_parser) (BlockInfo.mk (hex_EncodeToString (repeat Byte.xaa 32)) 15 1 300 h) with
      | Ret v => Some ((cfHeight, packUint h), v)
      | _ => None
      end) [5; 6; 7]).

(** A page of blocks that reaches a height without header is cut at the position in
    the whole list instead of the position in the page: with headers from height 5 to 7
    the first page of four blocks has the three blocks, the second page of two panics. *)
Theorem GetBlocks_missing_header :
  (exists bs, GetBlocks (P := plain_parser) (open_db headersFrom5) 1 4 = Ret bs /\
     map BlockInfo.Height (bs_Blocks bs) = [7; 6; 5]) /\
  GetBlocks (P := plain_parser) (open_db headersFrom5) 2 2 = Panic.
Proof. split; [eexists; split; vm_compute; reflexivity|vm_compute; reflexivity]. Qed.

(** The position of a page is computed in 64 bits: a page number that overflows it
    gives a negative position, and [GetMempool] panics. *)
Theorem GetMempool_overflow :
  let m := mkMempool {["a"%string := mkTxEntry [] 5]} ∅ in
  GetMempool m 200000000000000001 50 = Panic.
Proof. vm_compute. reflexivity. Qed.

(** A transaction with two equal outputs to one address, a transaction that spends the
    first output and a later one that spends the second. *)
Definition twin : Tx.t :=
  Tx.mk EmptyString (hex_EncodeToString id1) 1 0 [Vin.mk "00" EmptyString 0 EmptyString 0 []]
    [pay 50 "76a9"; pay 50 "76a9"] 7 3 15 [] [] 0 NoSpecificData.

Definition spendTwin (id : bytes) (vout height : Z) : Tx.t :=
  Tx.mk EmptyString (hex_EncodeToString id) 1 0 [Vin.mk EmptyString (hex_EncodeToString id1) vout EmptyString 0 []]
    [pay 50 "52"] height 1 15 [] [] 0 NoSpecificData.

Definition twin_block (height : Z) (tx : Tx.t) : Block.t :=
  Block.mk (hex_EncodeToString (repeat Byte.xaa 32)) EmptyString EmptyString height 1 300 15 [tx].

Definition twin_chain : BlockChain := {|
  GetMempoolTransactions := Ret [];
  GetTransactionForMempool _ := Fail ErrTxNotFound;
  GetTransaction txid :=
    match List.find (fun tx => bool_decide (Tx.Txid tx = txid)) [twin; spendTwin id2 0 8; spendTwin id3 1 9] with
    | Some tx => Ret tx
    | None => Fail ErrTxNotFound
    end;
  GetBestBlockHash := Fail ErrBlockNotFound;
  GetBestBlockHeight := Ret 9;
  chain_GetBlockHash _ := Fail ErrBlockNotFound;
  GetBlock _ _ := Fail ErrBlockNotFound;
|}.

Definition twin_db : RocksDB :=
  (sfor (ConnectBlock (P := plain_parser) (V := leb) 77)
     [twin_block 7 twin; twin_block 8 (spendTwin id2 0 8); twin_block 9 (spendTwin id3 1 9)] (open_db ∅)).1.

Definition twin_vout : AVout.t :=
  AVout.mk (Some 50) 0 true EmptyString 0 0 EmptyString [Byte.x76; Byte.xa9] [] true.

Definition twin_run : RocksDB * go (AVout.t * go unit) :=
  setSpendingTxToVout (P := plain_parser) (V := leb) (R := twin_chain) false 77 twin_vout (Tx.Txid twin) 7 twin_db.

Lemma twin_run_ret : exists vout', twin_run.2 = Ret (vout', Ret tt) /\ AVout.SpentTxID vout' = hex_EncodeToString id3.
Proof. eexists. split; vm_compute; reflexivity. Qed.

Lemma setSpendingTxToVout_refers_witness :
  exists vout', spentFrom (P := plain_parser) (V := leb) (R := twin_chain) false 77 (Tx.Txid twin) twin_vout vout' /\
    AVout.SpentTxID vout' = hex_EncodeToString id3.
Proof.
  destruct twin_run_ret as (vout' & E & Ht). exists vout'. split; [|exact Ht].
  refine (setSpendingTxToVout_refers (P := plain_parser) (V := leb) (R := twin_chain) false 77 twin_vout (Tx.Txid twin) 7
    twin_db twin_run.1 vout' (Ret tt) (eq_trans (surjective_pairing twin_run) _)).
  rewrite E. reflexivity.
Defined.

(** The search for the transaction that spends an output compares the value and the
    transaction of the input but not the number of the output: of two equal outputs of a
    transaction to one address, the first is reported as spent by the transaction that
    spends the second. *)
Theorem GetSpendingTxid_twins :
  (GetSpendingTxid (P := plain_parser) (V := leb) (R := twin_chain) (C := plain_api) false 77 emptyMempool
     (Tx.Txid twin) 0 twin_db).2 = Ret (hex_EncodeToString id3) /\
  map Vin.Vout (Tx.Vin (spendTwin id3 1 9)) = [1].
Proof. split; vm_compute; reflexivity. Qed.
