(* ===== verification/Xpub.v ===== *)
(** Extended public keys ([api/xpub.go]): the addresses derived from a key are scanned until
    a gap of unused ones, their balances are summed and their histories merged; the result
    is cached per key.

    The scan ends when the gap is found and the loop of [getXpubData] when the best block
    did not change during a turn: both take a bound, and the result is [None] when it is
    used up before the loop ends.  The database of every turn of the loop is an argument,
    as the synchronization may connect blocks meanwhile.  The cached data is a value here;
    in the code a copy shares its slices with the cache until the new data is stored. *)
From stdpp Require Import base list gmap strings sorting.
From Stdlib Require Import ZArith Lia.
From S2P Require Import Prelude Types Store Vlq Codec InternalState AddrBalance TxAddresses RocksDB.
From S2P Require Import BaseParser EthParser BitcoinIndex EthIndex Connect Mempool Sync GoSort ApiTypes Worker.

Open Scope Z_scope.
Open Scope go_scope.

Definition xpubLen : Z := 111.
Definition defaultAddressesGap : Z := 20.
Definition maxAddressesGap : Z := 10000.
Definition txInput : Z := 1.
Definition txOutput : Z := 2.
Definition xpubCacheSize : Z := 512.
Definition xpubCacheExpirationSeconds : Z := 7200.

Definition ErrUnsupportedXpub : error := ErrMsg "XPUB not supported".

(** The derivation of addresses of the parser. *)
Class XpubParser := {
  DerivationBasePath : string -> go string;
  DeriveFromTo : string -> Z -> Z -> Z -> go (list bytes);
}.

Module XpubTxid.
Record t := mk { txid : string; height : Z; inputOutput : Z }.

(** Inputs come first at equal heights; equal entries compare as less. *)
Definition Less (a b : t) : bool :=
  if height a =? height b then Z.land (inputOutput b) txInput <=? Z.land (inputOutput a) txInput
  else height b <? height a.

Definition or (io : Z) (x : t) : t := mk (txid x) (height x) (Z.lor (inputOutput x) io).
End XpubTxid.

(** [Utxos.Less]: the unconfirmed on top, then by falling height. *)
Definition utxoHeight (u : AUtxo.t) : Z := if AUtxo.Height u =? 0 then maxInt else AUtxo.Height u.
Definition Utxos_Less (a b : AUtxo.t) : bool := utxoHeight b <=? utxoHeight a.

Record xpubAddress := mkXpubAddress {
  xa_addrDesc : bytes;
  xa_balance : option AddrBalance;
  xa_txs : Z;
  xa_maxHeight : Z;
  xa_complete : bool;
  xa_txids : list XpubTxid.t;
}.

Record xpubData := mkXpubData {
  xd_gap : Z;
  xd_accessed : Z;
  xd_basePath : string;
  xd_dataHeight : Z;
  xd_dataHash : string;
  xd_txCountEstimate : Z;
  xd_sentSat : Z;
  xd_balanceSat : Z;
  xd_addresses : list xpubAddress;
  xd_changeAddresses : list xpubAddress;
}.

Definition newXpubAddress (a : bytes) : xpubAddress := mkXpubAddress a None 0 0 false [].

Definition set_xa_balance (b : option AddrBalance) (ad : xpubAddress) : xpubAddress :=
  mkXpubAddress (xa_addrDesc ad) b (xa_txs ad) (xa_maxHeight ad) (xa_complete ad) (xa_txids ad).

Definition newXpubData (gap : Z) (basePath : string) : xpubData := mkXpubData gap 0 basePath 0 EmptyString 0 0 0 [] [].

(** The best block of the data; the sums start again. *)
Definition reset_sums (height : Z) (hash : string) (data : xpubData) : xpubData :=
  mkXpubData (xd_gap data) (xd_accessed data) (xd_basePath data) height hash 0 0 0
    (xd_addresses data) (xd_changeAddresses data).

Definition add_sums (b : AddrBalance) (data : xpubData) : xpubData :=
  mkXpubData (xd_gap data) (xd_accessed data) (xd_basePath data) (xd_dataHeight data) (xd_dataHash data)
    (u32 (xd_txCountEstimate data + Txs b)) (xd_sentSat data + SentSat b) (xd_balanceSat data + BalanceSat b)
    (xd_addresses data) (xd_changeAddresses data).

Definition set_xd_addresses (a c : list xpubAddress) (data : xpubData) : xpubData :=
  mkXpubData (xd_gap data) (xd_accessed data) (xd_basePath data) (xd_dataHeight data) (xd_dataHash data)
    (xd_txCountEstimate data) (xd_sentSat data) (xd_balanceSat data) a c.

Definition set_xd_accessed (t : Z) (data : xpubData) : xpubData :=
  mkXpubData (xd_gap data) t (xd_basePath data) (xd_dataHeight data) (xd_dataHash data)
    (xd_txCountEstimate data) (xd_sentSat data) (xd_balanceSat data) (xd_addresses data) (xd_changeAddresses data).

Section xpub.
Context `{DB : Store} `{P : BlockChainParser} `{V : Vlq} `{SC : ScriptLib} `{J : StateJson}
  `{R : BlockChain} `{E : EthLib} `{C : ApiChain} `{X : XpubParser}.
Context (cacheEnabled : bool) (now : Z) (mempool : BaseMempool).

Abbreviation worker := (sgo RocksDB).

(** ** The transactions of an address *)

Definition ioOf (index : Z) : Z := if index <? 0 then txInput else txOutput.

(** The callback; the flag tells whether the history is complete. *)
Definition xpubCallback (maxResults : Z) (s : list XpubTxid.t * bool) (txid : string) (height : Z)
    (indexes : list Z) : (list XpubTxid.t * bool) * cbResult :=
  let '(txs, complete) := s in
  let append := ((txs ++ [XpubTxid.mk txid height (foldl (fun io i => Z.lor io (ioOf i)) 0 indexes)], complete), CbNext) in
  if maxResults <=? zlen txs then
    match last txs with
    | None => (s, CbPanic)
    | Some t => if XpubTxid.height t =? height then append else ((txs, false), CbStop)
    end
  else append.

(** An outpoint of the mempool: a transaction that was seen before is looked up at the
    position stored for it. *)
Definition xpubMempoolTxid (maxResults : Z) (s : (list XpubTxid.t * bool) * gmap string Z) (m : Outpoint.t)
    : go ((list XpubTxid.t * bool) * gmap string Z) :=
  let '(t, uniqueTxs) := s in
  match uniqueTxs !! Outpoint.Txid m with
  | None =>
      let l := zlen t.1 in
      match xpubCallback maxResults t (Outpoint.Txid m) 0 [Outpoint.Vout m] with
      | (_, CbPanic) => Panic
      | (t', _) => Ret (t', if l <? zlen t'.1 then <[Outpoint.Txid m := l - 1]> uniqueTxs else uniqueTxs)
      end
  | Some l =>
      let* x := go_index t.1 l in
      Ret ((<[Z.to_nat l := XpubTxid.or (ioOf (Outpoint.Vout m)) x]> t.1, t.2), uniqueTxs)
  end.

Definition xpubGetAddressTxids (d : RocksDB) (addrDesc : bytes) (fromMempool : bool) (fromHeight toHeight maxResults : Z)
    : go (list XpubTxid.t * bool) :=
  if fromMempool then
    let* '(t, _) := go_fold (xpubMempoolTxid maxResults) (([], true), ∅) (mempool_GetAddrDescTransactions mempool addrDesc) in
    Ret t
  else
    match GetAddrDescTransactions (xpubCallback maxResults) d addrDesc fromHeight toHeight ([], true) with
    | (t, Ret _) => Ret t
    | (_, Fail e) => Fail e
    | (_, Panic) => Panic
    end.

(** The history of a used address, completed from the height it was loaded to. *)
Definition xpubCheckAndLoadTxids (d : RocksDB) (ad : xpubAddress) (maxHeight : Z) : go xpubAddress :=
  match xa_balance ad with
  | None => Ret ad
  | Some b =>
      if xa_complete ad then
        if Txs b =? xa_txs ad then Ret ad
        else
          let* '(newTxids, _) := xpubGetAddressTxids d (xa_addrDesc ad) false (u32 (xa_maxHeight ad + 1)) maxHeight maxInt in
          let txids := newTxids ++ xa_txids ad in
          Ret (mkXpubAddress (xa_addrDesc ad) (xa_balance ad) (u32 (zlen txids)) maxHeight true txids)
      else
        let* '(newTxids, complete) := xpubGetAddressTxids d (xa_addrDesc ad) false 0 maxHeight maxInt in
        Ret (mkXpubAddress (xa_addrDesc ad) (xa_balance ad) (if complete then u32 (zlen newTxids) else xa_txs ad)
               maxHeight complete newTxids)
  end.

(** ** The scan of the addresses *)

Definition xpubDerivedAddressBalance (d : RocksDB) (data : xpubData) (ad : xpubAddress)
    : go (xpubData * xpubAddress * bool) :=
  let* b := GetAddrDescBalance d (xa_addrDesc ad) DetailUTXO in
  Ret (match b with
       | Some b' => (add_sums b' data, set_xa_balance b ad, true)
       | None => (data, set_xa_balance b ad, false)
       end).

(** One address at the end of the list, and the last used index. *)
Definition scanOne (d : RocksDB) (s : xpubData * list xpubAddress * Z) (ad : xpubAddress)
    : go (xpubData * list xpubAddress * Z) :=
  let '(data, addresses, lastUsed) := s in
  let* '(data, ad, used) := xpubDerivedAddressBalance d data ad in
  Ret (data, addresses ++ [ad], if (used : bool) then zlen addresses else lastUsed).

Definition resetAddress (fork : bool) (ad : xpubAddress) : xpubAddress :=
  if fork then mkXpubAddress (xa_addrDesc ad) (xa_balance ad) 0 0 false [] else ad.

Fixpoint scanMore (fuel : nat) (d : RocksDB) (xpub : string) (gap change minDerivedIndex : Z)
    (s : xpubData * list xpubAddress * Z) : go (option (xpubData * list xpubAddress * Z)) :=
  let '(data, addresses, lastUsed) := s in
  let missing := zlen addresses - lastUsed in
  if missing <? gap then
    match fuel with
    | O => Ret None
    | S fuel' =>
        let from := zlen addresses in
        let to := Z.max minDerivedIndex (from + gap - missing) in
        let* descriptors := DeriveFromTo xpub (u32 change) (u32 from) (u32 to) in
        let* s := go_fold (scanOne d) s (map newXpubAddress descriptors) in
        scanMore fuel' d xpub gap change minDerivedIndex s
    end
  else Ret (Some s).

Definition xpubScanAddresses (fuel : nat) (d : RocksDB) (xpub : string) (data : xpubData) (addresses : list xpubAddress)
    (gap change minDerivedIndex : Z) (fork : bool) : go (option (xpubData * list xpubAddress * Z)) :=
  let* s := go_fold (scanOne d) (data, [], 0) (map (resetAddress fork) addresses) in
  scanMore fuel d xpub gap change minDerivedIndex s.

(** ** The cache *)

Abbreviation xpubCache := (gmap string xpubData).

(** The items are visited in the order of the argument. *)
Definition evictOne (s : xpubCache * string * Z) (kv : string * xpubData) : xpubCache * string * Z :=
  let '(cache, oldestKey, oldest) := s in
  let '(k, v) := kv in
  let cache := if xd_accessed v + xpubCacheExpirationSeconds <? now then delete k cache else cache in
  if xd_accessed v <? oldest then (cache, k, xd_accessed v) else (cache, oldestKey, oldest).

Definition evictXpubCacheItems (order : list (string * xpubData)) (cache : xpubCache) : xpubCache :=
  let '(cache, oldestKey, oldest) := foldl evictOne (cache, EmptyString, maxInt64) order in
  if negb (bool_decide (oldestKey = EmptyString)) && (now <=? oldest + xpubCacheExpirationSeconds)
  then delete oldestKey cache else cache.

Definition storeXpubData (order : xpubCache -> list (string * xpubData)) (xpub : string) (data : xpubData)
    (cache : xpubCache) : xpubCache :=
  <[xpub := data]> (if xpubCacheSize <=? Z.of_nat (size cache) then evictXpubCacheItems (order cache) cache else cache).

(** ** The data of a key *)

Definition limitGap (gap : Z) : Z :=
  (if gap <=? 0 then defaultAddressesGap else if maxAddressesGap <? gap then maxAddressesGap else gap) + 1.

Definition loadTxids (d : RocksDB) (bestheight : Z) (data : xpubData) : go xpubData :=
  let* a := go_map (fun ad => xpubCheckAndLoadTxids d ad bestheight) (xd_addresses data) in
  let* c := go_map (fun ad => xpubCheckAndLoadTxids d ad bestheight) (xd_changeAddresses data) in
  Ret (set_xd_addresses a c data).

(** Both branches of the tree; the second is derived at least to the last used index of the first. *)
Definition scanBoth (fuel : nat) (d : RocksDB) (xpub : string) (gap : Z) (fork : bool) (data : xpubData)
    : go (option xpubData) :=
  let* r := xpubScanAddresses fuel d xpub data (xd_addresses data) gap 0 0 fork in
  match r with
  | None => Ret None
  | Some (data, addresses, lastUsedIndex) =>
      let* r := xpubScanAddresses fuel d xpub data (xd_changeAddresses data) gap 1 lastUsedIndex fork in
      match r with
      | None => Ret None
      | Some (data, changeAddresses, _) => Ret (Some (set_xd_addresses addresses changeAddresses data))
      end
  end.

(** One turn of the loop. *)
Definition xpubTurn (fuel : nat) (d : RocksDB) (xpub : string) (gap : Z) (option_ : AccountDetails) (found : bool)
    (bestheight : Z) (besthash : string) (data : xpubData) : go (option xpubData) :=
  let* '(data, fork) :=
    (if negb found || negb (xd_gap data =? gap) then
       let* basePath := (match DerivationBasePath xpub with Fail _ => Ret "unknown"%string | r => r end) in
       Ret (newXpubData gap basePath, false)
     else
       let* hash := GetBlockHash d (xd_dataHeight data) in
       Ret (data, negb (bool_decide (hash = xd_dataHash data)))) in
  let* data := (if (xd_dataHeight data <? bestheight) || fork
                then scanBoth fuel d xpub gap fork (reset_sums bestheight besthash data)
                else Ret (Some data)) in
  match data with
  | None => Ret None
  | Some data =>
      if AccountDetailsTxidHistory <=? option_
      then let* data := loadTxids d bestheight data in Ret (Some data)
      else Ret (Some data)
  end.

Fixpoint xpubLoop (fuel : nat) (turns : list RocksDB) (xpub : string) (gap : Z) (option_ : AccountDetails) (found : bool)
    (processedHash : string) (data : xpubData) : go (option (xpubData * Z)) :=
  match turns with
  | [] => Ret None
  | d :: turns' =>
      let* '(bestheight, besthash) := annotate "GetBestBlock" (GetBestBlock d) in
      if decide (besthash = processedHash) then Ret (Some (data, bestheight))
      else
        let* data := xpubTurn fuel d xpub gap option_ found bestheight besthash data in
        match data with
        | None => Ret None
        | Some data => xpubLoop fuel turns' xpub gap option_ found besthash data
        end
  end.

Definition getXpubData (order : xpubCache -> list (string * xpubData)) (fuel : nat) (turns : list RocksDB) (xpub : string)
    (option_ : AccountDetails) (gap : Z) : sgo xpubCache (option (xpubData * Z)) := fun cache =>
  if negb (bool_decide (GetChainType = ChainBitcoinType)) || negb (zlen (String.list_ascii_of_string xpub) =? xpubLen)
  then (cache, Fail ErrUnsupportedXpub)
  else
    let gap := limitGap gap in
    let '(data, found) := match cache !! xpub with
                          | Some data => (data, true)
                          | None => (newXpubData 0 EmptyString, false)
                          end in
    match xpubLoop fuel turns xpub gap option_ found EmptyString data with
    | Ret (Some (data, bestheight)) =>
        let data := set_xd_accessed now data in
        (storeXpubData order xpub data cache, Ret (Some (data, bestheight)))
    | Ret None => (cache, Ret None)
    | Fail e => (cache, Fail e)
    | Panic => (cache, Panic)
    end.

(** ** Answers *)

Definition ofXpub {A} (m : worker A) : sgo (RocksDB * xpubCache) A := fun s =>
  let '(d, r) := m s.1 in ((d, s.2), r).

Definition ofCache {A} (m : sgo xpubCache A) : sgo (RocksDB * xpubCache) A := fun s =>
  let '(c, r) := m s.2 in ((s.1, c), r).

(** [fmt.Sprintf("%s/%d/%d")] *)
Definition xpubPath (basePath : string) (changeIndex index : Z) : string :=
  let dec z := String.string_of_list_ascii (big_String z) in
  (basePath ++ "/" ++ dec changeIndex ++ "/" ++ dec index)%string.

Definition tokenFromXpubAddress (data : xpubData) (ad : xpubAddress) (changeIndex index : Z) (option_ : AccountDetails)
    : go Token.t :=
  let* '(a, _) := logged ([], false) (GetAddressesFromAddrDesc (xa_addrDesc ad)) in
  let address := default EmptyString (head a) in
  let '(transfers, balance, totalReceived, totalSent) :=
    match xa_balance ad with
    | None => (0, None, None, None)
    | Some b => if AccountDetailsTokenBalances <=? option_
                then (Txs b, Some (BalanceSat b), Some (ReceivedSat b), Some (SentSat b))
                else (Txs b, None, None, None)
    end in
  Ret (Token.mk XPUBAddressTokenType address (xpubPath (xd_basePath data) changeIndex index) EmptyString transfers
         EmptyString AmountDecimals balance totalReceived totalSent 0).

(** The addresses of both branches with their branch and index. *)
Definition xpubAddresses (data : xpubData) : list (Z * Z * xpubAddress) :=
  map (fun '(i, ad) => (0, Z.of_nat i, ad)) (enumerate (xd_addresses data)) ++
  map (fun '(i, ad) => (1, Z.of_nat i, ad)) (enumerate (xd_changeAddresses data)).

(** [txidFilter], absent when nothing is filtered. *)
Definition xpubFiltered (filter : AddressFilter) : bool :=
  negb ((f_FromHeight filter =? 0) && (f_ToHeight filter =? 0) && (f_Vout filter =? AddressFilterVoutOff)).

Definition txidFilter (filter : AddressFilter) (txid : XpubTxid.t) : bool :=
  let toHeight := if f_ToHeight filter =? 0 then maxUint32 else f_ToHeight filter in
  if (XpubTxid.height txid <? f_FromHeight filter) || (toHeight <? XpubTxid.height txid) then false
  else negb (negb (f_Vout filter =? AddressFilterVoutOff) &&
             ((f_Vout filter =? AddressFilterVoutInputs) && (Z.land (XpubTxid.inputOutput txid) txInput =? 0) ||
              (f_Vout filter =? AddressFilterVoutOutputs) && (Z.land (XpubTxid.inputOutput txid) txOutput =? 0))).

Definition passes (filter : AddressFilter) (txid : XpubTxid.t) : bool :=
  negb (xpubFiltered filter) || txidFilter filter txid.

Record xpubMempool := mkXpubMempool {
  xm_txmMap : gmap string ATx.t;
  xm_unconfirmedTxs : Z;
  xm_uBalSat : Z;
  xm_entries : list MempoolTxidEntry;
}.

(** A mempool transaction of an address. *)
Definition xpubUnconfirmed (page : Z) (filter : AddressFilter) (ad : xpubAddress) (txid : XpubTxid.t) (m : xpubMempool)
    : worker xpubMempool := fun d =>
  let id := XpubTxid.txid txid in
  let found := xm_txmMap m !! id in
  let '(d, tx) := match found with
                  | Some tx => (d, Ret tx)
                  | None => api_GetTransaction cacheEnabled now mempool id false false d
                  end in
  (d, match tx with
      | Panic => Panic
      | Fail _ => Ret m
      | Ret tx =>
          let new := negb (bool_decide (is_Some found)) in
          let txm := <[id := tx]> (xm_txmMap m) in
          Ret (if ATx.Confirmations tx =? 0 then
                 mkXpubMempool txm (if new then xm_unconfirmedTxs m + 1 else xm_unconfirmedTxs m)
                   (xm_uBalSat m + getAddrVoutValue tx (xa_addrDesc ad) - getAddrVinValue tx (xa_addrDesc ad))
                   (if (page =? 0) && new && passes filter txid
                    then xm_entries m ++ [mkMempoolTxidEntry id (u32 (ATx.Blocktime tx))] else xm_entries m)
               else mkXpubMempool txm (xm_unconfirmedTxs m) (xm_uBalSat m) (xm_entries m))
      end).

Definition xpubUnconfirmedOf (page : Z) (filter : AddressFilter) (x : Z * Z * xpubAddress) (m : xpubMempool)
    : worker xpubMempool :=
  let ad := x.2 in
  let! d := sget in
  let! '(newTxids, _) := slift (xpubGetAddressTxids d (xa_addrDesc ad) true 0 0 maxInt) in
  sfold (xpubUnconfirmed page filter ad) newTxids m.

(** The history of all addresses, every transaction once. *)
Definition mergeTxid (filter : AddressFilter) (s : gmap string bool * list XpubTxid.t) (txid : XpubTxid.t)
    : gmap string bool * list XpubTxid.t :=
  let '(txcMap, txc) := s in
  if default false (txcMap !! XpubTxid.txid txid) then s
  else
    let add := passes filter txid in
    (<[XpubTxid.txid txid := add]> txcMap, if add then txc ++ [txid] else txc).

Definition mergeTxids (filter : AddressFilter) (data : xpubData) : gmap string bool * list XpubTxid.t :=
  foldl (mergeTxid filter) (∅, []) (concat (map (fun x => xa_txids x.2) (xpubAddresses data))).

(** The confirmed transactions of a page and their number. *)
Definition xpubConfirmed (data : xpubData) (bestheight page txsOnPage : Z) (option_ : AccountDetails)
    (filter : AddressFilter) : worker (Paging * list string * list ATx.t * Z) :=
  let '(txcMap, txc) := mergeTxids filter data in
  let txc := Stable XpubTxid.Less txc in
  let txCount := Z.of_nat (size txcMap) in
  let! '(pg, from, to, page) := slift (computePaging (zlen txc) page txsOnPage) in
  let! pg := (if txsOnPage <=? zlen txc then
                if xpubFiltered filter then sret (mkPaging (p_Page pg) (-1) (p_ItemsOnPage pg))
                else let! '(pg, _, _, _) := slift (computePaging txCount page txsOnPage) in sret pg
              else sret pg) in
  let! '(txids, txs) :=
    sfold (fun i '(txids, txs) =>
        let! t := slift (go_index txc i) in
        if option_ =? AccountDetailsTxidHistory then sret (txids ++ [XpubTxid.txid t], txs)
        else let! tx := txFromTxid cacheEnabled now mempool (XpubTxid.txid t) bestheight option_ None in
             sret (txids, txs ++ [tx]))
      (range from to) ([], []) in
  sret (pg, txids, txs, txCount).

(** The tokens: one for every derived address that is asked for. *)
Definition xpubToken (data : xpubData) (option_ : AccountDetails) (filter : AddressFilter)
    (s : Z * list Token.t * gset string) (x : Z * Z * xpubAddress) : go (Z * list Token.t * gset string) :=
  let '(usedTokens, tokens, names) := s in
  let '(ci, i, ad) := x in
  let usedTokens := if bool_decide (is_Some (xa_balance ad)) then usedTokens + 1 else usedTokens in
  if AccountDetailsBasic <? option_ then
    let* token := tokenFromXpubAddress data ad ci i option_ in
    let wanted := match f_TokensToReturn filter, xa_balance ad with
                  | TokensToReturnDerived, _ => true
                  | TokensToReturnUsed, Some _ => true
                  | TokensToReturnNonzeroBalance, Some b => negb (IsZeroBigInt (BalanceSat b))
                  | _, None => false
                  end in
    Ret (usedTokens, if wanted then tokens ++ [token] else tokens, {[Token.Name token]} ∪ names)
  else Ret (usedTokens, tokens, names).

(** [GetXpubAddress] after the data of the key was loaded. *)
Definition xpubAnswer (xpub : string) (data : xpubData) (bestheight page txsOnPage : Z) (option_ : AccountDetails)
    (filter : AddressFilter) : worker Address.t :=
  let! m := (if (f_ToHeight filter =? 0) && negb (f_OnlyConfirmed filter)
             then sfold (xpubUnconfirmedOf page filter) (xpubAddresses data) (mkXpubMempool ∅ 0 0 [])
             else sret (mkXpubMempool ∅ 0 0 [])) in
  let entries := merge_sort entry_ord (xm_entries m) in
  let txids := if option_ =? AccountDetailsTxidHistory then map me_Txid entries else [] in
  let txs := if AccountDetailsTxHistoryLight <=? option_ then omap (fun e => xm_txmMap m !! me_Txid e) entries else [] in
  let! '(pg, txidsc, txsc, txCount) :=
    (if AccountDetailsTxidHistory <=? option_
     then xpubConfirmed data bestheight page txsOnPage option_ filter
     else sret (noPaging, [], [], xd_txCountEstimate data)) in
  let! '(usedTokens, tokens, names) := slift (go_fold (xpubToken data option_ filter) (0, [], ∅) (xpubAddresses data)) in
  sret (Address.mk pg xpub (Some (xd_balanceSat data)) (Some (xd_balanceSat data + xd_sentSat data))
          (Some (xd_sentSat data)) (Some (xm_uBalSat m)) (xm_unconfirmedTxs m) txCount 0 (txs ++ txsc) (txids ++ txidsc)
          None usedTokens tokens None names).

Definition GetXpubAddress (order : xpubCache -> list (string * xpubData)) (fuel : nat) (turns : list RocksDB)
    (xpub : string) (page txsOnPage : Z) (option_ : AccountDetails) (filter : AddressFilter) (gap : Z)
    : sgo (RocksDB * xpubCache) (option Address.t) :=
  let page := normPage page in
  let! r := ofCache (getXpubData order fuel turns xpub option_ gap) in
  match r with
  | None => sret None
  | Some (data, bestheight) =>
      let! a := ofXpub (xpubAnswer xpub data bestheight page txsOnPage option_ filter) in sret (Some a)
  end.

Definition set_owner (address path : string) (u : AUtxo.t) : AUtxo.t :=
  AUtxo.mk (AUtxo.Txid u) (AUtxo.Vout u) (AUtxo.AmountSat u) (AUtxo.Height u) (AUtxo.Confirmations u) address path
    (AUtxo.Locktime u).

(** The utxos of one address of the key. *)
Definition xpubUtxosOf (data : xpubData) (onlyConfirmed : bool) (x : Z * Z * xpubAddress) : worker (list AUtxo.t) :=
  let '(ci, i, ad) := x in
  let unused := negb (bool_decide (is_Some (xa_balance ad))) in
  if unused && onlyConfirmed then sret []
  else
    let! utxos := getAddrDescUtxo cacheEnabled now mempool (xa_addrDesc ad) (xa_balance ad) onlyConfirmed unused in
    match utxos with
    | [] => sret []
    | _ => let! t := slift (tokenFromXpubAddress data ad ci i AccountDetailsTokens) in
           sret (map (set_owner (Token.Name t) (Token.Path t)) utxos)
    end.

Definition GetXpubUtxo (order : xpubCache -> list (string * xpubData)) (fuel : nat) (turns : list RocksDB)
    (xpub : string) (onlyConfirmed : bool) (gap : Z) : sgo (RocksDB * xpubCache) (option (list AUtxo.t)) :=
  let! r := ofCache (getXpubData order fuel turns xpub AccountDetailsBasic gap) in
  match r with
  | None => sret None
  | Some (data, _) =>
      let! us := ofXpub (smap (xpubUtxosOf data onlyConfirmed) (xpubAddresses data)) in
      sret (Some (Stable Utxos_Less (concat us)))
  end.
End xpub.
