(* ===== verification/XpubFacts.v ===== *)
(** Facts about extended public keys ([Xpub]): the scan ends with a gap of unused addresses
    and sums the balances, the cache keeps its size, the loading of a history in steps is
    the loading at once, and balance, history and utxos of a key are those of its
    addresses. *)
From stdpp Require Import base list gmap strings sorting.
From Stdlib Require Import ZArith Lia.
From S2P Require Import Prelude Types Store Vlq Codec InternalState AddrBalance TxAddresses RocksDB RocksDBFacts.
From S2P Require Import BaseParser EthParser BitcoinParser BitcoinIndex Ledger IndexInvariant EthIndex Connect ConnectFacts.
From S2P Require Import Hex Mempool Sync GoSort ApiTypes Worker WorkerFacts Xpub.

Open Scope Z_scope.
Open Scope go_scope.

(** ** The scan of one branch *)

Section scan.
Context `{DB : Store} `{P : BlockChainParser} `{V : Vlq} `{X : XpubParser}.
(** The addresses of a branch and their balances in the database. *)
Context (d : RocksDB) (desc : nat -> bytes) (bal : nat -> option AddrBalance).
Context (Hbal : forall i, GetAddrDescBalance d (desc i) DetailUTXO = Ret (bal i)).

(** The last used index below [n], 0 if there is none. *)
Fixpoint lastUsed (n : nat) : nat :=
  match n with O => O | S n' => match bal n' with Some _ => n' | None => lastUsed n' end end.

Lemma lastUsed_unused n i : (lastUsed n < i < n)%nat -> bal i = None.
Proof.
  induction n as [|n IH]; simpl; [lia|]. destruct (bal n) eqn:E; [lia|]. intros H.
  destruct (decide (i = n)) as [-> |]; [done|]. apply IH. lia.
Qed.

Lemma lastUsed_le n : (lastUsed n <= n)%nat.
Proof. induction n as [|n IH]; simpl; [lia|]. destruct (bal n); lia. Qed.

Lemma lastUsed_mono n k : (lastUsed n <= lastUsed (n + k))%nat.
Proof.
  induction k as [|k IH]; [rewrite Nat.add_0_r; lia|]. rewrite Nat.add_succ_r. simpl.
  destruct (bal (n + k)); [|done]. pose proof (lastUsed_le n). lia.
Qed.

Lemma lastUsed_used n : lastUsed n = O \/ is_Some (bal (lastUsed n)).
Proof. induction n as [|n IH]; simpl; [by left|]. destruct (bal n) eqn:E; [right; by rewrite E|done]. Qed.

(** The total of a quantity over the first [n] addresses. *)
Definition total (q : AddrBalance -> Z) (n : nat) : Z :=
  foldr (fun i acc => from_option q 0 (bal i) + acc) 0 (seq 0 n).

Lemma total_S q n : total q (S n) = total q n + from_option q 0 (bal n).
Proof.
  unfold total. rewrite seq_S, foldr_app. simpl.
  assert (forall l a, foldr (fun i acc => from_option q 0 (bal i) + acc) a l =
    foldr (fun i acc => from_option q 0 (bal i) + acc) 0 l + a) as H; [|rewrite H; lia].
  intros l a. induction l as [|i l IH]; simpl; lia.
Qed.

(** The data but for its sums. *)
Definition frame (data : xpubData) : Z * Z * string * Z * string * list xpubAddress * list xpubAddress :=
  (xd_gap data, xd_accessed data, xd_basePath data, xd_dataHeight data, xd_dataHash data, xd_addresses data,
   xd_changeAddresses data).

(** The state of the scan after [n] addresses. *)
Record scanned (data0 : xpubData) (n : nat) (s : xpubData * list xpubAddress * Z) : Prop := {
  sc_addrs : map (fun ad => (xa_addrDesc ad, xa_balance ad)) s.1.2 = map (fun i => (desc i, bal i)) (seq 0 n);
  sc_last : s.2 = Z.of_nat (lastUsed n);
  sc_frame : frame s.1.1 = frame data0;
  sc_balance : xd_balanceSat s.1.1 = xd_balanceSat data0 + total BalanceSat n;
  sc_sent : xd_sentSat s.1.1 = xd_sentSat data0 + total SentSat n;
}.

Lemma scanned_length data0 n s : scanned data0 n s -> length s.1.2 = n.
Proof. intros [H _ _ _ _]. apply (f_equal length) in H. by rewrite !length_map, length_seq in H. Qed.

Lemma scanOne_spec data0 n s ad : scanned data0 n s -> xa_addrDesc ad = desc n ->
  exists s', scanOne d s ad = Ret s' /\ scanned data0 (S n) s'.
Proof using Hbal.
  intros Hs Ha. pose proof (scanned_length _ _ _ Hs) as Hl. destruct s as [[data addresses] lu], Hs as [H1 H2 H3 H4 H5].
  simpl in *. unfold scanOne, xpubDerivedAddressBalance. rewrite Ha, Hbal. gostep.
  assert (forall b : option AddrBalance, map (fun ad => (xa_addrDesc ad, xa_balance ad)) (addresses ++ [set_xa_balance b ad]) =
    map (fun i => (desc i, bal i)) (seq 0 n) ++ [(desc n, b)]) as Hm.
  { intros b. rewrite map_app, H1. simpl. by rewrite Ha. }
  destruct (bal n) as [b|] eqn:E; eexists; (split; [reflexivity|]);
    (split; cbn [fst snd]; [rewrite Hm, seq_S, map_app; simpl; by rewrite E|..]);
    rewrite ?total_S; simpl; rewrite ?E; simpl; unfold zlen; done || lia.
Qed.

Lemma scanAll_spec data0 k : forall n s ads, scanned data0 n s -> map xa_addrDesc ads = map desc (seq n k) ->
  exists s', go_fold (scanOne d) s ads = Ret s' /\ scanned data0 (n + k) s'.
Proof using Hbal.
  induction k as [|k IH]; intros n s ads Hs Ha; destruct ads as [|ad ads]; try done; simpl in Ha.
  - exists s. by rewrite Nat.add_0_r.
  - injection Ha as Ha Has. destruct (scanOne_spec data0 n s ad Hs Ha) as (s1 & E1 & H1). simpl. rewrite E1. gostep.
    rewrite <- Nat.add_succ_comm. by apply IH.
Qed.

(** [DeriveAddressDescriptorsFromTo] derives the addresses of the branch. *)
Definition derives (xpub : string) (change : Z) : Prop :=
  forall from to, 0 <= from < to -> to < 2 ^ 32 ->
    DeriveFromTo xpub (u32 change) from to = Ret (map desc (seq (Z.to_nat from) (Z.to_nat (to - from)))).

(** Addresses from [N] on are not used: the scan ends, with a gap behind the last used. *)
Lemma scanMore_spec N gap xpub change minIndex data0 : derives xpub change ->
  (forall i, is_Some (bal i) -> (i < N)%nat) -> 0 < gap -> Z.of_nat N + gap < 2 ^ 32 -> minIndex < 2 ^ 32 ->
  forall fuel n s, scanned data0 n s -> (N - lastUsed n < fuel)%nat -> Z.of_nat n < 2 ^ 32 ->
  exists n' s', scanMore fuel d xpub gap change minIndex s = Ret (Some s') /\ scanned data0 n' s' /\
    (n <= n')%nat /\ Z.of_nat (lastUsed n') + gap <= Z.of_nat n' /\ Z.of_nat n' < 2 ^ 32.
Proof using Hbal.
  intros HD HN Hg HNg Hmin. induction fuel as [|fuel IH]; intros n s Hs Hf Hn; [lia|].
  pose proof (scanned_length _ _ _ Hs) as Hl. pose proof (sc_last _ _ _ Hs) as Hlu. pose proof (lastUsed_le n) as Hle.
  destruct s as [[data addresses] lu]. simpl in Hl, Hlu. subst lu. cbn [scanMore].
  assert (zlen addresses = Z.of_nat n) as -> by (unfold zlen; lia).
  destruct (Z.ltb_spec (Z.of_nat n - Z.of_nat (lastUsed n)) gap) as [Hlt|Hge].
  2:{ exists n, (data, addresses, Z.of_nat (lastUsed n)). split; [done|]. split; [done|]. lia. }
  assert (lastUsed n <= N)%nat as HluN. { destruct (lastUsed_used n) as [-> |Hu]; [lia|]. apply HN in Hu. lia. }
  set (to := Z.max minIndex (Z.of_nat n + gap - (Z.of_nat n - Z.of_nat (lastUsed n)))).
  rewrite (u32_id (Z.of_nat n)), (u32_id to) by (unfold in_u32, to; lia). rewrite HD by (unfold to; lia). gostep.
  rewrite Nat2Z.id. set (k := Z.to_nat (to - Z.of_nat n)).
  destruct (scanAll_spec data0 k n (data, addresses, Z.of_nat (lastUsed n)) (map newXpubAddress (map desc (seq n k))) Hs)
    as (s1 & E1 & H1); [rewrite map_map; simpl; by rewrite !map_id|].
  rewrite E1. gostep. pose proof (lastUsed_mono n k) as Hmono.
  destruct (decide (lastUsed (n + k) = lastUsed n)) as [El|El].
  - exists (n + k)%nat, s1. pose proof (scanned_length _ _ _ H1) as Hl1. pose proof (sc_last _ _ _ H1) as Hlu1.
    destruct s1 as [[data1 addresses1] lu1]. simpl in Hl1, Hlu1. subst lu1.
    assert (Z.of_nat (n + k) = to) as Hto by (unfold k, to; lia).
    assert ((zlen addresses1 - Z.of_nat (lastUsed (n + k)) <? gap) = false) as Hend
      by (apply Z.ltb_ge; unfold zlen; rewrite Hl1, Hto, El; unfold to; lia).
    split; [destruct fuel; cbn [scanMore]; rewrite Hend; done|]. split; [done|].
    rewrite El. split; [lia|]. rewrite Hto. unfold to. lia.
  - assert (lastUsed (n + k) < N)%nat by (destruct (lastUsed_used (n + k)) as [? |Hu]; [lia|by apply HN]).
    destruct (IH (n + k)%nat s1 H1) as (n' & s' & E' & H' & Hn' & Hgap); [lia|unfold k, to; lia|].
    exists n', s'. split; [done|]. split; [done|]. lia.
Qed.

Lemma xpubScanAddresses_spec N gap xpub change minIndex data : derives xpub change ->
  (forall i, is_Some (bal i) -> (i < N)%nat) -> 0 < gap -> Z.of_nat N + gap < 2 ^ 32 -> minIndex < 2 ^ 32 ->
  forall fuel addresses fork, map xa_addrDesc addresses = map desc (seq 0 (length addresses)) ->
  (N < fuel)%nat -> Z.of_nat (length addresses) < 2 ^ 32 ->
  exists n s, xpubScanAddresses fuel d xpub data addresses gap change minIndex fork = Ret (Some s) /\ scanned data n s /\
    (length addresses <= n)%nat /\ Z.of_nat (lastUsed n) + gap <= Z.of_nat n /\ Z.of_nat n < 2 ^ 32.
Proof using Hbal.
  intros HD HN Hg HNg Hmin fuel addresses fork Ha Hf Hn. unfold xpubScanAddresses.
  destruct (scanAll_spec data (length addresses) 0 (data, [], 0) (map (resetAddress fork) addresses)) as (s1 & E1 & H1).
  - split; simpl; unfold total; simpl; try done; lia.
  - rewrite map_map, <- Ha. apply map_ext. intros ad. by destruct fork.
  - rewrite E1. gostep. by apply (scanMore_spec N gap xpub change minIndex data HD HN Hg HNg Hmin); [|lia|].
Qed.
End scan.

(** ** Sums *)

Definition sumBy {A} (f : A -> Z) (l : list A) : Z := foldr (fun x acc => f x + acc) 0 l.

Lemma sumBy_app {A} (f : A -> Z) l1 l2 : sumBy f (l1 ++ l2) = sumBy f l1 + sumBy f l2.
Proof. unfold sumBy. induction l1 as [|x l IH]; simpl; [done|]. rewrite IH. lia. Qed.

Lemma sumBy_map {A B} (f : B -> Z) (g : A -> B) l : sumBy f (map g l) = sumBy (fun x => f (g x)) l.
Proof. unfold sumBy. induction l as [|x l IH]; simpl; [done|]. by rewrite IH. Qed.

Lemma sumBy_ext {A} (f g : A -> Z) l : (forall x, x ∈ l -> f x = g x) -> sumBy f l = sumBy g l.
Proof.
  unfold sumBy. induction l as [|x l IH]; intros H; simpl; [done|].
  rewrite H, IH; [done|..|by constructor]. intros y Hy. apply H. by constructor.
Qed.

#[global] Instance amounts_perm : Proper ((≡ₚ) ==> eq) amounts.
Proof. unfold amounts. induction 1; simpl; lia. Qed.

Lemma amounts_concat l : amounts (concat l) = sumBy amounts l.
Proof. induction l as [|x l IH]; simpl; [done|]. by rewrite amounts_app, IH. Qed.

Lemma amounts_owner a p l : amounts (map (set_owner a p) l) = amounts l.
Proof. unfold amounts. induction l as [|u l IH]; simpl; [done|]. by rewrite IH. Qed.

Lemma smap_pure {S A B} (f : A -> sgo S B) (g : A -> B) s l :
  (forall x, x ∈ l -> f x s = (s, Ret (g x))) -> smap f l s = (s, Ret (map g l)).
Proof.
  induction l as [|x l IH]; intros H; [done|]. simpl. unfold sbind. rewrite H by constructor.
  rewrite IH by (intros y Hy; apply H; by constructor). done.
Qed.

Lemma enumerate_snd {A} (l : list A) : map snd (enumerate l) = l.
Proof.
  unfold enumerate. generalize 0%nat as k. induction l as [|x l IH]; intros k; simpl; [done|]. by rewrite IH.
Qed.

Lemma xpubAddresses_snd data : map snd (xpubAddresses data) = xd_addresses data ++ xd_changeAddresses data.
Proof.
  unfold xpubAddresses. rewrite map_app, !map_map. rewrite <- (enumerate_snd (xd_addresses data)) at 2.
  rewrite <- (enumerate_snd (xd_changeAddresses data)) at 2. f_equal; apply map_ext; by intros [].
Qed.

(** ** Order *)

Definition newer_utxo (u v : AUtxo.t) : Prop := utxoHeight v <= utxoHeight u.
#[global] Instance newer_utxo_trans : Transitive newer_utxo.
Proof. intros u v w. unfold newer_utxo. lia. Qed.

Lemma utxos_sorted us : StronglySorted newer_utxo (Stable Utxos_Less us).
Proof.
  apply (Stable_sorted Utxos_Less newer_utxo); unfold Utxos_Less, newer_utxo; intros u v; rewrite ?Z.leb_le, ?Z.leb_gt; lia.
Qed.

(** Newest block first, in a block the transactions that spend first. *)
Definition txid_before (a b : XpubTxid.t) : Prop :=
  XpubTxid.height b < XpubTxid.height a \/
  XpubTxid.height a = XpubTxid.height b /\
  Z.land (XpubTxid.inputOutput b) txInput <= Z.land (XpubTxid.inputOutput a) txInput.
#[global] Instance txid_before_trans : Transitive txid_before.
Proof. intros a b c. unfold txid_before. lia. Qed.

Lemma Less_before a b : XpubTxid.Less a b = true <-> txid_before a b.
Proof.
  unfold XpubTxid.Less, txid_before. destruct (Z.eqb_spec (XpubTxid.height a) (XpubTxid.height b));
    rewrite ?Z.leb_le, ?Z.ltb_lt; lia.
Qed.

Lemma Less_total a b : XpubTxid.Less a b = false -> XpubTxid.Less b a = true.
Proof.
  unfold XpubTxid.Less. rewrite (Z.eqb_sym (XpubTxid.height b)).
  destruct (Z.eqb_spec (XpubTxid.height a) (XpubTxid.height b)); rewrite ?Z.leb_le, ?Z.leb_gt, ?Z.ltb_lt, ?Z.ltb_ge; lia.
Qed.

Lemma txids_sorted l : StronglySorted txid_before (Stable XpubTxid.Less l).
Proof.
  apply (Stable_sorted XpubTxid.Less txid_before); [by intros a b ?%Less_before|].
  by intros a b ?%Less_total%Less_before.
Qed.

(** ** The data of a key *)

Section key.
Context `{SL : StoreLaws} `{PL : ParserLaws} `{VL : VlqLaws} `{SCL : ScriptLaws} `{J : StateJson}.
Context `{R : BlockChain} `{E : EthLib} `{C : ApiChain} `{X : XpubParser}.
Context (cacheEnabled : bool) (now : Z) (m : BaseMempool).
(** The addresses of the two branches and their balances. *)
Context (d : RocksDB) (desc : Z -> nat -> bytes) (bal : Z -> nat -> option AddrBalance).
Context (Hbal : forall c i, GetAddrDescBalance d (desc c i) DetailUTXO = Ret (bal c i)).
Context (xpub : string) (HD0 : derives (desc 0) xpub 0) (HD1 : derives (desc 1) xpub 1).
(** The addresses from [N] on are not used. *)
Context (N : nat) (HN : forall c i, is_Some (bal c i) -> (i < N)%nat).

(** The data of a key after a scan: [n0] and [n1] addresses of the branches. *)
Record key_data (gap : Z) (n0 n1 : nat) (data : xpubData) : Prop := {
  kd_gap0 : Z.of_nat (lastUsed (bal 0) n0) + gap <= Z.of_nat n0;
  kd_gap1 : Z.of_nat (lastUsed (bal 1) n1) + gap <= Z.of_nat n1;
  kd_addrs0 : map (fun ad => (xa_addrDesc ad, xa_balance ad)) (xd_addresses data) =
              map (fun i => (desc 0 i, bal 0 i)) (seq 0 n0);
  kd_addrs1 : map (fun ad => (xa_addrDesc ad, xa_balance ad)) (xd_changeAddresses data) =
              map (fun i => (desc 1 i, bal 1 i)) (seq 0 n1);
  kd_balance : xd_balanceSat data = total (bal 0) BalanceSat n0 + total (bal 1) BalanceSat n1;
  kd_sent : xd_sentSat data = total (bal 0) SentSat n0 + total (bal 1) SentSat n1;
}.

Definition derivedFrom (c : Z) (addresses : list xpubAddress) : Prop :=
  map xa_addrDesc addresses = map (desc c) (seq 0 (length addresses)) /\ Z.of_nat (length addresses) < 2 ^ 32.

Lemma scanBoth_spec fuel gap fork data :
  0 < gap -> Z.of_nat N + gap < 2 ^ 32 -> (N < fuel)%nat ->
  derivedFrom 0 (xd_addresses data) -> derivedFrom 1 (xd_changeAddresses data) ->
  xd_balanceSat data = 0 -> xd_sentSat data = 0 ->
  exists n0 n1 data', scanBoth fuel d xpub gap fork data = Ret (Some data') /\ key_data gap n0 n1 data' /\
    xd_basePath data' = xd_basePath data /\ xd_dataHeight data' = xd_dataHeight data /\ xd_dataHash data' = xd_dataHash data.
Proof using Hbal HD0 HD1 HN.
  intros Hg HNg Hf [Ha Hla] [Hc Hlc] Hb Hs. unfold scanBoth.
  destruct (xpubScanAddresses_spec d (desc 0) (bal 0) (Hbal 0) N gap xpub 0 0 data HD0 (HN 0) Hg HNg ltac:(lia)
    fuel (xd_addresses data) fork Ha Hf Hla) as (n0 & [[data0 a0] l0] & -> & Sc0 & _ & G0 & L0). gostep. cbn iota beta.
  pose proof (sc_frame _ _ _ _ _ Sc0) as F0. simpl in F0. injection F0 as F1 F2 F3 F4 F5 F6 F7.
  pose proof (sc_last _ _ _ _ _ Sc0) as Hl0. simpl in Hl0. pose proof (lastUsed_le (bal 0) n0).
  destruct (xpubScanAddresses_spec d (desc 1) (bal 1) (Hbal 1) N gap xpub 1 l0 data0 HD1 (HN 1) Hg HNg ltac:(lia)
    fuel (xd_changeAddresses data0) fork ltac:(by rewrite F7) Hf ltac:(by rewrite F7))
    as (n1 & [[data1 a1] l1] & -> & Sc1 & _ & G1 & L1). gostep. cbn iota beta.
  pose proof (sc_frame _ _ _ _ _ Sc1) as F'. simpl in F'. injection F' as F1' F2' F3' F4' F5' F6' F7'.
  exists n0, n1, (set_xd_addresses a0 a1 data1). split; [done|].
  pose proof (sc_balance _ _ _ _ _ Sc0). pose proof (sc_balance _ _ _ _ _ Sc1).
  pose proof (sc_sent _ _ _ _ _ Sc0). pose proof (sc_sent _ _ _ _ _ Sc1). simpl in *.
  split; [|simpl; by rewrite F3', F4', F5'].
  split; simpl; [done|done|exact (sc_addrs _ _ _ _ _ Sc0)|exact (sc_addrs _ _ _ _ _ Sc1)|lia|lia].
Qed.

(** A key that is not in the cache, while the database does not change. *)
Lemma getXpubData_fresh order fuel turns option_ gap cache bestheight hash :
  GetChainType = ChainBitcoinType -> zlen (String.list_ascii_of_string xpub) = xpubLen -> cache !! xpub = None ->
  DerivationBasePath xpub <> Panic -> GetBestBlock d = Ret (bestheight, hash) -> 0 < bestheight -> hash <> EmptyString ->
  Z.of_nat N + limitGap gap < 2 ^ 32 -> (N < fuel)%nat -> option_ < AccountDetailsTxidHistory ->
  exists n0 n1 data, key_data (limitGap gap) n0 n1 data /\
    getXpubData now m order fuel (d :: d :: turns) xpub option_ gap cache =
    (storeXpubData now order xpub data cache, Ret (Some (data, bestheight))).
Proof using Hbal HD0 HD1 HN.
  intros Hct Hlen Hc Hp Hb H0 Hh HNg Hf Ho. unfold getXpubData.
  rewrite bool_decide_true, Hlen, Z.eqb_refl, Hc by done. cbn [negb orb xpubLoop]. rewrite Hb. cbn [annotate go_bind].
  rewrite decide_False by done.
  assert (exists p, (match DerivationBasePath xpub with Fail _ => Ret "unknown"%string | r => r end) = Ret p) as [p Hpath]
    by (destruct (DerivationBasePath xpub); eauto; done).
  assert (0 < limitGap gap) as Hg.
  { unfold limitGap, defaultAddressesGap, maxAddressesGap. destruct (Z.leb_spec gap 0); [lia|]. destruct (10000 <? gap); lia. }
  unfold xpubTurn. cbn [negb orb]. rewrite Hpath. cbn [go_bind newXpubData xd_dataHeight].
  destruct (Z.ltb_spec 0 bestheight); [|lia]. cbn [orb].
  destruct (scanBoth_spec fuel (limitGap gap) false (reset_sums bestheight hash (newXpubData (limitGap gap) p)))
    as (n0 & n1 & data & -> & HK & _); [done|done|done|split; done|split; done|done|done|].
  gostep. cbn iota beta. destruct (Z.leb_spec AccountDetailsTxidHistory option_); [lia|]. gostep.
  rewrite decide_True by done.
  exists n0, n1, (set_xd_accessed now data). split; [|done].
  destruct HK as [? ? ? ? ? ?]. split; done.
Qed.

(** ** The answers for a key *)

(** The utxos of every balance are unspent, have ids of the right length and add up to the balance. *)
Definition sound_balance (b : AddrBalance) : Prop :=
  Forall (fun u => zlen (Utxo.BtxID u) = PackedTxidLen) (Utxos b) /\ unspent_utxos (Utxos b) = Utxos b /\
  BalanceSat b = unspent_sum (Utxos b).

Definition addressOf (ad : bytes) : string :=
  match GetAddressesFromAddrDesc ad with Ret (a, _) => default EmptyString (head a) | _ => EmptyString end.

(** The utxos of a derived address as the API shows them. *)
Definition shownUtxos (basePath : string) (bestheight : Z) (x : Z * Z * xpubAddress) : list AUtxo.t :=
  map (set_owner (addressOf (xa_addrDesc x.2)) (xpubPath basePath x.1.1 x.1.2))
    (map (api_utxo bestheight) (reverse (from_option Utxos [] (xa_balance x.2)))).

Context (Hsound : forall c i b, bal c i = Some b -> sound_balance b).
Context (Haddr : forall c i, GetAddressesFromAddrDesc (desc c i) <> Panic).

(** The addresses of the data are the derived ones. *)
Lemma derived_elem (c c' i' : Z) n (l : list xpubAddress) ad :
  map (fun ad => (xa_addrDesc ad, xa_balance ad)) l = map (fun i => (desc c i, bal c i)) (seq 0 n) ->
  (c', i', ad) ∈ map (fun '(i, ad) => (c, Z.of_nat i, ad)) (enumerate l) ->
  exists i, c' = c /\ i' = Z.of_nat i /\ (i < n)%nat /\ xa_addrDesc ad = desc c i /\ xa_balance ad = bal c i.
Proof using Type.
  intros Hl ([i ad'] & [= -> -> ->] & Hi)%list_elem_of_fmap. apply enumerate_elem in Hi. exists i.
  apply (f_equal (fun l => l !! i)) in Hl. rewrite !list_lookup_fmap, Hi in Hl. simpl in Hl.
  destruct (decide (i < n)%nat); [|by rewrite lookup_seq_ge in Hl by lia].
  rewrite lookup_seq_lt in Hl by done. by injection Hl as -> ->.
Qed.

Lemma derived_covers (c : Z) n (l : list xpubAddress) i :
  map (fun ad => (xa_addrDesc ad, xa_balance ad)) l = map (fun i => (desc c i, bal c i)) (seq 0 n) -> (i < n)%nat ->
  exists ad, (c, Z.of_nat i, ad) ∈ map (fun '(i, ad) => (c, Z.of_nat i, ad)) (enumerate l) /\
    xa_addrDesc ad = desc c i /\ xa_balance ad = bal c i.
Proof using Type.
  intros Hl Hi. apply (f_equal (fun l => l !! i)) in Hl. rewrite !list_lookup_fmap, lookup_seq_lt in Hl by done.
  destruct (l !! i) as [ad|] eqn:E1; [|done]. injection Hl as H1 H2. exists ad. split; [|done].
  apply list_elem_of_fmap. exists (i, ad). split; [done|]. by apply enumerate_elem.
Qed.

Definition scannedAt (n0 n1 : nat) (c : Z) (i : nat) : Prop := (c = 0 /\ (i < n0)%nat) \/ (c = 1 /\ (i < n1)%nat).

Lemma key_data_elem gap n0 n1 data x : key_data gap n0 n1 data -> x ∈ xpubAddresses data ->
  exists c i, x.1 = (c, Z.of_nat i) /\ scannedAt n0 n1 c i /\ xa_addrDesc x.2 = desc c i /\ xa_balance x.2 = bal c i.
Proof using Type.
  intros HK. destruct x as [[c i] ad]. unfold xpubAddresses. rewrite elem_of_app. unfold scannedAt.
  intros [(k & -> & -> & ? & ?)%(derived_elem 0 c i n0)|(k & -> & -> & ? & ?)%(derived_elem 1 c i n1)];
    [|apply (kd_addrs0 _ _ _ _ HK)| |apply (kd_addrs1 _ _ _ _ HK)]; eauto 10.
Qed.

Lemma key_data_covers gap n0 n1 data c i : key_data gap n0 n1 data -> scannedAt n0 n1 c i ->
  exists ad, (c, Z.of_nat i, ad) ∈ xpubAddresses data /\ xa_addrDesc ad = desc c i /\ xa_balance ad = bal c i.
Proof using Type.
  intros HK [[-> Hi]|[-> Hi]]; unfold xpubAddresses; setoid_rewrite elem_of_app.
  - destruct (derived_covers 0 n0 _ i (kd_addrs0 _ _ _ _ HK) Hi) as (ad & H & ?). eauto.
  - destruct (derived_covers 1 n1 _ i (kd_addrs1 _ _ _ _ HK) Hi) as (ad & H & ?). eauto.
Qed.

Lemma getAddrDescUtxo_known ad b bestheight hash : GetBestBlock d = Ret (bestheight, hash) -> sound_balance b ->
  getAddrDescUtxo cacheEnabled now m ad (Some b) true false d = (d, Ret (map (api_utxo bestheight) (reverse (Utxos b)))).
Proof using SL PL VL SCL.
  intros Hb (Hlen & _). unfold getAddrDescUtxo, sbind, sget, slift, sret.
  destruct (Z.eqb_spec (zlen (Utxos b)) 0) as [E0|_]; [apply zlen_0_inv in E0; by rewrite E0|].
  rewrite Hb. rewrite indexUtxos_spec, none_spent by done. done.
Qed.

Lemma xpubUtxosOf_spec gap n0 n1 data x bestheight hash :
  key_data gap n0 n1 data -> GetBestBlock d = Ret (bestheight, hash) -> x ∈ xpubAddresses data ->
  xpubUtxosOf cacheEnabled now m data true x d = (d, Ret (shownUtxos (xd_basePath data) bestheight x)).
Proof using SL PL VL SCL Hsound Haddr.
  intros HK Hb Hx. destruct (key_data_elem _ _ _ _ _ HK Hx) as (c & i & _ & _ & Ha & Hx2).
  destruct x as [[ci k] ad]. simpl in *. unfold xpubUtxosOf, shownUtxos. cbn [fst snd].
  destruct (xa_balance ad) as [b|] eqn:Eb; [|done].
  rewrite bool_decide_true by eauto. cbn [negb andb]. unfold sbind.
  rewrite (getAddrDescUtxo_known _ _ bestheight hash) by (done || (eapply Hsound; by symmetry)). cbn [from_option].
  destruct (map (api_utxo bestheight) (reverse (Utxos b))) as [|u us] eqn:Eu; [done|]. rewrite <- Eu. clear Eu.
  unfold tokenFromXpubAddress, addressOf, slift. pose proof (Haddr c i) as Hnp. rewrite <- Ha in Hnp. rewrite Eb.
  by destruct (GetAddressesFromAddrDesc (xa_addrDesc ad)) as [[a s]| |].
Qed.

Lemma key_data_sum gap n0 n1 data : key_data gap n0 n1 data ->
  sumBy (fun x => from_option BalanceSat 0 (xa_balance x.2)) (xpubAddresses data) = xd_balanceSat data.
Proof using Type.
  intros HK. rewrite <- (sumBy_map (fun ad => from_option BalanceSat 0 (xa_balance ad)) snd), xpubAddresses_snd, sumBy_app.
  rewrite (kd_balance _ _ _ _ HK). unfold total. f_equal.
  - rewrite <- (sumBy_map (fun p => from_option BalanceSat 0 p.2) (fun ad => (xa_addrDesc ad, xa_balance ad))).
    rewrite (kd_addrs0 _ _ _ _ HK), sumBy_map. done.
  - rewrite <- (sumBy_map (fun p => from_option BalanceSat 0 p.2) (fun ad => (xa_addrDesc ad, xa_balance ad))).
    rewrite (kd_addrs1 _ _ _ _ HK), sumBy_map. done.
Qed.

Lemma shownUtxos_amounts gap n0 n1 data bestheight : key_data gap n0 n1 data ->
  amounts (concat (map (shownUtxos (xd_basePath data) bestheight) (xpubAddresses data))) = xd_balanceSat data.
Proof using Hsound.
  intros HK. rewrite amounts_concat, sumBy_map, <- (key_data_sum _ _ _ _ HK). apply sumBy_ext. intros x Hx.
  destruct (key_data_elem _ _ _ _ _ HK Hx) as (c & i & _ & _ & _ & Eb). unfold shownUtxos. rewrite amounts_owner, Eb.
  destruct (bal c i) as [b|] eqn:Eq; [|done]. destruct (Hsound _ _ _ Eq) as (_ & Hu & Hs).
  simpl. by rewrite amounts_reverse, Hs.
Qed.

(** The utxos shown are those of the addresses. *)
Lemma shownUtxos_elem gap n0 n1 data bestheight v : key_data gap n0 n1 data ->
  v ∈ concat (map (shownUtxos (xd_basePath data) bestheight) (xpubAddresses data)) <->
  exists c i u, scannedAt n0 n1 c i /\ u ∈ from_option Utxos [] (bal c i) /\
    v = set_owner (addressOf (desc c i)) (xpubPath (xd_basePath data) c (Z.of_nat i)) (api_utxo bestheight u).
Proof using Type.
  intros HK. rewrite list_elem_of_In, in_concat. setoid_rewrite in_map_iff. split.
  - intros (l & (x & <- & Hx%list_elem_of_In) & Hv%list_elem_of_In).
    destruct (key_data_elem _ _ _ _ _ HK Hx) as (c & i & Ex & Hs & Ea & Eb). unfold shownUtxos in Hv. rewrite Ex, Ea, Eb in Hv.
    apply list_elem_of_fmap in Hv as (w & -> & (u & -> & Hu)%list_elem_of_fmap). rewrite elem_of_reverse in Hu. eauto 10.
  - intros (c & i & u & Hs & Hu & ->). destruct (key_data_covers _ _ _ _ c i HK Hs) as (ad & Hx & Ea & Eb).
    eexists. split; [exists (c, Z.of_nat i, ad); split; [reflexivity|by apply list_elem_of_In]|].
    rewrite <- list_elem_of_In. unfold shownUtxos. simpl. rewrite Ea, Eb.
    apply list_elem_of_fmap_2, list_elem_of_fmap_2. by rewrite elem_of_reverse.
Qed.

(** What the default call answers for one address: with the mempool. *)
Definition defaultUtxos (data : xpubData) (x : Z * Z * xpubAddress) : list AUtxo.t :=
  match (xpubUtxosOf cacheEnabled now m data false x d).2 with Ret us => us | _ => [] end.

Lemma xpubUtxosOf_default gap n0 n1 data x bestheight hash :
  key_data gap n0 n1 data -> GetBestBlock d = Ret (bestheight, hash) ->
  (forall c i, lookups cacheEnabled now m d (desc c i)) -> x ∈ xpubAddresses data ->
  xpubUtxosOf cacheEnabled now m data false x d = (d, Ret (defaultUtxos data x)) /\
  forall v, v ∈ defaultUtxos data x <-> exists a,
    (shows_mempool cacheEnabled now m d (xa_addrDesc x.2) a \/
     shows_confirmed cacheEnabled now m bestheight d (xa_addrDesc x.2) (fun u => u ∈ from_option Utxos [] (xa_balance x.2)) a) /\
    v = set_owner (addressOf (xa_addrDesc x.2)) (xpubPath (xd_basePath data) x.1.1 x.1.2) a.
Proof using SL PL VL SCL Hsound Haddr.
  intros HK Hb Hlk Hx. destruct (key_data_elem _ _ _ _ _ HK Hx) as (c & i & _ & _ & Ha & Hx2).
  destruct x as [[ci k] ad]. cbn [fst snd] in *.
  pose proof (Haddr c i) as Hnp. pose proof (Hlk c i) as Hl. rewrite <- Ha in Hnp, Hl.
  destruct (getAddrDescUtxo_mempool cacheEnabled now m d (xa_addrDesc ad) (xa_balance ad)
    (negb (bool_decide (is_Some (xa_balance ad)))) bestheight hash Hb Hl) as (us & vs & _ & E1 & _ & Hu & Hv).
  { destruct (xa_balance ad) as [b|] eqn:Eb; [|constructor]. by destruct (Hsound c i b). }
  { intros ->. by left. }
  { intros [b ->]. done. }
  assert (xpubUtxosOf cacheEnabled now m data false (ci, k, ad) d =
    (d, Ret (map (set_owner (addressOf (xa_addrDesc ad)) (xpubPath (xd_basePath data) ci k)) (us ++ map (api_utxo bestheight) vs)))) as E'.
  { unfold xpubUtxosOf. rewrite andb_false_r. unfold sbind. rewrite E1.
    destruct (us ++ map (api_utxo bestheight) vs) as [|u l]; [done|].
    unfold tokenFromXpubAddress, addressOf, slift.
    by destruct (GetAddressesFromAddrDesc (xa_addrDesc ad)) as [[a s]| |], (xa_balance ad). }
  unfold defaultUtxos. rewrite E'. cbn [snd]. split; [done|]. intros v. rewrite list_elem_of_fmap. setoid_rewrite elem_of_app.
  setoid_rewrite Hu. setoid_rewrite Hv. cbn [fst snd]. naive_solver.
Qed.

(** [AccountDetailsBasic] makes no tokens. *)
Lemma xpubToken_basic data f l : forall n, exists n',
  go_fold (xpubToken data AccountDetailsBasic f) (n, [], ∅) l = Ret (n', [], ∅).
Proof using Type.
  induction l as [|[[ci i] ad] l IH]; intros n; [by exists n|]. cbn [go_fold]. unfold xpubToken at 2.
  change (AccountDetailsBasic <? AccountDetailsBasic) with false. cbv iota. gostep. apply IH.
Qed.

(** The balance in the answer is the sum over the scanned addresses. *)
Lemma xpubAnswer_balance (d1 d2 : RocksDB) data bestheight page n option_ f a :
  xpubAnswer cacheEnabled now m xpub data bestheight page n option_ f d1 = (d2, Ret a) ->
  Address.BalanceSat a = Some (xd_balanceSat data).
Proof using Type.
  intros H. unfold xpubAnswer in H. apply sbind_ret in H as (s1 & mm & _ & H).
  apply sbind_ret in H as (s2 & [[[pg txidsc] txsc] cnt] & _ & H).
  apply sbind_ret in H as (s3 & [[used tokens] names] & _ & H). by injection H as _ <-.
Qed.
End key.

(** ** The cache *)

Section cache.
Context (now : Z).

Abbreviation expired := (fun v => xd_accessed v + xpubCacheExpirationSeconds < now).

(** The cache after the items [l] were visited. *)
Lemma evict_visited (c0 : gmap string xpubData) l :
  let '(c, k, o) := foldl (evictOne now) (c0, EmptyString, maxInt64) l in
  c ⊆ c0 /\ (forall k v, (k, v) ∈ l -> expired v -> c !! k = None) /\
  ((exists v, (k, v) ∈ l /\ o = xd_accessed v) \/
   o = maxInt64 /\ forall k v, (k, v) ∈ l -> maxInt64 <= xd_accessed v).
Proof.
  induction l as [|[k v] l IH] using rev_ind; simpl.
  - split; [done|]. split; [by intros k v ?%not_elem_of_nil|]. right. split; [done|]. by intros k v ?%not_elem_of_nil.
  - rewrite foldl_snoc. destruct (foldl _ _ l) as [[c k0] o]. destruct IH as (Hc & He & Ho). unfold evictOne.
    set (c' := if xd_accessed v + xpubCacheExpirationSeconds <? now then delete k c else c).
    assert (c' ⊆ c /\ (expired v -> c' !! k = None)) as [Hc' Hk'].
    { unfold c'. destruct (Z.ltb_spec (xd_accessed v + xpubCacheExpirationSeconds) now); [|split; [done|lia]].
      split; [apply delete_subseteq|intros _; apply lookup_delete_eq]. }
    assert (forall k1 v1, (k1, v1) ∈ l ++ [(k, v)] -> expired v1 -> c' !! k1 = None) as He'.
    { intros k1 v1 [H|H%list_elem_of_singleton]%elem_of_app Hx; [|by injection H as -> ->; apply Hk'].
      eapply lookup_weaken_None; [by apply (He k1 v1)|done]. }
    destruct (Z.ltb_spec (xd_accessed v) o); (split; [by transitivity c|]); (split; [done|]).
    + left. exists v. split; [apply elem_of_app; right; by apply list_elem_of_singleton|done].
    + destruct Ho as [(v0 & Hv0 & ->)|[-> Ho]].
      * left. exists v0. split; [apply elem_of_app; by left|done].
      * right. split; [done|]. intros k1 v1 [H1|H1%list_elem_of_singleton]%elem_of_app; [by eapply Ho|by injection H1 as -> ->].
Qed.

(** Keys are not empty and the clock fits the smallest time the eviction starts with. *)
Definition cache_ok (cache : gmap string xpubData) : Prop :=
  Z.of_nat (size cache) <= xpubCacheSize /\
  forall k v, cache !! k = Some v -> k <> EmptyString /\ xd_accessed v < maxInt64.

(** An eviction removes at least one item. *)
Lemma evict_smaller order (cache : gmap string xpubData) : order ≡ₚ map_to_list cache -> cache <> ∅ ->
  (forall k v, cache !! k = Some v -> k <> EmptyString /\ xd_accessed v < maxInt64) ->
  evictXpubCacheItems now order cache ⊆ cache /\ (size (evictXpubCacheItems now order cache) < size cache)%nat.
Proof.
  intros Hord Hne Hok. unfold evictXpubCacheItems. pose proof (evict_visited cache order) as H.
  destruct (foldl _ _ order) as [[c k] o]. destruct H as (Hc & He & Ho).
  assert (forall k v, (k, v) ∈ order <-> cache !! k = Some v) as Hel by (intros; by rewrite Hord, elem_of_map_to_list).
  destruct Ho as [(v & Hv & ->)|[_ Ho]].
  2:{ apply map_choose in Hne as (k1 & v1 & H1). apply Hel in H1 as H2. apply Ho in H2. apply Hok in H1. lia. }
  apply Hel in Hv as Hv'. destruct (Hok k v Hv') as [Hk _]. rewrite bool_decide_false by done. cbn [negb andb].
  set (r := if now <=? xd_accessed v + xpubCacheExpirationSeconds then delete k c else c).
  assert (r ⊆ delete k cache) as Hr.
  { unfold r. destruct (Z.leb_spec now (xd_accessed v + xpubCacheExpirationSeconds)); [by apply delete_mono|].
    rewrite <- (delete_id c k) by (by apply (He k v)). by apply delete_mono. }
  split; [etransitivity; [exact Hr|apply delete_subseteq]|].
  apply map_subseteq_size in Hr. rewrite map_size_delete_Some in Hr by eauto.
  assert (size cache <> 0%nat) by (intros ?%map_size_empty_inv; done). lia.
Qed.

Lemma storeXpubData_ok order xpub data cache :
  (forall c, order c ≡ₚ map_to_list c) -> xpub <> EmptyString -> xd_accessed data < maxInt64 ->
  cache_ok cache -> cache_ok (storeXpubData now order xpub data cache).
Proof.
  intros Hord Hx Hd [Hs Hok]. unfold storeXpubData.
  set (c := if xpubCacheSize <=? Z.of_nat (size cache) then _ else cache).
  assert (c ⊆ cache /\ Z.of_nat (size c) < xpubCacheSize) as [Hc Hcs].
  { unfold c. destruct (Z.leb_spec xpubCacheSize (Z.of_nat (size cache))) as [Hle|]; [|done].
    destruct (evict_smaller (order cache) cache (Hord cache)) as [H1 H2]; [|done|].
    - intros ->. rewrite map_size_empty in Hle. unfold xpubCacheSize in Hle. lia.
    - split; [done|]. unfold xpubCacheSize in *. lia. }
  split.
  - rewrite map_size_insert. destruct (c !! xpub); cbn [id]; lia.
  - intros k v. rewrite lookup_insert_Some. intros [[<- <-]|[_ Hv]]; [done|]. apply Hok. by eapply lookup_weaken.
Qed.
End cache.

(** ** Histories *)

Lemma xpubCallback_append maxResults txs complete t h ix : zlen txs < maxResults ->
  xpubCallback maxResults (txs, complete) t h ix =
  ((txs ++ [XpubTxid.mk t h (foldl (fun io i => Z.lor io (ioOf i)) 0 ix)], complete), CbNext).
Proof. intros H. unfold xpubCallback. by destruct (Z.leb_spec maxResults (zlen txs)); [lia|]. Qed.

(** The entries of the calls of a search. *)
Definition txidsOf (calls : list (string * Z * list Z)) : list XpubTxid.t :=
  map (fun '(t, h, ix) => XpubTxid.mk t h (foldl (fun io i => Z.lor io (ioOf i)) 0 ix)) calls.

Lemma run_xpub calls : forall txs, zlen txs + zlen calls <= maxInt ->
  run_calls (xpubCallback maxInt) calls (txs, true) = ((txs ++ txidsOf calls, true), Ret true).
Proof.
  induction calls as [|[[t h] ix] calls IH]; intros txs Hl; cbn [run_calls]; [by rewrite app_nil_r|].
  rewrite zlen_cons in Hl. pose proof (zlen_nonneg calls). rewrite xpubCallback_append by lia.
  rewrite IH by (rewrite zlen_app; change (zlen [_]) with 1; lia). by rewrite <- app_assoc.
Qed.

Section histories.
Context `{SL : StoreLaws} `{PL : ParserLaws} `{VL : VlqLaws}.

(** A history of the upper heights before one of the lower heights. *)
Lemma history_app (m : kv) ad h0 h es1 es0 : -1 <= h0 <= h ->
  history m ad (h0 + 1) h es1 -> history m ad 0 h0 es0 -> history m ad 0 h (es1 ++ es0).
Proof.
  intros Hh (S1 & E1 & C1) (S0' & E0 & C0). split; [|split].
  - rewrite fmap_app. apply StronglySorted_app_2; [|done|done].
    intros x y ([? ?] & -> & H1)%list_elem_of_fmap ([? ?] & -> & H2)%list_elem_of_fmap. apply E1 in H1. apply E0 in H2. simpl. lia.
  - intros k txi [H|H]%elem_of_app; [apply E1 in H|apply E0 in H]; (split; [lia|apply H]).
  - intros k v Hk Hr Hv. setoid_rewrite elem_of_app. destruct (Z.le_gt_cases k h0) as [Hle|Hgt].
    + destruct (C0 k v Hk ltac:(lia) Hv) as (txi & ? & ?). eauto.
    + destruct (C1 k v Hk ltac:(lia) Hv) as (txi & ? & ?). eauto.
Qed.

Definition entries (es : list (Z * list txIndexes)) : list XpubTxid.t := txidsOf (concat (map calls_at es)).

(** The history of an address is loaded completely up to a height. *)
Definition loaded (m : kv) (ad : xpubAddress) : Prop :=
  xa_complete ad = true /\ -1 <= xa_maxHeight ad /\
  exists es, history m (xa_addrDesc ad) 0 (xa_maxHeight ad) es /\ xa_txids ad = entries es.

Lemma xpubGetAddressTxids_spec (mp : BaseMempool) (d : RocksDB) s ad lower higher :
  db d = Some s -> ad <> [] -> addresses_column (contents s) -> isolated (contents s) ad -> in_u32 lower -> in_u32 higher ->
  exists es, history (contents s) ad lower higher es /\
    (zlen (entries es) <= maxInt -> xpubGetAddressTxids mp d ad false lower higher maxInt = Ret (entries es, true)).
Proof.
  intros Hd Had Hc Hi Hl Hh. unfold xpubGetAddressTxids.
  destruct (GetAddrDescTransactions_run (xpubCallback maxInt) d s ad lower higher ([], true)) as (es & Hes & ->); [done..|].
  exists es. split; [done|]. intros Hz. unfold entries, txidsOf, zlen in Hz. rewrite length_map in Hz.
  rewrite run_xpub by (rewrite zlen_nil; unfold zlen; lia). done.
Qed.
End histories.

(** ** The merged history *)

Section merge.
Context (f : AddressFilter).

(** The map has the transactions seen, with whether they were added. *)
Record merged (l : list XpubTxid.t) (s : gmap string bool * list XpubTxid.t) : Prop := {
  mg_once : NoDup (map XpubTxid.txid s.2);
  mg_added : forall t, s.1 !! t = Some true <-> t ∈ map XpubTxid.txid s.2;
  mg_seen : forall t, is_Some (s.1 !! t) <-> t ∈ map XpubTxid.txid l;
  mg_sound : forall x, x ∈ s.2 -> x ∈ l /\ passes f x = true;
  mg_complete : forall x, x ∈ l -> passes f x = true -> s.1 !! XpubTxid.txid x = Some true;
}.

Lemma elem_of_snoc {A} (l : list A) x y : y ∈ l ++ [x] <-> y ∈ l \/ y = x.
Proof. rewrite elem_of_app, list_elem_of_singleton. done. Qed.

Lemma map_snoc {A B} (g : A -> B) l x : map g (l ++ [x]) = map g l ++ [g x].
Proof. by rewrite map_app. Qed.

Lemma mergeTxid_merged l s x : merged l s -> merged (l ++ [x]) (mergeTxid f s x).
Proof.
  destruct s as [m txc]. intros [Hnd Ht Hd Hin Hp]. simpl in *. unfold mergeTxid.
  destruct (default false (m !! XpubTxid.txid x)) eqn:E.
  - assert (m !! XpubTxid.txid x = Some true) as Ex by (destruct (m !! XpubTxid.txid x) as [[]|]; done).
    split; simpl; [done|done|..].
    + intros t. rewrite map_snoc, elem_of_snoc, <- Hd. split; [auto|]. intros [?| ->]; [done|]. eauto.
    + intros y Hy. rewrite elem_of_snoc. apply Hin in Hy as []. auto.
    + intros y [Hy| ->]%elem_of_snoc Hpy; auto.
  - assert (m !! XpubTxid.txid x <> Some true) as Ex by (intros Ex; by rewrite Ex in E).
    assert (forall t, is_Some (<[XpubTxid.txid x := passes f x]> m !! t) <-> t ∈ map XpubTxid.txid (l ++ [x])) as Hd'
      by (intros t; rewrite map_snoc, elem_of_snoc, lookup_insert_is_Some', Hd; naive_solver).
    destruct (passes f x) eqn:Epx; split; simpl; try done.
    + rewrite map_snoc. apply NoDup_app. split; [done|]. split; [|apply NoDup_singleton].
      intros t Hx ->%list_elem_of_singleton. by apply Ht in Hx.
    + intros t. rewrite lookup_insert_Some, map_snoc, elem_of_snoc, <- Ht. naive_solver.
    + intros y Hy. rewrite elem_of_snoc in *. destruct Hy as [[]%Hin| ->]; auto.
    + intros y Hy Hpy. rewrite elem_of_snoc in Hy. apply lookup_insert_Some. destruct Hy as [Hy| ->]; [|auto].
      destruct (decide (XpubTxid.txid x = XpubTxid.txid y)); auto.
    + intros t. rewrite lookup_insert_Some, <- Ht. split; [by intros [[_ [=]]|[_ H]]|].
      intros H. right. split; [congruence|done].
    + intros y Hy. rewrite elem_of_snoc. apply Hin in Hy as []. auto.
    + intros y Hy Hpy. rewrite elem_of_snoc in Hy. destruct Hy as [Hy| ->]; [|congruence].
      rewrite lookup_insert_ne; [auto|]. intros Ee. rewrite Ee in Ex. auto.
Qed.

Lemma mergeTxids_merged data : merged (concat (map (fun x => xa_txids x.2) (xpubAddresses data))) (mergeTxids f data).
Proof.
  unfold mergeTxids. generalize (concat (map (fun x => xa_txids x.2) (xpubAddresses data))) as l.
  induction l as [|x l IH] using rev_ind; [|rewrite foldl_snoc; by apply mergeTxid_merged].
  split; simpl; [constructor|intros..]; rewrite ?lookup_empty, ?elem_of_nil in *; try done.
Qed.
End merge.

(** * Properties *)

Section properties.
Context `{SL : StoreLaws} `{PL : ParserLaws} `{VL : VlqLaws} `{SCL : ScriptLaws} `{J : StateJson}.
Context `{R : BlockChain} `{E : EthLib} `{C : ApiChain} `{X : XpubParser}.

(** A key the parser derives the addresses [desc] from, of which those from [N] on have
    no balance in the database. *)
Record keyOf (d : RocksDB) (xpub : string) (desc : Z -> nat -> bytes) (N : nat) : Prop := {
  ko_length : zlen (String.list_ascii_of_string xpub) = xpubLen;
  ko_receiving : derives (desc 0) xpub 0;
  ko_change : derives (desc 1) xpub 1;
  ko_path : DerivationBasePath xpub <> Panic;
  ko_address : forall c i, GetAddressesFromAddrDesc (desc c i) <> Panic;
  ko_used : forall c i b, GetAddrDescBalance d (desc c i) DetailUTXO = Ret (Some b) -> (i < N)%nat;
}.

(** The balances of a chain as the scan reads them. *)
Definition balanceOf (d : RocksDB) (ad : bytes) : option AddrBalance :=
  match GetAddrDescBalance d ad DetailUTXO with Ret r => r | _ => None end.

Lemma chain_balanceOf (d : RocksDB) blocks ad : reliable -> GetChainType = ChainBitcoinType -> chain d blocks ->
  GetAddrDescBalance d ad DetailUTXO = Ret (balanceOf d ad) /\
  (forall b, balanceOf d ad = Some b -> sound_balance b) /\
  (forall u, u ∈ from_option Utxos [] (balanceOf d ad) <-> stored_output d ad u).
Proof.
  intros Hrel Hct Hch. destruct (chain_ledger d blocks ad Hrel Hct Hch) as (r & Hr & Hb & Hown & _).
  pose proof (chain_clean d blocks Hrel Hct Hch ad r Hr) as Hcl.
  destruct (GetAddrDescBalance_details d ad r Hr) as (Hu & _ & Hlen). unfold balanceOf. rewrite Hu. split; [done|].
  destruct r as [ab|]; simpl in *; [|split; [done|]].
  - rewrite Hcl in Hown. split; [|done]. intros b [= <-]. split; [done|]. split; [done|]. exact Hb.
  - intros u. by rewrite <- Hown.
Qed.

(** C19: For a key that is not in the cache, whose addresses are used only up to some
    index, on an indexed chain that does not change during the call: the scan ends, with
    a gap of unused addresses behind the last used one in both branches.  Asked for
    confirmed outputs only, [GetXpubUtxo] returns exactly the unspent outputs of the
    scanned addresses, the newest first, and their sum is the balance [GetXpubAddress]
    has without details, whatever the filter.  By default it returns, the newest first,
    the outputs of the mempool that pay the scanned addresses, used or not, and are not
    spent in the mempool, and the confirmed outputs no transaction of the mempool of
    their address spends. *)
Theorem xpub_consistent cacheEnabled now m order fuel turns (d : RocksDB) blocks cache xpub desc N gap page n f bestheight hash :
  reliable -> GetChainType = ChainBitcoinType -> chain d blocks -> keyOf d xpub desc N ->
  cache !! xpub = None -> GetBestBlock d = Ret (bestheight, hash) -> 0 < bestheight -> hash <> EmptyString ->
  Z.of_nat N + limitGap gap < 2 ^ 32 -> (N < fuel)%nat -> f_OnlyConfirmed f = true ->
  (forall c i, lookups cacheEnabled now m d (desc c i)) ->
  exists n0 n1 basePath cache' us all a,
    (forall i, Z.of_nat n0 - limitGap gap < Z.of_nat i < Z.of_nat n0 -> balanceOf d (desc 0 i) = None) /\
    (forall i, Z.of_nat n1 - limitGap gap < Z.of_nat i < Z.of_nat n1 -> balanceOf d (desc 1 i) = None) /\
    GetXpubUtxo cacheEnabled now m order fuel (d :: d :: turns) xpub true gap (d, cache) = ((d, cache'), Ret (Some us)) /\
    GetXpubAddress cacheEnabled now m order fuel (d :: d :: turns) xpub page n AccountDetailsBasic f gap (d, cache) =
      ((d, cache'), Ret (Some a)) /\
    Address.BalanceSat a = Some (amounts us) /\
    (forall f' page' n' s' a', GetXpubAddress cacheEnabled now m order fuel (d :: d :: turns) xpub page' n' AccountDetailsBasic f'
       gap (d, cache) = (s', Ret (Some a')) -> Address.BalanceSat a' = Some (amounts us)) /\
    StronglySorted newer_utxo us /\
    (forall v, v ∈ us <-> exists c i u, scannedAt n0 n1 c i /\ stored_output d (desc c i) u /\
       v = set_owner (addressOf (desc c i)) (xpubPath basePath c (Z.of_nat i)) (api_utxo bestheight u)) /\
    GetXpubUtxo cacheEnabled now m order fuel (d :: d :: turns) xpub false gap (d, cache) = ((d, cache'), Ret (Some all)) /\
    StronglySorted newer_utxo all /\
    (forall v, v ∈ all <-> exists c i w, scannedAt n0 n1 c i /\
       (shows_mempool cacheEnabled now m d (desc c i) w \/
        shows_confirmed cacheEnabled now m bestheight d (desc c i) (stored_output d (desc c i)) w) /\
       v = set_owner (addressOf (desc c i)) (xpubPath basePath c (Z.of_nat i)) w).
Proof.
  intros Hrel Hct Hch [Klen Kder0 Kder1 Kpath Kaddr Kused] Hc Hb H0 Hh HNg Hf Hconf Hlk.
  pose (bal := fun c i => balanceOf d (desc c i)).
  assert (Hbal : forall c i, GetAddrDescBalance d (desc c i) DetailUTXO = Ret (bal c i))
    by (intros c i; by apply (chain_balanceOf d blocks)).
  assert (Hsound : forall c i b, bal c i = Some b -> sound_balance b)
    by (intros c i b Eb; by eapply (chain_balanceOf d blocks (desc c i))).
  assert (HN : forall c i, is_Some (bal c i) -> (i < N)%nat)
    by (intros c i [b Eb]; apply (Kused c i b); by rewrite Hbal, Eb).
  destruct (getXpubData_fresh now m d desc bal Hbal xpub Kder0 Kder1 N HN order fuel turns AccountDetailsBasic gap cache bestheight hash)
    as (n0 & n1 & data & HK & Edata); [done..|].
  pose proof (fun x => xpubUtxosOf_spec cacheEnabled now m d desc bal Hsound Kaddr _ _ _ data x bestheight hash HK Hb) as Hus.
  pose proof (fun x => xpubUtxosOf_default cacheEnabled now m d desc bal Hsound Kaddr _ _ _ data x bestheight hash HK Hb Hlk) as Hdef.
  destruct (xpubToken_basic data f (xpubAddresses data) 0) as [k Htok].
  assert (forall c i u, u ∈ from_option Utxos [] (bal c i) <-> stored_output d (desc c i) u) as Hst
    by (intros c i; by apply (chain_balanceOf d blocks)).
  exists n0, n1, (xd_basePath data), (storeXpubData now order xpub data cache).
  pose proof (kd_gap0 _ _ _ _ _ _ HK) as G0. pose proof (kd_gap1 _ _ _ _ _ _ HK) as G1.
  eexists _, _, _. split_and!.
  - intros i Hi. apply (lastUsed_unused (bal 0) n0). lia.
  - intros i Hi. apply (lastUsed_unused (bal 1) n1). lia.
  - unfold GetXpubUtxo, ofCache, ofXpub, sbind. cbn [fst snd]. rewrite Edata. cbn [fst snd].
    rewrite (smap_pure _ _ _ _ Hus). reflexivity.
  - unfold GetXpubAddress, ofCache, ofXpub, sbind. cbn [fst snd]. rewrite Edata. cbn [fst snd].
    unfold xpubAnswer. rewrite Hconf, andb_false_r. unfold sbind, sret, slift.
    change (AccountDetailsTxidHistory <=? AccountDetailsBasic) with false. cbv iota. rewrite Htok. reflexivity.
  - cbn [Address.BalanceSat]. rewrite Stable_perm, (shownUtxos_amounts desc bal Hsound _ _ _ _ _ HK). done.
  - intros f' page' n' s' a' H. unfold GetXpubAddress, ofCache in H. apply sbind_ret in H as (s1 & r & H1 & H).
    cbn [fst snd] in H1. rewrite Edata in H1. injection H1 as <- <-. apply sbind_ret in H as (s2 & a2 & H2 & [= _ <-]).
    rewrite Stable_perm, (shownUtxos_amounts desc bal Hsound _ _ _ _ _ HK).
    unfold ofXpub in H2. destruct (xpubAnswer _ _ _ _ _ _ _ _ _ _ _) as [d2 r2] eqn:E2. injection H2 as _ ->.
    by eapply xpubAnswer_balance.
  - apply utxos_sorted.
  - intros v. rewrite Stable_perm, (shownUtxos_elem desc bal _ _ _ _ _ _ HK).
    by setoid_rewrite Hst.
  - unfold GetXpubUtxo, ofCache, ofXpub, sbind. cbn [fst snd]. rewrite Edata. cbn [fst snd].
    rewrite (smap_pure _ (defaultUtxos cacheEnabled now m d data) _ _ (fun x Hx => proj1 (Hdef x Hx))). reflexivity.
  - apply utxos_sorted.
  - intros v. rewrite Stable_perm, elem_of_concat_map. split.
    + intros (x & Hx & Hv). destruct (key_data_elem desc bal _ _ _ _ _ HK Hx) as (c & i & Ex & Hs & Ea & Eb).
      apply (proj2 (Hdef x Hx)) in Hv as (w & Hw & ->). rewrite Ex, Ea, Eb in *. exists c, i, w. split; [done|]. split; [|done].
      destruct Hw as [Hw|(u & Hu & Hw)]; [by left|right; exists u; split; [by apply Hst|done]].
    + intros (c & i & w & Hs & Hw & ->). destruct (key_data_covers desc bal _ _ _ _ c i HK Hs) as (ad & Hx & Ea & Eb).
      exists (c, Z.of_nat i, ad). split; [done|]. apply (proj2 (Hdef _ Hx)). cbn [fst snd]. rewrite Ea, Eb.
      exists w. split; [|done]. destruct Hw as [Hw|(u & Hu & Hw)]; [by left|right; exists u; split; [by apply Hst|done]].
Qed.

(** Loading a history in steps is loading it at once: an address whose history is
    loaded up to a height has, after the rest was added, its complete history up to the
    new height; an address that is not loaded gets it from the start. *)
Theorem xpubCheckAndLoadTxids_loaded m (d : RocksDB) s ad b h :
  db d = Some s -> xa_addrDesc ad <> [] -> addresses_column (contents s) -> isolated (contents s) (xa_addrDesc ad) ->
  in_u32 h -> xa_balance ad = Some b ->
  (xa_complete ad = true -> loaded (contents s) ad /\ xa_maxHeight ad < h /\ Txs b <> xa_txs ad) ->
  (forall es, history (contents s) (xa_addrDesc ad) 0 h es -> zlen (entries es) <= maxInt) ->
  exists r, xpubCheckAndLoadTxids m d ad h = Ret r /\ loaded (contents s) r /\ xa_maxHeight r = h /\
    xa_txs r = u32 (zlen (xa_txids r)).
Proof.
  intros Hd Had Hcol Hiso Hh Hb Hl Hz. unfold xpubCheckAndLoadTxids. rewrite Hb. destruct (xa_complete ad) eqn:Ec.
  - destruct Hl as ((_ & Hm & es0 & He0 & Et) & Hlt & Htx); [done|]. destruct (Z.eqb_spec (Txs b) (xa_txs ad)); [done|].
    rewrite u32_id by (unfold in_u32 in *; lia).
    destruct (xpubGetAddressTxids_spec m d s (xa_addrDesc ad) (xa_maxHeight ad + 1) h) as (es & He & E');
      [done..|unfold in_u32 in *; lia|done|].
    assert (history (contents s) (xa_addrDesc ad) 0 h (es ++ es0)) as Hes by (apply (history_app _ _ (xa_maxHeight ad)); [lia|done..]).
    assert (entries (es ++ es0) = entries es ++ entries es0) as Ee
      by (unfold entries, txidsOf; by rewrite map_app, concat_app, map_app).
    pose proof (Hz _ Hes) as Hlen. rewrite Ee, zlen_app in Hlen. pose proof (zlen_nonneg (entries es0)).
    rewrite E' by lia. gostep. eexists. split; [reflexivity|]. split; [|done].
    split; [done|]. split; [simpl; unfold in_u32 in Hh; lia|]. exists (es ++ es0). simpl. by rewrite Ee, Et.
  - destruct (xpubGetAddressTxids_spec m d s (xa_addrDesc ad) 0 h) as (es & He & E'); [done..|].
    rewrite E' by (by apply Hz). gostep. eexists. split; [reflexivity|]. split; [|done].
    split; [done|]. split; [simpl; unfold in_u32 in Hh; lia|]. by exists es.
Qed.

(** The cache of keys never has more than [xpubCacheSize] items, whatever the order in
    which the eviction visits them and however the request ends. *)
Theorem getXpubData_cache_bound now m order fuel turns xpub option_ gap cache :
  (forall c, order c ≡ₚ map_to_list c) -> now < maxInt64 -> cache_ok cache ->
  cache_ok (getXpubData now m order fuel turns xpub option_ gap cache).1.
Proof.
  intros Hord Hnow Hok. unfold getXpubData.
  destruct (zlen (String.list_ascii_of_string xpub) =? xpubLen) eqn:El; [|by rewrite orb_true_r].
  destruct (negb (bool_decide (GetChainType = ChainBitcoinType))); [done|]. cbn [negb orb].
  destruct (match cache !! xpub with Some data => (data, true) | None => _ end) as [data found].
  destruct (xpubLoop _ _ _ _ _ _ _ _ _) as [[[data' h]|]| |]; [|done..].
  apply storeXpubData_ok; [done| |done|done]. intros ->. vm_compute in El. discriminate.
Qed.

(** Two outpoints of one mempool transaction make the history of an address panic: the
    position that is stored for the transaction is one too low, and for the first
    transaction it is -1. *)
Theorem xpubGetAddressTxids_twice m (d : RocksDB) ad o1 o2 os from to maxResults :
  mempool_GetAddrDescTransactions m ad = o1 :: o2 :: os -> Outpoint.Txid o1 = Outpoint.Txid o2 -> 0 < maxResults ->
  xpubGetAddressTxids m d ad true from to maxResults = Panic.
Proof.
  intros Ho Et Hm. unfold xpubGetAddressTxids. rewrite Ho. cbn [go_fold].
  assert (xpubMempoolTxid maxResults (([], true), ∅) o1 =
    Ret (([XpubTxid.mk (Outpoint.Txid o1) 0 (Z.lor 0 (ioOf (Outpoint.Vout o1)))], true), {[Outpoint.Txid o1 := -1]})) as ->.
  { unfold xpubMempoolTxid. rewrite lookup_empty. cbn [fst]. rewrite xpubCallback_append by done. done. }
  gostep.
  assert (forall t, xpubMempoolTxid maxResults (t, {[Outpoint.Txid o1 := -1]}) o2 = Panic) as ->; [|done].
  intros t. unfold xpubMempoolTxid. by rewrite Et, lookup_singleton_eq.
Qed.

(** Equal heights come out reversed: [Less] of the utxos answers true on equal heights,
    so [sort.Stable] turns round the utxos of every height. *)
Theorem utxos_reversed us h :
  List.filter (fun u => utxoHeight u =? h) (Stable Utxos_Less us) =
  reverse (List.filter (fun u => utxoHeight u =? h) us).
Proof.
  destruct (List.filter (fun u => utxoHeight u =? h) us) as [|k l] eqn:E'.
  - pose proof (Stable_perm Utxos_Less us) as Hp. 
    destruct (List.filter (fun u => utxoHeight u =? h) (Stable Utxos_Less us)) as [|u l] eqn:E2; [done|].
    assert (In u []) as []. rewrite <- E'. apply filter_In.
    assert (In u (u :: l)) as Hu by (by left). rewrite <- E2 in Hu. apply filter_In in Hu as [Hu ?]. split; [|done].
    apply list_elem_of_In. rewrite <- Hp. by apply list_elem_of_In.
  - rewrite <- E'. assert (utxoHeight k = h) as Hk.
    { assert (In k (k :: l)) as H by (by left). rewrite <- E' in H. apply filter_In in H as [_ H]. by apply Z.eqb_eq in H. }
    assert (forall l, List.filter (fun u => utxoHeight u =? h) l = List.filter (equals Utxos_Less k) l) as He.
    { intros l'. apply filter_ext. intros u. unfold equals, Utxos_Less. rewrite Hk.
      destruct (Z.eqb_spec (utxoHeight u) h), (Z.leb_spec h (utxoHeight u)), (Z.leb_spec (utxoHeight u) h); done || lia. }
    rewrite !He. apply Stable_cls; unfold Utxos_Less; intros *; rewrite ?Z.leb_le, ?Z.leb_gt; lia.
Qed.

(** C20: The history of a key lists every transaction of its addresses that passes the
    filter once, the newest block first and in a block the transactions that spend
    first; the number of transactions counts all of them once. *)
Theorem xpub_history f data :
  let txids := concat (map (fun x => xa_txids x.2) (xpubAddresses data)) in
  let history := Stable XpubTxid.Less (mergeTxids f data).2 in
  StronglySorted txid_before history /\ NoDup (map XpubTxid.txid history) /\
  (forall t, t ∈ map XpubTxid.txid history <-> exists x, x ∈ txids /\ XpubTxid.txid x = t /\ passes f x = true) /\
  dom (mergeTxids f data).1 = list_to_set (map XpubTxid.txid txids).
Proof.
  intros txids history. pose proof (mergeTxids_merged f data) as [Hnd Ht Hd Hin Hp]. fold txids in Hd, Hin, Hp.
  assert (map XpubTxid.txid history ≡ₚ map XpubTxid.txid (mergeTxids f data).2) as Hperm
    by (unfold history; by rewrite Stable_perm).
  split; [apply txids_sorted|]. rewrite Hperm. split; [done|]. split.
  - intros t. rewrite Hperm. split.
    + intros (x & -> & Hx)%list_elem_of_fmap. apply Hin in Hx as []. eauto.
    + intros (x & Hx & <- & Hpx). by apply Ht, Hp.
  - apply set_eq. intros t. rewrite elem_of_dom, Hd. by rewrite elem_of_list_to_set.
Qed.
End properties.

(** ** Concrete runs *)

(** A key whose first address has the outputs of block 7 to 76a9. *)
Definition desc76 (c : Z) (i : nat) : bytes :=
  match c, i with 0, O => [Byte.x76; Byte.xa9] | _, _ => [] end.

Definition plain_xpub : XpubParser := {|
  DerivationBasePath _ := Ret "m/44'/0'/0'"%string;
  DeriveFromTo _ c from to := Ret (map (desc76 c) (seq (Z.to_nat from) (Z.to_nat (to - from))));
|}.

Definition key76 : string := String.string_of_list_ascii (repeat Ascii.Space 111).

Definition db7 : RocksDB := (ConnectBlock (P := plain_parser) (V := leb) 77 block7 (open_db ∅)).1.

Lemma db7_chain : chain (P := plain_parser) (V := leb) db7 ([] ++ [block7]).
Proof.
  refine (chain_connect (open_db ∅) db7 [] 77 block7 [id1; id2] _ block7_connectable _).
  - refine (chain_new (open_db ∅) ∅ (newInternalState "Bitcoin") eq_refl eq_refl eq_refl).
  - destruct block7_run as [d Er]. unfold db7. by rewrite Er.
Qed.

Lemma desc76_cases c i : c = 0 /\ i = O \/ desc76 c i = [].
Proof. destruct c, i; auto. Qed.

Lemma key76_of : keyOf (P := plain_parser) (V := leb) (X := plain_xpub) db7 key76 desc76 1.
Proof.
  split; [vm_compute; reflexivity|by intros from to|by intros from to|discriminate|..]; intros c i;
    destruct (desc76_cases c i) as [[-> ->]| ->]; try (vm_compute; discriminate).
  intros _ _. lia.
Qed.

Definition confirmedOnly : AddressFilter := mkFilter AddressFilterVoutOff EmptyString 0 0 TokensToReturnUsed true.

Lemma key76_lookups c i :
  lookups (P := plain_parser) (V := leb) (R := respend_chain) false 77 respend_mempool db7 (desc76 c i).
Proof.
  destruct (desc76_cases c i) as [[-> ->]| ->]; [apply respend_lookups|].
  split; intros o; (intros tx Ho || intros Ho); vm_compute in Ho; by apply not_elem_of_nil in Ho.
Qed.

Lemma xpub_consistent_witness :
  exists cache us all a,
    GetXpubUtxo (P := plain_parser) (V := leb) (R := respend_chain) (X := plain_xpub) false 77 respend_mempool map_to_list 2
      [db7; db7] key76 true 5 (db7, ∅) = ((db7, cache), Ret (Some us)) /\
    GetXpubAddress (P := plain_parser) (V := leb) (R := respend_chain) (C := plain_api) (X := plain_xpub) false 77 respend_mempool
      map_to_list 2 [db7; db7] key76 1 10 AccountDetailsBasic confirmedOnly 5 (db7, ∅) = ((db7, cache), Ret (Some a)) /\
    Address.BalanceSat a = Some (amounts us) /\
    GetXpubUtxo (P := plain_parser) (V := leb) (R := respend_chain) (X := plain_xpub) false 77 respend_mempool map_to_list 2
      [db7; db7] key76 false 5 (db7, ∅) = ((db7, cache), Ret (Some all)).
Proof.
  destruct (xpub_consistent (P := plain_parser) (V := leb) (R := respend_chain) (C := plain_api) (X := plain_xpub) false 77
    respend_mempool map_to_list 2 [] db7 ([] ++ [block7]) ∅ key76 desc76 1 5 1 10 confirmedOnly 7 (Block.Hash block7)
    mem_store_reliable eq_refl db7_chain key76_of (lookup_empty key76))
    as (n0 & n1 & base & cache & us & all & a & _ & _ & H1 & H2 & H3 & _ & _ & _ & H4 & _).
  - vm_compute. reflexivity.
  - reflexivity.
  - discriminate.
  - reflexivity.
  - auto.
  - reflexivity.
  - exact key76_lookups.
  - exists cache, us, all, a. split; [exact H1|]. split; [exact H2|]. split; [exact H3|exact H4].
Defined.

(** The history of the address of [one_tx], first up to height 3, then up to 9. *)
Lemma one_tx_height h v : in_u32 h -> one_tx desc1 !! (cfAddresses, packAddressKey desc1 h) = Some v ->
  h = 5 /\ v = packTxIndexes (V := leb) [mkTxIndexes txid1 [0; -1]].
Proof.
  intros Hh [E' Ev]%one_tx_lookup. split; [|done].
  apply (f_equal unpackAddressKey) in E'. rewrite !packAddressKey_unpack in E' by done. by injection E'.
Qed.

(** Its history has at most as many entries as the stored value has bytes. *)
Lemma one_tx_entries es h : h < 2 ^ 32 -> history (P := plain_parser) (V := leb) (one_tx desc1) desc1 0 h es ->
  zlen (entries (P := plain_parser) es) <= maxInt.
Proof.
  intros Hh (Hs & He & _).
  assert (forall x, x ∈ es -> x.1 = 5 /\ zlen x.2 <= 100) as H.
  { intros [k txi] Hx. apply He in Hx as (Hr & Hm & Hw). apply one_tx_height in Hm as [-> Hv]; [|unfold in_u32; lia].
    split; [done|].
    apply Forall_reverse, (pack_one_length (P := plain_parser) (V := leb)) in Hw.
    change (concat (map pack_one (reverse txi))) with (packTxIndexes (V := leb) txi) in Hw. rewrite Hv, length_reverse in Hw.
    vm_compute (length (packTxIndexes _)) in Hw. unfold zlen. simpl. lia. }
  destruct es as [|x [|y es]].
  - by vm_compute.
  - destruct (H x) as [_ Hx]; [by constructor|]. unfold entries, txidsOf, zlen in *. cbn [map concat].
    rewrite app_nil_r, length_map. unfold calls_at. rewrite length_map, length_reverse. unfold maxInt. lia.
  - exfalso. rewrite !fmap_cons, !StronglySorted_cons, Forall_cons in Hs. 
    destruct (H x), (H y); [by repeat constructor..|]. lia.
Qed.

Lemma xpubCheckAndLoadTxids_loaded_witness :
  exists r, xpubCheckAndLoadTxids (P := plain_parser) (V := leb) emptyMempool (open_db (one_tx desc1))
      (mkXpubAddress desc1 (Some (set_Txs 1 emptyBalance)) 0 3 true []) 9 = Ret r /\
    loaded (P := plain_parser) (V := leb) (one_tx desc1) r.
Proof.
  destruct (xpubCheckAndLoadTxids_loaded (P := plain_parser) (V := leb) emptyMempool (open_db (one_tx desc1)) (one_tx desc1)
    (mkXpubAddress desc1 (Some (set_Txs 1 emptyBalance)) 0 3 true []) (set_Txs 1 emptyBalance) 9 eq_refl)
    as (r & H1 & H2 & _).
  - discriminate.
  - exact one_tx_column.
  - exact one_tx_isolated.
  - split; [discriminate|reflexivity].
  - reflexivity.
  - intros _. split; [|split; [reflexivity|discriminate]].
    split; [reflexivity|]. split; [discriminate|]. exists []. split; [|reflexivity].
    split; [constructor|]. split; [by intros h txi ?%not_elem_of_nil|].
    intros h v Hh Hr [-> _]%one_tx_height; [|done]. simpl in Hr. lia.
  - intros es Hes. apply (one_tx_entries es 9); [reflexivity|exact Hes].
  - exists r. split; [exact H1|exact H2].
Defined.

Lemma getXpubData_cache_bound_witness :
  cache_ok (getXpubData (P := plain_parser) (V := leb) (X := plain_xpub) 77 emptyMempool map_to_list 2 [db7; db7] key76
    AccountDetailsBasic 5 ∅).1.
Proof.
  refine (getXpubData_cache_bound (P := plain_parser) (V := leb) (X := plain_xpub) 77 emptyMempool map_to_list 2 [db7; db7]
    key76 AccountDetailsBasic 5 ∅ _ _ _); [done|done|]. split; [vm_compute; discriminate|]. by intros k v ?%lookup_empty_Some.
Defined.

Lemma xpubGetAddressTxids_twice_witness :
  let m := mkMempool ∅ {[desc1 := [Outpoint.mk "aa" 0; Outpoint.mk "aa" (-1)]]} in
  xpubGetAddressTxids (P := plain_parser) (V := leb) m (open_db ∅) desc1 true 0 0 maxInt = Panic.
Proof.
  intros m. refine (xpubGetAddressTxids_twice (P := plain_parser) (V := leb) m (open_db ∅) desc1
    (Outpoint.mk "aa" (-1)) (Outpoint.mk "aa" 0) [] 0 0 maxInt _ eq_refl eq_refl). vm_compute. reflexivity.
Defined.
