(* ===== verification/Websocket.v ===== *)
(** The websocket server ([server/websocket.go]): the requests of the clients, their
    subscriptions and the notifications about new blocks and transactions.

    [inputLoop] and [outputLoop] are the goroutines that read and write a connection.  The messages a client gets are the list [c_out]; that its buffer has room for
    [outChannelSize] messages and a sender waits for more is left out, as are metrics and
    logs.  [json.Unmarshal] of the parameters is the class [WsJson]; what the daemon is
    asked for besides is [WsChain].  A request runs in one piece, but it may be served after its
    channel was closed, and a channel is closed in two pieces.  A notification runs in one
    piece in [OnNewBlock] and, in [notifyStep], channel by channel with the steps of other
    goroutines between; what two goroutines can do to each other through their locks is
    shown at the end. *)
From stdpp Require Import base list gmap strings relations.
From Stdlib Require Import ZArith Lia.
From S2P Require Import Prelude Types Store Vlq Codec InternalState AddrBalance TxAddresses RocksDB.
From S2P Require Import BaseParser BitcoinParser EthParser BitcoinIndex EthIndex Connect ConnectFacts RocksDBFacts Mempool Sync.
From S2P Require Import ApiTypes Worker WorkerFacts Xpub XpubFacts.

Open Scope Z_scope.
Open Scope go_scope.

Definition txsOnPage : Z := 25.

(** ** Requests and answers *)

Module accountInfoReq.
Record t := mk {
  Descriptor : string;
  Details : string;
  Tokens : string;
  PageSize : Z;
  Page : Z;
  FromHeight : Z;
  ToHeight : Z;
  ContractFilter : string;
}.
End accountInfoReq.

(** A value of the map [specific]; a number is cut to its integer part. *)
Inductive jsonValue := JBool (b : bool) | JNumber (n : Z) | JOther.

Record estimateFeeReq := mkEstimateFeeReq { fr_Blocks : list Z; fr_Specific : gmap string jsonValue }.
Record estimateFeeRes := mkEstimateFeeRes { fe_FeePerTx : text; fe_FeePerUnit : text; fe_FeeLimit : text }.

Record websocketReq := mkReq { rq_ID : string; rq_Method : string; rq_Params : string }.

Inductive responseData :=
  | RError (message : string)
  | RSubscribed (subscribed : bool)
  | RNewBlock (height : Z) (hash : string)
  | RNewTx (address : string) (tx : ATx.t)
  | RInfo (name shortcut : string) (decimals bestHeight : Z) (bestHash block0Hash : string) (testnet : bool)
  | RHash (hash : string)
  | RAddress (a : Address.t)
  | RUtxos (us : list AUtxo.t)
  | RBlock (b : ABlock.t)
  | RTx (tx : ATx.t)
  | RSpecific (json : string)
  | RFees (fees : list estimateFeeRes)
  | RSent (txid : string).

Record websocketRes := mkRes { rs_ID : string; rs_Data : responseData }.

(** ** The server *)

(** A connection; [c_out] is nil once the channel is closed. *)
Record websocketChannel := mkChannel { c_alive : bool; c_out : option (list websocketRes) }.

Abbreviation channelId := Z (only parsing).

Record WebsocketServer := mkServer {
  ws_channels : gmap channelId websocketChannel;
  ws_newBlock : gmap channelId string;
  ws_address : gmap bytes (gmap channelId string);
}.

Definition NewWebsocketServer : WebsocketServer := mkServer ∅ ∅ ∅.

Definition set_channels (m : gmap channelId websocketChannel) (s : WebsocketServer) : WebsocketServer :=
  mkServer m (ws_newBlock s) (ws_address s).
Definition set_newBlock (m : gmap channelId string) (s : WebsocketServer) : WebsocketServer :=
  mkServer (ws_channels s) m (ws_address s).
Definition set_address (m : gmap bytes (gmap channelId string)) (s : WebsocketServer) : WebsocketServer :=
  mkServer (ws_channels s) (ws_newBlock s) m.

(** [ServeHTTP] after the upgrade of the connection *)
Definition connectChannel (c : channelId) (s : WebsocketServer) : WebsocketServer :=
  set_channels (<[c := mkChannel true (Some [])]> (ws_channels s)) s.

Definition IsAlive (s : WebsocketServer) (c : channelId) : bool :=
  match ws_channels s !! c with Some ch => c_alive ch | None => false end.

(** [c.out <- r]: a closed channel panics. *)
Definition send (c : channelId) (r : websocketRes) (s : WebsocketServer) : go WebsocketServer :=
  match ws_channels s !! c with
  | Some (mkChannel alive (Some out)) => Ret (set_channels (<[c := mkChannel alive (Some (out ++ [r]))]> (ws_channels s)) s)
  | _ => Panic
  end.

(** ** Subscriptions *)

Definition subscribeNewBlock (c : channelId) (id : string) (s : WebsocketServer) : WebsocketServer :=
  set_newBlock (<[c := id]> (ws_newBlock s)) s.

Definition unsubscribeNewBlock (c : channelId) (s : WebsocketServer) : WebsocketServer :=
  set_newBlock (delete c (ws_newBlock s)) s.

(** The channel is removed from the map of every address; the maps stay. *)
Definition unsubscribeAddresses (c : channelId) (s : WebsocketServer) : WebsocketServer :=
  set_address (delete c <$> ws_address s) s.

Definition subscribeAddress (c : channelId) (id : string) (m : gmap bytes (gmap channelId string)) (ad : bytes)
    : gmap bytes (gmap channelId string) :=
  <[ad := <[c := id]> (default ∅ (m !! ad))]> m.

Definition subscribeAddresses (c : channelId) (addrDesc : list bytes) (id : string) (s : WebsocketServer) : WebsocketServer :=
  let s := unsubscribeAddresses c s in
  set_address (foldl (subscribeAddress c id) (ws_address s) addrDesc) s.

Definition onDisconnect (c : channelId) (s : WebsocketServer) : WebsocketServer :=
  unsubscribeAddresses c (unsubscribeNewBlock c s).

(** What [closeChannel] does before it removes the subscriptions: nothing else can run between
    for the channel itself, but everything can that does not ask for its lock. *)
Definition shutChannel (c : channelId) (s : WebsocketServer) : WebsocketServer :=
  set_channels (<[c := mkChannel false None]> (ws_channels s)) s.

Definition closeChannel (c : channelId) (s : WebsocketServer) : WebsocketServer :=
  if IsAlive s c then onDisconnect c (shutChannel c s) else s.

(** *** The loops of a connection *)

(** What [ReadMessage] returns. *)
Inductive incoming := TextMessage (data : string) | BinaryMessage | PingMessage | CloseMessage | PongMessage | ReadError.

(** The requests that are handed to goroutines, and whether the loop goes on; a panic of the decoder is
    caught and closes the channel like an error. *)
Fixpoint inputLoop (unmarshal : string -> go websocketReq) (c : channelId) (l : list incoming) (s : WebsocketServer)
    : WebsocketServer * list websocketReq * bool :=
  match l with
  | [] => (s, [], true)
  | TextMessage d :: l' =>
      match unmarshal d with
      | Ret req => let '(s', reqs, reading) := inputLoop unmarshal c l' s in (s', req :: reqs, reading)
      | _ => (closeChannel c s, [], false)
      end
  | PingMessage :: l' | PongMessage :: l' => inputLoop unmarshal c l' s
  | ReadError :: _ | BinaryMessage :: _ | CloseMessage :: _ => (closeChannel c s, [], false)
  end.

(** The messages that are written; the first that cannot be written closes the channel, which
    drops those behind it. *)
Fixpoint writeAll (WriteJSON : websocketRes -> bool) (l : list websocketRes) : list websocketRes * bool :=
  match l with
  | [] => ([], true)
  | m :: l' => if WriteJSON m then let '(w, ok) := writeAll WriteJSON l' in (m :: w, ok) else ([], false)
  end.

Definition outputLoop (WriteJSON : websocketRes -> bool) (c : channelId) (s : WebsocketServer) : WebsocketServer * list websocketRes :=
  match ws_channels s !! c with
  | Some (mkChannel _ (Some out)) =>
      let '(written, ok) := writeAll WriteJSON out in
      (if ok then s else closeChannel c s, written)
  | _ => (s, [])
  end.

(** ** Notifications *)

(** A message to every subscriber that is alive, in the order the map is visited. *)
Definition broadcast (order : gmap channelId string -> list (channelId * string)) (subs : gmap channelId string)
    (data : responseData) (s : WebsocketServer) : go WebsocketServer :=
  go_fold (fun s '(c, id) => if IsAlive s c then send c (mkRes id data) s else Ret s) s (order subs).

Definition OnNewBlock (order : gmap channelId string -> list (channelId * string)) (hash : string) (height : Z)
    (s : WebsocketServer) : go WebsocketServer :=
  broadcast order (ws_newBlock s) (RNewBlock height hash) s.

(** What the handlers ask for besides the API. *)
Class WsChain := {
  EstimateSmartFee : Z -> bool -> go Z;
  EthereumTypeEstimateGas : gmap string jsonValue -> go Z;
  SendRawTransaction : string -> go string;
  IsTestnet : bool;
}.

Class WsJson := {
  unmarshalGetAccountInfoRequest : string -> go accountInfoReq.t;
  unmarshalHeight : string -> go Z;
  unmarshalId : string -> go string;
  unmarshalDescriptor : string -> go string;
  unmarshalTxid : string -> go string;
  unmarshalHex : string -> go string;
  unmarshalAddressList : string -> go (list string);
  unmarshalEstimateFee : string -> go estimateFeeReq;
}.

Section handlers.
Context `{DB : Store} `{P : BlockChainParser} `{V : Vlq} `{SC : ScriptLib} `{J : StateJson}
  `{R : BlockChain} `{E : EthLib} `{C : ApiChain} `{X : XpubParser} `{W : WsChain} `{WJ : WsJson}.
Context (cacheEnabled : bool) (now : Z) (mempool : BaseMempool) (block0hash : string).
(** The bounds of the calls for an extended public key, and the order of its cache. *)
Context (cacheOrder : gmap string xpubData -> list (string * xpubData)) (fuel : nat) (turns : list RocksDB).
Context (order : gmap channelId string -> list (channelId * string)).

Abbreviation handler := (sgo (RocksDB * gmap string xpubData)).

Definition OnNewTxAddr (tx : Tx.t) (addrDesc : bytes) (s : WebsocketServer) : sgo RocksDB WebsocketServer := fun d =>
  match ws_address s !! addrDesc with
  | None => (d, Ret s)
  | Some subs =>
      if bool_decide (subs = ∅) then (d, Ret s)
      else match GetAddressesFromAddrDesc addrDesc with
           | Panic => (d, Panic)
           | Ret ([address], _) =>
               match GetTransactionFromBchainTx cacheEnabled now mempool tx 0 false false d with
               | (d, Panic) => (d, Panic)
               | (d, Fail _) => (d, Ret s)
               | (d, Ret atx) => (d, broadcast order subs (RNewTx address atx) s)
               end
           | _ => (d, Ret s)
           end
  end.

(** ** Handlers *)

Definition accountDetails (details : string) : AccountDetails :=
  if String.eqb details "tokens" then AccountDetailsTokens
  else if String.eqb details "tokenBalances" then AccountDetailsTokenBalances
  else if String.eqb details "txids" then AccountDetailsTxidHistory
  else if String.eqb details "txs" then AccountDetailsTxHistory
  else AccountDetailsBasic.

Definition tokensToReturn (tokens : string) : TokensToReturn :=
  if String.eqb tokens "used" then TokensToReturnUsed
  else if String.eqb tokens "nonzero" then TokensToReturnNonzeroBalance
  else TokensToReturnDerived.

(** An extended public key is tried first, an error means it is an address. *)
Definition orAddress {A} (xpub : handler (option A)) (address : handler A) : handler (option A) := fun s =>
  match xpub s with
  | (s, Fail _) => (let! a := address in sret (Some a)) s
  | r => r
  end.

Definition getAccountInfo (req : accountInfoReq.t) : handler (option responseData) :=
  let opt := accountDetails (accountInfoReq.Details req) in
  let filter := mkFilter AddressFilterVoutOff (accountInfoReq.ContractFilter req) (u32 (accountInfoReq.FromHeight req))
                  (u32 (accountInfoReq.ToHeight req)) (tokensToReturn (accountInfoReq.Tokens req)) false in
  let pageSize := if accountInfoReq.PageSize req =? 0 then txsOnPage else accountInfoReq.PageSize req in
  let! a := orAddress
    (GetXpubAddress cacheEnabled now mempool cacheOrder fuel turns (accountInfoReq.Descriptor req)
       (accountInfoReq.Page req) pageSize opt filter 0)
    (ofXpub (GetAddress cacheEnabled now mempool (accountInfoReq.Descriptor req) (accountInfoReq.Page req) pageSize opt filter)) in
  sret (RAddress <$> a).

Definition getAccountUtxo (descriptor : string) : handler (option responseData) :=
  let! us := orAddress
    (GetXpubUtxo cacheEnabled now mempool cacheOrder fuel turns descriptor false 0)
    (ofXpub (GetAddressUtxo cacheEnabled now mempool descriptor false)) in
  sret (RUtxos <$> us).

Definition getInfo : handler responseData :=
  let! s := sget in
  let! '(height, hash) := slift (GetBestBlock s.1) in
  let! i := slift (must (istate s.1)) in
  sret (RInfo (Coin i) (CoinShortcut i) AmountDecimals height hash block0hash IsTestnet).

(** The fee of a transaction of a size, rounded to the nearest unit. *)
Definition feePerTx (fee txSize : Z) : Z := (fee * txSize + 500) / 1000.

Definition ethFee (gas : Z) (blocks : Z) : go estimateFeeRes :=
  let* fee := EstimateSmartFee blocks true in
  Ret (mkEstimateFeeRes (big_String (fee * gas)) (big_String fee) (big_String gas)).

Definition bitcoinFee (conservative : bool) (txSize blocks : Z) : go estimateFeeRes :=
  let* fee := EstimateSmartFee blocks conservative in
  Ret (mkEstimateFeeRes (if 0 <? txSize then big_String (feePerTx fee txSize) else []) (big_String fee) []).

Definition estimateFee (params : string) : go responseData :=
  let* r := unmarshalEstimateFee params in
  match GetChainType with
  | ChainEthereumType =>
      let* gas := EthereumTypeEstimateGas (fr_Specific r) in
      let* fees := go_map (ethFee gas) (fr_Blocks r) in
      Ret (RFees fees)
  | _ =>
      let conservative := match fr_Specific r !! "conservative"%string with Some (JBool b) => b | _ => true end in
      let txSize := match fr_Specific r !! "txsize"%string with Some (JNumber n) => n | _ => 0 end in
      let* fees := go_map (bitcoinFee conservative txSize) (fr_Blocks r) in
      Ret (RFees fees)
  end.

Definition unmarshalAddresses (params : string) : go (list bytes) :=
  let* addresses := unmarshalAddressList params in
  go_map GetAddrDescFromAddress addresses.

(** The methods, [None]: not a method.  The new subscriptions come with the answer;
    an answer [None] was not found within the bounds. *)
Definition requestHandler (c : channelId) (req : websocketReq) (ws : WebsocketServer)
    : option (handler (WebsocketServer * option responseData)) :=
  let keep (m : handler responseData) := let! r := m in sret (ws, Some r) in
  let keep' (m : handler (option responseData)) := let! r := m in sret (ws, r) in
  let method m := String.eqb (rq_Method req) m in
  let params := rq_Params req in
  if method "getAccountInfo" then Some (keep' (let! r := slift (unmarshalGetAccountInfoRequest params) in getAccountInfo r))
  else if method "getInfo" then Some (keep getInfo)
  else if method "getBlockHash" then
    Some (keep (let! h := slift (unmarshalHeight params) in let! s := sget in
                let! hash := slift (GetBlockHash s.1 (u32 h)) in sret (RHash hash)))
  else if method "getBlock" then
    Some (keep (let! id := slift (unmarshalId params) in
                let! b := ofXpub (api_GetBlock cacheEnabled now mempool id 0 100000) in sret (RBlock b)))
  else if method "getAccountUtxo" then Some (keep' (let! d := slift (unmarshalDescriptor params) in getAccountUtxo d))
  else if method "getTransaction" then
    Some (keep (let! t := slift (unmarshalTxid params) in
                let! tx := ofXpub (api_GetTransaction cacheEnabled now mempool t false false) in sret (RTx tx)))
  else if method "getTransactionSpecific" then
    Some (keep (let! t := slift (unmarshalTxid params) in
                let! j := slift (GetTransactionSpecific (Tx.mk EmptyString t 0 0 [] [] 0 0 0 [] [] 0 NoSpecificData)) in
                sret (RSpecific j)))
  else if method "estimateFee" then Some (keep (slift (estimateFee params)))
  else if method "sendTransaction" then
    Some (keep (let! h := slift (unmarshalHex params) in let! t := slift (SendRawTransaction h) in sret (RSent t)))
  else if method "subscribeNewBlock" then
    Some (sret (subscribeNewBlock c (rq_ID req) ws, Some (RSubscribed true)))
  else if method "unsubscribeNewBlock" then Some (sret (unsubscribeNewBlock c ws, Some (RSubscribed false)))
  else if method "subscribeAddresses" then
    Some (let! ads := slift (unmarshalAddresses params) in
          sret (subscribeAddresses c ads (rq_ID req) ws, Some (RSubscribed true)))
  else if method "unsubscribeAddresses" then Some (sret (unsubscribeAddresses c ws, Some (RSubscribed false)))
  else None.

(** [sendResponse]: the panic of a closed channel is caught. *)
Definition sendResponse (c : channelId) (req : websocketReq) (data : responseData) (ws : WebsocketServer) : WebsocketServer :=
  match send c (mkRes (rq_ID req) data) ws with Ret ws' => ws' | _ => ws end.

(** A request: the answer, the message of the error, or an internal error after a panic. *)
Definition onRequest (errorText : error -> string) (c : channelId) (req : websocketReq) (ws : WebsocketServer)
    (s : RocksDB * gmap string xpubData) : (RocksDB * gmap string xpubData) * option WebsocketServer :=
  match requestHandler c req ws with
  | None => (s, Some (sendResponse c req (RError "unknown method") ws))
  | Some h =>
      match h s with
      | (s, Ret (ws, Some data)) => (s, Some (sendResponse c req data ws))
      | (s, Ret (ws, None)) => (s, None)
      | (s, Fail e) => (s, Some (sendResponse c req (RError (errorText e)) ws))
      | (s, Panic) => (s, Some (sendResponse c req (RError "Internal error") ws))
      end
  end.
End handlers.

(** * Facts *)

(** The answers an open channel got. *)
Definition outOf (s : WebsocketServer) (c : channelId) : list websocketRes :=
  match ws_channels s !! c with Some (mkChannel _ (Some out)) => out | _ => [] end.

(** A channel that is alive has an open buffer. *)
Definition alive_open (s : WebsocketServer) : Prop :=
  forall c, IsAlive s c = true -> exists out, ws_channels s !! c = Some (mkChannel true (Some out)).

Lemma send_alive c r s : alive_open s -> IsAlive s c = true ->
  exists s', send c r s = Ret s' /\ alive_open s' /\ ws_newBlock s' = ws_newBlock s /\ ws_address s' = ws_address s /\
    (forall c', IsAlive s' c' = IsAlive s c') /\
    (forall c', outOf s' c' = if decide (c' = c) then outOf s c' ++ [r] else outOf s c').
Proof.
  intros Hok Ha. destruct (Hok c Ha) as [out Ho]. unfold send. rewrite Ho. eexists. split; [reflexivity|].
  assert (forall c', IsAlive (set_channels (<[c := mkChannel true (Some (out ++ [r]))]> (ws_channels s)) s) c' = IsAlive s c') as Hal.
  { intros c'. unfold IsAlive. simpl. destruct (decide (c' = c)) as [-> |]; [by rewrite lookup_insert_eq, Ho|by rewrite lookup_insert_ne]. }
  split; [|split; [done|split; [done|split; [done|]]]].
  - intros c' Ha'. rewrite Hal in Ha'. simpl. destruct (decide (c' = c)) as [-> |]; [rewrite lookup_insert_eq; eauto|].
    rewrite lookup_insert_ne by done. by apply Hok.
  - intros c'. unfold outOf. simpl. destruct (decide (c' = c)) as [-> |]; [by rewrite lookup_insert_eq, Ho|by rewrite lookup_insert_ne].
Qed.

(** A message to every subscriber of the list that is alive. *)
Lemma broadcast_list data l : forall s, alive_open s -> NoDup l.*1 ->
  exists s', go_fold (fun s '(c, id) => if IsAlive s c then send c (mkRes id data) s else Ret s) s l = Ret s' /\
    alive_open s' /\ ws_newBlock s' = ws_newBlock s /\ ws_address s' = ws_address s /\
    (forall c, IsAlive s' c = IsAlive s c) /\
    (forall c id, (c, id) ∈ l -> IsAlive s c = true -> outOf s' c = outOf s c ++ [mkRes id data]) /\
    (forall c, c ∉ l.*1 \/ IsAlive s c = false -> outOf s' c = outOf s c).
Proof.
  induction l as [|[c id] l IH]; intros s Hok Hnd.
  - exists s. split; [done|]. split_and!; try done. by intros c id ?%not_elem_of_nil.
  - rewrite fmap_cons, NoDup_cons in Hnd. destruct Hnd as [Hc Hnd]. cbn [go_fold].
    destruct (IsAlive s c) eqn:Ea.
    + destruct (send_alive c (mkRes id data) s Hok Ea) as (s1 & -> & Hok1 & Hn1 & Ha1 & Hal1 & Ho1). gostep.
      destruct (IH s1 Hok1 Hnd) as (s2 & -> & Hok2 & Hn2 & Ha2 & Hal2 & Hin & Hout). exists s2. split; [done|].
      split_and!; [done|congruence|congruence|intros; by rewrite Hal2, Hal1| |].
      * intros c' id' [[= -> ->]|Hin']%elem_of_cons Hal.
        -- rewrite Hout, Ho1 by (by left). by rewrite decide_True.
        -- rewrite (Hin c' id'), Ho1 by (done || by rewrite Hal1). rewrite decide_False; [done|].
           intros ->. apply Hc. apply list_elem_of_fmap. by exists (c, id').
      * intros c' Hc'. assert (c' <> c) as Hne by (intros ->; destruct Hc' as [Hc'|Hc']; [apply Hc'; by constructor|congruence]).
        rewrite Hout, Ho1; [by rewrite decide_False|]. rewrite Hal1. destruct Hc' as [Hc'|Hc']; [|by right].
        left. intros ?. apply Hc'. by constructor.
    + gostep. destruct (IH s Hok Hnd) as (s2 & -> & Hok2 & Hn2 & Ha2 & Hal2 & Hin & Hout). exists s2. split; [done|].
      split_and!; [done..| |].
      * intros c' id' [[= -> ->]|Hin']%elem_of_cons Hal; [congruence|by apply Hin].
      * intros c' [Hc'|Hc']; apply Hout; [left; intros ?; apply Hc'; by constructor|by right].
Qed.

Lemma broadcast_spec order subs data s : alive_open s -> order subs ≡ₚ map_to_list subs ->
  exists s', broadcast order subs data s = Ret s' /\ alive_open s' /\ ws_newBlock s' = ws_newBlock s /\
    ws_address s' = ws_address s /\ (forall c, IsAlive s' c = IsAlive s c) /\
    forall c, outOf s' c = outOf s c ++ match subs !! c with Some id => if IsAlive s c then [mkRes id data] else [] | None => [] end.
Proof.
  intros Hok Hord. destruct (broadcast_list data (order subs) s Hok) as (s' & E & Hok' & Hn & Ha & Hal & Hin & Hout).
  { rewrite Hord. apply NoDup_fst_map_to_list. }
  exists s'. split; [done|]. split_and!; [done..|]. intros c. destruct (subs !! c) as [id|] eqn:Es.
  - destruct (IsAlive s c) eqn:Ea.
    + apply Hin; [|done]. by rewrite Hord, elem_of_map_to_list.
    + rewrite app_nil_r. apply Hout. by right.
  - rewrite app_nil_r. apply Hout. left. rewrite Hord.
    intros ([c' id] & -> & Hc%elem_of_map_to_list)%list_elem_of_fmap. simpl in Es. congruence.
Qed.

(** ** Subscriptions *)

Definition subscribedTo (s : WebsocketServer) (ad : bytes) (c : channelId) : option string :=
  match ws_address s !! ad with Some subs => subs !! c | None => None end.

Lemma subscribedTo_unsubscribe c s ad c' :
  subscribedTo (unsubscribeAddresses c s) ad c' = if decide (c' = c) then None else subscribedTo s ad c'.
Proof.
  unfold subscribedTo, unsubscribeAddresses. simpl. rewrite lookup_fmap. destruct (ws_address s !! ad) as [subs|]; simpl.
  - destruct (decide (c' = c)) as [-> |]; [by rewrite lookup_delete_eq|by rewrite lookup_delete_ne].
  - by destruct (decide (c' = c)).
Qed.

Lemma subscribe_fold c id ads : forall m ad c',
  match foldl (subscribeAddress c id) m ads !! ad with Some subs => subs !! c' | None => None end =
  if decide (c' = c /\ ad ∈ ads) then Some id else match m !! ad with Some subs => subs !! c' | None => None end.
Proof.
  induction ads as [|a ads IH]; intros m ad c'; simpl.
  - rewrite decide_False; [done|]. intros [_ H]. by apply not_elem_of_nil in H.
  - rewrite IH. destruct (decide (c' = c /\ ad ∈ ads)) as [[-> H]|H]; [rewrite decide_True; [done|split; [done|by constructor]]|].
    unfold subscribeAddress. destruct (decide (ad = a)) as [-> |Hne].
    + rewrite lookup_insert_eq. destruct (decide (c' = c)) as [-> |Hnc].
      * rewrite decide_True by (split; [done|by constructor]). by rewrite lookup_insert_eq.
      * rewrite decide_False by (by intros [? _]). rewrite lookup_insert_ne by done. destruct (m !! a); simpl; [done|apply lookup_empty].
    + rewrite lookup_insert_ne by done. rewrite decide_False; [done|]. intros [-> [?|?]%elem_of_cons]; [done|]. by apply H.
Qed.

Lemma subscribedTo_subscribe c ads id s ad c' :
  subscribedTo (subscribeAddresses c ads id s) ad c' =
  if decide (c' = c) then (if decide (ad ∈ ads) then Some id else None) else subscribedTo s ad c'.
Proof.
  unfold subscribeAddresses. unfold subscribedTo at 1. cbn [ws_address set_address]. rewrite subscribe_fold.
  change (match ws_address (unsubscribeAddresses c s) !! ad with Some subs => subs !! c' | None => None end)
    with (subscribedTo (unsubscribeAddresses c s) ad c'). rewrite subscribedTo_unsubscribe.
  destruct (decide (c' = c)) as [-> |]; [|rewrite decide_False; [done|by intros [? _]]].
  destruct (decide (ad ∈ ads)); [by rewrite decide_True|rewrite decide_False; [done|by intros [_ ?]]].
Qed.

(** ** Runs of the server *)

(** What happens to the server, one event after the other.  A request was read from a
    connection, but nothing looks whether it is still open when the request is served;
    [EShut] and [EDisconnect] are the two parts of [closeChannel]. *)
Inductive wsEvent :=
  | EConnect (c : channelId)
  | EShut (c : channelId)
  | EDisconnect (c : channelId)
  | ESubscribeNewBlock (c : channelId) (id : string)
  | EUnsubscribeNewBlock (c : channelId)
  | ESubscribeAddresses (c : channelId) (ads : list bytes) (id : string)
  | EUnsubscribeAddresses (c : channelId)
  | EReply (c : channelId) (req : websocketReq) (data : responseData)
  | ENewBlock (hash : string) (height : Z)
  | ENewTx (ad : bytes) (address : string) (tx : ATx.t).

Definition addressSubs (s : WebsocketServer) (ad : bytes) : gmap channelId string := default ∅ (ws_address s !! ad).

Inductive wsStep (order : gmap channelId string -> list (channelId * string)) (s : WebsocketServer) : wsEvent -> WebsocketServer -> Prop :=
  | ws_connect c : ws_channels s !! c = None -> wsStep order s (EConnect c) (connectChannel c s)
  | ws_shut c : IsAlive s c = true -> wsStep order s (EShut c) (shutChannel c s)
  | ws_disconnect c : is_Some (ws_channels s !! c) -> IsAlive s c = false -> wsStep order s (EDisconnect c) (onDisconnect c s)
  | ws_subscribeNewBlock c id : is_Some (ws_channels s !! c) -> wsStep order s (ESubscribeNewBlock c id) (subscribeNewBlock c id s)
  | ws_unsubscribeNewBlock c : wsStep order s (EUnsubscribeNewBlock c) (unsubscribeNewBlock c s)
  | ws_subscribeAddresses c ads id : is_Some (ws_channels s !! c) ->
      wsStep order s (ESubscribeAddresses c ads id) (subscribeAddresses c ads id s)
  | ws_unsubscribeAddresses c : wsStep order s (EUnsubscribeAddresses c) (unsubscribeAddresses c s)
  | ws_reply c req data : wsStep order s (EReply c req data) (sendResponse c req data s)
  | ws_block hash height s' : OnNewBlock order hash height s = Ret s' -> wsStep order s (ENewBlock hash height) s'
  | ws_tx ad address tx s' : broadcast order (addressSubs s ad) (RNewTx address tx) s = Ret s' ->
      wsStep order s (ENewTx ad address tx) s'.

Inductive wsReach (order : gmap channelId string -> list (channelId * string)) : WebsocketServer -> Prop :=
  | wr_new : wsReach order NewWebsocketServer
  | wr_step s e s' : wsReach order s -> wsStep order s e s' -> wsReach order s'.

(** A closed channel has no buffer. *)
Definition dead_closed (s : WebsocketServer) : Prop :=
  forall c ch, ws_channels s !! c = Some ch -> c_alive ch = false -> c_out ch = None.

(** The flag of a channel tells whether its buffer is open. *)
Definition ws_ok (s : WebsocketServer) : Prop := alive_open s /\ dead_closed s.

Lemma IsAlive_shut c s c' : IsAlive (shutChannel c s) c' = if decide (c' = c) then false else IsAlive s c'.
Proof.
  unfold IsAlive, shutChannel. simpl. destruct (decide (c' = c)) as [-> |]; [by rewrite lookup_insert_eq|by rewrite lookup_insert_ne].
Qed.

Lemma outOf_shut c s c' : c' <> c -> outOf (shutChannel c s) c' = outOf s c'.
Proof. intros H. unfold outOf, shutChannel. simpl. by rewrite lookup_insert_ne. Qed.

Lemma shutChannel_ok c s : ws_ok s -> ws_ok (shutChannel c s).
Proof.
  intros [Ho Hd]. split.
  - intros c'. rewrite IsAlive_shut. unfold shutChannel. simpl. destruct (decide (c' = c)); [done|].
    rewrite lookup_insert_ne by done. apply Ho.
  - intros c' ch. unfold shutChannel. simpl. rewrite lookup_insert_Some. intros [[<- <-]|[_ H]]; [done|by apply (Hd c')].
Qed.

(** Closing an open channel removes its subscriptions and those of no other channel. *)
Lemma closeChannel_removes c s : IsAlive s c = true -> IsAlive (closeChannel c s) c = false /\
  (forall c', ws_newBlock (closeChannel c s) !! c' = if decide (c' = c) then None else ws_newBlock s !! c') /\
  forall ad c', subscribedTo (closeChannel c s) ad c' = if decide (c' = c) then None else subscribedTo s ad c'.
Proof.
  intros Ha. unfold closeChannel. rewrite Ha. split_and!.
  - change (IsAlive (onDisconnect c (shutChannel c s)) c) with (IsAlive (shutChannel c s) c). by rewrite IsAlive_shut, decide_True.
  - intros c'. cbn. destruct (decide (c' = c)) as [-> |]; [apply lookup_delete_eq|by apply lookup_delete_ne].
  - intros ad c'. unfold onDisconnect. by rewrite subscribedTo_unsubscribe.
Qed.

(** The first message at which a connection is closed. *)
Definition closing (unmarshal : string -> go websocketReq) (m : incoming) : bool :=
  match m with
  | TextMessage d => match unmarshal d with Ret _ => false | _ => true end
  | PingMessage | PongMessage => false
  | _ => true
  end.

(** The requests in a sequence of messages. *)
Definition requestOf (unmarshal : string -> go websocketReq) (m : incoming) : option websocketReq :=
  match m with TextMessage d => match unmarshal d with Ret req => Some req | _ => None end | _ => None end.

(** Every request that arrives before the first message that closes the connection is handed over, in
    order and once, and none behind it is; then the channel is closed. *)
Theorem inputLoop_exact unmarshal c l1 m l2 s : forallb (fun m => negb (closing unmarshal m)) l1 = true ->
  inputLoop unmarshal c l1 s = (s, omap (requestOf unmarshal) l1, true) /\
  (closing unmarshal m = true -> inputLoop unmarshal c (l1 ++ m :: l2) s = (closeChannel c s, omap (requestOf unmarshal) l1, false)).
Proof.
  induction l1 as [|x l1 IH]; intros Hl.
  - split; [done|]. intros Hm. destruct m; cbn in *; try done. by destruct (unmarshal data).
  - cbn [forallb] in Hl. apply andb_prop in Hl as [Hx Hl]. destruct (IH Hl) as [E1 E2].
    split.
    + destruct x; cbn in *; try done. destruct (unmarshal data); cbn in *; try done. by rewrite E1.
    + intros Hm. specialize (E2 Hm). destruct x; cbn in *; try done. destruct (unmarshal data); cbn in *; try done. by rewrite E2.
Qed.

Lemma send_dead_closed c r s s' : dead_closed s -> send c r s = Ret s' -> dead_closed s'.
Proof.
  unfold send. intros Hd. destruct (ws_channels s !! c) as [[alive [out|]]|] eqn:Ec; [|done..]. intros [= <-] c' ch.
  simpl. rewrite lookup_insert_Some. intros [[<- <-]|[_ H]] Ha; [|by eapply Hd]. simpl in Ha.
  pose proof (Hd c _ Ec Ha) as Hn. discriminate Hn.
Qed.

Lemma broadcast_dead_closed order subs data s s' : dead_closed s -> broadcast order subs data s = Ret s' -> dead_closed s'.
Proof.
  unfold broadcast. intros Hd H. refine (go_fold_inv dead_closed _ _ _ _ _ Hd H). intros t [c id] t' _ Ht.
  destruct (IsAlive t c); [by apply send_dead_closed|by intros [= <-]].
Qed.

(** What leaves the channels alone keeps the invariant. *)
Lemma ws_ok_channels s s' : ws_channels s' = ws_channels s -> ws_ok s -> ws_ok s'.
Proof. unfold ws_ok, alive_open, dead_closed, IsAlive. by intros ->. Qed.

Lemma connectChannel_ok c s : ws_ok s -> ws_ok (connectChannel c s).
Proof.
  intros [Ho Hd]. split.
  - intros c'. unfold IsAlive, connectChannel. simpl. destruct (decide (c' = c)) as [-> |]; [rewrite lookup_insert_eq; eauto|].
    rewrite lookup_insert_ne by done. apply Ho.
  - intros c' ch. unfold connectChannel. simpl. rewrite lookup_insert_Some. intros [[<- <-]|[_ H]]; [done|by apply (Hd c')].
Qed.

Lemma send_ok c r s s' : ws_ok s -> send c r s = Ret s' -> ws_ok s'.
Proof.
  intros [Ho Hd] E. split; [|by eapply send_dead_closed]. destruct (IsAlive s c) eqn:Ea.
  - destruct (send_alive c r s Ho Ea) as (s2 & E2 & H & _). rewrite E2 in E. by injection E as <-.
  - unfold send in E. unfold IsAlive in Ea. destruct (ws_channels s !! c) as [[alive [out|]]|] eqn:Ec; [|done..].
    cbn in Ea. subst alive. pose proof (Hd c _ Ec eq_refl) as Hn. discriminate Hn.
Qed.

Lemma sendResponse_ok c req data s : ws_ok s -> ws_ok (sendResponse c req data s).
Proof. intros H. unfold sendResponse. destruct (send _ _ _) eqn:E; [by eapply send_ok|done..]. Qed.

Lemma broadcast_ok order subs data s s' : ws_ok s -> broadcast order subs data s = Ret s' -> ws_ok s'.
Proof.
  unfold broadcast. intros Hok H. refine (go_fold_inv ws_ok _ _ _ _ _ Hok H). intros t [c id] t' _ Ht.
  destruct (IsAlive t c); [by apply send_ok|by intros [= <-]].
Qed.

Lemma wsReach_ok order s : wsReach order s -> ws_ok s.
Proof.
  induction 1 as [|s e s' _ Hok Hs].
  - split; unfold alive_open, IsAlive, dead_closed; simpl; intros *; by rewrite ?lookup_empty.
  - destruct Hs; [by apply connectChannel_ok|by apply shutChannel_ok|by apply (ws_ok_channels s)..|by apply sendResponse_ok|
      by eapply broadcast_ok|by eapply broadcast_ok].
Qed.

(** *** A notification, channel by channel *)

Definition isAnnouncement (m : websocketRes) : bool :=
  match rs_Data m with RNewBlock _ _ | RNewTx _ _ => true | _ => false end.

(** The notifications a channel got. *)
Definition announced (s : WebsocketServer) (c : channelId) : list websocketRes := List.filter isAnnouncement (outOf s c).

(** The loop of [OnNewBlock] at work: the subscribers to come, and the one that was found alive and
    gets its message next; or the end of the process by a panic. *)
Inductive notifying := NRun (s : WebsocketServer) (todo : list (channelId * string)) (next : option (channelId * string)) | NPanic.

(** A step of the loop, or of another goroutine between: the loop holds the lock of the
    subscriptions, so that none of them begins or ends, but requests are answered, clients connect
    and a channel can be shut, which is [Some] of it. *)
Inductive notifyStep (data : responseData) : option channelId -> notifying -> notifying -> Prop :=
  | ns_check s c id l : IsAlive s c = true -> notifyStep data None (NRun s ((c, id) :: l) None) (NRun s l (Some (c, id)))
  | ns_skip s c id l : IsAlive s c = false -> notifyStep data None (NRun s ((c, id) :: l) None) (NRun s l None)
  | ns_send s c id l s' : send c (mkRes id data) s = Ret s' -> notifyStep data None (NRun s l (Some (c, id))) (NRun s' l None)
  | ns_panic s c id l : send c (mkRes id data) s = Panic -> notifyStep data None (NRun s l (Some (c, id))) NPanic
  | ns_reply s l n c req d : isAnnouncement (mkRes (rq_ID req) d) = false ->
      notifyStep data None (NRun s l n) (NRun (sendResponse c req d s) l n)
  | ns_connect s l n c : ws_channels s !! c = None -> notifyStep data None (NRun s l n) (NRun (connectChannel c s) l n)
  | ns_shut s l n c : IsAlive s c = true -> notifyStep data (Some c) (NRun s l n) (NRun (shutChannel c s) l n).

Definition notifyAny (data : responseData) (p q : notifying) : Prop := exists o, notifyStep data o p q.

Lemma IsAlive_connect c s c' : IsAlive (connectChannel c s) c' = if decide (c' = c) then true else IsAlive s c'.
Proof.
  unfold IsAlive, connectChannel. simpl. destruct (decide (c' = c)) as [-> |]; [by rewrite lookup_insert_eq|by rewrite lookup_insert_ne].
Qed.

(** What a message leaves alone. *)
Lemma send_frame c r s s' : send c r s = Ret s' -> (forall c', IsAlive s' c' = IsAlive s c') /\
  (forall c', ws_channels s' !! c' = None <-> ws_channels s !! c' = None) /\
  (forall c', outOf s' c' = outOf s c' ++ if decide (c' = c) then [r] else []).
Proof.
  unfold send, IsAlive, outOf. destruct (ws_channels s !! c) as [[alive [out|]]|] eqn:Ec; [|done..]. intros [= <-]. cbn.
  split_and!; intros c'; destruct (decide (c' = c)) as [-> |]; rewrite ?lookup_insert_eq, ?lookup_insert_ne, ?app_nil_r, ?Ec by done; done.
Qed.

Lemma sendResponse_frame c req d s : (forall c', IsAlive (sendResponse c req d s) c' = IsAlive s c') /\
  (forall c', ws_channels (sendResponse c req d s) !! c' = None <-> ws_channels s !! c' = None) /\
  (isAnnouncement (mkRes (rq_ID req) d) = false -> forall c', announced (sendResponse c req d s) c' = announced s c').
Proof.
  unfold sendResponse. destruct (send _ _ s) as [s'|e|] eqn:E; [|done..].
  destruct (send_frame _ _ _ _ E) as (H1 & H2 & H3). split_and!; [done..|]. intros Hd c'. unfold announced. rewrite H3, List.filter_app.
  case_decide; cbn [List.filter]; rewrite ?Hd; apply app_nil_r.
Qed.

(** The subscriptions to new blocks are of channels that exist. *)
Definition known (s : WebsocketServer) : Prop := forall c, ws_channels s !! c = None -> ws_newBlock s !! c = None.

Lemma send_newBlock c r s s' : send c r s = Ret s' -> ws_newBlock s' = ws_newBlock s.
Proof. unfold send. by destruct (ws_channels s !! c) as [[alive [out|]]|]; [intros [= <-]|..]. Qed.

Lemma broadcast_known order subs data s s' : known s -> broadcast order subs data s = Ret s' -> known s'.
Proof.
  unfold broadcast. intros Hk H. refine (go_fold_inv known _ _ _ _ _ Hk H). intros t [c id] t' _ Ht.
  destruct (IsAlive t c); [|by intros [= <-]]. intros E c'. destruct (send_frame _ _ _ _ E) as (_ & H2 & _).
  rewrite (send_newBlock _ _ _ _ E), H2. apply Ht.
Qed.

Lemma wsReach_known order s : wsReach order s -> known s.
Proof.
  induction 1 as [|s e s' _ Hk Hs]; [done|]. destruct Hs as [c Hc|c Ha|c Hc Ha|c id [ch Hc]|c|c ads id Hc|c|c req data|hash height s' E|ad address tx s' E].
  - intros c'. cbn. rewrite lookup_insert_None. intros [H _]. by apply Hk.
  - intros c'. cbn. rewrite lookup_insert_None. intros [H _]. by apply Hk.
  - intros c' H. cbn. rewrite lookup_delete_None. right. by apply Hk.
  - intros c' H. cbn. rewrite lookup_insert_None. split; [by apply Hk|]. intros ->. cbn in H. congruence.
  - intros c' H. cbn. rewrite lookup_delete_None. right. by apply Hk.
  - done.
  - done.
  - intros c'. destruct (sendResponse_frame c req data s) as (_ & -> & _). intros H%Hk. unfold sendResponse.
    destruct (send _ _ _) eqn:E; [by rewrite (send_newBlock _ _ _ _ E)|done..].
  - by eapply broadcast_known.
  - by eapply broadcast_known.
Qed.

Section notification.
Context (subs : gmap channelId string) (l0 : list (channelId * string)) (data : responseData) (s0 : WebsocketServer).
Hypothesis Hl0 : l0 ≡ₚ map_to_list subs.
Hypothesis Hsubs : forall c, ws_channels s0 !! c = None -> subs !! c = None.
Hypothesis Hdata : forall id, isAnnouncement (mkRes id data) = true.

(** The message of a subscriber that had its turn. *)
Definition messageTo (had : list (channelId * string)) (c : channelId) : list websocketRes :=
  match subs !! c with Some id => if decide ((c, id) ∈ had) then [mkRes id data] else [] | None => [] end.

Record notify_inv (s : WebsocketServer) (l : list (channelId * string)) (n : option (channelId * string)) (had : list (channelId * string)) : Prop := {
  ni_turns : l0 = had ++ option_list n ++ l;
  ni_new : forall c, ws_channels s !! c = None -> ws_channels s0 !! c = None;
  ni_got : forall c, IsAlive s c = true -> announced s c = announced s0 c ++ messageTo had c;
}.

Lemma subs_lookup c id : (c, id) ∈ l0 -> subs !! c = Some id.
Proof. by rewrite Hl0, elem_of_map_to_list. Qed.

Lemma messageTo_snoc had c id c' : NoDup (had ++ [(c, id)]).*1 -> subs !! c = Some id ->
  messageTo (had ++ [(c, id)]) c' = messageTo had c' ++ if decide (c' = c) then [mkRes id data] else [].
Proof.
  intros Hnd Hc. unfold messageTo. destruct (decide (c' = c)) as [-> |Hne].
  - rewrite Hc. rewrite decide_True by set_solver. rewrite decide_False; [done|]. intros Hin.
    rewrite fmap_app, NoDup_app in Hnd. destruct Hnd as (_ & Hnd & _). apply (Hnd c); [|by left].
    apply list_elem_of_fmap. by exists (c, id).
  - rewrite app_nil_r. destruct (subs !! c') as [id'|]; [|done].
    assert ((c', id') ∈ had ++ [(c, id)] <-> (c', id') ∈ had) as Heq.
    { rewrite elem_of_app, list_elem_of_singleton. split; [|auto]. intros [H|[= -> _]]; done. }
    destruct (decide ((c', id') ∈ had)); [rewrite decide_True by tauto|rewrite decide_False by tauto]; done.
Qed.

Lemma turns_NoDup had c id l : l0 = had ++ (c, id) :: l -> NoDup (had ++ [(c, id)]).*1 /\ subs !! c = Some id.
Proof.
  intros E. split; [|apply subs_lookup; rewrite E; set_solver].
  assert (NoDup l0.*1) as Hnd by (rewrite Hl0; apply NoDup_fst_map_to_list).
  rewrite E, cons_middle, app_assoc, fmap_app in Hnd. by apply NoDup_app in Hnd as [Hnd _].
Qed.

Lemma notify_step_inv o s l n s' l' n' had : notifyStep data o (NRun s l n) (NRun s' l' n') -> notify_inv s l n had ->
  exists had', notify_inv s' l' n' had'.
Proof.
  intros Hs [Ht Hn Hg]. inversion Hs as [s1 c id l1 Ha|s1 c id l1 Ha|s1 c id l1 s1' Hsend| |s1 l1 n1 c req d Hd|s1 l1 n1 c Hc|s1 l1 n1 c Ha]; subst.
  - by exists had.
  - exists (had ++ [(c, id)]). split; [by rewrite <- app_assoc|done|]. intros c' Hc'.
    destruct (turns_NoDup had c id l' Ht) as [Hnd Hsub]. rewrite messageTo_snoc, decide_False, app_nil_r by congruence. by apply Hg.
  - destruct (send_frame _ _ _ _ Hsend) as (H1 & H2 & H3). exists (had ++ [(c, id)]).
    destruct (turns_NoDup had c id l' Ht) as [Hnd Hsub]. split; [by rewrite <- app_assoc|intros c'; by rewrite H2; apply Hn|].
    intros c' Hc'. rewrite messageTo_snoc by done. rewrite H1 in Hc'. unfold announced at 1. rewrite H3, List.filter_app, app_assoc.
    fold (announced s c'). rewrite (Hg c' Hc'). f_equal. case_decide; [|done]. cbn [List.filter]. by rewrite Hdata.
  - destruct (sendResponse_frame c req d s) as (H1 & H2 & H3). exists had. split; [done|intros c'; by rewrite H2; apply Hn|].
    intros c' Hc'. rewrite H3 by done. apply Hg. by rewrite <- H1.
  - exists had. split; [done|intros c'; cbn; rewrite lookup_insert_None; intros [H _]; by apply Hn|].
    intros c'. rewrite IsAlive_connect. destruct (decide (c' = c)) as [-> |Hne].
    + intros _. unfold announced, outOf. cbn. rewrite lookup_insert_eq, (Hn c Hc). unfold messageTo. by rewrite (Hsubs c (Hn c Hc)).
    + intros Hc'. rewrite <- (Hg c' Hc'). unfold announced, outOf. cbn. by rewrite lookup_insert_ne.
  - exists had. split; [done|intros c'; cbn; rewrite lookup_insert_None; intros [H _]; by apply Hn|].
    intros c'. rewrite IsAlive_shut. destruct (decide (c' = c)) as [-> |Hne]; [done|]. intros Hc'. unfold announced.
    rewrite outOf_shut by done. by apply Hg.
Qed.

(** When the loop is through, whatever happened between, every subscriber that is still connected
    got the notification once, and no other channel that is connected got one. *)
Lemma notify_done s' : rtc (notifyAny data) (NRun s0 l0 None) (NRun s' [] None) ->
  forall c, IsAlive s' c = true -> announced s' c = announced s0 c ++ match subs !! c with Some id => [mkRes id data] | None => [] end.
Proof.
  intros Hr. assert (exists had, notify_inv s' [] None had) as (had & [Ht _ Hg]).
  { assert (exists had, notify_inv s0 l0 None had) as H0.
    { exists []. split; [done|done|]. intros c _. unfold messageTo. destruct (subs !! c); [|by rewrite app_nil_r].
      rewrite decide_False by apply not_elem_of_nil. by rewrite app_nil_r. }
    set (I := fun p => match p with NRun s l n => exists had, notify_inv s l n had | NPanic => True end).
    assert (forall p q, rtc (notifyAny data) p q -> I p -> q <> NPanic -> I q) as H.
    { induction 1 as [p|p q r [o Hpq] Hqr IH]; intros Hp Hne; [done|]. destruct q as [s l n|].
      - apply IH; [|done]. destruct p as [s1 l1 n1|]; [|inversion Hpq]. destruct Hp as [had Hp]. by eapply notify_step_inv.
      - inversion Hqr as [|? ? ? [o' Hx]]; [by subst|inversion Hx]. }
    by apply (H _ _ Hr H0). }
  intros c Hc. rewrite (Hg c Hc). f_equal. unfold messageTo. destruct (subs !! c) as [id|] eqn:Es; [|done].
  rewrite decide_True; [done|]. rewrite app_nil_r in Ht. by rewrite <- Ht, Hl0, elem_of_map_to_list.
Qed.

(** The loop cannot panic as long as no channel is shut. *)
Lemma notify_no_panic : ws_ok s0 -> ~ rtc (notifyStep data None) (NRun s0 l0 None) NPanic.
Proof.
  intros Hok Hr. set (I := fun p => match p with
    | NRun s _ n => ws_ok s /\ forall c id, n = Some (c, id) -> IsAlive s c = true | NPanic => False end).
  cut (forall p q, rtc (notifyStep data None) p q -> I p -> I q).
  { intros H. by apply (H _ _ Hr). }
  clear. induction 1 as [p|p q r Hpq _ IH]; [done|]. intros Hp. apply IH. clear IH.
  inversion Hpq as [s c id l Ha|s c id l Ha|s c id l s' Hsend|s c id l Hsend|s l n c req d Hd|s l n c Hc|]; subst; destruct Hp as [Hok Hn].
  - split; [done|]. by intros ? ? [= <- <-].
  - by split.
  - split; [by eapply send_ok|done].
  - destruct Hok as [Ho _]. destruct (send_alive c (mkRes id data) s Ho (Hn c id eq_refl)) as (s1 & E & _). congruence.
  - split; [by apply sendResponse_ok|]. intros c' id' ->. destruct (sendResponse_frame c req d s) as (-> & _). by apply (Hn c' id').
  - split; [by apply connectChannel_ok|]. intros c' id' ->. rewrite IsAlive_connect. case_decide; [done|]. by apply (Hn c' id').
Qed.

(** The loop by itself. *)
Lemma notify_alone l1 l2 : forall s, ws_ok s ->
  exists s', rtc (notifyAny data) (NRun s (l1 ++ l2) None) (NRun s' l2 None) /\ ws_ok s' /\ forall c, IsAlive s' c = IsAlive s c.
Proof.
  induction l1 as [|[c id] l1 IH]; intros s Hok; [by exists s|]. destruct (IsAlive s c) eqn:Ha.
  - destruct (send_alive c (mkRes id data) s (proj1 Hok) Ha) as (s1 & E & _). destruct (send_frame _ _ _ _ E) as (H1 & _).
    destruct (IH s1) as (s' & Hr & Hok' & Hal); [by eapply send_ok|]. exists s'. split_and!; [|done|intros c'; by rewrite Hal].
    eapply rtc_l; [exists None; by apply ns_check|]. eapply rtc_l; [exists None; by apply ns_send|]. exact Hr.
  - destruct (IH s Hok) as (s' & Hr & Hok' & Hal). exists s'. split_and!; [|done..].
    eapply rtc_l; [exists None; by apply ns_skip|]. exact Hr.
Qed.
End notification.

(** * Properties *)

(** C21: A new block is announced to its subscribers, in every state the server reaches, also with
    subscriptions that were served after their channel was closed.  When the notification runs
    in one piece it does not panic, and exactly the channels that are subscribed and connected
    get it, each once and with the identifier of its subscription, behind the messages they
    have.  When other goroutines shut channels, connect clients or answer requests between its
    steps and it comes to its end, every channel that is then connected got it once if it is
    subscribed and not if it is not.  It cannot panic unless a channel is shut while it runs;
    then it can ([shut_panics_OnNewBlock]). *)
Theorem OnNewBlock_delivers order s hash height :
  (forall m, order m ≡ₚ map_to_list m) -> wsReach order s ->
  (exists s', OnNewBlock order hash height s = Ret s' /\
    forall c, outOf s' c = outOf s c ++ match ws_newBlock s !! c with
                                        | Some id => if IsAlive s c then [mkRes id (RNewBlock height hash)] else []
                                        | None => []
                                        end) /\
  (forall s', rtc (notifyAny (RNewBlock height hash)) (NRun s (order (ws_newBlock s)) None) (NRun s' [] None) ->
    forall c, IsAlive s' c = true ->
      announced s' c = announced s c ++ match ws_newBlock s !! c with Some id => [mkRes id (RNewBlock height hash)] | None => [] end) /\
  ~ rtc (notifyStep (RNewBlock height hash) None) (NRun s (order (ws_newBlock s)) None) NPanic.
Proof.
  intros Hord Hr. pose proof (wsReach_ok order s Hr) as Hok. pose proof (wsReach_known order s Hr) as Hk. split_and!.
  - destruct (broadcast_spec order (ws_newBlock s) (RNewBlock height hash) s (proj1 Hok) (Hord _)) as (s' & E & _ & _ & _ & _ & Ho).
    by exists s'.
  - intros s' H. by apply (notify_done _ _ (RNewBlock height hash) _ (Hord _) Hk (fun _ => eq_refl)).
  - by apply notify_no_panic.
Qed.

(** A channel that is shut after the notification found it alive and before its message is sent ends
    the process: nothing recovers from the panic of a send on a closed channel. *)
Theorem shut_panics_OnNewBlock order s hash height c id :
  (forall m, order m ≡ₚ map_to_list m) -> wsReach order s -> ws_newBlock s !! c = Some id -> IsAlive s c = true ->
  rtc (notifyAny (RNewBlock height hash)) (NRun s (order (ws_newBlock s)) None) NPanic.
Proof.
  intros Hord Hr Hc Ha. assert ((c, id) ∈ order (ws_newBlock s)) as Hin by (by rewrite Hord, elem_of_map_to_list).
  apply list_elem_of_split in Hin as (l1 & l2 & ->).
  destruct (notify_alone (RNewBlock height hash) l1 ((c, id) :: l2) s (wsReach_ok order s Hr)) as (s' & Hrun & _ & Hal).
  etransitivity; [exact Hrun|]. eapply rtc_l; [exists None; apply ns_check; by rewrite Hal|].
  eapply rtc_l; [exists (Some c); apply ns_shut; by rewrite Hal|]. eapply rtc_l; [|apply rtc_refl].
  exists None. apply ns_panic. unfold send, shutChannel. cbn. by rewrite lookup_insert_eq.
Qed.

(** A channel is subscribed to the addresses of its last request only: a new request
    replaces the former ones, closing the channel or unsubscribing removes all, and the
    subscriptions of other channels stay. *)
Theorem subscribeAddresses_replaces c ads id s c' ad :
  subscribedTo (subscribeAddresses c ads id s) ad c' =
    (if decide (c' = c) then (if decide (ad ∈ ads) then Some id else None) else subscribedTo s ad c') /\
  subscribedTo (unsubscribeAddresses c s) ad c' = (if decide (c' = c) then None else subscribedTo s ad c').
Proof. split; [apply subscribedTo_subscribe|apply subscribedTo_unsubscribe]. Qed.

(** A subscription that is served after its channel was closed is never removed: the channel
    is gone for ever, and the subscription stays whatever is closed. *)
Theorem late_subscription order c id s :
  wsReach order s -> is_Some (ws_channels s !! c) -> IsAlive s c = false ->
  wsReach order (subscribeNewBlock c id s) /\ forall c', ws_newBlock (closeChannel c' (subscribeNewBlock c id s)) !! c = Some id.
Proof.
  intros Hr Hc Ha. split; [by eapply wr_step, ws_subscribeNewBlock|]. intros c'. set (s1 := subscribeNewBlock c id s).
  assert (ws_newBlock s1 !! c = Some id) as Hs by apply lookup_insert_eq. unfold closeChannel.
  destruct (IsAlive s1 c') eqn:Ha'; [|done]. cbn. rewrite lookup_delete_ne; [done|]. intros ->. unfold s1 in Ha'.
  change (IsAlive (subscribeNewBlock c id s) c) with (IsAlive s c) in Ha'. congruence.
Qed.

Section requests.
Context `{DB : Store} `{P : BlockChainParser} `{V : Vlq} `{SC : ScriptLib} `{J : StateJson}
  `{R : BlockChain} `{E : EthLib} `{C : ApiChain} `{X : XpubParser} `{W : WsChain} `{WJ : WsJson}.

Lemma requestHandler_channels cacheEnabled now m b0 co fuel turns c req ws h s s' ws' r :
  requestHandler cacheEnabled now m b0 co fuel turns c req ws = Some h -> h s = (s', Ret (ws', r)) ->
  ws_channels ws' = ws_channels ws.
Proof.
  unfold requestHandler. intros Hh Hr.
  repeat match type of Hh with (if ?b then _ else _) = _ => destruct b end; [..|done]; injection Hh as <-.
  all: try (apply sbind_ret in Hr as (s1 & x & _ & Hr)).
  all: unfold sret in Hr; injection Hr; intros; subst; done.
Qed.

(** The answer for a key is missing only if the load of its data did not end within the bounds. *)
Definition outOfBounds now (m : BaseMempool) co fuel turns (s : RocksDB * gmap string xpubData) : Prop :=
  exists key option_, (getXpubData now m co fuel turns key option_ 0 s.2).2 = Ret None.

Lemma ofCache_getXpubData {A} now m co fuel turns key option_
    (k : option (xpubData * Z) -> sgo (RocksDB * gmap string xpubData) (option A)) s s' :
  (let! r := ofCache (getXpubData now m co fuel turns key option_ 0) in k r) s = (s', Ret None) ->
  (forall x s1, k (Some x) s1 <> (s', Ret None)) ->
  outOfBounds now m co fuel turns s.
Proof.
  intros (s1 & r & H1 & H2)%sbind_ret Hk. exists key, option_. unfold ofCache in H1.
  destruct (getXpubData now m co fuel turns key option_ 0 s.2) as [c' r']. injection H1 as _ ->.
  destruct r as [x|]; [|done]. by apply Hk in H2.
Qed.

Lemma orAddress_none {A B} (xpub : sgo (RocksDB * gmap string xpubData) (option A)) address (g : A -> B) s s' :
  (let! a := orAddress xpub address in sret (g <$> a)) s = (s', Ret None) -> xpub s = (s', Ret None).
Proof.
  intros (s1 & [a|] & H & [= <-])%sbind_ret. unfold orAddress in H. destruct (xpub s) as [s2 [r|e|]]; [done| |done].
  by apply sbind_ret in H as (? & ? & _ & [=]).
Qed.

Lemma requestHandler_none cacheEnabled now m b0 co fuel turns c req ws h s s' ws' :
  requestHandler cacheEnabled now m b0 co fuel turns c req ws = Some h -> h s = (s', Ret (ws', None)) ->
  outOfBounds now m co fuel turns s.
Proof.
  unfold requestHandler. intros Hh Hr.
  assert (forall (x : sgo (RocksDB * gmap string xpubData) (option responseData)), (let! r := x in sret (ws, r)) s = (s', Ret (ws', None)) -> x s = (s', Ret None)) as Hk.
  { intros x (s1 & r & Hx & [= <- <- ->])%sbind_ret. done. }
  repeat match type of Hh with (if ?b then _ else _) = _ => destruct b end; [..|done]; injection Hh as <-.
  1: apply Hk in Hr. 5: apply Hk in Hr.
  all: try (apply sbind_ret in Hr as (s1 & x & Hx & Hr)).
  all: try (unfold sret in Hr; injection Hr; discriminate).
  all: unfold slift in Hx; injection Hx as <- Hx; apply orAddress_none in Hr.
  all: apply (ofCache_getXpubData _ _ _ _ _ _ _ _ _ _ Hr); intros [data h] s2 H; by apply sbind_ret in H as (? & ? & _ & [=]).
Qed.

(** The answer to a request: the channel [c] gets one message more, with the identifier of the
    request and the data, no other channel gets anything, and the subscriptions are those of [ws1]. *)
Record answered (c : channelId) (req : websocketReq) (data : responseData) (ws ws1 ws' : WebsocketServer) : Prop := {
  an_out : outOf ws' c = outOf ws c ++ [mkRes (rq_ID req) data];
  an_others : forall c', c' <> c -> outOf ws' c' = outOf ws c';
  an_alive : forall c', IsAlive ws' c' = IsAlive ws c';
  an_newBlock : ws_newBlock ws' = ws_newBlock ws1;
  an_address : ws_address ws' = ws_address ws1;
}.

Lemma sendResponse_answers c req data ws ws1 : alive_open ws -> IsAlive ws c = true -> ws_channels ws1 = ws_channels ws ->
  answered c req data ws ws1 (sendResponse c req data ws1).
Proof.
  intros Hok Ha Hc. assert (forall c', outOf ws1 c' = outOf ws c') as Ho by (intros; unfold outOf; by rewrite Hc).
  assert (forall c', IsAlive ws1 c' = IsAlive ws c') as Hal by (intros; unfold IsAlive; by rewrite Hc).
  destruct (send_alive c (mkRes (rq_ID req) data) ws1) as (s1 & E1 & _ & Hn & Had & Hal1 & Hout).
  - intros c1. rewrite Hal, Hc. apply Hok.
  - by rewrite Hal.
  - unfold sendResponse. rewrite E1. split; [by rewrite Hout, decide_True, Ho by done| |intros c'; by rewrite Hal1|done|done].
    intros c' Hne. by rewrite Hout, decide_False, Ho by done.
Qed.

(** C22: Every request of an open channel is answered once, with its identifier: with the result of
    the handler of its method, with the message of the error if that fails, with an internal error
    if it panics, and with the error "unknown method" if there is none.  No other channel gets
    anything, and no subscription changes but by a handler that returns.  The one exception is
    a key whose data were not loaded within the bounds of the model.  A request runs here in one
    piece: that a handler waits for ever for a lock ([closeChannel_OnNewBlock_deadlock]) or
    that the channel is closed before the answer is not part of it. *)
Theorem onRequest_answers cacheEnabled now m b0 co fuel turns errorText c req ws s :
  alive_open ws -> IsAlive ws c = true ->
  let answer := onRequest cacheEnabled now m b0 co fuel turns errorText c req ws s in
  match requestHandler cacheEnabled now m b0 co fuel turns c req ws with
  | None => exists ws', answer = (s, Some ws') /\ answered c req (RError "unknown method") ws ws ws'
  | Some handler =>
      match handler s with
      | (s1, Ret (ws1, Some data)) => exists ws', answer = (s1, Some ws') /\ answered c req data ws ws1 ws'
      | (s1, Fail e) => exists ws', answer = (s1, Some ws') /\ answered c req (RError (errorText e)) ws ws ws'
      | (s1, Panic) => exists ws', answer = (s1, Some ws') /\ answered c req (RError "Internal error") ws ws ws'
      | (s1, Ret (_, None)) => answer = (s1, None) /\ outOfBounds now m co fuel turns s
      end
  end.
Proof.
  intros Hok Ha answer. subst answer. unfold onRequest.
  assert (forall ws1 data, ws_channels ws1 = ws_channels ws -> answered c req data ws ws1 (sendResponse c req data ws1)) as Hsend
    by (intros; by apply sendResponse_answers).
  destruct (requestHandler _ _ _ _ _ _ _ c req ws) as [h|] eqn:Eh; [|by eauto].
  destruct (h s) as [s1 [[ws1 [data|]]|e|]] eqn:Er; [| |by eauto|by eauto].
  - eexists. split; [done|]. apply Hsend. by apply (requestHandler_channels _ _ _ _ _ _ _ _ _ _ _ _ _ _ _ Eh) in Er.
  - split; [done|]. by apply (requestHandler_none _ _ _ _ _ _ _ _ _ _ _ _ _ _ Eh) in Er.
Qed.
End requests.

(** The fee of a transaction is the rate times the size, rounded to the nearest unit. *)
Theorem feePerTx_rounds fee txSize : -500 <= fee * txSize - 1000 * feePerTx fee txSize < 500.
Proof.
  unfold feePerTx. pose proof (Z.div_mod (fee * txSize + 500) 1000). pose proof (Z.mod_pos_bound (fee * txSize + 500) 1000). lia.
Qed.

(** ** Locks *)

(** The mutexes of the server, and the ones a goroutine takes and releases in turn. *)
Inductive mutex := aliveLock (c : channelId) | newBlockSubscriptionsLock | addressSubscriptionsLock.
#[global] Instance mutex_eq_dec : EqDecision mutex.
Proof. solve_decision. Defined.

Inductive lockOp := Lock (l : mutex) | Unlock (l : mutex).

Definition closeChannel_locks (c : channelId) : list lockOp :=
  [Lock (aliveLock c); Lock newBlockSubscriptionsLock; Unlock newBlockSubscriptionsLock;
   Lock addressSubscriptionsLock; Unlock addressSubscriptionsLock; Unlock (aliveLock c)].

Definition OnNewBlock_locks (subscribers : list channelId) : list lockOp :=
  Lock newBlockSubscriptionsLock ::
  concat (map (fun c => [Lock (aliveLock c); Unlock (aliveLock c)]) subscribers) ++ [Unlock newBlockSubscriptionsLock].

(** The goroutines with what they have left to do, and the mutexes that are held. *)
Inductive lockStep : list (list lockOp) * list mutex -> list (list lockOp) * list mutex -> Prop :=
  | lock_step i l rest gs held : gs !! i = Some (Lock l :: rest) -> l ∉ held -> lockStep (gs, held) (<[i := rest]> gs, l :: held)
  | unlock_step i l rest gs h1 h2 : gs !! i = Some (Unlock l :: rest) ->
      lockStep (gs, h1 ++ l :: h2) (<[i := rest]> gs, h1 ++ h2).

(** Closing a channel while a new block is announced can block both for ever: the one
    holds the lock of the channel and waits for the subscriptions, the other holds the
    subscriptions and waits for the channel. *)
Theorem closeChannel_OnNewBlock_deadlock c :
  exists gs held, rtc lockStep ([closeChannel_locks c; OnNewBlock_locks [c]], []) (gs, held) /\
    Forall (fun g => g <> []) gs /\ forall st, ~ lockStep (gs, held) st.
Proof.
  eexists _, _. split.
  - eapply rtc_l; [apply (lock_step 0 (aliveLock c)); [reflexivity|apply not_elem_of_nil]|].
    eapply rtc_l; [apply (lock_step 1 newBlockSubscriptionsLock); [reflexivity|]|reflexivity].
    intros [[=]|[]%not_elem_of_nil]%elem_of_cons.
  - split; [by repeat constructor|]. intros st Hst.
    inversion Hst as [[|[|]] l rest gs held Hi Hl|[|[|]] l rest gs h1 h2 Hi]; simplify_eq/=;
      apply Hl; rewrite !elem_of_cons; auto.
Qed.

(** ** Concrete runs *)

(** Two clients, the second one subscribed to new blocks. *)
Definition two_clients : WebsocketServer := subscribeNewBlock 2 "7" (connectChannel 2 (connectChannel 1 NewWebsocketServer)).

Lemma two_clients_reach : wsReach map_to_list two_clients.
Proof.
  eapply wr_step; [eapply wr_step; [eapply wr_step; [apply wr_new|]|]|].
  - apply (ws_connect _ _ 1). reflexivity.
  - apply (ws_connect _ _ 2). reflexivity.
  - apply (ws_subscribeNewBlock _ _ 2). by eexists.
Qed.

(** The first client is closed and its subscription is served afterwards. *)
Definition late_client : WebsocketServer := subscribeNewBlock 1 "9" (onDisconnect 1 (shutChannel 1 two_clients)).

Lemma late_client_reach : wsReach map_to_list late_client.
Proof.
  eapply wr_step; [eapply wr_step; [eapply wr_step; [apply two_clients_reach|]|]|].
  - by apply (ws_shut _ _ 1).
  - apply (ws_disconnect _ _ 1); [by eexists|done].
  - apply (ws_subscribeNewBlock _ _ 1). by eexists.
Qed.

(** The block goes to the second client alone; if that is shut in the middle, the process ends. *)
Lemma OnNewBlock_delivers_witness :
  ws_newBlock late_client !! 1 = Some "9"%string /\
  (exists s', OnNewBlock map_to_list "aa" 5 late_client = Ret s' /\
    outOf s' 1 = [] /\ outOf s' 2 = [mkRes "7" (RNewBlock 5 "aa")]) /\
  ~ rtc (notifyStep (RNewBlock 5 "aa") None) (NRun late_client (map_to_list (ws_newBlock late_client)) None) NPanic /\
  rtc (notifyAny (RNewBlock 5 "aa")) (NRun late_client (map_to_list (ws_newBlock late_client)) None) NPanic.
Proof.
  destruct (OnNewBlock_delivers map_to_list late_client "aa" 5 (fun m => reflexivity _) late_client_reach) as ((s' & E & H) & _ & Hp).
  split; [reflexivity|]. split; [exists s'; split; [exact E|]; split; [exact (H 1)|exact (H 2)]|]. split; [exact Hp|].
  by apply (shut_panics_OnNewBlock map_to_list late_client "aa" 5 2 "7" (fun m => reflexivity _) late_client_reach).
Defined.

Lemma shut_panics_OnNewBlock_witness :
  rtc (notifyAny (RNewBlock 5 "aa")) (NRun two_clients (map_to_list (ws_newBlock two_clients)) None) NPanic.
Proof. exact (shut_panics_OnNewBlock map_to_list two_clients "aa" 5 2 "7" (fun m => reflexivity _) two_clients_reach eq_refl eq_refl). Defined.

Lemma late_subscription_witness :
  ws_newBlock (closeChannel 1 (subscribeNewBlock 1 "9" (onDisconnect 1 (shutChannel 1 two_clients)))) !! 1 = Some "9"%string.
Proof.
  refine (proj2 (late_subscription map_to_list 1 "9" (onDisconnect 1 (shutChannel 1 two_clients)) _ _ eq_refl) 1); [|by eexists].
  eapply wr_step; [eapply wr_step; [apply two_clients_reach|by apply (ws_shut _ _ 1)]|]. apply (ws_disconnect _ _ 1); [by eexists|done].
Defined.

Definition plain_wschain : WsChain := {|
  EstimateSmartFee _ _ := Ret 1000;
  EthereumTypeEstimateGas _ := Ret 21000;
  SendRawTransaction _ := Fail (ErrMsg "rejected");
  IsTestnet := false;
|}.

Definition plain_wsjson : WsJson := {|
  unmarshalGetAccountInfoRequest _ := Fail (ErrMsg "no JSON");
  unmarshalHeight _ := Ret 7;
  unmarshalId s := Ret s;
  unmarshalDescriptor s := Ret s;
  unmarshalTxid s := Ret s;
  unmarshalHex s := Ret s;
  unmarshalAddressList s := Ret [s];
  unmarshalEstimateFee _ := Ret (mkEstimateFeeReq [2] ∅);
|}.

(** A transaction the daemon rejects. *)
Lemma onRequest_answers_witness :
  let errorText e := match e with ErrMsg t => t | _ => EmptyString end in
  exists ws', (onRequest (P := plain_parser) (V := leb) (R := one_block) (C := plain_api) (X := plain_xpub)
      (W := plain_wschain) (WJ := plain_wsjson) false 77 emptyMempool EmptyString map_to_list 2 [] errorText 1
      (mkReq "3" "sendTransaction" "00") two_clients (open_db ∅, ∅)).2 = Some ws' /\
    outOf ws' 1 = [mkRes "3" (RError "rejected")] /\ outOf ws' 2 = [].
Proof.
  intros errorText.
  destruct (onRequest_answers (P := plain_parser) (V := leb) (R := one_block) (C := plain_api) (X := plain_xpub)
      (W := plain_wschain) (WJ := plain_wsjson) false 77 emptyMempool EmptyString map_to_list 2 [] errorText 1
      (mkReq "3" "sendTransaction" "00") two_clients (open_db ∅, ∅) (proj1 (wsReach_ok map_to_list two_clients two_clients_reach)) eq_refl)
    as (ws' & E & [H1 H2 _ _ _]).
  exists ws'. rewrite E. split; [reflexivity|]. split; [exact H1|exact (H2 2 ltac:(discriminate))].
Defined.
