(* ===== verification/Skyr.v ===== *)
(** The parser of the Skyr chain ([bchain/coins/skyr/skyrparser.go], [skyrdecoder.go]):
    cold staking scripts, exchange addresses, zerocoin inputs and the markers of coinbase
    and coinstake outputs.

    A [SkyrParser] embeds the Bitcoin parser and overrides some of its methods;
    [skyr_parser] is the instance of the parser interface, so what is proved of the index
    and of the API holds of the Skyr chain.  What is called of [btcutil] with other address
    prefixes than the ones of the chain is the class [SkyrLib]; [chaincfg.Register] of
    parameters that are registered already is left out. *)
From stdpp Require Import base list strings gmap.
From Stdlib Require Import ZArith Lia.
From S2P Require Import Prelude Hex Types Store Vlq Codec InternalState AddrBalance TxAddresses BaseParser BitcoinParser.
From S2P Require Import RocksDB RocksDBFacts BitcoinIndex Ledger IndexInvariant Connect ConnectFacts Reader.

Open Scope Z_scope.
Open Scope go_scope.

Definition MainnetMagic : Z := 0x52594b53.
Definition TestnetMagic : Z := 0x54534554.

Definition OP_IF : Z := 0x63.
Definition OP_ELSE : Z := 0x67.
Definition OP_ENDIF : Z := 0x68.
Definition OP_ROT : Z := 0x7b.
Definition OP_ZEROCOINMINT : Z := 0xc1.
Definition OP_ZEROCOINSPEND : Z := 0xc2.
Definition OP_EXCHANGEADDR : Z := 0xe0.

Definition ZCMINT_LABEL : string := "Zerocoin Mint".
Definition ZCSPEND_LABEL : string := "Zerocoin Spend".
Definition CBASE_LABEL : string := "CoinBase TX".
Definition CSTAKE_LABEL : string := "CoinStake TX".

Definition CBASE_ADDR_INT : Z := 0xf7.
Definition CSTAKE_ADDR_INT : Z := 0xf8.

Definition STAKING_ADDR_MAIN : Z := 63.
Definition STAKING_ADDR_TEST : Z := 73.
Definition EXCHANGE_ADDR_MAIN : bytes := map z2b [0x01; 0xb9; 0xa2].
Definition EXCHANGE_ADDR_TEST : bytes := map z2b [0x01; 0xb9; 0xb1].

(** The fields of [chaincfg.Params] the parser uses. *)
Record Params := mkParams { Net : Z; PubKeyHashAddrID : bytes }.

Definition MainNetParams : Params := mkParams MainnetMagic [z2b 25].
Definition TestNetParams : Params := mkParams TestnetMagic [z2b 111].

Definition GetChainParams (chain : string) : Params :=
  if String.eqb chain "test" then TestNetParams else MainNetParams.

(** The prefix of addresses is an argument; [AddressMagicLen] is its length, 0 stands for one byte. *)
Class SkyrLib `{L : BtcLib} := {
  NewAddressPubKeyHash : bytes -> bytes -> go BitcoinParser.Address;
  DecodeAddressWith : string -> bytes -> Z -> go BitcoinParser.Address;
}.

(** The constant [TestnetMagic] of the package is a field, because the package [pivx] has the
    same parser with other constants (file [Pivx]). *)
Record SkyrParser := mkSkyrParser { sk_bitcoin : BitcoinParser; sk_Params : Params; sk_TestnetMagic : Z }.

Definition NewSkyrParser (params : Params) (keep p2sh native slip44 : Z) : SkyrParser :=
  mkSkyrParser (NewBitcoinParser keep p2sh native slip44) params TestnetMagic.

(** ** Reading numbers *)

Definition Uint8 : sgo reader Z := let! b := ReadFull 1 in let! x := slift (go_index b 0) in sret (b2z x).
Definition Uint16 (byteOrder : bytes -> Z) : sgo reader Z := let! b := ReadFull 2 in sret (byteOrder b).
Definition Uint32 (byteOrder : bytes -> Z) : sgo reader Z := let! b := ReadFull 4 in sret (byteOrder b).
Definition Uint64 (byteOrder : bytes -> Z) : sgo reader Z := let! b := ReadFull 8 in sret (byteOrder b).

(** ** Kinds of scripts *)

Definition byteAt (s : bytes) (i : nat) (v : Z) : bool :=
  match s !! i with Some b => b2z b =? v | None => false end.

Definition isZeroCoinMintScript (s : bytes) : bool := (1 <? zlen s) && byteAt s 0 OP_ZEROCOINMINT.

Definition isZeroCoinSpendScript (s : bytes) : bool := (100 <=? zlen s) && byteAt s 0 OP_ZEROCOINSPEND.

Definition isP2CSScript (s : bytes) : bool :=
  (zlen s =? 51) && byteAt s 0 OP_DUP && byteAt s 1 OP_HASH160 && byteAt s 2 OP_ROT && byteAt s 3 OP_IF &&
  byteAt s 4 OP_CHECKCOLDSTAKEVERIFY && byteAt s 5 0x14 && byteAt s 26 OP_ELSE && byteAt s 27 0x14 &&
  byteAt s 48 OP_ENDIF && byteAt s 49 OP_EQUALVERIFY && byteAt s 50 OP_CHECKSIG.

Definition isP2EXScript (s : bytes) : bool :=
  (zlen s =? 26) && byteAt s 0 OP_EXCHANGEADDR && byteAt s 1 OP_DUP && byteAt s 2 OP_HASH160 && byteAt s 3 0x14 &&
  byteAt s 24 OP_EQUALVERIFY && byteAt s 25 OP_CHECKSIG.

Definition isCoinBaseFakeAddr (s : bytes) : bool := (zlen s =? 1) && byteAt s 0 CBASE_ADDR_INT.

Definition isCoinStakeFakeAddr (s : bytes) : bool := (zlen s =? 1) && byteAt s 0 CSTAKE_ADDR_INT.

Definition isCoinbaseTx (tx : Tx.t) : bool :=
  match Tx.Vin tx with
  | [vin] => negb (bool_decide (Vin.Coinbase vin = EmptyString)) && (Vin.Sequence vin =? 2 ^ 32 - 1)
  | _ => false
  end.

(** [hex.DecodeString] with its error ignored: what was decoded before it. *)
Fixpoint hex_DecodePrefix (s : string) : bytes :=
  match s with
  | String c (String d s') =>
      match from_hex_char c, from_hex_char d with
      | Some h, Some l => z2b (h * 16 + l) :: hex_DecodePrefix s'
      | _, _ => []
      end
  | _ => []
  end.

(** The amount of a zerocoin spend: its denomination follows the serialized spend. *)
Definition GetValueSatFromZerocoinSpend (signatureScript : bytes) : go Z :=
  ((do! Seek 1 in
    let! len := Uint8 in
    do! Seek len in
    let! denom := Uint32 le_Z in
    sret (i64 (denom * 100000000))) (NewReader signatureScript)).2.

Section parser.
Context {L : BtcLib} {M : ProtoTx} {SK : SkyrLib (L := L)} (p : SkyrParser).

Definition stakingID : bytes :=
  [z2b (if Net (sk_Params p) =? sk_TestnetMagic p then STAKING_ADDR_TEST else STAKING_ADDR_MAIN)].
Definition exchangeID : bytes := if Net (sk_Params p) =? sk_TestnetMagic p then EXCHANGE_ADDR_TEST else EXCHANGE_ADDR_MAIN.

(** The addresses of the staker and of the owner; [copy] takes 20 of the 21 bytes. *)
Definition P2CSScriptToAddress (script : bytes) : go (list string * bool) :=
  if zlen script <? 50 then Fail (ErrMsg "Invalid P2CS script")
  else
    let* s := go_slice script 6 27 in
    let* StakerAddr := NewAddressPubKeyHash (take 20 s) stakingID in
    let* o := go_slice script 28 49 in
    let* OwnerAddr := NewAddressPubKeyHash (take 20 o) (PubKeyHashAddrID (sk_Params p)) in
    Ret ([EncodeAddress StakerAddr; EncodeAddress OwnerAddr], true).

Definition P2EXScriptToAddress (script : bytes) : go (list string * bool) :=
  if negb (isP2EXScript script) then Fail (ErrMsg "Invalid P2EX script")
  else
    let* h := go_slice script 4 24 in
    let* exAddr := NewAddressPubKeyHash h exchangeID in
    Ret ([EncodeAddress exAddr], true).

(** An error of the Bitcoin parser is dropped. *)
Definition skyr_outputScriptToAddresses (script : bytes) : go (list string * bool) :=
  if isZeroCoinSpendScript script then Ret ([ZCSPEND_LABEL], false)
  else if isZeroCoinMintScript script then Ret ([ZCMINT_LABEL], false)
  else if isCoinBaseFakeAddr script then Ret ([CBASE_LABEL], false)
  else if isCoinStakeFakeAddr script then Ret ([CSTAKE_LABEL], false)
  else if isP2CSScript script then P2CSScriptToAddress script
  else if isP2EXScript script then P2EXScriptToAddress script
  else match outputScriptToAddresses (sk_bitcoin p) script with
       | Fail _ => Ret ([], false)
       | r => r
       end.

Definition skyr_IsAddrDescIndexable (addrDesc : bytes) : bool :=
  negb (bool_decide (addrDesc = []) || byteAt addrDesc 0 OP_RETURN ||
        isCoinBaseFakeAddr addrDesc || isCoinStakeFakeAddr addrDesc ||
        isZeroCoinSpendScript addrDesc || isZeroCoinMintScript addrDesc).

Definition inputScript (tx : Tx.t) (input : Z) : option string :=
  match Tx.Vin tx !! Z.to_nat input with
  | Some vin => if bool_decide (Vin.ScriptSigHex vin = EmptyString) then None else Some (Vin.ScriptSigHex vin)
  | None => None
  end.

Definition skyr_GetAddrDescForUnknownInput (tx : Tx.t) (input : Z) : bytes :=
  match inputScript tx input with
  | Some scriptHex => hex_DecodePrefix scriptHex
  | None => repeat (z2b 0) 10
  end.

Definition skyr_GetValueSatForUnknownInput (tx : Tx.t) (input : Z) : Z :=
  match inputScript tx input with
  | Some scriptHex =>
      let script := hex_DecodePrefix scriptHex in
      if isZeroCoinSpendScript script then
        match GetValueSatFromZerocoinSpend script with Ret valueSat => valueSat | _ => 0 end
      else 0
  | None => 0
  end.

Definition skyr_GetAddrDescFromAddress (address : string) : go bytes :=
  match btc_GetAddrDescFromAddress address with
  | Fail _ =>
      let* exAddr := DecodeAddressWith address exchangeID 3 in
      let* script := PayToAddrScript exAddr in
      Ret (z2b OP_EXCHANGEADDR :: script)
  | r => r
  end.

(** ** Transactions *)

(** The loop is left at a coinbase input that is not a zerocoin spend. *)
Fixpoint skyrVins (isCoinBase : bool) (ins : list Wire.TxIn) : list Vin.t :=
  match ins with
  | [] => []
  | i :: ins' =>
      if negb (isZeroCoinSpendScript (Wire.SignatureScript i)) && isCoinBase then
        Vin.mk (hex_EncodeToString (Wire.SignatureScript i)) EmptyString 0 EmptyString (Wire.Sequence i) []
          :: map (fun _ => zeroVin) ins'
      else vinFromTxIn i :: skyrVins isCoinBase ins'
  end.

(** The marker of an output with an empty script. *)
Definition markerHex (isCoinBase : bool) : string :=
  hex_EncodeToString [z2b (if isCoinBase then CBASE_ADDR_INT else CSTAKE_ADDR_INT)].

Definition skyrVout (t : Wire.MsgTx) (parseAddresses : bool) (i : nat) (out : Wire.TxOut) : go Vout.t :=
  let* addrs :=
    (if parseAddresses then
       match skyr_outputScriptToAddresses (Wire.PkScript out) with
       | Ret (addrs, _) => Ret addrs
       | Fail _ => Ret []
       | Panic => Panic
       end
     else Ret []) in
  let* h :=
    (if bool_decide (hex_EncodeToString (Wire.PkScript out) = EmptyString) then
       if Wire.IsCoinBase t then
         let* in0 := go_index (Wire.TxIns t) 0 in
         Ret (markerHex (negb (isZeroCoinSpendScript (Wire.SignatureScript in0))))
       else Ret (markerHex false)
     else Ret (hex_EncodeToString (Wire.PkScript out))) in
  Ret (Vout.mk (Wire.Value out) EmptyString (u32 (Z.of_nat i)) h addrs).

Definition skyr_TxFromMsgTx (t : Wire.MsgTx) (parseAddresses : bool) : go Tx.t :=
  let* vout := go_map (fun x => skyrVout t parseAddresses x.1 x.2)
                 (combine (seq 0 (length (Wire.TxOuts t))) (Wire.TxOuts t)) in
  Ret (Tx.mk EmptyString (Wire.Hash t) (Wire.Version t) (Wire.LockTime t)
         (skyrVins (Wire.IsCoinBase t) (Wire.TxIns t)) vout 0 0 0 [] [] 0 NoSpecificData).

Definition skyr_ParseTx (b : bytes) : go Tx.t :=
  let* t := tx_Deserialize b in
  let* tx := skyr_TxFromMsgTx t true in
  Ret (set_Hex (hex_EncodeToString b) tx).

(** One output of a transaction in JSON: the amount is converted, an empty script is marked. *)
Definition jsonVout (tx : Tx.t) (vout : Vout.t) : go Vout.t :=
  let* valueSat := AmountToBigInt (Base (sk_bitcoin p)) (String.list_ascii_of_string (Vout.JsonValue vout)) in
  let h := if bool_decide (Vout.ScriptPubKeyHex vout = EmptyString) then markerHex (isCoinbaseTx tx)
           else Vout.ScriptPubKeyHex vout in
  Ret (Vout.mk valueSat EmptyString (Vout.N vout) h (Vout.Addresses vout)).

Definition set_Vouts (vout : list Vout.t) (tx : Tx.t) : Tx.t :=
  Tx.mk (Tx.Hex tx) (Tx.Txid tx) (Tx.Version tx) (Tx.LockTime tx) (Tx.Vin tx) vout (Tx.Confirmations tx)
    (Tx.Time tx) (Tx.Blocktime tx) (Tx.VShieldIn tx) (Tx.VShieldOut tx) (Tx.ShieldValBal tx) (Tx.SpecificData tx).

Definition skyr_ParseTxFromJson (unmarshal : string -> go Tx.t) (msg : string) : go Tx.t :=
  let* tx := unmarshal msg in
  let* vout := go_map (jsonVout tx) (Tx.Vout tx) in
  Ret (set_Vouts vout tx).

(** ** The interface *)

Definition skyr_parser : BlockChainParser := {|
  GetChainType := ChainBitcoinType;
  KeepBlockAddresses := BlockAddressesToKeep (Base (sk_bitcoin p));
  AmountDecimals := AmountDecimalPoint (Base (sk_bitcoin p));
  GetAddrDescFromVout := btc_GetAddrDescFromVout;
  GetAddrDescFromAddress := skyr_GetAddrDescFromAddress;
  GetAddressesFromAddrDesc := skyr_outputScriptToAddresses;
  IsAddrDescIndexable := skyr_IsAddrDescIndexable;
  PackedTxidLen := BaseParser_PackedTxidLen;
  PackTxid := BaseParser_PackTxid;
  UnpackTxid := BaseParser_UnpackTxid;
  PackTx := BaseParser_PackTx;
  UnpackTx := BaseParser_UnpackTx;
  GetAddrDescForUnknownInput := skyr_GetAddrDescForUnknownInput;
  GetValueSatForUnknownInput := skyr_GetValueSatForUnknownInput;
  PackBlockHash := BaseParser_PackBlockHash;
  UnpackBlockHash := BaseParser_UnpackBlockHash;
  EthereumTypeGetErc20FromTx := BaseParser_EthereumTypeGetErc20FromTx;
|}.
End parser.

(** * Scripts *)

Definition p2pkh (h : bytes) : bytes := map z2b [OP_DUP; OP_HASH160; 20] ++ h ++ map z2b [OP_EQUALVERIFY; OP_CHECKSIG].

Definition p2cs (staker owner : bytes) : bytes :=
  map z2b [OP_DUP; OP_HASH160; OP_ROT; OP_IF; OP_CHECKCOLDSTAKEVERIFY; 20] ++ staker ++ map z2b [OP_ELSE; 20] ++ owner ++
  map z2b [OP_ENDIF; OP_EQUALVERIFY; OP_CHECKSIG].

Definition p2ex (h : bytes) : bytes := z2b OP_EXCHANGEADDR :: p2pkh h.

(** What the parser relies on of the library: a hash of 20 bytes has an address for every
    prefix; its script is the usual one; it reads back with its prefix; a script to a hash
    is shown with the prefix of the chain; and an address with the longer prefix of an
    exchange is none of the chain. *)
Class SkyrLaws {L : BtcLib} {SK : SkyrLib (L := L)} (p : SkyrParser) := {
  NewAddress_hash : forall h id, zlen h = 20 -> exists a, NewAddressPubKeyHash h id = Ret a;
  PayToAddrScript_hash : forall h id a, NewAddressPubKeyHash h id = Ret a -> PayToAddrScript a = Ret (p2pkh h);
  DecodeAddressWith_Encode : forall h id a, NewAddressPubKeyHash h id = Ret a ->
    DecodeAddressWith (EncodeAddress a) id (zlen id) = Ret a;
  ExtractPkScriptAddrs_p2pkh : forall h a, zlen h = 20 ->
    NewAddressPubKeyHash h (PubKeyHashAddrID (sk_Params p)) = Ret a ->
    ExtractPkScriptAddrs (p2pkh h) = Ret (PubKeyHashTy, [a]);
  DecodeAddress_own : forall h a, NewAddressPubKeyHash h (PubKeyHashAddrID (sk_Params p)) = Ret a ->
    DecodeAddress (EncodeAddress a) = Ret a;
  DecodeAddress_exchange : forall h a, NewAddressPubKeyHash h (exchangeID p) = Ret a ->
    exists e, DecodeAddress (EncodeAddress a) = Fail e;
}.

Lemma byteAt_true s i v : 0 <= v < 256 -> byteAt s i v = true -> s !! i = Some (z2b v).
Proof.
  intros Hv. unfold byteAt. destruct (s !! i) as [b|]; [|done]. intros <-%Z.eqb_eq. by rewrite z2b_b2z.
Qed.

Lemma zlen_length {A} (l : list A) n : zlen l = Z.of_nat n -> length l = n.
Proof. unfold zlen. lia. Qed.

Lemma split_at {A} (l : list A) n m : length l = (n + m)%nat -> exists l1 l2, l = l1 ++ l2 /\ length l1 = n /\ length l2 = m.
Proof.
  intros H. exists (take n l), (drop n l). rewrite take_drop, length_take, length_drop. split_and!; [done|lia|lia].
Qed.

(** Cuts lists of known length into their items. *)
Ltac items :=
  repeat match goal with
    | H : length ?l = S _ |- _ => is_var l; destruct l; [discriminate H|simpl in H; apply eq_add_S in H]
    | H : length ?l = 0%nat |- _ => is_var l; destruct l; [clear H|discriminate H]
    end.

(** The scripts [isP2CSScript] accepts. *)
Lemma isP2CSScript_spec s :
  isP2CSScript s = true <-> exists staker owner, length staker = 20%nat /\ length owner = 20%nat /\ s = p2cs staker owner.
Proof.
  split.
  - unfold isP2CSScript. rewrite !andb_true_iff, Z.eqb_eq. intros H.
    destruct H as [[[[[[[[[[[Hl%(zlen_length _ 51) H0] H1] H2] H3] H4] H5] H26] H27] H48] H49] H50].
    destruct (split_at s 6 45 Hl) as (a & s1 & -> & La & L1). destruct (split_at s1 20 25 L1) as (staker & s2 & -> & Ls & L2).
    destruct (split_at s2 2 23 L2) as (b & s3 & -> & Lb & L3). destruct (split_at s3 20 3 L3) as (owner & c & -> & Lo & Lc).
    exists staker, owner. split; [done|]. split; [done|]. clear Hl L1 L2 L3.
    repeat match goal with H : byteAt _ _ _ = true |- _ => apply byteAt_true in H; [|by vm_compute] end.
    items. cbn [app lookup list_lookup] in *. simplify_eq. reflexivity.
  - intros (staker & owner & Hs & Ho & ->). items. reflexivity.
Qed.

Lemma isP2EXScript_spec s : isP2EXScript s = true <-> exists h, length h = 20%nat /\ s = p2ex h.
Proof.
  split.
  - unfold isP2EXScript. rewrite !andb_true_iff, Z.eqb_eq. intros H.
    destruct H as [[[[[[Hl%(zlen_length _ 26) H0] H1] H2] H3] H24] H25].
    destruct (split_at s 4 22 Hl) as (a & s1 & -> & La & L1). destruct (split_at s1 20 2 L1) as (h & c & -> & Lh & Lc).
    exists h. split; [done|]. clear Hl L1.
    repeat match goal with H : byteAt _ _ _ = true |- _ => apply byteAt_true in H; [|by vm_compute] end.
    items. cbn [app lookup list_lookup] in *. simplify_eq. reflexivity.
  - intros (h & Hh & ->). items. reflexivity.
Qed.

Section facts.
Context `{VL : VlqLaws} {M : ProtoTx} {L : BtcLib} {SK : SkyrLib (L := L)} (p : SkyrParser) {SL : SkyrLaws p}.

#[export] Instance skyr_parser_laws : ParserLaws (skyr_parser p).
Proof.
  split; cbn -[Z.pow]; [done| |].
  - intros b Hb. eexists. split; [done|]. apply PackTxid_hex. by intros ->.
  - intros b Hb. eexists. split; [done|]. apply hex_DecodeString_Encode.
Qed.

(** A kind of script the one at hand is not. *)
Ltac other_kind :=
  match goal with |- (if ?b then _ else _) = _ => let E := fresh in assert (b = false) as E by (items; reflexivity); rewrite E; clear E end.

(** A script to a hash is left to the Bitcoin parser. *)
Lemma addresses_p2pkh h a : length h = 20%nat -> NewAddressPubKeyHash h (PubKeyHashAddrID (sk_Params p)) = Ret a ->
  skyr_outputScriptToAddresses p (p2pkh h) = Ret ([EncodeAddress a], true).
Proof.
  intros Hh Ha. assert (ExtractPkScriptAddrs (p2pkh h) = Ret (PubKeyHashTy, [a])) as He
    by (apply ExtractPkScriptAddrs_p2pkh; [unfold zlen; lia|done]).
  unfold skyr_outputScriptToAddresses. do 6 other_kind. unfold outputScriptToAddresses. by rewrite He.
Qed.

Lemma addresses_p2cs staker owner : length staker = 20%nat -> length owner = 20%nat ->
  exists s o, NewAddressPubKeyHash staker (stakingID p) = Ret s /\
    NewAddressPubKeyHash owner (PubKeyHashAddrID (sk_Params p)) = Ret o /\
    skyr_outputScriptToAddresses p (p2cs staker owner) = Ret ([EncodeAddress s; EncodeAddress o], true).
Proof.
  intros Hs Ho. destruct (NewAddress_hash staker (stakingID p)) as [s Es]; [unfold zlen; lia|].
  destruct (NewAddress_hash owner (PubKeyHashAddrID (sk_Params p))) as [o Eo]; [unfold zlen; lia|].
  exists s, o. split; [done|]. split; [done|]. unfold skyr_outputScriptToAddresses. do 4 other_kind.
  rewrite (proj2 (isP2CSScript_spec _)) by eauto. unfold P2CSScriptToAddress. other_kind.
  assert (go_slice (p2cs staker owner) 6 27 = Ret (staker ++ [z2b OP_ELSE])) as -> by (items; reflexivity).
  assert (go_slice (p2cs staker owner) 28 49 = Ret (owner ++ [z2b OP_ENDIF])) as -> by (items; reflexivity).
  gostep. rewrite <- Hs at 1. rewrite <- Ho, !take_app_length, Es, Eo. done.
Qed.

Lemma addresses_p2ex h : length h = 20%nat ->
  exists a, NewAddressPubKeyHash h (exchangeID p) = Ret a /\ skyr_outputScriptToAddresses p (p2ex h) = Ret ([EncodeAddress a], true).
Proof.
  intros Hh. destruct (NewAddress_hash h (exchangeID p)) as [a Ea]; [unfold zlen; lia|]. exists a. split; [done|].
  unfold skyr_outputScriptToAddresses. do 5 other_kind. rewrite (proj2 (isP2EXScript_spec _)) by eauto.
  unfold P2EXScriptToAddress. rewrite (proj2 (isP2EXScript_spec _)) by eauto. cbn [negb].
  assert (go_slice (p2ex h) 4 24 = Ret h) as -> by (items; reflexivity). gostep. by rewrite Ea.
Qed.

(** The index enters an output to a cold staking script under the owner too. *)
Lemma out_descs_p2cs staker owner : length staker = 20%nat -> length owner = 20%nat ->
  out_descs (P := skyr_parser p) (p2cs staker owner) = [p2cs staker owner; p2pkh owner].
Proof.
  intros Hs Ho. assert (addrDescriptors (p2cs staker owner) = Ret [p2cs staker owner; p2pkh owner]) as E
    by (items; reflexivity).
  unfold out_descs. rewrite E. items. reflexivity.
Qed.

(** ** Zerocoin *)

(** The serialized spend and the denomination, as the script has them. *)
Definition zerocoinSpend (spend : bytes) (denom : Z) (rest : bytes) : bytes :=
  z2b OP_ZEROCOINSPEND :: z2b (zlen spend) :: spend ++ reverse (be_bytes 4 denom) ++ rest.

Lemma zerocoinSpend_value spend denom rest : zlen spend < 256 -> in_u32 denom ->
  GetValueSatFromZerocoinSpend (zerocoinSpend spend denom rest) = Ret (denom * 100000000).
Proof.
  intros Hs Hd. pose proof (zlen_nonneg spend).
  assert (zlen (reverse (be_bytes 4 denom)) = 4) as H4 by (unfold zlen; rewrite length_reverse; apply be_bytes_zlen).
  assert (zerocoinSpend spend denom rest =
    ([z2b OP_ZEROCOINSPEND] ++ [z2b (zlen spend)] ++ spend ++ reverse (be_bytes 4 denom)) ++ rest) as ->.
  { unfold zerocoinSpend. by rewrite <- !app_assoc. }
  apply reads_front; [rewrite !zlen_app, H4; change (zlen [_]) with 1; lia|].
  eapply reads_bind; [by apply reads_Seek|]. eapply reads_bind; [|eapply reads_bind].
  - eapply reads_bind_end; [by apply reads_ReadFull|]. eapply reads_bind_end; [by apply reads_lift|]. apply reads_ret.
  - apply reads_Seek. by rewrite b2z_z2b, Z.mod_small.
  - unfold Uint32. eapply reads_bind_end; [eapply reads_bind_end; [by apply reads_ReadFull|apply reads_ret]|].
    rewrite le_Z_be_bytes by done. unfold in_u32 in Hd. rewrite i64_id by (unfold in_i64; lia). apply reads_ret.
Qed.

Lemma hex_DecodePrefix_Encode b : hex_DecodePrefix (hex_EncodeToString b) = b.
Proof.
  induction b as [|x b IH]; [done|]. cbn [hex_EncodeToString hex_DecodePrefix].
  pose proof (b2z_range x) as Hx.
  assert (0 <= b2z x / 16 < 16) by (split; [apply Z.div_pos; lia|apply Z.div_lt_upper_bound; lia]).
  pose proof (Z.mod_pos_bound (b2z x) 16 ltac:(lia)).
  rewrite !from_hex_digit, IH by done. f_equal. rewrite <- (z2b_b2z x) at 3. f_equal. rewrite (Z.div_mod (b2z x) 16) at 3 by lia. lia.
Qed.

(** ** Properties *)

(** An unspent output of a stored transaction with a descriptor. *)
Definition stored_with `{DB : Store} (d : RocksDB) (desc : bytes) (u : Utxo.t) : Prop :=
  exists ta o i, getTxAddresses d (Utxo.BtxID u) = Ret (Some ta) /\ Height ta = Utxo.Height u /\
    Outputs ta !! i = Some o /\ Utxo.Vout u = Z.of_nat i /\ TxOutput.Spent o = false /\
    TxOutput.ValueSat o = Utxo.ValueSat u /\ TxOutput.AddrDesc o = desc.

(** C29: On an indexed Skyr chain a cold staking output belongs to the owner the explorer
    shows: the second address of its script leads to a descriptor that is shown as that
    address again, and the output is among the utxos, whose sum is the balance, of this
    descriptor. *)
Theorem coldstake_owner `{SL' : StoreLaws} (d : RocksDB) blocks staker owner u :
  reliable -> chain (P := skyr_parser p) d blocks -> length staker = 20%nat -> length owner = 20%nat ->
  stored_with d (p2cs staker owner) u ->
  exists s o r, skyr_outputScriptToAddresses p (p2cs staker owner) = Ret ([s; o], true) /\
    skyr_GetAddrDescFromAddress p o = Ret (p2pkh owner) /\
    skyr_outputScriptToAddresses p (p2pkh owner) = Ret ([o], true) /\
    GetAddrDescBalance (P := skyr_parser p) d (p2pkh owner) DetailUTXOIndexed = Ret (Some r) /\
    u ∈ unspent_utxos (Utxos r) /\ BalanceSat r = unspent_sum (Utxos r).
Proof.
  intros Hrel Hch Hs Ho (ta & o & i & Hta & Hh & Hi & Hv & Hsp & Hval & Had).
  destruct (addresses_p2cs staker owner Hs Ho) as (sa & oa & Es & Eo & E).
  destruct (chain_ledger (P := skyr_parser p) d blocks (p2pkh owner) Hrel eq_refl Hch) as (r & Hr & Hbal & Hown & _).
  assert (u ∈ unspent_utxos (Utxos (default emptyBalance r))) as Hu.
  { apply Hown. exists ta, o, i. rewrite Had, out_descs_p2cs by done. split_and!; try done. right. left. }
  destruct r as [r|]; [|by apply not_elem_of_nil in Hu].
  exists (EncodeAddress sa), (EncodeAddress oa), r. split; [done|]. split; [|split; [by apply addresses_p2pkh|done]].
  unfold skyr_GetAddrDescFromAddress, btc_GetAddrDescFromAddress, addressToOutputScript.
  rewrite (DecodeAddress_own owner) by done. gostep. by rewrite (PayToAddrScript_hash owner _ oa Eo).
Qed.

(** Every exchange script is shown as one address, and this address leads back to the
    script. *)
Theorem exchange_roundtrip s : isP2EXScript s = true ->
  exists a, skyr_outputScriptToAddresses p s = Ret ([a], true) /\ skyr_GetAddrDescFromAddress p a = Ret s.
Proof.
  intros (h & Hh & ->)%isP2EXScript_spec. destruct (addresses_p2ex h Hh) as (a & Ea & E). exists (EncodeAddress a).
  split; [done|]. unfold skyr_GetAddrDescFromAddress, btc_GetAddrDescFromAddress, addressToOutputScript.
  destruct (DecodeAddress_exchange h a Ea) as [e He]. rewrite He. gostep.
  pose proof (DecodeAddressWith_Encode h (exchangeID p) a Ea) as Hd.
  assert (zlen (exchangeID p) = 3) as Hl by (unfold exchangeID; by destruct (_ =? _)). rewrite Hl in Hd. rewrite Hd. gostep.
  by rewrite (PayToAddrScript_hash h _ a Ea).
Qed.

(** The value of a zerocoin input, which spends no output of the index, is the
    denomination its script carries. *)
Theorem zerocoin_value tx input vin spend denom rest :
  0 <= input -> Tx.Vin tx !! Z.to_nat input = Some vin -> Vin.ScriptSigHex vin = hex_EncodeToString (zerocoinSpend spend denom rest) ->
  zlen spend < 256 -> 94 <= zlen spend + zlen rest -> in_u32 denom ->
  skyr_GetValueSatForUnknownInput tx input = denom * 100000000 /\
  skyr_outputScriptToAddresses p (skyr_GetAddrDescForUnknownInput tx input) = Ret ([ZCSPEND_LABEL], false).
Proof.
  intros H0 Hi Hx Hs Hr Hd. unfold skyr_GetValueSatForUnknownInput, skyr_GetAddrDescForUnknownInput, inputScript.
  rewrite Hi, bool_decide_false by (by rewrite Hx). rewrite Hx, hex_DecodePrefix_Encode.
  assert (isZeroCoinSpendScript (zerocoinSpend spend denom rest) = true) as Ez.
  { unfold isZeroCoinSpendScript, zerocoinSpend. apply andb_true_iff. split; [|done]. apply Z.leb_le.
    rewrite !zlen_cons, !zlen_app. pose proof (be_bytes_zlen 4 denom) as Hl. unfold zlen in *. rewrite length_reverse. lia. }
  unfold skyr_outputScriptToAddresses. by rewrite Ez, zerocoinSpend_value.
Qed.

(** An output without script, the mark of a coinstake, gets a descriptor that is shown
    with a label and never entered into the index; the other outputs keep their scripts,
    and all amounts are converted. *)
Theorem markers_not_indexed unmarshal msg tx tx' i v :
  unmarshal msg = Ret tx -> skyr_ParseTxFromJson p unmarshal msg = Ret tx' -> Tx.Vout tx !! i = Some v ->
  exists v', Tx.Vout tx' !! i = Some v' /\
    AmountToBigInt (Base (sk_bitcoin p)) (String.list_ascii_of_string (Vout.JsonValue v)) = Ret (Vout.ValueSat v') /\
    (Vout.ScriptPubKeyHex v <> EmptyString -> Vout.ScriptPubKeyHex v' = Vout.ScriptPubKeyHex v) /\
    (Vout.ScriptPubKeyHex v = EmptyString ->
     exists desc, hex_DecodeString (Vout.ScriptPubKeyHex v') = Ret desc /\ skyr_IsAddrDescIndexable desc = false /\
       skyr_outputScriptToAddresses p desc = Ret ([if isCoinbaseTx tx then CBASE_LABEL else CSTAKE_LABEL], false)).
Proof.
  intros Hu. unfold skyr_ParseTxFromJson. rewrite Hu. gostep. intros (vs & Hvs & [= <-])%go_bind_ret Hi. cbn [Tx.Vout set_Vouts].
  destruct (Forall2_lookup_l _ _ _ i v (go_map_Forall2 _ _ _ Hvs) Hi) as (v' & Hv' & Ev). exists v'. split; [done|].
  unfold jsonVout in Ev. apply go_bind_ret in Ev as (z & Hz & [= <-]). split; [done|].
  cbn [Vout.ScriptPubKeyHex]. split.
  - intros Hne. by rewrite bool_decide_false.
  - intros He. rewrite bool_decide_true by done.
    exists [z2b (if isCoinbaseTx tx then CBASE_ADDR_INT else CSTAKE_ADDR_INT)]. unfold markerHex.
    rewrite hex_DecodeString_Encode. split; [done|]. by destruct (isCoinbaseTx tx).
Qed.
End facts.

(** * A concrete library

    An address is its prefix and its hash, written in hexadecimal digits. *)

Definition skyr_btclib : BtcLib := {|
  Address := bytes * bytes;
  ConvertP2PKtoP2PKH := Ret;
  DecodeAddress s :=
    let* b := hex_DecodeString s in
    if (zlen b =? 21) && byteAt b 0 25 then Ret (take 1 b, drop 1 b) else Fail (ErrMsg "unknown address type");
  PayToAddrScript a := Ret (p2pkh a.2);
  EncodeAddress a := hex_EncodeToString (a.1 ++ a.2);
  ExtractPkScriptAddrs b :=
    if (zlen b =? 25) && byteAt b 0 OP_DUP then Ret (PubKeyHashTy, [([z2b 25], take 20 (drop 3 b))]) else Ret (OtherScriptTy, []);
  tx_Deserialize b := Ret (Wire.mkMsgTx (hex_EncodeToString b) false 1 0 [] [Wire.mkTxOut 7 b]);
  block_Deserialize b := Ret (Wire.mkMsgBlock 0 []);
  Hash160 b := b;
  NewAddressScriptHashFromHash h := Ret ([z2b 28], h);
  NewAddressWitnessPubKeyHash h := Ret ([], h);
  ExtendedKey := list Z;
  NewKeyFromString _ := Ret [];
  Child k i := Ret (i :: k);
  key_Version _ := 0;
  key_Address k := Ret ([z2b 25], map z2b k);
  key_PubKeyBytes k := map z2b k;
  key_ChildNum k := default 0 (head k);
  key_Depth k := zlen k;
|}.

Definition skyr_lib : SkyrLib (L := skyr_btclib) := @Build_SkyrLib skyr_btclib
  (fun h id => if zlen h =? 20 then Ret (id, h) else Fail (ErrMsg "pkHash must be 20 bytes"))
  (fun s id n =>
     let* b := hex_DecodeString s in
     if bool_decide (take (Z.to_nat n) b = id) && (zlen b =? n + 20) then Ret (id, drop (Z.to_nat n) b)
     else Fail (ErrMsg "checksum mismatch")).

Definition skyr_main : SkyrParser := NewSkyrParser MainNetParams 3 49 84 0.

Lemma skyr_lib_laws : SkyrLaws (SK := skyr_lib) skyr_main.
Proof.
  split; cbn.
  - intros h id Hh. exists (id, h). by rewrite Hh.
  - intros h id a. destruct (_ =? _); [|done]. by intros [= <-].
  - intros h id a. destruct (Z.eqb_spec (zlen h) 20) as [Hh|]; [|done]. intros [= <-]. cbn [fst snd].
    rewrite hex_DecodeString_Encode. gostep. assert (Z.to_nat (zlen id) = length id) as -> by (unfold zlen; lia).
    rewrite take_app_length, drop_app_length, bool_decide_true, zlen_app, Hh by done. by rewrite Z.eqb_refl.
  - intros h a Hh. rewrite Hh. cbn. intros [= <-].
    apply (zlen_length _ 20) in Hh. items. reflexivity.
  - intros h a. destruct (Z.eqb_spec (zlen h) 20) as [Hh|]; [|done]. intros [= <-]. cbn [fst snd].
    rewrite hex_DecodeString_Encode. gostep. apply (zlen_length _ 20) in Hh. items. reflexivity.
  - intros h a. destruct (Z.eqb_spec (zlen h) 20) as [Hh|]; [|done]. intros [= <-]. cbn [fst snd].
    rewrite hex_DecodeString_Encode. gostep. eexists. apply (zlen_length _ 20) in Hh. items. reflexivity.
Qed.

(** ** Witnesses *)

Definition stakerHash : bytes := repeat Byte.x11 20.
Definition ownerHash : bytes := repeat Byte.x22 20.
Definition coldstake : bytes := p2cs stakerHash ownerHash.

Abbreviation skyr_test := (skyr_parser (L := skyr_btclib) (SK := skyr_lib) skyr_main).

(** A coinstake: an output without script and a cold staking output. *)
Definition stake_block : Block.t :=
  Block.mk (hex_EncodeToString (repeat Byte.xaa 32)) EmptyString EmptyString 7 1 300 1500000000
    [Tx.mk EmptyString (hex_EncodeToString id1) 1 0 [Vin.mk "00" EmptyString 0 EmptyString 0 []]
       [pay 0 "f8"; pay 1000 (hex_EncodeToString coldstake)] 0 0 0 [] [] 0 NoSpecificData].

Definition stake_run := ConnectBlock (P := skyr_test) (V := leb) 77 stake_block (open_db ∅).

Definition after_stake : blockState :=
  (processAddressesBitcoinType (P := skyr_test) (V := leb) (open_db ∅) stake_block (before (open_db ∅))).1.

Lemma stake_valid : valid_block (P := skyr_test) (V := leb) (open_db ∅) (before (open_db ∅)) stake_block [id1].
Proof.
  split.
  - repeat constructor; vm_compute; congruence.
  - apply (bool_decide_unpack _). vm_compute. exact I.
  - intros id H. apply list_elem_of_singleton in H as ->. vm_compute. reflexivity.
  - apply Forall_singleton, Forall_singleton. split; [split; [discriminate|reflexivity]|]. left. reflexivity.
  - apply (bool_decide_unpack _). vm_compute. exact I.
  - intros s H. by apply not_elem_of_nil in H.
Qed.

Lemma stake_fits : fits (P := skyr_test) after_stake.
Proof.
  split.
  - intros id ta H. apply (bool_decide_unpack (wf_txAddresses ta)). apply Is_true_true.
    refine (map_forallb (fun ta => bool_decide (wf_txAddresses ta)) (txAddressesOf after_stake) id ta _ H).
    vm_compute. reflexivity.
  - intros ad B H. apply (bool_decide_unpack (wf_balance 32 B /\ 0 < Txs B)). apply Is_true_true.
    refine (map_forallb (fun B => bool_decide (wf_balance 32 B /\ 0 < Txs B)) (balances after_stake) ad B _ H).
    vm_compute. reflexivity.
Qed.

Lemma stake_connectable : connectable (P := skyr_test) (V := leb) (open_db ∅) stake_block [id1].
Proof.
  split.
  - eexists. vm_compute. reflexivity.
  - vm_compute. split; congruence.
  - apply stake_valid.
  - intros b E. replace b with after_stake; [apply stake_fits|]. unfold after_stake. by rewrite E.
Qed.

Lemma stake_run_ok : stake_run.2 = Ret tt.
Proof. vm_compute. reflexivity. Qed.

Lemma stake_chain : chain (P := skyr_test) (V := leb) stake_run.1 ([] ++ [stake_block]).
Proof.
  refine (chain_connect (P := skyr_test) (V := leb) (open_db ∅) stake_run.1 [] 77 stake_block [id1] _ stake_connectable _).
  - refine (chain_new (P := skyr_test) (V := leb) (open_db ∅) ∅ (newInternalState "Bitcoin") eq_refl eq_refl eq_refl).
  - rewrite <- stake_run_ok. apply surjective_pairing.
Qed.

Lemma coldstake_owner_witness :
  exists r, GetAddrDescBalance (P := skyr_test) (V := leb) stake_run.1 (p2pkh ownerHash) DetailUTXOIndexed = Ret (Some r) /\
    BalanceSat r = unspent_sum (Utxos r).
Proof.
  destruct (coldstake_owner (VL := leb_laws) (L := skyr_btclib) (SK := skyr_lib) skyr_main (SL := skyr_lib_laws)
    stake_run.1 ([] ++ [stake_block]) stakerHash ownerHash (Utxo.mk id1 1 7 1000) mem_store_reliable stake_chain eq_refl eq_refl)
    as (s & o & r & _ & _ & _ & Hr & _ & Hb).
  - eexists _, _, 1%nat. split; [vm_compute; reflexivity|]. repeat split.
  - exists r. split; assumption.
Defined.

Lemma exchange_roundtrip_witness :
  exists a, skyr_outputScriptToAddresses (L := skyr_btclib) (SK := skyr_lib) skyr_main (p2ex ownerHash) = Ret ([a], true) /\
    skyr_GetAddrDescFromAddress (L := skyr_btclib) (SK := skyr_lib) skyr_main a = Ret (p2ex ownerHash).
Proof. apply (exchange_roundtrip (L := skyr_btclib) (SK := skyr_lib) skyr_main (SL := skyr_lib_laws)). reflexivity. Defined.

(** A spend of the denomination 50. *)
Definition spend50 : bytes := zerocoinSpend (repeat Byte.x07 90) 50 (repeat Byte.x00 20).

Definition spend50_vin : Vin.t := Vin.mk EmptyString EmptyString 0 (hex_EncodeToString spend50) 0 [].
Definition spend50_tx : Tx.t := Tx.mk EmptyString (hex_EncodeToString id1) 1 0 [spend50_vin] [] 0 0 0 [] [] 0 NoSpecificData.

Lemma zerocoin_value_witness : skyr_GetValueSatForUnknownInput spend50_tx 0 = 5000000000.
Proof.
  refine (proj1 (zerocoin_value (L := skyr_btclib) (SK := skyr_lib) skyr_main spend50_tx 0 spend50_vin (repeat Byte.x07 90) 50
    (repeat Byte.x00 20) _ eq_refl eq_refl _ _ _)); vm_compute; congruence || (split; congruence).
Defined.

Definition json_tx : Tx.t :=
  Tx.mk EmptyString (hex_EncodeToString id1) 1 0 [spend50_vin] [Vout.mk 0 "0.0" 0 EmptyString []; Vout.mk 0 "12.5" 1 "51" []]
    0 0 0 [] [] 0 NoSpecificData.

Lemma markers_not_indexed_witness :
  exists tx' v', skyr_ParseTxFromJson skyr_main (fun _ => Ret json_tx) EmptyString = Ret tx' /\
    Tx.Vout tx' !! 0%nat = Some v' /\ Vout.ScriptPubKeyHex v' = "f8"%string.
Proof.
  destruct (skyr_ParseTxFromJson skyr_main (fun _ => Ret json_tx) EmptyString) as [tx'| |] eqn:E; [|discriminate..].
  destruct (markers_not_indexed (L := skyr_btclib) (SK := skyr_lib) skyr_main (fun _ => Ret json_tx) EmptyString json_tx tx' 0
    (Vout.mk 0 "0.0" 0 EmptyString []) eq_refl E eq_refl) as (v' & Hv' & _).
  exists tx', v'. split; [reflexivity|]. split; [exact Hv'|].
  vm_compute in E. injection E as <-. vm_compute in Hv'. injection Hv' as <-. reflexivity.
Defined.

(** A script for one of two keys; a byte of the first key is the opcode of cold staking. *)
Definition one_of_two : bytes :=
  map z2b [0x51; 0x21; 0x02; 0x99; 0xd1] ++ repeat Byte.x33 30 ++ map z2b [0x21; 0x03] ++ repeat Byte.x44 32 ++ map z2b [0x52; 0xae].

(** The index takes every script of more than 50 bytes with the opcode at position 4
    for cold staking, the parser compares the whole script: an output for one of two keys,
    which the parser does not show as cold staking, is credited to an owner whose hash is
    cut out of the keys. *)
Theorem false_owner :
  isP2CSScript one_of_two = false /\
  out_descs (P := skyr_test) one_of_two = [one_of_two; p2pkh (take 20 (drop 28 one_of_two))].
Proof. split; vm_compute; reflexivity. Qed.
