(* ===== verification/Rpc.v ===== *)
(** The JSON-RPC clients of the daemon: [bchain/coins/btc/bitcoinrpc.go], the encoding of
    the requests in [codec.go] and the client of the Skyr daemon [bchain/coins/skyr/skyrrpc.go].

    A request is a value of [Cmd]; [marshalV1] and [marshalV2] are the two forms it is sent
    in.  The class [Daemon] is the other side: the HTTP exchange and what [json.Unmarshal]
    makes of the body for each kind of answer.  [skyr_chain] is the instance of the
    interface the synchronization and the mempool use.  Numbers of the type float64 and
    [json.Number] are kept as their text; message queue, logs and the alternative fee
    provider are left out. *)
From stdpp Require Import base list strings gmap.
From Stdlib Require Import ZArith Lia Ascii.
From S2P Require Import Prelude Hex Types Store Vlq Codec InternalState AddrBalance TxAddresses BaseParser BitcoinParser.
From S2P Require Import RocksDB RocksDBFacts BitcoinIndex EthParser EthIndex Connect ConnectFacts Mempool Sync ApiTypes Worker Skyr.

Open Scope Z_scope.
Open Scope go_scope.

(** * Requests *)

Inductive Cmd :=
  | CmdGetBlockHash (Height : Z)
  | CmdGetBestBlockHash
  | CmdGetBlockCount
  | CmdGetBlockChainInfo
  | CmdGetNetworkInfo
  | CmdGetMempool
  | CmdGetBlockHeader (BlockHash : string) (Verbose : bool)
  | CmdGetBlock (BlockHash : string) (Verbosity : Z)
  | CmdGetRawTransaction (Txid : string) (Verbose : bool)
  | CmdEstimateSmartFee (ConfTarget : Z) (EstimateMode : string)
  | CmdEstimateFee (Blocks : Z)
  | CmdSendRawTransaction (Params : list string)
  | CmdGetMempoolEntry (Params : list string)
  | CmdGetInfo
  | CmdGetMasternodeCount
  | CmdGetConnectionCount
  | CmdListMasternodes
  | CmdGetPeerInfo
  | CmdGetNodeBlockCount (Addr : string)
  | CmdFindSerial (Params : list string).

Definition Method (c : Cmd) : string :=
  match c with
  | CmdGetBlockHash _ => "getblockhash"
  | CmdGetBestBlockHash => "getbestblockhash"
  | CmdGetBlockCount => "getblockcount"
  | CmdGetBlockChainInfo => "getblockchaininfo"
  | CmdGetNetworkInfo => "getnetworkinfo"
  | CmdGetMempool => "getrawmempool"
  | CmdGetBlockHeader _ _ => "getblockheader"
  | CmdGetBlock _ _ => "getblock"
  | CmdGetRawTransaction _ _ => "getrawtransaction"
  | CmdEstimateSmartFee _ _ => "estimatesmartfee"
  | CmdEstimateFee _ => "estimatefee"
  | CmdSendRawTransaction _ => "sendrawtransaction"
  | CmdGetMempoolEntry _ => "getmempoolentry"
  | CmdGetInfo => "getinfo"
  | CmdGetMasternodeCount => "getmasternodecount"
  | CmdGetConnectionCount => "getconnectioncount"
  | CmdListMasternodes => "listmasternodes"
  | CmdGetPeerInfo => "getpeerinfo"
  | CmdGetNodeBlockCount _ => "getnodeblockcount"
  | CmdFindSerial _ => "findserial"
  end.

Inductive param := PString (s : string) | PInt (n : Z) | PBool (b : bool).

(** The field [Params]: none, a structure with the names of its fields, or a slice. *)
Inductive params := NoParams | Fields (l : list (string * param)) | Items (l : list param).

Definition Params (c : Cmd) : params :=
  match c with
  | CmdGetBlockHash h => Fields [("height"%string, PInt h)]
  | CmdGetBlockHeader hash v => Fields [("blockhash"%string, PString hash); ("verbose"%string, PBool v)]
  | CmdGetBlock hash v => Fields [("blockhash"%string, PString hash); ("verbosity"%string, PInt v)]
  | CmdGetRawTransaction txid v => Fields [("txid"%string, PString txid); ("verbose"%string, PBool v)]
  | CmdEstimateSmartFee t m => Fields [("conf_target"%string, PInt t); ("estimate_mode"%string, PString m)]
  | CmdEstimateFee b => Fields [("nblocks"%string, PInt b)]
  | CmdGetNodeBlockCount a => Fields [("nodeaddr"%string, PString a)]
  | CmdSendRawTransaction l | CmdGetMempoolEntry l | CmdFindSerial l => Items (map PString l)
  | _ => NoParams
  end.

(** What is sent: the method and the parameters. *)
Record message := mkMessage { m_method : string; m_params : params }.

Definition marshalV2 (c : Cmd) : message := mkMessage (Method c) (Params c).

(** The parameters by position; [omitempty] drops an empty list. *)
Definition positional (p : params) : list param :=
  match p with NoParams => [] | Fields l => map snd l | Items l => l end.

Definition marshalV1 (c : Cmd) : message :=
  let arr := match c with
             | CmdGetBlock hash v => [PString hash; PBool (0 <? v)]
             | CmdGetRawTransaction txid v => [PString txid; PInt (if v then 1 else 0)]
             | _ => positional (Params c)
             end in
  mkMessage (Method c) (match arr with [] => NoParams | _ => Items arr end).

(** * Answers *)

Record RPCError := mkRPCError { Code : Z; Message : string }.

(** [RPCError.Error] *)
Definition rpcError (e : RPCError) : error :=
  ErrMsg (string_of_text (big_String (Code e)) ++ ": " ++ Message e)%string.

(** The header and the transaction ids of a block. *)
Record BlockThin := mkBlockThin { bt_Header : Block.t; bt_Txids : list string }.

Record blockChainInfo := mkBlockChainInfo {
  bi_Chain : string; bi_Blocks : Z; bi_Headers : Z; bi_Bestblockhash : string; bi_Difficulty : string;
  bi_SizeOnDisk : Z; bi_Warnings : string;
}.

Record networkInfo := mkNetworkInfo {
  ni_Version : string; ni_Subversion : string; ni_ProtocolVersion : string; ni_Timeoffset : string; ni_Warnings : string;
}.

Module ChainInfo.
Record t := mk {
  Chain : string;
  Blocks : Z;
  Headers : Z;
  Bestblockhash : string;
  Difficulty : string;
  SizeOnDisk : Z;
  Version : string;
  Subversion : string;
  ProtocolVersion : string;
  Timeoffset : string;
  Warnings : string;
  TransparentSupply : string;
  ShieldSupply : string;
  MoneySupply : string;
  MasternodeCount : Z;
  ConnectionCount : Z;
  NextSuperBlock : Z;
}.
End ChainInfo.

Module MempoolEntry.
Record t := mk {
  Size : Z;
  FeeSat : Z;
  Fee : string;
  ModifiedFeeSat : Z;
  ModifiedFee : string;
  Time : Z;
  Height : Z;
  DescendantCount : Z;
  DescendantSize : Z;
  DescendantFees : Z;
  AncestorCount : Z;
  AncestorSize : Z;
  AncestorFees : Z;
  Depends : list string;
}.
End MempoolEntry.

Module Masternode.
Record t := mk {
  Rank : Z;
  Network : string;
  Txhash : string;
  Outidx : Z;
  Pubkey : string;
  Status : string;
  Addr : string;
  Ip : string;
  Version : Z;
  Lastseen : Z;
  Activetime : Z;
  Lastpaid : Z;
  Lastblock : Z;
}.
Definition set_Lastblock (n : Z) (m : t) : t :=
  mk (Rank m) (Network m) (Txhash m) (Outidx m) (Pubkey m) (Status m) (Addr m) (Ip m) (Version m) (Lastseen m)
    (Activetime m) (Lastpaid m) n.
End Masternode.

(** Of a peer only what the explorer shows of it. *)
Module Peer.
Record t := mk { Addr : string; Services : string; Subver : string; Location : string }.
Definition set_Location (l : string) (p : t) : t := mk (Addr p) (Services p) (Subver p) l.
End Peer.

Record supply := mkSupply { su_Transparent : string; su_Shield : string; su_Money : string }.

(** An answer: the error of the daemon, if any, and the result. *)
Abbreviation answer T := (option RPCError * T)%type.

(** The HTTP exchange with status code and body, and [json.Unmarshal] of the body. *)
Class Daemon := {
  http_Post : message -> go (Z * go string);
  json_string : string -> go (answer string);
  json_int : string -> go (answer Z);
  json_number : string -> go (answer string);
  json_feerate : string -> go (answer string);
  json_raw : string -> go (answer string);
  json_strings : string -> go (answer (list string));
  json_blockChainInfo : string -> go (answer blockChainInfo);
  json_networkInfo : string -> go (answer networkInfo);
  json_header : string -> go (answer Block.t);
  json_thin : string -> go (answer BlockThin);
  json_full : string -> go (answer Block.t);
  json_blockInfo : string -> go (answer ChainBlockInfo.t);
  json_mempoolEntry : string -> go (answer (option MempoolEntry.t));
  json_supply : string -> go (answer supply);
  json_enabled : string -> go (answer Z);
  json_masternodes : string -> go (answer (option (list Masternode.t)));
  json_peers : string -> go (answer (option (list Peer.t)));
  json_serial : string -> go (answer (bool * string));
}.

(** What the client calls of its parser. *)
Class RpcParser := {
  rp_ParseTx : bytes -> go Tx.t;
  rp_ParseBlock : bytes -> go Block.t;
  rp_ParseTxFromJson : string -> go Tx.t;
  rp_AmountToBigInt : string -> go Z;
}.

(** * The client of a Bitcoin-like daemon *)

Inductive marshaler := JSONMarshalerV1 | JSONMarshalerV2.

Record Configuration := mkConfiguration {
  Parse : bool;
  BlockAddressesToKeep : Z;
  MempoolWorkers : Z;
  MempoolSubWorkers : Z;
  SupportsEstimateFee : bool;
  SupportsEstimateSmartFee : bool;
  Geolocation_url : string;
}.

Record BitcoinRPC := mkBitcoinRPC {
  ParseBlocks : bool;
  ChainConfig : Configuration;
  RPCMarshaler : marshaler;
}.

Definition NewBitcoinRPC (c : Configuration) : BitcoinRPC :=
  let c := mkConfiguration (Parse c) (Z.max 100 (BlockAddressesToKeep c)) (Z.max 1 (MempoolWorkers c))
             (Z.max 1 (MempoolSubWorkers c)) true true (Geolocation_url c) in
  mkBitcoinRPC (Parse c) c JSONMarshalerV2.

(** Answers of the daemon that mean a missing block or transaction. *)
Definition IsErrBlockNotFound (e : RPCError) : bool :=
  String.eqb (Message e) "Block not found" || String.eqb (Message e) "Block height out of range".

Definition IsMissingTx (e : RPCError) : bool := Code e =? -5.

(** A panic while decoding is caught and becomes an error. *)
Definition safeDecodeResponse {T} (unmarshal : string -> go T) (body : go string) : go T :=
  match body with
  | Ret data =>
      match unmarshal data with
      | Panic =>
          let n := Z.of_nat (String.length data) in
          Fail (if (0 <? n) && (n <? 2048) then ErrMsg ("Error: " ++ data)%string else ErrMsg "Internal error")
      | r => r
      end
  | Fail e => Fail e
  | Panic => Fail (ErrMsg "Internal error")
  end.

(** The result of an answer, or the error [onError] makes of the daemon's. *)
Definition resultOr {T} (onError : RPCError -> error) (r : answer T) : go T :=
  match r.1 with Some e => Fail (onError e) | None => Ret r.2 end.

Definition heightMsg (height : Z) : string := ("height " ++ string_of_text (big_String height))%string.
Definition hashMsg (hash : string) : string := ("hash " ++ hash)%string.
Definition txidMsg (txid : string) : string := ("txid " ++ txid)%string.

Definition blockError (msg : string) (e : RPCError) : error :=
  if IsErrBlockNotFound e then ErrBlockNotFound else ErrAnnotated (rpcError e) msg.
Definition txError (msg : string) (e : RPCError) : error :=
  if IsMissingTx e then ErrTxNotFound else ErrAnnotated (rpcError e) msg.

Section bitcoin.
Context {DM : Daemon} {RP : RpcParser} (b : BitcoinRPC).

Definition Marshal (c : Cmd) : message :=
  match RPCMarshaler b with JSONMarshalerV1 => marshalV1 c | JSONMarshalerV2 => marshalV2 c end.

(** An answer with an HTTP error code can still be JSON. *)
Definition CallMessage {T} (unmarshal : string -> go (answer T)) (m : message) : go (answer T) :=
  let* '(status, body) := http_Post m in
  match safeDecodeResponse unmarshal body with
  | Fail e => if status =? 200 then Fail e else Fail (ErrAnnotated e (string_of_text (big_String status)))
  | r => r
  end.

Definition Call {T} (unmarshal : string -> go (answer T)) (c : Cmd) : go (answer T) := CallMessage unmarshal (Marshal c).

Definition GetBestBlockHash : go string :=
  let* res := Call json_string CmdGetBestBlockHash in resultOr rpcError res.

Definition GetBestBlockHeight : go Z :=
  let* res := Call json_int CmdGetBlockCount in resultOr rpcError res.

Definition GetChainInfo : go ChainInfo.t :=
  let* res := Call json_blockChainInfo CmdGetBlockChainInfo in
  let* ci := resultOr rpcError res in
  let* res := Call json_networkInfo CmdGetNetworkInfo in
  let* ni := resultOr rpcError res in
  let warnings := if bool_decide (bi_Warnings ci = EmptyString) then EmptyString else (bi_Warnings ci ++ " ")%string in
  let warnings := if bool_decide (bi_Warnings ci = ni_Warnings ni) then warnings else (warnings ++ ni_Warnings ni)%string in
  Ret (ChainInfo.mk (bi_Chain ci) (bi_Blocks ci) (bi_Headers ci) (bi_Bestblockhash ci) (bi_Difficulty ci) (bi_SizeOnDisk ci)
         (ni_Version ni) (ni_Subversion ni) (ni_ProtocolVersion ni) (ni_Timeoffset ni) warnings
         EmptyString EmptyString EmptyString 0 0 0).

Definition GetBlockHash (height : Z) : go string :=
  let* res := annotate (heightMsg height) (Call json_string (CmdGetBlockHash height)) in
  resultOr (blockError (heightMsg height)) res.

Definition GetBlockHeader (hash : string) : go Block.t :=
  let* res := annotate (hashMsg hash) (Call json_header (CmdGetBlockHeader hash true)) in
  resultOr (blockError (hashMsg hash)) res.

Definition GetBlockRaw (hash : string) : go bytes :=
  let* res := annotate (hashMsg hash) (Call json_string (CmdGetBlock hash 0)) in
  let* raw := resultOr (blockError (hashMsg hash)) res in
  hex_DecodeString raw.

Definition set_Header (header block : Block.t) : Block.t :=
  Block.mk (Block.Hash header) (Block.Prev header) (Block.Next header) (Block.Height header) (Block.Confirmations header)
    (Block.Size header) (Block.Time header) (Block.Txs block).

Definition set_HashHeight (hash : string) (height : Z) (block : Block.t) : Block.t :=
  Block.mk hash (Block.Prev block) (Block.Next block) height (Block.Confirmations block) (Block.Size block) (Block.Time block)
    (Block.Txs block).

Definition GetBlockWithoutHeader (hash : string) (height : Z) : go Block.t :=
  let* data := GetBlockRaw hash in
  let* block := annotate (string_of_text (big_String height) ++ " " ++ hash)%string (rp_ParseBlock data) in
  Ret (set_HashHeight hash height block).

Definition convertAmount (vout : Vout.t) : go Vout.t :=
  let* valueSat := rp_AmountToBigInt (Vout.JsonValue vout) in
  Ret (Vout.mk valueSat EmptyString (Vout.N vout) (Vout.ScriptPubKeyHex vout) (Vout.Addresses vout)).

Definition convertAmounts (tx : Tx.t) : go Tx.t :=
  let* vout := go_map convertAmount (Tx.Vout tx) in Ret (set_Vouts vout tx).

Definition GetBlockFull (hash : string) : go Block.t :=
  let* res := annotate (hashMsg hash) (Call json_full (CmdGetBlock hash 2)) in
  let* block := resultOr (blockError (hashMsg hash)) res in
  let* txs := go_map convertAmounts (Block.Txs block) in
  Ret (Block.mk (Block.Hash block) (Block.Prev block) (Block.Next block) (Block.Height block) (Block.Confirmations block)
         (Block.Size block) (Block.Time block) txs).

Definition GetBlock (hash : string) (height : Z) : go Block.t :=
  let* hash := (if bool_decide (hash = EmptyString) then GetBlockHash height else Ret hash) in
  if negb (ParseBlocks b) then GetBlockFull hash
  else if 0 <? height then GetBlockWithoutHeader hash height
  else
    let* header := GetBlockHeader hash in
    let* data := GetBlockRaw hash in
    let* block := annotate (hashMsg hash) (rp_ParseBlock data) in
    Ret (set_Header header block).

Definition GetBlockInfo (hash : string) : go ChainBlockInfo.t :=
  let* res := annotate (hashMsg hash) (Call json_blockInfo (CmdGetBlock hash 1)) in
  resultOr (blockError (hashMsg hash)) res.

Definition GetMempoolTransactions : go (list string) :=
  let* res := Call json_strings CmdGetMempool in resultOr rpcError res.

Definition GetTransactionForMempool (txid : string) : go Tx.t :=
  let* res := annotate (txidMsg txid) (Call json_string (CmdGetRawTransaction txid false)) in
  let* raw := resultOr (txError (txidMsg txid)) res in
  let* data := annotate (txidMsg txid) (hex_DecodeString raw) in
  annotate (txidMsg txid) (rp_ParseTx data).

(** The JSON of the transaction. *)
Definition getRawTransaction (txid : string) : go string :=
  let* res := annotate (txidMsg txid) (Call json_raw (CmdGetRawTransaction txid true)) in
  resultOr (txError (txidMsg txid)) res.

Definition set_SpecificData (d : CoinSpecificData) (tx : Tx.t) : Tx.t :=
  Tx.mk (Tx.Hex tx) (Tx.Txid tx) (Tx.Version tx) (Tx.LockTime tx) (Tx.Vin tx) (Tx.Vout tx) (Tx.Confirmations tx)
    (Tx.Time tx) (Tx.Blocktime tx) (Tx.VShieldIn tx) (Tx.VShieldOut tx) (Tx.ShieldValBal tx) d.

(** The field of the transaction is set before the error is looked at: a failing parser
    returns a nil transaction. *)
Definition GetTransaction (txid : string) : go Tx.t :=
  let* r := getRawTransaction txid in
  match rp_ParseTxFromJson r with
  | Ret tx => Ret (set_SpecificData (OtherSpecificData r) tx)
  | _ => Panic
  end.

Definition GetTransactionSpecific (tx : Tx.t) : go string :=
  match Tx.SpecificData tx with OtherSpecificData csd => Ret csd | _ => getRawTransaction (Tx.Txid tx) end.

(** The two estimates call each other where only one is supported; [None] is fuel that ran out. *)
Fixpoint estimateFees (fuel : nat) (smart : bool) (blocks : Z) (conservative : bool) : option (go Z) :=
  match fuel with
  | O => None
  | S f =>
      let supportsFee := SupportsEstimateFee (ChainConfig b) in
      let supportsSmart := SupportsEstimateSmartFee (ChainConfig b) in
      if smart then
        if negb supportsSmart && supportsFee then estimateFees f false blocks conservative
        else Some (let* res := Call json_feerate
                     (CmdEstimateSmartFee blocks (if conservative then "CONSERVATIVE" else "ECONOMICAL")) in
                   let* feerate := resultOr rpcError res in rp_AmountToBigInt feerate)
      else
        if negb supportsFee && supportsSmart then estimateFees f true blocks true
        else Some (let* res := Call json_number (CmdEstimateFee blocks) in
                   let* fee := resultOr rpcError res in rp_AmountToBigInt fee)
  end.

Definition EstimateSmartFee (blocks : Z) (conservative : bool) : go Z :=
  default Panic (estimateFees 2 true blocks conservative).
Definition EstimateFee (blocks : Z) : go Z := default Panic (estimateFees 2 false blocks true).

Definition SendRawTransaction (tx : string) : go string :=
  let* res := Call json_string (CmdSendRawTransaction [tx]) in resultOr rpcError res.

(** A nil entry is dereferenced. *)
Definition GetMempoolEntry (txid : string) : go MempoolEntry.t :=
  let* res := Call json_mempoolEntry (CmdGetMempoolEntry [txid]) in
  let* r := resultOr rpcError res in
  let* e := must r in
  let* feeSat := rp_AmountToBigInt (MempoolEntry.Fee e) in
  let* modifiedFeeSat := rp_AmountToBigInt (MempoolEntry.ModifiedFee e) in
  Ret (MempoolEntry.mk (MempoolEntry.Size e) feeSat (MempoolEntry.Fee e) modifiedFeeSat (MempoolEntry.ModifiedFee e)
         (MempoolEntry.Time e) (MempoolEntry.Height e) (MempoolEntry.DescendantCount e) (MempoolEntry.DescendantSize e)
         (MempoolEntry.DescendantFees e) (MempoolEntry.AncestorCount e) (MempoolEntry.AncestorSize e)
         (MempoolEntry.AncestorFees e) (MempoolEntry.Depends e)).

(** The transactions of the block one by one; the ones the daemon does not have are skipped. *)
Fixpoint blockTransactions (txids : list string) : go (list Tx.t) :=
  match txids with
  | [] => Ret []
  | txid :: txids' =>
      match GetTransaction txid with
      | Ret tx => let* txs := blockTransactions txids' in Ret (tx :: txs)
      | Fail ErrTxNotFound => blockTransactions txids'
      | Fail e => Fail e
      | Panic => Panic
      end
  end.

(** The block with the ids of its transactions, and the transactions one by one. *)
Definition thinBlock (hash : string) : go Block.t :=
  let* res := annotate (hashMsg hash) (Call json_thin (CmdGetBlock hash 1)) in
  let* thin := resultOr (fun e => ErrAnnotated (rpcError e) (hashMsg hash)) res in
  let* txs := blockTransactions (bt_Txids thin) in
  let h := bt_Header thin in
  Ret (Block.mk (Block.Hash h) (Block.Prev h) (Block.Next h) (Block.Height h) (Block.Confirmations h) (Block.Size h)
         (Block.Time h) txs).

(** The hash is asked for where it is not known; the block 0 is asked for by its hash only. *)
Definition thin_GetBlock (hash : string) (height : Z) : go Block.t :=
  let* hash := (if bool_decide (hash = EmptyString) && (0 <? height) then GetBlockHash height else Ret hash) in
  thinBlock hash.
End bitcoin.

(** * The client of the Skyr daemon *)

Record SkyrRPC := mkSkyrRPC { sr_rpc : BitcoinRPC; sr_Testnet : bool; sr_Network : string }.

Definition NewSkyrRPC (c : Configuration) : SkyrRPC :=
  let b := NewBitcoinRPC c in
  let c := ChainConfig b in
  mkSkyrRPC (mkBitcoinRPC (ParseBlocks b)
    (mkConfiguration (Parse c) (BlockAddressesToKeep c) (MempoolWorkers c) (MempoolSubWorkers c) true false (Geolocation_url c))
    JSONMarshalerV1) false EmptyString.

(** The text before the first colon, [strings.Split(s, ":")[0]]. *)
Fixpoint beforeColon (s : string) : string :=
  match s with
  | EmptyString => EmptyString
  | String c s' => if Ascii.eqb c ":"%char then EmptyString else String c (beforeColon s')
  end.

(** What [GetPeersInfo] and [GetMasternodesInfo] ask outside of the daemon: the own address as
    the socket library has it, the text of an HTTP answer, and the country in it. *)
Class Network := {
  localAddr : option string;
  formatUrl : string -> string -> string;
  http_Get : string -> go (go string);
  json_country : string -> go string;
}.

Section skyr.
Context {DM : Daemon} {RP : RpcParser} {NW : Network} (z : SkyrRPC).

Definition skyr_GetBlock : string -> Z -> go Block.t := thin_GetBlock (sr_rpc z).

Definition GetNodeBlockCount (addr : string) : go Z :=
  let* res := Call (sr_rpc z) json_int (CmdGetNodeBlockCount addr) in resultOr rpcError res.

(** [%] of Go has the sign of the dividend. *)
Definition GetNextSuperBlock (nHeight : Z) : Z :=
  let nBlocksPerPeriod := if sr_Testnet z then 144 else 43200 in
  nHeight - Z.rem nHeight nBlocksPerPeriod + nBlocksPerPeriod.

(** The last block of a masternode: the own one for the own address, 0 for a node that does
    not answer. *)
Definition lastBlock (bestHeight : Z) (localip : string) (m : Masternode.t) : go Masternode.t :=
  let ip := beforeColon (Masternode.Ip m) in
  if String.eqb localip ip then Ret (Masternode.set_Lastblock bestHeight m)
  else match GetNodeBlockCount ip with
       | Ret n => Ret (Masternode.set_Lastblock n m)
       | Fail _ => Ret (Masternode.set_Lastblock 0 m)
       | Panic => Panic
       end.

Definition GetMasternodesInfo : go (option (list Masternode.t)) :=
  let* rv := GetChainInfo (sr_rpc z) in
  let* res := Call (sr_rpc z) json_masternodes CmdListMasternodes in
  let* mns := resultOr rpcError res in
  match localAddr with
  | None => Ret mns
  | Some addr =>
      let* l := must mns in
      let* l := go_map (lastBlock (ChainInfo.Blocks rv) (beforeColon addr)) l in
      Ret (Some l)
  end.

(** The country of a peer.  The body of the answer is used before the error of the request
    is looked at. *)
Definition locate (url : string) (peer : Peer.t) : go Peer.t :=
  let u := formatUrl url (beforeColon (Peer.Addr peer)) in
  if bool_decide (u = EmptyString) then Ret peer
  else match http_Get u with
       | Ret body =>
           match body with
           | Ret data =>
               match json_country data with
               | Ret country => Ret (Peer.set_Location country peer)
               | Fail _ => Ret peer
               | Panic => Panic
               end
           | Fail _ => Ret peer
           | Panic => Panic
           end
       | _ => Panic
       end.

Definition GetPeersInfo : go (option (list Peer.t)) :=
  let* res := Call (sr_rpc z) json_peers CmdGetPeerInfo in
  let* peers := resultOr rpcError res in
  let url := Geolocation_url (ChainConfig (sr_rpc z)) in
  if bool_decide (url = EmptyString) then Ret peers
  else
    let* l := must peers in
    let* l := go_map (locate url) l in
    Ret (Some l).

Definition skyr_GetChainInfo : go ChainInfo.t :=
  let* rv := GetChainInfo (sr_rpc z) in
  let* res := Call (sr_rpc z) json_supply CmdGetInfo in
  let* su := resultOr rpcError res in
  let* res := Call (sr_rpc z) json_enabled CmdGetMasternodeCount in
  let* enabled := resultOr rpcError res in
  let* res := Call (sr_rpc z) json_int CmdGetConnectionCount in
  let* connections := resultOr rpcError res in
  Ret (ChainInfo.mk (ChainInfo.Chain rv) (ChainInfo.Blocks rv) (ChainInfo.Headers rv) (ChainInfo.Bestblockhash rv)
         (ChainInfo.Difficulty rv) (ChainInfo.SizeOnDisk rv) (ChainInfo.Version rv) (ChainInfo.Subversion rv)
         (ChainInfo.ProtocolVersion rv) (ChainInfo.Timeoffset rv) (ChainInfo.Warnings rv)
         (su_Transparent su) (su_Shield su) (su_Money su) enabled connections (GetNextSuperBlock (ChainInfo.Headers rv))).

(** The parameters and the network of the chain the daemon is on. *)
Definition skyr_Initialize (keep p2sh native slip44 : Z) : go (SkyrParser * SkyrRPC) :=
  let* ci := skyr_GetChainInfo in
  let params := GetChainParams (ChainInfo.Chain ci) in
  let main := Net params =? MainnetMagic in
  Ret (NewSkyrParser params keep p2sh native slip44,
       mkSkyrRPC (sr_rpc z) (negb main) (if main then "livenet" else "testnet")).

Definition Findzcserial (serialHex : string) : go string :=
  let* res := Call (sr_rpc z) json_serial (CmdFindSerial [serialHex]) in
  let* '(success, txid) := resultOr rpcError res in
  Ret (if (success : bool) then txid else "Serial not found in blockchain"%string).

(** ** The interface *)

Definition skyr_chain : BlockChain := {|
  Mempool.GetMempoolTransactions := GetMempoolTransactions (sr_rpc z);
  Mempool.GetTransactionForMempool := GetTransactionForMempool (sr_rpc z);
  Mempool.GetTransaction := GetTransaction (sr_rpc z);
  Mempool.GetBestBlockHash := GetBestBlockHash (sr_rpc z);
  Mempool.GetBestBlockHeight := GetBestBlockHeight (sr_rpc z);
  chain_GetBlockHash := GetBlockHash (sr_rpc z);
  Mempool.GetBlock := skyr_GetBlock;
|}.
End skyr.

(** * Facts *)

(** The encoding by position loses nothing but the level of detail of a block. *)
Lemma PString_inj l1 l2 : map PString l1 = map PString l2 -> l1 = l2.
Proof.
  revert l2. induction l1 as [|s l1 IH]; intros [|s2 l2]; simpl; try done. intros [= -> H]. f_equal. by apply IH.
Qed.

Definition items_or_none (arr : list param) : params := match arr with [] => NoParams | _ => Items arr end.

Lemma items_or_none_inj a1 a2 : items_or_none a1 = items_or_none a2 -> a1 = a2.
Proof. destruct a1, a2; simpl; congruence. Qed.

Section facts.
Context {DM : Daemon} {RP : RpcParser} (z : BitcoinRPC).

(** The daemon answers a request. *)
Definition answers {T} (unmarshal : string -> go (answer T)) (c : Cmd) (r : answer T) : Prop :=
  Call z unmarshal c = Ret r.

(** The transactions the daemon has of a list of ids, the others are missing. *)
Inductive served_txs : list string -> list Tx.t -> Prop :=
  | served_nil : served_txs [] []
  | served_tx raw tx txids txs : answers json_raw (CmdGetRawTransaction (Tx.Txid tx) true) (None, raw) ->
      rp_ParseTxFromJson raw = Ret tx -> served_txs txids txs ->
      served_txs (Tx.Txid tx :: txids) (set_SpecificData (OtherSpecificData raw) tx :: txs)
  | served_missing txid e r txids txs : answers json_raw (CmdGetRawTransaction txid true) (Some e, r) -> IsMissingTx e = true ->
      served_txs txids txs -> served_txs (txid :: txids) txs.

(** The daemon answers with the block and the ids of its transactions. *)
Definition thin_served (hash : string) (b : Block.t) : Prop :=
  exists txids, answers json_thin (CmdGetBlock hash 1) (None, mkBlockThin (set_Header b (Block.mk EmptyString EmptyString EmptyString 0 0 0 0 [])) txids) /\
    served_txs txids (Block.Txs b).

(** The daemon has the blocks of the list from a height on, and no block behind them.  The hash
    of a block is known from the block before it or is asked for; [fetch] says for both cases
    which block the daemon serves. *)
Inductive served (fetch : bool -> string -> Z -> Block.t -> Prop) : string -> Z -> list Block.t -> Prop :=
  | served_last height e r : 0 < height -> answers json_string (CmdGetBlockHash height) (Some e, r) -> IsErrBlockNotFound e = true ->
      served fetch EmptyString height []
  | served_block hash height b rest : hash <> EmptyString -> fetch false hash height b ->
      served fetch (Block.Next b) (u32 (height + 1)) rest -> served fetch hash height (b :: rest)
  | served_asked height hash b rest : 0 < height -> hash <> EmptyString ->
      answers json_string (CmdGetBlockHash height) (None, hash) -> fetch true hash height b ->
      served fetch (Block.Next b) (u32 (height + 1)) rest -> served fetch EmptyString height (b :: rest).

Lemma blockTransactions_served txids txs : served_txs txids txs -> blockTransactions z txids = Ret txs.
Proof.
  induction 1 as [|raw tx txids txs Ha Hp _ IH|txid e r txids txs Ha He _ IH]; [done|..];
    cbn [blockTransactions]; unfold GetTransaction, getRawTransaction; rewrite Ha; cbn [annotate go_bind resultOr fst snd].
  - rewrite Hp, IH. done.
  - unfold txError. by rewrite He.
Qed.

Lemma thinBlock_served hash b : thin_served hash b -> thinBlock z hash = Ret b.
Proof.
  intros (txids & Ha & Ht). unfold thinBlock. rewrite Ha. cbn [annotate go_bind resultOr fst snd bt_Txids bt_Header].
  rewrite (blockTransactions_served _ _ Ht). by destruct b.
Qed.

Lemma GetBlockHash_found height hash : answers json_string (CmdGetBlockHash height) (None, hash) -> GetBlockHash z height = Ret hash.
Proof. intros Ha. unfold GetBlockHash. by rewrite Ha. Qed.

Lemma GetBlockHash_end height e r : answers json_string (CmdGetBlockHash height) (Some e, r) -> IsErrBlockNotFound e = true ->
  GetBlockHash z height = Fail ErrBlockNotFound.
Proof. intros Ha He. unfold GetBlockHash. rewrite Ha. cbn [annotate go_bind resultOr fst]. unfold blockError. by rewrite He. Qed.

(** What a client has to do to see the blocks that are served. *)
Class Fetches (R : BlockChain) (fetch : bool -> string -> Z -> Block.t -> Prop) := {
  fetch_known : forall hash height b, hash <> EmptyString -> fetch false hash height b -> Mempool.GetBlock hash height = Ret b;
  fetch_asked : forall hash height b, 0 < height -> hash <> EmptyString -> GetBlockHash z height = Ret hash ->
    fetch true hash height b -> Mempool.GetBlock EmptyString height = Ret b;
  fetch_end : forall height e, 0 < height -> GetBlockHash z height = Fail e -> Mempool.GetBlock EmptyString height = Fail e;
}.

Lemma served_remote (R : BlockChain) fetch `{F : !Fetches R fetch} hash height bs :
  served fetch hash height bs -> remote_chain hash height bs.
Proof.
  induction 1 as [height e r Hh Ha He|hash height b rest Hh Hf _ IH|height hash b rest Hp Hh Ha Hf _ IH].
  - apply rc_end. apply (fetch_end (R := R)); [done|]. by eapply GetBlockHash_end.
  - apply rc_block; [|done]. by apply (fetch_known (R := R)).
  - apply rc_block; [|done]. apply (fetch_asked (R := R) hash); [done..| |done]. by apply GetBlockHash_found.
Qed.

(** A client that fetches its blocks with [thin_GetBlock]. *)
Lemma thin_fetches (R : BlockChain) : (forall h n, Mempool.GetBlock h n = thin_GetBlock z h n) ->
  Fetches R (fun _ hash _ => thin_served hash).
Proof.
  intros HR. split; intros *; rewrite HR; unfold thin_GetBlock.
  - intros Hh Hf. rewrite bool_decide_false by done. by apply thinBlock_served.
  - intros Hp%Z.ltb_lt Hh HG Hf. rewrite bool_decide_true, Hp, HG by done. by apply thinBlock_served.
  - intros Hp%Z.ltb_lt HG. by rewrite bool_decide_true, Hp, HG by done.
Qed.
End facts.

(** Synchronization through the JSON-RPC client connects what the daemon serves: the
    blocks from the start height on, in order, each with the transactions the daemon has
    of it, announced after it is connected, until the daemon has no further block. *)
Theorem skyr_sync `{DB : Store} `{P : BlockChainParser} `{V : Vlq} `{SC : ScriptLib} `{J : StateJson}
    `{DM : Daemon} `{RP : RpcParser} (z : SkyrRPC) interrupt now (w : SyncWorker) bs fuel initialSync :
  served (sr_rpc z) (fun _ hash _ => thin_served (sr_rpc z) hash) (startHash w) (startHeight w) bs ->
  (forall k, initialSync && interrupt k = false) -> (length bs < fuel)%nat ->
  connectBlocks (R := skyr_chain z) interrupt now fuel initialSync w = sfor (connectOne now) bs w.
Proof.
  intros Hs Hi Hf. unfold connectBlocks. rewrite (sbind_eq _ _ w w w) by done.
  apply (connectLoop_all (R := skyr_chain z) interrupt now (startHash w) (startHeight w)); [|done..].
  pose proof (thin_fetches (sr_rpc z) (skyr_chain z) (fun _ _ => eq_refl)). by eapply served_remote.
Qed.

(** A request is understood from what is sent: two requests with the same encoding are
    the same, except that the older encoding does not tell the detail levels of a block
    above zero apart. *)
Theorem requests_distinct c1 c2 :
  (marshalV2 c1 = marshalV2 c2 -> c1 = c2) /\
  (marshalV1 c1 = marshalV1 c2 -> c1 = c2 \/
     exists hash v1 v2, c1 = CmdGetBlock hash v1 /\ c2 = CmdGetBlock hash v2 /\ (0 <? v1) = (0 <? v2)).
Proof.
  split.
  - destruct c1, c2; intros [=]; simplify_eq; try done; f_equal; by apply PString_inj.
  - unfold marshalV1. intros [= Hm Ha%items_or_none_inj].
    destruct c1, c2; try discriminate Hm; simpl in Ha; simplify_eq; auto; [right; eauto 6|left; by destruct Verbose, Verbose0|..];
      left; f_equal; by apply PString_inj.
Qed.

(** The fee estimates, which call each other where the daemon supports only one of
    them, make exactly one call of the daemon for every configuration. *)
Theorem estimates_end `{DM : Daemon} `{RP : RpcParser} b smart blocks conservative :
  is_Some (estimateFees b 2 smart blocks conservative).
Proof.
  cbn [estimateFees]. destruct smart, (SupportsEstimateFee _), (SupportsEstimateSmartFee _); cbn [negb andb]; eauto.
Qed.

(** The next superblock is the first multiple of the period behind a height. *)
Theorem next_superblock z h : 0 <= h ->
  let period := if sr_Testnet z then 144 else 43200 in
  (period | GetNextSuperBlock z h) /\ h < GetNextSuperBlock z h <= h + period.
Proof.
  intros Hh period. unfold GetNextSuperBlock. fold period.
  assert (0 < period) as Hp by (unfold period; destruct (sr_Testnet z); lia).
  rewrite Z.rem_mod_nonneg by lia. pose proof (Z.mod_pos_bound h period Hp). split; [|lia].
  exists (h / period + 1). pose proof (Z.div_mod h period). lia.
Qed.

(** A transaction whose JSON the parser refuses makes [GetTransaction] panic, and with
    it the fetch of every block that contains it. *)
Theorem GetTransaction_panics `{DM : Daemon} `{RP : RpcParser} (z : SkyrRPC) txid raw e :
  answers (sr_rpc z) json_raw (CmdGetRawTransaction txid true) (None, raw) -> rp_ParseTxFromJson raw = Fail e ->
  GetTransaction (sr_rpc z) txid = Panic /\ forall txids, blockTransactions (sr_rpc z) (txid :: txids) = Panic.
Proof.
  intros Ha Hp. assert (GetTransaction (sr_rpc z) txid = Panic) as E.
  { unfold GetTransaction, getRawTransaction. rewrite Ha. cbn [annotate go_bind resultOr fst snd]. by rewrite Hp. }
  split; [done|]. intros txids. simpl. by rewrite E.
Qed.

(** A block the daemon does not know is [ErrBlockNotFound] for the Bitcoin client, on which
    the synchronization ends, but another error for the Skyr client. *)
Theorem unknown_block `{DM : Daemon} `{RP : RpcParser} (z : SkyrRPC) hash height e r1 r2 :
  hash <> EmptyString -> IsErrBlockNotFound e = true ->
  answers (sr_rpc z) json_full (CmdGetBlock hash 2) (Some e, r1) -> answers (sr_rpc z) json_thin (CmdGetBlock hash 1) (Some e, r2) ->
  (ParseBlocks (sr_rpc z) = false -> GetBlock (sr_rpc z) hash height = Fail ErrBlockNotFound) /\
  skyr_GetBlock z hash height = Fail (ErrAnnotated (rpcError e) (hashMsg hash)).
Proof.
  intros Hh He Ha1 Ha2. split.
  - intros Hp. unfold GetBlock. rewrite bool_decide_false by done. gostep. rewrite Hp. cbn [negb]. unfold GetBlockFull.
    rewrite Ha1. cbn [annotate go_bind resultOr fst]. unfold blockError. by rewrite He.
  - unfold skyr_GetBlock, thin_GetBlock, thinBlock. rewrite bool_decide_false by done. cbn [andb go_bind].
    by rewrite Ha2.
Qed.

(** ** A concrete daemon

    The body of an answer is the method and the first parameter of the request. *)

Definition firstParam (m : message) : string :=
  match m_params m with Items (PString s :: _) => s | _ => EmptyString end.

Definition blk : Block.t := Block.mk "h8" EmptyString EmptyString 8 1 100 5 [].

Definition raw_tx : Tx.t :=
  Tx.mk EmptyString "t1" 1 0 [] [Vout.mk 0 "0.5" 0 "51" []] 1 5 5 [] [] 0 NoSpecificData.

Definition noBlock : RPCError := mkRPCError (-8) "Block height out of range".
Definition noTx : RPCError := mkRPCError (-5) "No such mempool or blockchain transaction".

Definition small_daemon : Daemon := {|
  http_Post m := Ret (200, Ret (m_method m ++ " " ++ firstParam m)%string);
  json_string _ := Ret (Some noBlock, EmptyString);
  json_int _ := Ret (None, 8);
  json_number _ := Ret (None, "0.1"%string);
  json_feerate _ := Ret (None, "0.2"%string);
  json_raw s := Ret (if String.eqb s "getrawtransaction t1" then (None, "raw"%string)
                     else if String.eqb s "getrawtransaction t2" then (None, "bad"%string) else (Some noTx, EmptyString));
  json_strings _ := Ret (None, []);
  json_blockChainInfo _ := Ret (None, mkBlockChainInfo "main" 8 8 "h8" "1" 0 EmptyString);
  json_networkInfo _ := Ret (None, mkNetworkInfo "1" "1" "1" "0" EmptyString);
  json_header _ := Ret (None, blk);
  json_thin s := Ret (if String.eqb s "getblock h8" then (None, mkBlockThin blk ["t0"%string; "t1"%string])
                      else (Some (mkRPCError (-5) "Block not found"), mkBlockThin blk []));
  json_full s := Ret (if String.eqb s "getblock h8" then (None, blk) else (Some (mkRPCError (-5) "Block not found"), blk));
  json_blockInfo _ := Fail (ErrMsg "json");
  json_mempoolEntry _ := Ret (None, None);
  json_supply _ := Ret (None, mkSupply "1" "2" "3");
  json_enabled _ := Ret (None, 5);
  json_masternodes _ := Ret (None, Some []);
  json_peers _ := Ret (None, Some [Peer.mk "1.2.3.4:99" EmptyString EmptyString EmptyString]);
  json_serial _ := Ret (None, (false, EmptyString));
|}.

Definition small_parser : RpcParser := {|
  rp_ParseTx _ := Ret raw_tx;
  rp_ParseBlock _ := Ret blk;
  rp_ParseTxFromJson s := if String.eqb s "raw" then Ret raw_tx else Fail (ErrMsg "json");
  rp_AmountToBigInt _ := Ret 50;
|}.

Definition small_config : Configuration := mkConfiguration false 0 0 0 false false "http://geo/%s".
Definition small_rpc : SkyrRPC := NewSkyrRPC small_config.

(** The block with the transaction the daemon has; the other is missing. *)
Definition blk8 : Block.t :=
  Block.mk "h8" EmptyString EmptyString 8 1 100 5 [set_SpecificData (OtherSpecificData "raw") raw_tx].

Lemma skyr_sync_witness :
  connectBlocks (P := plain_parser) (V := leb) (R := skyr_chain (DM := small_daemon) (RP := small_parser) small_rpc)
    (fun _ => false) 77 2 true (worker (open_db ∅) "h8") =
  sfor (connectOne (P := plain_parser) (V := leb) 77) [blk8] (worker (open_db ∅) "h8").
Proof.
  refine (skyr_sync (P := plain_parser) (V := leb) (J := code_json) (DM := small_daemon) (RP := small_parser) small_rpc
    (fun _ => false) 77 (worker (open_db ∅) "h8") [blk8] 2 true _ _ _).
  - refine (served_block (DM := small_daemon) (sr_rpc small_rpc) _ "h8" 8 blk8 [] _ _ _); [discriminate|..].
    + exists ["t0"%string; "t1"%string]. split; [reflexivity|].
      refine (served_missing (DM := small_daemon) (RP := small_parser) (sr_rpc small_rpc) "t0" noTx EmptyString _ _ _ _ _); [reflexivity..|].
      refine (served_tx (DM := small_daemon) (RP := small_parser) (sr_rpc small_rpc) "raw" raw_tx _ _ _ _ _); [reflexivity..|].
      apply served_nil.
    + refine (served_last (DM := small_daemon) (sr_rpc small_rpc) _ 9 noBlock EmptyString _ _ _); reflexivity.
  - reflexivity.
  - vm_compute. repeat constructor.
Defined.

Lemma next_superblock_witness : (43200 | GetNextSuperBlock small_rpc 50000) /\ 50000 < GetNextSuperBlock small_rpc 50000 <= 93200.
Proof. exact (next_superblock small_rpc 50000 ltac:(discriminate)). Defined.

Lemma GetTransaction_panics_witness :
  GetTransaction (DM := small_daemon) (RP := small_parser) (sr_rpc small_rpc) "t2" = Panic.
Proof.
  exact (proj1 (GetTransaction_panics (DM := small_daemon) (RP := small_parser) small_rpc "t2" "bad" (ErrMsg "json") eq_refl eq_refl)).
Defined.

Lemma unknown_block_witness :
  skyr_GetBlock (DM := small_daemon) (RP := small_parser) small_rpc "h9" 9 =
  Fail (ErrAnnotated (ErrMsg "-5: Block not found") "hash h9").
Proof.
  exact (proj2 (unknown_block (DM := small_daemon) (RP := small_parser) small_rpc "h9" 9 (mkRPCError (-5) "Block not found")
    blk (mkBlockThin blk []) ltac:(discriminate) eq_refl eq_refl eq_refl)).
Defined.

(** A location service that does not answer makes [GetPeersInfo] panic. *)
Theorem GetPeersInfo_panics :
  let offline := {| localAddr := None; formatUrl url ip := (url ++ ip)%string; http_Get _ := Fail (ErrMsg "timeout");
                    json_country _ := Fail (ErrMsg "json") |} in
  GetPeersInfo (DM := small_daemon) (NW := offline) small_rpc = Panic.
Proof. reflexivity. Qed.
