(* ===== verification/ForkRpc.v ===== *)
(** The clients of the other Bitcoin-like daemons: the methods that
    [bchain/coins/zec/zcashrpc.go], [koto], [grs], [dash], [liquid], [monetaryunit], [viacoin],
    [dogecoin], [myriad], [namecoin], [flo], [bch], [xzc], [qtum], [vipstarcoin] and [pivx] have
    in place of those of the Bitcoin client of file [Rpc], which they embed.

    What they differ in is how a block is fetched.  [Fetches] of file [Rpc] says what a client
    has to do to see the blocks the daemon serves; it is shown for every client, with the way
    it fetches ([thin_served], [raw_served], [full_served], [headed_served]), so all of them
    synchronize alike. *)
From stdpp Require Import base list strings gmap.
From Stdlib Require Import ZArith Lia.
From S2P Require Import Prelude Hex Types Store Vlq Codec InternalState AddrBalance TxAddresses BaseParser BitcoinParser.
From S2P Require Import RocksDB RocksDBFacts BitcoinIndex EthParser EthIndex Connect ConnectFacts Mempool Sync ApiTypes Worker Skyr Rpc.

Open Scope Z_scope.
Open Scope go_scope.

Definition notImplemented : error := ErrMsg "GetMempoolEntry: not implemented".

(** * Methods *)

Section forks.
Context {DM : Daemon} {RP : RpcParser} (b : BitcoinRPC).

(** ** The block by its ids *)

Definition zec_GetBlock : string -> Z -> go Block.t := thin_GetBlock b.
Definition koto_GetBlock : string -> Z -> go Block.t := thin_GetBlock b.
Definition grs_GetBlock : string -> Z -> go Block.t := thin_GetBlock b.
Definition pivx_GetBlock : string -> Z -> go Block.t := thin_GetBlock b.

(** Dash: the first block with transactions that the parser cannot parse. *)
Definition firstBlockWithSpecialTransactions : Z := 1028160.

Definition dash_GetBlock (hash : string) (height : Z) : go Block.t :=
  if bool_decide (hash = EmptyString) && (height <? firstBlockWithSpecialTransactions) then GetBlock b hash height
  else thin_GetBlock b hash height.

(** Liquid: a transaction the daemon does not have is an error; block 0 is asked for by its height too. *)
Definition liquid_GetBlock (hash : string) (height : Z) : go Block.t :=
  let* hash := (if bool_decide (hash = EmptyString) then GetBlockHash b height else Ret hash) in
  let* res := annotate (hashMsg hash) (Call b json_thin (CmdGetBlock hash 1)) in
  let* thin := resultOr (fun e => ErrAnnotated (rpcError e) (hashMsg hash)) res in
  let* txs := go_map (GetTransaction b) (bt_Txids thin) in
  Ret (set_Header (bt_Header thin) (Block.mk EmptyString EmptyString EmptyString 0 0 0 0 txs)).

(** MonetaryUnit: block 0 is parsed; of the other blocks the error of the answer is not looked at. *)
Definition mue_GetBlock (hash : string) (height : Z) : go Block.t :=
  if height =? 0 then
    let* hash := (if bool_decide (hash = EmptyString) then GetBlockHash b height else Ret hash) in
    if negb (ParseBlocks b) then GetBlockFull b hash else GetBlockWithoutHeader b hash height
  else
    let* hash := (if bool_decide (hash = EmptyString) && (0 <? height) then GetBlockHash b height else Ret hash) in
    let* res := Call b json_thin (CmdGetBlock hash 1) in
    let thin := res.2 in
    let* txs := blockTransactions b (bt_Txids thin) in
    Ret (set_Header (bt_Header thin) (Block.mk EmptyString EmptyString EmptyString 0 0 0 0 txs)).

(** ** The block as bytes *)

Definition viacoin_GetBlock (hash : string) (height : Z) : go Block.t :=
  let* hash := (if bool_decide (hash = EmptyString) then GetBlockHash b height else Ret hash) in
  if negb (ParseBlocks b) then GetBlockFull b hash else GetBlockWithoutHeader b hash height.

Definition dogecoin_GetBlock : string -> Z -> go Block.t := viacoin_GetBlock.
Definition myriad_GetBlock : string -> Z -> go Block.t := viacoin_GetBlock.
Definition namecoin_GetBlock : string -> Z -> go Block.t := viacoin_GetBlock.

(** Flo has a copy of the methods of the Bitcoin client. *)
Definition flo_GetBlockFull (hash : string) : go Block.t :=
  let* res := annotate (hashMsg hash) (Call b json_full (CmdGetBlock hash 2)) in
  let* block := resultOr (blockError (hashMsg hash)) res in
  let* txs := go_map convertAmounts (Block.Txs block) in
  Ret (set_Header block (Block.mk EmptyString EmptyString EmptyString 0 0 0 0 txs)).

Definition flo_GetBlock (hash : string) (height : Z) : go Block.t :=
  let* hash := (if bool_decide (hash = EmptyString) then GetBlockHash b height else Ret hash) in
  if negb (ParseBlocks b) then flo_GetBlockFull hash
  else if 0 <? height then GetBlockWithoutHeader b hash height
  else
    let* header := GetBlockHeader b hash in
    let* data := GetBlockRaw b hash in
    let* block := annotate (hashMsg hash) (rp_ParseBlock data) in
    Ret (set_Header header block).

(** ** Bitcoin Cash *)

(** The parameter of the level of detail is a boolean. *)
Definition cmdGetBlock (hash : string) (verbose : bool) : message :=
  mkMessage "getblock" (Fields [("blockhash"%string, PString hash); ("verbose"%string, PBool verbose)]).

Definition bch_GetBlockRaw (hash : string) : go bytes :=
  let* res := annotate (hashMsg hash) (CallMessage json_string (cmdGetBlock hash false)) in
  let* raw := resultOr (blockError (hashMsg hash)) res in
  hex_DecodeString raw.

Definition bch_GetBlockInfo (hash : string) : go ChainBlockInfo.t :=
  let* res := annotate (hashMsg hash) (CallMessage json_blockInfo (cmdGetBlock hash true)) in
  resultOr (blockError (hashMsg hash)) res.

Definition bch_GetBlockFull (hash : string) : go Block.t := Fail (ErrMsg "Not implemented").

(** The header of the daemon has no size. *)
Definition set_Size (size : Z) (block : Block.t) : Block.t :=
  Block.mk (Block.Hash block) (Block.Prev block) (Block.Next block) (Block.Height block) (Block.Confirmations block) size
    (Block.Time block) (Block.Txs block).

Definition bch_GetBlock (hash : string) (height : Z) : go Block.t :=
  let* hash := (if bool_decide (hash = EmptyString) && (0 <? height) then GetBlockHash b height else Ret hash) in
  let* header := GetBlockHeader b hash in
  let* data := bch_GetBlockRaw hash in
  let* block := annotate (hashMsg hash) (rp_ParseBlock data) in
  Ret (set_Size (Block.Size block) (set_Header header block)).

(** The estimate has no parameter, except for one coin. *)
Definition bch_EstimateFee (coinShortcut : string) (blocks : Z) : go Z :=
  if String.eqb coinShortcut "BCHSV" then EstimateFee b blocks
  else
    let* res := CallMessage json_number (mkMessage "estimatefee" NoParams) in
    let* fee := resultOr rpcError res in
    rp_AmountToBigInt fee.

Definition bch_EstimateSmartFee (coinShortcut : string) (blocks : Z) (conservative : bool) : go Z :=
  bch_EstimateFee coinShortcut blocks.

(** ** Zcoin *)

(** The requests have the types of the older encoding, which sends them by position. *)
Definition zcoin_cmdGetBlock (hash : string) (verbosity : bool) : message :=
  mkMessage "getblock" (Items (positional (Fields [("blockhash"%string, PString hash); ("verbosity"%string, PBool verbosity)]))).

Definition zcoin_cmdGetRawTransaction (txid : string) (verbose : Z) : message :=
  mkMessage "getrawtransaction" (Items (positional (Fields [("txid"%string, PString txid); ("verbose"%string, PInt verbose)]))).

Definition zcoin_GetBlockRaw (hash : string) : go bytes :=
  let* res := annotate (hashMsg hash) (CallMessage json_string (zcoin_cmdGetBlock hash false)) in
  let* raw := resultOr (blockError (hashMsg hash)) res in
  hex_DecodeString raw.

Definition zcoin_GetBlockInfo (hash : string) : go ChainBlockInfo.t :=
  let* res := annotate (hashMsg hash) (CallMessage json_blockInfo (zcoin_cmdGetBlock hash true)) in
  resultOr (blockError (hashMsg hash)) res.

Definition zcoin_GetBlockWithoutHeader (hash : string) (height : Z) : go Block.t :=
  let* data := zcoin_GetBlockRaw hash in
  let* block := annotate (string_of_text (big_String height) ++ " " ++ hash)%string (rp_ParseBlock data) in
  Ret (set_HashHeight hash height block).

Definition zcoin_GetBlock (hash : string) (height : Z) : go Block.t :=
  let* hash := (if bool_decide (hash = EmptyString) then GetBlockHash b height else Ret hash) in
  if 0 <? height then zcoin_GetBlockWithoutHeader hash height
  else
    let* header := GetBlockHeader b hash in
    let* data := zcoin_GetBlockRaw hash in
    let* block := annotate (hashMsg hash) (rp_ParseBlock data) in
    Ret (set_Header header block).

Definition zcoin_GetTransactionForMempool (txid : string) : go Tx.t :=
  let* res := annotate (txidMsg txid) (CallMessage json_string (zcoin_cmdGetRawTransaction txid 0)) in
  let* raw := resultOr (txError (txidMsg txid)) res in
  let* data := annotate (txidMsg txid) (hex_DecodeString raw) in
  annotate (txidMsg txid) (rp_ParseTx data).

Definition zcoin_getRawTransaction (txid : string) : go string :=
  let* res := annotate (txidMsg txid) (CallMessage json_raw (zcoin_cmdGetRawTransaction txid 1)) in
  resultOr (txError (txidMsg txid)) res.

(** As in the Bitcoin client a failing parser returns a nil transaction, whose field is set. *)
Definition zcoin_GetTransaction (txid : string) : go Tx.t :=
  let* r := zcoin_getRawTransaction txid in
  match rp_ParseTxFromJson r with
  | Ret tx => Ret (set_SpecificData (OtherSpecificData r) tx)
  | _ => Panic
  end.

Definition zcoin_GetTransactionSpecific (tx : Tx.t) : go string :=
  match Tx.SpecificData tx with OtherSpecificData csd => Ret csd | _ => zcoin_getRawTransaction (Tx.Txid tx) end.

(** ** Transactions of the mempool *)

Definition zec_GetTransactionForMempool : string -> go Tx.t := GetTransaction b.
Definition koto_GetTransactionForMempool : string -> go Tx.t := GetTransaction b.
Definition grs_GetTransactionForMempool : string -> go Tx.t := GetTransaction b.
Definition dash_GetTransactionForMempool : string -> go Tx.t := GetTransaction b.
Definition liquid_GetTransactionForMempool : string -> go Tx.t := GetTransaction b.
Definition qtum_GetTransactionForMempool : string -> go Tx.t := GetTransaction b.
Definition vipstarcoin_GetTransactionForMempool : string -> go Tx.t := GetTransaction b.
Definition flo_GetTransactionForMempool : string -> go Tx.t := GetTransaction b.

Definition zec_GetMempoolEntry (txid : string) : go MempoolEntry.t := Fail notImplemented.
Definition koto_GetMempoolEntry (txid : string) : go MempoolEntry.t := Fail notImplemented.
Definition liquid_GetMempoolEntry (txid : string) : go MempoolEntry.t := Fail notImplemented.
End forks.

(** ** PIVX *)

Record PivXRPC := mkPivXRPC { px_rpc : BitcoinRPC; px_Testnet : bool; px_Network : string }.

Section pivx.
Context {DM : Daemon} {RP : RpcParser} (z : PivXRPC).

Definition pivx_GetNextSuperBlock (nHeight : Z) : Z :=
  let nBlocksPerPeriod := if px_Testnet z then 144 else 43200 in
  nHeight - Z.rem nHeight nBlocksPerPeriod + nBlocksPerPeriod.

Definition pivx_GetChainInfo : go ChainInfo.t :=
  let* rv := GetChainInfo (px_rpc z) in
  let* res := Call (px_rpc z) json_supply CmdGetInfo in
  let* su := resultOr rpcError res in
  let* res := Call (px_rpc z) json_enabled CmdGetMasternodeCount in
  let* enabled := resultOr rpcError res in
  Ret (ChainInfo.mk (ChainInfo.Chain rv) (ChainInfo.Blocks rv) (ChainInfo.Headers rv) (ChainInfo.Bestblockhash rv)
         (ChainInfo.Difficulty rv) (ChainInfo.SizeOnDisk rv) (ChainInfo.Version rv) (ChainInfo.Subversion rv)
         (ChainInfo.ProtocolVersion rv) (ChainInfo.Timeoffset rv) (ChainInfo.Warnings rv)
         (su_Transparent su) (su_Shield su) (su_Money su) enabled (ChainInfo.ConnectionCount rv)
         (pivx_GetNextSuperBlock (ChainInfo.Headers rv))).

Definition pivx_Findzcserial (serialHex : string) : go string :=
  let* res := Call (px_rpc z) json_serial (CmdFindSerial [serialHex]) in
  let* '(success, txid) := resultOr rpcError res in
  Ret (if (success : bool) then txid else "Serial not found in blockchain"%string).
End pivx.

(** * The clients as they are configured *)

Inductive Coin :=
  | Bitcoin | Bcash | Bellcoin | Bgold | Dash | DigiByte | Dogecoin | Flo | Fujicoin | GameCredits | Groestlcoin
  | Koto | Liquid | Litecoin | Monacoin | MonetaryUnit | Myriad | Namecoin | PIVX | Polis | Qtum | Ravencoin | SKYR
  | Vertcoin | Viacoin | VIPSTARCOIN | Zcash | Zcoin.

#[global] Instance Coin_eq_dec : EqDecision Coin.
Proof. solve_decision. Defined.

(** [s.RPCMarshaler = m] and the two flags of the configuration. *)
Definition set_RPCMarshaler (m : marshaler) (b : BitcoinRPC) : BitcoinRPC := mkBitcoinRPC (ParseBlocks b) (ChainConfig b) m.

Definition set_Supports (fee smart : bool) (b : BitcoinRPC) : BitcoinRPC :=
  let c := ChainConfig b in
  mkBitcoinRPC (ParseBlocks b)
    (mkConfiguration (Parse c) (BlockAddressesToKeep c) (MempoolWorkers c) (MempoolSubWorkers c) fee smart (Geolocation_url c))
    (RPCMarshaler b).

Section constructors.
Context (config : Configuration).
Let b : BitcoinRPC := NewBitcoinRPC config.

Definition NewBCashRPC : BitcoinRPC := set_Supports true false b.
Definition NewBellcoinRPC : BitcoinRPC := set_Supports false true (set_RPCMarshaler JSONMarshalerV2 b).
Definition NewBGoldRPC : BitcoinRPC := b.
Definition NewDashRPC : BitcoinRPC := set_Supports true false (set_RPCMarshaler JSONMarshalerV1 b).
Definition NewDigiByteRPC : BitcoinRPC := set_Supports false true (set_RPCMarshaler JSONMarshalerV2 b).
Definition NewDogecoinRPC : BitcoinRPC := set_Supports true false (set_RPCMarshaler JSONMarshalerV1 b).
Definition NewFloRPC : BitcoinRPC := set_Supports false true (set_RPCMarshaler JSONMarshalerV2 b).
Definition NewFujicoinRPC : BitcoinRPC := set_Supports false true (set_RPCMarshaler JSONMarshalerV2 b).
Definition NewGameCreditsRPC : BitcoinRPC := set_Supports false true (set_RPCMarshaler JSONMarshalerV2 b).
Definition NewGroestlcoinRPC : BitcoinRPC := set_RPCMarshaler JSONMarshalerV1 b.
Definition NewKotoRPC : BitcoinRPC := set_Supports true false (set_RPCMarshaler JSONMarshalerV1 b).
Definition NewLiquidRPC : BitcoinRPC := set_RPCMarshaler JSONMarshalerV2 b.
Definition NewLitecoinRPC : BitcoinRPC := set_Supports false true (set_RPCMarshaler JSONMarshalerV2 b).
Definition NewMonacoinRPC : BitcoinRPC := set_Supports false true (set_RPCMarshaler JSONMarshalerV2 b).
Definition NewMonetaryUnitRPC : BitcoinRPC := set_Supports true false (set_RPCMarshaler JSONMarshalerV1 b).
Definition NewMyriadRPC : BitcoinRPC := set_Supports false true (set_RPCMarshaler JSONMarshalerV2 b).
Definition NewNamecoinRPC : BitcoinRPC := set_Supports false true (set_RPCMarshaler JSONMarshalerV1 b).
Definition NewPivXRPC : PivXRPC := mkPivXRPC (set_Supports true false (set_RPCMarshaler JSONMarshalerV1 b)) false EmptyString.
Definition NewPolisRPC : BitcoinRPC := set_Supports true false (set_RPCMarshaler JSONMarshalerV1 b).
Definition NewQtumRPC : BitcoinRPC := set_Supports true true (set_RPCMarshaler JSONMarshalerV1 b).
Definition NewRavencoinRPC : BitcoinRPC := set_Supports false true (set_RPCMarshaler JSONMarshalerV1 b).
Definition NewVertcoinRPC : BitcoinRPC := set_Supports false true (set_RPCMarshaler JSONMarshalerV2 b).
Definition NewViacoinRPC : BitcoinRPC := set_Supports true false (set_RPCMarshaler JSONMarshalerV1 b).
Definition NewVIPSTARCOINRPC : BitcoinRPC := set_Supports true true (set_RPCMarshaler JSONMarshalerV1 b).
Definition NewZCashRPC : BitcoinRPC := set_Supports true false (set_RPCMarshaler JSONMarshalerV1 b).

(** Blocks are always parsed. *)
Definition NewZcoinRPC : BitcoinRPC :=
  let c := ChainConfig b in
  mkBitcoinRPC true
    (mkConfiguration true (BlockAddressesToKeep c) (MempoolWorkers c) (MempoolSubWorkers c) true false (Geolocation_url c))
    JSONMarshalerV1.

(** The Bitcoin client that the client of a coin embeds. *)
Definition NewRPC (c : Coin) : BitcoinRPC :=
  match c with
  | Bitcoin => b | Bcash => NewBCashRPC | Bellcoin => NewBellcoinRPC | Bgold => NewBGoldRPC | Dash => NewDashRPC
  | DigiByte => NewDigiByteRPC | Dogecoin => NewDogecoinRPC | Flo => NewFloRPC | Fujicoin => NewFujicoinRPC
  | GameCredits => NewGameCreditsRPC | Groestlcoin => NewGroestlcoinRPC | Koto => NewKotoRPC | Liquid => NewLiquidRPC
  | Litecoin => NewLitecoinRPC | Monacoin => NewMonacoinRPC | MonetaryUnit => NewMonetaryUnitRPC | Myriad => NewMyriadRPC
  | Namecoin => NewNamecoinRPC | PIVX => px_rpc NewPivXRPC | Polis => NewPolisRPC | Qtum => NewQtumRPC
  | Ravencoin => NewRavencoinRPC | SKYR => sr_rpc (NewSkyrRPC config) | Vertcoin => NewVertcoinRPC | Viacoin => NewViacoinRPC
  | VIPSTARCOIN => NewVIPSTARCOINRPC | Zcash => NewZCashRPC | Zcoin => NewZcoinRPC
  end.
End constructors.

Section chains.
Context {DM : Daemon} {RP : RpcParser} (c : Coin) (b : BitcoinRPC).

(** The method a client has of its own, or the one of the embedded Bitcoin client. *)
Definition coin_GetBlock : string -> Z -> go Block.t :=
  match c with
  | Bcash => bch_GetBlock b | Dash => dash_GetBlock b | Dogecoin => dogecoin_GetBlock b | Flo => flo_GetBlock b
  | Groestlcoin => grs_GetBlock b | Koto => koto_GetBlock b | Liquid => liquid_GetBlock b | MonetaryUnit => mue_GetBlock b
  | Myriad => myriad_GetBlock b | Namecoin => namecoin_GetBlock b | PIVX => pivx_GetBlock b | SKYR => thin_GetBlock b
  | Viacoin => viacoin_GetBlock b | Zcash => zec_GetBlock b | Zcoin => zcoin_GetBlock b
  | _ => GetBlock b
  end.

Definition coin_GetTransaction : string -> go Tx.t :=
  match c with Zcoin => zcoin_GetTransaction | _ => GetTransaction b end.

Definition coin_GetTransactionForMempool : string -> go Tx.t :=
  match c with
  | Zcash => zec_GetTransactionForMempool b | Koto => koto_GetTransactionForMempool b
  | Groestlcoin => grs_GetTransactionForMempool b | Dash => dash_GetTransactionForMempool b
  | Liquid => liquid_GetTransactionForMempool b | Qtum => qtum_GetTransactionForMempool b
  | VIPSTARCOIN => vipstarcoin_GetTransactionForMempool b | Flo => flo_GetTransactionForMempool b
  | Zcoin => zcoin_GetTransactionForMempool
  | _ => GetTransactionForMempool b
  end.

Definition coin_GetMempoolEntry : string -> go MempoolEntry.t :=
  match c with
  | Zcash => zec_GetMempoolEntry | Koto => koto_GetMempoolEntry | Liquid => liquid_GetMempoolEntry
  | _ => GetMempoolEntry b
  end.

Definition coin_chain : BlockChain := {|
  Mempool.GetMempoolTransactions := GetMempoolTransactions b;
  Mempool.GetTransactionForMempool := coin_GetTransactionForMempool;
  Mempool.GetTransaction := coin_GetTransaction;
  Mempool.GetBestBlockHash := GetBestBlockHash b;
  Mempool.GetBestBlockHeight := GetBestBlockHeight b;
  chain_GetBlockHash := GetBlockHash b;
  Mempool.GetBlock := coin_GetBlock;
|}.
End chains.

(** * Facts *)

Section facts.
Context {DM : Daemon} {RP : RpcParser} (b : BitcoinRPC).

(** The daemon answers with the bytes of the block, which the parser takes. *)
Definition raw_of (a : go (answer string)) (blk : Block.t) : Prop :=
  exists raw data, a = Ret (None, raw) /\ hex_DecodeString raw = Ret data /\ rp_ParseBlock data = Ret blk.

(** The parsed block gets the hash and the height it was asked for. *)
Definition raw_served (hash : string) (height : Z) (bl : Block.t) : Prop :=
  0 < height /\ exists blk, raw_of (Call b json_string (CmdGetBlock hash 0)) blk /\ bl = set_HashHeight hash height blk.

(** The daemon answers with the block and its transactions, the amounts as text. *)
Definition full_served (hash : string) (bl : Block.t) : Prop :=
  exists blk txs, answers b json_full (CmdGetBlock hash 2) (None, blk) /\ go_map convertAmounts (Block.Txs blk) = Ret txs /\
    bl = set_Header blk (Block.mk EmptyString EmptyString EmptyString 0 0 0 0 txs).

(** The parsed block gets the header the daemon answers with, and keeps its size. *)
Definition headed_served (hash : string) (bl : Block.t) : Prop :=
  exists header blk, answers b json_header (CmdGetBlockHeader hash true) (None, header) /\
    raw_of (CallMessage json_string (cmdGetBlock hash false)) blk /\ bl = set_Size (Block.Size blk) (set_Header header blk).

(** As [thin_served], and the daemon has all the transactions. *)
Definition whole_served (hash : string) (bl : Block.t) : Prop :=
  exists txids, answers b json_thin (CmdGetBlock hash 1)
      (None, mkBlockThin (set_Header bl (Block.mk EmptyString EmptyString EmptyString 0 0 0 0 [])) txids) /\
    Forall2 (fun txid tx => GetTransaction b txid = Ret tx) txids (Block.Txs bl).

Definition bitcoin_served (hash : string) (height : Z) (bl : Block.t) : Prop :=
  if ParseBlocks b then raw_served hash height bl else full_served hash bl.

(** What the client of a coin sees of the daemon; [asked] says that it asked for the hash. *)
Definition coin_served (c : Coin) (asked : bool) (hash : string) (height : Z) (bl : Block.t) : Prop :=
  match c with
  | Bcash => headed_served hash bl
  | Groestlcoin | Koto | PIVX | SKYR | Zcash => thin_served b hash bl
  | Dash => if asked && (height <? firstBlockWithSpecialTransactions) then bitcoin_served hash height bl
            else thin_served b hash bl
  | Liquid => whole_served hash bl
  | MonetaryUnit => 0 < height /\ thin_served b hash bl
  | Zcoin => raw_served hash height bl
  | _ => bitcoin_served hash height bl
  end.

Lemma raw_of_GetBlockRaw hash blk : raw_of (Call b json_string (CmdGetBlock hash 0)) blk ->
  exists data, GetBlockRaw b hash = Ret data /\ rp_ParseBlock data = Ret blk.
Proof.
  intros (raw & data & Ha & Hd & Hp). exists data. split; [|done]. unfold GetBlockRaw. rewrite Ha.
  cbn [annotate go_bind resultOr fst snd]. done.
Qed.

Lemma raw_GetBlockWithoutHeader hash height bl : raw_served hash height bl -> GetBlockWithoutHeader b hash height = Ret bl.
Proof.
  intros (_ & blk & (data & Hg & Hp)%raw_of_GetBlockRaw & ->). unfold GetBlockWithoutHeader. rewrite Hg. gostep. by rewrite Hp.
Qed.

Lemma full_GetBlockFull hash bl : full_served hash bl -> GetBlockFull b hash = Ret bl.
Proof.
  intros (blk & txs & Ha & Ht & ->). unfold GetBlockFull. rewrite Ha. cbn [annotate go_bind resultOr fst snd]. by rewrite Ht.
Qed.

Lemma headed_bch hash height bl : hash <> EmptyString -> headed_served hash bl -> bch_GetBlock b hash height = Ret bl.
Proof.
  intros Hh (header & blk & Hb & (raw & data & Ha & Hd & Hp) & ->). unfold bch_GetBlock.
  rewrite bool_decide_false by done. cbn [andb go_bind]. unfold GetBlockHeader. rewrite Hb.
  cbn [annotate go_bind resultOr fst snd]. unfold bch_GetBlockRaw. rewrite Ha. cbn [annotate go_bind resultOr fst snd].
  rewrite Hd. gostep. by rewrite Hp.
Qed.

Lemma go_map_of_Forall2 {A B} (f : A -> go B) l l' : Forall2 (fun x y => f x = Ret y) l l' -> go_map f l = Ret l'.
Proof. induction 1 as [|x y l l' Hx _ IH]; simpl; [done|]. rewrite Hx. gostep. by rewrite IH. Qed.

Lemma whole_liquid hash height bl : hash <> EmptyString -> whole_served hash bl -> liquid_GetBlock b hash height = Ret bl.
Proof.
  intros Hh (txids & Ha & Ht). unfold liquid_GetBlock. rewrite bool_decide_false by done. gostep. rewrite Ha.
  cbn [annotate go_bind resultOr fst snd bt_Txids bt_Header]. rewrite (go_map_of_Forall2 _ _ _ Ht). by destruct bl.
Qed.

Lemma thin_mue hash height bl : hash <> EmptyString -> 0 < height -> thin_served b hash bl -> mue_GetBlock b hash height = Ret bl.
Proof.
  intros Hh Hp (txids & Ha & Ht). unfold mue_GetBlock. destruct (Z.eqb_spec height 0); [lia|].
  rewrite bool_decide_false by done. cbn [andb go_bind]. rewrite Ha. cbn [go_bind snd bt_Txids bt_Header].
  rewrite (blockTransactions_served _ _ _ Ht). by destruct bl.
Qed.
End facts.

(** The Zcoin client has methods of its own for blocks and transactions, with requests of its own; with the
    encoding it is configured for each does what the method of the Bitcoin client does. *)
Theorem zcoin_is_bitcoin `{DM : Daemon} `{RP : RpcParser} config :
  let b := NewZcoinRPC config in
  (forall hash height, zcoin_GetBlock b hash height = GetBlock b hash height) /\
  (forall hash, zcoin_GetBlockInfo hash = GetBlockInfo b hash) /\
  (forall hash height, zcoin_GetBlockWithoutHeader hash height = GetBlockWithoutHeader b hash height) /\
  (forall hash, zcoin_GetBlockRaw hash = GetBlockRaw b hash) /\
  (forall txid, zcoin_GetTransactionForMempool txid = GetTransactionForMempool b txid) /\
  (forall txid, zcoin_GetTransaction txid = GetTransaction b txid) /\
  (forall tx, zcoin_GetTransactionSpecific tx = GetTransactionSpecific b tx).
Proof. cbn zeta. split_and!; reflexivity. Qed.

Lemma zcoin_GetBlock_bitcoin `{DM : Daemon} `{RP : RpcParser} config hash height :
  zcoin_GetBlock (NewZcoinRPC config) hash height = GetBlock (NewZcoinRPC config) hash height.
Proof. reflexivity. Qed.

Lemma flo_GetBlock_bitcoin `{DM : Daemon} `{RP : RpcParser} b hash height : flo_GetBlock b hash height = GetBlock b hash height.
Proof. reflexivity. Qed.

Section fetches.
Context {DM : Daemon} {RP : RpcParser} (b : BitcoinRPC).

Lemma bitcoin_known hash height bl : hash <> EmptyString -> bitcoin_served b hash height bl -> GetBlock b hash height = Ret bl.
Proof.
  intros Hh H. unfold GetBlock. rewrite bool_decide_false by done. gostep. unfold bitcoin_served in H.
  destruct (ParseBlocks b); cbn [negb]; [|by apply full_GetBlockFull].
  pose proof (proj1 H) as Hp. apply Z.ltb_lt in Hp. rewrite Hp. by apply raw_GetBlockWithoutHeader.
Qed.

(** A method that asks for the hash if it has none. *)
Lemma GetBlock_asks height hash : hash <> EmptyString -> GetBlockHash b height = Ret hash ->
  GetBlock b EmptyString height = GetBlock b hash height.
Proof. intros Hh HG. unfold GetBlock. rewrite bool_decide_true, HG, bool_decide_false by done. done. Qed.

Lemma viacoin_known hash height bl : hash <> EmptyString -> bitcoin_served b hash height bl -> viacoin_GetBlock b hash height = Ret bl.
Proof.
  intros Hh H. unfold viacoin_GetBlock. rewrite bool_decide_false by done. gostep. unfold bitcoin_served in H.
  destruct (ParseBlocks b); cbn [negb]; [by apply raw_GetBlockWithoutHeader|by apply full_GetBlockFull].
Qed.

Lemma viacoin_asks height hash : hash <> EmptyString -> GetBlockHash b height = Ret hash ->
  viacoin_GetBlock b EmptyString height = viacoin_GetBlock b hash height.
Proof. intros Hh HG. unfold viacoin_GetBlock. rewrite bool_decide_true, HG, bool_decide_false by done. done. Qed.

Lemma thin_known hash height bl : hash <> EmptyString -> thin_served b hash bl -> thin_GetBlock b hash height = Ret bl.
Proof. intros Hh H. unfold thin_GetBlock. rewrite bool_decide_false by done. by apply thinBlock_served. Qed.

Lemma thin_asks height hash : 0 < height -> hash <> EmptyString -> GetBlockHash b height = Ret hash ->
  thin_GetBlock b EmptyString height = thin_GetBlock b hash height.
Proof.
  intros Hp%Z.ltb_lt Hh HG. unfold thin_GetBlock. rewrite bool_decide_true, Hp, HG by done.
  rewrite (bool_decide_false (hash = EmptyString)) by done. done.
Qed.

Lemma bch_asks height hash : 0 < height -> hash <> EmptyString -> GetBlockHash b height = Ret hash ->
  bch_GetBlock b EmptyString height = bch_GetBlock b hash height.
Proof.
  intros Hp%Z.ltb_lt Hh HG. unfold bch_GetBlock. rewrite bool_decide_true, Hp, HG by done.
  rewrite (bool_decide_false (hash = EmptyString)) by done. done.
Qed.

Lemma liquid_asks height hash : hash <> EmptyString -> GetBlockHash b height = Ret hash ->
  liquid_GetBlock b EmptyString height = liquid_GetBlock b hash height.
Proof. intros Hh HG. unfold liquid_GetBlock. rewrite bool_decide_true, HG, bool_decide_false by done. done. Qed.

Lemma mue_asks height hash : 0 < height -> hash <> EmptyString -> GetBlockHash b height = Ret hash ->
  mue_GetBlock b EmptyString height = mue_GetBlock b hash height.
Proof.
  intros Hp Hh HG. unfold mue_GetBlock. destruct (Z.eqb_spec height 0); [lia|]. apply Z.ltb_lt in Hp.
  rewrite bool_decide_true, Hp, HG by done. rewrite (bool_decide_false (hash = EmptyString)) by done. done.
Qed.

Lemma dash_known hash height bl : hash <> EmptyString -> thin_served b hash bl -> dash_GetBlock b hash height = Ret bl.
Proof. intros Hh H. unfold dash_GetBlock. rewrite bool_decide_false by done. by apply thin_known. Qed.

Lemma dash_asks height hash : 0 < height -> hash <> EmptyString -> GetBlockHash b height = Ret hash ->
  dash_GetBlock b EmptyString height =
  if height <? firstBlockWithSpecialTransactions then GetBlock b hash height else thin_GetBlock b hash height.
Proof.
  intros Hp Hh HG. unfold dash_GetBlock. rewrite bool_decide_true by done. cbn [andb].
  destruct (height <? firstBlockWithSpecialTransactions); [by apply GetBlock_asks|by apply thin_asks].
Qed.
End fetches.

#[local] Hint Resolve bitcoin_known viacoin_known thin_known headed_bch whole_liquid dash_known : fetches.

Section coins.
Context {DM : Daemon} {RP : RpcParser} (c : Coin) (config : Configuration).
Let b : BitcoinRPC := NewRPC config c.

Lemma coin_known hash height bl : hash <> EmptyString -> coin_served b c false hash height bl -> coin_GetBlock c b hash height = Ret bl.
Proof.
  intros Hh H. subst b. destruct c; cbn [coin_GetBlock coin_served andb] in *; eauto with fetches.
  - destruct H as [Hp H]. by apply thin_mue.
  - cbn [NewRPC]. rewrite zcoin_GetBlock_bitcoin. by apply bitcoin_known.
Qed.

Lemma coin_asked hash height bl : 0 < height -> hash <> EmptyString -> GetBlockHash b height = Ret hash ->
  coin_served b c true hash height bl -> coin_GetBlock c b EmptyString height = Ret bl.
Proof.
  intros Hp Hh HG H. subst b. destruct c; cbn [coin_GetBlock coin_served andb] in *;
    try (rewrite (GetBlock_asks _ height hash) by done; by apply bitcoin_known);
    try (rewrite (viacoin_asks _ height hash) by done; by apply viacoin_known);
    try (rewrite (thin_asks _ height hash) by done; by apply thin_known).
  - rewrite (bch_asks _ height hash) by done. by apply headed_bch.
  - rewrite (dash_asks _ height hash) by done.
    destruct (height <? firstBlockWithSpecialTransactions); [by apply bitcoin_known|by apply thin_known].
  - rewrite (liquid_asks _ height hash) by done. by apply whole_liquid.
  - rewrite (mue_asks _ height hash) by done. destruct H. by apply thin_mue.
  - cbn [NewRPC] in *. rewrite zcoin_GetBlock_bitcoin, (GetBlock_asks _ height hash) by done. by apply bitcoin_known.
Qed.

Lemma coin_end height e : 0 < height -> GetBlockHash b height = Fail e -> coin_GetBlock c b EmptyString height = Fail e.
Proof.
  intros Hp HG. subst b. pose proof Hp as Hb. apply Z.ltb_lt in Hb.
  assert (GetBlock (NewRPC config c) EmptyString height = Fail e) as E1
    by (unfold GetBlock; by rewrite bool_decide_true, HG by done).
  assert (thin_GetBlock (NewRPC config c) EmptyString height = Fail e) as E2
    by (unfold thin_GetBlock; by rewrite bool_decide_true, Hb, HG by done).
  assert (viacoin_GetBlock (NewRPC config c) EmptyString height = Fail e) as E3
    by (unfold viacoin_GetBlock; by rewrite bool_decide_true, HG by done).
  destruct c; cbn [coin_GetBlock]; try done.
  - unfold bch_GetBlock. by rewrite bool_decide_true, Hb, HG by done.
  - unfold dash_GetBlock. destruct (_ && _); done.
  - unfold liquid_GetBlock. by rewrite bool_decide_true, HG by done.
  - unfold mue_GetBlock. destruct (Z.eqb_spec height 0); [lia|]. by rewrite bool_decide_true, Hb, HG by done.
Qed.

#[local] Instance coin_fetches : Fetches b (coin_chain c b) (coin_served b c).
Proof. split; [apply coin_known|intros; by eapply coin_asked|apply coin_end]. Qed.

Lemma coin_remote hash height bs : served b (coin_served b c) hash height bs ->
  remote_chain (R := coin_chain c b) hash height bs.
Proof. apply served_remote, _. Qed.
End coins.

(** C23: For every Bitcoin-like coin, with the client configured as the coin does it: the
    synchronization connects exactly the blocks the daemon serves from the start height on, in
    order, until it has no further block.  The clients differ in what they ask the daemon
    for, [coin_served]: the bytes of the block, its transactions, or their ids. *)
Theorem coins_sync `{DB : Store} `{P : BlockChainParser} `{V : Vlq} `{SC : ScriptLib} `{J : StateJson}
    `{DM : Daemon} `{RP : RpcParser} c config interrupt now (w : SyncWorker) bs fuel initialSync :
  let b := NewRPC config c in
  served b (coin_served b c) (startHash w) (startHeight w) bs ->
  (forall k, initialSync && interrupt k = false) -> (length bs < fuel)%nat ->
  connectBlocks (R := coin_chain c b) interrupt now fuel initialSync w = sfor (connectOne now) bs w.
Proof.
  intros b Hs Hi Hf. unfold connectBlocks. rewrite (sbind_eq _ _ w w w) by done.
  apply (connectLoop_all (R := coin_chain c b) interrupt now (startHash w) (startHeight w)); [|done..].
  by apply coin_remote.
Qed.

(** The client of MonetaryUnit does not look at the error of the daemon: where the daemon refuses a
    block with an answer without a result, the client returns a block without hash, height
    and transactions, and a synchronization goes on behind it. *)
Definition noBlockThin : BlockThin := mkBlockThin (Block.mk EmptyString EmptyString EmptyString 0 0 0 0 []) [].

Theorem mue_skips_block `{DM : Daemon} `{RP : RpcParser} config hash height e bs :
  let b := NewMonetaryUnitRPC config in
  hash <> EmptyString -> 0 < height -> answers b json_thin (CmdGetBlock hash 1) (Some e, noBlockThin) ->
  mue_GetBlock b hash height = Ret (bt_Header noBlockThin) /\
  (remote_chain (R := coin_chain MonetaryUnit b) EmptyString (u32 (height + 1)) bs ->
   remote_chain (R := coin_chain MonetaryUnit b) hash height (bt_Header noBlockThin :: bs)).
Proof.
  intros b Hh Hp Ha. assert (mue_GetBlock b hash height = Ret (bt_Header noBlockThin)) as E.
  { unfold mue_GetBlock. destruct (Z.eqb_spec height 0); [lia|]. rewrite bool_decide_false by done. cbn [andb go_bind].
    rewrite Ha. done. }
  split; [done|]. intros Hr. by apply rc_block.
Qed.

(** ** Concrete daemons *)

(** The daemon of file [Rpc] with other answers to requests for strings and for blocks. *)
Definition daemon_with (js : string -> answer string) (jt : string -> answer BlockThin) : Daemon := {|
  http_Post := http_Post (Daemon := small_daemon);
  json_string s := Ret (js s);
  json_int := json_int (Daemon := small_daemon);
  json_number := json_number (Daemon := small_daemon);
  json_feerate := json_feerate (Daemon := small_daemon);
  json_raw := json_raw (Daemon := small_daemon);
  json_strings := json_strings (Daemon := small_daemon);
  json_blockChainInfo := json_blockChainInfo (Daemon := small_daemon);
  json_networkInfo := json_networkInfo (Daemon := small_daemon);
  json_header := json_header (Daemon := small_daemon);
  json_thin s := Ret (jt s);
  json_full := json_full (Daemon := small_daemon);
  json_blockInfo := json_blockInfo (Daemon := small_daemon);
  json_mempoolEntry := json_mempoolEntry (Daemon := small_daemon);
  json_supply := json_supply (Daemon := small_daemon);
  json_enabled := json_enabled (Daemon := small_daemon);
  json_masternodes := json_masternodes (Daemon := small_daemon);
  json_peers := json_peers (Daemon := small_daemon);
  json_serial := json_serial (Daemon := small_daemon);
|}.

(** It has the bytes of the block "h8". *)
Definition raw_daemon : Daemon :=
  daemon_with (fun s => if String.eqb s "getblock h8" then (None, "aabb"%string) else (Some noBlock, EmptyString))
    (fun _ => (None, noBlockThin)).

Definition raw_blk : Block.t := set_HashHeight "h8" 8 blk.

Lemma coins_sync_witness :
  connectBlocks (P := plain_parser) (V := leb)
    (R := coin_chain (DM := raw_daemon) (RP := small_parser) Zcoin (NewZcoinRPC small_config))
    (fun _ => false) 77 2 true (worker (open_db ∅) "h8") =
  sfor (connectOne (P := plain_parser) (V := leb) 77) [raw_blk] (worker (open_db ∅) "h8").
Proof.
  refine (coins_sync (P := plain_parser) (V := leb) (J := code_json) (DM := raw_daemon) (RP := small_parser) Zcoin small_config
    (fun _ => false) 77 (worker (open_db ∅) "h8") [raw_blk] 2 true _ _ _).
  - refine (served_block (DM := raw_daemon) (NewZcoinRPC small_config) _ "h8" 8 raw_blk [] _ _ _); [discriminate|..].
    + split; [reflexivity|]. exists blk. split; [|reflexivity].
      exists "aabb"%string, [Byte.xaa; Byte.xbb]. split_and!; reflexivity.
    + refine (served_last (DM := raw_daemon) (NewZcoinRPC small_config) _ 9 noBlock EmptyString _ _ _); reflexivity.
  - reflexivity.
  - vm_compute. repeat constructor.
Defined.

(** It knows the hash of the block and refuses the block. *)
Definition pruned_daemon : Daemon :=
  daemon_with (fun _ => (Some noBlock, EmptyString))
    (fun _ => (Some (mkRPCError (-1) "Block not available (pruned data)"), noBlockThin)).

Definition after_skip : sgo SyncWorker unit :=
  connectBlocks (P := plain_parser) (V := leb)
    (R := coin_chain (DM := pruned_daemon) (RP := small_parser) MonetaryUnit (NewMonetaryUnitRPC small_config))
    (fun _ => false) 77 2 true.

Lemma mue_skips_block_witness :
  mue_GetBlock (DM := pruned_daemon) (RP := small_parser) (NewMonetaryUnitRPC small_config) "h8" 8 = Ret (bt_Header noBlockThin).
Proof.
  refine (proj1 (mue_skips_block (DM := pruned_daemon) (RP := small_parser) small_config "h8" 8
    (mkRPCError (-1) "Block not available (pruned data)") [] _ _ _)); [discriminate|reflexivity..].
Defined.

(** The run ends without an error, and announces a block of height 0. *)
Example after_skip_done :
  let '(w, r) := after_skip (worker (open_db ∅) "h8") in r = Ret tt /\ notified w = [(EmptyString, 0)].
Proof. vm_compute. split; reflexivity. Qed.
