(* ===== verification/EthRpc.v ===== *)
(** The client of the Ethereum daemon ([bchain/coins/eth/ethrpc.go]), with the numbers and
    headers of [ethparser.go] and the calls to contracts of [erc20.go].

    A request is a value of [ethCall]; the class [EthClient] is the other side of the
    connection, [EthJson] what [encoding/json] makes of the texts, [EthCommon] the package
    [common] of go-ethereum.  An answer [null] is the empty text, as
    [rpc.Client.CallContext] leaves it.  The methods are in the monad of the client: they
    keep the best header and take transactions out of the mempool.  [now] is the time of
    a call, in nanoseconds.  Timeouts of a call are errors of the daemon; logs are left
    out. *)
From stdpp Require Import base list gmap strings.
From Stdlib Require Import ZArith Lia Ascii.
From S2P Require Import Prelude Hex Types Store Vlq Codec InternalState AddrBalance TxAddresses BaseParser BitcoinParser.
From S2P Require Import EthParser RocksDB RocksDBFacts BitcoinIndex EthIndex Connect ConnectFacts Mempool Sync ApiTypes Worker Hoare Skyr Rpc.

Open Scope Z_scope.
Open Scope go_scope.

(** * Requests and answers *)

Record rpcHeader := mkRpcHeader {
  rh_Hash : string;
  rh_ParentHash : string;
  rh_Difficulty : string;
  rh_Number : string;
  rh_Time : string;
  rh_Size : string;
  rh_Nonce : string;
}.

Record rpcLogWithTxHash := mkRpcLogWithTxHash { lt_rpcLog : rpcLog; lt_Hash : string }.

Record rpcEtcReceipt := mkRpcEtcReceipt { etc_GasUsed : string; etc_Status : Z; etc_Logs : list rpcLog }.

(** What the code reads of the type [Header] of go-ethereum. *)
Record Header := mkHeader { h_Number : Z; h_Hash : bytes; h_Difficulty : Z }.

Record CallMsg := mkCallMsg { msg_From : bytes; msg_To : option bytes; msg_Data : bytes }.

Inductive ethCall :=
  | eth_getBlockByNumber (number : string) (fullTxs : bool)
  | eth_getBlockByHash (hash : bytes) (fullTxs : bool)
  | eth_getLogs (fromBlock toBlock : string) (topics : list string)
  | eth_getTransactionByHash (hash : bytes)
  | eth_getTransactionReceipt (hash : bytes)
  | eth_call (data to block : string)
  | eth_sendRawTransaction (hex : string)
  | web3_clientVersion
  | eth_protocolVersion.

(** [ethereum.NotFound] *)
Definition NotFound : error := ErrMsg "not found".

Class EthClient := {
  CallContext : ethCall -> go string;
  NetworkID : go Z;
  HeaderByNumber : option Z -> go Header;
  SuggestGasPrice : go Z;
  client_EstimateGas : CallMsg -> go Z;
  BalanceAt : bytes -> go Z;
  NonceAt : bytes -> go Z;
}.

Class EthJson := {
  ej_string : string -> go string;
  ej_header : string -> go rpcHeader;
  ej_timestamp : string -> go string;
  ej_transactions : string -> go (list rpcTransaction);
  ej_txids : string -> go (list string);
  ej_transaction : string -> go rpcTransaction;
  ej_receipt : string -> go rpcReceipt;
  ej_etcReceipt : string -> go rpcEtcReceipt;
  ej_logs : string -> go (list rpcLogWithTxHash);
  ej_Marshal : completeTransaction -> go string;
}.

Class EthCommon := {
  HexToHash : string -> bytes;
  hash_Hex : bytes -> string;
  HexToAddress : string -> bytes;
  FromHex : string -> bytes;
  BytesToAddress : bytes -> bytes;
}.

(** ** Numbers *)

(** [strconv.ParseInt(n[2:], 16, 64)] *)
Definition ethNumber (n : string) : go Z :=
  if 2 <? slen n then
    match SetString16 (string_drop 2 n) with
    | Some z => if (- 2 ^ 63 <=? z) && (z <? 2 ^ 63) then Ret z else Fail (ErrMsg "value out of range")
    | None => Fail (ErrMsg "invalid syntax")
    end
  else Fail (ErrMsg "Not a number").

Fixpoint hex_digits (fuel : nat) (n : Z) : text :=
  match fuel with
  | O => []
  | S f => (if n <? 16 then [] else hex_digits f (n / 16)) ++ [hex_digit (n mod 16)]
  end.

(** [fmt.Sprintf("%#x", height)] of a [uint32]: at most eight digits *)
Definition hexNumber (height : Z) : string := ("0x" ++ untxt (hex_digits 8 height))%string.

(** * The client *)

Module Eth.
Record Configuration := mkConfiguration {
  CoinName : string;
  CoinShortcut : string;
  RPCURL : string;
  RPCTimeout : Z;
  BlockAddressesToKeep : Z;
  MempoolTxTimeoutHours : Z;
  QueryBackendOnMempoolResync : bool;
}.
End Eth.

(** [ClientSubscription] values are numbered. *)
Record EthereumRPC := mkEthereumRPC {
  e_Testnet : bool;
  e_Network : string;
  e_Parser : BaseParser;
  e_Mempool : option MempoolEthereumType;
  mempoolInitialized : bool;
  bestHeader : option Header;
  bestHeaderTime : Z;
  newBlockSubscription : option nat;
  newTxSubscription : option nat;
  e_ChainConfig : Eth.Configuration;
  isETC : bool;
}.

Definition set_Mempool (m : option MempoolEthereumType) (b : EthereumRPC) : EthereumRPC :=
  mkEthereumRPC (e_Testnet b) (e_Network b) (e_Parser b) m (mempoolInitialized b) (bestHeader b) (bestHeaderTime b)
    (newBlockSubscription b) (newTxSubscription b) (e_ChainConfig b) (isETC b).
Definition set_bestHeader (h : option Header) (t : Z) (b : EthereumRPC) : EthereumRPC :=
  mkEthereumRPC (e_Testnet b) (e_Network b) (e_Parser b) (e_Mempool b) (mempoolInitialized b) h t
    (newBlockSubscription b) (newTxSubscription b) (e_ChainConfig b) (isETC b).
Definition set_network (testnet : bool) (network : string) (b : EthereumRPC) : EthereumRPC :=
  mkEthereumRPC testnet network (e_Parser b) (e_Mempool b) (mempoolInitialized b) (bestHeader b) (bestHeaderTime b)
    (newBlockSubscription b) (newTxSubscription b) (e_ChainConfig b) (isETC b).
Definition set_initialized (b : EthereumRPC) : EthereumRPC :=
  mkEthereumRPC (e_Testnet b) (e_Network b) (e_Parser b) (e_Mempool b) true (bestHeader b) (bestHeaderTime b)
    (newBlockSubscription b) (newTxSubscription b) (e_ChainConfig b) (isETC b).
Definition set_subs (blocks txs : option nat) (b : EthereumRPC) : EthereumRPC :=
  mkEthereumRPC (e_Testnet b) (e_Network b) (e_Parser b) (e_Mempool b) (mempoolInitialized b) (bestHeader b) (bestHeaderTime b)
    blocks txs (e_ChainConfig b) (isETC b).

Definition NewEthereumRPC (config : go Eth.Configuration) (Dial : go unit) : go EthereumRPC :=
  let* c := annotate "Invalid configuration file" config in
  let c := Eth.mkConfiguration (Eth.CoinName c) (Eth.CoinShortcut c) (Eth.RPCURL c) (Eth.RPCTimeout c)
             (if Eth.BlockAddressesToKeep c <? 100 then 100 else Eth.BlockAddressesToKeep c)
             (Eth.MempoolTxTimeoutHours c) (Eth.QueryBackendOnMempoolResync c) in
  let* _ := Dial in
  Ret (mkEthereumRPC false EmptyString (NewEthereumParser (Eth.BlockAddressesToKeep c)) None false None 0 None None c
         (String.eqb (Eth.CoinName c) "Ethereum Classic")).

(** The goroutine of new blocks: what it does with a header. *)
Definition onNewBlock (now : Z) (h : Header) : EthereumRPC -> EthereumRPC := set_bestHeader (Some h) now.

Definition MainNet : Z := 1.
Definition TestNet : Z := 3.

Definition GetCoinName (b : EthereumRPC) : string := Eth.CoinName (e_ChainConfig b).
Definition GetSubversion : string := EmptyString.

(** A value of the map is a string or ([None]) something else. *)
Definition getStringFromMap (p : string) (params : gmap string (option string)) : option string := default None (params !! p).

Section client.
Context `{E : EthLib} `{PT : ProtoEthTx} `{EC : EthClient} `{EJ : EthJson} `{CM : EthCommon}.

Abbreviation rpc := (sgo EthereumRPC).

(** [rpc.CallContext] with a variable of some type: an answer [null] leaves it as it is. *)
Definition callInto {T} (zero : T) (unmarshal : string -> go T) (c : ethCall) : go T :=
  let* raw := CallContext c in
  if decide (raw = EmptyString) then Ret zero else unmarshal raw.

Definition e_Initialize : rpc unit := fun b =>
  match NetworkID with
  | Panic => (b, Panic)
  | Fail e => (b, Fail e)
  | Ret id =>
      let net := u32 (u64 id) in
      if net =? MainNet then (set_network false "livenet" b, Ret tt)
      else if net =? TestNet then (set_network true "testnet" b, Ret tt)
      else (b, Fail (ErrMsg "Unknown network id"))
  end.

(** [MempoolTxTimeoutHours] is an [int]; a [time.Duration] has 64 bits. *)
Definition CreateMempool (now : Z) : rpc (option MempoolEthereumType) := fun b =>
  let b := match e_Mempool b with
           | Some _ => b
           | None => set_Mempool (Some (NewMempoolEthereumType now (Eth.MempoolTxTimeoutHours (e_ChainConfig b))
                                          (Eth.QueryBackendOnMempoolResync (e_ChainConfig b)))) b
           end in
  (b, Ret (e_Mempool b)).

(** ** The best header *)

Definition getBestHeader (now : Z) : rpc Header := fun b =>
  let b := if isETC b && (bestHeaderTime b + second <? now) then set_bestHeader None (bestHeaderTime b) b else b in
  match bestHeader b with
  | Some h => (b, Ret h)
  | None =>
      match HeaderByNumber None with
      | Ret h => (set_bestHeader (Some h) now b, Ret h)
      | Fail e => (b, Fail e)
      | Panic => (b, Panic)
      end
  end.

Definition e_GetBestBlockHash (now : Z) : rpc string :=
  let! h := getBestHeader now in sret (hash_Hex (h_Hash h)).

Definition e_GetBestBlockHeight (now : Z) : rpc Z :=
  let! h := getBestHeader now in sret (u32 (u64 (Z.abs (h_Number h)))).

Definition e_GetChainInfo (now : Z) : rpc ChainInfo.t :=
  let! id := slift NetworkID in
  let! h := getBestHeader now in
  let! ver := slift (callInto EmptyString ej_string web3_clientVersion) in
  let! protocol := slift (callInto EmptyString ej_string eth_protocolVersion) in
  let idi := i64 (u64 id) in
  sret (ChainInfo.mk
          (if idi =? 1 then "mainnet" else ("testnet " ++ string_of_text (big_String idi))%string)
          (i64 (h_Number h)) 0 (hash_Hex (h_Hash h)) (string_of_text (big_String (h_Difficulty h))) 0
          ver EmptyString protocol EmptyString EmptyString EmptyString EmptyString EmptyString 0 0 0).

Definition computeConfirmations (now n : Z) : rpc Z :=
  let! bh := getBestHeader now in
  sret (u32 (u64 (u64 (Z.abs (h_Number bh)) - n + 1))).

(** ** Blocks *)

Definition e_GetBlockHash (height : Z) : go string :=
  match HeaderByNumber (Some height) with
  | Ret h => Ret (hash_Hex (h_Hash h))
  | Fail e => if decide (e = NotFound) then Fail ErrBlockNotFound else Fail (ErrAnnotated e "height")
  | Panic => Panic
  end.

Definition ethHeaderToBlockHeader (now : Z) (h : rpcHeader) : rpc Block.t :=
  let! height := slift (ethNumber (rh_Number h)) in
  let! c := computeConfirmations now (u64 height) in
  let! time := slift (ethNumber (rh_Time h)) in
  let! size := slift (ethNumber (rh_Size h)) in
  sret (Block.mk (rh_Hash h) (rh_ParentHash h) EmptyString (u32 height) c size time []).

Definition blockCall (hash : string) (height : Z) (fullTxs : bool) : ethCall :=
  if decide (hash = EmptyString) then eth_getBlockByNumber (hexNumber height) fullTxs
  else if decide (hash = "pending"%string) then eth_getBlockByNumber hash fullTxs
  else eth_getBlockByHash (HexToHash hash) fullTxs.

Definition getBlockRaw (hash : string) (height : Z) (fullTxs : bool) : go string :=
  let* raw := annotate "hash, height" (CallContext (blockCall hash height fullTxs)) in
  if decide (raw = EmptyString) then Fail ErrBlockNotFound else Ret raw.

Definition e_GetBlockHeader (now : Z) (hash : string) : rpc Block.t :=
  let! raw := slift (getBlockRaw hash 0 false) in
  let! h := slift (annotate "hash" (ej_header raw)) in
  ethHeaderToBlockHeader now h.

(** The logs by the hash of their transaction. *)
Definition groupLogs (logs : list rpcLogWithTxHash) : gmap string (list rpcLog) :=
  foldl (fun r l => <[lt_Hash l := default [] (r !! lt_Hash l) ++ [lt_rpcLog l]]> r) ∅ logs.

Definition getERC20EventsForBlock (blockNumber : string) : go (gmap string (list rpcLog)) :=
  let* logs := annotate "blockNumber" (callInto [] ej_logs (eth_getLogs blockNumber blockNumber [erc20TransferEventSignature])) in
  Ret (groupLogs logs).

(** [b.Mempool.RemoveTransactionFromMempool] if the mempool is initialized *)
Definition forgetTx (txid : string) : rpc unit := fun b =>
  if mempoolInitialized b then
    match e_Mempool b with
    | Some m => (set_Mempool (Some (set_base (RemoveTransactionFromMempool txid (baseMempool m)) m)) b, Ret tt)
    | None => (b, Panic)
    end
  else (b, Ret tt).

Definition blockTx (logs : gmap string (list rpcLog)) (bbh : Block.t) (tx : rpcTransaction) : go Tx.t :=
  ethTxToTx tx (Some (mkRpcReceipt EmptyString EmptyString (default [] (logs !! Hash tx))))
    (Block.Time bbh) (u32 (Block.Confirmations bbh)).

Fixpoint blockTxs (logs : gmap string (list rpcLog)) (bbh : Block.t) (body : list rpcTransaction) : rpc (list Tx.t) :=
  match body with
  | [] => sret []
  | tx :: body' =>
      let! btx := slift (annotate "hash, height, txid" (blockTx logs bbh tx)) in
      do! forgetTx (Hash tx) in
      let! btxs := blockTxs logs bbh body' in
      sret (btx :: btxs)
  end.

Definition set_Txs (txs : list Tx.t) (b : Block.t) : Block.t :=
  Block.mk (Block.Hash b) (Block.Prev b) (Block.Next b) (Block.Height b) (Block.Confirmations b) (Block.Size b) (Block.Time b) txs.

Definition e_GetBlock (now : Z) (hash : string) (height : Z) : rpc Block.t :=
  let! raw := slift (getBlockRaw hash height true) in
  let! head := slift (annotate "hash, height" (ej_header raw)) in
  let! body := slift (annotate "hash, height" (ej_transactions raw)) in
  let! bbh := sannotate "hash, height" (ethHeaderToBlockHeader now head) in
  let! logs := slift (getERC20EventsForBlock (rh_Number head)) in
  let! btxs := blockTxs logs bbh body in
  sret (set_Txs btxs bbh).

Definition e_GetBlockInfo (now : Z) (hash : string) : rpc ChainBlockInfo.t :=
  let! raw := slift (getBlockRaw hash 0 false) in
  let! head := slift (annotate "hash" (ej_header raw)) in
  let! txs := slift (ej_txids raw) in
  let! b := ethHeaderToBlockHeader now head in
  sret (ChainBlockInfo.mk (Block.Hash b) (Block.Prev b) (Block.Next b) (Block.Height b) (Block.Confirmations b)
          (Block.Size b) (Block.Time b) EmptyString EmptyString (rh_Nonce head) EmptyString (rh_Difficulty head) txs EmptyString).

(** ** Transactions *)

(** The receipt of a mined transaction; on Ethereum Classic the status may be a number. *)
Definition getReceipt (etc : bool) (hash : bytes) : go rpcReceipt :=
  if etc then
    let* raw := annotate "txid" (CallContext (eth_getTransactionReceipt hash)) in
    match ej_etcReceipt raw with
    | Ret r => Ret (mkRpcReceipt (etc_GasUsed r) (if etc_Status r =? 0 then "0x0" else "0x1") (etc_Logs r))
    | Fail _ => annotate "unmarshal receipt for txid" (ej_receipt raw)
    | Panic => Panic
    end
  else annotate "txid" (callInto (mkRpcReceipt EmptyString EmptyString []) ej_receipt (eth_getTransactionReceipt hash)).

Definition minedTx (now : Z) (txid : string) (hash : bytes) (tx : rpcTransaction) : rpc Tx.t :=
  let! raw := slift (getBlockRaw (BlockHash tx) 0 false) in
  let! ht := slift (annotate "hash" (ej_timestamp raw)) in
  let! time := slift (annotate "txid" (ethNumber ht)) in
  let! b := sget in
  let! receipt := slift (getReceipt (isETC b) hash) in
  let! n := slift (annotate "txid" (ethNumber (BlockNumber tx))) in
  let! confirmations := sannotate "txid" (computeConfirmations now (u64 n)) in
  let! btx := slift (annotate "txid" (ethTxToTx tx (Some receipt) time confirmations)) in
  do! forgetTx txid in
  sret btx.

Definition e_GetTransaction (now : Z) (txid : string) : rpc Tx.t :=
  let hash := HexToHash txid in
  let! tx := slift (callInto None (fun raw => let* tx := ej_transaction raw in Ret (Some tx)) (eth_getTransactionByHash hash)) in
  match tx with
  | None => do! forgetTx txid in sfail ErrTxNotFound
  | Some tx =>
      if decide (BlockNumber tx = EmptyString) then slift (annotate "txid" (ethTxToTx tx None 0 0))
      else minedTx now txid hash tx
  end.

Definition e_GetTransactionForMempool (now : Z) (txid : string) : rpc Tx.t := e_GetTransaction now txid.

Definition e_GetTransactionSpecific (now : Z) (tx : Tx.t) : rpc string :=
  match Tx.SpecificData tx with
  | EthSpecificData csd => slift (ej_Marshal csd)
  | _ =>
      let! ntx := e_GetTransaction now (Tx.Txid tx) in
      match Tx.SpecificData ntx with
      | EthSpecificData csd => slift (ej_Marshal csd)
      | _ => sfail (ErrMsg "Cannot get CoinSpecificData")
      end
  end.

Definition e_GetMempoolTransactions : go (list string) :=
  let* raw := getBlockRaw "pending" 0 false in
  if decide (raw = EmptyString) then Ret [] else ej_txids raw.

(** ** Fees, balances and sending *)

(** The gas price; a price that cannot be had is zero, with the error. *)
Definition e_EstimateSmartFee (blocks : Z) (conservative : bool) : go Z := SuggestGasPrice.

Definition e_EstimateFee (blocks : Z) : go Z := e_EstimateSmartFee blocks true.

Definition EthereumTypeEstimateGas (params : gmap string (option string)) : go Z :=
  let nonempty p := match getStringFromMap p params with
                    | Some s => if 0 <? slen s then Some s else None
                    | None => None
                    end in
  let from := match nonempty "from" with Some s => HexToAddress s | None => repeat Byte.x00 20 end in
  let to := HexToAddress <$> nonempty "to" in
  let data := match nonempty "data" with Some s => FromHex s | None => [] end in
  client_EstimateGas (mkCallMsg from to data).

Definition e_SendRawTransaction (hex : string) : go string :=
  let* raw := CallContext (eth_sendRawTransaction hex) in
  if decide (raw = EmptyString) then Fail (ErrMsg "SendRawTransaction: failed")
  else
    let* result := annotate "raw result" (ej_string raw) in
    if decide (result = EmptyString) then Fail (ErrMsg "SendRawTransaction: failed, empty result") else Ret result.

Definition e_GetBalance (addrDesc : bytes) : go Z := BalanceAt (BytesToAddress addrDesc).

Definition e_GetNonce (addrDesc : bytes) : go Z := NonceAt (BytesToAddress addrDesc).

(** ** The interface

    During a call the client is at one state: its methods change the best header only when
    none is known, and the mempool ([e_GetBlock_state] below). *)

Definition eth_chain (now : Z) (b : EthereumRPC) : BlockChain := {|
  Mempool.GetMempoolTransactions := e_GetMempoolTransactions;
  Mempool.GetTransactionForMempool := fun txid => snd (e_GetTransactionForMempool now txid b);
  Mempool.GetTransaction := fun txid => snd (e_GetTransaction now txid b);
  Mempool.GetBestBlockHash := snd (e_GetBestBlockHash now b);
  Mempool.GetBestBlockHeight := snd (e_GetBestBlockHeight now b);
  chain_GetBlockHash := e_GetBlockHash;
  Mempool.GetBlock := fun hash height => snd (e_GetBlock now hash height b);
|}.

(** ** The mempool *)

Definition on_base (f : BaseMempool -> go BaseMempool) : rpc unit := fun b =>
  match e_Mempool b with
  | None => (b, Panic)
  | Some m =>
      match f (baseMempool m) with
      | Ret bm => (set_Mempool (Some (set_base bm m)) b, Ret tt)
      | Fail e => (b, Fail e)
      | Panic => (b, Panic)
      end
  end.

(** [b.Mempool.AddTransactionToMempool]: a new transaction is asked for, which changes the client. *)
Definition addTx (now : Z) (txid : string) : rpc unit :=
  let! b := sget in
  match e_Mempool b with
  | None => spanic
  | Some m =>
      do! (match txEntries (baseMempool m) !! txid with
           | Some _ => sret tt
           | None => slogged tt (let! _ := e_GetTransactionForMempool now txid in sret tt)
           end) in
      on_base (AddTransactionToMempool (P := ethereum_parser (e_Parser b)) (R := eth_chain now b) now txid)
  end.

(** The goroutine of new transactions: what it does with a hash. *)
Definition onNewTx (now : Z) (hash : bytes) : rpc unit := addTx now (hash_Hex hash).

(** The answers of [EthSubscribe] to the subscriptions of blocks and of transactions. *)
Definition e_InitializeMempool (now : Z) (newHeads newPendingTransactions : go nat) : rpc unit :=
  let! b := sget in
  match e_Mempool b with
  | None => sfail (ErrMsg "Mempool not created")
  | Some _ =>
      let! txs := slift e_GetMempoolTransactions in
      do! sfor (addTx now) txs in
      do! (if isETC b then sret tt
           else
             let! b := sget in
             do! sput (set_subs None (newTxSubscription b) b) in
             let! sub := slift (annotate "EthSubscribe newHeads" newHeads) in
             sput (set_subs (Some sub) (newTxSubscription b) b)) in
      let! b := sget in
      do! sput (set_subs (newBlockSubscription b) None b) in
      let! sub := slift (annotate "EthSubscribe newPendingTransactions" newPendingTransactions) in
      do! sput (set_subs (newBlockSubscription b) (Some sub) b) in
      let! b := sget in
      sput (set_initialized b)
  end.

(** ** Contracts ([erc20.go]) *)

Definition erc20NameSignature : string := "0x06fdde03".
Definition erc20SymbolSignature : string := "0x95d89b41".
Definition erc20DecimalsSignature : string := "0x313ce567".
Definition erc20BalanceOf : string := "0x70a08231".

Definition e_ethCall (data to : string) : go string := callInto EmptyString ej_string (eth_call data to "latest").

(** [cachedContracts]; an address that is no contract is kept as [None]. *)
Abbreviation contracts_cache := (gmap bytes (option Erc20Contract.t)).

Definition askContract (contractDesc : bytes) : go (option Erc20Contract.t) :=
  let address := hexutil_Encode contractDesc in
  let* data := e_ethCall erc20NameSignature address in
  let* name := parseErc20StringProperty data in
  if decide (name = EmptyString) then Ret None
  else
    let* data := e_ethCall erc20SymbolSignature address in
    let* symbol := parseErc20StringProperty data in
    let* data := e_ethCall erc20DecimalsSignature address in
    Ret (Some (Erc20Contract.mk address name symbol
                 (match parseErc20NumericProperty data with
                  | Some d => u64 (Z.abs d) mod 256
                  | None => EtherAmountDecimalPoint
                  end))).

Definition e_GetErc20ContractInfo (contractDesc : bytes) : sgo contracts_cache (option Erc20Contract.t) := fun cache =>
  match cache !! contractDesc with
  | Some contract => (cache, Ret contract)
  | None =>
      match askContract contractDesc with
      | Ret contract => (<[contractDesc := contract]> cache, Ret contract)
      | Fail e => (cache, Fail e)
      | Panic => (cache, Panic)
      end
  end.

Definition zeros64 : text := repeat "0"%char 64.

Definition balanceRequest (addrDesc : bytes) : go string :=
  let addr := txt (hexutil_Encode addrDesc) in
  let* pad := go_from zeros64 (zlen addr - 2) in
  let* a := go_from addr 2 in
  Ret (erc20BalanceOf ++ untxt pad ++ untxt a)%string.

Definition e_GetErc20ContractBalance (addrDesc contractDesc : bytes) : go Z :=
  let contract := hexutil_Encode contractDesc in
  let* req := balanceRequest addrDesc in
  let* data := e_ethCall req contract in
  match parseErc20NumericProperty data with
  | Some r => Ret r
  | None => Fail (ErrMsg "Invalid balance")
  end.

Definition eth_api (now : Z) (unmarshalTx : string -> Tx.t) (cache : contracts_cache) (b : EthereumRPC) : ApiChain := {|
  Worker.GetTransactionSpecific := fun tx => snd (e_GetTransactionSpecific now tx b);
  json_UnmarshalTx := unmarshalTx;
  chain_GetBlockInfo := fun hash => snd (e_GetBlockInfo now hash b);
  Worker.EthereumTypeGetBalance := fun ad => let* n := e_GetBalance ad in Ret (Some n);
  Worker.EthereumTypeGetNonce := e_GetNonce;
  EthereumTypeGetErc20ContractInfo := fun cd => snd (e_GetErc20ContractInfo cd cache);
  EthereumTypeGetErc20ContractBalance := fun ad cd => let* n := e_GetErc20ContractBalance ad cd in Ret (Some n);
|}.
End client.

(** * Facts *)

(** ** Numbers *)

Lemma scan_hex_digits f n st any acc s : st <> ScanSep -> f <> O -> 0 <= n < 16 ^ Z.of_nat f ->
  exists k, 0 <= k /\
    scanDigits 16 false st any acc (hex_digits f n ++ s) = scanDigits 16 false ScanDigit true (acc * 16 ^ k + n) s.
Proof.
  revert n st any acc s. induction f as [|f IH]; intros n st any acc s Hst Hf Hn; [done|]. cbn [hex_digits].
  rewrite <- app_assoc. pose proof (Z.mod_pos_bound n 16 ltac:(lia)) as Hm.
  assert (forall st any acc, scanDigits 16 false st any acc ([hex_digit (n mod 16)] ++ s) =
    scanDigits 16 false ScanDigit true (acc * 16 + n mod 16) s) as Hlast.
  { intros *. apply scanDigits_cons; [apply hex_digit_not_x|by apply from_hex_digit|lia]. }
  destruct (Z.ltb_spec n 16) as [Hlt|Hge].
  - exists 1. split; [done|]. cbn [app]. rewrite Hlast. do 2 f_equal. rewrite Z.mod_small; lia.
  - rewrite Nat2Z.inj_succ, Z.pow_succ_r in Hn by lia.
    destruct (IH (n / 16) st any acc ([hex_digit (n mod 16)] ++ s)) as (k & Hk & ->); [done|..].
    + intros ->. change (16 ^ Z.of_nat 0) with 1 in Hn. lia.
    + split; [apply Z.div_pos; lia|apply Z.div_lt_upper_bound; lia].
    + exists (k + 1). split; [lia|]. rewrite Hlast, Z.pow_add_r by lia. f_equal.
      pose proof (Z.div_mod n 16 ltac:(lia)). change (16 ^ 1) with 16. lia.
Qed.

Lemma hex_digits_nonempty f n : hex_digits (S f) n <> [].
Proof. cbn [hex_digits]. by destruct (if n <? 16 then _ else _). Qed.

Lemma hex_digits_unsigned f n s : hex_digits f n ++ s <> [] ->
  match hex_digits f n ++ s with c :: _ => hex_digits f n <> [] -> c <> "-"%char /\ c <> "+"%char | [] => True end.
Proof.
  revert n s. induction f as [|f IH]; intros n s _; [by destruct s|]. cbn [hex_digits]. rewrite <- app_assoc.
  destruct (n <? 16).
  - cbn. intros _. split; apply hex_digit_not_x.
  - specialize (IH (n / 16) ([hex_digit (n mod 16)] ++ s)). destruct (hex_digits f (n / 16)) as [|c r] eqn:E.
    + cbn. intros _. split; apply hex_digit_not_x.
    + cbn in *. intros _. by apply IH.
Qed.

Lemma SetString16_digits f n : f <> O -> 0 <= n < 16 ^ Z.of_nat f -> SetString16 (untxt (hex_digits f n)) = Some n.
Proof.
  intros Hf Hn. unfold SetString16. rewrite String.list_ascii_of_string_of_list_ascii.
  assert (signed (scanDigits 16 false ScanStart false 0) (hex_digits f n) =
          scanDigits 16 false ScanStart false 0 (hex_digits f n)) as ->.
  { destruct f as [|f]; [done|]. pose proof (hex_digits_nonempty f n) as Hne.
    pose proof (hex_digits_unsigned (S f) n []) as Hu. rewrite app_nil_r in Hu. specialize (Hu Hne).
    destruct (hex_digits (S f) n) as [|c r]; [done|]. destruct (Hu ltac:(done)) as [H1 H2].
    unfold signed. repeat (case_match; try done). }
  destruct (scan_hex_digits f n ScanStart false 0 []) as (k & _ & E); [done..|].
  rewrite app_nil_r in E. rewrite E. done.
Qed.

Lemma slen_untxt s : slen (untxt s) = zlen s.
Proof. unfold slen. by rewrite String.list_ascii_of_string_of_list_ascii. Qed.

(** The number in a request reads back. *)
Lemma ethNumber_hexNumber h : in_u32 h -> ethNumber (hexNumber h) = Ret h.
Proof.
  intros Hh. unfold in_u32 in Hh. unfold ethNumber.
  change (hexNumber h) with (String "0" (String "x" (untxt (hex_digits 8 h)))). cbn [string_drop].
  assert (2 <? slen (String "0" (String "x" (untxt (hex_digits 8 h)))) = true) as ->.
  { apply Z.ltb_lt. unfold slen. cbn [txt]. rewrite !zlen_cons. fold (slen (untxt (hex_digits 8 h))).
    rewrite slen_untxt. pose proof (hex_digits_nonempty 7 h). destruct (hex_digits 8 h) as [|c r]; [done|].
    rewrite zlen_cons. pose proof (zlen_nonneg r). lia. }
  rewrite SetString16_digits; [|done|simpl; lia].
  destruct (Z.leb_spec (- 2 ^ 63) h); [|lia]. destruct (Z.ltb_spec h (2 ^ 63)); [|lia]. done.
Qed.

(** ** Logs *)

Definition logsOf (txid : string) (logs : list rpcLogWithTxHash) : list rpcLog :=
  map lt_rpcLog (filter (fun l => lt_Hash l = txid) logs).

Lemma groupLogs_from logs txid (r : gmap string (list rpcLog)) :
  default [] (foldl (fun r l => <[lt_Hash l := default [] (r !! lt_Hash l) ++ [lt_rpcLog l]]> r) r logs !! txid) =
  default [] (r !! txid) ++ logsOf txid logs.
Proof.
  unfold logsOf. revert r. induction logs as [|l logs IH]; intros r; [by rewrite app_nil_r|]. cbn [foldl]. rewrite IH.
  destruct (decide (lt_Hash l = txid)) as [<-|Hne].
  - rewrite lookup_insert_eq, filter_cons_True by done. cbn. by rewrite <- app_assoc.
  - by rewrite lookup_insert_ne, filter_cons_False by done.
Qed.

Lemma groupLogs_lookup logs txid : default [] (groupLogs logs !! txid) = logsOf txid logs.
Proof. unfold groupLogs. by rewrite groupLogs_from, lookup_empty. Qed.

(** ** The mempool *)

Definition forgetAll (txids : list string) (m : BaseMempool) : BaseMempool :=
  foldl (fun m t => RemoveTransactionFromMempool t m) m txids.

Lemma Remove_ok txid m : mempool_ok m -> mempool_ok (RemoveTransactionFromMempool txid m).
Proof.
  intros Hok. unfold RemoveTransactionFromMempool. destruct (txEntries m !! txid) eqn:E; [|done]. by apply removeEntry_ok.
Qed.

Lemma Remove_lookup txid m t :
  txEntries (RemoveTransactionFromMempool txid m) !! t = if decide (t = txid) then None else txEntries m !! t.
Proof.
  unfold RemoveTransactionFromMempool. destruct (txEntries m !! txid) eqn:E; cbn [txEntries removeEntryFromMempool].
  - case_decide as Et; [subst; apply lookup_delete_eq|by apply lookup_delete_ne].
  - case_decide as Et; [by subst|done].
Qed.

Lemma forgetAll_spec txids m :
  (mempool_ok m -> mempool_ok (forgetAll txids m)) /\
  forall t, txEntries (forgetAll txids m) !! t = if decide (t ∈ txids) then None else txEntries m !! t.
Proof.
  unfold forgetAll. revert m. induction txids as [|x txids IH]; intros m.
  - split; [done|]. intros t. by rewrite decide_False by apply not_elem_of_nil.
  - cbn [foldl]. destruct (IH (RemoveTransactionFromMempool x m)) as [H1 H2].
    split; [auto using Remove_ok|]. intros t. rewrite H2, Remove_lookup.
    destruct (decide (t ∈ txids)); [by rewrite decide_True by (by right)|].
    destruct (decide (t = x)) as [->|]; [by rewrite decide_True by left|].
    rewrite decide_False; [done|]. by rewrite elem_of_cons; intros [|].
Qed.

Section facts.
Context `{E : EthLib} `{EC : EthClient} `{EJ : EthJson} `{CM : EthCommon}.

(** The mempool is there when it is initialized, and its two maps agree. *)
Record client_ok (b : EthereumRPC) : Prop := {
  co_initialized : mempoolInitialized b = true -> e_Mempool b <> None;
  co_mempool : forall m, e_Mempool b = Some m -> mempool_ok (baseMempool m);
}.

(** What the calls change: the best header and entries of the mempool. *)
Record same_client (b b' : EthereumRPC) : Prop := {
  sc_initialized : mempoolInitialized b' = mempoolInitialized b;
  sc_config : e_ChainConfig b' = e_ChainConfig b /\ isETC b' = isETC b /\ e_Parser b' = e_Parser b;
  sc_network : e_Testnet b' = e_Testnet b /\ e_Network b' = e_Network b;
  sc_mempool : e_Mempool b' = None <-> e_Mempool b = None;
  sc_subs : newBlockSubscription b' = newBlockSubscription b /\ newTxSubscription b' = newTxSubscription b;
}.

#[global] Instance same_client_refl : Reflexive same_client.
Proof. intros b. by split. Qed.
#[global] Instance same_client_trans : Transitive same_client.
Proof.
  intros b1 b2 b3 [H1 (H2 & H3 & H4) (H5 & H6) H7 (H8 & H9)] [K1 (K2 & K3 & K4) (K5 & K6) K7 (K8 & K9)].
  split; [congruence|split_and!; congruence|split; congruence|by rewrite K7|split; congruence].
Qed.

(** From a client [b0]: only what may change has changed, and the invariant holds. *)
Definition client_kept (b0 b : EthereumRPC) : Prop := same_client b0 b /\ client_ok b.

Lemma kept {A} (m : sgo EthereumRPC A) b : (forall b0, keeps (client_kept b0) m) -> client_ok b -> client_kept b (m b).1.
Proof. intros Hm Hok. by apply (Hm b b). Qed.

Lemma set_bestHeader_keeps h t b0 b : client_kept b0 b -> client_kept b0 (set_bestHeader h t b).
Proof. intros [H1 H2]. split; [etrans; [exact H1|]; by split|]. by destruct H2. Qed.

Lemma getBestHeader_keeps now b0 : keeps (client_kept b0) (getBestHeader now).
Proof.
  intros b H. split; [|done]. unfold getBestHeader.
  set (b1 := if isETC b && _ then _ else _).
  assert (client_kept b0 b1) as H1 by (subst b1; case_match; [by apply set_bestHeader_keeps|done]).
  clearbody b1. destruct (bestHeader b1); [done|]. destruct (HeaderByNumber None) as [h|e|]; [|done..].
  by apply set_bestHeader_keeps.
Qed.

Lemma set_base_keeps b0 b m bm : e_Mempool b = Some m -> mempool_ok bm ->
  client_kept b0 b -> client_kept b0 (set_Mempool (Some (set_base bm m)) b).
Proof.
  intros Hm Hbm [Hs [H1 H2]]. split.
  - etrans; [exact Hs|]. split; cbn; try done. by rewrite Hm.
  - split; cbn; [done|]. by intros m' [= <-].
Qed.

Lemma forgetTx_keeps txid b0 : keeps (client_kept b0) (forgetTx txid).
Proof.
  intros b H. split; [|done]. unfold forgetTx. destruct (mempoolInitialized b); [|done].
  destruct (e_Mempool b) as [m|] eqn:Em; [|done]. apply set_base_keeps; [done| |done].
  eapply Remove_ok, co_mempool; [apply H|done].
Qed.

Lemma on_base_keeps f b0 : (forall bm bm', mempool_ok bm -> f bm = Ret bm' -> mempool_ok bm') -> keeps (client_kept b0) (on_base f).
Proof.
  intros Hf b H. split; [|done]. unfold on_base. destruct (e_Mempool b) as [m|] eqn:Em; [|done].
  destruct (f (baseMempool m)) as [bm| |] eqn:Ef; [|done..]. apply set_base_keeps; [done| |done].
  eapply Hf, Ef. eapply co_mempool; [apply H|done].
Qed.

#[local] Hint Resolve getBestHeader_keeps forgetTx_keeps : keeps.

Lemma computeConfirmations_keeps now n b0 : keeps (client_kept b0) (computeConfirmations now n).
Proof. unfold computeConfirmations. keeps_solve. Qed.
#[local] Hint Resolve computeConfirmations_keeps : keeps.

Lemma ethHeaderToBlockHeader_keeps now h b0 : keeps (client_kept b0) (ethHeaderToBlockHeader now h).
Proof. unfold ethHeaderToBlockHeader. keeps_solve. Qed.

Lemma blockTxs_keeps logs bbh body b0 : keeps (client_kept b0) (blockTxs logs bbh body).
Proof. induction body as [|tx body IH]; cbn [blockTxs]; keeps_solve. Qed.
#[local] Hint Resolve ethHeaderToBlockHeader_keeps blockTxs_keeps : keeps.

Lemma e_GetBlock_keeps now hash height b0 : keeps (client_kept b0) (e_GetBlock now hash height).
Proof. unfold e_GetBlock. keeps_solve. Qed.

Lemma minedTx_keeps now txid hash tx b0 : keeps (client_kept b0) (minedTx now txid hash tx).
Proof. unfold minedTx. keeps_solve. Qed.
#[local] Hint Resolve minedTx_keeps : keeps.

Lemma e_GetTransaction_keeps now txid b0 : keeps (client_kept b0) (e_GetTransaction now txid).
Proof. unfold e_GetTransaction. keeps_solve. Qed.
#[local] Hint Resolve e_GetTransaction_keeps : keeps.

Lemma addTx_keeps `{PT : ProtoEthTx} now txid b0 : keeps (client_kept b0) (addTx now txid).
Proof.
  unfold addTx, e_GetTransactionForMempool. keeps_solve.
  apply on_base_keeps. intros bm bm'. apply AddTransaction_ok.
Qed.

(** ** Blocks of the daemon *)

(** A block of the daemon: its header with the numbers in it, its transactions, and the
    transfers logged in it. *)
Record ethBlock := mkEthBlock {
  eb_head : rpcHeader;
  eb_number : Z;
  eb_time : Z;
  eb_size : Z;
  eb_body : list rpcTransaction;
  eb_logs : list rpcLogWithTxHash;
}.

(** The daemon answers with a block; the best header is known or can be had. *)
Record daemon_block (now : Z) (b : EthereumRPC) (hash : string) (height : Z) (d : ethBlock) : Prop := {
  db_raw : exists raw, CallContext (blockCall hash height true) = Ret raw /\ raw <> EmptyString /\
    ej_header raw = Ret (eb_head d) /\ ej_transactions raw = Ret (eb_body d);
  db_numbers : ethNumber (rh_Number (eb_head d)) = Ret (eb_number d) /\ ethNumber (rh_Time (eb_head d)) = Ret (eb_time d) /\
    ethNumber (rh_Size (eb_head d)) = Ret (eb_size d);
  db_logs : callInto [] ej_logs
    (eth_getLogs (rh_Number (eb_head d)) (rh_Number (eb_head d)) [erc20TransferEventSignature]) = Ret (eb_logs d);
  db_best : exists h, snd (getBestHeader now b) = Ret h;
  db_values : Forall (fun tx => exists v, DecodeBig (Value tx) = Ret v) (eb_body d);
}.

(** A transaction as the explorer has it: the sender is its input, the receiver its output,
    and its ERC20 transfers are those of the logs that carry its hash. *)
Record tx_of (logs : list rpcLogWithTxHash) (t : Z) (tx : rpcTransaction) (btx : Tx.t) : Prop := {
  to_txid : Tx.Txid btx = Hash tx;
  to_time : Tx.Blocktime btx = t;
  to_value : exists v, DecodeBig (Value tx) = Ret v /\ map Vout.ValueSat (Tx.Vout btx) = [v];
  to_from : map Vin.Addresses (Tx.Vin btx) = [if 2 <? slen (From tx) then [From tx] else []];
  to_to : map Vout.Addresses (Tx.Vout btx) = [if 2 <? slen (To tx) then [To tx] else []];
  to_transfers : eth_EthereumTypeGetErc20FromTx btx = erc20GetTransfersFromLog (logsOf (Hash tx) logs);
}.

Record block_of (d : ethBlock) (blk : Block.t) : Prop := {
  bo_hash : Block.Hash blk = rh_Hash (eb_head d) /\ Block.Prev blk = rh_ParentHash (eb_head d) /\ Block.Next blk = EmptyString;
  bo_numbers : Block.Height blk = u32 (eb_number d) /\ Block.Time blk = eb_time d /\ Block.Size blk = eb_size d;
  bo_txs : Forall2 (tx_of (eb_logs d) (eb_time d)) (eb_body d) (Block.Txs blk);
}.

(** The client after the transactions of a list were taken out of its mempool. *)
Definition forgotten (txids : list string) (b : EthereumRPC) : EthereumRPC :=
  match e_Mempool b with
  | Some m => if mempoolInitialized b then set_Mempool (Some (set_base (forgetAll txids (baseMempool m)) m)) b else b
  | None => b
  end.

Lemma blockTxs_run logs bbh body b :
  client_ok b -> Forall (fun tx => exists v, DecodeBig (Value tx) = Ret v) body ->
  exists btxs, blockTxs (groupLogs logs) bbh body b = (forgotten (map Hash body) b, Ret btxs) /\
    Forall2 (tx_of logs (Block.Time bbh)) body btxs.
Proof.
  intros Hok Hv. revert b Hok. induction Hv as [|tx body [v Hv] _ IH]; intros b Hok.
  - exists []. split; [|done]. cbn [blockTxs map]. unfold forgotten, sret. destruct b as [? ? ? [[]|] []]; done.
  - cbn [blockTxs map]. unfold blockTx, ethTxToTx. rewrite Hv. sgostep. cbn [annotate go_bind].
    set (btx := Tx.mk _ _ _ _ _ _ _ _ _ _ _ _ _).
    assert (tx_of logs (Block.Time bbh) tx btx) as Hbtx.
    { split; cbn; try done; [by exists v|]. by rewrite groupLogs_lookup. }
    destruct (kept (forgetTx (Hash tx)) b (forgetTx_keeps _) Hok) as [_ Hok1].
    assert (forgetTx (Hash tx) b = (fst (forgetTx (Hash tx) b), Ret tt)) as Ef.
    { unfold forgetTx. destruct (mempoolInitialized b) eqn:Ei; [|done]. destruct (e_Mempool b) eqn:Em; [done|].
      by destruct (co_initialized _ Hok Ei). }
    rewrite Ef. destruct (IH _ Hok1) as (btxs & -> & Hf). exists (btx :: btxs). split; [|by constructor].
    f_equal. unfold forgetTx, forgotten. destruct b as [? ? ? [[]|] []]; done.
Qed.

Lemma GetBlock_run now b hash height d :
  client_ok b -> daemon_block now b hash height d ->
  exists blk, e_GetBlock now hash height b = (forgotten (map Hash (eb_body d)) (fst (getBestHeader now b)), Ret blk) /\
    block_of d blk.
Proof.
  intros Hok [(raw & Er & Hraw & Eh & Et) (En & Etm & Es) El [h Eb] Hv].
  destruct (kept (getBestHeader now) b (getBestHeader_keeps now) Hok) as [_ Hok1].
  destruct (getBestHeader now b) as [b1 r] eqn:Eg. cbn in Eb, Hok1. subst r.
  unfold e_GetBlock, getBlockRaw, ethHeaderToBlockHeader, computeConfirmations, getERC20EventsForBlock, sannotate.
  rewrite Er. cbn [annotate go_bind]. rewrite (decide_False (P := raw = EmptyString)) by done.
  sgostep. rewrite Eh, Et. cbn [annotate]. rewrite En. sgostep. rewrite Eg. sgostep. rewrite Etm, Es, El.
  cbn [annotate go_bind fst].
  edestruct (blockTxs_run (eb_logs d)) as (btxs & -> & Hf); [exact Hok1|exact Hv|].
  eexists. split; [done|]. by split.
Qed.

(** A known header stays, so that further calls see the daemon through the same client. *)
Lemma getBestHeader_known now b h : isETC b = false -> bestHeader b = Some h -> getBestHeader now b = (b, Ret h).
Proof. intros He Hb. unfold getBestHeader. rewrite He. cbn [andb]. by rewrite Hb. Qed.

Lemma forgotten_header now txids b h : isETC b = false -> bestHeader b = Some h ->
  isETC (forgotten txids b) = false /\ bestHeader (forgotten txids b) = Some h /\
  forall hash height d, daemon_block now b hash height d <-> daemon_block now (forgotten txids b) hash height d.
Proof.
  intros He Hb.
  assert (isETC (forgotten txids b) = false /\ bestHeader (forgotten txids b) = Some h) as [He' Hb']
    by (unfold forgotten; by repeat case_match).
  split_and!; [done..|]. intros hash height d.
  split; intros [H1 H2 H3 H4 H5]; split; try done; exists h; by rewrite (getBestHeader_known _ _ h).
Qed.

(** The daemon has the blocks of a list from a hash and height on, and none behind them. *)
Inductive eth_serves (now : Z) (b : EthereumRPC) : string -> Z -> list ethBlock -> Prop :=
  | es_end hash height : CallContext (blockCall hash height true) = Ret EmptyString -> eth_serves now b hash height []
  | es_block hash height d rest : daemon_block now b hash height d -> eth_serves now b EmptyString (u32 (height + 1)) rest ->
      eth_serves now b hash height (d :: rest).

Lemma eth_serves_remote now b hash height ds : client_ok b -> eth_serves now b hash height ds ->
  exists bs, Forall2 block_of ds bs /\ remote_chain (R := eth_chain now b) hash height bs.
Proof.
  intros Hok. induction 1 as [hash height Ha|hash height d rest Hd _ (bs & Hf & Hr)].
  - exists []. split; [done|]. apply rc_end. cbn. unfold e_GetBlock, getBlockRaw. by rewrite Ha.
  - destruct (GetBlock_run now b hash height d Hok Hd) as (blk & Eb & Hblk).
    exists (blk :: bs). split; [by constructor|]. apply rc_block; [change (snd (e_GetBlock now hash height b) = Ret blk); by rewrite Eb|].
    by rewrite (proj2 (proj2 (bo_hash _ _ Hblk))).
Qed.
End facts.

(** * Properties *)

(** A block of the daemon becomes a block of the explorer with the transactions of the
    daemon in its order, each with its value, sender, receiver and exactly the token
    transfers that were logged under its hash; the transactions leave the mempool and all
    others stay, and the index of the mempool agrees with its entries as before. *)
Theorem eth_GetBlock_correct `{E : EthLib} `{EC : EthClient} `{EJ : EthJson} `{CM : EthCommon} now b hash height d :
  client_ok b -> daemon_block now b hash height d ->
  exists blk b', e_GetBlock now hash height b = (b', Ret blk) /\ block_of d blk /\ client_ok b' /\
    (e_Mempool b' = None <-> e_Mempool b = None) /\
    forall m m', e_Mempool b = Some m -> e_Mempool b' = Some m' -> forall t,
      txEntries (baseMempool m') !! t =
      if mempoolInitialized b && bool_decide (t ∈ map Hash (eb_body d)) then None else txEntries (baseMempool m) !! t.
Proof.
  intros Hok Hd. destruct (GetBlock_run now b hash height d Hok Hd) as (blk & Eb & Hblk).
  destruct (kept _ b (e_GetBlock_keeps now hash height) Hok) as [Hs Hok'].
  eexists blk, _. split; [exact Eb|]. rewrite Eb in Hs, Hok'. cbn [fst] in Hs, Hok'.
  split; [done|]. split; [exact Hok'|]. split; [exact (sc_mempool _ _ Hs)|]. intros m m' Hm Hm' t.
  assert (e_Mempool (fst (getBestHeader now b)) = e_Mempool b /\
          mempoolInitialized (fst (getBestHeader now b)) = mempoolInitialized b) as [E1 E2].
  { unfold getBestHeader. repeat case_match; done. }
  revert Hm'. unfold forgotten. rewrite E1, E2, Hm. destruct (mempoolInitialized b) eqn:Ei; cbn.
  - intros [= <-]. cbn. rewrite (proj2 (forgetAll_spec _ _)).
    destruct (decide (t ∈ map Hash (eb_body d))); [by rewrite bool_decide_true|by rewrite bool_decide_false].
  - rewrite E1, Hm. by intros [= <-].
Qed.

(** C27: Synchronization through the Ethereum client connects what the daemon serves: one
    block after the other by height, each as the daemon has it, until the daemon has none. *)
Theorem eth_sync `{DB : Store} `{P : BlockChainParser} `{V : Vlq} `{SC : ScriptLib} `{J : StateJson}
    `{E : EthLib} `{EC : EthClient} `{EJ : EthJson} `{CM : EthCommon} b interrupt now (w : SyncWorker) ds fuel initialSync :
  client_ok b -> eth_serves now b (startHash w) (startHeight w) ds ->
  (forall k, initialSync && interrupt k = false) -> (length ds < fuel)%nat ->
  exists bs, Forall2 block_of ds bs /\
    connectBlocks (R := eth_chain now b) interrupt now fuel initialSync w = sfor (connectOne now) bs w.
Proof.
  intros Hok Hs Hi Hf. destruct (eth_serves_remote now b _ _ ds Hok Hs) as (bs & Hb & Hr).
  exists bs. split; [done|]. unfold connectBlocks. rewrite (sbind_eq _ _ w w w) by done.
  apply (connectLoop_all (R := eth_chain now b) interrupt now (startHash w) (startHeight w)); [done..|].
  by rewrite <- (Forall2_length _ _ _ Hb).
Qed.

(** What the client does: its background work, and the calls that change it. *)
Inductive client_step `{E : EthLib} `{PT : ProtoEthTx} `{EC : EthClient} `{EJ : EthJson} `{CM : EthCommon} (now : Z)
    : EthereumRPC -> EthereumRPC -> Prop :=
  | cs_newBlock b h : client_step now b (onNewBlock now h b)
  | cs_newTx b hash : e_Mempool b <> None -> client_step now b (fst (onNewTx now hash b))
  | cs_create b : client_step now b (fst (CreateMempool now b))
  | cs_initialize b s1 s2 : client_step now b (fst (e_InitializeMempool now s1 s2 b))
  | cs_best b : client_step now b (fst (getBestHeader now b))
  | cs_block b hash height : client_step now b (fst (e_GetBlock now hash height b))
  | cs_tx b txid : client_step now b (fst (e_GetTransaction now txid b))
  | cs_resync b m m' : e_Mempool b = Some m ->
      fst (eth_Resync (P := ethereum_parser (e_Parser b)) (R := eth_chain now b) now m) = m' ->
      client_step now b (set_Mempool (Some m') b).

Lemma eth_Resync_keeps `{P : BlockChainParser} `{R : BlockChain} now m :
  mempool_ok (baseMempool m) -> mempool_ok (baseMempool (fst (eth_Resync now m))).
Proof.
  intros Hok. unfold eth_Resync. destruct (if queryBackendOnResync m then _ else _) as [bm| |] eqn:Eq; [|done..].
  assert (mempool_ok bm) as Hbm.
  { destruct (queryBackendOnResync m); [|by simplify_eq]. destruct Mempool.GetMempoolTransactions as [txs| |]; [|done..].
    cbn [go_bind] in Eq. revert Eq. generalize (baseMempool m) Hok. induction txs as [|x txs IH]; cbn [go_fold];
      [by intros ? ? [= <-]|]. intros bm0 Hbm0. destruct (AddTransactionToMempool now x bm0) as [bm1| |] eqn:Ea; [|done..].
    apply IH. by eapply AddTransaction_ok. }
  cbn. destruct (_ <? now); [|done]. cbn. by apply removeTimedOut_ok.
Qed.

Lemma Initialize_client_ok `{E : EthLib} `{PT : ProtoEthTx} `{EC : EthClient} `{EJ : EthJson} `{CM : EthCommon} now s1 s2 b :
  client_ok b -> client_ok (fst (e_InitializeMempool now s1 s2 b)).
Proof.
  intros Hok. unfold e_InitializeMempool. sgostep. destruct (e_Mempool b) as [m|] eqn:Em; [|done].
  destruct e_GetMempoolTransactions as [txs| |]; [|done..].
  destruct (kept _ b (fun b0 => keeps_sfor (client_kept b0) (addTx now) txs (fun x => addTx_keeps now x b0)) Hok) as [Hs Hok1].
  destruct (sfor (addTx now) txs b) as [b1 [[]| |]]; cbn [fst] in *; [|done..].
  assert (e_Mempool b1 <> None) as Hm1 by (intros Hn; apply (sc_mempool _ _ Hs) in Hn; congruence).
  assert (forall x y, client_ok (set_subs x y b1)) as Hsub by (intros x y; destruct Hok1; by split).
  assert (forall x y, client_ok (set_initialized (set_subs x y b1))) as Hi by (intros x y; destruct Hok1; by split).
  destruct (isETC b); [|destruct s1]; cbn; try apply Hsub; destruct s2; cbn; apply Hsub || apply Hi.
Qed.

(** C28: In every state the client can reach, the mempool exists if it is initialized, and the
    addresses of its index are exactly those of its entries. *)
Theorem client_invariant `{E : EthLib} `{PT : ProtoEthTx} `{EC : EthClient} `{EJ : EthJson} `{CM : EthCommon} config dial b0 b :
  NewEthereumRPC config dial = Ret b0 ->
  rtc (fun b b' => exists now, client_step now b b') b0 b -> client_ok b.
Proof.
  intros H0 Hr. assert (client_ok b0) as Hok.
  { unfold NewEthereumRPC in H0. destruct config as [c| |]; [|done..]. destruct dial; [|done..].
    cbn in H0. simplify_eq. by split. }
  clear H0. induction Hr as [b|b b1 b2 [now Hs] _ IH]; [done|]. apply IH. destruct Hs as [b h|b hash Hm|b|b s1 s2|b|b hash height|b txid|b m m' Hm <-].
  - by destruct Hok.
  - apply (kept _ b (addTx_keeps now _) Hok).
  - unfold CreateMempool. cbn. destruct (e_Mempool b) eqn:Em; [done|]. destruct Hok as [H1 H2].
    split; [done|]. cbn. intros m [= <-]. apply mempool_ok_empty.
  - by apply Initialize_client_ok.
  - apply (kept _ b (getBestHeader_keeps now) Hok).
  - apply (kept _ b (e_GetBlock_keeps now hash height) Hok).
  - apply (kept _ b (e_GetTransaction_keeps now txid) Hok).
  - destruct Hok as [H1 H2]. split; [done|]. cbn. intros m1 [= <-]. apply eth_Resync_keeps. by apply H2.
Qed.

(** A block at or below the best header has as many confirmations as there are blocks from
    it to the best one; a block two or more above a header that was not renewed is
    answered with a number that wrapped around. *)
Theorem computeConfirmations_exact `{EC : EthClient} now n b h :
  snd (getBestHeader now b) = Ret h -> 0 <= h_Number h < 2 ^ 32 - 1 -> in_u32 n ->
  snd (computeConfirmations now n b) =
  Ret (if n <=? h_Number h + 1 then h_Number h - n + 1 else 2 ^ 32 + (h_Number h + 1 - n)).
Proof.
  intros Hh Hn1 Hn2. unfold computeConfirmations, sbind. destruct (getBestHeader now b) as [b1 r]. cbn in Hh. subst r.
  unfold sret. cbn [snd]. f_equal. unfold in_u32, u32, u64 in *. rewrite Z.abs_eq by lia.
  rewrite (Z.mod_small (h_Number h)) by lia.
  destruct (Z.leb_spec n (h_Number h + 1)).
  - rewrite (Z.mod_small (h_Number h - n + 1) (2 ^ 64)) by lia. rewrite Z.mod_small; lia.
  - rewrite <- (Zmod_unique (h_Number h - n + 1) (2 ^ 64) (-1) (2 ^ 64 + (h_Number h - n + 1))) by lia.
    symmetry. apply Zmod_unique with (2 ^ 32 - 1); lia.
Qed.

(** The best header of an Ethereum Classic daemon, which does not announce blocks, is never
    used longer than a second after it was had; any other daemon is asked once. *)
Theorem bestHeader_age `{EC : EthClient} now b b' h :
  bestHeaderTime b <= now -> getBestHeader now b = (b', Ret h) ->
  bestHeader b' = Some h /\ bestHeaderTime b' <= now /\
  (isETC b = true -> now <= bestHeaderTime b' + second) /\
  forall `{EC2 : EthClient} later, isETC b = false -> @getBestHeader EC2 later b' = (b', Ret h).
Proof.
  intros Ht. unfold getBestHeader. destruct (isETC b) eqn:Ee; cbn [andb].
  - destruct (Z.ltb_spec (bestHeaderTime b + second) now) as [Hlt|Hge]; cbn [bestHeader].
    + cbn. destruct (HeaderByNumber None); intros [= <- <-]. cbn. split_and!; [done|lia|unfold second; lia|done].
    + destruct (bestHeader b) eqn:Eb; [intros [= <- <-]; split_and!; done || lia|].
      destruct (HeaderByNumber None); intros [= <- <-]. cbn. split_and!; [done|lia|unfold second; lia|done].
  - destruct (bestHeader b) eqn:Eb.
    + intros [= <- <-]. rewrite Ee. cbn [andb]. rewrite Eb. split_and!; done || lia.
    + destruct (HeaderByNumber None); intros [= <- <-]. cbn. rewrite Ee. cbn [andb]. split_and!; done || lia.
Qed.

(** The properties of a contract are asked for once: any later answer, whatever the daemon
    says then, is the first one, and no other contract is affected. *)
Theorem contract_asked_once `{E : EthLib} `{EC : EthClient} `{EJ : EthJson} contract cache cache' info :
  e_GetErc20ContractInfo contract cache = (cache', Ret info) ->
  (forall other, other <> contract -> cache' !! other = cache !! other) /\
  (cache !! contract = None -> askContract contract = Ret info) /\
  forall `{EC2 : EthClient}, @e_GetErc20ContractInfo _ EC2 _ contract cache' = (cache', Ret info).
Proof.
  unfold e_GetErc20ContractInfo. destruct (cache !! contract) as [c|] eqn:Ec.
  - intros [= <- <-]. split; [done|]. split; [done|]. intros EC2. by rewrite Ec.
  - destruct (askContract contract) as [c| |] eqn:Ea; intros [= <- <-]. split_and!; [|done|].
    + intros other Hne. by rewrite lookup_insert_ne.
    + intros EC2. by rewrite lookup_insert_eq.
Qed.

Lemma untxt_app a b : untxt (a ++ b) = (untxt a ++ untxt b)%string.
Proof. induction a as [|c a IH]; simpl; [done|]. by rewrite IH. Qed.

Lemma hex_zeros k : hex_EncodeToString (repeat Byte.x00 k) = untxt (repeat "0"%char (2 * k)).
Proof.
  induction k as [|k IH]; [done|]. replace (2 * S k)%nat with (S (S (2 * k))) by lia. cbn [repeat hex_EncodeToString].
  by rewrite IH.
Qed.

(** The request for a balance is the selector and the address padded with zeros to a word of
    32 bytes; for a longer descriptor the request is a slice out of range. *)
Theorem balanceRequest_word `{EL : EthLibLaws} addrDesc :
  if decide (zlen addrDesc <= 32) then
    exists req, balanceRequest addrDesc = Ret req /\
      hex_decode (strip0x req) = Some ([Byte.x70; Byte.xa0; Byte.x82; Byte.x31] ++ repeat Byte.x00 (Z.to_nat (32 - zlen addrDesc)) ++ addrDesc)
  else balanceRequest addrDesc = Panic.
Proof.
  unfold balanceRequest. rewrite Encode_hex.
  set (t := txt (hex_EncodeToString addrDesc)).
  assert (zlen t = 2 * zlen addrDesc) as Ht by apply slen_hex.
  change (txt ("0x" ++ hex_EncodeToString addrDesc)) with ("0"%char :: "x"%char :: t). rewrite !zlen_cons, Ht.
  replace (1 + (1 + 2 * zlen addrDesc) - 2) with (2 * zlen addrDesc) by lia.
  pose proof (zlen_nonneg addrDesc). destruct (decide (zlen addrDesc <= 32)) as [Hl|Hl].
  - set (k := Z.to_nat (32 - zlen addrDesc)).
    assert (zeros64 = repeat "0"%char (length t) ++ repeat "0"%char (2 * k)) as ->.
    { unfold zeros64. rewrite <- repeat_app. f_equal. unfold zlen in *. subst k. lia. }
    rewrite go_from_app by (unfold zlen; rewrite repeat_length; exact (eq_sym Ht)).
    change ("0"%char :: "x"%char :: t) with (["0"%char; "x"%char] ++ t). rewrite go_from_app by done. gostep.
    eexists. split; [done|]. rewrite <- hex_zeros. subst t. rewrite untxt_txt.
    change (strip0x (erc20BalanceOf ++ hex_EncodeToString (repeat Byte.x00 k) ++ hex_EncodeToString addrDesc))
      with (hex_EncodeToString [Byte.x70; Byte.xa0; Byte.x82; Byte.x31] ++ hex_EncodeToString (repeat Byte.x00 k) ++ hex_EncodeToString addrDesc)%string.
    by rewrite <- !txt_hex_app, hex_decode_encode.
  - unfold go_from, go_slice. change (zlen zeros64) with 64.
    destruct (Z.leb_spec (2 * zlen addrDesc) 64); [lia|]. by rewrite andb_false_r.
Qed.

(** ** Subscriptions *)

(** The goroutine of [subscribe] and the field of the client with its subscription; [s_sub] is
    the subscription it watches. *)
Inductive phase := Watching | Resubscribing | Exited.

Record subscription := mkSubscription { s_field : option nat; s_sub : nat; s_phase : phase }.

(** [ev_err n e]: the channel of errors of subscription [n] delivers, nil if it was unsubscribed;
    [ev_timer]: the timer fires and the daemon answers [EthSubscribe]; [ev_shutdown]: [Shutdown]. *)
Inductive sub_event :=
  | ev_err (n : nat) (e : option error)
  | ev_timer (answer : go nat)
  | ev_shutdown.

(** The state and the subscriptions [Shutdown] unsubscribed. *)
Definition sub_step (s : subscription) (ev : sub_event) : subscription * list nat :=
  match ev with
  | ev_shutdown => (s, match s_field s with Some n => [n] | None => [] end)
  | ev_err n e =>
      if decide (n = s_sub s) then
        match s_phase s, e with
        | Exited, _ => (s, [])
        | _, None => (mkSubscription (s_field s) (s_sub s) Exited, [])
        | _, Some _ => (mkSubscription (s_field s) (s_sub s) Resubscribing, [])
        end
      else (s, [])
  | ev_timer answer =>
      match s_phase s, answer with
      | Resubscribing, Ret n => (mkSubscription (Some n) n Watching, [])
      | Resubscribing, _ => (mkSubscription None (s_sub s) Resubscribing, [])
      | _, _ => (s, [])
      end
  end.

Fixpoint sub_run (s : subscription) (evs : list sub_event) : subscription * list nat :=
  match evs with
  | [] => (s, [])
  | ev :: evs' => let '(s1, u1) := sub_step s ev in let '(s2, u2) := sub_run s1 evs' in (s2, u1 ++ u2)
  end.

Definition subscribe (n : nat) : subscription := mkSubscription (Some n) n Watching.

Lemma sub_run_app s l1 l2 : sub_run s (l1 ++ l2) =
  let '(s1, u1) := sub_run s l1 in let '(s2, u2) := sub_run s1 l2 in (s2, u1 ++ u2).
Proof.
  revert s. induction l1 as [|ev l1 IH]; intros s; cbn [app sub_run]; [by destruct (sub_run s l2)|].
  destruct (sub_step s ev) as [s1 u1]. rewrite IH. destruct (sub_run s1 l1) as [s2 u2], (sub_run s2 l2) as [s3 u3].
  by rewrite app_assoc.
Qed.

(** A goroutine that watches a subscription has it in the field. *)
Definition sub_ok (s : subscription) : Prop := s_phase s = Watching -> s_field s = Some (s_sub s).

Lemma sub_run_ok s evs : sub_ok s -> sub_ok (fst (sub_run s evs)).
Proof.
  revert s. induction evs as [|ev evs IH]; intros s Hs; [done|]. cbn [sub_run].
  destruct (sub_step s ev) as [s1 u1] eqn:E1. assert (sub_ok s1) as H1.
  { destruct s as [f k ph]. unfold sub_ok in *. destruct ev as [n e|a|]; cbn in E1; [|destruct ph, a|];
      repeat case_match; simplify_eq; cbn; naive_solver. }
  specialize (IH s1 H1). by destruct (sub_run s1 evs).
Qed.

(** A shutdown ends the goroutine of a subscription that works: the subscription it watches
    is unsubscribed, and the nil error this sends is the last thing the goroutine reads.
    While it resubscribes after a failed attempt nothing is unsubscribed, and as the
    connection is closed by then it tries again for ever. *)
Theorem subscription_shutdown n evs s u :
  sub_run (subscribe n) evs = (s, u) ->
  (s_phase s = Watching ->
    snd (sub_step s ev_shutdown) = [s_sub s] /\ s_phase (fst (sub_step s (ev_err (s_sub s) None))) = Exited) /\
  (s_phase s = Resubscribing -> s_field s = None ->
    snd (sub_step s ev_shutdown) = [] /\
    forall later, Forall (fun ev => exists e, ev = ev_timer (Fail e)) later -> s_phase (fst (sub_run s later)) = Resubscribing).
Proof.
  intros Hr. assert (sub_ok s) as Hok by (pose proof (sub_run_ok (subscribe n) evs ltac:(done)) as H; by rewrite Hr in H).
  destruct s as [f k ph]. unfold sub_ok in Hok. cbn in *. split.
  - intros ->. rewrite Hok by done. by rewrite decide_True.
  - intros -> ->. split; [done|]. intros later Hl. induction Hl as [|ev later [e ->] _ IH]; [done|].
    cbn [sub_run sub_step s_phase]. by destruct (sub_run _ later).
Qed.

(** * Concrete runs *)

Definition eth_tx (hash : string) : rpcTransaction :=
  mkRpcTransaction "0x1" "0x1" "0x1" "0x00000000000000000000000000000000000000aa" "0x0a" "0x" hash "0x5" "0xb5"
    "0x00000000000000000000000000000000000000bb" "0x0".

Definition eth_log : rpcLog := mkRpcLog "0x00000000000000000000000000000000000000cc" ["0x01"%string] "0x05".

Definition eth_block5 : ethBlock :=
  mkEthBlock (mkRpcHeader "0xb5" "0xb4" "0x1" "0x5" "0x63" "0x64" "0x7") 5 99 100
    [eth_tx "0x01"; eth_tx "0x02"] [mkRpcLogWithTxHash eth_log "0x02"].

#[global] Instance small_common : EthCommon := {|
  HexToHash s := match hex_decode (strip0x s) with Some b => b | None => [] end;
  hash_Hex b := ("0x" ++ hex_EncodeToString b)%string;
  HexToAddress s := match hex_decode (strip0x s) with Some b => b | None => [] end;
  FromHex s := match hex_decode (strip0x s) with Some b => b | None => [] end;
  BytesToAddress b := b;
|}.

(** A daemon with block 5, a contract and a best block 7. *)
#[global] Instance small_client : EthClient := {|
  CallContext c :=
    match c with
    | eth_getBlockByNumber n _ => Ret (if String.eqb n "0x5" then "block5" else EmptyString)
    | eth_getLogs _ _ _ => Ret "logs5"%string
    | eth_call _ _ _ => Ret "name"%string
    | _ => Ret EmptyString
    end;
  NetworkID := Ret 1;
  HeaderByNumber _ := Ret (mkHeader 7 [Byte.x07] 1);
  SuggestGasPrice := Ret 1;
  client_EstimateGas _ := Ret 21000;
  BalanceAt _ := Ret 0;
  NonceAt _ := Ret 0;
|}.

#[global] Instance small_json : EthJson := {|
  ej_string _ := Ret (abi_string (repeat Byte.x00 32) [Byte.x41] (repeat Byte.x00 31));
  ej_header _ := Ret (eb_head eth_block5);
  ej_timestamp _ := Ret "0x63"%string;
  ej_transactions _ := Ret (eb_body eth_block5);
  ej_txids _ := Ret ["0x01"%string];
  ej_transaction _ := Ret (eth_tx "0x01");
  ej_receipt _ := Ret (mkRpcReceipt "0x1" "0x1" []);
  ej_etcReceipt _ := Fail (ErrMsg "json");
  ej_logs _ := Ret (eb_logs eth_block5);
  ej_Marshal _ := Ret "{}"%string;
|}.

Definition small_eth : EthereumRPC :=
  mkEthereumRPC false "livenet" (NewEthereumParser 100)
    (Some (mkMempoolEth (addEntry emptyMempool "0x02" (mkTxEntry [AddrIndex.mk [Byte.xaa] 0] 9)) 0 false 0)) true
    None 0 None None (Eth.mkConfiguration "Ethereum" "ETH" EmptyString 0 100 0 false) false.

Lemma small_eth_ok : client_ok small_eth.
Proof.
  split; [done|]. intros m [= <-]. cbn. apply addEntry_ok; [apply mempool_ok_empty|reflexivity].
Defined.

Lemma small_block : daemon_block 1000 small_eth EmptyString 5 eth_block5.
Proof.
  split.
  - exists "block5"%string. split; [reflexivity|]. split; [discriminate|]. split; reflexivity.
  - repeat split; reflexivity.
  - reflexivity.
  - eexists. reflexivity.
  - repeat constructor; eexists; vm_compute; reflexivity.
Defined.

Lemma eth_GetBlock_correct_witness :
  exists blk b', e_GetBlock 1000 EmptyString 5 small_eth = (b', Ret blk) /\ block_of eth_block5 blk /\ client_ok b' /\
    (e_Mempool b' = None <-> e_Mempool small_eth = None) /\
    forall m m', e_Mempool small_eth = Some m -> e_Mempool b' = Some m' -> forall t,
      txEntries (baseMempool m') !! t =
      if true && bool_decide (t ∈ ["0x01"%string; "0x02"%string]) then None else txEntries (baseMempool m) !! t.
Proof. exact (eth_GetBlock_correct 1000 small_eth EmptyString 5 eth_block5 small_eth_ok small_block). Defined.

Lemma eth_sync_witness :
  exists bs, Forall2 block_of [eth_block5] bs /\
    connectBlocks (P := ethereum_parser (NewEthereumParser 100)) (V := leb) (R := eth_chain 1000 small_eth)
      (fun _ => false) 1000 2 true (NewSyncWorker (open_db ∅) 5) =
    sfor (connectOne (P := ethereum_parser (NewEthereumParser 100)) (V := leb) 1000) bs (NewSyncWorker (open_db ∅) 5).
Proof.
  refine (eth_sync (P := ethereum_parser (NewEthereumParser 100)) (V := leb) (J := code_json) small_eth (fun _ => false) 1000
    (NewSyncWorker (open_db ∅) 5) [eth_block5] 2 true small_eth_ok _ _ _).
  - apply es_block; [exact small_block|]. apply es_end. reflexivity.
  - reflexivity.
  - vm_compute. repeat constructor.
Defined.

Definition small_config_eth : Eth.Configuration := Eth.mkConfiguration "Ethereum" "ETH" EmptyString 25 10 48 false.

Lemma client_invariant_witness : exists b0, NewEthereumRPC (Ret small_config_eth) (Ret tt) = Ret b0 /\
  client_ok (fst (e_GetBlock 1000 EmptyString 5 (fst (CreateMempool 900 b0)))).
Proof.
  eexists. split; [reflexivity|].
  refine (client_invariant (Ret small_config_eth) (Ret tt) _ _ eq_refl _).
  eapply rtc_l; [exists 900; apply cs_create|]. eapply rtc_l; [exists 1000; apply cs_block|]. apply rtc_refl.
Defined.

Lemma computeConfirmations_exact_witness :
  snd (computeConfirmations 1000 5 small_eth) = Ret 3 /\ snd (computeConfirmations 1000 9 small_eth) = Ret (2 ^ 32 - 1).
Proof.
  split; [exact (computeConfirmations_exact 1000 5 small_eth (mkHeader 7 [Byte.x07] 1) eq_refl ltac:(vm_compute; split; done) ltac:(vm_compute; split; done))|
    exact (computeConfirmations_exact 1000 9 small_eth (mkHeader 7 [Byte.x07] 1) eq_refl ltac:(vm_compute; split; done) ltac:(vm_compute; split; done))].
Defined.

Definition header7 : Header := mkHeader 7 [Byte.x07] 1.

Lemma bestHeader_age_witness : bestHeader (set_bestHeader (Some header7) 1000 small_eth) = Some header7 /\
  1000 <= 1000 /\ (isETC small_eth = true -> 1000 <= 1000 + second) /\
  forall `{EC2 : EthClient} later, isETC small_eth = false ->
    @getBestHeader EC2 later (set_bestHeader (Some header7) 1000 small_eth) = (set_bestHeader (Some header7) 1000 small_eth, Ret header7).
Proof. exact (bestHeader_age 1000 small_eth _ header7 ltac:(discriminate) eq_refl). Defined.

Definition contract_a : Erc20Contract.t := Erc20Contract.mk "0xaa" "A" "A" 18.

Lemma askContract_a : askContract [Byte.xaa] = Ret (Some contract_a).
Proof. vm_compute. reflexivity. Qed.

Lemma contract_asked_once_witness : exists cache : gmap bytes (option Erc20Contract.t),
  e_GetErc20ContractInfo [Byte.xaa] ∅ = (cache, Ret (Some contract_a)) /\
  forall EC2 : EthClient, @e_GetErc20ContractInfo _ EC2 _ [Byte.xaa] cache = (cache, Ret (Some contract_a)).
Proof.
  exists {[ [Byte.xaa] := Some contract_a ]}.
  assert (e_GetErc20ContractInfo [Byte.xaa] ∅ = ({[ [Byte.xaa] := Some contract_a ]}, Ret (Some contract_a))) as H
    by (unfold e_GetErc20ContractInfo; rewrite lookup_empty, askContract_a; reflexivity).
  split; [exact H|]. exact (proj2 (proj2 (contract_asked_once [Byte.xaa] _ _ _ H))).
Defined.

Lemma balanceRequest_word_witness : exists req, balanceRequest (repeat Byte.xaa 20) = Ret req /\
  hex_decode (strip0x req) = Some ([Byte.x70; Byte.xa0; Byte.x82; Byte.x31] ++ repeat Byte.x00 12 ++ repeat Byte.xaa 20).
Proof. exact (balanceRequest_word (repeat Byte.xaa 20)). Defined.

Lemma subscription_shutdown_witness :
  snd (sub_step (mkSubscription (Some 2%nat) 2 Watching) ev_shutdown) = [2%nat].
Proof.
  refine (proj1 (proj1 (subscription_shutdown 1 [ev_err 1 (Some NotFound); ev_timer (Ret 2%nat)] _ [] eq_refl) eq_refl)).
Defined.
