(* ===== verification/Forks.v ===== *)
(** The parsers of the coins whose blocks, transactions or addresses differ from those of
    Bitcoin: [bchain/coins/utils/parserutils.go] and the parsers of Dogecoin, Myriad,
    Namecoin, Viacoin, Ravencoin, Bitcoin Gold, MonetaryUnit, Qtum, VIPSTARCOIN, Zcoin,
    Liquid and Bitcoin Cash under [bchain/coins/].

    The package [wire] is the class [WireLib] of readers; [WireLaws] says that they read
    what is serialized.  A block is read from a [reader] ([Reader]).  [unmarshal] is what
    [json.Unmarshal] makes of the JSON of a transaction. *)
From stdpp Require Import base list strings.
From Stdlib Require Import ZArith Lia Ascii.
From S2P Require Import Prelude Hex Types Vlq BaseParser EthParser BitcoinParser Skyr Reader.

Open Scope Z_scope.
Open Scope go_scope.

(** Of the header of a block the version, an [int32], and the time. *)
Record BlockHeader := mkBlockHeader { bh_Version : Z; bh_Timestamp : Z }.

(** [wire]; transactions are in the encoding with witnesses.  A slice of more than [maxAlloc]
    elements is not allocated. *)
Class WireLib := {
  ReadVarInt : sgo reader Z;
  BtcDecode : sgo reader Wire.MsgTx;
  Deserialize : sgo reader BlockHeader;
  MaxBlockPayload : Z;
  maxAlloc : Z;
}.

Class WireLaws (W : WireLib) := {
  put_VarInt : Z -> bytes;
  tx_wire : Wire.MsgTx -> bytes -> Prop;
  header_wire : BlockHeader -> bytes -> Prop;
  ReadVarInt_put : forall n, in_u64 n -> reads ReadVarInt (put_VarInt n) n;
  BtcDecode_wire : forall t b, tx_wire t b -> reads BtcDecode b t;
  Deserialize_wire : forall h b, header_wire h b -> reads Deserialize b h;
}.

(** Malformed data is an error. *)
Class WireQuiet (W : WireLib) := {
  ReadVarInt_quiet : quiet ReadVarInt;
  BtcDecode_quiet : quiet BtcDecode;
  Deserialize_quiet : quiet Deserialize;
}.

#[export] Hint Resolve ReadVarInt_quiet BtcDecode_quiet Deserialize_quiet : quiet.

(** * Shared by the parsers *)

Definition minTxPayload : Z := 10.
Definition VersionAuxpow : Z := Z.shiftl 1 8.

Section blocks.
Context {W : WireLib} {L : BtcLib} (p : BitcoinParser).

Definition maxTxPerBlock : Z := MaxBlockPayload / minTxPayload + 1.

Definition DecodeTransactions : sgo reader (list Wire.MsgTx) :=
  let! txCount := ReadVarInt in
  if maxTxPerBlock <? txCount then sfail (ErrMsg "too many transactions to fit into a block")
  else srepeat (Z.to_nat txCount) BtcDecode.

(** A list of hashes, [r.Seek(int64(size)*32, io.SeekCurrent)] *)
Definition skipHashes : sgo reader unit :=
  let! size := ReadVarInt in Seek (i64 (i64 size * 32)).

Definition SkipAuxpow : sgo reader unit :=
  let! _ := BtcDecode in
  do! Seek 32 in
  do! skipHashes in
  do! Seek 4 in
  do! skipHashes in
  do! Seek 4 in
  let! _ := Deserialize in
  sret tt.

(** What the parsers return: the size of the data, the time and the transactions. *)
Definition parsedBlock (b : bytes) (time : Z) (txs : list Tx.t) : Block.t :=
  Block.mk EmptyString EmptyString EmptyString 0 0 (zlen b) time txs.

(** The transactions of the block, converted one by one. *)
Definition convertTxs (ts : list Wire.MsgTx) : go (list Tx.t) := go_map (fun t => TxFromMsgTx p t false) ts.

(** * Blocks *)

Definition ravencoin_ParseBlock (b : bytes) : go Block.t :=
  ((let! h := Deserialize in
    let! w := DecodeTransactions in
    let! txs := slift (convertTxs w) in
    sret (parsedBlock b (bh_Timestamp h) txs)) (NewReader b)).2.

(** Blocks that were mined with another chain carry the proof of it. *)
Definition dogecoin_ParseBlock (b : bytes) : go Block.t :=
  ((let! h := Deserialize in
    do! (if negb (Z.land (bh_Version h) VersionAuxpow =? 0) then SkipAuxpow else sret tt) in
    let! w := DecodeTransactions in
    let! txs := slift (convertTxs w) in
    sret (parsedBlock b (bh_Timestamp h) txs)) (NewReader b)).2.

(** These parsers have the same code. *)
Definition myriad_ParseBlock : bytes -> go Block.t := dogecoin_ParseBlock.
Definition namecoin_ParseBlock : bytes -> go Block.t := dogecoin_ParseBlock.
Definition viacoin_ParseBlock : bytes -> go Block.t := dogecoin_ParseBlock.

Definition headerFixedLength : Z := 44 + 32 * 3.
Definition timestampOffset : Z := 100.
Definition timestampLength : Z := 4.

Definition getTimestampAndSkipHeader : sgo reader Z :=
  do! SeekStart timestampOffset in
  let! buf := ReadFull timestampLength in
  let time := le_Z buf in
  do! Seek (headerFixedLength - timestampOffset - timestampLength) in
  let! size := ReadVarInt in
  do! Seek (i64 size) in
  sret time.

Definition bgold_ParseBlock (b : bytes) : go Block.t :=
  ((let! time := getTimestampAndSkipHeader in
    let! w := DecodeTransactions in
    let! txs := slift (convertTxs w) in
    sret (parsedBlock b time txs)) (NewReader b)).2.

(** Versions above 3 have a checkpoint behind the header. *)
Definition mue_ParseBlock (b : bytes) : go Block.t :=
  ((let! h := sannotate "Deserialize" Deserialize in
    do! (if 3 <? bh_Version h then Seek 32 else sret tt) in
    let! w := sannotate "DecodeTransactions" DecodeTransactions in
    let! txs := slift (convertTxs w) in
    sret (parsedBlock b (bh_Timestamp h) txs)) (NewReader b)).2.

(** The signature is read into a slice of the length that is announced. *)
Definition qtum_parseBlockHeader : sgo reader BlockHeader :=
  let! h := Deserialize in
  let! _ := ReadFull 100 in
  let! sigLength := ReadVarInt in
  if maxAlloc <? sigLength then spanic
  else
    let! _ := ReadFull sigLength in
    sret h.

Definition qtum_ParseBlock (b : bytes) : go Block.t :=
  ((let! h := qtum_parseBlockHeader in
    let! w := DecodeTransactions in
    let! txs := slift (convertTxs w) in
    sret (parsedBlock b (bh_Timestamp h) txs)) (NewReader b)).2.

Definition vipstarcoin_parseBlockHeader : sgo reader BlockHeader := qtum_parseBlockHeader.
Definition vipstarcoin_ParseBlock : bytes -> go Block.t := qtum_ParseBlock.

(** ** Zcoin *)

Definition OpZeroCoinMint : Z := 0xc1.
Definition OpZeroCoinSpend : Z := 0xc2.
Definition GenesisBlockTime : Z := 1414776286.
Definition SwitchToMTPBlockHeader : Z := 1544443200.
Definition MTPL : nat := 64.
Definition SpendTxID : string := "0000000000000000000000000000000000000000000000000000000000000000".

Definition isMTP (h : BlockHeader) : bool :=
  let epoch := bh_Timestamp h in (GenesisBlockTime <? epoch) && (SwitchToMTPBlockHeader <=? epoch).

(** [binary.Read] of a structure reads its size. *)
Definition MTPBlockHeaderSize : Z := 4 + 3 * 32.
Definition MTPHashDataSize : Z := 16 + 128 * 128 * 8.

Definition readProof : sgo reader (list bytes) :=
  let! numberProofBlocks := Uint8 in
  srepeat (Z.to_nat numberProofBlocks) (ReadFull 16).

Definition readMTP : sgo reader unit :=
  let! _ := ReadFull MTPBlockHeaderSize in
  let! _ := ReadFull MTPHashDataSize in
  let! _ := srepeat (MTPL * 3) readProof in
  sret tt.

Definition zcoinVin (vin : Vin.t) : Vin.t :=
  if String.eqb (Vin.Txid vin) SpendTxID
  then Vin.mk (Vin.Txid vin) EmptyString 0 (Vin.ScriptSigHex vin) 0 (Vin.Addresses vin)
  else vin.

Definition parseZcoinTx (tx : Tx.t) : Tx.t :=
  Tx.mk (Tx.Hex tx) (Tx.Txid tx) (Tx.Version tx) (Tx.LockTime tx) (map zcoinVin (Tx.Vin tx)) (Tx.Vout tx) (Tx.Confirmations tx)
    (Tx.Time tx) (Tx.Blocktime tx) (Tx.VShieldIn tx) (Tx.VShieldOut tx) (Tx.ShieldValBal tx) (Tx.SpecificData tx).

(** The slice of transactions has the length that is announced. *)
Definition zcoin_ParseBlock (b : bytes) : go Block.t :=
  ((let! header := Deserialize in
    do! (if isMTP header then readMTP else sret tt) in
    let! ntx := ReadVarInt in
    if maxAlloc <? ntx then spanic
    else
      let! txs := srepeat (Z.to_nat ntx)
        (let! t := BtcDecode in let! btx := slift (TxFromMsgTx p t false) in sret (parseZcoinTx btx)) in
      sret (parsedBlock b (bh_Timestamp header) txs)) (NewReader b)).2.
End blocks.

(** * Transactions in JSON *)

Section json.
Context {L : BtcLib} (unmarshal : string -> go Tx.t) (p : BaseParser).

(** The text of an amount becomes its value. *)
Definition base_jsonVout (vout : Vout.t) : go Vout.t :=
  let* valueSat := AmountToBigInt p (txt (Vout.JsonValue vout)) in
  Ret (Vout.mk valueSat EmptyString (Vout.N vout) (Vout.ScriptPubKeyHex vout) (Vout.Addresses vout)).

Definition BaseParser_ParseTxFromJson (msg : string) : go Tx.t :=
  let* tx := unmarshal msg in
  let* vout := go_map base_jsonVout (Tx.Vout tx) in
  Ret (set_Vouts vout tx).

(** Addresses that are missing become an empty slice here, which is the same list. *)
Definition qtum_ParseTxFromJson : string -> go Tx.t := BaseParser_ParseTxFromJson.
Definition vipstarcoin_ParseTxFromJson : string -> go Tx.t := BaseParser_ParseTxFromJson.
Definition mue_ParseTxFromJson : string -> go Tx.t := BaseParser_ParseTxFromJson.

Definition zcoin_ParseTxFromJson (msg : string) : go Tx.t :=
  let* tx := BaseParser_ParseTxFromJson msg in Ret (parseZcoinTx tx).
End json.

(** * Addresses *)

Section zcoin.
Context {L : BtcLib} (p : BitcoinParser).

Definition zcoin_GetAddressesFromAddrDesc (addrDesc : bytes) : go (list string * bool) :=
  if byteAt addrDesc 0 OpZeroCoinMint then Ret (["Zeromint"%string], false)
  else if byteAt addrDesc 0 OpZeroCoinSpend then Ret (["Zerospend"%string], false)
  else outputScriptToAddresses p addrDesc.
End zcoin.

(** An error of the conversion is dropped. *)
Definition mue_outputScriptToAddresses {L : BtcLib} (p : BitcoinParser) (script : bytes) : go (list string * bool) :=
  logged ([], false) (outputScriptToAddresses p script).

(** A script that is no hex is decoded up to the first wrong character. *)
Definition mue_GetAddrDescForUnknownInput (tx : Tx.t) (input : Z) : bytes :=
  match inputScript tx input with
  | Some scriptHex => if bool_decide (scriptHex = EmptyString) then repeat Byte.x00 10 else hex_DecodePrefix scriptHex
  | None => repeat Byte.x00 10
  end.

(** ** Liquid *)

Definition OP_INVALIDOPCODE : Z := 0xff.

Section liquid.
Context {L : BtcLib} `{V : Vlq} (p : BitcoinParser).

(** An input that spends a transaction of Bitcoin is indexed under a script of its own. *)
Definition liquid_GetAddrDescForUnknownInput (tx : Tx.t) (input : Z) : bytes :=
  match Tx.Vin tx !! Z.to_nat input with
  | Some vin =>
      match BaseParser_PackTxid (Vin.Txid vin) with
      | Ret btxID => z2b OP_INVALIDOPCODE :: btxID ++ vlq_PutInt (Vin.Vout vin)
      | _ => []
      end
  | None => []
  end.

Definition liquid_outputScriptToAddresses (script : bytes) : go (list string * bool) :=
  if (33 <? zlen script) && byteAt script 0 OP_INVALIDOPCODE then
    let* id := go_slice script 1 33 in
    let* txid := logged EmptyString (BaseParser_UnpackTxid id) in
    let* r := go_from script 33 in
    let '(vout, _) := vlq_Int r in
    Ret (["Bitcoin tx " ++ txid ++ ":" ++ string_of_text (big_String vout)]%string, false)
  else outputScriptToAddresses p script.
End liquid.

(** ** Bitcoin Cash *)

Inductive AddressFormat := Legacy | CashAddr.

Definition MainNetPrefix : string := "bitcoincash:".
Definition TestNetPrefix : string := "bchtest:".
Definition RegTestPrefix : string := "bchreg:".

(** [bchutil] and [cashaddr-converter]: addresses in the new format, and their conversion. *)
Class BchLib `{L : BtcLib} := {
  bchAddress : Type;
  bch_DecodeAddress : string -> go bchAddress;
  bch_PayToAddrScript : bchAddress -> go bytes;
  bch_ExtractPkScriptAddrs : bytes -> go bchAddress;
  bch_EncodeAddress : bchAddress -> string;
  bch_NewFromString : string -> go bytes;
  bch_Legacy : bytes -> go BitcoinParser.Address;
  bch_Encode : BitcoinParser.Address -> go string;
}.

Record BCashParser := mkBCashParser { bch_bitcoin : BitcoinParser; bch_Format : AddressFormat }.

Definition NewBCashParser (format : string) (keep p2sh native slip44 : Z) : go BCashParser :=
  if String.eqb format EmptyString || String.eqb format "cashaddr"
  then Ret (mkBCashParser (NewBitcoinParser keep p2sh native slip44) CashAddr)
  else if String.eqb format "legacy" then Ret (mkBCashParser (NewBitcoinParser keep p2sh native slip44) Legacy)
  else Fail (ErrMsg ("Unknown address format: " ++ format)%string).

Definition longerPrefix (prefix addr : string) : bool :=
  (String.length prefix <? String.length addr)%nat && String.prefix prefix addr.

Definition isCashAddr (addr : string) : bool :=
  longerPrefix MainNetPrefix addr || longerPrefix TestNetPrefix addr || longerPrefix RegTestPrefix addr.

Definition unknownScriptType : error := ErrMsg "unknown script type".

Section bcash.
Context {L : BtcLib} {BL : BchLib (L := L)} (p : BCashParser).

Definition bch_addressToOutputScript (address : string) : go bytes :=
  if isCashAddr address then
    let* da := bch_DecodeAddress address in bch_PayToAddrScript da
  else
    let* da := DecodeAddress address in PayToAddrScript da.

Definition bch_GetAddrDescFromAddress (address : string) : go bytes := bch_addressToOutputScript address.

Definition bch_outputScriptToAddresses (script : bytes) : go (list string * bool) :=
  let* script := ConvertP2PKtoP2PKH script in
  match bch_ExtractPkScriptAddrs script with
  | Fail e =>
      if decide (e = unknownScriptType) then
        let* or := TryParseOPReturn (bch_bitcoin p) script in
        Ret (if bool_decide (or = EmptyString) then [] else [or], false)
      else Fail e
  | Panic => Panic
  | Ret a =>
      let addr := bch_EncodeAddress a in
      let* addr :=
        match bch_Format p with
        | CashAddr => Ret addr
        | Legacy => let* da := bch_NewFromString addr in let* ca := bch_Legacy da in bch_Encode ca
        end in
      Ret ([addr], (0 <? String.length addr)%nat)
  end.
End bcash.

(** * Facts *)

(** ** The formats of blocks *)

Inductive blockFormat := PlainBlock | AuxpowBlock | BGoldBlock | CheckpointBlock | StakeBlock | MTPBlock.

Section formats.
Context {W : WireLib} {WL : WireLaws W} {L : BtcLib} (p : BitcoinParser).

(** The parser of a format. *)
Definition ParseBlockOf (f : blockFormat) : bytes -> go Block.t :=
  match f with
  | PlainBlock => ravencoin_ParseBlock p
  | AuxpowBlock => dogecoin_ParseBlock p
  | BGoldBlock => bgold_ParseBlock p
  | CheckpointBlock => mue_ParseBlock p
  | StakeBlock => qtum_ParseBlock p
  | MTPBlock => zcoin_ParseBlock p
  end.

(** A list of hashes behind its length, and a number of four bytes. *)
Definition hash_list (b : bytes) : Prop :=
  exists k hs, 0 <= k /\ 32 * k < 2 ^ 63 /\ zlen hs = 32 * k /\ b = put_VarInt k ++ hs.

(** The proof of work of another chain: its coinbase transaction and the hash of its block,
    two branches of a Merkle tree with their indexes, and its header. *)
Definition auxpow (b : bytes) : Prop :=
  exists t bt hash l1 i1 l2 i2 h bh, tx_wire t bt /\ zlen hash = 32 /\ hash_list l1 /\ zlen i1 = 4 /\ hash_list l2 /\ zlen i2 = 4 /\
    header_wire h bh /\ b = bt ++ hash ++ l1 ++ i1 ++ l2 ++ i2 ++ bh.

(** A number of blocks of 16 bytes behind their number. *)
Definition mtp_proof (b : bytes) : Prop :=
  exists n ds, 0 <= n < 256 /\ zlen ds = 16 * n /\ b = z2b n :: ds.

Definition mtp (b : bytes) : Prop :=
  exists mh hd proofs, zlen mh = MTPBlockHeaderSize /\ zlen hd = MTPHashDataSize /\ length proofs = (MTPL * 3)%nat /\
    Forall mtp_proof proofs /\ b = mh ++ hd ++ concat proofs.

(** What stands before the transactions of a block with a time. *)
Inductive front : blockFormat -> Z -> bytes -> Prop :=
  | front_plain h b : header_wire h b -> front PlainBlock (bh_Timestamp h) b
  | front_own h b : header_wire h b -> Z.land (bh_Version h) VersionAuxpow = 0 -> front AuxpowBlock (bh_Timestamp h) b
  | front_auxpow h b aux : header_wire h b -> Z.land (bh_Version h) VersionAuxpow <> 0 -> auxpow aux ->
      front AuxpowBlock (bh_Timestamp h) (b ++ aux)
  | front_bgold time a c solution : zlen a = 100 -> in_u32 time -> zlen c = 36 -> zlen solution < 2 ^ 63 ->
      front BGoldBlock time (a ++ reverse (be_bytes 4 time) ++ c ++ put_VarInt (zlen solution) ++ solution)
  | front_old h b : header_wire h b -> bh_Version h <= 3 -> front CheckpointBlock (bh_Timestamp h) b
  | front_checkpoint h b c : header_wire h b -> 3 < bh_Version h -> zlen c = 32 -> front CheckpointBlock (bh_Timestamp h) (b ++ c)
  | front_stake h b state sig : header_wire h b -> zlen state = 100 -> zlen sig <= maxAlloc -> zlen sig < 2 ^ 63 ->
      front StakeBlock (bh_Timestamp h) (b ++ state ++ put_VarInt (zlen sig) ++ sig)
  | front_zcoin h b : header_wire h b -> isMTP h = false -> front MTPBlock (bh_Timestamp h) b
  | front_mtp h b m : header_wire h b -> isMTP h = true -> mtp m -> front MTPBlock (bh_Timestamp h) (b ++ m).

(** The transactions of a block as they are serialized. *)
Definition transactions (ts : list Wire.MsgTx) (b : bytes) : Prop :=
  exists bs, Forall2 tx_wire ts bs /\ zlen ts <= maxTxPerBlock /\ zlen ts <= maxAlloc /\ zlen ts < 2 ^ 64 /\
    b = put_VarInt (zlen ts) ++ concat bs.

(** The transaction of the explorer for one of the block. *)
Definition tx_of (f : blockFormat) (t : Wire.MsgTx) (tx : Tx.t) : Prop :=
  exists tx0, TxFromMsgTx p t false = Ret tx0 /\ tx = (match f with MTPBlock => parseZcoinTx tx0 | _ => tx0 end) /\
    Tx.Txid tx = Wire.Hash t /\ map Vout.ValueSat (Tx.Vout tx) = map Wire.Value (Wire.TxOuts t).

Lemma reads_many ts bs : Forall2 tx_wire ts bs -> reads (srepeat (length ts) BtcDecode) (concat bs) ts.
Proof.
  intros H. rewrite (Forall2_length _ _ _ H). apply reads_srepeat. apply Forall2_flip.
  eapply Forall2_impl; [exact H|]. intros t b. apply BtcDecode_wire.
Qed.

Lemma reads_DecodeTransactions ts b : transactions ts b -> reads DecodeTransactions b ts.
Proof.
  intros (bs & H & Hm & _ & Hl & ->). pose proof (zlen_nonneg ts). eapply reads_bind; [by apply ReadVarInt_put|].
  destruct (Z.ltb_spec maxTxPerBlock (zlen ts)); [lia|]. unfold zlen. rewrite Nat2Z.id. by apply reads_many.
Qed.

Lemma reads_skipHashes l : hash_list l -> reads skipHashes l tt.
Proof.
  intros (k & hs & Hk & Hlt & Hl & ->). eapply reads_bind; [apply ReadVarInt_put; unfold in_u64; lia|].
  rewrite (i64_id k), i64_id by (unfold in_i64; lia). apply reads_Seek. lia.
Qed.

Lemma reads_SkipAuxpow aux : auxpow aux -> reads SkipAuxpow aux tt.
Proof.
  intros (t & bt & hash & l1 & i1 & l2 & i2 & h & bh & Ht & Hh & H1 & Hi1 & H2 & Hi2 & Hb & ->).
  eapply reads_bind; [by apply BtcDecode_wire|]. eapply reads_bind; [by apply reads_Seek|].
  eapply reads_bind; [by apply reads_skipHashes|]. eapply reads_bind; [by apply reads_Seek|].
  eapply reads_bind; [by apply reads_skipHashes|]. eapply reads_bind; [by apply reads_Seek|].
  eapply reads_bind_end; [by apply Deserialize_wire|]. apply reads_ret.
Qed.

Lemma reads_proof b : mtp_proof b -> exists ds, reads readProof b ds.
Proof.
  intros (n & ds & Hn & Hl & ->). assert (exists parts, length parts = Z.to_nat n /\ Forall (fun x => zlen x = 16) parts /\ concat parts = ds)
    as (parts & Hp & Hf & <-).
  { assert (Hm : n = Z.of_nat (Z.to_nat n)) by lia. revert ds Hl. rewrite Hm. rewrite Nat2Z.id. clear.
    induction (Z.to_nat n) as [|m IH]; intros ds Hl; [exists []; destruct ds; [done|rewrite zlen_cons in Hl; pose proof (zlen_nonneg ds); lia]|].
    destruct (split_at ds 16 (16 * m)) as (d1 & d2 & -> & H1 & H2); [unfold zlen in Hl; lia|].
    destruct (IH d2) as (parts & Hp & Hf & <-); [unfold zlen; lia|]. exists (d1 :: parts). cbn. split_and!; [lia| |done].
    constructor; [unfold zlen; lia|done]. }
  exists parts. change (z2b n :: concat parts) with ([z2b n] ++ concat parts). eapply reads_bind.
  - unfold Uint8. eapply reads_bind_end; [by apply reads_ReadFull|]. eapply reads_bind_end; [by apply reads_lift|]. apply reads_ret.
  - rewrite b2z_z2b, Z.mod_small, <- Hp by lia. apply reads_srepeat. clear -Hf. induction Hf; constructor; [by apply reads_ReadFull|done].
Qed.

Lemma reads_mtp m : mtp m -> reads readMTP m tt.
Proof.
  intros (mh & hd & proofs & Hm & Hh & Hl & Hp & ->). eapply reads_bind; [by apply reads_ReadFull|].
  eapply reads_bind; [by apply reads_ReadFull|].
  assert (exists ds, Forall2 (reads readProof) proofs ds) as [ds Hds].
  { clear -Hp. induction Hp as [|b l Hb _ [ds IH]]; [by exists []|]. destruct (reads_proof b Hb) as [d Hd]. exists (d :: ds). by constructor. }
  eapply reads_bind_end; [rewrite <- Hl; by apply reads_srepeat|]. apply reads_ret.
Qed.

(** *** The transactions *)

Lemma voutFromTxOut_false l : forall k,
  exists vs, (go_map (fun x => voutFromTxOut p false x.1 x.2) (combine (seq k (length l)) l) = Ret vs) /\ map Vout.ValueSat vs = map Wire.Value l.
Proof.
  induction l as [|o l IH]; intros k; [by exists []|]. destruct (IH (S k)) as (vs & E & Hv).
  cbn [length seq combine go_map]. rewrite E. cbn. eexists. split; [done|]. cbn. by rewrite Hv.
Qed.

Lemma TxFromMsgTx_false t : exists tx, TxFromMsgTx p t false = Ret tx /\ Tx.Txid tx = Wire.Hash t /\
  map Vout.ValueSat (Tx.Vout tx) = map Wire.Value (Wire.TxOuts t).
Proof.
  unfold TxFromMsgTx. destruct (voutFromTxOut_false (Wire.TxOuts t) 0) as (vs & -> & Hv). cbn. eexists. split; [done|]. done.
Qed.

Lemma convertTxs_ok f ts : f <> MTPBlock -> exists txs, convertTxs p ts = Ret txs /\ Forall2 (tx_of f) ts txs.
Proof.
  intros Hf. unfold convertTxs. induction ts as [|t ts (txs & E & H)]; [by exists []|].
  destruct (TxFromMsgTx_false t) as (tx & Et & H1 & H2). cbn [go_map]. rewrite Et, E. cbn [go_bind].
  exists (tx :: txs). split; [done|]. constructor; [|done]. exists tx. split; [done|]. by destruct f.
Qed.

(** *** Whole blocks *)

Lemma reads_body ts body txs (B : Block.t) b time : transactions ts body -> convertTxs p ts = Ret txs -> B = parsedBlock b time txs ->
  reads (let! w := DecodeTransactions in let! txs := slift (convertTxs p w) in sret (parsedBlock b time txs)) body B.
Proof.
  intros Ht Hc ->. eapply reads_bind_end; [by apply reads_DecodeTransactions|].
  eapply reads_bind_end; [by apply reads_lift|]. apply reads_ret.
Qed.

Lemma sannotate_reads {A} msg (m : sgo reader A) b a : reads m b a -> reads (sannotate msg m) b a.
Proof. intros H pre rest Hl. unfold sannotate. by rewrite (H pre rest Hl). Qed.

(** The header of a block of Bitcoin Gold is at the start of the data. *)
Lemma bgold_front time a c solution rest : zlen a = 100 -> in_u32 time -> zlen c = 36 -> zlen solution < 2 ^ 63 ->
  let hd := a ++ reverse (be_bytes 4 time) ++ c ++ put_VarInt (zlen solution) ++ solution in
  zlen hd < 2 ^ 63 ->
  getTimestampAndSkipHeader (NewReader (hd ++ rest)) = (mkReader (hd ++ rest) (zlen hd), Ret time).
Proof.
  intros Ha Ht Hc Hs hd Hl. unfold getTimestampAndSkipHeader, sbind at 1. unfold SeekStart, seekTo. cbn [r_pos r_data NewReader].
  change (timestampOffset <? 0) with false. cbv iota.
  assert (reads (let! buf := ReadFull timestampLength in
    do! Seek (headerFixedLength - timestampOffset - timestampLength) in
    let! size := ReadVarInt in do! Seek (i64 size) in sret (le_Z buf))
    (reverse (be_bytes 4 time) ++ c ++ put_VarInt (zlen solution) ++ solution) time) as H.
  { pose proof (zlen_nonneg solution). eapply reads_bind; [apply reads_ReadFull; unfold zlen; rewrite length_reverse; apply be_bytes_zlen|].
    eapply reads_bind; [by apply reads_Seek|]. eapply reads_bind; [apply ReadVarInt_put; unfold in_u64; lia|].
    rewrite i64_id by (unfold in_i64; lia). eapply reads_bind_end; [by apply reads_Seek|]. rewrite le_Z_be_bytes by done. apply reads_ret. }
  specialize (H a rest). fold hd in H. rewrite app_assoc in H. fold hd in H. rewrite Ha in H. exact (H Hl).
Qed.

Lemma zcoin_txs ts bs : Forall2 tx_wire ts bs ->
  exists txs, Forall2 (tx_of MTPBlock) ts txs /\
    reads (srepeat (length ts) (let! t := BtcDecode in let! btx := slift (TxFromMsgTx p t false) in sret (parseZcoinTx btx))) (concat bs) txs.
Proof.
  induction 1 as [|t b ts bs Ht _ (txs & Htx & IH)]; [exists []; split; [done|apply reads_ret]|].
  destruct (TxFromMsgTx_false t) as (tx & Et & H1 & H2). exists (parseZcoinTx tx :: txs). split.
  - constructor; [|done]. by exists tx.
  - cbn [length srepeat concat]. eapply reads_bind.
    + eapply reads_bind_end; [by apply BtcDecode_wire|]. eapply reads_bind_end; [by apply reads_lift|]. apply reads_ret.
    + eapply reads_bind_end; [exact IH|]. apply reads_ret.
Qed.

Lemma zcoin_body ts body h b : transactions ts body ->
  exists txs, Forall2 (tx_of MTPBlock) ts txs /\
    reads (let! ntx := ReadVarInt in
      if maxAlloc <? ntx then spanic
      else
        let! txs := srepeat (Z.to_nat ntx)
          (let! t := BtcDecode in let! btx := slift (TxFromMsgTx p t false) in sret (parseZcoinTx btx)) in
        sret (parsedBlock b (bh_Timestamp h) txs)) body (parsedBlock b (bh_Timestamp h) txs).
Proof.
  intros (bs & H & _ & Hm & Hl & ->). destruct (zcoin_txs ts bs H) as (txs & Htx & Hr). exists txs. split; [done|].
  pose proof (zlen_nonneg ts). eapply reads_bind; [by apply ReadVarInt_put|]. destruct (Z.ltb_spec maxAlloc (zlen ts)); [lia|].
  unfold zlen. rewrite Nat2Z.id. eapply reads_bind_end; [exact Hr|]. apply reads_ret.
Qed.

(** A parser that reads the header and the transactions at the front of the data. *)
Lemma at_front (m : sgo reader Block.t) hd body rest B : reads m (hd ++ body) B -> zlen (hd ++ body) < 2 ^ 63 ->
  (m (NewReader (hd ++ body ++ rest))).2 = Ret B.
Proof. intros Hm Hl. rewrite app_assoc. by apply reads_front. Qed.

Lemma zcoin_front h hb m ts body rest : header_wire h hb -> reads (if isMTP h then readMTP else sret tt) m tt -> transactions ts body ->
  zlen ((hb ++ m) ++ body) < 2 ^ 63 -> let b := (hb ++ m) ++ body ++ rest in
  exists txs, zcoin_ParseBlock p b = Ret (parsedBlock b (bh_Timestamp h) txs) /\ Forall2 (tx_of MTPBlock) ts txs.
Proof.
  intros Hh Hm Ht Hl b. destruct (zcoin_body ts body h b Ht) as (txs & Htx & Hr). exists txs. split; [|done].
  apply at_front; [|done]. rewrite <- app_assoc. eapply reads_bind; [by apply Deserialize_wire|].
  eapply reads_bind; [exact Hm|exact Hr].
Qed.

Lemma ParseBlock_front f time hd ts body rest : front f time hd -> transactions ts body -> zlen (hd ++ body) < 2 ^ 63 ->
  let b := hd ++ body ++ rest in
  exists txs, ParseBlockOf f b = Ret (parsedBlock b time txs) /\ Forall2 (tx_of f) ts txs.
Proof.
  intros Hf Ht Hl b.
  pose proof (fun m B Hm => at_front m hd body rest B Hm Hl) as Hgo. fold b in Hgo.
  assert (f <> MTPBlock -> exists txs, convertTxs p ts = Ret txs /\ Forall2 (tx_of f) ts txs) as Hc by apply convertTxs_ok.
  assert (forall txs h x, convertTxs p ts = Ret txs -> reads x [] tt ->
    reads (do! x in let! w := DecodeTransactions in let! txs := slift (convertTxs p w) in sret (parsedBlock b (bh_Timestamp h) txs))
      body (parsedBlock b (bh_Timestamp h) txs)) as Hbody.
  { intros txs h x Ec Hx. change body with ([] ++ body). eapply reads_bind; [exact Hx|]. by eapply reads_body. }
  destruct Hf as [h hb Hh|h hb Hh Hv|h hb aux Hh Hv Ha|time a c sol Ha Htm Hcl Hs|h hb Hh Hv|h hb c Hh Hv Hcl|h hb st sig Hh Hst Hsig Hs
                 |h hb Hh Hm|h hb m Hh Hm Hp].
  1-7: destruct Hc as (txs & Ec & Htx); [done|]; exists txs; split; [|done]; cbn [ParseBlockOf].
  - apply Hgo. eapply reads_bind; [by apply Deserialize_wire|]. by eapply reads_body.
  - apply Hgo. eapply reads_bind; [by apply Deserialize_wire|]. rewrite Hv. apply Hbody; [done|apply reads_ret].
  - apply Hgo. rewrite <- app_assoc. eapply reads_bind; [by apply Deserialize_wire|].
    destruct (Z.eqb_spec (Z.land (bh_Version h) VersionAuxpow) 0); [done|]. cbn [negb].
    eapply reads_bind; [by apply reads_SkipAuxpow|]. by eapply reads_body.
  - unfold bgold_ParseBlock, sbind at 1. rewrite zlen_app in Hl. pose proof (zlen_nonneg body).
    unfold b at 1. rewrite bgold_front by (done || lia).
    pose proof (reads_body ts body txs _ b time Ht Ec eq_refl) as Hr. set (hd := a ++ _) in *.
    specialize (Hr hd rest). rewrite zlen_app in Hr. unfold b at 2. rewrite Hr by lia. done.
  - apply Hgo. eapply reads_bind; [apply sannotate_reads; by apply Deserialize_wire|].
    destruct (Z.ltb_spec 3 (bh_Version h)); [lia|]. change body with ([] ++ body). eapply reads_bind; [apply reads_ret|].
    eapply reads_bind_end; [apply sannotate_reads; by apply reads_DecodeTransactions|].
    eapply reads_bind_end; [by apply reads_lift|]. apply reads_ret.
  - apply Hgo. rewrite <- app_assoc. eapply reads_bind; [apply sannotate_reads; by apply Deserialize_wire|].
    destruct (Z.ltb_spec 3 (bh_Version h)); [|lia]. eapply reads_bind; [by apply reads_Seek|].
    eapply reads_bind_end; [apply sannotate_reads; by apply reads_DecodeTransactions|].
    eapply reads_bind_end; [by apply reads_lift|]. apply reads_ret.
  - apply Hgo. eapply reads_bind; [|by eapply reads_body]. eapply reads_bind; [by apply Deserialize_wire|].
    eapply reads_bind; [by apply reads_ReadFull|]. pose proof (zlen_nonneg sig).
    eapply reads_bind; [apply ReadVarInt_put; unfold in_u64; lia|].
    destruct (Z.ltb_spec maxAlloc (zlen sig)); [lia|]. eapply reads_bind_end; [by apply reads_ReadFull|]. apply reads_ret.
  - unfold b. rewrite <- (app_nil_r hb) in *. rewrite app_nil_r in Hh. apply zcoin_front; [done| |done..]. rewrite Hm. apply reads_ret.
  - apply zcoin_front; [done| |done..]. rewrite Hm. by apply reads_mtp.
Qed.
End formats.

(** ** No panic *)

Section total.
Context {W : WireLib} {WQ : WireQuiet W} {L : BtcLib} (p : BitcoinParser).

Lemma convertTxs_total ts : convertTxs p ts <> Panic.
Proof.
  unfold convertTxs. induction ts as [|t ts IH]; [done|]. destruct (TxFromMsgTx_false p t) as (tx & E & _).
  cbn [go_map]. rewrite E. cbn [go_bind]. by destruct (go_map _ ts).
Qed.

Lemma DecodeTransactions_quiet : quiet DecodeTransactions.
Proof. unfold DecodeTransactions. quiet_solve. Qed.

Lemma skipHashes_quiet : quiet skipHashes.
Proof. unfold skipHashes. quiet_solve. Qed.

Lemma SkipAuxpow_quiet : quiet SkipAuxpow.
Proof. pose proof skipHashes_quiet. unfold SkipAuxpow. quiet_solve. Qed.

Lemma sannotate_quiet {S A} msg (m : sgo S A) : quiet m -> quiet (sannotate msg m).
Proof. intros H s. unfold sannotate. specialize (H s). by destruct (m s) as [s' []]. Qed.

Lemma body_quiet b time :
  quiet (let! w := DecodeTransactions in let! txs := slift (convertTxs p w) in sret (parsedBlock b time txs)).
Proof.
  apply quiet_bind; [apply DecodeTransactions_quiet|]. intros w. apply quiet_bind; [apply quiet_lift, convertTxs_total|]. quiet_solve.
Qed.
End total.

(** * Properties *)

(** C24: A block in the format of its coin, whatever stands behind it, is parsed into the time of
    its header, its size and its transactions, each converted with its id and its amounts;
    the proof of work of another chain, a solution, a checkpoint, the roots and the
    signature of a staked block and the data of MTP are skipped. *)
Theorem ParseBlock_formats {W : WireLib} {WL : WireLaws W} {L : BtcLib} (p : BitcoinParser) f time hd ts body rest :
  front f time hd -> transactions ts body -> zlen (hd ++ body) < 2 ^ 63 ->
  let b := hd ++ body ++ rest in
  exists txs, ParseBlockOf p f b = Ret (parsedBlock b time txs) /\ Forall2 (tx_of p f) ts txs.
Proof. apply ParseBlock_front. Qed.

(** Whatever the daemon sends as a block, the parsers that read no announced length into a
    slice return a block or an error. *)
Theorem ParseBlock_total {W : WireLib} {WQ : WireQuiet W} {L : BtcLib} (p : BitcoinParser) f b :
  f <> StakeBlock -> f <> MTPBlock -> ParseBlockOf p f b <> Panic.
Proof.
  pose proof (body_quiet p) as Hb. pose proof SkipAuxpow_quiet. pose proof DecodeTransactions_quiet as Hd.
  pose proof (fun msg A (m : sgo reader A) => sannotate_quiet msg m) as Ha. pose proof Deserialize_quiet as Hh.
  intros H1 H2. destruct f; try done; cbn [ParseBlockOf];
    unfold ravencoin_ParseBlock, dogecoin_ParseBlock, bgold_ParseBlock, mue_ParseBlock; apply quiet_at.
  - apply quiet_bind; [done|]. intros h. apply Hb.
  - apply quiet_bind; [done|]. intros h. apply quiet_bind; [by destruct (negb _); quiet_solve|]. intros _. apply Hb.
  - apply quiet_bind; [unfold getTimestampAndSkipHeader, SeekStart; quiet_solve|]. intros time. apply Hb.
  - apply quiet_bind; [by apply Ha|]. intros h. apply quiet_bind; [by destruct (_ <? _); quiet_solve|]. intros _.
    apply quiet_bind; [by apply Ha|]. intros w. apply quiet_bind; [apply quiet_lift, convertTxs_total|]. quiet_solve.
Qed.

(** An input of Liquid that spends a transaction of Bitcoin is shown with the outpoint it
    spends, its descriptor is indexed, and different outpoints have different descriptors. *)
Theorem liquid_unknown_input {L : BtcLib} `{VL : VlqLaws} (p : BitcoinParser) tx i vin id :
  0 <= i -> Tx.Vin tx !! Z.to_nat i = Some vin -> zlen id = 32 -> Vin.Txid vin = hex_EncodeToString id -> in_u32 (Vin.Vout vin) ->
  let desc := liquid_GetAddrDescForUnknownInput tx i in
  liquid_outputScriptToAddresses p desc =
    Ret (["Bitcoin tx " ++ Vin.Txid vin ++ ":" ++ string_of_text (big_String (Vin.Vout vin))]%string, false) /\
  btc_IsAddrDescIndexable desc = true /\
  forall tx' i' vin' id', Tx.Vin tx' !! Z.to_nat i' = Some vin' -> zlen id' = 32 -> Vin.Txid vin' = hex_EncodeToString id' ->
    in_u32 (Vin.Vout vin') -> liquid_GetAddrDescForUnknownInput tx' i' = desc ->
    Vin.Txid vin' = Vin.Txid vin /\ Vin.Vout vin' = Vin.Vout vin.
Proof.
  intros Hi Hv Hid Ht Hvo desc.
  assert (forall tx i vin id, Tx.Vin tx !! Z.to_nat i = Some vin -> zlen id = 32 -> Vin.Txid vin = hex_EncodeToString id ->
    liquid_GetAddrDescForUnknownInput tx i = [z2b OP_INVALIDOPCODE] ++ id ++ vlq_PutInt (Vin.Vout vin)) as Hdesc.
  { clear. intros tx i vin id Hv Hid Ht. unfold liquid_GetAddrDescForUnknownInput. rewrite Hv, Ht, PackTxid_hex; [done|]. by intros ->. }
  assert (forall n, in_u32 n -> in_i64 n) as Hu by (unfold in_u32, in_i64; lia).
  unfold desc. rewrite (Hdesc tx i vin id) by done. pose proof (PutInt_len (Vin.Vout vin)). split_and!.
  - unfold liquid_outputScriptToAddresses. rewrite !zlen_app, Hid. change (zlen [_]) with 1.
    destruct (Z.ltb_spec 33 (1 + (32 + zlen (vlq_PutInt (Vin.Vout vin))))); [|lia]. cbn [byteAt lookup app list_lookup].
    change (b2z (z2b OP_INVALIDOPCODE) =? OP_INVALIDOPCODE) with true. cbn [andb].
    change (z2b OP_INVALIDOPCODE :: id ++ vlq_PutInt (Vin.Vout vin)) with ([z2b OP_INVALIDOPCODE] ++ id ++ vlq_PutInt (Vin.Vout vin)).
    rewrite (go_slice_mid [z2b OP_INVALIDOPCODE] id) by (rewrite ?Hid; done). cbn [go_bind BaseParser_UnpackTxid logged].
    rewrite app_assoc, go_from_app by (rewrite zlen_app, Hid; done). cbn [go_bind].
    rewrite <- (app_nil_r (vlq_PutInt _)), Int_PutInt, Ht by auto. done.
  - done.
  - intros tx' i' vin' id' Hv' Hid' Ht' Hvo' E. rewrite (Hdesc tx' i' vin' id') in E by done.
    apply app_inj_1 in E as [_ E]; [|done]. apply app_inj_1 in E as [-> E]; [|unfold zlen in *; lia].
    split; [congruence|]. pose proof (Int_PutInt (Vin.Vout vin) [] (Hu _ Hvo)) as E1.
    pose proof (Int_PutInt (Vin.Vout vin') [] (Hu _ Hvo')) as E2. rewrite E, E1 in E2. by injection E2.
Qed.

(** What the explorer of Bitcoin Cash relies on: an address in the new format has its prefix,
    reads back, and pays to the script it was made of; its conversion has no prefix,
    reads back in the old format and pays to the same script. *)
Class BchLaws {L : BtcLib} {BL : BchLib (L := L)} := {
  bch_prefixed : forall a, isCashAddr (bch_EncodeAddress a) = true;
  bch_Decode_Encode : forall a, bch_DecodeAddress (bch_EncodeAddress a) = Ret a;
  bch_Pay_Extract : forall s a, bch_ExtractPkScriptAddrs s = Ret a -> bch_PayToAddrScript a = Ret s;
  bch_converted : forall s a d ca t, bch_ExtractPkScriptAddrs s = Ret a -> bch_NewFromString (bch_EncodeAddress a) = Ret d ->
    bch_Legacy d = Ret ca -> bch_Encode ca = Ret t -> isCashAddr t = false /\ DecodeAddress t = Ret ca /\ PayToAddrScript ca = Ret s;
}.

(** In both formats of addresses, the address a script of Bitcoin Cash is shown with leads
    back to the script, public keys being shown with their hash. *)
Theorem bch_address_roundtrip {L : BtcLib} {BL : BchLib (L := L)} {BLL : BchLaws} (p : BCashParser) script script' addrs :
  ConvertP2PKtoP2PKH script = Ret script' -> bch_outputScriptToAddresses p script = Ret (addrs, true) ->
  exists a, addrs = [a] /\ bch_GetAddrDescFromAddress a = Ret script'.
Proof.
  intros Hc H. unfold bch_outputScriptToAddresses in H. rewrite Hc in H. cbn [go_bind] in H.
  destruct (bch_ExtractPkScriptAddrs script') as [a|e|] eqn:Ea; [|..|done].
  - unfold bch_GetAddrDescFromAddress, bch_addressToOutputScript. destruct (bch_Format p).
    + destruct (bch_NewFromString _) as [d| |] eqn:Ed; [|done..]. cbn [go_bind] in H.
      destruct (bch_Legacy d) as [ca| |] eqn:El; [|done..]. cbn [go_bind] in H.
      destruct (bch_Encode ca) as [t| |] eqn:Et; [|done..]. cbn [go_bind] in H. injection H as <- _.
      destruct (bch_converted script' a d ca t Ea Ed El Et) as (H1 & H2 & H3). exists t. split; [done|].
      rewrite H1, H2. done.
    + cbn [go_bind] in H. injection H as <- _. exists (bch_EncodeAddress a). split; [done|].
      rewrite bch_prefixed, bch_Decode_Encode. by apply bch_Pay_Extract.
  - destruct (decide (e = unknownScriptType)); [|done]. by destruct (TryParseOPReturn _ _).
Qed.

(** * Concrete runs *)

(** Numbers in eight bytes; a transaction is its hash behind its length, a header version and
    time. *)
Definition toy_VarInt : sgo reader Z := let! b := ReadFull 8 in sret (be_Z b).
Definition toy_tx (h : bytes) : Wire.MsgTx := Wire.mkMsgTx (hex_EncodeToString h) false 1 0 [] [Wire.mkTxOut 7 h].
Definition toy_BtcDecode : sgo reader Wire.MsgTx := let! n := toy_VarInt in let! h := ReadFull n in sret (toy_tx h).
Definition toy_Deserialize : sgo reader BlockHeader :=
  let! v := ReadFull 4 in let! t := ReadFull 4 in sret (mkBlockHeader (be_Z v) (be_Z t)).

#[global] Instance toy_wire : WireLib := {|
  ReadVarInt := toy_VarInt;
  BtcDecode := toy_BtcDecode;
  Deserialize := toy_Deserialize;
  MaxBlockPayload := 4000000;
  maxAlloc := 2 ^ 40;
|}.

Lemma toy_VarInt_put n : in_u64 n -> reads toy_VarInt (be_bytes 8 n) n.
Proof.
  intros Hn. eapply reads_bind_end; [apply reads_ReadFull, be_bytes_zlen|]. rewrite be_Z_be_bytes, Z.mod_small by done. apply reads_ret.
Qed.

#[global] Instance toy_laws : WireLaws toy_wire.
Proof.
  refine {| put_VarInt n := be_bytes 8 n;
    tx_wire t b := exists h, zlen h < 2 ^ 63 /\ t = toy_tx h /\ b = be_bytes 8 (zlen h) ++ h;
    header_wire h b := in_u32 (bh_Version h) /\ in_u32 (bh_Timestamp h) /\ b = be_bytes 4 (bh_Version h) ++ be_bytes 4 (bh_Timestamp h);
    ReadVarInt_put := toy_VarInt_put; BtcDecode_wire := _; Deserialize_wire := _ |}.
  - intros t b (h & Hh & -> & ->). pose proof (zlen_nonneg h). eapply reads_bind; [apply toy_VarInt_put; unfold in_u64; lia|].
    eapply reads_bind_end; [by apply reads_ReadFull|]. apply reads_ret.
  - intros [v t] b (Hv & Ht & ->). cbn in *. eapply reads_bind; [apply reads_ReadFull, be_bytes_zlen|].
    eapply reads_bind_end; [apply reads_ReadFull, be_bytes_zlen|]. rewrite !be_Z_be_bytes, !Z.mod_small by done. apply reads_ret.
Defined.

#[global] Instance toy_quiet : WireQuiet toy_wire.
Proof. split; cbn; unfold toy_BtcDecode, toy_Deserialize, toy_VarInt; quiet_solve. Qed.

(** A block of Dogecoin that was mined with another chain, and bytes behind it. *)
Definition toy_branch : bytes := be_bytes 8 1 ++ repeat Byte.x05 32.
Definition toy_header (version : Z) : bytes := be_bytes 4 version ++ be_bytes 4 77.
Definition toy_auxpow : bytes :=
  (be_bytes 8 2 ++ [Byte.x01; Byte.x02]) ++ repeat Byte.x04 32 ++ toy_branch ++ be_bytes 4 1 ++ toy_branch ++ be_bytes 4 0 ++ toy_header 1.
Definition toy_body : bytes := be_bytes 8 1 ++ be_bytes 8 3 ++ [Byte.xaa; Byte.xbb; Byte.xcc].
Definition toy_parser : BitcoinParser := NewBitcoinParser 3 49 84 0.

Lemma ParseBlock_formats_witness :
  exists txs, dogecoin_ParseBlock toy_parser ((toy_header 256 ++ toy_auxpow) ++ toy_body ++ [Byte.xff]) =
    Ret (parsedBlock ((toy_header 256 ++ toy_auxpow) ++ toy_body ++ [Byte.xff]) 77 txs) /\ map Tx.Txid txs = ["aabbcc"%string].
Proof.
  destruct (ParseBlock_formats toy_parser AuxpowBlock 77 (toy_header 256 ++ toy_auxpow) [toy_tx [Byte.xaa; Byte.xbb; Byte.xcc]] toy_body [Byte.xff])
    as (txs & E & H).
  - refine (front_auxpow (mkBlockHeader 256 77) (toy_header 256) toy_auxpow _ _ _).
    + split; [|split]; [split; vm_compute; congruence..|reflexivity].
    + vm_compute. discriminate.
    + exists (toy_tx [Byte.x01; Byte.x02]), (be_bytes 8 2 ++ [Byte.x01; Byte.x02]), (repeat Byte.x04 32), toy_branch, (be_bytes 4 1),
        toy_branch, (be_bytes 4 0), (mkBlockHeader 1 77), (toy_header 1).
      assert (hash_list toy_branch) as Hb.
      { exists 1, (repeat Byte.x05 32). split; [lia|]. split; [lia|]. split; reflexivity. }
      split; [exists [Byte.x01; Byte.x02]; split; [reflexivity|split; reflexivity]|]. split; [reflexivity|]. split; [exact Hb|].
      split; [reflexivity|]. split; [exact Hb|]. split; [reflexivity|].
      split; [|reflexivity]. split; [|split]; [split; vm_compute; congruence..|reflexivity].
  - exists [be_bytes 8 3 ++ [Byte.xaa; Byte.xbb; Byte.xcc]]. split.
    + constructor; [|constructor]. exists [Byte.xaa; Byte.xbb; Byte.xcc]. split; [reflexivity|split; reflexivity].
    + split; [|split; [|split]]; [vm_compute; congruence..|reflexivity].
  - vm_compute. reflexivity.
  - exists txs. split; [exact E|]. destruct txs as [|tx [|tx2 txs]]; [by inversion H| |].
    + inversion H as [|? ? ? ? (tx0 & _ & _ & E1 & _)]. cbn. by rewrite E1.
    + inversion H as [|? ? ? ? _ H2]. by inversion H2.
Defined.

(** Two bytes are no block of MonetaryUnit. *)
Lemma ParseBlock_total_witness : mue_ParseBlock toy_parser [Byte.x01; Byte.x02] <> Panic.
Proof. refine (ParseBlock_total toy_parser CheckpointBlock [Byte.x01; Byte.x02] _ _); discriminate. Defined.

(** A block of Qtum that announces a signature of 2^63 bytes, and one of Zcoin with as many
    transactions. *)
Lemma announced_length_panics :
  qtum_ParseBlock toy_parser (toy_header 1 ++ repeat Byte.x00 100 ++ be_bytes 8 (2 ^ 63)) = Panic /\
  zcoin_ParseBlock toy_parser (toy_header 1 ++ be_bytes 8 (2 ^ 63)) = Panic.
Proof. vm_compute. split; reflexivity. Qed.

Definition bitcoin_vin : Vin.t := Vin.mk EmptyString (hex_EncodeToString (repeat Byte.xab 32)) 3 EmptyString 0 [].
Definition liquid_tx : Tx.t := Tx.mk EmptyString EmptyString 1 0 [bitcoin_vin] [] 0 0 0 [] [] 0 NoSpecificData.

Lemma liquid_unknown_input_witness :
  liquid_outputScriptToAddresses (V := leb) toy_parser (liquid_GetAddrDescForUnknownInput (V := leb) liquid_tx 0) =
  Ret (["Bitcoin tx abababababababababababababababababababababababababababababababab:3"%string], false).
Proof.
  refine (proj1 (liquid_unknown_input (VL := leb_laws) toy_parser liquid_tx 0 bitcoin_vin (repeat Byte.xab 32) _ _ _ _ _)).
  - discriminate.
  - reflexivity.
  - reflexivity.
  - reflexivity.
  - split; vm_compute; congruence.
Defined.

(** Scripts are their own addresses: their hex, with a prefix in the new format. *)
Definition bch_payload (s : string) : go bytes := hex_DecodeString (String.substring 13 (String.length s - 13) s).

#[global] Instance plain_bch : BchLib (L := plain_lib) := {|
  bchAddress := bytes;
  bch_DecodeAddress := bch_payload;
  bch_PayToAddrScript := Ret;
  bch_ExtractPkScriptAddrs s := match s with [] => Fail unknownScriptType | _ => Ret s end;
  bch_EncodeAddress a := (MainNetPrefix ++ "q" ++ hex_EncodeToString a)%string;
  bch_NewFromString := bch_payload;
  bch_Legacy := Ret;
  bch_Encode a := Ret (hex_EncodeToString a);
|}.

Lemma substring_all s : String.substring 0 (String.length s) s = s.
Proof. induction s as [|c s IH]; [done|]. cbn. by rewrite IH. Qed.

Lemma bch_payload_encode a : bch_payload (MainNetPrefix ++ "q" ++ hex_EncodeToString a) = Ret a.
Proof.
  unfold bch_payload. change (String.substring 13 (String.length (MainNetPrefix ++ "q" ++ hex_EncodeToString a) - 13)
    (MainNetPrefix ++ "q" ++ hex_EncodeToString a)) with (String.substring 0 (String.length (hex_EncodeToString a) - 0) (hex_EncodeToString a)).
  by rewrite Nat.sub_0_r, substring_all, hex_DecodeString_Encode.
Qed.

Lemma prefix_split pre s : String.prefix pre s = true -> exists r, s = (pre ++ r)%string.
Proof.
  revert s. induction pre as [|c pre IH]; intros s; [by exists s|]. destruct s as [|d s]; [done|]. cbn [String.prefix].
  destruct (Ascii.ascii_dec c d) as [-> |]; [|done]. intros (r & ->)%IH. by exists r.
Qed.

(** What begins with a prefix is no hex. *)
Lemma hex_no_prefix a : isCashAddr (hex_EncodeToString a) = false.
Proof.
  destruct (isCashAddr (hex_EncodeToString a)) eqn:E; [|done]. exfalso.
  assert (exists pre r, (pre = MainNetPrefix \/ pre = TestNetPrefix \/ pre = RegTestPrefix) /\ hex_EncodeToString a = (pre ++ r)%string)
    as (pre & r & Hpre & Ha).
  { unfold isCashAddr, longerPrefix in E. apply orb_true_iff in E as [[E|E]%orb_true_iff|E];
      apply andb_true_iff in E as [_ [r Hr]%prefix_split]; eauto 6. }
  pose proof (hex_decode_encode a) as Hd. rewrite Ha in Hd. by destruct Hpre as [-> |[-> | ->]].
Qed.

Lemma plain_bch_laws : BchLaws (BL := plain_bch).
Proof.
  split.
  - intros a. unfold isCashAddr. apply orb_true_iff. left. apply orb_true_iff. left.
    change (bch_EncodeAddress a) with (MainNetPrefix ++ "q" ++ hex_EncodeToString a)%string.
    apply andb_true_iff. split; [|by destruct (hex_EncodeToString a)].
    apply Nat.ltb_lt. change (12 < 13 + String.length (hex_EncodeToString a))%nat. lia.
  - exact bch_payload_encode.
  - intros [|b s] a; [done|]. intros [= <-]. done.
  - intros [|b s] a d ca t Ea Ed El Et; [done|]. injection Ea as <-. cbn -[hex_EncodeToString MainNetPrefix] in Ed, El, Et.
    rewrite bch_payload_encode in Ed. simplify_eq. split; [apply hex_no_prefix|]. split; [apply hex_DecodeString_Encode|done].
Qed.

Definition bch_script : bytes := [Byte.x76; Byte.xa9].

Lemma bch_address_roundtrip_witness :
  bch_GetAddrDescFromAddress (BL := plain_bch) "bitcoincash:q76a9" = Ret bch_script /\
  bch_GetAddrDescFromAddress (BL := plain_bch) "76a9" = Ret bch_script.
Proof.
  split.
  - destruct (bch_address_roundtrip (BLL := plain_bch_laws) (mkBCashParser toy_parser CashAddr) bch_script bch_script ["bitcoincash:q76a9"%string])
      as (a & Ea & E); [reflexivity..|]. injection Ea as <-. exact E.
  - destruct (bch_address_roundtrip (BLL := plain_bch_laws) (mkBCashParser toy_parser Legacy) bch_script bch_script ["76a9"%string])
      as (a & Ea & E); [reflexivity..|]. injection Ea as <-. exact E.
Defined.
