(* ===== verification/Nuls.v ===== *)
(** The chain of Nuls: the parser [bchain/coins/nuls/nulsparser.go] and the client of the
    daemon [bchain/coins/nuls/nulsrpc.go].

    The daemon is asked over HTTP with paths instead of JSON-RPC; the class [NulsDaemon] is
    the exchange and what [json.Unmarshal] makes of each kind of answer, [NulsLib] the
    packages [base58] and [hdkeychain], [TxJson] what [encoding/json] makes of a
    transaction that is kept in the index.  Numbers of the type float64 are kept as their
    text; the registration of chain parameters and logs are left out. *)
From stdpp Require Import base list gmap strings.
From Stdlib Require Import ZArith Lia Ascii.
From S2P Require Import Prelude Hex Types Store Vlq Codec InternalState AddrBalance TxAddresses BaseParser BitcoinParser.
From S2P Require Import RocksDB RocksDBFacts BitcoinIndex EthParser EthIndex Connect ConnectFacts Mempool Sync ApiTypes Worker.
From S2P Require Import Skyr Rpc.

Open Scope Z_scope.
Open Scope go_scope.

(** * The parser *)

Definition MainnetMagic : Z := 0xbd6b0cbf.
Definition TestnetMagic : Z := 0xffcae2ce.
Definition RegtestMagic : Z := 0xdcb7c1fc.
Definition AddressHashLength : nat := 24.

(** Of the chain parameters the magic of the network and the prefixes of addresses. *)
Record NulsParams := mkNulsParams { np_Net : Z; np_PubKeyHashAddrID : bytes; np_ScriptHashAddrID : bytes }.

Definition MainNetParams : NulsParams := mkNulsParams MainnetMagic (map z2b [4; 35; 1]) (map z2b [4; 35; 1]).
Definition TestNetParams : NulsParams := mkNulsParams TestnetMagic [z2b 140] [z2b 19].
Definition RegtestParams : NulsParams := mkNulsParams RegtestMagic [z2b 140] [z2b 19].

Definition GetChainParams (chain : string) : NulsParams :=
  if String.eqb chain "test" then TestNetParams
  else if String.eqb chain "regtest" then RegtestParams
  else MainNetParams.

Class NulsLib `{L : BtcLib} := {
  base58_Encode : bytes -> string;
  base58_Decode : string -> bytes;
  ScriptAddress : BitcoinParser.Address -> bytes;
}.

(** Every encoding is decoded to what it was made of, and the address of a public key is
    its hash of 20 bytes. *)
Class NulsLibLaws `{NL : NulsLib} := {
  Decode_Encode : forall b, base58_Decode (base58_Encode b) = b;
  ScriptAddress_hash : forall k a, key_Address k = Ret a -> length (ScriptAddress a) = 20%nat;
}.

Class TxJson := {
  json_MarshalTx : Tx.t -> go bytes;
  json_ParseTx : bytes -> go Tx.t;
}.

(** The texts of a transaction, which JSON keeps if they are ASCII. *)
Definition vin_texts (v : Vin.t) : list string :=
  Vin.Coinbase v :: Vin.Txid v :: Vin.ScriptSigHex v :: Vin.Addresses v.
Definition vout_texts (v : Vout.t) : list string := Vout.ScriptPubKeyHex v :: Vout.Addresses v.
Definition tx_texts (tx : Tx.t) : list string :=
  Tx.Hex tx :: Tx.Txid tx :: concat (map vin_texts (Tx.Vin tx)) ++ concat (map vout_texts (Tx.Vout tx)).

Definition ascii_text (s : string) : Prop := Forall (fun c => nat_of_ascii c < 128)%nat (String.list_ascii_of_string s).

(** An amount without a text is written as the number zero. *)
Definition json_Vout (v : Vout.t) : Vout.t :=
  Vout.mk (Vout.ValueSat v) (if bool_decide (Vout.JsonValue v = EmptyString) then "0" else Vout.JsonValue v)
    (Vout.N v) (Vout.ScriptPubKeyHex v) (Vout.Addresses v).

(** What is read of a transaction that was written: all but the specific data. *)
Definition json_Tx (tx : Tx.t) : Tx.t :=
  Tx.mk (Tx.Hex tx) (Tx.Txid tx) (Tx.Version tx) (Tx.LockTime tx) (Tx.Vin tx) (map json_Vout (Tx.Vout tx))
    (Tx.Confirmations tx) (Tx.Time tx) (Tx.Blocktime tx) (Tx.VShieldIn tx) (Tx.VShieldOut tx) (Tx.ShieldValBal tx)
    NoSpecificData.

(** [encoding/json] on a transaction with amounts that have no text. *)
Class TxJsonLaws (T : TxJson) := {
  ParseTx_MarshalTx : forall tx, Forall ascii_text (tx_texts tx) -> Tx.VShieldIn tx = [] -> Tx.VShieldOut tx = [] ->
    Forall (fun v => Vout.JsonValue v = EmptyString) (Tx.Vout tx) ->
    exists b, json_MarshalTx tx = Ret b /\ json_ParseTx b = Ret (json_Tx tx);
}.

Record NulsParser := mkNulsParser { nuls_bitcoin : BitcoinParser; nuls_Params : NulsParams }.

Definition NewNulsParser (params : NulsParams) (keep p2sh native slip44 : Z) : NulsParser :=
  mkNulsParser (NewBitcoinParser keep p2sh native slip44) params.

(** [copy(dst[i:], src)] *)
Definition copy_at {A} (dst : list A) (i : nat) (src : list A) : list A :=
  take i dst ++ take (length dst - i) src ++ drop (i + length src) dst.

Section parser.
Context `{L : BtcLib} {NL : NulsLib} `{V : Vlq} {TJ : TxJson} (p : NulsParser).

Definition nuls_PackedTxidLen : Z := 34.

Definition nuls_GetAddrDescFromAddress (address : string) : go bytes := Ret (base58_Decode address).

Definition nuls_GetAddrDescFromVout (output : Vout.t) : go bytes :=
  let addressStr := Vout.ScriptPubKeyHex output in Ret (base58_Decode addressStr).

(** [None] is a nil descriptor. *)
Definition nuls_GetAddressesFromAddrDesc (addrDesc : option bytes) : go (list string * bool) :=
  Ret (match addrDesc with Some ad => [base58_Encode ad] | None => [] end, true).

Definition nuls_PackTx (tx : Tx.t) (height blockTime : Z) : go bytes :=
  let* txBytes := json_MarshalTx tx in
  let buf := repeat Byte.x00 (Z.to_nat (4 + vlq_MaxLen64)) in
  let buf := copy_at buf 0 (be_bytes 4 height) in
  let buf := copy_at buf 4 (vlq_PutInt blockTime) in
  Ret (buf ++ txBytes).

Definition nuls_ParseTx (b : bytes) : go Tx.t := json_ParseTx b.

Definition nuls_UnpackTx (buf : bytes) : go (Tx.t * Z) :=
  let* hb := go_slice buf 0 4 in
  let height := be_Z hb in
  let* b := go_slice buf 4 (4 + vlq_MaxLen64) in
  let '(bt, _) := vlq_Int b in
  let* raw := go_from buf (4 + vlq_MaxLen64) in
  let* tx := nuls_ParseTx raw in
  Ret (set_Blocktime bt tx, height).

Definition nuls_xor (body : bytes) : byte := foldl (fun x b => z2b (Z.lxor (b2z x) (b2z b))) Byte.x00 body.

Definition addressHash (scriptAddress : bytes) : bytes :=
  let addHashs := repeat Byte.x00 AddressHashLength in
  let addHashs := copy_at addHashs 0 (take 3 (np_PubKeyHashAddrID (nuls_Params p))) in
  let addHashs := copy_at addHashs 3 scriptAddress in
  copy_at addHashs 23 [nuls_xor (take 23 addHashs)].

Definition nuls_deriveIndex (changeExtKey : ExtendedKey) (index : Z) : go bytes :=
  let* indexExtKey := Child changeExtKey index in
  let* s := key_Address indexExtKey in
  Ret (addressHash (ScriptAddress s)).

(** [for index := fromIndex; index < toIndex; index++] *)
Fixpoint nuls_deriveFrom (n : nat) (changeExtKey : ExtendedKey) (index : Z) : go (list bytes) :=
  match n with
  | O => Ret []
  | S n' =>
      let* ad := nuls_deriveIndex changeExtKey index in
      let* r := nuls_deriveFrom n' changeExtKey (index + 1) in
      Ret (ad :: r)
  end.

Definition nuls_DeriveAddressDescriptorsFromTo (xpub : string) (change fromIndex toIndex : Z) : go (list bytes) :=
  if toIndex <=? fromIndex then Fail (ErrMsg "toIndex<=fromIndex")
  else
    let* extKey := NewKeyFromString xpub in
    let* changeExtKey := Child extKey change in
    nuls_deriveFrom (Z.to_nat (toIndex - fromIndex)) changeExtKey fromIndex.

(** The interface; the descriptors the parser makes are not nil. *)
Definition nuls_parser : BlockChainParser := {|
  GetChainType := ChainBitcoinType;
  KeepBlockAddresses := BaseParser.BlockAddressesToKeep (Base (nuls_bitcoin p));
  AmountDecimals := AmountDecimalPoint (Base (nuls_bitcoin p));
  GetAddrDescFromVout := nuls_GetAddrDescFromVout;
  GetAddrDescFromAddress := nuls_GetAddrDescFromAddress;
  GetAddressesFromAddrDesc := fun ad => nuls_GetAddressesFromAddrDesc (Some ad);
  IsAddrDescIndexable := btc_IsAddrDescIndexable;
  PackedTxidLen := nuls_PackedTxidLen;
  PackTxid := BaseParser_PackTxid;
  UnpackTxid := BaseParser_UnpackTxid;
  PackTx := nuls_PackTx;
  UnpackTx := nuls_UnpackTx;
  GetAddrDescForUnknownInput := BaseParser_GetAddrDescForUnknownInput;
  GetValueSatForUnknownInput := BaseParser_GetValueSatForUnknownInput;
  PackBlockHash := BaseParser_PackBlockHash;
  UnpackBlockHash := BaseParser_UnpackBlockHash;
  EthereumTypeGetErc20FromTx := BaseParser_EthereumTypeGetErc20FromTx;
|}.
End parser.

(** * Answers of the daemon *)

(** An answer with one value. *)
Record CmdValue (T : Type) := mkCmdValue { cv_Success : bool; cv_Value : T }.
Arguments mkCmdValue {T} _ _.
Arguments cv_Success {T} _.
Arguments cv_Value {T} _.

Definition CmdGetBestBlockHash : Type := CmdValue string.
Definition CmdGetBestBlockHeight : Type := CmdValue Z.
Definition CmdTxBroadcast : Type := CmdValue string.
Definition CmdGetTxBytes : Type := CmdValue string.

Module CmdGetNetworkInfo.
Record t := mk {
  Success : bool;
  LocalBestHeight : Z;
  NetBestHeight : Z;
  TimeOffset : string;
  InCount : Z;
  OutCount : Z;
}.
End CmdGetNetworkInfo.

Module CmdGetVersionInfo.
Record t := mk {
  Success : bool;
  MyVersion : string;
  NewestVersion : string;
  NetworkVersion : Z;
  Information : string;
}.
End CmdGetVersionInfo.

(** The fields [Data] that blocks and headers have in common. *)
Module CmdGetBlockHeader.
Record data := mk {
  Hash : string;
  PreHash : string;
  MerkleHash : string;
  StateRoot : string;
  Time : Z;
  Height : Z;
  TxCount : Z;
  PackingAddress : string;
  ConfirmCount : Z;
  ScriptSig : string;
  Size : Z;
  Reward : string;
  Fee : string;
}.
Record t := answer { Success : bool; Data : data }.
End CmdGetBlockHeader.

Module NulsTx.
Record input := mkInput { FromHash : string; FromIndex : Z; in_Address : string; in_Value : string }.
Record output := mkOutput { Address : string; Value : Z; LockTime : Z }.
Record t := mk {
  Hash : string;
  Type_ : Z;
  Time : Z;
  BlockHeight : Z;
  Fee : string;
  TxValue : string;
  Remark : string;
  ScriptSig : string;
  Status : Z;
  ConfirmCount : Z;
  Size : Z;
  Inputs : list input;
  Outputs : list output;
}.
End NulsTx.

Module CmdGetBlock.
Record t := mk { Success : bool; Data : CmdGetBlockHeader.data; TxList : list NulsTx.t }.
End CmdGetBlock.

Module CmdGetTx.
Record t := mk { Success : bool; Tx : NulsTx.t }.
End CmdGetTx.

(** ** Base64 *)

Definition base64_value (c : ascii) : option Z :=
  let n := Z.of_nat (nat_of_ascii c) in
  if (65 <=? n) && (n <=? 90) then Some (n - 65)
  else if (97 <=? n) && (n <=? 122) then Some (n - 71)
  else if (48 <=? n) && (n <=? 57) then Some (n + 4)
  else if n =? 43 then Some 62
  else if n =? 47 then Some 63
  else None.

(** Groups of four characters; the last one can be padded. *)
Fixpoint base64_groups (l : list ascii) : option bytes :=
  match l with
  | [] => Some []
  | a :: b :: c :: d :: l' =>
      x ← base64_value a; y ← base64_value b;
      if Ascii.eqb c "="%char then
        if Ascii.eqb d "="%char && bool_decide (l' = []) then Some [z2b (x * 4 + y / 16)] else None
      else
        z ← base64_value c;
        if Ascii.eqb d "="%char then
          if bool_decide (l' = []) then Some [z2b (x * 4 + y / 16); z2b (y * 16 + z / 4)] else None
        else
          w ← base64_value d;
          r ← base64_groups l';
          Some (z2b (x * 4 + y / 16) :: z2b (y * 16 + z / 4) :: z2b (z * 64 + w) :: r)
  | _ => None
  end.

(** [base64.StdEncoding.DecodeString]: ends of lines are skipped. *)
Definition base64_DecodeString (s : string) : go bytes :=
  match base64_groups (filter (fun c => c <> "010"%char /\ c <> "013"%char) (String.list_ascii_of_string s)) with
  | Some b => Ret b
  | None => Fail (ErrMsg "illegal base64 data")
  end.

(** * The client *)

(** What a request in the body is made of: the marshaler of the older JSON-RPC requests looks
    through the pointer to a structure for its fields [Method] and [Params]. *)
Inductive goField := FString (s : string) | FSlice (l : list param) | FStruct (l : list param) | FOther.
Inductive goValue := GoStruct (fields : list (string * goField)) | GoPointer (v : goValue).

Fixpoint FieldByName (name : string) (fields : list (string * goField)) : option goField :=
  match fields with
  | [] => None
  | (n, f) :: fields' => if String.eqb n name then Some f else FieldByName name fields'
  end.

Definition ErrInvalidValue : error := ErrMsg "Invalid value to marshal".

(** [reflect.ValueOf(v).Elem()] panics if [v] is no pointer, and [FieldByName] if it points
    to no structure. *)
Definition marshalReflected (v : goValue) : go message :=
  match v with
  | GoPointer (GoStruct fields) =>
      match FieldByName "Method" fields with
      | Some (FString m) =>
          match FieldByName "Params" fields with
          | None => Ret (mkMessage m NoParams)
          | Some (FSlice l) | Some (FStruct l) => Ret (mkMessage m (items_or_none l))
          | Some _ => Fail ErrInvalidValue
          end
      | _ => Fail ErrInvalidValue
      end
  | _ => Panic
  end.

(** What is sent: the older form of a request, or the value itself as JSON. *)
Inductive postBody := LegacyBody (m : message) | ValueBody (v : goValue).

(** A request by path, with the status code, its text and the body of the answer; the
    decoders of the answers. *)
Class NulsDaemon := {
  nuls_Get : string -> go (Z * string * go string);
  nuls_Post : string -> postBody -> go (Z * string * go string);
  nj_networkInfo : string -> go CmdGetNetworkInfo.t;
  nj_versionInfo : string -> go CmdGetVersionInfo.t;
  nj_string : string -> go (CmdValue string);
  nj_uint32 : string -> go (CmdValue Z);
  nj_header : string -> go CmdGetBlockHeader.t;
  nj_block : string -> go CmdGetBlock.t;
  nj_tx : string -> go CmdGetTx.t;
  nj_MarshalString : string -> go string;
  nj_UnmarshalString : string -> go string;
}.

Definition ifEmpty {A} (s : string) (a b : A) : A := if bool_decide (s = EmptyString) then a else b.

Definition heightText (height : Z) : string := string_of_text (big_String height).
Definition headerByHeight (height : Z) : string := ("/api/block/header/height/" ++ heightText height)%string.
Definition headerByHash (hash : string) : string := ("/api/block/header/hash/" ++ hash)%string.
Definition blockByHeight (height : Z) : string := ("/api/block/height/" ++ heightText height)%string.
Definition blockByHash (hash : string) : string := ("/api/block/hash/" ++ hash)%string.

Record NulsRPC := mkNulsRPC { nr_rpc : BitcoinRPC; nr_Testnet : bool; nr_Network : string }.

Definition NewNulsRPC (c : Configuration) : NulsRPC :=
  let b := NewBitcoinRPC c in
  let c := ChainConfig b in
  mkNulsRPC (mkBitcoinRPC (ParseBlocks b)
    (mkConfiguration (Parse c) (Rpc.BlockAddressesToKeep c) (MempoolWorkers c) (MempoolSubWorkers c) true false (Geolocation_url c))
    JSONMarshalerV1) false EmptyString.

Definition nuls_Initialize (keep p2sh native slip44 : Z) (n : NulsRPC) : NulsParser * NulsRPC :=
  let params := GetChainParams EmptyString in
  let main := np_Net params =? MainnetMagic in
  (NewNulsParser params keep p2sh native slip44,
   mkNulsRPC (nr_rpc n) (negb main) (if main then "livenet" else "testnet")).

(** ** Conversion *)

Definition nulsVin (input : NulsTx.input) : Vin.t :=
  Vin.mk EmptyString (NulsTx.FromHash input) (NulsTx.FromIndex input) EmptyString 0 [NulsTx.in_Address input].

Definition nulsVout (index : nat) (output : NulsTx.output) : Vout.t :=
  Vout.mk (NulsTx.Value output) EmptyString (u32 (Z.of_nat index)) (NulsTx.Address output) [NulsTx.Address output].

Definition converTx (rawTx : NulsTx.t) : Tx.t :=
  let vins := map nulsVin (NulsTx.Inputs rawTx) in
  let vouts := map (fun x => nulsVout x.1 x.2) (enumerate (NulsTx.Outputs rawTx)) in
  let lockTime := foldl (fun t o => if t <? NulsTx.LockTime o then NulsTx.LockTime o else t) 0 (NulsTx.Outputs rawTx) in
  Tx.mk EmptyString (NulsTx.Hash rawTx) 0 (u32 lockTime) vins vouts (u32 (NulsTx.ConfirmCount rawTx))
    (Z.quot (NulsTx.Time rawTx) 1000) 0 [] [] 0 NoSpecificData.

(** The fields of a header or a block. *)
Definition nulsHeader (next : string) (d : CmdGetBlockHeader.data) : Block.t :=
  Block.mk (CmdGetBlockHeader.Hash d) (CmdGetBlockHeader.PreHash d) next (u32 (CmdGetBlockHeader.Height d))
    (CmdGetBlockHeader.ConfirmCount d) (CmdGetBlockHeader.Size d) (Z.quot (CmdGetBlockHeader.Time d) 1000) [].

(** ** Calls *)

Section client.
Context {ND : NulsDaemon} (n : NulsRPC).

(** What is done with an answer; one with an HTTP error code can still be JSON. *)
Definition decodeAnswer {T} (unmarshal : string -> go T) (a : Z * string * go string) : go T :=
  let '(code, status, body) := a in
  match safeDecodeResponse unmarshal body with
  | Fail e => if code =? 200 then Fail e else Fail (ErrAnnotated e status)
  | r => r
  end.

Definition nuls_Call {T} (unmarshal : string -> go T) (uri : string) : go T :=
  let* a := nuls_Get uri in decodeAnswer unmarshal a.

Definition nuls_Marshal (req : goValue) : go postBody :=
  match RPCMarshaler (nr_rpc n) with
  | JSONMarshalerV1 => let* m := marshalReflected req in Ret (LegacyBody m)
  | JSONMarshalerV2 => Ret (ValueBody req)
  end.

Definition Post {T} (unmarshal : string -> go T) (uri : string) (req : goValue) : go T :=
  let* httpData := nuls_Marshal req in
  let* a := nuls_Post uri httpData in decodeAnswer unmarshal a.

Definition nuls_GetChainInfo : go ChainInfo.t :=
  let* networkInfo := nuls_Call nj_networkInfo "/api/network/info" in
  let* versionInfo := nuls_Call nj_versionInfo "/api/client/version" in
  let best := CmdGetNetworkInfo.NetBestHeight networkInfo in
  Ret (ChainInfo.mk "nuls" best best EmptyString (CmdGetNetworkInfo.TimeOffset networkInfo)
         (CmdGetNetworkInfo.LocalBestHeight networkInfo) (CmdGetVersionInfo.MyVersion versionInfo)
         (CmdGetVersionInfo.NewestVersion versionInfo) (heightText (CmdGetVersionInfo.NetworkVersion versionInfo))
         "0" (CmdGetVersionInfo.Information versionInfo) EmptyString EmptyString EmptyString 0 0 0).

Definition nuls_GetBestBlockHash : go string :=
  let* r := nuls_Call nj_string "/api/block/newest/hash" in Ret (cv_Value r).

Definition nuls_GetBestBlockHeight : go Z :=
  let* r := nuls_Call nj_uint32 "/api/block/newest/height" in Ret (cv_Value r).

Definition nuls_GetBlockHash (height : Z) : go string :=
  let* blockHeader := nuls_Call nj_header (headerByHeight height) in
  if negb (CmdGetBlockHeader.Success blockHeader) then Fail ErrBlockNotFound
  else Ret (CmdGetBlockHeader.Hash (CmdGetBlockHeader.Data blockHeader)).

(** The hash of the block behind one, none if it is not known. *)
Definition nextHash (d : CmdGetBlockHeader.data) : go string :=
  logged EmptyString (nuls_GetBlockHash (u32 (i64 (CmdGetBlockHeader.Height d + 1)))).

Definition getBlobkHeader (uri : string) : go Block.t :=
  let* blockHeader := nuls_Call nj_header uri in
  if negb (CmdGetBlockHeader.Success blockHeader) then Fail ErrBlockNotFound
  else
    let* next := nextHash (CmdGetBlockHeader.Data blockHeader) in
    Ret (nulsHeader next (CmdGetBlockHeader.Data blockHeader)).

Definition nuls_GetBlockHeader (hash : string) : go Block.t := getBlobkHeader (headerByHash hash).
Definition GetBlockHeaderByHeight (height : Z) : go Block.t := getBlobkHeader (headerByHeight height).

Definition nuls_GetBlock (hash : string) (height : Z) : go Block.t :=
  let url := ifEmpty hash (blockByHeight height) (blockByHash hash) in
  let* getBlock := nuls_Call nj_block url in
  if negb (CmdGetBlock.Success getBlock) then Fail ErrBlockNotFound
  else
    let* next := nextHash (CmdGetBlock.Data getBlock) in
    let header := nulsHeader next (CmdGetBlock.Data getBlock) in
    let txs := map (fun rawTx => set_Blocktime (Block.Time header) (converTx rawTx)) (CmdGetBlock.TxList getBlock) in
    Ret (set_Header header (Block.mk EmptyString EmptyString EmptyString 0 0 0 0 txs)).

Definition nuls_GetBlockInfo (hash : string) : go ChainBlockInfo.t :=
  if bool_decide (hash = EmptyString) then Fail ErrBlockNotFound
  else
    let* getBlock := nuls_Call nj_block (blockByHash hash) in
    if negb (CmdGetBlock.Success getBlock) then Fail ErrBlockNotFound
    else
      let* next := nextHash (CmdGetBlock.Data getBlock) in
      let h := nulsHeader next (CmdGetBlock.Data getBlock) in
      Ret (ChainBlockInfo.mk (Block.Hash h) (Block.Prev h) (Block.Next h) (Block.Height h) (Block.Confirmations h)
             (Block.Size h) (Block.Time h) EmptyString (CmdGetBlockHeader.MerkleHash (CmdGetBlock.Data getBlock)) EmptyString
             EmptyString EmptyString (map NulsTx.Hash (CmdGetBlock.TxList getBlock)) EmptyString).

Definition nuls_GetMempoolTransactions : go (list string) := Ret [].

(** The bytes of the transaction in hex, as a JSON text. *)
Definition nuls_GetTransactionSpecific (tx : Tx.t) : go string :=
  match Tx.SpecificData tx with
  | OtherSpecificData csd => Ret csd
  | _ =>
      let* getTxBytes := nuls_Call nj_string ("/api/tx/bytes?hash=" ++ Tx.Txid tx) in
      if negb (cv_Success getTxBytes) then Fail ErrTxNotFound
      else
        let* txBytes := base64_DecodeString (cv_Value getTxBytes) in
        nj_MarshalString (hex_EncodeToString txBytes)
  end.

(** Without the header of its block the time stays zero, and without the bytes of the
    transaction its hex stays empty.  The specific data is then a string, not raw JSON. *)
Definition nuls_GetTransaction (txid : string) : go Tx.t :=
  if bool_decide (txid = EmptyString) then Fail ErrTxidMissing
  else
    let* getTx := nuls_Call nj_tx ("/api/tx/hash/" ++ txid) in
    if negb (CmdGetTx.Success getTx) then Fail ErrTxNotFound
    else
      let tx := converTx (CmdGetTx.Tx getTx) in
      let* tx :=
        match GetBlockHeaderByHeight (u32 (NulsTx.BlockHeight (CmdGetTx.Tx getTx))) with
        | Ret blockHeader => Ret (set_Blocktime (Block.Time blockHeader) tx)
        | Fail _ => Ret tx
        | Panic => Panic
        end in
      match nuls_GetTransactionSpecific tx with
      | Ret raw =>
          let* hex := logged EmptyString (nj_UnmarshalString raw) in
          Ret (set_SpecificData (TextSpecificData hex) (set_Hex hex tx))
      | Fail _ => Ret tx
      | Panic => Panic
      end.

(** The result is a nil transaction without an error; [None] is nil. *)
Definition nuls_GetTransactionForMempool (txid : string) : go (option Tx.t) := Ret None.

Definition nuls_EstimateFee (blocks : Z) : go Z := Ret 100000.
Definition nuls_EstimateSmartFee (blocks : Z) (conservative : bool) : go Z := nuls_EstimateFee blocks.

Definition nuls_SendRawTransaction (tx : string) : go string :=
  let req := GoStruct [("TxHex"%string, FString tx)] in
  let* broadcast := Post nj_string "/api/accountledger/transaction/broadcast" req in
  if negb (cv_Success broadcast) then Fail ErrTxidMissing else Ret (cv_Value broadcast).

(** The mempool takes the transaction apart, which panics for nil. *)
Definition nuls_chain : BlockChain := {|
  Mempool.GetMempoolTransactions := nuls_GetMempoolTransactions;
  Mempool.GetTransactionForMempool := fun txid => let* tx := nuls_GetTransactionForMempool txid in must tx;
  Mempool.GetTransaction := nuls_GetTransaction;
  Mempool.GetBestBlockHash := nuls_GetBestBlockHash;
  Mempool.GetBestBlockHeight := nuls_GetBestBlockHeight;
  chain_GetBlockHash := nuls_GetBlockHash;
  Mempool.GetBlock := nuls_GetBlock;
|}.
End client.

(** * Facts *)

Section facts.
Context `{L : BtcLib} {NL : NulsLib} {NLL : NulsLibLaws} `{VL : VlqLaws} {TJ : TxJson} (p : NulsParser).

#[export] Instance nuls_parser_laws : ParserLaws (nuls_parser p).
Proof.
  split; cbn -[Z.pow]; [done| |].
  - intros b Hb. eexists. split; [done|]. apply PackTxid_hex. by intros ->.
  - intros b Hb. eexists. split; [done|]. apply hex_DecodeString_Encode.
Qed.

(** A copy to the front, and one behind a front that stays. *)
Lemma copy_at_front {A} (a b src : list A) : length src = length a -> copy_at (a ++ b) 0 src = src ++ b.
Proof.
  intros H. unfold copy_at. rewrite take_0, Nat.sub_0_r, take_ge by (rewrite length_app; lia).
  by rewrite Nat.add_0_l, H, drop_app_length.
Qed.

Lemma copy_at_app {A} (a b src : list A) : copy_at (a ++ b) (length a) src = a ++ copy_at b 0 src.
Proof.
  unfold copy_at. rewrite take_app_length, length_app, take_0, Nat.sub_0_r.
  replace (length a + length b - length a)%nat with (length b) by lia.
  by rewrite drop_app_ge, Nat.add_0_l, Nat.add_comm, Nat.add_sub by lia.
Qed.

Lemma nuls_xor_snoc l : nuls_xor (l ++ [nuls_xor l]) = Byte.x00.
Proof. unfold nuls_xor. rewrite foldl_app. cbn [foldl]. by rewrite Z.lxor_nilpotent. Qed.

(** The hash of a key between the prefix of the network and the sum that checks both. *)
Lemma addressHash_parts h : length h = 20%nat -> length (np_PubKeyHashAddrID (nuls_Params p)) = 3%nat ->
  let body := np_PubKeyHashAddrID (nuls_Params p) ++ h in addressHash p h = body ++ [nuls_xor body].
Proof.
  intros Hh Hid body. unfold addressHash. rewrite take_ge by lia. set (id := np_PubKeyHashAddrID _) in *.
  change (repeat Byte.x00 AddressHashLength) with (repeat Byte.x00 3 ++ repeat Byte.x00 20 ++ [Byte.x00]).
  rewrite copy_at_front by done. pose proof (copy_at_app id (repeat Byte.x00 20 ++ [Byte.x00]) h) as E.
  rewrite Hid in E. rewrite E, copy_at_front, app_assoc by done. fold body. clear E.
  assert (length body = 23%nat) as Hb by (unfold body; rewrite length_app; lia).
  rewrite take_app_le, take_ge by lia. pose proof (copy_at_app body [Byte.x00] [nuls_xor body]) as E.
  rewrite Hb in E. rewrite E. by rewrite (copy_at_front [Byte.x00] []).
Qed.

Lemma nuls_deriveFrom_elem m k index ads : nuls_deriveFrom p m k index = Ret ads ->
  Forall (fun ad => exists h, length h = 20%nat /\ ad = addressHash p h) ads /\ length ads = m.
Proof.
  revert index ads. induction m as [|m IH]; intros index ads H; cbn [nuls_deriveFrom] in H; [by simplify_eq|].
  unfold nuls_deriveIndex in H. destruct (Child k index); [|done..]. cbn [go_bind] in H.
  destruct (key_Address _) eqn:Ea; [|done..]. cbn [go_bind] in H.
  destruct (nuls_deriveFrom p m k (index + 1)) eqn:E; [|done..]. cbn [go_bind] in H. simplify_eq.
  destruct (IH _ _ E) as [H1 H2]. split; [|by rewrite <- H2]. constructor; [|done].
  eexists. split; [|done]. by eapply ScriptAddress_hash.
Qed.
End facts.

(** ** The blocks of the daemon *)

Abbreviation nuls_block := (CmdGetBlockHeader.data * list NulsTx.t)%type.

(** The daemon has a chain of blocks: a block is answered by height and by hash, a missing one
    is reported as such.  The header of a block, from which its hash is taken for the block
    before it, need not be there. *)
Record nuls_serves `{ND : NulsDaemon} (blocks : Z -> option nuls_block) : Prop := {
  ns_block : forall h d txs, blocks h = Some (d, txs) ->
    CmdGetBlockHeader.Height d = h /\ CmdGetBlockHeader.Hash d <> EmptyString /\
    nuls_Call nj_block (blockByHeight h) = Ret (CmdGetBlock.mk true d txs) /\
    nuls_Call nj_block (blockByHash (CmdGetBlockHeader.Hash d)) = Ret (CmdGetBlock.mk true d txs);
  ns_missing : forall h, 0 <= h -> blocks h = None ->
    exists b, nuls_Call nj_block (blockByHeight h) = Ret b /\ CmdGetBlock.Success b = false;
  ns_header : forall h a, nuls_Call nj_header (headerByHeight h) = Ret a -> CmdGetBlockHeader.Success a = true ->
    exists d txs, blocks h = Some (d, txs) /\ CmdGetBlockHeader.Hash (CmdGetBlockHeader.Data a) = CmdGetBlockHeader.Hash d;
  ns_total : forall h, nuls_Call nj_header (headerByHeight h) <> Panic;
}.

(** The block of the explorer for a block of the daemon. *)
Record nuls_block_of (x : nuls_block) (b : Block.t) : Prop := {
  nb_Hash : Block.Hash b = CmdGetBlockHeader.Hash x.1;
  nb_Prev : Block.Prev b = CmdGetBlockHeader.PreHash x.1;
  nb_Height : Block.Height b = CmdGetBlockHeader.Height x.1;
  nb_Time : Block.Time b = Z.quot (CmdGetBlockHeader.Time x.1) 1000;
  nb_Txs : Block.Txs b = map (fun t => set_Blocktime (Block.Time b) (converTx t)) x.2;
}.

Section sync.
Context `{ND : NulsDaemon} (n : NulsRPC) (blocks : Z -> option nuls_block) (Hserves : nuls_serves blocks).

(** How a block is asked for: by its hash if it is known, by its height otherwise. *)
Definition asked (hash : string) (h : Z) : Prop :=
  hash = EmptyString \/ exists d txs, blocks h = Some (d, txs) /\ hash = CmdGetBlockHeader.Hash d.

Lemma nuls_GetBlock_run hash h d txs : blocks h = Some (d, txs) -> asked hash h -> 0 <= h -> in_u32 (h + 1) ->
  exists b, nuls_GetBlock hash h = Ret b /\ nuls_block_of (d, txs) b /\ asked (Block.Next b) (h + 1).
Proof.
  intros Hb Ha Hh Hh1. destruct (ns_block blocks Hserves h d txs Hb) as (Ed & Hne & E1 & E2).
  assert (nuls_Call nj_block (ifEmpty hash (blockByHeight h) (blockByHash hash)) = Ret (CmdGetBlock.mk true d txs)) as E.
  { destruct Ha as [-> |(d' & txs' & Hb' & ->)]; [done|]. unfold ifEmpty. rewrite bool_decide_false; congruence. }
  unfold nuls_GetBlock. rewrite E. cbn [go_bind CmdGetBlock.Success CmdGetBlock.Data CmdGetBlock.TxList negb].
  unfold nextHash. rewrite Ed, i64_id, u32_id by (unfold in_u32, in_i64 in *; lia). unfold nuls_GetBlockHash.
  pose proof (ns_total blocks Hserves (h + 1)) as Ht. pose proof (ns_header blocks Hserves (h + 1)) as Hn.
  assert (u32 (CmdGetBlockHeader.Height d) = CmdGetBlockHeader.Height d) as Eh.
  { apply u32_id. unfold in_u32 in *. lia. }
  destruct (nuls_Call nj_header (headerByHeight (h + 1))) as [a|e|] eqn:Ea; [|eexists; split; [done|]|done].
  - cbn [go_bind]. destruct (CmdGetBlockHeader.Success a) eqn:Es; cbn [negb logged go_bind].
    + destruct (Hn a eq_refl Es) as (d' & txs' & Hb' & E'). eexists. split; [done|]. split; [by split|]. right. eauto.
    + eexists. split; [done|]. split; [by split|by left].
  - split; [by split|by left].
Qed.

Lemma nuls_serves_remote ds : forall hash h, asked hash h -> 0 <= h -> h + zlen ds < 2 ^ 32 ->
  (forall i x, ds !! i = Some x -> blocks (h + Z.of_nat i) = Some x) -> blocks (h + zlen ds) = None ->
  exists bs, Forall2 nuls_block_of ds bs /\ remote_chain (R := nuls_chain) hash h bs.
Proof.
  induction ds as [|[d txs] ds IH]; intros hash h Ha Hh Hlt Hds Hend.
  - rewrite zlen_nil, Z.add_0_r in Hend. exists []. split; [done|]. apply rc_end. cbn. unfold nuls_GetBlock.
    destruct Ha as [-> |(d & txs & Hb & _)]; [|congruence]. destruct (ns_missing blocks Hserves h Hh Hend) as (b & E & Eb).
    unfold ifEmpty. rewrite bool_decide_true, E by done. cbn [go_bind]. by rewrite Eb.
  - rewrite zlen_cons in *. pose proof (zlen_nonneg ds).
    pose proof (Hds 0%nat _ eq_refl) as H0. rewrite Z.add_0_r in H0.
    destruct (nuls_GetBlock_run hash h d txs H0 Ha) as (b & E & Hb & Ha1); [done|unfold in_u32; lia|].
    destruct (IH (Block.Next b) (h + 1)) as (bs & Hbs & Hr); [done|lia|lia|..].
    + intros i x Hi. rewrite <- (Hds (S i) x Hi). f_equal. lia.
    + rewrite <- Hend. f_equal. lia.
    + exists (b :: bs). split; [by constructor|]. apply rc_block; [done|]. rewrite u32_id by (unfold in_u32; lia). done.
Qed.
End sync.

(** ** Transactions of the client *)

Lemma nuls_GetTransaction_shape `{ND : NulsDaemon} txid tx : nuls_GetTransaction txid = Ret tx ->
  Tx.VShieldIn tx = [] /\ Tx.VShieldOut tx = [] /\ Forall (fun v => Vout.JsonValue v = EmptyString) (Tx.Vout tx).
Proof.
  unfold nuls_GetTransaction. destruct (bool_decide _); [done|]. destruct (nuls_Call nj_tx _) as [a| |]; [|done..].
  cbn [go_bind]. destruct (negb _); [done|].
  assert (Tx.VShieldIn (converTx (CmdGetTx.Tx a)) = [] /\ Tx.VShieldOut (converTx (CmdGetTx.Tx a)) = [] /\
    Forall (fun v => Vout.JsonValue v = EmptyString) (Tx.Vout (converTx (CmdGetTx.Tx a)))) as Hc.
  { split; [done|]. split; [done|]. cbn. by apply Forall_forall; intros v (x & <- & _)%list_elem_of_In%in_map_iff. }
  revert Hc. generalize (converTx (CmdGetTx.Tx a)) as t. intros t Hc.
  destruct (GetBlockHeaderByHeight _) as [h| |]; cbn [go_bind]; [|..|done];
    (destruct (nuls_GetTransactionSpecific _) as [raw| |]; [|intros [= <-]; apply Hc|done]);
    (destruct (logged _ _); cbn [go_bind]; [intros [= <-]; apply Hc|done..]).
Qed.

(** * Properties *)

Section properties.
Context `{L : BtcLib} {NL : NulsLib} {NLL : NulsLibLaws} `{VL : VlqLaws} {TJ : TxJson} {TJL : TxJsonLaws TJ} (p : NulsParser).

(** A derived address has the prefix of the network, the hash of the key and a sum that
    makes the exclusive or of all its bytes zero; it is shown as a text that leads back
    to it, and an output the daemon reports for this text is indexed under it. *)
Theorem nuls_derived xpub change fromIndex toIndex ads ad :
  length (np_PubKeyHashAddrID (nuls_Params p)) = 3%nat ->
  nuls_DeriveAddressDescriptorsFromTo p xpub change fromIndex toIndex = Ret ads -> ad ∈ ads ->
  zlen ads = toIndex - fromIndex /\
  (exists h, length h = 20%nat /\ take 23 ad = np_PubKeyHashAddrID (nuls_Params p) ++ h) /\
  length ad = AddressHashLength /\ nuls_xor ad = Byte.x00 /\
  exists a, nuls_GetAddressesFromAddrDesc (Some ad) = Ret ([a], true) /\ nuls_GetAddrDescFromAddress a = Ret ad /\
    forall i o, NulsTx.Address o = a -> nuls_GetAddrDescFromVout (nulsVout i o) = Ret ad.
Proof.
  intros Hid H Had. unfold nuls_DeriveAddressDescriptorsFromTo in H. destruct (Z.leb_spec toIndex fromIndex); [done|].
  destruct (NewKeyFromString xpub); [|done..]. cbn [go_bind] in H. destruct (Child _ change); [|done..]. cbn [go_bind] in H.
  apply nuls_deriveFrom_elem in H as [H Hl]. rewrite Forall_forall in H. destruct (H ad Had) as (h & Hh & ->).
  split; [unfold zlen; lia|]. rewrite (addressHash_parts p h Hh Hid). set (body := _ ++ h).
  assert (length body = 23%nat) as Hb by (unfold body; rewrite length_app; lia). split.
  { exists h. split; [done|]. rewrite take_app_le, take_ge by lia. done. }
  split; [rewrite length_app, Hb; done|]. split; [apply nuls_xor_snoc|].
  eexists. split; [done|]. unfold nuls_GetAddrDescFromAddress, nuls_GetAddrDescFromVout.
  split; [by rewrite Decode_Encode|]. intros i o Ho. cbn. by rewrite Ho, Decode_Encode.
Qed.

(** What the client got of a transaction is read back from the index as it was written,
    with height and time, except that the specific data is gone and amounts that had no
    text read as zero. *)
Theorem nuls_PackTx_roundtrip `{ND : NulsDaemon} txid tx height bt :
  nuls_GetTransaction txid = Ret tx -> Forall ascii_text (tx_texts tx) -> in_u32 height -> in_i64 bt ->
  exists buf, nuls_PackTx tx height bt = Ret buf /\ nuls_UnpackTx buf = Ret (set_Blocktime bt (json_Tx tx), height).
Proof.
  intros Hg Ht Hh Hb. destruct (nuls_GetTransaction_shape txid tx Hg) as (H1 & H2 & H3).
  destruct (ParseTx_MarshalTx tx Ht H1 H2 H3) as (raw & E1 & E2). unfold nuls_PackTx. rewrite E1. cbn [go_bind].
  eexists. split; [done|]. pose proof (PutInt_len bt) as Hl. set (m := vlq_MaxLen64) in *.
  set (v := vlq_PutInt bt) in *. set (k := (Z.to_nat m - length v)%nat).
  assert (length v + k = Z.to_nat m)%nat as Hk by (unfold k, zlen in *; lia).
  assert (copy_at (copy_at (repeat Byte.x00 (Z.to_nat (4 + m))) 0 (be_bytes 4 height)) 4 v =
          be_bytes 4 height ++ v ++ repeat Byte.x00 k) as ->.
  { replace (Z.to_nat (4 + m)) with (4 + Z.to_nat m)%nat by (unfold zlen in *; lia).
    rewrite (repeat_app Byte.x00 4), copy_at_front by (by rewrite be_bytes_length).
    pose proof (copy_at_app (be_bytes 4 height) (repeat Byte.x00 (Z.to_nat m)) v) as E. rewrite be_bytes_length in E.
    by rewrite E, <- Hk, (repeat_app Byte.x00 (length v)), copy_at_front by (by rewrite repeat_length). }
  assert (zlen (v ++ repeat Byte.x00 k) = m) as Hm.
  { unfold zlen in *. rewrite length_app, repeat_length. lia. }
  unfold nuls_UnpackTx. rewrite <- app_assoc, go_slice_prefix by (by rewrite be_bytes_zlen). cbn [go_bind].
  rewrite be_Z_be_bytes, Z.mod_small by done.
  rewrite (go_slice_mid (be_bytes 4 height) (v ++ repeat Byte.x00 k)) by (fold m; rewrite ?be_bytes_zlen, ?Hm; lia).
  cbn [go_bind]. unfold v at 1. rewrite Int_PutInt by done.
  rewrite app_assoc, go_from_app by (fold m; rewrite zlen_app, be_bytes_zlen, Hm; lia). cbn [go_bind].
  unfold nuls_ParseTx. rewrite E2. done.
Qed.
End properties.

(** C26: Synchronization with the Nuls daemon connects the blocks it has, one after the other by
    height, each with its transactions, whether or not the daemon tells the hash of the
    next block, until there is none. *)
Theorem nuls_sync `{DB : Store} `{P : BlockChainParser} `{V : Vlq} `{SC : ScriptLib} `{J : StateJson} `{ND : NulsDaemon}
    blocks interrupt now (w : SyncWorker) ds fuel initialSync :
  nuls_serves blocks -> asked blocks (startHash w) (startHeight w) -> 0 <= startHeight w -> startHeight w + zlen ds < 2 ^ 32 ->
  (forall i x, ds !! i = Some x -> blocks (startHeight w + Z.of_nat i) = Some x) -> blocks (startHeight w + zlen ds) = None ->
  (forall k, initialSync && interrupt k = false) -> (length ds < fuel)%nat ->
  exists bs, Forall2 nuls_block_of ds bs /\
    connectBlocks (R := nuls_chain) interrupt now fuel initialSync w = sfor (connectOne now) bs w.
Proof.
  intros Hs Ha Hh Hlt Hds Hend Hi Hf.
  destruct (nuls_serves_remote blocks Hs ds (startHash w) (startHeight w)) as (bs & Hbs & Hr); [done..|].
  exists bs. split; [done|]. unfold connectBlocks. rewrite (sbind_eq _ _ w w w) by done.
  apply (connectLoop_all (R := nuls_chain) interrupt now (startHash w) (startHeight w)); [done..|].
  by rewrite <- (Forall2_length _ _ _ Hbs).
Qed.

(** The requests of the JSON-RPC clients, which are pointers to structures. *)
Definition cmdValue (c : Cmd) : goValue :=
  GoPointer (GoStruct (("Method"%string, FString (Method c)) ::
    match Params c with
    | NoParams => []
    | Fields l => [("Params"%string, FStruct (map snd l))]
    | Items l => [("Params"%string, FSlice l)]
    end)).

(** Nothing can be sent with the Nuls client: its marshaler takes pointers, as the requests
    of the other clients are, and panics on the structure it is given. *)
Theorem nuls_SendRawTransaction_panics `{ND : NulsDaemon} c tx keep p2sh native slip44 :
  nuls_SendRawTransaction (nuls_Initialize keep p2sh native slip44 (NewNulsRPC c)).2 tx = Panic /\
  forall cmd, (forall hash v, cmd <> Rpc.CmdGetBlock hash v) -> (forall txid v, cmd <> CmdGetRawTransaction txid v) ->
    marshalReflected (cmdValue cmd) = Ret (marshalV1 cmd).
Proof.
  split; [done|]. intros cmd H1 H2. destruct cmd; try done; try (by destruct (H1 BlockHash Verbosity)); by destruct (H2 Txid Verbose).
Qed.

(** * Concrete runs *)

(** Texts of addresses in hex; the hash of a key are its first 20 bytes. *)
#[global] Instance plain_nuls : NulsLib (L := plain_lib) := {|
  base58_Encode := hex_EncodeToString;
  base58_Decode s := match hex_DecodeString s with Ret b => b | _ => [] end;
  ScriptAddress a := take 20 (a ++ repeat Byte.x00 20);
|}.

Lemma plain_nuls_laws : NulsLibLaws (NL := plain_nuls).
Proof.
  split.
  - intros b. cbn. by rewrite hex_DecodeString_Encode.
  - intros k a _. change (length (take 20 (a ++ repeat Byte.x00 20)) = 20%nat). rewrite length_take, length_app, repeat_length. lia.
Qed.

(** A transaction is written as the number that encodes it. *)
Fixpoint pos_bytes (n : positive) : bytes :=
  match n with xH => [] | xO n => Byte.x00 :: pos_bytes n | xI n => Byte.x01 :: pos_bytes n end.
Fixpoint bytes_pos (l : bytes) : positive :=
  match l with [] => xH | Byte.x00 :: l => xO (bytes_pos l) | _ :: l => xI (bytes_pos l) end.

Lemma bytes_pos_bytes n : bytes_pos (pos_bytes n) = n.
Proof. induction n as [n IH|n IH|]; cbn [pos_bytes bytes_pos]; [..|done]; by rewrite IH. Qed.

Definition vin_tuple (v : Vin.t) := (Vin.Coinbase v, Vin.Txid v, Vin.Vout v, Vin.ScriptSigHex v, Vin.Sequence v, Vin.Addresses v).
Definition tuple_vin x : Vin.t := let '(c, t, v, s, q, a) := x in Vin.mk c t v s q a.
Definition vout_tuple (v : Vout.t) := (Vout.ValueSat v, Vout.JsonValue v, Vout.N v, Vout.ScriptPubKeyHex v, Vout.Addresses v).
Definition tuple_vout x : Vout.t := let '(v, j, n, s, a) := x in Vout.mk v j n s a.
Definition tx_tuple (tx : Tx.t) :=
  (Tx.Hex tx, Tx.Txid tx, Tx.Version tx, Tx.LockTime tx, map vin_tuple (Tx.Vin tx), map vout_tuple (Tx.Vout tx),
   Tx.Confirmations tx, Tx.Time tx, Tx.Blocktime tx, Tx.VShieldIn tx, Tx.VShieldOut tx, Tx.ShieldValBal tx).
Definition tuple_tx x : Tx.t :=
  let '(h, t, v, l, i, o, c, m, b, vi, vo, s) := x in Tx.mk h t v l (map tuple_vin i) (map tuple_vout o) c m b vi vo s NoSpecificData.

#[global] Instance plain_txjson : TxJson := {|
  json_MarshalTx tx := Ret (pos_bytes (encode (tx_tuple (json_Tx tx))));
  json_ParseTx b := match decode (bytes_pos b) with Some x => Ret (tuple_tx x) | None => Fail (ErrMsg "json") end;
|}.

Lemma plain_txjson_laws : TxJsonLaws plain_txjson.
Proof.
  split. intros tx _ _ _ _. eexists. split; [done|]. cbn [json_ParseTx plain_txjson].
  rewrite (bytes_pos_bytes (encode (tx_tuple (json_Tx tx)))), decode_encode. f_equal. unfold tx_tuple, tuple_tx, json_Tx. cbn. f_equal; rewrite map_map.
  - rewrite <- (map_id (Tx.Vin tx)) at 2. apply map_ext. by intros [].
  - rewrite <- (map_id (map json_Vout _)) at 2. apply map_ext. by intros [].
Qed.

Definition nuls_test_parser : NulsParser := NewNulsParser MainNetParams 3 49 84 0.

Definition derived0 : bytes := map z2b [4; 35; 1; 5; 1] ++ repeat Byte.x00 18 ++ [z2b 34].

(** The first address of a branch. *)
Lemma nuls_derived_witness : length derived0 = AddressHashLength /\ nuls_xor derived0 = Byte.x00.
Proof.
  refine (match nuls_derived (L := plain_lib) (NLL := plain_nuls_laws) nuls_test_parser EmptyString 1 5 6 [derived0] derived0 _ _ _ with
          | conj _ (conj _ (conj H1 (conj H2 _))) => conj H1 H2 end).
  - reflexivity.
  - vm_compute. reflexivity.
  - apply list_elem_of_singleton. reflexivity.
Defined.

(** A daemon with one block at height 8 and its transaction, which pays to [derived0]. *)
Definition ntx : NulsTx.t :=
  NulsTx.mk "t1" 2 5000 8 "0" "1" EmptyString EmptyString 1 3 200 [NulsTx.mkInput "t0" 0 "aa" "1"]
    [NulsTx.mkOutput (hex_EncodeToString derived0) 70 0].
Definition ndata : CmdGetBlockHeader.data :=
  CmdGetBlockHeader.mk "h8" "h7" EmptyString EmptyString 5000 8 1 EmptyString 3 EmptyString 300 "0" "0".

(** The body of an answer is the path. *)
Definition small_nuls : NulsDaemon := {|
  nuls_Get uri := Ret (200, "200 OK"%string, Ret uri);
  nuls_Post _ _ := Ret (200, "200 OK"%string, Ret EmptyString);
  nj_networkInfo _ := Fail (ErrMsg "json");
  nj_versionInfo _ := Fail (ErrMsg "json");
  nj_string s := Ret (if String.eqb s "/api/tx/bytes?hash=t1" then mkCmdValue true "AQL/"%string else mkCmdValue false EmptyString);
  nj_uint32 _ := Ret (mkCmdValue true 8);
  nj_header _ := Fail (ErrMsg "json");
  nj_block s := Ret (if String.eqb s "/api/block/height/8" || String.eqb s "/api/block/hash/h8"
                     then CmdGetBlock.mk true ndata [ntx] else CmdGetBlock.mk false ndata []);
  nj_tx s := Ret (CmdGetTx.mk (String.eqb s "/api/tx/hash/t1") ntx);
  nj_MarshalString s := Ret s;
  nj_UnmarshalString s := Ret s;
|}.

Definition small_blocks (h : Z) : option nuls_block := if h =? 8 then Some (ndata, [ntx]) else None.

Definition got_tx : Tx.t := set_SpecificData (TextSpecificData "0102ff") (set_Hex "0102ff" (converTx ntx)).

Lemma nuls_PackTx_roundtrip_witness :
  exists buf, nuls_PackTx (V := leb) got_tx 8 99 = Ret buf /\
    nuls_UnpackTx (V := leb) buf = Ret (set_Blocktime 99 (json_Tx got_tx), 8).
Proof.
  refine (nuls_PackTx_roundtrip (V := leb) (TJL := plain_txjson_laws) (ND := small_nuls) "t1" got_tx 8 99 _ _ _ _).
  - vm_compute. reflexivity.
  - unfold ascii_text. apply (bool_decide_unpack _). vm_compute. exact I.
  - split; vm_compute; congruence.
  - split; vm_compute; congruence.
Defined.

Lemma small_nuls_serves : nuls_serves (ND := small_nuls) small_blocks.
Proof.
  split; [|..|intros h a H; cbn in H; discriminate|intros h H; cbn in H; discriminate].
  - intros h d txs. unfold small_blocks. destruct (Z.eqb_spec h 8) as [-> |]; [|done]. intros [= <- <-].
    split; [done|]. split; [done|]. split; vm_compute; reflexivity.
  - intros h Hh. unfold small_blocks. destruct (Z.eqb_spec h 8) as [|Hne]; [done|]. intros _. eexists. split; [reflexivity|].
    change (CmdGetBlock.Success (if String.eqb (heightText h) "8" || false then CmdGetBlock.mk true ndata [ntx]
      else CmdGetBlock.mk false ndata []) = false).
    destruct (String.eqb_spec (heightText h) "8") as [E|]; [|done]. exfalso. apply Hne.
    apply big_String_inj; [done..|]. apply (f_equal String.list_ascii_of_string) in E.
    unfold heightText, string_of_text in E. by rewrite String.list_ascii_of_string_of_list_ascii in E.
Qed.

Lemma nuls_sync_witness : exists bs : list Block.t, Forall2 nuls_block_of [(ndata, [ntx])] bs /\
  connectBlocks (P := plain_parser) (V := leb) (R := nuls_chain (ND := small_nuls)) (fun _ => false) 77 2 true
    (worker (open_db ∅) "h8") =
  sfor (connectOne (P := plain_parser) (V := leb) 77) bs (worker (open_db ∅) "h8").
Proof.
  refine (nuls_sync (P := plain_parser) (V := leb) (J := code_json) (ND := small_nuls) small_blocks (fun _ => false) 77
    (worker (open_db ∅) "h8") [(ndata, [ntx])] 2 true small_nuls_serves _ _ _ _ _ _ _).
  - right. exists ndata, [ntx]. vm_compute. split; reflexivity.
  - vm_compute. discriminate.
  - vm_compute. reflexivity.
  - intros [|i] x H; [|done]. injection H as <-. vm_compute. reflexivity.
  - vm_compute. reflexivity.
  - reflexivity.
  - vm_compute. repeat constructor.
Defined.
