(* ===== verification/Coins.v ===== *)
(** The coins: the network parameters of every Bitcoin-like coin, how its client is initialized
    with them, its parser, and [bchain/coins/blockchain.go], which selects the client by the
    name of the coin.

    A module per coin holds what its package has of its own: the constants of its networks, the
    parameters and [GetChainParams].  The parameters start as copies of those of Bitcoin, which
    belong to [chaincfg] as the registry of networks does; both are the class [ChainCfg].  The
    names and the genesis blocks of the networks, which are not used, are left out.  The
    parameters of Nuls and of the Skyr parser are in their files. *)
From stdpp Require Import base list strings gmap.
From Stdlib Require Import ZArith Lia.
From S2P Require Import Prelude Hex Types Store Vlq Codec InternalState AddrBalance TxAddresses BaseParser BitcoinParser.
From S2P Require Import RocksDB RocksDBFacts BitcoinIndex Ledger IndexInvariant EthParser EthIndex Connect ConnectFacts Mempool Sync.
From S2P Require Import ApiTypes Worker Skyr Rpc ForkRpc EthRpc Forks Nuls.

Open Scope Z_scope.
Open Scope go_scope.

(** * Networks *)

(** [base58]: the hash of the checksum of an address. *)
Inductive CksumHasher := Sha256D | Groestl512D.

(** [chaincfg.Params] *)
Record ChainParams := mkChainParams {
  Net : Z;
  AddressMagicLen : Z;
  PubKeyHashAddrID : bytes;
  ScriptHashAddrID : bytes;
  PrivateKeyID : bytes;
  Bech32HRPSegwit : string;
  Base58CksumHasher : CksumHasher;
  HDCoinType : Z;
}.

Definition with_Net (n : Z) (p : ChainParams) : ChainParams :=
  mkChainParams n (AddressMagicLen p) (PubKeyHashAddrID p) (ScriptHashAddrID p) (PrivateKeyID p) (Bech32HRPSegwit p)
    (Base58CksumHasher p) (HDCoinType p).
Definition with_AddressMagicLen (n : Z) (p : ChainParams) : ChainParams :=
  mkChainParams (Net p) n (PubKeyHashAddrID p) (ScriptHashAddrID p) (PrivateKeyID p) (Bech32HRPSegwit p)
    (Base58CksumHasher p) (HDCoinType p).
Definition with_PubKeyHashAddrID (id : list Z) (p : ChainParams) : ChainParams :=
  mkChainParams (Net p) (AddressMagicLen p) (map z2b id) (ScriptHashAddrID p) (PrivateKeyID p) (Bech32HRPSegwit p)
    (Base58CksumHasher p) (HDCoinType p).
Definition with_ScriptHashAddrID (id : list Z) (p : ChainParams) : ChainParams :=
  mkChainParams (Net p) (AddressMagicLen p) (PubKeyHashAddrID p) (map z2b id) (PrivateKeyID p) (Bech32HRPSegwit p)
    (Base58CksumHasher p) (HDCoinType p).
Definition with_PrivateKeyID (id : list Z) (p : ChainParams) : ChainParams :=
  mkChainParams (Net p) (AddressMagicLen p) (PubKeyHashAddrID p) (ScriptHashAddrID p) (map z2b id) (Bech32HRPSegwit p)
    (Base58CksumHasher p) (HDCoinType p).
Definition with_Bech32HRPSegwit (hrp : string) (p : ChainParams) : ChainParams :=
  mkChainParams (Net p) (AddressMagicLen p) (PubKeyHashAddrID p) (ScriptHashAddrID p) (PrivateKeyID p) hrp
    (Base58CksumHasher p) (HDCoinType p).
Definition with_Base58CksumHasher (h : CksumHasher) (p : ChainParams) : ChainParams :=
  mkChainParams (Net p) (AddressMagicLen p) (PubKeyHashAddrID p) (ScriptHashAddrID p) (PrivateKeyID p) (Bech32HRPSegwit p)
    h (HDCoinType p).
Definition with_HDCoinType (n : Z) (p : ChainParams) : ChainParams :=
  mkChainParams (Net p) (AddressMagicLen p) (PubKeyHashAddrID p) (ScriptHashAddrID p) (PrivateKeyID p) (Bech32HRPSegwit p)
    (Base58CksumHasher p) n.

(** [chaincfg]: the parameters of Bitcoin and the registry, in which a network is found by
    its number; [bchutil]: the numbers of the networks of Bitcoin Cash. *)
Class ChainCfg := {
  registry : Type;
  unregistered : registry;
  IsRegistered : ChainParams -> registry -> bool;
  Register : ChainParams -> sgo registry unit;
  RegisterBitcoinParams : sgo registry unit;
  BitcoinMainNetParams : ChainParams;
  BitcoinTestNet3Params : ChainParams;
  BitcoinRegressionNetParams : ChainParams;
  bchutil_MainnetMagic : Z;
  bchutil_TestnetMagic : Z;
  bchutil_Regtestmagic : Z;
}.

(** [wire.MainNet], [wire.TestNet] (of the regression test), [wire.TestNet3] and [wire.SimNet] *)
Definition wire_MainNet : Z := 0xd9b4bef9.
Definition bitcoinNets : list Z := [wire_MainNet; 0xdab5bffa; 0x0709110b; 0x12141c16].

(** A network is registered once. *)
Class ChainCfgLaws (C : ChainCfg) := {
  IsRegistered_empty : forall p, IsRegistered p unregistered = false;
  Register_new : forall p r, IsRegistered p r = false -> exists r', Register p r = (r', Ret tt) /\
    forall q, IsRegistered q r' = (Net q =? Net p) || IsRegistered q r;
  RegisterBitcoin_new : forall r, (forall p, Net p ∈ bitcoinNets -> IsRegistered p r = false) ->
    exists r', RegisterBitcoinParams r = (r', Ret tt) /\
      forall q, IsRegistered q r' = bool_decide (Net q ∈ bitcoinNets) || IsRegistered q r;
  Net_BitcoinMain : Net BitcoinMainNetParams = wire_MainNet;
  Net_BitcoinTest : Net BitcoinTestNet3Params = 0x0709110b;
  Net_BitcoinRegtest : Net BitcoinRegressionNetParams = 0xdab5bffa;
  bchutil_magics : bchutil_MainnetMagic = 0xe8f3e1e3 /\ bchutil_TestnetMagic = 0xf4f3e5f4 /\ bchutil_Regtestmagic = 0xfabfb5da;
}.

Section registry.
Context {C : ChainCfg}.

(** [Register] of one network after the other; an error stops it and is a panic. *)
Fixpoint registerAll (ps : list ChainParams) : sgo registry unit :=
  match ps with
  | [] => sret tt
  | p :: ps' => fun r =>
      match Register p r with
      | (r', Ret _) => registerAll ps' r'
      | (r', _) => (r', Panic)
      end
  end.

(** [GetChainParams] of a package: its networks are registered if its main network is not. *)
Definition registering (main : ChainParams) (nets : list ChainParams) (selected : ChainParams) : sgo registry ChainParams :=
  fun r => (do! (if IsRegistered main r then sret tt else registerAll nets) in sret selected) r.
End registry.

Module bellcoin.
Definition MainnetMagic : Z := 0xbebacefa.
Definition TestnetMagic : Z := 0x0709110b.
Section params.
Context {C : ChainCfg}.
Definition MainNetParams : ChainParams :=
  with_Bech32HRPSegwit "bm" (with_ScriptHashAddrID [85] (with_PubKeyHashAddrID [25]
    (with_Net MainnetMagic BitcoinMainNetParams))).
Definition TestNetParams : ChainParams :=
  with_Bech32HRPSegwit "bt" (with_ScriptHashAddrID [196] (with_PubKeyHashAddrID [111]
    (with_Net TestnetMagic BitcoinTestNet3Params))).
Definition selectParams (chain : string) : ChainParams :=
  if String.eqb chain "test" then TestNetParams else MainNetParams.
Definition GetChainParams (chain : string) : sgo registry ChainParams :=
  registering MainNetParams [MainNetParams; TestNetParams] (selectParams chain).
End params.
End bellcoin.

Module btg.
Definition MainnetMagic : Z := 0x446d47e1.
Definition TestnetMagic : Z := 0x456e48e2.
Section params.
Context {C : ChainCfg}.
Definition MainNetParams : ChainParams :=
  with_Bech32HRPSegwit "btg" (with_ScriptHashAddrID [23] (with_PubKeyHashAddrID [38]
    (with_Net MainnetMagic BitcoinMainNetParams))).
Definition TestNetParams : ChainParams := with_Bech32HRPSegwit "tbtg" (with_Net TestnetMagic BitcoinTestNet3Params).
Definition selectParams (chain : string) : ChainParams :=
  if String.eqb chain "test" then TestNetParams else if String.eqb chain "regtest" then BitcoinRegressionNetParams else MainNetParams.
Definition GetChainParams (chain : string) : sgo registry ChainParams :=
  registering MainNetParams [MainNetParams; TestNetParams] (selectParams chain).
End params.
End btg.

Module dash.
Definition MainnetMagic : Z := 0xbd6b0cbf.
Definition TestnetMagic : Z := 0xffcae2ce.
Definition RegtestMagic : Z := 0xdcb7c1fc.
Section params.
Context {C : ChainCfg}.
Definition MainNetParams : ChainParams :=
  with_ScriptHashAddrID [16] (with_PubKeyHashAddrID [76] (with_Net MainnetMagic BitcoinMainNetParams)).
Definition TestNetParams : ChainParams :=
  with_ScriptHashAddrID [19] (with_PubKeyHashAddrID [140] (with_Net TestnetMagic BitcoinTestNet3Params)).
Definition RegtestParams : ChainParams :=
  with_ScriptHashAddrID [19] (with_PubKeyHashAddrID [140] (with_Net RegtestMagic BitcoinRegressionNetParams)).
Definition selectParams (chain : string) : ChainParams :=
  if String.eqb chain "test" then TestNetParams else if String.eqb chain "regtest" then RegtestParams else MainNetParams.
Definition GetChainParams (chain : string) : sgo registry ChainParams :=
  registering MainNetParams [MainNetParams; TestNetParams; RegtestParams] (selectParams chain).
End params.
End dash.

Module digibyte.
Definition MainnetMagic : Z := 0xdab6c3fa.
Section params.
Context {C : ChainCfg}.
Definition MainNetParams : ChainParams :=
  with_Bech32HRPSegwit "dgb" (with_ScriptHashAddrID [63] (with_PubKeyHashAddrID [30]
    (with_Net MainnetMagic BitcoinMainNetParams))).
Definition selectParams (chain : string) : ChainParams := MainNetParams.
Definition GetChainParams (chain : string) : sgo registry ChainParams :=
  registering MainNetParams [MainNetParams] (selectParams chain).
End params.
End digibyte.

Module dogecoin.
Definition MainnetMagic : Z := 0xc0c0c0c0.
Section params.
Context {C : ChainCfg}.
Definition MainNetParams : ChainParams :=
  with_ScriptHashAddrID [22] (with_PubKeyHashAddrID [30] (with_Net MainnetMagic BitcoinMainNetParams)).
Definition selectParams (chain : string) : ChainParams := MainNetParams.
Definition GetChainParams (chain : string) : sgo registry ChainParams :=
  registering MainNetParams [MainNetParams] (selectParams chain).
End params.
End dogecoin.

Module flo.
Definition MainnetMagic : Z := 0xf1a5c0fd.
Definition TestnetMagic : Z := 0xf25ac0fd.
Definition RegtestMagic : Z := 0xdab5bffa.
Section params.
Context {C : ChainCfg}.
Definition MainNetParams : ChainParams :=
  with_Bech32HRPSegwit "flo" (with_ScriptHashAddrID [94] (with_PubKeyHashAddrID [35]
    (with_Net MainnetMagic BitcoinMainNetParams))).
Definition TestNetParams : ChainParams :=
  with_Bech32HRPSegwit "tflo" (with_ScriptHashAddrID [198] (with_PubKeyHashAddrID [115]
    (with_Net TestnetMagic BitcoinTestNet3Params))).
Definition selectParams (chain : string) : ChainParams :=
  if String.eqb chain "test" then TestNetParams else MainNetParams.
Definition GetChainParams (chain : string) : sgo registry ChainParams :=
  registering MainNetParams [MainNetParams; TestNetParams] (selectParams chain).
End params.
End flo.

Module fujicoin.
Definition MainnetMagic : Z := 0x696a7566.
Definition TestnetMagic : Z := 0x66756a69.
Definition RegtestMagic : Z := 0x66756a69.
Section params.
Context {C : ChainCfg}.
Definition MainNetParams : ChainParams :=
  with_Bech32HRPSegwit "fc" (with_ScriptHashAddrID [16] (with_PubKeyHashAddrID [36]
    (with_Net MainnetMagic BitcoinMainNetParams))).
Definition TestNetParams : ChainParams :=
  with_Bech32HRPSegwit "tfc" (with_ScriptHashAddrID [196] (with_PubKeyHashAddrID [74]
    (with_Net TestnetMagic BitcoinTestNet3Params))).
Definition selectParams (chain : string) : ChainParams :=
  if String.eqb chain "test" then TestNetParams else MainNetParams.
Definition GetChainParams (chain : string) : sgo registry ChainParams :=
  registering MainNetParams [MainNetParams; TestNetParams] (selectParams chain).
End params.
End fujicoin.

Module gamecredits.
Definition MainnetMagic : Z := 0xdbb6c0fb.
Definition TestnetMagic : Z := 0x0709110b.
Definition RegtestMagic : Z := 0xdab5bffa.
Section params.
Context {C : ChainCfg}.
Definition MainNetParams : ChainParams :=
  with_Bech32HRPSegwit "game" (with_ScriptHashAddrID [62] (with_PubKeyHashAddrID [38]
    (with_Net MainnetMagic BitcoinMainNetParams))).
Definition TestNetParams : ChainParams :=
  with_Bech32HRPSegwit "tgame" (with_ScriptHashAddrID [58] (with_PubKeyHashAddrID [111]
    (with_Net TestnetMagic BitcoinTestNet3Params))).
Definition selectParams (chain : string) : ChainParams :=
  if String.eqb chain "test" then TestNetParams else MainNetParams.
Definition GetChainParams (chain : string) : sgo registry ChainParams :=
  registering MainNetParams [MainNetParams; TestNetParams] (selectParams chain).
End params.
End gamecredits.

Module grs.
Definition MainnetMagic : Z := 0xd4b4bef9.
Definition TestnetMagic : Z := 0x0709110b.
Section params.
Context {C : ChainCfg}.
Definition MainNetParams : ChainParams :=
  with_Base58CksumHasher Groestl512D (with_Bech32HRPSegwit "grs" (with_ScriptHashAddrID [5]
    (with_PubKeyHashAddrID [36] (with_Net MainnetMagic BitcoinMainNetParams)))).
Definition TestNetParams : ChainParams :=
  with_Base58CksumHasher Groestl512D (with_Bech32HRPSegwit "tgrs" (with_ScriptHashAddrID [196]
    (with_PubKeyHashAddrID [111] (with_Net TestnetMagic BitcoinTestNet3Params)))).
Definition selectParams (chain : string) : ChainParams :=
  if String.eqb chain "test" then TestNetParams else MainNetParams.
Definition GetChainParams (chain : string) : sgo registry ChainParams :=
  registering MainNetParams [MainNetParams; TestNetParams] (selectParams chain).
End params.
End grs.

Module koto.
Definition MainnetMagic : Z := 0x6f746f4b.
Definition TestnetMagic : Z := 0x6f6b6f54.
Definition RegtestMagic : Z := 0x6f6b6552.
Section params.
Context {C : ChainCfg}.
Definition MainNetParams : ChainParams :=
  with_ScriptHashAddrID [0x18; 0x3B] (with_PubKeyHashAddrID [0x18; 0x36] (with_AddressMagicLen 2
    (with_Net MainnetMagic BitcoinMainNetParams))).
Definition TestNetParams : ChainParams :=
  with_ScriptHashAddrID [0x18; 0x39] (with_PubKeyHashAddrID [0x18; 0xA4] (with_AddressMagicLen 2
    (with_Net TestnetMagic BitcoinTestNet3Params))).
Definition RegtestParams : ChainParams := with_Net RegtestMagic BitcoinRegressionNetParams.
Definition selectParams (chain : string) : ChainParams :=
  if String.eqb chain "test" then TestNetParams else if String.eqb chain "regtest" then RegtestParams else MainNetParams.
Definition GetChainParams (chain : string) : sgo registry ChainParams :=
  registering MainNetParams [MainNetParams; TestNetParams; RegtestParams] (selectParams chain).
End params.
End koto.

Module liquid.
Definition MainnetMagic : Z := 0xdab5bffa.
Section params.
Context {C : ChainCfg}.
Definition MainNetParams : ChainParams :=
  with_ScriptHashAddrID [39] (with_PubKeyHashAddrID [57] (with_Net MainnetMagic BitcoinMainNetParams)).
Definition selectParams (chain : string) : ChainParams := MainNetParams.
Definition GetChainParams (chain : string) : sgo registry ChainParams :=
  registering MainNetParams [MainNetParams] (selectParams chain).
End params.
End liquid.

Module litecoin.
Definition MainnetMagic : Z := 0xdbb6c0fb.
Definition TestnetMagic : Z := 0xf1c8d2fd.
Definition RegtestMagic : Z := 0xdab5bffa.
Section params.
Context {C : ChainCfg}.
Definition MainNetParams : ChainParams :=
  with_Bech32HRPSegwit "ltc" (with_ScriptHashAddrID [50] (with_PubKeyHashAddrID [48]
    (with_Net MainnetMagic BitcoinMainNetParams))).
Definition TestNetParams : ChainParams :=
  with_Bech32HRPSegwit "tltc" (with_ScriptHashAddrID [58] (with_PubKeyHashAddrID [111]
    (with_Net TestnetMagic BitcoinTestNet3Params))).
Definition selectParams (chain : string) : ChainParams :=
  if String.eqb chain "test" then TestNetParams else MainNetParams.
(** The networks of Bitcoin are registered too: addresses of both kinds are in use. *)
Definition GetChainParams (chain : string) : sgo registry ChainParams := fun r =>
  (do! (if IsRegistered BitcoinMainNetParams r then sret tt else RegisterBitcoinParams) in
   registering MainNetParams [MainNetParams; TestNetParams] (selectParams chain)) r.
End params.
End litecoin.

Module monacoin.
Definition MainnetMagic : Z := 0xdbb6c0fb.
Definition TestnetMagic : Z := 0xf1c8d2fd.
Section params.
Context {C : ChainCfg}.
Definition MainNetParams : ChainParams :=
  with_Bech32HRPSegwit "mona" (with_ScriptHashAddrID [55] (with_PubKeyHashAddrID [50]
    (with_Net MainnetMagic BitcoinMainNetParams))).
Definition TestNetParams : ChainParams :=
  with_Bech32HRPSegwit "tmona" (with_ScriptHashAddrID [117] (with_PubKeyHashAddrID [111]
    (with_Net TestnetMagic BitcoinTestNet3Params))).
Definition selectParams (chain : string) : ChainParams :=
  if String.eqb chain "test" then TestNetParams else MainNetParams.
Definition GetChainParams (chain : string) : sgo registry ChainParams :=
  registering MainNetParams [MainNetParams; TestNetParams] (selectParams chain).
End params.
End monacoin.

Module monetaryunit.
Definition MainnetMagic : Z := 0x91c4fdea.
Definition TestnetMagic : Z := 0x477665bd.
Section params.
Context {C : ChainCfg}.
Definition MainNetParams : ChainParams :=
  with_PrivateKeyID [126] (with_ScriptHashAddrID [76] (with_PubKeyHashAddrID [16]
    (with_Net MainnetMagic BitcoinMainNetParams))).
Definition TestNetParams : ChainParams :=
  with_PrivateKeyID [239] (with_ScriptHashAddrID [19] (with_PubKeyHashAddrID [139]
    (with_Net TestnetMagic BitcoinTestNet3Params))).
Definition selectParams (chain : string) : ChainParams :=
  if String.eqb chain "test" then TestNetParams else MainNetParams.
Definition GetChainParams (chain : string) : sgo registry ChainParams :=
  registering MainNetParams [MainNetParams; TestNetParams] (selectParams chain).
End params.
End monetaryunit.

Module myriad.
Definition MainnetMagic : Z := 0xee7645af.
Section params.
Context {C : ChainCfg}.
Definition MainNetParams : ChainParams :=
  with_HDCoinType 90 (with_PrivateKeyID [178] (with_ScriptHashAddrID [9] (with_PubKeyHashAddrID [50]
    (with_Bech32HRPSegwit "my" (with_Net MainnetMagic BitcoinMainNetParams))))).
Definition selectParams (chain : string) : ChainParams := MainNetParams.
Definition GetChainParams (chain : string) : sgo registry ChainParams :=
  registering MainNetParams [MainNetParams] (selectParams chain).
End params.
End myriad.

Module namecoin.
Definition MainnetMagic : Z := 0xfeb4bef9.
Section params.
Context {C : ChainCfg}.
Definition MainNetParams : ChainParams :=
  with_ScriptHashAddrID [13] (with_PubKeyHashAddrID [52] (with_Net MainnetMagic BitcoinMainNetParams)).
Definition selectParams (chain : string) : ChainParams := MainNetParams.
Definition GetChainParams (chain : string) : sgo registry ChainParams :=
  registering MainNetParams [MainNetParams] (selectParams chain).
End params.
End namecoin.

Module pivx.
Definition MainnetMagic : Z := 0xe9fdc490.
Definition TestnetMagic : Z := 0xba657645.
Section params.
Context {C : ChainCfg}.
Definition MainNetParams : ChainParams :=
  with_PrivateKeyID [212] (with_ScriptHashAddrID [13] (with_PubKeyHashAddrID [30]
    (with_Net MainnetMagic BitcoinMainNetParams))).
Definition TestNetParams : ChainParams :=
  with_PrivateKeyID [239] (with_ScriptHashAddrID [19] (with_PubKeyHashAddrID [139]
    (with_Net TestnetMagic BitcoinTestNet3Params))).
Definition selectParams (chain : string) : ChainParams :=
  if String.eqb chain "test" then TestNetParams else MainNetParams.
Definition GetChainParams (chain : string) : sgo registry ChainParams :=
  registering MainNetParams [MainNetParams; TestNetParams] (selectParams chain).
End params.
End pivx.

Module polis.
Definition MainnetMagic : Z := 0xbd6b0cbf.
Definition TestnetMagic : Z := 0xffcae2ce.
Definition RegtestMagic : Z := 0xdcb7c1fc.
Section params.
Context {C : ChainCfg}.
Definition MainNetParams : ChainParams :=
  with_ScriptHashAddrID [56] (with_PubKeyHashAddrID [55] (with_Net MainnetMagic BitcoinMainNetParams)).
Definition TestNetParams : ChainParams :=
  with_ScriptHashAddrID [19] (with_PubKeyHashAddrID [140] (with_Net TestnetMagic BitcoinTestNet3Params)).
Definition RegtestParams : ChainParams :=
  with_ScriptHashAddrID [19] (with_PubKeyHashAddrID [140] (with_Net RegtestMagic BitcoinRegressionNetParams)).
Definition selectParams (chain : string) : ChainParams :=
  if String.eqb chain "test" then TestNetParams else if String.eqb chain "regtest" then RegtestParams else MainNetParams.
Definition GetChainParams (chain : string) : sgo registry ChainParams :=
  registering MainNetParams [MainNetParams; TestNetParams; RegtestParams] (selectParams chain).
End params.
End polis.

Module qtum.
Definition MainnetMagic : Z := 0xf1cfa6d3.
Definition TestnetMagic : Z := 0x0d221506.
Section params.
Context {C : ChainCfg}.
Definition MainNetParams : ChainParams :=
  with_Bech32HRPSegwit "qc" (with_ScriptHashAddrID [50] (with_PubKeyHashAddrID [58]
    (with_Net MainnetMagic BitcoinMainNetParams))).
Definition TestNetParams : ChainParams :=
  with_Bech32HRPSegwit "tq" (with_ScriptHashAddrID [110] (with_PubKeyHashAddrID [120]
    (with_Net TestnetMagic BitcoinTestNet3Params))).
Definition selectParams (chain : string) : ChainParams :=
  if String.eqb chain "test" then TestNetParams else MainNetParams.
Definition GetChainParams (chain : string) : sgo registry ChainParams :=
  registering MainNetParams [MainNetParams; TestNetParams] (selectParams chain).
End params.
End qtum.

Module ravencoin.
Definition MainnetMagic : Z := 0x4e564152.
Definition TestnetMagic : Z := 0x544e5652.
Section params.
Context {C : ChainCfg}.
Definition MainNetParams : ChainParams :=
  with_ScriptHashAddrID [122] (with_PubKeyHashAddrID [60] (with_Net MainnetMagic BitcoinMainNetParams)).
Definition TestNetParams : ChainParams :=
  with_ScriptHashAddrID [196] (with_PubKeyHashAddrID [111] (with_Net TestnetMagic BitcoinTestNet3Params)).
Definition selectParams (chain : string) : ChainParams :=
  if String.eqb chain "test" then TestNetParams else MainNetParams.
Definition GetChainParams (chain : string) : sgo registry ChainParams :=
  registering MainNetParams [MainNetParams; TestNetParams] (selectParams chain).
End params.
End ravencoin.

Module skyr.
Definition MainnetMagic : Z := 0x52594b53.
Definition TestnetMagic : Z := 0x54534554.
Section params.
Context {C : ChainCfg}.
Definition MainNetParams : ChainParams :=
  with_PrivateKeyID [153] (with_ScriptHashAddrID [28] (with_PubKeyHashAddrID [25]
    (with_Net MainnetMagic BitcoinMainNetParams))).
Definition TestNetParams : ChainParams :=
  with_PrivateKeyID [239] (with_ScriptHashAddrID [196] (with_PubKeyHashAddrID [111]
    (with_Net TestnetMagic BitcoinTestNet3Params))).
Definition selectParams (chain : string) : ChainParams :=
  if String.eqb chain "test" then TestNetParams else MainNetParams.
Definition GetChainParams (chain : string) : sgo registry ChainParams :=
  registering MainNetParams [MainNetParams; TestNetParams] (selectParams chain).
End params.
End skyr.

Module vertcoin.
Definition MainnetMagic : Z := 0xdab5bffb.
Definition TestnetMagic : Z := 0x74726576.
Definition RegtestMagic : Z := 0xdab5bffc.
Section params.
Context {C : ChainCfg}.
Definition MainNetParams : ChainParams :=
  with_Bech32HRPSegwit "vtc" (with_ScriptHashAddrID [5] (with_PubKeyHashAddrID [71]
    (with_Net MainnetMagic BitcoinMainNetParams))).
Definition TestNetParams : ChainParams :=
  with_Bech32HRPSegwit "tvtc" (with_ScriptHashAddrID [196] (with_PubKeyHashAddrID [74]
    (with_Net TestnetMagic BitcoinTestNet3Params))).
Definition selectParams (chain : string) : ChainParams :=
  if String.eqb chain "test" then TestNetParams else MainNetParams.
Definition GetChainParams (chain : string) : sgo registry ChainParams :=
  registering MainNetParams [MainNetParams; TestNetParams] (selectParams chain).
End params.
End vertcoin.

Module viacoin.
Definition MainnetMagic : Z := 0xcbc6680f.
Definition RegtestMagic : Z := 0x377b972d.
Section params.
Context {C : ChainCfg}.
Definition MainNetParams : ChainParams :=
  with_Bech32HRPSegwit "via" (with_ScriptHashAddrID [33] (with_PubKeyHashAddrID [71]
    (with_Net MainnetMagic BitcoinMainNetParams))).
Definition RegtestParams : ChainParams :=
  with_Bech32HRPSegwit "tvia" (with_ScriptHashAddrID [196] (with_PubKeyHashAddrID [111]
    (with_Net RegtestMagic BitcoinRegressionNetParams))).
Definition selectParams (chain : string) : ChainParams :=
  if String.eqb chain "regtest" then RegtestParams else MainNetParams.
(** They are registered when the program starts. *)
Definition init : sgo registry unit := registerAll [MainNetParams; RegtestParams].
Definition GetChainParams (chain : string) : sgo registry ChainParams := sret (selectParams chain).
End params.
End viacoin.

Module vipstarcoin.
Definition MainnetMagic : Z := 0x012ce7b5.
Definition TestnetMagic : Z := 0x1a2b3c4d.
Section params.
Context {C : ChainCfg}.
Definition MainNetParams : ChainParams :=
  with_Bech32HRPSegwit "vips" (with_ScriptHashAddrID [50] (with_PubKeyHashAddrID [70]
    (with_Net MainnetMagic BitcoinMainNetParams))).
Definition TestNetParams : ChainParams :=
  with_Bech32HRPSegwit "tvips" (with_ScriptHashAddrID [110] (with_PubKeyHashAddrID [132]
    (with_Net TestnetMagic BitcoinTestNet3Params))).
Definition selectParams (chain : string) : ChainParams :=
  if String.eqb chain "test" then TestNetParams else MainNetParams.
Definition GetChainParams (chain : string) : sgo registry ChainParams :=
  registering MainNetParams [MainNetParams; TestNetParams] (selectParams chain).
End params.
End vipstarcoin.

Module zec.
Definition MainnetMagic : Z := 0x6427e924.
Definition TestnetMagic : Z := 0xbff91afa.
Definition RegtestMagic : Z := 0x5f3fe8aa.
Section params.
Context {C : ChainCfg}.
Definition MainNetParams : ChainParams :=
  with_ScriptHashAddrID [0x1C; 0xBD] (with_PubKeyHashAddrID [0x1C; 0xB8] (with_AddressMagicLen 2
    (with_Net MainnetMagic BitcoinMainNetParams))).
Definition TestNetParams : ChainParams :=
  with_ScriptHashAddrID [0x1C; 0xBA] (with_PubKeyHashAddrID [0x1D; 0x25] (with_AddressMagicLen 2
    (with_Net TestnetMagic BitcoinTestNet3Params))).
Definition RegtestParams : ChainParams := with_Net RegtestMagic BitcoinRegressionNetParams.
Definition selectParams (chain : string) : ChainParams :=
  if String.eqb chain "test" then TestNetParams else if String.eqb chain "regtest" then RegtestParams else MainNetParams.
Definition GetChainParams (chain : string) : sgo registry ChainParams :=
  registering MainNetParams [MainNetParams; TestNetParams; RegtestParams] (selectParams chain).
End params.
End zec.

Module xzc.
Definition MainnetMagic : Z := 0xe3d9fef1.
Definition TestnetMagic : Z := 0xcffcbeea.
Definition RegtestMagic : Z := 0xfabfb5da.
Section params.
Context {C : ChainCfg}.
Definition MainNetParams : ChainParams :=
  with_ScriptHashAddrID [0x07] (with_PubKeyHashAddrID [0x52] (with_AddressMagicLen 1
    (with_Net MainnetMagic BitcoinMainNetParams))).
Definition TestNetParams : ChainParams :=
  with_ScriptHashAddrID [0xb2] (with_PubKeyHashAddrID [0x41] (with_AddressMagicLen 1
    (with_Net TestnetMagic BitcoinTestNet3Params))).
Definition RegtestParams : ChainParams := with_Net RegtestMagic BitcoinRegressionNetParams.
Definition selectParams (chain : string) : ChainParams :=
  if String.eqb chain "test" then TestNetParams else if String.eqb chain "regtest" then RegtestParams else MainNetParams.
Definition GetChainParams (chain : string) : sgo registry ChainParams :=
  registering MainNetParams [MainNetParams; TestNetParams; RegtestParams] (selectParams chain).
End params.
End xzc.

Module bch.
Section params.
Context {C : ChainCfg}.
Definition MainNetParams : ChainParams := with_Net bchutil_MainnetMagic BitcoinMainNetParams.
Definition TestNetParams : ChainParams := with_Net bchutil_TestnetMagic BitcoinTestNet3Params.
Definition RegtestParams : ChainParams := with_Net bchutil_Regtestmagic BitcoinRegressionNetParams.
Definition selectParams (chain : string) : ChainParams :=
  if String.eqb chain "test" then TestNetParams else if String.eqb chain "regtest" then RegtestParams else MainNetParams.
Definition GetChainParams (chain : string) : sgo registry ChainParams :=
  registering MainNetParams [MainNetParams; TestNetParams; RegtestParams] (selectParams chain).
End params.
End bch.

Module btc.
Section params.
Context {C : ChainCfg}.
Definition selectParams (chain : string) : ChainParams :=
  if String.eqb chain "test" then BitcoinTestNet3Params
  else if String.eqb chain "regtest" then BitcoinRegressionNetParams else BitcoinMainNetParams.
Definition GetChainParams (chain : string) : sgo registry ChainParams := fun r =>
  (do! (if IsRegistered BitcoinMainNetParams r then sret tt else RegisterBitcoinParams) in sret (selectParams chain)) r.
End params.
End btc.

(** * Initialization *)

(** The fields of the configuration that only the parser uses. *)
Record ParserConfig := mkParserConfig {
  XPubMagicSegwitP2sh : Z; XPubMagicSegwitNative : Z; Slip44 : Z; AddressFormatText : string;
}.

(** The client of a coin with its parser and what [Initialize] finds out about its network. *)
Record Client := mkClient {
  cl_rpc : BitcoinRPC; cl_Parser : BitcoinParser; cl_Params : ChainParams; cl_Testnet : bool; cl_Network : string;
}.

(** [NewBitcoinParser(params, b.ChainConfig)], which the parsers of all coins embed. *)
Definition newParser (pc : ParserConfig) (b : BitcoinRPC) : BitcoinParser :=
  NewBitcoinParser (Rpc.BlockAddressesToKeep (ChainConfig b)) (XPubMagicSegwitP2sh pc) (XPubMagicSegwitNative pc) (Slip44 pc).

Section initialize.
Context {C : ChainCfg} {DM : Daemon} (pc : ParserConfig).

(** The parameters of the chain the daemon is on; [params.Net == MainnetMagic] tells the main network. *)
Definition initializeWith (ci : go ChainInfo.t) (params : string -> sgo registry ChainParams) (MainnetMagic : Z)
    (b : BitcoinRPC) : sgo registry Client :=
  let! ci := slift ci in
  let! params := params (ChainInfo.Chain ci) in
  let main := Net params =? MainnetMagic in
  sret (mkClient b (newParser pc b) params (negb main) (if main then "livenet" else "testnet")).

Definition btc_Initialize (b : BitcoinRPC) : sgo registry Client :=
  let b := set_Supports false (SupportsEstimateSmartFee (ChainConfig b)) b in
  initializeWith (GetChainInfo b) btc.GetChainParams wire_MainNet b.

(** The format of addresses is checked behind the registration. *)
Definition bch_Initialize (b : BitcoinRPC) : sgo registry Client :=
  let! ci := slift (GetChainInfo b) in
  let! params := bch.GetChainParams (ChainInfo.Chain ci) in
  let! p := slift (NewBCashParser (AddressFormatText pc) (Rpc.BlockAddressesToKeep (ChainConfig b)) (XPubMagicSegwitP2sh pc)
                     (XPubMagicSegwitNative pc) (Slip44 pc)) in
  let main := Net params =? bchutil_MainnetMagic in
  sret (mkClient b (bch_bitcoin p) params (negb main) (if main then "livenet" else "testnet")).

(** DigiByte has a main network only. *)
Definition digibyte_Initialize (b : BitcoinRPC) : sgo registry Client :=
  let! ci := slift (GetChainInfo b) in
  let! params := digibyte.GetChainParams (ChainInfo.Chain ci) in
  sret (mkClient b (newParser pc b) params false "livenet").

Definition bellcoin_Initialize (b : BitcoinRPC) : sgo registry Client :=
  initializeWith (GetChainInfo b) bellcoin.GetChainParams bellcoin.MainnetMagic b.
Definition btg_Initialize (b : BitcoinRPC) : sgo registry Client :=
  initializeWith (GetChainInfo b) btg.GetChainParams btg.MainnetMagic b.
Definition dash_Initialize (b : BitcoinRPC) : sgo registry Client :=
  initializeWith (GetChainInfo b) dash.GetChainParams dash.MainnetMagic b.
Definition dogecoin_Initialize (b : BitcoinRPC) : sgo registry Client :=
  initializeWith (GetChainInfo b) dogecoin.GetChainParams dogecoin.MainnetMagic b.
Definition flo_Initialize (b : BitcoinRPC) : sgo registry Client :=
  initializeWith (GetChainInfo b) flo.GetChainParams flo.MainnetMagic b.
Definition fujicoin_Initialize (b : BitcoinRPC) : sgo registry Client :=
  initializeWith (GetChainInfo b) fujicoin.GetChainParams fujicoin.MainnetMagic b.
Definition gamecredits_Initialize (b : BitcoinRPC) : sgo registry Client :=
  initializeWith (GetChainInfo b) gamecredits.GetChainParams gamecredits.MainnetMagic b.
Definition grs_Initialize (b : BitcoinRPC) : sgo registry Client :=
  initializeWith (GetChainInfo b) grs.GetChainParams grs.MainnetMagic b.
Definition koto_Initialize (b : BitcoinRPC) : sgo registry Client :=
  initializeWith (GetChainInfo b) koto.GetChainParams koto.MainnetMagic b.
Definition liquid_Initialize (b : BitcoinRPC) : sgo registry Client :=
  initializeWith (GetChainInfo b) liquid.GetChainParams liquid.MainnetMagic b.
Definition litecoin_Initialize (b : BitcoinRPC) : sgo registry Client :=
  initializeWith (GetChainInfo b) litecoin.GetChainParams litecoin.MainnetMagic b.
Definition monacoin_Initialize (b : BitcoinRPC) : sgo registry Client :=
  initializeWith (GetChainInfo b) monacoin.GetChainParams monacoin.MainnetMagic b.
Definition monetaryunit_Initialize (b : BitcoinRPC) : sgo registry Client :=
  initializeWith (GetChainInfo b) monetaryunit.GetChainParams monetaryunit.MainnetMagic b.
Definition myriad_Initialize (b : BitcoinRPC) : sgo registry Client :=
  initializeWith (GetChainInfo b) myriad.GetChainParams myriad.MainnetMagic b.
Definition namecoin_Initialize (b : BitcoinRPC) : sgo registry Client :=
  initializeWith (GetChainInfo b) namecoin.GetChainParams namecoin.MainnetMagic b.
Definition pivx_Initialize (b : BitcoinRPC) : sgo registry Client :=
  initializeWith (pivx_GetChainInfo (mkPivXRPC b false EmptyString)) pivx.GetChainParams pivx.MainnetMagic b.
Definition polis_Initialize (b : BitcoinRPC) : sgo registry Client :=
  initializeWith (GetChainInfo b) polis.GetChainParams polis.MainnetMagic b.
Definition qtum_Initialize (b : BitcoinRPC) : sgo registry Client :=
  initializeWith (GetChainInfo b) qtum.GetChainParams qtum.MainnetMagic b.
Definition ravencoin_Initialize (b : BitcoinRPC) : sgo registry Client :=
  initializeWith (GetChainInfo b) ravencoin.GetChainParams ravencoin.MainnetMagic b.
Definition skyrcoin_Initialize (b : BitcoinRPC) : sgo registry Client :=
  initializeWith (skyr_GetChainInfo (mkSkyrRPC b false EmptyString)) skyr.GetChainParams skyr.MainnetMagic b.
Definition vertcoin_Initialize (b : BitcoinRPC) : sgo registry Client :=
  initializeWith (GetChainInfo b) vertcoin.GetChainParams vertcoin.MainnetMagic b.
Definition viacoin_Initialize (b : BitcoinRPC) : sgo registry Client :=
  initializeWith (GetChainInfo b) viacoin.GetChainParams viacoin.MainnetMagic b.
Definition vipstarcoin_Initialize (b : BitcoinRPC) : sgo registry Client :=
  initializeWith (GetChainInfo b) vipstarcoin.GetChainParams vipstarcoin.MainnetMagic b.
Definition zec_Initialize (b : BitcoinRPC) : sgo registry Client :=
  initializeWith (GetChainInfo b) zec.GetChainParams zec.MainnetMagic b.
Definition xzc_Initialize (b : BitcoinRPC) : sgo registry Client :=
  initializeWith (GetChainInfo b) xzc.GetChainParams xzc.MainnetMagic b.

(** [b.GetChainInfo], which Skyr and PIVX override. *)
Definition coin_GetChainInfo (c : Coin) (b : BitcoinRPC) : go ChainInfo.t :=
  match c with
  | SKYR => skyr_GetChainInfo (mkSkyrRPC b false EmptyString)
  | PIVX => pivx_GetChainInfo (mkPivXRPC b false EmptyString)
  | _ => GetChainInfo b
  end.

Definition Initialize (c : Coin) (b : BitcoinRPC) : sgo registry Client :=
  match c with
  | Bitcoin => btc_Initialize b
  | Bcash => bch_Initialize b
  | DigiByte => digibyte_Initialize b
  | Bellcoin => bellcoin_Initialize b
  | Bgold => btg_Initialize b
  | Dash => dash_Initialize b
  | Dogecoin => dogecoin_Initialize b
  | Flo => flo_Initialize b
  | Fujicoin => fujicoin_Initialize b
  | GameCredits => gamecredits_Initialize b
  | Groestlcoin => grs_Initialize b
  | Koto => koto_Initialize b
  | Liquid => liquid_Initialize b
  | Litecoin => litecoin_Initialize b
  | Monacoin => monacoin_Initialize b
  | MonetaryUnit => monetaryunit_Initialize b
  | Myriad => myriad_Initialize b
  | Namecoin => namecoin_Initialize b
  | PIVX => pivx_Initialize b
  | Polis => polis_Initialize b
  | Qtum => qtum_Initialize b
  | Ravencoin => ravencoin_Initialize b
  | SKYR => skyrcoin_Initialize b
  | Vertcoin => vertcoin_Initialize b
  | Viacoin => viacoin_Initialize b
  | VIPSTARCOIN => vipstarcoin_Initialize b
  | Zcash => zec_Initialize b
  | Zcoin => xzc_Initialize b
  end.
End initialize.

Section packages.
Context {C : ChainCfg}.

(** The parameters a package selects, and its [GetChainParams]. *)
Definition selectParams (c : Coin) : string -> ChainParams :=
  match c with
  | Bitcoin => btc.selectParams | Bcash => bch.selectParams | DigiByte => digibyte.selectParams
  | Bellcoin => bellcoin.selectParams
  | Bgold => btg.selectParams
  | Dash => dash.selectParams
  | Dogecoin => dogecoin.selectParams
  | Flo => flo.selectParams
  | Fujicoin => fujicoin.selectParams
  | GameCredits => gamecredits.selectParams
  | Groestlcoin => grs.selectParams
  | Koto => koto.selectParams
  | Liquid => liquid.selectParams
  | Litecoin => litecoin.selectParams
  | Monacoin => monacoin.selectParams
  | MonetaryUnit => monetaryunit.selectParams
  | Myriad => myriad.selectParams
  | Namecoin => namecoin.selectParams
  | PIVX => pivx.selectParams
  | Polis => polis.selectParams
  | Qtum => qtum.selectParams
  | Ravencoin => ravencoin.selectParams
  | SKYR => skyr.selectParams
  | Vertcoin => vertcoin.selectParams
  | Viacoin => viacoin.selectParams
  | VIPSTARCOIN => vipstarcoin.selectParams
  | Zcash => zec.selectParams
  | Zcoin => xzc.selectParams
  end.

Definition GetChainParams (c : Coin) : string -> sgo registry ChainParams :=
  match c with
  | Bitcoin => btc.GetChainParams | Bcash => bch.GetChainParams | DigiByte => digibyte.GetChainParams
  | Bellcoin => bellcoin.GetChainParams
  | Bgold => btg.GetChainParams
  | Dash => dash.GetChainParams
  | Dogecoin => dogecoin.GetChainParams
  | Flo => flo.GetChainParams
  | Fujicoin => fujicoin.GetChainParams
  | GameCredits => gamecredits.GetChainParams
  | Groestlcoin => grs.GetChainParams
  | Koto => koto.GetChainParams
  | Liquid => liquid.GetChainParams
  | Litecoin => litecoin.GetChainParams
  | Monacoin => monacoin.GetChainParams
  | MonetaryUnit => monetaryunit.GetChainParams
  | Myriad => myriad.GetChainParams
  | Namecoin => namecoin.GetChainParams
  | PIVX => pivx.GetChainParams
  | Polis => polis.GetChainParams
  | Qtum => qtum.GetChainParams
  | Ravencoin => ravencoin.GetChainParams
  | SKYR => skyr.GetChainParams
  | Vertcoin => vertcoin.GetChainParams
  | Viacoin => viacoin.GetChainParams
  | VIPSTARCOIN => vipstarcoin.GetChainParams
  | Zcash => zec.GetChainParams
  | Zcoin => xzc.GetChainParams
  end.

(** The networks a package registers. *)
Definition packageNets (c : Coin) : list ChainParams :=
  match c with
  | Bitcoin => [BitcoinMainNetParams; BitcoinTestNet3Params; BitcoinRegressionNetParams]
  | Bcash => [bch.MainNetParams; bch.TestNetParams; bch.RegtestParams]
  | DigiByte => [digibyte.MainNetParams]
  | Bellcoin => [bellcoin.MainNetParams; bellcoin.TestNetParams]
  | Bgold => [btg.MainNetParams; btg.TestNetParams]
  | Dash => [dash.MainNetParams; dash.TestNetParams; dash.RegtestParams]
  | Dogecoin => [dogecoin.MainNetParams]
  | Flo => [flo.MainNetParams; flo.TestNetParams]
  | Fujicoin => [fujicoin.MainNetParams; fujicoin.TestNetParams]
  | GameCredits => [gamecredits.MainNetParams; gamecredits.TestNetParams]
  | Groestlcoin => [grs.MainNetParams; grs.TestNetParams]
  | Koto => [koto.MainNetParams; koto.TestNetParams; koto.RegtestParams]
  | Liquid => [liquid.MainNetParams]
  | Litecoin => [litecoin.MainNetParams; litecoin.TestNetParams]
  | Monacoin => [monacoin.MainNetParams; monacoin.TestNetParams]
  | MonetaryUnit => [monetaryunit.MainNetParams; monetaryunit.TestNetParams]
  | Myriad => [myriad.MainNetParams]
  | Namecoin => [namecoin.MainNetParams]
  | PIVX => [pivx.MainNetParams; pivx.TestNetParams]
  | Polis => [polis.MainNetParams; polis.TestNetParams; polis.RegtestParams]
  | Qtum => [qtum.MainNetParams; qtum.TestNetParams]
  | Ravencoin => [ravencoin.MainNetParams; ravencoin.TestNetParams]
  | SKYR => [skyr.MainNetParams; skyr.TestNetParams]
  | Vertcoin => [vertcoin.MainNetParams; vertcoin.TestNetParams]
  | Viacoin => [viacoin.MainNetParams; viacoin.RegtestParams]
  | VIPSTARCOIN => [vipstarcoin.MainNetParams; vipstarcoin.TestNetParams]
  | Zcash => [zec.MainNetParams; zec.TestNetParams; zec.RegtestParams]
  | Zcoin => [xzc.MainNetParams; xzc.TestNetParams; xzc.RegtestParams]
  end.
End packages.

(** * Facts about networks *)

Section networks.
Context {C : ChainCfg} {CL : ChainCfgLaws C}.

(** Exactly the networks with a number of the list are registered. *)
Definition registered (ns : list Z) (r : registry) : Prop := forall q, IsRegistered q r = bool_decide (Net q ∈ ns).

Lemma registered_empty : registered [] unregistered.
Proof. intros q. rewrite IsRegistered_empty. by rewrite bool_decide_false by apply not_elem_of_nil. Qed.

Lemma orb_decide (P Q : Prop) `{Decision P, Decision Q} : bool_decide P || bool_decide Q = bool_decide (P \/ Q).
Proof. repeat case_bool_decide; tauto. Qed.

Lemma Zeqb_decide (a b : Z) : (a =? b) = bool_decide (a = b).
Proof. destruct (Z.eqb_spec a b); symmetry; [by apply bool_decide_true|by apply bool_decide_false]. Qed.

Lemma registered_equiv ns ns' r : (forall n, n ∈ ns <-> n ∈ ns') -> registered ns r -> registered ns' r.
Proof. intros H Hr q. rewrite Hr. by apply bool_decide_ext. Qed.

Lemma registerAll_new ps : forall ns r, registered ns r -> NoDup (map Net ps) -> (forall p, p ∈ ps -> Net p ∉ ns) ->
  exists r', registerAll ps r = (r', Ret tt) /\ registered (map Net ps ++ ns) r'.
Proof.
  induction ps as [|p ps IH]; intros ns r Hr Hnd Hnew; [by exists r|].
  cbn [map] in Hnd. apply NoDup_cons in Hnd as [Hp Hnd].
  destruct (Register_new p r) as (r1 & E & H1); [rewrite Hr; apply bool_decide_false, Hnew; left|].
  destruct (IH (Net p :: ns) r1) as (r2 & E2 & H2).
  - intros q. rewrite H1, Hr, Zeqb_decide, orb_decide. by apply bool_decide_ext; rewrite elem_of_cons.
  - done.
  - intros q Hq [He|Hin]%elem_of_cons; [|by eapply Hnew; [right|]].
    apply Hp. rewrite <- He. by apply list_elem_of_fmap_2.
  - exists r2. split; [cbn [registerAll]; by rewrite E|]. eapply registered_equiv; [|exact H2].
    intros n. cbn [map]. set_solver.
Qed.

(** The first call registers the networks, the next ones find them. *)
Lemma registering_new main nets sel ns r : registered ns r -> main ∈ nets -> NoDup (map Net nets) ->
  (forall p, p ∈ nets -> Net p ∉ ns) ->
  exists r', registering main nets sel r = (r', Ret sel) /\ registered (map Net nets ++ ns) r' /\
    forall sel', registering main nets sel' r' = (r', Ret sel').
Proof.
  intros Hr Hm Hnd Hnew. destruct (registerAll_new nets ns r) as (r' & E & Hr'); [done..|]. exists r'.
  unfold registering, sbind. rewrite Hr, bool_decide_false by by apply Hnew. rewrite E. split; [done|]. split; [done|].
  intros sel'. rewrite Hr', bool_decide_true; [done|]. apply elem_of_app. left. by apply list_elem_of_fmap_2.
Qed.

Lemma registering_known main nets sel ns r : registered ns r -> Net main ∈ ns -> registering main nets sel r = (r, Ret sel).
Proof. intros Hr Hm. unfold registering, sbind. by rewrite Hr, bool_decide_true. Qed.

(** The registry of the running program: the package [viacoin] has registered its networks. *)
Definition started : registry := (viacoin.init unregistered).1.

Definition viacoinNets : list Z := [viacoin.MainnetMagic; viacoin.RegtestMagic].

Lemma started_nets : viacoin.init unregistered = (started, Ret tt) /\ registered viacoinNets started.
Proof.
  destruct (registerAll_new [viacoin.MainNetParams; viacoin.RegtestParams] [] unregistered) as (r & E & Hr).
  - apply registered_empty.
  - by apply (bool_decide_unpack _).
  - intros p _. apply not_elem_of_nil.
  - assert (started = r) as -> by (unfold started, viacoin.init; by rewrite E). unfold viacoin.init. rewrite E. split; done.
Qed.

Lemma bitcoinNets_new r ns : registered ns r -> (forall n, n ∈ bitcoinNets -> n ∉ ns) ->
  exists r', RegisterBitcoinParams r = (r', Ret tt) /\ registered (bitcoinNets ++ ns) r'.
Proof.
  intros Hr Hn. destruct (RegisterBitcoin_new r) as (r' & E & H).
  - intros p Hp. rewrite Hr. by apply bool_decide_false, Hn.
  - exists r'. split; [done|]. intros q. rewrite H, Hr, orb_decide. by apply bool_decide_ext; rewrite elem_of_app.
Qed.

(** All the numbers of the networks are known. *)
Lemma Net_with n p : Net (with_Net n p) = n.
Proof. done. Qed.

Definition netNumbers (c : Coin) : list Z := map Net (packageNets c).
End networks.

(** The chains of a daemon that the package of a coin knows beside the main network. *)
Definition testnets (c : Coin) : list string :=
  match c with
  | Bitcoin | Bcash | Bgold | Dash | Koto | Polis | Zcash | Zcoin => ["test"; "regtest"]
  | Viacoin => ["regtest"]
  | DigiByte | Dogecoin | Liquid | Myriad | Namecoin => []
  | _ => ["test"]
  end%string.

Section selected.
Context {C : ChainCfg} {CL : ChainCfgLaws C}.

(** The number of the main network, with which [Initialize] compares. *)
Definition mainMagic (c : Coin) : Z := Net (selectParams c "main").

Lemma packageNets_new c : c <> Bitcoin -> c <> Viacoin ->
  NoDup (netNumbers c) /\ forall n, n ∈ netNumbers c -> n ∉ viacoinNets /\ (c = Litecoin -> n ∉ bitcoinNets).
Proof.
  intros Hb Hv. unfold netNumbers. destruct c; try done; cbn [packageNets map];
    try (split; [by apply (bool_decide_unpack _)|]; intros n Hn; revert n Hn; apply Forall_forall;
         by apply (bool_decide_unpack _)).
  destruct bchutil_magics as (E1 & E2 & E3). cbn. rewrite E1, E2, E3. split; [by apply (bool_decide_unpack _)|].
  intros n Hn; revert n Hn; apply Forall_forall. by apply (bool_decide_unpack _).
Qed.

(** [GetChainParams] of a package that registers its networks when it is called. *)
Lemma packageNets_registering c chain : c <> Bitcoin -> c <> Viacoin -> c <> Litecoin ->
  exists main, main ∈ packageNets c /\ GetChainParams c chain = registering main (packageNets c) (selectParams c chain).
Proof. destruct c; try done; intros _ _ _; eexists; (split; [|reflexivity]); cbn; left. Qed.

Lemma GetChainParams_started c chain : exists r,
  GetChainParams c chain started = (r, Ret (selectParams c chain)) /\
  (forall p, p ∈ packageNets c -> IsRegistered p r = true) /\
  forall chain', GetChainParams c chain' r = (r, Ret (selectParams c chain')).
Proof.
  destruct started_nets as [_ Hs]. destruct (decide (c = Viacoin)) as [->|Hv]; [|destruct (decide (c = Bitcoin)) as [->|Hb]].
  - exists started. split_and!; [done| |done]. intros p Hp. rewrite Hs. apply bool_decide_true. cbn in Hp.
    unfold viacoinNets. revert p Hp. apply Forall_forall. rewrite !Forall_cons, Forall_nil. by apply (bool_decide_unpack _).
  - destruct (bitcoinNets_new started viacoinNets) as (r & E & Hr); [done|apply Forall_forall; by apply (bool_decide_unpack _)|].
    exists r. assert (forall p, p ∈ packageNets Bitcoin -> IsRegistered p r = true) as Hall.
    { intros p Hp. rewrite Hr. apply bool_decide_true. cbn in Hp. revert p Hp. apply Forall_forall.
      rewrite !Forall_cons, Net_BitcoinMain, Net_BitcoinTest, Net_BitcoinRegtest, Forall_nil. by apply (bool_decide_unpack _). }
    cbn [GetChainParams selectParams]. unfold btc.GetChainParams, sbind. rewrite Hs, Net_BitcoinMain.
    rewrite bool_decide_false by by apply (bool_decide_unpack _). rewrite E. split; [done|]. split; [done|].
    intros chain'. rewrite Hall; [done|left].
  - destruct (packageNets_new c Hb Hv) as [Hnd Hnew]. destruct (decide (c = Litecoin)) as [->|Hl].
    + cbn [GetChainParams selectParams]. unfold litecoin.GetChainParams.
      destruct (bitcoinNets_new started viacoinNets) as (r & E & Hr); [done|apply Forall_forall; by apply (bool_decide_unpack _)|].
      destruct (registering_new litecoin.MainNetParams (packageNets Litecoin) (litecoin.selectParams chain) _ r Hr) as (r' & E' & Hr' & Hsame);
        [left|done|intros p Hp [H|H]%elem_of_app; (edestruct Hnew as [Hn1 Hn2]; [by apply list_elem_of_fmap_2|]); [by apply Hn2|by apply Hn1]|].
      exists r'. unfold sbind. rewrite Hs, Net_BitcoinMain. rewrite bool_decide_false by by apply (bool_decide_unpack _).
      rewrite E. split; [exact E'|]. split.
      * intros p Hp. rewrite Hr'. apply bool_decide_true, elem_of_app. left. by apply list_elem_of_fmap_2.
      * intros chain'. rewrite Hr', Net_BitcoinMain, bool_decide_true; [apply Hsame|]. apply elem_of_app. right. apply elem_of_app. left. left.
    + destruct (packageNets_registering c chain) as (main & Hm & Eg); [done..|].
      destruct (registering_new main (packageNets c) (selectParams c chain) _ started Hs Hm Hnd) as (r & E & Hr & Hsame).
      { intros p Hp. by apply Hnew, list_elem_of_fmap_2. }
      exists r. rewrite Eg. split; [done|]. split.
      * intros p Hp. rewrite Hr. apply bool_decide_true, elem_of_app. left. by apply list_elem_of_fmap_2.
      * intros chain'. destruct (packageNets_registering c chain') as (main' & Hm' & ->); [done..|].
        eapply registering_known; [exact Hr|]. apply elem_of_app. left. by apply list_elem_of_fmap_2.
Qed.

(** The number of the selected network is the one of the main network unless the chain is one of the others. *)
Lemma selectParams_main c chain : (Net (selectParams c chain) =? mainMagic c) = negb (bool_decide (chain ∈ testnets c)).
Proof.
  unfold mainMagic. pose proof Net_BitcoinMain as M. pose proof Net_BitcoinTest as T. pose proof Net_BitcoinRegtest as R.
  destruct bchutil_magics as (E1 & E2 & E3).
  destruct (decide (chain = "test"%string)) as [->|Ht]; [|destruct (decide (chain = "regtest"%string)) as [->|Hr]].
  - destruct c; cbn; rewrite ?M, ?T, ?R, ?E1, ?E2, ?E3; reflexivity.
  - destruct c; cbn; rewrite ?M, ?T, ?R, ?E1, ?E2, ?E3; reflexivity.
  - assert (chain ∉ testnets c) as Hn by (destruct c; cbn; set_solver). rewrite bool_decide_false by done.
    apply String.eqb_neq in Ht, Hr.
    assert (selectParams c chain = selectParams c "main") as ->; [|apply Z.eqb_refl].
    destruct c; cbn; unfold btc.selectParams, bch.selectParams, bellcoin.selectParams, btg.selectParams, dash.selectParams,
      flo.selectParams, fujicoin.selectParams, gamecredits.selectParams, grs.selectParams, koto.selectParams, litecoin.selectParams,
      monacoin.selectParams, monetaryunit.selectParams, pivx.selectParams, polis.selectParams, qtum.selectParams,
      ravencoin.selectParams, skyr.selectParams, vertcoin.selectParams, viacoin.selectParams, vipstarcoin.selectParams,
      zec.selectParams, xzc.selectParams; by rewrite ?Ht, ?Hr.
Qed.
End selected.

(** The program starts with two networks registered, and no package ever fails to register its own
    (a failure panics): for every coin and chain, the first [GetChainParams] returns the parameters
    of the chain with all networks of the package registered, and every later call returns
    the parameters of its chain and changes nothing. *)
Theorem GetChainParams_total `{CL : ChainCfgLaws} c chain :
  viacoin.init unregistered = (started, Ret tt) /\
  exists r, GetChainParams c chain started = (r, Ret (selectParams c chain)) /\
    (forall p, p ∈ packageNets c -> IsRegistered p r = true) /\
    forall chain', GetChainParams c chain' r = (r, Ret (selectParams c chain')).
Proof. split; [apply started_nets|apply GetChainParams_started]. Qed.

Lemma NewBCashParser_formats format keep p2sh native slip44 : format ∈ [""; "cashaddr"; "legacy"]%string ->
  exists fmt, NewBCashParser format keep p2sh native slip44 = Ret (mkBCashParser (NewBitcoinParser keep p2sh native slip44) fmt).
Proof. intros Hf. repeat (apply elem_of_cons in Hf as [->|Hf]; [by eexists|]). by apply not_elem_of_nil in Hf. Qed.

Lemma initializeWith_eq `{ChainCfg} pc (m : go ChainInfo.t) get magic b ci r params : m = Ret ci ->
  get (ChainInfo.Chain ci) started = (r, Ret params) ->
  initializeWith pc m get magic b started =
  (r, Ret (mkClient b (newParser pc b) params (negb (Net params =? magic)) (if Net params =? magic then "livenet" else "testnet"))).
Proof. intros -> Hg. unfold initializeWith, sbind, slift. by rewrite Hg. Qed.

(** The clients that compare the number of the network with the constant of their package. *)
Lemma initialize_plain `{ChainCfg} `{DM : Daemon} pc c b ci r : c <> Bitcoin -> c <> Bcash -> coin_GetChainInfo c b = Ret ci ->
  GetChainParams c (ChainInfo.Chain ci) started = (r, Ret (selectParams c (ChainInfo.Chain ci))) ->
  exists cl, Initialize pc c b started = (r, Ret cl) /\ cl_Params cl = selectParams c (ChainInfo.Chain ci) /\
    cl_Testnet cl = negb (Net (selectParams c (ChainInfo.Chain ci)) =? Net (selectParams c "main")) /\
    cl_Network cl = if Net (selectParams c (ChainInfo.Chain ci)) =? Net (selectParams c "main") then "livenet" else "testnet".
Proof.
  intros Hb Hc Hci Er.
  destruct c; try done; cbn [Initialize coin_GetChainInfo GetChainParams] in *;
    (eexists; split; [first [exact (initializeWith_eq _ _ _ _ _ _ _ _ Hci Er)
       |unfold digibyte_Initialize, sbind, slift; rewrite Hci; cbn [fst snd]; rewrite Er; reflexivity]|split_and!; reflexivity]).
Qed.

Lemma initialize_chain `{CL : ChainCfgLaws} `{DM : Daemon} pc c b ci :
  coin_GetChainInfo c b = Ret ci -> (c = Bcash -> AddressFormatText pc ∈ [""; "cashaddr"; "legacy"]%string) ->
  let testnet := bool_decide (ChainInfo.Chain ci ∈ testnets c) in
  exists r cl, Initialize pc c b started = (r, Ret cl) /\ cl_Params cl = selectParams c (ChainInfo.Chain ci) /\
    cl_Testnet cl = testnet /\ cl_Network cl = (if testnet then "testnet" else "livenet")%string.
Proof.
  intros Hci Hf testnet. destruct (GetChainParams_started c (ChainInfo.Chain ci)) as (r & Er & _).
  pose proof (selectParams_main c (ChainInfo.Chain ci)) as Hm. fold testnet in Hm. unfold mainMagic in Hm.
  exists r. enough (exists cl, Initialize pc c b started = (r, Ret cl) /\ cl_Params cl = selectParams c (ChainInfo.Chain ci) /\
    cl_Testnet cl = negb (Net (selectParams c (ChainInfo.Chain ci)) =? Net (selectParams c "main")) /\
    cl_Network cl = if Net (selectParams c (ChainInfo.Chain ci)) =? Net (selectParams c "main") then "livenet" else "testnet")
    as (cl & E & Hp & Ht & Hn).
  { exists cl. rewrite E, Hp, Ht, Hn, Hm. split_and!; try done; by destruct testnet. }
  destruct (decide (c = Bitcoin)) as [->|Hb]; [|destruct (decide (c = Bcash)) as [->|Hc]].
  - cbn [coin_GetChainInfo GetChainParams] in *. eexists. cbn [Initialize]. unfold btc_Initialize, initializeWith, sbind, slift.
    change (GetChainInfo (set_Supports _ _ b)) with (GetChainInfo b). rewrite Hci. cbn [fst snd]. rewrite Er.
    rewrite <- Net_BitcoinMain. split_and!; reflexivity.
  - cbn [coin_GetChainInfo GetChainParams] in *.
    destruct (NewBCashParser_formats (AddressFormatText pc) (Rpc.BlockAddressesToKeep (ChainConfig b)) (XPubMagicSegwitP2sh pc)
      (XPubMagicSegwitNative pc) (Slip44 pc) (Hf eq_refl)) as [fmt Eq].
    eexists. cbn [Initialize]. unfold bch_Initialize, sbind, slift. rewrite Hci. cbn [fst snd]. rewrite Er, Eq.
    split_and!; reflexivity.
  - apply (initialize_plain pc c b ci r) in Er; done.
Qed.

(** C25: A client that can ask its daemon for the chain is initialized with the parameters of this chain, and
    reports a test network exactly for the chains the package of the coin knows beside the main
    one; any other chain, the test network of a coin with a main network only included,
    counts as the main network.  The configuration of Bitcoin Cash has an address format its
    parser knows. *)
Theorem Initialize_network `{CL : ChainCfgLaws} `{DM : Daemon} pc c b ci :
  coin_GetChainInfo c b = Ret ci -> (c = Bcash -> AddressFormatText pc ∈ [""; "cashaddr"; "legacy"]%string) ->
  let testnet := bool_decide (ChainInfo.Chain ci ∈ testnets c) in
  exists r cl, Initialize pc c b started = (r, Ret cl) /\ cl_Params cl = selectParams c (ChainInfo.Chain ci) /\
    cl_Testnet cl = testnet /\ cl_Network cl = (if testnet then "testnet" else "livenet")%string.
Proof. apply initialize_chain. Qed.

(** * Parsers *)

(** ** PIVX

    The package [pivx] has the code of the package [skyr] with the constants of its networks. *)
Section pivx_parser.
Context {C : ChainCfg} {L : BtcLib} {M : ProtoTx} {SK : SkyrLib (L := L)}.

Definition PivXParser : Type := SkyrParser.

Definition NewPivXParser (params : ChainParams) (keep p2sh native slip44 : Z) : PivXParser :=
  mkSkyrParser (NewBitcoinParser keep p2sh native slip44) (mkParams (Net params) (PubKeyHashAddrID params)) pivx.TestnetMagic.

Definition pivx_GetValueSatFromZerocoinSpend : bytes -> go Z := GetValueSatFromZerocoinSpend.

Context (p : PivXParser).

Definition pivx_P2CSScriptToAddress : bytes -> go (list string * bool) := P2CSScriptToAddress p.
Definition pivx_P2EXScriptToAddress : bytes -> go (list string * bool) := P2EXScriptToAddress p.
Definition pivx_outputScriptToAddresses : bytes -> go (list string * bool) := skyr_outputScriptToAddresses p.
Definition pivx_IsAddrDescIndexable : bytes -> bool := skyr_IsAddrDescIndexable.
Definition pivx_GetAddrDescForUnknownInput : Tx.t -> Z -> bytes := skyr_GetAddrDescForUnknownInput.
Definition pivx_GetValueSatForUnknownInput : Tx.t -> Z -> Z := skyr_GetValueSatForUnknownInput.
Definition pivx_GetAddrDescFromAddress : string -> go bytes := skyr_GetAddrDescFromAddress p.
Definition pivx_TxFromMsgTx : Wire.MsgTx -> bool -> go Tx.t := skyr_TxFromMsgTx p.
Definition pivx_ParseTx : bytes -> go Tx.t := skyr_ParseTx p.
Definition pivx_ParseTxFromJson : (string -> go Tx.t) -> string -> go Tx.t := skyr_ParseTxFromJson p.
End pivx_parser.

(** ** The parser of a coin *)

Section parsers.
Context {L : BtcLib} `{V : Vlq} {M : ProtoTx} {BL : BchLib (L := L)}.

(** Packing with protocol buffers, which these coins have in place of the packing of Bitcoin. *)
Definition dash_PackTx : Tx.t -> Z -> Z -> go bytes := BaseParser_PackTx.
Definition dash_UnpackTx : bytes -> go (Tx.t * Z) := BaseParser_UnpackTx.
Definition flo_PackTx : Tx.t -> Z -> Z -> go bytes := BaseParser_PackTx.
Definition flo_UnpackTx : bytes -> go (Tx.t * Z) := BaseParser_UnpackTx.
Definition grs_PackTx : Tx.t -> Z -> Z -> go bytes := BaseParser_PackTx.
Definition grs_UnpackTx : bytes -> go (Tx.t * Z) := BaseParser_UnpackTx.
Definition koto_PackTx : Tx.t -> Z -> Z -> go bytes := BaseParser_PackTx.
Definition koto_UnpackTx : bytes -> go (Tx.t * Z) := BaseParser_UnpackTx.
Definition liquid_PackTx : Tx.t -> Z -> Z -> go bytes := BaseParser_PackTx.
Definition liquid_UnpackTx : bytes -> go (Tx.t * Z) := BaseParser_UnpackTx.
Definition mue_PackTx : Tx.t -> Z -> Z -> go bytes := BaseParser_PackTx.
Definition mue_UnpackTx : bytes -> go (Tx.t * Z) := BaseParser_UnpackTx.
Definition zcoin_PackTx : Tx.t -> Z -> Z -> go bytes := BaseParser_PackTx.
Definition zcoin_UnpackTx : bytes -> go (Tx.t * Z) := BaseParser_UnpackTx.
Definition zec_PackTx : Tx.t -> Z -> Z -> go bytes := BaseParser_PackTx.
Definition zec_UnpackTx : bytes -> go (Tx.t * Z) := BaseParser_UnpackTx.

Definition mue_ParseTx (p : BitcoinParser) (b : bytes) : go Tx.t :=
  let* t := tx_Deserialize b in
  let* tx := TxFromMsgTx p t true in
  Ret (set_Hex (hex_EncodeToString b) tx).

(** A Bitcoin parser with some methods overridden. *)
Definition overridden (p : BitcoinParser) (packTx : Tx.t -> Z -> Z -> go bytes) (unpackTx : bytes -> go (Tx.t * Z))
    (fromAddress : string -> go bytes) (addresses : bytes -> go (list string * bool)) (unknownInput : Tx.t -> Z -> bytes)
    : BlockChainParser := {|
  GetChainType := ChainBitcoinType;
  KeepBlockAddresses := BaseParser.BlockAddressesToKeep (Base p);
  AmountDecimals := AmountDecimalPoint (Base p);
  GetAddrDescFromVout := btc_GetAddrDescFromVout;
  Types.GetAddrDescFromAddress := fromAddress;
  Types.GetAddressesFromAddrDesc := addresses;
  Types.IsAddrDescIndexable := btc_IsAddrDescIndexable;
  PackedTxidLen := BaseParser_PackedTxidLen;
  PackTxid := BaseParser_PackTxid;
  UnpackTxid := BaseParser_UnpackTxid;
  Types.PackTx := packTx;
  Types.UnpackTx := unpackTx;
  Types.GetAddrDescForUnknownInput := unknownInput;
  Types.GetValueSatForUnknownInput := BaseParser_GetValueSatForUnknownInput;
  PackBlockHash := BaseParser_PackBlockHash;
  UnpackBlockHash := BaseParser_UnpackBlockHash;
  EthereumTypeGetErc20FromTx := BaseParser_EthereumTypeGetErc20FromTx;
|}.

Context {SK : SkyrLib (L := L)}.

(** The parser of a coin on a network, with the fields of the Bitcoin parser it embeds; the
    format of addresses is one of Bitcoin Cash. *)
Definition coin_parser (c : Coin) (params : ChainParams) (format : AddressFormat) (p : BitcoinParser) : BlockChainParser :=
  let packed pack unpack :=
    overridden p pack unpack btc_GetAddrDescFromAddress (btc_GetAddressesFromAddrDesc p) BaseParser_GetAddrDescForUnknownInput in
  match c with
  | Dash => packed dash_PackTx dash_UnpackTx
  | Flo => packed flo_PackTx flo_UnpackTx
  | Groestlcoin => packed grs_PackTx grs_UnpackTx
  | Koto => packed koto_PackTx koto_UnpackTx
  | Zcash => packed zec_PackTx zec_UnpackTx
  | Liquid => overridden p liquid_PackTx liquid_UnpackTx btc_GetAddrDescFromAddress (liquid_outputScriptToAddresses p)
                liquid_GetAddrDescForUnknownInput
  | MonetaryUnit => overridden p mue_PackTx mue_UnpackTx btc_GetAddrDescFromAddress (mue_outputScriptToAddresses p)
                      mue_GetAddrDescForUnknownInput
  | Zcoin => overridden p zcoin_PackTx zcoin_UnpackTx btc_GetAddrDescFromAddress (zcoin_GetAddressesFromAddrDesc p)
               BaseParser_GetAddrDescForUnknownInput
  | Bcash => overridden p btc_PackTx (btc_UnpackTx p) bch_GetAddrDescFromAddress (bch_outputScriptToAddresses (mkBCashParser p format))
               BaseParser_GetAddrDescForUnknownInput
  | SKYR => skyr_parser (mkSkyrParser p (mkParams (Net params) (PubKeyHashAddrID params)) Skyr.TestnetMagic)
  | PIVX => skyr_parser (mkSkyrParser p (mkParams (Net params) (PubKeyHashAddrID params)) pivx.TestnetMagic)
  | _ => bitcoin_parser p
  end.
End parsers.

(** * The coins indexed *)

Section indexed.
Context `{SL : StoreLaws} {L : BtcLib} `{VL : VlqLaws} {M : ProtoTx} {BL : BchLib (L := L)} {SK : SkyrLib (L := L)} `{SCL : ScriptLaws}.
Context (Hrel : reliable) (c : Coin) (params : ChainParams) (format : AddressFormat) (p : BitcoinParser).

#[local] Instance the_parser : BlockChainParser := coin_parser c params format p.

#[local] Instance coin_parser_laws : ParserLaws the_parser.
Proof.
  unfold the_parser. destruct c; cbn [coin_parser]; try apply bitcoin_parser_laws; try apply skyr_parser_laws;
    (split; cbn -[Z.pow]; [done| |]; intros b Hb; (eexists; split; [done|]);
     [apply PackTxid_hex; by intros ->|apply hex_DecodeString_Encode]).
Qed.

Lemma coin_parser_type : GetChainType = ChainBitcoinType.
Proof. unfold the_parser. by destruct c. Qed.

(** The blocks can be connected, each to the database the blocks before it lead to. *)
Inductive connectables (now : Z) : RocksDB -> list Block.t -> Prop :=
  | connectables_nil d : connectables now d []
  | connectables_cons d block ids blocks : connectable d block ids ->
      (forall d', ConnectBlock now block d = (d', Ret tt) -> connectables now d' blocks) -> connectables now d (block :: blocks).

Lemma chain_step now block ids d blocks : chain d blocks -> connectable d block ids ->
  exists d', ConnectBlock now block d = (d', Ret tt) /\ chain d' (blocks ++ [block]).
Proof.
  intros Hch Hb. destruct (chain_inv Hrel d blocks coin_parser_type Hch) as (Hr & Hc & [s Hs] & [i Hi]).
  pose proof Hb as [[hv Hhv] Hh Hv Hf].
  destruct (ConnectBlock_run Hrel now block ids d s i hv) as (d' & _ & E & _); try done; [apply coin_parser_type|].
  exists d'. split; [done|]. by eapply chain_connect.
Qed.

Lemma sfor_chain now bs : forall (w : SyncWorker) blocks, chain (w_db w) blocks -> connectables now (w_db w) bs ->
  exists w', sfor (connectOne now) bs w = (w', Ret tt) /\ chain (w_db w') (blocks ++ bs) /\
    notified w' = notified w ++ map (fun b => (Block.Hash b, Block.Height b)) bs.
Proof.
  induction bs as [|b bs IH]; intros w blocks Hch Hc.
  - exists w. rewrite !app_nil_r. done.
  - inversion Hc as [|d block ids rest Hb Hrest]; subst. destruct (chain_step now b ids _ _ Hch Hb) as (d' & E & Hch').
    destruct (IH (mkSyncWorker _ d' (startHeight w) (startHash w) (notified w ++ [(Block.Hash b, Block.Height b)])) (blocks ++ [b]))
      as (w' & Ew & Hw & Hn); [done|by apply Hrest|].
    exists w'. rewrite <- app_assoc in Hw. split; [|split; [done|]].
    + cbn [sfor]. unfold sbind at 1, connectOne at 1, sbind, on_db. rewrite E. exact Ew.
    + cbn [notified] in Hn. rewrite Hn, <- app_assoc. done.
Qed.
End indexed.

(** C3: From the daemon to the balances, for every Bitcoin-like coin: where the daemon serves connectable blocks,
    the synchronization ends without an error with exactly these blocks indexed behind those
    that were there, announces each, and the index then answers for every address with
    exactly the unspent outputs that are stored for it, each once, and their sum.  The store works
    without errors and the synchronization is not interrupted. *)
Theorem coins_indexed `{SL : StoreLaws} {L : BtcLib} `{VL : VlqLaws} {M : ProtoTx} {BL : BchLib (L := L)}
    {SK : SkyrLib (L := L)} `{SCL : ScriptLaws} `{J : StateJson} `{DM : Daemon} `{RP : RpcParser}
    c params format p config interrupt now (w : SyncWorker) blocks bs fuel initialSync :
  let P := coin_parser c params format p in
  let b := NewRPC config c in
  reliable -> chain (P := P) (w_db w) blocks ->
  served b (coin_served b c) (startHash w) (startHeight w) bs -> connectables c params format p now (w_db w) bs ->
  (forall k, initialSync && interrupt k = false) -> (length bs < fuel)%nat ->
  exists w', connectBlocks (P := P) (R := coin_chain c b) interrupt now fuel initialSync w = (w', Ret tt) /\
    chain (P := P) (w_db w') (blocks ++ bs) /\
    notified w' = notified w ++ map (fun b => (Block.Hash b, Block.Height b)) bs /\
    forall ad, exists r, GetAddrDescBalance (P := P) (w_db w') ad DetailUTXOIndexed = Ret r /\
      let ab := default emptyBalance r in
      BalanceSat ab = unspent_sum (Utxos ab) /\ NoDup (utxo_key <$> unspent_utxos (Utxos ab)) /\
      forall u, u ∈ unspent_utxos (Utxos ab) <-> stored_output (P := P) (w_db w') ad u.
Proof.
  intros P b Hrel Hch Hs Hc Hi Hf.
  destruct (sfor_chain Hrel c params format p now bs w blocks Hch Hc) as (w' & E & Hch' & Hn). exists w'.
  split.
  { unfold connectBlocks. rewrite (sbind_eq _ _ w w w) by done. rewrite <- E.
    apply (connectLoop_all (R := coin_chain c b) interrupt now (startHash w) (startHeight w)); [|done..]. by apply coin_remote. }
  split; [done|]. split; [done|]. intros ad.
  pose proof (coin_parser_laws (L := L) (V := V) c params format p) as HPL.
  destruct (chain_ledger (P := P) (w_db w') (blocks ++ bs) ad Hrel (coin_parser_type c params format p) Hch')
    as (r & Hr & H1 & H2 & H3).
  exists r. split_and!; done.
Qed.

(** * [blockchain.go] *)

Inductive factory := NewBitcoinLike (c : Coin) | NewEthereum | NewNuls.

Definition BlockChainFactories : gmap string factory := list_to_map
  [("Bitcoin", NewBitcoinLike Bitcoin); ("Testnet", NewBitcoinLike Bitcoin); ("Zcash", NewBitcoinLike Zcash);
   ("Zcash Testnet", NewBitcoinLike Zcash); ("Ethereum", NewEthereum); ("Ethereum Classic", NewEthereum);
   ("Ethereum Testnet Ropsten", NewEthereum); ("Bcash", NewBitcoinLike Bcash); ("Bcash Testnet", NewBitcoinLike Bcash);
   ("Bgold", NewBitcoinLike Bgold); ("Dash", NewBitcoinLike Dash); ("Dash Testnet", NewBitcoinLike Dash);
   ("GameCredits", NewBitcoinLike GameCredits); ("Koto", NewBitcoinLike Koto); ("Koto Testnet", NewBitcoinLike Koto);
   ("Litecoin", NewBitcoinLike Litecoin); ("Litecoin Testnet", NewBitcoinLike Litecoin); ("Dogecoin", NewBitcoinLike Dogecoin);
   ("Vertcoin", NewBitcoinLike Vertcoin); ("Vertcoin Testnet", NewBitcoinLike Vertcoin); ("Namecoin", NewBitcoinLike Namecoin);
   ("Monacoin", NewBitcoinLike Monacoin); ("Monacoin Testnet", NewBitcoinLike Monacoin); ("MonetaryUnit", NewBitcoinLike MonetaryUnit);
   ("DigiByte", NewBitcoinLike DigiByte); ("Myriad", NewBitcoinLike Myriad); ("Liquid", NewBitcoinLike Liquid);
   ("Groestlcoin", NewBitcoinLike Groestlcoin); ("Groestlcoin Testnet", NewBitcoinLike Groestlcoin); ("PIVX", NewBitcoinLike PIVX);
   ("PIVX Testnet", NewBitcoinLike PIVX); ("SKYR", NewBitcoinLike SKYR); ("SKYR Testnet", NewBitcoinLike SKYR);
   ("Polis", NewBitcoinLike Polis); ("Zcoin", NewBitcoinLike Zcoin); ("Fujicoin", NewBitcoinLike Fujicoin);
   ("Flo", NewBitcoinLike Flo); ("Bellcoin", NewBitcoinLike Bellcoin); ("Qtum", NewBitcoinLike Qtum);
   ("Viacoin", NewBitcoinLike Viacoin); ("Qtum Testnet", NewBitcoinLike Qtum); ("NULS", NewNuls);
   ("VIPSTARCOIN", NewBitcoinLike VIPSTARCOIN); ("ZelCash", NewBitcoinLike Zcash); ("Ravencoin", NewBitcoinLike Ravencoin)]%string.

(** The configuration file and [json.Unmarshal] of it. *)
Class ConfigIO := {
  ReadFile : string -> go string;
  json_RawMessage : string -> go string;
  json_coinNames : string -> go (string * string * string);
  json_Configuration : string -> go Rpc.Configuration;
  json_EthConfiguration : string -> go Eth.Configuration;
  json_ParserConfig : string -> ParserConfig;
}.

(** A client with the mempool created for it; the one of Ethereum keeps it itself. *)
Inductive blockChain :=
  | BitcoinLike (c : Coin) (cl : Client) (mempool : BaseMempool)
  | EthereumLike (b : EthereumRPC)
  | NulsLike (p : NulsParser) (n : NulsRPC) (mempool : BaseMempool).

Section blockchain.
Context {C : ChainCfg} {DM : Daemon} {IO : ConfigIO} {EC : EthClient}.
(** [rpc.Dial] of go-ethereum, and the time. *)
Context (Dial : go unit) (now : Z).

Definition readConfig {A} (configfile : string) (unmarshal : string -> go A) : go A :=
  let* data := annotate ("Error reading file " ++ configfile)%string (ReadFile configfile) in
  annotate ("Error parsing file " ++ configfile)%string (unmarshal data).

Definition GetCoinNameFromConfig (configfile : string) : go (string * string * string) := readConfig configfile json_coinNames.

(** The names of the supported coins, which follow in the message, are left out. *)
Definition unsupportedCoin (coin : string) : error := ErrMsg ("Unsupported coin '" ++ coin ++ "'. Must be one of ")%string.

(** [bc, err := bcf(config, pushHandler)], [bc.Initialize()] and [bc.CreateMempool(bc)]. *)
Definition newChain (f : factory) (config : string) : sgo registry blockChain :=
  match f with
  | NewBitcoinLike c =>
      let! conf := slift (annotate "Invalid configuration file" (json_Configuration config)) in
      let! cl := Initialize (json_ParserConfig config) c (NewRPC conf c) in
      sret (BitcoinLike c cl emptyMempool)
  | NewEthereum =>
      let! b := slift (NewEthereumRPC (json_EthConfiguration config) Dial) in
      let! b := slift (match e_Initialize b with (b', Ret _) => Ret b' | (_, Fail e) => Fail e | (_, Panic) => Panic end) in
      sret (EthereumLike (CreateMempool now b).1)
  | NewNuls =>
      let! conf := slift (annotate "Invalid configuration file" (json_Configuration config)) in
      let pc := json_ParserConfig config in
      let n := NewNulsRPC conf in
      let '(p, n) := nuls_Initialize (Rpc.BlockAddressesToKeep (ChainConfig (nr_rpc n))) (XPubMagicSegwitP2sh pc)
                       (XPubMagicSegwitNative pc) (Slip44 pc) n in
      sret (NulsLike p n emptyMempool)
  end.

Definition NewBlockChain (coin configfile : string) : sgo registry blockChain :=
  let! config := slift (readConfig configfile json_RawMessage) in
  match BlockChainFactories !! coin with
  | None => sfail (unsupportedCoin coin)
  | Some f => newChain f config
  end.
End blockchain.

(** A coin with a factory whose configuration can be read and whose daemon tells its chain is set up with
    an empty mempool and with the network of this chain: the name of the coin decides the
    package only.  A coin without a factory is refused before anything is asked. *)
Theorem NewBlockChain_network `{CL : ChainCfgLaws} `{DM : Daemon} `{IO : ConfigIO} `{EC : EthClient} Dial now coin configfile config :
  readConfig configfile json_RawMessage = Ret config ->
  match BlockChainFactories !! coin with
  | None => forall r, NewBlockChain Dial now coin configfile r = (r, Fail (unsupportedCoin coin))
  | Some (NewBitcoinLike c) => forall conf ci,
      json_Configuration config = Ret conf -> coin_GetChainInfo c (NewRPC conf c) = Ret ci ->
      (c = Bcash -> AddressFormatText (json_ParserConfig config) ∈ [""; "cashaddr"; "legacy"]%string) ->
      exists r cl, NewBlockChain Dial now coin configfile started = (r, Ret (BitcoinLike c cl emptyMempool)) /\
        cl_Params cl = selectParams c (ChainInfo.Chain ci) /\
        cl_Testnet cl = bool_decide (ChainInfo.Chain ci ∈ testnets c)
  | Some _ => True
  end.
Proof.
  intros Hc. unfold NewBlockChain, sbind, slift. destruct (BlockChainFactories !! coin) as [[c| |]|]; try done.
  - intros conf ci Hj Hci Hf.
    destruct (initialize_chain (json_ParserConfig config) c (NewRPC conf c) ci Hci Hf) as (r & cl & E & Hp & Ht & _).
    exists r, cl. split; [|done]. rewrite Hc. cbn [newChain]. unfold sbind, slift. rewrite Hj. cbn [annotate]. by rewrite E.
  - intros r. by rewrite Hc.
Qed.

(** The coin of the configuration [configs/coins/flo_testnet.json] has no factory. *)
Theorem flo_testnet_unsupported `{ChainCfg} `{DM : Daemon} `{IO : ConfigIO} `{EC : EthClient} Dial now configfile config r :
  readConfig configfile json_RawMessage = Ret config ->
  NewBlockChain Dial now "Flo Testnet" configfile r = (r, Fail (unsupportedCoin "Flo Testnet")).
Proof. intros Hc. unfold NewBlockChain, sbind, slift. by rewrite Hc. Qed.

(** * Concrete instances *)

Definition btcParams (n : Z) : ChainParams := mkChainParams n 1 [Byte.x00] [Byte.x05] [Byte.x80] "bc" Sha256D 0.

(** The registry is the list of the numbers. *)
#[global] Instance list_chaincfg : ChainCfg := {|
  registry := list Z;
  unregistered := [];
  IsRegistered p r := bool_decide (Net p ∈ r);
  Register p r := if bool_decide (Net p ∈ r) then (r, Fail (ErrMsg "duplicate Bitcoin network")) else (Net p :: r, Ret tt);
  RegisterBitcoinParams r := (bitcoinNets ++ r, Ret tt);
  BitcoinMainNetParams := btcParams wire_MainNet;
  BitcoinTestNet3Params := btcParams 0x0709110b;
  BitcoinRegressionNetParams := btcParams 0xdab5bffa;
  bchutil_MainnetMagic := 0xe8f3e1e3;
  bchutil_TestnetMagic := 0xf4f3e5f4;
  bchutil_Regtestmagic := 0xfabfb5da;
|}.

#[global] Instance list_chaincfg_laws : ChainCfgLaws list_chaincfg.
Proof.
  split; try done.
  - intros p r H. cbn in *. rewrite H. eexists. split; [done|]. intros q.
    cbn [IsRegistered list_chaincfg]. rewrite Zeqb_decide, orb_decide. apply bool_decide_ext, elem_of_cons.
  - intros r _. eexists. split; [done|]. intros q. cbn [IsRegistered list_chaincfg]. rewrite orb_decide. apply bool_decide_ext, elem_of_app.
Qed.

Definition small_pc : ParserConfig := mkParserConfig 49 84 2 EmptyString.

#[global] Instance small_io : ConfigIO := {|
  ReadFile _ := Ret "{}"%string;
  json_RawMessage := Ret;
  json_coinNames _ := Ret ("Litecoin", "LTC", "Litecoin")%string;
  json_Configuration _ := Ret small_config;
  json_EthConfiguration _ := Ret small_config_eth;
  json_ParserConfig _ := small_pc;
|}.

Lemma Initialize_network_witness :
  exists r cl, Initialize (DM := small_daemon) small_pc Litecoin (NewLitecoinRPC small_config) started = (r, Ret cl) /\
    cl_Testnet cl = false.
Proof.
  destruct (Initialize_network (CL := list_chaincfg_laws) (DM := small_daemon) small_pc Litecoin (NewLitecoinRPC small_config)
    (ChainInfo.mk "main" 8 8 "h8" "1" 0 "1" "1" "1" "0" EmptyString EmptyString EmptyString EmptyString 0 0 0)
    eq_refl ltac:(discriminate)) as (r & cl & E & _ & Ht & _).
  exists r, cl. split; [exact E|]. rewrite Ht. reflexivity.
Defined.

Lemma NewBlockChain_network_witness :
  exists r cl, NewBlockChain (DM := small_daemon) (Ret tt) 0 "Litecoin Testnet" "blockchaincfg.json" started =
      (r, Ret (BitcoinLike Litecoin cl emptyMempool)) /\ cl_Testnet cl = false.
Proof.
  destruct (NewBlockChain_network (DM := small_daemon) (IO := small_io) (Ret tt) 0 "Litecoin Testnet" "blockchaincfg.json" "{}" eq_refl small_config
    (ChainInfo.mk "main" 8 8 "h8" "1" 0 "1" "1" "1" "0" EmptyString EmptyString EmptyString EmptyString 0 0 0)
    eq_refl eq_refl ltac:(discriminate)) as (r & cl & E & _ & Ht).
  exists r, cl. split; [exact E|]. rewrite Ht. reflexivity.
Defined.

(** ** A chain of one block *)

#[global] Instance plain_skyr : SkyrLib (L := plain_lib) := {|
  NewAddressPubKeyHash h _ := Ret h;
  DecodeAddressWith s _ _ := hex_DecodeString s;
|}.

Definition parsing_config : Configuration := mkConfiguration true 0 0 0 false false EmptyString.

(** The daemon has the bytes of every block it is asked for by its hash, and no block by height. *)
Definition one_block_daemon : Daemon :=
  daemon_with (fun s => if String.eqb s "getblockhash " then (Some noBlock, EmptyString) else (None, "aabb"%string))
    (fun _ => (None, noBlockThin)).

Definition one_block_parser : RpcParser := {|
  rp_ParseTx _ := Fail (ErrMsg "tx");
  rp_ParseBlock _ := Ret block7;
  rp_ParseTxFromJson _ := Fail (ErrMsg "json");
  rp_AmountToBigInt _ := Fail (ErrMsg "amount");
|}.

Definition worker7 : SyncWorker := mkSyncWorker mem_store (open_db ∅) 7 (Block.Hash block7) [].

Lemma coins_indexed_witness :
  exists w', connectBlocks (P := plain_parser) (V := leb)
      (R := coin_chain (DM := one_block_daemon) (RP := one_block_parser) Litecoin (NewLitecoinRPC parsing_config))
      (fun _ => false) 77 2 true worker7 = (w', Ret tt) /\ notified w' = [(Block.Hash block7, 7)].
Proof.
  destruct (coins_indexed (VL := leb_laws) (J := code_json) (DM := one_block_daemon) (RP := one_block_parser)
    Litecoin (btcParams 0) CashAddr (NewBitcoinParser 3 49 84 0) parsing_config (fun _ => false) 77 worker7 [] [block7] 2 true)
    as (w' & E & _ & Hn & _).
  - exact mem_store_reliable.
  - exact (chain_new (open_db ∅) ∅ (newInternalState "Bitcoin") eq_refl eq_refl eq_refl).
  - refine (served_block (DM := one_block_daemon) (NewLitecoinRPC parsing_config) _ (Block.Hash block7) 7 block7 [] _ _ _); [discriminate|..].
    + split; [reflexivity|]. exists block7. split; [|reflexivity].
      exists "aabb"%string, [Byte.xaa; Byte.xbb]. split_and!; reflexivity.
    + refine (served_last (DM := one_block_daemon) (NewLitecoinRPC parsing_config) _ 8 noBlock EmptyString _ _ _); reflexivity.
  - refine (connectables_cons (V := leb) Litecoin (btcParams 0) CashAddr (NewBitcoinParser 3 49 84 0) 77 (open_db ∅) block7 [id1; id2] []
      block7_connectable _).
    intros d' _. apply connectables_nil.
  - reflexivity.
  - vm_compute. repeat constructor.
  - exists w'. split; [exact E|exact Hn].
Defined.
