(* ===== verification/Chain.v ===== *)
(** The whole interface [BlockChain] of [bchain/types.go], with [Mempool]: a request is a value of
    the type [request] of its answer, and an implementation is a function of requests.

    - [bchain/basechain.go]: what a client answers that does not know a request ([base_methods]);
    - the clients of all coins as implementations ([coin_methods], [nuls_methods], [eth_methods]), with the
      methods in files [Rpc], [ForkRpc], [Nuls] and [EthRpc]; in Go the methods of an embedded
      structure are found in this order;
    - the life of a client between its creation and its shutdown ([bitcoinrpc.go]);
    - [bchain/coins/blockchain.go]: the wrappers that observe how long each request took and
      with which error it ended; the latency itself is left out.

    What the program does with a blockchain is a tree of requests ([client]); the theorem on the
    wrappers is by induction on it. *)
From stdpp Require Import base list strings gmap.
From Stdlib Require Import ZArith Lia.
From S2P Require Import Prelude Types BaseParser BitcoinParser EthParser Mempool ApiTypes Worker.
From S2P Require Import Skyr Rpc ForkRpc EthRpc Nuls Coins.

Open Scope Z_scope.
Open Scope go_scope.

(** * The interface *)

Module Method.
Inductive t : Type -> Type :=
  | IsTestnet : t bool
  | GetNetworkName : t string
  | GetSubversion : t string
  | GetCoinName : t string
  | GetChainInfo : t ChainInfo.t
  | GetBestBlockHash : t string
  | GetBestBlockHeight : t Z
  | GetBlockHash (height : Z) : t string
  | GetBlockHeader (hash : string) : t Block.t
  | GetBlock (hash : string) (height : Z) : t Block.t
  | GetBlockInfo (hash : string) : t ChainBlockInfo.t
  | GetMempoolTransactions : t (list string)
  | GetTransaction (txid : string) : t Tx.t
  | GetTransactionForMempool (txid : string) : t (option Tx.t)
  | GetTransactionSpecific (tx : Tx.t) : t string
  | EstimateSmartFee (blocks : Z) (conservative : bool) : t Z
  | EstimateFee (blocks : Z) : t Z
  | SendRawTransaction (tx : string) : t string
  | GetMempoolEntry (txid : string) : t MempoolEntry.t
  | EthereumTypeGetBalance (addrDesc : bytes) : t (option Z)
  | EthereumTypeGetNonce (addrDesc : bytes) : t Z
  | EthereumTypeEstimateGas (params : gmap string (option string)) : t Z
  | EthereumTypeGetErc20ContractInfo (contractDesc : bytes) : t (option Erc20Contract.t)
  | EthereumTypeGetErc20ContractBalance (addrDesc contractDesc : bytes) : t (option Z)
  | Findzcserial (serialHex : string) : t string
  | GetMasternodesInfo : t (option (list Masternode.t))
  | GetPeersInfo : t (option (list Peer.t))
  | GetNodeBlockCount (addr : string) : t Z.
End Method.

Module MempoolMethod.
Inductive t : Type -> Type :=
  | Resync : t Z
  | GetTransactions (address : string) : t (list Outpoint.t)
  | GetAddrDescTransactions (addrDesc : bytes) : t (list Outpoint.t)
  | GetAllEntries : t (list MempoolTxidEntry)
  | GetTransactionTime (txid : string) : t Z.
End MempoolMethod.

(** A request to the chain or to its mempool. *)
Inductive request (A : Type) : Type :=
  | OnChain (m : Method.t A)
  | OnMempool (m : MempoolMethod.t A).
Arguments OnChain {A} m.
Arguments OnMempool {A} m.

(** * Implementations *)

(** [BaseChain]: the methods that are not supported by default. *)
Record BaseChain := mkBaseChain { bc_Testnet : bool; bc_Network : string }.

Definition unsupported (msg : string) : error := ErrMsg msg.
Definition NotSupported : error := unsupported "Not supported".

Definition base_IsTestnet (b : BaseChain) : bool := bc_Testnet b.
Definition base_GetNetworkName (b : BaseChain) : string := bc_Network b.
Definition base_GetMempoolEntry (txid : string) : go MempoolEntry.t := Fail (unsupported "GetMempoolEntry: not supported").
Definition base_EthereumTypeGetBalance (addrDesc : bytes) : go (option Z) := Fail NotSupported.
Definition base_EthereumTypeGetNonce (addrDesc : bytes) : go Z := Fail NotSupported.
Definition base_EthereumTypeEstimateGas (params : gmap string (option string)) : go Z := Fail NotSupported.
Definition base_EthereumTypeGetErc20ContractInfo (contractDesc : bytes) : go (option Erc20Contract.t) := Fail NotSupported.
Definition base_EthereumTypeGetErc20ContractBalance (addrDesc contractDesc : bytes) : go (option Z) := Fail NotSupported.
Definition base_Findzcserial (serialHex : string) : go string := Fail (unsupported "Findserial not supported").
Definition base_GetMasternodesInfo : go (option (list Masternode.t)) := Fail (unsupported "GetMasternodesInfo not supported").
Definition base_GetPeersInfo : go (option (list Peer.t)) := Fail (unsupported "GetPeersInfo not supported").
Definition base_GetNodeBlockCount (addr : string) : go Z := Fail (unsupported "GetNodeBlockCount not supported").

(** The names in the configuration. *)
Record Names := mkNames { CoinName : string; CoinShortcut : string; Subversion : string }.

Section methods.
Context {DM : Daemon} {RP : RpcParser} {NW : Network} {ND : NulsDaemon}.

(** [BitcoinRPC] over [BaseChain]. *)
Definition bitcoin_methods (n : Names) (base : BaseChain) (b : BitcoinRPC) {A} (m : Method.t A) : go A :=
  match m in Method.t A return go A with
  | Method.IsTestnet => Ret (base_IsTestnet base)
  | Method.GetNetworkName => Ret (base_GetNetworkName base)
  | Method.GetSubversion => Ret (Subversion n)
  | Method.GetCoinName => Ret (CoinName n)
  | Method.GetChainInfo => Rpc.GetChainInfo b
  | Method.GetBestBlockHash => Rpc.GetBestBlockHash b
  | Method.GetBestBlockHeight => Rpc.GetBestBlockHeight b
  | Method.GetBlockHash height => Rpc.GetBlockHash b height
  | Method.GetBlockHeader hash => Rpc.GetBlockHeader b hash
  | Method.GetBlock hash height => Rpc.GetBlock b hash height
  | Method.GetBlockInfo hash => Rpc.GetBlockInfo b hash
  | Method.GetMempoolTransactions => Rpc.GetMempoolTransactions b
  | Method.GetTransaction txid => Rpc.GetTransaction b txid
  | Method.GetTransactionForMempool txid => let* tx := Rpc.GetTransactionForMempool b txid in Ret (Some tx)
  | Method.GetTransactionSpecific tx => Rpc.GetTransactionSpecific b tx
  | Method.EstimateSmartFee blocks conservative => Rpc.EstimateSmartFee b blocks conservative
  | Method.EstimateFee blocks => Rpc.EstimateFee b blocks
  | Method.SendRawTransaction tx => Rpc.SendRawTransaction b tx
  | Method.GetMempoolEntry txid => Rpc.GetMempoolEntry b txid
  | Method.EthereumTypeGetBalance ad => base_EthereumTypeGetBalance ad
  | Method.EthereumTypeGetNonce ad => base_EthereumTypeGetNonce ad
  | Method.EthereumTypeEstimateGas params => base_EthereumTypeEstimateGas params
  | Method.EthereumTypeGetErc20ContractInfo cd => base_EthereumTypeGetErc20ContractInfo cd
  | Method.EthereumTypeGetErc20ContractBalance ad cd => base_EthereumTypeGetErc20ContractBalance ad cd
  | Method.Findzcserial s => base_Findzcserial s
  | Method.GetMasternodesInfo => base_GetMasternodesInfo
  | Method.GetPeersInfo => base_GetPeersInfo
  | Method.GetNodeBlockCount addr => base_GetNodeBlockCount addr
  end.

(** The client of a coin with the methods of its own; [Bcash], [Zcoin], [PIVX] and [SKYR] have more than
    those for blocks and transactions. *)
Definition coin_methods (c : Coin) (n : Names) (cl : Client) {A} (m : Method.t A) : go A :=
  let b := cl_rpc cl in
  let base := mkBaseChain (cl_Testnet cl) (cl_Network cl) in
  let z := mkSkyrRPC b (cl_Testnet cl) (cl_Network cl) in
  let px := mkPivXRPC b (cl_Testnet cl) (cl_Network cl) in
  let rpc {A} (m : Method.t A) : go A := bitcoin_methods n base b m in
  match m in Method.t A return go A with
  | Method.GetBlock hash height => coin_GetBlock c b hash height
  | Method.GetTransaction txid => coin_GetTransaction c b txid
  | Method.GetTransactionForMempool txid => let* tx := coin_GetTransactionForMempool c b txid in Ret (Some tx)
  | Method.GetMempoolEntry txid => coin_GetMempoolEntry c b txid
  | Method.GetChainInfo =>
      match c with SKYR => skyr_GetChainInfo z | PIVX => pivx_GetChainInfo px | _ => rpc Method.GetChainInfo end
  | Method.GetBlockInfo hash =>
      match c with Bcash => bch_GetBlockInfo hash | Zcoin => zcoin_GetBlockInfo hash | _ => rpc (Method.GetBlockInfo hash) end
  | Method.GetTransactionSpecific tx =>
      match c with Zcoin => zcoin_GetTransactionSpecific tx | _ => rpc (Method.GetTransactionSpecific tx) end
  | Method.EstimateFee blocks => match c with Bcash => bch_EstimateFee b (CoinShortcut n) blocks | _ => rpc (Method.EstimateFee blocks) end
  | Method.EstimateSmartFee blocks conservative =>
      match c with Bcash => bch_EstimateSmartFee b (CoinShortcut n) blocks conservative | _ => rpc (Method.EstimateSmartFee blocks conservative) end
  | Method.Findzcserial s =>
      match c with SKYR => Rpc.Findzcserial z s | PIVX => pivx_Findzcserial px s | _ => rpc (Method.Findzcserial s) end
  | Method.GetMasternodesInfo => match c with SKYR => Rpc.GetMasternodesInfo z | _ => rpc Method.GetMasternodesInfo end
  | Method.GetPeersInfo => match c with SKYR => Rpc.GetPeersInfo z | _ => rpc Method.GetPeersInfo end
  | Method.GetNodeBlockCount addr =>
      match c with SKYR => Rpc.GetNodeBlockCount z addr | _ => rpc (Method.GetNodeBlockCount addr) end
  | m => rpc m
  end.

Definition nuls_methods (n : Names) (z : NulsRPC) {A} (m : Method.t A) : go A :=
  match m in Method.t A return go A with
  | Method.GetChainInfo => nuls_GetChainInfo
  | Method.GetBestBlockHash => nuls_GetBestBlockHash
  | Method.GetBestBlockHeight => nuls_GetBestBlockHeight
  | Method.GetBlockHash height => nuls_GetBlockHash height
  | Method.GetBlockHeader hash => nuls_GetBlockHeader hash
  | Method.GetBlock hash height => nuls_GetBlock hash height
  | Method.GetBlockInfo hash => nuls_GetBlockInfo hash
  | Method.GetMempoolTransactions => nuls_GetMempoolTransactions
  | Method.GetTransaction txid => nuls_GetTransaction txid
  | Method.GetTransactionForMempool txid => nuls_GetTransactionForMempool txid
  | Method.GetTransactionSpecific tx => nuls_GetTransactionSpecific tx
  | Method.EstimateSmartFee blocks conservative => nuls_EstimateSmartFee blocks conservative
  | Method.EstimateFee blocks => nuls_EstimateFee blocks
  | Method.SendRawTransaction tx => nuls_SendRawTransaction z tx
  | m => bitcoin_methods n (mkBaseChain (nr_Testnet z) (nr_Network z)) (nr_rpc z) m
  end.
End methods.

(** ** As the synchronization and the mempool see it *)

Definition chain_of (b : forall A, Method.t A -> go A) : BlockChain := {|
  Mempool.GetMempoolTransactions := b _ Method.GetMempoolTransactions;
  Mempool.GetTransactionForMempool := fun txid => let* tx := b _ (Method.GetTransactionForMempool txid) in must tx;
  Mempool.GetTransaction := fun txid => b _ (Method.GetTransaction txid);
  Mempool.GetBestBlockHash := b _ Method.GetBestBlockHash;
  Mempool.GetBestBlockHeight := b _ Method.GetBestBlockHeight;
  Mempool.chain_GetBlockHash := fun height => b _ (Method.GetBlockHash height);
  Mempool.GetBlock := fun hash height => b _ (Method.GetBlock hash height);
|}.

(** The chain the theorems on the synchronization of a coin are about is this part of its methods. *)
Lemma coin_chain_methods `{DM : Daemon} `{RP : RpcParser} `{NW : Network} c n cl :
  let R := coin_chain c (cl_rpc cl) in
  let R' := chain_of (fun A => coin_methods c n cl) in
  Mempool.GetMempoolTransactions (BlockChain := R') = Mempool.GetMempoolTransactions (BlockChain := R) /\
  (forall txid, Mempool.GetTransactionForMempool (BlockChain := R') txid = Mempool.GetTransactionForMempool (BlockChain := R) txid) /\
  (forall txid, Mempool.GetTransaction (BlockChain := R') txid = Mempool.GetTransaction (BlockChain := R) txid) /\
  Mempool.GetBestBlockHash (BlockChain := R') = Mempool.GetBestBlockHash (BlockChain := R) /\
  Mempool.GetBestBlockHeight (BlockChain := R') = Mempool.GetBestBlockHeight (BlockChain := R) /\
  (forall height, Mempool.chain_GetBlockHash (BlockChain := R') height = Mempool.chain_GetBlockHash (BlockChain := R) height) /\
  (forall hash height, Mempool.GetBlock (BlockChain := R') hash height = Mempool.GetBlock (BlockChain := R) hash height).
Proof.
  cbn zeta. split_and!; try done. intros txid. unfold chain_of, coin_methods, coin_chain.
  cbn [Mempool.GetTransactionForMempool]. by destruct (coin_GetTransactionForMempool c (cl_rpc cl) txid).
Qed.

(** [EthereumRPC] keeps the best header, the mempool and, in a variable of the package, the contracts it knows. *)
Section eth_methods.
Context `{E : EthLib} `{EC : EthClient} `{EJ : EthJson} `{CM : EthCommon} (now : Z).

Definition contracts : Type := gmap bytes (option Erc20Contract.t).
Definition ethState : Type := EthereumRPC * contracts.

Definition on_client {A} (m : sgo EthereumRPC A) : sgo ethState A := fun '(b, cache) => let '(b', r) := m b in ((b', cache), r).
Definition on_cache {A} (m : sgo contracts A) : sgo ethState A := fun '(b, cache) => let '(cache', r) := m cache in ((b, cache'), r).
Definition asked {A} (m : EthereumRPC -> go A) : sgo ethState A := fun s => (s, m s.1).

Definition eth_methods {A} (m : Method.t A) : sgo ethState A :=
  match m in Method.t A return sgo ethState A with
  | Method.IsTestnet => asked (fun b => Ret (base_IsTestnet (mkBaseChain (e_Testnet b) (e_Network b))))
  | Method.GetNetworkName => asked (fun b => Ret (base_GetNetworkName (mkBaseChain (e_Testnet b) (e_Network b))))
  | Method.GetSubversion => sret EthRpc.GetSubversion
  | Method.GetCoinName => asked (fun b => Ret (EthRpc.GetCoinName b))
  | Method.GetChainInfo => on_client (e_GetChainInfo now)
  | Method.GetBestBlockHash => on_client (e_GetBestBlockHash now)
  | Method.GetBestBlockHeight => on_client (e_GetBestBlockHeight now)
  | Method.GetBlockHash height => slift (e_GetBlockHash height)
  | Method.GetBlockHeader hash => on_client (e_GetBlockHeader now hash)
  | Method.GetBlock hash height => on_client (e_GetBlock now hash height)
  | Method.GetBlockInfo hash => on_client (e_GetBlockInfo now hash)
  | Method.GetMempoolTransactions => slift e_GetMempoolTransactions
  | Method.GetTransaction txid => on_client (e_GetTransaction now txid)
  | Method.GetTransactionForMempool txid => let! tx := on_client (e_GetTransactionForMempool now txid) in sret (Some tx)
  | Method.GetTransactionSpecific tx => on_client (e_GetTransactionSpecific now tx)
  | Method.EstimateSmartFee blocks conservative => slift (e_EstimateSmartFee blocks conservative)
  | Method.EstimateFee blocks => slift (e_EstimateFee blocks)
  | Method.SendRawTransaction tx => slift (e_SendRawTransaction tx)
  | Method.GetMempoolEntry txid => slift (base_GetMempoolEntry txid)
  | Method.EthereumTypeGetBalance ad => let! n := slift (e_GetBalance ad) in sret (Some n)
  | Method.EthereumTypeGetNonce ad => slift (e_GetNonce ad)
  | Method.EthereumTypeEstimateGas params => slift (EthRpc.EthereumTypeEstimateGas params)
  | Method.EthereumTypeGetErc20ContractInfo cd => on_cache (e_GetErc20ContractInfo cd)
  | Method.EthereumTypeGetErc20ContractBalance ad cd => let! n := slift (e_GetErc20ContractBalance ad cd) in sret (Some n)
  | Method.Findzcserial s => slift (base_Findzcserial s)
  | Method.GetMasternodesInfo => slift base_GetMasternodesInfo
  | Method.GetPeersInfo => slift base_GetPeersInfo
  | Method.GetNodeBlockCount addr => slift (base_GetNodeBlockCount addr)
  end.
End eth_methods.

(** ** Mempools *)

Section mempool_methods.
Context `{P : BlockChainParser} {S : Type} (base : S -> BaseMempool) (resync : sgo S Z).

Definition mempool_GetTransactions (m : BaseMempool) (address : string) : go (list Outpoint.t) :=
  let* addrDesc := GetAddrDescFromAddress address in Ret (mempool_GetAddrDescTransactions m addrDesc).

Definition mempool_methods {A} (m : MempoolMethod.t A) : sgo S A :=
  match m in MempoolMethod.t A return sgo S A with
  | MempoolMethod.Resync => resync
  | MempoolMethod.GetTransactions address => fun s => (s, mempool_GetTransactions (base s) address)
  | MempoolMethod.GetAddrDescTransactions ad => fun s => (s, Ret (mempool_GetAddrDescTransactions (base s) ad))
  | MempoolMethod.GetAllEntries => fun s => (s, Ret (GetAllEntries (base s)))
  | MempoolMethod.GetTransactionTime txid => fun s => (s, Ret (GetTransactionTime (base s) txid))
  end.
End mempool_methods.

(** ** From the creation to the shutdown ([BitcoinRPC])

    The listener of ZeroMQ ([bchain/mq.go]) is a parameter: making one and shutting it down. *)
Section life.
Context {MQ : Type} (NewMQ : string -> go MQ) (mq_Shutdown : MQ -> go unit) (MessageQueueBinding : string).

(** The functions the mempool calls are values of a type [F]. *)
Record bitcoinLife F := mkLife {
  lf_Mempool : option (BaseMempool * option F);
  lf_mq : option MQ;
}.
Arguments mkLife {F}.
Arguments lf_Mempool {F}.
Arguments lf_mq {F}.

Context {F : Type}.
Notation life := (bitcoinLife F).

Definition bitcoin_CreateMempool : sgo life BaseMempool := fun b =>
  match lf_Mempool b with
  | Some (m, _) => (b, Ret m)
  | None => (mkLife (Some (emptyMempool, None)) (lf_mq b), Ret emptyMempool)
  end.

Definition bitcoin_InitializeMempool (callbacks : F) : sgo life unit := fun b =>
  match lf_Mempool b with
  | None => (b, Fail (ErrMsg "Mempool not created"))
  | Some (m, _) =>
      let b := mkLife (Some (m, Some callbacks)) (lf_mq b) in
      match lf_mq b with
      | Some _ => (b, Ret tt)
      | None =>
          match NewMQ MessageQueueBinding with
          | Ret mq => (mkLife (lf_Mempool b) (Some mq), Ret tt)
          | Fail e => (b, Fail e)
          | Panic => (b, Panic)
          end
      end
  end.

Definition bitcoin_Shutdown (b : life) : go unit :=
  match lf_mq b with Some mq => mq_Shutdown mq | None => Ret tt end.

(** A client listens once: after the mempool was created and initialized, doing it again makes no second mempool
    and no second listener, and sets the functions the mempool calls. *)
Lemma initialized_once b b' f f' : bitcoin_InitializeMempool f b = (b', Ret tt) ->
  exists m mq, lf_Mempool b' = Some (m, Some f) /\ lf_mq b' = Some mq /\
    bitcoin_CreateMempool b' = (b', Ret m) /\
    bitcoin_InitializeMempool f' b' = (mkLife (Some (m, Some f')) (Some mq), Ret tt) /\ bitcoin_Shutdown b' = mq_Shutdown mq.
Proof.
  unfold bitcoin_InitializeMempool, bitcoin_CreateMempool, bitcoin_Shutdown.
  destruct b as [[[m g]|] [mq|]]; cbn; [| |done..].
  - intros [= <-]. by exists m, mq.
  - destruct (NewMQ MessageQueueBinding) as [mq|e|]; cbn; [|done..]. intros [= <-]. by exists m, mq.
Qed.
End life.

(** * The wrappers with metrics *)

(** What the wrappers tell prometheus: an observation of [RPCLatency] for every request, with the name of the
    method and the text of the error, and the gauge [MempoolSize]. *)
Record metrics := mkMetrics { RPCLatency : list (string * string); MempoolSize : option Z }.

(** The name under which a request to the chain is observed; what asks no daemon is not observed. *)
Definition chain_label {A} (m : Method.t A) : option string :=
  match m with
  | Method.IsTestnet | Method.GetNetworkName | Method.GetSubversion | Method.GetCoinName => None
  | Method.GetChainInfo => Some "GetChainInfo"
  | Method.GetBestBlockHash => Some "GetBestBlockHash"
  | Method.GetBestBlockHeight => Some "GetBestBlockHeight"
  | Method.GetBlockHash _ => Some "GetBlockHash"
  | Method.GetBlockHeader _ => Some "GetBlockHeader"
  | Method.GetBlock _ _ => Some "GetBlock"
  | Method.GetBlockInfo _ => Some "GetBlockInfo"
  | Method.GetMempoolTransactions => Some "GetMempoolTransactions"
  | Method.GetTransaction _ => Some "GetTransaction"
  | Method.GetTransactionForMempool _ => Some "GetTransactionForMempool"
  | Method.GetTransactionSpecific _ => Some "GetTransactionSpecific"
  | Method.EstimateSmartFee _ _ => Some "EstimateSmartFee"
  | Method.EstimateFee _ => Some "EstimateFee"
  | Method.SendRawTransaction _ => Some "SendRawTransaction"
  | Method.GetMempoolEntry _ => Some "GetMempoolEntry"
  | Method.EthereumTypeGetBalance _ => Some "EthereumTypeGetBalance"
  | Method.EthereumTypeGetNonce _ => Some "EthereumTypeGetNonce"
  | Method.EthereumTypeEstimateGas _ => Some "EthereumTypeEstimateGas"
  | Method.EthereumTypeGetErc20ContractInfo _ => Some "EthereumTypeGetErc20ContractInfo"
  | Method.EthereumTypeGetErc20ContractBalance _ _ => Some "EthereumTypeGetErc20ContractInfo"
  | Method.Findzcserial _ => Some "Findzcserial"
  | Method.GetMasternodesInfo => Some "GetMasternodesInfo"
  | Method.GetPeersInfo => Some "GetPeersInfo"
  | Method.GetNodeBlockCount _ => Some "GetNodeBlockCount"
  end%string.

Definition mempool_label {A} (m : MempoolMethod.t A) : option string :=
  match m with
  | MempoolMethod.Resync => Some "ResyncMempool"
  | MempoolMethod.GetTransactions _ => Some "GetMempoolTransactions"
  | MempoolMethod.GetAddrDescTransactions _ => Some "GetMempoolTransactionsForAddrDesc"
  | MempoolMethod.GetAllEntries => Some "GetAllEntries"
  | MempoolMethod.GetTransactionTime _ => None
  end%string.

Section wrappers.
(** [err.Error()] *)
Context (errorText : error -> string).

Definition errorLabel {A} (r : go A) : string := match r with Fail e => errorText e | _ => EmptyString end.

Definition addLatency (method : string) (e : string) (m : metrics) : metrics :=
  mkMetrics (RPCLatency m ++ [(method, e)]) (MempoolSize m).

Definition setMempoolSize (n : Z) (m : metrics) : metrics := mkMetrics (RPCLatency m) (Some n).

(** [defer func(s time.Time) { c.observeRPCLatency(method, s, err) }(time.Now())]: the request is
    observed however it ends; after a panic [err] is nil. *)
Definition observeRPCLatency {S A} (method : string) (m : sgo (S * metrics) A) : sgo (S * metrics) A := fun s =>
  let '(s', mt, r) := m s in ((s', addLatency method (errorLabel r) mt), r).

Definition inner {S A} (m : sgo S A) : sgo (S * metrics) A := fun '(s, mt) => let '(s', r) := m s in ((s', mt), r).

Definition labelled {S A} (label : option string) (m : sgo (S * metrics) A) : sgo (S * metrics) A :=
  match label with Some l => observeRPCLatency l m | None => m end.

Definition blockChainWithMetrics {S} (b : forall A, Method.t A -> sgo S A) {A} (m : Method.t A) : sgo (S * metrics) A :=
  labelled (chain_label m) (inner (b A m)).

(** [Resync] also sets the gauge, if it succeeds. *)
Definition mempoolWithMetrics {S} (b : forall A, MempoolMethod.t A -> sgo S A) {A} (m : MempoolMethod.t A) : sgo (S * metrics) A :=
  labelled (mempool_label m)
    match m in MempoolMethod.t A return sgo (S * metrics) A with
    | MempoolMethod.Resync => fun s =>
        let '(s', mt, r) := inner (b Z MempoolMethod.Resync) s in
        ((s', match r with Ret count => setMempoolSize count mt | _ => mt end), r)
    | m => inner (b _ m)
    end.

(** ** Clients of a chain *)

(** A program that talks to a chain and its mempool, request by request; it sees how a request ends, also by a panic,
    which it may recover from. *)
Inductive client (R : Type) : Type :=
  | Done (r : R)
  | Ask {A : Type} (m : request A) (k : go A -> client R).
Arguments Done {R} r.
Arguments Ask {R A} m k.

(** Chain and mempool as what answers requests. *)
Record backend (S : Type) := mkBackend {
  on_chain : forall A, Method.t A -> sgo S A;
  on_mempool : forall A, MempoolMethod.t A -> sgo S A;
}.

Definition answer_of {S A} (b : backend S) (m : request A) : sgo S A :=
  match m with OnChain m => on_chain S b A m | OnMempool m => on_mempool S b A m end.

Fixpoint run {S R} (b : backend S) (p : client R) (s : S) : S * R :=
  match p with
  | Done r => (s, r)
  | Ask m k => let '(s', a) := answer_of b m s in run b (k a) s'
  end.

(** The two wrappers [NewBlockChain] returns share the metrics. *)
Definition withMetrics {S} (b : backend S) : backend (S * metrics) :=
  mkBackend (S * metrics) (fun A => blockChainWithMetrics (on_chain S b)) (fun A => mempoolWithMetrics (on_mempool S b)).

(** ** What is observed *)

Definition request_label {A} (m : request A) : option string :=
  match m with OnChain m => chain_label m | OnMempool m => mempool_label m end.

Definition observed {A} (m : request A) (a : go A) : list (string * string) :=
  match request_label m with Some l => [(l, errorLabel a)] | None => [] end.

(** The number of transactions the mempool had after a resync. *)
Definition mempoolSize {A} (m : MempoolMethod.t A) : go A -> option Z :=
  match m in MempoolMethod.t A return go A -> option Z with
  | MempoolMethod.Resync => fun a => match a with Ret count => Some count | _ => None end
  | _ => fun _ => None
  end.

Definition resynced {A} (m : request A) (a : go A) : option Z :=
  match m with OnMempool m => mempoolSize m a | OnChain _ => None end.

(** The observations of a run without wrappers. *)
Fixpoint observations {S R} (b : backend S) (p : client R) (s : S) (mt : metrics) : metrics :=
  match p with
  | Done _ => mt
  | Ask m k =>
      let '(s', a) := answer_of b m s in
      observations b (k a) s'
        (mkMetrics (RPCLatency mt ++ observed m a) (match resynced m a with Some n => Some n | None => MempoolSize mt end))
  end.

Lemma answer_with_metrics {S A} (b : backend S) (m : request A) s mt :
  answer_of (withMetrics b) m (s, mt) =
  let '(s', a) := answer_of b m s in
  ((s', mkMetrics (RPCLatency mt ++ observed m a) (match resynced m a with Some n => Some n | None => MempoolSize mt end)), a).
Proof.
  destruct mt as [l z]. destruct m as [m|m]; destruct m; cbn;
    unfold blockChainWithMetrics, mempoolWithMetrics, observed, observeRPCLatency, addLatency, setMempoolSize;
    cbn; match goal with |- context [?f ?a ?m s] => destruct (f a m s) as [s' [x|e|]] end;
    cbn; rewrite ?app_nil_r; reflexivity.
Qed.

(** Whoever talks to a blockchain through the wrappers with metrics gets the same answers and leaves chain and
    mempool in the same state as without them; every request that asks a daemon or a mempool is observed once,
    in order, with the text of its error, and the gauge shows the size after the last resync that succeeded. *)
Theorem metrics_transparent {S R} (b : backend S) (p : client R) : forall s mt,
  run (withMetrics b) p (s, mt) =
  let '(s', r) := run b p s in ((s', observations b p s mt), r).
Proof.
  induction p as [r|A m k IH]; intros s mt; [done|]. cbn [run observations].
  rewrite answer_with_metrics. destruct (answer_of b m s) as [s' a]. apply IH.
Qed.
End wrappers.

(** Questions for the name and for the balance of a contract are observed under one name. *)
Lemma balance_label addrDesc contractDesc :
  chain_label (Method.EthereumTypeGetErc20ContractBalance addrDesc contractDesc) =
  chain_label (Method.EthereumTypeGetErc20ContractInfo contractDesc).
Proof. done. Qed.
