(* ===== verification/WhatTheFee.v ===== *)
(** The fees of an external service ([bchain/coins/btc/whatthefee.go]): a goroutine asks the service
    again and again, keeps the table of fees it answers with and compares it from time to time with
    the fees the daemon estimates.

    The exchange over HTTP and the decoding of JSON are parameters, as is the
    exponential function that makes a fee of an entry (floating point); the timer of the
    goroutine is left out, a run is the list of the answers. *)
From stdpp Require Import base list strings.
From Stdlib Require Import ZArith Lia.
From S2P Require Import Prelude BaseParser BitcoinParser Rpc.

Open Scope Z_scope.
Open Scope go_scope.

Record whatTheFeeServiceResult := mkServiceResult { Index : list Z; Columns : list string; Data : list (list Z) }.

Record whatTheFeeParams := mkFeeParams { URL : string; PeriodSeconds : Z }.

Record whatTheFeeFee := mkFee { blocks : Z; feesPerKB : list Z }.

Record whatTheFeeData := mkFeeData {
  fd_params : whatTheFeeParams;
  probabilities : list string;
  fees : list whatTheFeeFee;
  lastSync : option Z;
}.

Section fees.
(** [json.Unmarshal] of the parameters and of an answer; [http.NewRequest]; [http.DefaultClient.Do], with the status and the
    body of the answer. *)
Context (json_params : string -> go whatTheFeeParams) (json_result : string -> go whatTheFeeServiceResult).
Context (NewRequest : string -> go unit) (http_Do : string -> go (Z * go string)).

(** [int(1000 * math.Exp(float64(l)/100))] *)
Context (expFee : Z -> Z).

(** [chain.EstimateSmartFee] *)
Context (EstimateSmartFee : Z -> bool -> go Z).

(** ** Start *)

Definition set_params (p : whatTheFeeParams) (d : whatTheFeeData) : whatTheFeeData :=
  mkFeeData p (probabilities d) (fees d) (lastSync d).

(** The goroutine is started if this returns. *)
Definition InitWhatTheFee (params : string) : sgo whatTheFeeData unit := fun d =>
  match json_params params with
  | Ret p =>
      let d := set_params p d in
      if bool_decide (URL p = EmptyString) || (PeriodSeconds p =? 0) then (d, Fail (ErrMsg "Missing parameters")) else (d, Ret tt)
  | Fail e => (d, Fail e)
  | Panic => (d, Panic)
  end.

(** The end of [BitcoinRPC.Initialize]: an alternative that cannot be started is turned off. *)
Definition alternativeFee (AlternativeEstimateFee params : string) : sgo whatTheFeeData string := fun d =>
  if String.eqb AlternativeEstimateFee "whatthefee"
  then match InitWhatTheFee params d with
       | (d, Ret _) => (d, Ret AlternativeEstimateFee)
       | (d, Fail _) => (d, Ret EmptyString)
       | (d, Panic) => (d, Panic)
       end
  else (d, Ret AlternativeEstimateFee).

(** ** An answer of the service *)

Definition whatTheFeeGetData (url : string) : go whatTheFeeServiceResult :=
  let* _ := NewRequest url in
  let* '(status, body) := http_Do url in
  if negb (status =? 200)
  then Fail (ErrMsg ("whatthefee.io returned status " ++ string_of_text (big_String status))%string)
  else safeDecodeResponse json_result body.

(** An entry of [make([]whatTheFeeFee, n)]. *)
Definition noFee : whatTheFeeFee := mkFee 0 [].

(** The loop over the rows: the table is made with its full length and filled up to the first row of
    another length than the columns. *)
Fixpoint fillFees (columns : nat) (rows : list (Z * list Z)) : list whatTheFeeFee * bool :=
  match rows with
  | [] => ([], true)
  | (b, row) :: rows' =>
      if negb (columns =? length row)%nat then (replicate (length rows) noFee, false)
      else let '(fs, ok) := fillFees columns rows' in (mkFee b (map expFee row) :: fs, ok)
  end.

Definition whatTheFeeProcessData (now : Z) (data : whatTheFeeServiceResult) (d : whatTheFeeData) : whatTheFeeData * bool :=
  if (length (Index data) =? 0)%nat || negb (length (Index data) =? length (Data data))%nat || (length (Columns data) =? 0)%nat
  then (d, false)
  else
    let '(fs, ok) := fillFees (length (Columns data)) (zip (Index data) (Data data)) in
    (mkFeeData (fd_params d) (Columns data) fs (if ok then Some now else lastSync d), ok).

(** ** The comparison *)

Definition sprint (n : Z) : string := (string_of_text (big_String n) ++ ",")%string.

Definition newline : string := String (Ascii.ascii_of_nat 10) EmptyString.

Definition compareLine (fee : whatTheFeeFee) : go string :=
  let* conservative := EstimateSmartFee (blocks fee) true in
  let* economical := EstimateSmartFee (blocks fee) false in
  Ret (sprint (blocks fee) ++ String.concat EmptyString (map sprint (feesPerKB fee)) ++
       string_of_text (big_String conservative) ++ "," ++ string_of_text (big_String economical) ++ newline)%string.

(** The text that is logged; an error of the daemon is logged instead. *)
Definition whatTheFeeCompareToDefault (d : whatTheFeeData) : go string :=
  let* lines := go_map compareLine (fees d) in Ret (String.concat EmptyString lines).

(** ** The goroutine *)

(** One round: the answer that came in, the table, the number of the tables that were taken, and what is
    logged of the comparison. *)
Definition downloadRound (now : Z) (answer : go whatTheFeeServiceResult) (s : whatTheFeeData * Z) :
    whatTheFeeData * Z * option (go string) :=
  let '(d, counter) := s in
  match answer with
  | Ret data =>
      match whatTheFeeProcessData now data d with
      | (d', true) => (d', counter + 1, if Z.rem counter 60 =? 0 then Some (whatTheFeeCompareToDefault d') else None)
      | (d', false) => (d', counter, None)
      end
  | _ => (d, counter, None)
  end.

(** The rounds of [whatTheFeeDownloader], with the times at which they come, and what they log. *)
Fixpoint whatTheFeeDownloader (rounds : list (Z * go whatTheFeeServiceResult)) (s : whatTheFeeData * Z) :
    whatTheFeeData * Z * list (go string) :=
  match rounds with
  | [] => (s, [])
  | (now, answer) :: rounds' =>
      let '(d, c, log) := downloadRound now answer s in
      let '(s', logs) := whatTheFeeDownloader rounds' (d, c) in
      (s', option_list log ++ logs)
  end.

(** * Facts *)

(** A table: as many rows as there are numbers of blocks, each with an entry per column. *)
Definition table (data : whatTheFeeServiceResult) : bool :=
  negb (length (Index data) =? 0)%nat && (length (Index data) =? length (Data data))%nat && negb (length (Columns data) =? 0)%nat &&
  forallb (fun row => length (Columns data) =? length row)%nat (Data data).

Definition tableFees (data : whatTheFeeServiceResult) : list whatTheFeeFee :=
  zip_with (fun b row => mkFee b (map expFee row)) (Index data) (Data data).

Lemma fillFees_table columns : forall index rows, length index = length rows ->
  match forallb (fun row => columns =? length row)%nat rows with
  | true => fillFees columns (zip index rows) = (zip_with (fun b row => mkFee b (map expFee row)) index rows, true)
  | false => (fillFees columns (zip index rows)).2 = false
  end.
Proof.
  induction index as [|b index IH]; intros [|row rows] Hl; try done. cbn. specialize (IH rows ltac:(by injection Hl)).
  destruct (columns =? length row)%nat; cbn; [|done].
  destruct (forallb _ rows); [by rewrite IH|]. destruct (fillFees columns (zip index rows)). done.
Qed.

(** A table is taken as it is; anything else is refused, and the time of the last table stays. *)
Lemma processData_table now data d :
  (whatTheFeeProcessData now data d).2 = table data /\
  (table data = true -> whatTheFeeProcessData now data d = (mkFeeData (fd_params d) (Columns data) (tableFees data) (Some now), true)) /\
  (table data = false -> lastSync (whatTheFeeProcessData now data d).1 = lastSync d).
Proof.
  unfold whatTheFeeProcessData, table.
  destruct (length (Index data) =? 0)%nat eqn:E0; cbn; [done|].
  destruct (length (Index data) =? length (Data data))%nat eqn:E1; cbn; [|done].
  destruct (length (Columns data) =? 0)%nat eqn:E2; cbn; [done|].
  pose proof (fillFees_table (length (Columns data)) (Index data) (Data data) (proj1 (Nat.eqb_eq _ _) E1)) as Hf.
  destruct (forallb _ (Data data)).
  - rewrite Hf. done.
  - destruct (fillFees _ _) as [fs ok]. cbn in Hf. subst. done.
Qed.

(** The number of the answers that are tables. *)
Definition taken (rounds : list (Z * go whatTheFeeServiceResult)) : Z :=
  zlen (List.filter (fun r => match r.2 with Ret data => table data | _ => false end) rounds).

Lemma taken_app l1 l2 : taken (l1 ++ l2) = taken l1 + taken l2.
Proof. unfold taken, zlen. rewrite List.filter_app, List.length_app. lia. Qed.

Lemma taken_one r : 0 <= taken [r] <= 1.
Proof. unfold taken, zlen. cbn [List.filter]. case_match; cbn; lia. Qed.

Lemma downloadRound_counter now answer d c :
  let '(_, c', log) := downloadRound now answer (d, c) in
  c' = c + taken [(now, answer)] /\
  zlen (option_list log) = (if Z.rem c 60 =? 0 then taken [(now, answer)] else 0).
Proof.
  unfold downloadRound, taken. cbn [List.filter snd]. destruct answer as [data|e|]; cbn; [|split; [unfold zlen; cbn; lia|by case_match]..].
  destruct (processData_table now data d) as (H2 & _). destruct (whatTheFeeProcessData now data d) as [d' ok]. cbn in H2. subst ok.
  destruct (table data); cbn; destruct (Z.rem c 60 =? 0); cbn; unfold zlen; cbn; lia.
Qed.

(** Of the tables the service answers with, the first one and then every sixtieth is compared with the fees of the daemon,
    however many answers in between fail or are no tables. *)
Theorem downloads_compared rounds d :
  let '(d', c, logs) := whatTheFeeDownloader rounds (d, 0) in
  c = taken rounds /\ zlen logs = (taken rounds + 59) / 60.
Proof.
  enough (forall d c, 0 <= c -> let '(d', c', logs) := whatTheFeeDownloader rounds (d, c) in
    c' = c + taken rounds /\ zlen logs = (c + taken rounds + 59) / 60 - (c + 59) / 60) as H.
  { specialize (H d 0 ltac:(lia)). destruct (whatTheFeeDownloader rounds (d, 0)) as [[d' c] logs].
    destruct H as [H1 H2]. change ((0 + 59) / 60) with 0 in H2. rewrite Z.sub_0_r, Z.add_0_l in *. done. }
  clear d. induction rounds as [|[now answer] rounds IH]; intros d c Hc; cbn [whatTheFeeDownloader].
  - unfold taken, zlen. cbn. rewrite Z.add_0_r. lia.
  - pose proof (downloadRound_counter now answer d c) as Hr.
    change ((now, answer) :: rounds) with ([(now, answer)] ++ rounds). rewrite taken_app. pose proof (taken_one (now, answer)).
    destruct (downloadRound now answer (d, c)) as [[d1 c1] log]. destruct Hr as [-> Hlog].
    specialize (IH d1 (c + taken [(now, answer)]) ltac:(lia)).
    destruct (whatTheFeeDownloader rounds (d1, c + taken [(now, answer)])) as [[d2 c2] logs]. destruct IH as [-> IH].
    split; [lia|]. unfold zlen in *. rewrite length_app, Nat2Z.inj_add, Hlog, IH.
    rewrite (Z.rem_mod_nonneg c 60) by lia.
    destruct (Z.eqb_spec (c mod 60) 0); rewrite ?(Z.add_assoc c); Z.to_euclidean_division_equations; lia.
Qed.
End fees.

(** An answer with a row of another length is refused, but the table has been replaced: it has the
    rows before it and empty entries behind. *)
Example refused_table :
  let data := mkServiceResult [3; 6; 9] ["0.05"; "0.2"]%string [[60; 180]; [20]; [0; 120]] in
  whatTheFeeProcessData (fun l => 1000 + l) 7 data (mkFeeData (mkFeeParams "u" 60) [] [mkFee 2 [5]] (Some 1)) =
  (mkFeeData (mkFeeParams "u" 60) ["0.05"; "0.2"]%string [mkFee 3 [1060; 1180]; noFee; noFee] (Some 1), false).
Proof. reflexivity. Qed.
