(* ===== verification/PortRegistry.v ===== *)
(** The registry of ports ([contrib/scripts/check-and-generate-port-registry.go]): the check that
    no two coins use a port, and the table of the ports in [docs/ports.md].

    The files of the configuration and their JSON are the class [CoinFiles]; a port is a uint16, and the decoder
    refuses any other number.  The order in which Go ranges
    over a map is an argument ([ranges]), because the table shows it.  Texts are UTF-8, as the
    decoder of JSON makes them: a rune is counted at its first byte.  The texts of the reports of
    the check are left out. *)
From stdpp Require Import base list strings gmap sorting.
From Stdlib Require Import ZArith Lia Ascii.
From S2P Require Import Prelude BaseParser.

Open Scope Z_scope.
Open Scope go_scope.

Definition inputDir : string := "configs/coins".
Definition outputFile : string := "docs/ports.md".

Record PortInfo := mkPortInfo {
  CoinName : string;
  BlockbookInternalPort : Z;
  BlockbookPublicPort : Z;
  BackendRPCPort : Z;
  BackendServicePorts : gmap string Z;
}.

Record Config := mkConfig { Name : string; Label : string; Ports : gmap string Z }.

Record FileInfo := mkFileInfo { fi_Name : string; IsDir : bool }.

(** [ioutil.ReadDir], and [os.Open] of a file with the decoder of JSON. *)
Class CoinFiles := {
  ReadDir : string -> go (list FileInfo);
  Open : string -> go (go Config);
}.

Definition joinPath (dir name : string) : string := (dir ++ "/" ++ name)%string.

(** [fi.IsDir() || fi.Name()[0] == '.'] *)
Definition skipped (fi : FileInfo) : go bool :=
  if IsDir fi then Ret true
  else match fi_Name fi with EmptyString => Panic | String c _ => Ret (Ascii.eqb c ".") end.

Section registry.
Context {F : CoinFiles}.

(** The order in which a map is ranged over. *)
Context (ranges : gmap string Z -> list (string * Z)).

(** [os.Open] and [d.Decode(&v)], with the path in front of an error. *)
Definition readConfig (dir : string) (fi : FileInfo) : go Config :=
  let path := joinPath dir (fi_Name fi) in
  let* d := annotate path (Open path) in
  annotate (path ++ ": json")%string d.

(** ** The check *)

Inductive report :=
  | Missing (coin port : string)
  | Shared (port : Z) (coins : list string).

Record checkState := mkCheck { ck_ports : gmap Z (list string); ck_status : Z; ck_reports : list report }.

Definition checkMissing (v : Config) (st : checkState) (port : string) : checkState :=
  match Ports v !! port with
  | Some _ => st
  | None => mkCheck (ck_ports st) 1 (ck_reports st ++ [Missing (Name v) port])
  end.

Definition registerPort (coin : string) (st : checkState) (port : Z) : checkState :=
  if 0 <? port then mkCheck (<[port := default [] (ck_ports st !! port) ++ [coin]]> (ck_ports st)) (ck_status st) (ck_reports st)
  else st.

Definition mandatory : list string := ["blockbook_internal"; "blockbook_public"; "backend_rpc"]%string.

Definition checkConfig (st : checkState) (v : Config) : checkState :=
  foldl (registerPort (Name v)) (foldl (checkMissing v) st mandatory) (map snd (ranges (Ports v))).

(** An error is a panic. *)
Definition checkFile (st : checkState) (fi : FileInfo) : go checkState :=
  let* skip := skipped fi in
  if skip then Ret st
  else match readConfig inputDir fi with Ret v => Ret (checkConfig st v) | _ => Panic end.

Definition checkShared (st : checkState) (e : Z * list string) : checkState :=
  if (1 <? zlen e.2) then mkCheck (ck_ports st) 1 (ck_reports st ++ [Shared e.1 e.2]) else st.

Definition checkPorts : go (Z * list report) :=
  match ReadDir inputDir with
  | Ret files =>
      let* st := go_fold checkFile (mkCheck ∅ 0 []) files in
      let st := foldl checkShared st (map_to_list (ck_ports st)) in
      Ret (ck_status st, ck_reports st)
  | _ => Panic
  end.

(** ** The table *)

(** The text behind the prefix "backend_", if it is not empty. *)
Definition serviceName (k : string) : option string :=
  if (8 <? String.length k)%nat && String.eqb (String.substring 0 8 k) "backend_"
  then Some (String.substring 8 (String.length k - 8) k) else None.

Definition addPort (item : PortInfo) (e : string * Z) : PortInfo :=
  let '(k, v) := e in
  if v =? 0 then item
  else if String.eqb k "blockbook_internal"
  then mkPortInfo (CoinName item) v (BlockbookPublicPort item) (BackendRPCPort item) (BackendServicePorts item)
  else if String.eqb k "blockbook_public"
  then mkPortInfo (CoinName item) (BlockbookInternalPort item) v (BackendRPCPort item) (BackendServicePorts item)
  else if String.eqb k "backend_rpc"
  then mkPortInfo (CoinName item) (BlockbookInternalPort item) (BlockbookPublicPort item) v (BackendServicePorts item)
  else match serviceName k with
       | Some s => mkPortInfo (CoinName item) (BlockbookInternalPort item) (BlockbookPublicPort item) (BackendRPCPort item)
                     (<[s := v]> (BackendServicePorts item))
       | None => item
       end.

Definition portInfo (v : Config) : PortInfo :=
  let name := if bool_decide (Label v = EmptyString) then Name v else Label v in
  foldl addPort (mkPortInfo name 0 0 0 ∅) (ranges (Ports v)).

Definition loadFile (dir : string) (items : list PortInfo) (fi : FileInfo) : go (list PortInfo) :=
  let* skip := skipped fi in
  if skip then Ret items
  else let* v := readConfig dir fi in Ret (items ++ [portInfo v]).

Definition loadPortInfo (dir : string) : go (list PortInfo) :=
  let* files := ReadDir dir in go_fold (loadFile dir) [] files.

Definition MaxUint16 : Z := 65535.

(** A missing port is sorted to the end. *)
Definition normalize (a : Z) : Z := if a =? 0 then MaxUint16 else a.

Definition less (x y : PortInfo) : bool :=
  let a := normalize (BlockbookPublicPort x) in let b := normalize (BlockbookPublicPort y) in
  if a <? b then true else if b <? a then false
  else
    let a := normalize (BackendRPCPort x) in let b := normalize (BackendRPCPort y) in
    if a <? b then true else if b <? a then false
    else match String.compare (CoinName x) (CoinName y) with Lt => true | _ => false end.

(** [sort.Slice] sorts by a strict order; the theorems do not depend on the algorithm. *)
Definition notLess (x y : PortInfo) : Prop := less y x = false.
#[global] Instance notLess_dec x y : Decision (notLess x y).
Proof. unfold notLess. apply _. Defined.

Definition sortPortInfo (slice : list PortInfo) : list PortInfo := merge_sort notLess slice.

(** *** Cells and lines *)

Definition number (n : Z) : string := String.string_of_list_ascii (big_String n).

Definition portCell (port : Z) : string := if 0 <? port then number port else EmptyString.

Definition serviceCell (e : string * Z) : string :=
  if String.eqb e.1 "message_queue" then number e.2 else (number e.2 ++ " " ++ e.1)%string.

Definition tableRow (item : PortInfo) : list string :=
  [CoinName item; portCell (BlockbookInternalPort item); portCell (BlockbookPublicPort item); portCell (BackendRPCPort item);
   String.concat ", " (map serviceCell (ranges (BackendServicePorts item)))].

Definition header : list string :=
  ["coin"; "blockbook internal port"; "blockbook public port"; "backend rpc port"; "backend service ports (zmq)"]%string.

Definition maxInt (a b : nat) : nat := if (b <? a)%nat then a else b.

(** [padding[column]]: the length in bytes of the longest cell. *)
Definition paddings (header : list string) (rows : list (list string)) : list nat :=
  imap (fun column h => foldl (fun m row => maxInt m (String.length (default EmptyString (row !! column)))) (String.length h) rows) header.

(** [utf8.RuneCountInString], with which a formatted text is padded. *)
Definition startsRune (c : ascii) : bool := negb ((128 <=? N_of_ascii c)%N && (N_of_ascii c <? 192)%N).

Fixpoint runeCount (s : string) : nat :=
  match s with EmptyString => 0%nat | String c s' => (if startsRune c then S (runeCount s') else runeCount s') end.

Fixpoint repeatString (s : string) (n : nat) : string :=
  match n with O => EmptyString | S n' => (s ++ repeatString s n')%string end.

(** [fmt.Sprintf(" %-Ns ", cell)] *)
Definition padCell (n : nat) (cell : string) : string :=
  (" " ++ cell ++ repeatString " " (n - runeCount cell) ++ " ")%string.

Definition paddedRow (row : list string) (padding : list nat) : list string := zip_with (fun cell n => padCell n cell) row padding.

Definition delim (str : string) (padding : list nat) : list string := map (fun n => repeatString str (n + 2)) padding.

Definition newline : string := String (ascii_of_nat 10) EmptyString.

Definition tableLine (row : list string) : string := ("|" ++ String.concat "|" row ++ "|" ++ newline)%string.

Definition tableLines (header : list string) (slice : list PortInfo) : list string :=
  let rows := map tableRow slice in
  let padding := paddings header rows in
  map tableLine (paddedRow header padding :: delim "-" padding :: map (fun row => paddedRow row padding) rows).

Definition writeTable (header : list string) (slice : list PortInfo) : string := String.concat EmptyString (tableLines header slice).

Definition markdown (slice : list PortInfo) : string :=
  ("# Registry of ports" ++ newline ++ newline ++ writeTable header slice ++ newline ++
   "> NOTE: This document is generated from coin definitions in `configs/coins`." ++ newline)%string.

(** ** The program *)

Inductive outcome :=
  | Usage
  | Exit (status : Z)
  | Crash
  | Written (output text : string).

(** [args] are the arguments behind the name of the program. *)
Definition registryMain (args : list string) : outcome :=
  match args with
  | [] | ["-w"%string] =>
      let output := match args with [] => "stdout"%string | _ => outputFile end in
      match checkPorts with
      | Ret (status, _) =>
          if negb (status =? 0) then Exit status
          else match loadPortInfo inputDir with
               | Ret slice => Written output (markdown (sortPortInfo slice))
               | _ => Crash
               end
      | _ => Crash
      end
  | _ => Usage
  end.
End registry.

(** * Facts *)

(** ** The order *)

Lemma ascii_compare_spec c d : Ascii.compare c d = N.compare (N_of_ascii c) (N_of_ascii d).
Proof. done. Qed.

Lemma string_lt_trans a : forall b c, String.compare a b = Lt -> String.compare b c = Lt -> String.compare a c = Lt.
Proof.
  induction a as [|x a IH]; intros [|y b] [|z c]; cbn [String.compare]; try done.
  rewrite !ascii_compare_spec.
  destruct (N.compare_spec (N_of_ascii x) (N_of_ascii y)) as [E1|E1|E1]; try done;
  destruct (N.compare_spec (N_of_ascii y) (N_of_ascii z)) as [E2|E2|E2]; try done; intros H1 H2;
  destruct (N.compare_spec (N_of_ascii x) (N_of_ascii z)) as [E3|E3|E3]; try done; try lia. by apply (IH b).
Qed.

Definition string_le (a b : string) : Prop := String.compare a b <> Gt.

Lemma string_le_trans a b c : string_le a b -> string_le b c -> string_le a c.
Proof.
  unfold string_le. intros H1 H2. destruct (String.compare a b) eqn:E1; [|clear H1|done].
  - by apply String.compare_eq_iff in E1 as ->.
  - destruct (String.compare b c) eqn:E2; [|clear H2|done].
    + apply String.compare_eq_iff in E2 as <-. by rewrite E1.
    + by rewrite (string_lt_trans a b c).
Qed.

Lemma string_le_total a b : string_le a b \/ string_le b a.
Proof. unfold string_le. rewrite (String.compare_antisym b a). destruct (String.compare a b); cbn; first [by left | by right | left; discriminate | right; discriminate]. Qed.

Lemma string_le_antisym a b : string_le a b -> string_le b a -> a = b.
Proof.
  unfold string_le. rewrite (String.compare_antisym b a). destruct (String.compare a b) eqn:E; cbn; [|done..].
  intros _ _. by apply String.compare_eq_iff.
Qed.

(** By public port, then by the port of the backend, then by name; missing ports last. *)
Definition before (x y : PortInfo) : Prop :=
  normalize (BlockbookPublicPort x) < normalize (BlockbookPublicPort y) \/
  normalize (BlockbookPublicPort x) = normalize (BlockbookPublicPort y) /\
  (normalize (BackendRPCPort x) < normalize (BackendRPCPort y) \/
   normalize (BackendRPCPort x) = normalize (BackendRPCPort y) /\ string_le (CoinName x) (CoinName y)).

Lemma notLess_before x y : notLess x y <-> before x y.
Proof.
  unfold notLess, less, before, string_le. rewrite (String.compare_antisym (CoinName y) (CoinName x)).
  destruct (Z.ltb_spec (normalize (BlockbookPublicPort y)) (normalize (BlockbookPublicPort x))); [split; [done|lia]|].
  destruct (Z.ltb_spec (normalize (BlockbookPublicPort x)) (normalize (BlockbookPublicPort y))); [split; [lia|done]|].
  destruct (Z.ltb_spec (normalize (BackendRPCPort y)) (normalize (BackendRPCPort x))); [split; [done|lia]|].
  destruct (Z.ltb_spec (normalize (BackendRPCPort x)) (normalize (BackendRPCPort y))); [split; [lia|done]|].
  destruct (String.compare (CoinName x) (CoinName y)); cbn; split; try done; intros Hc;
    solve [right; (split; [lia|]); right; (split; [lia|done])|destruct Hc as [Hc|[_ [Hc|[_ Hc]]]]; [lia|lia|done]].
Qed.

#[global] Instance before_trans : Transitive before.
Proof.
  intros x y z [H1|[H1 [H2|[H2 H3]]]] [G1|[G1 [G2|[G2 G3]]]]; unfold before; try lia.
  right. split; [lia|]. right. split; [lia|]. by eapply string_le_trans.
Qed.

#[global] Instance notLess_trans : Transitive notLess.
Proof. intros x y z. rewrite !notLess_before. apply before_trans. Qed.

#[global] Instance notLess_total : Total notLess.
Proof.
  intros x y. rewrite !notLess_before. unfold before. 
  destruct (Z.lt_trichotomy (normalize (BlockbookPublicPort x)) (normalize (BlockbookPublicPort y))) as [|[|]]; [by auto| |by auto].
  destruct (Z.lt_trichotomy (normalize (BackendRPCPort x)) (normalize (BackendRPCPort y))) as [|[|]]; [by auto| |by auto].
  destruct (string_le_total (CoinName x) (CoinName y)); [left|right]; do 2 (right; split; [done|]); done.
Qed.

(** What two entries that the order does not tell apart have in common. *)
Lemma notLess_same x y : notLess x y -> notLess y x ->
  normalize (BlockbookPublicPort x) = normalize (BlockbookPublicPort y) /\
  normalize (BackendRPCPort x) = normalize (BackendRPCPort y) /\ CoinName x = CoinName y.
Proof.
  rewrite !notLess_before. unfold before. intros [H1|[H1 [H2|[H2 H3]]]] [G1|[G1 [G2|[G2 G3]]]]; try lia.
  split; [done|]. split; [done|]. by apply string_le_antisym.
Qed.

(** ** The table is sorted *)

Lemma sortPortInfo_sorted slice : StronglySorted notLess (sortPortInfo slice).
Proof. apply StronglySorted_merge_sort; apply _. Qed.

(** The lists of an order in which equal entries are the same entry. *)
Lemma sorted_unique l1 l2 :
  NoDup (map CoinName l1) -> l1 ≡ₚ l2 -> StronglySorted notLess l1 -> StronglySorted notLess l2 -> l1 = l2.
Proof.
  intros Hn HP H1 H2. apply (StronglySorted_unique_strong notLess); [|done..].
  intros x y Hx Hy Hxy Hyx. destruct (notLess_same x y Hxy Hyx) as (_ & _ & Hname).
  rewrite <- HP in Hy. apply list_elem_of_lookup in Hx as [i Hi]. apply list_elem_of_lookup in Hy as [j Hj].
  assert (i = j) as ->; [|by simplify_eq].
  eapply (NoDup_lookup (map CoinName l1)); [done|..]; rewrite list_lookup_fmap; [by rewrite Hi|by rewrite Hj; cbn; rewrite Hname].
Qed.

(** Any algorithm that sorts by [less] makes the same table, if no two coins have one name. *)
Theorem sortPortInfo_unique slice l :
  NoDup (map CoinName slice) -> l ≡ₚ slice -> StronglySorted notLess l -> l = sortPortInfo slice.
Proof.
  intros Hn HP Hs. apply sorted_unique; [by rewrite HP| |done|apply sortPortInfo_sorted].
  rewrite HP. symmetry. apply merge_sort_Permutation.
Qed.

(** ** The check *)

Section check.
Context {F : CoinFiles} (ranges : gmap string Z -> list (string * Z)).
Context (ranges_all : forall m, ranges m ≡ₚ map_to_list m).

Definition complete (v : Config) : Prop := Forall (fun port => is_Some (Ports v !! port)) mandatory.

Definition usedPorts (v : Config) : list Z := filter (Z.lt 0) (map snd (map_to_list (Ports v))).

(** The configurations of the coins, in the order of the directory. *)
Definition addConfig (vs : list Config) (fi : FileInfo) : go (list Config) :=
  let* skip := skipped fi in
  if skip then Ret vs else let* v := readConfig inputDir fi in Ret (vs ++ [v]).

Definition coinConfigs : go (list Config) :=
  let* files := ReadDir inputDir in go_fold addConfig [] files.

(** What the state of the check knows of the configurations read. *)
Record known (st : checkState) (vs : list Config) : Prop := {
  known_ports : forall p, length (default [] (ck_ports st !! p)) = count_occ Z.eq_dec (concat (map usedPorts vs)) p;
  known_status : ck_status st = 0 <-> Forall complete vs;
}.

Lemma registerPort_count coin st port p :
  length (default [] (ck_ports (registerPort coin st port) !! p)) =
  (length (default [] (ck_ports st !! p)) + count_occ Z.eq_dec (filter (Z.lt 0) [port]) p)%nat.
Proof.
  unfold registerPort. rewrite filter_cons, filter_nil. destruct (Z.ltb_spec 0 port); [|rewrite decide_False by lia; cbn; lia].
  rewrite decide_True by done. cbn. destruct (Z.eq_dec port p) as [->|Hne].
  - by rewrite lookup_insert_eq; cbn; rewrite List.length_app.
  - rewrite lookup_insert_ne by done. lia.
Qed.

Lemma registerPorts_count coin ports p : forall st,
  length (default [] (ck_ports (foldl (registerPort coin) st ports) !! p)) =
  (length (default [] (ck_ports st !! p)) + count_occ Z.eq_dec (filter (Z.lt 0) ports) p)%nat.
Proof.
  induction ports as [|port ports IH]; intros st; [cbn; lia|].
  cbn [foldl]. rewrite IH, registerPort_count, (filter_app _ [port] ports), count_occ_app. lia.
Qed.

Lemma registerPorts_status coin ports : forall st, ck_status (foldl (registerPort coin) st ports) = ck_status st.
Proof. induction ports as [|port ports IH]; intros st; [done|]. cbn. rewrite IH. unfold registerPort. by case_match. Qed.

Lemma checkMissing_ports v l : forall st, ck_ports (foldl (checkMissing v) st l) = ck_ports st.
Proof. induction l as [|k l IH]; intros st; [done|]. cbn. rewrite IH. unfold checkMissing. by case_match. Qed.

Lemma checkMissing_status v l : forall st,
  ck_status (foldl (checkMissing v) st l) = 0 <-> ck_status st = 0 /\ Forall (fun port => is_Some (Ports v !! port)) l.
Proof.
  induction l as [|k l IH]; intros st; cbn; [split; [auto|by intros [? _]]|].
  rewrite IH, Forall_cons. unfold checkMissing. destruct (Ports v !! k) eqn:E; cbn.
  - split; [intros [? ?]|intros [? [? ?]]]; eauto.
  - split; [by intros [? ?]|]. intros (_ & [? ?] & _). done.
Qed.

Lemma checkConfig_known st vs v : known st vs -> known (checkConfig ranges st v) (vs ++ [v]).
Proof.
  intros [HP HS]. unfold checkConfig. split.
  - intros p. rewrite registerPorts_count, checkMissing_ports, HP, map_app, concat_app, count_occ_app. cbn. rewrite app_nil_r.
    f_equal. apply Permutation_count_occ. unfold usedPorts. by rewrite ranges_all.
  - rewrite registerPorts_status, checkMissing_status, HS, Forall_app, Forall_singleton. done.
Qed.

Lemma checkFile_known st vs fi : known st vs ->
  match addConfig vs fi with
  | Ret vs' => exists st', checkFile ranges st fi = Ret st' /\ known st' vs'
  | _ => checkFile ranges st fi = Panic
  end.
Proof.
  intros HK. unfold addConfig, checkFile.
  destruct (skipped fi) as [[]|e|] eqn:Es; cbn; [by eauto| |unfold skipped in Es; repeat case_match; done|done].
  destruct (readConfig inputDir fi) as [v|e|]; cbn; [|done..].
  eexists. split; [done|]. by apply checkConfig_known.
Qed.

Lemma checkFiles_known files : forall st vs, known st vs ->
  match go_fold addConfig vs files with
  | Ret vs' => exists st', go_fold (checkFile ranges) st files = Ret st' /\ known st' vs'
  | _ => go_fold (checkFile ranges) st files = Panic
  end.
Proof.
  induction files as [|fi files IH]; intros st vs HK; [by exists st|].
  cbn [go_fold]. pose proof (checkFile_known st vs fi HK) as Hf.
  destruct (addConfig vs fi) as [vs'|e|]; cbn [go_bind]; [destruct Hf as (st' & -> & HK'); by apply IH|by rewrite Hf..].
Qed.

Lemma checkShared_status l : forall st,
  ck_status (foldl checkShared st l) = 0 <-> ck_status st = 0 /\ Forall (fun e => (length e.2 <= 1)%nat) l.
Proof.
  induction l as [|e l IH]; intros st; cbn; [split; [auto|by intros [? _]]|].
  rewrite IH, Forall_cons. unfold checkShared, zlen. destruct (Z.ltb_spec 1 (Z.of_nat (length e.2))); cbn; [split; [by intros [? ?]|lia]|].
  split; [intros [? ?]; split; [done|]; split; [lia|done]|tauto].
Qed.

Lemma nodup_counts (m : gmap Z (list string)) (ps : list Z) :
  (forall p, length (default [] (m !! p)) = count_occ Z.eq_dec ps p) ->
  Forall (fun e : Z * list string => (length e.2 <= 1)%nat) (map_to_list m) <-> NoDup ps.
Proof.
  intros Hc. rewrite NoDup_ListNoDup, (NoDup_count_occ Z.eq_dec), Forall_forall. split.
  - intros Hl p. rewrite <- Hc. destruct (m !! p) as [cs|] eqn:E; cbn; [|lia].
    by apply (Hl (p, cs)), elem_of_map_to_list.
  - intros Hl [p cs] He%elem_of_map_to_list. cbn. specialize (Hl p). rewrite <- Hc, He in Hl. done.
Qed.

(** C40: The check of the ports: a file that cannot be read stops it; otherwise it ends with the
    status 0 exactly if every coin registers the three mandatory ports and no port but 0 is
    registered twice, by two coins or by one; every other status is 1. *)
Theorem checkPorts_exact :
  match coinConfigs with
  | Ret vs =>
      exists status reports, checkPorts ranges = Ret (status, reports) /\
      (status = 0 <-> Forall complete vs /\ NoDup (concat (map usedPorts vs)))
  | _ => checkPorts ranges = Panic
  end.
Proof.
  unfold coinConfigs, checkPorts. destruct (ReadDir inputDir) as [files|e|]; cbn; [|done..].
  pose proof (checkFiles_known files (mkCheck ∅ 0 []) []) as HK.
  destruct (go_fold addConfig [] files) as [vs|e|];
    [destruct HK as (st & -> & [HP HS])|rewrite HK|rewrite HK]; try (split; [|done]; intros p; by rewrite lookup_empty); try done.
  cbn. eexists _, _. split; [done|]. rewrite checkShared_status, HS, (nodup_counts _ (concat (map usedPorts vs))) by done. done.
Qed.

(** What [loadPortInfo] makes of the same files: one entry per coin, in the order of the directory. *)
Theorem loadPortInfo_exact :
  loadPortInfo ranges inputDir =
  match coinConfigs with Ret vs => Ret (map (portInfo ranges) vs) | Fail e => Fail e | Panic => Panic end.
Proof.
  unfold loadPortInfo, coinConfigs. destruct (ReadDir inputDir) as [files|e|]; cbn; [|done..].
  change (@nil PortInfo) with (map (portInfo ranges) []). generalize (@nil Config) as vs.
  induction files as [|fi files IH]; intros vs; [done|]. cbn [go_fold].
  assert (loadFile ranges inputDir (map (portInfo ranges) vs) fi =
    match addConfig vs fi with Ret vs => Ret (map (portInfo ranges) vs) | Fail e => Fail e | Panic => Panic end) as ->.
  { unfold loadFile, addConfig. destruct (skipped fi) as [[]|e|]; cbn; [done| |done|done].
    destruct (readConfig inputDir fi); cbn; [by rewrite map_app|done..]. }
  destruct (addConfig vs fi); cbn; [apply IH|done..].
Qed.
End check.

(** ** The lines of the table *)

Lemma runeCount_app a b : runeCount (a ++ b)%string = (runeCount a + runeCount b)%nat.
Proof.
  induction a as [|c a IH]; [done|]. change (String c a ++ b)%string with (String c (a ++ b)%string).
  cbn [runeCount]. rewrite IH. by destruct (startsRune c).
Qed.

Lemma runeCount_le s : (runeCount s <= String.length s)%nat.
Proof. induction s as [|c s IH]; cbn; [lia|]. destruct (startsRune c); lia. Qed.

Lemma runeCount_repeat s n : runeCount (repeatString s n) = (n * runeCount s)%nat.
Proof. induction n as [|n IH]; [done|]. cbn. rewrite runeCount_app, IH. lia. Qed.

Lemma padCell_width n cell : (String.length cell <= n)%nat -> runeCount (padCell n cell) = (n + 2)%nat.
Proof.
  intros Hl. pose proof (runeCount_le cell). unfold padCell. rewrite !runeCount_app, runeCount_repeat.
  change (runeCount " ") with 1%nat. lia.
Qed.

(** The width of a line: the columns, the bars and the end of the line. *)
Definition lineWidth (padding : list nat) : nat := (sum_list_with (fun n => n + 2)%nat padding + length padding + 2)%nat.

Lemma concat_bars_width cells : cells <> [] ->
  runeCount (String.concat "|" cells) = (sum_list_with runeCount cells + length cells - 1)%nat.
Proof.
  induction cells as [|c [|d cells] IH]; [done|cbn; lia|]. intros _.
  change (String.concat "|" (c :: d :: cells)) with (c ++ "|" ++ String.concat "|" (d :: cells))%string.
  rewrite !runeCount_app, IH by done. change (runeCount "|") with 1%nat. cbn [sum_list_with length]. lia.
Qed.

Lemma tableLine_width cells padding : padding <> [] ->
  Forall2 (fun cell n => runeCount cell = n + 2)%nat cells padding ->
  runeCount (tableLine cells) = lineWidth padding.
Proof.
  intros Hne H2. assert (cells <> []) by (intros ->; by inversion H2; subst).
  unfold tableLine. rewrite !runeCount_app, concat_bars_width by done.
  assert (sum_list_with runeCount cells = sum_list_with (fun n => n + 2)%nat padding) as ->.
  { clear Hne H. induction H2 as [|c n cells padding Hc _ IH]; [done|]. cbn. by rewrite Hc, IH. }
  rewrite (Forall2_length _ _ _ H2). unfold lineWidth. change (runeCount "|") with 1%nat. change (runeCount newline) with 1%nat.
  destruct padding; [done|]. cbn [length]. lia.
Qed.

Lemma paddedRow_width row padding :
  Forall2 (fun cell n => String.length cell <= n)%nat row padding ->
  Forall2 (fun cell n => runeCount cell = n + 2)%nat (paddedRow row padding) padding.
Proof. induction 1 as [|c n row padding Hc _ IH]; constructor; [by apply padCell_width|done]. Qed.

Lemma delim_width padding : Forall2 (fun cell n => runeCount cell = n + 2)%nat (delim "-" padding) padding.
Proof.
  unfold delim. induction padding as [|n padding IH]; cbn [map]; [by constructor|].
  constructor; [|done]. rewrite runeCount_repeat. change (runeCount "-") with 1%nat. lia.
Qed.

Lemma maxInt_max a b : maxInt a b = Nat.max a b.
Proof. unfold maxInt. destruct (Nat.ltb_spec b a); lia. Qed.

Lemma longest_cell (f : list string -> nat) rows : forall m,
  (m <= foldl (fun m row => maxInt m (f row)) m rows)%nat /\
  Forall (fun row => f row <= foldl (fun m row => maxInt m (f row)) m rows)%nat rows.
Proof.
  induction rows as [|row rows IH]; intros m; [by split|]. cbn. destruct (IH (maxInt m (f row))) as [H1 H2].
  rewrite maxInt_max in *. split; [lia|]. constructor; [lia|done].
Qed.

Lemma paddings_header h rows : Forall2 (fun cell n => String.length cell <= n)%nat h (paddings h rows).
Proof.
  apply Forall2_same_length_lookup. unfold paddings. split; [by rewrite length_imap|].
  intros i cell n Hc Hn. rewrite list_lookup_imap, Hc in Hn. cbn in Hn. simplify_eq.
  apply (longest_cell (fun row => String.length (default EmptyString (row !! i)))).
Qed.

Lemma paddings_row h rows row : row ∈ rows -> length row = length h ->
  Forall2 (fun cell n => String.length cell <= n)%nat row (paddings h rows).
Proof.
  intros Hin Hl. apply Forall2_same_length_lookup. unfold paddings. split; [by rewrite length_imap|].
  intros i cell n Hc Hn. rewrite list_lookup_imap in Hn. destruct (h !! i) as [t|]; [|done]. cbn in Hn. simplify_eq.
  destruct (longest_cell (fun row => String.length (default EmptyString (row !! i))) rows (String.length t)) as [_ Hf].
  rewrite Forall_forall in Hf. specialize (Hf row Hin). cbn in Hf. by rewrite Hc in Hf.
Qed.

(** The columns of the table stand below each other, whatever the names of the coins and the services:
    every line has the same number of runes. *)
Theorem table_aligned ranges slice :
  Forall (fun line => runeCount line = lineWidth (paddings header (map (tableRow ranges) slice)))
    (tableLines ranges header slice).
Proof.
  unfold tableLines. set (rows := map (tableRow ranges) slice). set (padding := paddings header rows).
  assert (padding <> []) by done.
  constructor; [|constructor].
  - apply tableLine_width, paddedRow_width, paddings_header. done.
  - by apply tableLine_width, delim_width.
  - apply Forall_forall. intros line (row' & -> & (row & -> & Hrow)%list_elem_of_fmap)%list_elem_of_fmap.
    apply tableLine_width, paddedRow_width, paddings_row; [done|done|].
    apply list_elem_of_fmap in Hrow as (item & -> & _). done.
Qed.

(** ** Sample configurations *)

Definition skyrConfig (public : Z) : Config :=
  mkConfig "Skyrchain" "Skyr" (list_to_map [("backend_rpc", 8030); ("backend_message_queue", 38330); ("backend_p2p", 8333);
    ("blockbook_internal", 9030); ("blockbook_public", public)]%string).

Definition bitcoinConfig : Config :=
  mkConfig "Bitcoin" "" (list_to_map [("backend_rpc", 8031); ("backend_message_queue", 38331);
    ("blockbook_internal", 9031); ("blockbook_public", 9130)]%string).

(** A hidden file, a directory and the files of two coins. *)
Definition sampleFiles (public : Z) : CoinFiles := {|
  ReadDir dir := Ret [mkFileInfo ".swp" false; mkFileInfo "bitcoin.json" false; mkFileInfo "old" true; mkFileInfo "skyr.json" false]%string;
  Open path := if String.eqb path "configs/coins/bitcoin.json" then Ret (Ret bitcoinConfig)
               else if String.eqb path "configs/coins/skyr.json" then Ret (Ret (skyrConfig public)) else Fail (ErrMsg "no such file");
|}.

Lemma checkPorts_exact_witness :
  (exists status reports,
     checkPorts (F := sampleFiles 9130) map_to_list = Ret (status, reports) /\
     (status = 0 <-> Forall complete [bitcoinConfig; skyrConfig 9130] /\ NoDup (concat (map usedPorts [bitcoinConfig; skyrConfig 9130])))) /\
  checkPorts (F := sampleFiles 9130) map_to_list = Ret (1, [Shared 9130 ["Bitcoin"; "Skyrchain"]%string]) /\
  checkPorts (F := sampleFiles 9131) map_to_list = Ret (0, []).
Proof.
  split; [|split; vm_compute; reflexivity].
  exact (checkPorts_exact (F := sampleFiles 9130) map_to_list (fun m => Permutation_refl _)).
Defined.

(** The file [docs/ports.md] is not determined by the configurations: the services of a coin are
    listed in the order in which Go ranges over their map, which is random. *)
Theorem service_order :
  let F := sampleFiles 9131 in let backwards (m : gmap string Z) := reverse (map_to_list m) in
  (forall m, backwards m ≡ₚ map_to_list m) /\
  exists text1 text2, registryMain map_to_list ["-w"%string] = Written outputFile text1 /\
    registryMain backwards ["-w"%string] = Written outputFile text2 /\ text1 <> text2.
Proof.
  split; [intros m; apply reverse_Permutation|]. eexists _, _.
  split; [vm_compute; reflexivity|]. split; [vm_compute; reflexivity|]. discriminate.
Qed.
