(* ===== verification/Socketio.v ===== *)
(** The socket.io server ([server/socketio.go]): the messages of the older wallets, the
    subscriptions and the notifications.

    What the server does with the library of the connections is recorded: the rooms a
    channel joined, and what was broadcast to which room.  [json.Unmarshal] is the class
    [SioJson]; floats are kept as decimal texts, of a number in a request only its integer
    part is used.  Metrics and logs are left out. *)
From stdpp Require Import base list gmap strings.
From Stdlib Require Import ZArith Lia Ascii.
From S2P Require Import Prelude Hex Types Store Vlq Codec InternalState AddrBalance TxAddresses RocksDB RocksDBFacts.
From S2P Require Import BaseParser BitcoinParser EthParser BitcoinIndex EthIndex Connect ConnectFacts Mempool Sync ApiTypes Worker WorkerFacts.
From S2P Require Import Xpub Websocket Skyr Rpc.

Open Scope Z_scope.
Open Scope go_scope.

(** ** Requests and answers *)

Record addrOpts := mkAddrOpts { o_Start : Z; o_End : Z; o_QueryMempoolOnly : bool; o_From : Z; o_To : Z }.

Record addressHistoryIndexes := mkIndexes { InputIndexes : list Z; OutputIndexes : list Z }.

Module TxInputs.
Record t := mk {
  Txid : string;
  OutputIndex : Z;
  Script : string;
  Sequence : Z;
  Address : option string;
  Satoshis : Z;
}.
End TxInputs.

Module TxOutputs.
Record t := mk { Satoshis : Z; Script : string; Address : option string }.
End TxOutputs.

Module ResTx.
Record t := mk {
  Hex : string;
  Height : Z;
  BlockTimestamp : Z;
  Version : Z;
  Hash : string;
  Locktime : Z;
  Inputs : list TxInputs.t;
  InputSatoshis : Z;
  Outputs : list TxOutputs.t;
  OutputSatoshis : Z;
  FeeSatoshis : Z;
}.
End ResTx.

Module HistoryItem.
Record t := mk {
  Addresses : gmap string addressHistoryIndexes;
  Satoshis : Z;
  Confirmations : Z;
  Tx : ResTx.t;
}.
End HistoryItem.

Inductive sioResult :=
  | SError (message : string)
  | STxids (txids : list string)
  | SHistory (totalCount : Z) (items : list HistoryItem.t)
  | SHeader (hash : string) (confirmations height : Z) (next : string)
  | SFee (fee : text)
  | SInfo (blocks : Z) (testnet : bool) (network subversion coin : string)
  | STransaction (tx : ResTx.t)
  | SSent (txid : string)
  | SEntry (e : MempoolEntry.t).

(** An element of the array of parameters; a number is cut to its integer part. *)
Inductive jsonArg := AString (s : string) | ANumber (n : Z) | ABool (b : bool) | AOther.

Class SioJson := {
  json_array : string -> go (list jsonArg);
  json_rawArray : string -> go (list string);
  json_text : string -> go string;
  json_texts : string -> go (list string);
  json_addrOpts : string -> go addrOpts;
}.

(** What the handlers ask the daemon for. *)
Class SioChain := {
  sio_GetBlockHeader : string -> go Block.t;
  sio_EstimateSmartFee : Z -> bool -> go Z;
  sio_EstimateFee : Z -> go Z;
  sio_SendRawTransaction : string -> go string;
  sio_GetMempoolEntry : string -> go MempoolEntry.t;
  sio_IsTestnet : bool;
  sio_GetNetworkName : string;
  sio_GetSubversion : string;
  sio_GetCoinName : string;
}.

(** The Skyr client is such a daemon. *)
Definition skyr_sio {DM : Daemon} {RP : RpcParser} (z : SkyrRPC) (subversion coin : string) : SioChain := {|
  sio_GetBlockHeader := GetBlockHeader (sr_rpc z);
  sio_EstimateSmartFee := EstimateSmartFee (sr_rpc z);
  sio_EstimateFee := EstimateFee (sr_rpc z);
  sio_SendRawTransaction := SendRawTransaction (sr_rpc z);
  sio_GetMempoolEntry := GetMempoolEntry (sr_rpc z);
  sio_IsTestnet := sr_Testnet z;
  sio_GetNetworkName := sr_Network z;
  sio_GetSubversion := subversion;
  sio_GetCoinName := coin;
|}.

(** ** Conversions *)

Definition inputToRes (vin : AVin.t) : TxInputs.t :=
  TxInputs.mk (AVin.Txid vin) (AVin.Vout vin) (AVin.Hex vin) (AVin.Sequence vin) (head (AVin.Addresses vin))
    (Amount_AsInt64 (AVin.ValueSat vin)).

Definition outputToRes (vout : AVout.t) : TxOutputs.t :=
  TxOutputs.mk (Amount_AsInt64 (AVout.ValueSat vout)) (AVout.Hex vout) (head (AVout.Addresses vout)).

Definition txToResTx (tx : ATx.t) : ResTx.t :=
  let '(h, blocktime) := if ATx.Confirmations tx =? 0 then (-1, 0) else (ATx.Blockheight tx, ATx.Blocktime tx) in
  ResTx.mk (ATx.Hex tx) h blocktime (ATx.Version tx) (ATx.Txid tx) (ATx.Locktime tx) (map inputToRes (ATx.Vin tx))
    (Amount_AsInt64 (ATx.ValueInSat tx)) (map outputToRes (ATx.Vout tx)) (Amount_AsInt64 (ATx.ValueOutSat tx))
    (Amount_AsInt64 (ATx.FeesSat tx)).

(** The first of [s] that is in [t], the empty text if there is none. *)
Fixpoint addressInSlice (s t : list string) : string :=
  match s with
  | [] => EmptyString
  | sa :: s' => if existsb (fun ta => String.eqb ta sa) t then sa else addressInSlice s' t
  end.

(** An input and an output of a transaction in the history of the addresses. *)
Definition historyInput (addr : list string) (st : gmap string addressHistoryIndexes * Z) (vin : AVin.t)
    : gmap string addressHistoryIndexes * Z :=
  let '(ads, totalSat) := st in
  let a := addressInSlice (AVin.Addresses vin) addr in
  if bool_decide (a = EmptyString) then (ads, totalSat)
  else
    let hi := default (mkIndexes [] []) (ads !! a) in
    (<[a := mkIndexes (InputIndexes hi ++ [AVin.N vin]) (OutputIndexes hi)]> ads, totalSat - default 0 (AVin.ValueSat vin)).

Definition historyOutput (addr : list string) (st : gmap string addressHistoryIndexes * Z) (vout : AVout.t)
    : gmap string addressHistoryIndexes * Z :=
  let '(ads, totalSat) := st in
  let a := addressInSlice (AVout.Addresses vout) addr in
  if bool_decide (a = EmptyString) then (ads, totalSat)
  else
    let hi := default (mkIndexes [] []) (ads !! a) in
    (<[a := mkIndexes (InputIndexes hi) (OutputIndexes hi ++ [AVout.N vout])]> ads, totalSat + default 0 (AVout.ValueSat vout)).

Definition historyItem (addr : list string) (tx : ATx.t) : HistoryItem.t :=
  let st := foldl (historyInput addr) (∅, 0) (ATx.Vin tx) in
  let '(ads, totalSat) := foldl (historyOutput addr) st (ATx.Vout tx) in
  HistoryItem.mk ads (Amount_AsInt64 (Some totalSat)) (ATx.Confirmations tx) (txToResTx tx).

Section handlers.
Context `{DB : Store} `{P : BlockChainParser} `{V : Vlq} `{SC : ScriptLib} `{J : StateJson}
  `{R : BlockChain} `{E : EthLib} `{C : ApiChain} `{SJ : SioJson} `{SCh : SioChain}.
Context (cacheEnabled : bool) (now : Z) (mempool : BaseMempool) (bp : BaseParser).

Abbreviation worker := (sgo RocksDB).

(** [BaseMempool.GetTransactions] *)
Definition mempool_GetTransactions (address : string) : go (list Outpoint.t) :=
  let* addrDesc := GetAddrDescFromAddress address in Ret (mempool_GetAddrDescTransactions mempool addrDesc).

(** The transactions of one address. *)
Definition txidsOfAddress (d : RocksDB) (opts : addrOpts) (txids : list string) (address : string) : go (list string) :=
  if negb (o_QueryMempoolOnly opts) then
    match GetTransactions (fun txids txid _ _ => (txids ++ [txid], CbNext)) d address (u32 (o_End opts)) (u32 (o_Start opts)) txids with
    | (txids, Ret _) => Ret txids
    | (_, Fail e) => Fail e
    | (_, Panic) => Panic
    end
  else
    let* o := mempool_GetTransactions address in Ret (txids ++ map Outpoint.Txid o).

Definition sio_getAddressTxids (d : RocksDB) (addr : list string) (opts : addrOpts) : go (list string) :=
  let* txids := go_fold (txidsOfAddress d opts) [] addr in Ret (GetUniqueTxids txids).

(** [for txi := opts.From; txi < to; txi++]; the first transaction that fails ends the loop. *)
Definition getAddressHistory (addr : list string) (opts : addrOpts) : worker (Z * list HistoryItem.t) :=
  let! d := sget in
  let! txids := slift (sio_getAddressTxids d addr opts) in
  let to := Z.min (zlen txids) (o_To opts) in
  let! items := smap (fun txi =>
    let! txid := slift (go_index txids txi) in
    let! tx := api_GetTransaction cacheEnabled now mempool txid false false in
    sret (historyItem addr tx)) (range (o_From opts) to) in
  sret (zlen txids, items).

Definition sio_getBlockHeader (d : RocksDB) (height : Z) (hash : string) : go sioResult :=
  if bool_decide (hash = EmptyString) then
    let* hash := RocksDB.GetBlockHash d height in Ret (SHeader hash 0 0 EmptyString)
  else
    let* bh := sio_GetBlockHeader hash in
    Ret (SHeader (Block.Hash bh) (Block.Confirmations bh) (Block.Height bh) (Block.Next bh)).

(** ** Parameters *)

Definition unmarshalArray (params : string) (np : Z) : go (list jsonArg) :=
  let* p := json_array params in
  if negb (zlen p =? np) then Fail (ErrMsg "incorrect number of parameters") else Ret p.

Definition unmarshalGetAddressRequest (params : string) : go (list string * addrOpts) :=
  let* p := json_rawArray params in
  match p with
  | [p0; p1] => let* addr := json_texts p0 in let* opts := json_addrOpts p1 in Ret (addr, opts)
  | _ => Fail (ErrMsg "incorrect number of parameters")
  end.

Definition unmarshalGetBlockHeader (params : string) : go (Z * string) :=
  let* p := unmarshalArray params 1 in
  let* p0 := go_index p 0 in
  match p0 with
  | ANumber n => Ret (u32 n, EmptyString)
  | AString hash => Ret (0, hash)
  | _ => Fail (ErrMsg "incorrect parameter")
  end.

Definition unmarshalEstimateSmartFee (params : string) : go (Z * bool) :=
  let* p := unmarshalArray params 2 in
  let* p0 := go_index p 0 in
  match p0 with
  | ANumber blocks =>
      let* p1 := go_index p 1 in
      match p1 with ABool conservative => Ret (blocks, conservative) | _ => Fail (ErrMsg "Invalid parameter conservative") end
  | _ => Fail (ErrMsg "Invalid parameter blocks")
  end.

Definition sio_unmarshalEstimateFee (params : string) : go Z :=
  let* p := unmarshalArray params 1 in
  let* p0 := go_index p 0 in
  match p0 with ANumber blocks => Ret blocks | _ => Fail (ErrMsg "Invalid parameter nblocks") end.

Definition unmarshalStringParameter (params : string) : go string :=
  let* p := unmarshalArray params 1 in
  let* p0 := go_index p 0 in
  match p0 with AString s => Ret s | _ => Fail (ErrMsg "incorrect parameter") end.

Definition unmarshalGetDetailedTransaction (params : string) : go string :=
  let* p := json_rawArray params in
  match p with [p0] => json_text p0 | _ => Fail (ErrMsg "incorrect number of parameters") end.

(** ** Messages *)

(** The float the text stands for is the answer. *)
Definition feeResult (fee : Z) : go sioResult :=
  let* s := BaseParser_AmountToDecimalString bp (Some fee) in Ret (SFee s).

Definition messageHandler (method params : string) : option (worker sioResult) :=
  let is_ m := String.eqb method m in
  if is_ "getAddressTxids" then
    Some (let! '(addr, opts) := slift (unmarshalGetAddressRequest params) in
          let! d := sget in let! txids := slift (sio_getAddressTxids d addr opts) in sret (STxids txids))
  else if is_ "getAddressHistory" then
    Some (let! '(addr, opts) := slift (unmarshalGetAddressRequest params) in
          let! '(n, items) := getAddressHistory addr opts in sret (SHistory n items))
  else if is_ "getBlockHeader" then
    Some (let! '(height, hash) := slift (unmarshalGetBlockHeader params) in
          let! d := sget in slift (sio_getBlockHeader d height hash))
  else if is_ "estimateSmartFee" then
    Some (let! '(blocks, conservative) := slift (unmarshalEstimateSmartFee params) in
          let! fee := slift (sio_EstimateSmartFee blocks conservative) in slift (feeResult fee))
  else if is_ "estimateFee" then
    Some (let! blocks := slift (sio_unmarshalEstimateFee params) in
          let! fee := slift (sio_EstimateFee blocks) in slift (feeResult fee))
  else if is_ "getInfo" then
    Some (let! d := sget in let! i := slift (must (istate d)) in
          let '(_, height, _) := GetSyncState i in
          sret (SInfo height sio_IsTestnet sio_GetNetworkName sio_GetSubversion sio_GetCoinName))
  else if is_ "getDetailedTransaction" then
    Some (let! txid := slift (unmarshalGetDetailedTransaction params) in
          let! tx := api_GetTransaction cacheEnabled now mempool txid false false in sret (STransaction (txToResTx tx)))
  else if is_ "sendTransaction" then
    Some (let! tx := slift (unmarshalStringParameter params) in
          let! txid := slift (sio_SendRawTransaction tx) in sret (SSent txid))
  else if is_ "getMempoolEntry" then
    Some (let! txid := slift (unmarshalStringParameter params) in
          let! e := slift (sio_GetMempoolEntry txid) in sret (SEntry e))
  else None.

(** [strings.Trim] of quotes at both ends *)
Definition quote : ascii := Ascii.ascii_of_nat 34.

Fixpoint trimLeft (l : list ascii) : list ascii :=
  match l with c :: l' => if Ascii.eqb c quote then trimLeft l' else l | [] => [] end.

Definition trimQuotes (s : string) : string :=
  String.string_of_list_ascii (reverse (trimLeft (reverse (trimLeft (String.list_ascii_of_string s))))).

Definition onMessage (errorText : error -> string) (method params : string) (d : RocksDB) : RocksDB * sioResult :=
  match messageHandler (trimQuotes method) params with
  | None => (d, SError "unknown method")
  | Some f =>
      match f d with
      | (d, Ret r) => (d, r)
      | (d, Fail e) => (d, SError (errorText e))
      | (d, Panic) => (d, SError "Internal error")
      end
  end.
End handlers.

(** ** Subscriptions and notifications *)

Inductive payload := PBlockHash (hash : string) | PAddressTx (address txid : string).

(** The rooms the channels joined, and what was broadcast, in order. *)
Record SocketIoServer := mkSio { joined : list (Z * string); broadcasts : list (string * payload) }.

Definition hashblock : string := "bitcoind/hashblock".
Definition addresstxid : string := "bitcoind/addresstxid".

Definition room (d : bytes) : string := (addresstxid ++ "-" ++ string_of_bytes d)%string.

(** [strings.Index], -1 if there is none *)
Fixpoint indexFrom (pat l : list ascii) (i : Z) : Z :=
  if bool_decide (take (length pat) l = pat) then i
  else match l with [] => -1 | _ :: l' => indexFrom pat l' (i + 1) end.

Definition listStart : list ascii := [quote; ","%char; "["%char].

Section subscriptions.
Context `{P : BlockChainParser} `{SJ : SioJson}.

(** The rooms a request asks for. *)
Definition subscribeRooms (req : string) : go (list string) :=
  let r := String.list_ascii_of_string req in
  let i := indexFrom listStart r 0 in
  if 0 <? i then
    let* sc := go_slice r 1 i in
    if negb (bool_decide (String.string_of_list_ascii sc = addresstxid)) then Fail (ErrMsg "invalid data")
    else
      let* rest := go_from r (i + 2) in
      let* addrs := json_texts (String.string_of_list_ascii rest) in
      let* descs := go_map GetAddrDescFromAddress addrs in
      Ret (map room descs)
  else
    let* sc := go_slice r 1 (zlen r - 1) in
    if negb (bool_decide (String.string_of_list_ascii sc = hashblock)) then Fail (ErrMsg "invalid data")
    else Ret [String.string_of_list_ascii sc].

(** Errors are logged, a panic is caught. *)
Definition onSubscribe (c : Z) (req : string) (s : SocketIoServer) : SocketIoServer :=
  match subscribeRooms req with
  | Ret rooms => mkSio (joined s ++ map (fun r => (c, r)) rooms) (broadcasts s)
  | _ => s
  end.

Definition BroadcastTo (r : string) (p : payload) (s : SocketIoServer) : SocketIoServer :=
  mkSio (joined s) (broadcasts s ++ [(r, p)]).

Definition OnNewBlockHash (hash : string) (s : SocketIoServer) : SocketIoServer := BroadcastTo hashblock (PBlockHash hash) s.

Definition sio_OnNewTxAddr (txid : string) (desc : bytes) (s : SocketIoServer) : go SocketIoServer :=
  match GetAddressesFromAddrDesc desc with
  | Ret ([address], true) => Ret (BroadcastTo (room desc) (PAddressTx address txid) s)
  | Panic => Panic
  | _ => Ret s
  end.
End subscriptions.

(** * Facts *)

Lemma GetUniqueTxids_spec l :
  NoDup (GetUniqueTxids l) /\ forall t, t ∈ GetUniqueTxids l <-> t ∈ l.
Proof.
  unfold GetUniqueTxids. set (f := fun '(ut, m) txid => if decide (txid ∈ m) then (ut, m) else (ut ++ [txid], {[txid]} ∪ m)).
  assert (forall l ut (m : gset string), NoDup ut -> (forall t, t ∈ ut <-> t ∈ m) ->
    NoDup (foldl f (ut, m) l).1 /\ forall t, t ∈ (foldl f (ut, m) l).1 <-> t ∈ ut \/ t ∈ l) as H.
  { clear l. induction l as [|x l IH]; intros ut m Hnd Hm; simpl; [split; [done|]; intros t; rewrite elem_of_nil; tauto|].
    destruct (decide (x ∈ m)) as [Hx|Hx].
    - destruct (IH ut m Hnd Hm) as [H1 H2]. split; [done|]. intros t. rewrite H2, elem_of_cons. rewrite <- Hm in Hx.
      split; [tauto|]. intros [?|[-> |?]]; auto.
    - destruct (IH (ut ++ [x]) ({[x]} ∪ m)) as [H1 H2].
      + apply NoDup_app. split_and!; [done| |apply NoDup_singleton]. intros t Ht ->%list_elem_of_singleton. apply Hx. by apply Hm.
      + intros t. rewrite elem_of_app, list_elem_of_singleton, Hm. set_solver.
      + split; [done|]. intros t. rewrite H2, elem_of_app, list_elem_of_singleton, elem_of_cons. tauto. }
  destruct (H l [] ∅) as [H1 H2]; [apply NoDup_nil_2| |].
  - intros t. rewrite elem_of_nil. set_solver.
  - split; [done|]. intros t. rewrite H2, elem_of_nil. tauto.
Qed.

(** *** The history of a transaction *)

Definition inputOf (addr : list string) (a : string) (v : AVin.t) : bool :=
  bool_decide (addressInSlice (AVin.Addresses v) addr = a).
Definition outputOf (addr : list string) (a : string) (v : AVout.t) : bool :=
  bool_decide (addressInSlice (AVout.Addresses v) addr = a).

(** What the inputs and the outputs of the addresses sum up to. *)
Definition spentBy (addr : list string) (l : list AVin.t) : Z :=
  sumValues (map AVin.ValueSat (List.filter (fun v => negb (inputOf addr EmptyString v)) l)).
Definition receivedBy (addr : list string) (l : list AVout.t) : Z :=
  sumValues (map AVout.ValueSat (List.filter (fun v => negb (outputOf addr EmptyString v)) l)).

Definition noIndexes : addressHistoryIndexes := mkIndexes [] [].

Lemma sumValues_acc l : forall z, foldl (fun s v => s + default 0 v) z l = z + sumValues l.
Proof.
  unfold sumValues. induction l as [|v l IH]; intros z; cbn [foldl]; [lia|]. rewrite IH, (IH (0 + default 0 v)). lia.
Qed.

Lemma sumValues_cons v l : sumValues (v :: l) = default 0 v + sumValues l.
Proof. unfold sumValues at 1. cbn [foldl]. rewrite sumValues_acc. lia. Qed.

Lemma historyInputs addr l : forall ads t, exists ads', foldl (historyInput addr) (ads, t) l = (ads', t - spentBy addr l) /\
  forall a, a <> EmptyString -> default noIndexes (ads' !! a) =
    mkIndexes (InputIndexes (default noIndexes (ads !! a)) ++ map AVin.N (List.filter (inputOf addr a) l))
      (OutputIndexes (default noIndexes (ads !! a))).
Proof.
  induction l as [|v l IH]; intros ads t.
  - exists ads. unfold spentBy, sumValues. simpl. split; [f_equal; lia|]. intros a _. rewrite app_nil_r. by destruct (default _ _).
  - cbn [foldl]. unfold historyInput at 2. unfold spentBy. cbn [List.filter]. unfold inputOf.
    set (b := addressInSlice (AVin.Addresses v) addr). destruct (bool_decide_reflect (b = EmptyString)) as [Hb|Hb]; cbn [negb]; fold noIndexes.
    + destruct (IH ads t) as (ads' & E & H). exists ads'. split; [exact E|]. intros a Ha. rewrite H by done.
      rewrite bool_decide_false by congruence. done.
    + destruct (IH (<[b := mkIndexes (InputIndexes (default noIndexes (ads !! b)) ++ [AVin.N v])
                        (OutputIndexes (default noIndexes (ads !! b)))]> ads) (t - default 0 (AVin.ValueSat v))) as (ads' & E & H).
      exists ads'. split; [rewrite E; cbn [map]; rewrite sumValues_cons; f_equal; unfold spentBy, inputOf; lia|].
      intros a Ha. rewrite H by done. destruct (bool_decide_reflect (b = a)) as [<-|Hne].
      * rewrite lookup_insert_eq. simpl. by rewrite <- app_assoc.
      * by rewrite lookup_insert_ne.
Qed.

Lemma historyOutputs addr l : forall ads t, exists ads', foldl (historyOutput addr) (ads, t) l = (ads', t + receivedBy addr l) /\
  forall a, a <> EmptyString -> default noIndexes (ads' !! a) =
    mkIndexes (InputIndexes (default noIndexes (ads !! a)))
      (OutputIndexes (default noIndexes (ads !! a)) ++ map AVout.N (List.filter (outputOf addr a) l)).
Proof.
  induction l as [|v l IH]; intros ads t.
  - exists ads. unfold receivedBy, sumValues. simpl. split; [f_equal; lia|]. intros a _. rewrite app_nil_r. by destruct (default _ _).
  - cbn [foldl]. unfold historyOutput at 2. unfold receivedBy. cbn [List.filter]. unfold outputOf.
    set (b := addressInSlice (AVout.Addresses v) addr). destruct (bool_decide_reflect (b = EmptyString)) as [Hb|Hb]; cbn [negb]; fold noIndexes.
    + destruct (IH ads t) as (ads' & E & H). exists ads'. split; [exact E|]. intros a Ha. rewrite H by done.
      rewrite bool_decide_false by congruence. done.
    + destruct (IH (<[b := mkIndexes (InputIndexes (default noIndexes (ads !! b)))
                        (OutputIndexes (default noIndexes (ads !! b)) ++ [AVout.N v])]> ads) (t + default 0 (AVout.ValueSat v))) as (ads' & E & H).
      exists ads'. split; [rewrite E; cbn [map]; rewrite sumValues_cons; f_equal; unfold receivedBy, outputOf; lia|].
      intros a Ha. rewrite H by done. destruct (bool_decide_reflect (b = a)) as [<-|Hne].
      * rewrite lookup_insert_eq. simpl. by rewrite <- app_assoc.
      * by rewrite lookup_insert_ne.
Qed.

(** In the history of some addresses a transaction counts with what its outputs pay to
    them less what its inputs take from them, and lists for each address the positions of
    exactly these inputs and outputs. *)
Theorem historyItem_exact addr tx :
  let item := historyItem addr tx in
  HistoryItem.Satoshis item = Amount_AsInt64 (Some (receivedBy addr (ATx.Vout tx) - spentBy addr (ATx.Vin tx))) /\
  forall a, a <> EmptyString -> default noIndexes (HistoryItem.Addresses item !! a) =
    mkIndexes (map AVin.N (List.filter (inputOf addr a) (ATx.Vin tx))) (map AVout.N (List.filter (outputOf addr a) (ATx.Vout tx))).
Proof.
  cbv zeta. unfold historyItem. destruct (historyInputs addr (ATx.Vin tx) ∅ 0) as (ads & -> & H1).
  destruct (historyOutputs addr (ATx.Vout tx) ads (0 - spentBy addr (ATx.Vin tx))) as (ads' & -> & H2). cbn [HistoryItem.Satoshis HistoryItem.Addresses].
  split; [do 2 f_equal; lia|]. intros a Ha. rewrite H2, H1 by done. by rewrite lookup_empty.
Qed.

(** *** The transactions of some addresses *)

Section txids.
Context `{SL : StoreLaws} `{PL : ParserLaws} `{VL : VlqLaws}.

Lemma collect_calls calls : forall txids,
  run_calls (fun txids txid (_ : Z) (_ : list Z) => (txids ++ [txid], CbNext)) calls txids = (txids ++ map (fun c => c.1.1) calls, Ret true).
Proof.
  induction calls as [|[[t h] ix] calls IH]; intros txids; simpl; [by rewrite app_nil_r|]. rewrite IH, <- app_assoc. done.
Qed.

(** The address leads to a descriptor whose history can be read. *)
Definition readable_address (m : kv) (address : string) (ad : bytes) : Prop :=
  GetAddrDescFromAddress address = Ret ad /\ ad <> [] /\ isolated m ad.

Lemma txidsOfAddresses m (d : RocksDB) s opts addr ads : forall txids,
  db d = Some s -> addresses_column (contents s) -> o_QueryMempoolOnly opts = false ->
  Forall2 (readable_address (contents s)) addr ads ->
  exists ess, Forall2 (fun ad es => history (contents s) ad (u32 (o_End opts)) (u32 (o_Start opts)) es) ads ess /\
    go_fold (txidsOfAddress m d opts) txids addr =
    Ret (txids ++ concat (map (fun es => map (fun c => c.1.1) (concat (map calls_at es))) ess)).
Proof.
  intros txids Hd Hc Hq Hads. revert txids. induction Hads as [|a ad addr ads (Ha & Hne & Hi) _ IH]; intros txids.
  - exists []. split; [done|]. simpl. by rewrite app_nil_r.
  - destruct (GetAddrDescTransactions_run (fun txids txid (_ : Z) (_ : list Z) => (txids ++ [txid], CbNext)) d s ad
      (u32 (o_End opts)) (u32 (o_Start opts)) txids) as (es & Hes & E); [by auto using u32_range..|].
    destruct (IH (txids ++ map (fun c => c.1.1) (concat (map calls_at es)))) as (ess & Hess & E').
    exists (es :: ess). split; [by constructor|]. cbn [go_fold]. unfold txidsOfAddress at 1. rewrite Hq. cbn [negb].
    unfold GetTransactions. rewrite Ha, E, collect_calls. cbn [finish fst snd go_bind]. rewrite E'. simpl. by rewrite <- app_assoc.
Qed.

(** The transactions of several addresses are the ones of their histories in the range
    of heights, each listed once although it can touch more than one of the addresses. *)
Theorem sio_txids_exact m (d : RocksDB) s opts addr ads :
  db d = Some s -> addresses_column (contents s) -> o_QueryMempoolOnly opts = false ->
  Forall2 (readable_address (contents s)) addr ads ->
  exists ess txids, Forall2 (fun ad es => history (contents s) ad (u32 (o_End opts)) (u32 (o_Start opts)) es) ads ess /\
    sio_getAddressTxids m d addr opts = Ret txids /\ NoDup txids /\
    forall t, t ∈ txids <-> exists es c, es ∈ ess /\ c ∈ concat (map calls_at es) /\ c.1.1 = t.
Proof.
  intros Hd Hc Hq Hads. destruct (txidsOfAddresses m d s opts addr ads [] Hd Hc Hq Hads) as (ess & Hess & E).
  set (l := concat (map (fun es => map (fun c => c.1.1) (concat (map calls_at es))) ess)) in E.
  exists ess, (GetUniqueTxids l). split; [done|]. split; [unfold sio_getAddressTxids; by rewrite E|].
  destruct (GetUniqueTxids_spec l) as [H1 H2]. split; [done|]. intros t. rewrite H2. unfold l.
  rewrite list_elem_of_In, in_concat. split.
  - intros (x & (es & <- & He)%in_map_iff & (c & <- & Hcc)%in_map_iff). exists es, c. by rewrite !list_elem_of_In.
  - intros (es & c & He & Hcc & <-). eexists. split; [apply in_map_iff; exists es; split; [done|by apply list_elem_of_In]|].
    apply in_map_iff. exists c. split; [done|by apply list_elem_of_In].
Qed.
End txids.

(** *** Subscriptions *)

Lemma room_inj d1 d2 : room d1 = room d2 -> d1 = d2.
Proof.
  unfold room, string_of_bytes. intros H. apply (inj (String.append addresstxid)), (inj (String.append "-")) in H.
  rewrite <- (String.list_byte_of_string_of_list_byte d1), <- (String.list_byte_of_string_of_list_byte d2). by rewrite H.
Qed.

(** The request for addresses: the name in quotes and the list in JSON. *)
Definition addressRequest (json : string) : string :=
  String quote (addresstxid ++ String quote ("," ++ String "[" json)).

Section subscribing.
Context `{P : BlockChainParser} `{SJ : SioJson}.

Lemma indexFrom_request json : indexFrom listStart (String.list_ascii_of_string (addressRequest json)) 0 = 21.
Proof. reflexivity. Qed.

(** A request for addresses subscribes its channel to all of them or, if one of them is
    no address, to none; a new transaction of a descriptor is then announced to the room
    the channel joined exactly if the descriptor is one of those asked for. *)
Theorem subscription_exact c json addrs s :
  json_texts (String "[" json) = Ret addrs ->
  (forall descs, go_map GetAddrDescFromAddress addrs = Ret descs ->
   joined (onSubscribe c (addressRequest json) s) = joined s ++ map (fun d => (c, room d)) descs /\
   forall txid desc address s', GetAddressesFromAddrDesc desc = Ret ([address], true) ->
     sio_OnNewTxAddr txid desc s = Ret s' ->
     exists r, broadcasts s' = broadcasts s ++ [(r, PAddressTx address txid)] /\
       ((c, r) ∈ map (fun d => (c, room d)) descs <-> desc ∈ descs)) /\
  (forall e, go_map GetAddrDescFromAddress addrs = Fail e -> onSubscribe c (addressRequest json) s = s).
Proof.
  intros Hj. assert (subscribeRooms (addressRequest json) = (let* descs := go_map GetAddrDescFromAddress addrs in Ret (map room descs))) as E.
  { unfold subscribeRooms. rewrite indexFrom_request. cbn [Z.ltb Z.compare].
    set (l := String.list_ascii_of_string (addressRequest json)).
    assert (l = [quote] ++ String.list_ascii_of_string addresstxid ++ (quote :: ","%char :: "["%char :: String.list_ascii_of_string json)) as Hl by reflexivity.
    rewrite Hl, (go_slice_mid [quote] (String.list_ascii_of_string addresstxid)) by reflexivity. gostep.
    rewrite bool_decide_true by reflexivity. cbn [negb].
    assert (go_from l (21 + 2) = Ret ("["%char :: String.list_ascii_of_string json)) as E2.
    { assert (l = ([quote] ++ String.list_ascii_of_string addresstxid ++ [quote; ","%char]) ++ ("["%char :: String.list_ascii_of_string json)) as -> by reflexivity.
      by apply go_from_app. }
    rewrite <- Hl, E2. gostep. cbn [String.string_of_list_ascii]. rewrite String.string_of_list_ascii_of_string, Hj. done. }
  split.
  - intros descs Hd. unfold onSubscribe. rewrite E, Hd. cbn [go_bind joined]. rewrite map_map. split; [done|].
    intros txid desc address s' Ha Hs. unfold sio_OnNewTxAddr in Hs. rewrite Ha in Hs. injection Hs as <-.
    exists (room desc). split; [done|]. rewrite list_elem_of_In, in_map_iff. split.
    + intros (d & H & Hin). apply (f_equal snd) in H. apply room_inj in H as ->. by apply list_elem_of_In.
    + intros Hin. exists desc. split; [done|]. by apply list_elem_of_In.
  - intros e He. unfold onSubscribe. by rewrite E, He.
Qed.
End subscribing.

(** A transaction of a cold staking output is not announced to those who wait for its
    script: the script stands for two addresses, and both servers announce only
    descriptors with one. *)
Theorem coldstake_not_announced `{DB : Store} `{V : Vlq} `{SC : ScriptLib} `{J : StateJson} `{R : BlockChain} `{E : EthLib}
    `{C : ApiChain} {M : ProtoTx} {L : BtcLib} {SK : SkyrLib (L := L)} (p : SkyrParser) {SLw : SkyrLaws p}
    staker owner txid s cacheEnabled now m order tx ws (d : RocksDB) :
  length staker = 20%nat -> length owner = 20%nat ->
  sio_OnNewTxAddr (P := skyr_parser p) txid (p2cs staker owner) s = Ret s /\
  OnNewTxAddr (P := skyr_parser p) cacheEnabled now m order tx (p2cs staker owner) ws d = (d, Ret ws).
Proof.
  intros Hs Ho. destruct (addresses_p2cs p staker owner Hs Ho) as (a & o & _ & _ & Ea).
  assert (GetAddressesFromAddrDesc (BlockChainParser := skyr_parser p) (p2cs staker owner) =
    Ret ([EncodeAddress a; EncodeAddress o], true)) as Eg by exact Ea.
  split; [unfold sio_OnNewTxAddr; by rewrite Eg|].
  unfold OnNewTxAddr. destruct (ws_address ws !! p2cs staker owner) as [subs|]; [|done].
  destruct (bool_decide (subs = ∅)); [done|]. by rewrite Eg.
Qed.

(** ** Witnesses *)

Lemma sio_txids_exact_witness :
  exists txids, sio_getAddressTxids (P := plain_parser) (V := leb) emptyMempool (open_db (one_tx desc1))
    [hex_EncodeToString desc1; hex_EncodeToString desc1] (mkAddrOpts 10 0 false 0 10) = Ret txids /\ NoDup txids.
Proof.
  destruct (sio_txids_exact (P := plain_parser) (V := leb) emptyMempool (open_db (one_tx desc1)) (one_tx desc1)
    (mkAddrOpts 10 0 false 0 10) [hex_EncodeToString desc1; hex_EncodeToString desc1] [desc1; desc1] eq_refl)
    as (ess & txids & _ & H & Hnd & _).
  - apply one_tx_column.
  - reflexivity.
  - assert (readable_address (P := plain_parser) (one_tx desc1) (hex_EncodeToString desc1) desc1) as Hr.
    { split; [reflexivity|]. split; [discriminate|]. apply one_tx_isolated. }
    constructor; [exact Hr|]. constructor; [exact Hr|]. constructor.
  - exists txids. split; assumption.
Defined.

Definition plain_siojson : SioJson := {|
  json_array _ := Ret [AString "00"];
  json_rawArray _ := Ret [];
  json_text t := Ret t;
  json_texts _ := Ret ["51"%string; "52"%string];
  json_addrOpts _ := Ret (mkAddrOpts 0 0 false 0 0);
|}.

Lemma subscription_exact_witness :
  joined (onSubscribe (P := plain_parser) (SJ := plain_siojson) 3 (addressRequest EmptyString) (mkSio [] [])) =
  map (fun d => (3, room d)) [[Byte.x51]; [Byte.x52]].
Proof.
  exact (proj1 (proj1 (subscription_exact (P := plain_parser) (SJ := plain_siojson) 3 EmptyString ["51"%string; "52"%string]
    (mkSio [] []) eq_refl) [[Byte.x51]; [Byte.x52]] eq_refl)).
Defined.

Lemma coldstake_not_announced_witness :
  sio_OnNewTxAddr (P := skyr_test) EmptyString coldstake (mkSio [] []) = Ret (mkSio [] []).
Proof.
  exact (proj1 (coldstake_not_announced (V := leb) (J := code_json) (R := one_block) (C := plain_api) (L := skyr_btclib)
    (SK := skyr_lib) skyr_main (SLw := skyr_lib_laws) stakerHash ownerHash EmptyString (mkSio [] []) false 77 emptyMempool
    map_to_list raw_tx NewWebsocketServer (open_db ∅) eq_refl eq_refl)).
Defined.
