(* ===== verification/Pages.v ===== *)
(** The small functions of the public server ([server/public.go]) that work on texts,
    numbers and answers of the API: the links to pages, the parameters of a query, the
    formatting functions of the templates and the addresses of pages.

    A query is the function [r.URL.Query().Get]; a text of the standard library is a list of
    characters where it is taken apart.  Dates and percentages (floating point) are left out. *)
From stdpp Require Import base list gmap strings.
From Stdlib Require Import ZArith Lia Ascii.
From S2P Require Import Prelude Types Store Vlq Codec InternalState AddrBalance TxAddresses RocksDB.
From S2P Require Import BaseParser EthParser BitcoinIndex EthIndex Connect Mempool Sync ApiTypes Worker WorkerFacts.

Open Scope Z_scope.
Open Scope go_scope.

Definition blocksOnPage : Z := 50.
Definition mempoolTxsOnPage : Z := 50.
Definition txsInAPI : Z := 1000.

(** * Texts *)

(** [strings.Split] at one byte *)
Fixpoint SplitByte (c : ascii) (s : text) : list text :=
  match s with
  | [] => [[]]
  | x :: s' =>
      if Ascii.eqb x c then [] :: SplitByte c s'
      else match SplitByte c s' with
           | part :: parts => (x :: part) :: parts
           | [] => [[x]]
           end
  end.

(** The text behind the last byte [c] of a path, if that byte is not the first:
    [if i := strings.LastIndexByte(path, c); i > 0 { path[i+1:] }] *)
Fixpoint afterLast (c : ascii) (s : text) : option text :=
  match s with
  | [] => None
  | x :: s' =>
      match afterLast c s' with
      | Some r => Some r
      | None => if Ascii.eqb x c then Some s' else None
      end
  end.

Definition lastPart (path : string) : option string :=
  match String.list_ascii_of_string path with
  | [] => None
  | _ :: s => String.string_of_list_ascii <$> afterLast "/" s
  end.

(** Addresses *)

Definition splitBinding (binding : string) : string * string :=
  let b := String.list_ascii_of_string binding in
  let i := IndexByte b "/" in
  if 0 <=? i then
    (String.string_of_list_ascii (take (Z.to_nat i) b), String.string_of_list_ascii (drop (Z.to_nat i) b))
  else (binding, "/"%string).

Definition joinURL (base part : string) : string :=
  match last (String.list_ascii_of_string base), part with
  | None, _ => part
  | Some "/"%char, String "/" part' => (base ++ part')%string
  | Some _, _ => (base ++ part)%string
  end.

(** [strconv.ParseBool] *)
Definition ParseBool (s : string) : option bool :=
  if bool_decide (s ∈ ["1"; "t"; "T"; "TRUE"; "true"; "True"]%string) then Some true
  else if bool_decide (s ∈ ["0"; "f"; "F"; "FALSE"; "false"; "False"]%string) then Some false
  else None.

(** * Links to pages *)

(** The pages to link to, 0 where some are left out, and the pages before and behind;
    [total = -1] means that the number of pages is not known. *)
Definition getPagingRange (page total : Z) : list Z * Z * Z :=
  if (0 <=? total) && (total <? 2) then ([], 0, 0)
  else
    let pp := i64 (page - 1) in
    let np := i64 (page + 1) in
    let pp := if pp <? 1 then 1 else pp in
    if 0 <? total then
      let np := if total <? np then total else np in
      (if total <? 6 then range 1 (total + 1)
       else
         [1] ++ (if 3 <? page then [0] else []) ++
         (if pp =? 1 then
            if page =? 1 then [np; np + 1; np + 2] else [page; np; np + 1]
          else if np =? total then
            if page =? total then [pp - 2; pp - 1; pp] else [pp - 1; pp; page]
          else [pp; page; np]) ++
         (if page <=? total - 3 then [0] else []) ++ [total],
       pp, np)
    else ([], pp, np).

(** * Parameters of a query *)

Abbreviation query := (string -> string).

Definition orInt (n : Z) (s : string) : Z := default n (Atoi s).

Definition voutFilter (filterParam : string) : Z :=
  if bool_decide (filterParam = EmptyString) then AddressFilterVoutOff
  else if String.eqb filterParam "inputs" then AddressFilterVoutInputs
  else if String.eqb filterParam "outputs" then AddressFilterVoutOutputs
  else match Atoi filterParam with
       | Some v => if v <? 0 then AddressFilterVoutOff else v
       | None => AddressFilterVoutOff
       end.

Definition detailsParam (s : string) (accountDetails : AccountDetails) : AccountDetails :=
  if String.eqb s "basic" then AccountDetailsBasic
  else if String.eqb s "tokens" then AccountDetailsTokens
  else if String.eqb s "tokenBalances" then AccountDetailsTokenBalances
  else if String.eqb s "txids" then AccountDetailsTxidHistory
  else if String.eqb s "txs" then AccountDetailsTxHistory
  else accountDetails.

Definition tokensParam (s : string) : TokensToReturn :=
  if String.eqb s "derived" then TokensToReturnDerived
  else if String.eqb s "used" then TokensToReturnUsed
  else TokensToReturnNonzeroBalance.

(** Page, page size, level of detail, filter, the text of the filter, and the gap. *)
Definition getAddressQueryParams (q : query) (accountDetails : AccountDetails) (maxPageSize : Z)
    : Z * Z * AccountDetails * AddressFilter * string * Z :=
  let page := orInt 0 (q "page") in
  let pageSize := match Atoi (q "pageSize") with
                  | Some n => if maxPageSize <? n then maxPageSize else n
                  | None => maxPageSize
                  end in
  let from := orInt 0 (q "from") in
  let to := orInt 0 (q "to") in
  (page, pageSize, detailsParam (q "details") accountDetails,
   mkFilter (voutFilter (q "filter")) EmptyString (u32 from) (u32 to) (tokensParam (q "tokens")) false,
   q "filter"%string, orInt 0 (q "gap")).

(** * Functions of the templates *)

Definition formatAmountWithDecimals (a : option Z) (d : Z) : go text :=
  match a with None => Ret ["0"%char] | Some _ => Amount_DecimalString a d end.

Section amounts.
Context `{P : BlockChainParser}.

Definition formatAmount (a : option Z) : go text := Amount_DecimalString a AmountDecimals.

Definition formatAbsAmount (a : option Z) : go text :=
  match a with None => Ret [] | Some x => formatAmount (Some (Z.abs x)) end.

Definition formatNegatedAmount (a : option Z) : go text :=
  match a with None => Ret [] | Some x => formatAmount (Some (- x)) end.
End amounts.

Definition IsPositive (a : option Z) : bool := match a with None => true | Some x => 0 <=? x end.

(** The first address starts with the prefix of a staking address. *)
Definition isP2CS (addrs : list string) : bool :=
  match addrs with
  | [String c _; _] => Ascii.eqb c "S" || Ascii.eqb c "W"
  | _ => false
  end.

Definition IsShield (tx : ATx.t) : bool :=
  if (0 <? ATx.ShieldIns tx) || (0 <? ATx.ShieldOuts tx) then true
  else match ATx.ShieldValBal tx with Some b => negb (IsZeroBigInt b) | None => false end.

(** [out[j] = c] *)
Definition go_store {A} (out : list A) (j : Z) (c : A) : go (list A) :=
  if (0 <=? j) && (j <? zlen out) then Ret (<[Z.to_nat j := c]> out) else Panic.

(** The loop that copies the digits from the right and sets a space behind each third. *)
Fixpoint supplyLoop (i : nat) (j k : Z) (inp out : text) : go text :=
  let* c := go_index inp (Z.of_nat i) in
  let* out := go_store out j c in
  match i with
  | O => Ret out
  | S i' =>
      if k + 1 =? 3 then
        let* out := go_store out (j - 1) " "%char in supplyLoop i' (j - 2) 0 inp out
      else supplyLoop i' (j - 1) (k + 1) inp out
  end.

(** The number [a.Float64()] as its sign and the text [strconv.FormatFloat] prints; [None]
    is zero or no number. *)
Definition formatSupply (a : option (bool * text)) : go text :=
  match a with
  | None => Ret (String.list_ascii_of_string "0.00")
  | Some (neg, inp) =>
      let slices := SplitByte "." inp in
      let* inp := go_index slices 0 in
      let* decimals := (if 1 <? zlen slices then let* s := go_index slices 1 in go_slice s 0 2 else Ret []) in
      let numOfDigits := if (neg : bool) then zlen inp - 1 else zlen inp in
      let numOfSpaces := Z.quot (numOfDigits - 1) 3 in
      if zlen inp + numOfSpaces <? 0 then Panic
      else
        let out := repeat Ascii.zero (Z.to_nat (zlen inp + numOfSpaces)) in
        let* '(inp, out) :=
          (if neg then let* inp := go_from inp 1 in let* out := go_store out 0 "-"%char in Ret (inp, out) else Ret (inp, out)) in
        if zlen inp =? 0 then Panic
        else
          let* out := supplyLoop (Z.to_nat (zlen inp - 1)) (zlen out - 1) 0 inp out in
          Ret (if zlen decimals =? 0 then out else out ++ "."%char :: decimals)
  end.

(** * Facts *)

(** ** Links to pages *)

(** The links behind page [a] up to the last one: the next page, or 0 and a page further on. *)
Inductive pages_from : Z -> list Z -> Z -> Prop :=
  | pages_end a : pages_from a [] a
  | pages_next a l last : pages_from (a + 1) l last -> pages_from a (a + 1 :: l) last
  | pages_gap a b l last : a + 1 < b -> pages_from b l last -> pages_from a (0 :: b :: l) last.

Lemma pages_next' a b l last : b = a + 1 -> pages_from b l last -> pages_from a (b :: l) last.
Proof. intros -> H. by constructor. Qed.

Lemma pages_last a b : b = a -> pages_from a [] b.
Proof. intros ->. constructor. Qed.

Ltac pages :=
  repeat first [ apply pages_last; lia | apply pages_next'; [lia|] | apply pages_gap; [lia|] ].

Lemma getPagingRange_links page total : 1 <= page <= total -> 2 <= total -> total < 2 ^ 62 ->
  exists l, getPagingRange page total = (1 :: l, Z.max 1 (page - 1), Z.min total (page + 1)) /\
    pages_from 1 l total /\ page ∈ 1 :: l /\ (length l <= 6)%nat.
Proof.
  intros Hp Ht Hb. unfold getPagingRange.
  rewrite (i64_id (page - 1)), (i64_id (page + 1)) by (unfold in_i64; lia).
  destruct (Z.ltb_spec total 2); [lia|]. rewrite andb_false_r. destruct (Z.ltb_spec 0 total); [|lia].
  replace (if page - 1 <? 1 then 1 else page - 1) with (Z.max 1 (page - 1)) by (destruct (Z.ltb_spec (page - 1) 1); lia).
  replace (if total <? page + 1 then total else page + 1) with (Z.min total (page + 1))
    by (destruct (Z.ltb_spec total (page + 1)); lia).
  destruct (Z.ltb_spec total 6).
  - assert (total = 2 \/ total = 3 \/ total = 4 \/ total = 5) as Hc by lia.
    destruct Hc as [-> |[-> |[-> | ->]]];
      match goal with |- context [range 1 ?n] => let r := eval vm_compute in (range 1 n) in change (range 1 n) with r end;
      eexists; (split; [reflexivity|split; [pages|split; [|simpl; lia]]]);
      rewrite ?elem_of_cons; lia.
  - destruct (Z.ltb_spec 3 page), (Z.eqb_spec (Z.max 1 (page - 1)) 1), (Z.eqb_spec page 1),
      (Z.eqb_spec (Z.min total (page + 1)) total), (Z.eqb_spec page total), (Z.leb_spec page (total - 3)); try lia;
      cbn [app]; eexists; (split; [reflexivity|split; [pages|split; [rewrite ?elem_of_cons; lia|simpl; lia]]]).
Qed.

(** ** Supplies in groups of three digits *)

(** The loop on the reversed text, without a buffer. *)
Fixpoint groupRev (k : Z) (l : text) : text :=
  match l with
  | [] => []
  | [c] => [c]
  | c :: l' => if k + 1 =? 3 then c :: " "%char :: groupRev 0 l' else c :: groupRev (k + 1) l'
  end.

(** The number of bytes the loop writes for [n] digits. *)
Definition groupLen (k n : Z) : Z := n + Z.quot (n - 1 + k) 3.

Lemma go_store_mid {A} (a : list A) x b j c : j = zlen a -> go_store (a ++ x :: b) j c = Ret (a ++ c :: b).
Proof.
  intros ->. unfold go_store. destruct (_ && _) eqn:E; [|zlen_lia]. f_equal.
  unfold zlen. rewrite Nat2Z.id. by rewrite insert_app_r_alt, Nat.sub_diag by done.
Qed.

Lemma quot3 a : 0 <= a -> Z.quot (a + 3) 3 = Z.quot a 3 + 1.
Proof. intros H. rewrite !Z.quot_div_nonneg by lia. replace (a + 3) with (a + 1 * 3) by lia. by rewrite Z.div_add by lia. Qed.

(** One step of the loop: the last digit goes to the last place of the room that is left. *)
Lemma supply_store digits c more pre room x rest j {A} (f : text -> go A) : j = zlen pre + zlen room ->
  (let* y := go_index ((digits ++ [c]) ++ more) (Z.of_nat (length digits)) in
   let* out := go_store (pre ++ (room ++ [x]) ++ rest) j y in f out) = f (pre ++ room ++ c :: rest).
Proof.
  intros ->. rewrite <- (app_assoc digits). cbn [app]. rewrite (go_index_app digits c) by done. gostep.
  replace (pre ++ (room ++ [x]) ++ rest) with ((pre ++ room) ++ x :: rest) by (by rewrite <- !app_assoc).
  rewrite (go_store_mid (pre ++ room) x rest) by zlen_lia. gostep. by rewrite <- app_assoc.
Qed.

Lemma groupRev_cons k c l : l <> [] ->
  groupRev k (c :: l) = if k + 1 =? 3 then c :: " "%char :: groupRev 0 l else c :: groupRev (k + 1) l.
Proof. by destruct l. Qed.

Lemma nonempty_snoc (l : text) : 0 < zlen l -> exists l' x, l = l' ++ [x].
Proof. intros H. destruct l as [|x l _] using rev_ind; [done|eauto]. Qed.

(** A buffer of the right length is filled from the right; what is before it is kept. *)
Lemma supplyLoop_spec digits : forall pre room rest more k j, digits <> [] -> 0 <= k < 3 ->
  zlen room = groupLen k (zlen digits) -> j = zlen pre + zlen room - 1 ->
  supplyLoop (Nat.pred (length digits)) j k (digits ++ more) (pre ++ room ++ rest) =
  Ret (pre ++ reverse (groupRev k (reverse digits)) ++ rest).
Proof.
  induction digits as [|c digits IH] using rev_ind; [done|]. intros pre room rest more k j _ Hk Hroom ->.
  rewrite reverse_snoc, length_app. replace (Nat.pred (length digits + length [c])) with (length digits) by (simpl; lia).
  unfold groupLen in Hroom. rewrite zlen_app, zlen_cons, zlen_nil in Hroom.
  replace (zlen digits + (1 + 0) - 1 + k) with (zlen digits + k) in Hroom by lia.
  assert (0 <= Z.quot (zlen digits + k) 3) as Hq by (apply Z.quot_pos; zlen_lia).
  destruct (nonempty_snoc room) as (room' & x & ->); [zlen_lia|]. rewrite zlen_app, zlen_cons, zlen_nil in *.
  destruct (decide (digits = [])) as [-> |Hne].
  - cbn [length supplyLoop]. change (Z.of_nat 0) with (Z.of_nat (length (@nil ascii))).
    rewrite (supply_store [] c more pre room' x rest _ (fun o => Ret o)) by lia. assert (room' = []) as ->; [|done].
    pose proof (Z.quot_small k 3 Hk) as Hk0. change (zlen (@nil ascii) + k) with k in Hroom.
    rewrite Hk0 in Hroom. apply zlen_0_inv. change (zlen (@nil ascii)) with 0 in Hroom. lia.
  - assert (0 < zlen digits) as Hpos by (destruct digits; [done|zlen_lia]).
    assert (length digits = S (Nat.pred (length digits))) as En by (unfold zlen in Hpos; lia).
    rewrite groupRev_cons by (intros E; by rewrite <- (reverse_involutive digits), E in Hne).
    rewrite En. cbn [supplyLoop]. rewrite <- En. rewrite supply_store by lia.
    destruct (Z.eqb_spec (k + 1) 3) as [Ek|Ek].
    + assert (k = 2) as -> by lia.
      replace (zlen digits + 2) with (zlen digits - 1 + 3) in Hroom by lia. rewrite quot3 in Hroom by lia.
      pose proof (Z.quot_pos (zlen digits - 1) 3). destruct (nonempty_snoc room') as (room2 & y & ->); [lia|].
      rewrite zlen_app, zlen_cons, zlen_nil in *.
      replace (pre ++ (room2 ++ [y]) ++ c :: rest) with ((pre ++ room2) ++ y :: c :: rest) by (by rewrite <- !app_assoc).
      rewrite (go_store_mid (pre ++ room2) y) by zlen_lia. gostep. rewrite <- (app_assoc digits), <- (app_assoc pre).
      rewrite (IH pre room2 (" "%char :: c :: rest) _ 0); [|done|lia|unfold groupLen; rewrite Z.add_0_r; lia|lia].
      by rewrite !reverse_cons, <- !app_assoc.
    + rewrite <- (app_assoc digits). rewrite (IH pre room' (c :: rest) _ (k + 1)); [by rewrite reverse_cons, <- app_assoc|done|lia| |lia].
      unfold groupLen. replace (zlen digits - 1 + (k + 1)) with (zlen digits + k) by lia. lia.
Qed.

(** The digits come in groups of three, the first has one to three. *)
Lemma groupRev_groups l : l <> [] ->
  exists g gs, reverse (groupRev 0 (reverse l)) = g ++ concat (map (cons " "%char) gs) /\ g ++ concat gs = l /\
    (1 <= length g <= 3)%nat /\ Forall (fun x => length x = 3%nat) gs.
Proof.
  remember (length l) as n eqn:En. revert l En. induction n as [n IH] using lt_wf_ind. intros l En Hne.
  destruct (decide (n <= 3)%nat) as [Hle|Hgt].
  - exists l, []. rewrite !app_nil_r. split; [|split; [done|split; [destruct l; simpl in *; [done|lia]|constructor]]].
    assert (length l <= 3)%nat as H3 by lia. clear -H3 Hne.
    destruct l as [|a [|b [|c [|d l]]]]; [done|reflexivity..|simpl in H3; lia].
  - assert (exists l1 a b c, l = l1 ++ [a; b; c]) as (l1 & a & b & c & ->).
    { exists (take (n - 3) l). destruct (drop (n - 3) l) as [|a [|b [|c [|d r]]]] eqn:Ed;
        apply (f_equal length) in Ed as El; rewrite length_drop in El; simpl in El; try lia.
      exists a, b, c. by rewrite <- Ed, take_drop. }
    rewrite length_app in En. simpl in En. assert (l1 <> []) as H1 by (destruct l1; simpl in *; [lia|done]).
    destruct (IH (length l1)) with (l := l1) as (g & gs & Eg & Ec & Hg & Hgs); [lia|done|done|].
    exists g, (gs ++ [[a; b; c]]). rewrite map_app, !concat_app, (app_assoc g), <- Eg, (app_assoc g), Ec.
    split; [|split; [done|split; [done|apply Forall_app; split; [done|by constructor]]]].
    rewrite reverse_app. change (reverse [a; b; c]) with [c; b; a].
    destruct (reverse l1) as [|d r] eqn:Er; [by rewrite <- (reverse_involutive l1), Er in H1|].
    change (groupRev 0 ([c; b; a] ++ d :: r)) with (c :: b :: a :: " "%char :: groupRev 0 (d :: r)).
    rewrite !reverse_cons, <- !app_assoc. done.
Qed.

Lemma SplitByte_none c l : c ∉ l -> SplitByte c l = [l].
Proof.
  induction l as [|x l IH]; intros H; [done|]. apply not_elem_of_cons in H as [Hx Hl]. simpl.
  destruct (Ascii.eqb_spec x c); [congruence|]. by rewrite IH.
Qed.

Lemma SplitByte_app c l m : c ∉ l -> SplitByte c (l ++ c :: m) = l :: SplitByte c m.
Proof.
  induction l as [|x l IH]; intros H; simpl.
  - by rewrite Ascii.eqb_refl.
  - apply not_elem_of_cons in H as [Hx Hl]. destruct (Ascii.eqb_spec x c); [congruence|]. by rewrite IH.
Qed.

(** The text of a number: sign, digits and decimals. *)
Definition numberText (neg : bool) (d dec : text) : text :=
  (if neg then ["-"%char] else []) ++ d ++ (if bool_decide (dec = []) then [] else "."%char :: dec).

Lemma numberText_slices neg d dec : "."%char ∉ d -> "."%char ∉ dec ->
  SplitByte "." (numberText neg d dec) =
  ((if neg then ["-"%char] else []) ++ d) :: (if bool_decide (dec = []) then [] else [dec]).
Proof.
  intros Hd Hc. unfold numberText.
  assert ("."%char ∉ (if neg then ["-"%char] else []) ++ d) as Hs 
    by (rewrite not_elem_of_app; split; [destruct neg; set_solver|done]).
  destruct (bool_decide_reflect (dec = [])) as [-> |].
  - rewrite app_nil_r. by apply SplitByte_none.
  - rewrite app_assoc, SplitByte_app by done. by rewrite (SplitByte_none _ dec).
Qed.

(** The buffer has the right size for the digits and, behind the sign, is filled with them. *)
Lemma supply_buffer (neg : bool) d : d <> [] ->
  let s := if neg then ["-"%char] else [] in
  let n := zlen d + Z.quot (zlen d - 1) 3 in
  (let* '(inp, out) :=
     (if neg then let* inp := go_from (s ++ d) 1 in
                  let* out := go_store (repeat Ascii.zero (Z.to_nat (zlen s + n))) 0 "-"%char in Ret (inp, out)
      else Ret (s ++ d, repeat Ascii.zero (Z.to_nat (zlen s + n)))) in
   if zlen inp =? 0 then Panic else supplyLoop (Z.to_nat (zlen inp - 1)) (zlen out - 1) 0 inp out) =
  Ret (s ++ reverse (groupRev 0 (reverse d))).
Proof.
  intros Hd s n. assert (0 < zlen d) as Hpos by (destruct d; [done|zlen_lia]).
  pose proof (Z.quot_pos (zlen d - 1) 3). set (room := repeat Ascii.zero (Z.to_nat n)).
  assert (zlen room = groupLen 0 (zlen d)) as Hroom
    by (unfold room, groupLen, zlen at 1; rewrite repeat_length, Z.add_0_r; lia).
  assert (forall pre, supplyLoop (Z.to_nat (zlen d - 1)) (zlen (pre ++ room) - 1) 0 d (pre ++ room) =
    Ret (pre ++ reverse (groupRev 0 (reverse d)))) as Hloop.
  { intros pre. pose proof (supplyLoop_spec d pre room [] [] 0 (zlen (pre ++ room) - 1)) as H'. rewrite !app_nil_r in H'.
    replace (Z.to_nat (zlen d - 1)) with (Nat.pred (length d)) by (unfold zlen; lia). apply H'; [done|lia|done|zlen_lia]. }
  destruct neg; subst s; cbn [app].
  - assert (go_from ("-"%char :: d) 1 = Ret d) as -> by (apply (go_from_app ["-"%char] d); done). gostep.
    replace (Z.to_nat (zlen ["-"%char] + n)) with (S (Z.to_nat n)) by (rewrite zlen_cons, zlen_nil; lia).
    change (repeat Ascii.zero (S (Z.to_nat n))) with ([] ++ Ascii.zero :: room).
    rewrite (go_store_mid [] Ascii.zero room) by done. gostep. destruct (Z.eqb_spec (zlen d) 0); [lia|]. apply (Hloop ["-"%char]).
  - gostep. change (zlen (@nil ascii) + n) with n. destruct (Z.eqb_spec (zlen d) 0); [lia|]. apply (Hloop []).
Qed.

(** A supply is shown whole: [formatSupply] prints the digits of a number in groups of
    three separated by spaces, the first of one to three digits, behind its sign and
    before two of its decimals; the loop never leaves the buffer it fills. *)
Theorem formatSupply_groups (neg : bool) d dec :
  d <> [] -> "."%char ∉ d -> "."%char ∉ dec -> length dec <> 1%nat ->
  exists g gs,
    formatSupply (Some (neg, numberText neg d dec)) =
      Ret (numberText neg (g ++ concat (map (cons " "%char) gs)) (take 2 dec)) /\
    g ++ concat gs = d /\ (1 <= length g <= 3)%nat /\ Forall (fun x => length x = 3%nat) gs.
Proof.
  intros Hd Hp Hq Hdec. destruct (groupRev_groups d Hd) as (g & gs & Eg & Ec & Hg & Hgs). exists g, gs. split; [|done].
  unfold formatSupply. rewrite numberText_slices by done. set (s := if neg then ["-"%char] else []). rewrite go_index_0. gostep.
  assert ((if 1 <? zlen ((s ++ d) :: (if bool_decide (dec = []) then [] else [dec])) then
             let* s0 := go_index ((s ++ d) :: (if bool_decide (dec = []) then [] else [dec])) 1 in go_slice s0 0 2 else Ret []) =
          Ret (take 2 dec)) as ->.
  { destruct dec as [|x [|y dec]]; [done|simpl in Hdec; lia|]. rewrite bool_decide_eq_false_2 by done.
    change (1 <? zlen [s ++ d; x :: y :: dec]) with true. change (go_index [s ++ d; x :: y :: dec] 1) with (Ret (x :: y :: dec)).
    gostep. by apply (go_slice_prefix [x; y] dec). }
  gostep. pose proof (supply_buffer neg d Hd) as Hb. fold s in Hb. cbn zeta in Hb.
  assert (0 < zlen d) by (destruct d; [done|zlen_lia]). pose proof (Z.quot_pos (zlen d - 1) 3).
  assert ((if neg then zlen (s ++ d) - 1 else zlen (s ++ d)) = zlen d) as -> by (subst s; destruct neg; zlen_lia).
  replace (zlen (s ++ d) + Z.quot (zlen d - 1) 3) with (zlen s + (zlen d + Z.quot (zlen d - 1) 3)) by zlen_lia.
  destruct (Z.ltb_spec (zlen s + (zlen d + Z.quot (zlen d - 1) 3)) 0); [zlen_lia|].
  match type of Hb with go_bind ?m _ = _ => destruct m as [[inp out]|e|]; [|discriminate Hb..] end. cbn [go_bind] in *.
  destruct (zlen inp =? 0); [discriminate Hb|]. rewrite Hb. gostep. rewrite Eg. unfold numberText. fold s.
  destruct dec as [|x [|y dec]]; [|simpl in Hdec; lia|]; simpl; rewrite ?app_nil_r; [done|by rewrite <- !app_assoc].
Qed.

(** A supply with one decimal is not shown: [slices[1][:2]] is out of range. *)
Theorem formatSupply_one_decimal (neg : bool) d x :
  "."%char ∉ d -> "."%char <> x -> formatSupply (Some (neg, numberText neg d [x])) = Panic.
Proof.
  intros Hd Hx. unfold formatSupply. rewrite numberText_slices by set_solver.
  rewrite go_index_0. done.
Qed.

(** ** Parameters *)

Lemma orInt_range n s : in_i64 n -> in_i64 (orInt n s).
Proof.
  intros Hn. unfold orInt, Atoi. destruct (big_SetString _) as [z|]; simpl; [|done].
  destruct ((- 2 ^ 63 <=? z) && (z <? 2 ^ 63)) eqn:Ez; simpl; [|done]. unfold in_i64. lia.
Qed.

Lemma Atoi_range s n : Atoi s = Some n -> in_i64 n.
Proof.
  intros H. pose proof (orInt_range 0 s) as Hr. unfold orInt in Hr. rewrite H in Hr. apply Hr. unfold in_i64. lia.
Qed.

(** C33: Whatever a query says, its parameters are well-formed: the page size is at most the largest
    one, the level of detail is one of the six, the filter stands for all, inputs, outputs or
    one output, its heights have 32 bits and all numbers fit an [int].  Page, page size and gap
    have no lower bound beyond that: a page size of zero passes, and the API panics on it
    ([pageSize_zero]). *)
Theorem getAddressQueryParams_typed (q : query) details maxPageSize :
  AccountDetailsBasic <= details <= AccountDetailsTxHistory -> in_i64 maxPageSize ->
  let '(page, pageSize, details', f, filterParam, gap) := getAddressQueryParams q details maxPageSize in
  in_i64 page /\ in_i64 pageSize /\ pageSize <= maxPageSize /\
  AccountDetailsBasic <= details' <= AccountDetailsTxHistory /\
  (f_Vout f ∈ [AddressFilterVoutOff; AddressFilterVoutInputs; AddressFilterVoutOutputs] \/ 0 <= f_Vout f < 2 ^ 63) /\
  in_u32 (f_FromHeight f) /\ in_u32 (f_ToHeight f) /\ in_i64 gap /\
  (f_Vout f = AddressFilterVoutOff \/ filterParam <> EmptyString).
Proof.
  intros Hd Hm. unfold getAddressQueryParams. cbn [f_Vout f_FromHeight f_ToHeight].
  split; [apply orInt_range; unfold in_i64; lia|].
  split; [|split; [|split; [|split; [|split; [|split; [|split]]]]]].
  - destruct (Atoi (q "pageSize"%string)) as [n|] eqn:E; [|done]. destruct (maxPageSize <? n); [done|by apply Atoi_range in E].
  - destruct (Atoi _) as [n|]; [|lia]. destruct (Z.ltb_spec maxPageSize n); lia.
  - unfold detailsParam, AccountDetailsBasic, AccountDetailsTokens, AccountDetailsTokenBalances, AccountDetailsTxidHistory,
      AccountDetailsTxHistory in *. repeat destruct (String.eqb _ _); lia.
  - unfold voutFilter. case_bool_decide; [left; set_solver|]. destruct (String.eqb _ _); [left; set_solver|].
    destruct (String.eqb _ _); [left; set_solver|]. destruct (Atoi _) as [v|] eqn:E; [|left; set_solver].
    apply Atoi_range in E. destruct (Z.ltb_spec v 0); [left; set_solver|right; unfold in_i64 in E; lia].
  - apply u32_range.
  - apply u32_range.
  - apply orInt_range; unfold in_i64; lia.
  - unfold voutFilter. case_bool_decide; [by left|by right].
Qed.

(** C34: The links under a list are right, for a list of less than 2^62 elements (with a page),
    pages of at least one item, and a page number that times the size of a page does not
    overflow an [int] (beyond that the computation can overflow and panic, [GetMempool_overflow],
    and pages without items divide by zero, [pageSize_zero]): the page that is shown exists;
    a single page has no links; otherwise the links begin with the first page, end with the
    last, contain the page that is shown, increase, and have a gap exactly where pages are
    left out. *)
Theorem paging_links count page n :
  0 <= count -> 0 < n -> count + n < 2 ^ 62 -> (normPage page + 1) * n < 2 ^ 63 ->
  exists pg from to p, computePaging count (normPage page) n = Ret (pg, from, to, p) /\
    1 <= p_Page pg <= p_TotalPages pg /\ 0 <= from /\ from <= to <= count /\
    (p_TotalPages pg = 1 -> getPagingRange (p_Page pg) (p_TotalPages pg) = ([], 0, 0)) /\
    (2 <= p_TotalPages pg -> exists l,
       getPagingRange (p_Page pg) (p_TotalPages pg) =
         (1 :: l, Z.max 1 (p_Page pg - 1), Z.min (p_TotalPages pg) (p_Page pg + 1)) /\
       pages_from 1 l (p_TotalPages pg) /\ p_Page pg ∈ 1 :: l /\ (length l <= 6)%nat).
Proof.
  intros Hc Hn Hcn Hp. assert (0 <= normPage page) as Hp0 by (unfold normPage; lia).
  destruct (shownPage_bounds count (normPage page) n Hc Hp0 Hn) as (H1 & H2 & H3 & H4).
  assert (lastPage count n < 2 ^ 62 - 1) as Hl.
  { destruct (Z.eq_dec count 0) as [-> |]; [unfold lastPage; pose proof (Z.div_lt_upper_bound (0 - 1) n 0); lia|].
    pose proof (lastPage_spec count n). nia. }
  do 4 eexists. split; [apply computePaging_eq; done || lia|]. cbn [p_Page p_TotalPages].
  set (p := shownPage count (normPage page) n) in *. set (t := lastPage count n) in *.
  split; [lia|]. split; [nia|]. split; [nia|]. split.
  - intros ->. reflexivity.
  - intros Ht. destruct (getPagingRange_links (p + 1) (t + 1)) as (l & E & Hl1 & Hl2 & Hl3); [lia..|]. eauto.
Qed.

(** ** Concrete runs *)

(** A character that is not in a given text. *)
Ltac absent := let H := fresh in intros H; repeat (apply elem_of_cons in H as [H|H]; [discriminate H|]); by apply elem_of_nil in H.

(** 1234567.89 and -12.5 *)
Lemma formatSupply_groups_witness :
  exists g gs,
    formatSupply (Some (false, numberText false (String.list_ascii_of_string "1234567") (String.list_ascii_of_string "89"))) =
      Ret (numberText false (g ++ concat (map (cons " "%char) gs)) (String.list_ascii_of_string "89")) /\
    g ++ concat gs = String.list_ascii_of_string "1234567".
Proof.
  destruct (formatSupply_groups false (String.list_ascii_of_string "1234567") (String.list_ascii_of_string "89"))
    as (g & gs & E & Ec & _); [discriminate|absent..|discriminate|].
  exists g, gs. split; [exact E|exact Ec].
Defined.

Lemma formatSupply_one_decimal_witness :
  formatSupply (Some (true, String.list_ascii_of_string "-12.5")) = Panic.
Proof. apply (formatSupply_one_decimal true (String.list_ascii_of_string "12") "5"); [absent|discriminate]. Defined.

(** A query that asks for too much. *)
Definition big_query : query := fun k =>
  if String.eqb k "pageSize" then "5000"%string else if String.eqb k "filter" then "inputs"%string
  else if String.eqb k "to" then "4294967297"%string else EmptyString.

Lemma getAddressQueryParams_typed_witness :
  getAddressQueryParams big_query AccountDetailsTxidHistory txsInAPI =
    (0, 1000, 3, mkFilter AddressFilterVoutInputs EmptyString 0 1 TokensToReturnNonzeroBalance false, "inputs"%string, 0) /\
  1000 <= txsInAPI.
Proof.
  split; [reflexivity|].
  pose proof (getAddressQueryParams_typed big_query AccountDetailsTxidHistory txsInAPI) as H.
  destruct H as (_ & _ & H & _); [unfold AccountDetailsBasic, AccountDetailsTxidHistory, AccountDetailsTxHistory; lia|unfold in_i64, txsInAPI; lia|]. exact H.
Defined.

(** Ten pages of ten, the fifth. *)
Lemma paging_links_witness :
  computePaging 95 (normPage 5) 10 = Ret (mkPaging 5 10 10, 40, 50, 4) /\
  getPagingRange 5 10 = ([1; 0; 4; 5; 6; 0; 10], 4, 6) /\ pages_from 1 [0; 4; 5; 6; 0; 10] 10.
Proof.
  destruct (paging_links 95 5 10) as (pg & from & to & p & E & _ & _ & _ & _ & H); [discriminate|reflexivity..|].
  vm_compute in E. injection E as <- <- <- <-. destruct H as (l & E & H & _); [discriminate|].
  vm_compute in E. injection E as <-. split; [reflexivity|split; [reflexivity|exact H]].
Defined.
