(* ===== verification/SystemInfo.v ===== *)
(** The reports of the API worker ([api/worker.go]) about the explorer, its backend, the
    masternodes and the peers.

    The daemon is the class [InfoChain], the Skyr client an instance of it; build version,
    size of the database on disk and the text about the explorer are the class [Process].
    [fmt.Println], [glog] and the time a call takes are left out. *)
From stdpp Require Import base list gmap strings.
From Stdlib Require Import ZArith Lia.
From S2P Require Import Prelude Types Store Vlq Codec InternalState AddrBalance TxAddresses RocksDB.
From S2P Require Import BaseParser ApiTypes ApiV1 Worker Skyr Rpc.

Open Scope Z_scope.
Open Scope go_scope.

Class InfoChain := {
  info_GetChainInfo : go ChainInfo.t;
  info_GetMasternodesInfo : go (option (list Masternode.t));
  info_GetPeersInfo : go (option (list Peer.t));
}.

Definition skyr_info {DM : Daemon} {RP : RpcParser} {NW : Network} (z : SkyrRPC) : InfoChain := {|
  info_GetChainInfo := skyr_GetChainInfo z;
  info_GetMasternodesInfo := GetMasternodesInfo z;
  info_GetPeersInfo := GetPeersInfo z;
|}.

Class Process := {
  vi_Version : string;
  vi_GitCommit : string;
  vi_BuildTime : string;
  DatabaseSizeOnDisk : Z;
  BlockbookAbout : string;
}.

Record BlockbookInfo := mkBlockbookInfo {
  bb_Coin : string;
  bb_Host : string;
  bb_Version : string;
  bb_GitCommit : string;
  bb_BuildTime : string;
  bb_SyncMode : bool;
  bb_InitialSync : bool;
  bb_InSync : bool;
  bb_BestHeight : Z;
  bb_LastBlockTime : Z;
  bb_InSyncMempool : bool;
  bb_LastMempoolTime : Z;
  bb_MempoolSize : Z;
  bb_Decimals : Z;
  bb_DbSize : Z;
  bb_DbSizeFromColumns : Z;
  bb_DbColumns : list InternalStateColumn;
  bb_About : string;
}.

(** [BackendInfo] has the fields of [ChainInfo.t]. *)
Record SystemInfo := mkSystemInfo { si_Blockbook : BlockbookInfo; si_Backend : ChainInfo.t }.

Record PeersInfo := mkPeersInfo {
  pi_Peers : list Peer.t;
  pi_Version : list (string * Z);
  pi_Services : list (string * Z);
}.

Section worker.
Context `{DB : Store} `{P : BlockChainParser} `{IC : InfoChain} `{PR : Process}.

Definition GetSystemInfo (d : RocksDB) (internal : bool) : go SystemInfo :=
  let* ci := annotate "GetChainInfo" info_GetChainInfo in
  let* i := must (istate d) in
  let '(inSync, bestHeight, lastBlockTime) := GetSyncState i in
  let '(inSyncMempool, lastMempoolTime, mempoolSize) := GetMempoolSyncState i in
  let columnStats := if internal then GetAllDBColumnStats i else [] in
  let internalDBSize := if internal then DBSizeTotal i else 0 in
  Ret (mkSystemInfo
         (mkBlockbookInfo (Coin i) (Host i) vi_Version vi_GitCommit vi_BuildTime (SyncMode i) (InitialSync i) inSync bestHeight
            lastBlockTime inSyncMempool lastMempoolTime mempoolSize AmountDecimals DatabaseSizeOnDisk internalDBSize
            columnStats BlockbookAbout)
         ci).

(** The page of the internal server ([server/internal.go]: [InternalServer.index]): the status and the body, with
    [json.MarshalIndent] as an argument. *)
Definition internal_index (MarshalIndent : SystemInfo -> go string) (d : RocksDB) : go (Z * string) :=
  match GetSystemInfo d true with
  | Ret si => match MarshalIndent si with Ret buf => Ret (200, buf) | Fail _ => Ret (500, EmptyString) | Panic => Panic end
  | Fail _ => Ret (500, EmptyString)
  | Panic => Panic
  end.

Definition api_GetMasternodesInfo : go (option (list Masternode.t)) :=
  annotate "GetMasternodesInfo" info_GetMasternodesInfo.

(** The versions and the services are counted; a nil list is dereferenced. *)
Definition api_GetPeersInfo (order : gmap string Z -> list (string * Z)) : go PeersInfo :=
  let* prs := annotate "GetPeersInfo" info_GetPeersInfo in
  let* l := must prs in
  let '(resv, ress) := GetCnts order (map (fun p => mkRPCPeer (Peer.Subver p) (Peer.Services p)) l) in
  Ret (mkPeersInfo l resv ress).
End worker.
