(* ===== verification/Public.v ===== *)
(** The public HTTP server ([server/public.go]): the calls of the API in its two versions,
    the pages of the explorer, their error handling, and the table of routes.

    A handler takes a request and runs in the monad of the database handle and the cache
    of extended public keys; [None] is an answer that was not found within the bounds of
    [getXpubData].  [jsonHandler] and [htmlTemplateHandler] are the wrappers that turn its
    outcome, an error or a panic into a response.  What a page is filled with is a
    [TemplateData]; the templates themselves, metrics, logs, TLS and the files of the
    directory [static] are left out, and so is the page [top], a report in floating
    point.  White space is the one of ASCII; the texts of errors are the function
    [errorText]. *)
From stdpp Require Import base list gmap strings.
From Stdlib Require Import ZArith Lia Ascii.
From S2P Require Import Prelude Types Store Vlq Codec InternalState AddrBalance TxAddresses RocksDB RocksDBFacts.
From S2P Require Import BaseParser BitcoinParser EthParser BitcoinIndex Ledger IndexInvariant EthIndex Connect ConnectFacts.
From S2P Require Import Mempool Sync ApiTypes ApiV1 Worker WorkerFacts Xpub XpubFacts Websocket Skyr Rpc Socketio Pages SystemInfo.

Open Scope Z_scope.
Open Scope go_scope.

Definition apiV1 : Z := 1.
Definition apiV2 : Z := 2.

(** [r_Body] is the body of a POST request, [r_Form] the value [hex] of its form. *)
Record Request := mkRequest {
  r_Path : string;
  r_Query : query;
  r_Post : bool;
  r_Body : go string;
  r_Form : go string;
}.

(** What the handlers ask the daemon for besides the API. *)
Class PublicChain := {
  pub_EstimateSmartFee : Z -> bool -> go Z;
  pub_EstimateFee : Z -> go Z;
  pub_SendRawTransaction : string -> go string;
  pub_Findzcserial : string -> go string;
}.

Definition skyr_public {DM : Daemon} {RP : RpcParser} (z : SkyrRPC) : PublicChain := {|
  pub_EstimateSmartFee := Rpc.EstimateSmartFee (sr_rpc z);
  pub_EstimateFee := Rpc.EstimateFee (sr_rpc z);
  pub_SendRawTransaction := Rpc.SendRawTransaction (sr_rpc z);
  pub_Findzcserial := Findzcserial z;
|}.

(** ** Answers of the API *)

(** [DNull] is a nil pointer. *)
Inductive apiData :=
  | DNull
  | DSystem (i : SystemInfo)
  | DBlockIndex (hash : string)
  | DTx (tx : ATx.t)
  | DTxV1 (tx : TxV1.t)
  | DTxSpecific (json : string)
  | DAddress (a : Address.t)
  | DAddressV1 (a : AddressV1.t)
  | DUtxo (us : list AUtxo.t)
  | DUtxoV1 (us : list AddressUtxoV1.t)
  | DBlock (b : ABlock.t)
  | DBlockV1 (b : BlockV1.t)
  | DSent (txid : string)
  | DFee (fee : text)
  | DSerial (txid : string).

(** A status and the data, or the text of an error. *)
Record jsonResponse := mkJson { j_Status : Z; j_Body : apiData + string }.

Inductive apiCall :=
  | ApiIndex | ApiBlockIndex | ApiTxSpecific | ApiTx | ApiAddress | ApiXpub | ApiUtxo | ApiBlock | ApiSendTx
  | ApiEstimateFee | ApiFindzcserial.

(** ** Pages *)

Inductive tpl :=
  | noTpl | errorTpl | errorInternalTpl | indexTpl | mnTpl | peersTpl | topTpl | apiinfoTpl | statusTpl | txTpl
  | shieldTxTpl | addressTpl | xpubTpl | blocksTpl | blockTpl | sendTransactionTpl | mempoolTpl | chartsSupplyTpl
  | chartsNetworkTpl | chartsGithubTpl.

Inductive pageName :=
  | PIndex | PMasternodes | PPeers | PTop | PApiInfo | PStatus | PTx | PAddress | PXpub | PSearch | PBlocks | PBlock
  | PSpendingTx | PSendTx | PMempool | PChartsSupply | PChartsNetwork | PChartsGithub.

#[global] Instance tpl_eq_dec : EqDecision tpl.
Proof. solve_decision. Defined.

(** The fields of [TemplateData] every page has. *)
Record siteInfo := mkSite {
  td_CoinName : string;
  td_CoinShortcut : string;
  td_CoinLabel : string;
  td_ChainType : ChainType;
  td_InternalExplorer : bool;
  td_Hostname : string;
}.

(** The fields a page sets; [filter] is the field of the address and part of [PageParams]. *)
Inductive pageContent :=
  | NoContent
  | TxContent (tx : ATx.t)
  | AddressContent (a : Address.t) (filter : string) (nonZeroBalanceTokens : bool)
  | BlocksContent (info : option SystemInfo) (bs : Blocks)
  | BlockContent (b : ABlock.t)
  | MempoolContent (m : MempoolTxids)
  | InfoContent (info : SystemInfo)
  | MasternodesContent (info : SystemInfo) (mn : option (list Masternode.t))
  | PeersContent (info : SystemInfo) (p : PeersInfo)
  | SendTxContent (hex status : string)
  | ChartContent (data : string).

Record pageLinks := mkLinks { l_Page : Z; l_PagingRange : list Z; l_PrevPage : Z; l_NextPage : Z }.

Record TemplateData := mkTemplateData {
  td_Site : siteInfo;
  td_Content : pageContent;
  td_Links : pageLinks;
  td_Error : option (string * bool);
  td_RelativeURL : string;
}.

Definition noLinks : pageLinks := mkLinks 0 [] 0 0.

Definition linksOf (pg : Paging) : pageLinks :=
  let '(r, pp, np) := getPagingRange (p_Page pg) (p_TotalPages pg) in mkLinks (p_Page pg) r pp np.

Definition set_RelativeURL (url : string) (td : TemplateData) : TemplateData :=
  mkTemplateData (td_Site td) (td_Content td) (td_Links td) (td_Error td) url.

(** The response: the status that was written first, the redirection, and the pages in
    the body. *)
Record Writer := mkWriter { w_Status : option Z; w_Location : option string; w_Pages : list (tpl * TemplateData) }.

Definition newWriter : Writer := mkWriter None None [].

Definition WriteHeader (status : Z) (w : Writer) : Writer :=
  mkWriter (Some (default status (w_Status w))) (w_Location w) (w_Pages w).

(** [http.Redirect] with status 302 *)
Definition Redirect (url : string) (w : Writer) : Writer :=
  WriteHeader 302 (mkWriter (w_Status w) (Some url) (w_Pages w)).

Definition ExecuteTemplate (t : tpl) (td : TemplateData) (w : Writer) : Writer :=
  let w := WriteHeader 200 w in mkWriter (w_Status w) (w_Location w) (w_Pages w ++ [(t, td)]).

(** What a page handler returns, with the writer it got. *)
Abbreviation pageResult := (Writer * tpl * option TemplateData)%type.

Definition isSpace (c : ascii) : bool := let n := nat_of_ascii c in ((9 <=? n) && (n <=? 13) || (n =? 32))%nat.

Fixpoint trimSpaceLeft (l : text) : text :=
  match l with c :: l' => if isSpace c then trimSpaceLeft l' else l | [] => [] end.

(** [strings.TrimSpace] *)
Definition TrimSpace (s : string) : string :=
  String.string_of_list_ascii (reverse (trimSpaceLeft (reverse (trimSpaceLeft (String.list_ascii_of_string s))))).

(** [isOwnAddress] with the fields it reads *)
Definition isOwnAddress (addrStr : string) (address : option Address.t) (a : string) : bool :=
  String.eqb a addrStr ||
  match address with Some ad => bool_decide (a ∈ Address.XPubAddresses ad) | None => false end.

Definition isOwnAddresses (addrStr : string) (address : option Address.t) (addresses : list string) : bool :=
  match addresses with [a] => isOwnAddress addrStr address a | _ => false end.

Section server.
Context `{DB : Store} `{P : BlockChainParser} `{V : Vlq} `{SC : ScriptLib} `{J : StateJson}
  `{R : BlockChain} `{E : EthLib} `{C : ApiChain} `{X : XpubParser} `{PC : PublicChain} `{IC : InfoChain} `{PR : Process}.
Context (cacheEnabled : bool) (now : Z) (mempool : BaseMempool) (errorText : error -> string).
(** The bounds of the calls for an extended public key, and the orders of maps. *)
Context (cacheOrder : gmap string xpubData -> list (string * xpubData)) (fuel : nat) (turns : list RocksDB).
Context (countOrder : gmap string Z -> list (string * Z)).
(** [s.debug] with the text it adds, [s.internalExplorer], and the files of the charts. *)
Context (debug : bool) (debugText : option error -> string) (internalExplorer : bool) (readPlot : string -> go string).

Abbreviation handler := (sgo (RocksDB * gmap string xpubData)).

(** An answer without a bound. *)
Definition found {A} (m : handler A) : handler (option A) := let! a := m in sret (Some a).

Definition withDB {A} (f : RocksDB -> go A) : handler A := let! s := sget in slift (f s.1).

(** ** The calls of the API *)

(** The last part of the path, which must not be empty. *)
Definition requiredPart (r : Request) (message : string) : go string :=
  let p := default EmptyString (lastPart (r_Path r)) in
  if bool_decide (p = EmptyString) then Fail (ErrAPI message true) else Ret p.

(** A parameter that is true or false. *)
Definition boolParam (r : Request) (name : string) (value : bool) : go bool :=
  if bool_decide (r_Query r name = EmptyString) then Ret value
  else match ParseBool (r_Query r name) with
       | Some b => Ret b
       | None => Fail (ErrAPI ("Parameter '" ++ name ++ "' cannot be converted to boolean") true)
       end.

Definition apiIndex : handler apiData := let! i := withDB (fun d => GetSystemInfo d false) in sret (DSystem i).

Definition apiBlockIndex (r : Request) : handler apiData :=
  let height := match lastPart (r_Path r) with Some h => orInt (-1) h | None => -1 end in
  let! hash := withDB (fun d =>
    if 0 <=? height then RocksDB.GetBlockHash d (u32 height)
    else let* '(_, hash) := GetBestBlock d in Ret hash) in
  sret (DBlockIndex hash).

Definition apiTx (r : Request) (apiVersion : Z) : handler apiData :=
  let! txid := slift (requiredPart r "Missing txid") in
  let! spendingTxs := slift (boolParam r "spending" false) in
  let! tx := ofXpub (api_GetTransaction cacheEnabled now mempool txid spendingTxs false) in
  if apiVersion =? apiV1 then let! t := slift (TxToV1 tx) in sret (DTxV1 t) else sret (DTx tx).

Definition apiTxSpecific (r : Request) : handler apiData :=
  let! txid := slift (requiredPart r "Missing txid") in
  let! json := slift (Worker.GetTransactionSpecific (Tx.mk EmptyString txid 0 0 [] [] 0 0 0 [] [] 0 NoSpecificData)) in
  sret (DTxSpecific json).

(** An address in the version of the call. *)
Definition addressData (apiVersion : Z) (a : Address.t) : go apiData :=
  if apiVersion =? apiV1 then let* a := AddressToV1 a in Ret (DAddressV1 a) else Ret (DAddress a).

Definition apiAddress (r : Request) (apiVersion : Z) : handler apiData :=
  let! address := slift (requiredPart r "Missing address") in
  let '(page, pageSize, details, filter, _, _) := getAddressQueryParams (r_Query r) AccountDetailsTxidHistory txsInAPI in
  let! a := ofXpub (GetAddress cacheEnabled now mempool address page pageSize details filter) in
  slift (addressData apiVersion a).

Definition apiXpub (r : Request) (apiVersion : Z) : handler (option apiData) :=
  let! xpub := slift (requiredPart r "Missing xpub") in
  let '(page, pageSize, details, filter, _, gap) := getAddressQueryParams (r_Query r) AccountDetailsTxidHistory txsInAPI in
  let! a := GetXpubAddress cacheEnabled now mempool cacheOrder fuel turns xpub page pageSize details filter gap in
  match a with None => sret None | Some a => found (slift (addressData apiVersion a)) end.

Definition apiUtxo (r : Request) (apiVersion : Z) : handler (option apiData) :=
  match lastPart (r_Path r) with
  | None => sret (Some DNull)
  | Some p =>
      let! onlyConfirmed := slift (boolParam r "confirmed" false) in
      let gap := orInt 0 (r_Query r "gap") in
      let! utxo := orAddress
        (GetXpubUtxo cacheEnabled now mempool cacheOrder fuel turns p onlyConfirmed gap)
        (ofXpub (GetAddressUtxo cacheEnabled now mempool p onlyConfirmed)) in
      match utxo with
      | None => sret None
      | Some us =>
          if apiVersion =? apiV1 then found (let! us := slift (AddressUtxoToV1 us) in sret (DUtxoV1 us))
          else sret (Some (DUtxo us))
      end
  end.

Definition apiBlock (r : Request) (apiVersion : Z) : handler apiData :=
  match lastPart (r_Path r) with
  | None => sret DNull
  | Some bid =>
      let! b := ofXpub (api_GetBlock cacheEnabled now mempool bid (orInt 0 (r_Query r "page")) txsInAPI) in
      if apiVersion =? apiV1 then let! b := slift (BlockToV1 b) in sret (DBlockV1 b) else sret (DBlock b)
  end.

Definition apiSendTx (r : Request) : handler apiData :=
  let! hex := slift (if r_Post r then
                       match r_Body r with Fail _ => Fail (ErrAPI "Missing tx blob" true) | b => b end
                     else Ret (default EmptyString (lastPart (r_Path r)))) in
  if bool_decide (hex = EmptyString) then sfail (ErrAPI "Missing tx blob" true)
  else match pub_SendRawTransaction hex with
       | Ret txid => sret (DSent txid)
       | Fail e => sfail (ErrAPI (errorText e) true)
       | Panic => spanic
       end.

Definition apiEstimateFee (r : Request) : handler apiData :=
  let! b := slift (requiredPart r "Missing parameter 'number of blocks'") in
  match Atoi b with
  | None => sfail (ErrAPI "Parameter 'number of blocks' is not a number" true)
  | Some blocks =>
      let! conservative := slift (boolParam r "conservative" true) in
      let! fee := slift (match pub_EstimateSmartFee blocks conservative with Fail _ => pub_EstimateFee blocks | f => f end) in
      let! t := slift (formatAmount (Some fee)) in sret (DFee t)
  end.

Definition apiFindzcserial (r : Request) : handler apiData :=
  match lastPart (r_Path r) with
  | Some serialHex => let! txid := slift (pub_Findzcserial serialHex) in sret (DSerial txid)
  | None => sfail (ErrAPI "Missing parameter 'serialHex'" true)
  end.

Definition apiHandler (c : apiCall) (r : Request) (apiVersion : Z) : handler (option apiData) :=
  match c with
  | ApiIndex => found apiIndex
  | ApiBlockIndex => found (apiBlockIndex r)
  | ApiTxSpecific => found (apiTxSpecific r)
  | ApiTx => found (apiTx r apiVersion)
  | ApiAddress => found (apiAddress r apiVersion)
  | ApiXpub => apiXpub r apiVersion
  | ApiUtxo => apiUtxo r apiVersion
  | ApiBlock => found (apiBlock r apiVersion)
  | ApiSendTx => found (apiSendTx r)
  | ApiEstimateFee => found (apiEstimateFee r)
  | ApiFindzcserial => found (apiFindzcserial r)
  end.

(** ** Errors and panics of the API *)

(** The text for an error that is not meant for the client, [None] for a panic. *)
Definition internalText (e : option error) : string :=
  if debug then ("Internal server error: " ++ debugText e)%string else "Internal server error".

Definition jsonError (e : error) : jsonResponse :=
  match e with
  | ErrAPI text public => mkJson (if public then 400 else 500) (inr text)
  | _ => mkJson 500 (inr (internalText (Some e)))
  end.

Definition jsonHandler (h : handler (option apiData)) (s : RocksDB * gmap string xpubData)
    : (RocksDB * gmap string xpubData) * option jsonResponse :=
  match h s with
  | (s, Ret data) => (s, (fun x => mkJson 200 (inl x)) <$> data)
  | (s, Fail e) => (s, Some (jsonError e))
  | (s, Panic) => (s, Some (mkJson 500 (inr (internalText None))))
  end.

(** ** The pages *)

Definition newTemplateData (d : RocksDB) (content : pageContent) (links : pageLinks) : TemplateData :=
  let i := default (newInternalState EmptyString) (istate d) in
  mkTemplateData
    (mkSite (Coin i) (CoinShortcut i) (CoinLabel i) GetChainType (internalExplorer && negb (InitialSync i)) (Host i))
    content links None EmptyString.

Definition newTemplateDataWithError (d : RocksDB) (text : string) (public : bool) : TemplateData :=
  let td := newTemplateData d NoContent noLinks in
  mkTemplateData (td_Site td) (td_Content td) (td_Links td) (Some (text, public)) (td_RelativeURL td).

(** [return t, data, nil] *)
Definition page (w : Writer) (t : tpl) (content : pageContent) (links : pageLinks) : handler (option pageResult) :=
  let! s := sget in sret (Some (w, t, Some (newTemplateData s.1 content links))).

(** [http.Redirect(w, r, joinURL(base, part), 302); return noTpl, nil, nil] *)
Definition redirect (w : Writer) (base part : string) : handler (option pageResult) :=
  sret (Some (Redirect (joinURL base part) w, noTpl, None)).

(** The second call is made if the first returns an error. *)
Definition orElse {A} (m k : handler (option A)) : handler (option A) := fun s =>
  match m s with (s, Fail _) => k s | r => r end.

Definition explorerTx (r : Request) (w : Writer) : handler (option pageResult) :=
  match lastPart (r_Path r) with
  | None => spanic
  | Some txid =>
      let! tx := ofXpub (api_GetTransaction cacheEnabled now mempool txid false true) in
      page w (if IsShield tx then shieldTxTpl else txTpl) (TxContent tx) noLinks
  end.

Definition explorerSpendingTx (r : Request) (w : Writer) : handler (option pageResult) :=
  let notFound := sfail (ErrAPI "Transaction not found" true) in
  match reverse (SplitByte "/" (String.list_ascii_of_string (r_Path r))) with
  | n :: tx :: _ :: _ =>
      match Atoi (String.string_of_list_ascii n) with
      | Some n =>
          orElse
            (let! spendingTx := ofXpub (GetSpendingTxid cacheEnabled now mempool (String.string_of_list_ascii tx) n) in
             if bool_decide (spendingTx = EmptyString) then notFound else redirect w "/tx/" spendingTx)
            notFound
      | None => notFound
      end
  | _ => notFound
  end.

Definition explorerAddress (r : Request) (w : Writer) : handler (option pageResult) :=
  let! address := slift (requiredPart r "Missing address") in
  let '(pageNo, _, _, filter, filterParam, _) := getAddressQueryParams (r_Query r) AccountDetailsTxHistory txsOnPage in
  let! a := ofXpub (GetAddress cacheEnabled now mempool address pageNo txsOnPage AccountDetailsTxHistory filter) in
  page w addressTpl (AddressContent a filterParam false) (linksOf (Address.Pg a)).

Definition explorerXpub (r : Request) (w : Writer) : handler (option pageResult) :=
  let! xpub := slift (requiredPart r "Missing xpub") in
  let '(pageNo, _, _, filter, filterParam, gap) :=
    getAddressQueryParams (r_Query r) AccountDetailsTxHistoryLight txsOnPage in
  let! a := GetXpubAddress cacheEnabled now mempool cacheOrder fuel turns xpub pageNo txsOnPage AccountDetailsTxHistoryLight
              filter gap in
  match a with
  | None => sret None
  | Some a =>
      let nonZero := match f_TokensToReturn filter with TokensToReturnNonzeroBalance => true | _ => false end in
      page w xpubTpl (AddressContent a filterParam nonZero) (linksOf (Address.Pg a))
  end.

Definition explorerBlocks (r : Request) (w : Writer) : handler (option pageResult) :=
  let! bs := withDB (fun d => GetBlocks d (orInt 0 (r_Query r "page")) blocksOnPage) in
  page w blocksTpl (BlocksContent None bs) (linksOf (bs_Paging bs)).

Definition explorerBlock (r : Request) (w : Writer) : handler (option pageResult) :=
  match lastPart (r_Path r) with
  | None => spanic
  | Some bid =>
      let! b := ofXpub (api_GetBlock cacheEnabled now mempool bid (orInt 0 (r_Query r "page")) txsOnPage) in
      page w blockTpl (BlockContent b) (linksOf (ABlock.Pg b))
  end.

(** The five newest blocks *)
Definition explorerIndex (w : Writer) : handler (option pageResult) :=
  let! si := withDB (fun d => GetSystemInfo d false) in
  let! bs := withDB (fun d => GetBlocks d 0 5) in
  page w indexTpl (BlocksContent (Some si) bs) noLinks.

Definition explorerApiInfo (w : Writer) : handler (option pageResult) := page w apiinfoTpl NoContent noLinks.

Definition explorerStatus (w : Writer) : handler (option pageResult) :=
  let! si := withDB (fun d => GetSystemInfo d false) in page w statusTpl (InfoContent si) noLinks.

Definition explorerMasternodes (w : Writer) : handler (option pageResult) :=
  let! si := withDB (fun d => GetSystemInfo d false) in
  let! mn := slift api_GetMasternodesInfo in
  page w mnTpl (MasternodesContent si mn) noLinks.

Definition explorerPeers (w : Writer) : handler (option pageResult) :=
  let! si := withDB (fun d => GetSystemInfo d false) in
  let! p := slift (api_GetPeersInfo countOrder) in
  page w peersTpl (PeersContent si p) noLinks.

(** An extended public key is tried first, then a block, a transaction and an address. *)
Definition explorerSearch (r : Request) (w : Writer) : handler (option pageResult) :=
  let q := TrimSpace (r_Query r "q") in
  let none := sfail (ErrAPI ("No matching records found for '" ++ q ++ "'") true) in
  if bool_decide (q = EmptyString) then none
  else
    orElse
      (let! a := GetXpubAddress cacheEnabled now mempool cacheOrder fuel turns q 0 1 AccountDetailsBasic offFilter 0 in
       match a with None => sret None | Some a => redirect w "/xpub/" (Address.AddrStr a) end)
    (orElse
      (let! b := ofXpub (api_GetBlock cacheEnabled now mempool q 0 1) in
       redirect w "/block/" (ChainBlockInfo.Hash (ABlock.Info b)))
    (orElse
      (let! tx := ofXpub (api_GetTransaction cacheEnabled now mempool q false false) in redirect w "/tx/" (ATx.Txid tx))
    (orElse
      (let! a := ofXpub (GetAddress cacheEnabled now mempool q 0 1 AccountDetailsBasic offFilter) in
       redirect w "/address/" (Address.AddrStr a))
      none))).

(** The error of the daemon is shown on the page. *)
Definition explorerSendTx (r : Request) (w : Writer) : handler (option pageResult) :=
  if negb (r_Post r) then page w sendTransactionTpl NoContent noLinks
  else
    let! hex := slift (r_Form r) in
    if bool_decide (hex = EmptyString) then page w sendTransactionTpl NoContent noLinks
    else match pub_SendRawTransaction hex with
         | Ret res => page w sendTransactionTpl (SendTxContent EmptyString ("Transaction sent, result " ++ res)) noLinks
         | Fail e =>
             let! s := sget in
             let td := newTemplateDataWithError s.1 (errorText e) true in
             sret (Some (w, sendTransactionTpl,
                         Some (mkTemplateData (td_Site td) (SendTxContent hex EmptyString) noLinks (td_Error td) EmptyString)))
         | Panic => spanic
         end.

Definition explorerMempool (r : Request) (w : Writer) : handler (option pageResult) :=
  let! m := slift (GetMempool mempool (orInt 0 (r_Query r "page")) mempoolTxsOnPage) in
  page w mempoolTpl (MempoolContent m) (linksOf (mt_Paging m)).

Definition explorerCharts (t : tpl) (file : string) (w : Writer) : handler (option pageResult) :=
  let! data := slift (readPlot file) in page w t (ChartContent data) noLinks.

Definition explorerChartsSupply := explorerCharts chartsSupplyTpl "../plot_data/supply_data.json".
Definition explorerChartsNetwork := explorerCharts chartsNetworkTpl "../plot_data/network_data.json".
Definition explorerChartsGithub := explorerCharts chartsGithubTpl "../plot_data/github_data.json".

(** The pages by name; the page [top] is left out. *)
Definition pageHandler (p : pageName) (r : Request) : option (Writer -> handler (option pageResult)) :=
  match p with
  | PIndex => Some explorerIndex
  | PMasternodes => Some explorerMasternodes
  | PPeers => Some explorerPeers
  | PTop => None
  | PApiInfo => Some explorerApiInfo
  | PStatus => Some explorerStatus
  | PTx => Some (explorerTx r)
  | PAddress => Some (explorerAddress r)
  | PXpub => Some (explorerXpub r)
  | PSearch => Some (explorerSearch r)
  | PBlocks => Some (explorerBlocks r)
  | PBlock => Some (explorerBlock r)
  | PSpendingTx => Some (explorerSpendingTx r)
  | PSendTx => Some (explorerSendTx r)
  | PMempool => Some (explorerMempool r)
  | PChartsSupply => Some explorerChartsSupply
  | PChartsNetwork => Some explorerChartsNetwork
  | PChartsGithub => Some explorerChartsGithub
  end.

(** ** Errors and panics of the pages *)

(** The template and the data for an error of a handler. *)
Definition htmlError (d : RocksDB) (e : error) : tpl * TemplateData :=
  match e with
  | ErrAPI text public => (if public then errorTpl else errorInternalTpl, newTemplateDataWithError d text public)
  | _ => (errorInternalTpl, newTemplateDataWithError d (internalText (Some e)) false)
  end.

(** After the handler: [data.RelativeURL] is set, which panics where [data] is nil. *)
Definition relativeURL (r : Request) (data : option TemplateData) : go TemplateData :=
  let* td := must data in
  Ret (set_RelativeURL (if String.eqb (r_Path r) "/" then EmptyString else r_Path r) td).

(** The deferred function: a panic is turned into the page of an internal error. *)
Definition renderPage (d : RocksDB) (w : Writer) (t : tpl) (data : go TemplateData) : Writer :=
  let '(t, td) := match data with
                  | Ret td => (t, td)
                  | _ => (errorInternalTpl, newTemplateDataWithError d (internalText None) false)
                  end in
  if bool_decide (t = noTpl) then w
  else
    let w := if bool_decide (t = errorInternalTpl) then WriteHeader 500 w else w in
    ExecuteTemplate t td w.

Definition htmlTemplateHandler (h : Writer -> handler (option pageResult)) (r : Request)
    (s : RocksDB * gmap string xpubData) : (RocksDB * gmap string xpubData) * option Writer :=
  match h newWriter s with
  | (s, Ret None) => (s, None)
  | (s, Ret (Some (w, t, data))) =>
      let '(t, data) := match data with
                        | None => if bool_decide (t = noTpl) then (t, None)
                                  else (errorInternalTpl, Some (newTemplateDataWithError s.1 (internalText None) false))
                        | Some td => (t, Some td)
                        end in
      (s, Some (renderPage s.1 w t (relativeURL r data)))
  | (s, Fail e) =>
      let '(t, td) := htmlError s.1 e in (s, Some (renderPage s.1 newWriter t (relativeURL r (Some td))))
  | (s, Panic) => (s, Some (renderPage s.1 newWriter noTpl Panic))
  end.
End server.

(** * Routes *)

(** What a pattern is served by; [TRedirect] is [txRedirect] and [addressRedirect]. *)
Inductive target :=
  | TFile
  | TPage (p : pageName)
  | TApi (c : apiCall) (apiVersion : Z)
  | TRedirect
  | TSocketIo
  | TWebsocket.

Abbreviation routes := (list (string * target)).

(** [NewPublicServer] *)
Definition basicRoutes : routes := [
  ("favicon.ico", TFile); ("static/", TFile); (EmptyString, TPage PIndex); ("api/", TApi ApiIndex apiV2)]%string.

Definition pageRoutes (internalExplorer : bool) : routes := [
  ("masternodes", TPage PMasternodes); ("peers", TPage PPeers); ("top", TPage PTop); ("apiinfo", TPage PApiInfo);
  ("status", TPage PStatus); ("test-socketio.html", TFile); ("test-websocket.html", TFile)]%string ++
  (if internalExplorer then [
     ("tx/", TPage PTx); ("address/", TPage PAddress); ("xpub/", TPage PXpub); ("search/", TPage PSearch);
     ("blocks", TPage PBlocks); ("block/", TPage PBlock); ("spending/", TPage PSpendingTx); ("sendtx", TPage PSendTx);
     ("mempool", TPage PMempool); ("charts/supply", TPage PChartsSupply); ("charts/network", TPage PChartsNetwork);
     ("charts/github", TPage PChartsGithub)]
   else [("tx/", TRedirect); ("address/", TRedirect)])%string.

(** The calls and their names; [legacy] has no extended public keys. *)
Definition apiCalls (legacy : bool) : list (string * apiCall) := [
  ("block-index/", ApiBlockIndex); ("tx-specific/", ApiTxSpecific); ("tx/", ApiTx); ("address/", ApiAddress)]%string ++
  (if legacy then [] else [("xpub/"%string, ApiXpub)]) ++ [
  ("utxo/", ApiUtxo); ("block/", ApiBlock); ("sendtx/", ApiSendTx); ("estimatefee/", ApiEstimateFee);
  ("findzcserial/", ApiFindzcserial)]%string.

Definition apiRoutes (prefix : string) (legacy : bool) (apiVersion : Z) : routes :=
  map (fun '(name, c) => ((prefix ++ name)%string, TApi c apiVersion)) (apiCalls legacy).

(** Ethereum has only the second version. *)
Definition apiDefault (ct : ChainType) : Z := match ct with ChainEthereumType => apiV2 | _ => apiV1 end.

(** [ConnectFullPublicInterface] *)
Definition fullRoutes (internalExplorer : bool) (ct : ChainType) : routes :=
  pageRoutes internalExplorer ++
  (match ct with ChainEthereumType => [] | _ => apiRoutes "api/v1/" true apiV1 end) ++
  apiRoutes "api/" false (apiDefault ct) ++ apiRoutes "api/v2/" false apiV2 ++
  [("socket.io/", TSocketIo); ("websocket", TWebsocket)]%string.

Definition patterns (path : string) (internalExplorer : bool) (ct : ChainType) : routes :=
  map (fun '(p, t) => ((path ++ p)%string, t)) (basicRoutes ++ fullRoutes internalExplorer ct).

(** [http.ServeMux]: a pattern that ends with a slash matches every path it begins, another
    one only itself; the longest one wins. *)
Definition endsWithSlash (p : string) : bool := match last (String.list_ascii_of_string p) with Some "/"%char => true | _ => false end.

Definition matches (p path : string) : bool := if endsWithSlash p then String.prefix p path else String.eqb p path.

Definition longer (path : string) (best : option (string * target)) (pt : string * target) : option (string * target) :=
  if matches pt.1 path then
    match best with
    | Some b => if (String.length b.1 <? String.length pt.1)%nat then Some pt else best
    | None => Some pt
    end
  else best.

Definition route (rs : routes) (path : string) : option target := snd <$> foldl (longer path) None rs.

(** * Notifications *)

Section notify.
Context `{DB : Store} `{P : BlockChainParser} `{V : Vlq} `{SC : ScriptLib} `{J : StateJson}
  `{R : BlockChain} `{E : EthLib} `{C : ApiChain}.
Context (cacheEnabled : bool) (now : Z) (mempool : BaseMempool) (order : gmap Z string -> list (Z * string)).

(** [PublicServer.OnNewBlock] and [OnNewTxAddr]: the socket.io server, then the websocket server. *)
Definition public_OnNewBlock (hash : string) (height : Z) (s : SocketIoServer * WebsocketServer)
    : go (SocketIoServer * WebsocketServer) :=
  let* ws := OnNewBlock order hash height s.2 in Ret (OnNewBlockHash hash s.1, ws).

Definition public_OnNewTxAddr (tx : Tx.t) (desc : bytes) (s : SocketIoServer * WebsocketServer)
    : sgo RocksDB (SocketIoServer * WebsocketServer) :=
  let! sio := slift (sio_OnNewTxAddr (Tx.Txid tx) desc s.1) in
  let! ws := OnNewTxAddr cacheEnabled now mempool order tx desc s.2 in
  sret (sio, ws).
End notify.

(** * Facts *)

(** ** Routes *)

Lemma prefix_app p s : String.prefix p (p ++ s) = true.
Proof. induction p as [|c p IH]; simpl; [by destruct s|]. destruct (ascii_dec c c); [done|congruence]. Qed.

(** Two beginnings of one text, the first is not longer. *)
Lemma prefix_of_longer p q s : String.prefix q (p ++ s) = true -> (String.length p <= String.length q)%nat ->
  String.prefix p q = true.
Proof.
  revert q. induction p as [|c p IH]; intros q H Hl; [by destruct q|].
  destruct q as [|d q]; simpl in Hl; [lia|]. simpl in H |- *. destruct (ascii_dec d c) as [-> |]; [|done].
  destruct (ascii_dec c c); [|done]. apply IH; [done|lia].
Qed.

Lemma prefix_cancel a p s : String.prefix (a ++ p) (a ++ s) = String.prefix p s.
Proof. induction a as [|c a IH]; simpl; [done|]. destruct (ascii_dec c c); [done|congruence]. Qed.

Lemma append_length a b : String.length (a ++ b) = (String.length a + String.length b)%nat.
Proof. induction a as [|c a IH]; simpl; [done|]. by rewrite IH. Qed.

Lemma append_assoc a b c : ((a ++ b) ++ c = a ++ b ++ c)%string.
Proof. induction a as [|x a IH]; [done|]. exact (f_equal (String x) IH). Qed.

Lemma append_cancel a b c : (a ++ b)%string = (a ++ c)%string -> b = c.
Proof. induction a as [|x a IH]; simpl; [done|]. intros [= H]. by apply IH. Qed.

(** The longest pattern that matches is found. *)
Lemma longest_route p t path rs : NoDup (map fst rs) -> (p, t) ∈ rs -> matches p path = true ->
  (forall p' t', (p', t') ∈ rs -> matches p' path = true -> p' <> p -> (String.length p' < String.length p)%nat) ->
  route rs path = Some t.
Proof.
  intros Hnd Hin Hm Hlong. unfold route.
  assert (forall l best, (forall x, x ∈ l -> x ∈ rs) ->
    (best = Some (p, t) \/ ((p, t) ∈ l /\ forall b, best = Some b -> (String.length b.1 < String.length p)%nat)) ->
    foldl (longer path) best l = Some (p, t)) as H; [|by rewrite (H rs None) by naive_solver].
  induction l as [|[p' t'] l IH]; intros best Hsub Hb; simpl.
  - destruct Hb as [Hb|[Hb _]]; [done|by apply elem_of_nil in Hb].
  - assert (forall x, x ∈ l -> x ∈ rs) as Hsub' by (intros x Hx; apply Hsub; by constructor).
    pose proof (Hsub (p', t') (list_elem_of_here _ _)) as Hp'. apply IH; [done|]. unfold longer. cbn [fst].
    destruct (decide (p' = p)) as [-> |Hne].
    + assert (t' = t) as ->.
      { apply list_elem_of_lookup_1 in Hin as [i Hi], Hp' as [j Hj]. assert (i = j) as ->; [|congruence].
        eapply NoDup_lookup; [exact Hnd|by rewrite list_lookup_fmap, Hi|by rewrite list_lookup_fmap, Hj]. }
      rewrite Hm. left. destruct Hb as [-> |[_ Hb]]; simpl; [by rewrite Nat.ltb_irrefl|].
      destruct best as [b|]; [|done]. pose proof (Hb b eq_refl). destruct (Nat.ltb_spec (String.length b.1) (String.length p)); [done|lia].
    + destruct (matches p' path) eqn:Em; [pose proof (Hlong p' t' Hp' Em Hne) as Hl|].
      * destruct Hb as [-> |[Hb1 Hb]]; cbn [fst]; [left; destruct (Nat.ltb_spec (String.length p) (String.length p')); [lia|done]|].
        right. apply elem_of_cons in Hb1 as [[= -> ->]|Hb1]; [done|]. split; [done|]. intros b.
        destruct best as [b0|]; [|by intros [= <-]]. destruct (_ <? _)%nat; [by intros [= <-]|apply Hb].
      * destruct Hb as [-> |[Hb1 Hb]]; [by left|]. right. apply elem_of_cons in Hb1 as [[= -> ->]|Hb1]; done.
Qed.

(** No pattern is the beginning of another, the index of the API and of the site apart. *)
Definition prefix_free (rs all : routes) : bool :=
  forallb (fun x => forallb (fun y => String.eqb x.1 y.1 || negb (String.prefix x.1 y.1)) all) rs.

Definition is_api (t : target) : bool := match t with TApi _ _ => true | _ => false end.

Lemma fullRoutes_free ie ct :
  prefix_free (List.filter (fun x => is_api x.2) (fullRoutes ie ct)) (basicRoutes ++ fullRoutes ie ct) = true.
Proof. destruct ie, ct; vm_compute; reflexivity. Qed.

Lemma fullRoutes_NoDup ie ct : NoDup (map fst (basicRoutes ++ fullRoutes ie ct)).
Proof. apply (bool_decide_unpack (NoDup _)). destruct ie, ct; vm_compute; exact I. Qed.

Lemma api_slash ie ct p t : (p, t) ∈ fullRoutes ie ct -> is_api t = true -> endsWithSlash p = true.
Proof.
  intros Hin Ht. assert (forallb (fun x => negb (is_api x.2) || endsWithSlash x.1) (fullRoutes ie ct) = true) as H
    by (destruct ie, ct; vm_compute; reflexivity).
  rewrite forallb_forall in H. apply list_elem_of_In in Hin. specialize (H _ Hin). cbn [fst snd] in H. by rewrite Ht in H.
Qed.

Lemma endsWithSlash_app a p : p <> EmptyString -> endsWithSlash (a ++ p) = endsWithSlash p.
Proof.
  intros Hp. unfold endsWithSlash. assert (last (String.list_ascii_of_string (a ++ p)) = last (String.list_ascii_of_string p)) as ->; [|done].
  induction a as [|c a IH]; [done|]. simpl. rewrite <- IH. destruct (String.list_ascii_of_string (a ++ p)) eqn:E; [|done].
  destruct a, p; discriminate || done.
Qed.

(** A pattern that begins with the one of a call is that pattern. *)
Lemma api_pattern_free ie ct p c v q t : (p, TApi c v) ∈ fullRoutes ie ct -> (q, t) ∈ basicRoutes ++ fullRoutes ie ct ->
  String.prefix p q = true -> q = p.
Proof.
  intros Hin Hq Hpre. pose proof (fullRoutes_free ie ct) as Hf. unfold prefix_free in Hf. rewrite forallb_forall in Hf.
  specialize (Hf (p, TApi c v)). rewrite List.filter_In, <- list_elem_of_In in Hf. specialize (Hf (conj Hin eq_refl)).
  rewrite forallb_forall in Hf. specialize (Hf (q, t)). rewrite <- list_elem_of_In in Hf. specialize (Hf Hq). cbn [fst] in Hf.
  rewrite Hpre, orb_false_r in Hf. by apply String.eqb_eq in Hf.
Qed.

Lemma patterns_NoDup path ie ct : NoDup (map fst (patterns path ie ct)).
Proof.
  unfold patterns. rewrite map_map. rewrite (map_ext _ (fun x => path ++ x.1)%string) by (by intros []).
  rewrite <- (map_map fst (String.append path)). apply (NoDup_fmap_2_strong (String.append path)); [|apply fullRoutes_NoDup].
  intros x y _ _. apply append_cancel.
Qed.

Lemma api_route path ie ct p c v arg : (p, TApi c v) ∈ fullRoutes ie ct ->
  route (patterns path ie ct) (path ++ p ++ arg) = Some (TApi c v).
Proof.
  intros Hin. assert ((p, TApi c v) ∈ basicRoutes ++ fullRoutes ie ct) as Hall by (apply elem_of_app; by right).
  assert (p <> EmptyString) as Hne.
  { intros ->. pose proof (api_pattern_free ie ct EmptyString c v "api/" (TApi ApiIndex apiV2) Hin) as H.
    discriminate H; [|done]. apply elem_of_app; left. unfold basicRoutes. set_solver. }
  apply longest_route with (p := (path ++ p)%string).
  - apply patterns_NoDup.
  - apply list_elem_of_fmap. by exists (p, TApi c v).
  - unfold matches. rewrite endsWithSlash_app, (api_slash ie ct p (TApi c v)) by done.
    rewrite prefix_cancel. apply prefix_app.
  - intros p' t' Hp' Hm Hd. apply list_elem_of_fmap in Hp' as ([q t] & [= -> ->] & Hq). rewrite !append_length.
    destruct (decide (String.length q < String.length p)%nat) as [|Hlong]; [lia|exfalso].
    apply Hd. f_equal. apply (api_pattern_free ie ct p c v q t Hin Hq).
    unfold matches in Hm. destruct (endsWithSlash (path ++ q)).
    + rewrite prefix_cancel in Hm. apply (prefix_of_longer p q arg); [done|lia].
    + apply String.eqb_eq in Hm. apply append_cancel in Hm as ->. apply prefix_app.
Qed.

(** The calls of the second version have routes on every chain. *)
Lemma v2_routes ie ct name c : (name, c) ∈ apiCalls false -> (("api/v2/" ++ name)%string, TApi c apiV2) ∈ fullRoutes ie ct.
Proof.
  intros H. unfold fullRoutes. rewrite !elem_of_app. do 3 right. left. apply list_elem_of_fmap. by exists (name, c).
Qed.

(** ** Calls of the API *)

(** An answer of the second version in the form of the first. *)
Definition dataV1 `{P : BlockChainParser} (d : apiData) : go apiData :=
  match d with
  | DTx tx => let* t := TxToV1 tx in Ret (DTxV1 t)
  | DAddress a => let* a := AddressToV1 a in Ret (DAddressV1 a)
  | DUtxo us => let* us := AddressUtxoToV1 us in Ret (DUtxoV1 us)
  | DBlock b => let* b := BlockToV1 b in Ret (DBlockV1 b)
  | d => Ret d
  end.

Section facts.
Context `{DB : Store} `{P : BlockChainParser} `{V : Vlq} `{SC : ScriptLib} `{J : StateJson}
  `{R : BlockChain} `{E : EthLib} `{C : ApiChain} `{X : XpubParser} `{PC : PublicChain} `{IC : InfoChain} `{PR : Process}.
Context (cacheEnabled : bool) (now : Z) (mempool : BaseMempool) (errorText : error -> string).
Context (cacheOrder : gmap string xpubData -> list (string * xpubData)) (fuel : nat) (turns : list RocksDB).
Context (countOrder : gmap string Z -> list (string * Z)).
Context (debug : bool) (debugText : option error -> string) (internalExplorer : bool) (readPlot : string -> go string).

Abbreviation call := (apiHandler cacheEnabled now mempool errorText cacheOrder fuel turns).
Abbreviation pages := (pageHandler cacheEnabled now mempool errorText cacheOrder fuel turns countOrder internalExplorer readPlot).
Abbreviation html := (htmlTemplateHandler debug debugText internalExplorer).
Abbreviation json := (jsonHandler debug debugText).

Definition versionedCall (c : apiCall) : bool :=
  match c with ApiTx | ApiAddress | ApiXpub | ApiUtxo | ApiBlock => true | _ => false end.

Lemma sbind_assoc {S A B D} (m : sgo S A) (k : A -> sgo S B) (k' : B -> sgo S D) s :
  (let! y := (let! x := m in k x) in k' y) s = (let! x := m in let! y := k x in k' y) s.
Proof. unfold sbind. by destruct (m s) as [s' [a|e|]]. Qed.

Lemma sbind_ext {S A B} (m : sgo S A) (k k' : A -> sgo S B) s :
  (forall a s, k a s = k' a s) -> (let! x := m in k x) s = (let! x := m in k' x) s.
Proof. intros H. unfold sbind. destruct (m s) as [s' [a|e|]]; auto. Qed.

(** Both sides begin with the same calls. *)
Ltac same_calls :=
  repeat first [ rewrite sbind_assoc | apply sbind_ext; intros ? ? ].

(** The conversion at the end. *)
Ltac converted m :=
  unfold found, addressData, dataV1, sbind, sret, slift; cbn beta iota; change (apiV1 =? apiV1) with true;
  change (apiV2 =? apiV1) with false; cbn beta iota; destruct m; reflexivity.

Lemma call_v1 c r s : versionedCall c = true ->
  call c r apiV1 s =
  (let! d := call c r apiV2 in
   match d with None => sret None | Some d => found (slift (dataV1 d)) end) s.
Proof.
  destruct c; intros H; try discriminate H; clear H; cbn [apiHandler].
  - unfold found, apiTx. same_calls. converted (TxToV1 a1).
  - unfold found, apiAddress. destruct (getAddressQueryParams _ _ _) as [[[[[page size] details] filter] fp] gap].
    same_calls. converted (AddressToV1 a0).
  - unfold apiXpub. destruct (getAddressQueryParams _ _ _) as [[[[[page size] details] filter] fp] gap].
    same_calls. destruct a0 as [a0|]; [|reflexivity]. converted (AddressToV1 a0).
  - unfold apiUtxo. destruct (lastPart (r_Path r)); [|reflexivity]. same_calls.
    destruct a0 as [us|]; [|reflexivity]. converted (AddressUtxoToV1 us).
  - unfold found, apiBlock. destruct (lastPart (r_Path r)); [|reflexivity]. same_calls. converted (BlockToV1 a).
Qed.

(** A missing part of the path is a bad request; nothing is read for it. *)
Lemma json_bad c r v s e : call c r v s = (s, Fail (ErrAPI e true)) ->
  json (call c r v) s = (s, Some (mkJson 400 (inr e))).
Proof. intros H. unfold jsonHandler. by rewrite H. Qed.

(** ** Pages *)

Create HintDb answers.

(** A handler leaves the response as it is and returns data for a template, or it
    redirects and returns none. *)
Definition answered (w : Writer) (res : pageResult) : Prop :=
  (exists t td, res = (w, t, Some td) /\ t <> noTpl) \/ (exists url, res = (Redirect url w, noTpl, None)).

Definition answers (w : Writer) (m : sgo (RocksDB * gmap string xpubData) (option pageResult)) : Prop :=
  forall s s' res, m s = (s', Ret (Some res)) -> answered w res.

Lemma answers_bind {A} w (m : sgo (RocksDB * gmap string xpubData) A) k : (forall a, answers w (k a)) -> answers w (sbind m k).
Proof. intros Hk s s' res H. apply sbind_ret in H as (s1 & a & _ & H). by eapply Hk. Qed.

Lemma answers_page w t c l : t <> noTpl -> answers w (page internalExplorer w t c l).
Proof. intros Ht s s' res [= <- <-]. left. eauto. Qed.

Lemma answers_redirect w base part : answers w (redirect w base part).
Proof. intros s s' res [= <- <-]. right. eauto. Qed.

Lemma answers_fail w e : answers w (sfail e).
Proof. intros s s' res [=]. Qed.

Lemma answers_panic w : answers w spanic.
Proof. intros s s' res [=]. Qed.

Lemma answers_none w : answers w (sret None).
Proof. intros s s' res [=]. Qed.

Lemma answers_error w t td : t <> noTpl -> answers w (sret (Some (w, t, Some td))).
Proof. intros Ht s s' res [= <- <-]. left. eauto. Qed.

Lemma answers_orElse w m k : answers w m -> answers w k -> answers w (orElse m k).
Proof.
  intros Hm Hk s s' res. unfold orElse. destruct (m s) as [s1 [x|e|]] eqn:Em; intros H; [|by eapply Hk|discriminate].
  injection H as <- ->. by eapply Hm.
Qed.

#[local] Hint Resolve answers_redirect answers_fail answers_panic answers_none : answers.

Ltac answering :=
  repeat (cbn beta iota zeta; first
    [ solve [auto with answers]
    | apply answers_page; try destruct (IsShield _); discriminate
    | apply answers_error; discriminate
    | match goal with |- answers _ (match ?m with _ => _ end) => destruct m end
    | apply answers_bind; intros ?
    | apply answers_orElse ]).

Lemma pages_answer p r h w : pages p r = Some h -> answers w (h w).
Proof.
  destruct p; cbn [pageHandler]; intros H; try discriminate H; injection H as <-;
    unfold explorerIndex, explorerMasternodes, explorerPeers, explorerApiInfo, explorerStatus, explorerTx, explorerAddress,
      explorerXpub, explorerSearch, explorerBlocks, explorerBlock, explorerSpendingTx, explorerSendTx, explorerMempool,
      explorerChartsSupply, explorerChartsNetwork, explorerChartsGithub, explorerCharts; answering.
Qed.

(** ** Page size zero *)

Lemma confirmedPage_zero ad pg opt f total s s' res :
  confirmedPage cacheEnabled now mempool ad pg 0 opt f total s <> (s', Ret res).
Proof.
  intros H. unfold confirmedPage in H. apply sbind_ret in H as (s1 & d & _ & H).
  apply sbind_ret in H as (s2 & txc & _ & H). apply sbind_ret in H as (s3 & [bh h] & _ & H).
  apply sbind_ret in H as (s4 & p & H & _). discriminate H.
Qed.

Lemma GetAddress_zero address pg opt f s s' res : AccountDetailsTxidHistory <= opt ->
  GetAddress cacheEnabled now mempool address pg 0 opt f s <> (s', Ret res).
Proof.
  intros Hopt H. unfold GetAddress in H. apply sbind_ret in H as (s1 & [ad a] & _ & H).
  apply sbind_ret in H as (s2 & d & _ & H). apply sbind_ret in H as (s3 & [e n] & _ & H).
  apply sbind_ret in H as (s4 & u & _ & H). destruct (Z.leb_spec AccountDetailsTxidHistory opt); [|lia].
  apply sbind_ret in H as (s5 & x & H & _). by apply confirmedPage_zero in H.
Qed.

Lemma detailsParam_history t d : t ∉ ["basic"; "tokens"; "tokenBalances"]%string -> AccountDetailsTxidHistory <= d ->
  AccountDetailsTxidHistory <= detailsParam t d.
Proof.
  intros Ht Hd. rewrite !not_elem_of_cons in Ht. destruct Ht as (H1 & H2 & H3 & _). unfold detailsParam.
  destruct (String.eqb_spec t "basic"), (String.eqb_spec t "tokens"), (String.eqb_spec t "tokenBalances"); try done.
  repeat destruct (String.eqb _ _); unfold AccountDetailsTxidHistory, AccountDetailsTxHistory in *; lia.
Qed.

(** ** From the request to the index *)

(** A request for the API: the route is found and its call answered. *)
Definition serveApi (path : string) (r : Request) (s : RocksDB * gmap string xpubData)
    : option ((RocksDB * gmap string xpubData) * option jsonResponse) :=
  match route (patterns path internalExplorer GetChainType) (r_Path r) with
  | Some (TApi c v) => Some (json (call c r v) s)
  | _ => None
  end.

Lemma afterLast_none c l : c ∉ l -> afterLast c l = None.
Proof.
  induction l as [|x l IH]; intros H; [done|]. apply not_elem_of_cons in H as [Hx Hl]. simpl. rewrite IH by done.
  destruct (Ascii.eqb_spec x c); [congruence|done].
Qed.

Lemma afterLast_app c l a : c ∉ a -> afterLast c (l ++ c :: a) = Some a.
Proof.
  intros H. induction l as [|x l IH]; simpl; [by rewrite afterLast_none, Ascii.eqb_refl by done|by rewrite IH].
Qed.

Lemma list_ascii_app a b : String.list_ascii_of_string (a ++ b) = String.list_ascii_of_string a ++ String.list_ascii_of_string b.
Proof. induction a as [|c a IH]; simpl; [done|by rewrite IH]. Qed.

Lemma lastPart_app q a : q <> EmptyString -> "/"%char ∉ String.list_ascii_of_string a -> lastPart (q ++ "/" ++ a) = Some a.
Proof.
  intros Hq Ha. unfold lastPart. rewrite list_ascii_app. destruct q as [|c q]; [done|]. change (String.list_ascii_of_string ("/" ++ a)) with ("/"%char :: String.list_ascii_of_string a).
  cbn [String.list_ascii_of_string app]. rewrite afterLast_app by done. simpl. by rewrite String.string_of_list_ascii_of_string.
Qed.
End facts.

(** * Properties *)

Section properties.
Context `{DB : Store} `{P : BlockChainParser} `{V : Vlq} `{SC : ScriptLib} `{J : StateJson}
  `{R : BlockChain} `{E : EthLib} `{C : ApiChain} `{X : XpubParser} `{PC : PublicChain} `{IC : InfoChain} `{PR : Process}.
Context (cacheEnabled : bool) (now : Z) (mempool : BaseMempool) (errorText : error -> string).
Context (cacheOrder : gmap string xpubData -> list (string * xpubData)) (fuel : nat) (turns : list RocksDB).
Context (countOrder : gmap string Z -> list (string * Z)).
Context (debug : bool) (debugText : option error -> string) (internalExplorer : bool) (readPlot : string -> go string).

Abbreviation call := (apiHandler cacheEnabled now mempool errorText cacheOrder fuel turns).
Abbreviation pages := (pageHandler cacheEnabled now mempool errorText cacheOrder fuel turns countOrder internalExplorer readPlot).
Abbreviation html := (htmlTemplateHandler debug debugText internalExplorer).
Abbreviation json := (jsonHandler debug debugText).

(** C31: The two versions of the API say the same: a call that has versions answers in the
    first one with the conversion of its answer in the second, with the same errors and
    the same effect on the database; the other calls do not depend on the version. *)
Theorem api_versions_agree c r s :
  call c r apiV1 s =
    if versionedCall c then
      (let! d := call c r apiV2 in
       match d with None => sret None | Some d => found (slift (dataV1 d)) end) s
    else call c r apiV2 s.
Proof. destruct (versionedCall c) eqn:Hc; [by apply call_v1|by destruct c]. Qed.

(** Requests that are refused without looking at the index. *)
Inductive bad_request : apiCall -> Request -> Prop :=
  | bad_part c r : c ∈ [ApiTxSpecific; ApiTx; ApiAddress; ApiXpub; ApiEstimateFee] ->
      default EmptyString (lastPart (r_Path r)) = EmptyString -> bad_request c r
  | bad_spending r : ParseBool (r_Query r "spending") = None -> r_Query r "spending"%string <> EmptyString -> bad_request ApiTx r
  | bad_confirmed r p : lastPart (r_Path r) = Some p -> ParseBool (r_Query r "confirmed") = None ->
      r_Query r "confirmed"%string <> EmptyString -> bad_request ApiUtxo r
  | bad_blocks r : Atoi (default EmptyString (lastPart (r_Path r))) = None -> bad_request ApiEstimateFee r
  | bad_post r e : r_Post r = true -> r_Body r = Fail e -> bad_request ApiSendTx r
  | bad_post_empty r : r_Post r = true -> r_Body r = Ret EmptyString -> bad_request ApiSendTx r
  | bad_send r : r_Post r = false -> default EmptyString (lastPart (r_Path r)) = EmptyString -> bad_request ApiSendTx r.

(** A request with a missing or malformed parameter is answered with the status of a
    bad request and a message, whatever the state of the index, and changes nothing. *)
Theorem bad_requests_refused c v r s : bad_request c r ->
  exists message, json (call c r v) s = (s, Some (mkJson 400 (inr message))).
Proof.
  intros H. assert (exists e, call c r v s = (s, Fail (ErrAPI e true))) as (e & He); [|eexists; by apply json_bad].
  destruct H as [c r Hc Hp|r Hb Hn|r p Hp Hb Hn|r Hb|r e Hp Hb|r Hp Hb|r Hp Hb]; cbn [apiHandler];
    unfold apiTxSpecific, apiTx, apiAddress, apiXpub, apiUtxo, apiSendTx, apiEstimateFee, found, requiredPart, boolParam.
  - rewrite !elem_of_cons in Hc. destruct Hc as [-> |[-> |[-> |[-> |[-> |Hc%elem_of_nil]]]]]; [..|done]; cbn [apiHandler];
      unfold apiTxSpecific, apiTx, apiAddress, apiXpub, apiEstimateFee, found, requiredPart; rewrite Hp; eexists; reflexivity.
  - destruct (bool_decide (default EmptyString (lastPart (r_Path r)) = EmptyString)); [eexists; reflexivity|].
    rewrite bool_decide_eq_false_2, Hb by done. eexists. reflexivity.
  - rewrite Hp, bool_decide_eq_false_2, Hb by done. eexists. reflexivity.
  - destruct (bool_decide (default EmptyString (lastPart (r_Path r)) = EmptyString)); [eexists; reflexivity|].
    unfold sbind, slift. cbn beta iota. rewrite Hb. eexists. reflexivity.
  - rewrite Hp, Hb. eexists. reflexivity.
  - rewrite Hp, Hb. eexists. reflexivity.
  - rewrite Hp, Hb. eexists. reflexivity.
Qed.

(** C32: Every answered page is one page: without a redirection the body is one template,
    with status 500 exactly for the template of an internal error.  Every redirection
    keeps its status and location, but its body is the page of an internal error, since
    [data.RelativeURL] is set on the nil data the handler returned. *)
Theorem html_response p h r s s' w : pages p r = Some h -> html h r s = (s', Some w) ->
  (exists t td, t <> noTpl /\
     w = mkWriter (Some (if bool_decide (t = errorInternalTpl) then 500 else 200)) None [(t, td)]) \/
  (exists url td, w = mkWriter (Some 302) (Some url) [(errorInternalTpl, td)] /\
     td_Error td = Some (internalText debug debugText None, false)).
Proof.
  intros Hp. pose proof (pages_answer cacheEnabled now mempool errorText cacheOrder fuel turns countOrder
    internalExplorer readPlot p r h newWriter Hp s) as Ha.
  unfold htmlTemplateHandler. destruct (h newWriter s) as [s1 [[[[w1 t] data]|]|e|]] eqn:Eh; [|done|..].
  - destruct (Ha s1 _ eq_refl) as [(t' & td & [= -> -> ->] & Ht)|(url & [= -> -> ->])]; intros [= <- <-].
    + left. unfold renderPage, relativeURL. cbn [must go_bind]. rewrite (bool_decide_eq_false_2 (t' = noTpl)) by done.
      exists t'. eexists. split; [done|]. destruct (bool_decide (t' = errorInternalTpl)); reflexivity.
    + right. exists url. eexists. split; reflexivity.
  - assert (exists t td, htmlError debug debugText internalExplorer s1.1 e = (t, td) /\ t <> noTpl) as (t & td & -> & Ht).
    { destruct e as [| | | | | | |msg|msg|e msg|text [|]]; eexists _, _; (split; [reflexivity|done]). }
    intros [= <- <-]. left. unfold renderPage, relativeURL. cbn [must go_bind]. rewrite (bool_decide_eq_false_2 (t = noTpl)) by done.
    exists t. eexists. split; [done|]. destruct (bool_decide (t = errorInternalTpl)); reflexivity.
  - intros [= <- <-]. left. exists errorInternalTpl. eexists. split; [done|]. reflexivity.
Qed.
End properties.

Section more_properties.
Context `{DB : Store} `{P : BlockChainParser} `{V : Vlq} `{SC : ScriptLib} `{J : StateJson}
  `{R : BlockChain} `{E : EthLib} `{C : ApiChain} `{X : XpubParser} `{PC : PublicChain} `{IC : InfoChain} `{PR : Process}.
Context (cacheEnabled : bool) (now : Z) (mempool : BaseMempool) (errorText : error -> string).
Context (cacheOrder : gmap string xpubData -> list (string * xpubData)) (fuel : nat) (turns : list RocksDB).
Context (debug : bool) (debugText : option error -> string) (internalExplorer : bool).

Abbreviation call := (apiHandler cacheEnabled now mempool errorText cacheOrder fuel turns).
Abbreviation json := (jsonHandler debug debugText).

(** A page size of zero is never answered: the division by the number of items on a
    page panics, whatever the address and the state of the index. *)
Theorem pageSize_zero r v s s' resp :
  Atoi (r_Query r "pageSize") = Some 0 -> r_Query r "details"%string ∉ ["basic"; "tokens"; "tokenBalances"]%string ->
  json (call ApiAddress r v) s = (s', Some resp) ->
  j_Status resp <> 200 /\ exists message, j_Body resp = inr message.
Proof.
  intros Hz Hd. unfold jsonHandler. cbn [apiHandler].
  destruct (found (apiAddress cacheEnabled now mempool r v) s) as [s1 [data|e|]] eqn:Ea.
  - exfalso. unfold found in Ea. apply sbind_ret in Ea as (s2 & a & Ea & _). unfold apiAddress in Ea.
    apply sbind_ret in Ea as (s3 & address & _ & Ea). unfold getAddressQueryParams in Ea. rewrite Hz in Ea.
    change (if txsInAPI <? 0 then txsInAPI else 0) with 0 in Ea.
    apply sbind_ret in Ea as (s4 & b & Ea & _). unfold ofXpub in Ea.
    destruct (GetAddress cacheEnabled now mempool address _ 0 _ _ s3.1) as [d g] eqn:Eg. injection Ea as <- ->.
    apply GetAddress_zero in Eg; [done|]. by apply detailsParam_history.
  - intros [= <- <-]. destruct e as [| | | | | | |msg|msg|e msg|text [|]]; cbn [jsonError j_Status j_Body]; (split; [done|eauto]).
  - intros [= <- <-]. cbn [j_Status j_Body]. split; [done|eauto].
Qed.

(** The height of [api/block-index/] is cut to 32 bits: a height beyond them is answered
    with the hash of another block. *)
Theorem block_index_wraps r1 r2 p1 p2 h k v s :
  lastPart (r_Path r1) = Some p1 -> lastPart (r_Path r2) = Some p2 ->
  Atoi p1 = Some h -> Atoi p2 = Some (h + k * 2 ^ 32) -> 0 <= h -> 0 <= k ->
  json (call ApiBlockIndex r2 v) s = json (call ApiBlockIndex r1 v) s.
Proof.
  intros Hp1 Hp2 H1 H2 Hh Hk. cbn [apiHandler]. unfold apiBlockIndex, orInt. rewrite Hp1, Hp2, H1, H2. cbn [default from_option id].
  rewrite (proj2 (Z.leb_le 0 h)), (proj2 (Z.leb_le 0 (h + k * 2 ^ 32))) by lia.
  assert (u32 (h + k * 2 ^ 32) = u32 h) as -> by (unfold u32; by rewrite Z_mod_plus_full). done.
Qed.
End more_properties.

(** C30: From the request to the index: on an indexed chain the address
    [api/v2/utxo/<address>?confirmed=true] is routed to [apiUtxo] and answered with
    status 200 and exactly the unspent outputs of the stored transactions that are indexed
    under the address, each once; nothing is changed. *)
Theorem serve_utxo `{SL : StoreLaws} `{PL : ParserLaws} `{VL : VlqLaws} `{SCL : ScriptLaws} `{J : StateJson}
    `{R : BlockChain} `{E : EthLib} `{C : ApiChain} `{X : XpubParser} `{PC : PublicChain} `{IC : InfoChain} `{PR : Process}
    cacheEnabled now mempool errorText cacheOrder fuel turns debug debugText internalExplorer path
    (d : RocksDB) (cache : gmap string xpubData) blocks r address ad bestheight hash :
  reliable -> GetChainType = ChainBitcoinType -> chain d blocks ->
  GetAddrDescFromAddress address = Ret ad -> GetBestBlock d = Ret (bestheight, hash) ->
  zlen (String.list_ascii_of_string address) <> xpubLen -> "/"%char ∉ String.list_ascii_of_string address ->
  path <> EmptyString -> r_Path r = (path ++ "api/v2/utxo/" ++ address)%string -> r_Query r "confirmed" = "true"%string ->
  exists us,
    serveApi cacheEnabled now mempool errorText cacheOrder fuel turns debug debugText internalExplorer path r (d, cache) =
      Some ((d, cache), Some (mkJson 200 (inl (DUtxo us)))) /\
    (forall a, a ∈ us <-> exists u, stored_output d ad u /\ a = api_utxo bestheight u) /\
    NoDup (map (fun a => (AUtxo.Txid a, AUtxo.Vout a)) us).
Proof.
  intros Hrel Hct Hch Ha Hb Hlen Hslash Hpath Hr Hq.
  destruct (GetAddressUtxo_chain cacheEnabled now mempool d blocks address ad bestheight hash Hrel Hct Hch Ha Hb)
    as (us & ab & Eu & _ & _ & Hown & Hnd).
  exists us. split; [|done]. unfold serveApi. rewrite Hr.
  rewrite (api_route path _ _ "api/v2/utxo/" ApiUtxo apiV2) by (by apply v2_routes, (list_elem_of_lookup_2 _ 5)).
  unfold jsonHandler. cbn [apiHandler]. unfold apiUtxo, boolParam. rewrite Hr.
  assert (lastPart (path ++ "api/v2/utxo/" ++ address) = Some address) as ->.
  { replace (path ++ "api/v2/utxo/" ++ address)%string with ((path ++ "api/v2/utxo") ++ "/" ++ address)%string
      by (rewrite append_assoc; done).
    apply lastPart_app; [destruct path; done|done]. }
  rewrite Hq. cbn [bool_decide]. rewrite bool_decide_eq_false_2 by done. change (ParseBool "true") with (Some true).
  unfold sbind at 1, slift at 1. unfold sbind, orAddress, GetXpubUtxo, sbind, ofCache, getXpubData.
  rewrite (bool_decide_true (GetChainType = ChainBitcoinType)) by done.
  rewrite (proj2 (Z.eqb_neq _ _) Hlen).
  cbn. unfold ofXpub. cbn. by rewrite Eu.
Qed.

(** The table of routes is sound: no pattern is registered twice, which would panic, and
    every path that continues the pattern of an API call is served by that call in the
    version of the pattern, never by a shorter or longer one. *)
Theorem api_dispatch path ie ct :
  NoDup (map fst (patterns path ie ct)) /\
  forall p c v arg, (p, TApi c v) ∈ fullRoutes ie ct ->
    route (patterns path ie ct) (path ++ p ++ arg) = Some (TApi c v).
Proof. split; [apply patterns_NoDup|intros; by apply api_route]. Qed.

(** ** Concrete runs *)

Definition plain_public : PublicChain := {|
  pub_EstimateSmartFee _ _ := Fail (ErrMsg "no estimate");
  pub_EstimateFee _ := Ret 1000;
  pub_SendRawTransaction _ := Fail (ErrMsg "rejected");
  pub_Findzcserial _ := Ret EmptyString;
|}.

Definition plain_info : InfoChain := {|
  info_GetChainInfo := Fail (ErrMsg "no daemon");
  info_GetMasternodesInfo := Ret None;
  info_GetPeersInfo := Ret None;
|}.

Definition plain_process : Process := {|
  vi_Version := EmptyString; vi_GitCommit := EmptyString; vi_BuildTime := EmptyString; DatabaseSizeOnDisk := 0;
  BlockbookAbout := EmptyString;
|}.

(** A daemon that knows one block without transactions. *)
Definition block_api : ApiChain := {|
  Worker.GetTransactionSpecific _ := Ret EmptyString;
  json_UnmarshalTx _ := zeroTx;
  chain_GetBlockInfo hash :=
    if String.eqb hash "b1" then
      Ret (ChainBlockInfo.mk "b1" "b0" "b2" 1 1 1 1 EmptyString EmptyString EmptyString EmptyString EmptyString [] EmptyString)
    else Fail ErrBlockNotFound;
  EthereumTypeGetBalance _ := Ret None;
  EthereumTypeGetNonce _ := Ret 0;
  EthereumTypeGetErc20ContractInfo _ := Ret None;
  EthereumTypeGetErc20ContractBalance _ _ := Ret None;
|}.

Definition get (path : string) (q : query) : Request := mkRequest path q false (Ret EmptyString) (Ret EmptyString).
Definition param (name value : string) : query := fun k => if String.eqb k name then value else EmptyString.

Abbreviation test_call := (apiHandler (P := plain_parser) (V := leb) (R := one_block) (C := plain_api) (X := plain_xpub)
  (PC := plain_public) (IC := plain_info) (PR := plain_process) false 77 emptyMempool (fun _ => EmptyString) map_to_list 2 []).
Abbreviation test_json := (jsonHandler false (fun _ => EmptyString)).

Lemma bad_requests_refused_witness :
  (test_json (test_call ApiTx (get "/api/tx/00" (param "spending" "maybe")) apiV2) (open_db ∅, ∅)).2 =
    Some (mkJson 400 (inr "Parameter 'spending' cannot be converted to boolean"%string)).
Proof.
  destruct (bad_requests_refused (P := plain_parser) (V := leb) (R := one_block) (C := plain_api) (X := plain_xpub)
    (PC := plain_public) (IC := plain_info) (PR := plain_process) false 77 emptyMempool (fun _ => EmptyString) map_to_list 2 []
    false (fun _ => EmptyString) ApiTx apiV2 (get "/api/tx/00" (param "spending" "maybe")) (open_db ∅, ∅)
    (bad_spending (get "/api/tx/00" (param "spending" "maybe")) eq_refl ltac:(discriminate))) as (m & H).
  apply (f_equal snd) in H. rewrite H. vm_compute in H. injection H as <-. reflexivity.
Defined.

(** The search for a block redirects to it, and shows the page of an internal error. *)
Lemma html_response_witness :
  exists w, (htmlTemplateHandler (P := plain_parser) false (fun _ => EmptyString) true
      (explorerSearch (P := plain_parser) (V := leb) (R := one_block) (C := block_api) (X := plain_xpub) false 77 emptyMempool
         map_to_list 2 [] (get "/search/" (param "q" " b1 "))) (get "/search/" (param "q" " b1 ")) (db7, ∅)).2 = Some w /\
    w_Status w = Some 302 /\ w_Location w = Some "/block/b1"%string /\ map fst (w_Pages w) = [errorInternalTpl].
Proof.
  pose proof (fun s' w => html_response (P := plain_parser) (V := leb) (R := one_block) (C := block_api) (X := plain_xpub)
    (PC := plain_public) (IC := plain_info) (PR := plain_process) false 77 emptyMempool (fun _ => EmptyString) map_to_list 2 []
    map_to_list false (fun _ => EmptyString) true (fun _ => Ret EmptyString) PSearch _
    (get "/search/" (param "q" " b1 ")) (db7, ∅) s' w eq_refl) as H.
  destruct (htmlTemplateHandler (P := plain_parser) false (fun _ => EmptyString) true _ _ (db7, ∅)) as [s' o] eqn:Eh.
  apply (f_equal (fun x => match x.2 with Some w => (w_Status w, w_Location w) | None => (None, None) end)) in Eh as Es.
  vm_compute in Es. destruct o as [w|]; [|discriminate Es]. exists w. split; [reflexivity|].
  destruct (H _ _ eq_refl) as [(t & td & _ & ->)|(url & td & -> & _)]; [discriminate Es|].
  injection Es as Eu. clear -Eu. rewrite <- Eu. split; [reflexivity|split; reflexivity].
Defined.

Lemma pageSize_zero_witness :
  let r := get "/api/v2/address/76a9" (param "pageSize" "0") in
  exists message, (test_json (test_call ApiAddress r apiV2) (db7, ∅)).2 = Some (mkJson 500 (inr message)).
Proof.
  intros r.
  pose proof (pageSize_zero (P := plain_parser) (V := leb) (R := one_block) (C := plain_api) (X := plain_xpub)
    (PC := plain_public) (IC := plain_info) (PR := plain_process) false 77 emptyMempool (fun _ => EmptyString) map_to_list 2 []
    false (fun _ => EmptyString) r apiV2 (db7, ∅)) as H.
  destruct (test_json (test_call ApiAddress r apiV2) (db7, ∅)) as [s' o] eqn:Ej.
  apply (f_equal (fun x => j_Status <$> x.2)) in Ej as Es. vm_compute in Es. destruct o as [resp|]; [|discriminate Es].
  destruct (H s' resp eq_refl (fun Hin => ltac:(repeat (apply elem_of_cons in Hin as [Hin|Hin]; [discriminate Hin|]); by apply elem_of_nil in Hin)) eq_refl)
    as (_ & message & Hm).
  exists message. destruct resp as [st body]. cbn [j_Status j_Body] in *. injection Es as <-. by rewrite Hm.
Defined.

(** 4294967303 = 7 + 2^32 *)
Lemma block_index_wraps_witness :
  (test_json (test_call ApiBlockIndex (get "/api/block-index/4294967303" (fun _ => EmptyString)) apiV2) (db7, ∅)).2 =
    Some (mkJson 200 (inl (DBlockIndex (Block.Hash block7)))).
Proof.
  rewrite (block_index_wraps (P := plain_parser) (V := leb) (R := one_block) (C := plain_api) (X := plain_xpub)
    (PC := plain_public) (IC := plain_info) (PR := plain_process) false 77 emptyMempool (fun _ => EmptyString) map_to_list 2 []
    false (fun _ => EmptyString) (get "/api/block-index/7" (fun _ => EmptyString)) (get "/api/block-index/4294967303" (fun _ => EmptyString))
    "7" "4294967303" 7 1 apiV2 (db7, ∅)); [vm_compute; reflexivity|reflexivity..|discriminate|discriminate].
Defined.

Lemma serve_utxo_witness :
  exists us, serveApi (P := plain_parser) (V := leb) (R := one_block) (C := plain_api) (X := plain_xpub)
      (PC := plain_public) (IC := plain_info) (PR := plain_process) false 77 emptyMempool (fun _ => EmptyString) map_to_list 2 []
      false (fun _ => EmptyString) true "/" (get "/api/v2/utxo/76a9" (param "confirmed" "true")) (db7, ∅) =
    Some ((db7, ∅), Some (mkJson 200 (inl (DUtxo us)))).
Proof.
  destruct (serve_utxo (P := plain_parser) (V := leb) (R := one_block) (C := plain_api) (X := plain_xpub)
    (PC := plain_public) (IC := plain_info) (PR := plain_process) false 77 emptyMempool (fun _ => EmptyString) map_to_list 2 []
    false (fun _ => EmptyString) true "/" db7 ∅ ([] ++ [block7]) (get "/api/v2/utxo/76a9" (param "confirmed" "true"))
    "76a9" [Byte.x76; Byte.xa9] 7 (Block.Hash block7) mem_store_reliable eq_refl db7_chain) as (us & H & _).
  - reflexivity.
  - vm_compute. reflexivity.
  - discriminate.
  - absent.
  - discriminate.
  - reflexivity.
  - reflexivity.
  - exists us. exact H.
Defined.
