(* ===== verification/Main.v ===== *)
(** The main program ([blockbook.go]): start, rollback, synchronization and shutdown, the loops
    that run beside them and the notifications that wake them.

    The class [MainWorld] is what the program starts or asks outside of the index: the
    configuration, the connection to the daemon, the file of the database, the host, the
    servers and the mempool.  The work of the loops while the servers run is a list of ticks
    that are done one after the other.  Signals are arguments, times are in nanoseconds.
    Logs, profiling and the metrics are left out. *)
From stdpp Require Import base list gmap strings sorting.
From Stdlib Require Import ZArith Lia Ascii.
From S2P Require Import Prelude Hex Types Store Vlq Codec InternalState AddrBalance TxAddresses BaseParser BitcoinParser.
From S2P Require Import EthParser RocksDB RocksDBFacts BitcoinIndex Ledger IndexInvariant EthIndex Connect ConnectFacts.
From S2P Require Import Undo UndoBlock DisconnectFacts BulkConnect Mempool Sync ApiTypes Worker Hoare DbStateFacts.

Open Scope Z_scope.
Open Scope go_scope.

(** * Flags and the world *)

Record flags := mkFlags {
  repair : bool;
  blockchain : string;
  computeFeeStatsFlag : bool;
  computeColumnStats : bool;
  rollbackHeight : Z;
  blockFrom : Z;
  blockUntil : Z;
  synchronize : bool;
  internalBinding : string;
  publicBinding : string;
  dryRun : bool;
  syncWorkers : Z;
  syncChunk : Z;
}.

Definition exitCodeOK : Z := 0.
Definition exitCodeFatal : Z := 255.

Definition ms : Z := 1000000.
Definition debounceResyncIndexMs : Z := 1009.
Definition debounceResyncMempoolMs : Z := 1009.
Definition storeInternalStatePeriodMs : Z := 59699.

(** [NewBlockChain n]: the answer to attempt [n]; [signalled n]: a signal comes while the
    program waits after it.  [mempool_Resync n] is the result of resynchronization [n]. *)
Class MainWorld {DB : Store} := {
  RepairRocksDB : go unit;
  GetCoinNameFromConfig : string -> go (string * string * string);
  GetMetrics : string -> go unit;
  NewBlockChain : nat -> go unit;
  signalled : nat -> bool;
  openDB : go store;
  Hostname : go string;
  NewInternalServer : go unit;
  NewPublicServer : go unit;
  InitializeMempool : go unit;
  mempool_Resync : nat -> go Z;
}.

(** ** Waking the loops *)

Inductive NotificationType := NotificationNewBlock | NotificationNewTx | NotificationUnknown.

Inductive syncChannel := chanSyncIndex | chanSyncMempool.

(** What the loop of the message queue ([MQ.run], [bchain/mq.go]) makes of a message. *)
Definition mq_notification (msg : list string) : option NotificationType :=
  if 3 <=? zlen msg then
    match msg with
    | "hashblock"%string :: _ => Some NotificationNewBlock
    | "hashtx"%string :: _ => Some NotificationNewTx
    | _ => Some NotificationUnknown
    end
  else None.

(** What [RecvMessageBytes] returns: a message, an error after which the loop goes on, or that the socket or its
    context were closed. *)
Inductive received := Message (msg : list string) | ReceiveError | SocketClosed.

(** The calls of the callback by [MQ.run], and whether the loop ended. *)
Fixpoint mq_run (l : list received) : list NotificationType * bool :=
  match l with
  | [] => ([], false)
  | SocketClosed :: _ => ([], true)
  | ReceiveError :: l' => mq_run l'
  | Message msg :: l' => let '(nts, ended) := mq_run l' in (option_list (mq_notification msg) ++ nts, ended)
  end.

(** The channel a notification is sent to. *)
Definition pushSynchronizationHandler (inShutdown : bool) (nt : NotificationType) : option syncChannel :=
  if inShutdown then None
  else match nt with
       | NotificationNewBlock => Some chanSyncIndex
       | NotificationNewTx => Some chanSyncMempool
       | NotificationUnknown => None
       end.

(** The callbacks of a notification, in the order they were registered. *)
Definition onNewBlockHash (callbacksOnNewBlock : list (string -> Z -> go unit)) (hash : string) (height : Z) : go unit :=
  go_fold (fun _ c => c hash height) tt callbacksOnNewBlock.

Definition onNewTxAddr (callbacksOnNewTxAddr : list (Tx.t -> bytes -> go unit)) (tx : Tx.t) (desc : bytes) : go unit :=
  go_fold (fun _ c => c tx desc) tt callbacksOnNewTxAddr.

(** [strings.ToLower] and [strings.Replace] *)
Definition normalizeName (s : string) : string :=
  untxt (map (fun c => if decide (c = " "%char) then "-"%char else c) (txt (ToLower s))).

(** *** [tickAndDebounce] *)

(** The time the timer fires and the first request since the action was last done; [l_runs] are
    the times at which the action was started, the last one first. *)
Record loopState := mkLoop { l_timer : Z; firstDebounce : option Z; l_exited : bool; l_runs : list Z }.

Definition startLoop (now tickTime : Z) : loopState := mkLoop (now + tickTime) None false [].

(** A request, the closed channel, or the timer: then the action takes some time and is left
    out in a shutdown. *)
Inductive loopEvent :=
  | LInput (now : Z)
  | LClosed (now : Z)
  | LTimer (now : Z) (inShutdown : bool) (busy : Z).

Definition event_time (e : loopEvent) : Z :=
  match e with LInput t | LClosed t | LTimer t _ _ => t end.

Definition tickAndDebounce (tickTime debounceTime : Z) (l : loopState) (e : loopEvent) : loopState :=
  match e with
  | LInput now =>
      let first := default now (firstDebounce l) in
      mkLoop (if now <? first + debounceTime then now + debounceTime else now) (Some first) (l_exited l) (l_runs l)
  | LClosed now => mkLoop (l_timer l) (firstDebounce l) true (l_runs l)
  | LTimer now inShutdown busy =>
      let runs := if inShutdown then l_runs l else now :: l_runs l in
      mkLoop (now + busy + tickTime) None (l_exited l) runs
  end.

(** *** The statistics that are computed from time to time *)

Record storeLoop := mkStoreLoop { computeRunning : bool; lastCompute : Z }.

(** Whether the statistics are to be computed now. *)
Definition startCompute (dbStatsPeriodHours computePeriod now : Z) (l : storeLoop) : storeLoop * bool :=
  if (0 <? dbStatsPeriodHours) && negb (computeRunning l) && (lastCompute l + computePeriod <? now)
  then (mkStoreLoop true (lastCompute l), true) else (l, false).

Definition finishedCompute (now : Z) (l : storeLoop) : storeLoop := mkStoreLoop false now.

(** * The program *)

Section main.
Context `{DB : Store} `{P : BlockChainParser} `{V : Vlq} `{SC : ScriptLib} `{J : StateJson}
  `{R : BlockChain} `{E : EthLib} `{C : ApiChain} `{MW : !MainWorld}.
(** The time, the signals [ResyncIndex] and [ConnectBlocksParallel] see, those the
    statistics see, and the fuel of the loops that follow the daemon. *)
Context (now : Z) (interrupt : nat -> bool) (stop : Z -> bool) (fuel blocks : nat).

(** [seconds] attempts are made again after a failure, one second apart. *)
Fixpoint getBlockChain_from (left i : nat) : go unit :=
  match NewBlockChain i with
  | Fail e =>
      match left with
      | O => Fail e
      | S left' => if signalled i then Fail (ErrMsg "Interrupted") else getBlockChain_from left' (S i)
      end
  | r => r
  end.

Definition getBlockChainWithRetry (seconds : nat) : go unit := getBlockChain_from seconds O.

Definition set_names (coinShortcut coinLabel : string) (host : option string) (i : InternalState) : InternalState :=
  mkInternalState (Coin i) coinShortcut coinLabel (default (Host i) host) (DbState i) (LastStore i) (SyncMode i)
    (InitialSync i) (IsSynchronized i) (BestHeight i) (LastSync i) (IsMempoolSynchronized i) (MempoolSize i)
    (LastMempoolSync i) (DbColumns i).

(** [newInternalState] *)
Definition loadInternalState (coin coinShortcut coinLabel : string) (d : RocksDB) : go InternalState :=
  let* i := LoadInternalState d coin in
  let label := if decide (coinLabel = EmptyString) then coin else coinLabel in
  let* host := match Hostname with Ret name => Ret (Some name) | Fail _ => Ret None | Panic => Panic end in
  Ret (set_names coinShortcut label host i).

(** ** Rollback *)

(** [for height := bestHeight - 1; height >= rollbackHeight; height--] on unsigned heights *)
Fixpoint rollbackHashes (fuel : nat) (d : RocksDB) (height rollback : Z) (hashes : list string) : go (list string) :=
  match fuel with
  | O => Panic
  | S f =>
      if rollback <=? height then
        let* hash := GetBlockHash d height in
        rollbackHashes f d (u32 (height - 1)) rollback (hashes ++ [hash])
      else Ret hashes
  end.

(** [DisconnectBlocks] does not use the hashes. *)
Definition performRollback (fuel : nat) (rollbackHeight : Z) : sgo RocksDB unit :=
  let! d := sget in
  let! '(bestHeight, bestHash) := slift (GetBestBlock d) in
  if bestHeight <? u32 rollbackHeight then sret tt
  else
    let! hashes := slift (rollbackHashes fuel d (u32 (bestHeight - 1)) (u32 rollbackHeight) [bestHash]) in
    DisconnectBlocks (u32 rollbackHeight) bestHeight.

(** ** The distribution of fees *)

(** What is written to the log for a block, but for the deciles. *)
Record feeLine := mkFeeLine { fl_block : Z; fl_time : Z; fl_txs : Z; fl_sum : Z; fl_fees : list Z }.

(** The fees of the transactions; [stopped n]: a signal before transaction [n]. *)
Fixpoint blockFees (cache : bool) (mempool : BaseMempool) (stopped : nat -> bool) (n : nat) (bestheight : Z)
    (dbi : BlockInfo.t) (txids : list string) : sgo RocksDB (list Z) :=
  match txids with
  | [] => sret []
  | txid :: txids' =>
      if stopped n then sfail ErrOperationInterrupted
      else
        let! tx := txFromTxid cache now mempool txid bestheight AccountDetailsTxHistoryLight (Some dbi) in
        let! fees := blockFees cache mempool stopped (S n) bestheight dbi txids' in
        sret (Amount_AsInt64 (ATx.FeesSat tx) :: fees)
  end.

Definition feesOfBlock (cache : bool) (mempool : BaseMempool) (stopped : nat -> bool) (bestheight block : Z)
    : sgo RocksDB (option feeLine) :=
  let! d := sget in
  let! hash := slift (GetBlockHash d (u32 block)) in
  let! bi := slift (chain_GetBlockInfo hash) in
  if 20 <? zlen (ChainBlockInfo.Txids bi) then
    let dbi := BlockInfo.mk (ChainBlockInfo.Hash bi) (ChainBlockInfo.Time bi) 0 0 (ChainBlockInfo.Height bi) in
    let txids := match GetChainType with
                 | ChainBitcoinType => tail (ChainBlockInfo.Txids bi)
                 | _ => ChainBlockInfo.Txids bi
                 end in
    let! fees := blockFees cache mempool stopped O bestheight dbi txids in
    sret (Some (mkFeeLine block (ChainBlockInfo.Time bi) (zlen (ChainBlockInfo.Txids bi))
                  (foldl (fun sum fee => i64 (sum + fee)) 0 fees) (merge_sort Z.le fees)))
  else sret None.

(** [stopped block n]: a signal before transaction [n] of a block. *)
Definition ComputeFeeStats (cache : bool) (mempool : BaseMempool) (stopped : Z -> nat -> bool) (blockFrom blockTo : Z)
    : sgo RocksDB (list (option feeLine)) :=
  let! d := sget in
  let! '(bestheight, _) := slift (annotate "GetBestBlock" (GetBestBlock d)) in
  smap (fun block => feesOfBlock cache mempool (stopped block) bestheight block) (range blockFrom (blockTo + 1)).

(** ** Start and shutdown *)

(** A call whose error ends the program; an interrupt ends it in good order. *)
Definition orFatal {S A} (m : sgo S A) (k : A -> sgo S Z) : sgo S Z := fun s =>
  match m s with
  | (s, Ret a) => k a s
  | (s, Fail _) => (s, Ret exitCodeFatal)
  | (s, Panic) => (s, Panic)
  end.

Definition orInterrupted {S A} (m : sgo S A) (k : A -> sgo S Z) : sgo S Z := fun s =>
  match m s with
  | (s, Ret a) => k a s
  | (s, Fail e) => (s, Ret (if decide (e = ErrOperationInterrupted) then exitCodeOK else exitCodeFatal))
  | (s, Panic) => (s, Panic)
  end.

Definition setDbState (z : Z) : sgo RocksDB unit := with_is (fun i => Ret (set_DbState z i)).

Definition set_modes (syncMode initialSync : bool) (i : InternalState) : InternalState :=
  mkInternalState (Coin i) (CoinShortcut i) (CoinLabel i) (Host i) (DbState i) (LastStore i) syncMode initialSync
    (IsSynchronized i) (BestHeight i) (LastSync i) (IsMempoolSynchronized i) (MempoolSize i) (LastMempoolSync i) (DbColumns i).

(** The work of the loops: [syncIndexLoop] with the one retry, [syncMempoolLoop] and
    [storeInternalStateLoop], which also starts to compute the statistics. *)
Inductive tick := TickIndex | TickMempool (n : nat) | TickStore (compute : bool).

Definition syncIndex (f : flags) : sgo SyncWorker unit := fun w =>
  let resync := ResyncIndex (syncWorkers f) (syncChunk f) (dryRun f) interrupt now fuel blocks false in
  match resync w with
  | (w, Fail _) => slogged tt resync w
  | r => r
  end.

Definition syncMempool (n : nat) : sgo SyncWorker unit :=
  do! on_db (with_is (fun i => Ret (StartedMempoolSync i))) in
  match mempool_Resync n with
  | Ret count => on_db (with_is (fun i => Ret (FinishedMempoolSync now count i)))
  | Fail _ => sret tt
  | Panic => spanic
  end.

Definition storeInternalState (compute : bool) : sgo SyncWorker unit :=
  do! (if compute then slogged tt (on_db (ComputeInternalStateColumnStats now stop)) else sret tt) in
  slogged tt (on_db (StoreInternalState now)).

Definition doTick (f : flags) (t : tick) : sgo SyncWorker unit :=
  match t with
  | TickIndex => syncIndex f
  | TickMempool n => syncMempool n
  | TickStore compute => storeInternalState compute
  end.

(** The part of [mainWithExitCode] that is done if [synchronize] is set. *)
Definition initialSynchronization (f : flags) (k : sgo SyncWorker Z) : sgo SyncWorker Z :=
  do! on_db (with_is (fun i => Ret (set_modes true true i))) in
  orInterrupted (ResyncIndex (syncWorkers f) (syncChunk f) (dryRun f) interrupt now fuel blocks true) (fun _ =>
  orFatal (slift InitializeMempool) (fun _ =>
  orFatal (slift (mempool_Resync O)) (fun mempoolCount =>
  do! on_db (with_is (fun i => Ret (FinishedMempoolSync now mempoolCount i))) in
  do! on_db (with_is (fun i => Ret (set_modes true false i))) in k))).

(** From the synchronization to the shutdown; [ticks] is what the loops do until then. *)
Definition serve (f : flags) (ticks : list tick) : sgo SyncWorker Z :=
  let loops := do! sfor (doTick f) ticks in sret exitCodeOK in
  let blocksRange :=
    if 0 <=? blockFrom f then
      let until := if blockUntil f <? 0 then blockFrom f else blockUntil f in
      if synchronize f then loops
      else orInterrupted (on_db (ConnectBlocksParallel (dryRun f) interrupt now (u32 (blockFrom f)) (u32 until))) (fun _ => loops)
    else loops in
  if synchronize f then initialSynchronization f blocksRange else blocksRange.

Definition with_worker {A} (minStartHeight : Z) (m : sgo SyncWorker A) : sgo RocksDB A := fun d =>
  let '(w, r) := m (NewSyncWorker d minStartHeight) in (w_db w, r).

(** What is done with the opened database. *)
Definition runWith (f : flags) (names : string * string * string) (ticks : list tick)
    (fees : bool * BaseMempool * (Z -> nat -> bool)) (rollbackFuel : nat) : sgo RocksDB Z :=
  let '(coin, coinShortcut, coinLabel) := names in
  let! d := sget in
  orFatal (slift (loadInternalState coin coinShortcut coinLabel d)) (fun i =>
  do! SetInternalState i in
  if DbState i =? DbStateInconsistent then sret exitCodeFatal
  else if computeFeeStatsFlag f then
    do! setDbState DbStateOpen in
    orInterrupted (ComputeFeeStats fees.1.1 fees.1.2 fees.2 (blockFrom f) (blockUntil f)) (fun _ => sret exitCodeOK)
  else if computeColumnStats f then
    do! setDbState DbStateOpen in
    orFatal (ComputeInternalStateColumnStats now stop) (fun _ => sret exitCodeOK)
  else
    do! setDbState DbStateOpen in
    orFatal (StoreInternalState now) (fun _ =>
    if 0 <=? rollbackHeight f then orFatal (performRollback rollbackFuel (rollbackHeight f)) (fun _ => sret exitCodeOK)
    else
      orFatal (if decide (internalBinding f = EmptyString) then sret tt else slift NewInternalServer) (fun _ =>
      orFatal (if decide (publicBinding f = EmptyString) then sret tt else slift NewPublicServer) (fun _ =>
      with_worker (blockFrom f) (serve f ticks))))).

(** The exit code and what is in the file of the database afterwards, if it was opened: the
    deferred [Close] stores the state.  After a panic the file is taken as it is then, for
    a panic in one of the loops ends the process at once. *)
Definition mainWithExitCode (f : flags) (ticks : list tick) (fees : bool * BaseMempool * (Z -> nat -> bool))
    (rollbackFuel : nat) : go Z * option store :=
  if repair f then (match RepairRocksDB with Ret _ => Ret exitCodeOK | Fail _ => Ret exitCodeFatal | Panic => Panic end, None)
  else if decide (blockchain f = EmptyString) then (Ret exitCodeFatal, None)
  else
    match (let* names := GetCoinNameFromConfig (blockchain f) in
           let* _ := GetMetrics names.1.1 in
           let* _ := getBlockChainWithRetry 120 in
           let* s := openDB in
           let* d := NewRocksDB s true in Ret (names, d)) with
    | Fail _ => (Ret exitCodeFatal, None)
    | Panic => (Panic, None)
    | Ret (names, d) =>
        let '(d, r) := runWith f names ticks fees rollbackFuel d in
        (r, match r with Ret _ => db (closeState now d).1 | _ => db d end)
    end.
End main.

(** * Facts *)

Section facts.
Context `{SL : StoreLaws} `{P : BlockChainParser} `{V : Vlq} `{SC : ScriptLib} `{JL : StateJsonLaws}
  `{R : BlockChain} `{E : EthLib} `{C : ApiChain} `{MW : !MainWorld}.
Context (now : Z) (interrupt : nat -> bool) (stop : Z -> bool) (fuel blocks : nat).
Hypothesis Hrel : reliable.
Hypothesis Hpacks : forall hash height b, GetBlock hash height = Ret b -> packs b.

Lemma orFatal_ends {S A} (I K : S -> Prop) (m : sgo S A) k : ends I K m (fun _ => True) -> (forall a, ends I K (k a) (fun _ => True)) ->
  ends I K (orFatal m k) (fun _ => True).
Proof.
  intros Hm Hk s Hs. split; [|done]. unfold orFatal. destruct (Hm s Hs) as [H _]. destruct (m s) as [s' [a| |]]; [|done..]. by apply Hk.
Qed.

Lemma orInterrupted_ends {S A} (I K : S -> Prop) (m : sgo S A) k : ends I K m (fun _ => True) -> (forall a, ends I K (k a) (fun _ => True)) ->
  ends I K (orInterrupted m k) (fun _ => True).
Proof.
  intros Hm Hk s Hs. split; [|done]. unfold orInterrupted. destruct (Hm s Hs) as [H _].
  destruct (m s) as [s' [a| |]]; [|done..]. by apply Hk.
Qed.

Abbreviation opened := (inState DbStateOpen).

Lemma with_mode_keeps f : (forall i, DbState (f i) = DbState i) -> keeps opened (with_is (fun i => Ret (f i))).
Proof. intros Hf. apply state_with_is_keeps. by intros i i' [= <-]. Qed.

Lemma ComputeStats_keeps : keeps opened (ComputeInternalStateColumnStats now stop).
Proof.
  unfold ComputeInternalStateColumnStats. keeps_step; [keeps_step|]. rename a into names. generalize 0%nat.
  induction (length names) as [|n IH]; intros c; [by apply holds_ret|]. keeps_step. keeps_step; [keeps_step|].
  keeps_step; [|apply IH]. apply state_with_is_keeps. intros i i'. unfold SetDBColumnStats, alterColumn.
  destruct (go_index _ _); [|done..]. by intros [= <-].
Qed.

(** What a method of the running program does to the state of the database. *)
Abbreviation goes f m := (ends worker_synced (worker_left (dryRun f) interrupt now) m (fun _ => True)).

Lemma doTick_goes f t : goes f (doTick now interrupt stop fuel blocks f t).
Proof.
  assert (forall initialSync, goes f (ResyncIndex (syncWorkers f) (syncChunk f) (dryRun f) interrupt now fuel blocks initialSync)) as Hr
    by (by apply ResyncIndex_goes).
  destruct t as [|n|compute]; cbn [doTick].
  - intros w Hw. split; [|done]. unfold syncIndex. destruct (Hr false w Hw) as [H _].
    destruct (ResyncIndex _ _ _ _ _ _ _ _ w) as [w1 [u|e|]]; [done| |done]. by apply ends_logged.
  - apply goes_keeps. unfold syncMempool. keeps_step; [by apply on_db_holds, with_mode_keeps|].
    destruct (mempool_Resync n); [by apply on_db_holds, with_mode_keeps|keeps_step..].
  - apply goes_keeps. unfold storeInternalState. keeps_step.
    + destruct compute; keeps_step. apply on_db_holds, ComputeStats_keeps.
    + keeps_step. by apply on_db_holds, StoreInternalState_keeps.
Qed.

Lemma serve_goes f ticks : goes f (serve now interrupt stop fuel blocks f ticks).
Proof.
  unfold serve. set (loops := do! sfor _ ticks in _).
  assert (goes f loops) as Hl.
  { subst loops. apply (ends_bind _ _ _ _ (fun _ => True)); [|intros _ _; apply goes_keeps; keeps_step].
    apply ends_sfor; [by apply worker_synced_left|]. apply doTick_goes. }
  clearbody loops. set (rest := if 0 <=? blockFrom f then _ else _).
  assert (goes f rest) as Hr.
  { subst rest. case_match; [|done]. case_match; [done|]. apply orInterrupted_ends; [|done].
    by apply ConnectBlocksParallel_goes. }
  clearbody rest. destruct (synchronize f); [|done]. unfold initialSynchronization.
  apply goes_then; [by apply on_db_holds, with_mode_keeps|]. intros _. apply orInterrupted_ends; [by apply ResyncIndex_goes|].
  intros _. apply orFatal_ends; [apply goes_keeps; keeps_step|]. intros _. apply orFatal_ends; [apply goes_keeps; keeps_step|].
  intros count. apply goes_then; [by apply on_db_holds, with_mode_keeps|]. intros _.
  apply goes_then; [by apply on_db_holds, with_mode_keeps|]. done.
Qed.

Lemma performRollback_keeps n h : keeps opened (performRollback n h).
Proof.
  unfold performRollback. keeps_step. keeps_step; [keeps_step|]. case_match. case_match; [keeps_step|].
  keeps_step; [keeps_step|]. by apply DisconnectBlocks_keeps.
Qed.

Lemma with_worker_ends {A} f h (m : sgo SyncWorker A) : goes f m ->
  ends opened (db_left (dryRun f) interrupt now) (with_worker h m) (fun _ => True).
Proof.
  intros Hm d Hd. split; [|done]. unfold with_worker. destruct (Hm (NewSyncWorker d h) Hd) as [H _].
  by destruct (m (NewSyncWorker d h)) as [w [a|e|]].
Qed.

(** What [Close] leaves in the store of an open database. *)
Lemma closeState_opened d names : cfNames = Ret names -> opened d ->
  exists s i, db (closeState now d).1 = Some s /\ storedState s = Some i /\ DbState i = DbStateClosed.
Proof.
  intros Hn (i & s & i' & Hi & Hs & Hst & He & Ho). unfold closeState. rewrite (sbind_eq _ _ d d d), Hi by done.
  rewrite Ho, Z.eqb_refl. set (d1 := set_istate _ d). rewrite (sbind_eq _ _ d d1 tt) by done.
  destruct (StoreInternalState_run Hrel now d1 (set_DbState DbStateClosed i) s names Hn eq_refl Hs) as (s' & -> & Hs').
  by exists s', (set_LastStore now (set_DbState DbStateClosed i)).
Qed.
End facts.

(** * Properties *)


(** The daemon is asked until it answers: the first answer within the given number of further
    attempts is taken if no signal comes while the program waits, and nothing else makes
    the call succeed. *)
Theorem getBlockChainWithRetry_first {DB : Store} {MW : MainWorld} seconds :
  getBlockChainWithRetry seconds = Ret tt <->
  exists k, (k <= seconds)%nat /\ NewBlockChain k = Ret tt /\
    forall j, (j < k)%nat -> signalled j = false /\ exists e, NewBlockChain j = Fail e.
Proof.
  unfold getBlockChainWithRetry. cut (forall i, getBlockChain_from seconds i = Ret tt <->
    exists k, (k <= seconds)%nat /\ NewBlockChain (i + k) = Ret tt /\
      forall j, (j < k)%nat -> signalled (i + j) = false /\ exists e, NewBlockChain (i + j) = Fail e).
  { intros H. exact (H 0%nat). }
  induction seconds as [|seconds IH]; intros i; cbn [getBlockChain_from].
  - destruct (NewBlockChain i) as [[]|e|] eqn:Ei; split; try done.
    + intros _. exists 0%nat. rewrite Nat.add_0_r. split_and!; [lia|done|lia].
    + intros ([|k] & Hk & E & _); [|lia]. rewrite Nat.add_0_r in E. congruence.
    + intros ([|k] & Hk & E & _); [|lia]. rewrite Nat.add_0_r in E. congruence.
  - destruct (NewBlockChain i) as [[]|e|] eqn:Ei.
    + split; [|done]. intros _. exists 0%nat. rewrite Nat.add_0_r. split_and!; [lia|done|lia].
    + destruct (signalled i) eqn:Es.
      * split; [done|]. intros ([|k] & Hk & Ek & Hj); [rewrite Nat.add_0_r in Ek; congruence|].
        destruct (Hj 0%nat ltac:(lia)) as [Hs _]. rewrite Nat.add_0_r in Hs. congruence.
      * rewrite IH. split.
        -- intros (k & Hk & Ek & Hj). exists (S k). rewrite Nat.add_succ_r. split_and!; [lia|done|].
           intros [|j] Hlt; [rewrite Nat.add_0_r; eauto|]. rewrite Nat.add_succ_r. apply Hj. lia.
        -- intros ([|k] & Hk & Ek & Hj); [rewrite Nat.add_0_r in Ek; congruence|]. exists k. rewrite Nat.add_succ_r in Ek.
           split_and!; [lia|done|]. intros j Hlt. specialize (Hj (S j) ltac:(lia)). by rewrite Nat.add_succ_r in Hj.
    + split; [done|]. intros ([|k] & Hk & Ek & Hj); [rewrite Nat.add_0_r in Ek; congruence|].
      destruct (Hj 0%nat ltac:(lia)) as [_ [e He]]. rewrite Nat.add_0_r in He. congruence.
Qed.

(** ** The loops *)

(** Events of a loop that is not late: the timer is served when it fires, requests come
    before it, and the next event comes after the action is done.  The first argument is
    the time. *)
Inductive punctual (tick debounce : Z) : Z -> loopState -> list loopEvent -> loopState -> Prop :=
  | pu_done c l : punctual tick debounce c l [] l
  | pu_input c l t evs l' : l_exited l = false -> c <= t <= l_timer l ->
      punctual tick debounce t (tickAndDebounce tick debounce l (LInput t)) evs l' ->
      punctual tick debounce c l (LInput t :: evs) l'
  | pu_timer c l inShutdown busy evs l' : l_exited l = false -> c <= l_timer l -> 0 <= busy ->
      punctual tick debounce (l_timer l + busy) (tickAndDebounce tick debounce l (LTimer (l_timer l) inShutdown busy)) evs l' ->
      punctual tick debounce c l (LTimer (l_timer l) inShutdown busy :: evs) l'
  | pu_closed c l t : l_exited l = false -> c <= t <= l_timer l ->
      punctual tick debounce c l [LClosed t] (tickAndDebounce tick debounce l (LClosed t)).

(** [e] is the time the last action ended (or the loop was started). *)
Record loop_ok (tick debounce c : Z) (l : loopState) : Prop := {
  lo_first : exists e, e <= c /\ (forall r, head (l_runs l) = Some r -> r <= e) /\ e + Z.min tick debounce <= l_timer l /\
    match firstDebounce l with
    | None => True
    | Some t0 => e <= t0 <= c /\ l_timer l <= t0 + 2 * debounce
    end;
  lo_gaps : Sorted (fun later earlier => earlier + Z.min tick debounce <= later) (l_runs l);
}.

Section loop.
Context (tick debounce : Z).
Hypothesis Htick : 0 <= tick.
Hypothesis Hdebounce : 0 <= debounce.

Lemma input_ok c l t : loop_ok tick debounce c l -> c <= t <= l_timer l ->
  loop_ok tick debounce t (tickAndDebounce tick debounce l (LInput t)).
Proof.
  intros [(e & He & Hr & Ht & Hf) Hg] Hc. split; [|done]. exists e. cbn. split; [lia|]. split; [done|].
  destruct (firstDebounce l) as [t0|]; cbn; destruct (Z.ltb_spec t (default t (Some t) + debounce));
    destruct (Z.ltb_spec t (default t (firstDebounce l) + debounce)); cbn in *; repeat case_match; lia.
Qed.

Lemma timer_ok c l inShutdown busy : loop_ok tick debounce c l -> c <= l_timer l -> 0 <= busy ->
  loop_ok tick debounce (l_timer l + busy) (tickAndDebounce tick debounce l (LTimer (l_timer l) inShutdown busy)).
Proof.
  intros [(e & He & Hr & Ht & Hf) Hg] Hc Hb. split; cbn.
  - exists (l_timer l + busy). split; [lia|]. split; [|split; [lia|done]].
    intros r. destruct inShutdown; cbn; [intros H; specialize (Hr r H); lia|intros [= <-]; lia].
  - destruct inShutdown; [done|]. constructor; [done|]. destruct (l_runs l) as [|r rs]; [constructor|].
    constructor. specialize (Hr r eq_refl). lia.
Qed.

Lemma punctual_ok c l evs l' : punctual tick debounce c l evs l' -> loop_ok tick debounce c l ->
  exists c', loop_ok tick debounce c' l'.
Proof.
  induction 1 as [c l|c l t evs l' _ Hc _ IH|c l inS busy evs l' _ Hc Hb _ IH|c l t _ Hc]; intros Hok.
  - by exists c.
  - apply IH. by eapply input_ok.
  - apply IH. by eapply timer_ok.
  - exists c. destruct Hok as [H1 H2]. by split.
Qed.

Definition is_timer (e : loopEvent) : Prop := match e with LTimer _ _ _ => True | _ => False end.

(** The first request stays the first until the action is done. *)
Lemma punctual_first c l evs l' t0 : punctual tick debounce c l evs l' -> firstDebounce l = Some t0 ->
  Forall (fun e => ~ is_timer e) evs -> firstDebounce l' = Some t0.
Proof.
  induction 1 as [c l|c l t evs l' _ Hc _ IH|c l inS busy evs l' _ Hc Hb _ IH|c l t _ Hc]; intros Hf Hevs; [done| | |done].
  - apply Forall_cons in Hevs as [_ Hevs]. apply IH; [|done]. cbn. by rewrite Hf.
  - apply Forall_cons in Hevs as [H _]. by destruct H.
Qed.

Lemma punctual_split c l pre e post l' : punctual tick debounce c l (pre ++ e :: post) l' -> loop_ok tick debounce c l ->
  exists c1 l1, loop_ok tick debounce c1 l1 /\ punctual tick debounce c1 l1 (e :: post) l'.
Proof.
  revert c l. induction pre as [|x pre IH]; intros c l Hp Hok; [eauto|]. cbn [app] in Hp. inversion Hp; subst.
  - eapply IH; [done|]. by eapply input_ok.
  - eapply IH; [done|]. by eapply timer_ok.
  - by destruct pre.
Qed.
End loop.

(** C39: The loops serve requests promptly and not too often: after a request the timer is never
    set later than twice the debounce time after it, until the action is done; and two
    actions start at least the smaller of the two periods apart, however many requests
    come. *)
Theorem debounce_bounds tick debounce c evs l :
  0 <= tick -> 0 <= debounce -> punctual tick debounce c (startLoop c tick) evs l ->
  (forall pre t post, evs = pre ++ LInput t :: post -> Forall (fun e => ~ is_timer e) post -> l_timer l <= t + 2 * debounce) /\
  Sorted (fun later earlier => earlier + Z.min tick debounce <= later) (l_runs l).
Proof.
  intros Ht Hd Hp. assert (loop_ok tick debounce c (startLoop c tick)) as H0.
  { split; [|constructor]. exists c. cbn. split_and!; done || lia. }
  split.
  - intros pre t post -> Hpost. destruct (punctual_split tick debounce Ht Hd _ _ _ _ _ _ Hp H0) as (c1 & l1 & Hok & Hp1).
    inversion Hp1 as [|? ? ? ? ? Hex Hc Hp2| |]; subst. pose proof (input_ok tick debounce Ht Hd c1 l1 t Hok Hc) as Hok2.
    pose proof (punctual_first tick debounce _ _ _ _ (default t (firstDebounce l1)) Hp2 eq_refl Hpost) as Hf.
    destruct (punctual_ok tick debounce Ht Hd _ _ _ _ Hp2 Hok2) as [c' [(e & _ & _ & _ & Hl) _]]. rewrite Hf in Hl.
    destruct Hok as [(e1 & _ & _ & _ & Hl1) _]. destruct (firstDebounce l1); cbn in *; lia.
  - destruct (punctual_ok tick debounce Ht Hd _ _ _ _ Hp H0) as [c' [_ Hg]]. exact Hg.
Qed.

(** ** Rollback *)

Section rollback.
Context `{DB : Store} `{P : BlockChainParser} `{V : Vlq} `{SC : ScriptLib}.

Lemma rollbackHashes_run n d rollback height hashes :
  0 < rollback -> in_u32 height -> (Z.to_nat (height - rollback + 1) < n)%nat ->
  (forall h, rollback <= h <= height -> exists x, GetBlockHash d h = Ret x) ->
  exists hs, rollbackHashes n d height rollback hashes = Ret (hashes ++ hs) /\ length hs = Z.to_nat (height - rollback + 1).
Proof.
  intros Hr. revert height hashes. induction n as [|n IH]; intros height hashes Hh Hn Hg; [lia|]. cbn [rollbackHashes].
  destruct (Z.leb_spec rollback height) as [Hle|Hgt].
  - destruct (Hg height ltac:(lia)) as [x ->]. gostep. unfold in_u32 in Hh.
    rewrite u32_id by (unfold in_u32; lia).
    destruct (IH (height - 1) (hashes ++ [x])) as (hs & -> & Hl); [unfold in_u32; lia|lia|intros; apply Hg; lia|].
    exists (x :: hs). rewrite <- app_assoc. split; [done|]. cbn [length]. lia.
  - exists []. rewrite app_nil_r. split; [done|]. cbn. lia.
Qed.

Lemma rollbackHashes_zero n d height hashes : (forall h, exists x, GetBlockHash d h = Ret x) ->
  rollbackHashes n d height 0 hashes = Panic \/ height < 0.
Proof.
  intros Hg. destruct (Z.ltb_spec height 0) as [|Hh]; [by right|left]. revert height hashes Hh.
  induction n as [|n IH]; intros height hashes Hh; [done|]. cbn [rollbackHashes]. destruct (Z.leb_spec 0 height); [|lia].
  destruct (Hg height) as [x ->]. gostep. apply IH. apply u32_range.
Qed.
End rollback.

(** A rollback to a height above the best block does nothing, and one to a positive height
    disconnects the blocks from there to the best one.  A rollback to height 0 never comes
    to an end: the height wraps around below zero, and the condition of the loop holds for
    every unsigned height. *)
Theorem performRollback_exact `{DB : Store} `{P : BlockChainParser} `{V : Vlq} `{SC : ScriptLib} (d : RocksDB) best hash rollback n :
  GetBestBlock d = Ret (best, hash) -> in_u32 best -> in_u32 rollback ->
  (forall h, exists x, GetBlockHash d h = Ret x) -> (Z.to_nat best < n)%nat ->
  performRollback n rollback d =
  if best <? rollback then (d, Ret tt)
  else if rollback =? 0 then (d, Panic) else DisconnectBlocks rollback best d.
Proof.
  intros Hb Hbest Hr Hg Hn. unfold performRollback. rewrite (sbind_eq _ _ d d d) by done.
  rewrite (sbind_eq _ _ d d (best, hash)) by (unfold slift; by rewrite Hb). rewrite (u32_id rollback) by done.
  destruct (Z.ltb_spec best rollback) as [|Hle]; [done|]. unfold in_u32 in *. destruct (Z.eqb_spec rollback 0) as [-> |Hne].
  - unfold sbind at 1, slift. destruct (rollbackHashes_zero n d (u32 (best - 1)) [hash] Hg) as [-> |Hneg]; [done|].
    pose proof (u32_range (best - 1)) as H. unfold in_u32 in H. lia.
  - rewrite u32_id by (unfold in_u32; lia).
    destruct (rollbackHashes_run n d rollback (best - 1) [hash]) as (hs & E & _); [lia|unfold in_u32; lia|lia|auto|].
    rewrite (sbind_eq _ _ d d ([hash] ++ hs)) by (unfold slift; by rewrite E). done.
Qed.

(** C38: The program started to roll back the block that was connected last to its height restores the
    index: every transaction, every balance and the columns of heights and addresses read as
    before the block.  As for [disconnect_restores] the store works without errors, the database was
    reached by connecting blocks, the block was connectable, has transactions and a new height
    above 0, is the best block of the database, and is undoable: every known output it spends has a
    descriptor, inputs of unknown transactions have no indexed address, and its own outputs
    are spent only by later transactions of it and from addresses without an index of utxos.  Where this fails the rollback need not restore the index
    ([Disconnect_keeps_phantom_utxo], [sorted_block_phantom], [empty_descriptor_stays_spent]). *)
Theorem rollback_restores `{SL : StoreLaws} `{PL : ParserLaws} `{VL : VlqLaws} `{SCL : ScriptLaws}
    (d d1 : RocksDB) bs now block ids hash n :
  reliable -> GetChainType = ChainBitcoinType -> chain d bs -> connectable d block ids ->
  ConnectBlock now block d = (d1, Ret tt) -> undoable_block d d1 block ids ->
  Block.Txs block <> [] -> 0 < Block.Height block -> in_u32 (Block.Height block) -> fresh_height d (Block.Height block) ->
  GetBestBlock d1 = Ret (Block.Height block, hash) -> (1 < n)%nat ->
  exists d2, performRollback n (Block.Height block) d1 = (d2, Ret tt) /\ same_data d d2.
Proof.
  intros Hrel Hct Hch Hcn Hrun Hu Hne Hh Hu32 Hfr Hbest Hn.
  destruct (connect_disconnect d d1 bs now block ids) as (d2 & E & Hd2); [done..|lia|done|].
  exists d2. split; [|done]. unfold performRollback. rewrite (sbind_eq _ _ d1 d1 d1) by done.
  rewrite (sbind_eq _ _ d1 d1 (Block.Height block, hash)) by (unfold slift; by rewrite Hbest).
  rewrite u32_id, Z.ltb_irrefl by done.
  destruct (rollbackHashes_run n d1 (Block.Height block) (u32 (Block.Height block - 1)) [hash]) as (hs & Ehs & _);
    [done|apply u32_range|..]; unfold in_u32 in Hu32; rewrite ?u32_id by (unfold in_u32; lia).
  - lia.
  - intros h Hlt. lia.
  - rewrite u32_id in Ehs by (unfold in_u32; lia).
    rewrite (sbind_eq _ _ d1 d1 ([hash] ++ hs)) by (unfold slift; by rewrite Ehs). unfold DisconnectBlocks. by rewrite Hct.
Qed.

(** ** Notifications during the shutdown *)

(** A goroutine that brings a notification of a block, the loop that receives it, and the main
    program.  [HSending]: [pushSynchronizationHandler] saw no shutdown and is blocked in
    the send; [LBusy]: the loop does its action. *)
Inductive handlerState := HIdle | HSending | HPanic.
Inductive loopPhase := LWaiting | LBusy | LExited.

Record process := mkProcess { p_inShutdown : bool; p_closed : bool; p_handler : handlerState; p_loop : loopPhase }.

(** [chain.Shutdown] waits for the message queue for a limited time ([waited]) or, for an
    Ethereum chain, not at all, before the channels are closed. *)
Inductive process_step : process -> process -> Prop :=
  | ps_notify sd cl l : pushSynchronizationHandler sd NotificationNewBlock = Some chanSyncIndex ->
      process_step (mkProcess sd cl HIdle l) (mkProcess sd cl HSending l)
  | ps_receive sd : process_step (mkProcess sd false HSending LWaiting) (mkProcess sd false HIdle LWaiting)
  | ps_action sd cl h : process_step (mkProcess sd cl h LWaiting) (mkProcess sd cl h LBusy)
  | ps_actionDone sd cl h : process_step (mkProcess sd cl h LBusy) (mkProcess sd cl h LWaiting)
  | ps_signal cl h l : process_step (mkProcess false cl h l) (mkProcess true cl h l)
  | ps_close h l : process_step (mkProcess true false h l) (mkProcess true true h l)
  | ps_loopExit h : process_step (mkProcess true true h LWaiting) (mkProcess true true h LExited)
  | ps_sendClosed l : process_step (mkProcess true true HSending l) (mkProcess true true HPanic l).

(** The shutdown waits for the goroutine that sends before it closes the channel. *)
Definition close_waits (p q : process) : Prop :=
  process_step p q /\ (p_closed p = false -> p_closed q = true -> p_handler p <> HSending).

Definition started : process := mkProcess false false HIdle LWaiting.

(** A notification that is being sent when the channel is closed ends the process: it is
    blocked while the loop is busy, and sending on a closed channel panics.  It could not if
    the shutdown waited for the goroutine. *)
Theorem shutdown_panics :
  (exists p, rtc process_step started p /\ p_handler p = HPanic) /\
  (forall p, rtc close_waits started p -> p_handler p <> HPanic).
Proof.
  split.
  - exists (mkProcess true true HPanic LBusy). split; [|done].
    eapply rtc_l; [apply ps_action|]. eapply rtc_l; [by apply ps_notify|]. eapply rtc_l; [apply ps_signal|].
    eapply rtc_l; [apply ps_close|]. eapply rtc_l; [apply ps_sendClosed|]. apply rtc_refl.
  - cut (forall p q, rtc close_waits p q -> (p_closed p = true -> p_inShutdown p = true /\ p_handler p = HIdle) ->
      p_handler p <> HPanic -> p_handler q <> HPanic).
    { intros H p Hp. by eapply H. }
    induction 1 as [p|p q r [Hs Hw] _ IH]; intros Hc Hh; [done|]. apply IH.
    + destruct Hs as [sd cl l Hn|sd|sd cl h|sd cl h|cl h l|h l|h|l]; cbn in *; intros Hcl.
      * destruct (Hc Hcl) as [-> _]. discriminate.
      * discriminate.
      * by apply Hc.
      * by apply Hc.
      * destruct (Hc Hcl). discriminate.
      * split; [done|]. destruct h; [done|by destruct Hw|by destruct Hh].
      * by apply Hc.
      * destruct (Hc eq_refl). discriminate.
    + destruct Hs; cbn in *; try discriminate; try assumption. destruct (Hc eq_refl). discriminate.
Qed.

(** * Concrete runs *)

#[global] Instance no_api : ApiChain := {|
  GetTransactionSpecific _ := Fail (ErrMsg "not found");
  json_UnmarshalTx _ := mint;
  chain_GetBlockInfo _ := Fail (ErrMsg "not found");
  EthereumTypeGetBalance _ := Ret None;
  EthereumTypeGetNonce _ := Ret 0;
  EthereumTypeGetErc20ContractInfo _ := Ret None;
  EthereumTypeGetErc20ContractBalance _ _ := Ret None;
|}.

(** A new database and a daemon that answers at the second attempt. *)
#[global] Instance small_world : MainWorld (DB := mem_store) := {|
  RepairRocksDB := Ret tt;
  GetCoinNameFromConfig _ := Ret ("Bitcoin"%string, "BTC"%string, EmptyString);
  GetMetrics _ := Ret tt;
  NewBlockChain n := match n with O => Fail (ErrMsg "refused") | _ => Ret tt end;
  signalled _ := false;
  openDB := Ret ∅;
  Hostname := Ret "host"%string;
  NewInternalServer := Ret tt;
  NewPublicServer := Ret tt;
  InitializeMempool := Ret tt;
  mempool_Resync _ := Ret 3;
|}.

Lemma one_block_packs hash height b : @GetBlock one_block hash height = Ret b -> packs (P := plain_parser) b.
Proof. cbn. destruct (decide _); [|done]. intros [= <-]. by eexists. Qed.

(** The blocks from one height to another are imported. *)
Definition import_flags (from until : Z) : flags :=
  mkFlags false "config.json" false false (-1) from until false EmptyString ":9130" false 1 100.

Definition import_main (from until : Z) : go Z * option kv :=
  mainWithExitCode (P := plain_parser) (V := leb) (J := code_json) (R := one_block) (E := plain_eth_lib) (MW := small_world)
    77 (fun _ => false) (fun _ => false) 5 5 (import_flags from until) [TickMempool 1; TickStore true]
    (true, emptyMempool, fun _ _ => false) 10.

Definition fileState (file : option kv) : option Z :=
  file ≫= fun s => DbState <$> storedState (S0 := mem_store) (J := code_json) s.


Lemma debounce_bounds_witness : l_timer (tickAndDebounce 100 10 (startLoop 0 100) (LInput 50)) <= 50 + 2 * 10.
Proof.
  refine (proj1 (debounce_bounds 100 10 0 [LInput 50] _ ltac:(discriminate) ltac:(discriminate) _) [] 50 [] eq_refl (Forall_nil_2 _)).
  apply pu_input; [reflexivity|cbn; lia|]. apply pu_done.
Defined.

Lemma performRollback_exact_witness :
  performRollback (P := plain_parser) (V := leb) 9 6 (open_db forked) = DisconnectBlocks (P := plain_parser) (V := leb) 6 7 (open_db forked) /\
  performRollback (P := plain_parser) (V := leb) 9 0 (open_db forked) = (open_db forked, Panic).
Proof.
  split.
  - refine (performRollback_exact (P := plain_parser) (V := leb) (open_db forked) 7 (hash_at Byte.x77) 6 9 _ _ _ forked_readable _);
      [vm_compute; reflexivity|split; [discriminate|reflexivity]|split; [discriminate|reflexivity]|cbn; lia].
  - refine (performRollback_exact (P := plain_parser) (V := leb) (open_db forked) 7 (hash_at Byte.x77) 0 9 _ _ _ forked_readable _);
      [vm_compute; reflexivity|split; [discriminate|reflexivity]|split; [discriminate|reflexivity]|cbn; lia].
Defined.

Lemma rollback_restores_witness :
  exists d2, performRollback (P := plain_parser) (V := leb) 2 7 connected7 = (d2, Ret tt) /\
    same_data (P := plain_parser) (V := leb) (open_db ∅) d2.
Proof.
  destruct block7_run as [d1 Ed1]. assert (connected7 = d1) as Ed by (unfold connected7; by rewrite Ed1).
  rewrite Ed. refine (rollback_restores (P := plain_parser) (V := leb) (open_db ∅) d1 [] 77 block7 [id1; id2] (Block.Hash block7) 2
    mem_store_reliable eq_refl _ block7_connectable Ed1 _ _ _ _ _ _ _).
  - exact (chain_new (open_db ∅) ∅ (InternalState.newInternalState "Bitcoin") eq_refl eq_refl eq_refl).
  - rewrite <- Ed. exact block7_undoable.
  - discriminate.
  - reflexivity.
  - split; [discriminate|reflexivity].
  - intros s H. injection H as <-. split; reflexivity.
  - rewrite <- Ed. vm_compute. reflexivity.
  - lia.
Defined.
